(* ===== verification/_CoqProject ===== *)
-Q . S2P
Prelude.v
Format.v
CodeSink.v
Tokenizer.v
CTypeParser.v
TypeRoundtrip.v
CodeBlock.v
Wrapper.v
TypeHandler.v
HandlerOps.v
NumericTypes.v
StringTypes.v
TypeMatcher.v
WrapperBase.v
Utils.v
Overloading.v
PyTypeObject.v
Custodians.v
Settings.v
CppException.v
Converters.v
WrapperRegistry.v
WrapperObject.v
Function.v
FunctionOverload.v
CppMethod.v
ProxyErrors.v
HelperClass.v
MemoryPolicy.v
ClassHandlers.v
ClassOwnership.v
CppAttribute.v
Enum.v
ClassModel.v
ClassMembers.v
ClassOperators.v
ClassAttributes.v
ClassWrappers.v
ClassCode.v
ClassGenerate.v
Iteration.v
ClassContainers.v
ContainerHandlers.v
ModuleBase.v
ModuleGen.v
Containers.v
Annotations.v
Pygen.v
GccXml.v
PygenTrace.v
GccXmlFrame.v
GccXmlDemo.v
GccXmlFunctions.v
GccXmlMethods.v
GccXmlTypes.v
GccXmlParser.v
