(* ===== verification/Prelude.v ===== *)
(** * PyBindGen, verified: the binding generator of Memcache-Router

    Memcache-Router is a C++ memcache proxy with a Python client.  The Python
    code of the repository is [src/pybindgen], the generator that
    [src/modulegen.py] runs to produce the C extension around [src/cmrclient.h].
    This library models that generator, from the tokens of a type string to the text
    of a whole extension module, and proves what makes the generated wrappers right.

    ** The program

    A module ([module.py]) holds functions, classes, containers, enumerations and
    exceptions, and generates them in order.  A wrapper of a function or method is
    generated in these steps.  Type strings such as [const std::string &] are
    tokenized ([typehandlers/ctypeparser/tokenizer.py]), parsed and normalised
    ([typehandlers/ctypeparser/__init__.py]) and looked up in a registry of handler
    classes ([TypeMatcher], [typehandlers/base.py]); the handlers (the modules named
    after a type in [typehandlers], and those that classes, enumerations and
    containers register for themselves) write C code into the code blocks,
    declaration scopes and parameter lists of the wrapper ([base.py]), whose sinks
    ([codesink.py]) are finally flushed to the target; overloads of one name are
    aggregated ([overloading.py]).  A class ([cppclass.py]) besides owns a helper
    class for virtual methods, a registry of its wrapper objects, the slots of its
    type object ([pytypeobject.py]), attributes, operators and, if it is a
    container, an iterator.

    Modules are declared by hand, or by the header parser ([gccxmlparser.py]), which
    goes through what the package [pygccxml] found in header files, reads the
    annotations in their comments, declares everything to a module in memory and
    writes a Python script that makes the same declarations.

    ** The files

    Foundations:
    - [Prelude]: Python exceptions and results ([res]), stateful computations
      that keep their effects when they raise ([ST]), the frame predicate
      [evolves] with its hints, and the string functions of the code.
    - [Format]: the percent operator with a dictionary, and string methods.
    - [CodeSink]: [codesink.py].  One record for the three sink classes.
    - [Settings]: [settings.py], and the names built from the settings.
    - [Utils]: mangling, error handling and delayed specifications of [utils.py].

    Types:
    - [Tokenizer]: [tokenizer.py], with every branch of [GetTokens].
    - [CTypeParser]: [ctypeparser/__init__.py]; [show] is [CType.__str__].
    - [TypeRoundtrip]: no code of its own; the proof that [show] and the
      tokenizer and parser are inverse, over an inductive grammar of types.

    Wrappers and handlers:
    - [CodeBlock]: [CodeBlock], [CleanupHandle], [DeclarationsScope] and
      [join_ctype_and_name] of [base.py], over a heap of objects, because
      blocks, handles and scopes are shared and reached by reference.
    - [Wrapper]: [ParseTupleParameters], [BuildValueParameters] and the state
      ([world]) handlers and generators work on.
    - [TypeHandler]: the constructors of [TypeHandler], [Parameter],
      [ReturnValue] and their pointer variants, and the interface: the classes
      [ParamContract] and [ReturnContract] state what a handler promises.
    - [HandlerOps]: what handler methods share, and the tactics that discharge
      the contracts.
    - [NumericTypes], [StringTypes]: a record per handler class of
      [inttype.py], [booltype.py], [doubletype.py], [floattype.py],
      [stringtype.py], [voidtype.py] and [pyobjecttype.py], with an instance of
      its contract.
    - [TypeMatcher]: [TypeMatcher], transformations, [Parameter.new],
      [ReturnValue.new], and the two registries as the imports build them.
    - [WrapperBase]: [ForwardWrapperBase] and [ReverseWrapperBase].  What
      subclasses supply (the call, the hooks, class attributes) is a field;
      the classes [ForwardFrame] and [ReverseFrame] state what is asked of it.
    - [Overloading]: [vector_counter] and [OverloadedWrapper] of
      [overloading.py], against the interface [WrapperOps].
    - [PyTypeObject]: the three tables of [pytypeobject.py].
    - [Custodians]: custodians and wards, at the end of [cppclass_typehandlers.py].
    - [CppException]: [cppexception.py].
    - [Converters]: [converter_functions.py], on a handler as a value
      ([value_type]) with the contract [ValueContract].
    - [WrapperRegistry]: [wrapper_registry.py], the class hierarchy as a sum type.
    - [WrapperObject]: a wrapper with its state, its dry run and its declaration.
    - [Function], [FunctionOverload]: [function.py], and functions as overloads.
    - [CppMethod]: [cppmethod.py]: methods, constructors, virtual method proxies,
      parent callers, custom wrappers.
    - [ProxyErrors]: no code of its own; the error exit of virtual method proxies.

    Classes:
    - [HelperClass]: [CppHelperClass] of [cppclass.py].
    - [MemoryPolicy]: the memory policies of [cppclass.py].
    - [ClassHandlers], [ClassOwnership]: [cppclass_typehandlers.py]; the second
      compares the code that shares objects with a language of ownership.
    - [CppAttribute]: [cppattribute.py], with the table of getters and setters.
    - [Enum]: [enum.py].
    - [ClassModel]: classes as a list of records that refer to each other by
      number: construction, names, bases, registration, narrowing, pure virtual
      methods, memory policies and registries.
    - [ClassMembers], [ClassOperators], [ClassAttributes], [ClassWrappers]: adding
      methods, constructors, operators and attributes, and their generation.
    - [ClassCode]: what a class writes about itself, against the interface
      [ModuleOps] that states what it asks of its module.
    - [ClassGenerate]: [generate_forward_declarations] and [generate].
    - [Iteration]: the iterator type that containers and classes share.
    - [ClassContainers]: [cppclass_container.py], the container traits of a class.

    Modules:
    - [ContainerHandlers]: the handlers of [container.py].
    - [ModuleBase]: the tree of modules of [module.py] and registration in it,
      against the interface [TypeOps] of classes and containers.
    - [ModuleGen]: the generation of a tree of modules, and type converters.
    - [Containers]: [Container] of [container.py].

    The header parser ([gccxmlparser.py]):
    - [Annotations]: the [AnnotationsScanner], with its regular expressions.
    - [Pygen]: the pieces of scripts, specifications of types, sections and the sink
      of a declaration.
    - [GccXml]: the interfaces [Gccxml] of the package [pygccxml] and [WrapOps] of the
      module in memory, the state and the configuration of a [ModuleParser], and what
      its scans share.  Sinks are known by numbers; [sink_rank] stands for their
      addresses, which Python compares when two sections have the same precedence.
    - [PygenTrace], [GccXmlFrame]: no code of their own; scripts as sequences of
      operations on the sinks, and the frame all scans share.
    - [GccXmlDemo]: a table of declarations and a small module, for the examples.
    - [GccXmlFunctions], [GccXmlMethods], [GccXmlTypes]: [scan_functions],
      [scan_methods] and [scan_types] with everything they call.
    - [GccXmlParser]: [parse_init], [parse_finalize] and [parse].


    ** What the theorems show

    - Sinks: memory and file sinks append the same text; flushing moves every
      line; bracketed indentation is restored.
    - Tokens and types: the tokens of a plain source are its lexemes, in order;
      reordering modifiers computes a canonical permutation and is idempotent;
      parsing a printed type gives its normal form at every nesting level, and
      normal forms are fixed points; removing modifiers removes exactly those;
      type traits of values and pointers are as documented.
    - Blocks and scopes: cleanup code runs in reverse order of registration,
      through predecessors; cancelling removes exactly one action; error checks
      write balanced code; names are distinct for bases without a final digit.
    - Handlers: whatever [Parameter.new] makes adds exactly the argument and the
      parsed and built items its direction asks for, and rewires nothing; so do the
      handlers of classes and containers, by their tables of items.
    - Registry: alias search always ends; registration and lookup agree; the
      built-in registries are free of clashes and complete; classes, enumerations
      and containers never take a type from another.
    - Generators: generation is all or nothing, declarations come first, a
      reset restores the state after construction, and the dry run for the
      method flags tells what the real run does, so that a declared function is
      generated as declared.
    - Overloading: combinations are the cartesian product; remaining overloads
      agree on their flags; the delegates are called as they are defined.
    - Ownership: the code that returns a shared object balances references on
      every path; passing a pointer to Python is compared with the same language,
      with the leak that shows; every list of wards that is fetched is released; custodian numbers denote the
      objects they should.
    - Classes: every sequence of operations keeps the hierarchy well formed; the
      method resolution order ends and visits the ancestors; the cached answer
      about pure virtual methods is that of the definition, which with several bases
      takes a base beside for an implementation; registries are shared
      below a root; members stay where their visibility puts them; the members of a
      helper class are distinct and declared as a whole or not at all; slots of the
      user are kept and the type object is complete; operators reach their slot.
    - Containers: both type objects are complete and name functions that were
      generated; the converter of a container is declared, taken and defined once.
    - Modules: a package is a tree with distinct prefixes but for the flaw shown;
      generation is a walk over that tree which needs no fuel; every function that
      is not skipped has its entry in the method table; converters are generated at
      the first request and not again.
    - Annotations: comments in the documented form are read as they are written; the
      annotations of a declaration are those of the comments right above it; unused
      ones are exactly those warned about; the search upwards ends.
    - Header parser: the script of a whole run is well bracketed and defines every
      function it calls, in every sink; classes are registered after their bases, by
      a loop that ends; a pure virtual method that is looked at is wrapped or its
      class is disabled.
    Some theorems state flaws of the code as it is: a tokenizer loop that does
    not end, variable names that collide, handles that outlive [clear], an
    alias search that gives up too early, a reference that is never dropped, clashing
    prefixes, hooks that run twice, and pointers to containers that are not found.

    ** Conventions

    Loops of the code that are not structural take fuel and raise [OutOfFuel],
    which no Python code raises.  The scans of the tokenizer have the length of
    the source as fuel, the reordering of modifiers the length of the type; the
    alias search has [lookup_fuel], shown sufficient by [raw_lookup_terminates];
    the overload normalisation one round more than there are wrappers, shown
    sufficient by [normalize_loop_fuel]; [vector_counter] the number of
    combinations; [get_mro] the number of paths up the hierarchy, shown sufficient
    by [mro_ancestors]; searches for a root class the number of classes; the
    recursion over modules their number, shown sufficient by [generation_tour];
    the search for annotations twice the lines of the file, shown sufficient by
    [get_annotations_terminates]; the loop over classes eleven rounds for each, shown
    sufficient by [class_loop_terminates]; the scans of namespaces more than the depth
    of the declarations, shown sufficient by [scan_types_fuel] and
    [scan_functions_fuel].
    Python strings are byte strings ([string]), Python integers are [Z].  Objects
    that are shared live in lists and are referred to by number.  The order of
    dictionaries and sets is a parameter ([DictOrder], [SetOrder]).  Code outside
    the repository appears as a parameter: the methods of a user's
    [TypeTransformation], the error handler of the settings, the hooks of helper
    classes, the functions of the user that create instances, and [pygccxml].  Warnings and
    debug logging are left out, but for the warnings about annotations.

    ** Not modelled

    Of [cppclass.py], functions wrapped as constructors; of [module.py], the methods
    that construct classes and containers and the deprecated forms of arguments.
    Of [gccxmlparser.py], the corrected functions of [pygccxml] at the start, which
    nothing calls, the error handler, which prints, and parsing the headers itself,
    which [pygccxml] does.
    The C++ router, its protocol buffers and the
    benchmark scripts are sockets, threads, timing and generated code. *)

From Stdlib Require Export Ascii String ZArith Lia.
From stdpp Require Export base list strings gmap pretty.

#[global] Arguments String.append : simpl nomatch.

#[global] Open Scope string_scope.
#[global] Open Scope list_scope.
#[global] Open Scope Z_scope.

(** ** Python exceptions and results *)

(** The exceptions the modelled code raises; the payload is kept where the
    code (or a caller's [except] clause) can look at it. *)
Inductive pyexn : Type :=
  | IndexError
  | KeyError
  | AttributeError
  | AssertionError
  | ValueError
  | TypeError
  | RuntimeError
  | NotImplementedError
  | OutOfFuel
  | TypeLookupError (tried : list string)
  | TypeConfigurationError
  | NotSupportedError
  | CodeGenerationError (msg : string)
  | NameError
  | SkipWrapper.

(** A Python call either returns a value or raises. *)
Inductive res (A : Type) : Type :=
  | Ok (a : A)
  | Raise (e : pyexn).
Arguments Ok {A} a.
Arguments Raise {A} e.

Definition res_bind {A B} (m : res A) (k : A -> res B) : res B :=
  match m with Ok a => k a | Raise e => Raise e end.

Definition is_ok {A} (m : res A) : bool :=
  match m with Ok _ => true | Raise _ => false end.

(** ** Stateful computations: the state survives an exception, as the effects
    of a Python method do when it raises half-way. *)
Definition ST (S A : Type) : Type := S -> S * res A.

Section state_monad.
Context {S : Type}.

Definition st_ret {A} (a : A) : ST S A := fun s => (s, Ok a).
Definition st_raise {A} (e : pyexn) : ST S A := fun s => (s, Raise e).
Definition st_bind {A B} (m : ST S A) (k : A -> ST S B) : ST S B :=
  fun s => match m s with
           | (s', Ok a) => k a s'
           | (s', Raise e) => (s', Raise e)
           end.
Definition st_get {A} (f : S -> A) : ST S A := fun s => (s, Ok (f s)).
Definition st_modify (f : S -> S) : ST S unit := fun s => (f s, Ok tt).
Definition st_lift {A} (r : res A) : ST S A := fun s => (s, r).
Definition st_assert (b : bool) : ST S unit :=
  if b then st_ret tt else st_raise AssertionError.
Definition st_when (b : bool) (m : ST S unit) : ST S unit :=
  if b then m else st_ret tt.

(** [for x in l: body(x)] *)
Fixpoint st_iter {A} (body : A -> ST S unit) (l : list A) : ST S unit :=
  match l with
  | [] => st_ret tt
  | x :: l' => st_bind (body x) (fun _ => st_iter body l')
  end.

(** [try: m finally: f]; an exception of [f] replaces that of [m]. *)
Definition st_finally {A} (m : ST S A) (f : ST S unit) : ST S A :=
  fun s => let '(s1, r) := m s in
           match f s1 with
           | (s2, Ok _) => (s2, r)
           | (s2, Raise e) => (s2, Raise e)
           end.

(** [try: m except: h(exc)] *)
Definition st_catch {A} (m : ST S A) (h : pyexn -> ST S A) : ST S A :=
  fun s => match m s with
           | (s1, Ok a) => (s1, Ok a)
           | (s1, Raise e) => h e s1
           end.
End state_monad.

(** Computations on one half of a state. *)
Definition on_fst {S T A} (m : ST S A) : ST (S * T) A :=
  fun st => let '(s, r) := m st.1 in ((s, st.2), r).
Definition on_snd {S T A} (m : ST T A) : ST (S * T) A :=
  fun st => let '(t, r) := m st.2 in ((st.1, t), r).

(** ['%s' % v] of a value that may be [None] *)
Definition str_opt (o : option string) : string := default "None" o.

Declare Scope py_scope.
Delimit Scope py_scope with py.
Notation "x <- m ;; k" := (st_bind m (fun x => k))
  (at level 60, m at next level, right associativity) : py_scope.
Notation "m ;;; k" := (st_bind m (fun _ => k))
  (at level 60, right associativity) : py_scope.
Notation "x <-? m ;; k" := (res_bind m (fun x => k))
  (at level 60, m at next level, right associativity) : py_scope.
#[global] Open Scope py_scope.

(** ** Evolution of the state

    [evolves R m] says that [m] moves the state along the preorder [R]
    whatever it returns or raises.  It is the form in which the components
    promise each other frame conditions. *)
Definition evolves {S A} (R : relation S) (m : ST S A) : Prop :=
  forall s, R s (fst (m s)).

(** [yields P m]: whenever [m] returns [a] in state [s'], [P] holds. *)
Definition yields {S A} (P : S -> A -> S -> Prop) (m : ST S A) : Prop :=
  forall s s' a, m s = (s', Ok a) -> P s a s'.

Create HintDb st discriminated.

Section evolves.
Context {S : Type} (R : relation S) `{!PreOrder R}.

Lemma evolves_ret {A} (a : A) : evolves R (st_ret a).
Proof. intros s. reflexivity. Qed.
Lemma evolves_raise {A} e : evolves R (st_raise (A:=A) e).
Proof. intros s. reflexivity. Qed.
Lemma evolves_lift {A} (r : res A) : evolves R (st_lift r).
Proof. intros s. reflexivity. Qed.
Lemma evolves_get {A} (f : S -> A) : evolves R (st_get f).
Proof. intros s. reflexivity. Qed.
Lemma evolves_bind {A B} (m : ST S A) (k : A -> ST S B) :
  evolves R m -> (forall a, evolves R (k a)) -> evolves R (st_bind m k).
Proof.
  intros Hm Hk s. unfold st_bind. specialize (Hm s).
  destruct (m s) as [s' [a|e]]; simpl in *; [|done].
  transitivity s'; [done | apply Hk].
Qed.
Lemma evolves_assert b : evolves R (st_assert b).
Proof. destruct b; intros s; reflexivity. Qed.
Lemma evolves_when b m : evolves R m -> evolves R (st_when b m).
Proof. intros H. destruct b; [done|]. intros s. reflexivity. Qed.
Lemma evolves_if {A} (b : bool) (m1 m2 : ST S A) :
  evolves R m1 -> evolves R m2 -> evolves R (if b then m1 else m2).
Proof. by destruct b. Qed.
Lemma evolves_iter {A} (body : A -> ST S unit) l :
  (forall x, evolves R (body x)) -> evolves R (st_iter body l).
Proof.
  intros H. induction l as [|x l IH]; simpl.
  - apply evolves_ret.
  - apply evolves_bind; auto.
Qed.
Lemma evolves_iter_in {A} (body : A -> ST S unit) l :
  Forall (fun x => evolves R (body x)) l -> evolves R (st_iter body l).
Proof.
  induction 1 as [|x l Hx H IH]; simpl; [apply evolves_ret | by apply evolves_bind].
Qed.
Lemma evolves_finally {A} (m : ST S A) f :
  evolves R m -> evolves R f -> evolves R (st_finally m f).
Proof.
  intros Hm Hf s. unfold st_finally. specialize (Hm s).
  destruct (m s) as [s1 r]. specialize (Hf s1).
  destruct (f s1) as [s2 [[]|e]]; simpl in *; by transitivity s1.
Qed.
Lemma evolves_catch {A} (m : ST S A) h :
  evolves R m -> (forall e, evolves R (h e)) -> evolves R (st_catch m h).
Proof.
  intros Hm Hh s. unfold st_catch. specialize (Hm s).
  destruct (m s) as [s1 [a|e]]; simpl in *; [done|].
  transitivity s1; [done|]. apply Hh.
Qed.
End evolves.

#[export] Hint Resolve evolves_ret evolves_raise evolves_lift evolves_get
  evolves_bind evolves_assert evolves_when evolves_if evolves_iter
  evolves_finally evolves_catch : st.

Lemma evolves_weaken {S A} (R R' : relation S) (m : ST S A) :
  (forall s s', R s s' -> R' s s') -> evolves R m -> evolves R' m.
Proof. intros H Hm s. apply H, Hm. Qed.

(** Inversion of a successful sequence of calls. *)
Lemma st_bind_Ok {S A B} (m : ST S A) (k : A -> ST S B) s s' b :
  st_bind m k s = (s', Ok b) ->
  exists s1 a, m s = (s1, Ok a) /\ k a s1 = (s', Ok b).
Proof.
  unfold st_bind. destruct (m s) as [s1 [a|e]] eqn:E; [eauto|discriminate].
Qed.

(** Running the first call. *)
Lemma st_bind_run {S A B} (m : ST S A) (k : A -> ST S B) s s1 a :
  m s = (s1, Ok a) -> st_bind m k s = k a s1.
Proof. unfold st_bind. by intros ->. Qed.

Lemma st_iter_app {S A} (body : A -> ST S unit) l1 l2 s :
  st_iter body (l1 ++ l2) s = st_bind (st_iter body l1) (fun _ => st_iter body l2) s.
Proof.
  revert s. induction l1 as [|x l1 IH]; intros s; simpl; [done|].
  unfold st_bind in *. destruct (body x s) as [s1 [a|e]]; [|done]. apply IH.
Qed.

(** ** Sets as lists *)

(** [list(set(...))]: the elements, in an order Python does not specify. *)
Class SetOrder : Type := {
  set_list : gset string -> list string;
  set_list_elements : forall X, set_list X ≡ₚ elements X
}.

#[export] Instance elements_order : SetOrder :=
  {| set_list := elements; set_list_elements := fun X => Permutation_refl (elements X) |}.

(** [d.iteritems()]: the entries of a dictionary, in an order Python does not
    specify. *)
Class DictOrder : Type := {
  dict_items : forall {V : Type}, gmap string V -> list (string * V);
  dict_items_perm : forall {V : Type} (d : gmap string V), dict_items d ≡ₚ map_to_list d
}.

#[export] Instance map_to_list_order : DictOrder :=
  {| dict_items := fun V d => map_to_list d;
     dict_items_perm := fun V d => Permutation_refl (map_to_list d) |}.

(** ** Strings *)

Definition dq : string := String "034"%char EmptyString.
Definition nl : ascii := "010"%char.
Definition nls : string := String nl EmptyString.

(** [s * n] for a string of blanks; a negative count gives the empty string. *)
Fixpoint spaces_nat (n : nat) : string :=
  match n with O => EmptyString | S n' => String " "%char (spaces_nat n') end.
Definition spaces (n : Z) : string := spaces_nat (Z.to_nat n).

(** [sep.join(l)] *)
Fixpoint join (sep : string) (l : list string) : string :=
  match l with
  | [] => EmptyString
  | [x] => x
  | x :: l' => x +:+ sep +:+ join sep l'
  end.

(** [s.split(c)] for a one-character separator: never the empty list. *)
Fixpoint split_on (c : ascii) (s : string) : list string :=
  match s with
  | EmptyString => [EmptyString]
  | String a s' =>
      if Ascii.eqb a c then EmptyString :: split_on c s'
      else match split_on c s' with
           | [] => [String a EmptyString]
           | l :: ls => String a l :: ls
           end
  end.

Fixpoint str_in (c : ascii) (s : string) : bool :=
  match s with
  | EmptyString => false
  | String a s' => Ascii.eqb a c || str_in c s'
  end.

(** [str.isspace] on one byte (C locale). *)
Definition isspace (c : ascii) : bool :=
  let n := N_of_ascii c in ((9 <=? n)%N && (n <=? 13)%N) || (n =? 32)%N.
Definition isdigit (c : ascii) : bool :=
  let n := N_of_ascii c in (48 <=? n)%N && (n <=? 57)%N.
Definition islower (c : ascii) : bool :=
  let n := N_of_ascii c in (97 <=? n)%N && (n <=? 122)%N.
Definition isupper (c : ascii) : bool :=
  let n := N_of_ascii c in (65 <=? n)%N && (n <=? 90)%N.
Definition tolower (c : ascii) : ascii :=
  if isupper c then ascii_of_N (N_of_ascii c + 32) else c.
Definition toupper (c : ascii) : ascii :=
  if islower c then ascii_of_N (N_of_ascii c - 32) else c.

(** [s.rstrip()] *)
Fixpoint rstrip (s : string) : string :=
  match s with
  | EmptyString => EmptyString
  | String a s' =>
      match rstrip s' with
      | EmptyString => if isspace a then EmptyString else String a EmptyString
      | r => String a r
      end
  end.

(** [s[:-1]] *)
Fixpoint drop_last (s : string) : string :=
  match s with
  | EmptyString => EmptyString
  | String _ EmptyString => EmptyString
  | String a s' => String a (drop_last s')
  end.

(** [s[-1]], [None] for the empty string *)
Fixpoint last_char (s : string) : option ascii :=
  match s with
  | EmptyString => None
  | String a EmptyString => Some a
  | String _ s' => last_char s'
  end.

(** ['%i' % z] *)
Definition show_int (z : Z) : string := pretty z.

(** Python truth value of an optional string: [None] and [''] are false. *)
Definition truthy (o : option string) : bool :=
  match o with Some (String _ _) => true | _ => false end.

(** ** Lemmas on strings *)

Lemma app_str_nil_r (s : string) : s +:+ EmptyString = s.
Proof. induction s as [|a s IH]; simpl; [done | by rewrite IH]. Qed.

Lemma app_str_assoc (a b c : string) : a +:+ (b +:+ c) = (a +:+ b) +:+ c.
Proof. induction a as [|x a IH]; simpl; [done | by rewrite IH]. Qed.

Lemma split_on_cons c s : exists l ls, split_on c s = l :: ls.
Proof.
  destruct s as [|a s]; simpl; [eauto|].
  destruct (Ascii.eqb a c); [eauto|]. destruct (split_on c s); eauto.
Qed.

Lemma join_cons sep x l : l <> [] -> join sep (x :: l) = x +:+ sep +:+ join sep l.
Proof. by destruct l. Qed.

(** Splitting at a character and joining with it is the identity. *)
Lemma join_split c s : join (String c EmptyString) (split_on c s) = s.
Proof.
  induction s as [|a s IH]; simpl; [done|].
  destruct (Ascii.eqb_spec a c) as [->|Hne].
  - rewrite join_cons; [by rewrite IH|].
    destruct (split_on_cons c s) as (?&?&->). done.
  - destruct (split_on_cons c s) as (l&ls&E). rewrite E in IH |- *.
    destruct ls as [|y ls]; [by simpl in *; subst|].
    rewrite join_cons by done. rewrite join_cons in IH by done.
    simpl in *. by rewrite IH.
Qed.

Lemma split_on_clean c s : Forall (fun l => str_in c l = false) (split_on c s).
Proof.
  induction s as [|a s IH]; simpl; [by repeat constructor|].
  destruct (Ascii.eqb a c) eqn:E; [by constructor|].
  destruct (split_on_cons c s) as (l&ls&Es). rewrite Es in IH |- *.
  inversion IH; subst. constructor; [|done]. simpl. by rewrite E.
Qed.

Lemma split_on_none c s : str_in c s = false -> split_on c s = [s].
Proof.
  induction s as [|a s IH]; simpl; [done|]. intros [H1 H2]%orb_false_iff.
  by rewrite H1, IH.
Qed.

Lemma split_on_app c s1 s2 :
  split_on c (s1 +:+ String c s2) = split_on c s1 ++ split_on c s2.
Proof.
  induction s1 as [|a s1 IH]; simpl; [by rewrite Ascii.eqb_refl|].
  destruct (Ascii.eqb a c); [by rewrite IH|]. rewrite IH.
  by destruct (split_on_cons c s1) as (l&ls&->).
Qed.

Lemma str_in_app c s1 s2 : str_in c (s1 +:+ s2) = str_in c s1 || str_in c s2.
Proof. induction s1 as [|a s1 IH]; simpl; [done|]. by rewrite IH, orb_assoc. Qed.

Lemma str_in_spaces c n : c <> " "%char -> str_in c (spaces n) = false.
Proof.
  intros H. unfold spaces. induction (Z.to_nat n) as [|m IH]; [done|].
  cbn [spaces_nat str_in]. rewrite IH, orb_false_r. apply Ascii.eqb_neq. congruence.
Qed.

Lemma str_in_rstrip c s : str_in c s = false -> str_in c (rstrip s) = false.
Proof.
  induction s as [|a s IH]; simpl; [done|]. intros [H1 H2]%orb_false_iff.
  specialize (IH H2). destruct (rstrip s); [destruct (isspace a)|]; simpl in *;
    rewrite ?H1; done.
Qed.

(** ** Decimal digits *)

Fixpoint all_chars (p : ascii -> bool) (s : string) : bool :=
  match s with EmptyString => true | String a s' => p a && all_chars p s' end.

(** The text without its trailing digits. *)
Fixpoint strip_digits (s : string) : string :=
  match s with
  | EmptyString => EmptyString
  | String a s' =>
      match strip_digits s' with
      | EmptyString => if isdigit a then EmptyString else String a EmptyString
      | r => String a r
      end
  end.

(** A name that does not end in a digit. *)
Definition digit_free_end (s : string) : Prop := strip_digits s = s.

Lemma strip_digits_app n d :
  digit_free_end n -> all_chars isdigit d = true -> strip_digits (n +:+ d) = n.
Proof.
  unfold digit_free_end. intros Hn Hd.
  assert (strip_digits d = EmptyString) as Hs.
  { induction d as [|a d IH]; simpl in *; [done|]. apply andb_prop in Hd as [-> Hd].
    by rewrite IH. }
  induction n as [|a n IH]; simpl in *; [done|].
  destruct (strip_digits n) as [|b r] eqn:E.
  - destruct (isdigit a) eqn:Ea; [discriminate|]. injection Hn as <-.
    by rewrite IH.
  - injection Hn as Hn. rewrite IH by congruence. rewrite <- Hn. done.
Qed.

Lemma app_str_inv_l (n a b : string) : n +:+ a = n +:+ b -> a = b.
Proof. induction n as [|x n IH]; simpl; [done|]. intros [= H]. auto. Qed.

Lemma pretty_N_char_digit n : (n < 10)%N -> isdigit (pretty_N_char n) = true.
Proof.
  intros _. unfold pretty_N_char. by repeat case_match.
Qed.

Lemma pretty_N_go_digits n s :
  all_chars isdigit s = true -> all_chars isdigit (pretty_N_go n s) = true.
Proof.
  revert s. induction (N.lt_wf_0 n) as [n _ IH]. intros s Hs.
  destruct (decide (n = 0)%N) as [->|Hn]; [by rewrite pretty_N_go_0|].
  rewrite pretty_N_go_step by lia. apply IH.
  - apply N.div_lt; lia.
  - simpl. rewrite pretty_N_char_digit; [done|]. by apply N.mod_lt.
Qed.

Lemma show_int_digits z : 0 <= z -> all_chars isdigit (show_int z) = true.
Proof.
  intros Hz. unfold show_int. destruct z as [|p|p]; [done| |lia].
  change (pretty (Z.pos p)) with (pretty (N.pos p)). unfold pretty, pretty_N.
  by apply pretty_N_go_digits.
Qed.

Lemma show_int_inj z1 z2 : show_int z1 = show_int z2 -> z1 = z2.
Proof. apply (inj pretty). Qed.

Lemma show_int_nonempty z : 0 <= z -> show_int z <> EmptyString.
Proof.
  intros Hz H. assert (show_int z = show_int (z * 10)) as E.
  { destruct (decide (z = 0)) as [->|]; [done|]. exfalso.
    revert H. unfold show_int. destruct z as [|p|p]; [done| |lia].
    change (pretty (Z.pos p)) with (pretty (N.pos p)). unfold pretty, pretty_N.
    simpl. rewrite pretty_N_go_step by lia.
    assert (forall n s, pretty_N_go n s = EmptyString -> s = EmptyString) as Hgo.
    { intros m. induction (N.lt_wf_0 m) as [m _ IH]. intros s.
      destruct (decide (m = 0)%N) as [->|Hn]; [by rewrite pretty_N_go_0|].
      rewrite pretty_N_go_step by lia. intros Hs. apply IH in Hs; [done|].
      apply N.div_lt; lia. }
    by intros ?%Hgo. }
  apply show_int_inj in E. assert (z = 0) as -> by lia. done.
Qed.
