(* ===== verification/Format.v ===== *)
(** * Python's [%] operator with a dictionary

    Templates of generated code name their holes: ["%(KEY)s"].  [format_dict]
    is [template % dict] for the two forms the templates use, ["%(KEY)s"] and
    ["%%"]; another use of the percent sign raises [ValueError]. *)
From S2P Require Import Prelude.

(** The text up to the first [c], and what follows it. *)
Fixpoint split_at_char (c : ascii) (s : string) : option (string * string) :=
  match s with
  | EmptyString => None
  | String a s' =>
      if Ascii.eqb a c then Some (EmptyString, s')
      else match split_at_char c s' with
           | Some (x, y) => Some (String a x, y)
           | None => None
           end
  end.

(** A template is parsed into literal text and holes. *)
Inductive piece : Type :=
  | Lit (c : ascii)
  | Hole (key : string).

Inductive lexer_state : Type :=
  | Plain
  | Percent
  | Key (rev_key : list ascii)
  | Conversion (key : string).

Definition of_rev (l : list ascii) : string := String.string_of_list_ascii (rev l).

(** One pass over the characters; [None] is a format error. *)
Fixpoint lex_template (st : lexer_state) (s : string) : option (list piece) :=
  match s with
  | EmptyString => match st with Plain => Some [] | _ => None end
  | String a s' =>
      match st with
      | Plain => if Ascii.eqb a "%" then lex_template Percent s'
                 else cons (Lit a) <$> lex_template Plain s'
      | Percent => if Ascii.eqb a "%" then cons (Lit a) <$> lex_template Plain s'
                   else if Ascii.eqb a "(" then lex_template (Key []) s' else None
      | Key k => if Ascii.eqb a ")" then lex_template (Conversion (of_rev k)) s'
                 else lex_template (Key (a :: k)) s'
      | Conversion k => if Ascii.eqb a "s" then cons (Hole k) <$> lex_template Plain s'
                        else None
      end
  end.

Fixpoint fill (env : string -> option string) (ps : list piece) : res string :=
  match ps with
  | [] => Ok EmptyString
  | Lit c :: ps' => r <-? fill env ps' ;; Ok (String c r)
  | Hole k :: ps' =>
      match env k with
      | None => Raise KeyError
      | Some v => r <-? fill env ps' ;; Ok (v +:+ r)
      end
  end.

Definition format_dict (template : string) (env : string -> option string) : res string :=
  match lex_template Plain template with
  | None => Raise ValueError
  | Some ps => fill env ps
  end.

(** The keys a template needs. *)
Definition holes (ps : list piece) : list string :=
  omap (fun p => match p with Lit _ => None | Hole k => Some k end) ps.
Definition template_keys (template : string) : option (list string) :=
  holes <$> lex_template Plain template.

(** Formatting succeeds exactly when every key of the template has a value. *)
Lemma fill_ok env ps :
  Forall (fun k => is_Some (env k)) (holes ps) -> exists s, fill env ps = Ok s.
Proof.
  induction ps as [|[c|k] ps IH]; cbn; intros H; [by eexists| |].
  - destruct (IH H) as [s ->]. by eexists.
  - inversion H as [|? ? [v Hv] H']; subst. rewrite Hv. destruct (IH H') as [s ->]. by eexists.
Qed.

Lemma fill_missing env ps :
  ~ Forall (fun k => is_Some (env k)) (holes ps) -> fill env ps = Raise KeyError.
Proof.
  induction ps as [|[c|k] ps IH]; cbn; intros H; [by destruct H; constructor| |].
  - by rewrite (IH H).
  - destruct (env k) as [v|] eqn:E; [|done]. rewrite IH; [done|]. intros H'. apply H.
    constructor; [by rewrite E|done].
Qed.

Lemma format_dict_spec template env keys :
  template_keys template = Some keys ->
  (Forall (fun k => is_Some (env k)) keys -> exists s, format_dict template env = Ok s)
  /\ (~ Forall (fun k => is_Some (env k)) keys -> format_dict template env = Raise KeyError).
Proof.
  unfold template_keys, format_dict. destruct (lex_template Plain template) as [ps|]; [|done].
  intros [= <-]. split; [apply fill_ok | apply fill_missing].
Qed.

(** [fill] only looks at the keys of the template. *)
Lemma fill_ext env env' ps :
  Forall (fun k => env k = env' k) (holes ps) -> fill env ps = fill env' ps.
Proof.
  induction ps as [|[c|k] ps IH]; cbn; intros H; [done| |].
  - by rewrite IH.
  - inversion H as [|? ? Hk H']; subst. rewrite Hk. destruct (env' k); [|done]. by rewrite IH.
Qed.

(** ** Other string methods *)

Definition map_str (f : ascii -> ascii) (s : string) : string :=
  String.string_of_list_ascii (map f (String.list_ascii_of_string s)).

(** [s.capitalize()]: the first character upper, the others lower. *)
Definition capitalize (s : string) : string :=
  match s with
  | EmptyString => EmptyString
  | String a s' => String (toupper a) (map_str tolower s')
  end.

(** [s[0].upper() + s[1:]] when [s] starts with a lower-case letter. *)
Definition make_upper (s : string) : string :=
  match s with
  | String a s' => if islower a then String (toupper a) s' else s
  | EmptyString => s
  end.

(** [s.startswith(p)] *)
Definition startswith (p s : string) : bool := String.prefix p s.

(** [s.endswith(p)] for a one-character [p] *)
Definition endswith_char (c : ascii) (s : string) : bool :=
  match last_char s with Some a => Ascii.eqb a c | None => false end.

(** [s.split('::')] *)
Fixpoint split_colons (s : string) : list string :=
  match s with
  | EmptyString => [EmptyString]
  | String a s' =>
      match s' with
      | String b s'' =>
          if Ascii.eqb a ":" && Ascii.eqb b ":" then EmptyString :: split_colons s''
          else match split_colons s' with
               | [] => [String a EmptyString]
               | l :: ls => String a l :: ls
               end
      | EmptyString => [String a EmptyString]
      end
  end.

(** A name without any double colon is one component. *)
Fixpoint no_colons (s : string) : bool :=
  match s with
  | EmptyString => true
  | String a s' => negb (Ascii.eqb a ":") && no_colons s'
  end.

(** ** The representation of a string *)

(** ['%r' % s] *)
Definition hex_digit (n : nat) : ascii := ascii_of_nat (if (n <? 10)%nat then 48 + n else 87 + n).
Definition repr_char (quote c : ascii) : string :=
  let n := nat_of_ascii c in
  if Ascii.eqb c "\" || Ascii.eqb c quote then String "\" (String c EmptyString)
  else if Nat.eqb n 9 then "\t"
  else if Nat.eqb n 10 then "\n"
  else if Nat.eqb n 13 then "\r"
  else if (n <? 32)%nat || (126 <? n)%nat
  then String "\" (String "x" (String (hex_digit (n / 16)) (String (hex_digit (n mod 16)) EmptyString)))
  else String c EmptyString.
Definition single_quote : ascii := "039".
Definition double_quote : ascii := "034".
Definition py_repr (s : string) : string :=
  let quote := if str_in single_quote s && negb (str_in double_quote s) then double_quote else single_quote in
  String quote (join EmptyString (map (repr_char quote) (list_ascii_of_string s))
                +:+ String quote EmptyString).
Definition py_repr_opt (s : option string) : string :=
  match s with None => "None" | Some s => py_repr s end.

(** ** Entries of a table of methods *)

(** [docstring is None and "NULL" or ('"' + docstring + '"')] *)
Definition docstring_literal (docstring : option string) : string :=
  match docstring with None => "NULL" | Some d => dq +:+ d +:+ dq end.

(** An entry of the table of methods. *)
Definition method_def_entry (name : string) (actual_name : option string) (flags : list string)
    (docstring : option string) : string :=
  "{(char *) " +:+ dq +:+ name +:+ dq +:+ ", (PyCFunction) " +:+ str_opt actual_name +:+ ", "
  +:+ join "|" flags +:+ ", " +:+ docstring_literal docstring +:+ " },".

(** ** Lemmas on components *)

Lemma split_colons_cons s : exists l ls, split_colons s = l :: ls.
Proof.
  destruct s as [|a s]; [by do 2 eexists|]. cbn. destruct s as [|b s]; [by do 2 eexists|].
  destruct (Ascii.eqb a ":" && Ascii.eqb b ":"); [by do 2 eexists|].
  match goal with |- context [match ?x with _ => _ end] => destruct x end; by do 2 eexists.
Qed.

Lemma split_colons_none s : no_colons s = true -> split_colons s = [s].
Proof.
  induction s as [|a s IH]; [done|]. intros [Ha Hs]%andb_true_iff. specialize (IH Hs).
  cbn [split_colons]. destruct s as [|b s]; [done|].
  apply negb_true_iff in Ha. rewrite Ha. cbn [andb]. by rewrite IH.
Qed.

(** Joining the components of a path gives the path back. *)
Lemma split_colons_app s t :
  no_colons s = true -> split_colons (s +:+ "::" +:+ t) = s :: split_colons t.
Proof.
  induction s as [|a s IH]; [done|]. intros [Ha Hs]%andb_true_iff. specialize (IH Hs).
  apply negb_true_iff in Ha. change ((String a s) +:+ "::" +:+ t) with (String a (s +:+ "::" +:+ t)).
  cbn [split_colons]. destruct (s +:+ "::" +:+ t) as [|b r] eqn:E; [by destruct s|].
  rewrite Ha. cbn [andb]. rewrite IH. done.
Qed.

Lemma split_join_colons l :
  l <> [] -> Forall (fun s => no_colons s = true) l -> split_colons (join "::" l) = l.
Proof.
  intros Hne H. induction H as [|x l Hx H IH]; [done|].
  destruct l as [|y l]; [by apply split_colons_none|].
  rewrite join_cons by done. rewrite split_colons_app by done. by rewrite IH.
Qed.
