(* ===== verification/CodeSink.v ===== *)
(** * Code sinks: [pybindgen/typehandlers/codesink.py] *)
From S2P Require Import Prelude.

(** Where a sink puts its lines: the three concrete classes of the module. *)
Inductive sink_dest : Type :=
  | FileDest (content : string)
  | MemoryDest (lines : list string)
  | NullDest.

Record code_sink : Type := CodeSink {
  indent_level : Z;
  indent_stack : list Z;
  dest : sink_dest
}.

Definition CodeSink_init (d : sink_dest) : code_sink := CodeSink 0 [] d.
Definition MemoryCodeSink : code_sink := CodeSink_init (MemoryDest []).
Definition NullCodeSink : code_sink := CodeSink_init NullDest.
Definition FileCodeSink (content : string) : code_sink := CodeSink_init (FileDest content).

Definition set_dest (k : code_sink) (d : sink_dest) : code_sink :=
  CodeSink (indent_level k) (indent_stack k) d.

Definition format_code (k : code_sink) (code : string) : list string :=
  map (fun line => spaces (indent_level k) +:+ line) (split_on nl code).

Definition writeln (k : code_sink) (line : string) : code_sink :=
  match dest k with
  | FileDest c => set_dest k (FileDest (c +:+ join nls (format_code k line) +:+ nls))
  | MemoryDest ls => set_dest k (MemoryDest (ls ++ format_code k line))
  | NullDest => k
  end.

Definition indent (k : code_sink) (level : Z) : code_sink :=
  CodeSink (indent_level k + level) (indent_level k :: indent_stack k) (dest k).

Definition unindent (k : code_sink) : res code_sink :=
  match indent_stack k with
  | [] => Raise IndexError
  | l :: st => Ok (CodeSink l st (dest k))
  end.

(** [self.flush_to(sink)]: the emptied source and the extended target. *)
Definition flush_to (self sink : code_sink) : res (code_sink * code_sink) :=
  match dest self with
  | MemoryDest ls =>
      Ok (set_dest self (MemoryDest []),
          fold_left (fun k line => writeln k (rstrip line)) ls sink)
  | NullDest => Raise TypeError
  | FileDest _ => Raise AttributeError
  end.

Definition flush (self : code_sink) : res (code_sink * string) :=
  match dest self with
  | MemoryDest ls =>
      Ok (set_dest self (MemoryDest []),
          join nls (List.concat (map (format_code self) ls)) +:+ nls)
  | NullDest => Raise TypeError
  | FileDest _ => Raise AttributeError
  end.

(** ** The text of a sink

    [lines_text] is the file a list of lines stands for; [sink_text] is the
    abstraction under which a memory sink and a file sink are the same thing. *)
Definition lines_text (ls : list string) : string :=
  fold_right (fun l acc => l +:+ nls +:+ acc) EmptyString ls.

Definition sink_text (k : code_sink) : string :=
  match dest k with
  | FileDest c => c
  | MemoryDest ls => lines_text ls
  | NullDest => EmptyString
  end.

Definition is_null (k : code_sink) : bool :=
  match dest k with NullDest => true | _ => false end.

(** The invariant of a memory sink: no stored line holds a newline. *)
Definition sink_wf (k : code_sink) : Prop :=
  match dest k with
  | MemoryDest ls => Forall (fun l => str_in nl l = false) ls
  | _ => True
  end.

(** Operations of a client of a sink, for sequences of calls. *)
Inductive sink_op : Type :=
  | OpWrite (s : string)
  | OpIndent (level : Z)
  | OpUnindent.

Definition run_op (k : code_sink) (o : sink_op) : res code_sink :=
  match o with
  | OpWrite s => Ok (writeln k s)
  | OpIndent n => Ok (indent k n)
  | OpUnindent => unindent k
  end.

Fixpoint run_ops (k : code_sink) (os : list sink_op) : res code_sink :=
  match os with
  | [] => Ok k
  | o :: os' => k' <-? run_op k o ;; run_ops k' os'
  end.

(** Well-bracketed sequences of calls. *)
Inductive bracketed : list sink_op -> Prop :=
  | br_nil : bracketed []
  | br_write s os : bracketed os -> bracketed (OpWrite s :: os)
  | br_block n os os' :
      bracketed os -> bracketed os' ->
      bracketed (OpIndent n :: os ++ OpUnindent :: os').

Definition same_indent (k k' : code_sink) : Prop :=
  indent_level k = indent_level k' /\ indent_stack k = indent_stack k'.

#[export] Instance same_indent_equiv : Equivalence same_indent.
Proof.
  split.
  - by intros k.
  - intros k k' [E1 E2]. by split.
  - intros k k' k'' [E1 E2] [E3 E4]. split; congruence.
Qed.

Lemma lines_text_app l1 l2 : lines_text (l1 ++ l2) = lines_text l1 +:+ lines_text l2.
Proof.
  induction l1 as [|x l1 IH]; simpl; [done|]. by rewrite IH, <- app_str_assoc.
Qed.

Lemma lines_text_join ls : ls <> [] -> lines_text ls = join nls ls +:+ nls.
Proof.
  induction ls as [|x ls IH]; [done|]. intros _. destruct ls as [|y ls].
  - simpl. done.
  - rewrite join_cons by done. simpl lines_text in *.
    rewrite IH by done. by rewrite <- app_str_assoc.
Qed.

Lemma format_code_nonempty k s : format_code k s <> [].
Proof.
  unfold format_code. by destruct (split_on_cons nl s) as (?&?&->).
Qed.

Lemma format_code_clean k s : Forall (fun l => str_in nl l = false) (format_code k s).
Proof.
  unfold format_code. rewrite Forall_map. eapply Forall_impl; [apply split_on_clean|].
  intros l Hl. simpl. by rewrite str_in_app, str_in_spaces, Hl.
Qed.

Lemma same_indent_writeln k s : same_indent (writeln k s) k.
Proof. unfold writeln. by destruct (dest k). Qed.

Lemma same_indent_format k k' s : same_indent k k' -> format_code k s = format_code k' s.
Proof. intros [E _]. unfold format_code. by rewrite E. Qed.

Lemma writeln_dest_kind k s : is_null (writeln k s) = is_null k.
Proof. unfold writeln, is_null. by destruct (dest k) eqn:E; simpl; rewrite ?E. Qed.

Lemma writeln_text_lemma k s :
  is_null k = false ->
  sink_text (writeln k s) = sink_text k +:+ lines_text (format_code k s).
Proof.
  unfold is_null, sink_text, writeln. destruct (dest k) as [c|ls|] eqn:E; simpl; intros H.
  - by rewrite lines_text_join by apply format_code_nonempty.
  - by rewrite lines_text_app.
  - done.
Qed.

Lemma writeln_wf_lemma k s : sink_wf k -> sink_wf (writeln k s).
Proof.
  unfold sink_wf, writeln. destruct (dest k) as [c|ls|] eqn:E; simpl; try done.
  - intros H. apply Forall_app; split; [done | apply format_code_clean].
  - by rewrite E.
Qed.

(** Writing a list of newline-free lines, as [flush_to] does. *)
Lemma fold_writeln_text ls : forall sink,
  is_null sink = false -> Forall (fun l => str_in nl l = false) ls ->
  let k := fold_left (fun k line => writeln k (rstrip line)) ls sink in
  same_indent k sink /\
  sink_text k = sink_text sink +:+
    lines_text (map (fun l => spaces (indent_level sink) +:+ rstrip l) ls).
Proof.
  induction ls as [|l ls IH]; intros sink Hn Hls; simpl.
  - split; [done | by rewrite app_str_nil_r].
  - inversion Hls; subst.
    destruct (IH (writeln sink (rstrip l))) as [IH1 IH2];
      [by rewrite writeln_dest_kind | done |].
    pose proof (same_indent_writeln sink (rstrip l)) as Hs.
    split; [by etransitivity|].
    rewrite IH2, writeln_text_lemma by done.
    destruct Hs as [-> _]. unfold format_code.
    rewrite split_on_none by by apply str_in_rstrip. simpl.
    by rewrite <- !app_str_assoc.
Qed.

(** C24: memory sinks refine file sinks.  Whatever the sink stores its lines
    in (a file or a memory list), [writeln] appends to its text exactly the
    lines of the code, each indented by the current level and terminated by a
    newline, and leaves the indentation state as it was. *)
Theorem writeln_refines_text (k : code_sink) (s : string) :
  is_null k = false ->
  sink_text (writeln k s) = sink_text k +:+ lines_text (format_code k s)
  /\ same_indent (writeln k s) k.
Proof. intros H. split; [by apply writeln_text_lemma | apply same_indent_writeln]. Qed.

(** Flushing a memory sink.  When no stored line holds a newline,
    [flush_to] empties the source and appends each of its lines, stripped on
    the right and indented by the level of the target, as exactly one line of
    the target, in order; the target keeps its indentation state. *)
Theorem flush_to_text (self sink : code_sink) ls :
  dest self = MemoryDest ls -> sink_wf self -> is_null sink = false ->
  exists sink',
    flush_to self sink = Ok (set_dest self (MemoryDest []), sink')
    /\ same_indent sink' sink
    /\ sink_text sink' = sink_text sink +:+
         lines_text (map (fun l => spaces (indent_level sink) +:+ rstrip l) ls).
Proof.
  unfold sink_wf, flush_to. intros -> Hwf Hn. eexists. split; [reflexivity|].
  by apply fold_writeln_text.
Qed.

Lemma flush_to_text_witness :
  flush_to (CodeSink 0 [] (MemoryDest ["a;  "; EmptyString])) (CodeSink 4 [0] (FileDest "x"))
  = Ok (MemoryCodeSink, CodeSink 4 [0] (FileDest ("x    a;" +:+ nls +:+ "    " +:+ nls)))
  /\ exists sink', flush_to (CodeSink 0 [] (MemoryDest ["a;  "; EmptyString]))
                     (CodeSink 4 [0] (FileDest "x")) =
       Ok (set_dest (CodeSink 0 [] (MemoryDest ["a;  "; EmptyString])) (MemoryDest []), sink')
     /\ same_indent sink' (CodeSink 4 [0] (FileDest "x"))
     /\ sink_text sink' = sink_text (CodeSink 4 [0] (FileDest "x")) +:+
         lines_text (map (fun l => spaces 4 +:+ rstrip l) ["a;  "; EmptyString]).
Proof.
  split; [reflexivity|].
  apply (flush_to_text (CodeSink 0 [] (MemoryDest ["a;  "; EmptyString])) (CodeSink 4 [0] (FileDest "x"))
           ["a;  "; EmptyString]); [reflexivity | by repeat constructor | reflexivity].
Defined.

Lemma writeln_refines_text_witness :
  sink_text (writeln MemoryCodeSink "foo();") =
    sink_text MemoryCodeSink +:+ lines_text (format_code MemoryCodeSink "foo();")
  /\ same_indent (writeln MemoryCodeSink "foo();") MemoryCodeSink.
Proof. apply (writeln_refines_text MemoryCodeSink "foo();"). reflexivity. Defined.

Lemma run_ops_app os1 os2 k :
  run_ops k (os1 ++ os2) = k' <-? run_ops k os1 ;; run_ops k' os2.
Proof.
  revert k. induction os1 as [|o os1 IH]; intros k; simpl; [done|].
  destruct (run_op k o); simpl; [apply IH | done].
Qed.

Lemma bracketed_app os1 os2 : bracketed os1 -> bracketed os2 -> bracketed (os1 ++ os2).
Proof.
  intros H1 H2. induction H1 as [|s os _ IH|n os os' Hb _ _ IH]; cbn; [done|by constructor|].
  rewrite <- app_assoc. cbn. by constructor.
Qed.
Lemma bracketed_writes l : bracketed (map OpWrite l).
Proof. induction l; constructor; done. Qed.

Lemma bracketed_run (os : list sink_op) : bracketed os -> forall k,
  exists k', run_ops k os = Ok k' /\ same_indent k' k /\ (sink_wf k -> sink_wf k').
Proof.
  induction 1 as [|s os Hb IH|n os os' Hb1 IH1 Hb2 IH2]; intros k; simpl.
  - exists k. by repeat split.
  - destruct (IH (writeln k s)) as (k'&E&Hs&Hwf).
    exists k'. split; [done|]. split; [|intros Hk; by apply Hwf, writeln_wf_lemma].
    etransitivity; [done | apply same_indent_writeln].
  - rewrite run_ops_app. destruct (IH1 (indent k n)) as (k1&E1&[_ Hs]&Hwf1).
    rewrite E1. simpl. unfold unindent. rewrite Hs. simpl.
    destruct (IH2 (CodeSink (indent_level k) (indent_stack k) (dest k1)))
      as (k2&E2&Hs2&Hwf2).
    exists k2. split; [done|]. split; [by repeat split; try apply Hs2 | auto].
Qed.

(** Bracketing.  Any well-bracketed sequence of [indent], [unindent] and
    [writeln] calls runs without raising and leaves the indentation level and
    the stack of previous levels as they were, and keeps the lines of a memory
    sink free of newlines. *)
Theorem bracketed_restores (os : list sink_op) (k : code_sink) :
  bracketed os -> sink_wf k ->
  exists k', run_ops k os = Ok k' /\ same_indent k' k /\ sink_wf k'.
Proof.
  intros Hb Hk. destruct (bracketed_run os Hb k) as (k'&E&Hs&Hwf). exists k'. auto.
Qed.

Lemma bracketed_restores_witness :
  exists k', run_ops MemoryCodeSink [OpIndent 4; OpWrite "bar();"; OpUnindent; OpWrite "zbr();"]
    = Ok k' /\ same_indent k' MemoryCodeSink /\ sink_wf k'.
Proof.
  apply bracketed_restores; [|constructor].
  apply (br_block 4 [OpWrite "bar();"] [OpWrite "zbr();"]); repeat constructor.
Defined.
