(* ===== verification/Tokenizer.v ===== *)
(** * The C++ tokenizer: [pybindgen/typehandlers/ctypeparser/tokenizer.py]

    The source text is the list of its characters, so that the indices of the
    code are the indices of the model; [py_index], [py_slice] and [py_find] are
    Python's indexing (negative indices included), slicing and [str.find].
    Every loop of the code is a fixpoint on a fuel argument.  The scanning
    loops get one more unit of fuel than the source has characters; [OutOfFuel]
    is the value of a loop of the code that does not end. *)
From S2P Require Import Prelude.

(** ** Python's sequence operations *)

Definition py_index (l : list ascii) (i : Z) : res ascii :=
  let j := if i <? 0 then i + Z.of_nat (length l) else i in
  if j <? 0 then Raise IndexError
  else match l !! Z.to_nat j with Some c => Ok c | None => Raise IndexError end.

(** A slice bound: negative counts from the end, then clamped to the sequence. *)
Definition slice_bound (n : nat) (i : Z) : nat :=
  let j := if i <? 0 then i + Z.of_nat n else i in
  Nat.min n (Z.to_nat j).

Definition py_slice (l : list ascii) (a b : Z) : list ascii :=
  let n := length l in
  let a' := slice_bound n a in
  take (slice_bound n b - a')%nat (drop a' l).

Fixpoint is_prefix (p l : list ascii) : bool :=
  match p, l with
  | [], _ => true
  | a :: p', b :: l' => Ascii.eqb a b && is_prefix p' l'
  | _, [] => false
  end.

Fixpoint find_at (p l : list ascii) (pos : Z) : Z :=
  match l with
  | [] => if is_prefix p [] then pos else -1
  | _ :: l' => if is_prefix p l then pos else find_at p l' (pos + 1)
  end.

(** [s.find(p, i)], for a non-empty [p]; -1 when there is no occurrence. *)
Definition py_find (p l : list ascii) (i : Z) : Z :=
  let a := slice_bound (length l) i in find_at p (drop a l) (Z.of_nat a).

Definition chars : string -> list ascii := String.list_ascii_of_string.
Definition str : list ascii -> string := String.string_of_list_ascii.

(** ** Tokens *)

Inductive token_type : Type :=
  | UNKNOWN | SYNTAX | CONSTANT | NAME | PREPROCESSOR.

#[export] Instance token_type_eq_dec : EqDecision token_type.
Proof. solve_decision. Defined.

(** [start] and [end] are [None] for the tokens the type parser makes up. *)
Record token : Type := Token {
  tok_type : token_type;
  name : string;
  start : option Z;
  tend : option Z
}.

#[export] Instance token_eq_dec : EqDecision token.
Proof. solve_decision. Defined.

(** ** Character sets *)

Definition VALID_IDENTIFIER_CHARS (c : ascii) : bool :=
  islower c || isupper c || Ascii.eqb c "_"%char || isdigit c || Ascii.eqb c "$"%char.
Definition HEX_DIGITS (c : ascii) : bool := str_in c "0123456789abcdefABCDEF".
Definition INT_OR_FLOAT_DIGITS (c : ascii) : bool := str_in c "01234567890eE-+".
Definition INT_OR_FLOAT_DIGITS2 (c : ascii) : bool :=
  INT_OR_FLOAT_DIGITS c || Ascii.eqb c "."%char.
Definition STR_PREFIXES : list string :=
  ["R"; "u8"; "u8R"; "u"; "uR"; "U"; "UR"; "L"; "LR"].

Definition quote : ascii := "034"%char.
Definition apos : ascii := "'"%char.
Definition backslash : ascii := "092"%char.

Definition mem_str (s : string) (l : list string) : bool :=
  existsb (String.eqb s) l.

(** ** Scanning *)

Section tokenizer.
Context (source : list ascii).

Definition src_end : Z := Z.of_nat (length source).
Definition scan_fuel : nat := S (length source).

(** [source[j] == '\\'], counting down *)
Fixpoint count_backslashes (fuel : nat) (j count : Z) : res Z :=
  match fuel with
  | O => Raise OutOfFuel
  | S fuel' =>
      c <-? py_index source j ;;
      if Ascii.eqb c backslash then count_backslashes fuel' (j - 1) (count + 1)
      else Ok count
  end.

Fixpoint GetString_loop (fuel : nat) (i : Z) : res Z :=
  match fuel with
  | O => Raise OutOfFuel
  | S fuel' =>
      c <-? py_index source (i - 1) ;;
      if Ascii.eqb c backslash then
        n <-? count_backslashes (2 * scan_fuel) (i - 2) 1 ;;
        if Z.even n then Ok (i + 1)
        else GetString_loop fuel' (py_find [quote] source (i + 1))
      else Ok (i + 1)
  end.

Definition GetString (start i : Z) : res Z :=
  GetString_loop scan_fuel (py_find [quote] source (i + 1)).

Fixpoint GetChar_loop (fuel : nat) (start i : Z) : res Z :=
  match fuel with
  | O => Raise OutOfFuel
  | S fuel' =>
      c <-? py_index source (i - 1) ;;
      if Ascii.eqb c backslash then
        if start <? i - 2 then
          c2 <-? py_index source (i - 2) ;;
          if Ascii.eqb c2 backslash then Ok i
          else GetChar_loop fuel' start (py_find [apos] source (i + 1))
        else GetChar_loop fuel' start (py_find [apos] source (i + 1))
      else Ok i
  end.

Definition GetChar (start i : Z) : res Z :=
  i' <-? GetChar_loop scan_fuel start (py_find [apos] source (i + 1)) ;;
  Ok ((if i' <? 0 then start else i') + 1).

Fixpoint skip_space (fuel : nat) (i : Z) : res Z :=
  match fuel with
  | O => Raise OutOfFuel
  | S fuel' =>
      if i <? src_end then
        c <-? py_index source i ;;
        if isspace c then skip_space fuel' (i + 1) else Ok i
      else Ok i
  end.

(** [while source[i] in charset: i += 1] *)
Fixpoint scan_set (charset : ascii -> bool) (fuel : nat) (i : Z) : res Z :=
  match fuel with
  | O => Raise OutOfFuel
  | S fuel' =>
      c <-? py_index source i ;;
      if charset c then scan_set charset fuel' (i + 1) else Ok i
  end.

(** [source[i] == ':' and next == ':'], [next] being [None] at the end *)
Definition colons_at (i : Z) (c : ascii) : res bool :=
  if i <? src_end - 1 then
    c' <-? py_index source (i + 1) ;;
    Ok (Ascii.eqb c ":"%char && Ascii.eqb c' ":"%char)
  else Ok false.

(** The loop over a name, a double colon being part of it. *)
Fixpoint scan_name (fuel : nat) (i : Z) : res Z :=
  match fuel with
  | O => Raise OutOfFuel
  | S fuel' =>
      c1 <-? py_index source i ;;
      colons <-? colons_at i c1 ;;
      if colons then scan_name fuel' (i + 2)
      else if VALID_IDENTIFIER_CHARS c1 then scan_name fuel' (i + 1)
      else Ok i
  end.

Definition name_branch (start : Z) : res (token_type * Z) :=
  i <-? scan_name scan_fuel start ;;
  c <-? py_index source i ;;
  if Ascii.eqb c apos && (i - start =? 1)
     && mem_str (str (py_slice source start i)) ["u"; "U"; "L"] then
    i' <-? GetChar start i ;; Ok (CONSTANT, i')
  else if Ascii.eqb c apos && mem_str (str (py_slice source start i)) STR_PREFIXES then
    i' <-? GetString start i ;; Ok (CONSTANT, i')
  else Ok (NAME, i).

Definition syntax_branch (i : Z) (c : ascii) : res (token_type * Z) :=
  new_ch <-? py_index source (i + 1) ;;
  if Ascii.eqb new_ch c then Ok (SYNTAX, i + 2)
  else if Ascii.eqb c "-"%char && Ascii.eqb new_ch ">"%char then Ok (SYNTAX, i + 2)
  else if Ascii.eqb new_ch "="%char then Ok (SYNTAX, i + 2)
  else Ok (SYNTAX, i + 1).

(** The first suffix of the list the lower-cased text at [i] starts with. *)
Fixpoint skip_suffix (suffixes : list string) (i : Z) : Z :=
  match suffixes with
  | [] => i
  | s :: l =>
      let size := Z.of_nat (String.length s) in
      if String.eqb s (str (map tolower (py_slice source i (i + size))))
      then i + size else skip_suffix l i
  end.

Definition single_branch (i : Z) (c : ascii) : res (token_type * Z) :=
  if Ascii.eqb c "."%char then
    d <-? py_index source (i + 1) ;;
    if isdigit d then
      i' <-? scan_set INT_OR_FLOAT_DIGITS scan_fuel (i + 2) ;;
      Ok (CONSTANT, skip_suffix ["l"; "f"] i')
    else Ok (SYNTAX, i + 1)
  else Ok (SYNTAX, i + 1).

Definition number_branch (i : Z) (c : ascii) : res (token_type * Z) :=
  hex <-? (if Ascii.eqb c "0"%char then
             x <-? py_index source (i + 1) ;; Ok (str_in x "xX")
           else Ok false) ;;
  i' <-? (if hex then scan_set HEX_DIGITS scan_fuel (i + 2)
          else scan_set INT_OR_FLOAT_DIGITS2 scan_fuel i) ;;
  Ok (CONSTANT, skip_suffix ["ull"; "ll"; "ul"; "l"; "f"; "u"] i').

(** ** Preprocessor lines *)

Record pp_state : Type := PP { ignore_errors : bool; count_ifs : Z }.

Fixpoint lstrip (l : list ascii) : list ascii :=
  match l with
  | [] => []
  | c :: l' => if isspace c then lstrip l' else l
  end.

Definition min_found (l : list Z) : Z :=
  fold_right (fun x m => if x =? -1 then m else Z.min x m) src_end l.

Definition if0_condition (start i : Z) : bool :=
  let condition := lstrip (py_slice source (start + 4) i) in
  is_prefix (chars "0") condition || is_prefix (chars "(0)") condition.

Fixpoint pp_loop (fuel : nat) (start i : Z) (got_if : bool) (st : pp_state)
    : res (Z * pp_state) :=
  match fuel with
  | O => Raise OutOfFuel
  | S fuel' =>
      let i1 := py_find [nl] source i in
      let i2 := py_find (chars "//") source i in
      let i3 := py_find (chars "/*") source i in
      let i4 := py_find [quote] source i in
      let j := min_found [i1; i2; i3; i4] in
      c <-? py_index source j ;;
      if Ascii.eqb c quote then
        let j' := py_find [quote] source (j + 1) + 1 in
        if 0 <? j' then pp_loop fuel' start j' got_if st else Raise AssertionError
      else
        continued <-? (if j =? i1 then
                         p <-? py_index source (j - 1) ;; Ok (Ascii.eqb p backslash)
                       else Ok false) ;;
        if (continued : bool) then pp_loop fuel' start (j + 1) got_if st
        else Ok (j, if got_if && if0_condition start j
                    then PP true (count_ifs st) else st)
  end.

Definition pp_branch (i : Z) (st : pp_state) : res (Z * pp_state) :=
  let got_if := is_prefix (chars "#if") (py_slice source i (i + 3))
                && match py_slice source (i + 3) (i + 4) with
                   | [c] => isspace c | _ => false end in
  let st1 :=
    if got_if then PP (ignore_errors st) (count_ifs st + 1)
    else if is_prefix (chars "#endif") (py_slice source i (i + 6)) then
      let n := count_ifs st - 1 in PP (if n =? 0 then false else ignore_errors st) n
    else st in
  pp_loop (2 * scan_fuel) i i got_if st1.

(** ** The main loop *)

Inductive step_result : Type :=
  | Done
  | Continue (i : Z) (st : pp_state)
  | Yield (t : token) (i : Z) (st : pp_state).

(** The end of an iteration: [if i <= 0: return], then [yield]. *)
Definition emit (ty : token_type) (start i : Z) (st : pp_state) : step_result :=
  if i <=? 0 then Done
  else Yield (Token ty (str (py_slice source start i)) (Some start) (Some i)) i st.

Definition emit_branch (start : Z) (st : pp_state) (r : res (token_type * Z))
    : res step_result :=
  p <-? r ;; Ok (emit p.1 start p.2 st).

Definition step (i0 : Z) (st : pp_state) : res step_result :=
  i <-? skip_space scan_fuel i0 ;;
  if src_end <=? i then Ok Done else
  c <-? py_index source i ;;
  colons <-? colons_at i c ;;
  if (VALID_IDENTIFIER_CHARS c && negb (isdigit c)) || colons then
    emit_branch i st (name_branch i)
  else
  slash <-? (if Ascii.eqb c "/"%char then py_index source (i + 1) else Ok nl) ;;
  if Ascii.eqb slash "/"%char then
    let j := py_find [nl] source i in
    Ok (Continue (if j =? -1 then src_end else j) st)
  else if Ascii.eqb slash "*"%char then
    Ok (Continue (py_find (chars "*/") source i + 2) st)
  else if str_in c ":+-<>&|*=" then emit_branch i st (syntax_branch i c)
  else if str_in c "()[]{}~!?^%;/.," then emit_branch i st (single_branch i c)
  else if isdigit c then emit_branch i st (number_branch i c)
  else if Ascii.eqb c quote then
    j <-? GetString i i ;; Ok (emit CONSTANT i j st)
  else if Ascii.eqb c apos then
    j <-? GetChar i i ;; Ok (emit CONSTANT i j st)
  else if Ascii.eqb c "#"%char then
    p <-? pp_branch i st ;; Ok (emit PREPROCESSOR i p.1 p.2)
  else if Ascii.eqb c backslash then Ok (Continue (i + 1) st)
  else if ignore_errors st then Ok (emit UNKNOWN i (i + 1) st)
  else Raise RuntimeError.

(** [while i < end: ...], the tokens in the order they are yielded *)
Fixpoint GetTokens_loop (fuel : nat) (i : Z) (st : pp_state) : res (list token) :=
  match fuel with
  | O => Raise OutOfFuel
  | S fuel' =>
      if i <? src_end then
        r <-? step i st ;;
        match r with
        | Done => Ok []
        | Continue i' st' => GetTokens_loop fuel' i' st'
        | Yield t i' st' => ts <-? GetTokens_loop fuel' i' st' ;; Ok (t :: ts)
        end
      else Ok []
  end.
End tokenizer.

(** [list(GetTokens(source))] *)
Definition GetTokens (source : list ascii) : res (list token) :=
  GetTokens_loop source (2 * S (length source)) 0 (PP false 0).

(** ** Bounds of the scanning loops *)

(** A source without quotes, preprocessor lines and comments; what the type
    parser feeds to the tokenizer. *)
Definition plain_char (c : ascii) : bool :=
  negb (Ascii.eqb c quote || Ascii.eqb c apos || Ascii.eqb c "#"%char || Ascii.eqb c "/"%char).
Definition plain (source : list ascii) : Prop := Forall (fun c => plain_char c = true) source.

(** Characters of the half-open range [a, b) satisfy [P]. *)
Definition range_all (source : list ascii) (P : ascii -> bool) (a b : Z) : Prop :=
  forall k c, a <= k < b -> source !! Z.to_nat k = Some c -> P c = true.

Lemma range_all_empty source P a : range_all source P a a.
Proof. intros k c Hk. lia. Qed.

Lemma range_all_app source P a b c :
  range_all source P a b -> range_all source P b c -> range_all source P a c.
Proof.
  intros H1 H2 k x Hk Hx. destruct (decide (k < b)); [eapply H1 | eapply H2]; eauto; lia.
Qed.

Lemma range_all_snoc source (P : ascii -> bool) i c :
  source !! Z.to_nat i = Some c -> P c = true -> range_all source P i (i + 1).
Proof. intros Hi Hc k x Hk Hx. assert (k = i) as -> by lia. congruence. Qed.

Lemma range_all_weaken source (P Q : ascii -> bool) a b :
  (forall c, P c = true -> Q c = true) -> range_all source P a b -> range_all source Q a b.
Proof. intros HPQ H k c Hk Hc. eauto. Qed.

Section bounds.
Context (source : list ascii).
Local Abbreviation slen := (src_end source).

(** The possible outcomes of an index that is not negative. *)
Lemma py_index_cases i :
  0 <= i ->
  (exists c, py_index source i = Ok c /\ source !! Z.to_nat i = Some c /\ i < slen)
  \/ (py_index source i = Raise IndexError /\ slen <= i).
Proof.
  intros Hi. unfold py_index, src_end.
  assert ((i <? 0) = false) as -> by lia. simpl. assert ((i <? 0) = false) as -> by lia.
  destruct (source !! Z.to_nat i) as [c|] eqn:E.
  - left. exists c. repeat split; try done. apply lookup_lt_Some in E. lia.
  - right. split; [done|]. apply lookup_ge_None in E. lia.
Qed.

Lemma slice_bound_id i : 0 <= i <= slen -> slice_bound (length source) i = Z.to_nat i.
Proof.
  unfold slice_bound, src_end. intros H. assert ((i <? 0) = false) as -> by lia. lia.
Qed.

Lemma py_slice_length a b :
  0 <= a -> a <= b -> Z.of_nat (length (py_slice source a b)) <= slen - a \/
  py_slice source a b = [].
Proof.
  intros Ha Hb. unfold py_slice, src_end.
  destruct (decide (a <= Z.of_nat (length source))).
  - left. rewrite length_take, length_drop, (slice_bound_id a) by (unfold src_end; lia). lia.
  - right. rewrite drop_ge; [by rewrite take_nil|]. unfold slice_bound.
    assert ((a <? 0) = false) as -> by lia. lia.
Qed.

(** A scan that starts at [i] stops at a later index of the source, or runs
    off its end as an [IndexError] when nothing stops it; it does not run out of
    fuel. *)
Definition scan_ok (P : ascii -> bool) (i : Z) (r : res Z) : Prop :=
  match r with
  | Ok j => i <= j < slen /\ range_all source P i j
  | Raise e => e = IndexError /\ range_all source P i slen
  end.
Lemma range_all_past P i : slen <= i -> range_all source P i slen.
Proof. intros Hi k c Hk. lia. Qed.

Lemma skip_space_ok fuel i :
  0 <= i <= slen -> slen - i < Z.of_nat fuel ->
  exists j, skip_space source fuel i = Ok j /\ i <= j <= slen
    /\ range_all source isspace i j.
Proof.
  revert i. induction fuel as [|fuel IH]; intros i Hi Hf; [lia|]. simpl.
  destruct (Z.ltb_spec i slen).
  - destruct (py_index_cases i ltac:(lia)) as [(c&->&Hc&_)|[_ ?]]; [|lia]. simpl.
    destruct (isspace c) eqn:Ec.
    + destruct (IH (i + 1)) as (j&->&Hj&Hr); [lia..|].
      exists j. split; [done|]. split; [lia|].
      eapply range_all_app; [by eapply range_all_snoc | done].
    + exists i. split; [done|]. split; [lia | apply range_all_empty].
  - exists i. split; [done|]. split; [lia | apply range_all_empty].
Qed.

Lemma scan_set_ok charset fuel i :
  0 <= i <= slen -> slen - i < Z.of_nat fuel ->
  scan_ok charset i (scan_set source charset fuel i).
Proof.
  revert i. induction fuel as [|fuel IH]; intros i Hi Hf; simpl.
  - lia.
  - destruct (py_index_cases i ltac:(lia)) as [(c&->&Hc&Hlt)|[-> ?]]; simpl; [|split; [done|by apply range_all_past]].
    destruct (charset c) eqn:Ec.
    + specialize (IH (i + 1) ltac:(lia) ltac:(lia)).
      destruct (scan_set source charset fuel (i + 1)) as [j|e]; simpl in *; destruct IH as [Hj Hr].
      * split; [lia|]. eapply range_all_app; [by eapply range_all_snoc | done].
      * split; [done|]. eapply range_all_app; [by eapply range_all_snoc | done].
    + simpl. split; [lia | apply range_all_empty].
Qed.

Lemma colons_at_ok i c :
  0 <= i -> source !! Z.to_nat i = Some c -> i < slen ->
  exists b, colons_at source i c = Ok b /\
    (b = true -> c = ":"%char /\ source !! Z.to_nat (i + 1) = Some ":"%char /\ i + 1 < slen).
Proof.
  intros Hi Hc Hlt. unfold colons_at. destruct (Z.ltb_spec i (slen - 1)).
  - destruct (py_index_cases (i + 1) ltac:(lia)) as [(c'&->&Hc'&?)|[_ ?]]; [|lia]. simpl.
    eexists. split; [done|]. rewrite andb_true_iff, !Ascii.eqb_eq.
    intros [-> ->]. done.
  - exists false. done.
Qed.

Definition name_char (c : ascii) : bool := VALID_IDENTIFIER_CHARS c || Ascii.eqb c ":"%char.

Lemma scan_name_ok fuel i :
  0 <= i <= slen -> slen - i < Z.of_nat fuel ->
  scan_ok name_char i (scan_name source fuel i).
Proof.
  revert i. induction fuel as [fuel IHf] using lt_wf_ind. intros i Hi Hf.
  destruct fuel as [|fuel]; [lia|]. simpl.
  destruct (py_index_cases i ltac:(lia)) as [(c&->&Hc&Hlt)|[-> ?]]; simpl; [|split; [done|by apply range_all_past]].
  destruct (colons_at_ok i c ltac:(lia) Hc Hlt) as (b&->&Hb). simpl.
  destruct b; [|destruct (VALID_IDENTIFIER_CHARS c) eqn:Ev].
  - destruct (Hb eq_refl) as (->&Hc2&Hlt2).
    pose proof (IHf fuel ltac:(lia) (i + 2) ltac:(lia) ltac:(lia)) as IH.
    assert (forall j, range_all source name_char (i + 2) j -> range_all source name_char i j) as Hcat.
    { intros j Hr. eapply range_all_app; [by eapply range_all_snoc|].
      eapply range_all_app; [by eapply range_all_snoc|]. by replace (i + 1 + 1) with (i + 2) by lia. }
    destruct (scan_name source fuel (i + 2)) as [j|e]; simpl in *; destruct IH as [Hj Hr];
      (split; [lia || done|by apply Hcat]).
  - pose proof (IHf fuel ltac:(lia) (i + 1) ltac:(lia) ltac:(lia)) as IH.
    assert (range_all source name_char i (i + 1)) as H1.
    { eapply range_all_snoc; [done|]. unfold name_char. by rewrite Ev. }
    destruct (scan_name source fuel (i + 1)) as [j|e]; simpl in *; destruct IH as [Hj Hr];
      (split; [lia || done|by eapply range_all_app]).
  - simpl. split; [lia | apply range_all_empty].
Qed.

(** A name ends where no character and no double colon continues it. *)
Definition name_ends (i : Z) : Prop :=
  exists c, source !! Z.to_nat i = Some c /\ VALID_IDENTIFIER_CHARS c = false
    /\ colons_at source i c = Ok false.
Lemma scan_name_ends fuel : forall i j, 0 <= i -> scan_name source fuel i = Ok j -> name_ends j.
Proof.
  induction fuel as [|fuel IH]; intros i j Hi; [done|]. cbn [scan_name].
  destruct (py_index_cases i Hi) as [(c&->&Hc&Hlt)|[-> _]]; [|done]. cbn [res_bind].
  destruct (colons_at source i c) as [[]|] eqn:Eb; cbn [res_bind]; [|destruct (VALID_IDENTIFIER_CHARS c) eqn:Ev|done].
  - apply IH. lia.
  - apply IH. lia.
  - intros [= <-]. by exists c.
Qed.

(** A name token takes at least one character. *)
Lemma scan_name_progress fuel i c j :
  0 <= i -> source !! Z.to_nat i = Some c -> i < slen -> slen - i < Z.of_nat fuel ->
  VALID_IDENTIFIER_CHARS c = true \/ colons_at source i c = Ok true ->
  scan_name source fuel i = Ok j -> i < j.
Proof.
  intros Hi Hc Hlt Hf Hv. destruct fuel as [|fuel]; [lia|]. simpl.
  destruct (py_index_cases i Hi) as [(c'&->&Hc'&_)|[_ ?]]; [|lia]. simplify_eq/=.
  destruct (colons_at_ok i c Hi Hc Hlt) as (b&Eb&Hb). rewrite Eb. simpl.
  destruct b.
  - destruct (Hb eq_refl) as (_&_&Hlt2).
    pose proof (scan_name_ok fuel (i + 2) ltac:(lia) ltac:(lia)) as Hsc.
    intros E. rewrite E in Hsc. simpl in Hsc. lia.
  - destruct Hv as [->|Hv]; [|congruence].
    pose proof (scan_name_ok fuel (i + 1) ltac:(lia) ltac:(lia)) as Hsc.
    intros E. rewrite E in Hsc. simpl in Hsc. lia.
Qed.

Lemma skip_suffix_ok l i : 0 <= i <= slen -> i <= skip_suffix source l i <= slen.
Proof.
  intros Hi. induction l as [|s l IH]; simpl; [lia|].
  destruct (String.eqb_spec s (str (map tolower
    (py_slice source i (i + Z.of_nat (String.length s)))))) as [E|]; [|done].
  apply (f_equal String.length) in E. unfold str in E.
  assert (forall l', String.length (String.string_of_list_ascii l') = length l') as Hlen.
  { intros l'. induction l'; simpl; congruence. }
  rewrite Hlen, length_map in E.
  destruct (py_slice_length i (i + Z.of_nat (String.length s)) ltac:(lia) ltac:(lia)) as [H|H].
  - lia.
  - rewrite H in E. simpl in E. lia.
Qed.

Lemma py_slice_lookup a b k :
  0 <= a -> a <= k < b -> k < slen -> py_slice source a b !! Z.to_nat (k - a) = source !! Z.to_nat k.
Proof.
  intros Ha Hk Hs. unfold py_slice. rewrite (slice_bound_id a) by lia.
  rewrite lookup_take_lt, lookup_drop; [f_equal; lia|].
  unfold slice_bound. assert ((b <? 0) = false) as -> by lia. unfold src_end in Hs. lia.
Qed.
Definition suffix_char (c : ascii) : bool := str_in (tolower c) "ulf".
Lemma skip_suffix_range l i :
  Forall (fun s => Forall (fun c => str_in c "ulf" = true) (chars s)) l ->
  0 <= i <= slen -> range_all source suffix_char i (skip_suffix source l i).
Proof.
  intros Hl Hi. induction Hl as [|s l Hs _ IH]; cbn; [apply range_all_empty|].
  destruct (String.eqb_spec s (str (map tolower (py_slice source i (i + Z.of_nat (String.length s))))))
    as [E|]; [|done].
  intros k c Hk Hc. pose proof (lookup_lt_Some _ _ _ Hc) as Hlt.
  assert (chars s !! Z.to_nat (k - i) = Some (tolower c)) as Hc'.
  { rewrite E at 1. unfold chars, str. rewrite list_ascii_of_string_of_list_ascii.
    change (map tolower ?l) with (tolower <$> l). rewrite list_lookup_fmap, py_slice_lookup by (unfold src_end; lia). by rewrite Hc. }
  exact (Forall_lookup_1 _ _ _ _ Hs Hc').
Qed.

(** ** Lexemes *)

(** Numbers start with a digit, or with a dot and a digit. *)
Definition number_char (c : ascii) : bool :=
  INT_OR_FLOAT_DIGITS2 c || HEX_DIGITS c || suffix_char c || str_in c "xX".
Definition syntax_char (c : ascii) : bool := str_in c ":+-<>&|*=()[]{}~!?^%;,.".
(** The two characters of an operator. *)
Definition operator_pair (c d : ascii) : bool :=
  Ascii.eqb d c || (Ascii.eqb c "-"%char && Ascii.eqb d ">"%char) || Ascii.eqb d "="%char.

(** What a token of a plain source is, between its indices: a name is made of
    identifier characters and colons, does not start with a digit, and goes on as
    long as it can; a number starts like one and has the characters of one; and
    everything else is an operator or a bracket of one or two characters. *)
Definition lexeme (ty : token_type) (a b : Z) : Prop :=
  exists c, source !! Z.to_nat a = Some c
  /\ match ty with
     | NAME => isdigit c = false /\ range_all source name_char a b /\ name_ends b
     | CONSTANT =>
         (isdigit c = true
          \/ c = "."%char /\ exists d, source !! Z.to_nat (a + 1) = Some d /\ isdigit d = true)
         /\ range_all source number_char a b
     | SYNTAX =>
         syntax_char c = true
         /\ (b = a + 1
             \/ b = a + 2 /\ exists d, source !! Z.to_nat (a + 1) = Some d /\ operator_pair c d = true)
     | UNKNOWN | PREPROCESSOR => False
     end.

(** The source ends in white space, so that nothing runs off its end. *)
Definition ends_in_space : Prop :=
  exists c, source !! Z.to_nat (slen - 1) = Some c /\ isspace c = true.
(** Characters that start no token. *)
Definition known_char (c : ascii) : bool :=
  isspace c || Ascii.eqb c backslash || VALID_IDENTIFIER_CHARS c || syntax_char c.

Lemma runs_off P i : 0 <= i < slen -> range_all source P i slen -> (forall c, isspace c = true -> P c = false) ->
  ~ ends_in_space.
Proof.
  intros Hi Hr HP (c&Hc&Hs). specialize (Hr (slen - 1) c ltac:(lia) Hc). by rewrite HP in Hr.
Qed.
Lemma next_runs_off i c : i < slen -> slen <= i + 1 -> source !! Z.to_nat i = Some c -> isspace c = false ->
  ~ ends_in_space.
Proof.
  intros Hi Hj Hc Hs (d&Hd&Hsd). replace (slen - 1) with i in Hd by lia. congruence.
Qed.

(** A branch of the main loop yields a token that ends after its start. *)
Definition branch_ok (i : Z) (r : res (token_type * Z)) : Prop :=
  match r with
  | Ok (ty, j) => i < j <= slen /\ lexeme ty i j
  | Raise e => e = IndexError /\ ~ ends_in_space
  end.
End bounds.

(** Facts about single characters. *)
Ltac by_char c := destruct c as [[] [] [] [] [] [] [] []]; vm_compute; first [done | by (intros; left) | by (intros; right)].
Lemma space_no_name c : isspace c = true -> name_char c = false.
Proof. by_char c. Qed.
Lemma space_no_float c : isspace c = true -> INT_OR_FLOAT_DIGITS c = false.
Proof. by_char c. Qed.
Lemma space_no_float2 c : isspace c = true -> INT_OR_FLOAT_DIGITS2 c = false.
Proof. by_char c. Qed.
Lemma space_no_hex c : isspace c = true -> HEX_DIGITS c = false.
Proof. by_char c. Qed.
Lemma operator_no_space c : str_in c ":+-<>&|*=" = true -> isspace c = false.
Proof. by_char c. Qed.
Lemma operator_syntax c : str_in c ":+-<>&|*=" = true -> syntax_char c = true.
Proof. by_char c. Qed.
Lemma single_syntax c : str_in c "()[]{}~!?^%;/.," = true -> Ascii.eqb c "/"%char = false -> syntax_char c = true.
Proof. by_char c. Qed.
Lemma digit_no_space c : isdigit c = true -> isspace c = false.
Proof. by_char c. Qed.
Lemma digit_float2 c : isdigit c = true -> INT_OR_FLOAT_DIGITS2 c = true.
Proof. by_char c. Qed.
Lemma digit_number c : isdigit c = true -> number_char c = true.
Proof. by_char c. Qed.
Lemma float_number c : INT_OR_FLOAT_DIGITS c = true -> number_char c = true.
Proof. by_char c. Qed.
Lemma float2_number c : INT_OR_FLOAT_DIGITS2 c = true -> number_char c = true.
Proof. by_char c. Qed.
Lemma hex_number c : HEX_DIGITS c = true -> number_char c = true.
Proof. by_char c. Qed.
Lemma suffix_number c : suffix_char c = true -> number_char c = true.
Proof. by_char c. Qed.
Lemma mark_number c : str_in c "xX" = true -> number_char c = true.
Proof. by_char c. Qed.
Lemma mark_no_space c : str_in c "xX" = true -> isspace c = false.
Proof. by_char c. Qed.
Lemma digit_valid c : isdigit c = true -> VALID_IDENTIFIER_CHARS c = true.
Proof. by_char c. Qed.

(** What separates two tokens of a plain source. *)
Definition blank (c : ascii) : bool := isspace c || Ascii.eqb c backslash.

(** The tokens from index [lo] on: each is a lexeme, the slice of the source
    between its [start] and its [end], they do not overlap and come in order, and
    only blanks lie between them. *)
Fixpoint tokens_from (source : list ascii) (lo : Z) (ts : list token) : Prop :=
  match ts with
  | [] => range_all source blank lo (src_end source)
  | t :: ts' =>
      exists a b, start t = Some a /\ tend t = Some b
        /\ lo <= a /\ a < b <= src_end source
        /\ name t = str (py_slice source a b)
        /\ lexeme source (tok_type t) a b
        /\ range_all source blank lo a
        /\ tokens_from source b ts'
  end.

Section plain_sources.
Context (source : list ascii) (Hplain : plain source).
#[local] Abbreviation slen := (src_end source).

Lemma plain_lookup k c :
  source !! k = Some c ->
  Ascii.eqb c quote = false /\ Ascii.eqb c apos = false
  /\ Ascii.eqb c "#"%char = false /\ Ascii.eqb c "/"%char = false.
Proof.
  intros Hk. pose proof (Forall_lookup_1 _ _ _ _ Hplain Hk) as H.
  unfold plain_char in H. apply negb_true_iff in H.
  by apply orb_false_iff in H as [[[H1 H2]%orb_false_iff H3]%orb_false_iff H4].
Qed.

Lemma name_branch_ok i c :
  0 <= i -> source !! Z.to_nat i = Some c -> i < slen -> isdigit c = false ->
  (VALID_IDENTIFIER_CHARS c && negb (isdigit c)) || false = true
    \/ colons_at source i c = Ok true ->
  branch_ok source i (name_branch source i).
Proof.
  intros Hi Hc Hlt Hd Hv. unfold name_branch.
  pose proof (scan_name_ok source (scan_fuel source) i ltac:(lia)
                ltac:(unfold scan_fuel, src_end; lia)) as Hs.
  destruct (scan_name source (scan_fuel source) i) as [j|e] eqn:E;
    cbn [res_bind scan_ok branch_ok] in *.
  2: { destruct Hs as [-> Hr]. split; [done|]. eapply runs_off; [|exact Hr|apply space_no_name]. lia. }
  destruct Hs as [Hj Hr]. pose proof (scan_name_ends source _ _ _ Hi E) as He.
  apply scan_name_progress with (c := c) in E; try done.
  2: { unfold scan_fuel, src_end. lia. }
  2: { destruct Hv as [Hv|Hv]; [left|by right]. rewrite orb_false_r in Hv.
       by apply andb_prop in Hv as [? _]. }
  destruct (py_index_cases source j ltac:(lia)) as [(d&->&Hd'&?)|[_ ?]]; [|lia]. cbn [res_bind].
  destruct (plain_lookup _ _ Hd') as (_&->&_&_). cbn. split; [lia|]. by exists c.
Qed.

Lemma syntax_branch_ok i c :
  0 <= i < slen -> source !! Z.to_nat i = Some c -> str_in c ":+-<>&|*=" = true ->
  branch_ok source i (syntax_branch source i c).
Proof.
  intros Hi Hc Hs. unfold syntax_branch. pose proof (operator_syntax c Hs) as Hy.
  destruct (py_index_cases source (i + 1) ltac:(lia)) as [(d&->&Hd&?)|[-> ?]]; cbn [res_bind].
  2: { split; [done|]. eapply (next_runs_off source i c); [lia|lia|done|by apply operator_no_space]. }
  assert (operator_pair c d = true -> branch_ok source i (Ok (SYNTAX, i + 2))) as H2.
  { intros Hp. split; [lia|]. exists c. split_and!; [done..|]. right. split; [done|]. by exists d. }
  unfold operator_pair in H2. destruct (Ascii.eqb d c); [by apply H2|].
  destruct (Ascii.eqb c "-" && Ascii.eqb d ">"); [by apply H2|].
  destruct (Ascii.eqb d "="); [by apply H2|]. split; [lia|]. exists c. split_and!; [done..|by left].
Qed.

(** A number goes on to the end of its digits, and of its suffix. *)
Lemma number_scan i k c (P : ascii -> bool) l :
  source !! Z.to_nat i = Some c -> 0 <= i < k -> k <= slen -> isspace c = false ->
  (k = slen -> ~ ends_in_space source) ->
  (isdigit c = true \/ c = "."%char /\ exists d, source !! Z.to_nat (i + 1) = Some d /\ isdigit d = true) ->
  range_all source number_char i k ->
  (forall c, P c = true -> number_char c = true) -> (forall c, isspace c = true -> P c = false) ->
  Forall (fun s => Forall (fun c => str_in c "ulf" = true) (chars s)) l ->
  branch_ok source i (i' <-? scan_set source P (scan_fuel source) k ;;
                      Ok (CONSTANT, skip_suffix source l i')).
Proof.
  intros Hc Hi Hk Hns Hend Hst Hr HP Hsp Hl.
  pose proof (scan_set_ok source P (scan_fuel source) k ltac:(lia)
                ltac:(unfold scan_fuel, src_end; lia)) as Hs.
  destruct (scan_set source P (scan_fuel source) k) as [j|e]; cbn [res_bind branch_ok scan_ok] in *.
  - destruct Hs as [Hj Hrj]. pose proof (skip_suffix_ok source l j ltac:(lia)). split; [lia|].
    exists c. split_and!; [done..|]. eapply range_all_app; [exact Hr|].
    eapply range_all_app; [exact (range_all_weaken _ _ _ _ _ HP Hrj)|].
    eapply range_all_weaken; [exact suffix_number|]. apply skip_suffix_range; [done|lia].
  - destruct Hs as [-> Hrj]. split; [done|]. destruct (decide (k = slen)) as [E|E]; [by apply Hend|].
    eapply runs_off; [|exact Hrj|exact Hsp]. lia.
Qed.
Local Ltac suffixes := repeat constructor.

Lemma single_branch_ok i c :
  0 <= i < slen -> source !! Z.to_nat i = Some c -> str_in c "()[]{}~!?^%;/.," = true ->
  branch_ok source i (single_branch source i c).
Proof.
  intros Hi Hc Hsy. destruct (plain_lookup _ _ Hc) as (_&_&_&Hsl).
  pose proof (single_syntax c Hsy Hsl) as Hy.
  assert (branch_ok source i (Ok (SYNTAX, i + 1))) as H1.
  { split; [lia|]. exists c. split_and!; [done..|by left]. }
  unfold single_branch. destruct (Ascii.eqb_spec c ".") as [->|]; cbn [res_bind]; [|done].
  destruct (py_index_cases source (i + 1) ltac:(lia)) as [(d&->&Hd&?)|[-> ?]]; cbn [res_bind].
  2: { split; [done|]. eapply (next_runs_off source i "."); [lia|lia|done|done]. }
  destruct (isdigit d) eqn:Ed; [|done].
  apply (number_scan i (i + 2) "."); try done; [lia|lia| | | |exact float_number|exact space_no_float|suffixes].
  - intros Hk. eapply (next_runs_off source (i + 1) d); [lia|lia|done|by apply digit_no_space].
  - right. split; [done|]. by exists d.
  - apply (range_all_app _ _ _ (i + 1)); [by eapply range_all_snoc|].
    replace (i + 2) with (i + 1 + 1) by lia. eapply range_all_snoc; [done|by apply digit_number].
Qed.

Lemma number_branch_ok i c :
  0 <= i < slen -> source !! Z.to_nat i = Some c -> isdigit c = true ->
  branch_ok source i (number_branch source i c).
Proof.
  intros Hi Hc Hd. unfold number_branch. pose proof (digit_no_space c Hd) as Hns.
  assert (range_all source number_char i (i + 1)) as Hr1
    by (eapply range_all_snoc; [done|by apply digit_number]).
  assert (forall l, Forall (fun s => Forall (fun c => str_in c "ulf" = true) (chars s)) l ->
    branch_ok source i (i' <-? scan_set source INT_OR_FLOAT_DIGITS2 (scan_fuel source) i ;;
                        Ok (CONSTANT, skip_suffix source l i'))) as Hplain_number.
  { intros l Hl. assert (scan_set source INT_OR_FLOAT_DIGITS2 (scan_fuel source) i
        = scan_set source INT_OR_FLOAT_DIGITS2 (length source) (i + 1)) as ->.
    { unfold scan_fuel. cbn [scan_set]. destruct (py_index_cases source i ltac:(lia)) as [(c'&->&Hc'&_)|[_ ?]]; [|lia].
      cbn [res_bind]. rewrite Hc in Hc'. injection Hc' as <-. by rewrite digit_float2. }
    pose proof (scan_set_ok source INT_OR_FLOAT_DIGITS2 (length source) (i + 1) ltac:(lia)
                  ltac:(unfold src_end in *; lia)) as Hs.
    destruct (scan_set source INT_OR_FLOAT_DIGITS2 (length source) (i + 1)) as [j|e]; cbn [res_bind branch_ok scan_ok] in *.
    - destruct Hs as [Hj Hrj]. pose proof (skip_suffix_ok source l j ltac:(lia)). split; [lia|].
      exists c. split_and!; [done|by left|]. eapply range_all_app; [exact Hr1|].
      eapply range_all_app; [exact (range_all_weaken _ _ _ _ _ float2_number Hrj)|].
      eapply range_all_weaken; [exact suffix_number|]. apply skip_suffix_range; [done|lia].
    - destruct Hs as [-> Hrj]. split; [done|].
      eapply (runs_off source INT_OR_FLOAT_DIGITS2 i); [lia| |exact space_no_float2].
      eapply range_all_app; [eapply range_all_snoc; [done|by apply digit_float2]|exact Hrj]. }
  destruct (Ascii.eqb c "0"); cbn [res_bind]; [|apply Hplain_number; suffixes].
  destruct (py_index_cases source (i + 1) ltac:(lia)) as [(d&->&Hd'&?)|[-> ?]]; cbn [res_bind].
  2: { split; [done|]. eapply (next_runs_off source i c); [lia|lia|done|done]. }
  destruct (str_in d "xX") eqn:Ex; [|apply Hplain_number; suffixes].
  apply (number_scan i (i + 2) c); try done; [lia|lia| |by left| |exact hex_number|exact space_no_hex|suffixes].
  - intros Hk. eapply (next_runs_off source (i + 1) d); [lia|lia|done|by apply mark_no_space].
  - eapply range_all_app; [exact Hr1|]. replace (i + 2) with (i + 1 + 1) by lia.
    eapply range_all_snoc; [done|by apply mark_number].
Qed.

Definition step_ok (i0 : Z) (st : pp_state) (r : res step_result) : Prop :=
  match r with
  | Ok Done => range_all source blank i0 slen
  | Ok (Continue j st') => st' = st /\ i0 < j <= slen /\ range_all source blank i0 j
  | Ok (Yield t j st') =>
      st' = st /\ exists a, start t = Some a /\ tend t = Some j /\ i0 <= a /\ a < j <= slen
        /\ name t = str (py_slice source a j) /\ lexeme source (tok_type t) a j
        /\ range_all source blank i0 a
  | Raise e => (e = IndexError /\ ~ ends_in_space source)
      \/ (e = RuntimeError /\ Exists (fun c => known_char c = false) source)
  end.

Lemma emit_branch_ok i0 i st r :
  0 <= i0 <= i -> range_all source blank i0 i -> branch_ok source i r ->
  step_ok i0 st (emit_branch source i st r).
Proof.
  intros Hi Hr Hb. destruct r as [[ty j]|e]; simpl in *; [|by left]. destruct Hb as [Hj Hl].
  unfold emit. simpl. assert ((j <=? 0) = false) as -> by lia. simpl. split; [done|].
  exists i. split_and!; try done; lia.
Qed.
(** A character that no branch takes starts no token. *)
Lemma unknown_char c :
  isspace c = false -> Ascii.eqb c backslash = false -> VALID_IDENTIFIER_CHARS c && negb (isdigit c) = false ->
  isdigit c = false -> str_in c ":+-<>&|*=" = false -> str_in c "()[]{}~!?^%;/.," = false ->
  known_char c = false.
Proof. by_char c. Qed.

(** White space is skipped, up to a character that is none. *)
Lemma skip_space_stops fuel : forall i j c, 0 <= i -> skip_space source fuel i = Ok j -> j < slen ->
  source !! Z.to_nat j = Some c -> isspace c = false.
Proof.
  induction fuel as [|fuel IH]; intros i j c Hi; [done|]. cbn [skip_space].
  destruct (Z.ltb_spec i slen).
  - destruct (py_index_cases source i Hi) as [(d&->&Hd&_)|[_ ?]]; [|lia]. cbn [res_bind].
    destruct (isspace d) eqn:Ed; [apply IH; lia|]. intros [= <-] _ Hc. congruence.
  - intros [= <-] Hlt. lia.
Qed.

Lemma step_plain_ok i0 st :
  0 <= i0 < slen -> ignore_errors st = false -> step_ok i0 st (step source i0 st).
Proof.
  intros Hi0 Hig. unfold step.
  destruct (skip_space_ok source (scan_fuel source) i0 ltac:(lia)
              ltac:(unfold scan_fuel, src_end; lia)) as (i&Esk&Hi&Hr). rewrite Esk. cbn [res_bind].
  apply (range_all_weaken _ _ blank) in Hr; [|unfold blank; by intros ? ->].
  destruct (Z.leb_spec slen i).
  { simpl. by replace slen with i by lia. }
  destruct (py_index_cases source i ltac:(lia)) as [(c&->&Hc&Hlt)|[_ ?]]; [|lia].
  cbn [res_bind].
  destruct (colons_at_ok source i c ltac:(lia) Hc Hlt) as (b&Eb&Hb). rewrite Eb. cbn [res_bind].
  destruct (plain_lookup _ _ Hc) as (Hq&Ha&Hh&Hs).
  destruct ((VALID_IDENTIFIER_CHARS c && negb (isdigit c)) || b) eqn:Ev.
  { apply emit_branch_ok; [lia | done |]. eapply name_branch_ok; [lia | done | done | |].
    - destruct b; [by destruct (Hb eq_refl) as (->&_)|]. rewrite orb_false_r in Ev.
      by apply andb_prop in Ev as [_ ?%negb_true_iff].
    - destruct b; [by right|left]. by rewrite orb_false_r in Ev |- *. }
  rewrite Hs. cbn [res_bind].
  replace (Ascii.eqb nl "/") with false by reflexivity.
  replace (Ascii.eqb nl "*") with false by reflexivity.
  destruct (str_in c ":+-<>&|*=") eqn:E1;
    [apply emit_branch_ok; [lia | done | apply syntax_branch_ok; [lia|done|done]]|].
  destruct (str_in c "()[]{}~!?^%;/.,") eqn:E2;
    [apply emit_branch_ok; [lia | done | apply single_branch_ok; [lia|done|done]]|].
  destruct (isdigit c) eqn:Ed;
    [apply emit_branch_ok; [lia | done | apply number_branch_ok; [lia|done|done]]|].
  rewrite Hq, Ha, Hh. destruct (Ascii.eqb c backslash) eqn:Ebs.
  - simpl. split; [done|]. split; [lia|]. eapply range_all_app; [done|].
    eapply range_all_snoc; [done|]. unfold blank. rewrite Ebs. apply orb_true_r.
  - rewrite Hig. right. split; [done|]. apply Exists_exists. exists c.
    split; [by eapply list_elem_of_lookup_2|]. apply orb_false_iff in Ev as [Ev _].
    apply unknown_char; try done; [eapply skip_space_stops; [|exact Esk|lia|exact Hc]; lia|by rewrite Ed].
Qed.

Lemma GetTokens_loop_plain fuel i st :
  0 <= i <= slen -> slen - i < Z.of_nat fuel -> ignore_errors st = false ->
  match GetTokens_loop source fuel i st with
  | Ok ts => tokens_from source i ts
  | Raise e => (e = IndexError /\ ~ ends_in_space source)
      \/ (e = RuntimeError /\ Exists (fun c => known_char c = false) source)
  end.
Proof.
  revert i. induction fuel as [|fuel IH]; intros i Hi Hf Hig; [lia|]. simpl.
  destruct (Z.ltb_spec i slen).
  2: { simpl. replace i with slen by lia. apply range_all_empty. }
  pose proof (step_plain_ok i st ltac:(lia) Hig) as Hstep.
  destruct (step source i st) as [[|j st'|t j st']|e]; cbn [res_bind step_ok] in *; try done.
  - destruct Hstep as (->&Hj&Hr). specialize (IH j ltac:(lia) ltac:(lia) Hig).
    destruct (GetTokens_loop source fuel j st) as [[|t ts]|e]; try done; simpl in *.
    + by eapply range_all_app.
    + destruct IH as (a&b&?&?&?&?&?&?&?&?). exists a, b. split_and!; try done; try lia.
      by eapply range_all_app.
  - destruct Hstep as (->&a&?&?&?&?&?&?&?). specialize (IH j ltac:(lia) ltac:(lia) Hig).
    destruct (GetTokens_loop source fuel j st) as [ts|e]; simpl; [|done].
    exists a, j. split_and!; done || lia.
Qed.
End plain_sources.



(** An unterminated comment past the first character makes the tokenizer
    loop for ever: [source.find] returns -1, so the index falls back to 1, and
    the same comment is met again.  No amount of fuel gives a result for the
    type string [a /* b]. *)
Theorem GetTokens_unterminated_comment_diverges (fuel : nat) (st : pp_state) :
  GetTokens_loop (chars ("a /* b" +:+ nls)) fuel 0 st = Raise OutOfFuel.
Proof.
  assert (forall n st', GetTokens_loop (chars ("a /* b" +:+ nls)) n 1 st' = Raise OutOfFuel) as H.
  { intros n. induction n as [|n IH]; intros st'; [done|].
    change (GetTokens_loop (chars ("a /* b" +:+ nls)) n 1 st' = Raise OutOfFuel). apply IH. }
  destruct fuel as [|fuel]; [done|].
  transitivity (ts <-? GetTokens_loop (chars ("a /* b" +:+ nls)) fuel 1 st ;;
                Ok (Token NAME "a" (Some 0) (Some 1) :: ts)); [reflexivity|].
  by rewrite H.
Qed.
