(* ===== verification/CTypeParser.v ===== *)
(** * C types: [pybindgen/typehandlers/ctypeparser/__init__.py]

    A [CType] is the list of its items, an item being a token or, for template
    arguments and function-pointer parts, a nested [CType].  The [Token] objects
    of a type are distinct objects, so that [token not in tokens_moved] is
    modelled by a mark on the item that has been moved. *)
From S2P Require Import Prelude.
From S2P Require Import Tokenizer.

#[local] Set Warnings "-register-all".

Inductive citem : Type :=
  | Tok (t : token)
  | Sub (tokens : list citem).

Definition ctype : Type := list citem.

(** The induction principle through the nested lists. *)
Section citem_ind.
Context (P : citem -> Prop).
Hypothesis HTok : forall t, P (Tok t).
Hypothesis HSub : forall l, Forall P l -> P (Sub l).
Fixpoint citem_nested_ind (x : citem) : P x :=
  match x with
  | Tok t => HTok t
  | Sub l =>
      HSub l ((fix go (l : list citem) : Forall P l :=
                 match l with
                 | [] => Forall_nil_2 P
                 | y :: l' => Forall_cons_2 P y l' (citem_nested_ind y) (go l')
                 end) l)
  end.
End citem_ind.

Definition MODIFIERS : list string := ["const"; "volatile"].

(** [not isinstance(token, CType) and token.name == modifier] *)
Definition is_named (m : string) (x : citem) : bool :=
  match x with Tok t => String.eqb (name t) m | Sub _ => false end.
Definition is_ptr_ref (x : citem) : bool :=
  match x with Tok t => mem_str (name t) ["*"; "&"] | Sub _ => false end.

(** ** Moving the modifiers *)

(** The first occurrence of [modifier] not moved yet: what is before it, the
    item, what is after it. *)
Fixpoint find_unmoved (m : string) (l : list (bool * citem))
    : option (list (bool * citem) * citem * list (bool * citem)) :=
  match l with
  | [] => None
  | (moved, x) :: l' =>
      if is_named m x && negb moved then Some ([], x, l')
      else match find_unmoved m l' with
           | Some (pre, y, post) => Some ((moved, x) :: pre, y, post)
           | None => None
           end
  end.

(** Insert before the first pointer or reference, or at the end. *)
Fixpoint insert_before_ptr (x : bool * citem) (l : list (bool * citem)) :=
  match l with
  | [] => [x]
  | y :: l' => if is_ptr_ref y.2 then x :: l else y :: insert_before_ptr x l'
  end.

Fixpoint reorder_loop (m : string) (fuel : nat) (l : list (bool * citem))
    : res (list (bool * citem)) :=
  match fuel with
  | O => Raise OutOfFuel
  | S fuel' =>
      match find_unmoved m l with
      | Some (pre, x, post) =>
          reorder_loop m fuel' (pre ++ insert_before_ptr (true, x) post)
      | None => Ok l
      end
  end.

Definition reorder_modifier (m : string) (c : ctype) : res ctype :=
  l <-? reorder_loop m (S (length c)) (map (pair false) c) ;; Ok (map snd l).

Definition reorder_modifiers (c : ctype) : res ctype :=
  c1 <-? reorder_modifier "const" c ;; reorder_modifier "volatile" c1.

(** ** Removing modifiers *)

Fixpoint remove_first_named (m : string) (c : ctype) : option ctype :=
  match c with
  | [] => None
  | x :: c' => if is_named m x then Some c'
               else match remove_first_named m c' with
                    | Some r => Some (x :: r)
                    | None => None
                    end
  end.

Fixpoint remove_modifier_loop (m : string) (fuel : nat) (c : ctype) (removed : bool)
    : res (ctype * bool) :=
  match fuel with
  | O => Raise OutOfFuel
  | S fuel' =>
      match remove_first_named m c with
      | Some c' => remove_modifier_loop m fuel' c' true
      | None => Ok (c, removed)
      end
  end.

Definition remove_modifier (m : string) (c : ctype) : res (ctype * bool) :=
  remove_modifier_loop m (S (length c)) c false.

(** The remaining type and the set of the modifiers that were there. *)
Definition remove_modifiers (c : ctype) : res (ctype * list string) :=
  r1 <-? remove_modifier "const" c ;;
  r2 <-? remove_modifier "volatile" r1.1 ;;
  Ok (r2.1, (if r1.2 : bool then ["const"] else []) ++
            (if r2.2 : bool then ["volatile"] else [])).

(** From right to left: delete the last token of that name. *)
Definition remove_outer_modifier (m : string) (c : ctype) : ctype * bool :=
  match remove_first_named m (rev c) with
  | Some r => (rev r, true)
  | None => (c, false)
  end.

(** ** Printing *)

(** [token.name in "<,"], a substring test *)
Definition glued (n : string) : bool := mem_str n [EmptyString; "<"; ","; "<,"].

Fixpoint show_item (first : bool) (x : citem) : string :=
  match x with
  | Tok t => if glued (name t) then name t
             else if first then name t else " " +:+ name t
  | Sub l =>
      (if first then EmptyString else " ") +:+
      (fix go (f : bool) (l : list citem) : string :=
         match l with
         | [] => EmptyString
         | y :: l' => show_item f y +:+ go false l'
         end) true l
  end.

Fixpoint show_items (first : bool) (l : list citem) : string :=
  match l with
  | [] => EmptyString
  | y :: l' => show_item first y +:+ show_items false l'
  end.

(** [str(ctype)] *)
Definition show (c : ctype) : string := show_items true c.

(** ** Parsing *)

Definition strip_global (t : token) : token :=
  match name t with
  | String ":" (String ":" n) => Token (tok_type t) n (start t) (tend t)
  | _ => t
  end.

(** [parse_type_recursive] carries the items read so far; [parse_arguments] is
    the inner [while 1] over the nested types.  Both return the list of tokens
    that are left, the code's shared list. *)
Fixpoint parse_type_recursive (fuel : nat) (acc : ctype) (tokens : list token)
    : res (ctype * option token * list token) :=
  match fuel with
  | O => Raise OutOfFuel
  | S fuel' =>
      match tokens with
      | [] => c <-? reorder_modifiers acc ;; Ok (c, None, [])
      | t0 :: rest =>
          let t := strip_global t0 in
          if decide (tok_type t = SYNTAX) then
            if mem_str (name t) [","; ">"; ")"] then
              c <-? reorder_modifiers acc ;; Ok (c, Some t, rest)
            else if mem_str (name t) ["<"; "("] then
              r <-? parse_arguments fuel' (acc ++ [Tok t]) rest ;;
              parse_type_recursive fuel' r.1 r.2
            else parse_type_recursive fuel' (acc ++ [Tok t]) rest
          else parse_type_recursive fuel' (acc ++ [Tok t]) rest
      end
  end
with parse_arguments (fuel : nat) (acc : ctype) (tokens : list token)
    : res (ctype * list token) :=
  match fuel with
  | O => Raise OutOfFuel
  | S fuel' =>
      r <-? parse_type_recursive fuel' [] tokens ;;
      match r with
      | (_, None, _) => Raise AttributeError
      | (nested, Some last, rest) =>
          let acc' := acc ++ [Sub nested; Tok last] in
          if String.eqb (name last) "," then parse_arguments fuel' acc' rest
          else if mem_str (name last) [">"; ")"] then Ok (acc', rest)
          else Raise AssertionError
      end
  end.

Definition parse_tokens (tokens : list token) : res ctype :=
  r <-? parse_type_recursive (2 * length tokens + 2) [] tokens ;;
  match r with
  | (c, None, _) => Ok c
  | (_, Some _, _) => Raise AssertionError
  end.

Definition parse_type (type_string : string) : res ctype :=
  tokens <-? GetTokens (chars (type_string +:+ nls)) ;; parse_tokens tokens.

Definition normalize_type_string (type_string : string) : res string :=
  c <-? parse_type type_string ;; Ok (show c).

(** ** Type traits *)

Record type_traits : Type := TypeTraits {
  tt_ctype : ctype;
  tt_ctype_no_modifiers : ctype;
  tt_ctype_no_const : ctype;
  type_is_const : bool;
  type_is_reference : bool;
  type_is_pointer : bool;
  target_is_const : bool;
  target : option ctype
}.

(** The locals of the loop over the reversed tokens. *)
Record traits_loop : Type := TraitsLoop {
  tl_level : Z;
  tl_const : bool; tl_ref : bool; tl_ptr : bool; tl_target_const : bool;
  tl_no_const : ctype;
  tl_target_pos : option nat
}.

Definition traits_step (s : traits_loop) (pos : nat) (x : citem) : res traits_loop :=
  let 'TraitsLoop lvl c r p tc nc tp := s in
  if is_named "const" x then
    if lvl =? 0 then
      let '(nc', removed) := remove_outer_modifier "const" nc in
      if removed : bool then Ok (TraitsLoop lvl true r p tc nc' tp)
      else Raise AssertionError
    else if lvl =? 1 then Ok (TraitsLoop lvl c r p true nc tp)
    else Ok s
  else if is_named "*" x then
    if lvl =? 0 then Ok (TraitsLoop (lvl + 1) c r true tc nc (Some (pos + 1)%nat))
    else Ok (TraitsLoop (lvl + 1) c r p tc nc tp)
  else if is_named "&" x then
    if lvl =? 0 then Ok (TraitsLoop (lvl + 1) c true p tc nc (Some (pos + 1)%nat))
    else Ok (TraitsLoop (lvl + 1) c r p tc nc tp)
  else Ok s.

Fixpoint traits_loop_run (s : traits_loop) (pos : nat) (l : list citem) : res traits_loop :=
  match l with
  | [] => Ok s
  | x :: l' => s' <-? traits_step s pos x ;; traits_loop_run s' (S pos) l'
  end.

Definition traits_of_ctype (c : ctype) : res type_traits :=
  nm <-? remove_modifiers c ;;
  s <-? traits_loop_run (TraitsLoop 0 false false false false c None) 0 (rev c) ;;
  tgt <-? match tl_target_pos s with
          | None => Ok None
          | Some p => r <-? remove_modifiers (rev (drop p (rev c))) ;; Ok (Some r.1)
          end ;;
  Ok (TypeTraits c nm.1 (tl_no_const s) (tl_const s) (tl_ref s) (tl_ptr s)
        (tl_target_const s) tgt).

(** [TypeTraits(type_string)] *)
Definition TypeTraits_init (type_string : string) : res type_traits :=
  c <-? parse_type type_string ;; traits_of_ctype c.

Definition const_token : token := Token NAME "const" None None.

Definition make_const (t : type_traits) : type_traits :=
  if type_is_const t then t
  else TypeTraits (tt_ctype t ++ [Tok const_token]) (tt_ctype_no_modifiers t)
         (tt_ctype_no_const t) true (type_is_reference t) (type_is_pointer t)
         (target_is_const t) (target t).

(** Insert before the last pointer or reference token, if there is one. *)
Fixpoint insert_after_ptr (x : citem) (l : list citem) : list citem :=
  match l with
  | [] => []
  | y :: l' => if is_ptr_ref y then y :: x :: l' else y :: insert_after_ptr x l'
  end.
Definition insert_target_const (c : ctype) : ctype :=
  rev (insert_after_ptr (Tok const_token) (rev c)).

Definition make_target_const (t : type_traits) : res type_traits :=
  if type_is_pointer t || type_is_reference t then
    if target_is_const t then Ok t
    else Ok (TypeTraits (insert_target_const (tt_ctype t)) (tt_ctype_no_modifiers t)
               (insert_target_const (tt_ctype_no_const t)) (type_is_const t)
               (type_is_reference t) (type_is_pointer t) true (target t))
  else Raise AssertionError.

(** ** Specification of the reordering

    [settle m pend l] is the one-pass description of what moving the modifiers
    to the right means: the occurrences of [m] met so far wait in [pend] and are
    put down before the next pointer or reference, or at the end. *)
Fixpoint settle (m : string) (pend : ctype) (l : ctype) : ctype :=
  match l with
  | [] => pend
  | x :: r =>
      if is_named m x then settle m (pend ++ [x]) r
      else if is_ptr_ref x then pend ++ x :: settle m [] r
      else x :: settle m pend r
  end.

(** Both modifiers at once. *)
Fixpoint settle2 (cs vs : ctype) (l : ctype) : ctype :=
  match l with
  | [] => cs ++ vs
  | x :: r =>
      if is_named "const" x then settle2 (cs ++ [x]) vs r
      else if is_named "volatile" x then settle2 cs (vs ++ [x]) r
      else if is_ptr_ref x then cs ++ vs ++ x :: settle2 [] [] r
      else x :: settle2 cs vs r
  end.

Definition canonical (c : ctype) : ctype := settle2 [] [] c.

(** [settle] on a list with marks, a marked item being an ordinary one. *)
Fixpoint settle_marked (m : string) (pend : ctype) (l : list (bool * citem)) : ctype :=
  match l with
  | [] => pend
  | (moved, x) :: r =>
      if is_named m x && negb moved then settle_marked m (pend ++ [x]) r
      else if is_ptr_ref x then pend ++ x :: settle_marked m [] r
      else x :: settle_marked m pend r
  end.

Definition unmoved (m : string) (y : bool * citem) : bool := is_named m y.2 && negb y.1.

Definition count_unmoved (m : string) (l : list (bool * citem)) : nat :=
  length (List.filter (unmoved m) l).

(** A modifier name is neither a pointer nor a reference. *)
Definition modifier_name (m : string) : Prop := mem_str m ["*"; "&"] = false.

Lemma is_named_not_ptr m x :
  modifier_name m -> is_named m x = true -> is_ptr_ref x = false.
Proof.
  unfold modifier_name. destruct x as [t|l]; simpl; [|done].
  by intros H ->%String.eqb_eq.
Qed.

Section reorder.
Context (m : string) (Hm : modifier_name m).

Lemma find_unmoved_Some l pre x post :
  find_unmoved m l = Some (pre, x, post) ->
  l = pre ++ (false, x) :: post /\ is_named m x = true
  /\ count_unmoved m pre = 0%nat.
Proof.
  revert pre. induction l as [|[b y] l IH]; intros pre; simpl; [done|].
  destruct (is_named m y && negb b) eqn:E.
  - intros [= <- <- <-]. apply andb_prop in E as [E1 E2].
    by destruct b.
  - destruct (find_unmoved m l) as [[[pre' x'] post']|]; [|done].
    intros [= <- -> ->]. destruct (IH pre') as (->&Hx&Hc); [done|].
    repeat split; try done. unfold count_unmoved in *. simpl.
    unfold unmoved at 1. simpl. by rewrite E.
Qed.

Lemma find_unmoved_None l :
  find_unmoved m l = None -> count_unmoved m l = 0%nat.
Proof.
  induction l as [|[b y] l IH]; simpl; [done|].
  unfold count_unmoved in *. simpl. unfold unmoved at 1. simpl.
  destruct (is_named m y && negb b); [done|].
  by destruct (find_unmoved m l) as [[[??]?]|]; [|intros _; apply IH].
Qed.

Lemma count_unmoved_insert x l :
  count_unmoved m (insert_before_ptr (true, x) l) = count_unmoved m l.
Proof.
  unfold count_unmoved. induction l as [|y l IH]; simpl.
  - unfold unmoved. simpl. by rewrite andb_false_r.
  - destruct (is_ptr_ref y.2); simpl.
    + unfold unmoved at 1. simpl. by rewrite andb_false_r.
    + destruct (unmoved m y); simpl; by rewrite IH.
Qed.

Lemma count_unmoved_app l1 l2 :
  count_unmoved m (l1 ++ l2) = (count_unmoved m l1 + count_unmoved m l2)%nat.
Proof. unfold count_unmoved. by rewrite List.filter_app, length_app. Qed.

(** Putting the first unmoved modifier down does not change what the list
    settles to. *)
Lemma settle_marked_insert x post pend :
  is_named m x = true ->
  settle_marked m (x :: pend) post =
  settle_marked m pend (insert_before_ptr (true, x) post).
Proof.
  intros Hx. pose proof (is_named_not_ptr m x Hm Hx) as Hnp.
  revert pend. induction post as [|[b y] post IH]; intros pend.
  - simpl. by rewrite Hx, Hnp.
  - simpl. destruct (is_ptr_ref y) eqn:Ey.
    + assert (is_named m y = false) as Hy.
      { destruct (is_named m y) eqn:E; [|done].
        by rewrite (is_named_not_ptr m y) in Ey. }
      simpl. by rewrite Hx, Hy, Hnp, Ey.
    + simpl. rewrite Ey. destruct (is_named m y && negb b).
      * apply (IH (pend ++ [y])).
      * by rewrite IH.
Qed.

Lemma settle_marked_pre pre pend :
  count_unmoved m pre = 0%nat ->
  exists pre' pend', forall post : list (bool * citem),
    settle_marked m pend (pre ++ post) = pre' ++ settle_marked m pend' post
    /\ (pend = [] -> pend' = []).
Proof.
  revert pend. induction pre as [|[b y] pre IH]; intros pend Hc.
  - exists [], pend. done.
  - unfold count_unmoved in Hc. simpl in Hc. unfold unmoved at 1 in Hc. simpl in Hc.
    destruct (is_named m y && negb b) eqn:E; [done|].
    destruct (is_ptr_ref y) eqn:Ey.
    + destruct (IH [] Hc) as (pre'&pend'&H). exists (pend ++ y :: pre'), pend'.
      intros post'. simpl. rewrite E, Ey. destruct (H post') as [-> Hp].
      split; [by rewrite <- app_assoc | intros _; by apply Hp].
    + destruct (IH pend Hc) as (pre'&pend'&H). exists (y :: pre'), pend'.
      intros post'. simpl. rewrite E, Ey. by destruct (H post') as [-> Hp].
Qed.

Lemma settle_marked_done pend l :
  count_unmoved m l = 0%nat -> pend = [] -> settle_marked m pend l = map snd l.
Proof.
  intros Hc ->. induction l as [|[b y] l IH]; simpl; [done|].
  unfold count_unmoved in Hc. simpl in Hc. unfold unmoved at 1 in Hc. simpl in Hc.
  destruct (is_named m y && negb b) eqn:E; [done|].
  rewrite IH by done. by destruct (is_ptr_ref y).
Qed.

Lemma settle_marked_fresh pend l :
  settle_marked m pend (map (pair false) l) = settle m pend l.
Proof.
  revert pend. induction l as [|x l IH]; intros pend; simpl; [done|].
  rewrite andb_true_r, !IH. done.
Qed.

Lemma reorder_loop_correct fuel l :
  (count_unmoved m l < fuel)%nat ->
  exists l', reorder_loop m fuel l = Ok l' /\ map snd l' = settle_marked m [] l.
Proof.
  revert l. induction fuel as [|fuel IH]; intros l Hf; [lia|]. simpl.
  destruct (find_unmoved m l) as [[[pre x] post]|] eqn:E.
  - apply find_unmoved_Some in E as (->&Hx&Hc).
    rewrite count_unmoved_app in Hf. unfold count_unmoved at 2 in Hf.
    simpl in Hf. unfold unmoved at 1 in Hf. simpl in Hf. rewrite Hx in Hf. simpl in Hf.
    destruct (IH (pre ++ insert_before_ptr (true, x) post)) as (l'&El&Hl).
    { rewrite count_unmoved_app, count_unmoved_insert. unfold count_unmoved in *. lia. }
    exists l'. split; [done|]. rewrite Hl.
    destruct (settle_marked_pre pre [] Hc) as (pre'&pend'&H).
    destruct (H (insert_before_ptr (true, x) post)) as [-> Hp].
    destruct (H ((false, x) :: post)) as [-> _].
    rewrite Hp by done. simpl. rewrite Hx. simpl.
    by rewrite settle_marked_insert.
  - apply find_unmoved_None in E. exists l. split; [done|].
    by rewrite settle_marked_done.
Qed.

Lemma reorder_modifier_settle c : reorder_modifier m c = Ok (settle m [] c).
Proof.
  unfold reorder_modifier.
  destruct (reorder_loop_correct (S (length c)) (map (pair false) c)) as (l'&->&Hl).
  { unfold count_unmoved. pose proof (List.filter_length_le (unmoved m) (map (pair false) c)).
    rewrite length_map in *. lia. }
  simpl. by rewrite Hl, settle_marked_fresh.
Qed.
End reorder.

Lemma modifier_const : modifier_name "const". Proof. reflexivity. Qed.
Lemma modifier_volatile : modifier_name "volatile". Proof. reflexivity. Qed.

Lemma is_named_excl m1 m2 x :
  m1 <> m2 -> is_named m1 x = true -> is_named m2 x = false.
Proof.
  destruct x as [t|l]; simpl; [|done]. intros Hne ->%String.eqb_eq.
  by apply String.eqb_neq.
Qed.

(** Items that wait: they are modifiers of the given name. *)
Definition all_named (m : string) (l : ctype) : Prop := Forall (fun x => is_named m x = true) l.

Lemma settle_app_pend m pend vs r :
  all_named m vs -> settle m pend (vs ++ r) = settle m (pend ++ vs) r.
Proof.
  intros H. revert pend. induction H as [|x vs Hx H IH]; intros pend; simpl.
  - by rewrite app_nil_r.
  - by rewrite Hx, IH, <- app_assoc.
Qed.

Lemma settle_app_other m m' pend cs r :
  m <> m' -> modifier_name m' -> all_named m' cs ->
  settle m pend (cs ++ r) = cs ++ settle m pend r.
Proof.
  intros Hne Hm' H. induction H as [|x cs Hx H IH]; simpl; [done|].
  rewrite (is_named_excl m' m) by done.
  by rewrite (is_named_not_ptr m') , IH.
Qed.

Lemma all_named_snoc m l x : all_named m l -> is_named m x = true -> all_named m (l ++ [x]).
Proof. intros H Hx. apply Forall_app. split; [done | by repeat constructor]. Qed.

Lemma settle_settle2 cs vs l :
  all_named "const" cs -> all_named "volatile" vs ->
  settle "volatile" vs (settle "const" cs l) = settle2 cs vs l.
Proof.
  revert cs vs. induction l as [|x l IH]; intros cs vs Hc Hv; simpl.
  - rewrite <- (app_nil_r cs) at 1.
    rewrite (settle_app_other _ "const") by done. done.
  - destruct (is_named "const" x) eqn:Ec.
    + rewrite IH; [done | by apply all_named_snoc | done].
    + destruct (is_ptr_ref x) eqn:Ep.
      * assert (is_named "volatile" x = false) as Ev.
        { destruct (is_named "volatile" x) eqn:E; [|done].
          by rewrite (is_named_not_ptr "volatile") in Ep. }
        rewrite (settle_app_other _ "const") by done. simpl. rewrite Ev, Ep.
        by rewrite IH by constructor.
      * simpl. destruct (is_named "volatile" x) eqn:Ev.
        -- rewrite IH; [done | done | by apply all_named_snoc].
        -- rewrite Ep. by rewrite IH.
Qed.

Lemma reorder_modifiers_canonical c : reorder_modifiers c = Ok (canonical c).
Proof.
  unfold reorder_modifiers, canonical.
  rewrite reorder_modifier_settle by apply modifier_const. simpl.
  rewrite reorder_modifier_settle by apply modifier_volatile.
  rewrite settle_settle2; [done | constructor | constructor].
Qed.

Lemma settle2_consts a cs r :
  all_named "const" cs -> settle2 a [] (cs ++ r) = settle2 (a ++ cs) [] r.
Proof.
  intros H. revert a. induction H as [|x cs Hx H IH]; intros a; simpl.
  - by rewrite app_nil_r.
  - by rewrite Hx, IH, <- app_assoc.
Qed.

Lemma settle2_volatiles a b vs r :
  all_named "volatile" vs -> settle2 a b (vs ++ r) = settle2 a (b ++ vs) r.
Proof.
  intros H. revert b. induction H as [|x vs Hx H IH]; intros b; simpl.
  - by rewrite app_nil_r.
  - by rewrite (is_named_excl "volatile" "const"), Hx, IH, <- app_assoc.
Qed.

Lemma settle2_pending cs vs r :
  all_named "const" cs -> all_named "volatile" vs ->
  canonical (cs ++ vs ++ r) = settle2 cs vs r.
Proof.
  intros Hc Hv. unfold canonical. rewrite settle2_consts by done.
  by rewrite settle2_volatiles.
Qed.

Lemma canonical_settle2 cs vs l :
  all_named "const" cs -> all_named "volatile" vs ->
  canonical (settle2 cs vs l) = settle2 cs vs l.
Proof.
  revert cs vs. induction l as [|x l IH]; intros cs vs Hc Hv; simpl.
  - rewrite <- (app_nil_r vs) at 1. by rewrite settle2_pending.
  - destruct (is_named "const" x) eqn:Ec.
    { apply IH; [by apply all_named_snoc | done]. }
    destruct (is_named "volatile" x) eqn:Ev.
    { apply IH; [done | by apply all_named_snoc]. }
    destruct (is_ptr_ref x) eqn:Ep.
    + rewrite settle2_pending by done. simpl. rewrite Ec, Ev, Ep.
      f_equal. f_equal. f_equal. apply (IH [] []); constructor.
    + unfold canonical. simpl. rewrite Ec, Ev, Ep. f_equal. by apply IH.
Qed.

Lemma settle2_perm cs vs l : settle2 cs vs l ≡ₚ cs ++ vs ++ l.
Proof.
  revert cs vs. induction l as [|x l IH]; intros cs vs; simpl.
  - by rewrite app_nil_r.
  - destruct (is_named "const" x); [rewrite IH; solve_Permutation|].
    destruct (is_named "volatile" x); [rewrite IH; solve_Permutation|].
    destruct (is_ptr_ref x); rewrite IH; solve_Permutation.
Qed.

(** Reordering the modifiers of a type.  The repeated pop-and-insert loop
    of [reorder_modifiers] always ends without raising, and its result is the
    one-pass reference [canonical]: in every stretch between pointers and
    references, the other items in their order, then the [const]s, then the
    [volatile]s. *)
Theorem reorder_modifiers_spec (c : ctype) : reorder_modifiers c = Ok (canonical c).
Proof. apply reorder_modifiers_canonical. Qed.

(** The reordering only permutes the items of the type, and a type whose
    modifiers have been reordered is left as it is by a second reordering. *)
Theorem reorder_modifiers_perm_idem (c : ctype) :
  canonical c ≡ₚ c /\ reorder_modifiers (canonical c) = Ok (canonical c).
Proof.
  split; [apply (settle2_perm [] [] c)|].
  rewrite reorder_modifiers_canonical. f_equal. by apply canonical_settle2; constructor.
Qed.

Lemma reorder_modifiers_example :
  canonical [Tok (Token NAME "const" None None); Tok (Token NAME "char" None None);
             Tok (Token SYNTAX "*" None None)]
  = [Tok (Token NAME "char" None None); Tok (Token NAME "const" None None);
     Tok (Token SYNTAX "*" None None)].
Proof. reflexivity. Qed.

(** ** Removing modifiers *)

Definition not_named (m : string) (x : citem) : bool := negb (is_named m x).
Definition no_modifier (x : citem) : bool := not_named "const" x && not_named "volatile" x.

Lemma remove_first_named_None m c :
  remove_first_named m c = None ->
  existsb (is_named m) c = false /\ List.filter (not_named m) c = c.
Proof.
  unfold not_named. induction c as [|x c IH]; simpl; [done|].
  destruct (is_named m x); [done|]. simpl.
  destruct (remove_first_named m c); [done|]. intros _.
  by destruct IH as [-> ->].
Qed.

Lemma remove_first_named_Some m c c' :
  remove_first_named m c = Some c' ->
  length c = S (length c') /\ existsb (is_named m) c = true
  /\ List.filter (not_named m) c = List.filter (not_named m) c'.
Proof.
  unfold not_named. revert c'. induction c as [|x c IH]; intros c'; simpl; [done|].
  destruct (is_named m x) eqn:E; [intros [= ->]; done|]. simpl.
  destruct (remove_first_named m c) as [r|]; [|done]. intros [= <-].
  destruct (IH r) as (Hl&He&Hf); [done|]. simpl. rewrite E. simpl.
  by rewrite Hl, He, Hf.
Qed.

Lemma remove_modifier_loop_spec m fuel c removed :
  (length c < fuel)%nat ->
  remove_modifier_loop m fuel c removed =
    Ok (List.filter (not_named m) c, removed || existsb (is_named m) c).
Proof.
  revert c removed. induction fuel as [|fuel IH]; intros c removed Hf; [lia|]. simpl.
  destruct (remove_first_named m c) as [c'|] eqn:E.
  - apply remove_first_named_Some in E as (Hl&->&->).
    rewrite IH by lia. by rewrite orb_true_r.
  - apply remove_first_named_None in E as [-> ->]. by rewrite orb_false_r.
Qed.

Lemma filter_filter_modifiers c :
  List.filter (not_named "volatile") (List.filter (not_named "const") c)
  = List.filter no_modifier c.
Proof.
  unfold no_modifier. induction c as [|x c IH]; simpl; [done|].
  destruct (not_named "const" x); simpl; [|done].
  destruct (not_named "volatile" x); by rewrite IH.
Qed.

Lemma existsb_volatile_const c :
  existsb (is_named "volatile") (List.filter (not_named "const") c)
  = existsb (is_named "volatile") c.
Proof.
  induction c as [|x c IH]; simpl; [done|]. unfold not_named at 1.
  destruct (is_named "const" x) eqn:E; simpl; rewrite IH; [|done].
  by rewrite (is_named_excl "const" "volatile").
Qed.

Definition removed_modifiers (c : ctype) : list string :=
  List.filter (fun m => existsb (is_named m) c) MODIFIERS.

Lemma remove_modifiers_filter c :
  remove_modifiers c = Ok (List.filter no_modifier c, removed_modifiers c).
Proof.
  unfold remove_modifiers, remove_modifier.
  rewrite remove_modifier_loop_spec by lia. cbn [res_bind fst snd].
  rewrite remove_modifier_loop_spec by lia. simpl.
  rewrite filter_filter_modifiers, existsb_volatile_const. unfold removed_modifiers. simpl.
  by destruct (existsb (is_named "const") c), (existsb (is_named "volatile") c).
Qed.

(** [remove_modifiers] ends without raising; it drops exactly the top-level
    [const] and [volatile] tokens, keeping the others (template arguments
    included) in order, and returns exactly the set of the modifiers the type
    had. *)
Theorem remove_modifiers_spec (c : ctype) :
  remove_modifiers c = Ok (List.filter no_modifier c, removed_modifiers c).
Proof. apply remove_modifiers_filter. Qed.

(** ** Type traits *)

(** The items to the right of the last pointer or reference. *)
Fixpoint after_ptr_rev (l : list citem) : ctype :=
  match l with
  | [] => []
  | x :: l' => if is_ptr_ref x then [] else after_ptr_rev l' ++ [x]
  end.
Definition outermost (c : ctype) : ctype := after_ptr_rev (rev c).

Definition no_ptr (c : ctype) : Prop := Forall (fun x => is_ptr_ref x = false) c.

Lemma remove_first_named_app m a x b :
  existsb (is_named m) a = false -> is_named m x = true ->
  remove_first_named m (a ++ x :: b) = Some (a ++ b).
Proof.
  induction a as [|y a IH]; simpl; [by intros _ ->|].
  intros [Hy Ha]%orb_false_iff Hx. by rewrite Hy, IH.
Qed.

Lemma existsb_rev {A} (f : A -> bool) l : existsb f (rev l) = existsb f l.
Proof.
  induction l as [|x l IH]; simpl; [done|].
  rewrite existsb_app, IH. simpl. by rewrite orb_false_r, orb_comm.
Qed.

Lemma remove_outer_modifier_last m X x done_ :
  existsb (is_named m) done_ = false -> is_named m x = true ->
  remove_outer_modifier m (X ++ x :: done_) = (X ++ done_, true).
Proof.
  intros Hd Hx. unfold remove_outer_modifier.
  rewrite rev_app_distr. simpl. rewrite <- app_assoc. simpl.
  rewrite remove_first_named_app by (rewrite ?existsb_rev; done).
  by rewrite rev_app_distr, !rev_involutive.
Qed.

Lemma not_ptr_names x : is_ptr_ref x = false -> is_named "*" x = false /\ is_named "&" x = false.
Proof.
  destruct x as [t|l]; simpl; [|done].
  by intros [H1 [H2 _]%orb_false_iff]%orb_false_iff.
Qed.

Lemma existsb_not_const l : existsb (is_named "const") (List.filter (not_named "const") l) = false.
Proof.
  unfold not_named. induction l as [|x l IH]; simpl; [done|].
  destruct (is_named "const" x) eqn:E; simpl; [done|]. by rewrite E.
Qed.

(** The loop while no pointer or reference has been met. *)
Lemma traits_loop_level0 l : forall X done_ c0 r p tc tp pos,
  no_ptr l -> existsb (is_named "const") done_ = false ->
  forall rest,
  traits_loop_run (TraitsLoop 0 c0 r p tc (X ++ rev l ++ done_) tp) pos (l ++ rest)
  = traits_loop_run
      (TraitsLoop 0 (c0 || existsb (is_named "const") l) r p tc
         (X ++ List.filter (not_named "const") (rev l) ++ done_) tp)
      (pos + length l) rest.
Proof.
  induction l as [|x l IH]; intros X done_ c0 r p tc tp pos Hp Hd rest; simpl.
  - by rewrite orb_false_r, Nat.add_0_r.
  - inversion Hp as [|? ? Hx Hl]; subst. destruct (not_ptr_names x Hx) as [Hs Ha].
    unfold not_named in *. rewrite Hs, Ha, List.filter_app. simpl.
    replace (pos + S (length l))%nat with (S pos + length l)%nat by lia.
    destruct (is_named "const" x) eqn:Ec; simpl.
    + replace (X ++ (rev l ++ [x]) ++ done_) with ((X ++ rev l) ++ x :: done_)
        by by rewrite <- !app_assoc.
      rewrite remove_outer_modifier_last by done. simpl.
      rewrite <- app_assoc, IH by done. by rewrite app_nil_r, orb_true_r.
    + rewrite <- !app_assoc. simpl.
      rewrite (IH X (x :: done_)) by (done || (simpl; by rewrite Ec)). done.
Qed.

(** The loop past the outermost pointer: only [target_is_const] may change. *)
Lemma traits_loop_deep l : forall lvl c r p tc nc tp pos,
  1 <= lvl ->
  exists lvl', traits_loop_run (TraitsLoop lvl c r p tc nc tp) pos l
    = Ok (TraitsLoop lvl' c r p
            (tc || ((lvl =? 1) && existsb (is_named "const") (after_ptr_rev l))) nc tp).
Proof.
  induction l as [|x l IH]; intros lvl c r p tc nc tp pos Hl.
  - exists lvl. simpl. by rewrite andb_false_r, orb_false_r.
  - simpl. assert ((lvl =? 0) = false) as -> by lia.
    destruct (is_named "const" x) eqn:Ec.
    + rewrite (is_named_not_ptr "const") by done. rewrite existsb_app. simpl.
      rewrite Ec, orb_true_l, orb_true_r, andb_true_r.
      destruct (lvl =? 1) eqn:E1; simpl.
      * destruct (IH lvl c r p true nc tp (S pos) ltac:(lia)) as [lvl' ->].
        exists lvl'. by rewrite orb_true_r.
      * destruct (IH lvl c r p tc nc tp (S pos) ltac:(lia)) as [lvl' ->].
        exists lvl'. by rewrite E1, !orb_false_r.
    + assert (is_ptr_ref x = is_named "*" x || is_named "&" x) as ->.
      { destruct x; simpl; [|done]. by rewrite orb_false_r. }
      destruct (is_named "*" x); [|destruct (is_named "&" x)]; simpl.
      1,2: destruct (IH (lvl + 1) c r p tc nc tp (S pos) ltac:(lia)) as [lvl' ->];
        exists lvl'; assert ((lvl + 1 =? 1) = false) as -> by lia;
        rewrite ?andb_false_l, ?andb_false_r, ?orb_false_r; reflexivity.
      destruct (IH lvl c r p tc nc tp (S pos) ltac:(lia)) as [lvl' ->].
      exists lvl'. rewrite existsb_app. simpl. by rewrite Ec, !orb_false_r.
Qed.

Lemma filter_rev {A} (f : A -> bool) l : List.filter f (rev l) = rev (List.filter f l).
Proof.
  induction l as [|x l IH]; simpl; [done|]. rewrite List.filter_app, IH. simpl.
  by destruct (f x); simpl; rewrite ?app_nil_r.
Qed.

(** The traits of a pointer or reference type [pre p post], [p] its last
    top-level [*] or [&].  The constructor never raises (its internal assertion
    [const_removed] holds); the type is a pointer or a reference according to
    [p]; it is const when a [const] follows [p]; [ctype_no_const] drops exactly
    those [const]s and no other; the target is [pre] without its modifiers, and
    is const when a [const] follows the previous pointer of [pre]. *)
Theorem traits_of_pointer (pre post : ctype) (p : citem) :
  is_ptr_ref p = true -> no_ptr post ->
  traits_of_ctype (pre ++ p :: post) =
    Ok (TypeTraits (pre ++ p :: post)
          (List.filter no_modifier (pre ++ p :: post))
          (pre ++ p :: List.filter (not_named "const") post)
          (existsb (is_named "const") post)
          (is_named "&" p) (is_named "*" p)
          (existsb (is_named "const") (outermost pre))
          (Some (List.filter no_modifier pre))).
Proof.
  intros Hp Hpost. unfold traits_of_ctype. rewrite remove_modifiers_filter. cbn [res_bind].
  rewrite rev_app_distr. simpl rev. rewrite <- app_assoc. simpl app.
  pose proof (traits_loop_level0 (rev post) (pre ++ [p]) [] false false false false
                None 0 (Forall_rev Hpost) eq_refl (p :: rev pre)) as H0.
  rewrite rev_involutive, !app_nil_r, existsb_rev, length_rev, <- !app_assoc in H0.
  cbn [app] in H0. rewrite H0. clear H0.
  cbn [traits_loop_run traits_step].
  assert (is_named "const" p = false) as ->.
  { destruct (is_named "const" p) eqn:E; [|done].
    by rewrite (is_named_not_ptr "const") in Hp. }
  assert (is_named "&" p = negb (is_named "*" p)) as Hamp.
  { destruct p as [t|l]; simpl in *; [|done].
    destruct (String.eqb_spec (name t) "*") as [->|]; [done|].
    by rewrite orb_false_r in Hp. }
  rewrite Hamp. simpl.
  destruct (is_named "*" p) eqn:Es; cbn [res_bind negb].
  all: match goal with |- context [traits_loop_run (TraitsLoop ?l ?c ?r ?q ?tc ?nc ?tp) ?pos ?rest] =>
    destruct (traits_loop_deep rest l c r q tc nc tp pos ltac:(lia)) as [lvl' ->] end.
  all: simpl; replace (length post + 1)%nat with (length (rev post ++ [p]))
         by (rewrite length_app, length_rev; simpl; lia).
  all: replace (rev post ++ p :: rev pre) with ((rev post ++ [p]) ++ rev pre)
         by by rewrite <- app_assoc.
  all: rewrite drop_app_length, rev_involutive, remove_modifiers_filter; simpl.
  all: unfold outermost; done.
Qed.

(** The traits of a type with no top-level pointer or reference: it is
    const when it has a [const] anywhere at the top level, [ctype_no_const]
    drops them all, and there is no target. *)
Theorem traits_of_value (c : ctype) :
  no_ptr c ->
  traits_of_ctype c =
    Ok (TypeTraits c (List.filter no_modifier c) (List.filter (not_named "const") c)
          (existsb (is_named "const") c) false false false None).
Proof.
  intros Hc. unfold traits_of_ctype. rewrite remove_modifiers_filter. cbn [res_bind].
  pose proof (traits_loop_level0 (rev c) [] [] false false false false None 0) as H.
  rewrite rev_involutive in H.
  specialize (H (Forall_rev Hc) eq_refl []). rewrite !app_nil_r in H. simpl in H.
  rewrite H. simpl. by rewrite existsb_rev.
Qed.

Definition ex_name (s : string) : citem := Tok (Token NAME s None None).
Definition ex_star : citem := Tok (Token SYNTAX "*" None None).

Lemma traits_of_pointer_witness :
  traits_of_ctype ([ex_name "int"; ex_name "const"] ++ ex_star :: [ex_name "const"]) =
    Ok (TypeTraits [ex_name "int"; ex_name "const"; ex_star; ex_name "const"]
          [ex_name "int"; ex_star] [ex_name "int"; ex_name "const"; ex_star]
          true false true true (Some [ex_name "int"])).
Proof.
  rewrite (traits_of_pointer [ex_name "int"; ex_name "const"] [ex_name "const"] ex_star);
    [reflexivity | reflexivity | repeat constructor].
Defined.

Lemma traits_of_value_witness :
  traits_of_ctype [ex_name "int"; ex_name "const"] =
    Ok (TypeTraits [ex_name "int"; ex_name "const"] [ex_name "int"] [ex_name "int"]
          true false false false None).
Proof. rewrite (traits_of_value [ex_name "int"; ex_name "const"]); [reflexivity | repeat constructor]. Defined.

(** [remove_outer_modifier] is not confined to the part right of the last
    pointer: it deletes the last token of that name wherever it stands, so a
    type whose only [const] qualifies the pointed-to type loses it. *)
Theorem remove_outer_modifier_crosses_pointer (pre mid : ctype) (p x : citem) (m : string) :
  modifier_name m -> is_named m x = true -> is_ptr_ref p = true ->
  existsb (is_named m) mid = false -> existsb (is_named m) (p :: mid) = false ->
  remove_outer_modifier m (pre ++ x :: p :: mid) = (pre ++ p :: mid, true).
Proof. intros _ Hx Hp Hmid Hpm. by rewrite remove_outer_modifier_last. Qed.

Lemma remove_outer_modifier_crosses_pointer_witness :
  remove_outer_modifier "const" [ex_name "int"; ex_name "const"; ex_star]
  = ([ex_name "int"; ex_star], true).
Proof.
  apply (remove_outer_modifier_crosses_pointer [ex_name "int"] [] ex_star (ex_name "const") "const");
    reflexivity.
Defined.
