(* ===== verification/TypeRoundtrip.v ===== *)
(** * Printing and parsing types: a round trip through [tokenizer.py] and
    [ctypeparser/__init__.py]

    The registry of type handlers is keyed by printed types, so that printing
    and parsing must be inverse on normal forms.  The first part follows the
    tokenizer over a printed text, the second the parser over its tokens. *)
From S2P Require Import Prelude.
From S2P Require Import Tokenizer.
From S2P Require Import CTypeParser.

(** ** Lexemes *)

(** A name: identifier characters and double colons. *)
Fixpoint name_ok (l : list ascii) : bool :=
  match l with
  | [] => true
  | c :: l' =>
      if Ascii.eqb c ":"%char then
        match l' with c' :: l'' => Ascii.eqb c' ":"%char && name_ok l'' | [] => false end
      else VALID_IDENTIFIER_CHARS c && name_ok l'
  end.
Definition name_lexeme (l : list ascii) : bool :=
  match l with c :: _ => VALID_IDENTIFIER_CHARS c && negb (isdigit c) && name_ok l | [] => false end.
Definition number_lexeme (l : list ascii) : bool :=
  match l with [] => false | _ => forallb isdigit l end.

(** The tokens printed types are made of. *)
Definition lexeme (t : token) : bool :=
  match tok_type t with
  | NAME => name_lexeme (chars (name t))
  | CONSTANT => number_lexeme (chars (name t))
  | SYNTAX => mem_str (name t) ["*"; "&"; "<"; ">"; ","; "("; ")"]
  | _ => false
  end.

(** The characters that follow a token in a printed type. *)
Definition delim (c : ascii) : bool := str_in c " <," || Ascii.eqb c nl.
Definition follows (t : token) (T : list ascii) : Prop :=
  exists d T', T = d :: T' /\ delim d = true /\ ~ (name t = "<" /\ d = "<"%char).

(** A text that spells a list of tokens, and ends with a newline. *)
Inductive lexes : list ascii -> list token -> Prop :=
  | lx_end n : lexes (replicate n " "%char ++ [nl]) []
  | lx_tok n t T ts :
      lexeme t = true -> follows t T -> lexes T ts ->
      lexes (replicate n " "%char ++ chars (name t) ++ T) (t :: ts).

Lemma lexes_space T ts : lexes T ts -> lexes (" "%char :: T) ts.
Proof.
  inversion 1 as [n|n t T' ts' H1 H2 H3]; subst.
  - apply (lx_end (S n)).
  - by apply (lx_tok (S n)).
Qed.

(** ** Positions in a source *)

Section positions.
Context (source : list ascii).

(** [T] is the rest of the source from position [i]. *)
Definition at_ (i : Z) (T : list ascii) : Prop :=
  exists pre, source = pre ++ T /\ i = Z.of_nat (length pre).

Lemma at_bounds i T : at_ i T -> 0 <= i /\ i + Z.of_nat (length T) = src_end source.
Proof. intros (pre&->&->). unfold src_end. rewrite length_app. lia. Qed.

Lemma at_app i l T : at_ i (l ++ T) -> at_ (i + Z.of_nat (length l)) T.
Proof.
  intros (pre&->&->). exists (pre ++ l). rewrite <- app_assoc, length_app. split; [done|lia].
Qed.

Lemma at_cons i c T : at_ i (c :: T) -> at_ (i + 1) T.
Proof. apply (at_app i [c]). Qed.

Lemma py_index_at i c T : at_ i (c :: T) -> py_index source i = Ok c.
Proof.
  intros (pre&->&->). unfold py_index.
  rewrite !(proj2 (Z.ltb_ge (Z.of_nat (length pre)) 0)) by apply Nat2Z.is_nonneg.
  rewrite Nat2Z.id, lookup_app_r, Nat.sub_diag by lia. done.
Qed.

Lemma py_slice_at i l T : at_ i (l ++ T) -> py_slice source i (i + Z.of_nat (length l)) = l.
Proof.
  intros H. pose proof (at_bounds _ _ H) as [H0 Hb]. rewrite length_app in Hb.
  unfold py_slice. rewrite !slice_bound_id by lia. destruct H as (pre&->&->).
  rewrite <- Nat2Z.inj_add, !Nat2Z.id, drop_app_length.
  replace (length pre + length l - length pre)%nat with (length l) by lia.
  apply take_app_length.
Qed.

Lemma colons_at_no i c T : at_ i (c :: T) -> c <> ":"%char -> colons_at source i c = Ok false.
Proof.
  intros H Hc. unfold colons_at. destruct (Z.ltb_spec i (src_end source - 1)); [|done].
  pose proof (at_bounds _ _ H) as [_ Hb]. simpl in Hb. destruct T as [|c' T]; [simpl in Hb; lia|].
  rewrite (py_index_at (i + 1) c' T) by by apply at_cons in H. simpl.
  apply Ascii.eqb_neq in Hc. by rewrite Hc.
Qed.

Lemma colons_at_yes i T :
  at_ i (":"%char :: ":"%char :: T) -> colons_at source i ":"%char = Ok true.
Proof.
  intros H. unfold colons_at. pose proof (at_bounds _ _ H) as [_ Hb]. simpl in Hb.
  assert ((i <? src_end source - 1) = true) as -> by lia.
  by rewrite (py_index_at (i + 1) ":"%char T) by by apply at_cons in H.
Qed.

Lemma skip_space_at fuel : forall n i T,
  (n < fuel)%nat -> at_ i (replicate n " "%char ++ T) ->
  match T with [] => True | c :: _ => isspace c = false end ->
  skip_space source fuel i = Ok (i + Z.of_nat n).
Proof.
  induction fuel as [|fuel IH]; intros n i T Hf H HT; [lia|]. simpl.
  pose proof (at_bounds _ _ H) as [H0 Hb]. rewrite length_app, length_replicate in Hb.
  destruct n as [|n]; simpl in H.
  - rewrite Z.add_0_r. destruct T as [|c T].
    + assert ((i <? src_end source) = false) as -> by (simpl in Hb; lia). done.
    + assert ((i <? src_end source) = true) as -> by (simpl in Hb; lia).
      rewrite (py_index_at i c T) by done. simpl. by rewrite HT.
  - assert ((i <? src_end source) = true) as -> by lia.
    rewrite (py_index_at i " "%char _ H). simpl.
    rewrite (IH n (i + 1) T); [|lia|by apply at_cons in H|done]. f_equal. lia.
Qed.

Lemma delim_facts d : delim d = true ->
  VALID_IDENTIFIER_CHARS d = false /\ d <> ":"%char /\ Ascii.eqb d apos = false
  /\ INT_OR_FLOAT_DIGITS2 d = false /\ str_in d "xX" = false
  /\ (forall c, str_in c "ulf" = true -> Ascii.eqb c (tolower d) = false)
  /\ (forall c, str_in c "*&>" = true -> Ascii.eqb d c = false) /\ Ascii.eqb d "=" = false
  /\ Ascii.eqb d ">" = false.
Proof.
  intros H. unfold delim in H.
  assert (d = " " \/ d = "<" \/ d = "," \/ d = nl)%char as Hd.
  { destruct d as [[] [] [] [] [] [] [] []]; try discriminate H; auto. }
  assert (forall c s, str_in c s = true -> In c (chars s)) as Hin.
  { intros c s. induction s as [|a s IH]; simpl; [done|].
    rewrite orb_true_iff, Ascii.eqb_eq. intuition. }
  destruct Hd as [->|[->|[->| ->]]];
    (split_and!; try reflexivity; try discriminate);
    intros c Hc%Hin; simpl in Hc; intuition subst; reflexivity.
Qed.

Lemma scan_name_at fuel : forall l i d T,
  (length l < fuel)%nat -> name_ok l = true -> at_ i (l ++ d :: T) -> delim d = true ->
  scan_name source fuel i = Ok (i + Z.of_nat (length l)).
Proof.
  induction fuel as [|fuel IH]; intros l i d T Hf Hl H Hd; [lia|].
  pose proof (delim_facts d Hd) as (Hv&Hcol&_). simpl.
  destruct l as [|c l]; simpl in H.
  - rewrite (py_index_at i d T H). simpl. rewrite (colons_at_no i d T H Hcol). simpl.
    rewrite Hv, Z.add_0_r. done.
  - rewrite (py_index_at i c _ H). cbn [res_bind]. simpl in Hl.
    destruct (Ascii.eqb_spec c ":"%char) as [->|Hne].
    + destruct l as [|c' l]; [done|]. apply andb_true_iff in Hl as [->%Ascii.eqb_eq Hl].
      simpl in H. rewrite (colons_at_yes i _ H). cbn [res_bind].
      rewrite (IH l (i + 2) d T); [|simpl in Hf; lia|done| |done].
      * f_equal. simpl length. lia.
      * apply at_cons, at_cons in H. by replace (i + 1 + 1) with (i + 2) in H by lia.
    + apply andb_true_iff in Hl as [Hc Hl]. rewrite (colons_at_no i c _ H Hne). cbn [res_bind].
      rewrite Hc. rewrite (IH l (i + 1) d T); [|simpl in Hf; lia|done| |done].
      * f_equal. simpl length. lia.
      * by apply at_cons in H.
Qed.

Lemma scan_set_at P fuel : forall l i d T,
  (length l < fuel)%nat -> forallb P l = true -> at_ i (l ++ d :: T) -> P d = false ->
  scan_set source P fuel i = Ok (i + Z.of_nat (length l)).
Proof.
  induction fuel as [|fuel IH]; intros l i d T Hf Hl H Hd; [lia|]. simpl.
  destruct l as [|c l]; simpl in H.
  - rewrite (py_index_at i d T H). simpl. by rewrite Hd, Z.add_0_r.
  - simpl in Hl. apply andb_true_iff in Hl as [Hc Hl].
    rewrite (py_index_at i c _ H). cbn [res_bind]. rewrite Hc.
    rewrite (IH l (i + 1) d T); [|simpl in Hf; lia|done|by apply at_cons in H|done].
    f_equal. simpl length. lia.
Qed.
End positions.

(** ** The tokenizer on a printed text *)

Definition erase_tok (t : token) : token_type * string := (tok_type t, name t).

Lemma str_chars s : str (chars s) = s.
Proof. apply String.string_of_list_ascii_of_string. Qed.

Section tokens.
Context (source : list ascii).

Lemma fuel_enough i l T : at_ source i (l ++ T) -> (length l < scan_fuel source)%nat.
Proof.
  intros H. pose proof (at_bounds source _ _ H) as [H0 Hb]. unfold scan_fuel, src_end in *.
  rewrite length_app in Hb. lia.
Qed.

Lemma emit_at ty start l T st :
  at_ source start (l ++ T) -> l <> [] ->
  emit source ty start (start + Z.of_nat (length l)) st =
    Yield (Token ty (str l) (Some start) (Some (start + Z.of_nat (length l))))
      (start + Z.of_nat (length l)) st.
Proof.
  intros H Hl. pose proof (at_bounds source _ _ H) as [H0 _]. unfold emit.
  destruct l as [|c l]; [done|].
  assert ((start + Z.of_nat (length (c :: l)) <=? 0) = false) as ->
    by (apply Z.leb_gt; simpl length; lia).
  by rewrite (py_slice_at source start (c :: l) T H).
Qed.

Lemma name_branch_at i l d T :
  name_lexeme l = true -> delim d = true -> at_ source i (l ++ d :: T) ->
  name_branch source i = Ok (NAME, i + Z.of_nat (length l)).
Proof.
  intros Hl Hd H. pose proof (delim_facts d Hd) as (_&_&Ha&_). unfold name_branch.
  assert (name_ok l = true) as Hok.
  { destruct l; [done|]. by apply andb_true_iff in Hl as [_ Hl]. }
  rewrite (scan_name_at source _ l i d T (fuel_enough i l _ H) Hok H Hd). cbn [res_bind].
  rewrite (py_index_at source _ d T) by by apply at_app in H. cbn [res_bind].
  by rewrite Ha.
Qed.

Lemma skip_suffix_at sufs i d T :
  at_ source i (d :: T) -> delim d = true ->
  Forall (fun s => match s with String c _ => str_in c "ulf" = true | EmptyString => False end)
    sufs -> skip_suffix source sufs i = i.
Proof.
  intros H Hd Hs. pose proof (delim_facts d Hd) as (_&_&_&_&_&Hc&_).
  induction Hs as [|s sufs Hs Hss IH]; simpl; [done|].
  destruct s as [|c s]; [done|]. rewrite IH.
  destruct (String.eqb_spec (String c s) (str (map tolower (py_slice source i
    (i + Z.of_nat (String.length (String c s))))))) as [E|]; [|done].
  exfalso. pose proof (at_bounds source _ _ H) as [H0 Hb]. 
  unfold py_slice in E. rewrite (slice_bound_id source i) in E by (simpl in Hb; lia).
  destruct H as (pre&Es&->). rewrite Nat2Z.id in E. rewrite Es in E. rewrite drop_app_length in E.
  match type of E with context [take ?m _] => destruct m as [|k] end; simpl in E; [discriminate|].
  injection E as E _. specialize (Hc c Hs). rewrite E, Ascii.eqb_refl in Hc. discriminate.
Qed.

Lemma digit_facts c : isdigit c = true ->
  INT_OR_FLOAT_DIGITS2 c = true /\ c <> ":"%char /\ Ascii.eqb c "/"%char = false
  /\ str_in c ":+-<>&|*=" = false /\ str_in c "()[]{}~!?^%;/.," = false /\ str_in c "xX" = false
  /\ isspace c = false.
Proof. destruct c as [[] [] [] [] [] [] [] []]; try discriminate; intros _; split_and!; done. Qed.

Lemma number_branch_at i c l d T :
  number_lexeme (c :: l) = true -> delim d = true -> at_ source i ((c :: l) ++ d :: T) ->
  number_branch source i c = Ok (CONSTANT, i + Z.of_nat (length (c :: l))).
Proof.
  intros Hl Hd H. pose proof (delim_facts d Hd) as (_&_&_&Hdig&Hx&_). unfold number_branch.
  unfold number_lexeme in Hl.
  assert (exists x T', l ++ d :: T = x :: T' /\ str_in x "xX" = false) as (x&T'&Ex&Hxx).
  { simpl in Hl. apply andb_true_iff in Hl as [_ Hl]. destruct l as [|x l]; [by exists d, T|].
    apply andb_true_iff in Hl as [Hxd _]. exists x, (l ++ d :: T).
    split; [done | by apply digit_facts]. }
  assert ((if Ascii.eqb c "0" then x <-? py_index source (i + 1);; Ok (str_in x "xX") else Ok false)
          = Ok false) as ->.
  { destruct (Ascii.eqb c "0"); [|done]. rewrite (py_index_at source _ x T').
    - cbn [res_bind]. by rewrite Hxx.
    - simpl in H. apply at_cons in H. by rewrite Ex in H. }
  cbn [res_bind].
  rewrite (scan_set_at source _ _ (c :: l) i d T (fuel_enough i _ _ H)); [|..|exact H|done].
  - cbn [res_bind]. rewrite (skip_suffix_at _ _ d T); [done | by apply at_app in H | done |].
    repeat constructor.
  - apply forallb_forall. intros y Hy. rewrite forallb_forall in Hl. by apply digit_facts, Hl.
Qed.

Lemma step_at i n c T st :
  at_ source i (replicate n " "%char ++ c :: T) -> isspace c = false ->
  step source i st =
    (let i := i + Z.of_nat n in
     colons <-? colons_at source i c ;;
     if (VALID_IDENTIFIER_CHARS c && negb (isdigit c)) || colons then
       emit_branch source i st (name_branch source i)
     else
     slash <-? (if Ascii.eqb c "/"%char then py_index source (i + 1) else Ok nl) ;;
     if Ascii.eqb slash "/"%char then
       let j := py_find [nl] source i in
       Ok (Continue (if j =? -1 then src_end source else j) st)
     else if Ascii.eqb slash "*"%char then
       Ok (Continue (py_find (chars "*/") source i + 2) st)
     else if str_in c ":+-<>&|*=" then emit_branch source i st (syntax_branch source i c)
     else if str_in c "()[]{}~!?^%;/.," then emit_branch source i st (single_branch source i c)
     else if isdigit c then emit_branch source i st (number_branch source i c)
     else if Ascii.eqb c quote then
       j <-? GetString source i i ;; Ok (emit source CONSTANT i j st)
     else if Ascii.eqb c apos then
       j <-? GetChar source i i ;; Ok (emit source CONSTANT i j st)
     else if Ascii.eqb c "#"%char then
       p <-? pp_branch source i st ;; Ok (emit source PREPROCESSOR i p.1 p.2)
     else if Ascii.eqb c backslash then Ok (Continue (i + 1) st)
     else if ignore_errors st then Ok (emit source UNKNOWN i (i + 1) st)
     else Raise RuntimeError).
Proof.
  intros H Hc. unfold step.
  pose proof (fuel_enough i _ _ H) as Hf. rewrite length_replicate in Hf.
  rewrite (skip_space_at source _ n i (c :: T) Hf H Hc). cbn [res_bind].
  apply at_app in H. rewrite length_replicate in H.
  pose proof (at_bounds source _ _ H) as [_ Hb]. simpl in Hb.
  assert ((src_end source <=? i + Z.of_nat n) = false) as -> by (apply Z.leb_gt; lia).
  by rewrite (py_index_at source _ c T H).
Qed.

Lemma syntax_step i c d T st :
  at_ source i (c :: d :: T) -> In c (chars "*&<>,()") -> delim d = true ->
  ~ (c = "<"%char /\ d = "<"%char) ->
  (if str_in c ":+-<>&|*=" then emit_branch source i st (syntax_branch source i c)
   else emit_branch source i st (single_branch source i c))
  = Ok (emit source SYNTAX i (i + 1) st).
Proof.
  intros H Hc Hd Hne. pose proof (delim_facts d Hd) as (_&_&_&_&_&_&Hs&He&Hg).
  assert (py_index source (i + 1) = Ok d) as Hi
    by (apply at_cons in H; by apply py_index_at in H).
  assert (Ascii.eqb c "<"%char = true -> Ascii.eqb d c = false) as Hlt.
  { intros ->%Ascii.eqb_eq. apply Ascii.eqb_neq. intros ->. by apply Hne. }
  simpl in Hc.
  destruct Hc as [<-|[<-|[<-|[<-|[<-|[<-|[<-|[]]]]]]]]; cbn [str_in];
    unfold emit_branch, syntax_branch, single_branch; simpl; rewrite ?Hi; cbn [res_bind];
    rewrite ?He, ?Hg, ?(Hs "*"%char eq_refl), ?(Hs "&"%char eq_refl), ?(Hs ">"%char eq_refl),
      ?(Hlt eq_refl); reflexivity.
Qed.

Lemma name_start c : VALID_IDENTIFIER_CHARS c = true -> isspace c = false.
Proof. by destruct c as [[] [] [] [] [] [] [] []]. Qed.
Lemma syntax_start c : In c (chars "*&<>,()") ->
  isspace c = false /\ VALID_IDENTIFIER_CHARS c = false /\ c <> ":"%char
  /\ Ascii.eqb c "/"%char = false
  /\ str_in c ":+-<>&|*=" || str_in c "()[]{}~!?^%;/.," = true.
Proof. simpl. intros H. destruct_or? H; subst; split_and!; done. Qed.

Lemma syntax_name s : mem_str s ["*"; "&"; "<"; ">"; ","; "("; ")"] = true ->
  exists c, s = String c EmptyString /\ In c (chars "*&<>,()").
Proof.
  unfold mem_str. rewrite existsb_exists. intros (x&Hx&->%String.eqb_eq).
  simpl in Hx. destruct_or? Hx; subst; eexists; (split; [done|]); simpl; tauto.
Qed.

Lemma step_lexeme i n t T st :
  lexeme t = true -> follows t T ->
  at_ source i (replicate n " "%char ++ chars (name t) ++ T) ->
  let a := i + Z.of_nat n in
  let b := a + Z.of_nat (length (chars (name t))) in
  step source i st = Ok (Yield (Token (tok_type t) (name t) (Some a) (Some b)) b st).
Proof.
  intros Ht (d&T'&->&Hd&Hne) H. pose proof H as Ha. apply at_app in Ha.
  rewrite length_replicate in Ha. cbn zeta. unfold lexeme in Ht.
  destruct (tok_type t) eqn:Ety; try discriminate.
  - apply syntax_name in Ht as (c&Ec&Hc). rewrite Ec in *. cbn in H, Ha.
    destruct (syntax_start c Hc) as (Hsp&Hv&Hcol&Hsl&Hcat).
    rewrite (step_at i n c _ st H Hsp). cbn zeta.
    rewrite (colons_at_no source _ c _ Ha Hcol). cbn [res_bind]. rewrite Hv, Hsl.
    cbn [andb orb res_bind].
    change (Ascii.eqb nl "/"%char) with false. change (Ascii.eqb nl "*"%char) with false. cbn iota.
    transitivity (Ok (emit source SYNTAX (i + Z.of_nat n) (i + Z.of_nat n + 1) st)).
    + assert (~ (c = "<"%char /\ d = "<"%char)) as Hlt by (intros [-> ->]; by apply Hne).
      rewrite <- (syntax_step _ c d T' st Ha Hc Hd Hlt).
      destruct (str_in c ":+-<>&|*="); [done|]. rewrite orb_false_l in Hcat. by rewrite Hcat.
    + f_equal. exact (emit_at SYNTAX (i + Z.of_nat n) [c] (d :: T') st Ha ltac:(done)).
  - destruct (chars (name t)) as [|c l] eqn:El; [done|]. cbn in H.
    assert (isdigit c = true) as Hdg by (simpl in Ht; by apply andb_true_iff in Ht as [? _]).
    destruct (digit_facts c Hdg) as (_&Hcol&Hsl&Hs1&Hs2&_&Hsp).
    rewrite (step_at i n c _ st H Hsp). cbn zeta.
    rewrite (colons_at_no source _ c _ Ha Hcol). cbn [res_bind]. rewrite Hdg, Hsl, Hs1, Hs2.
    rewrite andb_false_r. cbn [orb res_bind].
    change (Ascii.eqb nl "/"%char) with false. change (Ascii.eqb nl "*"%char) with false. cbn iota.
    rewrite (number_branch_at _ c l d T' Ht Hd Ha). unfold emit_branch. cbn [res_bind fst snd].
    rewrite (emit_at CONSTANT _ (c :: l) _ st Ha) by done. by rewrite <- El, str_chars.
  - destruct (chars (name t)) as [|c l] eqn:El; [done|]. cbn in H.
    pose proof Ht as Hn. simpl in Ht. apply andb_true_iff in Ht as [[Hv Hdg]%andb_true_iff _].
    rewrite (step_at i n c _ st H (name_start c Hv)). cbn zeta.
    assert (c <> ":"%char) as Hcol by (intros ->; discriminate).
    rewrite (colons_at_no source _ c _ Ha Hcol). cbn [res_bind]. rewrite Hv, Hdg. cbn [andb orb].
    rewrite (name_branch_at _ (c :: l) d T' Hn Hd Ha). unfold emit_branch. cbn [res_bind fst snd].
    rewrite (emit_at NAME _ (c :: l) _ st Ha) by done. by rewrite <- El, str_chars.
Qed.

Lemma skip_space_end k : forall m i,
  at_ source i (replicate m " "%char ++ [nl]) -> (m + 1 < k)%nat ->
  skip_space source k i = Ok (i + Z.of_nat m + 1).
Proof.
  induction k as [|k IH]; intros m i H Hk; [lia|]. simpl.
  pose proof (at_bounds source _ _ H) as [_ Hb]. rewrite length_app in Hb. simpl in Hb.
  assert ((i <? src_end source) = true) as -> by (apply Z.ltb_lt; lia).
  destruct m as [|m]; simpl in H.
  - rewrite (py_index_at source i nl [] H). cbn [res_bind].
    change (isspace nl) with true. cbn iota. destruct k as [|k]; [lia|]. simpl.
    apply at_cons in H. pose proof (at_bounds source _ _ H) as [_ Hb']. simpl in Hb'.
    assert ((i + 1 <? src_end source) = false) as -> by (apply Z.ltb_ge; lia).
    f_equal. lia.
  - rewrite (py_index_at source i " "%char _ H). cbn [res_bind].
    change (isspace " ") with true. cbn iota. apply at_cons in H.
    rewrite (IH m (i + 1) H ltac:(lia)). f_equal. lia.
Qed.

Lemma lexes_GetTokens T ts : lexes T ts -> forall fuel i st,
  at_ source i T -> (length T < fuel)%nat ->
  exists ts', GetTokens_loop source fuel i st = Ok ts' /\ map erase_tok ts' = map erase_tok ts.
Proof.
  induction 1 as [n|n t T ts Ht Hf Hts IH]; intros fuel i st H Hfuel;
    destruct fuel as [|fuel]; try lia; pose proof (at_bounds source _ _ H) as [H0 Hb].
  - simpl. rewrite length_app in Hb. simpl in Hb.
    assert ((i <? src_end source) = true) as -> by (apply Z.ltb_lt; lia).
    exists []. split; [|done]. unfold step.
    rewrite length_replicate in Hb.
    rewrite (skip_space_end (scan_fuel source) n i H) by (unfold scan_fuel, src_end in *; lia).
    cbn [res_bind]. assert ((src_end source <=? i + Z.of_nat n + 1) = true) as -> by (apply Z.leb_le; lia).
    done.
  - simpl. assert (chars (name t) <> []) as Hne.
    { unfold lexeme in Ht. intros E. destruct (tok_type t); try discriminate.
      - apply syntax_name in Ht as (c&Ec&_). by rewrite Ec in E.
      - by rewrite E in Ht.
      - by rewrite E in Ht. }
    rewrite !length_app in Hb, Hfuel.
    assert (0 < length (chars (name t)))%nat as Hlen by (destruct (chars (name t)); simpl; [done|lia]).
    assert ((i <? src_end source) = true) as -> by (apply Z.ltb_lt; lia).
    rewrite (step_lexeme i n t T st Ht Hf H). cbn [res_bind].
    destruct (IH fuel (i + Z.of_nat n + Z.of_nat (length (chars (name t)))) st) as (ts'&E&Ets).
    + apply at_app, at_app in H. by rewrite length_replicate in H.
    + lia.
    + rewrite E. cbn [res_bind]. eexists. split; [reflexivity|]. simpl. by rewrite Ets.
Qed.
End tokens.

Lemma GetTokens_lexes T ts :
  lexes T ts -> exists ts', GetTokens T = Ok ts' /\ map erase_tok ts' = map erase_tok ts.
Proof.
  intros H. apply (lexes_GetTokens T T ts H); [by exists []|lia].
Qed.

(** ** Well-formed types

    A type is a list of plain tokens and of applications: an opening token, the
    nested types separated by commas, a closing token. *)
Definition brackets : list string := ["<"; "("; ","; ">"; ")"].
Definition plain_item (t : token) : bool := lexeme t && negb (mem_str (name t) brackets).
Definition bracket (t : token) (l : list string) : bool := lexeme t && mem_str (name t) l.

Inductive wf_items : ctype -> Prop :=
  | wi_nil : wf_items []
  | wi_tok t l : plain_item t = true -> wf_items l -> wf_items (Tok t :: l)
  | wi_app o a l :
      bracket o ["<"; "("] = true -> wf_args a -> wf_items l -> wf_items (Tok o :: a ++ l)
with wf_args : ctype -> Prop :=
  | wa_last n t :
      wf_items n -> bracket t [">"; ")"] = true -> wf_args [Sub n; Tok t]
  | wa_cons n t a :
      wf_items n -> bracket t [","] = true -> wf_args a -> wf_args (Sub n :: Tok t :: a).

Scheme wf_items_mut := Minimality for wf_items Sort Prop
  with wf_args_mut := Minimality for wf_args Sort Prop.
Combined Scheme wf_mutind from wf_items_mut, wf_args_mut.

(** The normal form: the modifiers reordered at every level. *)
Fixpoint canon_item (x : citem) : citem :=
  match x with
  | Tok t => Tok t
  | Sub l => Sub (canonical (map canon_item l))
  end.
Definition canon (c : ctype) : ctype := canonical (map canon_item c).

(** A type without the positions of its tokens. *)
Fixpoint erase_item (x : citem) : citem :=
  match x with
  | Tok t => Tok (Token (tok_type t) (name t) None None)
  | Sub l => Sub (map erase_item l)
  end.
Definition erase (c : ctype) : ctype := map erase_item c.

(** The tokens of a type, in order. *)
Fixpoint flat_item (x : citem) : list token :=
  match x with Tok t => [t] | Sub l => flat_map flat_item l end.
Definition flat (c : ctype) : list token := flat_map flat_item c.

(** ** Maps over the items that keep the names *)

Definition keeps_names (f : citem -> citem) : Prop :=
  forall x, (forall m, is_named m (f x) = is_named m x) /\ is_ptr_ref (f x) = is_ptr_ref x.

Lemma canon_item_names : keeps_names canon_item.
Proof. by intros [t|l]. Qed.
Lemma erase_item_names : keeps_names erase_item.
Proof. by intros [t|l]. Qed.

Lemma settle2_map f cs vs l :
  keeps_names f -> map f (settle2 cs vs l) = settle2 (map f cs) (map f vs) (map f l).
Proof.
  intros Hf. revert cs vs. induction l as [|x l IH]; intros cs vs; simpl.
  - apply map_app.
  - destruct (Hf x) as [Hn ->]. rewrite !Hn.
    destruct (is_named "const" x); [by rewrite IH, map_app|].
    destruct (is_named "volatile" x); [by rewrite IH, map_app|].
    destruct (is_ptr_ref x); [by rewrite !map_app; simpl; rewrite IH | by simpl; rewrite IH].
Qed.

Lemma canonical_map f c : keeps_names f -> map f (canonical c) = canonical (map f c).
Proof. apply settle2_map. Qed.

Lemma canonical_idem c : canonical (canonical c) = canonical c.
Proof. apply canonical_settle2; constructor. Qed.

Lemma canon_item_idem x : canon_item (canon_item x) = canon_item x.
Proof.
  induction x as [t|l IH] using citem_nested_ind; [done|]. simpl. f_equal.
  rewrite (canonical_map _ _ canon_item_names), canonical_idem. f_equal.
  rewrite map_map. apply map_ext_in. intros y Hy. by apply (proj1 (List.Forall_forall _ _) IH).
Qed.

Lemma canon_idem c : canon (canon c) = canon c.
Proof.
  unfold canon. rewrite (canonical_map _ _ canon_item_names), canonical_idem, map_map.
  f_equal. apply map_ext. apply canon_item_idem.
Qed.

(** ** The text of a well-formed type *)

Lemma show_item_Sub first l :
  show_item first (Sub l) = (if first then EmptyString else " ") +:+ show_items true l.
Proof. reflexivity. Qed.

Lemma show_items_cons first x l :
  show_items first (x :: l) = show_item first x +:+ show_items false l.
Proof. reflexivity. Qed.

Lemma show_items_app a l : show_items false (a ++ l) = show_items false a +:+ show_items false l.
Proof.
  induction a as [|x a IH]; simpl; [done|]. by rewrite IH, app_str_assoc.
Qed.

Lemma erase_show_item x : forall first, show_item first (erase_item x) = show_item first x.
Proof.
  induction x as [t|l IH] using citem_nested_ind; intros first; [done|].
  change (erase_item (Sub l)) with (Sub (map erase_item l)).
  rewrite !show_item_Sub. f_equal. generalize true. induction IH as [|y l Hy H IHl]; [done|].
  intros b. simpl. by rewrite Hy, IHl.
Qed.

Lemma erase_show c : show (erase c) = show c.
Proof.
  unfold show. generalize true. induction c as [|y c IH]; [done|].
  intros b. simpl. by rewrite erase_show_item, IH.
Qed.

Lemma chars_app a b : chars (a +:+ b) = chars a ++ chars b.
Proof. induction a as [|c a IH]; [done|]. simpl. by f_equal. Qed.

Definition starts (T : list ascii) : Prop := exists d T', T = d :: T' /\ delim d = true.

Lemma follows_starts t T : starts T -> name t <> "<" -> follows t T.
Proof. intros (d&T'&->&Hd) Ht. exists d, T'. split_and!; [done|done|]. by intros [? _]. Qed.
Lemma follows_space t T : follows t (" "%char :: T).
Proof. exists " "%char, T. split_and!; [done|done|]. by intros [_ ?]. Qed.

Lemma glued_lexeme t : lexeme t = true -> glued (name t) = mem_str (name t) ["<"; ","].
Proof.
  unfold lexeme, glued, mem_str. simpl. intros H.
  destruct (String.eqb_spec (name t) EmptyString) as [E|_].
  { rewrite E in H. by destruct (tok_type t). }
  destruct (String.eqb_spec (name t) "<,") as [E|_]; [|by rewrite !orb_false_r].
  rewrite E in H. by destruct (tok_type t).
Qed.

Lemma mem_str_false s x l : mem_str s l = false -> In x l -> s <> x.
Proof.
  intros H Hx ->. assert (mem_str x l = true); [|congruence].
  apply existsb_exists. exists x. by rewrite String.eqb_refl.
Qed.

Lemma bracket_cases t l : bracket t l = true -> lexeme t = true /\ In (name t) l.
Proof.
  intros [Ht Hl]%andb_true_iff. split; [done|].
  apply existsb_exists in Hl as (x&Hx&->%String.eqb_eq). done.
Qed.

(** The text of one token: blanks, possibly none, then its name. *)
Lemma show_tok_lexes first t T ts :
  lexeme t = true -> follows t T -> lexes T ts ->
  lexes (chars (show_item first (Tok t)) ++ T) (t :: ts)
  /\ (first = false -> mem_str (name t) ["<"; ","] = false ->
      exists X, chars (show_item first (Tok t)) ++ T = " "%char :: X).
Proof.
  intros Ht Hf HT. pose proof (lx_tok 0 t T ts Ht Hf HT) as H. cbn [replicate app] in H.
  cbn [show_item]. rewrite (glued_lexeme t Ht). split.
  - destruct (mem_str (name t) ["<"; ","]); [done|]. destruct first; [done|].
    exact (lexes_space _ _ H).
  - intros -> ->. by eexists.
Qed.

(** The text of a type, and of an argument list, spells its tokens. *)
Definition items_lexed (c : ctype) : Prop :=
  forall first T ts, lexes T ts -> starts T ->
    lexes (chars (show_items first c) ++ T) (flat c ++ ts)
    /\ (first = false -> starts (chars (show_items first c) ++ T)).
Definition args_lexed (a : ctype) : Prop :=
  forall T ts, lexes T ts -> starts T ->
    lexes (chars (show_items false a) ++ T) (flat a ++ ts)
    /\ exists X, chars (show_items false a) ++ T = " "%char :: X.

Lemma items_lexed_tok t l : plain_item t = true -> items_lexed l -> items_lexed (Tok t :: l).
Proof.
  intros [Ht Hb]%andb_true_iff IH first T ts HT Hs.
  apply negb_true_iff in Hb. destruct (IH false T ts HT Hs) as [Hl Hst].
  rewrite !show_items_cons, chars_app, <- app_assoc.
  assert (follows t (chars (show_items false l) ++ T)) as Hf.
  { apply follows_starts; [by apply Hst|]. apply (mem_str_false _ _ _ Hb). by left. }
  destruct (show_tok_lexes first t _ _ Ht Hf Hl) as [H1 H2]. split; [exact H1|].
  intros ->. destruct (H2 eq_refl) as (X&->).
  - unfold mem_str, brackets in *. simpl in *.
    repeat (apply orb_false_iff in Hb as [? Hb]). by repeat (apply orb_false_iff; split).
  - by exists " "%char, X.
Qed.

Lemma items_lexed_app o a l :
  bracket o ["<"; "("] = true -> args_lexed a -> items_lexed l -> items_lexed (Tok o :: a ++ l).
Proof.
  intros [Ho Hn]%bracket_cases IHa IHl first T ts HT Hs.
  destruct (IHl false T ts HT Hs) as [Hl Hst].
  destruct (IHa _ _ Hl (Hst eq_refl)) as [Ha (X&HX)].
  assert (flat (Tok o :: a ++ l) ++ ts = o :: flat a ++ flat l ++ ts) as ->.
  { unfold flat. simpl. by rewrite flat_map_app, <- app_assoc. }
  rewrite !show_items_cons, chars_app, <- app_assoc, show_items_app, chars_app, <- app_assoc.
  assert (follows o (chars (show_items false a) ++ chars (show_items false l) ++ T)) as Hf.
  { rewrite HX. apply follows_space. }
  destruct (show_tok_lexes first o _ _ Ho Hf Ha) as [H1 H2]. split; [exact H1|].
  intros ->. destruct Hn as [E|[E|[]]].
  - exists "<"%char. simpl. rewrite <- E. by eexists.
  - destruct (H2 eq_refl) as (Y&->); [by rewrite <- E | by exists " "%char, Y].
Qed.

Lemma args_lexed_last n t :
  items_lexed n -> bracket t [">"; ")"] = true -> args_lexed [Sub n; Tok t].
Proof.
  intros IHn [Ht Hn]%bracket_cases T ts HT Hs.
  assert (follows t T) as Hf.
  { apply follows_starts; [done|]. intros E. rewrite E in Hn. simpl in Hn. intuition discriminate. }
  destruct (show_tok_lexes false t T ts Ht Hf HT) as [H1 H2].
  destruct (H2 eq_refl) as (Y&HY).
  { destruct Hn as [<-|[<-|[]]]; reflexivity. }
  assert (flat [Sub n; Tok t] ++ ts = flat n ++ t :: ts) as ->.
  { unfold flat. simpl. by rewrite <- app_assoc. }
  rewrite !show_items_cons, show_item_Sub, app_str_nil_r, !chars_app, <- !app_assoc.
  destruct (IHn true _ _ H1) as [H3 _].
  { rewrite HY. by exists " "%char, Y. }
  split; [apply lexes_space, H3 | by eexists].
Qed.

Lemma args_lexed_cons n t a :
  items_lexed n -> bracket t [","] = true -> args_lexed a -> args_lexed (Sub n :: Tok t :: a).
Proof.
  intros IHn [Ht Hn]%bracket_cases IHa T ts HT Hs.
  destruct (IHa T ts HT Hs) as [Ha (X&HX)]. destruct Hn as [Hn|[]].
  assert (follows t (chars (show_items false a) ++ T)) as Hf by (rewrite HX; apply follows_space).
  destruct (show_tok_lexes false t _ _ Ht Hf Ha) as [H1 _].
  assert (flat (Sub n :: Tok t :: a) ++ ts = flat n ++ t :: flat a ++ ts) as ->.
  { unfold flat. simpl. by rewrite <- app_assoc. }
  rewrite !show_items_cons, show_item_Sub, !chars_app, <- !app_assoc.
  destruct (IHn true _ _ H1) as [H3 _].
  { exists ","%char. simpl. rewrite <- Hn. by eexists. }
  split; [apply lexes_space, H3 | by eexists].
Qed.

Lemma show_lexes :
  (forall c, wf_items c -> items_lexed c) /\ (forall a, wf_args a -> args_lexed a).
Proof.
  apply wf_mutind; intros;
    eauto using items_lexed_tok, items_lexed_app, args_lexed_last, args_lexed_cons.
  intros first T ts HT Hs. by split.
Qed.

(** ** The parser on the tokens of a well-formed type *)

Lemma strip_global_lexeme t : lexeme t = true -> strip_global t = t.
Proof.
  unfold lexeme, strip_global. destruct t as [ty n s e]. simpl. intros H.
  destruct n as [|c n]; [done|]. destruct ty; try discriminate H.
  - apply syntax_name in H as (c'&[= -> ->]&Hc). simpl in Hc. destruct_or? Hc; by subst.
  - simpl in H. apply andb_true_iff in H as [H _]. by destruct c as [[] [] [] [] [] [] [] []].
  - simpl in H. apply andb_true_iff in H as [[H _]%andb_true_iff _].
    by destruct c as [[] [] [] [] [] [] [] []].
Qed.

Lemma lexeme_syntax t : lexeme t = true -> In (name t) brackets -> tok_type t = SYNTAX.
Proof.
  unfold lexeme. intros H Hn. destruct (tok_type t); try discriminate H; [done|..];
    simpl in Hn; destruct_or? Hn; rewrite <- Hn in H; discriminate H.
Qed.

Lemma erase_tok_inv t t' :
  erase_tok t' = erase_tok t ->
  lexeme t' = lexeme t /\ tok_type t' = tok_type t /\ name t' = name t
  /\ erase_item (Tok t') = erase_item (Tok t).
Proof. unfold erase_tok, lexeme. simpl. by intros [= -> ->]. Qed.

(** One token of the parser's loop. *)
Lemma parse_plain F acc t ts :
  plain_item t = true ->
  parse_type_recursive (S F) acc (t :: ts) = parse_type_recursive F (acc ++ [Tok t]) ts.
Proof.
  intros [Ht Hb]%andb_true_iff. apply negb_true_iff in Hb. cbn [parse_type_recursive].
  rewrite (strip_global_lexeme t Ht). destruct (decide (tok_type t = SYNTAX)); [|done].
  assert (mem_str (name t) [","; ">"; ")"] = false /\ mem_str (name t) ["<"; "("] = false)
    as [-> ->]; [|done].
  unfold mem_str, brackets in *. simpl in *.
  destruct (String.eqb (name t) "<"), (String.eqb (name t) "("), (String.eqb (name t) ","),
    (String.eqb (name t) ">"), (String.eqb (name t) ")"); done.
Qed.

Lemma parse_open F acc t ts :
  bracket t ["<"; "("] = true ->
  parse_type_recursive (S F) acc (t :: ts) =
    (r <-? parse_arguments F (acc ++ [Tok t]) ts ;; parse_type_recursive F r.1 r.2).
Proof.
  intros [Ht Hn]%bracket_cases. cbn [parse_type_recursive]. rewrite (strip_global_lexeme t Ht).
  rewrite decide_True by (apply lexeme_syntax; simpl in *; tauto).
  destruct Hn as [<-|[<-|[]]]; reflexivity.
Qed.

Lemma parse_close F acc t ts :
  bracket t [","; ">"; ")"] = true ->
  parse_type_recursive (S F) acc (t :: ts) = Ok (canonical acc, Some t, ts).
Proof.
  intros [Ht Hn]%bracket_cases. cbn [parse_type_recursive]. rewrite (strip_global_lexeme t Ht).
  rewrite decide_True by (apply lexeme_syntax; simpl in *; tauto).
  rewrite reorder_modifiers_canonical. destruct Hn as [<-|[<-|[<-|[]]]]; reflexivity.
Qed.

(** Tokens equal up to their positions. *)
Definition same_toks (ts ts' : list token) : Prop := map erase_tok ts = map erase_tok ts'.

Lemma same_toks_app ts l1 l2 :
  same_toks ts (l1 ++ l2) ->
  exists t1 t2, ts = t1 ++ t2 /\ same_toks t1 l1 /\ same_toks t2 l2.
Proof.
  unfold same_toks. rewrite map_app. intros H. apply map_eq_app in H as (t1&t2&->&H1&H2).
  by exists t1, t2.
Qed.

Lemma same_toks_cons ts t l :
  same_toks ts (t :: l) -> exists t' ts', ts = t' :: ts' /\ erase_tok t' = erase_tok t /\ same_toks ts' l.
Proof.
  unfold same_toks. destruct ts as [|t' ts']; [done|]. rewrite !map_cons. intros [= H1 H2 H3].
  exists t', ts'. split_and!; [done| |done]. unfold erase_tok. by f_equal.
Qed.

Lemma same_toks_bracket t t' l : erase_tok t' = erase_tok t -> bracket t' l = bracket t l.
Proof. intros (H1&_&H2&_)%erase_tok_inv. unfold bracket. by rewrite H1, H2. Qed.
Lemma same_toks_plain t t' : erase_tok t' = erase_tok t -> plain_item t' = plain_item t.
Proof. intros (H1&_&H2&_)%erase_tok_inv. unfold plain_item. by rewrite H1, H2. Qed.

(** What the parser makes of the tokens of a type, and of an argument list. *)
Definition items_parsed (c : ctype) : Prop :=
  forall ts F acc rest, same_toks ts (flat c) -> (length ts < F)%nat ->
  exists F' c', (F <= F' + length ts)%nat /\ erase c' = erase (map canon_item c)
    /\ parse_type_recursive F acc (ts ++ rest) = parse_type_recursive F' (acc ++ c') rest.
Definition args_parsed (a : ctype) : Prop :=
  forall ts F acc rest, same_toks ts (flat a) -> (length ts < F)%nat ->
  exists a', erase a' = erase (map canon_item a)
    /\ parse_arguments F acc (ts ++ rest) = Ok (acc ++ a', rest).

Lemma erase_Sub n n' :
  erase n' = erase (map canon_item n) ->
  erase_item (Sub (canonical n')) = erase_item (canon_item (Sub n)).
Proof.
  intros H. simpl. f_equal. rewrite !(canonical_map _ _ erase_item_names). f_equal. exact H.
Qed.

(** A nested type and the token that ends it. *)
Lemma parse_nested n t : items_parsed n -> bracket t [","; ">"; ")"] = true ->
  forall ts F rest, same_toks ts (flat n ++ [t]) -> (length ts <= F)%nat ->
  exists n' t', erase_item (Sub n') = erase_item (canon_item (Sub n)) /\ erase_tok t' = erase_tok t
    /\ parse_type_recursive F [] (ts ++ rest) = Ok (n', Some t', rest).
Proof.
  intros Hn Ht ts F rest Hts HF.
  apply same_toks_app in Hts as (tn&tl&->&Htn&Htl).
  apply same_toks_cons in Htl as (t'&tl'&->&Et&Hnil). destruct tl'; [|done].
  rewrite length_app in HF. simpl in HF.
  destruct (Hn tn F [] ([t'] ++ rest) Htn ltac:(lia)) as (F'&n'&HF'&En&Ep).
  destruct F' as [|F']; [lia|]. exists (canonical n'), t'. split_and!; [by apply erase_Sub|done|].
  rewrite <- app_assoc, Ep. apply parse_close. by rewrite (same_toks_bracket t t').
Qed.

Lemma bracket_sub t l l' : bracket t l = true -> incl l l' -> bracket t l' = true.
Proof.
  intros [Ht Hn]%bracket_cases Hl. unfold bracket. rewrite Ht. apply existsb_exists.
  exists (name t). split; [by apply Hl | apply String.eqb_refl].
Qed.
Lemma last_sub : incl [">"; ")"] [","; ">"; ")"].
Proof. intros x. simpl. tauto. Qed.
Lemma comma_sub : incl [","] [","; ">"; ")"].
Proof. intros x. simpl. tauto. Qed.

Lemma items_parsed_tok t l : plain_item t = true -> items_parsed l -> items_parsed (Tok t :: l).
Proof.
  intros Ht IH ts F acc rest Hts HF.
  apply same_toks_cons in Hts as (t'&ts'&->&Et&Hts). simpl in HF.
  destruct F as [|F]; [lia|].
  destruct (IH ts' F (acc ++ [Tok t']) rest Hts ltac:(lia)) as (F'&c'&HF'&Ec&Ep).
  exists F', (Tok t' :: c'). split_and!; [simpl; lia| |].
  - apply erase_tok_inv in Et as (_&_&_&Et). unfold erase in *. rewrite !map_cons, Ec.
    f_equal. exact Et.
  - rewrite <- app_comm_cons, parse_plain by by rewrite (same_toks_plain t t').
    by rewrite Ep, <- app_assoc.
Qed.

Lemma items_parsed_app o a l :
  bracket o ["<"; "("] = true -> args_parsed a -> items_parsed l -> items_parsed (Tok o :: a ++ l).
Proof.
  intros Ho IHa IHl ts F acc rest Hts HF.
  assert (flat (Tok o :: a ++ l) = o :: flat a ++ flat l) as Efl
    by (unfold flat; simpl; by rewrite flat_map_app).
  rewrite Efl in Hts. apply same_toks_cons in Hts as (o'&ts'&->&Eo&Hts).
  apply same_toks_app in Hts as (ta&tl&->&Hta&Htl).
  simpl in HF. rewrite length_app in HF. destruct F as [|F]; [lia|].
  destruct (IHa ta F (acc ++ [Tok o']) (tl ++ rest) Hta ltac:(lia)) as (a'&Ea&Epa).
  destruct (IHl tl F ((acc ++ [Tok o']) ++ a') rest Htl ltac:(lia)) as (F'&l'&HF'&El&Epl).
  exists F', (Tok o' :: a' ++ l'). split_and!.
  - simpl. rewrite length_app. lia.
  - apply erase_tok_inv in Eo as (_&_&_&Eo). unfold erase in *.
    rewrite !map_cons, !map_app, Ea, El. f_equal. exact Eo.
  - rewrite <- app_comm_cons, parse_open by by rewrite (same_toks_bracket o o').
    rewrite <- app_assoc, Epa. cbn [res_bind fst snd]. rewrite Epl. by rewrite <- !app_assoc.
Qed.

Lemma args_parsed_last n t :
  items_parsed n -> bracket t [">"; ")"] = true -> args_parsed [Sub n; Tok t].
Proof.
  intros IHn Ht ts F acc rest Hts HF.
  destruct F as [|F]; [lia|]. unfold same_toks in Hts.
  destruct (parse_nested n t IHn (bracket_sub _ _ _ Ht last_sub) ts F rest Hts ltac:(lia))
    as (n'&t'&En&Et&Ep).
  exists [Sub n'; Tok t']. split.
  - apply erase_tok_inv in Et as (_&_&_&Et). unfold erase. rewrite !map_cons, En. by f_equal; f_equal.
  - cbn [parse_arguments]. rewrite Ep. cbn [res_bind].
    apply erase_tok_inv in Et as (_&_&->&_). apply bracket_cases in Ht as [_ Ht].
    destruct Ht as [<-|[<-|[]]]; reflexivity.
Qed.

Lemma args_parsed_cons n t a :
  items_parsed n -> bracket t [","] = true -> args_parsed a -> args_parsed (Sub n :: Tok t :: a).
Proof.
  intros IHn Ht IHa ts F acc rest Hts HF.
  assert (flat (Sub n :: Tok t :: a) = (flat n ++ [t]) ++ flat a) as Efl
    by (unfold flat; simpl; by rewrite <- app_assoc).
  rewrite Efl in Hts. apply same_toks_app in Hts as (tn&ta&->&Htn&Hta).
  rewrite length_app in HF. assert (0 < length tn)%nat as Hpos.
  { destruct tn; [|simpl; lia]. by destruct (flat n). }
  destruct F as [|F]; [lia|].
  destruct (parse_nested n t IHn (bracket_sub _ _ _ Ht comma_sub) tn F (ta ++ rest) Htn ltac:(lia))
    as (n'&t'&En&Et&Ep).
  destruct (IHa ta F (acc ++ [Sub n'; Tok t']) rest Hta ltac:(lia)) as (a'&Ea&Epa).
  exists (Sub n' :: Tok t' :: a'). split.
  - apply erase_tok_inv in Et as (_&_&_&Et). unfold erase in *.
    rewrite !map_cons, En, Ea. by f_equal; f_equal.
  - cbn [parse_arguments]. rewrite <- app_assoc, Ep. cbn [res_bind].
    apply erase_tok_inv in Et as (_&_&->&_). apply bracket_cases in Ht as [_ [<-|[]]].
    simpl. rewrite Epa. by rewrite <- app_assoc.
Qed.

Lemma wf_parsed : (forall c, wf_items c -> items_parsed c) /\ (forall a, wf_args a -> args_parsed a).
Proof.
  apply wf_mutind; intros;
    eauto using items_parsed_tok, items_parsed_app, args_parsed_last, args_parsed_cons.
  intros ts F acc rest Hts HF. destruct ts; [|done]. exists F, []. rewrite app_nil_r.
  split_and!; [simpl; lia|done|done].
Qed.

(** ** The normal form of a well-formed type is well formed *)

Definition plain_citem (x : citem) : bool :=
  match x with Tok t => plain_item t | Sub _ => false end.

Lemma wf_plain_app cs l :
  forallb plain_citem cs = true -> wf_items l -> wf_items (cs ++ l).
Proof.
  induction cs as [|[t|n] cs IH]; simpl; [done| |done].
  intros [Ht Hcs]%andb_true_iff Hl. constructor; auto.
Qed.

Lemma settle2_bracket t l cs vs r :
  bracket t l = true -> incl l brackets ->
  settle2 cs vs (Tok t :: r) = Tok t :: settle2 cs vs r.
Proof.
  intros [_ Ht]%bracket_cases Hl. apply Hl in Ht. simpl in *. unfold is_ptr_ref.
  destruct_or? Ht; rewrite <- Ht; done.
Qed.

Lemma settle2_args a cs vs l : wf_args a -> settle2 cs vs (a ++ l) = a ++ settle2 cs vs l.
Proof.
  intros Ha. induction Ha as [n t _ Ht|n t a _ Ht _ IH].
  - simpl app. cbn [settle2 is_named is_ptr_ref]. f_equal.
    apply (settle2_bracket _ _ _ _ _ Ht). intros x. simpl. tauto.
  - simpl app. cbn [settle2 is_named is_ptr_ref]. f_equal. rewrite <- IH.
    apply (settle2_bracket _ _ _ _ _ Ht). intros x. simpl. tauto.
Qed.

Lemma wf_settle2 c cs vs :
  wf_items c -> forallb plain_citem cs = true -> forallb plain_citem vs = true ->
  wf_items (settle2 cs vs c).
Proof.
  intros Hc. revert cs vs. induction Hc as [|t l Ht _ IH|o a l Ho Ha _ IH]; intros cs vs Hcs Hvs.
  - rewrite <- (app_nil_r (settle2 cs vs [])). simpl. rewrite <- app_assoc.
    by repeat apply wf_plain_app; try constructor.
  - assert (forall ms, forallb plain_citem ms = true -> forallb plain_citem (ms ++ [Tok t]) = true)
      as Hsnoc by (intros ms Hms; rewrite forallb_app, Hms; simpl; by rewrite Ht).
    cbn [settle2]. repeat case_match; auto using wi_tok.
    repeat apply wf_plain_app; try done. constructor; auto.
  - rewrite (settle2_bracket o _ _ _ _ Ho) by (intros x; simpl; tauto).
    rewrite (settle2_args a cs vs l Ha). apply wi_app; auto.
Qed.

Lemma wf_canonical c : wf_items c -> wf_items (canonical c).
Proof. intros H. by apply wf_settle2. Qed.

Lemma wf_map_canon :
  (forall c, wf_items c -> wf_items (map canon_item c))
  /\ (forall a, wf_args a -> wf_args (map canon_item a)).
Proof.
  apply wf_mutind; intros; simpl; rewrite ?map_app; eauto using wf_items, wf_args, wf_canonical.
Qed.

Lemma wf_canon c : wf_items c -> wf_items (canon c).
Proof. intros H. by apply wf_canonical, wf_map_canon. Qed.

(** ** The round trip *)

Lemma parse_show c : wf_items c ->
  exists c', parse_type (show c) = Ok c' /\ erase c' = erase (canon c).
Proof.
  intros Hc. assert (starts [nl]) as Hs by by exists nl, [].
  destruct (proj1 show_lexes c Hc true [nl] [] (lx_end 0) Hs) as [Hl _].
  rewrite app_nil_r in Hl. destruct (GetTokens_lexes _ _ Hl) as (ts&Ets&Hts).
  destruct (proj1 wf_parsed c Hc ts (2 * length ts + 2)%nat [] [] Hts ltac:(lia))
    as (F'&c'&HF&Ec&Ep).
  exists (canonical c'). unfold parse_type, parse_tokens. split.
  - assert (chars (show c +:+ nls) = chars (show_items true c) ++ [nl]) as ->
      by apply (chars_app _ nls).
    rewrite Ets. cbn [res_bind]. rewrite app_nil_r in Ep. rewrite Ep.
    destruct F' as [|F']; [lia|]. cbn [parse_type_recursive].
    by rewrite reorder_modifiers_canonical.
  - unfold canon, erase in *. by rewrite !(canonical_map _ _ erase_item_names), Ec.
Qed.

Lemma normalize_show c : wf_items c -> normalize_type_string (show c) = Ok (show (canon c)).
Proof.
  intros Hc. unfold normalize_type_string. destruct (parse_show c Hc) as (c'&->&Ec).
  cbn [res_bind]. f_equal. by rewrite <- (erase_show c'), Ec, erase_show.
Qed.

(** C5: printing and parsing types are inverse.  For every type built from
    names, numbers, pointers, references, template applications and parameter
    lists, nested to any depth, parsing its printed form succeeds and gives,
    token positions apart, the type with the modifiers reordered at every level;
    [normalize_type_string] of the printed form is the printed normal form; and
    normalizing a normal form changes nothing, so that the keys under which
    type handlers are registered are fixed points of the lookup's
    normalization. *)
Theorem type_print_parse_roundtrip (c : ctype) (Hc : wf_items c) :
  (exists c', parse_type (show c) = Ok c' /\ erase c' = erase (canon c))
  /\ normalize_type_string (show c) = Ok (show (canon c))
  /\ normalize_type_string (show (canon c)) = Ok (show (canon c)).
Proof.
  split_and!; [by apply parse_show | by apply normalize_show |].
  rewrite normalize_show by by apply wf_canon. by rewrite canon_idem.
Qed.

(** [const std::vector<const char *> &] *)
Definition sample_type : ctype :=
  let tok ty n := Token ty n None None in
  [Tok (tok NAME "const"); Tok (tok NAME "std::vector"); Tok (tok SYNTAX "<");
   Sub [Tok (tok NAME "const"); Tok (tok NAME "char"); Tok (tok SYNTAX "*")];
   Tok (tok SYNTAX ">"); Tok (tok SYNTAX "&")].

Lemma type_print_parse_roundtrip_witness :
  wf_items sample_type
  /\ show sample_type = "const std::vector< const char * > &"
  /\ (exists c', parse_type (show sample_type) = Ok c' /\ erase c' = erase (canon sample_type))
  /\ normalize_type_string (show sample_type) = Ok "std::vector< char const * > const &".
Proof.
  assert (wf_items sample_type) as Hw.
  { unfold sample_type. do 2 (apply wi_tok; [reflexivity|]).
    apply (wi_app _ [Sub _; Tok _]); [reflexivity| |by repeat constructor].
    apply wa_last; [|reflexivity]. by repeat constructor. }
  pose proof (type_print_parse_roundtrip sample_type Hw) as (H1&H2&_).
  split_and!; [exact Hw|reflexivity|exact H1|exact H2].
Defined.
