(* ===== verification/CodeBlock.v ===== *)
(** * Code blocks and variable scopes: [CodeBlock], [DeclarationsScope] and
    [join_ctype_and_name] of [pybindgen/typehandlers/base.py]

    A [CodeBlock] is reached through references (its successor blocks, the
    cleanup handles, the wrapper), and a [DeclarationsScope] may share the
    dictionary of its parent; so the objects live in a heap and the methods are
    state transformers of it.  An identifier is an index of the heap. *)
From stdpp Require Import sorting.
From S2P Require Import Prelude.
From S2P Require Import CodeSink.

(** ** [join_ctype_and_name] *)

(** The text without its trailing asterisks, and those asterisks. *)
Fixpoint split_stars (s : string) : string * string :=
  match s with
  | EmptyString => (EmptyString, EmptyString)
  | String a s' =>
      let '(b, stars) := split_stars s' in
      if String.eqb b EmptyString && Ascii.eqb a "*"%char then (EmptyString, String a stars)
      else (String a b, stars)
  end.

Definition join_ctype_and_name (ctype name : string) : res string :=
  match last_char ctype with
  | None => Raise IndexError
  | Some c =>
      if Ascii.eqb c "*"%char then
        let '(base, stars) := split_stars ctype in
        match last_char base with
        | None => Raise ValueError
        | Some d => if Ascii.eqb d " "%char then Ok (base +:+ stars +:+ name)
                    else Ok (base +:+ " " +:+ stars +:+ name)
        end
      else Ok (ctype +:+ " " +:+ name)
  end.

(** ** The heap *)

Record code_block : Type := MkBlock {
  cb_sink : code_sink;
  cb_predecessor : option nat;
  cb_cleanup_actions : gmap Z string;
  cb_last_cleanup_position : Z;
  cb_error_return : string;
  cb_declarations : nat
}.

Record decl_scope : Type := MkScope {
  ds_declarations : code_sink;
  ds_declared_variables : nat
}.

Record heap : Type := Heap {
  h_blocks : list code_block;
  h_scopes : list decl_scope;
  h_dicts : list (gmap string Z)
}.

Definition empty_heap : heap := Heap [] [] [].

(** [CleanupHandle] *)
Record cleanup_handle : Type := Handle { code_block_of : nat; position : Z }.

(** Following a reference; a dangling one has no attributes. *)
Definition deref {A} (f : heap -> list A) (i : nat) : ST heap A :=
  fun h => match f h !! i with Some a => (h, Ok a) | None => (h, Raise AttributeError) end.

Definition set_block (i : nat) (b : code_block) : ST heap unit :=
  st_modify (fun h => Heap (<[i := b]> (h_blocks h)) (h_scopes h) (h_dicts h)).
Definition set_scope (i : nat) (d : decl_scope) : ST heap unit :=
  st_modify (fun h => Heap (h_blocks h) (<[i := d]> (h_scopes h)) (h_dicts h)).
Definition set_dict (i : nat) (m : gmap string Z) : ST heap unit :=
  st_modify (fun h => Heap (h_blocks h) (h_scopes h) (<[i := m]> (h_dicts h))).

(** ** [DeclarationsScope] *)

Definition DeclarationsScope (parent_scope : option nat) : ST heap nat :=
  d <- match parent_scope with
       | None => fun h => (Heap (h_blocks h) (h_scopes h) (h_dicts h ++ [∅]),
                           Ok (length (h_dicts h)))
       | Some p => s <- deref h_scopes p ;; st_ret (ds_declared_variables s)
       end ;;
  fun h => (Heap (h_blocks h) (h_scopes h ++ [MkScope MemoryCodeSink d]) (h_dicts h),
            Ok (length (h_scopes h))).

Definition scope_clear (i : nat) : ST heap unit :=
  s <- deref h_scopes i ;;
  set_scope i (MkScope MemoryCodeSink (ds_declared_variables s)) ;;;
  set_dict (ds_declared_variables s) ∅.

(** The part common to [declare_variable] and [reserve_variable]: the counter of
    the base name and the name it gives. *)
Definition var_name (name : string) (num : Z) : string :=
  if num =? 1 then name else name +:+ show_int num.
Definition next_num (vars : gmap string Z) (name : string) : Z :=
  default 0 (vars !! name) + 1.

Definition reserve_variable (i : nat) (name : string) : ST heap string :=
  s <- deref h_scopes i ;;
  vars <- deref h_dicts (ds_declared_variables s) ;;
  let num := next_num vars name in
  set_dict (ds_declared_variables s) (<[name := num]> vars) ;;;
  st_ret (var_name name num).

Definition scope_declare_variable (i : nat) (type_ name : string)
    (initializer array : option string) : ST heap string :=
  varname <- reserve_variable i name ;;
  decl <- st_lift (join_ctype_and_name type_ varname) ;;
  let decl := decl +:+ default EmptyString array in
  let decl := match initializer with Some e => decl +:+ " = " +:+ e | None => decl end in
  s <- deref h_scopes i ;;
  set_scope i (MkScope (writeln (ds_declarations s) (decl +:+ ";"))
                 (ds_declared_variables s)) ;;;
  st_ret varname.

(** ** [CodeBlock] *)

Definition CodeBlock (error_return : string) (declarations : nat) (predecessor : option nat)
    : ST heap nat :=
  fun h => (Heap (h_blocks h ++ [MkBlock MemoryCodeSink predecessor ∅ 0 error_return declarations])
                 (h_scopes h) (h_dicts h),
            Ok (length (h_blocks h))).

Definition block_clear (i : nat) : ST heap unit :=
  b <- deref h_blocks i ;;
  set_block i (MkBlock MemoryCodeSink (cb_predecessor b) ∅ 0 (cb_error_return b)
                 (cb_declarations b)).

Definition set_error_return (i : nat) (e : string) : ST heap unit :=
  b <- deref h_blocks i ;;
  set_block i (MkBlock (cb_sink b) (cb_predecessor b) (cb_cleanup_actions b)
                 (cb_last_cleanup_position b) e (cb_declarations b)).

Definition block_declare_variable (i : nat) (type_ name : string)
    (initializer array : option string) : ST heap string :=
  if str_in ":" name then st_raise ValueError
  else b <- deref h_blocks i ;;
       scope_declare_variable (cb_declarations b) type_ name initializer array.

(** [self.sink = f(self.sink)], the sink being a memory sink of its own *)
Definition on_sink (i : nat) (f : code_sink -> res code_sink) : ST heap unit :=
  b <- deref h_blocks i ;;
  k <- st_lift (f (cb_sink b)) ;;
  set_block i (MkBlock k (cb_predecessor b) (cb_cleanup_actions b)
                 (cb_last_cleanup_position b) (cb_error_return b) (cb_declarations b)).

Definition write_code (i : nat) (code : string) : ST heap unit :=
  on_sink i (fun k => Ok (writeln k code)).
Definition block_indent (i : nat) : ST heap unit := on_sink i (fun k => Ok (indent k 4)).
Definition block_unindent (i : nat) : ST heap unit := on_sink i unindent.

Definition add_cleanup_code (i : nat) (cleanup_code : string) : ST heap cleanup_handle :=
  b <- deref h_blocks i ;;
  let p := cb_last_cleanup_position b + 1 in
  set_block i (MkBlock (cb_sink b) (cb_predecessor b)
                 (<[p := cleanup_code]> (cb_cleanup_actions b)) p
                 (cb_error_return b) (cb_declarations b)) ;;;
  st_ret (Handle i p).

Definition remove_cleanup_code (i : nat) (handle : cleanup_handle) : ST heap unit :=
  b <- deref h_blocks i ;;
  match cb_cleanup_actions b !! position handle with
  | None => st_raise KeyError
  | Some _ =>
      set_block i (MkBlock (cb_sink b) (cb_predecessor b)
                     (delete (position handle) (cb_cleanup_actions b))
                     (cb_last_cleanup_position b) (cb_error_return b) (cb_declarations b))
  end.

(** [handle.cancel()] *)
Definition cancel (handle : cleanup_handle) : ST heap unit :=
  remove_cleanup_code (code_block_of handle) handle.

(** [items = dict.items(); items.sort()]: the keys are distinct, so the items
    are sorted by key. *)
Definition sorted_keys (m : gmap Z string) : list Z :=
  merge_sort Z.le (elements (dom m)).
Definition sorted_items (m : gmap Z string) : list (Z * string) :=
  omap (fun k => pair k <$> m !! k) (sorted_keys m).

(** The recursion follows the predecessors. *)
Fixpoint cleanup_code_from (blocks : list code_block) (fuel : nat) (i : nat)
    : res (list string) :=
  match fuel with
  | O => Raise OutOfFuel
  | S fuel' =>
      match blocks !! i with
      | None => Raise AttributeError
      | Some b =>
          let cleanup := rev (map snd (sorted_items (cb_cleanup_actions b))) in
          match cb_predecessor b with
          | None => Ok cleanup
          | Some p => r <-? cleanup_code_from blocks fuel' p ;; Ok (cleanup ++ r)
          end
      end
  end.

Definition get_cleanup_code (i : nat) : ST heap (list string) :=
  fun h => (h, cleanup_code_from (h_blocks h) (S (length (h_blocks h))) i).

Definition write_cleanup (i : nat) : ST heap unit :=
  cleanup <- get_cleanup_code i ;; st_iter (write_code i) cleanup.

Definition write_error_return (i : nat) : ST heap unit :=
  write_cleanup i ;;;
  b <- deref h_blocks i ;;
  write_code i (cb_error_return b).

Definition write_error_check (i : nat) (failure_expression : string)
    (failure_cleanup : option string) : ST heap unit :=
  write_code i ("if (" +:+ failure_expression +:+ ") {") ;;;
  block_indent i ;;;
  match failure_cleanup with Some c => write_code i c | None => st_ret tt end ;;;
  write_error_return i ;;;
  block_unindent i ;;;
  write_code i "}".

(** Flushing a block or a scope of the heap. *)
Definition flush_block_to (i : nat) : ST (heap * code_sink) unit :=
  b <- on_fst (deref h_blocks i) ;;
  fun st => match flush_to (cb_sink b) st.2 with
            | Raise e => (st, Raise e)
            | Ok (k, o) => (((set_block i
                 (MkBlock k (cb_predecessor b) (cb_cleanup_actions b)
                    (cb_last_cleanup_position b) (cb_error_return b) (cb_declarations b)) st.1).1, o),
                Ok tt)
            end.
Definition flush_scope_to (i : nat) : ST (heap * code_sink) unit :=
  d <- on_fst (deref h_scopes i) ;;
  fun st => match flush_to (ds_declarations d) st.2 with
            | Raise e => (st, Raise e)
            | Ok (k, o) => (((set_scope i (MkScope k (ds_declared_variables d)) st.1).1, o), Ok tt)
            end.

(** ** Invariants *)

(** Cleanup positions never exceed the last one given out, and the sink is a
    memory sink. *)
Definition block_wf (b : code_block) : Prop :=
  (forall p, p ∈ dom (cb_cleanup_actions b) -> p <= cb_last_cleanup_position b)
  /\ exists ls, dest (cb_sink b) = MemoryDest ls.

(** A predecessor was created before its successor. *)
Definition heap_wf (h : heap) : Prop :=
  forall i b, h_blocks h !! i = Some b ->
    block_wf b /\ (forall p, cb_predecessor b = Some p -> (p < i)%nat)
    /\ (cb_declarations b < length (h_scopes h))%nat.

(** ** Sorted items of the cleanup dictionary *)

Lemma sorted_keys_unique m l :
  StronglySorted Z.le l -> l ≡ₚ elements (dom m) -> sorted_keys m = l.
Proof.
  intros Hs Hp. apply (StronglySorted_unique Z.le); [|done|].
  - apply StronglySorted_merge_sort; apply _.
  - unfold sorted_keys. by rewrite merge_sort_Permutation.
Qed.

Lemma sorted_keys_sorted m : StronglySorted Z.le (sorted_keys m).
Proof. apply StronglySorted_merge_sort; apply _. Qed.

Lemma elem_of_sorted_keys m k : k ∈ sorted_keys m <-> is_Some (m !! k).
Proof.
  unfold sorted_keys. by rewrite merge_sort_Permutation, elem_of_elements, elem_of_dom.
Qed.

Lemma StronglySorted_snoc l p :
  StronglySorted Z.le l -> (forall k, k ∈ l -> k <= p) -> StronglySorted Z.le (l ++ [p]).
Proof.
  induction 1 as [|x l Hs IH Hx]; intros Hp; simpl.
  - repeat constructor.
  - constructor; [apply IH; intros k Hk; apply Hp; by right|].
    apply Forall_app. split; [done|]. repeat constructor. apply Hp. by left.
Qed.

Lemma sorted_keys_insert_last m p c :
  (forall k, k ∈ dom m -> k < p) -> sorted_keys (<[p := c]> m) = sorted_keys m ++ [p].
Proof.
  intros Hp. apply sorted_keys_unique.
  - apply StronglySorted_snoc; [apply sorted_keys_sorted|].
    intros k Hk. apply elem_of_sorted_keys, elem_of_dom in Hk. specialize (Hp k Hk). lia.
  - rewrite dom_insert_L, elements_disj_union.
    + rewrite elements_singleton. unfold sorted_keys. rewrite merge_sort_Permutation.
      apply Permutation_app_comm.
    + apply disjoint_singleton_l. intros Hin. specialize (Hp p Hin). lia.
Qed.

Lemma StronglySorted_filter (f : Z -> bool) l :
  StronglySorted Z.le l -> StronglySorted Z.le (List.filter f l).
Proof.
  induction 1 as [|x l Hs IH Hx]; simpl; [constructor|].
  destruct (f x); [|done]. constructor; [done|].
  rewrite Forall_forall in Hx |- *. intros y Hy. apply Hx.
  apply list_elem_of_In in Hy. apply filter_In in Hy as [Hy _]. by apply list_elem_of_In.
Qed.

Lemma sorted_keys_delete m p :
  sorted_keys (delete p m) = List.filter (fun k => negb (k =? p)) (sorted_keys m).
Proof.
  apply sorted_keys_unique.
  - apply StronglySorted_filter, sorted_keys_sorted.
  - apply NoDup_Permutation.
    + apply NoDup_ListNoDup, List.NoDup_filter, NoDup_ListNoDup.
      unfold sorted_keys. rewrite merge_sort_Permutation. apply NoDup_elements.
    + apply NoDup_elements.
    + intros k. rewrite elem_of_elements, dom_delete_L, elem_of_difference, elem_of_singleton.
      rewrite list_elem_of_In, filter_In, <- list_elem_of_In, elem_of_sorted_keys, elem_of_dom.
      rewrite negb_true_iff, Z.eqb_neq. done.
Qed.

Lemma omap_ext_in {A B} (f g : A -> option B) (l : list A) :
  (forall x, x ∈ l -> f x = g x) -> omap f l = omap g l.
Proof.
  induction l as [|x l IH]; intros H; [done|]. cbn.
  rewrite (H x) by by left. rewrite IH; [done|]. intros y Hy. apply H. by right.
Qed.

(** A new action at a position past all others comes last. *)
Lemma sorted_items_insert_last m p c :
  (forall k, k ∈ dom m -> k < p) -> sorted_items (<[p := c]> m) = sorted_items m ++ [(p, c)].
Proof.
  intros Hp. unfold sorted_items. rewrite sorted_keys_insert_last by done.
  rewrite omap_app. f_equal.
  - apply omap_ext_in. intros k Hk. apply elem_of_sorted_keys, elem_of_dom in Hk.
    specialize (Hp k Hk). rewrite lookup_insert_ne by lia. done.
  - cbn. by rewrite lookup_insert_eq.
Qed.

(** Deleting a position drops exactly its action. *)
Lemma sorted_items_delete m p :
  sorted_items (delete p m) = List.filter (fun kc => negb (kc.1 =? p)) (sorted_items m).
Proof.
  unfold sorted_items. rewrite sorted_keys_delete.
  induction (sorted_keys m) as [|k l IH]; [done|]. cbn [List.filter].
  destruct (Z.eqb_spec k p) as [->|Hne]; cbn.
  - rewrite IH. destruct (m !! p); [|done]. cbn. by rewrite Z.eqb_refl.
  - rewrite lookup_delete_ne by done. rewrite IH.
    destruct (m !! k); [|done]. cbn. by rewrite (proj2 (Z.eqb_neq k p) Hne).
Qed.

Lemma delete_fresh_insert (m : gmap Z string) p c :
  (forall k, k ∈ dom m -> k < p) -> delete p (<[p := c]> m) = m.
Proof.
  intros Hp. rewrite delete_insert_eq. apply delete_id, not_elem_of_dom.
  intros Hin. specialize (Hp p Hin). lia.
Qed.

(** ** The cleanup code of a chain of blocks *)

(** The actions of one block, latest first. *)
Definition own_cleanup (b : code_block) : list string :=
  rev (map snd (sorted_items (cb_cleanup_actions b))).

(** The blocks from [i] back to the first predecessor. *)
Inductive chain (blocks : list code_block) : nat -> list code_block -> Prop :=
  | chain_first i b :
      blocks !! i = Some b -> cb_predecessor b = None -> chain blocks i [b]
  | chain_next i b p bs :
      blocks !! i = Some b -> cb_predecessor b = Some p -> chain blocks p bs ->
      chain blocks i (b :: bs).

Lemma chain_exists h i :
  heap_wf h -> (i < length (h_blocks h))%nat ->
  (forall j b p, h_blocks h !! j = Some b -> cb_predecessor b = Some p -> (p < j)%nat) ->
  exists bs, chain (h_blocks h) i bs.
Proof.
  intros Hwf. induction (lt_wf i) as [i _ IH]. intros Hi Hp.
  destruct (lookup_lt_is_Some_2 (h_blocks h) i Hi) as [b Hb].
  destruct (cb_predecessor b) as [p|] eqn:Ep.
  - pose proof (Hp i b p Hb Ep) as Hlt. destruct (IH p Hlt) as [bs Hbs]; [lia | done |].
    exists (b :: bs). by econstructor.
  - exists [b]. by constructor.
Qed.

Lemma chain_lt h i bs :
  heap_wf h -> chain (h_blocks h) i bs -> (length bs <= S i)%nat.
Proof.
  intros Hwf Hc. induction Hc as [i b Hb Hn|i b p bs Hb Hp Hc IH]; simpl; [lia|].
  destruct (Hwf i b Hb) as (_&Hlt&_). specialize (Hlt p Hp). lia.
Qed.

Lemma cleanup_code_from_chain blocks i bs fuel :
  chain blocks i bs -> (length bs <= fuel)%nat ->
  cleanup_code_from blocks fuel i = Ok (List.concat (map own_cleanup bs)).
Proof.
  intros Hc. revert fuel. induction Hc as [i b Hb Hn|i b p bs Hb Hp Hc IH];
    intros fuel Hf; (destruct fuel as [|fuel]; [simpl in Hf; lia|]); simpl; rewrite Hb.
  - rewrite Hn. simpl. by rewrite app_nil_r.
  - rewrite Hp. rewrite IH by (simpl in Hf; lia). done.
Qed.

Lemma get_cleanup_code_chain h i :
  heap_wf h -> (i < length (h_blocks h))%nat ->
  exists bs, chain (h_blocks h) i bs
    /\ get_cleanup_code i h = (h, Ok (List.concat (map own_cleanup bs))).
Proof.
  intros Hwf Hi. destruct (chain_exists h i) as [bs Hbs]; [done | done | |].
  { intros j b p Hj Hp. destruct (Hwf j b Hj) as (_&H&_). by apply H. }
  exists bs. split; [done|]. unfold get_cleanup_code. f_equal.
  apply cleanup_code_from_chain; [done|]. pose proof (chain_lt h i bs Hwf Hbs). lia.
Qed.

(** ** Updates of one block *)

Definition put_block (h : heap) (i : nat) (b : code_block) : heap :=
  Heap (<[i := b]> (h_blocks h)) (h_scopes h) (h_dicts h).

Lemma lookup_put_block h i b0 b :
  h_blocks h !! i = Some b0 -> h_blocks (put_block h i b) !! i = Some b.
Proof. intros H. simpl. apply list_lookup_insert_eq. by eapply lookup_lt_Some. Qed.

Lemma put_block_twice h i b1 b2 : put_block (put_block h i b1) i b2 = put_block h i b2.
Proof. unfold put_block. simpl. by rewrite list_insert_insert_eq. Qed.

Lemma heap_wf_put_block h i b0 b :
  heap_wf h -> h_blocks h !! i = Some b0 -> block_wf b ->
  cb_predecessor b = cb_predecessor b0 -> cb_declarations b = cb_declarations b0 ->
  heap_wf (put_block h i b).
Proof.
  intros Hwf Hi Hb Hp Hd j b' Hj. simpl in Hj.
  destruct (decide (i = j)) as [<-|Hne].
  - rewrite list_lookup_insert_eq in Hj by by eapply lookup_lt_Some. injection Hj as <-.
    destruct (Hwf i b0 Hi) as (_&H1&H2). rewrite Hp, Hd. done.
  - rewrite list_lookup_insert_ne in Hj by done. by apply Hwf.
Qed.

(** The cleanup code sees only the actions and the predecessors. *)
Definition cleanup_view (h : heap) : list (gmap Z string * option nat) :=
  map (fun b => (cb_cleanup_actions b, cb_predecessor b)) (h_blocks h).

Lemma cleanup_code_from_view h1 h2 fuel i :
  cleanup_view h1 = cleanup_view h2 ->
  cleanup_code_from (h_blocks h1) fuel i = cleanup_code_from (h_blocks h2) fuel i.
Proof.
  intros Hv. revert i. induction fuel as [|fuel IH]; intros i; [done|]. simpl.
  assert (((fun b => (cb_cleanup_actions b, cb_predecessor b)) <$> (h_blocks h1 !! i))
          = ((fun b => (cb_cleanup_actions b, cb_predecessor b)) <$> (h_blocks h2 !! i))) as Hi.
  { rewrite <- !list_lookup_fmap. unfold cleanup_view in Hv.
    change (map ?f ?l) with (f <$> l) in Hv. by rewrite Hv. }
  destruct (h_blocks h1 !! i) as [b1|], (h_blocks h2 !! i) as [b2|]; simpl in Hi; try discriminate Hi; [|done].
  injection Hi as Ha Hp. rewrite Ha, Hp. destruct (cb_predecessor b2); [|done]. by rewrite IH.
Qed.

Lemma cleanup_view_length h1 h2 :
  cleanup_view h1 = cleanup_view h2 -> length (h_blocks h1) = length (h_blocks h2).
Proof. intros H. apply (f_equal length) in H. unfold cleanup_view in H. by rewrite !length_map in H. Qed.

Lemma get_cleanup_code_view h1 h2 i :
  cleanup_view h1 = cleanup_view h2 -> (get_cleanup_code i h1).2 = (get_cleanup_code i h2).2.
Proof.
  intros Hv. unfold get_cleanup_code. cbn [snd].
  rewrite (cleanup_view_length h1 h2 Hv). by apply cleanup_code_from_view.
Qed.

Lemma cleanup_view_put h i b0 b :
  h_blocks h !! i = Some b0 ->
  cb_cleanup_actions b = cb_cleanup_actions b0 -> cb_predecessor b = cb_predecessor b0 ->
  cleanup_view (put_block h i b) = cleanup_view h.
Proof.
  intros Hi Ha Hp. unfold cleanup_view, put_block. simpl.
  change (map ?f ?l) with (f <$> l). rewrite list_fmap_insert, Ha, Hp.
  apply list_insert_id. by rewrite list_lookup_fmap, Hi.
Qed.

(** ** [add_cleanup_code] and [cancel] *)

Definition with_action (b : code_block) (p : Z) (c : string) : code_block :=
  MkBlock (cb_sink b) (cb_predecessor b) (<[p := c]> (cb_cleanup_actions b)) p
    (cb_error_return b) (cb_declarations b).
Definition without_action (b : code_block) (p : Z) : code_block :=
  MkBlock (cb_sink b) (cb_predecessor b) (delete p (cb_cleanup_actions b))
    (cb_last_cleanup_position b) (cb_error_return b) (cb_declarations b).

Lemma add_cleanup_code_eq h i b c :
  h_blocks h !! i = Some b ->
  add_cleanup_code i c h =
    (put_block h i (with_action b (cb_last_cleanup_position b + 1) c),
     Ok (Handle i (cb_last_cleanup_position b + 1))).
Proof. intros Hi. unfold add_cleanup_code, st_bind, deref. by rewrite Hi. Qed.

Lemma cancel_eq h hd b c :
  h_blocks h !! code_block_of hd = Some b -> cb_cleanup_actions b !! position hd = Some c ->
  cancel hd h = (put_block h (code_block_of hd) (without_action b (position hd)), Ok tt).
Proof.
  intros Hi Hc. unfold cancel, remove_cleanup_code, st_bind, deref. by rewrite Hi, Hc.
Qed.

Lemma block_wf_with_action b c :
  block_wf b -> block_wf (with_action b (cb_last_cleanup_position b + 1) c).
Proof.
  intros [Hk Hs]. split; [|done]. simpl. intros p Hp.
  rewrite dom_insert_L in Hp. apply elem_of_union in Hp as [->%elem_of_singleton|Hp]; [lia|].
  specialize (Hk p Hp). lia.
Qed.

Lemma own_cleanup_with_action b c :
  block_wf b ->
  own_cleanup (with_action b (cb_last_cleanup_position b + 1) c) = c :: own_cleanup b.
Proof.
  intros [Hk _]. unfold own_cleanup, with_action. cbn [cb_cleanup_actions].
  rewrite sorted_items_insert_last by (intros k Hin; specialize (Hk k Hin); lia).
  by rewrite map_app, rev_app_distr.
Qed.

(** Prepending to the actions of block [i] prepends to its cleanup code. *)
Lemma get_cleanup_code_prepend h i b b' cs pre :
  heap_wf h -> h_blocks h !! i = Some b ->
  cb_predecessor b' = cb_predecessor b -> own_cleanup b' = pre ++ own_cleanup b ->
  (get_cleanup_code i h).2 = Ok cs ->
  (get_cleanup_code i (put_block h i b')).2 = Ok (pre ++ cs).
Proof.
  intros Hwf Hi Hp Ho Hcs. unfold get_cleanup_code in *. cbn [snd] in *.
  unfold put_block. cbn [h_blocks]. rewrite length_insert. cbn [cleanup_code_from] in *.
  rewrite Hi in Hcs. rewrite list_lookup_insert_eq by by eapply lookup_lt_Some.
  fold (own_cleanup b') (own_cleanup b) in *. rewrite Hp, Ho.
  destruct (cb_predecessor b) as [p|] eqn:Ep; [|congruence].
  assert (forall fuel j, (j < i)%nat -> cleanup_code_from (<[i:=b']> (h_blocks h)) fuel j
            = cleanup_code_from (h_blocks h) fuel j) as Hbelow.
  { intros fuel. induction fuel as [|fuel IH]; intros j Hj; [done|]. simpl.
    rewrite list_lookup_insert_ne by lia.
    destruct (h_blocks h !! j) as [bj|] eqn:Ej; [|done].
    destruct (cb_predecessor bj) as [q|] eqn:Eq; [|done].
    destruct (Hwf j bj Ej) as (_&Hlt&_). rewrite IH; [done|]. specialize (Hlt q Eq). lia. }
  destruct (Hwf i b Hi) as (_&Hlt&_). specialize (Hlt p Ep).
  rewrite Hbelow by done. unfold res_bind in *.
  destruct (cleanup_code_from (h_blocks h) (length (h_blocks h)) p) as [r|]; [|done].
  injection Hcs as <-. by rewrite app_assoc.
Qed.

(** Registering a cleanup action.  It succeeds on any block of a well-formed
    heap, keeps the heap well-formed, gives a position no live action of the
    block has, and the action is executed first: the cleanup code of the block,
    predecessors included, is the new action followed by the former code. *)
Theorem add_cleanup_code_runs_first (h : heap) (i : nat) (b : code_block) (c : string)
    (cs : list string) :
  heap_wf h -> h_blocks h !! i = Some b -> (get_cleanup_code i h).2 = Ok cs ->
  exists h' p,
    add_cleanup_code i c h = (h', Ok (Handle i p)) /\ heap_wf h'
    /\ cb_cleanup_actions b !! p = None
    /\ (get_cleanup_code i h').2 = Ok (c :: cs).
Proof.
  intros Hwf Hi Hcs. destruct (Hwf i b Hi) as (Hb&_&_).
  eexists _, _. split; [by apply add_cleanup_code_eq|]. split_and!.
  - eapply heap_wf_put_block; try done. by apply block_wf_with_action.
  - apply not_elem_of_dom. intros Hin. destruct Hb as [Hk _]. specialize (Hk _ Hin). lia.
  - apply (get_cleanup_code_prepend h i b _ cs [c]); try done. by apply own_cleanup_with_action.
Qed.

(** Cancelling undoes registering.  Cancelling the handle
    [add_cleanup_code] has just returned succeeds, and the cleanup code of every
    block of the heap is again what it was. *)
Theorem cancel_undoes_add (h : heap) (i : nat) (b : code_block) (c : string) :
  heap_wf h -> h_blocks h !! i = Some b ->
  exists h1 hd h2,
    add_cleanup_code i c h = (h1, Ok hd) /\ cancel hd h1 = (h2, Ok tt) /\ heap_wf h2
    /\ forall j, (get_cleanup_code j h2).2 = (get_cleanup_code j h).2.
Proof.
  intros Hwf Hi. destruct (Hwf i b Hi) as (Hb&_&_).
  set (p := cb_last_cleanup_position b + 1).
  assert (forall k, k ∈ dom (cb_cleanup_actions b) -> k < p) as Hp.
  { intros k Hk. destruct Hb as [Hb _]. specialize (Hb k Hk). lia. }
  eexists _, _, _. split; [by apply add_cleanup_code_eq|]. split.
  { eapply cancel_eq; [by eapply lookup_put_block|]. cbn. by rewrite lookup_insert_eq. }
  cbn [code_block_of position]. rewrite put_block_twice.
  assert (cb_cleanup_actions (without_action (with_action b p c) p) = cb_cleanup_actions b) as Ha.
  { cbn. by apply delete_fresh_insert. }
  split.
  - eapply heap_wf_put_block; try done. split; [|by apply Hb].
    fold p. rewrite Ha. intros k Hk. specialize (Hp k Hk). cbn. lia.
  - intros j. apply get_cleanup_code_view. by apply cleanup_view_put with b.
Qed.

(** Cancelling any handle.  If its action is live, it is removed and every
    other action of the block stays, in order; if it is not, [KeyError] is
    raised and the heap is as before. *)
Theorem cancel_removes_exactly (h : heap) (hd : cleanup_handle) (b : code_block) :
  h_blocks h !! code_block_of hd = Some b ->
  match cb_cleanup_actions b !! position hd with
  | Some _ => exists b',
      cancel hd h = (put_block h (code_block_of hd) b', Ok tt)
      /\ sorted_items (cb_cleanup_actions b') =
           List.filter (fun kc => negb (kc.1 =? position hd)) (sorted_items (cb_cleanup_actions b))
      /\ cb_sink b' = cb_sink b /\ cb_predecessor b' = cb_predecessor b
  | None => cancel hd h = (h, Raise KeyError)
  end.
Proof.
  intros Hi. destruct (cb_cleanup_actions b !! position hd) as [c|] eqn:E.
  - exists (without_action b (position hd)). split; [by eapply cancel_eq|].
    split; [by apply sorted_items_delete | done].
  - unfold cancel, remove_cleanup_code, st_bind, deref. by rewrite Hi, E.
Qed.

(** [clear] restarts the positions, so a handle taken before it is not
    dead: if one action was registered before [clear] and one after it,
    cancelling the handle of the first removes the second. *)
Theorem stale_handle_cancels_other (h : heap) (i : nat) (b : code_block) (c1 c2 : string) :
  heap_wf h -> h_blocks h !! i = Some b -> cb_cleanup_actions b = ∅ ->
  cb_last_cleanup_position b = 0 ->
  exists hd h',
    (hd <- add_cleanup_code i c1 ;; block_clear i ;;; add_cleanup_code i c2 ;;; st_ret hd) h
      = (h', Ok hd)
    /\ exists h'', cancel hd h' = (h'', Ok tt)
    /\ (sorted_items <$> (cb_cleanup_actions <$> (h_blocks h' !! i))) = Some [(1, c2)]
    /\ (sorted_items <$> (cb_cleanup_actions <$> (h_blocks h'' !! i))) = Some [].
Proof.
  intros Hwf Hi Ha Hl. pose proof (lookup_lt_Some _ _ _ Hi) as Hlen.
  exists (Handle i 1). eexists. split.
  - unfold st_bind at 1. rewrite (add_cleanup_code_eq h i b) by done. rewrite Hl.
    unfold block_clear, st_bind, deref. simpl.
    rewrite list_lookup_insert_eq by done. simpl.
    unfold add_cleanup_code, st_bind, deref. simpl.
    rewrite list_insert_insert_eq, list_lookup_insert_eq by done. simpl. reflexivity.
  - unfold cancel, remove_cleanup_code, st_bind, deref. simpl.
    rewrite list_insert_insert_eq, list_lookup_insert_eq by done. simpl.
    eexists. split; [reflexivity|]. simpl. split; [reflexivity|].
    rewrite list_insert_insert_eq, list_lookup_insert_eq by done. reflexivity.
Qed.

(** ** Writing into a block *)

Definition with_sink (b : code_block) (k : code_sink) : code_block :=
  MkBlock k (cb_predecessor b) (cb_cleanup_actions b) (cb_last_cleanup_position b)
    (cb_error_return b) (cb_declarations b).

Lemma on_sink_eq h i b f k :
  h_blocks h !! i = Some b -> f (cb_sink b) = Ok k ->
  on_sink i f h = (put_block h i (with_sink b k), Ok tt).
Proof. intros Hi Hf. unfold on_sink, st_bind, deref. by rewrite Hi; cbn; rewrite Hf. Qed.

Lemma put_block_same h i b : h_blocks h !! i = Some b -> put_block h i b = h.
Proof. intros Hi. unfold put_block. rewrite list_insert_id by done. by destruct h. Qed.

Lemma with_sink_same b : with_sink b (cb_sink b) = b.
Proof. by destruct b. Qed.

(** The three steps below run on a heap whose block [i] holds sink [k]. *)
Section on_block.
Context (h : heap) (i : nat) (b : code_block) (Hi : h_blocks h !! i = Some b).

Definition at_sink (k : code_sink) : heap := put_block h i (with_sink b k).

Lemma at_sink_lookup k : h_blocks (at_sink k) !! i = Some (with_sink b k).
Proof. by eapply lookup_put_block. Qed.

Lemma on_sink_at k f k' :
  f k = Ok k' -> on_sink i f (at_sink k) = (at_sink k', Ok tt).
Proof.
  intros Hf. rewrite (on_sink_eq _ _ (with_sink b k) f k'); [|apply at_sink_lookup|done].
  unfold at_sink. by rewrite put_block_twice.
Qed.

Lemma write_code_iter_at cs k :
  st_iter (write_code i) cs (at_sink k) = (at_sink (fold_left writeln cs k), Ok tt).
Proof.
  revert k. induction cs as [|c cs IH]; intros k; [done|]. cbn.
  unfold st_bind, write_code at 1. rewrite (on_sink_at _ _ (writeln k c)) by done.
  apply IH.
Qed.

Lemma get_cleanup_code_at k :
  get_cleanup_code i (at_sink k) = (at_sink k, (get_cleanup_code i h).2).
Proof.
  unfold get_cleanup_code at 1. f_equal.
  apply (get_cleanup_code_view (at_sink k) h).
  by apply cleanup_view_put with b.
Qed.

Lemma write_cleanup_at k cs :
  (get_cleanup_code i h).2 = Ok cs ->
  write_cleanup i (at_sink k) = (at_sink (fold_left writeln cs k), Ok tt).
Proof.
  intros Hcs. unfold write_cleanup, st_bind. rewrite get_cleanup_code_at, Hcs.
  apply write_code_iter_at.
Qed.

Lemma write_error_return_at k cs :
  (get_cleanup_code i h).2 = Ok cs ->
  write_error_return i (at_sink k) =
    (at_sink (fold_left writeln (cs ++ [cb_error_return b]) k), Ok tt).
Proof.
  intros Hcs. unfold write_error_return, st_bind. rewrite (write_cleanup_at _ cs) by done.
  unfold deref. rewrite at_sink_lookup, fold_left_app. cbn [fold_left].
  unfold write_code. by rewrite (on_sink_at _ _ (writeln (fold_left writeln cs k) (cb_error_return b))).
Qed.
End on_block.

Lemma fold_writeln_memory cs : forall k ls,
  dest k = MemoryDest ls ->
  let k' := fold_left writeln cs k in
  same_indent k' k /\ dest k' = MemoryDest (ls ++ List.concat (map (format_code k) cs)).
Proof.
  induction cs as [|c cs IH]; intros k ls Hk; cbn.
  - by rewrite app_nil_r.
  - destruct (IH (writeln k c) (ls ++ format_code k c)) as [Hs Hd].
    { unfold writeln. by rewrite Hk. }
    pose proof (same_indent_writeln k c) as Hw. split; [by etransitivity|].
    rewrite Hd, <- app_assoc. do 4 f_equal. apply map_ext. intros s.
    by apply same_indent_format.
Qed.

Definition opt_list {A} (o : option A) : list A := match o with Some a => [a] | None => [] end.

Lemma write_error_check_eq (h : heap) (i : nat) (b : code_block) (e : string)
    (failure_cleanup : option string) (ls cs : list string) :
  h_blocks h !! i = Some b -> dest (cb_sink b) = MemoryDest ls ->
  (get_cleanup_code i h).2 = Ok cs ->
  exists k',
    write_error_check i e failure_cleanup h = (put_block h i (with_sink b k'), Ok tt)
    /\ same_indent k' (cb_sink b)
    /\ dest k' = MemoryDest
         (ls ++ format_code (cb_sink b) ("if (" +:+ e +:+ ") {")
             ++ List.concat (map (format_code (indent (cb_sink b) 4))
                  (opt_list failure_cleanup ++ cs ++ [cb_error_return b]))
             ++ format_code (cb_sink b) "}").
Proof.
  intros Hi Hd Hcs. set (k := cb_sink b).
  set (k1 := writeln k ("if (" +:+ e +:+ ") {")).
  set (body := opt_list failure_cleanup ++ cs ++ [cb_error_return b]).
  set (k2 := fold_left writeln body (indent k1 4)).
  assert (h = at_sink h i b k) as Hh.
  { unfold at_sink. by rewrite with_sink_same, put_block_same. }
  assert (dest k1 = MemoryDest (ls ++ format_code k ("if (" +:+ e +:+ ") {"))) as Hd1.
  { unfold k1, writeln, k. by rewrite Hd. }
  destruct (fold_writeln_memory body (indent k1 4) _ Hd1) as [Hs2 Hd2]. fold k2 in Hs2, Hd2.
  pose proof (same_indent_writeln k ("if (" +:+ e +:+ ") {")) as Hs1. fold k1 in Hs1.
  assert (unindent k2 = Ok (CodeSink (indent_level k1) (indent_stack k1) (dest k2))) as Hun.
  { unfold unindent. destruct Hs2 as [_ ->]. done. }
  exists (writeln (CodeSink (indent_level k1) (indent_stack k1) (dest k2)) "}").
  split_and!.
  - unfold write_error_check, st_bind. rewrite Hh at 1.
    unfold write_code at 1. rewrite (on_sink_at _ _ _ Hi _ _ k1) by done.
    unfold block_indent. rewrite (on_sink_at _ _ _ Hi _ _ (indent k1 4)) by done.
    assert (match failure_cleanup with Some c => write_code i c | None => st_ret tt end
              (at_sink h i b (indent k1 4))
            = (at_sink h i b (fold_left writeln (opt_list failure_cleanup) (indent k1 4)), Ok tt))
      as ->.
    { destruct failure_cleanup; [|done]. by apply on_sink_at. }
    rewrite (write_error_return_at _ _ _ Hi _ cs) by done. rewrite <- fold_left_app.
    fold body k2. unfold block_unindent. rewrite (on_sink_at _ _ _ Hi _ _ _ Hun).
    unfold write_code. by rewrite (on_sink_at _ _ _ Hi _ _
      (writeln (CodeSink (indent_level k1) (indent_stack k1) (dest k2)) "}")).
  - etransitivity; [apply same_indent_writeln|]. done.
  - unfold writeln. cbn [dest]. rewrite Hd2. cbn [set_dest dest]. f_equal.
    rewrite <- !app_assoc. do 3 f_equal.
    + f_equal. apply map_ext. intros s. apply same_indent_format.
      destruct Hs1 as [E1 E2]. split; cbn; [by rewrite E1 | by rewrite E1, E2].
    + apply same_indent_format. destruct Hs1 as [E1 E2]. by split.
Qed.

(** [write_error_check] writes the whole guarded error exit and nothing
    else.  On a block whose sink holds the lines [ls], in a well-formed heap
    whose cleanup code there is [cs], it appends the [if] line, four columns
    further right the extra cleanup, the cleanup code (latest action first,
    predecessors last) and the error return, then the closing brace; the
    indentation is restored and no other object of the heap changes. *)
Theorem write_error_check_writes (h : heap) (i : nat) (b : code_block) (e : string)
    (failure_cleanup : option string) (ls cs : list string) :
  heap_wf h -> h_blocks h !! i = Some b -> dest (cb_sink b) = MemoryDest ls ->
  (get_cleanup_code i h).2 = Ok cs ->
  exists k',
    write_error_check i e failure_cleanup h = (put_block h i (with_sink b k'), Ok tt)
    /\ same_indent k' (cb_sink b)
    /\ dest k' = MemoryDest
         (ls ++ format_code (cb_sink b) ("if (" +:+ e +:+ ") {")
             ++ List.concat (map (format_code (indent (cb_sink b) 4))
                  (opt_list failure_cleanup ++ cs ++ [cb_error_return b]))
             ++ format_code (cb_sink b) "}").
Proof. intros _. apply write_error_check_eq. Qed.

(** ** Names of variables *)

Lemma strip_digits_nil_digits d :
  all_chars isdigit d = true -> strip_digits d = EmptyString.
Proof. intros H. by apply (strip_digits_app EmptyString d). Qed.

Lemma var_name_inj n1 n2 k1 k2 :
  digit_free_end n1 -> digit_free_end n2 -> 1 <= k1 -> 1 <= k2 ->
  var_name n1 k1 = var_name n2 k2 -> n1 = n2 /\ k1 = k2.
Proof.
  intros H1 H2 Hk1 Hk2 E.
  assert (forall n k, digit_free_end n -> 1 <= k -> strip_digits (var_name n k) = n) as Hs.
  { intros n k Hn Hk. unfold var_name. destruct (k =? 1); [done|].
    apply strip_digits_app; [done | apply show_int_digits; lia]. }
  assert (n1 = n2) as ->.
  { rewrite <- (Hs n1 k1), <- (Hs n2 k2) by done. by rewrite E. }
  split; [done|]. unfold var_name in E.
  destruct (Z.eqb_spec k1 1) as [->|], (Z.eqb_spec k2 1) as [->|]; try done.
  - rewrite <- (app_str_nil_r n2) in E at 1. apply app_str_inv_l in E.
    exfalso. by eapply (show_int_nonempty k2); [lia|].
  - rewrite <- (app_str_nil_r n2) in E at 2. apply app_str_inv_l in E.
    exfalso. by eapply (show_int_nonempty k1); [lia|].
  - apply app_str_inv_l in E. by apply show_int_inj.
Qed.

(** Requests for a variable, each to one of the scopes of the heap. *)
Inductive var_request : Type :=
  | ReqDeclare (scope : nat) (type_ name : string) (initializer array : option string)
  | ReqReserve (scope : nat) (name : string).

Definition request_name (r : var_request) : string :=
  match r with ReqDeclare _ _ n _ _ => n | ReqReserve _ n => n end.
Definition request_scope (r : var_request) : nat :=
  match r with ReqDeclare i _ _ _ _ => i | ReqReserve i _ => i end.

Definition run_request (r : var_request) : ST heap string :=
  match r with
  | ReqDeclare i t n e a => scope_declare_variable i t n e a
  | ReqReserve i n => reserve_variable i n
  end.

Fixpoint run_requests (rs : list var_request) : ST heap (list string) :=
  match rs with
  | [] => st_ret []
  | r :: rs' => v <- run_request r ;; vs <- run_requests rs' ;; st_ret (v :: vs)
  end.

(** The scope counts its names in the dictionary [d], which holds [vars]. *)
Definition scope_counts (h : heap) (i d : nat) : Prop :=
  (ds_declared_variables <$> (h_scopes h !! i)) = Some d.
Definition dict_is (h : heap) (d : nat) (vars : gmap string Z) : Prop :=
  h_dicts h !! d = Some vars.

Lemma reserve_variable_eq h i d vars n :
  scope_counts h i d -> dict_is h d vars ->
  reserve_variable i n h =
    (Heap (h_blocks h) (h_scopes h) (<[d := <[n := next_num vars n]> vars]> (h_dicts h)),
     Ok (var_name n (next_num vars n))).
Proof.
  unfold scope_counts, dict_is, reserve_variable, st_bind, deref. intros Hi Hd.
  destruct (h_scopes h !! i) as [s|]; [|done]. simpl in Hi. injection Hi as ->.
  by rewrite Hd.
Qed.

(** A successful request gives the next name of the shared counter. *)
Lemma run_request_Ok h r d vars h' v :
  scope_counts h (request_scope r) d -> dict_is h d vars ->
  run_request r h = (h', Ok v) ->
  v = var_name (request_name r) (next_num vars (request_name r))
  /\ dict_is h' d (<[request_name r := next_num vars (request_name r)]> vars)
  /\ (forall j, (ds_declared_variables <$> (h_scopes h' !! j))
                = (ds_declared_variables <$> (h_scopes h !! j))).
Proof.
  intros Hi Hd Hrun. pose proof (lookup_lt_Some _ _ _ Hd) as Hlt.
  destruct r as [i t n e a|i n]; simpl in *.
  - unfold scope_declare_variable, st_bind in Hrun.
    rewrite (reserve_variable_eq h i d vars n) in Hrun by done.
    unfold st_lift, deref in Hrun. cbn in Hrun.
    destruct (join_ctype_and_name t _) as [decl|]; [|discriminate].
    unfold scope_counts in Hi. destruct (h_scopes h !! i) as [s|] eqn:Es; [|discriminate].
    cbn in Hrun. injection Hrun as <- <-. split_and!; [done| |].
    + unfold dict_is. cbn. by apply list_lookup_insert_eq.
    + intros j. cbn. destruct (decide (i = j)) as [<-|Hne].
      * rewrite list_lookup_insert_eq by by eapply lookup_lt_Some. by rewrite Es.
      * by rewrite list_lookup_insert_ne.
  - rewrite (reserve_variable_eq h i d vars n) in Hrun by done. injection Hrun as <- <-.
    split_and!; [done| |done]. unfold dict_is. cbn. by apply list_lookup_insert_eq.
Qed.

(** The names [used] so far come from the counters. *)
Definition counted (vars : gmap string Z) (used : list string) : Prop :=
  (forall n k, vars !! n = Some k -> 0 <= k)
  /\ forall v, v ∈ used -> exists n k,
       v = var_name n k /\ digit_free_end n /\ 1 <= k <= default 0 (vars !! n).

Lemma next_num_pos vars used n : counted vars used -> 1 <= next_num vars n.
Proof.
  intros [Hp _]. unfold next_num. destruct (vars !! n) as [k|] eqn:E; simpl; [|lia].
  specialize (Hp n k E). lia.
Qed.

Lemma counted_step vars used n :
  counted vars used -> digit_free_end n ->
  let v := var_name n (next_num vars n) in
  (v ∉ used) /\ counted (<[n := next_num vars n]> vars) (v :: used).
Proof.
  intros Hc Hn. pose proof (next_num_pos vars used n Hc) as Hpos.
  destruct Hc as [Hp Hu]. split.
  - intros (n'&k&E&Hn'&Hk)%Hu. apply var_name_inj in E as [<- <-]; try done; [|lia].
    unfold next_num in Hk. lia.
  - split.
    + intros n' k. destruct (decide (n = n')) as [<-|Hne].
      * rewrite lookup_insert_eq. intros [= <-]. lia.
      * rewrite lookup_insert_ne by done. apply Hp.
    + intros v [->|Hv]%elem_of_cons.
      * exists n, (next_num vars n). rewrite lookup_insert_eq. simpl. split_and!; try done; lia.
      * destruct (Hu v Hv) as (n'&k&->&Hn'&Hk). exists n', k. split_and!; try done; [lia|].
        destruct (decide (n = n')) as [<-|Hne].
        -- rewrite lookup_insert_eq. simpl. unfold next_num. lia.
        -- rewrite lookup_insert_ne by done. lia.
Qed.

Lemma run_requests_fresh rs : forall h d vars used h' vs,
  (forall r, r ∈ rs -> scope_counts h (request_scope r) d /\ digit_free_end (request_name r)) ->
  dict_is h d vars -> counted vars used ->
  run_requests rs h = (h', Ok vs) -> NoDup vs /\ forall v, v ∈ vs -> v ∉ used.
Proof.
  induction rs as [|r rs IH]; intros h d vars used h' vs Hrs Hd Hc Hrun; simpl in Hrun.
  - injection Hrun as <- <-. split; [constructor | by intros v ?%elem_of_nil].
  - apply st_bind_Ok in Hrun as (h1&v&E1&Hrun). apply st_bind_Ok in Hrun as (h2&vs'&E2&Hrun).
    injection Hrun as <- <-. destruct (Hrs r) as [Hr Hn]; [by left|].
    destruct (run_request_Ok h r d vars h1 v Hr Hd E1) as (Hv&Hd1&Hs1).
    destruct (counted_step vars used (request_name r) Hc Hn) as [Hfresh Hc1].
    rewrite <- Hv in Hfresh, Hc1.
    destruct (IH h1 d (<[request_name r:=next_num vars (request_name r)]> vars) (v :: used) h2 vs') as [Hnd Hnu]; try done.
    { intros r' Hr'. destruct (Hrs r') as [H1 H2]; [by right|]. split; [|done].
      unfold scope_counts. by rewrite Hs1. }
    split.
    + constructor; [|done]. intros Hin. apply (Hnu v Hin). by left.
    + intros w [->|Hw]%elem_of_cons; [done|]. intros Hu. apply (Hnu w Hw). by right.
Qed.

(** No two variables get the same name.  Over any sequence of successful
    [declare_variable] and [reserve_variable] calls on scopes that share one
    dictionary (a scope, its child scopes, the code blocks of a wrapper), from an
    empty dictionary, the names returned are pairwise distinct, provided no base
    name ends in a digit. *)
Theorem variable_names_distinct (h h' : heap) (d : nat) (rs : list var_request)
    (vs : list string) :
  (forall r, r ∈ rs -> scope_counts h (request_scope r) d /\ digit_free_end (request_name r)) ->
  dict_is h d ∅ -> run_requests rs h = (h', Ok vs) -> NoDup vs.
Proof.
  intros Hrs Hd Hrun. eapply (run_requests_fresh rs h d ∅ [] h' vs); try done.
  split; [done | by intros v ?%elem_of_nil].
Qed.

(** The proviso on digits is needed.  In every scope with an empty
    dictionary, asking twice for a base name and once for that name followed by
    [2] returns the same variable name twice. *)
Theorem variable_names_collide (h : heap) (i d : nat) (n : string) :
  scope_counts h i d -> dict_is h d ∅ -> n <> n +:+ "2" ->
  exists h', run_requests [ReqReserve i n; ReqReserve i n; ReqReserve i (n +:+ "2")] h
    = (h', Ok [n; n +:+ "2"; n +:+ "2"]).
Proof.
  intros Hi Hd Hne. pose proof (lookup_lt_Some _ _ _ Hd) as Hlt.
  cbn [run_requests run_request]. unfold st_bind, st_ret.
  rewrite (reserve_variable_eq h i d ∅) by done.
  erewrite (reserve_variable_eq _ i d); [|done | by apply list_lookup_insert_eq].
  cbn [h_dicts h_scopes h_blocks]. rewrite list_insert_insert_eq.
  erewrite (reserve_variable_eq _ i d); [|done | by apply list_lookup_insert_eq].
  unfold next_num. rewrite lookup_empty. cbn [default].
  rewrite !lookup_insert_eq, insert_insert_eq. cbn [default].
  rewrite lookup_insert_ne, lookup_empty by done. by eexists.
Qed.

(** Clearing a child scope empties the dictionary it shares with its parent:
    the parent then gives out a second time a name it has already given. *)
Theorem child_clear_forgets_parent (h : heap) (i d : nat) (n : string) :
  scope_counts h i d -> dict_is h d ∅ ->
  exists h',
    (v1 <- reserve_variable i n ;; c <- DeclarationsScope (Some i) ;;
     scope_clear c ;;; v2 <- reserve_variable i n ;; st_ret (v1, v2)) h
    = (h', Ok (n, n)).
Proof.
  intros Hi Hd. pose proof (lookup_lt_Some _ _ _ Hd) as Hlt.
  unfold st_bind at 1. rewrite (reserve_variable_eq h i d ∅) by done.
  unfold scope_counts in Hi. destruct (h_scopes h !! i) as [s|] eqn:Es; [|done].
  simpl in Hi. injection Hi as <-.
  pose proof (lookup_lt_Some _ _ _ Es) as Hlti.
  unfold DeclarationsScope, scope_clear, st_bind, deref. cbn. rewrite Es. cbn.
  rewrite list_lookup_middle by done. cbn.
  unfold reserve_variable, st_bind, deref. cbn.
  rewrite list_lookup_insert_ne by lia. rewrite lookup_app_l, Es by done. cbn.
  rewrite list_insert_insert_eq, list_lookup_insert_eq by done. cbn.
  unfold next_num. rewrite !lookup_empty. by eexists.
Qed.

(** ** Creation, and a concrete heap for the examples *)

Lemma heap_wf_empty : heap_wf empty_heap.
Proof. intros i b H. by destruct i. Qed.

Lemma heap_wf_new_scope h h' p c :
  heap_wf h -> DeclarationsScope p h = (h', Ok c) -> heap_wf h'.
Proof.
  intros Hwf. unfold DeclarationsScope, st_bind.
  destruct p as [p|]; cbn.
  - unfold deref. destruct (h_scopes h !! p); cbn; [|discriminate].
    intros [= <- <-] i b Hi. destruct (Hwf i b Hi) as (?&?&?).
    split_and!; try done. cbn. rewrite length_app. lia.
  - intros [= <- <-] i b Hi. destruct (Hwf i b Hi) as (?&?&?).
    split_and!; try done. cbn. rewrite length_app. lia.
Qed.

Lemma heap_wf_new_block h h' e d p i :
  heap_wf h -> (d < length (h_scopes h))%nat ->
  (forall q, p = Some q -> (q < length (h_blocks h))%nat) ->
  CodeBlock e d p h = (h', Ok i) -> heap_wf h'.
Proof.
  intros Hwf Hd Hp [= <- <-] j b Hj. cbn in Hj.
  apply lookup_snoc_Some in Hj as [[Hlt Hj]|[-> <-]].
  - by apply Hwf.
  - split_and!; [|by apply Hp|done]. split; [|by eexists].
    cbn. intros k Hk. by rewrite dom_empty_L, elem_of_empty in Hk.
Qed.

(** Two blocks, the second with the first as its predecessor. *)
Definition demo_heap : heap :=
  fst ((d <- DeclarationsScope None ;; b <- CodeBlock "return NULL;" d None ;;
   CodeBlock "return NULL;" d (Some b)) empty_heap).

Lemma demo_heap_wf : heap_wf demo_heap.
Proof.
  eapply (heap_wf_new_block _ _ "return NULL;" 0 (Some 0%nat)); [| | |reflexivity].
  - eapply (heap_wf_new_block _ _ "return NULL;" 0 None); [| | |reflexivity].
    + eapply (heap_wf_new_scope _ _ None); [apply heap_wf_empty | reflexivity].
    + cbn. lia.
    + done.
  - cbn. lia.
  - intros q [= <-]. cbn. lia.
Qed.

Lemma add_cleanup_code_runs_first_witness :
  exists h' p,
    add_cleanup_code 1 "free(x);" demo_heap = (h', Ok (Handle 1 p)) /\ heap_wf h'
    /\ (∅ : gmap Z string) !! p = None
    /\ (get_cleanup_code 1 h').2 = Ok ["free(x);"].
Proof.
  apply (add_cleanup_code_runs_first demo_heap 1
           (MkBlock MemoryCodeSink (Some 0%nat) ∅ 0 "return NULL;" 0) "free(x);" []);
    [apply demo_heap_wf | reflexivity | reflexivity].
Defined.

Lemma cancel_undoes_add_witness :
  exists h1 hd h2,
    add_cleanup_code 1 "free(x);" demo_heap = (h1, Ok hd) /\ cancel hd h1 = (h2, Ok tt)
    /\ heap_wf h2
    /\ forall j, (get_cleanup_code j h2).2 = (get_cleanup_code j demo_heap).2.
Proof.
  apply (cancel_undoes_add demo_heap 1
           (MkBlock MemoryCodeSink (Some 0%nat) ∅ 0 "return NULL;" 0));
    [apply demo_heap_wf | reflexivity].
Defined.

Lemma cancel_removes_exactly_witness :
  cancel (Handle 1 7) demo_heap = (demo_heap, Raise KeyError).
Proof.
  exact (cancel_removes_exactly demo_heap (Handle 1 7)
           (MkBlock MemoryCodeSink (Some 0%nat) ∅ 0 "return NULL;" 0) eq_refl).
Defined.

Lemma stale_handle_cancels_other_witness :
  exists hd h',
    (hd <- add_cleanup_code 0 "a" ;; block_clear 0 ;;; add_cleanup_code 0 "b" ;;; st_ret hd)
      demo_heap = (h', Ok hd)
    /\ exists h'', cancel hd h' = (h'', Ok tt)
    /\ (sorted_items <$> (cb_cleanup_actions <$> (h_blocks h' !! 0%nat))) = Some [(1, "b")]
    /\ (sorted_items <$> (cb_cleanup_actions <$> (h_blocks h'' !! 0%nat))) = Some [].
Proof.
  apply (stale_handle_cancels_other demo_heap 0
           (MkBlock MemoryCodeSink None ∅ 0 "return NULL;" 0));
    [apply demo_heap_wf | reflexivity..].
Defined.

Lemma write_error_check_writes_witness :
  exists k',
    write_error_check 1 "e()" (Some "c();") demo_heap
      = (put_block demo_heap 1
           (with_sink (MkBlock MemoryCodeSink (Some 0%nat) ∅ 0 "return NULL;" 0) k'), Ok tt)
    /\ same_indent k' MemoryCodeSink
    /\ dest k' = MemoryDest ["if (e()) {"; "    c();"; "    return NULL;"; "}"].
Proof.
  apply (write_error_check_writes demo_heap 1
           (MkBlock MemoryCodeSink (Some 0%nat) ∅ 0 "return NULL;" 0) "e()" (Some "c();") [] []);
    [apply demo_heap_wf | reflexivity..].
Defined.

Lemma variable_names_distinct_witness :
  NoDup ["foo"; "foo2"; "bar"; "foo3"].
Proof.
  eapply (variable_names_distinct demo_heap _ 0
    [ReqReserve 0 "foo"; ReqDeclare 0 "int" "foo" None None; ReqReserve 0 "bar";
     ReqDeclare 0 "int" "foo" (Some "1") None]).
  - intros r Hr. repeat (apply elem_of_cons in Hr as [->|Hr]; [by split|]).
    by apply elem_of_nil in Hr.
  - reflexivity.
  - vm_compute. reflexivity.
Defined.

Lemma variable_names_collide_witness :
  exists h', run_requests [ReqReserve 0 "foo"; ReqReserve 0 "foo"; ReqReserve 0 "foo2"] demo_heap
    = (h', Ok ["foo"; "foo2"; "foo2"]).
Proof. apply (variable_names_collide demo_heap 0 0 "foo"); [reflexivity | reflexivity | discriminate]. Defined.

Lemma child_clear_forgets_parent_witness :
  exists h',
    (v1 <- reserve_variable 0 "x" ;; c <- DeclarationsScope (Some 0%nat) ;;
     scope_clear c ;;; v2 <- reserve_variable 0 "x" ;; st_ret (v1, v2)) demo_heap
    = (h', Ok ("x", "x")).
Proof. apply (child_clear_forgets_parent demo_heap 0 0 "x"); reflexivity. Defined.
