(* ===== verification/Wrapper.v ===== *)
(** * The state of a wrapper: [ParseTupleParameters], [BuildValueParameters] and
    the attributes of the wrapper objects that type handlers work on
    ([pybindgen/typehandlers/base.py]) *)
From S2P Require Import Prelude.
From S2P Require Import CodeSink.
From S2P Require Import CodeBlock.

(** ** [ParseTupleParameters] *)

Record parse_item : Type := ParseItem {
  pi_template : string;
  pi_values : list string;
  pi_name : option string;
  pi_optional : bool
}.

Definition parse_add_parameter (items : list parse_item) (template : string)
    (values : list string) (name : option string) (prepend optional : bool)
    : list parse_item :=
  let item := ParseItem template values name optional in
  if prepend then item :: items else items ++ [item].

Fixpoint parse_template (last_was_optional : bool) (items : list parse_item) : res string :=
  match items with
  | [] => Ok EmptyString
  | it :: items' =>
      if last_was_optional && negb (pi_optional it) then Raise ValueError
      else
        rest <-? parse_template (last_was_optional || pi_optional it) items' ;;
        Ok ((if negb last_was_optional && pi_optional it then "|" else EmptyString)
            +:+ pi_template it +:+ rest)
  end.

Definition parse_get_parameters (items : list parse_item) : res (list string) :=
  t <-? parse_template false items ;;
  Ok ((dq +:+ t +:+ dq) :: List.concat (map pi_values items)).

Definition parse_is_empty (items : list parse_item) : res bool :=
  ps <-? parse_get_parameters items ;; Ok (bool_decide (ps = [dq +:+ dq])).

Fixpoint collect_keywords (keywords : list string) (items : list parse_item)
    : res (list string) :=
  match items with
  | [] => Ok keywords
  | it :: items' =>
      match pi_name it with
      | None => if bool_decide (keywords = []) then collect_keywords keywords items'
                else Raise ValueError
      | Some n => collect_keywords (keywords ++ [n]) items'
      end
  end.

Definition get_keywords (items : list parse_item) : res (option (list string)) :=
  keywords <-? collect_keywords [] items ;;
  match keywords with
  | [] => Ok None
  | _ => if Nat.eqb (length keywords) (length items) then Ok (Some keywords)
         else Raise ValueError
  end.

(** ** [BuildValueParameters] *)

Record build_item : Type := BuildItem {
  bi_template : string;
  bi_values : list string;
  bi_cancels_cleanup : option cleanup_handle
}.

Definition build_add_parameter (items : list build_item) (template : string)
    (values : list string) (prepend : bool) (cancels : option cleanup_handle)
    : list build_item :=
  let item := BuildItem template values cancels in
  if prepend then item :: items else items ++ [item].

Definition build_get_parameters (items : list build_item) (force_tuple_creation : bool)
    : list string :=
  (dq +:+ (if force_tuple_creation then "(" else EmptyString)
      +:+ join EmptyString (map bi_template items)
      +:+ (if force_tuple_creation then ")" else EmptyString) +:+ dq)
  :: List.concat (map bi_values items).

Definition get_cleanups (items : list build_item) : list (option cleanup_handle) :=
  map bi_cancels_cleanup items.

(** ** Wrappers *)

(** [isinstance(wrapper, ForwardWrapperBase)] or [ReverseWrapperBase] *)
Inductive wrapper_kind : Type := ForwardWrapper | ReverseWrapper.

(** The references of a wrapper; [before_parse] exists on forward ones only. *)
Record wrapper : Type := MkWrapper {
  w_kind : wrapper_kind;
  w_declarations : nat;
  w_before_parse : nat;
  w_before_call : nat;
  w_after_call : nat
}.

(** What type handlers and generators change.  [wd_py_names] holds the
    [py_name] attributes of the wrapper's class handlers, the parameters by
    their index and the return value at -1; no key stands for [None]. *)
Record world : Type := World {
  wd_heap : heap;
  wd_build_params : list build_item;
  wd_parse_params : list parse_item;
  wd_call_params : list string;
  wd_meth_flags : list string;
  wd_py_names : gmap Z string
}.

Definition on_heap {A} (m : ST heap A) : ST world A :=
  fun s => let '(h, r) := m (wd_heap s) in
           (World h (wd_build_params s) (wd_parse_params s) (wd_call_params s)
              (wd_meth_flags s) (wd_py_names s), r).

Definition is_forward (w : wrapper) : bool :=
  match w_kind w with ForwardWrapper => true | ReverseWrapper => false end.
Definition assert_forward (w : wrapper) : ST world unit := st_assert (is_forward w).
Definition assert_reverse (w : wrapper) : ST world unit := st_assert (negb (is_forward w)).

(** [wrapper.declarations.declare_variable(...)] *)
Definition declare (w : wrapper) (type_ name : string) (initializer array : option string)
    : ST world string :=
  on_heap (scope_declare_variable (w_declarations w) type_ name initializer array).

Definition before_call_code (w : wrapper) (code : string) : ST world unit :=
  on_heap (write_code (w_before_call w) code).
Definition after_call_code (w : wrapper) (code : string) : ST world unit :=
  on_heap (write_code (w_after_call w) code).

(** [wrapper.parse_params.add_parameter(...)] *)
Definition parse_add (template : string) (values : list string) (name : option string)
    (prepend optional : bool) : ST world unit :=
  st_modify (fun s => World (wd_heap s) (wd_build_params s)
    (parse_add_parameter (wd_parse_params s) template values name prepend optional)
    (wd_call_params s) (wd_meth_flags s) (wd_py_names s)).

(** [wrapper.build_params.add_parameter(...)] *)
Definition build_add (template : string) (values : list string) (prepend : bool)
    : ST world unit :=
  st_modify (fun s => World (wd_heap s)
    (build_add_parameter (wd_build_params s) template values prepend None)
    (wd_parse_params s) (wd_call_params s) (wd_meth_flags s) (wd_py_names s)).

(** [wrapper.call_params.append(...)]; reverse wrappers have no [call_params]. *)
Definition call_add (w : wrapper) (value : string) : ST world unit :=
  if is_forward w then
    st_modify (fun s => World (wd_heap s) (wd_build_params s) (wd_parse_params s)
      (wd_call_params s ++ [value]) (wd_meth_flags s) (wd_py_names s))
  else st_raise AttributeError.

Definition flags_add (f : string) : ST world unit :=
  st_modify (fun s => World (wd_heap s) (wd_build_params s) (wd_parse_params s)
    (wd_call_params s) (wd_meth_flags s ++ [f]) (wd_py_names s)).

(** [self.py_name = name] of the handler at a position *)
Definition set_py_name (position : Z) (n : string) : ST world unit :=
  st_modify (fun s => World (wd_heap s) (wd_build_params s) (wd_parse_params s)
    (wd_call_params s) (wd_meth_flags s) (<[position := n]> (wd_py_names s))).

(** ** Correctness of the parameter lists *)

Lemma parse_template_optional items :
  Forall (fun it => pi_optional it = true) items ->
  parse_template true items = Ok (join EmptyString (map pi_template items)).
Proof.
  induction 1 as [|it items Hit H IH]; simpl; [done|].
  rewrite Hit, IH. simpl. f_equal. destruct items; simpl; [by rewrite app_str_nil_r | done].
Qed.

Lemma parse_template_required req items :
  Forall (fun it => pi_optional it = false) req ->
  parse_template false (req ++ items) =
    t <-? parse_template false items ;;
    Ok (join EmptyString (map pi_template req) +:+ t).
Proof.
  induction 1 as [|it req Hit H IH]; simpl.
  - by destruct (parse_template false items).
  - rewrite Hit. simpl. rewrite IH. destruct (parse_template false items); [|done]. simpl.
    f_equal. destruct req; simpl; [done|]. by rewrite app_str_assoc.
Qed.

Lemma parse_template_bad b pre it1 mid it2 post :
  pi_optional it1 = true -> pi_optional it2 = false ->
  exists e, parse_template b (pre ++ it1 :: mid ++ it2 :: post) = Raise e.
Proof.
  intros H1 H2.
  assert (forall l, exists e, parse_template true (l ++ it2 :: post) = Raise e) as Hopt.
  { intros l. induction l as [|it l IH]; simpl; [rewrite H2; by eexists|].
    destruct (pi_optional it); simpl; [|by eexists]. destruct IH as [e ->]. by eexists. }
  revert b. induction pre as [|it pre IH]; intros b; simpl.
  - rewrite H1. rewrite orb_true_r. rewrite andb_false_r.
    destruct (Hopt mid) as [e ->]. by eexists.
  - destruct (b && negb (pi_optional it)); [by eexists|].
    destruct (IH (b || pi_optional it)) as [e ->]. by eexists.
Qed.

(** The format string of [PyArg_ParseTuple].  When the required items come
    before the optional ones, [get_parameters] succeeds: the first parameter is,
    between double quotes, the templates of the required items, one bar if there
    is an optional item, and the templates of the optional items; the values of
    the items follow in order.  When some optional item precedes a required one
    it raises. *)
Theorem parse_get_parameters_spec (req opt : list parse_item) :
  Forall (fun it => pi_optional it = false) req ->
  Forall (fun it => pi_optional it = true) opt ->
  parse_get_parameters (req ++ opt) =
    Ok ((dq +:+ (join EmptyString (map pi_template req)
                 +:+ (match opt with [] => EmptyString | _ => "|" end)
                 +:+ join EmptyString (map pi_template opt)) +:+ dq)
        :: List.concat (map pi_values (req ++ opt)))
  /\ (forall pre it1 mid it2 post,
        pi_optional it1 = true -> pi_optional it2 = false ->
        exists e, parse_get_parameters (pre ++ it1 :: mid ++ it2 :: post) = Raise e).
Proof.
  intros Hr Ho. split.
  - unfold parse_get_parameters. rewrite parse_template_required by done.
    destruct Ho as [|it opt Hit Ho]; simpl; [done|].
    rewrite Hit. simpl. rewrite parse_template_optional by done. simpl.
    destruct opt; simpl; by rewrite ?app_str_nil_r.
  - intros pre it1 mid it2 post H1 H2. unfold parse_get_parameters.
    destruct (parse_template_bad false pre it1 mid it2 post H1 H2) as [e ->]. by eexists.
Qed.

Lemma parse_get_parameters_spec_witness :
  parse_get_parameters ([ParseItem "i" ["&foo"] (Some "foo") false]
                        ++ [ParseItem "s" ["&bar"] (Some "bar") true]) =
    Ok [dq +:+ "i|s" +:+ dq; "&foo"; "&bar"].
Proof.
  apply (parse_get_parameters_spec [ParseItem "i" ["&foo"] (Some "foo") false]
           [ParseItem "s" ["&bar"] (Some "bar") true]); by repeat constructor.
Defined.

Lemma collect_keywords_named items : forall kws,
  Forall (fun it => is_Some (pi_name it)) items ->
  collect_keywords kws items = Ok (kws ++ omap pi_name items).
Proof.
  induction items as [|it items IH]; intros kws H; simpl; [by rewrite app_nil_r|].
  inversion H as [|? ? [n Hn] H']; subst. rewrite Hn, IH by done. by rewrite <- app_assoc.
Qed.

Lemma collect_keywords_length items : forall kws r,
  collect_keywords kws items = Ok r ->
  (length r = length kws + length (omap pi_name items))%nat.
Proof.
  induction items as [|it items IH]; intros kws r; simpl.
  - intros [= <-]. lia.
  - change (list_omap _ _ pi_name items) with (omap pi_name items).
    destruct (pi_name it) as [n|]; cbn [length].
    + intros H%IH. rewrite length_app in H. simpl in H. lia.
    + destruct (bool_decide (kws = [])); [apply IH | done].
Qed.

Lemma omap_name_le items : (length (omap pi_name items) <= length items)%nat.
Proof. induction items as [|it items IH]; cbn in *; [lia|]. destruct (pi_name it); cbn in *; lia. Qed.

Lemma omap_name_full items :
  length (omap pi_name items) = length items -> Forall (fun it => is_Some (pi_name it)) items.
Proof.
  induction items as [|it items IH]; [constructor|].
  pose proof (omap_name_le items) as Hle. cbn.
  change (list_omap _ _ pi_name items) with (omap pi_name items).
  destruct (pi_name it) as [n|] eqn:E; cbn [length]; intros H; [|lia].
  constructor; [by eexists | apply IH; lia].
Qed.

(** [get_keywords] gives the names in order when every item has one, [None]
    when no item has one, and raises [ValueError] when named and unnamed items
    are mixed. *)
Theorem get_keywords_spec (items : list parse_item) :
  (items <> [] -> Forall (fun it => is_Some (pi_name it)) items ->
     get_keywords items = Ok (Some (omap pi_name items)))
  /\ (Forall (fun it => pi_name it = None) items -> get_keywords items = Ok None)
  /\ (~ Forall (fun it => is_Some (pi_name it)) items ->
      ~ Forall (fun it => pi_name it = None) items -> get_keywords items = Raise ValueError).
Proof.
  unfold get_keywords. split_and!.
  - intros Hne H. rewrite collect_keywords_named by done. simpl.
    assert (length (omap pi_name items) = length items) as Hl.
    { clear Hne. induction H as [|it l [n Hn] H IH]; simpl; [done|]. rewrite Hn. cbn [length]. by f_equal. }
    destruct (omap pi_name items) eqn:E; [by destruct items|]. by rewrite Hl, Nat.eqb_refl.
  - intros H. assert (collect_keywords [] items = Ok []) as ->; [|done].
    induction H as [|it l Hn H IH]; simpl; [done|]. by rewrite Hn.
  - intros H1 H2. destruct (collect_keywords [] items) as [r|e] eqn:E; simpl.
    + pose proof (collect_keywords_length items [] r E) as Hl. simpl in Hl.
      destruct r as [|n r].
      * exfalso. apply H2. clear -Hl. induction items as [|it items IH]; [constructor|].
        simpl in Hl. destruct (pi_name it) eqn:E; [done|]. constructor; auto.
      * destruct (Nat.eqb_spec (length (n :: r)) (length items)) as [El|]; [|done].
        exfalso. apply H1, omap_name_full. lia.
    + clear -E. revert E. generalize (@nil string) as kws.
      induction items as [|it items IH]; intros kws; simpl; [done|].
      destruct (pi_name it); [apply IH|]. case_bool_decide; [apply IH|congruence].
Qed.

Lemma get_keywords_spec_witness :
  get_keywords [ParseItem "i" ["&a"] (Some "a") false; ParseItem "s" ["&b"] None false]
    = Raise ValueError.
Proof.
  apply (get_keywords_spec [ParseItem "i" ["&a"] (Some "a") false; ParseItem "s" ["&b"] None false]).
  - intros H. inversion H as [|? ? _ H2]; subst. inversion H2 as [|? ? [x Hx] _]; subst. discriminate.
  - intros H. inversion H as [|? ? Hx _]; subst. discriminate.
Defined.
