(* ===== verification/TypeHandler.v ===== *)
(** * Type handlers: [TypeHandler], [ReturnValue], [Parameter] and the pointer
    variants of [pybindgen/typehandlers/base.py]

    A handler class is a record of its class attributes and methods; deriving a
    class is building a record from the parent's functions.  A handler object is
    the record of its attributes. *)
From S2P Require Import Prelude.
From S2P Require Import CodeSink.
From S2P Require Import CodeBlock.
From S2P Require Import Wrapper.
From S2P Require Import Tokenizer.
From S2P Require Import CTypeParser.

(** The values keyword arguments take in the code. *)
Inductive pyval : Type :=
  | VNone
  | VBool (b : bool)
  | VStr (s : string).

Definition truth (v : pyval) : bool :=
  match v with VNone => false | VBool b => b | VStr s => truthy (Some s) end.
Definition is_none (v : pyval) : bool := match v with VNone => true | _ => false end.

(** The [initializer] argument of [declare_variable]: it is concatenated to a
    string, so that a boolean raises. *)
Definition as_initializer (v : pyval) : res (option string) :=
  match v with VNone => Ok None | VStr s => Ok (Some s) | VBool _ => Raise TypeError end.

(** ** [TypeHandler.__init__] *)

(** The [ctype] argument: type traits or a type string. *)
Inductive ctype_arg : Type :=
  | CTraits (t : type_traits)
  | CString (s : string).

Definition TypeHandler_init (c : ctype_arg) (is_const : bool) : res type_traits :=
  match c with
  | CTraits t =>
      if is_const then
        if type_is_pointer t || type_is_reference t then make_target_const t
        else Ok (make_const t)
      else Ok t
  | CString s => TypeTraits_init (if is_const then "const " +:+ s else s)
  end.

(** ** Parameters *)

Definition DIRECTION_IN : Z := 1.
Definition DIRECTION_OUT : Z := 2.
Definition DIRECTION_INOUT : Z := Z.lor DIRECTION_IN DIRECTION_OUT.

Definition has_in (d : Z) : bool := negb (Z.land d DIRECTION_IN =? 0).
Definition has_out (d : Z) : bool := negb (Z.land d DIRECTION_OUT =? 0).

Record param : Type := MkParam {
  p_traits : type_traits;
  p_name : string;
  p_value : string;
  p_direction : Z;
  p_default_value : pyval;
  p_transfer_ownership : pyval;
  p_array_length : option Z
}.

Definition p_ctype (p : param) : string := show (tt_ctype (p_traits p)).
Definition p_ctype_no_const (p : param) : string := show (tt_ctype_no_const (p_traits p)).
Definition target_str (t : type_traits) : string :=
  match target t with Some c => show c | None => "None" end.

(** Keyword arguments of a constructor; [None] when not given. *)
Record kwargs : Type := Kwargs {
  k_direction : option Z;
  k_is_const : option bool;
  k_default_value : option pyval;
  k_transfer_ownership : option pyval;
  k_array_length : option Z
}.
Definition no_kwargs : kwargs := Kwargs None None None None None.

(** [Parameter.__init__(self, ctype, name, direction, is_const, default_value)];
    [dirs] is the DIRECTIONS attribute of the class. *)
Definition Parameter_init (dirs : list Z) (c : ctype_arg) (name : string) (direction : Z)
    (is_const : bool) (default_value : pyval) : res param :=
  t <-? TypeHandler_init c is_const ;;
  if existsb (Z.eqb direction) dirs
  then Ok (MkParam t name name direction default_value VNone None)
  else Raise AssertionError.

(** [PointerParameter.__init__], which stores [transfer_ownership] after the
    base constructor. *)
Definition PointerParameter_init (dirs : list Z) (c : ctype_arg) (name : string)
    (direction : Z) (is_const : bool) (default_value transfer_ownership : pyval) : res param :=
  p <-? Parameter_init dirs c name direction is_const default_value ;;
  Ok (MkParam (p_traits p) (p_name p) (p_value p) (p_direction p) (p_default_value p)
        transfer_ownership None).

(** Calling a constructor with keywords: one it does not have is a TypeError. *)
Definition new_Parameter (dirs : list Z) (c : ctype_arg) (name : string) (k : kwargs)
    : res param :=
  match k_transfer_ownership k, k_array_length k with
  | None, None =>
      Parameter_init dirs c name (default DIRECTION_IN (k_direction k))
        (default false (k_is_const k)) (default VNone (k_default_value k))
  | _, _ => Raise TypeError
  end.

Definition new_PointerParameter (dirs : list Z) (c : ctype_arg) (name : string) (k : kwargs)
    : res param :=
  match k_array_length k with
  | None =>
      PointerParameter_init dirs c name (default DIRECTION_IN (k_direction k))
        (default false (k_is_const k)) (default VNone (k_default_value k))
        (default (VBool false) (k_transfer_ownership k))
  | Some _ => Raise TypeError
  end.

Definition converter (A : Type) : Type := A -> wrapper -> ST world unit.

(** A class of parameter handlers. *)
Record param_class : Type := ParamClass {
  pc_name : string;
  pc_DIRECTIONS : list Z;
  pc_CTYPES : list string;
  pc_new : ctype_arg -> string -> kwargs -> res param;
  pc_convert_c_to_python : converter param;
  pc_convert_python_to_c : converter param
}.

Definition IN_ONLY : list Z := [DIRECTION_IN].
Definition ALL_DIRECTIONS : list Z := [DIRECTION_IN; DIRECTION_OUT; DIRECTION_INOUT].
Definition IN_INOUT_OUT : list Z := [DIRECTION_IN; DIRECTION_INOUT; DIRECTION_OUT].

(** ** Return values *)

Record retval : Type := MkRetval {
  r_traits : type_traits;
  r_value : string;
  r_caller_owns_return : pyval
}.

Definition r_ctype (r : retval) : string := show (tt_ctype (r_traits r)).

Record ret_class : Type := RetClass {
  rc_name : string;
  rc_CTYPES : list string;
  rc_new : ctype_arg -> option bool -> option pyval -> res retval;
  rc_c_error_return : string;
  rc_convert_python_to_c : converter retval;
  rc_convert_c_to_python : converter retval
}.

(** [ReturnValue.__init__(self, ctype, is_const=False)] *)
Definition new_ReturnValue (c : ctype_arg) (is_const : option bool)
    (caller_owns_return : option pyval) : res retval :=
  match caller_owns_return with
  | None => t <-? TypeHandler_init c (default false is_const) ;; Ok (MkRetval t "retval" VNone)
  | Some _ => Raise TypeError
  end.

(** [PointerReturnValue.__init__], with its [caller_owns_return=None]; the value
    is stored in an attribute no handler reads. *)
Definition new_PointerReturnValue (c : ctype_arg) (is_const : option bool)
    (caller_owns_return : option pyval) : res retval :=
  t <-? TypeHandler_init c (default false is_const) ;; Ok (MkRetval t "retval" VNone).

(** ** What a handler promises *)

(** The attributes of the objects of the heap that only their constructors set:
    handlers may add lines, variables and cleanup actions, but not rewire blocks
    and scopes. *)
Definition is_memory (k : code_sink) : bool :=
  match dest k with MemoryDest _ => true | _ => false end.
Definition block_wiring (b : code_block) : option nat * string * nat * bool :=
  (cb_predecessor b, cb_error_return b, cb_declarations b, is_memory (cb_sink b)).
Definition scope_wiring (d : decl_scope) : nat * bool :=
  (ds_declared_variables d, is_memory (ds_declarations d)).
Definition same_wiring (s s' : world) : Prop :=
  map block_wiring (h_blocks (wd_heap s)) = map block_wiring (h_blocks (wd_heap s'))
  /\ map scope_wiring (h_scopes (wd_heap s)) = map scope_wiring (h_scopes (wd_heap s'))
  /\ length (h_dicts (wd_heap s)) = length (h_dicts (wd_heap s')).

#[export] Instance same_wiring_equiv : Equivalence same_wiring.
Proof.
  split.
  - by intros s.
  - intros s s' (?&?&?). by split_and!.
  - intros s s' s'' (?&?&?) (?&?&?). split_and!; congruence.
Qed.

(** [add_params nb np nc m]: a successful run of [m] adds [nb] items to the
    [Py_BuildValue] list, [np] to the [PyArg_ParseTuple] list and [nc]
    arguments to the C call. *)
Definition counts (s : world) : nat * nat * nat :=
  (length (wd_build_params s), length (wd_parse_params s), length (wd_call_params s)).
Definition add_params (nb np nc : nat) {A} (m : ST world A) : Prop :=
  forall s s' a, m s = (s', Ok a) ->
    counts s' = ((counts s).1.1 + nb, (counts s).1.2 + np, (counts s).2 + nc)%nat.

(** ** The [py_name] attributes and the method flags

    Only the handlers of C++ classes change the former, and only the parsing of
    the arguments the latter. *)
Definition same_py_names (s s' : world) : Prop := wd_py_names s = wd_py_names s'.
Definition same_flags (s s' : world) : Prop := wd_meth_flags s = wd_meth_flags s'.
Definition same_names (s s' : world) : Prop := same_py_names s s' /\ same_flags s s'.
#[export] Instance same_py_names_equiv : Equivalence same_py_names.
Proof. unfold same_py_names. split; [by intros s | by intros s s' | intros s s' s''; congruence]. Qed.
#[export] Instance same_flags_equiv : Equivalence same_flags.
Proof. unfold same_flags. split; [by intros s | by intros s s' | intros s s' s''; congruence]. Qed.
#[export] Instance same_names_equiv : Equivalence same_names.
Proof.
  split; [by intros s | by intros s s' [H1 H2] |].
  intros s s' s'' [H1 H2] [H3 H4]. split; [by transitivity s' | by transitivity s'].
Qed.

(** ** Cleanup actions

    A handler registers cleanup actions after those that are there, and never
    cancels any. *)
Definition cleanup_texts (b : code_block) : list string := map snd (sorted_items (cb_cleanup_actions b)).
Definition numbered (b : code_block) : Prop :=
  forall p, p ∈ dom (cb_cleanup_actions b) -> p <= cb_last_cleanup_position b.
Definition block_grows (b b' : code_block) : Prop :=
  numbered b -> numbered b' /\ cleanup_texts b `prefix_of` cleanup_texts b'.
Definition heap_grows (h h' : heap) : Prop := Forall2 block_grows (h_blocks h) (h_blocks h').
Definition cleanups_grow (s s' : world) : Prop := heap_grows (wd_heap s) (wd_heap s').

#[export] Instance block_grows_preorder : PreOrder block_grows.
Proof.
  split; [by intros b|]. intros b1 b2 b3 H12 H23 H1. destruct (H12 H1) as [H2 P2].
  destruct (H23 H2) as [H3 P3]. split; [done|]. by transitivity (cleanup_texts b2).
Qed.
#[export] Instance heap_grows_preorder : PreOrder heap_grows.
Proof.
  unfold heap_grows. split; [by intros h | intros h1 h2 h3 H1 H2; by transitivity (h_blocks h2)].
Qed.
#[export] Instance cleanups_grow_preorder : PreOrder cleanups_grow.
Proof.
  unfold cleanups_grow. split; [by intros s | intros s1 s2 s3 H1 H2; by transitivity (wd_heap s2)].
Qed.

(** The contract of a parameter handler in a direction: from Python to C, one
    parsed item if the direction has an input part, one built item if it has an
    output part, and one C argument; from C to Python the converse, with no C
    argument. *)
Class ParamContract (c : param_class) : Prop := {
  py2c_counts : forall p w, In (p_direction p) (pc_DIRECTIONS c) ->
    add_params (Nat.b2n (has_out (p_direction p))) (Nat.b2n (has_in (p_direction p))) 1
      (pc_convert_python_to_c c p w);
  c2py_counts : forall p w, In (p_direction p) (pc_DIRECTIONS c) ->
    add_params (Nat.b2n (has_in (p_direction p))) (Nat.b2n (has_out (p_direction p))) 0
      (pc_convert_c_to_python c p w);
  py2c_wiring : forall p w, evolves same_wiring (pc_convert_python_to_c c p w);
  c2py_wiring : forall p w, evolves same_wiring (pc_convert_c_to_python c p w);
  py2c_names : forall p w, evolves same_names (pc_convert_python_to_c c p w);
  py2c_cleanups : forall p w, evolves cleanups_grow (pc_convert_python_to_c c p w);
  c2py_cleanups : forall p w, evolves cleanups_grow (pc_convert_c_to_python c p w)
}.

Class ReturnContract (c : ret_class) : Prop := {
  ret_py2c_counts : forall r w, add_params 0 1 0 (rc_convert_python_to_c c r w);
  ret_c2py_counts : forall r w,
    add_params (if String.eqb (rc_name c) "VoidReturn" then 0 else 1)%nat 0 0
      (rc_convert_c_to_python c r w);
  ret_py2c_wiring : forall r w, evolves same_wiring (rc_convert_python_to_c c r w);
  ret_c2py_wiring : forall r w, evolves same_wiring (rc_convert_c_to_python c r w);
  ret_c2py_names : forall r w, evolves same_names (rc_convert_c_to_python c r w);
  ret_py2c_cleanups : forall r w, evolves cleanups_grow (rc_convert_python_to_c c r w);
  ret_c2py_cleanups : forall r w, evolves cleanups_grow (rc_convert_c_to_python c r w)
}.

(** ** The operations handlers are made of *)

Lemma triple_eq {A B C} (a a' : A) (b b' : B) (c c' : C) :
  a = a' -> b = b' -> c = c' -> (a, b, c) = (a', b', c').
Proof. congruence. Qed.

Lemma add_params_ret {A} (a : A) : add_params 0 0 0 (st_ret a).
Proof. intros s s' a' [= <- <-]. unfold counts; simpl. by rewrite !Nat.add_0_r. Qed.

Lemma add_params_raise nb np nc {A} e : add_params nb np nc (st_raise (A:=A) e).
Proof. by intros s s' a. Qed.

Lemma add_params_bind nb1 np1 nc1 nb2 np2 nc2 {A B} (m : ST world A) (k : A -> ST world B) :
  add_params nb1 np1 nc1 m -> (forall a, add_params nb2 np2 nc2 (k a)) ->
  add_params (nb1 + nb2) (np1 + np2) (nc1 + nc2) (st_bind m k).
Proof.
  intros Hm Hk s s' b (s1&a&E1&E2)%st_bind_Ok.
  apply Hm in E1. apply Hk in E2. rewrite E2, E1. simpl. by rewrite !Nat.add_assoc.
Qed.

Lemma add_params_on_heap {A} (m : ST heap A) : add_params 0 0 0 (on_heap m).
Proof.
  intros s s' a. unfold on_heap. destruct (m (wd_heap s)) as [h r]. intros [= <- _].
  unfold counts; simpl. by rewrite !Nat.add_0_r.
Qed.

Lemma add_params_lift {A} (r : res A) : add_params 0 0 0 (st_lift r).
Proof. intros s s' a [= <- _]. unfold counts; simpl. by rewrite !Nat.add_0_r. Qed.

Lemma add_params_assert b : add_params 0 0 0 (st_assert b).
Proof. destruct b; [apply add_params_ret | apply add_params_raise]. Qed.

Lemma add_params_when (b : bool) nb np nc m :
  add_params nb np nc m ->
  add_params (if b then nb else 0) (if b then np else 0) (if b then nc else 0) (st_when b m).
Proof. intros H. destruct b; [done | apply add_params_ret]. Qed.

Lemma add_params_if (b : bool) nb np nc {A} (m1 m2 : ST world A) :
  add_params nb np nc m1 -> add_params nb np nc m2 ->
  add_params nb np nc (if b then m1 else m2).
Proof. by destruct b. Qed.

Lemma add_params_parse t v n pre opt : add_params 0 1 0 (parse_add t v n pre opt).
Proof.
  intros s s' a [= <- _]. unfold counts, parse_add_parameter; simpl.
  destruct pre; apply triple_eq; cbn; rewrite ?length_app; cbn [length]; lia.
Qed.

Lemma add_params_build t v pre : add_params 1 0 0 (build_add t v pre).
Proof.
  intros s s' a [= <- _]. unfold counts, build_add_parameter; simpl.
  destruct pre; apply triple_eq; cbn; rewrite ?length_app; cbn [length]; lia.
Qed.

Lemma add_params_call w v : add_params 0 0 1 (call_add w v).
Proof.
  unfold call_add. destruct (is_forward w); [|apply add_params_raise].
  intros s s' a [= <- _]. unfold counts. apply triple_eq; cbn; rewrite ?length_app; cbn [length]; lia.
Qed.

(** A weaker form the automation ends with: equal counts. *)
Lemma add_params_eq nb np nc nb' np' nc' {A} (m : ST world A) :
  add_params nb np nc m -> nb = nb' -> np = np' -> nc = nc' -> add_params nb' np' nc' m.
Proof. by intros H -> -> ->. Qed.

Lemma list_update_map {A B} (f : A -> B) (l : list A) i a b :
  l !! i = Some a -> f b = f a -> map f (<[i := b]> l) = map f l.
Proof.
  intros Hi Hf. change (map f ?x) with (f <$> x). rewrite list_fmap_insert, Hf.
  apply list_insert_id. by rewrite list_lookup_fmap, Hi.
Qed.

(** The same for state transformers of the heap. *)
Definition heap_same_wiring (h h' : heap) : Prop :=
  map block_wiring (h_blocks h) = map block_wiring (h_blocks h')
  /\ map scope_wiring (h_scopes h) = map scope_wiring (h_scopes h')
  /\ length (h_dicts h) = length (h_dicts h').

#[export] Instance heap_same_wiring_equiv : Equivalence heap_same_wiring.
Proof.
  split.
  - by intros s.
  - intros s s' (?&?&?). by split_and!.
  - intros s s' s'' (?&?&?) (?&?&?). split_and!; congruence.
Qed.

Lemma wiring_deref {A} (f : heap -> list A) i : evolves heap_same_wiring (deref f i).
Proof. intros h. unfold deref. by destruct (f h !! i). Qed.

Lemma is_memory_writeln k c : is_memory (writeln k c) = is_memory k.
Proof. unfold writeln, is_memory. by destruct (dest k) eqn:E; simpl; rewrite ?E. Qed.
Lemma is_memory_unindent k k' : unindent k = Ok k' -> is_memory k' = is_memory k.
Proof. unfold unindent. by destruct (indent_stack k) as [|l st]; intros [= <-]. Qed.

Lemma wiring_on_sink i f :
  (forall k k', f k = Ok k' -> is_memory k' = is_memory k) ->
  evolves heap_same_wiring (on_sink i f).
Proof.
  intros Hf h. unfold on_sink, st_bind, deref.
  destruct (h_blocks h !! i) as [b|] eqn:E; simpl; [|done].
  destruct (f (cb_sink b)) eqn:Ef; simpl; [|done].
  split_and!; simpl; try done. erewrite list_update_map; [done..|].
  unfold block_wiring. simpl. by erewrite Hf.
Qed.

Lemma wiring_write_code i c : evolves heap_same_wiring (write_code i c).
Proof. apply wiring_on_sink. intros k k' [= <-]. apply is_memory_writeln. Qed.
Lemma wiring_indent i : evolves heap_same_wiring (block_indent i).
Proof. apply wiring_on_sink. by intros k k' [= <-]. Qed.
Lemma wiring_unindent i : evolves heap_same_wiring (block_unindent i).
Proof. apply wiring_on_sink. apply is_memory_unindent. Qed.

Lemma wiring_get_cleanup i : evolves heap_same_wiring (get_cleanup_code i).
Proof. intros h. done. Qed.

Lemma wiring_reserve i n : evolves heap_same_wiring (reserve_variable i n).
Proof.
  intros h. unfold reserve_variable, st_bind, deref.
  destruct (h_scopes h !! i) as [s|] eqn:E; simpl; [|done].
  destruct (h_dicts h !! ds_declared_variables s) as [vars|] eqn:Ed; simpl; [|done].
  split_and!; simpl; try done. by rewrite length_insert.
Qed.

Lemma wiring_declare i t n e a : evolves heap_same_wiring (scope_declare_variable i t n e a).
Proof.
  unfold scope_declare_variable. apply evolves_bind; [apply _ | apply wiring_reserve|].
  intros v. apply evolves_bind; [apply _ | apply evolves_lift; apply _|]. intros decl h.
  unfold st_bind, deref. destruct (h_scopes h !! i) as [s|] eqn:E; simpl; [|done].
  split_and!; simpl; try done. erewrite list_update_map; [done..|].
  unfold scope_wiring. simpl. by rewrite is_memory_writeln.
Qed.

Lemma wiring_add_cleanup i c : evolves heap_same_wiring (add_cleanup_code i c).
Proof.
  intros h. unfold add_cleanup_code, st_bind, deref.
  destruct (h_blocks h !! i) as [b|] eqn:E; simpl; [|done].
  split_and!; simpl; try done. by erewrite list_update_map.
Qed.

Lemma wiring_write_cleanup i : evolves heap_same_wiring (write_cleanup i).
Proof.
  apply evolves_bind; [apply _ | apply wiring_get_cleanup|]. intros l.
  apply evolves_iter; [apply _|]. intros c. apply wiring_write_code.
Qed.

Lemma wiring_write_error_return i : evolves heap_same_wiring (write_error_return i).
Proof.
  apply evolves_bind; [apply _ | apply wiring_write_cleanup|]. intros _.
  apply evolves_bind; [apply _ | apply wiring_deref|]. intros b. apply wiring_write_code.
Qed.

Lemma wiring_write_error_check i e f : evolves heap_same_wiring (write_error_check i e f).
Proof.
  unfold write_error_check.
  apply evolves_bind; [apply _ | apply wiring_write_code|intros _].
  apply evolves_bind; [apply _ | apply wiring_indent|intros _].
  apply evolves_bind; [apply _ | |intros _].
  { destruct f; [apply wiring_write_code | apply evolves_ret; apply _]. }
  apply evolves_bind; [apply _ | apply wiring_write_error_return|intros _].
  apply evolves_bind; [apply _ | apply wiring_unindent|intros _]. apply wiring_write_code.
Qed.

Lemma wiring_on_heap {A} (m : ST heap A) :
  evolves heap_same_wiring m -> evolves same_wiring (on_heap m).
Proof.
  intros H s. unfold on_heap. specialize (H (wd_heap s)).
  destruct (m (wd_heap s)) as [h r]. exact H.
Qed.

Lemma wiring_modify f :
  (forall s, wd_heap (f s) = wd_heap s) -> evolves same_wiring (st_modify f).
Proof. intros H s. unfold same_wiring. simpl. by rewrite H. Qed.

Lemma wiring_call w v : evolves same_wiring (call_add w v).
Proof. unfold call_add. destruct (is_forward w); [by apply wiring_modify | by intros s]. Qed.

#[export] Hint Resolve wiring_write_code wiring_indent wiring_unindent wiring_declare wiring_add_cleanup wiring_write_cleanup
  wiring_write_error_check wiring_on_heap wiring_call wiring_deref
  wiring_reserve wiring_get_cleanup : st.

(** Lemmas on the operations the handler files define. *)
Create HintDb wiring discriminated.
Create HintDb counts discriminated.

(** One step of a proof that a handler keeps the wiring. *)
Ltac wiring_step :=
  match goal with
  | |- PreOrder _ => apply _
  | |- evolves _ (st_bind _ _) => apply evolves_bind
  | |- evolves _ (st_ret _) => apply evolves_ret
  | |- evolves _ (st_raise _) => apply evolves_raise
  | |- evolves _ (st_lift _) => apply evolves_lift
  | |- evolves _ (st_assert _) => apply evolves_assert
  | |- evolves _ (st_when _ _) => apply evolves_when
  | |- evolves _ (call_add _ _) => apply wiring_call
  | |- evolves _ (parse_add _ _ _ _ _) => by apply wiring_modify
  | |- evolves _ (build_add _ _ _) => by apply wiring_modify
  | |- evolves _ (on_heap _) => apply wiring_on_heap; eauto with st
  | |- evolves _ (if _ then _ else _) => apply evolves_if
  | |- evolves _ _ => solve [eauto with wiring]
  | |- evolves _ (match ?x with _ => _ end) => destruct x
  | |- forall _, _ => intros ?
  | |- evolves _ _ =>
      progress unfold assert_forward, assert_reverse, declare, before_call_code, after_call_code
  end.
Ltac wiring := repeat wiring_step.

Lemma names_on_heap {A} (m : ST heap A) : evolves same_names (on_heap m).
Proof. intros s. unfold on_heap. by destruct (m (wd_heap s)). Qed.
Lemma names_modify (f : world -> world) :
  (forall s, wd_py_names (f s) = wd_py_names s) ->
  (forall s, wd_meth_flags (f s) = wd_meth_flags s) -> evolves same_names (st_modify f).
Proof. intros H1 H2 s. split; [symmetry; apply H1 | symmetry; apply H2]. Qed.
Lemma names_get {B} (f : world -> B) : evolves same_names (st_get f).
Proof. by intros s. Qed.
Lemma names_call w v : evolves same_names (call_add w v).
Proof. unfold call_add. destruct (is_forward w); [by apply names_modify | by intros s]. Qed.
Create HintDb names discriminated.
#[export] Hint Resolve names_on_heap names_get names_call : names.

Ltac names_step :=
  match goal with
  | |- PreOrder _ => apply _
  | |- forall _, _ => intros ?
  | |- evolves _ (st_bind _ _) => apply evolves_bind
  | |- evolves _ (st_ret _) => apply evolves_ret
  | |- evolves _ (st_raise _) => apply evolves_raise
  | |- evolves _ (st_lift _) => apply evolves_lift
  | |- evolves _ (st_assert _) => apply evolves_assert
  | |- evolves _ (st_when _ _) => apply evolves_when
  | |- evolves _ (st_iter _ _) => apply evolves_iter
  | |- evolves _ (parse_add _ _ _ _ _) => by apply names_modify
  | |- evolves _ (build_add _ _ _) => by apply names_modify
  | |- evolves _ (if _ then _ else _) => apply evolves_if
  | |- evolves _ _ => solve [eauto with names]
  | |- evolves _ (match ?x with _ => _ end) => destruct x
  | |- evolves _ _ =>
      progress unfold assert_forward, assert_reverse, declare, before_call_code, after_call_code
  end.
Ltac names := repeat names_step.

(** The operations of the heap only add cleanup actions. *)
Lemma grows_blocks_kept {A} (m : ST heap A) :
  (forall h, h_blocks (m h).1 = h_blocks h) -> evolves heap_grows m.
Proof. intros H h. unfold heap_grows. by rewrite H. Qed.

Lemma Forall2_update {A} (R : relation A) `{!Reflexive R} (l : list A) i x y :
  l !! i = Some x -> R x y -> Forall2 R l (<[i := y]> l).
Proof.
  intros Hi Hr. rewrite <- (list_insert_id l i x Hi) at 1. by apply Forall2_insert.
Qed.

Lemma grows_deref {A} (f : heap -> list A) i : evolves heap_grows (deref f i).
Proof. apply grows_blocks_kept. intros h. unfold deref. by destruct (f h !! i). Qed.
Lemma grows_get_cleanup i : evolves heap_grows (get_cleanup_code i).
Proof. by apply grows_blocks_kept. Qed.
Lemma grows_reserve i n : evolves heap_grows (reserve_variable i n).
Proof.
  apply grows_blocks_kept. intros h. unfold reserve_variable, st_bind, deref.
  destruct (h_scopes h !! i); [|done]. cbn. by destruct (h_dicts h !! _).
Qed.
Lemma grows_declare i t n e a : evolves heap_grows (scope_declare_variable i t n e a).
Proof.
  apply evolves_bind; [apply _ | apply grows_reserve|]. intros v.
  apply evolves_bind; [apply _ | apply evolves_lift, _|]. intros d. apply grows_blocks_kept.
  intros h. unfold st_bind, deref. by destruct (h_scopes h !! i).
Qed.
Lemma grows_on_sink i f : evolves heap_grows (on_sink i f).
Proof.
  intros h. unfold on_sink, st_bind, deref. destruct (h_blocks h !! i) as [b|] eqn:E; [|done].
  cbn. destruct (f (cb_sink b)); [|done]. cbn. eapply Forall2_update; [apply _ | exact E|].
  intros Hn. by split.
Qed.
Lemma grows_add_cleanup i c : evolves heap_grows (add_cleanup_code i c).
Proof.
  intros h. unfold add_cleanup_code, st_bind, deref.
  destruct (h_blocks h !! i) as [b|] eqn:E; [|done]. cbn.
  eapply Forall2_update; [apply _ | exact E|]. intros Hn.
  assert (forall k, k ∈ dom (cb_cleanup_actions b) -> k < cb_last_cleanup_position b + 1) as Hlt
    by (intros k Hk; specialize (Hn k Hk); lia).
  split.
  - intros p. cbn. rewrite dom_insert_L. intros [->%elem_of_singleton|Hp]%elem_of_union; [lia|].
    specialize (Hlt p Hp). lia.
  - unfold cleanup_texts. cbn. rewrite sorted_items_insert_last, map_app by done.
    by apply prefix_app_r.
Qed.

Create HintDb grows discriminated.
#[export] Hint Resolve grows_deref grows_get_cleanup grows_reserve grows_declare grows_on_sink
  grows_add_cleanup : grows.

Lemma grows_on_heap {A} (m : ST heap A) :
  evolves heap_grows m -> evolves cleanups_grow (on_heap m).
Proof. intros H s. specialize (H (wd_heap s)). unfold on_heap. by destruct (m (wd_heap s)). Qed.
Lemma grows_modify (f : world -> world) :
  (forall s, wd_heap (f s) = wd_heap s) -> evolves cleanups_grow (st_modify f).
Proof. intros H s. unfold cleanups_grow. cbn. by rewrite H. Qed.
Lemma grows_call w v : evolves cleanups_grow (call_add w v).
Proof. unfold call_add. destruct (is_forward w); [by apply grows_modify | by intros s]. Qed.
#[export] Hint Resolve grows_call : grows.

Ltac grows_step :=
  match goal with
  | |- PreOrder _ => apply _
  | |- forall _, _ => intros ?
  | |- evolves _ (st_bind _ _) => apply evolves_bind
  | |- evolves _ (st_ret _) => apply evolves_ret
  | |- evolves _ (st_raise _) => apply evolves_raise
  | |- evolves _ (st_lift _) => apply evolves_lift
  | |- evolves _ (st_get _) => apply evolves_get
  | |- evolves _ (st_assert _) => apply evolves_assert
  | |- evolves _ (st_when _ _) => apply evolves_when
  | |- evolves _ (st_iter _ _) => apply evolves_iter
  | |- evolves _ (parse_add _ _ _ _ _) => by apply grows_modify
  | |- evolves _ (build_add _ _ _) => by apply grows_modify
  | |- evolves _ (on_heap _) => apply grows_on_heap
  | |- evolves _ (if _ then _ else _) => apply evolves_if
  | |- evolves _ _ => solve [eauto with grows]
  | |- evolves _ (match ?x with _ => _ end) => destruct x
  | |- evolves _ _ =>
      progress unfold assert_forward, assert_reverse, declare, before_call_code, after_call_code,
        write_code, block_indent, block_unindent, write_cleanup, write_error_return,
        write_error_check
  end.
Ltac grows := repeat grows_step.

(** One step of a proof about the counts: the goal's numbers are existential
    variables until the end. *)
Ltac counts_step :=
  match goal with
  | |- add_params _ _ _ (st_bind _ _) => eapply add_params_bind; [|intros ?]
  | |- add_params _ _ _ (st_ret _) => apply add_params_ret
  | |- add_params _ _ _ (st_lift _) => apply add_params_lift
  | |- add_params _ _ _ (st_assert _) => apply add_params_assert
  | |- add_params _ _ _ (st_when _ _) => eapply add_params_when
  | |- add_params _ _ _ (call_add _ _) => apply add_params_call
  | |- add_params _ _ _ (parse_add _ _ _ _ _) => apply add_params_parse
  | |- add_params _ _ _ (build_add _ _ _) => apply add_params_build
  | |- add_params _ _ _ (on_heap _) => apply add_params_on_heap
  | |- add_params _ _ _ (if _ then _ else _) => eapply add_params_if
  | |- add_params _ _ _ _ => solve [eauto with counts]
  | |- add_params _ _ _ _ =>
      progress unfold assert_forward, assert_reverse, declare, before_call_code, after_call_code
  end.
Ltac counts := eapply add_params_eq; [repeat counts_step|..].
