(* ===== verification/HandlerOps.v ===== *)
(** * Shorthands of the handler methods, and the automation of their contracts

    What the methods of the handler classes have in common: declarations with a
    default value, checks and indentation of the wrapper's blocks, the error
    texts; and the tactics that discharge [ParamContract] and [ReturnContract]. *)
From S2P Require Import Prelude.
From S2P Require Import CodeSink.
From S2P Require Import CodeBlock.
From S2P Require Import Wrapper.
From S2P Require Import Tokenizer.
From S2P Require Import CTypeParser.
From S2P Require Import TypeHandler.

(** [declare_variable(type_, name, self.default_value)]; a boolean default is
    only concatenated after the name has been taken, where it raises. *)
Definition declare_val (w : wrapper) (type_ name : string) (v : pyval) : ST world string :=
  match v with
  | VNone => declare w type_ name None None
  | VStr s => declare w type_ name (Some s) None
  | VBool _ =>
      v <- on_heap (reserve_variable (w_declarations w) name) ;;
      st_lift (join_ctype_and_name type_ v) ;;; st_raise TypeError
  end.

(** ['%s' % v] *)
Definition val_str (v : pyval) : string :=
  match v with
  | VNone => "None" | VBool true => "True" | VBool false => "False" | VStr s => s
  end.

Definition before_call_check (w : wrapper) (expr : string) (cleanup : option string)
    : ST world unit := on_heap (write_error_check (w_before_call w) expr cleanup).
Definition after_call_check (w : wrapper) (expr : string) (cleanup : option string)
    : ST world unit := on_heap (write_error_check (w_after_call w) expr cleanup).
Definition before_call_indent (w : wrapper) : ST world unit :=
  on_heap (block_indent (w_before_call w)).
Definition before_call_unindent (w : wrapper) : ST world unit :=
  on_heap (block_unindent (w_before_call w)).
Definition after_call_indent (w : wrapper) : ST world unit :=
  on_heap (block_indent (w_after_call w)).
Definition after_call_unindent (w : wrapper) : ST world unit :=
  on_heap (block_unindent (w_after_call w)).

Definition set_error (exc msg : string) : string :=
  "PyErr_SetString(" +:+ exc +:+ ", " +:+ dq +:+ msg +:+ dq +:+ ");".
Definition out_of_range : option string := Some (set_error "PyExc_ValueError" "Out of range").

(** [self.default_value] is given and not empty. *)
Definition has_default (self : param) : bool := truth (p_default_value self).
Definition pname (self : param) : option string := Some (p_name self).

(** [if self.direction & self.DIRECTION_IN], [... DIRECTION_OUT] *)
Definition when_in (self : param) (m : ST world unit) : ST world unit :=
  st_when (has_in (p_direction self)) m.
Definition when_out (self : param) (m : ST world unit) : ST world unit :=
  st_when (has_out (p_direction self)) m.

Lemma wiring_declare_val w t n v : evolves same_wiring (declare_val w t n v).
Proof. unfold declare_val. wiring. Qed.
Lemma counts_declare_val w t n v : add_params 0 0 0 (declare_val w t n v).
Proof.
  destruct v; cbn; [apply add_params_on_heap| |apply add_params_on_heap].
  intros s s' a (s1&v&_&(s2&d&_&E)%st_bind_Ok)%st_bind_Ok. discriminate.
Qed.
Lemma grows_declare_val w t n v : evolves cleanups_grow (declare_val w t n v).
Proof. unfold declare_val. grows. Qed.
#[export] Hint Resolve grows_declare_val : grows.
Lemma names_declare_val w t n v : evolves same_names (declare_val w t n v).
Proof. unfold declare_val. names. Qed.
#[export] Hint Resolve wiring_declare_val : wiring.
#[export] Hint Resolve names_declare_val : names.
#[export] Hint Resolve counts_declare_val : counts.

(** Definitions the contract proofs look through. *)
Create HintDb handlers.
#[export] Hint Unfold when_in when_out before_call_check after_call_check before_call_indent
  before_call_unindent after_call_indent after_call_unindent
  pc_convert_python_to_c pc_convert_c_to_python pc_DIRECTIONS
  rc_convert_python_to_c rc_convert_c_to_python rc_name : handlers.

(** The direction is one of the finitely many of the class. *)
Lemma in_only d : In d IN_ONLY -> d = 1.
Proof. by intros [<-|[]]. Qed.
Lemma in_all d : In d ALL_DIRECTIONS -> d = 1 \/ d = 2 \/ d = 3.
Proof. intros [<-|[<-|[<-|[]]]]; auto. Qed.

Lemma in_iio d : In d IN_INOUT_OUT -> d = 1 \/ d = 2 \/ d = 3.
Proof. intros [<-|[<-|[<-|[]]]]; auto. Qed.

Ltac each_direction Hdir :=
  lazymatch type of Hdir with
  | In _ IN_ONLY => apply in_only in Hdir; rewrite Hdir; clear Hdir
  | _ =>
      first [apply in_all in Hdir | apply in_iio in Hdir]; destruct Hdir as [Hdir|[Hdir|Hdir]]; rewrite Hdir; clear Hdir
  end.

(** Tests of a known direction. *)
Ltac known_direction :=
  change (has_in 1) with true in *; change (has_in 2) with false in *;
  change (has_in 3) with true in *; change (has_out 1) with false in *;
  change (has_out 2) with true in *; change (has_out 3) with true in *; cbn beta iota.

(** The numbers of [counts], where an ownership flag may guard some code. *)
Ltac equal_counts :=
  repeat match goal with |- context [if truth ?x then _ else _] => destruct (truth x) end;
  reflexivity.

Ltac param_counts :=
  let p := fresh "p" in let w := fresh "w" in let Hdir := fresh "Hdir" in
  intros p w Hdir; autounfold with handlers in *; cbn beta iota in *;
  try match goal with |- context [p_array_length p] => destruct (p_array_length p) end;
  each_direction Hdir; known_direction; counts; equal_counts.
Ltac param_wiring := intros; autounfold with handlers; cbn beta iota; wiring.
Ltac param_names := intros; autounfold with handlers; cbn beta iota; names.
Ltac param_grows := intros; autounfold with handlers; cbn beta iota; grows.
Ltac param_contract :=
  split; [param_counts | param_counts | param_wiring | param_wiring | param_names
         | param_grows | param_grows].
Ltac return_contract :=
  split; intros; autounfold with handlers; cbn beta iota;
  [counts; equal_counts | counts; equal_counts | wiring | wiring | names | grows | grows].
