(* ===== verification/NumericTypes.v ===== *)
(** * Handlers of numeric types: [inttype.py], [booltype.py], [doubletype.py] and
    [floattype.py] of [pybindgen/typehandlers]

    One definition per class of the code, with its DIRECTIONS, CTYPES,
    constructor and methods. *)
From S2P Require Import Prelude.
From S2P Require Import CodeSink.
From S2P Require Import CodeBlock.
From S2P Require Import Wrapper.
From S2P Require Import Tokenizer.
From S2P Require Import CTypeParser.
From S2P Require Import TypeHandler.
From S2P Require Import HandlerOps.

(** ** [inttype.py] *)

Definition IntParam : param_class :=
  ParamClass "IntParam" IN_ONLY ["int"; "int32_t"] (new_Parameter IN_ONLY)
    (fun self w =>
       assert_reverse w ;;;
       build_add "i" [p_value self] false)
    (fun self w =>
       assert_forward w ;;;
       name <- declare_val w (p_ctype_no_const self) (p_name self) (p_default_value self) ;;
       parse_add "i" ["&" +:+ name] (pname self) false (has_default self) ;;;
       call_add w name).

Definition UnsignedIntParam : param_class :=
  ParamClass "UnsignedIntParam" IN_ONLY ["unsigned int"; "uint32_t"] (new_Parameter IN_ONLY)
    (fun self w =>
       assert_reverse w ;;;
       build_add "N" ["PyLong_FromUnsignedLong(" +:+ p_value self +:+ ")"] false)
    (fun self w =>
       assert_forward w ;;;
       name <- declare_val w "unsigned int" (p_name self) (p_default_value self) ;;
       parse_add "I" ["&" +:+ name] (pname self) false (has_default self) ;;;
       call_add w name).

(** [__init__] keeps [array_length] and refuses an ownership transfer. *)
Definition UnsignedIntPtrParam_new (c : ctype_arg) (name : string) (k : kwargs) : res param :=
  p <-? PointerParameter_init ALL_DIRECTIONS c name (default DIRECTION_IN (k_direction k))
          (default false (k_is_const k)) (default VNone (k_default_value k))
          (default (VBool false) (k_transfer_ownership k)) ;;
  let p := MkParam (p_traits p) (p_name p) (p_value p) (p_direction p) (p_default_value p)
             (p_transfer_ownership p) (k_array_length k) in
  if truth (default (VBool false) (k_transfer_ownership k)) then Raise NotSupportedError
  else Ok p.

(** The array branch of [convert_python_to_c]: the loop that fills the C array
    from the Python list, and the loop that builds the list back. *)
Definition for_loop (idx : string) (n : Z) : string :=
  "for (" +:+ idx +:+ " = 0; " +:+ idx +:+ " < " +:+ show_int n +:+ "; " +:+ idx +:+ "++) {".
Definition list_of_error (name : string) (n : Z) (what : string) : option string :=
  Some (set_error "PyExc_TypeError"
          ("Parameter `" +:+ name +:+ "' must be a list of " +:+ show_int n +:+ " " +:+ what)).

Definition UnsignedIntPtrParam_array_in (self : param) (w : wrapper) (n : Z)
    (name py_list idx : string) : ST world unit :=
  elem <- declare w "PyObject*" "element" None None ;;
  parse_add "O!" ["&PyList_Type"; "&" +:+ py_list] (pname self) false false ;;;
  before_call_check w ("PyList_Size(" +:+ py_list +:+ ") != " +:+ show_int n)
    (list_of_error (p_name self) n "ints/longs") ;;;
  before_call_code w (for_loop idx n) ;;;
  before_call_indent w ;;;
  before_call_code w (elem +:+ " = PyList_GET_ITEM(" +:+ py_list +:+ ", " +:+ idx +:+ ");") ;;;
  before_call_check w "!(PyInt_Check(%(elem)s) || PyLong_Check(%(elem)s))"
    (list_of_error (p_name self) n "ints / longs") ;;;
  before_call_code w (name +:+ "[" +:+ idx +:+ "] = PyLong_AsUnsignedInt(" +:+ elem +:+ ");") ;;;
  before_call_unindent w ;;;
  before_call_code w "}".

Definition array_out (w : wrapper) (n : Z) (name py_list idx from_c : string) : ST world unit :=
  after_call_code w (py_list +:+ " = PyList_New(" +:+ show_int n +:+ ");") ;;;
  after_call_code w (for_loop idx n) ;;;
  after_call_indent w ;;;
  after_call_code w ("PyList_SET_ITEM(" +:+ py_list +:+ ", " +:+ idx +:+ ", " +:+ from_c
                     +:+ "(" +:+ name +:+ "[" +:+ idx +:+ "]));") ;;;
  after_call_unindent w ;;;
  after_call_code w "}" ;;;
  build_add "N" [py_list] false.

Definition UnsignedIntPtrParam_py2c (self : param) (w : wrapper) : ST world unit :=
  match p_array_length self with
  | None =>
      name <- declare w (target_str (p_traits self)) (p_name self) None None ;;
      call_add w ("&" +:+ name) ;;;
      when_in self (parse_add "I" ["&" +:+ name] (pname self) false false) ;;;
      when_out self (build_add "I" [name] false)
  | Some n =>
      name <- declare w (target_str (p_traits self)) (p_name self) None
                (Some ("[" +:+ show_int n +:+ "]")) ;;
      py_list <- declare w "PyObject*" "py_list" None None ;;
      idx <- declare w "int" "idx" None None ;;
      call_add w name ;;;
      when_in self (UnsignedIntPtrParam_array_in self w n name py_list idx) ;;;
      when_out self (array_out w n name py_list idx "PyLong_FromUnsignedLong")
  end.

Definition UnsignedIntPtrParam : param_class :=
  ParamClass "UnsignedIntPtrParam" ALL_DIRECTIONS ["unsigned int*"; "uint32_t*"] (UnsignedIntPtrParam_new)
    (fun self w =>
       when_in self (build_add "I" ["*" +:+ p_value self] false) ;;;
       when_out self (parse_add "I" [p_value self] (pname self) false false))
    (fun self w =>
       UnsignedIntPtrParam_py2c self w).

Definition IntReturn : ret_class :=
  RetClass "IntReturn" ["int"; "int32_t"] new_ReturnValue "return INT_MIN;"
    (fun self w =>
       parse_add "i" ["&" +:+ r_value self] None true false)
    (fun self w =>
       build_add "i" [r_value self] true).

Definition UnsignedIntReturn : ret_class :=
  RetClass "UnsignedIntReturn" ["unsigned int"; "uint32_t"] new_ReturnValue "return 0;"
    (fun self w =>
       parse_add "I" ["&" +:+ r_value self] None true false)
    (fun self w =>
       build_add "N" ["PyLong_FromUnsignedLong(" +:+ r_value self +:+ ")"] true).

(** The direction must be given unless the type is const. *)
Definition direction_or_const (k : kwargs) : res Z :=
  match k_direction k with
  | Some d => Ok d
  | None => if default false (k_is_const k) then Ok DIRECTION_IN
            else Raise TypeConfigurationError
  end.

(** [IntPtrParam.__init__] passes its [transfer_ownership] at the place of the
    [default_value] of the base constructor. *)
Definition IntPtrParam_new (c : ctype_arg) (name : string) (k : kwargs) : res param :=
  match k_default_value k, k_array_length k with
  | None, None =>
      d <-? direction_or_const k ;;
      PointerParameter_init ALL_DIRECTIONS c name d (default false (k_is_const k))
        (default VNone (k_transfer_ownership k)) (VBool false)
  | _, _ => Raise TypeError
  end.

(** The constructor of [Int8PtrParam] and [UInt8PtrParam]. *)
Definition Int8PtrParam_new (c : ctype_arg) (name : string) (k : kwargs) : res param :=
  match k_array_length k with
  | None =>
      d <-? direction_or_const k ;;
      PointerParameter_init ALL_DIRECTIONS c name d (default false (k_is_const k))
        (default VNone (k_default_value k)) (default VNone (k_transfer_ownership k))
  | Some _ => Raise TypeError
  end.

Definition IntPtrParam : param_class :=
  ParamClass "IntPtrParam" ALL_DIRECTIONS ["int*"] (IntPtrParam_new)
    (fun self w =>
       when_in self (build_add "i" ["*" +:+ p_value self] false) ;;;
       when_out self (parse_add "i" [p_value self] (pname self) false false))
    (fun self w =>
       name <- declare w (drop_last (p_ctype_no_const self)) (p_name self) None None ;;
       call_add w ("&" +:+ name) ;;;
       when_in self (parse_add "i" ["&" +:+ name] (pname self) false false) ;;;
       when_out self (build_add "i" [name] false)).

Definition IntRefParam : param_class :=
  ParamClass "IntRefParam" ALL_DIRECTIONS ["int&"] (new_Parameter ALL_DIRECTIONS)
    (fun self w =>
       when_in self (build_add "i" [p_value self] false) ;;;
       when_out self (parse_add "i" [p_value self] (pname self) false false))
    (fun self w =>
       name <- declare w (drop_last (p_ctype_no_const self)) (p_name self) None None ;;
       call_add w (name) ;;;
       when_in self (parse_add "i" ["&" +:+ name] (pname self) false false) ;;;
       when_out self (build_add "i" [name] false)).

Definition UnsignedIntRefParam : param_class :=
  ParamClass "UnsignedIntRefParam" ALL_DIRECTIONS ["unsigned int&"; "unsigned &"] (new_Parameter ALL_DIRECTIONS)
    (fun self w =>
       when_in self (build_add "I" [p_value self] false) ;;;
       when_out self (parse_add "I" [p_value self] (pname self) false false))
    (fun self w =>
       name <- declare w (drop_last (p_ctype_no_const self)) (p_name self) None None ;;
       call_add w (name) ;;;
       when_in self (parse_add "I" ["&" +:+ name] (pname self) false false) ;;;
       when_out self (build_add "I" [name] false)).

Definition UInt16Return : ret_class :=
  RetClass "UInt16Return" ["uint16_t"; "unsigned short"; "unsigned short int"; "short unsigned int"] new_ReturnValue "return 0;"
    (fun self w =>
       tmp_var <- declare w "int" "tmp" None None ;;
       parse_add "i" ["&" +:+ tmp_var] None true false ;;;
       after_call_check w (tmp_var +:+ " > 0xffff") out_of_range ;;;
       after_call_code w (r_value self +:+ " = " +:+ tmp_var +:+ ";"))
    (fun self w =>
       build_add "i" [r_value self] true).

Definition Int16Return : ret_class :=
  RetClass "Int16Return" ["int16_t"; "short"; "short int"] new_ReturnValue "return 0;"
    (fun self w =>
       tmp_var <- declare w "int" "tmp" None None ;;
       parse_add "i" ["&" +:+ tmp_var] None true false ;;;
       after_call_check w (tmp_var +:+ " > 32767 || " +:+ tmp_var +:+ " < -32768") out_of_range ;;;
       after_call_code w (r_value self +:+ " = " +:+ tmp_var +:+ ";"))
    (fun self w =>
       build_add "i" [r_value self] true).

Definition UInt16Param : param_class :=
  ParamClass "UInt16Param" IN_ONLY ["uint16_t"; "unsigned short"; "unsigned short int"] (new_Parameter IN_ONLY)
    (fun self w =>
       assert_reverse w ;;;
       build_add "i" ["(int) " +:+ p_value self] false)
    (fun self w =>
       assert_forward w ;;;
       name <- declare_val w "int" (p_name self) (p_default_value self) ;;
       parse_add "i" ["&" +:+ name] (pname self) false (has_default self) ;;;
       before_call_check w (name +:+ " > 0xffff") out_of_range ;;;
       call_add w name).

Definition UInt16RefParam : param_class :=
  ParamClass "UInt16RefParam" IN_INOUT_OUT ["uint16_t&"; "unsigned short&"; "unsigned short int&"; "short unsigned&"; "short unsigned int&"] (new_Parameter IN_INOUT_OUT)
    (fun self w =>
       assert_reverse w ;;;
       when_in self (build_add "H" [p_value self] false) ;;;
       when_out self (parse_add "H" [p_value self] (pname self) false false))
    (fun self w =>
       name <- declare w (drop_last (p_ctype_no_const self)) (p_name self) None None ;;
       call_add w (name) ;;;
       when_in self (parse_add "H" ["&" +:+ name] (pname self) false false) ;;;
       when_out self (build_add "H" [name] false)).

Definition Int16Param : param_class :=
  ParamClass "Int16Param" IN_ONLY ["int16_t"; "short"; "short int"] (new_Parameter IN_ONLY)
    (fun self w =>
       assert_reverse w ;;;
       build_add "i" ["(int) " +:+ p_value self] false)
    (fun self w =>
       assert_forward w ;;;
       name <- declare_val w "int" (p_name self) (p_default_value self) ;;
       parse_add "i" ["&" +:+ name] (pname self) false (has_default self) ;;;
       before_call_check w (name +:+ " > 0x7fff") out_of_range ;;;
       call_add w name).

Definition Int16RefParam : param_class :=
  ParamClass "Int16RefParam" IN_INOUT_OUT ["int16_t&"; "short&"; "short int&"] (new_Parameter IN_INOUT_OUT)
    (fun self w =>
       assert_reverse w ;;;
       when_in self (build_add "h" [p_value self] false) ;;;
       when_out self (parse_add "h" [p_value self] (pname self) false false))
    (fun self w =>
       name <- declare w (drop_last (p_ctype_no_const self)) (p_name self) None None ;;
       call_add w (name) ;;;
       when_in self (parse_add "h" ["&" +:+ name] (pname self) false false) ;;;
       when_out self (build_add "h" [name] false)).

Definition UInt8Param : param_class :=
  ParamClass "UInt8Param" IN_ONLY ["uint8_t"; "unsigned char"; "char unsigned"] (new_Parameter IN_ONLY)
    (fun self w =>
       assert_reverse w ;;;
       build_add "i" ["(int) " +:+ p_value self] false)
    (fun self w =>
       assert_forward w ;;;
       name <- declare_val w "int" (p_name self) (p_default_value self) ;;
       parse_add "i" ["&" +:+ name] (pname self) false (has_default self) ;;;
       before_call_check w (name +:+ " > 0xff") out_of_range ;;;
       call_add w name).

Definition UInt8RefParam : param_class :=
  ParamClass "UInt8RefParam" IN_INOUT_OUT ["uint8_t&"; "unsigned char&"; "char unsigned&"] (new_Parameter IN_INOUT_OUT)
    (fun self w =>
       assert_reverse w ;;;
       when_in self (build_add "B" [p_value self] false) ;;;
       when_out self (parse_add "B" [p_value self] (pname self) false false))
    (fun self w =>
       name <- declare w (drop_last (p_ctype_no_const self)) (p_name self) None None ;;
       call_add w (name) ;;;
       when_in self (parse_add "B" ["&" +:+ name] (pname self) false false) ;;;
       when_out self (build_add "B" [name] false)).

Definition UInt8Return : ret_class :=
  RetClass "UInt8Return" ["uint8_t"; "unsigned char"; "char unsigned"] new_ReturnValue "return 0;"
    (fun self w =>
       tmp_var <- declare w "int" "tmp" None None ;;
       parse_add "i" ["&" +:+ tmp_var] None true false ;;;
       after_call_check w (tmp_var +:+ " > 0xff") out_of_range ;;;
       after_call_code w (r_value self +:+ " = " +:+ tmp_var +:+ ";"))
    (fun self w =>
       build_add "i" ["(int)" +:+ r_value self] true).

Definition Int8Param : param_class :=
  ParamClass "Int8Param" IN_ONLY ["int8_t"; "signed char"; "char signed"] (new_Parameter IN_ONLY)
    (fun self w =>
       assert_reverse w ;;;
       build_add "i" ["(int) " +:+ p_value self] false)
    (fun self w =>
       assert_forward w ;;;
       name <- declare_val w "int" (p_name self) (p_default_value self) ;;
       parse_add "i" ["&" +:+ name] (pname self) false (has_default self) ;;;
       before_call_check w (name +:+ " > 0x7f") out_of_range ;;;
       call_add w name).

Definition Int8RefParam : param_class :=
  ParamClass "Int8RefParam" IN_INOUT_OUT ["int8_t&"; "signed char &"; "char signed&"] (new_Parameter IN_INOUT_OUT)
    (fun self w =>
       assert_reverse w ;;;
       when_in self (build_add "b" [p_value self] false) ;;;
       when_out self (parse_add "b" [p_value self] (pname self) false false))
    (fun self w =>
       name <- declare w (drop_last (p_ctype_no_const self)) (p_name self) None None ;;
       call_add w (name) ;;;
       when_in self (parse_add "b" ["&" +:+ name] (pname self) false false) ;;;
       when_out self (build_add "b" [name] false)).

Definition Int8Return : ret_class :=
  RetClass "Int8Return" ["int8_t"; "signed char"] new_ReturnValue "return 0;"
    (fun self w =>
       tmp_var <- declare w "int" "tmp" None None ;;
       parse_add "i" ["&" +:+ tmp_var] None true false ;;;
       after_call_check w (tmp_var +:+ " > 128 || " +:+ tmp_var +:+ " < -127") out_of_range ;;;
       after_call_code w (r_value self +:+ " = " +:+ tmp_var +:+ ";"))
    (fun self w =>
       build_add "i" [r_value self] true).

(** [get_ctype_without_ref] of the wide integers, and its override in their
    reference variants, which asserts that there is a target. *)
Definition ctype_without_ref (self : param) : ST world string :=
  st_ret (p_ctype_no_const self).
Definition ctype_of_target (self : param) : ST world string :=
  match target (p_traits self) with
  | Some c => st_ret (show c)
  | None => st_raise AssertionError
  end.

(** [convert_python_to_c] of the wide integers, inherited by the reference
    variants. *)
Definition wide_py2c (get_ctype : param -> ST world string) (fmt : string)
    (self : param) (w : wrapper) : ST world unit :=
  assert_forward w ;;;
  t <- get_ctype self ;;
  name <- declare_val w t (p_name self) (p_default_value self) ;;
  parse_add fmt ["&" +:+ name] (pname self) false (has_default self) ;;;
  call_add w name.

Definition UnsignedLongLongParam : param_class :=
  ParamClass "UnsignedLongLongParam" IN_ONLY ["unsigned long long"; "uint64_t"; "unsigned long long int"; "long long unsigned int"; "long long unsigned"] (new_Parameter IN_ONLY)
    (fun self w =>
       assert_reverse w ;;;
       build_add "K" [p_value self] false)
    (fun self w =>
       wide_py2c ctype_without_ref "K" self w).

Definition UnsignedLongLongRefParam : param_class :=
  ParamClass "UnsignedLongLongRefParam" IN_ONLY ["unsigned long long&"; "uint64_t&"; "long long unsigned int&"] (new_Parameter IN_ONLY)
    (fun self w =>
       pc_convert_c_to_python UnsignedLongLongParam self w)
    (fun self w =>
       wide_py2c ctype_of_target "K" self w).

Definition UnsignedLongLongReturn : ret_class :=
  RetClass "UnsignedLongLongReturn" ["unsigned long long"; "uint64_t"; "long long unsigned int"] new_ReturnValue "return 0;"
    (fun self w =>
       parse_add "K" ["&" +:+ r_value self] None true false)
    (fun self w =>
       build_add "K" [r_value self] true).

Definition UnsignedLongParam : param_class :=
  ParamClass "UnsignedLongParam" IN_ONLY ["unsigned long"; "unsigned long int"; "long unsigned"; "long unsigned int"] (new_Parameter IN_ONLY)
    (fun self w =>
       assert_reverse w ;;;
       build_add "k" [p_value self] false)
    (fun self w =>
       wide_py2c ctype_without_ref "k" self w).

Definition UnsignedLongRefParam : param_class :=
  ParamClass "UnsignedLongRefParam" IN_ONLY ["unsigned long&"; "long unsigned&"; "long unsigned int&"; "unsigned long int&"] (new_Parameter IN_ONLY)
    (fun self w =>
       pc_convert_c_to_python UnsignedLongParam self w)
    (fun self w =>
       wide_py2c ctype_of_target "k" self w).

Definition UnsignedLongReturn : ret_class :=
  RetClass "UnsignedLongReturn" ["unsigned long"; "long unsigned int"] new_ReturnValue "return 0;"
    (fun self w =>
       parse_add "k" ["&" +:+ r_value self] None true false)
    (fun self w =>
       build_add "k" [r_value self] true).

Definition LongParam : param_class :=
  ParamClass "LongParam" IN_ONLY ["signed long"; "signed long int"; "long"; "long int"; "long signed"; "long signed int"] (new_Parameter IN_ONLY)
    (fun self w =>
       assert_reverse w ;;;
       build_add "l" [p_value self] false)
    (fun self w =>
       wide_py2c ctype_without_ref "l" self w).

Definition LongRefParam : param_class :=
  ParamClass "LongRefParam" IN_ONLY ["signed long&"; "long signed&"; "long&"; "long int&"; "long signed int&"; "signed long int&"] (new_Parameter IN_ONLY)
    (fun self w =>
       pc_convert_c_to_python LongParam self w)
    (fun self w =>
       wide_py2c ctype_of_target "l" self w).

Definition LongReturn : ret_class :=
  RetClass "LongReturn" ["signed long"; "long signed int"; "long"; "long int"] new_ReturnValue "return 0;"
    (fun self w =>
       parse_add "l" ["&" +:+ r_value self] None true false)
    (fun self w =>
       build_add "l" [r_value self] true).

Definition SizeTReturn : ret_class :=
  RetClass "SizeTReturn" ["size_t"; "std::size_t"] new_ReturnValue "return 0;"
    (fun self w =>
       name <- declare w "unsigned PY_LONG_LONG" "retval_tmp" (Some (r_value self)) None ;;
       parse_add "K" ["&" +:+ name] None true false ;;;
       after_call_code w ("retval = " +:+ name +:+ ";"))
    (fun self w =>
       build_add "K" ["((unsigned PY_LONG_LONG) " +:+ r_value self +:+ ")"] true).

Definition SizeTParam : param_class :=
  ParamClass "SizeTParam" IN_ONLY ["size_t"; "std::size_t"] (new_Parameter IN_ONLY)
    (fun self w =>
       assert_reverse w ;;;
       build_add "K" ["((unsigned PY_LONG_LONG) " +:+ p_value self +:+ ")"] false)
    (fun self w =>
       assert_forward w ;;;
       name <- declare_val w "unsigned PY_LONG_LONG" (p_name self) (p_default_value self) ;;
       parse_add "K" ["&" +:+ name] (pname self) false (has_default self) ;;;
       call_add w name).

Definition LongLongParam : param_class :=
  ParamClass "LongLongParam" IN_ONLY ["long long"; "int64_t"; "long long int"] (new_Parameter IN_ONLY)
    (fun self w =>
       assert_reverse w ;;;
       build_add "L" [p_value self] false)
    (fun self w =>
       wide_py2c ctype_without_ref "L" self w).

Definition LongLongRefParam : param_class :=
  ParamClass "LongLongRefParam" IN_ONLY ["long long&"; "int64_t&"; "long long int&"] (new_Parameter IN_ONLY)
    (fun self w =>
       pc_convert_c_to_python LongLongParam self w)
    (fun self w =>
       wide_py2c ctype_of_target "L" self w).

Definition LongLongReturn : ret_class :=
  RetClass "LongLongReturn" ["long long"; "int64_t"; "long long int"] new_ReturnValue "return 0;"
    (fun self w =>
       parse_add "L" ["&" +:+ r_value self] None true false)
    (fun self w =>
       build_add "L" [r_value self] true).

Definition Int8PtrParam : param_class :=
  ParamClass "Int8PtrParam" ALL_DIRECTIONS ["int8_t*"] (Int8PtrParam_new)
    (fun self w =>
       when_in self (build_add "b" ["*" +:+ p_value self] false) ;;;
       when_out self (parse_add "b" [p_value self] (pname self) false false))
    (fun self w =>
       name <- declare w "int8_t" (p_name self) None None ;;
       call_add w ("&" +:+ name) ;;;
       when_in self (parse_add "b" ["&" +:+ name] (pname self) false false) ;;;
       when_out self (build_add "b" [name] false)).

Definition UInt8PtrParam : param_class :=
  ParamClass "UInt8PtrParam" ALL_DIRECTIONS ["uint8_t*"] (Int8PtrParam_new)
    (fun self w =>
       when_in self (build_add "B" ["*" +:+ p_value self] false) ;;;
       when_out self (parse_add "B" [p_value self] (pname self) false false))
    (fun self w =>
       name <- declare w "uint8_t" (p_name self) None None ;;
       call_add w ("&" +:+ name) ;;;
       when_in self (parse_add "B" ["&" +:+ name] (pname self) false false) ;;;
       when_out self (build_add "B" [name] false)).

Definition UnsignedInt16PtrParam_new (c : ctype_arg) (name : string) (k : kwargs) : res param :=
  p <-? new_PointerParameter ALL_DIRECTIONS c name k ;;
  if truth (default (VBool false) (k_transfer_ownership k)) then Raise NotSupportedError
  else Ok p.

Definition UnsignedInt16PtrParam : param_class :=
  ParamClass "UnsignedInt16PtrParam" ALL_DIRECTIONS ["unsigned short int*"; "uint16_t*"] (UnsignedInt16PtrParam_new)
    (fun self w =>
       when_in self (build_add "H" ["*" +:+ p_value self] false) ;;;
       when_out self (parse_add "H" [p_value self] (pname self) false false))
    (fun self w =>
       name <- declare w (target_str (p_traits self)) (p_name self) None None ;;
       call_add w ("&" +:+ name) ;;;
       when_in self (parse_add "H" ["&" +:+ name] (pname self) false false) ;;;
       when_out self (build_add "H" [name] false)).

(** ** [booltype.py] *)

Definition BoolParam_py2c (self : param) (w : wrapper) : ST world unit :=
  assert_forward w ;;;
  name <- declare w (p_ctype_no_const self) (p_name self) None None ;;
  py_name <- declare w "PyObject *" ("py_" +:+ p_name self)
               (if is_none (p_default_value self) then None else Some "NULL") None ;;
  parse_add "O" ["&" +:+ py_name] (Some (p_value self)) false
    (negb (is_none (p_default_value self))) ;;;
  before_call_code w
    (if truth (p_default_value self) then
       name +:+ " = " +:+ py_name +:+ "? (bool) PyObject_IsTrue(" +:+ py_name +:+ ") : "
         +:+ val_str (p_default_value self) +:+ ";"
     else name +:+ " = (bool) PyObject_IsTrue(" +:+ py_name +:+ ");") ;;;
  call_add w name.

Definition BoolParam : param_class :=
  ParamClass "BoolParam" IN_ONLY ["bool"] (new_Parameter IN_ONLY)
    (fun self w =>
       assert_reverse w ;;;
       build_add "N" ["PyBool_FromLong(" +:+ p_value self +:+ ")"] false)
    (fun self w =>
       BoolParam_py2c self w).

Definition BoolReturn : ret_class :=
  RetClass "BoolReturn" ["bool"] new_ReturnValue "return false;"
    (fun self w =>
       py_name <- declare w "PyObject *" "py_boolretval" None None ;;
       parse_add "O" ["&" +:+ py_name] None true false ;;;
       after_call_code w (r_value self +:+ " = PyObject_IsTrue(" +:+ py_name +:+ ");"))
    (fun self w =>
       build_add "N" ["PyBool_FromLong(" +:+ r_value self +:+ ")"] true).

Definition BoolPtrParam : param_class :=
  ParamClass "BoolPtrParam" ALL_DIRECTIONS ["bool*"] (new_Parameter ALL_DIRECTIONS)
    (fun self w =>
       when_in self (build_add "N" ["PyBool_FromLong(*" +:+ p_value self +:+ ")"] false) ;;;
       when_out self
         (py_name <- declare w "PyObject *" ("py_" +:+ p_name self) None None ;;
          parse_add "O" ["&" +:+ py_name] (Some (p_value self)) false false ;;;
          after_call_code w ("*" +:+ p_value self +:+ " = PyObject_IsTrue(" +:+ py_name +:+ ");")))
    (fun self w =>
       name <- declare w (drop_last (p_ctype_no_const self)) (p_name self) None None ;;
       call_add w ("&" +:+ name) ;;;
       when_in self
         (py_name <- declare w "PyObject*" ("py_" +:+ p_name self) None None ;;
          parse_add "O" ["&" +:+ py_name] (Some (p_value self)) false false ;;;
          before_call_code w (name +:+ " = PyObject_IsTrue(" +:+ py_name +:+ ");")) ;;;
       when_out self (build_add "N" ["PyBool_FromLong(" +:+ name +:+ ")"] false)).

Definition BoolRefParam : param_class :=
  ParamClass "BoolRefParam" ALL_DIRECTIONS ["bool&"] (new_Parameter ALL_DIRECTIONS)
    (fun self w =>
       when_in self (build_add "N" ["PyBool_FromLong(" +:+ p_value self +:+ ")"] false) ;;;
       when_out self
         (py_name <- declare w "PyObject *" ("py_" +:+ p_name self) None None ;;
          parse_add "O" ["&" +:+ py_name] (Some (p_name self)) false false ;;;
          after_call_code w (p_value self +:+ " = PyObject_IsTrue(" +:+ py_name +:+ ");")))
    (fun self w =>
       name <- declare w (drop_last (p_ctype_no_const self)) (p_name self) None None ;;
       call_add w (name) ;;;
       when_in self
         (py_name <- declare w "PyObject*" ("py_" +:+ p_name self) None None ;;
          parse_add "O" ["&" +:+ py_name] (Some (p_value self)) false false ;;;
          before_call_code w (name +:+ " = PyObject_IsTrue(" +:+ py_name +:+ ");")) ;;;
       when_out self (build_add "N" ["PyBool_FromLong(" +:+ name +:+ ")"] false)).

(** ** [doubletype.py] *)

Definition DoubleParam : param_class :=
  ParamClass "DoubleParam" IN_ONLY ["double"] (new_Parameter IN_ONLY)
    (fun self w =>
       assert_reverse w ;;;
       build_add "d" [p_value self] false)
    (fun self w =>
       assert_forward w ;;;
       name <- declare_val w (p_ctype_no_const self) (p_name self) (p_default_value self) ;;
       parse_add "d" ["&" +:+ name] (Some (p_value self)) false (has_default self) ;;;
       call_add w name).

Definition DoubleReturn : ret_class :=
  RetClass "DoubleReturn" ["double"] new_ReturnValue "return 0;"
    (fun self w =>
       parse_add "d" ["&" +:+ r_value self] None true false)
    (fun self w =>
       build_add "d" [r_value self] true).

Definition DoublePtrParam : param_class :=
  ParamClass "DoublePtrParam" ALL_DIRECTIONS ["double*"] (new_Parameter ALL_DIRECTIONS)
    (fun self w =>
       when_in self (build_add "d" ["*" +:+ p_value self] false) ;;;
       when_out self (parse_add "d" [p_value self] (pname self) false false))
    (fun self w =>
       name <- declare w (drop_last (p_ctype_no_const self)) (p_name self) None None ;;
       call_add w ("&" +:+ name) ;;;
       when_in self (parse_add "d" ["&" +:+ name] (pname self) false false) ;;;
       when_out self (build_add "d" [name] false)).

Definition DoubleRefParam : param_class :=
  ParamClass "DoubleRefParam" ALL_DIRECTIONS ["double&"] (new_Parameter ALL_DIRECTIONS)
    (fun self w =>
       when_in self (build_add "d" [p_value self] false) ;;;
       when_out self (parse_add "d" [p_value self] (pname self) false false))
    (fun self w =>
       name <- declare w "double" (p_name self) None None ;;
       call_add w (name) ;;;
       when_in self (parse_add "d" ["&" +:+ name] (pname self) false false) ;;;
       when_out self (build_add "d" [name] false)).

(** ** [floattype.py] *)

Definition FloatParam : param_class :=
  ParamClass "FloatParam" IN_ONLY ["float"] (new_Parameter IN_ONLY)
    (fun self w =>
       assert_reverse w ;;;
       build_add "f" [p_value self] false)
    (fun self w =>
       assert_forward w ;;;
       name <- declare w (p_ctype_no_const self) (p_name self) None None ;;
       parse_add "f" ["&" +:+ name] (Some (p_value self)) false false ;;;
       call_add w name).

Definition FloatReturn : ret_class :=
  RetClass "FloatReturn" ["float"] new_ReturnValue "return 0;"
    (fun self w =>
       parse_add "f" ["&" +:+ r_value self] None true false)
    (fun self w =>
       build_add "f" [r_value self] true).

Definition FloatPtrParam_new (c : ctype_arg) (name : string) (k : kwargs) : res param :=
  match k_transfer_ownership k with
  | None =>
      p <-? Parameter_init ALL_DIRECTIONS c name (default DIRECTION_IN (k_direction k))
              (default false (k_is_const k)) (default VNone (k_default_value k)) ;;
      Ok (MkParam (p_traits p) (p_name p) (p_value p) (p_direction p) (p_default_value p)
            (p_transfer_ownership p) (k_array_length k))
  | Some _ => Raise TypeError
  end.

(** The check of the elements names the variable [element] literally, whatever
    name the declaration got. *)
Definition FloatPtrParam_array_in (self : param) (w : wrapper) (n : Z)
    (name py_list idx : string) : ST world unit :=
  elem <- declare w "PyObject*" "element" None None ;;
  parse_add "O!" ["&PyList_Type"; "&" +:+ py_list] (pname self) false false ;;;
  before_call_check w ("PyList_Size(" +:+ py_list +:+ ") != " +:+ show_int n)
    (list_of_error (p_name self) n "floats") ;;;
  before_call_code w (for_loop idx n) ;;;
  before_call_indent w ;;;
  before_call_code w (elem +:+ " = PyList_GET_ITEM(" +:+ py_list +:+ ", " +:+ idx +:+ ");") ;;;
  before_call_check w "!PyFloat_Check(element)" (list_of_error (p_name self) n "floats") ;;;
  before_call_code w
    (name +:+ "[" +:+ idx +:+ "] = (float) PyFloat_AsDouble(" +:+ elem +:+ ");") ;;;
  before_call_unindent w ;;;
  before_call_code w "}".

Definition FloatPtrParam_py2c (self : param) (w : wrapper) : ST world unit :=
  match p_array_length self with
  | None =>
      name <- declare w (drop_last (p_ctype_no_const self)) (p_name self) None None ;;
      call_add w ("&" +:+ name) ;;;
      when_in self (parse_add "f" ["&" +:+ name] (pname self) false false) ;;;
      when_out self (build_add "f" [name] false)
  | Some n =>
      name <- declare w (drop_last (p_ctype_no_const self)) (p_name self) None
                (Some ("[" +:+ show_int n +:+ "]")) ;;
      py_list <- declare w "PyObject*" "py_list" None None ;;
      idx <- declare w "int" "idx" None None ;;
      call_add w name ;;;
      when_in self (FloatPtrParam_array_in self w n name py_list idx) ;;;
      when_out self (array_out w n name py_list idx "PyFloat_FromDouble")
  end.

Definition FloatPtrParam : param_class :=
  ParamClass "FloatPtrParam" ALL_DIRECTIONS ["float*"] (FloatPtrParam_new)
    (fun self w =>
       when_in self (build_add "f" ["*" +:+ p_value self] false) ;;;
       when_out self (parse_add "f" [p_value self] (pname self) false false))
    (fun self w =>
       FloatPtrParam_py2c self w).

Definition FloatRefParam : param_class :=
  ParamClass "FloatRefParam" ALL_DIRECTIONS ["float&"] (new_Parameter ALL_DIRECTIONS)
    (fun self w =>
       when_in self (build_add "f" [p_value self] false) ;;;
       when_out self (parse_add "f" [p_value self] (pname self) false false))
    (fun self w =>
       name <- declare w (drop_last (p_ctype_no_const self)) (p_name self) None None ;;
       call_add w (name) ;;;
       when_in self (parse_add "f" ["&" +:+ name] (pname self) false false) ;;;
       when_out self (build_add "f" [name] false)).

(** ** The classes in the order their modules define them *)

Definition int_params :=
  [IntParam; UnsignedIntParam; UnsignedIntPtrParam; IntPtrParam; IntRefParam;
   UnsignedIntRefParam; UInt16Param; UInt16RefParam; Int16Param; Int16RefParam;
   UInt8Param; UInt8RefParam; Int8Param; Int8RefParam; UnsignedLongLongParam;
   UnsignedLongLongRefParam; UnsignedLongParam; UnsignedLongRefParam; LongParam;
   LongRefParam; SizeTParam; LongLongParam; LongLongRefParam; Int8PtrParam;
   UInt8PtrParam; UnsignedInt16PtrParam].

Definition int_returns :=
  [IntReturn; UnsignedIntReturn; UInt16Return; Int16Return; UInt8Return;
   Int8Return; UnsignedLongLongReturn; UnsignedLongReturn; LongReturn;
   SizeTReturn; LongLongReturn].

Definition bool_params :=
  [BoolParam; BoolPtrParam; BoolRefParam].

Definition bool_returns :=
  [BoolReturn].

Definition double_params :=
  [DoubleParam; DoublePtrParam; DoubleRefParam].

Definition double_returns :=
  [DoubleReturn].

Definition float_params :=
  [FloatParam; FloatPtrParam; FloatRefParam].

Definition float_returns :=
  [FloatReturn].

(** ** The contract holds of every class *)

Lemma counts_ctype_without_ref self : add_params 0 0 0 (ctype_without_ref self).
Proof. apply add_params_ret. Qed.
Lemma counts_ctype_of_target self : add_params 0 0 0 (ctype_of_target self).
Proof.
  unfold ctype_of_target. destruct (target (p_traits self));
    [apply add_params_ret | apply add_params_raise].
Qed.
Lemma wiring_ctype_without_ref self : evolves same_wiring (ctype_without_ref self).
Proof. unfold ctype_without_ref. wiring. Qed.
Lemma wiring_ctype_of_target self : evolves same_wiring (ctype_of_target self).
Proof. unfold ctype_of_target. wiring. Qed.

Lemma names_ctype_without_ref self : evolves same_names (ctype_without_ref self).
Proof. unfold ctype_without_ref. names. Qed.
Lemma names_ctype_of_target self : evolves same_names (ctype_of_target self).
Proof. unfold ctype_of_target. names. Qed.

#[export] Hint Resolve names_ctype_without_ref names_ctype_of_target : names.
Lemma grows_ctype_without_ref self : evolves cleanups_grow (ctype_without_ref self).
Proof. unfold ctype_without_ref. grows. Qed.
Lemma grows_ctype_of_target self : evolves cleanups_grow (ctype_of_target self).
Proof. unfold ctype_of_target. grows. Qed.
#[export] Hint Resolve grows_ctype_without_ref grows_ctype_of_target : grows.
#[export] Hint Resolve wiring_ctype_without_ref wiring_ctype_of_target : wiring.
#[export] Hint Resolve counts_ctype_without_ref counts_ctype_of_target : counts.
#[export] Hint Unfold wide_py2c BoolParam_py2c UnsignedIntPtrParam_py2c FloatPtrParam_py2c
  UnsignedIntPtrParam_array_in FloatPtrParam_array_in array_out
  IntParam UnsignedIntParam UnsignedIntPtrParam IntReturn
  UnsignedIntReturn IntPtrParam IntRefParam UnsignedIntRefParam
  UInt16Return Int16Return UInt16Param UInt16RefParam
  Int16Param Int16RefParam UInt8Param UInt8RefParam
  UInt8Return Int8Param Int8RefParam Int8Return
  UnsignedLongLongParam UnsignedLongLongRefParam UnsignedLongLongReturn UnsignedLongParam
  UnsignedLongRefParam UnsignedLongReturn LongParam LongRefParam
  LongReturn SizeTReturn SizeTParam LongLongParam
  LongLongRefParam LongLongReturn Int8PtrParam UInt8PtrParam
  UnsignedInt16PtrParam BoolParam BoolReturn BoolPtrParam
  BoolRefParam DoubleParam DoubleReturn DoublePtrParam
  DoubleRefParam FloatParam FloatReturn FloatPtrParam
  FloatRefParam : handlers.

#[export] Instance IntParam_contract : ParamContract IntParam.
Proof. param_contract. Qed.
#[export] Instance UnsignedIntParam_contract : ParamContract UnsignedIntParam.
Proof. param_contract. Qed.
#[export] Instance UnsignedIntPtrParam_contract : ParamContract UnsignedIntPtrParam.
Proof. param_contract. Qed.
#[export] Instance IntPtrParam_contract : ParamContract IntPtrParam.
Proof. param_contract. Qed.
#[export] Instance IntRefParam_contract : ParamContract IntRefParam.
Proof. param_contract. Qed.
#[export] Instance UnsignedIntRefParam_contract : ParamContract UnsignedIntRefParam.
Proof. param_contract. Qed.
#[export] Instance UInt16Param_contract : ParamContract UInt16Param.
Proof. param_contract. Qed.
#[export] Instance UInt16RefParam_contract : ParamContract UInt16RefParam.
Proof. param_contract. Qed.
#[export] Instance Int16Param_contract : ParamContract Int16Param.
Proof. param_contract. Qed.
#[export] Instance Int16RefParam_contract : ParamContract Int16RefParam.
Proof. param_contract. Qed.
#[export] Instance UInt8Param_contract : ParamContract UInt8Param.
Proof. param_contract. Qed.
#[export] Instance UInt8RefParam_contract : ParamContract UInt8RefParam.
Proof. param_contract. Qed.
#[export] Instance Int8Param_contract : ParamContract Int8Param.
Proof. param_contract. Qed.
#[export] Instance Int8RefParam_contract : ParamContract Int8RefParam.
Proof. param_contract. Qed.
#[export] Instance UnsignedLongLongParam_contract : ParamContract UnsignedLongLongParam.
Proof. param_contract. Qed.
#[export] Instance UnsignedLongLongRefParam_contract : ParamContract UnsignedLongLongRefParam.
Proof. param_contract. Qed.
#[export] Instance UnsignedLongParam_contract : ParamContract UnsignedLongParam.
Proof. param_contract. Qed.
#[export] Instance UnsignedLongRefParam_contract : ParamContract UnsignedLongRefParam.
Proof. param_contract. Qed.
#[export] Instance LongParam_contract : ParamContract LongParam.
Proof. param_contract. Qed.
#[export] Instance LongRefParam_contract : ParamContract LongRefParam.
Proof. param_contract. Qed.
#[export] Instance SizeTParam_contract : ParamContract SizeTParam.
Proof. param_contract. Qed.
#[export] Instance LongLongParam_contract : ParamContract LongLongParam.
Proof. param_contract. Qed.
#[export] Instance LongLongRefParam_contract : ParamContract LongLongRefParam.
Proof. param_contract. Qed.
#[export] Instance Int8PtrParam_contract : ParamContract Int8PtrParam.
Proof. param_contract. Qed.
#[export] Instance UInt8PtrParam_contract : ParamContract UInt8PtrParam.
Proof. param_contract. Qed.
#[export] Instance UnsignedInt16PtrParam_contract : ParamContract UnsignedInt16PtrParam.
Proof. param_contract. Qed.
#[export] Instance BoolParam_contract : ParamContract BoolParam.
Proof. param_contract. Qed.
#[export] Instance BoolPtrParam_contract : ParamContract BoolPtrParam.
Proof. param_contract. Qed.
#[export] Instance BoolRefParam_contract : ParamContract BoolRefParam.
Proof. param_contract. Qed.
#[export] Instance DoubleParam_contract : ParamContract DoubleParam.
Proof. param_contract. Qed.
#[export] Instance DoublePtrParam_contract : ParamContract DoublePtrParam.
Proof. param_contract. Qed.
#[export] Instance DoubleRefParam_contract : ParamContract DoubleRefParam.
Proof. param_contract. Qed.
#[export] Instance FloatParam_contract : ParamContract FloatParam.
Proof. param_contract. Qed.
#[export] Instance FloatPtrParam_contract : ParamContract FloatPtrParam.
Proof. param_contract. Qed.
#[export] Instance FloatRefParam_contract : ParamContract FloatRefParam.
Proof. param_contract. Qed.
#[export] Instance IntReturn_contract : ReturnContract IntReturn.
Proof. return_contract. Qed.
#[export] Instance UnsignedIntReturn_contract : ReturnContract UnsignedIntReturn.
Proof. return_contract. Qed.
#[export] Instance UInt16Return_contract : ReturnContract UInt16Return.
Proof. return_contract. Qed.
#[export] Instance Int16Return_contract : ReturnContract Int16Return.
Proof. return_contract. Qed.
#[export] Instance UInt8Return_contract : ReturnContract UInt8Return.
Proof. return_contract. Qed.
#[export] Instance Int8Return_contract : ReturnContract Int8Return.
Proof. return_contract. Qed.
#[export] Instance UnsignedLongLongReturn_contract : ReturnContract UnsignedLongLongReturn.
Proof. return_contract. Qed.
#[export] Instance UnsignedLongReturn_contract : ReturnContract UnsignedLongReturn.
Proof. return_contract. Qed.
#[export] Instance LongReturn_contract : ReturnContract LongReturn.
Proof. return_contract. Qed.
#[export] Instance SizeTReturn_contract : ReturnContract SizeTReturn.
Proof. return_contract. Qed.
#[export] Instance LongLongReturn_contract : ReturnContract LongLongReturn.
Proof. return_contract. Qed.
#[export] Instance BoolReturn_contract : ReturnContract BoolReturn.
Proof. return_contract. Qed.
#[export] Instance DoubleReturn_contract : ReturnContract DoubleReturn.
Proof. return_contract. Qed.
#[export] Instance FloatReturn_contract : ReturnContract FloatReturn.
Proof. return_contract. Qed.
