(* ===== verification/StringTypes.v ===== *)
(** * Handlers of strings, [void] and [PyObject*]: [stringtype.py], [voidtype.py]
    and [pyobjecttype.py] of [pybindgen/typehandlers]

    One definition per class of the code, with its DIRECTIONS, CTYPES,
    constructor and methods; then the instances of the contracts. *)
From S2P Require Import Prelude.
From S2P Require Import CodeSink.
From S2P Require Import CodeBlock.
From S2P Require Import Wrapper.
From S2P Require Import Tokenizer.
From S2P Require Import CTypeParser.
From S2P Require Import TypeHandler.
From S2P Require Import HandlerOps.

(** ** [stringtype.py] *)

Definition CStringParam : param_class :=
  ParamClass "CStringParam" IN_ONLY ["char*"] (new_PointerParameter IN_ONLY)
    (fun self w =>
       assert_reverse w ;;;
       build_add "s" [p_value self] false)
    (fun self w =>
       assert_forward w ;;;
       name <- (if is_none (p_default_value self) then
                  name <- declare w (p_ctype_no_const self) (p_name self) None None ;;
                  parse_add "s" ["&" +:+ name] (Some (p_value self)) false false ;;;
                  st_ret name
                else
                  name <- declare_val w (p_ctype_no_const self) (p_name self)
                            (p_default_value self) ;;
                  parse_add "s" ["&" +:+ name] (Some (p_value self)) false true ;;;
                  st_ret name) ;;
       call_add w name).

Definition CharParam : param_class :=
  ParamClass "CharParam" IN_ONLY ["char"] (new_Parameter IN_ONLY)
    (fun self w =>
       assert_reverse w ;;;
       build_add "c" [p_value self] false)
    (fun self w =>
       assert_forward w ;;;
       name <- declare w (p_ctype_no_const self) (p_name self) None None ;;
       parse_add "c" ["&" +:+ name] (Some (p_value self)) false false ;;;
       call_add w name).

(** The two variables that hold the characters and the length of a string. *)
Definition declare_ptr_len (w : wrapper) (name : string) : ST world (string * string) :=
  ptr <- declare w "const char *" (name +:+ "_ptr") None None ;;
  len <- declare w "Py_ssize_t" (name +:+ "_len") None None ;;
  st_ret (ptr, len).

(** The input part of [convert_c_to_python]: [access] is the C++ prefix of a
    member access to the string, [size] the method that gives its length in bytes. *)
Definition string_to_python (access size : string) (self : param) (w : wrapper)
    : ST world (string * string) :=
  pl <- declare_ptr_len w (p_name self) ;;
  before_call_code w (pl.1 +:+ " = " +:+ access +:+ "c_str();") ;;;
  before_call_code w (pl.2 +:+ " = " +:+ access +:+ size +:+ "();") ;;;
  build_add "s#" [pl.1; pl.2] false ;;;
  st_ret pl.

Definition by_value (self : param) : string := "(" +:+ p_value self +:+ ").".
Definition by_pointer (self : param) : string := p_value self +:+ "->".

(** [name] is passed as [std::string(name, name_len)]. *)
Definition std_string (ptr len : string) : string :=
  "std::string(" +:+ ptr +:+ ", " +:+ len +:+ ")".
Definition glib_string (ptr : string) : string := "Glib::ustring(" +:+ ptr +:+ ")".
Definition utf8_arg : string := dq +:+ "utf-8" +:+ dq.

Definition StdStringParam : param_class :=
  ParamClass "StdStringParam" IN_ONLY ["std::string"] (new_Parameter IN_ONLY)
    (fun self w =>
       assert_reverse w ;;;
       string_to_python (by_value self) "size" self w ;;; st_ret tt)
    (fun self w =>
       assert_forward w ;;;
       if is_none (p_default_value self) then
         name <- declare w "const char *" (p_name self) None None ;;
         name_len <- declare w "Py_ssize_t" (p_name self +:+ "_len") None None ;;
         parse_add "s#" ["&" +:+ name; "&" +:+ name_len] (Some (p_value self)) false false ;;;
         call_add w (std_string name name_len)
       else
         name <- declare w "const char *" (p_name self) (Some "NULL") None ;;
         name_len <- declare w "Py_ssize_t" (p_name self +:+ "_len") None None ;;
         parse_add "s#" ["&" +:+ name; "&" +:+ name_len] (Some (p_value self)) false true ;;;
         call_add w ("(" +:+ name +:+ " ? " +:+ std_string name name_len +:+ " : "
                     +:+ val_str (p_default_value self) +:+ ")")).

(** [if self.direction & DIRECTION_IN: ...], with [ptr] and [len_] as the result
    or [None] when they were not declared. *)
Definition string_in (access size : string) (self : param) (w : wrapper)
    : ST world (option (string * string)) :=
  if has_in (p_direction self) then
    pl <- string_to_python access size self w ;; st_ret (Some pl)
  else st_ret None.

(** [if ptr is None: ...] before the output part. *)
Definition ptr_len (pl : option (string * string)) (self : param) (w : wrapper)
    : ST world (string * string) :=
  match pl with
  | Some pl => st_ret pl
  | None => declare_ptr_len w (p_name self)
  end.
Definition ptr_only (pl : option (string * string)) (self : param) (w : wrapper)
    : ST world string :=
  match pl with
  | Some pl => st_ret pl.1
  | None => declare w "const char *" (p_name self +:+ "_ptr") None None
  end.

Definition StdStringRefParam : param_class :=
  ParamClass "StdStringRefParam" ALL_DIRECTIONS ["std::string&"] (new_Parameter ALL_DIRECTIONS)
    (fun self w =>
       assert_reverse w ;;;
       pl <- string_in (by_value self) "size" self w ;;
       when_out self (
         pl <- ptr_len pl self w ;;
         parse_add "s#" ["&" +:+ pl.1; "&" +:+ pl.2] (Some (p_value self)) false false ;;;
         after_call_code w (p_value self +:+ " = " +:+ std_string pl.1 pl.2 +:+ ";")))
    (fun self w =>
       assert_forward w ;;;
       name <- declare w "const char *" (p_name self) None None ;;
       name_len <- declare w "Py_ssize_t" (p_name self +:+ "_len") None None ;;
       name_std <- declare w "std::string" (p_name self +:+ "_std") None None ;;
       call_add w name_std ;;;
       when_in self (
         parse_add "s#" ["&" +:+ name; "&" +:+ name_len] (Some (p_value self)) false false ;;;
         before_call_code w (name_std +:+ " = " +:+ std_string name name_len +:+ ";")) ;;;
       when_out self (
         build_add "s#" ["(" +:+ name_std +:+ ").c_str()"; "(" +:+ name_std +:+ ").size()"] false)).

(** [delete value;] after the call, when the ownership is transferred. *)
Definition delete_transferred (self : param) (w : wrapper) : ST world unit :=
  st_when (truth (p_transfer_ownership self)) (after_call_code w ("delete " +:+ p_value self +:+ ";")).

(** The C++ string object a pointer parameter points to: on the heap when the
    ownership is transferred; returns the expression that denotes the object. *)
Definition declare_pointee (cls : string) (self : param) (w : wrapper) : ST world string :=
  if truth (p_transfer_ownership self) then
    name_std <- declare w (cls +:+ "*") (p_name self +:+ "_std") (Some ("new " +:+ cls)) None ;;
    call_add w name_std ;;;
    st_ret ("*" +:+ name_std)
  else
    name_std <- declare w cls (p_name self +:+ "_std") None None ;;
    call_add w ("&" +:+ name_std) ;;;
    st_ret name_std.

Definition StdStringPtrParam : param_class :=
  ParamClass "StdStringPtrParam" ALL_DIRECTIONS ["std::string*"]
    (new_PointerParameter ALL_DIRECTIONS)
    (fun self w =>
       assert_reverse w ;;;
       pl <- string_in (by_pointer self) "size" self w ;;
       when_out self (
         pl <- ptr_len pl self w ;;
         parse_add "s#" ["&" +:+ pl.1; "&" +:+ pl.2] (Some (p_value self)) false false ;;;
         after_call_code w ("*" +:+ p_value self +:+ " = " +:+ std_string pl.1 pl.2 +:+ ";")) ;;;
       delete_transferred self w)
    (fun self w =>
       assert_forward w ;;;
       st_assert (is_none (p_default_value self)) ;;;
       name <- declare w "const char *" (p_name self) None None ;;
       name_len <- declare w "Py_ssize_t" (p_name self +:+ "_len") None None ;;
       name_std_value <- declare_pointee "std::string" self w ;;
       when_in self (
         parse_add "s#" ["&" +:+ name; "&" +:+ name_len] (Some (p_value self)) false false ;;;
         before_call_code w (name_std_value +:+ " = " +:+ std_string name name_len +:+ ";")) ;;;
       when_out self (
         build_add "s#" ["(" +:+ name_std_value +:+ ").c_str()";
                         "(" +:+ name_std_value +:+ ").size()"] false)).

Definition CharReturn : ret_class :=
  RetClass "CharReturn" ["char"] new_ReturnValue "return '\0';"
    (fun self w => parse_add "c" ["&" +:+ r_value self] None true false)
    (fun self w => build_add "c" ["(int) " +:+ r_value self] false).

Definition CStringReturn : ret_class :=
  RetClass "CStringReturn" ["char*"] new_PointerReturnValue "return NULL;"
    (fun self w => parse_add "s" ["&" +:+ r_value self] None false false)
    (fun self w => build_add "s" [r_value self] false).

Definition StdStringReturn : ret_class :=
  RetClass "StdStringReturn" ["std::string"] new_ReturnValue "return std::string();"
    (fun self w =>
       ptr <- declare w "const char *" "retval_ptr" None None ;;
       len <- declare w "Py_ssize_t" "retval_len" None None ;;
       parse_add "s#" ["&" +:+ ptr; "&" +:+ len] None false false ;;;
       after_call_code w (r_value self +:+ " = " +:+ std_string ptr len +:+ ";"))
    (fun self w =>
       build_add "s#" ["(" +:+ r_value self +:+ ").c_str()"; "(" +:+ r_value self +:+ ").size()"]
         true).

Definition GlibStringParam : param_class :=
  ParamClass "GlibStringParam" IN_ONLY ["Glib::ustring"] (new_Parameter IN_ONLY)
    (fun self w =>
       assert_reverse w ;;;
       string_to_python (by_value self) "bytes" self w ;;; st_ret tt)
    (fun self w =>
       assert_forward w ;;;
       if is_none (p_default_value self) then
         name <- declare w "const char *" (p_name self) None None ;;
         parse_add "et" [utf8_arg; "&" +:+ name] (Some (p_value self)) false false ;;;
         call_add w (glib_string name)
       else
         name <- declare w "const char *" (p_name self) (Some "NULL") None ;;
         parse_add "et" [utf8_arg; "&" +:+ name] (Some (p_value self)) false true ;;;
         call_add w ("(" +:+ name +:+ " ? " +:+ glib_string name +:+ " : "
                     +:+ val_str (p_default_value self) +:+ ")")).

Definition GlibStringRefParam : param_class :=
  ParamClass "GlibStringRefParam" ALL_DIRECTIONS ["Glib::ustring&"] (new_Parameter ALL_DIRECTIONS)
    (fun self w =>
       assert_reverse w ;;;
       pl <- string_in (by_value self) "bytes" self w ;;
       when_out self (
         ptr <- ptr_only pl self w ;;
         parse_add "et" [utf8_arg; "&" +:+ ptr] (Some (p_value self)) false false ;;;
         after_call_code w (p_value self +:+ " = " +:+ glib_string ptr +:+ ";")))
    (fun self w =>
       assert_forward w ;;;
       name <- declare w "const char *" (p_name self) None None ;;
       name_std <- declare w "Glib::ustring" (p_name self +:+ "_std") None None ;;
       call_add w name_std ;;;
       when_in self (
         parse_add "et" [utf8_arg; "&" +:+ name] (Some (p_value self)) false false ;;;
         before_call_code w (name_std +:+ " = " +:+ glib_string name +:+ ";")) ;;;
       when_out self (
         build_add "s#" ["(" +:+ name_std +:+ ").c_str()"; "(" +:+ name_std +:+ ").bytes()"] false)).

Definition GlibStringPtrParam : param_class :=
  ParamClass "GlibStringPtrParam" ALL_DIRECTIONS ["Glib::ustring*"]
    (new_PointerParameter ALL_DIRECTIONS)
    (fun self w =>
       assert_reverse w ;;;
       pl <- string_in (by_pointer self) "bytes" self w ;;
       when_out self (
         ptr <- ptr_only pl self w ;;
         parse_add "et" [utf8_arg; "&" +:+ ptr] (Some (p_value self)) false false ;;;
         after_call_code w ("*" +:+ p_value self +:+ " = " +:+ glib_string ptr +:+ ";")) ;;;
       delete_transferred self w)
    (fun self w =>
       assert_forward w ;;;
       st_assert (is_none (p_default_value self)) ;;;
       name <- declare w "const char *" (p_name self) None None ;;
       name_std_value <- declare_pointee "Glib::ustring" self w ;;
       when_in self (
         parse_add "et" [utf8_arg; "&" +:+ name] (Some (p_value self)) false false ;;;
         before_call_code w (name_std_value +:+ " = " +:+ glib_string name +:+ ";")) ;;;
       when_out self (
         build_add "s#" ["(" +:+ name_std_value +:+ ").c_str()";
                         "(" +:+ name_std_value +:+ ").bytes()"] false)).

Definition GlibStringReturn : ret_class :=
  RetClass "GlibStringReturn" ["Glib::ustring"] new_ReturnValue "return Glib::ustring();"
    (fun self w =>
       ptr <- declare w "const char *" "retval_ptr" None None ;;
       parse_add "et" [utf8_arg; "&" +:+ ptr] None false false ;;;
       after_call_code w (r_value self +:+ " = " +:+ glib_string ptr +:+ ";"))
    (fun self w =>
       build_add "s#" ["(" +:+ r_value self +:+ ").c_str()"; "(" +:+ r_value self +:+ ").bytes()"]
         true).

(** ** [voidtype.py] *)

Definition VoidReturn : ret_class :=
  RetClass "VoidReturn" ["void"] new_ReturnValue "return;"
    (fun self w => parse_add EmptyString [] None true false)
    (fun self w => st_ret tt).

(** ** [pyobjecttype.py] *)

(** [__init__(self, ctype, name, transfer_ownership, is_const=False)] *)
Definition PyObjectParam_new (c : ctype_arg) (name : string) (k : kwargs) : res param :=
  match k_direction k, k_default_value k, k_array_length k, k_transfer_ownership k with
  | None, None, None, Some t =>
      p <-? Parameter_init IN_ONLY c name DIRECTION_IN (default false (k_is_const k)) VNone ;;
      Ok (MkParam (p_traits p) (p_name p) (p_value p) (p_direction p) (p_default_value p) t
            (p_array_length p))
  | _, _, _, _ => Raise TypeError
  end.

Definition PyObjectParam : param_class :=
  ParamClass "PyObjectParam" IN_ONLY ["PyObject*"] PyObjectParam_new
    (fun self w =>
       assert_reverse w ;;;
       if truth (p_transfer_ownership self) then build_add "N" [p_value self] false
       else build_add "O" [p_value self] false)
    (fun self w =>
       assert_forward w ;;;
       name <- declare w (p_ctype_no_const self) (p_name self) None None ;;
       parse_add "O" ["&" +:+ name] (Some (p_name self)) false false ;;;
       call_add w name ;;;
       st_when (truth (p_transfer_ownership self))
         (before_call_code w ("Py_INCREF((PyObject*) " +:+ name +:+ ");"))).

(** [__init__(self, ctype, caller_owns_return, is_const=False)] *)
Definition PyObjectReturnValue_new (c : ctype_arg) (is_const : option bool)
    (caller_owns_return : option pyval) : res retval :=
  match caller_owns_return with
  | None => Raise TypeError
  | Some owns =>
      r <-? new_ReturnValue c is_const None ;;
      Ok (MkRetval (r_traits r) (r_value r) owns)
  end.

Definition PyObjectReturnValue : ret_class :=
  RetClass "PyObjectReturnValue" ["PyObject*"] PyObjectReturnValue_new "return NULL;"
    (fun self w =>
       parse_add "O" ["&" +:+ r_value self] None true false ;;;
       st_when (truth (r_caller_owns_return self))
         (after_call_code w ("Py_INCREF((PyObject*) " +:+ r_value self +:+ ");")))
    (fun self w =>
       build_add (if truth (r_caller_owns_return self) then "N" else "O") [r_value self] true).

(** ** The classes in the order their modules define them *)

Definition string_params : list param_class :=
  [CStringParam; CharParam; StdStringParam; StdStringRefParam; StdStringPtrParam;
   GlibStringParam; GlibStringRefParam; GlibStringPtrParam].
Definition string_returns : list ret_class :=
  [CharReturn; CStringReturn; StdStringReturn; GlibStringReturn].

(** ** The contract holds of every class *)

Lemma counts_ptr_len pl self w : add_params 0 0 0 (ptr_len pl self w).
Proof. destruct pl; [apply add_params_ret|]. unfold ptr_len, declare_ptr_len. by counts. Qed.
Lemma counts_ptr_only pl self w : add_params 0 0 0 (ptr_only pl self w).
Proof. destruct pl; [apply add_params_ret|]. unfold ptr_only. by counts. Qed.
Lemma wiring_ptr_len pl self w : evolves same_wiring (ptr_len pl self w).
Proof. unfold ptr_len, declare_ptr_len. wiring. Qed.
Lemma wiring_ptr_only pl self w : evolves same_wiring (ptr_only pl self w).
Proof. unfold ptr_only. wiring. Qed.

#[export] Hint Resolve counts_ptr_len counts_ptr_only : counts.
#[export] Hint Resolve wiring_ptr_len wiring_ptr_only : wiring.
Lemma grows_ptr_len pl self w : evolves cleanups_grow (ptr_len pl self w).
Proof. unfold ptr_len, declare_ptr_len. grows. Qed.
Lemma grows_ptr_only pl self w : evolves cleanups_grow (ptr_only pl self w).
Proof. unfold ptr_only. grows. Qed.
#[export] Hint Resolve grows_ptr_len grows_ptr_only : grows.
#[export] Hint Unfold declare_ptr_len string_to_python string_in delete_transferred declare_pointee
  CStringParam CharParam StdStringParam StdStringRefParam StdStringPtrParam
  GlibStringParam GlibStringRefParam GlibStringPtrParam PyObjectParam
  CharReturn CStringReturn StdStringReturn GlibStringReturn VoidReturn PyObjectReturnValue
  : handlers.

#[export] Instance CStringParam_contract : ParamContract CStringParam.
Proof. param_contract. Qed.
#[export] Instance CharParam_contract : ParamContract CharParam.
Proof. param_contract. Qed.
#[export] Instance StdStringParam_contract : ParamContract StdStringParam.
Proof. param_contract. Qed.
#[export] Instance StdStringRefParam_contract : ParamContract StdStringRefParam.
Proof. param_contract. Qed.
#[export] Instance StdStringPtrParam_contract : ParamContract StdStringPtrParam.
Proof. param_contract. Qed.
#[export] Instance GlibStringParam_contract : ParamContract GlibStringParam.
Proof. param_contract. Qed.
#[export] Instance GlibStringRefParam_contract : ParamContract GlibStringRefParam.
Proof. param_contract. Qed.
#[export] Instance GlibStringPtrParam_contract : ParamContract GlibStringPtrParam.
Proof. param_contract. Qed.
#[export] Instance PyObjectParam_contract : ParamContract PyObjectParam.
Proof. param_contract. Qed.
#[export] Instance CharReturn_contract : ReturnContract CharReturn.
Proof. return_contract. Qed.
#[export] Instance CStringReturn_contract : ReturnContract CStringReturn.
Proof. return_contract. Qed.
#[export] Instance StdStringReturn_contract : ReturnContract StdStringReturn.
Proof. return_contract. Qed.
#[export] Instance GlibStringReturn_contract : ReturnContract GlibStringReturn.
Proof. return_contract. Qed.
#[export] Instance VoidReturn_contract : ReturnContract VoidReturn.
Proof. return_contract. Qed.
#[export] Instance PyObjectReturnValue_contract : ReturnContract PyObjectReturnValue.
Proof. return_contract. Qed.
