(* ===== verification/TypeMatcher.v ===== *)
(** * The registry of type handlers: [TypeMatcher], [Parameter.new] and
    [ReturnValue.new] of [pybindgen/typehandlers/base.py]

    A matcher maps normalised type strings to handler classes, with aliases and
    type transformations.  The two registries of the module are built here from
    the classes of the handler files, as the metaclasses do on import. *)
From S2P Require Import Prelude.
From S2P Require Import CodeSink.
From S2P Require Import CodeBlock.
From S2P Require Import Wrapper.
From S2P Require Import Tokenizer.
From S2P Require Import CTypeParser.
From S2P Require Import TypeHandler.
From S2P Require Import HandlerOps.
From S2P Require Import NumericTypes.
From S2P Require Import StringTypes.

(** ** [TypeTransformation] *)

(** A transformation is code of the users of the library: its methods are the
    fields.  [C] is the type of handler classes, [O] that of the objects made. *)
Record TypeTransformation (C Obj Args : Type) : Type := Transformation {
  get_untransformed_name : string -> res (option string);
  create_type_handler : C -> string -> Args -> res Obj
}.
Arguments Transformation {C Obj Args} _ _.
Arguments get_untransformed_name {C Obj Args} _ _.
Arguments create_type_handler {C Obj Args} _ _ _ _.

Section matcher.
Context {C Obj Args : Type}.
Local Abbreviation transformation := (TypeTransformation C Obj Args).

(** ** [TypeMatcher] *)

Record matcher : Type := Matcher {
  tm_types : gmap string C;
  tm_transformations : list transformation;
  tm_type_aliases : gmap string string;
  tm_type_aliases_rev : gmap string string
}.

Definition TypeMatcher : matcher := Matcher ∅ [] ∅ ∅.

Definition register_transformation (m : matcher) (t : transformation) : matcher :=
  Matcher (tm_types m) (tm_transformations m ++ [t]) (tm_type_aliases m)
    (tm_type_aliases_rev m).

Definition register (m : matcher) (name : string) (type_handler : C) : res matcher :=
  name <-? normalize_type_string name ;;
  match tm_types m !! name with
  | Some _ => Raise ValueError
  | None => Ok (Matcher (<[name := type_handler]> (tm_types m)) (tm_transformations m)
                  (tm_type_aliases m) (tm_type_aliases_rev m))
  end.

(** [aliases_to_try] *)
Definition aliases_to_try (m : matcher) (name : string) : list string :=
  option_list (tm_type_aliases m !! name) ++ option_list (tm_type_aliases_rev m !! name).

(** The loop over the aliases returns from inside its body, so that only the
    first alias that was not tried yet is followed. *)
Definition first_untried (aliases already_tried : list string) : option string :=
  head (List.filter (fun a => negb (bool_decide (a ∈ already_tried))) aliases).

Fixpoint raw_lookup_with_alias_support_recursive (m : matcher) (fuel : nat) (name : string)
    (already_tried : list string) : res C :=
  match fuel with
  | O => Raise OutOfFuel
  | S fuel' =>
      match tm_types m !! name with
      | Some c => Ok c
      | None =>
          match first_untried (aliases_to_try m name) already_tried with
          | None => Raise KeyError
          | Some alias =>
              raw_lookup_with_alias_support_recursive m fuel' alias (already_tried ++ [name])
          end
      end
  end.

(** Enough calls for any name, see [raw_lookup_terminates]. *)
Definition lookup_fuel (m : matcher) : nat :=
  3 * (1 + size (tm_type_aliases m) + size (tm_type_aliases_rev m)) + 2.

Definition raw_lookup_with_alias_support (m : matcher) (name : string) : res C :=
  raw_lookup_with_alias_support_recursive m (lookup_fuel m) name [].

(** The loop over the transformations, the result with the one that applied. *)
Fixpoint lookup_transformed (m : matcher) (name : string) (ts : list transformation)
    (tried_names : list string) : res (C * option transformation * type_traits) :=
  match ts with
  | [] => Raise (TypeLookupError tried_names)
  | transf :: ts' =>
      n <-? get_untransformed_name transf name ;;
      match n with
      | None => lookup_transformed m name ts' tried_names
      | Some n =>
          untransformed_type_traits <-? TypeTraits_init n ;;
          let untransformed_name := show (tt_ctype_no_modifiers untransformed_type_traits) in
          match raw_lookup_with_alias_support m untransformed_name with
          | Raise KeyError =>
              lookup_transformed m name ts' (tried_names ++ [untransformed_name])
          | Raise e => Raise e
          | Ok c => Ok (c, Some transf, untransformed_type_traits)
          end
      end
  end.

Definition lookup (m : matcher) (name : string)
    : res (C * option transformation * type_traits) :=
  given_type_traits <-? TypeTraits_init name ;;
  let noconst_name := show (tt_ctype_no_modifiers given_type_traits) in
  match raw_lookup_with_alias_support m noconst_name with
  | Raise KeyError => lookup_transformed m name (tm_transformations m) [noconst_name]
  | Raise e => Raise e
  | Ok c => Ok (c, None, given_type_traits)
  end.

Definition items (m : matcher) : list (string * C) := map_to_list (tm_types m).

Definition add_type_alias (m : matcher) (from_type_name to_type_name : string)
    : res matcher :=
  f <-? TypeTraits_init from_type_name ;;
  t <-? TypeTraits_init to_type_name ;;
  let from_ := show (tt_ctype f) in
  let to_ := show (tt_ctype t) in
  Ok (Matcher (tm_types m) (tm_transformations m) (<[to_ := from_]> (tm_type_aliases m))
        (<[from_ := to_]> (tm_type_aliases_rev m))).

(** The metaclass: registering every name of CTYPES. *)
Fixpoint register_all (m : matcher) (ctypes : list string) (c : C) : res matcher :=
  match ctypes with
  | [] => Ok m
  | ctype :: rest => m' <-? register m ctype c ;; register_all m' rest c
  end.

Fixpoint register_classes (ctypes_of : C -> list string) (m : matcher) (cs : list C)
    : res matcher :=
  match cs with
  | [] => Ok m
  | c :: cs' => m' <-? register_all m (ctypes_of c) c ;; register_classes ctypes_of m' cs'
  end.

(** ** Aliases *)

(** One alias leads to another name. *)
Definition alias_step (m : matcher) (a b : string) : Prop :=
  tm_type_aliases m !! a = Some b \/ tm_type_aliases_rev m !! a = Some b.

Lemma aliases_to_try_step m a b : b ∈ aliases_to_try m a <-> alias_step m a b.
Proof.
  unfold aliases_to_try, alias_step. rewrite elem_of_app.
  destruct (tm_type_aliases m !! a), (tm_type_aliases_rev m !! a); simpl;
    rewrite ?list_elem_of_singleton, ?elem_of_nil; intuition congruence.
Qed.

Lemma first_untried_Some l tried a :
  first_untried l tried = Some a -> a ∈ l /\ a ∉ tried.
Proof.
  unfold first_untried. intros H. apply head_Some_elem_of in H.
  apply list_elem_of_In, filter_In in H as [H1 H2]. split; [by apply list_elem_of_In|].
  by case_bool_decide.
Qed.

(** The names a lookup can visit. *)
Definition visited (m : matcher) (name : string) : gset string :=
  {[name]} ∪ list_to_set (map snd (map_to_list (tm_type_aliases m)))
  ∪ list_to_set (map snd (map_to_list (tm_type_aliases_rev m))).

Lemma visited_step m name a b : alias_step m a b -> b ∈ visited m name.
Proof.
  unfold visited. intros [H|H]; apply elem_of_map_to_list in H;
    [apply elem_of_union_l, elem_of_union_r|apply elem_of_union_r];
    apply elem_of_list_to_set, list_elem_of_In, in_map_iff; exists (a, b);
    (split; [done|]); by apply list_elem_of_In.
Qed.

Lemma size_list_to_set_le (l : list string) : (size (list_to_set (C:=gset string) l) <= length l)%nat.
Proof.
  induction l as [|x l IH]; simpl; [done|].
  rewrite size_union_alt, size_singleton.
  pose proof (subseteq_size (list_to_set (C:=gset string) l ∖ {[x]}) (list_to_set l)) as H.
  specialize (H ltac:(set_solver)). lia.
Qed.

Lemma visited_size m name :
  (size (visited m name) <= 1 + size (tm_type_aliases m) + size (tm_type_aliases_rev m))%nat.
Proof.
  unfold visited. 
  pose proof (size_list_to_set_le (map snd (map_to_list (tm_type_aliases m)))) as H1.
  pose proof (size_list_to_set_le (map snd (map_to_list (tm_type_aliases_rev m)))) as H2.
  rewrite length_map, length_map_to_list in H1, H2.
  assert (forall X Y : gset string, size (X ∪ Y) <= size X + size Y)%nat as Hu.
  { intros X Y. rewrite size_union_alt.
    pose proof (subseteq_size (Y ∖ X) Y ltac:(set_solver)). lia. }
  pose proof (Hu ({[name]} ∪ list_to_set (map snd (map_to_list (tm_type_aliases m))))
    (list_to_set (map snd (map_to_list (tm_type_aliases_rev m))))) as H3.
  pose proof (Hu {[name]} (list_to_set (map snd (map_to_list (tm_type_aliases m))))) as H4.
  rewrite size_singleton in H4. lia.
Qed.

(** The measure of a call: three times the names not tried yet, and one more
    when the name itself was tried, which happens for a name that is its own
    alias. *)
Definition lookup_measure (V : gset string) (name : string) (tried : list string) : nat :=
  3 * size (V ∖ list_to_set tried) + (if bool_decide (name ∈ tried) then 1 else 0).

Lemma tried_snoc_size (V : gset string) name tried :
  name ∈ V -> name ∉ tried ->
  (size (V ∖ list_to_set (tried ++ [name])) < size (V ∖ list_to_set tried))%nat.
Proof.
  intros HV Ht. apply subset_size. split; [set_solver|].
  intros H. specialize (H name). set_solver.
Qed.

Lemma lookup_measure_step V name alias tried :
  name ∈ V -> alias ∉ tried ->
  (lookup_measure V alias (tried ++ [name]) < lookup_measure V name tried)%nat.
Proof.
  unfold lookup_measure. intros HV Ha.
  assert (size (V ∖ list_to_set (tried ++ [name])) <= size (V ∖ list_to_set tried))%nat as Hle
    by (apply subseteq_size; set_solver).
  destruct (decide (name ∈ tried)) as [Hn|Hn].
  - rewrite (bool_decide_eq_true_2 _ Hn). rewrite bool_decide_eq_false_2; [lia|].
    intros [H|H%list_elem_of_singleton]%elem_of_app; congruence.
  - pose proof (tried_snoc_size V name tried HV Hn).
    repeat case_bool_decide; try lia; done.
Qed.

Lemma raw_lookup_fuel m V fuel : forall name tried,
  name ∈ V -> (forall a b, alias_step m a b -> b ∈ V) ->
  (lookup_measure V name tried < fuel)%nat ->
  raw_lookup_with_alias_support_recursive m fuel name tried <> Raise OutOfFuel.
Proof.
  induction fuel as [|fuel IH]; intros name tried HV Hstep Hf; [lia|]. simpl.
  destruct (tm_types m !! name); [done|].
  destruct (first_untried _ _) as [alias|] eqn:E; [|done].
  apply first_untried_Some in E as [E1 E2]. apply aliases_to_try_step in E1.
  apply IH; [by eapply Hstep | done|].
  pose proof (lookup_measure_step V name alias tried HV E2). lia.
Qed.

Lemma raw_lookup_terminates m name : raw_lookup_with_alias_support m name <> Raise OutOfFuel.
Proof.
  apply (raw_lookup_fuel m (visited m name)).
  - unfold visited. set_solver.
  - intros a b. apply visited_step.
  - unfold lookup_measure, lookup_fuel.
    assert (size (visited m name ∖ list_to_set []) <= size (visited m name))%nat
      by (apply subseteq_size; set_solver).
    pose proof (visited_size m name). case_bool_decide; lia.
Qed.

Lemma raw_lookup_sound m fuel : forall name tried c,
  raw_lookup_with_alias_support_recursive m fuel name tried = Ok c ->
  exists n, rtc (alias_step m) name n /\ tm_types m !! n = Some c.
Proof.
  induction fuel as [|fuel IH]; intros name tried c; simpl; [done|].
  destruct (tm_types m !! name) as [c'|] eqn:E.
  - intros [= <-]. by exists name.
  - destruct (first_untried _ _) as [alias|] eqn:E2; [|done]. intros H.
    apply IH in H as (n&Hn&Hc). exists n. split; [|done].
    apply first_untried_Some in E2 as [E2 _]. apply aliases_to_try_step in E2.
    by eapply rtc_l.
Qed.

Lemma raw_lookup_error m fuel : forall name tried e,
  raw_lookup_with_alias_support_recursive m fuel name tried = Raise e ->
  e = KeyError \/ e = OutOfFuel.
Proof.
  induction fuel as [|fuel IH]; intros name tried e; simpl; [intros [= <-]; auto|].
  destruct (tm_types m !! name); [done|].
  destruct (first_untried _ _); [apply IH | intros [= <-]; auto].
Qed.

Lemma raw_lookup_direct m name c :
  tm_types m !! name = Some c -> raw_lookup_with_alias_support m name = Ok c.
Proof.
  intros H. unfold raw_lookup_with_alias_support, lookup_fuel.
  rewrite Nat.add_comm. simpl. by rewrite H.
Qed.
Lemma raw_lookup_one_alias m name alias c :
  tm_types m !! name = None -> tm_type_aliases m !! name = Some alias ->
  tm_types m !! alias = Some c -> raw_lookup_with_alias_support m name = Ok c.
Proof.
  intros Hn Ha Hc. unfold raw_lookup_with_alias_support, lookup_fuel. rewrite Nat.add_comm.
  simpl. rewrite Hn. unfold aliases_to_try. rewrite Ha. simpl. by rewrite Hc.
Qed.

Lemma raw_lookup_cases m name :
  (exists c n, raw_lookup_with_alias_support m name = Ok c
     /\ rtc (alias_step m) name n /\ tm_types m !! n = Some c)
  \/ raw_lookup_with_alias_support m name = Raise KeyError.
Proof.
  destruct (raw_lookup_with_alias_support m name) as [c|e] eqn:E.
  - left. pose proof (raw_lookup_sound m _ _ _ _ E) as (n&?&?). by exists c, n.
  - right. destruct (raw_lookup_error m _ _ _ _ E) as [->| ->]; [done|].
    by apply raw_lookup_terminates in E.
Qed.

(** C6: looking a name up through aliases always ends: whatever the aliases
    (cycles and self-aliases included), the search of [TypeMatcher] returns the
    handler registered for a name that a chain of aliases, followed in either
    direction, leads to, or raises [KeyError]; the recursion bound of the model
    is never reached. *)
Theorem alias_lookup_total (m : matcher) (name : string) :
  (exists c n, raw_lookup_with_alias_support m name = Ok c
     /\ rtc (alias_step m) name n /\ tm_types m !! n = Some c)
  \/ raw_lookup_with_alias_support m name = Raise KeyError.
Proof. apply raw_lookup_cases. Qed.

(** C7: registering and looking up.  After [register] of a handler for a type
    string, [lookup] of any type string with the same normal form up to
    modifiers returns that handler, without a transformation, whatever aliases
    and transformations there are; registering the same type again raises
    [ValueError]; and other types keep their handlers. *)
Theorem register_then_lookup (m m' : matcher) (name query : string) (c : C) (t : type_traits) :
  register m name c = Ok m' ->
  TypeTraits_init query = Ok t ->
  normalize_type_string name = Ok (show (tt_ctype_no_modifiers t)) ->
  lookup m' query = Ok (c, None, t)
  /\ (forall c', register m' name c' = Raise ValueError)
  /\ (forall n, n <> show (tt_ctype_no_modifiers t) -> tm_types m' !! n = tm_types m !! n).
Proof.
  intros Hr Ht Hn. unfold register in *. rewrite Hn in *. cbn in *.
  destruct (tm_types m !! show (tt_ctype_no_modifiers t)) eqn:E; [discriminate|].
  injection Hr as <-. cbn. split_and!.
  - unfold lookup. rewrite Ht. cbn [res_bind]. erewrite raw_lookup_direct; [done|].
    cbn. by rewrite lookup_insert_eq.
  - intros c'. by rewrite lookup_insert_eq.
  - intros n Hne. by rewrite lookup_insert_ne.
Qed.

(** An alias works.  After [add_type_alias from to], when [from] has a handler
    and [to] has none, looking up a type string that normalises to [to] gives
    the handler of [from]. *)
Theorem add_type_alias_lookup (m m' : matcher) (from_type_name to_type_name query : string)
    (f t : type_traits) (c : C) (q : type_traits) :
  add_type_alias m from_type_name to_type_name = Ok m' ->
  TypeTraits_init from_type_name = Ok f -> TypeTraits_init to_type_name = Ok t ->
  TypeTraits_init query = Ok q -> show (tt_ctype_no_modifiers q) = show (tt_ctype t) ->
  tm_types m !! show (tt_ctype f) = Some c -> tm_types m !! show (tt_ctype t) = None ->
  lookup m' query = Ok (c, None, q).
Proof.
  unfold add_type_alias. intros Ha Hf Ht Hq Hqt Hc Hn. rewrite Hf, Ht in Ha. injection Ha as <-.
  unfold lookup. rewrite Hq. cbn [res_bind]. rewrite Hqt.
  erewrite raw_lookup_one_alias; [done | exact Hn | | exact Hc]. apply lookup_insert_eq.
Qed.

(** A transformation that does not apply to a name. *)
Definition declines (m : matcher) (name : string) (t : transformation) : Prop :=
  get_untransformed_name t name = Ok None
  \/ exists n q, get_untransformed_name t name = Ok (Some n) /\ TypeTraits_init n = Ok q
       /\ raw_lookup_with_alias_support m (show (tt_ctype_no_modifiers q)) = Raise KeyError.

(** Transformations are tried in the order of their registration.  When a name
    has no handler, neither directly nor through aliases, [lookup] returns the
    first transformation that does not decline it, with the handler and the
    type traits of the untransformed name; when all decline it raises
    [TypeLookupError]. *)
Theorem lookup_first_transformation (m : matcher) (name : string) (q : type_traits)
    (pre : list transformation) :
  TypeTraits_init name = Ok q ->
  raw_lookup_with_alias_support m (show (tt_ctype_no_modifiers q)) = Raise KeyError ->
  Forall (declines m name) pre ->
  (tm_transformations m = pre -> exists tried, lookup m name = Raise (TypeLookupError tried))
  /\ (forall t post n u c, tm_transformations m = pre ++ t :: post ->
        get_untransformed_name t name = Ok (Some n) -> TypeTraits_init n = Ok u ->
        raw_lookup_with_alias_support m (show (tt_ctype_no_modifiers u)) = Ok c ->
        lookup m name = Ok (c, Some t, u)).
Proof.
  intros Hq Hraw Hpre. unfold lookup. rewrite Hq. cbn [res_bind]. rewrite Hraw.
  generalize [show (tt_ctype_no_modifiers q)] as tried.
  assert (forall post tried, exists tried',
    lookup_transformed m name (pre ++ post) tried = lookup_transformed m name post tried') as H.
  { intros post. induction Hpre as [|t pre Ht Hpre IH]; intros tried; simpl; [by exists tried|].
    destruct Ht as [->|(n&u&->&Hu&Hk)]; simpl; [apply IH|].
    rewrite Hu. simpl. rewrite Hk. apply IH. }
  intros tried. split.
  - intros ->. destruct (H [] tried) as [tried' E]. rewrite app_nil_r in E. rewrite E.
    by eexists.
  - intros t post n u c -> Hn Hu Hc. destruct (H (t :: post) tried) as [tried' ->].
    simpl. rewrite Hn. simpl. rewrite Hu. simpl. by rewrite Hc.
Qed.
End matcher.
Arguments matcher C Obj Args : clear implicits.

(** ** The registries *)

(** The classes in the order of the imports of [typehandlers/__init__.py]. *)
Definition all_param_classes : list param_class :=
  int_params ++ string_params ++ bool_params ++ double_params ++ float_params
  ++ [PyObjectParam].
Definition all_return_classes : list ret_class :=
  [VoidReturn] ++ int_returns ++ string_returns ++ bool_returns ++ double_returns
  ++ float_returns ++ [PyObjectReturnValue].

Abbreviation param_matcher := (matcher param_class param (string * kwargs)).
Abbreviation return_matcher := (matcher ret_class retval (option bool * option pyval)).

Definition param_type_matcher : res param_matcher :=
  register_classes pc_CTYPES TypeMatcher all_param_classes.
Definition return_type_matcher : res return_matcher :=
  register_classes rc_CTYPES TypeMatcher all_return_classes.

(** [Parameter.new(ctype, name, **kwargs)] *)
Definition Parameter_new (m : param_matcher) (ctype name : string) (k : kwargs)
    : res (param_class * param) :=
  r <-? lookup m ctype ;;
  let '(cls, transf, type_traits) := r in
  p <-? match transf with
        | None => pc_new cls (CTraits type_traits) name k
        | Some t => create_type_handler t cls ctype (name, k)
        end ;;
  Ok (cls, p).

(** [ReturnValue.new(ctype, **kwargs)] *)
Definition ReturnValue_new (m : return_matcher) (ctype : string) (is_const : option bool)
    (caller_owns_return : option pyval) : res (ret_class * retval) :=
  r <-? lookup m ctype ;;
  let '(cls, transf, type_traits) := r in
  v <-? match transf with
        | None => rc_new cls (CTraits type_traits) is_const caller_owns_return
        | Some t => create_type_handler t cls ctype (is_const, caller_owns_return)
        end ;;
  Ok (cls, v).

(** [add_type_alias] of the module, for both registries. *)
Definition add_type_alias_both (rm : return_matcher) (pm : param_matcher)
    (from_type_name to_type_name : string) : res (return_matcher * param_matcher) :=
  rm' <-? add_type_alias rm from_type_name to_type_name ;;
  pm' <-? add_type_alias pm from_type_name to_type_name ;;
  Ok (rm', pm').

(** The class a type string resolves to. *)
Definition resolves_to {C Obj Args} (name_of : C -> string) (m : res (matcher C Obj Args))
    (ctype : string) : option string :=
  match m with
  | Ok m => match lookup m ctype with Ok (c, None, _) => Some (name_of c) | _ => None end
  | Raise _ => None
  end.

Definition resolves_all {C Obj Args} (name_of : C -> string) (ctypes_of : C -> list string)
    (m : res (matcher C Obj Args)) (cs : list C) : bool :=
  forallb (fun c => forallb (fun ct => bool_decide (resolves_to name_of m ct = Some (name_of c)))
                      (ctypes_of c)) cs.

(** The built-in registries are consistent.  Importing the handler modules
    registers all their classes without a clash, and then every type string
    listed by a class resolves, without a transformation, to that class. *)
Theorem registries_consistent :
  is_ok param_type_matcher = true /\ is_ok return_type_matcher = true
  /\ resolves_all pc_name pc_CTYPES param_type_matcher all_param_classes = true
  /\ resolves_all rc_name rc_CTYPES return_type_matcher all_return_classes = true.
Proof. vm_compute. done. Qed.

(** ** What the registries hand out *)

Lemma register_all_values {C Obj Args} (cts : list string) (c : C) (P : C -> Prop) : forall
    (m m' : matcher C Obj Args),
  register_all m cts c = Ok m' -> P c -> (forall n d, tm_types m !! n = Some d -> P d) ->
  (forall n d, tm_types m' !! n = Some d -> P d)
  /\ tm_transformations m' = tm_transformations m.
Proof.
  induction cts as [|ct cts IH]; intros m m'; simpl; [intros [= <-]; done|].
  unfold register. destruct (normalize_type_string ct) as [nm|]; [|discriminate]. cbn.
  destruct (tm_types m !! nm) eqn:E; [discriminate|]. cbn. intros H Hc Hm.
  apply (IH _ _ H Hc). cbn. intros n d.
  destruct (decide (nm = n)) as [<-|Hne].
  - rewrite lookup_insert_eq. by intros [= <-].
  - rewrite lookup_insert_ne by done. apply Hm.
Qed.

Lemma register_classes_values {C Obj Args} (ctypes_of : C -> list string) (P : C -> Prop)
    (cs : list C) : forall (m m' : matcher C Obj Args),
  register_classes ctypes_of m cs = Ok m' -> Forall P cs ->
  (forall n d, tm_types m !! n = Some d -> P d) ->
  (forall n d, tm_types m' !! n = Some d -> P d)
  /\ tm_transformations m' = tm_transformations m.
Proof.
  induction cs as [|c cs IH]; intros m m'; simpl; [intros [= <-]; done|].
  destruct (register_all m (ctypes_of c) c) as [m1|] eqn:E; [|discriminate].
  cbn. intros H Hcs Hm. inversion Hcs as [|? ? Hc Hcs']; subst.
  destruct (register_all_values _ _ P _ _ E Hc Hm) as [E1 E2].
  destruct (IH _ _ H Hcs' E1) as [H1 H2]. split; [done | congruence].
Qed.

Lemma lookup_untransformed {C Obj Args} (m : matcher C Obj Args) name c t q :
  tm_transformations m = [] -> lookup m name = Ok (c, t, q) ->
  t = None /\ exists n, tm_types m !! n = Some c.
Proof.
  intros Ht. unfold lookup. destruct (TypeTraits_init name) as [g|]; [|discriminate]. cbn [res_bind].
  destruct (raw_lookup_cases m (show (tt_ctype_no_modifiers g)))
    as [(c'&n&->&_&Hn)| ->]; [|by rewrite Ht].
  intros [= <- <- <-]. split; [done | by exists n].
Qed.

(** A constructor only makes handlers in a direction its class supports. *)
Definition sound_constructor (c : param_class) : Prop :=
  forall ct n k p, pc_new c ct n k = Ok p -> In (p_direction p) (pc_DIRECTIONS c).

Lemma Parameter_init_direction dirs c n d ic dv p :
  Parameter_init dirs c n d ic dv = Ok p -> In (p_direction p) dirs.
Proof.
  unfold Parameter_init. destruct (TypeHandler_init c ic); [|discriminate]. cbn.
  destruct (existsb (Z.eqb d) dirs) eqn:E; [|discriminate]. intros [= <-]. cbn.
  apply existsb_exists in E as (x&Hx&Hd%Z.eqb_eq). by subst.
Qed.

(** Splits a successful constructor into its calls. *)
Ltac constructor_step :=
  match goal with
  | H : (match ?x with _ => _ end) = Ok _ |- _ => let E := fresh "E" in destruct x eqn:E; try discriminate H
  | H : res_bind ?x _ = Ok _ |- _ =>
      let E := fresh "E" in destruct x eqn:E; cbn [res_bind] in H; [|discriminate H]
  | H : Parameter_init _ _ _ _ _ _ = Ok _ |- _ => apply Parameter_init_direction in H
  | H : Ok _ = Ok _ |- _ => injection H as <-
  end.
Ltac sound_constructor :=
  intros ct n k p H; autounfold with handlers in *; cbn [pc_new pc_DIRECTIONS] in *;
  unfold UnsignedIntPtrParam_new, IntPtrParam_new, FloatPtrParam_new, PyObjectParam_new,
    Int8PtrParam_new, UnsignedInt16PtrParam_new, new_PointerParameter, new_Parameter, PointerParameter_init in H;
  repeat constructor_step; assumption.

Lemma all_constructors_sound : Forall sound_constructor all_param_classes.
Proof. unfold all_param_classes. repeat (constructor; [sound_constructor|]). constructor. Qed.

Lemma all_param_contracts : Forall ParamContract all_param_classes.
Proof. unfold all_param_classes. repeat (constructor; [apply _|]). constructor. Qed.
Lemma all_return_contracts : Forall ReturnContract all_return_classes.
Proof. unfold all_return_classes. repeat (constructor; [apply _|]). constructor. Qed.

(** C1: every parameter handler keeps its contract.  Whatever [Parameter.new]
    makes from the built-in registry, for any type string, name and keywords,
    is in a direction its class supports; converting it from Python to C adds
    one argument to the C call, one item to [PyArg_ParseTuple] exactly when it
    has an input part and one item to [Py_BuildValue] exactly when it has an
    output part, and converting it from C to Python does the converse; and no
    conversion rewires the wrapper's blocks and scopes. *)
Theorem Parameter_new_contract (m : param_matcher) (ctype name : string) (k : kwargs)
    (c : param_class) (p : param) (w : wrapper) :
  param_type_matcher = Ok m ->
  Parameter_new m ctype name k = Ok (c, p) ->
  In (p_direction p) (pc_DIRECTIONS c)
  /\ add_params (Nat.b2n (has_out (p_direction p))) (Nat.b2n (has_in (p_direction p))) 1
       (pc_convert_python_to_c c p w)
  /\ add_params (Nat.b2n (has_in (p_direction p))) (Nat.b2n (has_out (p_direction p))) 0
       (pc_convert_c_to_python c p w)
  /\ evolves same_wiring (pc_convert_python_to_c c p w)
  /\ evolves same_wiring (pc_convert_c_to_python c p w).
Proof.
  intros Hm Hn.
  destruct (register_classes_values pc_CTYPES (fun c => ParamContract c /\ sound_constructor c)
              all_param_classes _ m Hm) as [Hv Ht].
  { apply Forall_and. split; [apply all_param_contracts | apply all_constructors_sound]. }
  { intros n d H. cbn in H. by rewrite lookup_empty in H. }
  unfold Parameter_new in Hn. destruct (lookup m ctype) as [[[cls t] q]|] eqn:E; [|discriminate].
  apply lookup_untransformed in E as [-> [n Hc]]; [|exact Ht]. cbn [res_bind] in Hn.
  destruct (pc_new cls (CTraits q) name k) as [p'|] eqn:En; [|discriminate].
  injection Hn as -> ->. destruct (Hv _ _ Hc) as [Hcon Hsound].
  pose proof (Hsound _ _ _ _ En) as Hd. split; [exact Hd|].
  split_and!; [by apply py2c_counts | by apply c2py_counts | apply py2c_wiring | apply c2py_wiring].
Qed.

(** Every return value handler keeps its contract.  Each built-in class adds
    exactly one item to [PyArg_ParseTuple] when the value comes from Python,
    and one item to [Py_BuildValue] when it goes to Python ([void] none), never
    an argument of the call, and rewires nothing. *)
Theorem return_handlers_contract (c : ret_class) (r : retval) (w : wrapper) :
  In c all_return_classes ->
  add_params 0 1 0 (rc_convert_python_to_c c r w)
  /\ add_params (if bool_decide (rc_name c = "VoidReturn") then 0 else 1) 0 0
       (rc_convert_c_to_python c r w)
  /\ evolves same_wiring (rc_convert_python_to_c c r w)
  /\ evolves same_wiring (rc_convert_c_to_python c r w).
Proof.
  intros Hc. pose proof all_return_contracts as H. rewrite List.Forall_forall in H.
  specialize (H c Hc). split_and!; [apply ret_py2c_counts| | apply ret_py2c_wiring
                                   | apply ret_c2py_wiring].
  pose proof (ret_c2py_counts (c:=c) r w) as Hr. case_bool_decide as E.
  - by rewrite E in Hr.
  - apply String.eqb_neq in E. by rewrite E in Hr.
Qed.

(** ** Witnesses *)

(** Aliases where a name has two: [D] that leads nowhere, and [R], that has a
    handler; the search gives up after the first. *)
Definition dead_end_matcher : res (matcher string unit unit) :=
  m <-? register TypeMatcher "R" "handler of R" ;;
  m <-? add_type_alias m "D" "X" ;;
  add_type_alias m "X" "R".

(** Only the first alias is followed.  With the aliases [D] of [X] and [X] of
    [R], where [R] has a handler, [X] is one alias away from [R], and still
    [lookup] of [X] raises: the loop over the aliases returns in its first
    untried round. *)
Theorem lookup_gives_up_after_first_alias :
  match dead_end_matcher with
  | Ok m => alias_step m "X" "R" /\ tm_types m !! "R" = Some "handler of R"
            /\ lookup m "X" = Raise (TypeLookupError ["X"])
  | Raise _ => False
  end.
Proof.
  vm_compute. split_and!; [right; reflexivity | reflexivity | reflexivity].
Qed.

Definition string_matcher : res (matcher string unit unit) :=
  register TypeMatcher "int" "IntParam".
Definition string_matcher_ok : matcher string unit unit :=
  match string_matcher with Ok m => m | Raise _ => TypeMatcher end.

(** The type traits of a string, for the examples. *)
Definition traits_of (s : string) : type_traits :=
  match TypeTraits_init s with
  | Ok t => t
  | Raise _ => TypeTraits [] [] [] false false false false None
  end.

Lemma register_then_lookup_witness :
  lookup string_matcher_ok "const int" = Ok ("IntParam", None, traits_of "const int").
Proof.
  apply (register_then_lookup TypeMatcher string_matcher_ok "int" "const int" "IntParam"
           (traits_of "const int")); vm_compute; reflexivity.
Defined.

Definition aliased_matcher : matcher string unit unit :=
  match add_type_alias string_matcher_ok "int" "my_int" with
  | Ok m => m | Raise _ => TypeMatcher end.

Lemma add_type_alias_lookup_witness :
  lookup aliased_matcher "my_int" = Ok ("IntParam", None, traits_of "my_int").
Proof.
  apply (add_type_alias_lookup string_matcher_ok aliased_matcher "int" "my_int" "my_int"
           (traits_of "int") (traits_of "my_int") "IntParam"); vm_compute; reflexivity.
Defined.

(** A transformation in the style of a smart pointer: it strips the last
    character of names that end in [P]. *)
Definition strip_P : TypeTransformation string unit unit :=
  Transformation
    (fun name => Ok (match last_char name with
                     | Some "P"%char => Some (drop_last name) | _ => None end))
    (fun _ _ _ => Ok tt).
Definition transforming_matcher : matcher string unit unit :=
  register_transformation (register_transformation string_matcher_ok
    (Transformation (fun _ => Ok None) (fun _ _ _ => Ok tt))) strip_P.

Lemma lookup_first_transformation_witness :
  lookup transforming_matcher "intP" = Ok ("IntParam", Some strip_P, traits_of "int").
Proof.
  apply (lookup_first_transformation transforming_matcher "intP" (traits_of "intP")
           [Transformation (fun _ => Ok None) (fun _ _ _ => Ok tt)])
    with (post := []) (n := "int").
  - vm_compute. reflexivity.
  - vm_compute. reflexivity.
  - constructor; [left; reflexivity | constructor].
  - vm_compute. reflexivity.
  - vm_compute. reflexivity.
  - vm_compute. reflexivity.
  - vm_compute. reflexivity.
Defined.

Definition param_matcher_ok : param_matcher :=
  match param_type_matcher with Ok m => m | Raise _ => TypeMatcher end.
Lemma param_matcher_ok_eq : param_type_matcher = Ok param_matcher_ok.
Proof.
  assert (is_ok param_type_matcher = true) as H by (vm_compute; reflexivity).
  unfold param_matcher_ok. by destruct param_type_matcher.
Qed.

Lemma Parameter_new_contract_witness :
  match Parameter_new param_matcher_ok "int" "foo" no_kwargs with
  | Ok (c, p) => In (p_direction p) (pc_DIRECTIONS c)
  | Raise _ => False
  end.
Proof.
  destruct (Parameter_new param_matcher_ok "int" "foo" no_kwargs) as [[c p]|e] eqn:E.
  - exact (proj1 (Parameter_new_contract param_matcher_ok "int" "foo" no_kwargs c p
                    (MkWrapper ForwardWrapper 0 0 1 2) param_matcher_ok_eq E)).
  - apply (f_equal is_ok) in E. vm_compute in E. discriminate E.
Defined.

Lemma return_handlers_contract_witness :
  add_params 0 0 0 (rc_convert_c_to_python VoidReturn
    (MkRetval (traits_of "void") "retval" VNone) (MkWrapper ForwardWrapper 0 0 1 2)).
Proof.
  apply (return_handlers_contract VoidReturn (MkRetval (traits_of "void") "retval" VNone)
           (MkWrapper ForwardWrapper 0 0 1 2)). by left.
Defined.
