(* ===== verification/WrapperBase.v ===== *)
(** * The wrapper generators: [ForwardWrapperBase] and [ReverseWrapperBase] of
    [pybindgen/typehandlers/base.py]

    The generators drive the type handlers through the interface below and
    compose the text they produced.  What a subclass supplies (the code of the
    call, the hooks, the class attributes) is a field of the wrapper. *)
From S2P Require Import Prelude.
From S2P Require Import CodeSink.
From S2P Require Import CodeBlock.
From S2P Require Import Wrapper.
From S2P Require Import CTypeParser.
From S2P Require Import TypeHandler.
From S2P Require Import HandlerOps.
From S2P Require Import NumericTypes.

(** ** What a generator uses of a type handler

    The handlers of C++ classes have a [py_name] attribute and may have a
    [custodian]. *)

Record param_handler : Type := MkParamHandler {
  ph_ctype : string;
  ph_name : string;
  ph_convert_python_to_c : wrapper -> ST world unit;
  ph_convert_c_to_python : wrapper -> ST world unit;
  ph_custodian : option Z;
  ph_has_py_name : bool
}.

Record return_handler : Type := MkReturnHandler {
  rh_ctype : string;
  rh_ctype_no_const : string;
  rh_REQUIRES_ASSIGNMENT_CONSTRUCTOR : bool;
  rh_c_error_return : res string;
  rh_convert_python_to_c : wrapper -> ST world unit;
  rh_convert_c_to_python : wrapper -> ST world unit;
  rh_custodian : option Z;
  rh_return_internal_reference : bool;
  rh_has_py_name : bool
}.

Definition param_handler_of (c : param_class) (p : param) : param_handler :=
  MkParamHandler (p_ctype p) (p_name p) (pc_convert_python_to_c c p)
    (pc_convert_c_to_python c p) None false.
Definition return_handler_of (c : ret_class) (r : retval) : return_handler :=
  MkReturnHandler (r_ctype r) (show (tt_ctype_no_const (r_traits r))) false
    (Ok (rc_c_error_return c)) (rc_convert_python_to_c c r) (rc_convert_c_to_python c r)
    None false false.

(** The target of the generated text, next to the objects of the wrapper. *)
Record gen : Type := Gen { g_world : world; g_out : code_sink }.

Definition in_world {A} (m : ST world A) : ST gen A :=
  fun g => let '(s, r) := m (g_world g) in (Gen s (g_out g), r).
Definition out (f : code_sink -> res code_sink) : ST gen unit :=
  fun g => match f (g_out g) with
           | Ok k => (Gen (g_world g) k, Ok tt)
           | Raise e => (g, Raise e)
           end.
Definition out_writeln (line : string) : ST gen unit := out (fun k => Ok (writeln k line)).

Definition set_heap (s : world) (h : heap) : world :=
  World h (wd_build_params s) (wd_parse_params s) (wd_call_params s) (wd_meth_flags s)
    (wd_py_names s).

(** [self.before_call.sink.flush_to(code_sink)] *)
Definition flush_block (i : nat) : ST gen unit :=
  b <- in_world (on_heap (deref h_blocks i)) ;;
  fun g => match flush_to (cb_sink b) (g_out g) with
           | Raise e => (g, Raise e)
           | Ok (k, o) =>
               let s := g_world g in
               (Gen (set_heap s (fst (set_block i
                      (MkBlock k (cb_predecessor b) (cb_cleanup_actions b)
                         (cb_last_cleanup_position b) (cb_error_return b) (cb_declarations b))
                      (wd_heap s)))) o, Ok tt)
           end.

(** [self.declarations.get_code_sink().flush_to(code_sink)] *)
Definition flush_declarations (i : nat) : ST gen unit :=
  d <- in_world (on_heap (deref h_scopes i)) ;;
  fun g => match flush_to (ds_declarations d) (g_out g) with
           | Raise e => (g, Raise e)
           | Ok (k, o) =>
               let s := g_world g in
               (Gen (set_heap s (fst (set_scope i (MkScope k (ds_declared_variables d))
                                        (wd_heap s)))) o, Ok tt)
           end.

(** [.clear()] of the parameter lists and resetting [call_params] and
    [meth_flags] *)
Definition clear_lists : ST world unit :=
  st_modify (fun s => World (wd_heap s) [] [] [] [] (wd_py_names s)).
Definition clear_params : ST world unit :=
  st_modify (fun s => World (wd_heap s) [] [] (wd_call_params s) (wd_meth_flags s)
    (wd_py_names s)).

(** ** [ForwardWrapperBase] *)

Definition PARSE_TUPLE : Z := 1.
Definition PARSE_TUPLE_AND_KEYWORDS : Z := 2.

Record forward_wrapper : Type := MkForward {
  fw_return_value : option return_handler;
  fw_parameters : list param_handler;
  fw_refs : wrapper;
  fw_force_parse : option Z;
  fw_no_c_retval : bool;
  fw_unblock_threads : bool;
  fw_deprecated : pyval;
  fw_wrapper_actual_name : option string;
  fw_wrapper_return : option string;
  fw_wrapper_args : option (list string);
  fw_HAVE_RETURN_VALUE : bool;
  fw_generate_call : wrapper -> ST world unit;
  fw_before_call_hook : wrapper -> ST world unit;
  fw_before_return_hook : wrapper -> ST world unit
}.

(** [self.return_value is not None or self.HAVE_RETURN_VALUE] *)
Definition returns_value (fw : forward_wrapper) : bool :=
  match fw_return_value fw with Some _ => true | None => fw_HAVE_RETURN_VALUE fw end.

Definition init_code_generation_state (fw : forward_wrapper) : ST world unit :=
  let w := fw_refs fw in
  st_when (returns_value fw)
    (declare w "PyObject*" "py_retval" None None ;;; st_ret tt) ;;;
  st_when (negb (fw_no_c_retval fw) && returns_value fw)
    match fw_return_value fw with
    | None => st_raise AttributeError
    | Some rv =>
        st_when (negb (String.eqb (rh_ctype rv) "void")
                 && negb (rh_REQUIRES_ASSIGNMENT_CONSTRUCTOR rv))
          (declare w (rh_ctype_no_const rv) "retval" None None ;;; st_ret tt)
    end ;;;
  on_heap (reserve_variable (w_declarations w) "args") ;;;
  on_heap (reserve_variable (w_declarations w) "kwargs") ;;;
  st_ret tt.

(** The objects [__init__] makes. *)
Definition make_forward_objects (parse_error_return error_return : string) : ST heap wrapper :=
  d <- DeclarationsScope None ;;
  bp <- CodeBlock parse_error_return d None ;;
  bc <- CodeBlock parse_error_return d (Some bp) ;;
  ac <- CodeBlock error_return d (Some bc) ;;
  st_ret (MkWrapper ForwardWrapper d bp bc ac).

Definition ForwardWrapperBase_init (return_value : option return_handler)
    (parameters : list param_handler) (parse_error_return error_return : string)
    (force_parse : option Z) (no_c_retval unblock_threads : bool)
    (HAVE_RETURN_VALUE : bool) (generate_call before_call_hook before_return_hook
      : wrapper -> ST world unit) : ST world forward_wrapper :=
  w <- on_heap (make_forward_objects parse_error_return error_return) ;;
  clear_lists ;;;
  let fw := MkForward return_value parameters w force_parse no_c_retval unblock_threads
              (VBool false) None None None HAVE_RETURN_VALUE generate_call before_call_hook
              before_return_hook in
  init_code_generation_state fw ;;;
  st_ret fw.

Definition forward_reset_code_generation_state (fw : forward_wrapper) : ST world unit :=
  let w := fw_refs fw in
  on_heap (scope_clear (w_declarations w)) ;;;
  on_heap (block_clear (w_before_parse w)) ;;;
  on_heap (block_clear (w_before_call w)) ;;;
  on_heap (block_clear (w_after_call w)) ;;;
  clear_lists ;;;
  init_code_generation_state fw.

Definition set_parse_error_return (fw : forward_wrapper) (e : string) : ST world unit :=
  on_heap (set_error_return (w_before_parse (fw_refs fw)) e) ;;;
  on_heap (set_error_return (w_before_call (fw_refs fw)) e).

Definition write_open_wrapper (fw : forward_wrapper) (add_static : bool) : ST gen unit :=
  match fw_wrapper_actual_name fw, fw_wrapper_return fw, fw_wrapper_args fw with
  | Some name, Some ret, Some args =>
      out_writeln (if add_static then "static " +:+ ret else ret) ;;;
      out_writeln (name +:+ "(" +:+ join ", " args +:+ ")") ;;;
      out_writeln "{" ;;;
      out (fun k => Ok (indent k 4))
  | _, _, _ => st_raise AssertionError
  end.

Definition write_close_wrapper : ST gen unit :=
  out unindent ;;; out_writeln "}".

(** [except NotImplementedError: raise CodeGenerationError] *)
Definition or_code_generation_error (msg : string) (m : ST world unit) : ST world unit :=
  st_catch m (fun e => match e with
                       | NotImplementedError => st_raise (CodeGenerationError msg)
                       | _ => st_raise e
                       end).

Definition convert_parameters (fw : forward_wrapper) : ST world unit :=
  st_iter (fun p =>
      or_code_generation_error
        ("convert_python_to_c method of parameter " +:+ ph_ctype p +:+ " not implemented")
        (ph_convert_python_to_c p (fw_refs fw)))
    (fw_parameters fw).

(** A method of [parse_params] or [build_params] that changes nothing. *)
Definition parse_query {A} (f : list parse_item -> res A) : ST world A :=
  fun s => (s, f (wd_parse_params s)).
Definition build_query {A} (f : list build_item -> A) : ST world A :=
  fun s => (s, Ok (f (wd_build_params s))).

(** Casts the first parameter, the format, to [char *]. *)
Definition cast_format (params : list string) : list string :=
  match params with [] => [] | p :: ps => ("(char *) " +:+ p) :: ps end.

Definition empty_format : list string := [dq +:+ dq].

(** The array of keywords: [{"a", "b", NULL}] *)
Definition keywords_initializer (keywords : list string) : string :=
  "{" +:+ join ", " (map (fun kw => dq +:+ kw +:+ dq) keywords ++ ["NULL"]) +:+ "}".

(** The part of [generate_body] that writes the call of [PyArg_ParseTuple] or
    [PyArg_ParseTupleAndKeywords]. *)
Definition generate_parse (fw : forward_wrapper) : ST world unit :=
  let w := fw_refs fw in
  params <- parse_query parse_get_parameters ;;
  keywords <- parse_query get_keywords ;;
  if negb (bool_decide (params = empty_format)) || bool_decide (is_Some (fw_force_parse fw)) then
    flags_add "METH_VARARGS" ;;;
    if bool_decide (keywords = None)
       && negb (bool_decide (fw_force_parse fw = Some PARSE_TUPLE_AND_KEYWORDS)) then
      on_heap (write_error_check (w_before_parse w)
        ("!PyArg_ParseTuple(" +:+ join ", " ("args" :: cast_format params) +:+ ")") None)
    else
      keywords_var <- declare w "const char *" "keywords"
                        (Some (keywords_initializer (default [] keywords))) (Some "[]") ;;
      on_heap (write_error_check (w_before_parse w)
        ("!PyArg_ParseTupleAndKeywords("
         +:+ join ", " ("args" :: "kwargs" :: firstn 1 (cast_format params)
                        ++ ["(char **) " +:+ keywords_var] ++ skipn 1 (cast_format params))
         +:+ ")") None) ;;;
      flags_add "METH_KEYWORDS"
  else flags_add "METH_NOARGS".

(** The part of [generate_body] that builds the Python return value. *)
Definition generate_return (fw : forward_wrapper) : ST world unit :=
  let w := fw_refs fw in
  if negb (returns_value fw) then
    params <- build_query (fun items => build_get_parameters items false) ;;
    st_assert (bool_decide (params = empty_format)) ;;;
    fw_before_return_hook fw w ;;;
    on_heap (write_cleanup (w_after_call w))
  else
    match fw_return_value fw with
    | Some rv =>
        or_code_generation_error
          ("convert_c_to_python method of return value " +:+ rh_ctype rv +:+ " not implemented")
          (rh_convert_c_to_python rv w)
    | None => st_ret tt
    end ;;;
    fw_before_return_hook fw w ;;;
    params <- build_query (fun items => build_get_parameters items false) ;;
    (if bool_decide (params = empty_format) then
       after_call_code w "Py_INCREF(Py_None);" ;;;
       after_call_code w "py_retval = Py_None;"
     else
       after_call_code w ("py_retval = Py_BuildValue(" +:+ join ", " (cast_format params)
                          +:+ ");")) ;;;
    on_heap (write_cleanup (w_after_call w)) ;;;
    after_call_code w "return py_retval;".

Definition save_thread (v : string) : string :=
  nls +:+ "if (PyEval_ThreadsInitialized ())" +:+ nls +:+ "     " +:+ v
  +:+ " = PyEval_SaveThread();" +:+ nls.
Definition restore_thread (v : string) : string :=
  nls +:+ "if (" +:+ v +:+ ")" +:+ nls +:+ "     PyEval_RestoreThread(" +:+ v +:+ ");" +:+ nls.

(** The message of a deprecation, [True] standing for the default one. *)
Definition deprecation_message (v : pyval) : string :=
  match v with VStr s => s | _ => "Deprecated" end.

(** Everything [generate_body] does to the wrapper before it writes it out. *)
Definition generate_code (fw : forward_wrapper) : ST world unit :=
  let w := fw_refs fw in
  py_thread_state <-
    (if fw_unblock_threads fw then
       v <- declare w "PyThreadState*" "py_thread_state" (Some "NULL") None ;;
       after_call_code w (restore_thread v) ;;;
       st_ret v
     else st_ret EmptyString) ;;
  convert_parameters fw ;;;
  st_when (truth (fw_deprecated fw))
    (on_heap (write_error_check (w_before_call w)
       ("PyErr_Warn(PyExc_DeprecationWarning, (char *) " +:+ dq
        +:+ deprecation_message (fw_deprecated fw) +:+ dq +:+ ")") None)) ;;;
  fw_before_call_hook fw w ;;;
  st_when (fw_unblock_threads fw) (before_call_code w (save_thread py_thread_state)) ;;;
  fw_generate_call fw w ;;;
  generate_parse fw ;;;
  generate_return fw.

Definition write_out (fw : forward_wrapper) : ST gen unit :=
  let w := fw_refs fw in
  flush_declarations (w_declarations w) ;;;
  out_writeln EmptyString ;;;
  flush_block (w_before_parse w) ;;;
  flush_block (w_before_call w) ;;;
  flush_block (w_after_call w).

Definition generate_body (fw : forward_wrapper) : ST gen unit :=
  in_world (generate_code fw) ;;; write_out fw.

(** A set of flags, which the code turns into a list in an unspecified order. *)
Definition get_py_method_def_flags (fw : forward_wrapper) : ST world (gset string) :=
  flags <- st_get (fun s => list_to_set (wd_meth_flags s)) ;;
  if bool_decide (flags <> ∅) then st_ret flags
  else
    st_finally
      ((fun s => let '(g, r) := generate_body fw (Gen s NullCodeSink) in (g_world g, r)) ;;;
       st_get (fun s => list_to_set (wd_meth_flags s)))
      (forward_reset_code_generation_state fw).

(** ** [ReverseWrapperBase] *)

Record reverse_wrapper : Type := MkReverse {
  rw_return_value : return_handler;
  rw_parameters : list param_handler;
  rw_refs : wrapper;
  rw_NO_GIL_LOCKING : bool;
  rw_generate_python_call : wrapper -> ST world unit
}.

Definition generate_gil_code (rw : reverse_wrapper) : ST world unit :=
  let w := rw_refs rw in
  if rw_NO_GIL_LOCKING rw then st_ret tt
  else
    gil_state_var <- declare w "PyGILState_STATE" "__py_gil_state" None None ;;
    before_call_code w
      (gil_state_var +:+ " = (PyEval_ThreadsInitialized() ? PyGILState_Ensure() "
       +:+ ": (PyGILState_STATE) 0);") ;;;
    on_heap (add_cleanup_code (w_before_call w)
      ("if (PyEval_ThreadsInitialized())" +:+ nls +:+ "    PyGILState_Release("
       +:+ gil_state_var +:+ ");")) ;;;
    st_ret tt.

(** There is no block before the parse of a reverse wrapper; the field repeats
    [before_call]. *)
Definition make_reverse_objects (error_return : string) : ST heap wrapper :=
  d <- DeclarationsScope None ;;
  bc <- CodeBlock error_return d None ;;
  ac <- CodeBlock error_return d (Some bc) ;;
  st_ret (MkWrapper ReverseWrapper d bc bc ac).

(** The given error return, or that of the return value. *)
Definition error_return_of (return_value : return_handler) (error_return : option string)
    : res string :=
  match error_return with Some e => Ok e | None => rh_c_error_return return_value end.

Definition ReverseWrapperBase_init (return_value : return_handler)
    (parameters : list param_handler) (error_return : option string) (NO_GIL_LOCKING : bool)
    (generate_python_call : wrapper -> ST world unit) : ST world reverse_wrapper :=
  e <- st_lift (error_return_of return_value error_return) ;;
  w <- on_heap (make_reverse_objects e) ;;
  clear_lists ;;;
  let rw := MkReverse return_value parameters w NO_GIL_LOCKING generate_python_call in
  generate_gil_code rw ;;;
  st_ret rw.

Definition reverse_set_error_return (rw : reverse_wrapper) (e : string) : ST world unit :=
  on_heap (set_error_return (w_before_call (rw_refs rw)) e) ;;;
  on_heap (set_error_return (w_after_call (rw_refs rw)) e).

Definition reverse_reset_code_generation_state (rw : reverse_wrapper) : ST world unit :=
  let w := rw_refs rw in
  on_heap (scope_clear (w_declarations w)) ;;;
  on_heap (block_clear (w_before_call w)) ;;;
  on_heap (block_clear (w_after_call w)) ;;;
  clear_params ;;;
  generate_gil_code rw.

Definition none_error : string :=
  "PyErr_SetString(PyExc_TypeError, " +:+ dq +:+ "function/method should return None"
  +:+ dq +:+ ");".

(** The parsing of the value the Python function returned. *)
Definition reverse_generate_parse (rw : reverse_wrapper) : ST world unit :=
  let w := rw_refs rw in
  is_empty <- parse_query parse_is_empty ;;
  if is_empty then
    on_heap (write_error_check (w_before_call w) "py_retval != Py_None" (Some none_error))
  else
    before_call_code w ("py_retval = Py_BuildValue((char*) " +:+ dq +:+ "(N)" +:+ dq
                        +:+ ", py_retval);") ;;;
    parse_params <- parse_query parse_get_parameters ;;
    on_heap (write_error_check (w_before_call w)
      ("!PyArg_ParseTuple(" +:+ join ", " ("py_retval" :: cast_format parse_params) +:+ ")")
      (Some "PyErr_Print();")).

Definition reverse_generate_code (rw : reverse_wrapper) : ST world unit :=
  let w := rw_refs rw in
  let rv := rw_return_value rw in
  declare w "PyObject*" "py_retval" None None ;;;
  st_when (negb (String.eqb (rh_ctype rv) "void")
           && negb (rh_REQUIRES_ASSIGNMENT_CONSTRUCTOR rv))
    (declare w (rh_ctype rv) "retval" None None ;;; st_ret tt) ;;;
  st_iter (fun p => ph_convert_c_to_python p w) (rw_parameters rw) ;;;
  rw_generate_python_call rw w ;;;
  rh_convert_python_to_c rv w ;;;
  reverse_generate_parse rw ;;;
  on_heap (write_cleanup (w_after_call w)) ;;;
  after_call_code w (if String.eqb (rh_ctype rv) "void" then "return;" else "return retval;").

(** [[join_ctype_and_name(param.ctype, param.name) for param in parameters]] *)
Fixpoint join_params (ps : list param_handler) : res (list string) :=
  match ps with
  | [] => Ok []
  | p :: ps' =>
      a <-? join_ctype_and_name (ph_ctype p) (ph_name p) ;;
      l <-? join_params ps' ;;
      Ok (a :: l)
  end.

Definition reverse_write_out (rw : reverse_wrapper) (wrapper_name : string)
    (decl_modifiers decl_post_modifiers : list string) : ST gen unit :=
  let w := rw_refs rw in
  out_writeln (join " " (decl_modifiers ++ [rh_ctype (rw_return_value rw)])) ;;;
  params_list <- st_lift (join_params (rw_parameters rw)) ;;
  out_writeln (wrapper_name +:+ "(" +:+ join ", " params_list +:+ ")"
               +:+ join " " (EmptyString :: decl_post_modifiers)) ;;;
  out_writeln "{" ;;;
  out (fun k => Ok (indent k 4)) ;;;
  flush_declarations (w_declarations w) ;;;
  out_writeln EmptyString ;;;
  flush_block (w_before_call w) ;;;
  flush_block (w_after_call w) ;;;
  out unindent ;;;
  out_writeln "}".

Definition reverse_generate (rw : reverse_wrapper) (wrapper_name : string)
    (decl_modifiers decl_post_modifiers : list string) : ST gen unit :=
  in_world (reverse_generate_code rw) ;;;
  reverse_write_out rw wrapper_name decl_modifiers decl_post_modifiers.

(** ** Frame conditions

    The promise a generator relies on: handlers, hooks and the subclass's call
    leave the wiring of the wrapper's objects alone. *)
Class ForwardFrame (fw : forward_wrapper) : Prop := {
  ff_params : Forall (fun p => forall w, evolves same_wiring (ph_convert_python_to_c p w))
                (fw_parameters fw);
  ff_return : forall rv w, fw_return_value fw = Some rv ->
    evolves same_wiring (rh_convert_c_to_python rv w);
  ff_call : forall w, evolves same_wiring (fw_generate_call fw w);
  ff_before_call : forall w, evolves same_wiring (fw_before_call_hook fw w);
  ff_before_return : forall w, evolves same_wiring (fw_before_return_hook fw w)
}.

Class ReverseFrame (rw : reverse_wrapper) : Prop := {
  rf_params : Forall (fun p => forall w, evolves same_wiring (ph_convert_c_to_python p w))
                (rw_parameters rw);
  rf_return : forall w, evolves same_wiring (rh_convert_python_to_c (rw_return_value rw) w);
  rf_call : forall w, evolves same_wiring (rw_generate_python_call rw w)
}.

(** Handlers that satisfy their contract supply the frame. *)
Definition contracted (cp : param_class * param) : Prop :=
  ParamContract cp.1 /\ In (p_direction cp.2) (pc_DIRECTIONS cp.1).
Definition handlers (cps : list (param_class * param)) : list param_handler :=
  map (fun cp => param_handler_of cp.1 cp.2) cps.

Lemma contracted_py2c_frame cps :
  Forall contracted cps ->
  Forall (fun p => forall w, evolves same_wiring (ph_convert_python_to_c p w)) (handlers cps).
Proof.
  intros H. apply Forall_map. eapply Forall_impl; [exact H|]. intros [c p] [Hc _] w.
  apply py2c_wiring.
Qed.

Lemma contracted_c2py_frame cps :
  Forall contracted cps ->
  Forall (fun p => forall w, evolves same_wiring (ph_convert_c_to_python p w)) (handlers cps).
Proof.
  intros H. apply Forall_map. eapply Forall_impl; [exact H|]. intros [c p] [Hc _] w.
  apply c2py_wiring.
Qed.

Lemma wiring_or_error msg m :
  evolves same_wiring m -> evolves same_wiring (or_code_generation_error msg m).
Proof.
  intros H. apply evolves_catch; [apply _ | done|]. intros []; apply evolves_raise; apply _.
Qed.

Lemma wiring_flags_add f : evolves same_wiring (flags_add f).
Proof. by apply wiring_modify. Qed.

Lemma wiring_parse_query {A} (f : list parse_item -> res A) : evolves same_wiring (parse_query f).
Proof. by intros s. Qed.
Lemma wiring_build_query {A} (f : list build_item -> A) : evolves same_wiring (build_query f).
Proof. by intros s. Qed.

#[export] Hint Resolve wiring_flags_add wiring_parse_query wiring_build_query : wiring.

Lemma wiring_convert_parameters fw `{!ForwardFrame fw} :
  evolves same_wiring (convert_parameters fw).
Proof.
  apply evolves_iter_in; [apply _|]. eapply Forall_impl; [apply ff_params|].
  intros p H. apply wiring_or_error, H.
Qed.

Lemma wiring_generate_parse fw : evolves same_wiring (generate_parse fw).
Proof. unfold generate_parse. wiring. Qed.

Lemma wiring_generate_return fw `{!ForwardFrame fw} : evolves same_wiring (generate_return fw).
Proof.
  pose proof ff_before_return as Hb. pose proof ff_return as Hr.
  unfold generate_return, returns_value. destruct (fw_return_value fw); wiring; try apply Hb.
  by apply wiring_or_error, Hr.
Qed.

Lemma wiring_generate_code fw `{!ForwardFrame fw} : evolves same_wiring (generate_code fw).
Proof.
  pose proof ff_before_call as H1. pose proof ff_call as H2. unfold generate_code.
  wiring; auto using wiring_convert_parameters, wiring_generate_parse, wiring_generate_return.
Qed.

(** ** Resetting the code generation state *)

Definition clean_block (b : code_block) : code_block :=
  MkBlock MemoryCodeSink (cb_predecessor b) ∅ 0 (cb_error_return b) (cb_declarations b).
Definition clean_scope (d : decl_scope) : decl_scope :=
  MkScope MemoryCodeSink (ds_declared_variables d).
Definition clean_heap (h : heap) : heap :=
  Heap (map clean_block (h_blocks h)) (map clean_scope (h_scopes h))
       (map (fun _ => ∅) (h_dicts h)).

Lemma map_factor {A B C} (f : A -> B) (g : A -> C) (h : B -> C) l l' :
  (forall a, g a = h (f a)) -> map f l = map f l' -> map g l = map g l'.
Proof.
  intros Hg H. rewrite !(map_ext g (fun a => h (f a))) by apply Hg.
  rewrite <- !(map_map f h). by rewrite H.
Qed.

Lemma map_const {A B} (b : B) (l l' : list A) :
  length l = length l' -> map (fun _ => b) l = map (fun _ => b) l'.
Proof.
  revert l'. induction l as [|x l IH]; intros [|x' l']; simpl; intros H; try done.
  f_equal. apply IH. lia.
Qed.

(** What a reset keeps depends on the wiring only. *)
#[export] Instance clean_heap_proper : Proper (heap_same_wiring ==> eq) clean_heap.
Proof.
  intros h h' (Hb&Hs&Hd). unfold clean_heap. f_equal.
  - apply (map_factor block_wiring clean_block
             (fun '(p, e, d, _) => MkBlock MemoryCodeSink p ∅ 0 e d)); done.
  - apply (map_factor scope_wiring clean_scope (fun '(v, _) => MkScope MemoryCodeSink v)); done.
  - by apply map_const.
Qed.

(** The objects of a wrapper, numbered in the order of their creation. *)
Definition forward_objects (w : wrapper) (h : heap) : Prop :=
  w = MkWrapper ForwardWrapper 0 0 1 2
  /\ length (h_blocks h) = 3%nat /\ map ds_declared_variables (h_scopes h) = [0%nat]
  /\ length (h_dicts h) = 1%nat.
Definition reverse_objects (w : wrapper) (h : heap) : Prop :=
  w = MkWrapper ReverseWrapper 0 0 0 1
  /\ length (h_blocks h) = 2%nat /\ map ds_declared_variables (h_scopes h) = [0%nat]
  /\ length (h_dicts h) = 1%nat.

Lemma same_wiring_scopes h h' :
  map scope_wiring h = map scope_wiring h' ->
  map ds_declared_variables h = map ds_declared_variables h'.
Proof. intros H. by apply (map_factor scope_wiring _ fst). Qed.

Lemma forward_objects_wiring w h h' :
  heap_same_wiring h h' -> forward_objects w h -> forward_objects w h'.
Proof.
  intros (Hb&Hs%same_wiring_scopes&Hd) (?&Hl&?&?). split_and!; [done| |congruence|congruence].
  apply (f_equal length) in Hb. rewrite !length_map in Hb. congruence.
Qed.
Lemma reverse_objects_wiring w h h' :
  heap_same_wiring h h' -> reverse_objects w h -> reverse_objects w h'.
Proof.
  intros (Hb&Hs%same_wiring_scopes&Hd) (?&Hl&?&?). split_and!; [done| |congruence|congruence].
  apply (f_equal length) in Hb. rewrite !length_map in Hb. congruence.
Qed.

Lemma forward_reset_eq fw s :
  forward_objects (fw_refs fw) (wd_heap s) ->
  forward_reset_code_generation_state fw s =
    init_code_generation_state fw (World (clean_heap (wd_heap s)) [] [] [] [] (wd_py_names s)).
Proof.
  destruct fw as [rv ps refs ? ? ? ? ? ? ? ? ? ? ?]. cbn [fw_refs].
  destruct s as [[bs scs ds] bp pp cp mf pn]. cbn [wd_heap].
  intros (->&Hb&Hs&Hd). cbn [h_blocks h_scopes h_dicts] in *.
  destruct bs as [|b1 [|b2 [|b3 [|b4 bs]]]]; try done.
  destruct scs as [|d [|d' scs]]; try done.
  destruct ds as [|v [|v' ds]]; try done.
  destruct d as [k v0]. injection Hs as ->. reflexivity.
Qed.

Lemma reverse_reset_eq rw s :
  reverse_objects (rw_refs rw) (wd_heap s) ->
  reverse_reset_code_generation_state rw s =
    generate_gil_code rw (World (clean_heap (wd_heap s)) [] [] (wd_call_params s)
                            (wd_meth_flags s) (wd_py_names s)).
Proof.
  destruct rw as [rv ps refs gil call]. cbn [rw_refs].
  destruct s as [[bs scs ds] bp pp cp mf pn]. cbn [wd_heap].
  intros (->&Hb&Hs&Hd). cbn [h_blocks h_scopes h_dicts] in *.
  destruct bs as [|b1 [|b2 [|b3 bs]]]; try done.
  destruct scs as [|d [|d' scs]]; try done.
  destruct ds as [|v [|v' ds]]; try done.
  destruct d as [k v0]. injection Hs as ->. reflexivity.
Qed.

Lemma wiring_init_state fw : evolves same_wiring (init_code_generation_state fw).
Proof. unfold init_code_generation_state. wiring. Qed.

Lemma wiring_gil_code rw : evolves same_wiring (generate_gil_code rw).
Proof. unfold generate_gil_code. wiring. Qed.

Lemma same_wiring_heap s s' : same_wiring s s' <-> heap_same_wiring (wd_heap s) (wd_heap s').
Proof. done. Qed.

(** The state right after construction. *)
Definition new_forward_heap (parse_error_return error_return : string) : heap :=
  Heap [MkBlock MemoryCodeSink None ∅ 0 parse_error_return 0;
        MkBlock MemoryCodeSink (Some 0%nat) ∅ 0 parse_error_return 0;
        MkBlock MemoryCodeSink (Some 1%nat) ∅ 0 error_return 0]
       [MkScope MemoryCodeSink 0] [∅].
Definition new_reverse_heap (error_return : string) : heap :=
  Heap [MkBlock MemoryCodeSink None ∅ 0 error_return 0;
        MkBlock MemoryCodeSink (Some 0%nat) ∅ 0 error_return 0]
       [MkScope MemoryCodeSink 0] [∅].

Lemma forward_init_eq rv ps pe e fp nc ub hv gc bc br s s0 fw :
  wd_heap s = empty_heap ->
  ForwardWrapperBase_init rv ps pe e fp nc ub hv gc bc br s = (s0, Ok fw) ->
  fw = MkForward rv ps (MkWrapper ForwardWrapper 0 0 1 2) fp nc ub (VBool false) None None None
         hv gc bc br
  /\ init_code_generation_state fw
       (World (new_forward_heap pe e) [] [] [] [] (wd_py_names s)) = (s0, Ok tt).
Proof.
  destruct s as [h bl pl cl fl pn]. cbn [wd_heap]. intros ->. unfold ForwardWrapperBase_init.
  intros H. apply st_bind_Ok in H as (s1&w&E&H). injection E as <- <-.
  apply st_bind_Ok in H as (s2&[]&E&H). injection E as <-. cbn in H.
  apply st_bind_Ok in H as (s3&[]&E&H). injection H as <- <-. split; [done|]. exact E.
Qed.

Lemma reverse_init_eq rv ps e gil gc s s0 rw :
  wd_heap s = empty_heap ->
  ReverseWrapperBase_init rv ps e gil gc s = (s0, Ok rw) ->
  rw = MkReverse rv ps (MkWrapper ReverseWrapper 0 0 0 1) gil gc
  /\ exists er, error_return_of rv e = Ok er
     /\ generate_gil_code rw (World (new_reverse_heap er) [] [] [] [] (wd_py_names s)) = (s0, Ok tt).
Proof.
  destruct s as [h bl pl cl fl pn]. cbn [wd_heap]. intros ->. unfold ReverseWrapperBase_init.
  intros H. apply st_bind_Ok in H as (s1&er&E&H). unfold st_lift in E.
  injection E as <- Eer. apply st_bind_Ok in H as (s1&w&E&H). injection E as <- <-.
  apply st_bind_Ok in H as (s2&[]&E&H). injection E as <-. cbn in H.
  apply st_bind_Ok in H as (s3&[]&E&H). injection H as <- <-. split; [done|]. exists er. split; [done|]. exact E.
Qed.

(** ** The [py_name] attributes

    They belong to the handler objects, so that a reset leaves them as they are;
    the base classes neither read nor write them. *)
Definition with_py_names (s : world) (n : gmap Z string) : world :=
  World (wd_heap s) (wd_build_params s) (wd_parse_params s) (wd_call_params s)
    (wd_meth_flags s) n.
Definition py_names_blind {A} (m : ST world A) : Prop :=
  forall s n, m (with_py_names s n) = (with_py_names (m s).1 n, (m s).2).

Lemma blind_bind {A B} (m : ST world A) (k : A -> ST world B) :
  py_names_blind m -> (forall a, py_names_blind (k a)) -> py_names_blind (st_bind m k).
Proof.
  intros Hm Hk s n. unfold st_bind. rewrite Hm. destruct (m s) as [s' [a|e]]; cbn; [|done].
  apply Hk.
Qed.
Lemma blind_on_heap {A} (m : ST heap A) : py_names_blind (on_heap m).
Proof. intros s n. unfold on_heap, with_py_names. cbn. by destruct (m (wd_heap s)). Qed.

(** One step of a proof that a computation is blind to the names. *)
Ltac blind_step :=
  match goal with
  | |- forall _, _ => intros ?
  | |- py_names_blind (st_bind _ _) => apply blind_bind
  | |- py_names_blind (on_heap _) => apply blind_on_heap
  | |- py_names_blind (st_when ?b _) => destruct b; cbn [st_when]
  | |- py_names_blind (st_ret _) => by intros ? ?
  | |- py_names_blind (st_raise _) => by intros ? ?
  | |- py_names_blind (match ?x with _ => _ end) => destruct x
  | |- py_names_blind _ => progress unfold declare, before_call_code, after_call_code
  end.

Lemma blind_init fw : py_names_blind (init_code_generation_state fw).
Proof. unfold init_code_generation_state. repeat blind_step. Qed.
Lemma blind_gil rw : py_names_blind (generate_gil_code rw).
Proof. unfold generate_gil_code. repeat blind_step. Qed.

(** A new forward wrapper: its objects, and that resetting brings back [s0]. *)
Lemma forward_reset_lemma rv ps pe e fp nc ub hv gc bc br s s0 fw s1 :
  wd_heap s = empty_heap ->
  ForwardWrapperBase_init rv ps pe e fp nc ub hv gc bc br s = (s0, Ok fw) ->
  same_wiring s0 s1 ->
  forward_reset_code_generation_state fw s1 = (with_py_names s0 (wd_py_names s1), Ok tt).
Proof.
  intros Hs Hi Hw. apply forward_init_eq in Hi as [Efw Hi]; [|done].
  pose proof (wiring_init_state fw (World (new_forward_heap pe e) [] [] [] [] (wd_py_names s))) as H0.
  rewrite Hi in H0. cbn [fst] in H0.
  assert (heap_same_wiring (new_forward_heap pe e) (wd_heap s1)) as H1
    by exact (transitivity H0 Hw).
  rewrite forward_reset_eq.
  - rewrite <- (clean_heap_proper _ _ H1).
    pose proof (blind_init fw (World (new_forward_heap pe e) [] [] [] [] (wd_py_names s))
      (wd_py_names s1)) as Hb. rewrite Hi in Hb. exact Hb.
  - eapply forward_objects_wiring; [exact H1|]. by rewrite Efw.
Qed.

Lemma reverse_reset_lemma rv ps e gil gc s s0 rw s1 :
  wd_heap s = empty_heap ->
  ReverseWrapperBase_init rv ps e gil gc s = (s0, Ok rw) ->
  same_wiring s0 s1 -> wd_call_params s1 = [] -> wd_meth_flags s1 = [] ->
  reverse_reset_code_generation_state rw s1 = (with_py_names s0 (wd_py_names s1), Ok tt).
Proof.
  intros Hs Hi Hw Hc Hf. apply reverse_init_eq in Hi as (Erw&er&_&Hi); [|done].
  pose proof (wiring_gil_code rw
    (World (new_reverse_heap er) [] [] [] [] (wd_py_names s)))
    as H0.
  rewrite Hi in H0. cbn [fst] in H0.
  assert (heap_same_wiring (new_reverse_heap er) (wd_heap s1))
    as H1 by exact (transitivity H0 Hw).
  rewrite reverse_reset_eq, Hc, Hf.
  - rewrite <- (clean_heap_proper _ _ H1).
    pose proof (blind_gil rw (World (new_reverse_heap er)
      [] [] [] [] (wd_py_names s)) (wd_py_names s1)) as Hb. rewrite Hi in Hb. exact Hb.
  - eapply reverse_objects_wiring; [exact H1|]. by rewrite Erw.
Qed.

(** ** Writing the wrapper out *)

(** The lines of a memory sink. *)
Definition memory_lines (k : code_sink) : list string :=
  match dest k with MemoryDest ls => ls | _ => [] end.
Definition block_lines (h : heap) (i : nat) : list string :=
  match h_blocks h !! i with Some b => memory_lines (cb_sink b) | None => [] end.
Definition scope_lines (h : heap) (i : nat) : list string :=
  match h_scopes h !! i with Some d => memory_lines (ds_declarations d) | None => [] end.

(** What flushing lines does to the target. *)
Definition write_lines (ls : list string) (k : code_sink) : code_sink :=
  fold_left (fun k line => writeln k (rstrip line)) ls k.

Lemma write_lines_app l1 l2 k : write_lines (l1 ++ l2) k = write_lines l2 (write_lines l1 k).
Proof. apply fold_left_app. Qed.

Lemma write_lines_text ls : forall k,
  is_null k = false ->
  is_null (write_lines ls k) = false /\ same_indent (write_lines ls k) k
  /\ sink_text (write_lines ls k) =
     sink_text k +:+ lines_text (flat_map (fun l => format_code k (rstrip l)) ls).
Proof.
  induction ls as [|l ls IH]; intros k Hk; simpl.
  - split_and!; [done.. | by rewrite app_str_nil_r].
  - pose proof (same_indent_writeln k (rstrip l)) as Hs.
    destruct (IH (writeln k (rstrip l))) as (H1&H2&H3); [by rewrite writeln_dest_kind|].
    split_and!; [done | by etransitivity|].
    rewrite H3, writeln_text_lemma, lines_text_app, app_str_assoc by done. f_equal. f_equal.
    apply flat_map_ext. intros l'. by apply same_indent_format.
Qed.

(** Emptying the sink of a block. *)
Definition flushed_block (b : code_block) : code_block :=
  MkBlock (set_dest (cb_sink b) (MemoryDest [])) (cb_predecessor b) (cb_cleanup_actions b)
    (cb_last_cleanup_position b) (cb_error_return b) (cb_declarations b).

Lemma flush_block_eq i b ls g :
  h_blocks (wd_heap (g_world g)) !! i = Some b -> dest (cb_sink b) = MemoryDest ls ->
  flush_block i g =
    (Gen (set_heap (g_world g)
            (Heap (<[i := flushed_block b]> (h_blocks (wd_heap (g_world g))))
               (h_scopes (wd_heap (g_world g))) (h_dicts (wd_heap (g_world g)))))
         (write_lines ls (g_out g)), Ok tt).
Proof.
  intros Hi Hd. destruct g as [[h bl pl cl fl] o]. cbn [g_world wd_heap g_out] in *.
  unfold flush_block, st_bind, in_world, on_heap, deref. cbn [g_world wd_heap].
  rewrite Hi. cbn. unfold flush_to. by rewrite Hd.
Qed.

Lemma flush_declarations_eq i d ls g :
  h_scopes (wd_heap (g_world g)) !! i = Some d -> dest (ds_declarations d) = MemoryDest ls ->
  flush_declarations i g =
    (Gen (set_heap (g_world g)
            (Heap (h_blocks (wd_heap (g_world g)))
               (<[i := MkScope (set_dest (ds_declarations d) (MemoryDest []))
                         (ds_declared_variables d)]> (h_scopes (wd_heap (g_world g))))
               (h_dicts (wd_heap (g_world g)))))
         (write_lines ls (g_out g)), Ok tt).
Proof.
  intros Hi Hd. destruct g as [[h bl pl cl fl] o]. cbn [g_world wd_heap g_out] in *.
  unfold flush_declarations, st_bind, in_world, on_heap, deref. cbn [g_world wd_heap].
  rewrite Hi. cbn. unfold flush_to. by rewrite Hd.
Qed.

Lemma is_memory_dest k : is_memory k = true -> dest k = MemoryDest (memory_lines k).
Proof. unfold is_memory, memory_lines. by destruct (dest k). Qed.

(** The text of a forward wrapper: declarations, a blank line, and the blocks. *)
Definition forward_lines (h : heap) : list string :=
  scope_lines h 0 ++ [EmptyString] ++ block_lines h 0 ++ block_lines h 1 ++ block_lines h 2.

Lemma write_out_eq fw g pe e :
  fw_refs fw = MkWrapper ForwardWrapper 0 0 1 2 ->
  heap_same_wiring (new_forward_heap pe e) (wd_heap (g_world g)) ->
  exists h, write_out fw g =
    (Gen (set_heap (g_world g) h) (write_lines (forward_lines (wd_heap (g_world g))) (g_out g)),
     Ok tt).
Proof.
  intros Hr (Hb&Hs&_). destruct g as [[[bs scs ds] bl pl cl fl] o].
  cbn [g_world wd_heap h_blocks h_scopes g_out] in *.
  destruct bs as [|b1 [|b2 [|b3 [|]]]]; try discriminate.
  destruct scs as [|d [|]]; try discriminate.
  injection Hb as _ _ _ M1 _ _ _ M2 _ _ _ M3. injection Hs as _ M0.
  symmetry in M0, M1, M2, M3. apply is_memory_dest in M0, M1, M2, M3.
  unfold write_out. rewrite Hr. cbn [w_declarations w_before_parse w_before_call w_after_call].
  unfold st_bind at 1. erewrite flush_declarations_eq; [|reflexivity|exact M0].
  unfold st_bind at 1. cbn -[write_lines flush_block].
  unfold st_bind at 1. erewrite flush_block_eq; [|reflexivity|exact M1].
  unfold st_bind at 1. erewrite flush_block_eq; [|reflexivity|exact M2].
  erewrite flush_block_eq; [|reflexivity|exact M3].
  eexists. unfold set_heap. cbn -[write_lines]. f_equal. f_equal.
  unfold forward_lines, scope_lines, block_lines. cbn -[write_lines].
  change (EmptyString :: ?l) with ([EmptyString] ++ l). by rewrite !write_lines_app.
Qed.

(** Writing out rewires nothing either. *)
Definition same_wiring_gen (g g' : gen) : Prop := same_wiring (g_world g) (g_world g').
#[export] Instance same_wiring_gen_equiv : Equivalence same_wiring_gen.
Proof.
  unfold same_wiring_gen. split.
  - by intros g.
  - intros g g' H. by symmetry.
  - intros g g' g'' H1 H2. by etransitivity.
Qed.

Lemma wiring_in_world {A} (m : ST world A) :
  evolves same_wiring m -> evolves same_wiring_gen (in_world m).
Proof.
  intros H g. specialize (H (g_world g)). unfold in_world.
  destruct (m (g_world g)) as [s r]. exact H.
Qed.
Lemma wiring_out f : evolves same_wiring_gen (out f).
Proof. intros g. unfold out. by destruct (f (g_out g)). Qed.

Lemma wiring_flush_block i : evolves same_wiring_gen (flush_block i).
Proof.
  intros g. unfold flush_block, st_bind, in_world, on_heap, deref.
  destruct g as [[[bs scs ds] bl pl cl fl] o]. cbn [g_world wd_heap h_blocks].
  destruct (bs !! i) as [b|] eqn:E; cbn; [|done].
  unfold flush_to. destruct (dest (cb_sink b)) eqn:Ed; cbn; [done| |done].
  split_and!; cbn; try done. erewrite list_update_map; [done..|].
  unfold block_wiring, is_memory. cbn. by rewrite Ed.
Qed.

Lemma wiring_flush_declarations i : evolves same_wiring_gen (flush_declarations i).
Proof.
  intros g. unfold flush_declarations, st_bind, in_world, on_heap, deref.
  destruct g as [[[bs scs ds] bl pl cl fl] o]. cbn [g_world wd_heap h_scopes].
  destruct (scs !! i) as [d|] eqn:E; cbn; [|done].
  unfold flush_to. destruct (dest (ds_declarations d)) eqn:Ed; cbn; [done| |done].
  split_and!; cbn; try done. erewrite list_update_map; [done..|].
  unfold scope_wiring, is_memory. cbn. by rewrite Ed.
Qed.

Lemma wiring_write_out fw : evolves same_wiring_gen (write_out fw).
Proof.
  unfold write_out, out_writeln.
  repeat (apply evolves_bind; [apply _ | |intros _]);
    auto using wiring_flush_block, wiring_flush_declarations, wiring_out.
Qed.

Lemma in_world_bind {A B} (m : ST world A) (k : A -> ST gen B) s o :
  st_bind (in_world m) k (Gen s o) =
    match m s with
    | (s1, Ok a) => k a (Gen s1 o)
    | (s1, Raise e) => (Gen s1 o, Raise e)
    end.
Proof. unfold st_bind, in_world. cbn. by destruct (m s) as [s1 [a|e]]. Qed.

(** A generated body, from a state wired like that of a new wrapper. *)
Lemma generate_body_eq fw pe e s k :
  ForwardFrame fw ->
  fw_refs fw = MkWrapper ForwardWrapper 0 0 1 2 ->
  heap_same_wiring (new_forward_heap pe e) (wd_heap s) ->
  let '(s1, r) := generate_code fw s in
  same_wiring s s1 /\
  match r with
  | Ok _ => exists h, generate_body fw (Gen s k) =
      (Gen (set_heap s1 h) (write_lines (forward_lines (wd_heap s1)) k), Ok tt)
      /\ heap_same_wiring (wd_heap s1) h
  | Raise x => generate_body fw (Gen s k) = (Gen s1 k, Raise x)
  end.
Proof.
  intros Hf Hr Hs. pose proof (wiring_generate_code fw s) as Hw.
  unfold generate_body. rewrite in_world_bind.
  destruct (generate_code fw s) as [s1 [[]|x]]; cbn [fst] in Hw; (split; [exact Hw|]);
    [|reflexivity].
  assert (heap_same_wiring (new_forward_heap pe e) (wd_heap s1)) as Hs1
    by exact (transitivity Hs Hw).
  destruct (write_out_eq fw (Gen s1 k) pe e Hr Hs1) as [h E]. cbn [g_world g_out] in E.
  exists h. split; [exact E|].
  pose proof (wiring_write_out fw (Gen s1 k)) as Hwo. rewrite E in Hwo. exact Hwo.
Qed.

(** Operations on the heap leave the parameter lists and the flags alone. *)
Definition same_lists (s s' : world) : Prop :=
  wd_build_params s = wd_build_params s' /\ wd_parse_params s = wd_parse_params s'
  /\ wd_call_params s = wd_call_params s' /\ wd_meth_flags s = wd_meth_flags s'.
#[export] Instance same_lists_equiv : Equivalence same_lists.
Proof.
  unfold same_lists. split.
  - by intros s.
  - by intros s s' (->&->&->&->).
  - by intros s s' s'' (->&->&->&->).
Qed.
Lemma same_lists_on_heap {A} (m : ST heap A) : evolves same_lists (on_heap m).
Proof. intros s. unfold on_heap. by destruct (m (wd_heap s)). Qed.

Ltac same_lists :=
  repeat match goal with
    | |- forall _, _ => intros ?
    | |- evolves _ (st_bind _ _) => apply evolves_bind; [apply _|..]
    | |- evolves _ (st_ret _) => apply evolves_ret; apply _
    | |- evolves _ (st_raise _) => apply evolves_raise; apply _
    | |- evolves _ (st_when _ _) => apply evolves_when; [apply _|]
    | |- evolves _ (on_heap _) => apply same_lists_on_heap
    | |- evolves _ (match ?x with _ => _ end) => destruct x
    | |- evolves _ _ => progress unfold declare, before_call_code, after_call_code
    end.

Lemma same_lists_init fw : evolves same_lists (init_code_generation_state fw).
Proof. unfold init_code_generation_state. same_lists. Qed.
Lemma same_lists_gil rw : evolves same_lists (generate_gil_code rw).
Proof. unfold generate_gil_code. same_lists. Qed.

(** What the construction of a forward wrapper establishes. *)
Lemma forward_init_facts rv ps pe e fp nc ub hv gc bc br s s0 fw :
  wd_heap s = empty_heap ->
  ForwardWrapperBase_init rv ps pe e fp nc ub hv gc bc br s = (s0, Ok fw) ->
  fw_refs fw = MkWrapper ForwardWrapper 0 0 1 2 /\ wd_meth_flags s0 = []
  /\ heap_same_wiring (new_forward_heap pe e) (wd_heap s0).
Proof.
  intros Hs Hi. apply forward_init_eq in Hi as [Efw Hi]; [|done].
  pose proof (wiring_init_state fw (World (new_forward_heap pe e) [] [] [] [] (wd_py_names s))) as H0.
  pose proof (same_lists_init fw (World (new_forward_heap pe e) [] [] [] [] (wd_py_names s))) as (_&_&_&H1).
  rewrite Hi in H0, H1. split_and!; [by rewrite Efw | done | exact H0].
Qed.

(** ** Properties of the generators *)

(** C4: resetting a forward wrapper.  Whatever was done to the objects of a
    wrapper since its construction (declarations, code, cleanup actions,
    indentation, parameters, flags), as long as blocks and scopes were not
    rewired, [reset_code_generation_state] succeeds and brings back exactly the
    state right after construction; only the [py_name] attributes, which belong
    to the handlers, are kept. *)
Theorem reset_restores_construction (return_value : option return_handler)
    (parameters : list param_handler) (parse_error_return error_return : string)
    (force_parse : option Z) (no_c_retval unblock_threads have_return_value : bool)
    (generate_call before_call_hook before_return_hook : wrapper -> ST world unit)
    (s s0 s1 : world) (fw : forward_wrapper) :
  wd_heap s = empty_heap ->
  ForwardWrapperBase_init return_value parameters parse_error_return error_return force_parse
    no_c_retval unblock_threads have_return_value generate_call before_call_hook
    before_return_hook s = (s0, Ok fw) ->
  same_wiring s0 s1 ->
  forward_reset_code_generation_state fw s1 = (with_py_names s0 (wd_py_names s1), Ok tt).
Proof. apply forward_reset_lemma. Qed.

(** Resetting a reverse wrapper.  The same of [ReverseWrapperBase], whose
    reset also writes the code that takes the interpreter lock again. *)
Theorem reverse_reset_restores_construction (return_value : return_handler)
    (parameters : list param_handler) (error_return : option string) (no_gil_locking : bool)
    (generate_python_call : wrapper -> ST world unit) (s s0 s1 : world) (rw : reverse_wrapper) :
  wd_heap s = empty_heap ->
  ReverseWrapperBase_init return_value parameters error_return no_gil_locking
    generate_python_call s = (s0, Ok rw) ->
  same_wiring s0 s1 -> wd_call_params s1 = [] -> wd_meth_flags s1 = [] ->
  reverse_reset_code_generation_state rw s1 = (with_py_names s0 (wd_py_names s1), Ok tt).
Proof. apply reverse_reset_lemma. Qed.

(** C2: the dry run of [get_py_method_def_flags].  On a new wrapper it leaves the
    state as it found it, whether the generation succeeds or raises, but for the
    [py_name] attributes of class handlers, which it leaves as the generation
    does; and it tells the truth: it raises exactly what the real generation
    raises, and the flags it returns are those the real generation, into any
    sink, leaves. *)
Theorem dry_run_agrees (return_value : option return_handler)
    (parameters : list param_handler) (parse_error_return error_return : string)
    (force_parse : option Z) (no_c_retval unblock_threads have_return_value : bool)
    (generate_call before_call_hook before_return_hook : wrapper -> ST world unit)
    (s s0 : world) (fw : forward_wrapper) :
  wd_heap s = empty_heap ->
  ForwardWrapperBase_init return_value parameters parse_error_return error_return force_parse
    no_c_retval unblock_threads have_return_value generate_call before_call_hook
    before_return_hook s = (s0, Ok fw) ->
  ForwardFrame fw ->
  exists r n, get_py_method_def_flags fw s0 = (with_py_names s0 n, r)
  /\ forall k, wd_py_names (g_world (generate_body fw (Gen s0 k)).1) = n
  /\ match r, generate_body fw (Gen s0 k) with
     | Ok flags, (g, Ok _) => flags = list_to_set (wd_meth_flags (g_world g))
     | Raise x, (_, Raise y) => x = y
     | _, _ => False
     end.
Proof.
  intros Hs Hi Hf. pose proof (forward_init_facts _ _ _ _ _ _ _ _ _ _ _ _ _ _ Hs Hi)
    as (Hr&Hfl&Hw).
  pose proof (fun k => generate_body_eq fw _ _ s0 k Hf Hr Hw) as Hg.
  destruct (generate_code fw s0) as [s1 r] eqn:Ec.
  assert (forall s2 k r', generate_body fw (Gen s0 NullCodeSink) = (Gen s2 k, r') ->
    same_wiring s0 s2 ->
    get_py_method_def_flags fw s0 =
      (with_py_names s0 (wd_py_names s2),
       match r' with Ok _ => Ok (list_to_set (wd_meth_flags s2)) | Raise x => Raise x end))
    as Hrun.
  { intros s2 k r' Eg Hw2. unfold get_py_method_def_flags, st_get, st_bind at 1.
    rewrite Hfl. cbn [list_to_set foldr]. rewrite bool_decide_eq_false_2 by (by intros H; apply H).
    unfold st_finally, st_bind. rewrite Eg. cbn [g_world].
    destruct r' as [[]|x];
      by erewrite (forward_reset_lemma return_value parameters parse_error_return error_return)
        by (first [exact Hs | exact Hi | exact Hw2]). }
  destruct (Hg NullCodeSink) as [Hw1 Hn]. destruct r as [[]|x].
  - destruct Hn as (h&En&Hh). do 2 eexists. split.
    + eapply Hrun; [exact En|]. transitivity s1; [done|]. exact Hh.
    + intros k. destruct (Hg k) as [_ (h'&->&_)]. done.
  - do 2 eexists. split; [eapply Hrun; [exact Hn | done]|]. intros k.
    by destruct (Hg k) as [_ ->].
Qed.

(** C3: generation is all or nothing, and declarations come first.  If anything
    raises while the code of a new wrapper is generated, the target sink is
    left untouched; otherwise its text is extended by exactly the lines of the
    declarations, a blank line, the lines of [before_parse], of [before_call]
    and of [after_call], in this order, each stripped on the right and indented
    by the target, whose indentation state is kept. *)
Theorem generate_body_all_or_nothing (return_value : option return_handler)
    (parameters : list param_handler) (parse_error_return error_return : string)
    (force_parse : option Z) (no_c_retval unblock_threads have_return_value : bool)
    (generate_call before_call_hook before_return_hook : wrapper -> ST world unit)
    (s s0 : world) (fw : forward_wrapper) (k : code_sink) :
  wd_heap s = empty_heap ->
  ForwardWrapperBase_init return_value parameters parse_error_return error_return force_parse
    no_c_retval unblock_threads have_return_value generate_call before_call_hook
    before_return_hook s = (s0, Ok fw) ->
  ForwardFrame fw -> is_null k = false ->
  match generate_body fw (Gen s0 k) with
  | (g, Raise x) => g_out g = k
  | (g, Ok _) => exists s1, generate_code fw s0 = (s1, Ok tt)
      /\ same_indent (g_out g) k
      /\ sink_text (g_out g) = sink_text k +:+
           lines_text (flat_map (fun l => format_code k (rstrip l))
             (scope_lines (wd_heap s1) 0 ++ [EmptyString] ++ block_lines (wd_heap s1) 0
              ++ block_lines (wd_heap s1) 1 ++ block_lines (wd_heap s1) 2))
  end.
Proof.
  intros Hs Hi Hf Hk. pose proof (forward_init_facts _ _ _ _ _ _ _ _ _ _ _ _ _ _ Hs Hi)
    as (Hr&_&Hw).
  pose proof (generate_body_eq fw _ _ s0 k Hf Hr Hw) as Hg.
  destruct (generate_code fw s0) as [s1 [[]|x]] eqn:Ec; destruct Hg as [_ Hg].
  - destruct Hg as (h&->&_). exists s1.
    destruct (write_lines_text (forward_lines (wd_heap s1)) k Hk) as (_&?&?). done.
  - by rewrite Hg.
Qed.

Lemma add_params_or_error nb np nc msg m :
  add_params nb np nc m -> add_params nb np nc (or_code_generation_error msg m).
Proof.
  intros H s s' a. unfold or_code_generation_error, st_catch.
  destruct (m s) as [s1 [b|x]] eqn:E.
  - intros [= <- <-]. eapply H, E.
  - destruct x; intros E'; discriminate E'.
Qed.

Definition count_if (f : Z -> bool) (cps : list (param_class * param)) : nat :=
  length (List.filter (fun cp => f (p_direction cp.2)) cps).

Lemma count_if_cons f cp cps :
  count_if f (cp :: cps) = (Nat.b2n (f (p_direction cp.2)) + count_if f cps)%nat.
Proof. unfold count_if. simpl. by destruct (f (p_direction cp.2)). Qed.

Lemma add_params_iter (body : param_handler -> ST world unit) (f g : Z -> bool) n cps :
  Forall (fun cp => add_params (Nat.b2n (f (p_direction cp.2))) (Nat.b2n (g (p_direction cp.2))) n
                      (body (param_handler_of cp.1 cp.2))) cps ->
  add_params (count_if f cps) (count_if g cps) (n * length cps)
    (st_iter body (handlers cps)).
Proof.
  induction 1 as [|cp cps Hcp H IH]; simpl.
  - eapply add_params_eq; [apply add_params_ret|..]; [done|done|]. by rewrite Nat.mul_0_r.
  - eapply add_params_eq.
    + eapply add_params_bind; [exact Hcp | intros _; exact IH].
    + by rewrite count_if_cons.
    + by rewrite count_if_cons.
    + lia.
Qed.

(** The arity of a call.  After [convert_python_to_c] of parameters whose
    classes satisfy their contract, in directions they support, the C call has
    exactly one argument per parameter, [PyArg_ParseTuple] one item per
    parameter with an input part, and [Py_BuildValue] one item per parameter
    with an output part, next to those there were before. *)
Theorem convert_parameters_arity (cps : list (param_class * param)) (fw : forward_wrapper)
    (s s' : world) :
  Forall contracted cps -> fw_parameters fw = handlers cps ->
  convert_parameters fw s = (s', Ok tt) ->
  length (wd_call_params s') = (length (wd_call_params s) + length cps)%nat
  /\ length (wd_parse_params s') = (length (wd_parse_params s) + count_if has_in cps)%nat
  /\ length (wd_build_params s') = (length (wd_build_params s) + count_if has_out cps)%nat.
Proof.
  intros Hc Hp. unfold convert_parameters. rewrite Hp. intros E.
  assert (add_params (count_if has_out cps) (count_if has_in cps) (1 * length cps)
    (st_iter (fun p => or_code_generation_error
        ("convert_python_to_c method of parameter " +:+ ph_ctype p +:+ " not implemented")
        (ph_convert_python_to_c p (fw_refs fw))) (handlers cps))) as H.
  { apply add_params_iter. eapply Forall_impl; [exact Hc|]. intros [c p] [Hcc Hd].
    apply add_params_or_error, py2c_counts. exact Hd. }
  apply H in E. unfold counts in E. injection E as E1 E2 E3. split_and!; simpl in *; lia.
Qed.

Lemma parse_lists_kept {A} (m : ST world A) s s' a :
  evolves same_lists m -> m s = (s', Ok a) -> wd_meth_flags s' = wd_meth_flags s.
Proof. intros H E. specialize (H s). rewrite E in H. symmetry. apply H. Qed.

(** The flags of the branches with arguments. *)
Definition parse_flags_added (fw : forward_wrapper) (s s' : world)
    (keywords : option (list string)) : Prop :=
  wd_meth_flags s' = wd_meth_flags s ++
    (if bool_decide (keywords = None)
     then if bool_decide (fw_force_parse fw <> Some PARSE_TUPLE_AND_KEYWORDS)
          then ["METH_VARARGS"] else ["METH_VARARGS"; "METH_KEYWORDS"]
     else ["METH_VARARGS"; "METH_KEYWORDS"]).

Lemma generate_parse_call fw s s' params keywords :
  parse_get_parameters (wd_parse_params s) = Ok params ->
  get_keywords (wd_parse_params s) = Ok keywords ->
  ~ (params = empty_format /\ fw_force_parse fw = None) ->
  generate_parse fw s = (s', Ok tt) -> parse_flags_added fw s s' keywords.
Proof.
  intros Hp Hk Hna. unfold generate_parse, parse_query. unfold st_bind at 1. rewrite Hp.
  unfold st_bind at 1. rewrite Hk.
  assert (negb (bool_decide (params = empty_format))
          || bool_decide (is_Some (fw_force_parse fw)) = true) as ->.
  { case_bool_decide as E1; [|done]. case_bool_decide as E2; [done|]. exfalso. apply Hna.
    split; [done|]. destruct (fw_force_parse fw); [exfalso; apply E2; by eexists|done]. }
  intros H. apply st_bind_Ok in H as (s1&[]&F1&H). injection F1 as <-.
  unfold parse_flags_added.
  case_bool_decide as E1; [case_bool_decide as E2|]; cbn [negb andb] in H.
  - rewrite bool_decide_eq_false_2 by tauto.
    apply st_bind_Ok in H as (s2&v&F2%parse_lists_kept&H); [|same_lists].
    apply st_bind_Ok in H as (s3&[]&F3%parse_lists_kept&H); [|same_lists].
    injection H as <-. cbn. rewrite F3, F2. cbn. by rewrite <- app_assoc.
  - rewrite bool_decide_eq_true_2 by done.
    apply parse_lists_kept in H; [|same_lists]. by rewrite H.
  - apply st_bind_Ok in H as (s2&v&F2%parse_lists_kept&H); [|same_lists].
    apply st_bind_Ok in H as (s3&[]&F3%parse_lists_kept&H); [|same_lists].
    injection H as <-. cbn. rewrite F3, F2. cbn. by rewrite <- app_assoc.
Qed.

(** The calling convention.  When the code of the argument parsing is
    generated, exactly one of three conventions is announced in the method's
    flags: [METH_NOARGS] when the format is empty and parsing is not forced;
    [METH_VARARGS] alone when the items have no names and keywords are not
    forced; [METH_VARARGS] and [METH_KEYWORDS] otherwise. *)
Theorem generate_parse_flags (fw : forward_wrapper) (s s' : world) (params : list string)
    (keywords : option (list string)) :
  parse_get_parameters (wd_parse_params s) = Ok params ->
  get_keywords (wd_parse_params s) = Ok keywords ->
  generate_parse fw s = (s', Ok tt) ->
  let no_arguments := params = empty_format /\ fw_force_parse fw = None in
  let positional := keywords = None /\ fw_force_parse fw <> Some PARSE_TUPLE_AND_KEYWORDS in
  (no_arguments -> wd_meth_flags s' = wd_meth_flags s ++ ["METH_NOARGS"])
  /\ (~ no_arguments -> positional -> wd_meth_flags s' = wd_meth_flags s ++ ["METH_VARARGS"])
  /\ (~ no_arguments -> ~ positional ->
        wd_meth_flags s' = wd_meth_flags s ++ ["METH_VARARGS"; "METH_KEYWORDS"]).
Proof.
  intros Hp Hk H no_arguments positional.
  assert (~ no_arguments -> parse_flags_added fw s s' keywords) as Hcall.
  { intros Hna. eapply generate_parse_call; [exact Hp | exact Hk | exact Hna | exact H]. }
  split_and!.
  - intros [-> Hf]. unfold generate_parse, parse_query, st_bind in H. rewrite Hp, Hk, Hf in H.
    by injection H as <-.
  - intros Hna [Hpos1 Hpos2]. specialize (Hcall Hna). unfold parse_flags_added in Hcall.
    by rewrite !bool_decide_eq_true_2 in Hcall by done.
  - intros Hna Hpos. specialize (Hcall Hna). unfold parse_flags_added in Hcall.
    case_bool_decide as E1; [|done]. case_bool_decide as E2; [|done].
    exfalso. apply Hpos. by split.
Qed.

(** ** A wrapper of [int foo(int a, double *b /* out */)] *)

Definition demo_param (c : param_class) (ctype name : string) (k : kwargs)
    : list (param_class * param) :=
  match pc_new c (CString ctype) name k with Ok p => [(c, p)] | Raise _ => [] end.
Definition demo_params : list (param_class * param) :=
  demo_param IntParam "int" "a" no_kwargs
  ++ demo_param DoublePtrParam "double*" "b" (Kwargs (Some DIRECTION_OUT) None None None None).
Definition demo_return : option return_handler :=
  match rc_new IntReturn (CString "int") None None with
  | Ok r => Some (return_handler_of IntReturn r)
  | Raise _ => None
  end.
Definition demo_call (w : wrapper) : ST world unit :=
  args <- st_get (fun s => wd_call_params s) ;;
  before_call_code w ("retval = foo(" +:+ join ", " args +:+ ");").
Definition no_hook (w : wrapper) : ST world unit := st_ret tt.
Definition empty_world : world := World empty_heap [] [] [] [] ∅.
Definition demo_init : world * res forward_wrapper :=
  ForwardWrapperBase_init demo_return (handlers demo_params) "return NULL;" "return NULL;"
    None false false false demo_call no_hook no_hook empty_world.
Definition demo_fw : forward_wrapper :=
  MkForward demo_return (handlers demo_params) (MkWrapper ForwardWrapper 0 0 1 2) None false false
    (VBool false) None None None false demo_call no_hook no_hook.

Lemma demo_contracted : Forall contracted demo_params.
Proof.
  unfold demo_params, demo_param. apply Forall_app. split; vm_compute pc_new.
  - constructor; [|constructor]. split; [exact IntParam_contract | by left].
  - constructor; [|constructor]. split; [exact DoublePtrParam_contract | right; by left].
Qed.

#[export] Instance demo_frame : ForwardFrame demo_fw.
Proof.
  split.
  - apply contracted_py2c_frame, demo_contracted.
  - intros rv w H. unfold demo_fw, demo_return in H. cbn [fw_return_value] in H.
    destruct (rc_new IntReturn (CString "int") None None) as [r|]; [|discriminate].
    injection H as <-. apply (ret_c2py_wiring (c:=IntReturn)).
  - intros w. unfold demo_fw, demo_call. cbn [fw_generate_call]. wiring. by intros s.
  - intros w s. reflexivity.
  - intros w s. reflexivity.
Qed.

Lemma demo_init_ok : demo_init = (fst demo_init, Ok demo_fw).
Proof. vm_compute. reflexivity. Qed.

Lemma reset_restores_construction_witness :
  let s1 := fst (generate_code demo_fw (fst demo_init)) in
  forward_reset_code_generation_state demo_fw s1
    = (with_py_names (fst demo_init) (wd_py_names s1), Ok tt).
Proof.
  apply (reset_restores_construction demo_return (handlers demo_params) "return NULL;"
            "return NULL;" None false false false demo_call no_hook no_hook empty_world
            (fst demo_init) _ demo_fw eq_refl demo_init_ok).
  apply (wiring_generate_code demo_fw).
Defined.

Lemma dry_run_agrees_witness :
  exists r n, get_py_method_def_flags demo_fw (fst demo_init) = (with_py_names (fst demo_init) n, r)
  /\ forall k, wd_py_names (g_world (generate_body demo_fw (Gen (fst demo_init) k)).1) = n
  /\ match r, generate_body demo_fw (Gen (fst demo_init) k) with
     | Ok flags, (g, Ok _) => flags = list_to_set (wd_meth_flags (g_world g))
     | Raise x, (_, Raise y) => x = y
     | _, _ => False
     end.
Proof.
  apply (dry_run_agrees demo_return (handlers demo_params) "return NULL;" "return NULL;"
           None false false false demo_call no_hook no_hook empty_world (fst demo_init) demo_fw
           eq_refl demo_init_ok demo_frame).
Defined.

(** The text of the demonstration wrapper. *)
Definition demo_text : string :=
  join nls
    ["PyObject *py_retval;"; "int retval;"; "int a;"; "double  b;";
     "const char *keywords[] = {" +:+ dq +:+ "a" +:+ dq +:+ ", NULL};"; EmptyString;
     "if (!PyArg_ParseTupleAndKeywords(args, kwargs, (char *) " +:+ dq +:+ "i" +:+ dq
       +:+ ", (char **) keywords, &a)) {";
     "    return NULL;"; "}"; "retval = foo(a, &b);";
     "py_retval = Py_BuildValue((char *) " +:+ dq +:+ "id" +:+ dq +:+ ", retval, b);";
     "return py_retval;"; EmptyString].

Lemma demo_generates :
  sink_text (g_out (fst (generate_body demo_fw (Gen (fst demo_init) MemoryCodeSink)))) = demo_text.
Proof. vm_compute. reflexivity. Qed.

Lemma generate_body_all_or_nothing_witness :
  match generate_body demo_fw (Gen (fst demo_init) MemoryCodeSink) with
  | (g, Raise x) => g_out g = MemoryCodeSink
  | (g, Ok _) => exists s1, generate_code demo_fw (fst demo_init) = (s1, Ok tt)
      /\ same_indent (g_out g) MemoryCodeSink
      /\ sink_text (g_out g) = sink_text MemoryCodeSink +:+
           lines_text (flat_map (fun l => format_code MemoryCodeSink (rstrip l))
             (scope_lines (wd_heap s1) 0 ++ [EmptyString] ++ block_lines (wd_heap s1) 0
              ++ block_lines (wd_heap s1) 1 ++ block_lines (wd_heap s1) 2))
  end.
Proof.
  apply (generate_body_all_or_nothing demo_return (handlers demo_params) "return NULL;"
           "return NULL;" None false false false demo_call no_hook no_hook empty_world
           (fst demo_init) demo_fw MemoryCodeSink eq_refl demo_init_ok demo_frame eq_refl).
Defined.

Lemma convert_parameters_ok :
  snd (convert_parameters demo_fw (fst demo_init)) = Ok tt.
Proof. vm_compute. reflexivity. Qed.

Lemma convert_parameters_arity_witness :
  let s' := fst (convert_parameters demo_fw (fst demo_init)) in
  length (wd_call_params s') = (length (wd_call_params (fst demo_init)) + 2)%nat
  /\ length (wd_parse_params s') = (length (wd_parse_params (fst demo_init)) + 1)%nat
  /\ length (wd_build_params s') = (length (wd_build_params (fst demo_init)) + 1)%nat.
Proof.
  apply (convert_parameters_arity demo_params demo_fw (fst demo_init) _ demo_contracted eq_refl).
  rewrite <- convert_parameters_ok. apply surjective_pairing.
Defined.

Lemma generate_parse_flags_witness :
  wd_meth_flags (fst (generate_parse demo_fw
    (World (new_forward_heap "return NULL;" "return NULL;") []
       [ParseItem "i" ["&a"] None false] [] [] ∅))) = ["METH_VARARGS"].
Proof.
  apply (generate_parse_flags demo_fw
    (World (new_forward_heap "return NULL;" "return NULL;") []
       [ParseItem "i" ["&a"] None false] [] [] ∅) _ [dq +:+ "i" +:+ dq; "&a"] None);
    [reflexivity | reflexivity | reflexivity | | ].
  - intros [H _]. discriminate H.
  - split; [reflexivity|]. discriminate.
Defined.

Definition demo_reverse_call (w : wrapper) : ST world unit :=
  before_call_code w "py_retval = PyObject_CallMethod(self, foo);".
Definition demo_void : return_handler :=
  MkReturnHandler "void" "void" false (Ok "return;")
    (fun w => parse_add EmptyString [] None true false) (fun w => st_ret tt) None false false.
Definition demo_rw : reverse_wrapper :=
  MkReverse demo_void [] (MkWrapper ReverseWrapper 0 0 0 1) false demo_reverse_call.
Definition demo_reverse_init : world * res reverse_wrapper :=
  ReverseWrapperBase_init demo_void [] None false demo_reverse_call empty_world.

Lemma reverse_reset_restores_construction_witness :
  let s1 := fst (reverse_generate_code demo_rw (fst demo_reverse_init)) in
  reverse_reset_code_generation_state demo_rw s1
    = (with_py_names (fst demo_reverse_init) (wd_py_names s1), Ok tt).
Proof.
  apply (reverse_reset_restores_construction demo_void [] None false demo_reverse_call empty_world
           (fst demo_reverse_init) _ demo_rw); reflexivity || vm_compute; split_and!; reflexivity.
Defined.
