(* ===== verification/Utils.v ===== *)
(** * Utilities: [pybindgen/utils.py]

    Name mangling, error handling around a wrapper, and the delayed parameter
    and return value specifications. *)
From Stdlib Require Import NArith.
From S2P Require Import Prelude.
From S2P Require Import CodeSink.

(** ** The preamble of a generated file *)

(** The start of a generated file, after the version *)
Definition preamble_includes : string :=
  join nls
    [" */";
     "#define PY_SSIZE_T_CLEAN";
     "#include <Python.h>";
     "#include <stddef.h>";
     EmptyString].

(** What Python 2.3 lacks *)
Definition preamble_2_4 : string :=
  join nls
    [EmptyString;
     "#if PY_VERSION_HEX < 0x020400F0";
     EmptyString;
     "#define PyEval_ThreadsInitialized() 1";
     EmptyString;
     "#define Py_CLEAR(op)				\";
     "        do {                            	\";
     "                if (op) {			\";
     "                        PyObject *tmp = (PyObject *)(op);	\";
     "                        (op) = NULL;		\";
     "                        Py_DECREF(tmp);		\";
     "                }				\";
     "        } while (0)";
     EmptyString;
     EmptyString;
     "#define Py_VISIT(op)							\";
     "        do { 								\";
     "                if (op) {						\";
     "                        int vret = visit((PyObject *)(op), arg);	\";
     "                        if (vret)					\";
     "                                return vret;				\";
     "                }							\";
     "        } while (0)";
     EmptyString;
     "#endif";
     EmptyString;
     EmptyString].

(** What Python 2.4 lacks *)
Definition preamble_2_5 : string :=
  join nls
    [EmptyString;
     "#if PY_VERSION_HEX < 0x020500F0";
     EmptyString;
     "typedef int Py_ssize_t;";
     "# define PY_SSIZE_T_MAX INT_MAX";
     "# define PY_SSIZE_T_MIN INT_MIN";
     "typedef inquiry lenfunc;";
     "typedef intargfunc ssizeargfunc;";
     "typedef intobjargproc ssizeobjargproc;";
     EmptyString;
     "#endif";
     EmptyString].

(** What every generated file needs *)
Definition preamble_types : string :=
  join nls
    [EmptyString;
     "#if     __GNUC__ > 2";
     "# define PYBINDGEN_UNUSED(param) param __attribute__((__unused__))";
     "#elif     __GNUC__ > 2 || (__GNUC__ == 2 && __GNUC_MINOR__ > 4)";
     "# define PYBINDGEN_UNUSED(param) __attribute__((__unused__)) param";
     "#else";
     "# define PYBINDGEN_UNUSED(param) param";
     "#endif  /* !__GNUC__ */";
     EmptyString;
     "typedef enum _PyBindGenWrapperFlags {";
     "   PYBINDGEN_WRAPPER_FLAG_NONE = 0,";
     "   PYBINDGEN_WRAPPER_FLAG_OBJECT_NOT_OWNED = (1<<0),";
     "} PyBindGenWrapperFlags;";
     EmptyString;
     EmptyString].

Definition version : list Z := [0; 16; 0].

(** [min_python_version < version], on pairs *)
Definition version_lt (a b : Z * Z) : bool :=
  (a.1 <? b.1) || ((a.1 =? b.1) && (a.2 <? b.2)).

(** [settings.min_python_version] *)
Definition default_min_python_version : Z * Z := (2, 3).

(** [already] says that the sink was given a preamble before. *)
Definition write_preamble (min_python_version : Z * Z) (already : bool) (k : code_sink) : code_sink :=
  if already then k
  else
    let k := writeln k ("/* This file was generated by PyBindGen "
                        +:+ join "." (map show_int version) +:+ preamble_includes) in
    let k := if version_lt min_python_version (2, 4) then writeln k preamble_2_4 else k in
    let k := if version_lt min_python_version (2, 5) then writeln k preamble_2_5 else k in
    writeln k preamble_types.

(** ** Name mangling *)

(** [s.replace(c, by)] for a one-character [c] *)
Fixpoint replace_char (c : ascii) (by_ : string) (s : string) : string :=
  match s with
  | EmptyString => EmptyString
  | String a s' =>
      (if Ascii.eqb a c then by_ else String a EmptyString) +:+ replace_char c by_ s'
  end.

Definition mangle_name (name : string) : string :=
  let s := replace_char "," "_" (replace_char ">" "__gt__" (replace_char "<" "__lt__" name)) in
  let s := replace_char "*" "__star__" (replace_char "&" "__amp__" (replace_char " " "_" s)) in
  let s := replace_char ":" "_" s in
  replace_char ")" "_rp_" (replace_char "(" "_lp_" s).

Definition get_mangled_name (base_name : string) (template_args : list string) : string :=
  match template_args with
  | [] => mangle_name base_name
  | _ => mangle_name base_name +:+ "__lt__" +:+ join "_" (map mangle_name template_args)
         +:+ "__gt__"
  end.

(** ** Error handling *)

(** [settings.error_handler] for a wrapper: [None], or its [handle_error] method,
    which says whether to ignore the exception. *)
Definition error_handler (S : Type) : Type := option (pyexn -> ST S bool).

Definition default_exceptions (e : pyexn) : bool :=
  match e with
  | TypeConfigurationError | CodeGenerationError _ | NotSupportedError => true
  | _ => false
  end.

Definition call_with_error_handling {S A} (handler : error_handler S) (callback : ST S A)
    (exceptions_to_handle : pyexn -> bool) : ST S A :=
  match handler with
  | None => callback
  | Some handle_error =>
      st_catch callback (fun ex =>
        if exceptions_to_handle ex then
          ignore <- handle_error ex ;;
          if ignore : bool then st_raise SkipWrapper else st_raise ex
        else st_raise ex)
  end.

(** ** [ascii] *)

(** The values [ascii] distinguishes; a unicode string is a list of code points. *)
Inductive text_value : Type :=
  | NoText
  | StrText (s : string)
  | UnicodeText (points : list N)
  | OtherValue.

Fixpoint encode_ascii (points : list N) : res string :=
  match points with
  | [] => Ok EmptyString
  | p :: ps =>
      if (p <? 128)%N then s <-? encode_ascii ps ;; Ok (String (ascii_of_N p) s)
      else Raise ValueError
  end.

Definition ascii_of_value (value : text_value) : res (option string) :=
  match value with
  | NoText => Ok None
  | StrText s => Ok (Some s)
  | UnicodeText ps => s <-? encode_ascii ps ;; Ok (Some s)
  | OtherValue => Raise TypeError
  end.

(** ** Delayed parameters and return values *)

Section specs.
Context {A K : Type}.

(** An element of a specification tuple: an argument, or a dictionary of
    keyword arguments. *)
Inductive spec_item : Type :=
  | Arg (a : A)
  | Dict (k : K).

(** A specification: a tuple, a string (as the argument it stands for), an
    object that is a handler already, or something else. *)
Inductive spec (H : Type) : Type :=
  | Tuple (l : list spec_item)
  | Str (a : A)
  | Handler (h : H)
  | OtherSpec.
Arguments Tuple {H} l.
Arguments Str {H} a.
Arguments Handler {H} h.
Arguments OtherSpec {H}.

(** [param] and [retval] of the module: the arguments and the keywords packed. *)
Definition param {H} (args : list spec_item) (kwargs : K) : spec H := Tuple (args ++ [Dict kwargs]).
Definition retval {H} (args : list spec_item) (kwargs : K) : spec H := Tuple (args ++ [Dict kwargs]).

(** The split of a tuple into arguments and keywords. *)
Definition split_spec (no_kwargs : K) (l : list spec_item) : list spec_item * K :=
  match last l with
  | Some (Dict k) => (removelast l, k)
  | _ => (l, no_kwargs)
  end.

Definition parse_param_spec {H} (no_kwargs : K) (param_spec : spec H)
    : res (list spec_item * K) :=
  match param_spec with
  | Tuple l => if (2 <=? length l)%nat then Ok (split_spec no_kwargs l) else Raise AssertionError
  | _ => Raise TypeError
  end.

Definition parse_retval_spec {H} (no_kwargs : K) (retval_spec : spec H)
    : res (list spec_item * K) :=
  match retval_spec with
  | Tuple l => if (1 <=? length l)%nat then Ok (split_spec no_kwargs l) else Raise AssertionError
  | Str a => Ok ([Arg a], no_kwargs)
  | _ => Raise TypeError
  end.

Definition eval_exceptions (e : pyexn) : bool :=
  match e with
  | TypeConfigurationError | NotSupportedError | TypeLookupError _ => true
  | _ => false
  end.

(** [new] is [Parameter.new] or [ReturnValue.new] with all its arguments. *)
Definition eval_param {S H} (new : list spec_item -> K -> ST S H) (handler : error_handler S)
    (no_kwargs : K) (param_value : spec H) : ST S H :=
  match param_value with
  | Handler h => st_ret h
  | _ => p <- st_lift (parse_param_spec no_kwargs param_value) ;;
         call_with_error_handling handler (new p.1 p.2) eval_exceptions
  end.

Definition eval_retval {S H} (new : list spec_item -> K -> ST S H) (handler : error_handler S)
    (no_kwargs : K) (retval_value : spec H) : ST S H :=
  match retval_value with
  | Handler h => st_ret h
  | _ => p <- st_lift (parse_retval_spec no_kwargs retval_value) ;;
         call_with_error_handling handler (new p.1 p.2) eval_exceptions
  end.

Lemma split_spec_snoc no_kwargs l k : split_spec no_kwargs (l ++ [Dict k]) = (l, k).
Proof. unfold split_spec. by rewrite last_snoc, removelast_last. Qed.
End specs.

(** ** Correctness of the mangling *)

(** What one character is mangled to. *)
Definition mangle_char (c : ascii) : string :=
  if Ascii.eqb c "<" then "__lt__"
  else if Ascii.eqb c ">" then "__gt__"
  else if Ascii.eqb c "&" then "__amp__"
  else if Ascii.eqb c "*" then "__star__"
  else if Ascii.eqb c "(" then "_lp_"
  else if Ascii.eqb c ")" then "_rp_"
  else if Ascii.eqb c "," || Ascii.eqb c " " || Ascii.eqb c ":" then "_"
  else String c EmptyString.

Fixpoint concat_map (f : ascii -> string) (s : string) : string :=
  match s with EmptyString => EmptyString | String c s' => f c +:+ concat_map f s' end.

Lemma replace_char_app c r s1 s2 :
  replace_char c r (s1 +:+ s2) = replace_char c r s1 +:+ replace_char c r s2.
Proof.
  induction s1 as [|a s1 IH]; simpl; [done|]. rewrite IH. apply app_str_assoc.
Qed.

Lemma mangle_name_app s1 s2 : mangle_name (s1 +:+ s2) = mangle_name s1 +:+ mangle_name s2.
Proof. unfold mangle_name. by rewrite !replace_char_app. Qed.

Lemma mangle_name_char c : mangle_name (String c EmptyString) = mangle_char c.
Proof. by destruct c as [[] [] [] [] [] [] [] []]. Qed.

Lemma mangle_name_map s : mangle_name s = concat_map mangle_char s.
Proof.
  induction s as [|c s IH]; [done|].
  change (String c s) with (String c EmptyString +:+ s).
  by rewrite mangle_name_app, mangle_name_char, IH.
Qed.

(** Characters of C identifiers, and those the mangling knows. *)
Definition identifier_char (c : ascii) : bool :=
  islower c || isupper c || isdigit c || Ascii.eqb c "_".
Definition mangled_char (c : ascii) : bool := str_in c "<>,&*:() ".

Lemma all_chars_app p s1 s2 : all_chars p (s1 +:+ s2) = all_chars p s1 && all_chars p s2.
Proof. induction s1 as [|c s1 IH]; simpl; [done|]. by rewrite IH, andb_assoc. Qed.

Lemma mangle_char_identifier c :
  identifier_char c || mangled_char c = true -> all_chars identifier_char (mangle_char c) = true.
Proof. by destruct c as [[] [] [] [] [] [] [] []]. Qed.

Lemma mangle_name_identifier s :
  all_chars (fun c => identifier_char c || mangled_char c) s = true ->
  all_chars identifier_char (mangle_name s) = true.
Proof.
  rewrite mangle_name_map. induction s as [|c s IH]; simpl; [done|].
  intros [Hc Hs]%andb_true_iff. rewrite all_chars_app, mangle_char_identifier, IH; done.
Qed.

Lemma mangle_join l :
  Forall (fun s => all_chars (fun c => identifier_char c || mangled_char c) s = true) l ->
  all_chars identifier_char (join "_" (map mangle_name l)) = true.
Proof.
  induction 1 as [|s l Hs Hl IH]; [done|]. destruct l as [|s' l].
  - simpl. by apply mangle_name_identifier.
  - change (map mangle_name (s :: s' :: l)) with (mangle_name s :: map mangle_name (s' :: l)).
    rewrite join_cons by done. rewrite !all_chars_app, mangle_name_identifier, IH; done.
Qed.

(** Mangled names are C identifiers.  The chain of replacements of
    [mangle_name] acts character by character (no replacement touches the
    result of another), and when a C++ name and its template arguments are
    made of identifier characters, blanks and the punctuation of types, the
    result of [get_mangled_name] has identifier characters only. *)
Theorem get_mangled_name_identifier (base_name : string) (template_args : list string) :
  all_chars (fun c => identifier_char c || mangled_char c) base_name = true ->
  Forall (fun s => all_chars (fun c => identifier_char c || mangled_char c) s = true)
    template_args ->
  mangle_name base_name = concat_map mangle_char base_name
  /\ all_chars identifier_char (get_mangled_name base_name template_args) = true.
Proof.
  intros Hb Ht. split; [apply mangle_name_map|]. unfold get_mangled_name.
  pose proof (mangle_join _ Ht) as Hj.
  destruct template_args as [|a l]; [by apply mangle_name_identifier|].
  rewrite !all_chars_app, mangle_name_identifier, Hj; done.
Qed.

Lemma get_mangled_name_identifier_witness :
  get_mangled_name "std::vector" ["Foo*"; "a<b, c>"]
    = "std__vector__lt__Foo__star___a__lt__b__c__gt____gt__"
  /\ all_chars identifier_char (get_mangled_name "std::vector" ["Foo*"; "a<b, c>"]) = true.
Proof.
  split; [reflexivity|].
  apply (get_mangled_name_identifier "std::vector" ["Foo*"; "a<b, c>"]);
    [reflexivity | repeat constructor].
Defined.

(** ** Correctness of the specifications and of the error handling *)

(** Specifications round trip.  What [param(...)] and [retval(...)] pack is
    what [parse_param_spec] and [parse_retval_spec] give back, provided a
    parameter has some argument; a handler object is evaluated to itself
    without calling [new]. *)
Theorem spec_roundtrip {A K S H : Type} (args : list (@spec_item A K)) (kwargs no_kwargs : K)
    (new : list (@spec_item A K) -> K -> ST S H) (handler : error_handler S) (h : H) :
  (args <> [] -> parse_param_spec (H:=H) no_kwargs (param args kwargs) = Ok (args, kwargs))
  /\ parse_retval_spec (H:=H) no_kwargs (retval args kwargs) = Ok (args, kwargs)
  /\ eval_param new handler no_kwargs (Handler _ h) = st_ret h
  /\ eval_retval new handler no_kwargs (Handler _ h) = st_ret h.
Proof.
  unfold parse_param_spec, parse_retval_spec, param, retval. rewrite length_app. simpl.
  rewrite split_spec_snoc. split_and!; try done.
  - intros Hne. destruct args; [done|]. simpl. by rewrite Nat.add_1_r.
  - by rewrite Nat.add_1_r.
Qed.

Lemma spec_roundtrip_witness :
  parse_param_spec (H:=nat) false (param [Arg "int"; Arg "x"] true)
    = Ok ([Arg "int"; Arg "x"], true).
Proof.
  refine (proj1 (spec_roundtrip (A:=string) (K:=bool) (S:=unit) (H:=nat) [Arg "int"; Arg "x"]
                   true false (fun _ _ => st_ret 0%nat) None 0%nat) _). discriminate.
Defined.

(** Errors reach the handler, and only those asked for.  Without an error
    handler [call_with_error_handling] is the call itself; with one, a success
    and an exception outside the given classes pass unchanged and the handler
    is not run; an exception of those classes is given to the handler after
    the effects of the call, and becomes [SkipWrapper] when the handler says
    so, itself when it does not, and what the handler raises when it raises. *)
Theorem call_with_error_handling_spec {S A} (callback : ST S A)
    (handle_error : pyexn -> ST S bool) (exceptions_to_handle : pyexn -> bool) (s s1 : S) (r : res A) :
  callback s = (s1, r) ->
  call_with_error_handling None callback exceptions_to_handle s = (s1, r)
  /\ call_with_error_handling (Some handle_error) callback exceptions_to_handle s =
     match r with
     | Ok a => (s1, Ok a)
     | Raise ex =>
         if exceptions_to_handle ex then
           match handle_error ex s1 with
           | (s2, Ok true) => (s2, Raise SkipWrapper)
           | (s2, Ok false) => (s2, Raise ex)
           | (s2, Raise ex') => (s2, Raise ex')
           end
         else (s1, Raise ex)
     end.
Proof.
  intros E. split; [exact E|]. unfold call_with_error_handling, st_catch. rewrite E.
  destruct r as [a|ex]; [done|]. destruct (exceptions_to_handle ex); [|done].
  unfold st_bind. by destruct (handle_error ex s1) as [s2 [[]|ex']].
Qed.

Lemma call_with_error_handling_spec_witness :
  call_with_error_handling (Some (fun _ => fun n : nat => (S n, Ok true)))
    (fun n => (S n, Raise (A:=unit) NotSupportedError)) default_exceptions 0%nat
  = (2%nat, Raise SkipWrapper).
Proof.
  apply (call_with_error_handling_spec (fun n => (S n, Raise (A:=unit) NotSupportedError))
           (fun _ => fun n : nat => (S n, Ok true)) default_exceptions 0%nat 1%nat
           (Raise NotSupportedError)). reflexivity.
Defined.
