(* ===== verification/Overloading.v ===== *)
(** * Overloading: [pybindgen/overloading.py]

    [vector_counter], which enumerates combinations, and [OverloadedWrapper],
    which generates one Python wrapper for several prototypes. *)
From S2P Require Import Prelude.
From S2P Require Import CodeSink.
From S2P Require Import Utils.
From S2P Require Import Format.

(** ** [vector_counter] *)

Section vector_counter.
Context {A : Type}.

(** A position of the counter: the list it runs over, what its iterator has
    left, and its current value. *)
Record counter : Type := Counter { c_full : list A; c_left : list A; c_value : A }.

(** The [for idx] loop of one round, over the counters from the last to the
    first: restart those that are exhausted, advance the first that is not;
    [None] when all were exhausted.  A list that cannot be restarted is empty,
    and its [StopIteration] ends the generator too. *)
Fixpoint advance (cs : list counter) : option (list counter) :=
  match cs with
  | [] => None
  | c :: cs' =>
      match c_left c with
      | v :: more => Some (Counter (c_full c) more v :: cs')
      | [] =>
          match c_full c with
          | [] => None
          | v :: more =>
              match advance cs' with
              | Some cs'' => Some (Counter (c_full c) more v :: cs'')
              | None => None
              end
          end
      end
  end.

Definition counter_values (cs : list counter) : list A := rev (map c_value cs).

(** The [while 1] loop: the values it yields; running out of fuel is explicit. *)
Fixpoint counter_loop (fuel : nat) (cs : list counter) : res (list (list A)) :=
  match fuel with
  | O => Raise OutOfFuel
  | S fuel' =>
      match advance cs with
      | None => Ok []
      | Some cs' => l <-? counter_loop fuel' cs' ;; Ok (counter_values cs' :: l)
      end
  end.

(** The iterators before the loop: all but the last have given their first value;
    an empty list among those ends the generator at once. *)
Fixpoint start_counters (vec : list (list A)) : option (list counter) :=
  match vec with
  | [] => Some []
  | [] :: _ => None
  | (v :: more) :: vec' =>
      match start_counters vec' with
      | Some cs => Some (Counter (v :: more) more v :: cs)
      | None => None
      end
  end.

Definition vector_counter_fuel (fuel : nat) (vec : list (list A)) : res (list (list A)) :=
  match rev vec with
  | [] => Raise IndexError
  | last :: before =>
      match start_counters (rev before) with
      | None => Ok []
      | Some cs =>
          match last with
          | [] => Raise IndexError
          | v :: _ => counter_loop fuel (Counter last last v :: rev cs)
          end
      end
  end.

(** The number of combinations bounds the rounds. *)
Definition combinations (vec : list (list A)) : nat :=
  fold_right (fun l n => length l * n)%nat 1%nat vec.
Definition vector_counter (vec : list (list A)) : res (list (list A)) :=
  vector_counter_fuel (S (combinations vec)) vec.

(** The specification: the combinations in lexicographic order. *)
Fixpoint product (vec : list (list A)) : list (list A) :=
  match vec with
  | [] => [[]]
  | l :: vec' => flat_map (fun x => map (cons x) (product vec')) l
  end.
End vector_counter.
Arguments counter A : clear implicits.

(** ** [OverloadedWrapper] *)

(** What an overloaded wrapper calls on its wrappers, which are known by a
    number; [W] is the state they live in. *)
Class WrapperOps (W : Type) : Type := {
  get_flags : nat -> ST W (gset string);
  set_force_parse : nat -> Z -> ST W unit;
  set_error : nat -> string -> ST W unit;
  generate_wrapper : nat -> option string -> list string -> ST (W * code_sink) (option string);
  reset_wrapper : nat -> ST W unit;
  wrapper_base_name : W -> nat -> option string;
  wrapper_name_of : W -> nat -> option string;
  wrapper_return_of : W -> nat -> option string;
  wrapper_args_of : W -> nat -> option (list string);
  section_of : W -> nat -> option string;
  method_def_of : nat -> string -> ST W string;
  needs_overloading_interface : W -> nat -> bool;
  on_error : option (nat -> pyexn -> ST W bool)
}.

Section overloaded.
Context {W : Type} `{!WrapperOps W}.

(** The attributes of an [OverloadedWrapper], next to the wrappers' state. *)
Record overloaded : Type := Overloaded {
  ov_world : W;
  ov_wrappers : list nat;
  ov_all_wrappers : option (list nat);
  ov_wrapper_actual_name : option string;
  ov_wrapper_return : option string;
  ov_wrapper_args : option (list string);
  ov_pystruct : string
}.

Definition on_world {B} (m : ST W B) : ST overloaded B :=
  fun s => let '(w, r) := m (ov_world s) in
           (Overloaded w (ov_wrappers s) (ov_all_wrappers s) (ov_wrapper_actual_name s)
              (ov_wrapper_return s) (ov_wrapper_args s) (ov_pystruct s), r).
Definition set_wrappers (ws : list nat) : ST overloaded unit :=
  st_modify (fun s => Overloaded (ov_world s) ws (ov_all_wrappers s) (ov_wrapper_actual_name s)
    (ov_wrapper_return s) (ov_wrapper_args s) (ov_pystruct s)).

Definition add (wrapper : nat) : ST overloaded nat :=
  s <- st_get (fun s => ov_wrappers s) ;; set_wrappers (s ++ [wrapper]) ;;; st_ret wrapper.

(** [list.remove] *)
Fixpoint remove_first (x : nat) (l : list nat) : list nat :=
  match l with
  | [] => []
  | y :: l' => if Nat.eqb x y then l' else y :: remove_first x l'
  end.
Definition remove_wrapper (w : nat) : ST overloaded unit :=
  ws <- st_get (fun s => ov_wrappers s) ;; set_wrappers (remove_first w ws).

(** [settings.error_handler] for a wrapper. *)
Definition handler_for (w : nat) : error_handler W :=
  match on_error with None => None | Some h => Some (h w) end.

(** [settings.error_handler.handle_error(wrapper, ex, tb)]; [ex] is a variable of
    the function, which may not have been bound yet. *)
Definition report (w : nat) (ex : option pyexn) : ST overloaded unit :=
  match on_error with
  | None => st_raise AttributeError
  | Some h =>
      match ex with
      | None => st_raise NameError
      | Some e => on_world (h w e) ;;; st_ret tt
      end
  end.

(** [except utils.SkipWrapper] *)
Definition skipping {B} (m : ST overloaded B) : ST overloaded (option B) :=
  st_catch (b <- m ;; st_ret (Some b))
    (fun e => match e with SkipWrapper => st_ret None | _ => st_raise e end).

(** One round of the loop over the wrappers: [true] when a wrapper was removed,
    with the value of [ex]. *)
Fixpoint flags_pass (ws : list nat) (existing_flags : option (gset string)) (ex : option pyexn)
    : ST overloaded (bool * option pyexn) :=
  match ws with
  | [] => st_ret (false, ex)
  | w :: rest =>
      r <- skipping (on_world (call_with_error_handling (handler_for w) (get_flags w)
                                 default_exceptions)) ;;
      match r with
      | None =>
          remove_wrapper w ;;; report w (Some SkipWrapper) ;;; st_ret (true, Some SkipWrapper)
      | Some wrapper_flags =>
          match existing_flags with
          | None => flags_pass rest (Some wrapper_flags) ex
          | Some flags =>
              if bool_decide (wrapper_flags = flags) then flags_pass rest existing_flags ex
              else remove_wrapper w ;;; report w ex ;;; st_ret (true, ex)
          end
      end
  end.

(** [while modified] *)
Fixpoint normalize_loop (fuel : nat) (ex : option pyexn) : ST overloaded unit :=
  match fuel with
  | O => st_raise OutOfFuel
  | S fuel' =>
      ws <- st_get (fun s => ov_wrappers s) ;;
      r <- flags_pass ws None ex ;;
      if r.1 : bool then normalize_loop fuel' r.2 else st_ret tt
  end.

Definition normalize_py_method_flags : ST overloaded unit :=
  ws <- st_get (fun s => ov_wrappers s) ;;
  if Nat.eqb (length ws) 1 then st_ret tt
  else
    st_iter (fun w => on_world (set_force_parse w 2)) ws ;;;
    normalize_loop (S (length ws)) None.

Definition compute_all_wrappers : ST overloaded unit :=
  st_modify (fun s => Overloaded (ov_world s) (ov_wrappers s) (Some (ov_wrappers s))
    (ov_wrapper_actual_name s) (ov_wrapper_return s) (ov_wrapper_args s) (ov_pystruct s)).

Definition reset_code_generation_state : ST overloaded unit :=
  compute_all_wrappers ;;;
  ws <- st_get (fun s => ov_wrappers s) ;;
  st_iter (fun w => on_world (reset_wrapper w)) ws.

(** ** The aggregator *)

(** The arguments of a delegate. *)
Definition delegate_args (flags : gset string) (number : nat) : list string :=
  ["self"] ++ (if bool_decide ("METH_VARARGS" ∈ flags) then ["args"] else [])
  ++ (if bool_decide ("METH_KEYWORDS" ∈ flags) then ["kwargs"] else [])
  ++ ["&exceptions[" +:+ pretty number +:+ "]"].

Definition decref_exception (i : nat) : sink_op :=
  OpWrite ("Py_DECREF(exceptions[" +:+ pretty i +:+ "]);").

(** The attempt of one delegate. *)
Definition delegate_ops (flags : gset string) (number : nat) (delegate_wrapper : string)
    : list sink_op :=
  [OpWrite ("retval = " +:+ delegate_wrapper +:+ "(" +:+ join ", " (delegate_args flags number)
            +:+ ");");
   OpWrite ("if (!exceptions[" +:+ pretty number +:+ "]) {");
   OpIndent 4]
  ++ map decref_exception (seq 0 number)
  ++ [OpWrite "return retval;"; OpUnindent; OpWrite "}"].

Definition error_item_ops (i : nat) : list sink_op :=
  [OpWrite ("PyList_SET_ITEM(error_list, " +:+ pretty i +:+ ", PyObject_Str(exceptions["
            +:+ pretty i +:+ "]));");
   decref_exception i].

(** The calls on the sink that write the main wrapper. *)
Definition aggregator_ops (RETURN_TYPE ERROR_RETURN prototype_line : string)
    (flags : gset string) (delegate_wrappers : list string) : list sink_op :=
  let n := length delegate_wrappers in
  [OpWrite prototype_line; OpWrite "{"; OpIndent 4;
   OpWrite (RETURN_TYPE +:+ " retval;");
   OpWrite "PyObject *error_list;";
   OpWrite ("PyObject *exceptions[" +:+ pretty n +:+ "] = {0,};")]
  ++ List.concat (imap (delegate_ops flags) delegate_wrappers)
  ++ [OpWrite ("error_list = PyList_New(" +:+ pretty n +:+ ");")]
  ++ List.concat (map error_item_ops (seq 0 n))
  ++ [OpWrite "PyErr_SetObject(PyExc_TypeError, error_list);";
      OpWrite "Py_DECREF(error_list);";
      OpWrite ERROR_RETURN; OpUnindent; OpWrite "}"].

(** [generate] works on the target sink too. *)
Definition ov_gen : Type := overloaded * code_sink.
Definition on_overloaded {B} (m : ST overloaded B) : ST ov_gen B :=
  fun g => let '(s, r) := m g.1 in ((s, g.2), r).
Definition on_generator {B} (m : ST (W * code_sink) B) : ST ov_gen B :=
  fun g => let '((w, k), r) := m (ov_world g.1, g.2) in
           let '(s, _) := on_world (fun _ => (w, Ok tt)) g.1 in ((s, k), r).
Definition on_out (f : code_sink -> res code_sink) : ST ov_gen unit :=
  fun g => match f g.2 with Ok k => ((g.1, k), Ok tt) | Raise e => (g, Raise e) end.
Definition set_interface (name ret : option string) (args : option (list string))
    : ST ov_gen unit :=
  on_overloaded (st_modify (fun s => Overloaded (ov_world s) (ov_wrappers s)
    (ov_all_wrappers s) name ret args (ov_pystruct s))).

(** [self.wrapper_actual_name = name] *)
Definition set_name (name : option string) : ST ov_gen unit :=
  on_overloaded (st_modify (fun s => Overloaded (ov_world s) (ov_wrappers s)
    (ov_all_wrappers s) name (ov_wrapper_return s) (ov_wrapper_args s) (ov_pystruct s))).

(** [call_with_error_handling] of the wrapper's [generate]. *)
Definition generate_handled (w : nat) (name : option string) (extra : list string)
    : ST ov_gen (option string) :=
  on_generator
    (call_with_error_handling
       (match on_error with
        | None => None
        | Some h => Some (fun e g => let '(w', r) := h w e g.1 in ((w', g.2), r))
        end)
       (generate_wrapper w name extra) default_exceptions).

(** The error return of the delegates: the parse error goes to the caller. *)
Definition delegate_error_return (ERROR_RETURN : string) : string :=
  join nls ["{"; "    PyObject *exc_type, *traceback;";
            "    PyErr_Fetch(&exc_type, return_exception, &traceback);";
            "    Py_XDECREF(exc_type);"; "    Py_XDECREF(traceback);"; "}"; ERROR_RETURN].

(** ["%s__%i" % (self.wrapper_actual_name, number)] *)
Definition delegate_name (base_name : option string) (number : nat) : string :=
  str_opt base_name +:+ "__" +:+ pretty number.

(** The loop that generates the delegates; the names of those that were. *)
Fixpoint generate_delegates (ERROR_RETURN : string) (base_name : option string) (number : nat) (ws : list nat)
    : ST ov_gen (list string) :=
  match ws with
  | [] => st_ret []
  | w :: rest =>
      on_overloaded (on_world (set_force_parse w 2)) ;;;
      on_overloaded (on_world (set_error w (delegate_error_return ERROR_RETURN))) ;;;
      on_out (fun k => Ok (writeln k EmptyString)) ;;;
      r <- st_catch (generate_handled w (Some (delegate_name base_name number))
                       ["PyObject **return_exception"] ;;;
                     g <- st_get (fun g => g) ;;
                     st_ret [str_opt (wrapper_name_of (ov_world g.1) w)])
             (fun e => match e with SkipWrapper => st_ret [] | _ => st_raise e end) ;;
      names <- generate_delegates ERROR_RETURN base_name (S number) rest ;;
      st_ret (r ++ names)
  end.

(** "special case when there's only one wrapper; keep simple things simple" *)
Definition generate_single (w : nat) : ST ov_gen (option string) :=
  prototype_line <- generate_handled w None [] ;;
  s <- st_get (fun g => ov_world g.1) ;;
  st_assert (bool_decide (is_Some (wrapper_name_of s w))) ;;;
  set_interface (wrapper_name_of s w) (wrapper_return_of s w) (wrapper_args_of s w) ;;;
  st_ret prototype_line.

(** The arguments of the main wrapper. *)
Definition main_args (pystruct : string) (flags : gset string) : list string :=
  [pystruct +:+ " *self"]
  ++ (if bool_decide ("METH_VARARGS" ∈ flags) then ["PyObject *args"] else [])
  ++ (if bool_decide ("METH_KEYWORDS" ∈ flags) then ["PyObject *kwargs"] else []).
Definition main_prototype (RETURN_TYPE : string) (base : option string) (args : list string)
    : string :=
  RETURN_TYPE +:+ " " +:+ str_opt base +:+ "(" +:+ join ", " args +:+ ")".

(** "multiple overloaded wrappers case.."; [w] is the first of [ws] *)
Definition generate_aggregate (RETURN_TYPE ERROR_RETURN : string) (w : nat) (ws : list nat)
    : ST ov_gen (option string) :=
  flags <- on_overloaded (on_world (get_flags w)) ;;
  base <- st_get (fun g => wrapper_base_name (ov_world g.1) w) ;;
  set_name base ;;;
  delegates <- generate_delegates ERROR_RETURN base 0 ws ;;
  if bool_decide (delegates = []) then st_raise SkipWrapper
  else
    on_out (fun k => Ok (writeln k EmptyString)) ;;;
    pystruct <- st_get (fun g => ov_pystruct g.1) ;;
    let args := main_args pystruct flags in
    let prototype_line := main_prototype RETURN_TYPE base args in
    set_interface base (Some RETURN_TYPE) (Some args) ;;;
    on_out (fun k => run_ops k (aggregator_ops RETURN_TYPE ERROR_RETURN prototype_line
                                  flags delegates)) ;;;
    st_ret (Some prototype_line).

Definition generate (RETURN_TYPE ERROR_RETURN : string) : ST ov_gen (option string) :=
  on_overloaded normalize_py_method_flags ;;;
  on_overloaded compute_all_wrappers ;;;
  ws <- st_get (fun g => ov_wrappers g.1) ;;
  match ws with
  | [] => st_raise SkipWrapper
  | w :: rest =>
      s <- st_get (fun g => ov_world g.1) ;;
      if Nat.eqb (length ws) 1 && negb (needs_overloading_interface s w)
      then generate_single w
      else generate_aggregate RETURN_TYPE ERROR_RETURN w ws
  end.

(** [generate_declaration] *)
Definition generate_declaration (RETURN_TYPE ERROR_RETURN : string) : ST ov_gen unit :=
  on_overloaded reset_code_generation_state ;;;
  on_overloaded compute_all_wrappers ;;;
  (fun g => let '((s, _), r) := generate RETURN_TYPE ERROR_RETURN (g.1, NullCodeSink) in
            ((s, g.2), r)) ;;;
  s <- st_get (fun g => g.1) ;;
  match ov_wrapper_return s, ov_wrapper_actual_name s, ov_wrapper_args s with
  | Some ret, Some name, Some args =>
      on_out (fun k => Ok (writeln k (ret +:+ " " +:+ name +:+ "(" +:+ join ", " args +:+ ");"))) ;;;
      on_overloaded reset_code_generation_state
  | _, _, _ => st_raise AssertionError
  end.
(** [name.split('::')[-1]] *)
Definition last_component (name : string) : string := List.last (split_colons name) EmptyString.

(** The prototypes of the delegates, in the declaration of a class. *)
Definition delegate_prototype (w : nat) : ST ov_gen unit :=
  s <- st_get (fun g => ov_world g.1) ;;
  match wrapper_name_of s w, wrapper_args_of s w with
  | None, _ => st_raise AttributeError
  | Some _, None => st_raise TypeError
  | Some name, Some args =>
      on_out (fun k => Ok (writeln k ("static " +:+ str_opt (wrapper_return_of s w) +:+ " "
                                      +:+ last_component name +:+ "(" +:+ join ", " args
                                      +:+ ");")))
  end.

(** [generate_class_declaration] *)
Definition generate_class_declaration (RETURN_TYPE ERROR_RETURN : string) : ST ov_gen unit :=
  on_overloaded reset_code_generation_state ;;;
  on_overloaded compute_all_wrappers ;;;
  (fun g => let '((s, _), r) := generate RETURN_TYPE ERROR_RETURN (g.1, NullCodeSink) in
            ((s, g.2), r)) ;;;
  s <- st_get (fun g => g.1) ;;
  match ov_wrapper_return s, ov_wrapper_actual_name s, ov_wrapper_args s with
  | Some ret, Some name, Some args =>
      on_out (fun k => Ok (writeln k ("static " +:+ ret +:+ " " +:+ last_component name +:+ "("
                                      +:+ join ", " args +:+ ");"))) ;;;
      all <- st_get (fun g => default [] (ov_all_wrappers g.1)) ;;
      st_when (Nat.ltb 1 (length all)) (st_iter delegate_prototype all) ;;;
      on_overloaded reset_code_generation_state
  | _, _, _ => st_raise AssertionError
  end.

(** The check that a wrapper has the flags of the first one; the flags are
    computed again for the message of a failed assertion. *)
Definition check_flags (flags : gset string) (w : nat) : ST overloaded unit :=
  st_catch
    (f <- on_world (get_flags w) ;;
     if bool_decide (f = flags) then st_ret tt
     else on_world (get_flags w) ;;; st_raise AssertionError)
    (fun e => match e with
              | TypeConfigurationError | CodeGenerationError _ | NotSupportedError => st_ret tt
              | _ => st_raise e
              end).

(** [get_py_method_def], after the code generation *)
Definition get_py_method_def `{!SetOrder} (name : string) : ST overloaded string :=
  all <- st_get ov_all_wrappers ;;
  s <- st_get ov_world ;;
  match all with
  | None => st_raise TypeError
  | Some ws =>
      if Nat.eqb (length ws) 1 && negb (needs_overloading_interface s (List.hd 0%nat ws)) then
        on_world (method_def_of (List.hd 0%nat ws) name)
      else
        normalize_py_method_flags ;;;
        match ws with
        | [] => st_raise IndexError
        | w :: _ =>
            flags <- on_world (get_flags w) ;;
            st_iter (check_flags flags) ws ;;;
            s <- st_get (fun s => s) ;;
            match ov_wrapper_return s, ov_wrapper_actual_name s, ov_wrapper_args s with
            | Some _, Some actual, Some _ =>
                st_ret (method_def_entry name (Some actual) (set_list flags) None)
            | _, _, _ => st_raise AssertionError
            end
        end
  end.

(** [section]: that of the first wrapper that has one *)
Definition get_section : ST overloaded (option string) :=
  all <- st_get ov_all_wrappers ;;
  match all with None => compute_all_wrappers | Some _ => st_ret tt end ;;;
  s <- st_get (fun s => s) ;;
  st_ret (fold_left (fun section w => match section with
                                      | None => section_of (ov_world s) w
                                      | Some _ => section
                                      end) (default [] (ov_all_wrappers s)) None).
End overloaded.
Arguments overloaded W : clear implicits.

(** ** Correctness of the counter *)

Section counter_correct.
Context {A : Type}.

(** What is still to come from a state of the counters, each combination with its
    last element first. *)
Fixpoint yields (cs : list (counter A)) : list (list A) :=
  match cs with
  | [] => []
  | c :: cs' => map (fun x => x :: map c_value cs') (c_left c)
                ++ flat_map (fun r => map (fun x => x :: r) (c_full c)) (yields cs')
  end.

Lemma flat_map_nil (l : list (list A)) (f : list A -> list (list A)) :
  (forall x, f x = []) -> flat_map f l = [].
Proof. intros Hf. induction l as [|x l IH]; simpl; [done|]. by rewrite Hf, IH. Qed.

Lemma advance_yields (cs : list (counter A)) :
  yields cs = match advance cs with
              | Some cs' => map c_value cs' :: yields cs'
              | None => []
              end.
Proof.
  induction cs as [|[full more v] cs IH]; simpl; [done|].
  destruct more as [|x more]; simpl; [|done].
  destruct full as [|x full]; simpl; [by apply flat_map_nil|].
  rewrite IH. destruct (advance cs) as [cs'|]; simpl; [|done]. done.
Qed.

Lemma counter_loop_yields fuel : forall cs : list (counter A),
  (length (yields cs) < fuel)%nat -> counter_loop fuel cs = Ok (map (@rev A) (yields cs)).
Proof.
  induction fuel as [|fuel IH]; intros cs Hf; [lia|]. simpl.
  rewrite advance_yields in Hf |- *. destruct (advance cs) as [cs'|]; [|done].
  simpl in Hf. by rewrite IH by lia.
Qed.

Lemma product_snoc (b : list (list A)) (l : list A) :
  product (b ++ [l]) = flat_map (fun q => map (fun x => q ++ [x]) l) (product b).
Proof.
  induction b as [|a b IH]; simpl.
  - rewrite app_nil_r. induction l as [|x l IHl]; simpl; [done|]. by rewrite IHl.
  - rewrite IH. clear IH. induction a as [|x a IHa]; simpl; [done|].
    rewrite flat_map_app, IHa. f_equal. generalize (product b) as P. intros P.
    induction P as [|q P IHP]; simpl; [done|].
    rewrite map_app, IHP. f_equal. by rewrite map_map.
Qed.

Lemma product_length (vec : list (list A)) : length (product vec) = combinations vec.
Proof.
  induction vec as [|l vec IH]; simpl; [done|]. rewrite <- IH.
  induction l as [|x l IHl]; simpl; [done|]. by rewrite length_app, length_map, IHl.
Qed.

(** The current combination and those to come. *)
Definition all_yields (cs : list (counter A)) : list (list A) := map c_value cs :: yields cs.

Lemma all_yields_cons x l cs :
  all_yields (Counter (x :: l) l x :: cs)
  = flat_map (fun r => map (fun y => y :: r) (x :: l)) (all_yields cs).
Proof. done. Qed.

Lemma yields_start x l cs :
  yields (Counter l l x :: cs) = flat_map (fun r => map (fun y => y :: r) l) (all_yields cs).
Proof. done. Qed.

Lemma start_counters_snoc (b : list (list A)) (l : list A) :
  start_counters (b ++ [l]) =
    match start_counters b, l with
    | Some cs, x :: l' => Some (cs ++ [Counter l l' x])
    | _, _ => None
    end.
Proof.
  induction b as [|[|x a] b IH]; simpl; [by destruct l|done|].
  rewrite IH. by destruct (start_counters b), l.
Qed.

Lemma rev_yields (l : list A) (P Q : list (list A)) :
  map (@rev A) P = Q ->
  map (@rev A) (flat_map (fun r => map (fun y => y :: r) l) P)
  = flat_map (fun q => map (fun x => q ++ [x]) l) Q.
Proof.
  intros <-. induction P as [|r P IH]; simpl; [done|].
  rewrite map_app, IH, map_map. done.
Qed.

Lemma start_counters_product (b : list (list A)) : forall cs,
  start_counters b = Some cs -> map (@rev A) (all_yields (rev cs)) = product b.
Proof.
  induction b as [|l b IH] using rev_ind; intros cs; [by intros [= <-]|].
  rewrite start_counters_snoc. destruct (start_counters b) as [csb|]; [|done].
  destruct l as [|x l]; [done|]. intros [= <-]. rewrite rev_unit, all_yields_cons, product_snoc.
  by apply rev_yields, IH.
Qed.

Lemma start_counters_None (b : list (list A)) : start_counters b = None <-> In [] b.
Proof.
  induction b as [|[|x l] b IH]; simpl; [done|by split; auto|].
  destruct (start_counters b) as [cs|].
  - split; [done|]. intros [H|H]; [done|]. by apply IH in H.
  - split; [|done]. intros _. right. by apply IH.
Qed.

Lemma product_empty (b : list (list A)) : In [] b -> product b = [].
Proof.
  induction b as [|l b IH]; simpl; [done|]. intros [->|H]; [done|].
  rewrite IH by done. by induction l.
Qed.

(** C26: [vector_counter] enumerates the cartesian product.  Unless the last list
    alone is empty, the generator stops after yielding exactly the
    combinations of one element of each list, in lexicographic order; when only
    the last list is empty it raises [IndexError] before the first one. *)
Theorem vector_counter_product (before : list (list A)) (last : list A) :
  (last <> [] \/ In [] before ->
     vector_counter (before ++ [last]) = Ok (product (before ++ [last])))
  /\ (last = [] -> ~ In [] before -> vector_counter (before ++ [last]) = Raise IndexError).
Proof.
  unfold vector_counter, vector_counter_fuel. rewrite rev_unit, rev_involutive.
  destruct (start_counters before) as [cs|] eqn:E.
  - split.
    + intros H. assert (last <> []) as Hl.
      { destruct H as [H|H%start_counters_None]; [done|congruence]. }
      destruct last as [|v l]; [done|].
      assert (map (@rev A) (yields (Counter (v :: l) (v :: l) v :: rev cs))
              = product (before ++ [v :: l])) as Hp.
      { rewrite yields_start, product_snoc. by apply rev_yields, start_counters_product. }
      rewrite counter_loop_yields; [by f_equal|].
      rewrite <- product_length, <- Hp, length_map. lia.
    + intros -> _. done.
  - apply start_counters_None in E. split.
    + intros _. rewrite product_empty; [done|]. apply in_or_app. by left.
    + intros _ H. done.
Qed.
End counter_correct.

Lemma vector_counter_product_witness :
  vector_counter [["1"; "2"]; ["a"]; ["x"; "y"]]
    = Ok [["1"; "a"; "x"]; ["1"; "a"; "y"]; ["2"; "a"; "x"]; ["2"; "a"; "y"]].
Proof.
  apply (proj1 (vector_counter_product [["1"; "2"]; ["a"]] ["x"; "y"])). by left.
Defined.

(** ** Correctness of the normalisation of flags *)

Section normalize_correct.
Context {W : Type} `{!WrapperOps W}.

(** The wrappers only ever lose elements. *)
Definition fewer_wrappers (s s' : overloaded W) : Prop :=
  sublist (ov_wrappers s') (ov_wrappers s).
#[local] Instance fewer_wrappers_preorder : PreOrder fewer_wrappers.
Proof.
  split; [by intros s; unfold fewer_wrappers|].
  intros s1 s2 s3 H1 H2. unfold fewer_wrappers in *. by etransitivity.
Qed.

Lemma ov_wrappers_on_world {B} (m : ST W B) s : ov_wrappers (fst (on_world m s)) = ov_wrappers s.
Proof. unfold on_world. by destruct (m (ov_world s)). Qed.

Lemma fewer_on_world {B} (m : ST W B) : evolves fewer_wrappers (on_world m).
Proof. intros s. unfold fewer_wrappers. by rewrite ov_wrappers_on_world. Qed.

Lemma remove_first_sublist w l : sublist (remove_first w l) l.
Proof.
  induction l as [|x l IH]; simpl; [done|]. destruct (Nat.eqb w x); by constructor.
Qed.
Lemma remove_first_length w l :
  w ∈ l -> S (length (remove_first w l)) = length l.
Proof.
  induction l as [|x l IH]; intros H; [by apply elem_of_nil in H|]. simpl.
  destruct (Nat.eqb_spec w x) as [->|Hne]; [done|].
  apply elem_of_cons in H as [->|H]; [done|]. simpl. by rewrite IH.
Qed.

Lemma fewer_remove w : evolves fewer_wrappers (remove_wrapper w).
Proof. intros s. apply remove_first_sublist. Qed.

Lemma fewer_report w ex : evolves fewer_wrappers (report w ex).
Proof.
  unfold report. destruct on_error as [h|], ex as [e|]; try (apply evolves_raise; apply _).
  apply evolves_bind; [apply _ | apply fewer_on_world|]. intros _. apply evolves_ret, _.
Qed.

Lemma fewer_skipping {B} (m : ST W B) : evolves fewer_wrappers (skipping (on_world m)).
Proof.
  unfold skipping. apply evolves_catch; [apply _| |].
  - apply evolves_bind; [apply _ | apply fewer_on_world|]. intros b. apply evolves_ret, _.
  - intros []; (apply evolves_ret || apply evolves_raise); apply _.
Qed.

Lemma fewer_flags_pass ws : forall flags ex, evolves fewer_wrappers (flags_pass ws flags ex).
Proof.
  induction ws as [|w ws IH]; intros flags ex; simpl; [apply evolves_ret, _|].
  apply evolves_bind; [apply _ | apply fewer_skipping|]. intros [f|].
  - destruct flags as [f'|]; [|apply IH]. case_bool_decide; [apply IH|].
    apply evolves_bind; [apply _ | apply fewer_remove|]. intros _.
    apply evolves_bind; [apply _ | apply fewer_report|]. intros _. apply evolves_ret, _.
  - apply evolves_bind; [apply _ | apply fewer_remove|]. intros _.
    apply evolves_bind; [apply _ | apply fewer_report|]. intros _. apply evolves_ret, _.
Qed.

Lemma fewer_normalize_loop fuel : forall ex, evolves fewer_wrappers (normalize_loop fuel ex).
Proof.
  induction fuel as [|fuel IH]; intros ex; simpl; [apply evolves_raise, _|].
  apply evolves_bind; [apply _ | apply evolves_get, _|]. intros ws.
  apply evolves_bind; [apply _ | apply fewer_flags_pass|]. intros [b ex'].
  destruct b; [apply IH | apply evolves_ret, _].
Qed.

(** A round that removed a wrapper left one less. *)
Lemma flags_pass_removes ws : forall flags ex s s' ex',
  (forall w, w ∈ ws -> w ∈ ov_wrappers s) ->
  flags_pass ws flags ex s = (s', Ok (true, ex')) ->
  (length (ov_wrappers s') < length (ov_wrappers s))%nat.
Proof.
  assert (forall w ex0 (e : option pyexn) s s' r,
    w ∈ ov_wrappers s ->
    st_bind (remove_wrapper w) (fun _ => st_bind (report w ex0) (fun _ => st_ret (true, e))) s
      = (s', Ok r) -> (length (ov_wrappers s') < length (ov_wrappers s))%nat) as Hrm.
  { intros w ex0 e s s' r Hw H. apply st_bind_Ok in H as (s1&[]&H1&H).
    apply st_bind_Ok in H as (s2&[]&H2&H). injection H as <- _.
    pose proof (fewer_report w ex0 s1) as Hf. rewrite H2 in Hf.
    apply sublist_length in Hf. cbn [fst] in Hf. injection H1 as <-.
    pose proof (remove_first_length w (ov_wrappers s) Hw) as Hl. cbn in Hf. lia. }
  induction ws as [|w ws IH]; intros flags ex s s' ex' Hin H; simpl in H; [discriminate|].
  apply st_bind_Ok in H as (s1&r&H1&H).
  assert (ov_wrappers s1 = ov_wrappers s) as Hs1.
  { clear -H1. unfold skipping, st_catch, st_bind in H1.
    pose proof (ov_wrappers_on_world (call_with_error_handling (handler_for w) (get_flags w)
      default_exceptions) s) as Hw.
    destruct (on_world _ s) as [s2 [f|e]]; cbn [fst] in Hw.
    - by injection H1 as <- _.
    - destruct e; try discriminate H1. by injection H1 as <- _. }
  rewrite <- Hs1 in Hin |- *. destruct r as [f|]; [|eapply Hrm; [apply Hin; by left | exact H]].
  destruct flags as [f'|].
  - case_bool_decide; [|eapply Hrm; [apply Hin; by left | exact H]].
    eapply IH; [|exact H]. intros w' Hw'. apply Hin. by right.
  - eapply IH; [|exact H]. intros w' Hw'. apply Hin. by right.
Qed.

Lemma normalize_loop_fuel fuel1 : forall fuel2 ex s,
  (length (ov_wrappers s) < fuel1)%nat -> (length (ov_wrappers s) < fuel2)%nat ->
  normalize_loop fuel1 ex s = normalize_loop fuel2 ex s.
Proof.
  induction fuel1 as [|fuel1 IH]; intros fuel2 ex s H1 H2; [lia|].
  destruct fuel2 as [|fuel2]; [lia|]. simpl. unfold st_bind, st_get.
  destruct (flags_pass (ov_wrappers s) None ex s) as [s1 [[b ex']|e]] eqn:E; [|done].
  destruct b; [|done]. cbn [fst snd].
  apply flags_pass_removes in E; [|done]. apply IH; lia.
Qed.

Lemma call_with_error_handling_Ok {B} (h : error_handler W) (m : ST W B) p s s' a :
  call_with_error_handling h m p s = (s', Ok a) -> m s = (s', Ok a).
Proof.
  destruct h as [h|]; [|done]. unfold call_with_error_handling, st_catch.
  destruct (m s) as [s1 [b|e]]; [done|]. destruct (p e); [|done].
  unfold st_bind. destruct (h e s1) as [s2 [[]|e']]; discriminate.
Qed.

Lemma skipping_Ok {B} (m : ST W B) s s' b :
  skipping (on_world m) s = (s', Ok (Some b)) -> on_world m s = (s', Ok b).
Proof.
  unfold skipping, st_catch, st_bind. destruct (on_world m s) as [s1 [b'|e]].
  - by intros [= <- <-].
  - destruct e; discriminate.
Qed.

(** What the normalisation asks of its wrappers: an invariant under which
    computing the flags of a wrapper does not change anything, and that forcing
    the parse and reporting an error keep. *)
Class FlagsLaws (I : W -> Prop) : Prop := {
  flags_pure : forall w s, I s -> fst (get_flags w s) = s;
  force_parse_keeps : forall w s, I s -> I (fst (set_force_parse w 2 s));
  report_keeps : forall h w e s, on_error = Some h -> I s -> I (fst (h w e s))
}.
Context (I : W -> Prop) `{!FlagsLaws I}.

(** The invariant, as a relation between the states of a call. *)
Definition keeps (s s' : overloaded W) : Prop := I (ov_world s) -> I (ov_world s').
#[local] Instance keeps_preorder : PreOrder keeps.
Proof. split; [by intros s H|]. intros s1 s2 s3 H1 H2 H. auto. Qed.

Lemma keeps_on_world {B} (m : ST W B) :
  (forall s, I s -> I (fst (m s))) -> evolves keeps (on_world m).
Proof. intros H s Hs. unfold on_world. specialize (H _ Hs). by destruct (m (ov_world s)). Qed.

Lemma keeps_report w ex : evolves keeps (report w ex).
Proof.
  unfold report. destruct on_error as [h|] eqn:E, ex as [e|]; try (apply evolves_raise; apply _).
  apply evolves_bind; [apply _ | |intros _; apply evolves_ret, _].
  apply keeps_on_world. intros s. by apply report_keeps.
Qed.

Lemma keeps_flags w :
  evolves keeps (skipping (on_world (call_with_error_handling (handler_for w) (get_flags w)
    default_exceptions))).
Proof.
  unfold skipping. apply evolves_catch; [apply _| |].
  - apply evolves_bind; [apply _ | |intros b; apply evolves_ret, _].
    apply keeps_on_world. intros s Hs. unfold call_with_error_handling, handler_for.
    pose proof (flags_pure w s Hs) as Hp.
    destruct on_error as [h|] eqn:E; [|by rewrite Hp].
    unfold st_catch. destruct (get_flags w s) as [s1 [b|e]]; cbn [fst] in Hp; subst s1; [done|].
    destruct (default_exceptions e); [|done]. pose proof (report_keeps h w e s E Hs) as Hr.
    unfold st_bind. by destruct (h w e s) as [s2 [[]|]].
  - intros []; (apply evolves_ret || apply evolves_raise); apply _.
Qed.

Lemma keeps_remove w : evolves keeps (remove_wrapper w).
Proof. by intros s Hs. Qed.

Lemma keeps_flags_pass ws : forall flags ex, evolves keeps (flags_pass ws flags ex).
Proof.
  induction ws as [|w ws IH]; intros flags ex; simpl; [apply evolves_ret, _|].
  apply evolves_bind; [apply _ | apply keeps_flags|]. intros [f|].
  - destruct flags as [f'|]; [|apply IH]. case_bool_decide; [apply IH|].
    apply evolves_bind; [apply _ | apply keeps_remove|]. intros _.
    apply evolves_bind; [apply _ | apply keeps_report|]. intros _. apply evolves_ret, _.
  - apply evolves_bind; [apply _ | apply keeps_remove|]. intros _.
    apply evolves_bind; [apply _ | apply keeps_report|]. intros _. apply evolves_ret, _.
Qed.

Lemma on_world_pure {B} (m : ST W B) s :
  fst (m (ov_world s)) = ov_world s -> on_world m s = (s, snd (m (ov_world s))).
Proof.
  intros H. unfold on_world. destruct (m (ov_world s)) as [w r]. cbn in *. subst.
  by destruct s.
Qed.

Lemma flags_pass_done ws : forall flags ex s s' ex', I (ov_world s) ->
  flags_pass ws flags ex s = (s', Ok (false, ex')) ->
  s' = s /\ exists f, (forall f', flags = Some f' -> f = f')
    /\ forall w, w ∈ ws -> get_flags w (ov_world s) = (ov_world s, Ok f).
Proof.
  induction ws as [|w ws IH]; intros flags ex s s' ex' HI H; simpl in H.
  - injection H as <- _. split; [done|]. exists (default ∅ flags). split; [by intros f' ->|].
    intros w H. by apply elem_of_nil in H.
  - apply st_bind_Ok in H as (s1&r&H1&H). destruct r as [f|].
    2: { apply st_bind_Ok in H as (s2&[]&_&H). apply st_bind_Ok in H as (s3&[]&_&H).
         discriminate H. }
    apply skipping_Ok in H1. unfold on_world in H1.
    destruct (call_with_error_handling _ _ _ (ov_world s)) as [w1 [f1|]] eqn:Ec; [|discriminate H1].
    apply call_with_error_handling_Ok in Ec. injection H1 as <- ->.
    pose proof (flags_pure w (ov_world s) HI) as Hw. rewrite Ec in Hw. cbn in Hw. subst w1.
    assert (forall flags' s', flags_pass ws flags' ex s = (s', Ok (false, ex')) ->
      flags' = Some f -> (forall f', flags = Some f' -> f = f') ->
      s' = s /\ exists f, (forall f', flags = Some f' -> f = f')
        /\ forall w', w' ∈ w :: ws -> get_flags w' (ov_world s) = (ov_world s, Ok f)) as Hnext.
    { intros flags' s2 H2 -> Hf. destruct (IH _ _ _ _ _ HI H2) as (->&f2&Hf2&Hws).
      split; [done|]. exists f. split; [done|]. rewrite (Hf2 f eq_refl) in Hws.
      intros w' [->|Hw']%elem_of_cons; [done | by apply Hws]. }
    assert (Overloaded (ov_world s) (ov_wrappers s) (ov_all_wrappers s)
      (ov_wrapper_actual_name s) (ov_wrapper_return s) (ov_wrapper_args s) (ov_pystruct s) = s)
      as Es by by destruct s.
    rewrite Es in H. destruct flags as [f'|]; [|by eapply Hnext].
    case_bool_decide as Ef; [subst f'; eapply Hnext; [exact H | done | by intros ? [= <-]]|].
    apply st_bind_Ok in H as (s2&[]&_&H). apply st_bind_Ok in H as (s3&[]&_&H). discriminate H.
Qed.

Lemma normalize_loop_done fuel : forall ex s s', I (ov_world s) ->
  normalize_loop fuel ex s = (s', Ok tt) ->
  I (ov_world s') /\ exists f, forall w, w ∈ ov_wrappers s' -> get_flags w (ov_world s') = (ov_world s', Ok f).
Proof.
  induction fuel as [|fuel IH]; intros ex s s' HI H; simpl in H; [discriminate|].
  unfold st_bind at 1, st_get in H. apply st_bind_Ok in H as (s1&[b ex']&H1&H).
  pose proof (keeps_flags_pass (ov_wrappers s) None ex s HI) as HI1. rewrite H1 in HI1.
  destruct b; cbn [fst snd] in H; [by eapply IH|]. injection H as <-.
  destruct (flags_pass_done _ _ _ _ _ _ HI H1) as (->&f&_&Hf). split; [done|]. by exists f.
Qed.

(** The overloads that remain agree on their flags.  When computing flags
    changes nothing, under an invariant of the wrappers, and normalisation of an overload set returns, then the
    remaining wrappers, a subsequence of the original ones, all have the same
    flags (unless there was a single wrapper to begin with); and the loop that
    removes wrappers makes at most one round more than there are wrappers: any
    larger bound gives the same result. *)
Theorem normalize_flags_agree (s s' : overloaded W) :
  I (ov_world s) -> normalize_py_method_flags s = (s', Ok tt) ->
  sublist (ov_wrappers s') (ov_wrappers s)
  /\ (length (ov_wrappers s) <> 1%nat ->
      exists f, forall w, w ∈ ov_wrappers s' -> get_flags w (ov_world s') = (ov_world s', Ok f))
  /\ (forall fuel ex s0, (length (ov_wrappers s0) < fuel)%nat ->
        normalize_loop fuel ex s0 = normalize_loop (S (length (ov_wrappers s0))) ex s0).
Proof.
  intros Hp H. split_and!.
  - assert (evolves fewer_wrappers (@normalize_py_method_flags W WrapperOps0)) as He.
    { unfold normalize_py_method_flags. apply evolves_bind; [apply _ | apply evolves_get, _|].
      intros ws. destruct (Nat.eqb (length ws) 1); [apply evolves_ret, _|].
      apply evolves_bind; [apply _ | |intros _; apply fewer_normalize_loop].
      apply evolves_iter; [apply _|]. intros w. apply fewer_on_world. }
    specialize (He s). rewrite H in He. exact He.
  - intros Hl. unfold normalize_py_method_flags, st_bind at 1, st_get in H.
    apply Nat.eqb_neq in Hl. rewrite Hl in H. apply st_bind_Ok in H as (s1&[]&H1&H).
    assert (evolves keeps (st_iter (fun w => on_world (set_force_parse w 2)) (ov_wrappers s)))
      as Hk.
    { apply evolves_iter; [apply _|]. intros w. apply keeps_on_world. intros s2.
      apply force_parse_keeps. }
    specialize (Hk s Hp). rewrite H1 in Hk. by eapply normalize_loop_done.
  - intros fuel ex s0 Hf. apply normalize_loop_fuel; lia.
Qed.

(** Overloads with different flags break the generator.  When the first two
    wrappers have different flags, so that one of them should be dropped and
    reported, the report itself fails: the variable [ex] it passes to the error
    handler is not bound, and [NameError] escapes (or [AttributeError] without
    an error handler). *)
Theorem different_flags_raise (s : overloaded W) (w1 w2 : nat) (rest : list nat)
    (f1 f2 : gset string) :
  (forall w z, fst (set_force_parse w z (ov_world s)) = ov_world s
               /\ snd (set_force_parse w z (ov_world s)) = Ok tt) ->
  ov_wrappers s = w1 :: w2 :: rest ->
  get_flags w1 (ov_world s) = (ov_world s, Ok f1) ->
  get_flags w2 (ov_world s) = (ov_world s, Ok f2) -> f1 <> f2 ->
  snd (normalize_py_method_flags s) =
    Raise (match on_error (W:=W) with None => AttributeError | Some _ => NameError end).
Proof.
  intros Hset Hws H1 H2 Hf.
  assert (forall l, st_iter (fun w => on_world (set_force_parse w 2)) l s = (s, Ok tt)) as Hit.
  { induction l as [|w l IH]; simpl; [done|]. unfold st_bind.
    rewrite on_world_pure by apply Hset. by rewrite (proj2 (Hset w 2)). }
  assert (forall w f, get_flags w (ov_world s) = (ov_world s, Ok f) ->
    skipping (on_world (call_with_error_handling (handler_for w) (get_flags w)
                          default_exceptions)) s = (s, Ok (Some f))) as Hflags.
  { intros w f Hw. unfold skipping, st_catch, st_bind.
    assert (call_with_error_handling (handler_for w) (get_flags w) default_exceptions (ov_world s)
            = (ov_world s, Ok f)) as Hc.
    { unfold call_with_error_handling, st_catch. destruct (handler_for w); by rewrite Hw. }
    rewrite on_world_pure; by rewrite Hc. }
  unfold normalize_py_method_flags, st_bind at 1, st_get. rewrite Hws. cbn [length Nat.eqb].
  unfold st_bind at 1. rewrite Hit. simpl normalize_loop. unfold st_bind at 1, st_get.
  rewrite Hws. simpl flags_pass. unfold st_bind at 1, st_bind at 1. rewrite (Hflags w1 f1 H1).
  unfold st_bind at 1. rewrite (Hflags w2 f2 H2). rewrite bool_decide_eq_false_2 by congruence.
  unfold st_bind, remove_wrapper, st_get, set_wrappers, st_modify, report. cbn.
  by destruct on_error.
Qed.
End normalize_correct.

(** ** An overload set with one wrapper that cannot be generated *)

#[local] Instance demo_ops : WrapperOps unit := {
  get_flags w := fun s => (s, if Nat.eqb w 1 then Raise NotSupportedError
                              else Ok (if Nat.eqb w 7 then {["METH_NOARGS"]}
                                       else {["METH_VARARGS"; "METH_KEYWORDS"]}));
  set_force_parse _ _ := st_ret tt;
  set_error _ _ := st_ret tt;
  generate_wrapper _ _ _ := st_ret None;
  reset_wrapper _ := st_ret tt;
  wrapper_base_name _ _ := Some "_wrap_foo";
  wrapper_name_of _ _ := None;
  wrapper_return_of _ _ := None;
  wrapper_args_of _ _ := None;
  section_of _ _ := None;
  method_def_of _ _ := st_raise AssertionError;
  needs_overloading_interface _ _ := false;
  on_error := Some (fun _ _ => st_ret true)
}.
Definition demo_overloaded (ws : list nat) : overloaded unit :=
  Overloaded tt ws None None None None "PyObject".

#[local] Instance demo_laws : FlagsLaws (fun _ : unit => True).
Proof. by split. Qed.

Lemma normalize_flags_agree_witness :
  normalize_py_method_flags (demo_overloaded [0; 1; 2]%nat) = (demo_overloaded [0; 2]%nat, Ok tt)
  /\ exists f, forall w, w ∈ [0; 2]%nat -> get_flags w tt = (tt, Ok f).
Proof.
  split; [vm_compute; reflexivity|].
  apply (normalize_flags_agree (fun _ => True) (demo_overloaded [0; 1; 2]%nat)
           (demo_overloaded [0; 2]%nat));
    [exact Logic.I | vm_compute; reflexivity | discriminate].
Defined.

Lemma different_flags_raise_witness :
  snd (normalize_py_method_flags (demo_overloaded [0; 7]%nat)) = Raise NameError.
Proof.
  apply (@different_flags_raise unit demo_ops (demo_overloaded [0; 7]%nat) 0 7 []
           {["METH_VARARGS"; "METH_KEYWORDS"]} {["METH_NOARGS"]});
    [split; reflexivity | reflexivity | reflexivity | reflexivity |].
  intros H. apply (f_equal (fun X : gset string => bool_decide ("METH_NOARGS" ∈ X))) in H.
  vm_compute in H. discriminate H.
Defined.
