(* ===== verification/PyTypeObject.v ===== *)
(** * C type structures: [pybindgen/pytypeobject.py]

    The three tables a generated class may have: the type object and its number
    and sequence methods.  A table is a template and the defaults of its slots. *)
From S2P Require Import Prelude.
From S2P Require Import CodeSink.
From S2P Require Import Format.

(** [PyTypeObject.TEMPLATE] *)
Definition PyTypeObject_TEMPLATE : string :=
  join nls
    ["PyTypeObject %(typestruct)s = {";
     "    PyObject_HEAD_INIT(NULL)";
     "    0,                                 /* ob_size */";
     "    (char *) " +:+ dq +:+ "%(tp_name)s" +:+ dq +:+ ",            /* tp_name */";
     "    %(tp_basicsize)s,                  /* tp_basicsize */";
     "    0,                                 /* tp_itemsize */";
     "    /* methods */";
     "    (destructor)%(tp_dealloc)s,        /* tp_dealloc */";
     "    (printfunc)0,                      /* tp_print */";
     "    (getattrfunc)%(tp_getattr)s,       /* tp_getattr */";
     "    (setattrfunc)%(tp_setattr)s,       /* tp_setattr */";
     "    (cmpfunc)%(tp_compare)s,           /* tp_compare */";
     "    (reprfunc)%(tp_repr)s,             /* tp_repr */";
     "    (PyNumberMethods*)%(tp_as_number)s,     /* tp_as_number */";
     "    (PySequenceMethods*)%(tp_as_sequence)s, /* tp_as_sequence */";
     "    (PyMappingMethods*)%(tp_as_mapping)s,   /* tp_as_mapping */";
     "    (hashfunc)%(tp_hash)s,             /* tp_hash */";
     "    (ternaryfunc)%(tp_call)s,          /* tp_call */";
     "    (reprfunc)%(tp_str)s,              /* tp_str */";
     "    (getattrofunc)%(tp_getattro)s,     /* tp_getattro */";
     "    (setattrofunc)%(tp_setattro)s,     /* tp_setattro */";
     "    (PyBufferProcs*)%(tp_as_buffer)s,  /* tp_as_buffer */";
     "    %(tp_flags)s,                      /* tp_flags */";
     "    %(tp_doc)s,                        /* Documentation string */";
     "    (traverseproc)%(tp_traverse)s,     /* tp_traverse */";
     "    (inquiry)%(tp_clear)s,             /* tp_clear */";
     "    (richcmpfunc)%(tp_richcompare)s,   /* tp_richcompare */";
     "    %(tp_weaklistoffset)s,             /* tp_weaklistoffset */";
     "    (getiterfunc)%(tp_iter)s,          /* tp_iter */";
     "    (iternextfunc)%(tp_iternext)s,     /* tp_iternext */";
     "    (struct PyMethodDef*)%(tp_methods)s, /* tp_methods */";
     "    (struct PyMemberDef*)0,              /* tp_members */";
     "    %(tp_getset)s,                     /* tp_getset */";
     "    NULL,                              /* tp_base */";
     "    NULL,                              /* tp_dict */";
     "    (descrgetfunc)%(tp_descr_get)s,    /* tp_descr_get */";
     "    (descrsetfunc)%(tp_descr_set)s,    /* tp_descr_set */";
     "    %(tp_dictoffset)s,                 /* tp_dictoffset */";
     "    (initproc)%(tp_init)s,             /* tp_init */";
     "    (allocfunc)%(tp_alloc)s,           /* tp_alloc */";
     "    (newfunc)%(tp_new)s,               /* tp_new */";
     "    (freefunc)%(tp_free)s,             /* tp_free */";
     "    (inquiry)%(tp_is_gc)s,             /* tp_is_gc */";
     "    NULL,                              /* tp_bases */";
     "    NULL,                              /* tp_mro */";
     "    NULL,                              /* tp_cache */";
     "    NULL,                              /* tp_subclasses */";
     "    NULL,                              /* tp_weaklist */";
     "    (destructor) NULL                  /* tp_del */";
     "};";
     EmptyString].

(** The defaults of [PyTypeObject.generate] *)
Definition PyTypeObject_defaults : list (string * string) :=
  [("tp_dealloc", "NULL"); ("tp_getattr", "NULL"); ("tp_setattr", "NULL");
   ("tp_compare", "NULL"); ("tp_repr", "NULL"); ("tp_as_number", "NULL");
   ("tp_as_sequence", "NULL"); ("tp_as_mapping", "NULL"); ("tp_hash", "NULL");
   ("tp_call", "NULL"); ("tp_str", "NULL"); ("tp_getattro", "NULL"); ("tp_setattro", "NULL");
   ("tp_as_buffer", "NULL"); ("tp_flags", "Py_TPFLAGS_DEFAULT"); ("tp_doc", "NULL");
   ("tp_traverse", "NULL"); ("tp_clear", "NULL"); ("tp_richcompare", "NULL");
   ("tp_weaklistoffset", "0"); ("tp_iter", "NULL"); ("tp_iternext", "NULL");
   ("tp_methods", "NULL"); ("tp_getset", "NULL"); ("tp_descr_get", "NULL");
   ("tp_descr_set", "NULL"); ("tp_dictoffset", "0"); ("tp_init", "NULL");
   ("tp_alloc", "PyType_GenericAlloc"); ("tp_new", "PyType_GenericNew"); ("tp_free", "0");
   ("tp_is_gc", "NULL")].

(** [PyNumberMethods.TEMPLATE] *)
Definition PyNumberMethods_TEMPLATE : string :=
  join nls
    ["static PyNumberMethods %(variable)s = {";
     "    (binaryfunc) %(nb_add)s,";
     "    (binaryfunc) %(nb_subtract)s,";
     "    (binaryfunc) %(nb_multiply)s,";
     "    (binaryfunc) %(nb_divide)s,";
     "    (binaryfunc) %(nb_remainder)s,";
     "    (binaryfunc) %(nb_divmod)s,";
     "    (ternaryfunc) %(nb_power)s,";
     "    (unaryfunc) %(nb_negative)s,";
     "    (unaryfunc) %(nb_positive)s,";
     "    (unaryfunc) %(nb_absolute)s,";
     "    (inquiry) %(nb_nonzero)s,";
     "    (unaryfunc) %(nb_invert)s,";
     "    (binaryfunc) %(nb_lshift)s,";
     "    (binaryfunc) %(nb_rshift)s,";
     "    (binaryfunc) %(nb_and)s,";
     "    (binaryfunc) %(nb_xor)s,";
     "    (binaryfunc) %(nb_or)s,";
     "    (coercion) %(nb_coerce)s,";
     "    (unaryfunc) %(nb_int)s,";
     "    (unaryfunc) %(nb_long)s,";
     "    (unaryfunc) %(nb_float)s,";
     "    (unaryfunc) %(nb_oct)s,";
     "    (unaryfunc) %(nb_hex)s,";
     "    /* Added in release 2.0 */";
     "    (binaryfunc) %(nb_inplace_add)s,";
     "    (binaryfunc) %(nb_inplace_subtract)s,";
     "    (binaryfunc) %(nb_inplace_multiply)s,";
     "    (binaryfunc) %(nb_inplace_divide)s,";
     "    (binaryfunc) %(nb_inplace_remainder)s,";
     "    (ternaryfunc) %(nb_inplace_power)s,";
     "    (binaryfunc) %(nb_inplace_lshift)s,";
     "    (binaryfunc) %(nb_inplace_rshift)s,";
     "    (binaryfunc) %(nb_inplace_and)s,";
     "    (binaryfunc) %(nb_inplace_xor)s,";
     "    (binaryfunc) %(nb_inplace_or)s,";
     EmptyString;
     "    /* Added in release 2.2 */";
     "    /* The following require the Py_TPFLAGS_HAVE_CLASS flag */";
     "    (binaryfunc) %(nb_floor_divide)s,";
     "    (binaryfunc) %(nb_true_divide)s,";
     "    (binaryfunc) %(nb_inplace_floor_divide)s,";
     "    (binaryfunc) %(nb_inplace_true_divide)s,";
     EmptyString;
     "#if PY_VERSION_HEX >= 0x020500F0";
     "    /* Added in release 2.5 */";
     "    (unaryfunc) %(nb_index)s,";
     EmptyString;
     "#endif";
     "};";
     EmptyString].

(** The defaults of [PyNumberMethods.generate] *)
Definition PyNumberMethods_defaults : list (string * string) :=
  [("nb_add", "NULL"); ("nb_subtract", "NULL"); ("nb_multiply", "NULL");
   ("nb_divide", "NULL"); ("nb_remainder", "NULL"); ("nb_divmod", "NULL");
   ("nb_power", "NULL"); ("nb_negative", "NULL"); ("nb_positive", "NULL");
   ("nb_absolute", "NULL"); ("nb_nonzero", "NULL"); ("nb_invert", "NULL");
   ("nb_lshift", "NULL"); ("nb_rshift", "NULL"); ("nb_and", "NULL"); ("nb_xor", "NULL");
   ("nb_or", "NULL"); ("nb_coerce", "NULL"); ("nb_int", "NULL"); ("nb_long", "NULL");
   ("nb_float", "NULL"); ("nb_oct", "NULL"); ("nb_hex", "NULL"); ("nb_inplace_add", "NULL");
   ("nb_inplace_subtract", "NULL"); ("nb_inplace_multiply", "NULL");
   ("nb_inplace_divide", "NULL"); ("nb_inplace_remainder", "NULL");
   ("nb_inplace_power", "NULL"); ("nb_inplace_lshift", "NULL"); ("nb_inplace_rshift", "NULL");
   ("nb_inplace_and", "NULL"); ("nb_inplace_xor", "NULL"); ("nb_inplace_or", "NULL");
   ("nb_floor_divide", "NULL"); ("nb_true_divide", "NULL");
   ("nb_inplace_floor_divide", "NULL"); ("nb_inplace_true_divide", "NULL");
   ("nb_index", "NULL")].

(** [PySequenceMethods.TEMPLATE] *)
Definition PySequenceMethods_TEMPLATE : string :=
  join nls
    [EmptyString;
     "static PySequenceMethods %(variable)s = {";
     "    (lenfunc) %(sq_length)s,";
     "    (binaryfunc) %(sq_concat)s,";
     "    (ssizeargfunc) %(sq_repeat)s,";
     "    (ssizeargfunc) %(sq_item)s,";
     "    (ssizessizeargfunc) %(sq_slice)s,";
     "    (ssizeobjargproc) %(sq_ass_item)s,";
     "    (ssizessizeobjargproc) %(sq_ass_slice)s,";
     "    (objobjproc) %(sq_contains)s,";
     "    /* Added in release 2.0 */";
     "    (binaryfunc) %(sq_inplace_concat)s,";
     "    (ssizeargfunc) %(sq_inplace_repeat)s,";
     "};";
     EmptyString;
     EmptyString].

(** [PySequenceMethods.FUNCTION_TEMPLATES], the entry [sq_ass_item] *)
Definition FUNCTION_TEMPLATE_sq_ass_item : string :=
  join nls
    [EmptyString;
     "static int";
     "%(wrapper_name)s (%(py_struct)s *py_self, Py_ssize_t py_i, PyObject *py_val)";
     "{";
     "    PyObject *result;";
     "    PyObject *args;";
     EmptyString;
     "    args = Py_BuildValue(" +:+ dq +:+ "(iO)" +:+ dq +:+ ", py_i, py_val);";
     "    result = %(method_name)s(py_self, args, NULL);";
     "    Py_DECREF(args);";
     "    if (result == NULL) {";
     "        return -1;";
     "    } else {";
     "        Py_DECREF(result);";
     "        return 0;";
     "    }";
     "}";
     EmptyString;
     EmptyString].

(** [PySequenceMethods.FUNCTION_TEMPLATES], the entry [sq_item] *)
Definition FUNCTION_TEMPLATE_sq_item : string :=
  join nls
    [EmptyString;
     "static PyObject*";
     "%(wrapper_name)s (%(py_struct)s *py_self, Py_ssize_t py_i)";
     "{";
     "    PyObject *result;";
     "    PyObject *args;";
     EmptyString;
     "    args = Py_BuildValue(" +:+ dq +:+ "(i)" +:+ dq +:+ ", py_i);";
     "    result = %(method_name)s(py_self, args, NULL);";
     "    Py_DECREF(args);";
     "    if (PyErr_ExceptionMatches(PyExc_IndexError) ||";
     "        PyErr_ExceptionMatches(PyExc_StopIteration)) {";
     "        Py_XDECREF(result);";
     "        return NULL;";
     "    } else {";
     "        return result;";
     "    }";
     "}";
     EmptyString;
     EmptyString;
     EmptyString].

(** [PySequenceMethods.FUNCTION_TEMPLATES], the entry [sq_length] *)
Definition FUNCTION_TEMPLATE_sq_length : string :=
  join nls
    [EmptyString;
     "static Py_ssize_t";
     "%(wrapper_name)s (%(py_struct)s *py_self)";
     "{";
     "    PyObject *py_result;";
     "    Py_ssize_t result;";
     EmptyString;
     "    py_result = %(method_name)s(py_self);";
     "    if (py_result == NULL) {";
     "        return -1;";
     "    }";
     "    result = PyInt_AsSsize_t(py_result);";
     "    Py_DECREF(py_result);";
     "    return result;";
     "}";
     EmptyString;
     EmptyString].

(** [PySequenceMethods.FUNCTION_TEMPLATES], the entry [sq_length_ARGS] *)
Definition FUNCTION_TEMPLATE_sq_length_ARGS : string :=
  join nls
    [EmptyString;
     "static Py_ssize_t";
     "%(wrapper_name)s (%(py_struct)s *py_self)";
     "{";
     "    PyObject *py_result;";
     "    PyObject *args;";
     "    Py_ssize_t result;";
     EmptyString;
     "    args = PyTuple_New (0);";
     "    py_result = %(method_name)s(py_self, args, NULL);";
     "    Py_DECREF(args);";
     "    if (py_result == NULL) {";
     "        return -1;";
     "    }";
     "    result = PyInt_AsSsize_t(py_result);";
     "    Py_DECREF(py_result);";
     "    return result;";
     "}";
     EmptyString;
     EmptyString].

(** The defaults of [PySequenceMethods.generate] *)
Definition PySequenceMethods_defaults : list (string * string) :=
  [("sq_length", "NULL"); ("sq_concat", "NULL"); ("sq_repeat", "NULL"); ("sq_item", "NULL");
   ("sq_slice", "NULL"); ("sq_ass_item", "NULL"); ("sq_ass_slice", "NULL");
   ("sq_contains", "NULL"); ("sq_inplace_concat", "NULL"); ("sq_inplace_repeat", "NULL")].


(** [PySequenceMethods.FUNCTION_TEMPLATES] *)
Definition FUNCTION_TEMPLATES : gmap string string :=
  list_to_map [("sq_length", FUNCTION_TEMPLATE_sq_length);
               ("sq_length_ARGS", FUNCTION_TEMPLATE_sq_length_ARGS);
               ("sq_item", FUNCTION_TEMPLATE_sq_item);
               ("sq_ass_item", FUNCTION_TEMPLATE_sq_ass_item)].

(** [slots.setdefault(key, value)] *)
Definition setdefault (slots : gmap string string) (kv : string * string) : gmap string string :=
  match slots !! kv.1 with Some _ => slots | None => <[kv.1 := kv.2]> slots end.

(** The body of the three [generate] methods *)
Definition generate_table (TEMPLATE : string) (defaults : list (string * string))
    (slots : gmap string string) (k : code_sink) : res code_sink :=
  let slots := fold_left setdefault defaults slots in
  text <-? format_dict TEMPLATE (fun key => slots !! key) ;;
  Ok (writeln k text).

Definition PyTypeObject_generate (slots : gmap string string) (k : code_sink) : res code_sink :=
  generate_table PyTypeObject_TEMPLATE PyTypeObject_defaults slots k.
Definition PyNumberMethods_generate (slots : gmap string string) (k : code_sink)
    : res code_sink :=
  generate_table PyNumberMethods_TEMPLATE PyNumberMethods_defaults slots k.
Definition PySequenceMethods_generate (slots : gmap string string) (k : code_sink)
    : res code_sink :=
  generate_table PySequenceMethods_TEMPLATE PySequenceMethods_defaults slots k.

(** ** Completeness of the tables *)

Lemma lookup_setdefaults (defaults : list (string * string)) : forall slots key,
  fold_left setdefault defaults slots !! key =
    match slots !! key with
    | Some v => Some v
    | None => (list_to_map defaults : gmap string string) !! key
    end.
Proof.
  induction defaults as [|[k v] ds IH]; intros slots key; cbn [fold_left].
  - simpl. rewrite lookup_empty. by destruct (slots !! key).
  - rewrite IH. unfold setdefault. cbn [fst snd list_to_map foldr uncurry].
    destruct (decide (key = k)) as [->|Hne].
    + rewrite lookup_insert_eq. destruct (slots !! k) eqn:E; rewrite ?E; [done|].
      by rewrite lookup_insert_eq.
    + rewrite lookup_insert_ne by done. destruct (slots !! k); [done|].
      by rewrite lookup_insert_ne by done.
Qed.

(** The keys of a template that have no default. *)
Definition required (TEMPLATE : string) (defaults : list (string * string)) : list string :=
  List.filter (fun key => negb (bool_decide (key ∈ map fst defaults)))
    (default [] (template_keys TEMPLATE)).

Definition given (slots : gmap string string) (keys : list string) : Prop :=
  Forall (fun key => is_Some (slots !! key)) keys.

Lemma generate_table_spec TEMPLATE defaults mandatory slots k :
  bool_decide (is_Some (template_keys TEMPLATE)) = true ->
  required TEMPLATE defaults = mandatory ->
  (given slots mandatory ->
   exists text, generate_table TEMPLATE defaults slots k = Ok (writeln k text)
     /\ format_dict TEMPLATE (fun key =>
          match slots !! key with
          | Some v => Some v
          | None => (list_to_map defaults : gmap string string) !! key
          end) = Ok text)
  /\ (~ given slots mandatory ->
      generate_table TEMPLATE defaults slots k = Raise KeyError).
Proof.
  intros [keys Hk]%bool_decide_eq_true_1 <-. unfold generate_table, required. rewrite Hk. cbn [default].
  set (env := fun key => match slots !! key with
    | Some v => Some v | None => (list_to_map defaults : gmap string string) !! key end).
  assert (format_dict TEMPLATE (fun key => fold_left setdefault defaults slots !! key)
          = format_dict TEMPLATE env) as ->.
  { unfold format_dict. destruct (lex_template Plain TEMPLATE) as [ps|]; [|done].
    apply fill_ext. apply List.Forall_forall. intros key _.
    by rewrite lookup_setdefaults. }
  assert (forall key, is_Some (env key) <-> is_Some (slots !! key) \/ key ∈ map fst defaults) as He.
  { intros key. unfold env. destruct (slots !! key) as [v|]; [split; [by left|by eexists]|].
    rewrite <- elem_of_dom, dom_list_to_map_L, elem_of_list_to_set.
    split; [by right | intros [[? ?]|?]; [discriminate|done]]. }
  assert (given slots (List.filter (fun key => negb (bool_decide (key ∈ map fst defaults))) keys)
          <-> Forall (fun key => is_Some (env key)) keys) as ->.
  { unfold given. rewrite !List.Forall_forall. split; intros H key Hin.
    - apply He. destruct (decide (key ∈ map fst defaults)); [by right|]. left. apply H.
      apply filter_In. split; [done|]. by rewrite bool_decide_eq_false_2.
    - apply filter_In in Hin as [Hin Hd]. apply negb_true_iff, bool_decide_eq_false_1 in Hd.
      destruct (proj1 (He key) (H key Hin)); [done|by destruct Hd]. }
  destruct (format_dict_spec TEMPLATE env keys Hk) as [H1 H2]. split; intros H.
  - destruct (H1 H) as [text E]. exists text. by rewrite E.
  - by rewrite (H2 H).
Qed.

(** The tables of a class are complete.  Each of the three [generate] methods
    writes its whole table, every slot the class did not set at its default,
    exactly when the slots the documentation calls mandatory were set
    ([typestruct], [tp_name] and [tp_basicsize] of a type, [variable] of the
    others); when one is missing it raises [KeyError] and writes nothing. *)
Theorem type_tables_complete (slots : gmap string string) (k : code_sink) :
  let filled TEMPLATE defaults :=
    format_dict TEMPLATE (fun key =>
      match slots !! key with
      | Some v => Some v
      | None => (list_to_map defaults : gmap string string) !! key
      end) in
  let complete mandatory TEMPLATE defaults result :=
    (given slots mandatory ->
       exists text, result = Ok (writeln k text) /\ filled TEMPLATE defaults = Ok text)
    /\ (~ given slots mandatory -> result = Raise KeyError) in
  complete ["typestruct"; "tp_name"; "tp_basicsize"] PyTypeObject_TEMPLATE PyTypeObject_defaults
    (PyTypeObject_generate slots k)
  /\ complete ["variable"] PyNumberMethods_TEMPLATE PyNumberMethods_defaults
       (PyNumberMethods_generate slots k)
  /\ complete ["variable"] PySequenceMethods_TEMPLATE PySequenceMethods_defaults
       (PySequenceMethods_generate slots k).
Proof.
  cbn zeta. unfold PyTypeObject_generate, PyNumberMethods_generate, PySequenceMethods_generate.
  split; [|split]; apply generate_table_spec; vm_compute; reflexivity.
Qed.

Lemma type_tables_complete_witness :
  PyTypeObject_generate {["typestruct" := "PyFoo_Type"]} MemoryCodeSink = Raise KeyError
  /\ exists text, PyNumberMethods_generate {["variable" := "Foo__number"]} MemoryCodeSink
       = Ok (writeln MemoryCodeSink text).
Proof.
  split.
  - destruct (type_tables_complete {["typestruct" := "PyFoo_Type"]} MemoryCodeSink)
      as ([_ H]&_&_).
    apply H. intros Hg. inversion Hg as [|? ? _ Hg']; subst.
    inversion Hg' as [|? ? [v Hv] _]; subst. discriminate.
  - destruct (type_tables_complete {["variable" := "Foo__number"]} MemoryCodeSink)
      as (_&[H _]&_).
    destruct H as (text&E&_); [repeat constructor; by eexists|]. exists text. exact E.
Defined.
