(* ===== verification/Custodians.v ===== *)
(** * Custodians and wards: the core of [pybindgen/cppclass_typehandlers.py]
    and [add_custodian_and_ward] of functions, methods and constructors

    A relation ties the life of the wrapper of one object (the ward) to that of
    another (the custodian).  Objects are numbered: -1 is the return value, 0 is
    [self], and n > 0 is the nth parameter. *)
From S2P Require Import Prelude.
From S2P Require Import CodeSink.
From S2P Require Import CodeBlock.
From S2P Require Import Wrapper.
From S2P Require Import TypeHandler.
From S2P Require Import WrapperBase.

(** [(custodian, ward, postcall)] *)
Record relation : Type := Relation {
  rel_custodian : Z;
  rel_ward : Z;
  rel_postcall : bool
}.

(** [TypeConfigurationError] is not imported by [function.py] or [cppmethod.py],
    so that the [raise] statement is a [NameError]. *)
Definition add_custodian_and_ward (rels : list relation) (custodian ward : Z)
    (postcall : option bool) : res (list relation) :=
  if (custodian =? -1) || (ward =? -1) then
    if default true postcall then Ok (rels ++ [Relation custodian ward true])
    else Raise NameError
  else Ok (rels ++ [Relation custodian ward (default false postcall)]).

(** [for num, param in enumerate(wrapper.parameters)] *)
Fixpoint scan_parameters (num : Z) (ps : list param_handler) (rels : list relation)
    : res (list relation) :=
  match ps with
  | [] => Ok rels
  | p :: ps' =>
      rels <-? match ph_custodian p with
               | Some c => add_custodian_and_ward rels c (num + 1) None
               | None => Ok rels
               end ;;
      scan_parameters (num + 1) ps' rels
  end.

Definition scan_custodians_and_wards (parameters : list param_handler)
    (return_value : option return_handler) : res (list relation) :=
  rels <-? scan_parameters 0 parameters [] ;;
  match return_value with
  | None => Ok rels
  | Some rv =>
      rels <-? match rh_custodian rv with
               | Some c => add_custodian_and_ward rels c (-1) None
               | None => Ok rels
               end ;;
      if rh_return_internal_reference rv then add_custodian_and_ward rels (-1) 0 None
      else Ok rels
  end.

Definition add_ward (code_block : nat) (custodian ward : string) : ST heap unit :=
  wards <- block_declare_variable code_block "PyObject*" "wards" None None ;;
  write_code code_block (wards +:+ " = PyObject_GetAttrString(" +:+ custodian +:+ ", (char *) "
                         +:+ dq +:+ "__wards__" +:+ dq +:+ ");") ;;;
  write_code code_block (join nls
    ["if (" +:+ wards +:+ " == NULL) {";
     "    PyErr_Clear();";
     "    " +:+ wards +:+ " = PyList_New(0);";
     "    PyObject_SetAttrString(" +:+ custodian +:+ ", (char *) " +:+ dq +:+ "__wards__" +:+ dq
     +:+ ", " +:+ wards +:+ ");";
     "}"]) ;;;
  write_code code_block (join nls
    ["if (" +:+ ward +:+ " && !PySequence_Contains(" +:+ wards +:+ ", " +:+ ward +:+ "))";
     "    PyList_Append(" +:+ wards +:+ ", " +:+ ward +:+ ");"]) ;;;
  add_cleanup_code code_block ("Py_DECREF(" +:+ wards +:+ ");") ;;;
  st_ret tt.

(** [handler.py_name], asserted not to be [None] *)
Definition py_name_of (has_py_name : bool) (position : Z) : ST world string :=
  if has_py_name then
    names <- st_get wd_py_names ;;
    match names !! position with
    | Some n => st_ret n
    | None => st_raise AssertionError
    end
  else st_raise AttributeError.

(** [parameters[i]], with Python's negative indices *)
Definition param_at (ps : list param_handler) (i : Z) : option (Z * param_handler) :=
  let j := if i <? 0 then i + Z.of_nat (length ps) else i in
  if j <? 0 then None else pair j <$> ps !! Z.to_nat j.

Definition get_custodian_or_ward (parameters : list param_handler)
    (return_value : option return_handler) (num : Z) : ST world string :=
  if num =? -1 then
    match return_value with
    | None => st_raise AttributeError
    | Some rv =>
        n <- py_name_of (rh_has_py_name rv) (-1) ;; st_ret ("((PyObject *) " +:+ n +:+ ")")
    end
  else if num =? 0 then st_ret "((PyObject *) self)"
  else
    match param_at parameters (num - 1) with
    | None => st_raise IndexError
    | Some (j, p) =>
        n <- py_name_of (ph_has_py_name p) j ;; st_ret ("((PyObject *) " +:+ n +:+ ")")
    end.

(** The loop of the two functions below over the relations *)
Definition implement_custodians (rels : list relation) (postcall : bool) (code_block : nat)
    (parameters : list param_handler) (return_value : option return_handler) : ST world unit :=
  st_iter (fun r =>
      st_when (Bool.eqb (rel_postcall r) postcall)
        (custodian <- get_custodian_or_ward parameters return_value (rel_custodian r) ;;
         ward <- get_custodian_or_ward parameters return_value (rel_ward r) ;;
         on_heap (add_ward code_block custodian ward)))
    rels.

Definition implement_parameter_custodians_precall (rels : list relation)
    (parameters : list param_handler) (return_value : option return_handler) (w : wrapper)
    : ST world unit :=
  implement_custodians rels false (w_before_call w) parameters return_value.
Definition implement_parameter_custodians_postcall (rels : list relation)
    (parameters : list param_handler) (return_value : option return_handler) (w : wrapper)
    : ST world unit :=
  implement_custodians rels true (w_after_call w) parameters return_value.

(** ** Frame *)

Lemma wiring_py_name_of b i : evolves same_wiring (py_name_of b i).
Proof. unfold py_name_of. destruct b; [|by intros s]. intros s. unfold st_bind, st_get.
  by destruct (wd_py_names s !! i). Qed.

Lemma wiring_get_custodian ps rv n : evolves same_wiring (get_custodian_or_ward ps rv n).
Proof.
  unfold get_custodian_or_ward. pose proof wiring_py_name_of as H.
  repeat (wiring_step || case_match || apply H).
Qed.

Lemma wiring_block_declare i t n e a :
  evolves heap_same_wiring (block_declare_variable i t n e a).
Proof.
  unfold block_declare_variable. destruct (str_in ":" n); [by intros h|].
  apply evolves_bind; [apply _ | apply wiring_deref|]. intros b. apply wiring_declare.
Qed.

Lemma wiring_add_ward i c w : evolves heap_same_wiring (add_ward i c w).
Proof.
  unfold add_ward. apply evolves_bind; [apply _ | apply wiring_block_declare|]. intros v.
  repeat (apply evolves_bind; [apply _ | eauto with st | intros ?]). apply evolves_ret. apply _.
Qed.

Lemma wiring_implement rels post i ps rv :
  evolves same_wiring (implement_custodians rels post i ps rv).
Proof.
  apply evolves_iter; [apply _|]. intros r. apply evolves_when; [apply _|].
  apply evolves_bind; [apply _ | apply wiring_get_custodian|]. intros c.
  apply evolves_bind; [apply _ | apply wiring_get_custodian|]. intros w.
  apply wiring_on_heap, wiring_add_ward.
Qed.
#[export] Hint Resolve wiring_implement : wiring.

(** ** What the relations of a wrapper can be *)

(** A relation that involves the return value is implemented after the call. *)
Definition postcall_policy (rels : list relation) : Prop :=
  Forall (fun r => rel_custodian r = -1 \/ rel_ward r = -1 -> rel_postcall r = true) rels.

(** The relations a wrapper can come to have: those of its handlers, then those
    its user adds. *)
Inductive relations_of (ps : list param_handler) (rv : option return_handler)
    : list relation -> Prop :=
  | rels_scanned rels : scan_custodians_and_wards ps rv = Ok rels -> relations_of ps rv rels
  | rels_added rels c w pc rels' :
      relations_of ps rv rels -> add_custodian_and_ward rels c w pc = Ok rels' ->
      relations_of ps rv rels'.

Definition involves_return (c w : Z) : bool := (c =? -1) || (w =? -1).

Lemma add_relation_cases rels c w pc :
  add_custodian_and_ward rels c w pc =
    if involves_return c w && negb (default true pc) then Raise NameError
    else Ok (rels ++ [Relation c w (involves_return c w || default false pc)]).
Proof.
  unfold add_custodian_and_ward, involves_return.
  destruct ((c =? -1) || (w =? -1)), pc as [[]|]; done.
Qed.

Lemma add_relation_policy rels c w pc rels' :
  add_custodian_and_ward rels c w pc = Ok rels' -> postcall_policy rels -> postcall_policy rels'.
Proof.
  rewrite add_relation_cases. unfold involves_return.
  destruct (_ && _); [done|]. intros [= <-] H. apply Forall_app. split; [done|].
  repeat constructor. cbn. intros Hr.
  assert ((c =? -1) || (w =? -1) = true) as ->; [|done]. apply orb_true_iff. lia.
Qed.

Lemma scan_parameters_total ps : forall num rels,
  postcall_policy rels ->
  exists rels', scan_parameters num ps rels = Ok rels' /\ postcall_policy rels'.
Proof.
  induction ps as [|p ps IH]; intros num rels H; cbn; [by exists rels|].
  destruct (ph_custodian p) as [c|]; cbn; [|by apply IH].
  pose proof (add_relation_policy rels c (num + 1) None) as Hp.
  rewrite add_relation_cases in Hp |- *. rewrite andb_false_r in Hp |- *. cbn.
  apply IH. by apply (Hp _ eq_refl).
Qed.

Lemma scan_total ps rv :
  exists rels, scan_custodians_and_wards ps rv = Ok rels /\ postcall_policy rels.
Proof.
  unfold scan_custodians_and_wards.
  destruct (scan_parameters_total ps 0 [] ltac:(constructor)) as (rels&->&H). cbn.
  destruct rv as [rv|]; [|by exists rels].
  assert (exists rels', match rh_custodian rv with
                        | Some c => add_custodian_and_ward rels c (-1) None
                        | None => Ok rels end = Ok rels' /\ postcall_policy rels') as (rels'&->&H').
  { destruct (rh_custodian rv) as [c|]; [|by exists rels].
    pose proof (add_relation_policy rels c (-1) None) as Hp.
    rewrite add_relation_cases in Hp |- *. rewrite andb_false_r in Hp |- *. eauto. }
  cbn. destruct (rh_return_internal_reference rv); [|by exists rels'].
  pose proof (add_relation_policy rels' (-1) 0 None) as Hp. eauto.
Qed.

(** The custodian policy.  Scanning the handlers of a wrapper never raises,
    and whatever relations are added later, every relation that involves the
    return value is implemented after the call.  Adding one asks for an
    explicit [postcall=False] with the return value to be refused, which the
    code does with a [NameError], the intended exception not being imported;
    any other addition appends exactly one relation. *)
Theorem custodian_policy (ps : list param_handler) (rv : option return_handler) :
  (exists rels, scan_custodians_and_wards ps rv = Ok rels)
  /\ (forall rels, relations_of ps rv rels ->
      postcall_policy rels
      /\ forall c w pc,
           add_custodian_and_ward rels c w pc =
             if involves_return c w && negb (default true pc) then Raise NameError
             else Ok (rels ++ [Relation c w (involves_return c w || default false pc)])).
Proof.
  destruct (scan_total ps rv) as (rels0&E0&H0). split; [by exists rels0|].
  intros rels Hr. split; [|intros; apply add_relation_cases].
  induction Hr as [rels E|rels c w pc rels' _ IH E]; [congruence|].
  by eapply add_relation_policy.
Qed.

(** ** The references taken are released *)

(** Block [i] of the heap, and the counters of its scope. *)
Record block_state (h : heap) (i : nat) (b : code_block) (d : nat) (vars : gmap string Z)
    : Prop := BlockState {
  bs_block : h_blocks h !! i = Some b;
  bs_wf : block_wf b;
  bs_scope : scope_counts h (cb_declarations b) d;
  bs_dict : dict_is h d vars
}.

Definition decref (v : string) : string := "Py_DECREF(" +:+ v +:+ ");".

Lemma write_code_state h i b d vars c :
  block_state h i b d vars ->
  exists h' b', write_code i c h = (h', Ok tt) /\ block_state h' i b' d vars
    /\ own_cleanup b' = own_cleanup b /\ cb_sink b' = writeln (cb_sink b) c.
Proof.
  intros [Hb [Hk [ls Hd]] Hs Hv]. unfold write_code.
  rewrite (on_sink_eq h i b _ (writeln (cb_sink b) c) Hb eq_refl).
  exists (put_block h i (with_sink b (writeln (cb_sink b) c))), (with_sink b (writeln (cb_sink b) c)).
  split; [done|]. split; [|done]. constructor.
  - by eapply lookup_put_block.
  - split; [exact Hk|]. cbn. unfold writeln. rewrite Hd. by eexists.
  - exact Hs.
  - exact Hv.
Qed.


Lemma declare_wards_state h i b d vars :
  block_state h i b d vars ->
  let v := var_name "wards" (next_num vars "wards") in
  exists h', block_declare_variable i "PyObject*" "wards" None None h = (h', Ok v)
    /\ block_state h' i b d (<["wards" := next_num vars "wards"]> vars).
Proof.
  intros [Hb Hw Hs Hv] v. unfold block_declare_variable. cbn [str_in Ascii.eqb Bool.eqb orb].
  unfold scope_declare_variable, st_bind, deref at 1. rewrite Hb.
  rewrite (reserve_variable_eq h _ d vars "wards" Hs Hv). cbn.
  pose proof Hs as Hs0. unfold scope_counts in Hs. unfold deref. cbn.
  destruct (h_scopes h !! cb_declarations b) as [ds|] eqn:Ed; [|discriminate]. cbn in *.
  injection Hs as Hs. eexists. split; [reflexivity|]. constructor; cbn; try done.
  - unfold scope_counts. cbn. rewrite list_lookup_insert_eq by by eapply lookup_lt_Some.
    cbn. by rewrite Hs.
  - unfold dict_is. cbn. apply list_lookup_insert_eq. by eapply lookup_lt_Some.
Qed.

(** What the generated code does with a list of wards: fetch it from the custodian,
    or make it, and put the ward in, unless it is there. *)
Definition ward_lines (wards custodian ward : string) : list string :=
  let attribute := "(char *) " +:+ dq +:+ "__wards__" +:+ dq in
  [wards +:+ " = PyObject_GetAttrString(" +:+ custodian +:+ ", " +:+ attribute +:+ ");";
   "if (" +:+ wards +:+ " == NULL) {" +:+ nls +:+ "    PyErr_Clear();" +:+ nls
   +:+ "    " +:+ wards +:+ " = PyList_New(0);" +:+ nls
   +:+ "    PyObject_SetAttrString(" +:+ custodian +:+ ", " +:+ attribute +:+ ", " +:+ wards +:+ ");" +:+ nls
   +:+ "}";
   "if (" +:+ ward +:+ " && !PySequence_Contains(" +:+ wards +:+ ", " +:+ ward +:+ "))" +:+ nls
   +:+ "    PyList_Append(" +:+ wards +:+ ", " +:+ ward +:+ ");"].

Lemma add_ward_state h i b d vars c w :
  block_state h i b d vars ->
  let n := next_num vars "wards" in
  exists h' b', add_ward i c w h = (h', Ok tt)
    /\ block_state h' i b' d (<["wards" := n]> vars)
    /\ own_cleanup b' = decref (var_name "wards" n) :: own_cleanup b
    /\ cb_sink b' = fold_left writeln (ward_lines (var_name "wards" n) c w) (cb_sink b).
Proof.
  intros H n. destruct (declare_wards_state h i b d vars H) as (h1&E1&H1).
  destruct (write_code_state h1 i b d _ (var_name "wards" n +:+ " = PyObject_GetAttrString(" +:+ c
    +:+ ", (char *) " +:+ dq +:+ "__wards__" +:+ dq +:+ ");") H1) as (h2&b2&E2&H2&O2&S2).
  unfold add_ward. unfold st_bind at 1. rewrite E1. fold n. unfold st_bind at 1. rewrite E2.
  match goal with |- context [st_bind (write_code i ?t) _ h2] =>
    destruct (write_code_state h2 i b2 d _ t H2) as (h3&b3&E3&H3&O3&S3) end.
  unfold st_bind at 1. rewrite E3.
  match goal with |- context [st_bind (write_code i ?t) _ h3] =>
    destruct (write_code_state h3 i b3 d _ t H3) as (h4&b4&E4&H4&O4&S4) end.
  unfold st_bind at 1. rewrite E4. destruct H4 as [Hb Hw Hs Hv].
  unfold st_bind. rewrite (add_cleanup_code_eq h4 i b4 _ Hb).
  eexists _, _. split; [reflexivity|]. split.
  - constructor; [by eapply lookup_put_block | by apply block_wf_with_action | exact Hs | exact Hv].
  - rewrite own_cleanup_with_action by done. unfold decref. split; [congruence|].
    cbn [with_action cb_sink]. rewrite S4, S3, S2. cbn [ward_lines fold_left].
    unfold nls, dq. cbn [join]. rewrite <- !app_str_assoc. reflexivity.
Qed.

Lemma py_name_of_heap b i s s' n : py_name_of b i s = (s', Ok n) -> s' = s.
Proof.
  unfold py_name_of. destruct b; [|done]. unfold st_bind, st_get.
  destruct (wd_py_names s !! i); [|done]. by intros [= <- _].
Qed.

Lemma get_custodian_heap ps rv n s s' c :
  get_custodian_or_ward ps rv n s = (s', Ok c) -> s' = s.
Proof.
  unfold get_custodian_or_ward. destruct (n =? -1); [|destruct (n =? 0)].
  - destruct rv as [rv|]; [|done]. intros (s1&v&H&E)%st_bind_Ok. injection E as <- _.
    by eapply py_name_of_heap.
  - by intros [= <- _].
  - destruct (param_at ps (n - 1)) as [[j p]|]; [|done].
    intros (s1&v&H&E)%st_bind_Ok. injection E as <- _. by eapply py_name_of_heap.
Qed.

(** The name of an object depends on the names of the handlers only. *)
Lemma get_custodian_names ps rv n s s1 : wd_py_names s1 = wd_py_names s ->
  (get_custodian_or_ward ps rv n s1).2 = (get_custodian_or_ward ps rv n s).2.
Proof.
  intros E. assert (forall b j, (py_name_of b j s1).2 = (py_name_of b j s).2) as Hn.
  { intros b j. unfold py_name_of. destruct b; [|done]. unfold st_bind, st_get. rewrite E. by destruct (_ !! j). }
  assert (forall b j (f : string -> string), (st_bind (py_name_of b j) (fun n => st_ret (f n)) s1).2
            = (st_bind (py_name_of b j) (fun n => st_ret (f n)) s).2) as Hb.
  { intros b j f. specialize (Hn b j). unfold st_bind.
    destruct (py_name_of b j s1) as [t1 [n1|]], (py_name_of b j s) as [t2 [n2|]]; cbn in *; congruence. }
  unfold get_custodian_or_ward. destruct (n =? -1); [destruct rv; [apply Hb|done]|].
  destruct (n =? 0); [done|]. destruct (param_at ps (n - 1)) as [[j p]|]; [apply Hb|done].
Qed.

(** The names of [m] more lists of wards, after [n]. *)
Definition wards_names (n : Z) (m : nat) : list string :=
  map (fun k => var_name "wards" (n + Z.of_nat k)) (seq 0 m).

Lemma wards_names_S n m : wards_names n (S m) = var_name "wards" n :: wards_names (n + 1) m.
Proof.
  unfold wards_names. cbn [seq map]. f_equal; [f_equal; lia|].
  rewrite <- seq_shift, map_map. apply map_ext. intros k. f_equal. lia.
Qed.

Lemma wards_names_NoDup n m : 1 <= n -> NoDup (wards_names n m).
Proof.
  intros Hn. revert n Hn. induction m as [|m IH]; intros n Hn; [constructor|].
  rewrite wards_names_S. constructor; [|apply IH; lia].
  unfold wards_names. rewrite list_elem_of_In, in_map_iff. intros (k&E&_).
  apply var_name_inj in E; [lia|done|done|lia|lia].
Qed.

(** A list of wards that was taken: its variable, the custodian and the ward. *)
Record taken_wards : Type := TakenWards { tk_wards : string; tk_custodian : string; tk_ward : string }.
Definition taken_lines (t : taken_wards) : list string := ward_lines (tk_wards t) (tk_custodian t) (tk_ward t).
(** It is that of a relation, in a world that knows the names of the objects. *)
Definition taken_for (ps : list param_handler) (rv : option return_handler) (s : world)
    (r : relation) (t : taken_wards) : Prop :=
  (get_custodian_or_ward ps rv (rel_custodian r) s).2 = Ok (tk_custodian t)
  /\ (get_custodian_or_ward ps rv (rel_ward r) s).2 = Ok (tk_ward t).

Lemma implement_custodians_state rels post i ps rv : forall s s' b d vars,
  block_state (wd_heap s) i b d vars ->
  implement_custodians rels post i ps rv s = (s', Ok tt) ->
  let l := List.filter (fun r => Bool.eqb (rel_postcall r) post) rels in
  exists b' vars' ts, block_state (wd_heap s') i b' d vars'
    /\ Forall2 (taken_for ps rv s) l ts
    /\ map tk_wards ts = wards_names (next_num vars "wards") (length l)
    /\ own_cleanup b' = rev (map decref (map tk_wards ts)) ++ own_cleanup b
    /\ cb_sink b' = fold_left writeln (flat_map taken_lines ts) (cb_sink b).
Proof.
  induction rels as [|r rels IH]; intros s s' b d vars H Hrun; cbn zeta.
  - injection Hrun as <-. exists b, vars, []. split_and!; [done|constructor|done..].
  - apply st_bind_Ok in Hrun as (s1&[]&E1&E2).
    cbn [List.filter]. destruct (Bool.eqb (rel_postcall r) post); cbn [st_when length] in E1 |- *.
    + apply st_bind_Ok in E1 as (s2&c&Ec&E1). apply st_bind_Ok in E1 as (s3&w&Ew&E1).
      pose proof (get_custodian_heap _ _ _ _ _ _ Ec) as ->. pose proof (get_custodian_heap _ _ _ _ _ _ Ew) as ->.
      destruct (add_ward_state (wd_heap s) i b d vars c w H) as (h'&b'&E&H'&O&S).
      unfold on_heap in E1. rewrite E in E1. injection E1 as <-.
      pose proof (fun H0 => IH _ s' b' d (<["wards" := next_num vars "wards"]> vars) H0 E2) as IH'.
      destruct (IH' H') as (b''&vars''&ts&H''&F&N&O''&S'').
      exists b'', vars'', (TakenWards (var_name "wards" (next_num vars "wards")) c w :: ts).
      split; [exact H''|]. unfold next_num at 1 in N. rewrite lookup_insert_eq in N. cbn [default] in N. split_and!.
      * constructor; [split; cbn; [by rewrite Ec|by rewrite Ew]|].
        eapply Forall2_impl; [exact F|]. intros r' t [F1 F2].
        split; [rewrite <- F1|rewrite <- F2]; symmetry; by apply get_custodian_names.
      * cbn [map tk_wards]. by rewrite N, wards_names_S.
      * cbn [map tk_wards rev]. by rewrite O'', O, <- app_assoc.
      * cbn [flat_map]. by rewrite S'', S, <- fold_left_app.
    + injection E1 as <-. by apply (IH s).
Qed.

(** C23: every reference the custodian code takes is released.  When the hook
    before or after the call succeeds on a block, each relation of its kind (and
    no other) has, in order, fetched one list of wards of its custodian into a
    variable of its own, or made one, and put its ward in; nothing else was
    written.  The cleanup code of the block, which runs on every error exit and at
    the end, starts with exactly one [Py_DECREF] for each of these variables, the
    last first, before the actions that were there. *)
Theorem wards_released (rels : list relation) (postcall : bool) (i d : nat)
    (ps : list param_handler) (rv : option return_handler) (s s' : world) (b : code_block)
    (vars : gmap string Z) :
  block_state (wd_heap s) i b d vars -> 1 <= next_num vars "wards" ->
  implement_custodians rels postcall i ps rv s = (s', Ok tt) ->
  exists ts b', h_blocks (wd_heap s') !! i = Some b'
    /\ Forall2 (taken_for ps rv s) (List.filter (fun r => Bool.eqb (rel_postcall r) postcall) rels) ts
    /\ cb_sink b' = fold_left writeln (flat_map taken_lines ts) (cb_sink b)
    /\ NoDup (map tk_wards ts)
    /\ own_cleanup b' = rev (map decref (map tk_wards ts)) ++ own_cleanup b.
Proof.
  intros H Hn Hrun. destruct (implement_custodians_state _ _ _ _ _ _ _ _ _ _ H Hrun)
    as (b'&vars'&ts&[Hb _ _ _]&F&N&O&S).
  exists ts, b'. split_and!; [exact Hb|exact F|exact S| |exact O]. rewrite N. by apply wards_names_NoDup.
Qed.

(** ** Which numbers denote which objects *)

(** The expression of the object at a position. *)
Definition object_expr (has_py_name : bool) (position : Z) : ST world string :=
  n <- py_name_of has_py_name position ;; st_ret ("((PyObject *) " +:+ n +:+ ")").

(** The bounds of the numbers.  -1 is the return value, 0 is [self], and
    from 1 to the number of parameters the parameters in order; a larger number
    raises [IndexError].  Numbers below -1 are not refused: down to the negated
    number of parameters, exclusive, they silently count the parameters from the
    end, and below that raise [IndexError]. *)
Theorem custodian_bounds (ps : list param_handler) (rv : option return_handler) (n : Z) :
  let len := Z.of_nat (length ps) in
  (n = 0 -> get_custodian_or_ward ps rv n = st_ret "((PyObject *) self)")
  /\ (n = -1 -> forall r, rv = Some r ->
       get_custodian_or_ward ps rv n = object_expr (rh_has_py_name r) (-1))
  /\ (1 <= n <= len -> exists p, ps !! Z.to_nat (n - 1) = Some p
       /\ get_custodian_or_ward ps rv n = object_expr (ph_has_py_name p) (n - 1))
  /\ (- len < n < -1 -> exists p, ps !! Z.to_nat (len + n - 1) = Some p
       /\ get_custodian_or_ward ps rv n = object_expr (ph_has_py_name p) (len + n - 1))
  /\ (len < n \/ n <= - len /\ n < -1 -> get_custodian_or_ward ps rv n = st_raise IndexError).
Proof.
  intros len. unfold get_custodian_or_ward, param_at, object_expr. fold len.
  assert (forall j, 0 <= j < len -> exists p, ps !! Z.to_nat j = Some p) as Hin.
  { intros j Hj. apply lookup_lt_is_Some. unfold len in Hj. lia. }
  split_and!.
  - by intros ->.
  - by intros -> r ->.
  - intros Hn. destruct (Hin (n - 1)) as [p Hp]; [lia|]. exists p. split; [done|].
    rewrite (proj2 (Z.eqb_neq n (-1))), (proj2 (Z.eqb_neq n 0)) by lia.
    rewrite !(proj2 (Z.ltb_ge (n - 1) 0)) by lia. by rewrite Hp.
  - intros Hn. destruct (Hin (len + n - 1)) as [p Hp]; [lia|]. exists p. split; [done|].
    rewrite (proj2 (Z.eqb_neq n (-1))), (proj2 (Z.eqb_neq n 0)) by lia.
    rewrite (proj2 (Z.ltb_lt (n - 1) 0)) by lia.
    replace (n - 1 + len) with (len + n - 1) by lia.
    rewrite (proj2 (Z.ltb_ge (len + n - 1) 0)) by lia. by rewrite Hp.
  - intros Hn.
    destruct (Z.eqb_spec n (-1)); [lia|]. destruct (Z.eqb_spec n 0); [lia|].
    destruct (Z.ltb_spec (n - 1) 0).
    + by rewrite (proj2 (Z.ltb_lt (n - 1 + len) 0)) by lia.
    + rewrite (proj2 (Z.ltb_ge (n - 1) 0)) by lia.
      by rewrite lookup_ge_None_2 by (unfold len in *; lia).
Qed.

(** The first parameter keeps the object alive. *)
Definition demo_handler : param_handler :=
  MkParamHandler "Foo *" "foo" (fun _ => st_ret tt) (fun _ => st_ret tt) (Some 0) true.
Definition demo_wards_world : world :=
  World (new_forward_heap "return NULL;" "return NULL;") [] [] [] [] {[0 := "foo"]}.

Lemma custodian_policy_witness :
  scan_custodians_and_wards [demo_handler] None = Ok [Relation 0 1 false]
  /\ postcall_policy [Relation 0 1 false]
  /\ add_custodian_and_ward [Relation 0 1 false] (-1) 1 (Some false) = Raise NameError.
Proof.
  assert (relations_of [demo_handler] None [Relation 0 1 false]) as H by by constructor.
  destruct (custodian_policy [demo_handler] None) as [_ Hp].
  destruct (Hp _ H) as [H1 H2]. split_and!; [reflexivity | exact H1 | exact (H2 (-1) 1 (Some false))].
Defined.

Definition demo_block : code_block :=
  MkBlock MemoryCodeSink (Some 0%nat) ∅ 0 "return NULL;" 0.

Lemma wards_released_witness :
  let s' := (implement_custodians [Relation 0 1 false] false 1 [demo_handler] None
               demo_wards_world).1 in
  exists v b', h_blocks (wd_heap s') !! 1%nat = Some b'
    /\ cb_sink b' = fold_left writeln (ward_lines v "((PyObject *) self)" "((PyObject *) foo)") MemoryCodeSink
    /\ own_cleanup b' = [decref v].
Proof.
  intros s'.
  destruct (wards_released [Relation 0 1 false] false 1 0 [demo_handler] None demo_wards_world s'
            demo_block ∅) as (ts&b'&Hb&F&S&_&O).
  - constructor; [reflexivity| |reflexivity|reflexivity]. split; [|by eexists].
    intros p Hp. cbn in Hp. by rewrite dom_empty in Hp.
  - vm_compute. discriminate.
  - unfold s'. vm_compute. reflexivity.
  - cbn [List.filter Bool.eqb rel_postcall] in F. inversion F as [|r t l ts' [F1 F2] F']. subst. inversion F'. subst.
    destruct t as [v c w]. cbn in F1, F2. injection F1 as <-.
    assert (w = "((PyObject *) foo)") as -> by (vm_compute in F2; injection F2 as <-; reflexivity).
    exists v, b'. split; [exact Hb|]. split; [exact S|exact O].
Defined.

Lemma custodian_bounds_witness :
  get_custodian_or_ward [demo_handler; demo_handler; demo_handler] None (-2)
    = object_expr (ph_has_py_name demo_handler) 0
  /\ get_custodian_or_ward [demo_handler] None 2 = st_raise IndexError.
Proof.
  split.
  - destruct (custodian_bounds [demo_handler; demo_handler; demo_handler] None (-2))
      as (_&_&_&H&_).
    destruct H as (p&Hp&H); [cbn; lia|]. injection Hp as <-. exact H.
  - apply (custodian_bounds [demo_handler] None 2). left. cbn. lia.
Defined.
