(* ===== verification/Settings.v ===== *)
(** * Global settings: [pybindgen/settings.py]

    The settings the generators read, and the names they build from them and
    from C++ namespaces. *)
From S2P Require Import Prelude.
From S2P Require Import Format.
From S2P Require Import Utils.

Record settings : Type := Settings {
  name_prefix : string;
  automatic_type_narrowing : bool;
  allow_subclassing : bool;
  unblock_threads : bool;
  deprecated_virtuals : option bool;
  gcc_rtti_abi_complete : bool
}.

(** The module as it is when it has just been imported. *)
Definition default_settings : settings := Settings EmptyString false false false None true.

Definition get_deprecated_virtuals (g : settings) : bool :=
  default false (deprecated_virtuals g).

(** What a nested type uses of the class it is declared in. *)
Record outer_class : Type := OuterClass {
  oc_full_name : string;
  oc_pytypestruct : string;
  oc_tp_name : option string
}.

(** What a type or a function uses of the module it belongs to. *)
Record module_view : Type := ModuleView {
  mv_prefix : string;
  mv_cpp_namespace_prefix : string;
  mv_path : list string;
  mv_after_init : nat
}.

(** [namespace + '::' + name], for the namespace prefix of a module *)
Definition in_namespace (prefix name : string) : string :=
  if String.eqb prefix EmptyString then name
  else if String.eqb prefix "::" then "::" +:+ name
  else prefix +:+ "::" +:+ name.

(** "make a name like::This look LikeThis" *)
Definition flatten (name : string) : string :=
  join EmptyString (map (fun s => make_upper (mangle_name s)) (split_colons name)).
