(* ===== verification/CppException.v ===== *)
(** * C++ exceptions: [pybindgen/cppexception.py]

    The exception objects are known by a number in a store, since one may be the
    parent of another, and their names are set when they are added to a module. *)
From S2P Require Import Prelude.
From S2P Require Import CodeSink.
From S2P Require Import CodeBlock.
From S2P Require Import Format.
From S2P Require Import Utils.
From S2P Require Import Settings.

Record cpp_exception : Type := CppException {
  ex_name : string;
  ex_parent : option nat;
  ex_outer_class : option outer_class;
  ex_custom_name : option string;
  ex_foreign_cpp_namespace : option string;
  ex_message_rvalue : option string;
  ex_full_name : option string;
  ex_mangled_name : option string;
  ex_mangled_full_name : option string;
  ex_pytypestruct : option string;
  ex_module : option module_view
}.

(** [CppException.__init__] *)
Definition CppException_init (name : string) (parent : option nat)
    (outer : option outer_class) (custom_name foreign_cpp_namespace message_rvalue : option string)
    : cpp_exception :=
  CppException name parent outer custom_name foreign_cpp_namespace message_rvalue
    None None None None None.

Definition write_convert_to_python (exc : cpp_exception) (i : nat) (variable_name : string)
    : ST heap unit :=
  match ex_message_rvalue exc with
  | None => write_code i ("PyErr_SetNone((PyObject *) " +:+ str_opt (ex_pytypestruct exc) +:+ ");")
  | Some m =>
      msg <- st_lift (format_dict m (fun k => if String.eqb k "EXC" then Some variable_name
                                              else None)) ;;
      write_code i ("PyErr_SetString((PyObject *) " +:+ str_opt (ex_pytypestruct exc) +:+ ", "
                    +:+ msg +:+ ");")
  end.

(** The part of [_update_names] that finds the C++ name. *)
Definition exception_full_name (exc : cpp_exception) (m : module_view) : res string :=
  match ex_outer_class exc with
  | None =>
      if truthy (ex_foreign_cpp_namespace exc)
      then Ok (default EmptyString (ex_foreign_cpp_namespace exc) +:+ "::" +:+ ex_name exc)
      else Ok (in_namespace (mv_cpp_namespace_prefix m) (ex_name exc))
  | Some c =>
      if truthy (ex_foreign_cpp_namespace exc) then Raise AssertionError
      else Ok (join "::" [oc_full_name c; ex_name exc])
  end.

Definition exception_pytypestruct (g : settings) (full_name : string) : string :=
  "Py" +:+ capitalize (name_prefix g) +:+ mangle_name full_name +:+ "_Type".

(** [set_module], which calls [_update_names] *)
Definition exception_set_module (g : settings) (exc : cpp_exception) (m : module_view)
    : res cpp_exception :=
  full_name <-? exception_full_name exc m ;;
  Ok (CppException (ex_name exc) (ex_parent exc) (ex_outer_class exc) (ex_custom_name exc)
        (ex_foreign_cpp_namespace exc) (ex_message_rvalue exc)
        (Some full_name) (Some (flatten (ex_name exc))) (Some (mangle_name full_name))
        (Some (exception_pytypestruct g full_name)) (Some m)).

Definition exception_python_name (exc : cpp_exception) : string :=
  default (ex_name exc) (ex_custom_name exc).

Definition exception_python_full_name (exc : cpp_exception) : res string :=
  match ex_outer_class exc with
  | None =>
      match ex_module exc with
      | None => Raise AttributeError
      | Some m => Ok (join "." (mv_path m ++ [exception_python_name exc]))
      end
  | Some c =>
      match oc_tp_name c with
      | None => Raise KeyError
      | Some n => Ok (n +:+ "." +:+ exception_python_name exc)
      end
  end.

(** The generators write to a code sink and to the blocks of the module. *)
Definition sink_writeln {S} (line : string) : ST (S * code_sink) unit :=
  on_snd (st_modify (fun k => writeln k line)).

Definition sink_indent {S} : ST (S * code_sink) unit :=
  on_snd (st_modify (fun k => indent k 4)).
Definition sink_unindent {S} : ST (S * code_sink) unit :=
  on_snd (fun k => match unindent k with Ok k' => (k', Ok tt) | Raise e => (k, Raise e) end).

Definition exception_forward_declarations (exc : cpp_exception) : ST (heap * code_sink) unit :=
  sink_writeln EmptyString ;;;
  sink_writeln ("extern PyTypeObject *" +:+ str_opt (ex_pytypestruct exc) +:+ ";") ;;;
  sink_writeln EmptyString.

(** [generate(code_sink, module, docstring)]; [store] holds the parents. *)
Definition exception_generate (store : list cpp_exception) (exc : cpp_exception)
    (m : module_view) (docstring : option string) : ST (heap * code_sink) unit :=
  let i := mv_after_init m in
  let pytype := str_opt (ex_pytypestruct exc) in
  sink_writeln ("PyTypeObject *" +:+ pytype +:+ ";") ;;;
  on_fst (write_code i ("/* Register the '" +:+ str_opt (ex_full_name exc) +:+ "' exception */")) ;;;
  parent <- match ex_parent exc with
            | None => st_ret "NULL"
            | Some p =>
                match store !! p with
                | None => st_raise AttributeError
                | Some e =>
                    match ex_pytypestruct e with
                    | None => st_raise TypeError
                    | Some t => st_ret ("(PyObject*) " +:+ t)
                    end
                end
            end ;;
  full <- st_lift (exception_python_full_name exc) ;;
  on_fst (write_error_check i
    ("(" +:+ pytype +:+ " = (PyTypeObject*) PyErr_NewException((char*)" +:+ dq +:+ full +:+ dq
     +:+ ", " +:+ parent +:+ ", NULL)) == NULL") None) ;;;
  st_when (truthy docstring)
    (on_fst (write_code i (pytype +:+ "->tp_doc = (char*)" +:+ dq +:+ default EmptyString docstring
                           +:+ dq +:+ ";"))) ;;;
  match ex_outer_class exc with
  | None =>
      on_fst (write_code i
        ("Py_INCREF((PyObject *) " +:+ pytype +:+ ");" +:+ nls
         +:+ "PyModule_AddObject(m, (char *) " +:+ dq +:+ exception_python_name exc +:+ dq
         +:+ ", (PyObject *) " +:+ pytype +:+ ");"))
  | Some c =>
      on_fst (write_code i
        ("Py_INCREF((PyObject *) " +:+ pytype +:+ ");" +:+ nls
         +:+ "PyDict_SetItemString((PyObject*) " +:+ oc_pytypestruct c +:+ ".tp_dict, (char *) "
         +:+ dq +:+ exception_python_name exc +:+ dq +:+ ", (PyObject *) " +:+ pytype +:+ ");"))
  end.
