(* ===== verification/Converters.v ===== *)
(** * Converters: [pybindgen/converter_functions.py]

    A converter is a C function that converts one value; setters of attributes
    ([CppAttribute]) are built the same way.  Both work on the handler of a type,
    whose attributes [value], [type_traits] and [REQUIRES_ASSIGNMENT_CONSTRUCTOR]
    they set, so that a handler is a value that depends on these. *)
From S2P Require Import Prelude.
From S2P Require Import CodeSink.
From S2P Require Import CodeBlock.
From S2P Require Import Wrapper.
From S2P Require Import CTypeParser.
From S2P Require Import TypeHandler.
From S2P Require Import HandlerOps.
From S2P Require Import NumericTypes.
From S2P Require Import WrapperBase.

(** ** The handler of a value type *)

Record value_type : Type := ValueType {
  vt_ctype : string;
  vt_traits : type_traits;
  vt_value : string;
  vt_REQUIRES_ASSIGNMENT_CONSTRUCTOR : bool;
  vt_object : type_traits -> string -> bool -> return_handler
}.

Definition set_value (value : string) (v : value_type) : value_type :=
  ValueType (vt_ctype v) (vt_traits v) value (vt_REQUIRES_ASSIGNMENT_CONSTRUCTOR v) (vt_object v).
Definition set_requires (b : bool) (v : value_type) : value_type :=
  ValueType (vt_ctype v) (vt_traits v) (vt_value v) b (vt_object v).
Definition set_traits (t : type_traits) (v : value_type) : value_type :=
  ValueType (vt_ctype v) t (vt_value v) (vt_REQUIRES_ASSIGNMENT_CONSTRUCTOR v) (vt_object v).

(** The handler with its attributes as they are. *)
Definition vt_handler (v : value_type) : return_handler :=
  vt_object v (vt_traits v) (vt_value v) (vt_REQUIRES_ASSIGNMENT_CONSTRUCTOR v).

(** A handler of the built-in modules: of the three attributes, its methods read
    [value] only. *)
Definition builtin_value (c : ret_class) (r : retval) : value_type :=
  ValueType (r_ctype r) (r_traits r) (r_value r) false
    (fun t value requires =>
       let h := return_handler_of c (MkRetval (r_traits r) value (r_caller_owns_return r)) in
       MkReturnHandler (rh_ctype h) (show (tt_ctype_no_const t)) requires (rh_c_error_return h)
         (rh_convert_python_to_c h) (rh_convert_c_to_python h) (rh_custodian h)
         (rh_return_internal_reference h) (rh_has_py_name h)).

(** ** What converters and setters share *)

(** The objects of a wrapper, next to the handler, which others may share. *)
Definition value_state : Type := value_type * world.
Definition value_gen : Type := value_type * gen.

Definition set_handler (f : value_type -> value_type) : ST value_state unit :=
  st_modify (fun st => (f st.1, st.2)).
(** [self.return_value.convert_python_to_c(self)] and [convert_c_to_python] *)
Definition convert_python_to_c (w : wrapper) : ST value_state unit :=
  fun st => on_snd (rh_convert_python_to_c (vt_handler st.1) w) st.
Definition convert_c_to_python (w : wrapper) : ST value_state unit :=
  fun st => on_snd (rh_convert_c_to_python (vt_handler st.1) w) st.

(** The same, next to a target. *)
Definition in_state {A} (m : ST value_state A) : ST value_gen A :=
  fun st => let '((v, s), r) := m (st.1, g_world st.2) in ((v, Gen s (g_out st.2)), r).

(** The value is put in a tuple, which is parsed like the arguments of a
    function. *)
Definition pack_value (w : wrapper) : ST world unit :=
  declare w "PyObject*" "py_retval" None None ;;;
  before_call_code w ("py_retval = Py_BuildValue((char *) " +:+ dq +:+ "(O)" +:+ dq +:+ ", value);") ;;;
  on_heap (add_cleanup_code (w_before_call w) "Py_DECREF(py_retval);") ;;;
  st_ret tt.

(** The format starts with a double quote. *)
Definition quoted_format (params : list string) : ST world unit :=
  match params with
  | String c _ :: _ => st_assert (Ascii.eqb c "034")
  | _ => st_raise IndexError
  end.

Definition unpack_value (w : wrapper) : ST world unit :=
  params <- parse_query parse_get_parameters ;;
  quoted_format params ;;;
  on_heap (write_error_check (w_before_call w)
    ("!PyArg_ParseTuple(" +:+ join ", " ("py_retval" :: cast_format params) +:+ ")") None).

(** "cleanup and return" *)
Definition cleanup_and_return (w : wrapper) (code : string) : ST world unit :=
  on_heap (write_cleanup (w_after_call w)) ;;; after_call_code w code.

(** The whole conversion of a value: [convert] calls the handler, and [call] gives
    the code to run on success. *)
Definition convert_value {A} (w : wrapper) (convert : ST value_state A) (call : A -> list string)
    (code : string) : ST value_state unit :=
  on_snd (pack_value w) ;;;
  a <- convert ;;
  on_snd (unpack_value w) ;;;
  on_snd (st_iter (after_call_code w) (call a) ;;; cleanup_and_return w code).

(** "now generate the function itself": [blocks] are flushed in order *)
Definition write_function (w : wrapper) (header : string) (blocks : list nat) : ST gen unit :=
  out_writeln header ;;;
  out_writeln "{" ;;;
  out (fun k => Ok (indent k 4)) ;;;
  flush_declarations (w_declarations w) ;;;
  out_writeln EmptyString ;;;
  st_iter flush_block blocks ;;;
  out unindent ;;;
  out_writeln "}".

(** ** [PythonToCConverter] *)

Record py_to_c_converter : Type := PyToC {
  p2c_c_function_name : string;
  p2c_type_no_ref : string;
  p2c_refs : wrapper
}.

(** The constructor replaces the traits of a reference by those of its target. *)
Definition PythonToCConverter_init (c_function_name : string) : ST value_state py_to_c_converter :=
  t <- st_get (fun st => vt_traits st.1) ;;
  traits <- st_lift (if type_is_reference t then TypeTraits_init (target_str t) else Ok t) ;;
  set_handler (set_traits traits) ;;;
  v <- st_get fst ;;
  rw <- on_snd (ReverseWrapperBase_init (vt_handler v) [] (Some "return 0;") true
                  (fun _ => st_ret tt)) ;;
  st_ret (PyToC c_function_name (show (tt_ctype_no_modifiers traits)) (rw_refs rw)).

Definition p2c_prototype (type_no_ref name : string) : string :=
  "int " +:+ name +:+ "(PyObject *value, " +:+ type_no_ref +:+ " *address)".
Definition PythonToC_get_prototype (o : py_to_c_converter) : string :=
  p2c_prototype (p2c_type_no_ref o) (p2c_c_function_name o).

(** The handler works on [*address] for the time of the call. *)
Definition PythonToC_convert (w : wrapper) : ST value_state unit :=
  saved <- st_get fst ;;
  set_handler (fun v => set_requires false (set_value "*address" v)) ;;;
  st_finally (convert_python_to_c w)
    (set_handler (fun v => set_requires (vt_REQUIRES_ASSIGNMENT_CONSTRUCTOR saved)
                             (set_value (vt_value saved) v))).

Definition PythonToC_generate (o : py_to_c_converter) (wrapper_name : string) : ST value_gen unit :=
  let w := p2c_refs o in
  in_state (convert_value w (PythonToC_convert w) (fun _ => []) "return 1;") ;;;
  on_snd (write_function w (p2c_prototype (p2c_type_no_ref o) wrapper_name)
            [w_before_call w; w_after_call w]).

(** ** [CToPythonConverter] *)

Record c_to_py_converter : Type := CToPy {
  c2p_c_function_name : string;
  c2p_refs : wrapper
}.

Definition CToPythonConverter_init (c_function_name : string) : ST value_state c_to_py_converter :=
  v <- st_get fst ;;
  fw <- on_snd (ForwardWrapperBase_init (Some (vt_handler v)) [] "return 0;" "return 0;" None true
                  false false (fun _ => st_ret tt) (fun _ => st_ret tt) (fun _ => st_ret tt)) ;;
  st_ret (CToPy c_function_name (fw_refs fw)).

Definition CToPython_get_prototype (o : c_to_py_converter) (v : value_type) : string :=
  "PyObject* " +:+ c2p_c_function_name o +:+ "(" +:+ rh_ctype (vt_handler v) +:+ " *cvalue)".

Definition CToPython_convert (w : wrapper) : ST value_state unit :=
  saved <- st_get fst ;;
  set_handler (set_value "*cvalue") ;;;
  st_finally (convert_c_to_python w) (set_handler (set_value (vt_value saved))).

(** The Python value, from the items of the handler. *)
Definition build_value (w : wrapper) : ST world unit :=
  params <- build_query (fun items => build_get_parameters items false) ;;
  (if bool_decide (params = empty_format) then
     after_call_code w "Py_INCREF(Py_None);" ;;;
     after_call_code w "py_retval = Py_None;"
   else
     quoted_format params ;;;
     after_call_code w ("py_retval = Py_BuildValue(" +:+ join ", " (cast_format params) +:+ ");")).

(** The prototype is written before the code is complete. *)
Definition CToPython_generate (o : c_to_py_converter) : ST value_gen unit :=
  let w := c2p_refs o in
  in_state (CToPython_convert w) ;;;
  v <- st_get fst ;;
  on_snd (
    out_writeln (CToPython_get_prototype o v) ;;;
    out_writeln "{" ;;;
    out (fun k => Ok (indent k 4)) ;;;
    in_world (build_value w ;;; cleanup_and_return w "return py_retval;") ;;;
    flush_declarations (w_declarations w) ;;;
    out_writeln EmptyString ;;;
    flush_block (w_before_parse w) ;;;
    flush_block (w_before_call w) ;;;
    flush_block (w_after_call w) ;;;
    out unindent ;;;
    out_writeln "}").

(** ** What a value type promises *)

Class ValueContract (v : value_type) : Prop := {
  vc_ctype : forall t x b, rh_ctype (vt_object v t x b) = vt_ctype v;
  vc_py2c_counts : forall t x b w, add_params 0 1 0 (rh_convert_python_to_c (vt_object v t x b) w);
  vc_py2c_wiring : forall t x b w,
    evolves same_wiring (rh_convert_python_to_c (vt_object v t x b) w);
  vc_py2c_cleanups : forall t x b w,
    evolves cleanups_grow (rh_convert_python_to_c (vt_object v t x b) w);
  vc_c2py_wiring : forall t x b w,
    evolves same_wiring (rh_convert_c_to_python (vt_object v t x b) w)
}.

#[export] Instance builtin_value_contract c r `{!ReturnContract c} :
  ValueContract (builtin_value c r).
Proof.
  split; cbn; intros; [done | apply ret_py2c_counts | apply ret_py2c_wiring
    | apply ret_py2c_cleanups | apply ret_c2py_wiring].
Qed.

#[export] Instance set_value_contract x v `{!ValueContract v} : ValueContract (set_value x v).
Proof. by split; apply ValueContract0. Qed.
#[export] Instance set_requires_contract b v `{!ValueContract v} : ValueContract (set_requires b v).
Proof. by split; apply ValueContract0. Qed.
#[export] Instance set_traits_contract t v `{!ValueContract v} : ValueContract (set_traits t v).
Proof. by split; apply ValueContract0. Qed.

(** A conversion that parses [n] values: what is known when it succeeds. *)
Definition converts {A} (n : nat) (m : ST value_state A) : Prop :=
  forall st st' a, ValueContract st.1 -> m st = (st', Ok a) ->
    ValueContract st'.1 /\ same_wiring st.2 st'.2 /\ cleanups_grow st.2 st'.2
    /\ length (wd_parse_params st'.2) = (length (wd_parse_params st.2) + n)%nat.

Lemma converts_bind {A B} n1 n2 (m : ST value_state A) (k : A -> ST value_state B) :
  converts n1 m -> (forall a, converts n2 (k a)) -> converts (n1 + n2) (st_bind m k).
Proof.
  intros Hm Hk st st' b Hv (st1&a&E1&E2)%st_bind_Ok.
  destruct (Hm _ _ _ Hv E1) as (V1&W1&G1&L1). destruct (Hk _ _ _ _ V1 E2) as (V2&W2&G2&L2).
  split_and!; [done | by transitivity st1.2 | by transitivity st1.2 | lia].
Qed.
Lemma converts_state {A} (m : ST value_state A) :
  (forall st st' a, m st = (st', Ok a) -> st'.2 = st.2 /\ (ValueContract st.1 -> ValueContract st'.1)) ->
  converts 0 m.
Proof.
  intros H st st' a Hv E. destruct (H _ _ _ E) as [-> Hv']. split_and!; [auto | done | done | lia].
Qed.
Lemma converts_get {A} (f : value_state -> A) : converts 0 (st_get f).
Proof. apply converts_state. by intros st st' a [= <-]. Qed.
Lemma converts_ret {A} (a : A) : converts 0 (st_ret a).
Proof. apply converts_state. by intros st st' a' [= <-]. Qed.
Lemma converts_set_handler f :
  (forall v, ValueContract v -> ValueContract (f v)) -> converts 0 (set_handler f).
Proof. intros H. apply converts_state. intros st st' a [= <-]. by split; [|apply H]. Qed.

(** Operations on the objects that parse nothing. *)
Lemma converts_world {A} (m : ST world A) :
  evolves same_wiring m -> evolves cleanups_grow m -> add_params 0 0 0 m -> converts 0 (on_snd m).
Proof.
  intros Hw Hg Hc [v s] [v' s'] a Hv E. unfold on_snd in E. cbn [fst snd] in E.
  destruct (m s) as [s1 r] eqn:Em. injection E as <- <- ->. specialize (Hw s). specialize (Hg s).
  rewrite Em in Hw, Hg. apply Hc in Em. injection Em as _ Hn _. cbn [fst snd].
  split_and!; [done | exact Hw | exact Hg | exact Hn].
Qed.

(** The handler parses one value. *)
Lemma converts_handler w : converts 1 (convert_python_to_c w).
Proof.
  intros [v s] [v' s'] a Hv E. unfold convert_python_to_c, on_snd in E. cbn [fst snd] in E.
  destruct (rh_convert_python_to_c (vt_handler v) w s) as [s1 r] eqn:Em. injection E as <- <- ->.
  pose proof (vc_py2c_wiring (v:=v) (vt_traits v) (vt_value v) (vt_REQUIRES_ASSIGNMENT_CONSTRUCTOR v) w s) as Hw.
  pose proof (vc_py2c_cleanups (v:=v) (vt_traits v) (vt_value v) (vt_REQUIRES_ASSIGNMENT_CONSTRUCTOR v) w s) as Hg.
  unfold vt_handler in Em. rewrite Em in Hw, Hg. apply (vc_py2c_counts (v:=v)) in Em.
  injection Em as _ Hn _. split_and!; [done | exact Hw | exact Hg | exact Hn].
Qed.

Lemma converts_finally {A} n (m : ST value_state A) f :
  converts n m -> converts 0 f -> converts n (st_finally m f).
Proof.
  intros Hm Hf st st' a Hv E. unfold st_finally in E. destruct (m st) as [st1 r] eqn:Em.
  destruct (f st1) as [st2 [[]|]] eqn:Ef; [|discriminate]. injection E as <- ->.
  destruct (Hm _ _ _ Hv Em) as (V1&W1&G1&L1). destruct (Hf _ _ _ V1 Ef) as (V2&W2&G2&L2).
  split_and!; [done | by transitivity st1.2 | by transitivity st1.2 | lia].
Qed.

Lemma converts_p2c w : converts 1 (PythonToC_convert w).
Proof.
  apply (converts_bind 0 1); [apply converts_get|]. intros saved.
  apply (converts_bind 0 1); [apply converts_set_handler; apply _|]. intros _.
  apply converts_finally; [apply converts_handler | apply converts_set_handler; apply _].
Qed.

(** ** The handler afterwards *)

Definition same_handler {T} (st st' : value_type * T) : Prop := st.1 = st'.1.
#[export] Instance same_handler_preorder {T} : PreOrder (@same_handler T).
Proof. unfold same_handler. split; [by intros st | intros st1 st2 st3; congruence]. Qed.

Lemma handler_on_snd {T A} (m : ST T A) : evolves same_handler (on_snd (S:=value_type) m).
Proof. intros st. unfold on_snd. by destruct (m st.2). Qed.
Lemma handler_in_state {A} (m : ST value_state A) :
  evolves same_handler m -> evolves same_handler (in_state m).
Proof.
  intros H [v g]. specialize (H (v, g_world g)). unfold in_state. cbn [fst snd].
  destruct (m _) as [[v1 s1] r]. exact H.
Qed.
Lemma handler_convert_value {A} w (convert : ST value_state A) call code :
  evolves same_handler convert -> evolves same_handler (convert_value w convert call code).
Proof.
  intros H. unfold convert_value. repeat (apply evolves_bind; [apply _ | |intros ?]);
    auto using handler_on_snd.
Qed.

(** [try ... finally] gives the handler its value back. *)
Lemma handler_p2c w : evolves same_handler (PythonToC_convert w).
Proof.
  intros [v s]. unfold PythonToC_convert, st_bind, st_get, set_handler, st_modify. cbn [fst snd].
  unfold st_finally, convert_python_to_c, on_snd. cbn [fst snd].
  destruct (rh_convert_python_to_c _ w s) as [s1 r]. cbn. by destruct v.
Qed.

Lemma handler_p2c_generate o wrapper_name : evolves same_handler (PythonToC_generate o wrapper_name).
Proof.
  apply evolves_bind; [apply _ | | intros _; apply handler_on_snd].
  apply handler_in_state, handler_convert_value, handler_p2c.
Qed.

(** ** The text of a conversion *)

(** An error exit of [write_error_check]. *)
Definition error_exit (k : code_sink) (e : string) (exit : list string) : list string :=
  format_code k ("if (" +:+ e +:+ ") {")
  ++ List.concat (map (format_code (indent k 4)) exit) ++ format_code k "}".

(** The call that parses the tuple of the value. *)
Definition parse_call (params : list string) : string :=
  "!PyArg_ParseTuple(" +:+ join ", " ("py_retval" :: cast_format params) +:+ ")".

Definition function_text (header : string) (body : list string) (k : code_sink) : res code_sink :=
  let k := indent (writeln (writeln k header) "{") 4 in
  k <-? unindent (write_lines body k) ;; Ok (writeln k "}").

(** The objects of a reverse wrapper. *)
Definition reverse_wired (e : string) (s : world) : Prop :=
  heap_same_wiring (new_reverse_heap e) (wd_heap s).
Definition reverse_refs : wrapper := MkWrapper ReverseWrapper 0 0 0 1.

Section conversion.
Context (e : string).

(** The objects of a reverse wrapper, one by one. *)
Record reverse_objects (s : world) (b0 b1 : code_block) (d : decl_scope) : Prop := {
  ro_blocks : h_blocks (wd_heap s) = [b0; b1];
  ro_scopes : h_scopes (wd_heap s) = [d];
  ro_pred0 : cb_predecessor b0 = None;
  ro_pred1 : cb_predecessor b1 = Some 0%nat;
  ro_error : cb_error_return b0 = e;
  ro_mem0 : dest (cb_sink b0) = MemoryDest (memory_lines (cb_sink b0));
  ro_mem1 : dest (cb_sink b1) = MemoryDest (memory_lines (cb_sink b1));
  ro_memd : dest (ds_declarations d) = MemoryDest (memory_lines (ds_declarations d))
}.

Lemma reverse_objects_of s : reverse_wired e s -> exists b0 b1 d, reverse_objects s b0 b1 d.
Proof.
  destruct s as [[bs ds vs] bp pp cp fl pn]. intros (Hb&Hs&_). cbn in Hb, Hs.
  destruct bs as [|b0 [|b1 [|]]]; try discriminate. destruct ds as [|d [|]]; try discriminate.
  injection Hb as P0 E0 _ M0 P1 _ _ M1. injection Hs as _ Md.
  exists b0, b1, d. split; cbn; try done; by apply is_memory_dest.
Qed.

Lemma reverse_cleanups s b0 b1 d : reverse_objects s b0 b1 d ->
  (get_cleanup_code 0 (wd_heap s)).2 = Ok (rev (cleanup_texts b0))
  /\ (get_cleanup_code 1 (wd_heap s)).2 = Ok (rev (cleanup_texts b1) ++ rev (cleanup_texts b0)).
Proof.
  intros [Hb _ P0 P1 _ _ _ _]. unfold get_cleanup_code. rewrite Hb. cbn. rewrite P0, P1. cbn. rewrite P0. by split.
Qed.

Lemma at_block0 s b0 b1 d k : reverse_objects s b0 b1 d ->
  put_block (wd_heap s) 0 (with_sink b0 k)
    = Heap [with_sink b0 k; b1] [d] (h_dicts (wd_heap s)).
Proof. intros [Hb Hs _ _ _ _ _ _]. unfold put_block. by rewrite Hb, Hs. Qed.
Lemma at_block1 s b0 b1 d k : reverse_objects s b0 b1 d ->
  put_block (wd_heap s) 1 (with_sink b1 k)
    = Heap [b0; with_sink b1 k] [d] (h_dicts (wd_heap s)).
Proof. intros [Hb Hs _ _ _ _ _ _]. unfold put_block. by rewrite Hb, Hs. Qed.

(** Unpacking writes one error exit. *)
Lemma unpack_value_eq s s' b0 b1 d :
  reverse_objects s b0 b1 d -> unpack_value reverse_refs s = (s', Ok tt) ->
  exists params b0', parse_get_parameters (wd_parse_params s) = Ok params
    /\ wd_parse_params s' = wd_parse_params s
    /\ reverse_objects s' b0' b1 d /\ cleanup_texts b0' = cleanup_texts b0
    /\ memory_lines (cb_sink b0') = memory_lines (cb_sink b0)
         ++ error_exit (cb_sink b0) (parse_call params) (rev (cleanup_texts b0) ++ [e]).
Proof.
  intros Ho H. unfold unpack_value, parse_query in H.
  apply st_bind_Ok in H as (s1&params&E1&H). injection E1 as <- Hp.
  apply st_bind_Ok in H as (s2&[]&E2&H).
  assert (s2 = s) as ->.
  { unfold quoted_format in E2. destruct params as [|[|c p] ps]; try discriminate.
    unfold st_assert in E2. destruct (Ascii.eqb c "034"); [by injection E2 | discriminate]. }
  destruct (reverse_cleanups s b0 b1 d Ho) as [Hc _]. pose proof Ho as [Hb Hs P0 P1 He M0 M1 Md].
  destruct (write_error_check_eq (wd_heap s) 0 b0 (parse_call params) None _ _
    ltac:(by rewrite Hb) M0 Hc) as (k'&Hw&_&Hd).
  unfold on_heap, reverse_refs in H. cbn [w_before_call] in H.
  change ("!PyArg_ParseTuple(" +:+ ?x +:+ ")") with (parse_call params) in H.
  rewrite Hw in H. rewrite (at_block0 s b0 b1 d k' Ho) in H. injection H as <-.
  exists params, (with_sink b0 k'). split_and!; [done | done | | done |].
  - split; cbn; try done. unfold memory_lines. by rewrite Hd.
  - unfold memory_lines at 1. cbn [with_sink cb_sink]. rewrite Hd. unfold error_exit. cbn [opt_list app].
    by rewrite He.
Qed.

(** The end writes the cleanup code of both blocks and the return. *)
Lemma cleanup_and_return_eq s s' b0 b1 d lines code :
  reverse_objects s b0 b1 d ->
  (st_iter (after_call_code reverse_refs) lines ;;; cleanup_and_return reverse_refs code) s
    = (s', Ok tt) ->
  exists b1', reverse_objects s' b0 b1' d /\ wd_parse_params s' = wd_parse_params s
    /\ memory_lines (cb_sink b1') = memory_lines (cb_sink b1)
         ++ List.concat (map (format_code (cb_sink b1))
              (lines ++ (rev (cleanup_texts b1) ++ rev (cleanup_texts b0)) ++ [code])).
Proof.
  intros Ho H. destruct (reverse_cleanups s b0 b1 d Ho) as [_ Hc].
  pose proof Ho as [Hb Hs P0 P1 He M0 M1 Md].
  assert (h_blocks (wd_heap s) !! 1%nat = Some b1) as Hi by by rewrite Hb.
  set (cs := rev (cleanup_texts b1) ++ rev (cleanup_texts b0)) in *.
  destruct (fold_writeln_memory (lines ++ cs ++ [code]) (cb_sink b1) _ M1) as [_ Hd].
  set (k' := fold_left writeln (lines ++ cs ++ [code]) (cb_sink b1)) in *.
  assert (s' = set_heap s (at_sink (wd_heap s) 1 b1 k')) as ->.
  { assert (s = set_heap s (at_sink (wd_heap s) 1 b1 (cb_sink b1))) as Es.
    { unfold at_sink. rewrite with_sink_same, put_block_same by done. by destruct s. }
    assert (forall k, st_iter (after_call_code reverse_refs) lines
              (set_heap s (at_sink (wd_heap s) 1 b1 k))
            = (set_heap s (at_sink (wd_heap s) 1 b1 (fold_left writeln lines k)), Ok tt)) as Hl.
    { clear -Hi. induction lines as [|l lines IH]; intros k; [done|]. cbn [st_iter].
      unfold st_bind, after_call_code, on_heap, reverse_refs, write_code.
      cbn [w_after_call set_heap wd_heap].
      rewrite (on_sink_at _ _ _ Hi _ _ (writeln k l)) by done. apply IH. }
    unfold st_bind in H. rewrite Es, Hl in H. unfold cleanup_and_return, st_bind, on_heap in H.
    cbn [set_heap wd_heap reverse_refs w_after_call] in H.
    rewrite (write_cleanup_at _ _ _ Hi _ cs Hc) in H.
    unfold after_call_code, on_heap, write_code in H. cbn [wd_heap w_after_call] in H.
    rewrite (on_sink_at _ _ _ Hi _ (fun k => Ok (writeln k code)) _ eq_refl) in H. injection H as <-.
    unfold k'. by rewrite !fold_left_app. }
  exists (with_sink b1 k'). split_and!; [|done|].
  - unfold at_sink. cbn. rewrite (at_block1 s b0 b1 d k' Ho). split; cbn; try done.
    unfold memory_lines. by rewrite Hd.
  - unfold memory_lines at 1. cbn [with_sink cb_sink]. by rewrite Hd.
Qed.

(** The state after the value was packed. *)
Definition new_reverse_world (names : gmap Z string) : world :=
  World (new_reverse_heap e) [] [] [] [] names.
Definition packed (names : gmap Z string) : world :=
  (pack_value reverse_refs (new_reverse_world names)).1.

Lemma pack_value_eq names : pack_value reverse_refs (new_reverse_world names) = (packed names, Ok tt).
Proof. reflexivity. Qed.

Definition release : string := "Py_DECREF(py_retval);".

(** Whatever was registered since, the tuple is released last. *)
Lemma packed_released names s b0 b1 d :
  cleanups_grow (packed names) s -> reverse_objects s b0 b1 d ->
  exists cs, rev (cleanup_texts b0) = cs ++ [release].
Proof.
  intros Hg [Hb _ _ _ _ _ _ _]. unfold cleanups_grow, heap_grows in Hg. rewrite Hb in Hg.
  assert (exists p0 p1, h_blocks (wd_heap (packed names)) = [p0; p1] /\ numbered p0
    /\ cleanup_texts p0 = [release]) as (p0&p1&Hp&Hn&Ht).
  { do 2 eexists. split; [reflexivity|]. split; [|vm_compute; reflexivity].
    intros p [x Hx]%elem_of_dom. cbn in Hx.
    apply lookup_insert_Some in Hx as [[<- _]|[_ Hx]]; [done | by rewrite lookup_empty in Hx]. }
  rewrite Hp in Hg. inversion Hg as [|x y l1 l2 Hg0 _]; subst.
  destruct (Hg0 Hn) as [_ [more Hm]]. rewrite Hm, Ht. exists (rev more).
  by rewrite rev_app_distr.
Qed.

Lemma convert_value_eq {A} (convert : ST value_state A) (call : A -> list string) code names v st' :
  converts 1 convert -> ValueContract v ->
  convert_value reverse_refs convert call code (v, new_reverse_world names) = (st', Ok tt) ->
  exists item params b0 b1 d, reverse_objects st'.2 b0 b1 d
    /\ wd_parse_params st'.2 = [item] /\ parse_get_parameters [item] = Ok params
    /\ (exists pre k0 cs, memory_lines (cb_sink b0)
         = pre ++ error_exit k0 (parse_call params) (cs ++ [release; e]))
    /\ (exists pre k1 a st1 cs, convert (v, packed names) = (st1, Ok a) /\ memory_lines (cb_sink b1)
         = pre ++ List.concat (map (format_code k1) (call a ++ cs ++ [release; code]))).
Proof.
  intros Hc Hv H. unfold convert_value in H. unfold st_bind at 1, on_snd at 1 in H. cbn [fst snd] in H.
  rewrite pack_value_eq in H. apply st_bind_Ok in H as ([v1 s1]&a&E1&H).
  apply st_bind_Ok in H as ([v2 s2]&[]&E2&H). unfold on_snd in E2, H. cbn [fst snd] in E2, H.
  destruct (unpack_value reverse_refs s1) as [s2' r2] eqn:Eu. injection E2 as <- <- ->.
  destruct ((st_iter _ _ ;;; _) s2') as [s' r3] eqn:Er. injection H as <- ->. cbn [snd].
  destruct (Hc (v, packed names) (v1, s1) a Hv E1) as (_&Hw&Hg&Hn). cbn [snd] in Hw, Hg, Hn.
  assert (reverse_wired e s1) as Hr1 by exact Hw.
  destruct (reverse_objects_of s1 Hr1) as (b0&b1&d&Ho).
  destruct (packed_released names s1 b0 b1 d Hg Ho) as [cs Hcs].
  assert (exists item, wd_parse_params s1 = [item]) as [item Hi].
  { change (length (wd_parse_params (packed names))) with 0%nat in Hn.
    destruct (wd_parse_params s1) as [|i [|]]; try discriminate Hn. by exists i. }
  destruct (unpack_value_eq s1 s2' b0 b1 d Ho Eu) as (params&b0'&Hp&Hp2&Ho2&Ht&Hl0).
  destruct (cleanup_and_return_eq s2' s' b0' b1 d (call a) code Ho2 Er) as (b1'&Ho3&Hp3&Hl1).
  exists item, params, b0', b1', d. split_and!; [done | | by rewrite <- Hi | |].
  - by rewrite Hp3, Hp2.
  - exists (memory_lines (cb_sink b0)), (cb_sink b0), cs. rewrite Hl0, Hcs, <- app_assoc. reflexivity.
  - exists (memory_lines (cb_sink b1)), (cb_sink b1), a, (v1, s1), (rev (cleanup_texts b1) ++ cs).
    split; [exact E1|]. rewrite Hl1, Ht, Hcs, <- !app_assoc. reflexivity.
Qed.

(** Writing the function out. *)
Lemma write_function_eq header s b0 b1 d k g' :
  reverse_objects s b0 b1 d ->
  write_function reverse_refs header [0; 1]%nat (Gen s k) = (g', Ok tt) ->
  function_text header (memory_lines (ds_declarations d) ++ [EmptyString]
    ++ memory_lines (cb_sink b0) ++ memory_lines (cb_sink b1)) k = Ok (g_out g').
Proof.
  intros [Hb Hs _ _ _ M0 M1 Md] H. unfold write_function in H.
  apply st_bind_Ok in H as (g1&[]&E1&H). injection E1 as <-.
  apply st_bind_Ok in H as (g1&[]&E1&H). injection E1 as <-.
  apply st_bind_Ok in H as (g1&[]&E1&H). injection E1 as <-.
  unfold st_bind at 1 in H.
  erewrite flush_declarations_eq in H; [|cbn; rewrite Hs; reflexivity | exact Md].
  apply st_bind_Ok in H as (g1&[]&E1&H). injection E1 as <-. cbn [st_iter reverse_refs] in H.
  unfold st_bind at 1, st_bind at 1 in H.
  erewrite flush_block_eq in H; [|cbn; rewrite Hb; reflexivity | exact M0].
  unfold st_bind at 1 in H.
  erewrite flush_block_eq in H; [|cbn; rewrite Hb; reflexivity | exact M1].
  cbn [st_ret] in H. apply st_bind_Ok in H as (g1&[]&E1&H). unfold out in E1, H.
  cbn [g_out g_world] in E1. unfold function_text. rewrite !write_lines_app.
  change (write_lines [EmptyString] ?x) with (writeln x EmptyString).
  destruct (unindent _) as [k'|] eqn:Eu in E1; [|discriminate]. injection E1 as <-.
  injection H as <-. cbn [g_out]. rewrite Eu. reflexivity.
Qed.

(** The text of a converter: its parts. *)
Definition converter_text (header : string) (call : list string) (code : string)
    (k k' : code_sink) : Prop :=
  exists item params decls before k0 cs0 after k1 cs1,
    parse_get_parameters [item] = Ok params
    /\ function_text header
         (decls ++ [EmptyString]
          ++ (before ++ error_exit k0 (parse_call params) (cs0 ++ [release; e]))
          ++ (after ++ List.concat (map (format_code k1) (call ++ cs1 ++ [release; code])))) k
       = Ok k'.

Lemma converter_text_of {A} (convert : ST value_state A) call code header names v k st' :
  converts 1 convert -> ValueContract v ->
  (in_state (convert_value reverse_refs convert call code) ;;;
   on_snd (write_function reverse_refs header [0; 1]%nat)) (v, Gen (new_reverse_world names) k)
    = (st', Ok tt) ->
  exists a st1, convert (v, packed names) = (st1, Ok a)
    /\ converter_text header (call a) code k (g_out st'.2).
Proof.
  intros Hc Hv H. apply st_bind_Ok in H as ([v1 [s k1]]&[]&E&H). unfold in_state in E.
  cbn [fst snd g_world g_out] in E.
  destruct (convert_value _ _ _ _ _) as [[v2 s1] r1] eqn:Ec. injection E as <- <- <- ->.
  destruct (convert_value_eq convert call code names v _ Hc Hv Ec)
    as (item&params&b0&b1&d&Ho&_&Hp&(pre&k0&cs0&E0)&(after&k1'&a&st1&cs1&Ea&E1)).
  unfold on_snd in H. cbn [fst snd] in H, Ho.
  destruct (write_function _ _ _ _) as [g' r'] eqn:Ew. injection H as <- ->.
  apply (write_function_eq header s1 b0 b1 d k g' Ho) in Ew. rewrite E0, E1 in Ew.
  exists a, st1. split; [done|]. unfold converter_text. do 9 eexists. split; [exact Hp | exact Ew].
Qed.
End conversion.

(** The function a converter generates.  For a value type of the built-in
    modules, or any that keeps its contract: when [generate] of a new converter
    returns, it wrote one function, declared as [get_prototype] says when it is
    given its own name; the function unpacks exactly one value, and releases the
    tuple it made on both ways out, as the last action before it returns 0 after a
    parse error and before it returns 1.  The address it writes to has the type
    without modifiers, of the target for a reference.  Whether it returns or
    raises, the handler has its own value again. *)
Theorem converter_function (v v' : value_type) (name : string) (s0 : world)
    (o : py_to_c_converter) (names : gmap Z string) (k : code_sink) (wrapper_name : string)
    (st' : value_gen) :
  ValueContract v ->
  PythonToCConverter_init name (v, World empty_heap [] [] [] [] names) = ((v', s0), Ok o) ->
  (PythonToC_generate o wrapper_name (v', Gen s0 k)).1.1 = v'
  /\ vt_value v' = vt_value v
  /\ PythonToC_get_prototype o = p2c_prototype (p2c_type_no_ref o) name
  /\ (type_is_reference (vt_traits v) = false ->
       p2c_type_no_ref o = show (tt_ctype_no_modifiers (vt_traits v)))
  /\ (type_is_reference (vt_traits v) = true -> exists t,
       TypeTraits_init (target_str (vt_traits v)) = Ok t
       /\ p2c_type_no_ref o = show (tt_ctype_no_modifiers t))
  /\ (PythonToC_generate o wrapper_name (v', Gen s0 k) = (st', Ok tt) ->
       converter_text "return 0;" (p2c_prototype (p2c_type_no_ref o) wrapper_name) []
         "return 1;" k (g_out st'.2)).
Proof.
  intros Hv Hi. unfold PythonToCConverter_init in Hi. unfold st_bind at 1, st_get at 1 in Hi.
  cbn [fst] in Hi. apply st_bind_Ok in Hi as (s1&t&E1&Hi). unfold st_lift in E1.
  injection E1 as <- Et. cbn in Hi. injection Hi as <- <- <-.
  cbn [p2c_type_no_ref p2c_c_function_name]. split_and!.
  - exact (eq_sym (handler_p2c_generate _ wrapper_name (set_traits t v, Gen _ k))).
  - done.
  - reflexivity.
  - intros Hr. rewrite Hr in Et. by injection Et as <-.
  - intros Hr. rewrite Hr in Et. by exists t.
  - intros H. unfold PythonToC_generate in H. cbn [p2c_refs p2c_type_no_ref] in H.
    pose proof (converter_text_of "return 0;" _ (fun _ => []) "return 1;" _ names _ k st'
      (converts_p2c _) _ H) as (?&?&_&Ht). exact Ht.
Qed.
(** ** A converter of [int] *)

Definition demo_traits : type_traits :=
  match TypeTraits_init "const int &" with
  | Ok t => t
  | Raise _ => TypeTraits [] [] [] false false false false None
  end.
Definition demo_int : value_type := builtin_value IntReturn (MkRetval demo_traits "retval" VNone).
Definition demo_converter : value_state * res py_to_c_converter :=
  PythonToCConverter_init "_wrap_convert_py2c__int" (demo_int, World empty_heap [] [] [] [] ∅).
Definition demo_converted (o : py_to_c_converter) : value_gen * res unit :=
  PythonToC_generate o "_wrap_convert_py2c__int"
    (demo_converter.1.1, Gen demo_converter.1.2 MemoryCodeSink).

Lemma converter_function_witness :
  match demo_converter.2 with
  | Raise _ => False
  | Ok o =>
      PythonToC_get_prototype o = "int _wrap_convert_py2c__int(PyObject *value, int *address)"
      /\ (demo_converted o).1.1 = demo_converter.1.1
      /\ converter_text "return 0;" (PythonToC_get_prototype o) [] "return 1;" MemoryCodeSink
           (g_out (demo_converted o).1.2)
  end.
Proof.
  assert (match demo_converter.2 with Ok o => is_ok (demo_converted o).2 | Raise _ => false end = true)
    as Hok by (vm_compute; reflexivity).
  assert (match demo_converter.2 with Ok o => String.eqb (p2c_type_no_ref o) "int" | Raise _ => false end
    = true) as Hty by (vm_compute; reflexivity).
  unfold demo_converted in *. destruct demo_converter as [[v s] [o|]] eqn:E; cbn [fst snd] in *;
    [|discriminate Hok].
  destruct (converter_function demo_int v "_wrap_convert_py2c__int" s o ∅ MemoryCodeSink
    "_wrap_convert_py2c__int" (PythonToC_generate o "_wrap_convert_py2c__int"
      (v, Gen s MemoryCodeSink)).1 _ E) as (H1&_&H2&_&_&H3).
  apply String.eqb_eq in Hty. rewrite Hty in H2, H3. rewrite H2.
  split_and!; [reflexivity | exact H1 |]. apply H3.
  destruct (PythonToC_generate _ _ _) as [st [[]|]]; [reflexivity | discriminate Hok].
Defined.
