(* ===== verification/WrapperRegistry.v ===== *)
(** * Wrapper registries: [pybindgen/wrapper_registry.py]

    A registry keeps track of the Python wrapper of each C++ object; the class
    hierarchy is a sum type, so that a method is a match on the class. *)
From S2P Require Import Prelude.
From S2P Require Import CodeSink.
From S2P Require Import CodeBlock.
From S2P Require Import Format.
From S2P Require Import CppException.

Inductive wrapper_registry : Type :=
  | AbstractWrapperRegistry (base_name : string)
  | NullWrapperRegistry (base_name : string)
  | StdMapWrapperRegistry (base_name map_name : string).

(** [StdMapWrapperRegistry(base_name)] *)
Definition StdMapWrapperRegistry_init (base_name : string) : wrapper_registry :=
  StdMapWrapperRegistry base_name (base_name +:+ "_wrapper_registry").

(** [generate_forward_declarations(code_sink, module, import_from_module)];
    [add_include] is the method of the module, whose state is [M]. *)
Definition registry_forward_declarations {M} (add_include : string -> ST M unit)
    (r : wrapper_registry) (import_from_module : bool) : ST (M * code_sink) unit :=
  match r with
  | AbstractWrapperRegistry _ => st_raise TypeError
  | NullWrapperRegistry _ => st_ret tt
  | StdMapWrapperRegistry _ map_name =>
      on_fst (add_include "<map>") ;;;
      on_fst (add_include "<iostream>") ;;;
      if import_from_module then
        sink_writeln ("extern std::map<void*, PyObject*> *_" +:+ map_name +:+ ";") ;;;
        sink_writeln ("#define " +:+ map_name +:+ " (*_" +:+ map_name +:+ ")")
      else sink_writeln ("extern std::map<void*, PyObject*> " +:+ map_name +:+ ";")
  end.

(** [generate(code_sink, module)]; [i] is the module's [after_init] block. *)
Definition registry_generate (r : wrapper_registry) (i : nat) : ST (heap * code_sink) unit :=
  match r with
  | AbstractWrapperRegistry _ => st_raise TypeError
  | NullWrapperRegistry _ => st_ret tt
  | StdMapWrapperRegistry _ map_name =>
      sink_writeln ("std::map<void*, PyObject*> " +:+ map_name +:+ ";") ;;;
      on_fst (write_code i ("PyModule_AddObject(m, (char *) " +:+ dq +:+ "_" +:+ map_name +:+ dq
                            +:+ ", PyCObject_FromVoidPtr(&" +:+ map_name +:+ ", NULL));"))
  end.

Definition registry_generate_import (r : wrapper_registry) (i : nat) (module_pyobj_var : string)
    : ST (heap * code_sink) unit :=
  match r with
  | AbstractWrapperRegistry _ => st_raise AttributeError
  | NullWrapperRegistry _ => st_ret tt
  | StdMapWrapperRegistry _ map_name =>
      sink_writeln ("std::map<void*, PyObject*> *_" +:+ map_name +:+ ";") ;;;
      on_fst (write_code i ("PyObject *_cobj = PyObject_GetAttrString(" +:+ module_pyobj_var
                            +:+ ", (char*) " +:+ dq +:+ "_" +:+ map_name +:+ dq +:+ ");")) ;;;
      on_fst (write_code i (join nls
        ["if (_cobj == NULL) {";
         "    _" +:+ map_name +:+ " = NULL;";
         "    PyErr_Clear();";
         "} else {";
         "    _" +:+ map_name
         +:+ " = reinterpret_cast< std::map<void*, PyObject*> *> (PyCObject_AsVoidPtr (_cobj));";
         "    Py_DECREF(_cobj);";
         "}"]))
  end.

Definition write_register_new_wrapper (r : wrapper_registry) (i : nat)
    (wrapper_lvalue object_rvalue : string) : ST heap unit :=
  match r with
  | AbstractWrapperRegistry _ => st_raise NotImplementedError
  | NullWrapperRegistry _ => st_ret tt
  | StdMapWrapperRegistry _ map_name =>
      write_code i (map_name +:+ "[(void *) " +:+ object_rvalue +:+ "] = (PyObject *) "
                    +:+ wrapper_lvalue +:+ ";")
  end.

Definition write_lookup_wrapper (r : wrapper_registry) (i : nat)
    (wrapper_type wrapper_lvalue object_rvalue : string) : ST heap unit :=
  match r with
  | AbstractWrapperRegistry _ => st_raise NotImplementedError
  | NullWrapperRegistry _ => st_raise NotSupportedError
  | StdMapWrapperRegistry _ map_name =>
      iterator <- block_declare_variable i "std::map<void*, PyObject*>::const_iterator"
                    "wrapper_lookup_iter" None None ;;
      write_code i (iterator +:+ " = " +:+ map_name +:+ ".find((void *) " +:+ object_rvalue
                    +:+ ");") ;;;
      write_code i (join nls
        ["if (" +:+ iterator +:+ " == " +:+ map_name +:+ ".end()) {";
         "    " +:+ wrapper_lvalue +:+ " = NULL;";
         "} else {";
         "    " +:+ wrapper_lvalue +:+ " = (" +:+ wrapper_type +:+ " *) " +:+ iterator
         +:+ "->second;";
         "    Py_INCREF(" +:+ wrapper_lvalue +:+ ");";
         "}"; EmptyString])
  end.

Definition write_unregister_wrapper (r : wrapper_registry) (i : nat)
    (wrapper_lvalue object_rvalue : string) : ST heap unit :=
  match r with
  | AbstractWrapperRegistry _ => st_raise NotImplementedError
  | NullWrapperRegistry _ => st_ret tt
  | StdMapWrapperRegistry _ map_name =>
      iterator <- block_declare_variable i "std::map<void*, PyObject*>::iterator"
                    "wrapper_lookup_iter" None None ;;
      write_code i (join nls
        [iterator +:+ " = " +:+ map_name +:+ ".find((void *) " +:+ wrapper_lvalue +:+ "->obj);";
         "if (" +:+ iterator +:+ " != " +:+ map_name +:+ ".end()) {";
         "    " +:+ map_name +:+ ".erase(" +:+ iterator +:+ ");";
         "}"; EmptyString])
  end.
