(* ===== verification/WrapperObject.v ===== *)
(** * Wrapper objects: what [function.py] and [cppmethod.py] build on
    [ForwardWrapperBase]

    An object is the attributes of the base class, those [A] its own class adds,
    and the objects it works on.  The methods a class overrides are a [methods]
    record, so that a call from the base class reaches them with the attributes
    as they are at that moment. *)
From S2P Require Import Prelude.
From S2P Require Import Format.
From S2P Require Import CodeSink.
From S2P Require Import CodeBlock.
From S2P Require Import Wrapper.
From S2P Require Import TypeHandler.
From S2P Require Import HandlerOps.
From S2P Require Import WrapperBase.
From S2P Require Import CppException.

(** ** Exceptions the wrapped code may throw

    [store] is the exception objects; [throw] refers to them. *)
Section throwing.
Context (store : list cpp_exception).

Definition write_try (w : wrapper) (throw : list nat) : ST world unit :=
  st_when (negb (bool_decide (throw = [])))
    (before_call_code w ("try" +:+ nls +:+ "{") ;;;
     on_heap (block_indent (w_before_call w))).

Definition write_catch_clause (w : wrapper) (error_return : string) (e : nat) : ST world unit :=
  match store !! e with
  | None => st_raise AttributeError
  | Some exc =>
      on_heap (block_unindent (w_before_call w)) ;;;
      before_call_code w ("} catch (" +:+ str_opt (ex_full_name exc) +:+ " const &exc) {") ;;;
      on_heap (block_indent (w_before_call w)) ;;;
      on_heap (write_cleanup (w_before_call w)) ;;;
      on_heap (write_convert_to_python exc (w_before_call w) "exc") ;;;
      before_call_code w error_return
  end.

Definition write_catch (w : wrapper) (error_return : string) (throw : list nat) : ST world unit :=
  st_when (negb (bool_decide (throw = [])))
    (st_iter (write_catch_clause w error_return) throw ;;;
     on_heap (block_unindent (w_before_call w)) ;;;
     before_call_code w "}").
End throwing.

Section wrapper_object.
Context {A : Type}.

Record wrapper_object : Type := Obj {
  wo_base : forward_wrapper;
  wo_attrs : A;
  wo_world : world
}.

Record methods : Type := Methods {
  m_generate_call : A -> forward_wrapper -> wrapper -> ST world unit;
  m_before_call_hook : A -> forward_wrapper -> wrapper -> ST world unit;
  m_before_return_hook : A -> forward_wrapper -> wrapper -> ST world unit
}.

Context (vm : methods).

(** [self], seen from the base class. *)
Definition bound (o : wrapper_object) : forward_wrapper :=
  let fw := wo_base o in
  MkForward (fw_return_value fw) (fw_parameters fw) (fw_refs fw) (fw_force_parse fw)
    (fw_no_c_retval fw) (fw_unblock_threads fw) (fw_deprecated fw) (fw_wrapper_actual_name fw)
    (fw_wrapper_return fw) (fw_wrapper_args fw) (fw_HAVE_RETURN_VALUE fw)
    (m_generate_call vm (wo_attrs o) fw) (m_before_call_hook vm (wo_attrs o) fw)
    (m_before_return_hook vm (wo_attrs o) fw).

(** A method of the object may write to a sink. *)
Definition obj_gen : Type := wrapper_object * code_sink.

Definition with_world (o : wrapper_object) (s : world) : wrapper_object :=
  Obj (wo_base o) (wo_attrs o) s.

(** A method of the base class. *)
Definition self_world {B} (m : forward_wrapper -> ST world B) : ST obj_gen B :=
  fun st => let '(s, r) := m (bound st.1) (wo_world st.1) in ((with_world st.1 s, st.2), r).

Definition modify_base (f : forward_wrapper -> forward_wrapper) : ST obj_gen unit :=
  st_modify (fun st => (Obj (f (wo_base st.1)) (wo_attrs st.1) (wo_world st.1), st.2)).
Definition modify_attrs (f : A -> A) : ST obj_gen unit :=
  st_modify (fun st => (Obj (wo_base st.1) (f (wo_attrs st.1)) (wo_world st.1), st.2)).

(** [self.generate_body(tmp_sink)], for a new memory sink *)
Definition generate_body_to_memory : ST obj_gen code_sink :=
  fun st =>
    let '(g, r) := generate_body (bound st.1) (Gen (wo_world st.1) MemoryCodeSink) in
    ((with_world st.1 (g_world g), st.2),
     match r with Ok _ => Ok (g_out g) | Raise e => Raise e end).

Definition set_actual_name (name : option string) (fw : forward_wrapper) : forward_wrapper :=
  MkForward (fw_return_value fw) (fw_parameters fw) (fw_refs fw) (fw_force_parse fw)
    (fw_no_c_retval fw) (fw_unblock_threads fw) (fw_deprecated fw) name
    (fw_wrapper_return fw) (fw_wrapper_args fw) (fw_HAVE_RETURN_VALUE fw)
    (fw_generate_call fw) (fw_before_call_hook fw) (fw_before_return_hook fw).
Definition set_return_and_args (ret : string) (args : list string) (fw : forward_wrapper)
    : forward_wrapper :=
  MkForward (fw_return_value fw) (fw_parameters fw) (fw_refs fw) (fw_force_parse fw)
    (fw_no_c_retval fw) (fw_unblock_threads fw) (fw_deprecated fw) (fw_wrapper_actual_name fw)
    (Some ret) (Some args) (fw_HAVE_RETURN_VALUE fw)
    (fw_generate_call fw) (fw_before_call_hook fw) (fw_before_return_hook fw).
Definition set_return (ret : string) (fw : forward_wrapper) : forward_wrapper :=
  MkForward (fw_return_value fw) (fw_parameters fw) (fw_refs fw) (fw_force_parse fw)
    (fw_no_c_retval fw) (fw_unblock_threads fw) (fw_deprecated fw) (fw_wrapper_actual_name fw)
    (Some ret) (fw_wrapper_args fw) (fw_HAVE_RETURN_VALUE fw)
    (fw_generate_call fw) (fw_before_call_hook fw) (fw_before_return_hook fw).
Definition set_deprecated (d : pyval) (fw : forward_wrapper) : forward_wrapper :=
  MkForward (fw_return_value fw) (fw_parameters fw) (fw_refs fw) (fw_force_parse fw)
    (fw_no_c_retval fw) (fw_unblock_threads fw) d (fw_wrapper_actual_name fw)
    (fw_wrapper_return fw) (fw_wrapper_args fw) (fw_HAVE_RETURN_VALUE fw)
    (fw_generate_call fw) (fw_before_call_hook fw) (fw_before_return_hook fw).

(** [self.return_value.REQUIRES_ASSIGNMENT_CONSTRUCTOR = False] *)
Definition no_assignment_constructor (fw : forward_wrapper) : forward_wrapper :=
  MkForward
    ((fun rv => MkReturnHandler (rh_ctype rv) (rh_ctype_no_const rv) false (rh_c_error_return rv)
        (rh_convert_python_to_c rv) (rh_convert_c_to_python rv) (rh_custodian rv)
        (rh_return_internal_reference rv) (rh_has_py_name rv)) <$> fw_return_value fw)
    (fw_parameters fw) (fw_refs fw) (fw_force_parse fw)
    (fw_no_c_retval fw) (fw_unblock_threads fw) (fw_deprecated fw) (fw_wrapper_actual_name fw)
    (fw_wrapper_return fw) (fw_wrapper_args fw) (fw_HAVE_RETURN_VALUE fw)
    (fw_generate_call fw) (fw_before_call_hook fw) (fw_before_return_hook fw).

(** [write_open_wrapper], [tmp_sink.flush_to(code_sink)], the lines [trailer],
    and [write_close_wrapper] *)
Definition self_out (m : forward_wrapper -> ST gen unit) : ST obj_gen unit :=
  fun st =>
    let '(g, r) := m (bound st.1) (Gen (wo_world st.1) st.2) in
    ((with_world st.1 (g_world g), g_out g), r).
Definition flush_tmp_sink (tmp_sink : code_sink) : ST obj_gen unit :=
  fun st => match flush_to tmp_sink st.2 with
            | Ok (_, k) => ((st.1, k), Ok tt)
            | Raise e => (st, Raise e)
            end.
Definition emit_wrapper (tmp_sink : code_sink) (trailer : list string) : ST obj_gen unit :=
  self_out (fun fw => write_open_wrapper fw false) ;;;
  flush_tmp_sink tmp_sink ;;;
  st_iter sink_writeln trailer ;;;
  self_out (fun _ => write_close_wrapper).

(** The prototype, from the attributes [generate] has set. *)
Definition write_prototype (prefix : string) (name : string -> res string) : ST obj_gen unit :=
  fw <- st_get (fun st => wo_base st.1) ;;
  match fw_wrapper_return fw, fw_wrapper_actual_name fw, fw_wrapper_args fw with
  | Some ret, Some n, Some args =>
      n <- st_lift (name n) ;;
      sink_writeln (prefix +:+ ret +:+ " " +:+ n +:+ "(" +:+ join ", " args +:+ ");")
  | _, _, _ => st_raise AssertionError
  end.

(** [m(codesink.NullCodeSink())] *)
Definition into_null (m : ST obj_gen unit) : ST obj_gen unit :=
  fun st => let '((o, _), r) := m (st.1, NullCodeSink) in ((o, st.2), r).

(** "Fake generate the code (and throw away the result) only in order to obtain
    correct method signature" *)
Definition declare_by_dry_run (generate declaration : ST obj_gen unit) : ST obj_gen unit :=
  self_world forward_reset_code_generation_state ;;;
  into_null generate ;;;
  declaration ;;;
  self_world forward_reset_code_generation_state.

End wrapper_object.
Arguments wrapper_object A : clear implicits.
Arguments methods A : clear implicits.
Arguments obj_gen A : clear implicits.

(** ** Frames *)

Lemma wiring_write_convert exc i v : evolves heap_same_wiring (write_convert_to_python exc i v).
Proof.
  unfold write_convert_to_python. destruct (ex_message_rvalue exc); eauto with st.
  apply evolves_bind; [apply _ | apply evolves_lift; apply _ | eauto with st].
Qed.
#[export] Hint Resolve wiring_write_convert : st.

Lemma wiring_write_try w throw : evolves same_wiring (write_try w throw).
Proof. unfold write_try. wiring. Qed.

Lemma wiring_write_catch store w e throw : evolves same_wiring (write_catch store w e throw).
Proof.
  unfold write_catch. wiring. apply evolves_iter; [apply _|]. intros i.
  unfold write_catch_clause. wiring.
Qed.
#[export] Hint Resolve wiring_write_try wiring_write_catch : wiring.

Lemma names_parse_query {B} (f : list parse_item -> res B) : evolves same_names (parse_query f).
Proof. by intros s. Qed.
Lemma names_build_query {B} (f : list build_item -> B) : evolves same_names (build_query f).
Proof. by intros s. Qed.
Lemma names_write_try w throw : evolves same_names (write_try w throw).
Proof. unfold write_try. names. Qed.
Lemma names_write_catch store w e throw : evolves same_names (write_catch store w e throw).
Proof. unfold write_catch, write_catch_clause. names. Qed.
#[export] Hint Resolve names_parse_query names_build_query names_write_try
  names_write_catch : names.

(** The handlers, the call and the hooks of a wrapper keep the names, as those do
    that are not handlers of C++ classes. *)
Class KeepsNames (fw : forward_wrapper) : Prop := {
  kn_params : Forall (fun p => forall w, evolves same_names (ph_convert_python_to_c p w))
                (fw_parameters fw);
  kn_return : forall rv w, fw_return_value fw = Some rv ->
    evolves same_names (rh_convert_c_to_python rv w);
  kn_call : forall w, evolves same_names (fw_generate_call fw w);
  kn_before_call : forall w, evolves same_names (fw_before_call_hook fw w);
  kn_before_return : forall w, evolves same_names (fw_before_return_hook fw w)
}.

Lemma names_or_error msg m :
  evolves same_names m -> evolves same_names (or_code_generation_error msg m).
Proof.
  intros H. apply evolves_catch; [apply _ | done|]. intros []; apply evolves_raise; apply _.
Qed.

Lemma names_convert_parameters fw `{!KeepsNames fw} :
  evolves same_names (convert_parameters fw).
Proof.
  apply evolves_iter_in; [apply _|]. eapply Forall_impl; [apply kn_params|].
  intros p H. apply names_or_error, H.
Qed.
Lemma names_generate_return fw `{!KeepsNames fw} : evolves same_names (generate_return fw).
Proof.
  pose proof kn_before_return as H3. pose proof kn_return as H4.
  unfold generate_return, returns_value. destruct (fw_return_value fw) as [rv|].
  - specialize (H4 rv (fw_refs fw) eq_refl). pose proof (names_or_error
      ("convert_c_to_python method of return value " +:+ rh_ctype rv +:+ " not implemented") _ H4).
    names; auto.
  - names; auto.
Qed.
#[export] Hint Resolve names_convert_parameters names_generate_return : names.

(** The generator sets the method flags, and keeps the names. *)
Lemma py_names_of {B} (m : ST world B) : evolves same_names m -> evolves same_py_names m.
Proof. apply evolves_weaken. by intros s s' []. Qed.

Ltac py_names :=
  repeat match goal with
         | |- evolves same_py_names (st_bind _ _) => apply evolves_bind; [apply _ | |intros ?]
         | |- evolves same_py_names (if _ then _ else _) => apply evolves_if
         | |- evolves same_py_names (flags_add _) => by intros ?
         | |- evolves same_py_names _ => apply py_names_of; solve [names; auto]
         end.

Lemma names_generate_code fw `{!KeepsNames fw} : evolves same_py_names (generate_code fw).
Proof.
  pose proof kn_before_call as H1. pose proof kn_call as H2.
  unfold generate_code, generate_parse. py_names.
Qed.

(** ** Resetting, in general *)

(** The blocks and scopes are those [ForwardWrapperBase.__init__] makes. *)
Definition wired (fw : forward_wrapper) (s : world) : Prop :=
  fw_refs fw = MkWrapper ForwardWrapper 0 0 1 2
  /\ exists pe e, heap_same_wiring (new_forward_heap pe e) (wd_heap s).

Lemma wired_evolves fw fw' s s' :
  wired fw s -> fw_refs fw' = fw_refs fw -> same_wiring s s' -> wired fw' s'.
Proof.
  intros (Hr&pe&e&H) Hr' Hw. split; [congruence|]. exists pe, e. exact (transitivity H Hw).
Qed.

Lemma init_wired rv ps pe e fp nc ub hv gc bc br s s0 fw :
  wd_heap s = empty_heap ->
  ForwardWrapperBase_init rv ps pe e fp nc ub hv gc bc br s = (s0, Ok fw) -> wired fw s0.
Proof.
  intros Hs Hi. destruct (forward_init_facts _ _ _ _ _ _ _ _ _ _ _ _ _ _ Hs Hi) as (H1&_&H2).
  split; [exact H1 | by exists pe, e].
Qed.

Lemma with_py_names_id s : with_py_names s (wd_py_names s) = s.
Proof. by destruct s. Qed.

Lemma reset_wired_eq fw s : wired fw s ->
  forward_reset_code_generation_state fw s =
    init_code_generation_state fw (World (clean_heap (wd_heap s)) [] [] [] [] (wd_py_names s)).
Proof.
  intros (Hr&pe&e&H). apply forward_reset_eq. eapply forward_objects_wiring; [exact H|].
  rewrite Hr. by split_and!.
Qed.

(** What a reset gives depends on the wiring and the names only. *)
Lemma reset_canonical fw s s' :
  wired fw s -> same_wiring s s' -> same_py_names s s' ->
  forward_reset_code_generation_state fw s' = forward_reset_code_generation_state fw s.
Proof.
  intros Hs Hw Hn. rewrite !reset_wired_eq; [|done|by eapply wired_evolves].
  by rewrite (clean_heap_proper _ _ Hw), Hn.
Qed.

Lemma wiring_clean_heap h :
  Forall (fun b => is_memory (cb_sink b) = true) (h_blocks h) ->
  Forall (fun d => is_memory (ds_declarations d) = true) (h_scopes h) ->
  heap_same_wiring h (clean_heap h).
Proof.
  intros Hb Hs. split_and!; cbn.
  - rewrite map_map. apply map_ext_in. intros b Hin%list_elem_of_In.
    rewrite Forall_forall in Hb. unfold block_wiring. cbn. by rewrite (Hb b Hin).
  - rewrite map_map. apply map_ext_in. intros d Hin%list_elem_of_In.
    rewrite Forall_forall in Hs. unfold scope_wiring. cbn. by rewrite (Hs d Hin).
  - by rewrite length_map.
Qed.

Lemma wired_memory fw s : wired fw s ->
  Forall (fun b => is_memory (cb_sink b) = true) (h_blocks (wd_heap s))
  /\ Forall (fun d => is_memory (ds_declarations d) = true) (h_scopes (wd_heap s)).
Proof.
  intros (_&pe&e&Hb&Hs&_). split; apply Forall_lookup; intros i x Hx.
  - apply (f_equal (fun l => l !! i)) in Hb. rewrite !list_lookup_fmap, Hx in Hb.
    apply (f_equal (fmap snd)) in Hb. destruct i as [|[|[|i]]]; by cbn in Hb; simplify_eq.
  - apply (f_equal (fun l => l !! i)) in Hs. rewrite !list_lookup_fmap, Hx in Hs.
    apply (f_equal (fmap snd)) in Hs. destruct i as [|i]; by cbn in Hs; simplify_eq.
Qed.

Lemma names_init_state fw : evolves same_names (init_code_generation_state fw).
Proof. unfold init_code_generation_state. names. Qed.

(** A reset keeps the wiring and the names. *)
Lemma reset_keeps fw s : wired fw s ->
  let s' := (forward_reset_code_generation_state fw s).1 in same_wiring s s' /\ same_py_names s s'.
Proof.
  intros Hw s'. unfold s'. rewrite reset_wired_eq by done.
  set (t := World (clean_heap (wd_heap s)) [] [] [] [] (wd_py_names s)).
  destruct (wired_memory fw s Hw) as [Hb Hs]. split.
  - transitivity t; [by apply wiring_clean_heap | apply wiring_init_state].
  - transitivity t; [done | apply names_init_state].
Qed.

(** The flags are there already, or a dry run finds them and resets. *)
Lemma get_flags_cases fw s `{!ForwardFrame fw} `{!KeepsNames fw} : wired fw s ->
  (get_py_method_def_flags fw s).1 = s
  \/ exists t, same_wiring s t /\ same_py_names s t
       /\ (get_py_method_def_flags fw s).1 = (forward_reset_code_generation_state fw t).1.
Proof.
  intros (Hr&pe&e&Hh).
  pose proof (generate_body_eq fw pe e s NullCodeSink _ Hr Hh) as H.
  pose proof (names_generate_code fw s) as Hn.
  unfold get_py_method_def_flags, st_finally, st_bind. cbn [st_get].
  destruct (bool_decide (list_to_set (wd_meth_flags s) <> ∅)); [by left|]. right.
  destruct (generate_code fw s) as [s1 [[]|x]]; destruct H as [Hs H]; cbn [fst] in Hn.
  - destruct H as (h&->&Hh'). exists (set_heap s1 h). split_and!.
    + assert (same_wiring s1 (set_heap s1 h)) as Hh1 by exact Hh'. exact (transitivity Hs Hh1).
    + exact Hn.
    + cbn. by destruct (forward_reset_code_generation_state fw (set_heap s1 h)) as [? [[]|]].
  - rewrite H. exists s1. split_and!; [done..|]. cbn.
    by destruct (forward_reset_code_generation_state fw s1) as [? [[]|]].
Qed.

(** So they keep the wiring and the names; *)
Lemma get_flags_keeps fw s `{!ForwardFrame fw} `{!KeepsNames fw} : wired fw s ->
  let s' := (get_py_method_def_flags fw s).1 in same_wiring s s' /\ same_py_names s s'.
Proof.
  intros Hw. destruct (get_flags_cases fw s Hw) as [->|(t&Hs&Hn&->)]; [done|].
  destruct (reset_keeps fw t (wired_evolves fw fw s t Hw eq_refl Hs)) as [H1 H2].
  split; [by transitivity t | exact (transitivity Hn H2)].
Qed.

(** and change nothing in a state a reset leaves as it is. *)
Lemma get_flags_settled fw s `{!ForwardFrame fw} `{!KeepsNames fw} : wired fw s ->
  forward_reset_code_generation_state fw s = (s, Ok tt) ->
  (get_py_method_def_flags fw s).1 = s.
Proof.
  intros Hw Hr. destruct (get_flags_cases fw s Hw) as [->|(t&Hs&Hn&->)]; [done|].
  by rewrite (reset_canonical fw s t Hw Hs Hn), Hr.
Qed.

(** A reset clears the flags. *)
Lemma reset_flags fw s : wired fw s ->
  wd_meth_flags (forward_reset_code_generation_state fw s).1 = [].
Proof. intros Hw. rewrite reset_wired_eq by done. exact (eq_sym (proj2 (names_init_state fw _))). Qed.

Lemma flags_kept {B} (m : ST world B) s s' b :
  evolves same_names m -> m s = (s', Ok b) -> wd_meth_flags s' = wd_meth_flags s.
Proof. intros H E. specialize (H s). rewrite E in H. symmetry. apply H. Qed.

(** When keywords are forced, both flags are announced, whatever the handlers. *)
Lemma forced_flags fw s s' `{!KeepsNames fw} :
  fw_force_parse fw = Some PARSE_TUPLE_AND_KEYWORDS ->
  generate_code fw s = (s', Ok tt) ->
  wd_meth_flags s' = wd_meth_flags s ++ ["METH_VARARGS"; "METH_KEYWORDS"].
Proof.
  intros Hf H. pose proof kn_before_call as N1. pose proof kn_call as N2.
  unfold generate_code in H.
  apply st_bind_Ok in H as (s1&v&E1&H). apply flags_kept in E1; [|names].
  apply st_bind_Ok in H as (s2&[]&E2&H). apply flags_kept in E2; [|names].
  apply st_bind_Ok in H as (s3&[]&E3&H). apply flags_kept in E3; [|names].
  apply st_bind_Ok in H as (s4&[]&E4&H). apply flags_kept in E4; [|auto].
  apply st_bind_Ok in H as (s5&[]&E5&H). apply flags_kept in E5; [|names].
  apply st_bind_Ok in H as (s6&[]&E6&H). apply flags_kept in E6; [|auto].
  apply st_bind_Ok in H as (s7&[]&E7&H). apply flags_kept in H; [|names].
  assert (exists ps ks, parse_get_parameters (wd_parse_params s6) = Ok ps
    /\ get_keywords (wd_parse_params s6) = Ok ks) as (ps&ks&Hp&Hk).
  { unfold generate_parse, parse_query in E7. apply st_bind_Ok in E7 as (t&ps&T&E7).
    injection T as <- T. apply st_bind_Ok in E7 as (t&ks&T'&_). injection T' as <- T'.
    by exists ps, ks. }
  apply (generate_parse_call fw s6 s7 ps ks Hp Hk) in E7; [|rewrite Hf; by intros []].
  unfold parse_flags_added in E7. rewrite Hf in E7.
  rewrite H, E7, E6, E5, E4, E3, E2, E1. f_equal. case_bool_decide; [|done].
  by rewrite bool_decide_eq_false_2 by tauto.
Qed.

(** Once code was generated, a calling convention is announced. *)
Lemma flags_announced fw s s' `{!KeepsNames fw} :
  generate_code fw s = (s', Ok tt) -> wd_meth_flags s' <> [].
Proof.
  intros H. unfold generate_code in H.
  apply st_bind_Ok in H as (s1&v&_&H). apply st_bind_Ok in H as (s2&[]&_&H).
  apply st_bind_Ok in H as (s3&[]&_&H). apply st_bind_Ok in H as (s4&[]&_&H).
  apply st_bind_Ok in H as (s5&[]&_&H). apply st_bind_Ok in H as (s6&[]&_&H).
  apply st_bind_Ok in H as (s7&[]&E7&H). apply flags_kept in H; [|names]. rewrite H. clear H.
  assert (exists ps ks, parse_get_parameters (wd_parse_params s6) = Ok ps
    /\ get_keywords (wd_parse_params s6) = Ok ks) as (ps&ks&Hp&Hk).
  { unfold generate_parse, parse_query in E7. apply st_bind_Ok in E7 as (t&ps&T&E7).
    injection T as <- T. apply st_bind_Ok in E7 as (t&ks&T'&_). injection T' as <- T'.
    by exists ps, ks. }
  destruct (generate_parse_flags fw s6 s7 ps ks Hp Hk E7) as (F1&F2&F3).
  destruct (decide (ps = empty_format /\ fw_force_parse fw = None)) as [Hn|Hn].
  - rewrite F1 by done. by destruct (wd_meth_flags s6).
  - destruct (decide (ks = None /\ fw_force_parse fw <> Some PARSE_TUPLE_AND_KEYWORDS)) as [Hq|Hq].
    + rewrite F2 by done. by destruct (wd_meth_flags s6).
    + rewrite F3 by done. by destruct (wd_meth_flags s6).
Qed.
(** So the body needs no dry run to tell its flags, nor does anybody after it. *)
Lemma body_flags fw s k s' k' `{!ForwardFrame fw} `{!KeepsNames fw} : wired fw s ->
  generate_body fw (Gen s k) = (Gen s' k', Ok tt) ->
  forall fw', get_py_method_def_flags fw' s' = (s', Ok (list_to_set (wd_meth_flags s'))).
Proof.
  intros (Hr&pe&e&Hh) Hb fw'. pose proof (generate_body_eq fw pe e s k _ Hr Hh) as H.
  destruct (generate_code fw s) as [s1 [[]|x]] eqn:Ec; destruct H as [_ H]; [|congruence].
  destruct H as (h&Eb&_). rewrite Hb in Eb. injection Eb as -> ->.
  apply flags_announced in Ec; [|done]. unfold get_py_method_def_flags, st_bind, st_get. cbn.
  destruct (wd_meth_flags s1) as [|f l]; [done|]. rewrite bool_decide_eq_true_2; [done|].
  cbn. intros E. assert (f ∈ (∅ : gset string)) as Hf by (rewrite <- E; set_solver). by apply not_elem_of_empty in Hf.
Qed.

(** ** Declaring an object and generating it *)

Section declared.
Context {A : Type} (vm : methods A).

(** Computations that do not look at the sink. *)
Definition sink_blind {B} (m : ST (obj_gen A) B) : Prop :=
  forall o k k', m (o, k') = (((m (o, k)).1.1, k'), (m (o, k)).2).

Lemma sink_blind_bind {B C} (m : ST (obj_gen A) B) (f : B -> ST (obj_gen A) C) :
  sink_blind m -> (forall b, sink_blind (f b)) -> sink_blind (st_bind m f).
Proof.
  intros Hm Hf o k k'. unfold st_bind. rewrite (Hm o k k').
  pose proof (Hm o k k) as Hk. destruct (m (o, k)) as [[o1 k1] [b|e]]; cbn in *; [|done].
  injection Hk as ->. apply Hf.
Qed.
Lemma sink_blind_ret {B} (b : B) : sink_blind (st_ret b).
Proof. by intros o k k'. Qed.
Lemma sink_blind_raise {B} e : sink_blind (st_raise (A:=B) e).
Proof. by intros o k k'. Qed.
Lemma sink_blind_world {B} (m : forward_wrapper -> ST world B) : sink_blind (self_world vm m).
Proof. intros o k k'. unfold self_world. cbn. by destruct (m (bound vm o) (wo_world o)). Qed.
Lemma sink_blind_base f : sink_blind (modify_base f).
Proof. by intros o k k'. Qed.
Lemma sink_blind_attrs f : sink_blind (modify_attrs f).
Proof. by intros o k k'. Qed.
Lemma sink_blind_get {B} (f : wrapper_object A -> B) : sink_blind (st_get (fun st => f st.1)).
Proof. by intros o k k'. Qed.
Lemma sink_blind_body : sink_blind (generate_body_to_memory vm).
Proof.
  intros o k k'. unfold generate_body_to_memory. cbn.
  by destruct (generate_body (bound vm o) (Gen (wo_world o) MemoryCodeSink)).
Qed.

(** The text of a wrapper: its header is what [write_prototype] writes. *)
Definition wrapper_text (ret name : string) (args : list string) (body trailer : list string)
    (k : code_sink) : res code_sink :=
  let k := indent (writeln (writeln (writeln k ret)
             (name +:+ "(" +:+ join ", " args +:+ ")")) "{") 4 in
  k <-? unindent (fold_left writeln trailer (write_lines body k)) ;; Ok (writeln k "}").

Lemma unindent_after_lines k body trailer :
  exists k', unindent (fold_left writeln trailer (write_lines body (indent k 4))) = Ok k'.
Proof.
  assert (forall ls k0, indent_stack (fold_left writeln ls k0) = indent_stack k0) as Ht.
  { induction ls as [|l ls IH]; intros k0; [done|]. cbn. rewrite IH.
    apply (same_indent_writeln k0 l). }
  assert (forall ls k0, indent_stack (write_lines ls k0) = indent_stack k0) as H.
  { induction ls as [|l ls IH]; intros k0; [done|]. cbn. rewrite IH.
    apply (same_indent_writeln k0 (rstrip l)). }
  unfold unindent. rewrite Ht, H. by eexists.
Qed.

Lemma with_world_id (o : wrapper_object A) : with_world o (wo_world o) = o.
Proof. by destruct o. Qed.

Lemma write_trailer trailer (o : wrapper_object A) k :
  st_iter sink_writeln trailer (o, k) = ((o, fold_left writeln trailer k), Ok tt).
Proof. revert k. induction trailer as [|l ls IH]; intros k; [done|]. apply IH. Qed.

(** Writing out a wrapper whose interface is set. *)
Lemma emit_wrapper_eq o k tmp ret name args trailer :
  fw_wrapper_return (wo_base o) = Some ret -> fw_wrapper_actual_name (wo_base o) = Some name ->
  fw_wrapper_args (wo_base o) = Some args -> is_memory tmp = true ->
  exists k', wrapper_text ret name args (memory_lines tmp) trailer k = Ok k'
    /\ emit_wrapper vm tmp trailer (o, k) = ((o, k'), Ok tt).
Proof.
  intros Hr Hn Ha Hm. unfold wrapper_text, emit_wrapper.
  set (k0 := writeln (writeln (writeln k ret) (name +:+ "(" +:+ join ", " args +:+ ")")) "{").
  destruct (unindent_after_lines k0 (memory_lines tmp) trailer) as [k1 E]. rewrite E. eexists.
  split; [reflexivity|].
  unfold st_bind at 1. unfold self_out, write_open_wrapper. cbn [bound fw_wrapper_actual_name
    fw_wrapper_return fw_wrapper_args fst snd]. rewrite Hr, Hn, Ha. cbn.
  rewrite with_world_id. unfold flush_tmp_sink, flush_to. rewrite (is_memory_dest _ Hm). cbn.
  unfold st_bind at 1. rewrite write_trailer.
  unfold write_close_wrapper, st_bind, out. cbn [g_out g_world fst snd].
  match goal with |- context [unindent ?t] =>
    change t with (fold_left writeln trailer (write_lines (memory_lines tmp) (indent k0 4))) end.
  rewrite E. cbn. by rewrite with_world_id.
Qed.

(** Conversely, what is known when a wrapper was written out. *)
Lemma emit_wrapper_inv o k tmp trailer o' k' :
  emit_wrapper vm tmp trailer (o, k) = ((o', k'), Ok tt) ->
  o' = o /\ exists ret name args, fw_wrapper_return (wo_base o) = Some ret
    /\ fw_wrapper_actual_name (wo_base o) = Some name /\ fw_wrapper_args (wo_base o) = Some args
    /\ is_memory tmp = true
    /\ wrapper_text ret name args (memory_lines tmp) trailer k = Ok k'.
Proof.
  intros H. pose proof H as H0. unfold emit_wrapper in H0.
  apply st_bind_Ok in H0 as ([o1 k1]&[]&E1&H0). apply st_bind_Ok in H0 as (st2&[]&E2&_).
  unfold self_out, write_open_wrapper in E1. cbn [bound fw_wrapper_actual_name
    fw_wrapper_return fw_wrapper_args fst snd] in E1.
  destruct (fw_wrapper_actual_name (wo_base o)) as [name|] eqn:En; [|discriminate].
  destruct (fw_wrapper_return (wo_base o)) as [ret|] eqn:Er; [|discriminate].
  destruct (fw_wrapper_args (wo_base o)) as [args|] eqn:Ea; [|discriminate].
  assert (is_memory tmp = true) as Hm.
  { unfold flush_tmp_sink, flush_to in E2. unfold is_memory. by destruct (dest tmp). }
  destruct (emit_wrapper_eq o k tmp ret name args trailer Er En Ea Hm) as (k2&Ht&He).
  rewrite He in H. injection H as <- <-. split; [done|]. by exists ret, name, args.
Qed.

(** The body, from a wired state: a memory sink that depends on the code only. *)
Lemma body_to_memory_eq o k :
  wired (bound vm o) (wo_world o) -> ForwardFrame (bound vm o) -> KeepsNames (bound vm o) ->
  let '((o', k'), r) := generate_body_to_memory vm (o, k) in
  k' = k /\ (exists s', o' = with_world o s' /\ same_wiring (wo_world o) s'
             /\ same_py_names (wo_world o) s')
  /\ (forall tmp, r = Ok tmp -> is_memory tmp = true).
Proof.
  intros (Hr&pe&e&Hw) Hf Hk. unfold generate_body_to_memory. cbn [fst snd].
  pose proof (generate_body_eq (bound vm o) pe e (wo_world o) MemoryCodeSink Hf Hr Hw) as H.
  pose proof (names_generate_code (bound vm o) (wo_world o)) as Hn.
  destruct (generate_code (bound vm o) (wo_world o)) as [s1 [[]|x]]; destruct H as [Hs H].
  - destruct H as (h&->&Hh). cbn [fst snd g_world g_out]. split; [done|]. split.
    + exists (set_heap s1 h). split; [done|]. split; [|exact Hn].
      assert (same_wiring s1 (set_heap s1 h)) as Hh' by exact Hh. exact (transitivity Hs Hh').
    + intros tmp [= <-]. unfold is_memory.
      assert (forall ls k0, is_memory k0 = true -> is_memory (write_lines ls k0) = true) as Hl.
      { induction ls as [|l ls IH]; intros k0 H0; [done|]. apply IH. by rewrite is_memory_writeln. }
      by apply Hl.
  - rewrite H. cbn [fst snd g_world g_out]. split; [done|]. split; [by exists s1 | done].
Qed.
End declared.

(** ** The text of a call that may throw *)

(** What [write_convert_to_python] writes. *)
Definition conversion (exc : cpp_exception) (variable_name : string) : res string :=
  match ex_message_rvalue exc with
  | None => Ok ("PyErr_SetNone((PyObject *) " +:+ str_opt (ex_pytypestruct exc) +:+ ");")
  | Some m =>
      msg <-? format_dict m (fun k => if String.eqb k "EXC" then Some variable_name else None) ;;
      Ok ("PyErr_SetString((PyObject *) " +:+ str_opt (ex_pytypestruct exc) +:+ ", " +:+ msg
          +:+ ");")
  end.

Lemma write_convert_eq exc i v h t :
  conversion exc v = Ok t -> write_convert_to_python exc i v h = write_code i t h.
Proof.
  unfold conversion, write_convert_to_python. destruct (ex_message_rvalue exc) as [m|].
  - unfold st_bind, st_lift. destruct (format_dict m _); cbn; [|done]. by intros [= <-].
  - by intros [= <-].
Qed.

(** A catch clause: the cleanup code runs before the exception is converted. *)
Definition catch_ops (cleanup : list string) (error_return : string)
    (exc : cpp_exception * string) : list sink_op :=
  [OpUnindent; OpWrite ("} catch (" +:+ str_opt (ex_full_name exc.1) +:+ " const &exc) {");
   OpIndent 4]
  ++ map OpWrite (cleanup ++ [exc.2; error_return]).
Definition guarded_call_ops (cleanup : list string) (call error_return : string)
    (excs : list (cpp_exception * string)) : list sink_op :=
  match excs with
  | [] => [OpWrite call]
  | _ => [OpWrite ("try" +:+ nls +:+ "{"); OpIndent 4; OpWrite call]
         ++ List.concat (map (catch_ops cleanup error_return) excs)
         ++ [OpUnindent; OpWrite "}"]
  end.

Lemma bracketed_guarded cleanup call error_return excs :
  bracketed (guarded_call_ops cleanup call error_return excs).
Proof.
  unfold guarded_call_ops. destruct excs as [|e excs]; [by repeat constructor|].
  constructor. change [OpIndent 4; OpWrite call] with (OpIndent 4 :: map OpWrite [call]).
  assert (forall excs body, bracketed (OpIndent 4 :: map OpWrite body
    ++ List.concat (map (catch_ops cleanup error_return) excs) ++ [OpUnindent; OpWrite "}"])) as H.
  { clear e excs. induction excs as [|e excs IH]; intros body; cbn [map List.concat].
    - apply br_block; [apply bracketed_writes | by repeat constructor].
    - unfold catch_ops at 1. rewrite <- !app_assoc. cbn [app].
      apply br_block; [apply bracketed_writes|]. constructor. apply IH. }
  apply (H (e :: excs) [call]).
Qed.

Section guarded.
Context (store : list cpp_exception) (s : world) (h : heap) (w : wrapper) (b : code_block)
  (Hi : h_blocks h !! w_before_call w = Some b)
  (cs : list string) (Hcs : (get_cleanup_code (w_before_call w) h).2 = Ok cs).

(** [m] does the operations [os] on the sink of the block. *)
Definition does (m : ST world unit) (os : list sink_op) : Prop :=
  forall k k', run_ops k os = Ok k' ->
    m (set_heap s (at_sink h (w_before_call w) b k))
      = (set_heap s (at_sink h (w_before_call w) b k'), Ok tt).

Lemma does_bind m1 m2 os1 os2 :
  does m1 os1 -> does m2 os2 -> does (m1 ;;; m2) (os1 ++ os2).
Proof.
  intros H1 H2 k k' Hr. rewrite run_ops_app in Hr.
  destruct (run_ops k os1) as [k1|] eqn:E; [|done]. cbn in Hr.
  unfold st_bind. by rewrite (H1 k k1 E), (H2 k1 k' Hr).
Qed.
Lemma does_ret : does (st_ret tt) [].
Proof. by intros k k' [= <-]. Qed.

Lemma does_heap m os :
  (forall k k', run_ops k os = Ok k' -> m (at_sink h (w_before_call w) b k)
     = (at_sink h (w_before_call w) b k', Ok tt)) -> does (on_heap m) os.
Proof. intros H k k' Hr. unfold on_heap. cbn [set_heap wd_heap]. by rewrite (H k k' Hr). Qed.

Lemma does_write c : does (before_call_code w c) [OpWrite c].
Proof.
  apply does_heap. intros k k' [= <-]. unfold write_code. by apply on_sink_at.
Qed.
Lemma does_indent : does (on_heap (block_indent (w_before_call w))) [OpIndent 4].
Proof. apply does_heap. intros k k' [= <-]. unfold block_indent. by apply on_sink_at. Qed.
Lemma does_unindent : does (on_heap (block_unindent (w_before_call w))) [OpUnindent].
Proof.
  apply does_heap. intros k k' Hr. cbn in Hr. unfold block_unindent. apply on_sink_at; [done|].
  by destruct (unindent k).
Qed.

Lemma run_writes l k : run_ops k (map OpWrite l) = Ok (fold_left writeln l k).
Proof. revert k. induction l as [|c l IH]; intros k; [done|]. cbn. apply IH. Qed.

Lemma does_cleanup : does (on_heap (write_cleanup (w_before_call w))) (map OpWrite cs).
Proof.
  apply does_heap. intros k k'. rewrite run_writes. intros [= <-]. by apply write_cleanup_at.
Qed.
Lemma does_convert exc t :
  conversion exc "exc" = Ok t ->
  does (on_heap (write_convert_to_python exc (w_before_call w) "exc")) [OpWrite t].
Proof.
  intros Ht. apply does_heap. intros k k' [= <-]. rewrite (write_convert_eq _ _ _ _ t Ht).
  unfold write_code. by apply on_sink_at.
Qed.

(** The exceptions of [throw], with the text that converts each. *)
Definition conversions (throw : list nat) (excs : list (cpp_exception * string)) : Prop :=
  Forall2 (fun e exc => store !! e = Some exc.1 /\ conversion exc.1 "exc" = Ok exc.2) throw excs.

Lemma does_catch_clause error_return e exc :
  store !! e = Some exc.1 -> conversion exc.1 "exc" = Ok exc.2 ->
  does (write_catch_clause store w error_return e) (catch_ops cs error_return exc).
Proof.
  intros Hs Ht. unfold write_catch_clause, catch_ops. rewrite Hs.
  change ([OpUnindent; OpWrite ?x; OpIndent ?n] ++ ?l)
    with ([OpUnindent] ++ [OpWrite x] ++ [OpIndent n] ++ l).
  rewrite map_app. change (map OpWrite [exc.2; error_return])
    with ([OpWrite exc.2] ++ [OpWrite error_return]).
  repeat apply does_bind; auto using does_unindent, does_write, does_indent, does_cleanup,
    does_convert.
Qed.

Lemma does_catch_clauses error_return throw excs :
  conversions throw excs ->
  does (st_iter (write_catch_clause store w error_return) throw)
    (List.concat (map (catch_ops cs error_return) excs)).
Proof.
  induction 1 as [|e exc throw excs [He Hc] H IH]; [apply does_ret|].
  apply does_bind; [by apply does_catch_clause | exact IH].
Qed.

Lemma does_guarded (m : ST world unit) call error_return throw excs :
  does m [OpWrite call] -> conversions throw excs ->
  does (write_try w throw ;;; m ;;; write_catch store w error_return throw)
    (guarded_call_ops cs call error_return excs).
Proof.
  intros Hm Hc. unfold write_try, write_catch, guarded_call_ops.
  pose proof (does_catch_clauses error_return throw excs Hc) as Hcl.
  destruct Hc as [|e exc throw excs He Hc]; cbn [bool_decide decide_rel].
  - change [OpWrite call] with ([] ++ [OpWrite call] ++ []).
    repeat apply does_bind; [apply does_ret | exact Hm | apply does_ret].
  - rewrite bool_decide_eq_false_2 by done. cbn [negb st_when].
    change ([OpWrite ?x; OpIndent ?n; OpWrite call] ++ ?l)
      with (([OpWrite x] ++ [OpIndent n]) ++ [OpWrite call] ++ l).
    change [OpUnindent; OpWrite "}"] with ([OpUnindent] ++ [OpWrite "}"]).
    apply does_bind; [apply does_bind; [apply does_write | apply does_indent]|].
    apply does_bind; [exact Hm|]. apply does_bind; [exact Hcl|].
    apply does_bind; [apply does_unindent | apply does_write].
Qed.
End guarded.
