(* ===== verification/Function.v ===== *)
(** * Functions: [pybindgen/function.py]

    A [Function] generates the wrapper of a C function; it adds to
    [ForwardWrapperBase] the call itself, the exceptions the function may throw,
    the custodians, and the interface of the generated C function. *)
From S2P Require Import Prelude.
From S2P Require Import Format.
From S2P Require Import CodeSink.
From S2P Require Import CodeBlock.
From S2P Require Import Wrapper.
From S2P Require Import CTypeParser.
From S2P Require Import TypeHandler.
From S2P Require Import HandlerOps.
From S2P Require Import NumericTypes.
From S2P Require Import WrapperBase.
From S2P Require Import Utils.
From S2P Require Import Custodians.
From S2P Require Import Settings.
From S2P Require Import CppException.
From S2P Require Import WrapperObject.

Record function_attrs : Type := FunctionAttrs {
  fn_function_name : string;
  fn_module : option module_view;
  fn_wrapper_base_name : option string;
  fn_docstring : option string;
  fn_self_parameter_pystruct : option string;
  fn_template_parameters : list string;
  fn_custom_name : option string;
  fn_mangled_name : string;
  fn_foreign_cpp_namespace : option string;
  fn_throw : list nat;
  fn_custodians_and_wards : list Custodians.relation
}.
Definition function : Type := wrapper_object function_attrs.

(** ** The virtual methods *)

(** The namespace the function is called in. *)
Definition call_namespace (a : function_attrs) : res string :=
  if truthy (fn_foreign_cpp_namespace a)
  then Ok (default EmptyString (fn_foreign_cpp_namespace a) +:+ "::")
  else match fn_module a with
       | None => Raise AttributeError
       | Some m =>
           if String.eqb (mv_cpp_namespace_prefix m) EmptyString then Ok EmptyString
           else Ok (mv_cpp_namespace_prefix m +:+ "::")
       end.

(** ['< %s >' % ', '.join(self.template_parameters)], or nothing *)
Definition template_params (template_parameters : list string) : string :=
  match template_parameters with
  | [] => EmptyString
  | _ => "< " +:+ join ", " template_parameters +:+ " >"
  end.

(** How the result of the call is kept. *)
Definition retval_assign (rv : return_handler) : string :=
  if String.eqb (rh_ctype rv) "void" then EmptyString
  else if rh_REQUIRES_ASSIGNMENT_CONSTRUCTOR rv then rh_ctype rv +:+ " retval = "
  else "retval = ".

(** An argument that should be a name or a return value, in either place. *)
Inductive name_or_return (N R : Type) : Type :=
  | NameArg (name : N)
  | ReturnArg (r : R).
Arguments NameArg {N R} name.
Arguments ReturnArg {N R} r.

Section function.
Context (g : settings) (store : list cpp_exception).

Definition Function_generate_call (a : function_attrs) (fw : forward_wrapper) (w : wrapper)
    : ST world unit :=
  namespace <- st_lift (call_namespace a) ;;
  write_try w (fn_throw a) ;;;
  match fw_return_value fw with
  | None => st_raise AttributeError
  | Some rv =>
      call_params <- st_get wd_call_params ;;
      before_call_code w
        (retval_assign rv +:+ namespace +:+ fn_function_name a
         +:+ template_params (fn_template_parameters a)
         +:+ "(" +:+ join ", " call_params +:+ ");")
  end ;;;
  write_catch store w "return NULL;" (fn_throw a).

Definition function_methods : methods function_attrs := {|
  m_generate_call := Function_generate_call;
  m_before_call_hook := fun a fw w =>
    implement_parameter_custodians_precall (fn_custodians_and_wards a) (fw_parameters fw)
      (fw_return_value fw) w;
  m_before_return_hook := fun a fw w =>
    implement_parameter_custodians_postcall (fn_custodians_and_wards a) (fw_parameters fw)
      (fw_return_value fw) w
|}.

(** ** Construction *)

Section constructors.
Context {K : Type} (no_kwargs : K)
  (new_param : list (@spec_item pyval K) -> K -> ST world param_handler)
  (new_return : list (@spec_item pyval K) -> K -> ST world return_handler)
  (on_error : error_handler world).

(** [utils.eval_param(param, self)] for every parameter *)
Fixpoint eval_params (parameters : list (@spec pyval K param_handler))
    : ST world (list param_handler) :=
  match parameters with
  | [] => st_ret []
  | p :: ps =>
      h <- eval_param new_param on_error no_kwargs p ;;
      hs <- eval_params ps ;;
      st_ret (h :: hs)
  end.

(** [return_value = ReturnValue.new('void')] when there is none, and
    [utils.eval_retval] *)
Definition eval_return (return_value : option (@spec pyval K return_handler))
    : ST world return_handler :=
  match return_value with
  | None => new_return [Arg (VStr "void")] no_kwargs
  | Some s => eval_retval new_return on_error no_kwargs s
  end.

(** "backward compatibility check": the name and the return value may come in the
    other order. *)
Definition swap_arguments {N} (of_str : string -> N)
    (function_name : name_or_return N return_handler)
    (return_value : option (@spec pyval K return_handler))
    : name_or_return N return_handler * option (@spec pyval K return_handler) :=
  match return_value, function_name with
  | Some (Str _ (VStr s)), ReturnArg r => (NameArg (of_str s), Some (Handler _ r))
  | _, _ => (function_name, return_value)
  end.

(** [utils.ascii] *)
Definition ascii_name (n : name_or_return text_value return_handler) : res (option string) :=
  match n with NameArg t => ascii_of_value t | ReturnArg _ => Raise TypeError end.

(** [for t in throw: assert isinstance(t, CppException)]; [None] stands for an
    object that is not one. *)
Fixpoint check_throw (throw : list (option nat)) : res (list nat) :=
  match throw with
  | [] => Ok []
  | None :: _ => Raise AssertionError
  | Some e :: ts => es <-? check_throw ts ;; Ok (e :: es)
  end.

(** The base class's part, with the methods of the subclass bound later. *)
Definition init_forward (return_value : option return_handler) (parameters : list param_handler)
    (error_return : string) (force_parse : option Z) (unblock_threads : bool)
    : ST world forward_wrapper :=
  ForwardWrapperBase_init return_value parameters error_return error_return force_parse
    false unblock_threads false (fun _ => st_ret tt) (fun _ => st_ret tt) (fun _ => st_ret tt).

Definition Function_init (function_name : name_or_return text_value return_handler)
    (return_value : option (@spec pyval K return_handler))
    (parameters : list (@spec pyval K param_handler)) (docstring : option string)
    (unblock_threads : option bool) (template_parameters : list string)
    (custom_name : option string) (deprecated : pyval) (foreign_cpp_namespace : option string)
    (throw : list (option nat)) : ST world function :=
  let unblock_threads := default (Settings.unblock_threads g) unblock_threads in
  let '(function_name, return_value) := swap_arguments StrText function_name return_value in
  return_value <- eval_return return_value ;;
  parameters <- eval_params parameters ;;
  fw <- init_forward (Some return_value) parameters "return NULL;" None unblock_threads ;;
  function_name <- st_lift (ascii_name function_name) ;;
  match function_name with
  | None => st_raise AttributeError
  | Some function_name =>
      throw <- st_lift (check_throw throw) ;;
      rels <- st_lift (scan_custodians_and_wards parameters (Some return_value)) ;;
      s <- st_get (fun s => s) ;;
      st_ret (Obj (set_deprecated deprecated fw)
        (FunctionAttrs function_name None None docstring None template_parameters custom_name
           (get_mangled_name function_name template_parameters) foreign_cpp_namespace throw rels)
        s)
  end.

(** [clone]: the constructor, and some of the attributes.  The copies of the
    parameters have the [py_name] of the originals. *)
Definition Function_clone (o : function) : res function :=
  match fw_return_value (wo_base o) with
  | None => Raise AttributeError
  | Some rv =>
      let '(_, r) := Function_init (NameArg (StrText (fn_function_name (wo_attrs o))))
        (Some (Handler _ rv)) (map (Handler _) (fw_parameters (wo_base o)))
        (fn_docstring (wo_attrs o)) None [] None (VBool false) None []
        (World empty_heap [] [] [] [] (wd_py_names (wo_world o))) in
      func <-? r ;;
      let a := wo_attrs func in
      Ok (Obj (set_actual_name (fw_wrapper_actual_name (wo_base o)) (wo_base func))
            (FunctionAttrs (fn_function_name a) (fn_module (wo_attrs o))
               (fn_wrapper_base_name (wo_attrs o)) (fn_docstring a)
               (fn_self_parameter_pystruct a) (fn_template_parameters a) (fn_custom_name a)
               (fn_mangled_name a) (fn_foreign_cpp_namespace a) (fn_throw (wo_attrs o))
               (fn_custodians_and_wards (wo_attrs o)))
            (wo_world func))
  end.
End constructors.

Definition set_function_custodians (rels : list Custodians.relation) (a : function_attrs)
    : function_attrs :=
  FunctionAttrs (fn_function_name a) (fn_module a) (fn_wrapper_base_name a) (fn_docstring a)
    (fn_self_parameter_pystruct a) (fn_template_parameters a) (fn_custom_name a)
    (fn_mangled_name a) (fn_foreign_cpp_namespace a) (fn_throw a) rels.

(** [add_custodian_and_ward] of a function *)
Definition Function_add_custodian_and_ward (o : function) (custodian ward : Z)
    (postcall : option bool) : res function :=
  rels <-? add_custodian_and_ward (fn_custodians_and_wards (wo_attrs o)) custodian ward postcall ;;
  Ok (Obj (wo_base o) (set_function_custodians rels (wo_attrs o)) (wo_world o)).

(** [set_module] *)
Definition Function_set_module (m : module_view) (a : function_attrs) : function_attrs :=
  FunctionAttrs (fn_function_name a) (Some m)
    (Some ("_wrap_" +:+ mv_prefix m +:+ "_" +:+ fn_mangled_name a)) (fn_docstring a)
    (fn_self_parameter_pystruct a) (fn_template_parameters a) (fn_custom_name a)
    (fn_mangled_name a) (fn_foreign_cpp_namespace a) (fn_throw a) (fn_custodians_and_wards a).

(** ** Generation *)

Definition self_param (a : function_attrs) : string :=
  match fn_self_parameter_pystruct a with
  | None => "PyObject * PYBINDGEN_UNUSED(dummy)"
  | Some p => p +:+ " *self"
  end.

(** The arguments of the C function, from the flags. *)
Definition function_args (a : function_attrs) (flags : gset string) (extra : list string)
    : list string :=
  (if bool_decide ("METH_VARARGS" ∈ flags) then
     [self_param a; "PyObject *args"]
     ++ (if bool_decide ("METH_KEYWORDS" ∈ flags) then ["PyObject *kwargs"] else [])
   else [])
  ++ extra.

(** "Bug #780945": a function that throws needs [retval] declared outside of the
    [try] block. *)
Definition reset_for_throw {A} (vm : methods A) (throw : A -> list nat) : ST (obj_gen A) unit :=
  ts <- st_get (fun st => throw (wo_attrs st.1)) ;;
  st_when (negb (bool_decide (ts = [])))
    (modify_base no_assignment_constructor ;;;
     self_world vm forward_reset_code_generation_state).

(** [generate], up to the writing. *)
Definition Function_prepare (wrapper_name : option string) (extra_wrapper_params : list string)
    : ST (obj_gen function_attrs) code_sink :=
  reset_for_throw function_methods fn_throw ;;;
  a <- st_get (fun st => wo_attrs st.1) ;;
  modify_base (set_actual_name
    match wrapper_name with Some n => Some n | None => fn_wrapper_base_name a end) ;;;
  tmp_sink <- generate_body_to_memory function_methods ;;
  flags <- self_world function_methods get_py_method_def_flags ;;
  modify_base (set_return_and_args "PyObject *" (function_args a flags extra_wrapper_params)) ;;;
  st_ret tmp_sink.

Definition Function_generate (wrapper_name : option string) (extra_wrapper_params : list string)
    : ST (obj_gen function_attrs) unit :=
  tmp_sink <- Function_prepare wrapper_name extra_wrapper_params ;;
  emit_wrapper function_methods tmp_sink [].

Definition Function_generate_declaration (extra_wrapper_parameters : list string)
    : ST (obj_gen function_attrs) unit :=
  declare_by_dry_run function_methods (Function_generate None extra_wrapper_parameters)
    (write_prototype EmptyString Ok).

(** [get_py_method_def(name)] *)
Definition Function_get_py_method_def `{!SetOrder} (vm : methods function_attrs) (name : string)
    : ST (obj_gen function_attrs) string :=
  flags <- self_world vm get_py_method_def_flags ;;
  o <- st_get fst ;;
  match fw_wrapper_return (wo_base o), fw_wrapper_actual_name (wo_base o),
        fw_wrapper_args (wo_base o) with
  | Some _, Some n, Some _ =>
      st_ret (method_def_entry name (Some n) (set_list flags) (fn_docstring (wo_attrs o)))
  | _, _, _ => st_raise AssertionError
  end.
End function.

(** ** Custom wrappers *)

Section custom.
Context (g : settings).

(** [CustomFunctionWrapper]: a function without a call, whose body is given. *)
Definition custom_function_methods : methods function_attrs := {|
  m_generate_call := fun _ _ _ => st_ret tt;
  m_before_call_hook := m_before_call_hook (function_methods []);
  m_before_return_hook := m_before_return_hook (function_methods [])
|}.

Definition CustomFunctionWrapper_init {K} (no_kwargs : K)
    (new_param : list (@spec_item pyval K) -> K -> ST world param_handler)
    (new_return : list (@spec_item pyval K) -> K -> ST world return_handler)
    (on_error : error_handler world)
    (function_name : name_or_return text_value return_handler) (wrapper_name : string)
    (flags : list string) : ST world function :=
  void <- new_return [Arg (VStr "void")] no_kwargs ;;
  o <- Function_init g no_kwargs new_param new_return on_error function_name
         (Some (Handler _ void)) [] None None [] None (VBool false) None [] ;;
  let a := wo_attrs o in
  let s := wo_world o in
  let s := World (wd_heap s) (wd_build_params s) (wd_parse_params s) (wd_call_params s) flags
             (wd_py_names s) in
  (fun _ => (s, Ok tt)) ;;;
  st_ret (Obj
    (set_return_and_args "PyObject *"
       ["PyObject *args"; "PyObject *kwargs"; "PyObject **return_exception"]
       (set_actual_name (Some wrapper_name) (wo_base o)))
    (FunctionAttrs (fn_function_name a) (fn_module a) (Some wrapper_name) (fn_docstring a)
       (fn_self_parameter_pystruct a) (fn_template_parameters a) (fn_custom_name a)
       (fn_mangled_name a) (fn_foreign_cpp_namespace a) (fn_throw a)
       (fn_custodians_and_wards a))
    s).

(** [generate] and the inherited [generate_declaration] call each other when
    there is no body: the fuel is the depth of the calls. *)
Fixpoint CustomFunctionWrapper_generate (fuel : nat) (wrapper_body : option string)
    (extra_wrapper_params : list string) : ST (obj_gen function_attrs) unit :=
  match fuel with
  | O => st_raise OutOfFuel
  | S fuel' =>
      st_assert (bool_decide (extra_wrapper_params = ["PyObject **return_exception"])) ;;;
      match wrapper_body with
      | Some body => sink_writeln body
      | None =>
          declare_by_dry_run custom_function_methods
            (CustomFunctionWrapper_generate fuel' None extra_wrapper_params)
            (write_prototype EmptyString Ok)
      end
  end.

Definition CustomFunctionWrapper_generate_declaration (wrapper_body : option string)
    (fuel : nat) (extra_wrapper_params : list string) : ST (obj_gen function_attrs) unit :=
  declare_by_dry_run custom_function_methods
    (CustomFunctionWrapper_generate fuel wrapper_body extra_wrapper_params)
    (write_prototype EmptyString Ok).
End custom.

(** ** Frames of functions *)

Lemma names_py_name_of b i : evolves same_names (py_name_of b i).
Proof. unfold py_name_of. names. Qed.
#[export] Hint Resolve names_py_name_of : names.
Lemma names_get_custodian ps rv n : evolves same_names (get_custodian_or_ward ps rv n).
Proof. unfold get_custodian_or_ward. names. Qed.
#[export] Hint Resolve names_get_custodian : names.
Lemma names_implement rels post i ps rv :
  evolves same_names (implement_custodians rels post i ps rv).
Proof. unfold implement_custodians. names. Qed.
#[export] Hint Resolve names_implement : names.

(** What a function asks of its handlers. *)
Class PlainHandlers (ps : list param_handler) (rv : option return_handler) : Prop := {
  ph_params_wiring : Forall (fun p => forall w, evolves same_wiring (ph_convert_python_to_c p w)) ps;
  ph_params_names : Forall (fun p => forall w, evolves same_names (ph_convert_python_to_c p w)) ps;
  ph_return_wiring : forall r w, rv = Some r -> evolves same_wiring (rh_convert_c_to_python r w);
  ph_return_names : forall r w, rv = Some r -> evolves same_names (rh_convert_c_to_python r w)
}.

Section function_frames.
Context (store : list cpp_exception).

Lemma wiring_function_call a fw w : evolves same_wiring (Function_generate_call store a fw w).
Proof. unfold Function_generate_call. wiring. by intros s. Qed.
Lemma names_function_call a fw w : evolves same_names (Function_generate_call store a fw w).
Proof. unfold Function_generate_call. names. Qed.

#[export] Instance function_frame o
  `{!PlainHandlers (fw_parameters (wo_base o)) (fw_return_value (wo_base o))} :
  ForwardFrame (bound (function_methods store) o).
Proof.
  split; cbn.
  - apply ph_params_wiring.
  - intros rv w H. by eapply ph_return_wiring.
  - intros w. apply wiring_function_call.
  - intros w. apply wiring_implement.
  - intros w. apply wiring_implement.
Qed.
#[export] Instance function_names o
  `{!PlainHandlers (fw_parameters (wo_base o)) (fw_return_value (wo_base o))} :
  KeepsNames (bound (function_methods store) o).
Proof.
  split; cbn.
  - apply ph_params_names.
  - intros rv w H. by eapply ph_return_names.
  - intros w. apply names_function_call.
  - intros w. apply names_implement.
  - intros w. apply names_implement.
Qed.
End function_frames.

(** ** A declared function can be generated, under the declared prototype *)

Section function_declared.
Context (store : list cpp_exception).
Local Abbreviation vm := (function_methods store).

(** The attributes of the base class once [generate] has looked at [throw]. *)
Definition throwing_base (throw : list nat) (B : forward_wrapper) : forward_wrapper :=
  if bool_decide (throw = []) then B else no_assignment_constructor B.

(** The steps of [Function_prepare] that can raise. *)
Record prepared (B : forward_wrapper) (a : function_attrs) (s s1 s2 s3 : world)
    (tmp : code_sink) (flags : gset string) : Prop := Prepared {
  pr_entry : (if bool_decide (fn_throw a = []) then (s, Ok tt)
              else forward_reset_code_generation_state (bound vm (Obj B a s)) s) = (s1, Ok tt);
  pr_body : generate_body (bound vm (Obj B a s)) (Gen s1 MemoryCodeSink) = (Gen s2 tmp, Ok tt);
  pr_flags : get_py_method_def_flags (bound vm (Obj B a s)) s2 = (s3, Ok flags)
}.

Definition chosen_name (wrapper_name : option string) (a : function_attrs) : option string :=
  match wrapper_name with Some n => Some n | None => fn_wrapper_base_name a end.
Definition interface_set (B : forward_wrapper) (a : function_attrs) (name : option string)
    (args : list string) : forward_wrapper :=
  set_return_and_args "PyObject *" args (set_actual_name name B).

Lemma prepare_iff B a s k wn extra o' k' tmp :
  Function_prepare store wn extra (Obj B a s, k) = ((o', k'), Ok tmp) <->
  exists s1 s2 s3 flags, prepared (throwing_base (fn_throw a) B) a s s1 s2 s3 tmp flags
    /\ o' = Obj (interface_set (throwing_base (fn_throw a) B) a (chosen_name wn a)
                   (function_args a flags extra)) a s3
    /\ k' = k.
Proof.
  unfold Function_prepare. split.
  - intros (st1&[]&E1&H)%st_bind_Ok.
    assert (exists s1, st1 = (Obj (throwing_base (fn_throw a) B) a s1, k)
      /\ (if bool_decide (fn_throw a = []) then (s, Ok tt)
          else forward_reset_code_generation_state
                 (bound vm (Obj (throwing_base (fn_throw a) B) a s)) s) = (s1, Ok tt))
      as (s1&->&Hentry).
    { unfold reset_for_throw, throwing_base in *. cbn in E1.
      destruct (bool_decide (fn_throw a = [])); cbn [negb st_when] in E1.
      - injection E1 as <-. by exists s.
      - unfold st_bind, modify_base, st_modify, self_world in E1. cbn [fst snd wo_base wo_attrs
          wo_world] in E1.
        destruct (forward_reset_code_generation_state _ _) as [s1 r] eqn:Er.
        injection E1 as <- ->. exists s1. by split. }
    clear E1. cbn in H. apply st_bind_Ok in H as (st2&tmp'&E2&H).
    unfold generate_body_to_memory in E2. cbn [fst snd wo_world] in E2.
    destruct (generate_body _ _) as [[s2 t2] [[]|]] eqn:Eb; [|discriminate]. cbn in E2.
    injection E2 as <- <-. apply st_bind_Ok in H as (st3&flags&E3&H).
    unfold self_world in E3. cbn [fst snd wo_world with_world] in E3.
    destruct (get_py_method_def_flags _ _) as [s3 [fl|]] eqn:Ef; [|discriminate].
    injection E3 as <- <-. cbn in H. injection H as <- <- <-.
    exists s1, s2, s3, fl. split; [|done]. constructor; [exact Hentry | exact Eb | exact Ef].
  - intros (s1&s2&s3&flags&[He Hb Hf]&->&->).
    assert (reset_for_throw vm fn_throw (Obj B a s, k)
      = ((Obj (throwing_base (fn_throw a) B) a s1, k), Ok tt)) as E1.
    { unfold reset_for_throw, throwing_base in *. cbn.
      destruct (bool_decide (fn_throw a = [])); cbn [negb st_when].
      - by injection He as ->.
      - unfold st_bind, modify_base, st_modify, self_world. cbn [fst snd wo_base wo_attrs wo_world].
        match goal with |- context [forward_reset_code_generation_state ?w ?t] =>
          change (forward_reset_code_generation_state w t)
            with (forward_reset_code_generation_state
                   (bound vm (Obj (no_assignment_constructor B) a s)) s) end.
        by rewrite He. }
    unfold st_bind at 1. rewrite E1. cbn.
    unfold st_bind at 1. unfold generate_body_to_memory. cbn [fst snd wo_world].
    match goal with |- context [generate_body ?w ?t] =>
      change (generate_body w t) with
        (generate_body (bound vm (Obj (throwing_base (fn_throw a) B) a s)) (Gen s1 MemoryCodeSink))
    end.
    rewrite Hb. cbn [g_world g_out]. unfold st_bind at 1. unfold self_world.
    cbn [fst snd wo_world with_world].
    match goal with |- context [get_py_method_def_flags ?w ?t] =>
      change (get_py_method_def_flags w t) with
        (get_py_method_def_flags (bound vm (Obj (throwing_base (fn_throw a) B) a s)) s2) end.
    rewrite Hf. reflexivity.
Qed.

(** A state that a reset of the object leaves as it is. *)
Definition settled (o : function) : Prop :=
  wired (bound vm o) (wo_world o)
  /\ forward_reset_code_generation_state (bound vm o) (wo_world o) = (wo_world o, Ok tt).

Lemma no_assignment_idempotent B :
  no_assignment_constructor (no_assignment_constructor B) = no_assignment_constructor B.
Proof. by destruct B as [[[]|]]. Qed.
Lemma throwing_base_idempotent throw B n args :
  throwing_base throw (set_return_and_args "PyObject *" args
    (set_actual_name n (throwing_base throw B)))
  = set_return_and_args "PyObject *" args (set_actual_name n (throwing_base throw B)).
Proof.
  unfold throwing_base. destruct (bool_decide (throw = [])); [done|].
  unfold no_assignment_constructor. cbn. by destruct (fw_return_value B) as [[]|].
Qed.

Lemma plain_throwing ps rv :
  PlainHandlers ps rv -> forall throw B, fw_parameters B = ps -> fw_return_value B = rv ->
  PlainHandlers (fw_parameters (throwing_base throw B)) (fw_return_value (throwing_base throw B)).
Proof.
  intros [H1 H2 H3 H4] throw B <- <-. unfold throwing_base.
  destruct (bool_decide (throw = [])); [by split|]. split; [exact H1 | exact H2| |].
  - intros r w Hr. cbn in Hr. destruct (fw_return_value B) as [r0|]; [|discriminate].
    injection Hr as <-. by apply (H3 r0).
  - intros r w Hr. cbn in Hr. destruct (fw_return_value B) as [r0|]; [|discriminate].
    injection Hr as <-. by apply (H4 r0).
Qed.

(** The worlds a preparation goes through are wired alike and have the same
    names. *)
Lemma prepared_worlds B a s s1 s2 s3 tmp flags :
  PlainHandlers (fw_parameters B) (fw_return_value B) -> wired (bound vm (Obj B a s)) s ->
  prepared B a s s1 s2 s3 tmp flags ->
  (same_wiring s s1 /\ same_py_names s s1) /\ (same_wiring s s3 /\ same_py_names s s3)
  /\ is_memory tmp = true
  /\ forall fw, get_py_method_def_flags fw s3 = (s3, Ok flags).
Proof.
  intros Hp Hw [He Hb Hf].
  assert (same_wiring s s1 /\ same_py_names s s1) as [W1 N1].
  { destruct (bool_decide (fn_throw a = [])); [by injection He as ->|].
    pose proof (reset_keeps _ _ Hw) as H. rewrite He in H. exact H. }
  pose proof (body_to_memory_eq vm (Obj B a s1) NullCodeSink
    (wired_evolves _ (bound vm (Obj B a s1)) _ s1 Hw eq_refl W1) _ _) as H.
  unfold generate_body_to_memory in H. cbn [fst snd wo_world] in H.
  change (bound vm (Obj B a s1)) with (bound vm (Obj B a s)) in H. rewrite Hb in H.
  cbn [fst snd g_world g_out] in H. destruct H as (_&(s2'&E&W2&N2)&Hm). injection E as <-.
  assert (same_wiring s2 s3 /\ same_py_names s2 s3) as [W3 N3].
  { pose proof (get_flags_keeps (bound vm (Obj B a s)) s2) as H. rewrite Hf in H. apply H.
    eapply wired_evolves; [exact Hw | done|]. by transitivity s1. }
  split_and!; [done..| | |by apply Hm|].
  - transitivity s1; [done|]. by transitivity s2.
  - transitivity s1; [done|]. by transitivity s2.
  - assert (wired (bound vm (Obj B a s)) s1) as Hw1 by by eapply wired_evolves.
    pose proof (body_flags (bound vm (Obj B a s)) _ _ _ _ Hw1 Hb) as Hfl.
    rewrite Hfl in Hf. injection Hf as <- <-. exact Hfl.
Qed.

(** After a first preparation and a reset, a second one goes the same way. *)
Lemma prepare_again B0 a s s0 k k2 wn extra o' k' tmp :
  PlainHandlers (fw_parameters B0) (fw_return_value B0) ->
  wired (bound vm (Obj B0 a s)) s ->
  forward_reset_code_generation_state (bound vm (Obj B0 a s)) s = (s0, Ok tt) ->
  Function_prepare store wn extra (Obj B0 a s0, k) = ((o', k'), Ok tmp) ->
  wo_attrs o' = a /\ is_memory tmp = true
  /\ fw_wrapper_return (wo_base o') = Some "PyObject *"
  /\ fw_wrapper_actual_name (wo_base o') = chosen_name wn a
  /\ (exists flags, fw_wrapper_args (wo_base o') = Some (function_args a flags extra)
        /\ forall fw, get_py_method_def_flags fw (wo_world o') = (wo_world o', Ok flags))
  /\ forall s1, forward_reset_code_generation_state (bound vm o') (wo_world o') = (s1, Ok tt) ->
       settled (with_world o' s1)
       /\ Function_prepare store wn extra (with_world o' s1, k2) = ((o', k2), Ok tmp).
Proof.
  intros Hp Hw Hr0 Hprep.
  destruct (reset_keeps _ _ Hw) as [W0 N0]. rewrite Hr0 in W0, N0. cbn [fst] in W0, N0.
  apply prepare_iff in Hprep as (s1&s2&s3&flags&Hpr&->&->).
  set (B := throwing_base (fn_throw a) B0) in *.
  assert (PlainHandlers (fw_parameters B) (fw_return_value B)) as HpB by by eapply plain_throwing.
  assert (fw_refs B = fw_refs B0) as HrB
    by (unfold B, throwing_base; by destruct (bool_decide (fn_throw a = []))).
  assert (wired (bound vm (Obj B a s0)) s0) as HwB by exact (wired_evolves _ _ _ _ Hw HrB W0).
  destruct (prepared_worlds B a s0 s1 s2 s3 tmp flags HpB HwB Hpr) as ((W1&N1)&(W3&N3)&Hm&Hfl).
  cbn [wo_attrs wo_base wo_world interface_set set_return_and_args set_actual_name
    fw_wrapper_return fw_wrapper_actual_name fw_wrapper_args].
  split_and!; [done..|by exists flags|]. intros t Ht.
  change (forward_reset_code_generation_state (bound vm (Obj B a s0)) s3 = (t, Ok tt)) in Ht.
  pose proof (reset_canonical _ _ _ HwB W3 N3) as Hc. rewrite Ht in Hc.
  destruct (reset_keeps _ _ HwB) as [Wt Nt]. rewrite <- Hc in Wt, Nt. cbn [fst] in Wt, Nt.
  assert (forward_reset_code_generation_state (bound vm (Obj B a s0)) t = (t, Ok tt)) as Htt.
  { rewrite (reset_canonical _ _ _ HwB Wt Nt). by symmetry. }
  split.
  { split; [|exact Htt]. by apply (wired_evolves _ (bound vm (Obj B a s0)) _ t HwB eq_refl Wt). }
  unfold with_world. cbn [wo_base wo_attrs]. apply prepare_iff. exists s1, s2, s3, flags.
  assert (throwing_base (fn_throw a) (interface_set B a (chosen_name wn a)
    (function_args a flags extra)) = interface_set B a (chosen_name wn a)
    (function_args a flags extra)) as -> by apply throwing_base_idempotent.
  split; [|done]. destruct Hpr as [He Hb Hf]. constructor; [|exact Hb | exact Hf].
  unfold B, throwing_base in *. destruct (bool_decide (fn_throw a = [])).
  - injection He as <-. pose proof (reset_canonical _ _ _ Hw W0 N0) as Hc0.
    rewrite Hr0 in Hc0. by injection (eq_trans Hc Hc0) as ->.
  - rewrite He in Hc. injection Hc as <-. exact Htt.
Qed.

(** The entry of the method table, when the flags are there. *)
Lemma method_def_of_flags {so : SetOrder} (o : function) k name ret args flags method_name :
  fw_wrapper_return (wo_base o) = Some ret -> fw_wrapper_actual_name (wo_base o) = Some name ->
  fw_wrapper_args (wo_base o) = Some args ->
  (forall fw, get_py_method_def_flags fw (wo_world o) = (wo_world o, Ok flags)) ->
  Function_get_py_method_def vm method_name (o, k)
    = ((o, k), Ok (method_def_entry method_name (Some name) (set_list flags) (fn_docstring (wo_attrs o)))).
Proof.
  intros Hr Hn Ha Hf. destruct o as [B a s]. cbn [wo_base wo_world wo_attrs] in *.
  unfold Function_get_py_method_def, st_bind, self_world, st_get. cbn [fst snd wo_world].
  rewrite Hf. unfold with_world. cbn [fst snd wo_base wo_attrs]. by rewrite Hr, Hn, Ha.
Qed.

(** C19: What is declared is what is generated.  When [generate_declaration] of a
    function with plain handlers succeeds, it writes one prototype and leaves the
    object as a reset leaves it; from then on [generate] succeeds into any sink,
    and what it writes is a function with exactly the declared return type, name
    and arguments, and always the same body.  The entry of the method table asked
    for afterwards is given, under any Python name: it names the declared function,
    with the flags the declared arguments were chosen by, and changes nothing. *)
Theorem declared_function_generates {so : SetOrder} (o o1 : function) (k k1 : code_sink)
    (extra : list string) :
  wired (bound vm o) (wo_world o) ->
  PlainHandlers (fw_parameters (wo_base o)) (fw_return_value (wo_base o)) ->
  Function_generate_declaration store extra (o, k) = ((o1, k1), Ok tt) ->
  settled o1 /\ exists name flags body,
    let args := function_args (wo_attrs o) flags extra in
    k1 = writeln k ("PyObject * " +:+ name +:+ "(" +:+ join ", " args +:+ ");")
    /\ forall k2, exists o2 k3,
         Function_generate store None extra (o1, k2) = ((o2, k3), Ok tt)
         /\ wrapper_text "PyObject *" name args body [] k2 = Ok k3
         /\ forall method_name, Function_get_py_method_def vm method_name (o2, k3)
              = ((o2, k3), Ok (method_def_entry method_name (Some name) (set_list flags)
                                 (fn_docstring (wo_attrs o)))).
Proof.
  destruct o as [B0 a s]. intros Hw Hp H. unfold Function_generate_declaration, declare_by_dry_run in H.
  apply st_bind_Ok in H as (st0&[]&E0&H). unfold self_world in E0. cbn [fst snd wo_world] in E0.
  destruct (forward_reset_code_generation_state _ _) as [s0 r0] eqn:Er0. injection E0 as <- ->.
  apply st_bind_Ok in H as (st1&[]&E1&H). unfold into_null in E1. cbn [fst snd] in E1.
  destruct (Function_generate store None extra _) as [[o' k'] r'] eqn:Eg. injection E1 as <- ->.
  unfold Function_generate in Eg. apply st_bind_Ok in Eg as (st2&tmp&Ep&Eg).
  destruct st2 as [o2 k2]. unfold with_world in Ep. cbn [wo_base wo_attrs] in Ep.
  pose proof (fun k2' => prepare_again B0 a s s0 NullCodeSink k2' None extra o2 k2 tmp Hp Hw Er0 Ep)
    as Hagain.
  destruct (Hagain k2) as (Ha&Hm&Hret&Hname&(flags&Hargs&Hflags)&_).
  destruct (chosen_name None a) as [name|] eqn:En.
  2:{ unfold emit_wrapper, st_bind, self_out, write_open_wrapper in Eg. cbn [bound fst
        fw_wrapper_actual_name] in Eg. rewrite Hname in Eg. discriminate. }
  destruct (emit_wrapper_eq vm o2 k2 tmp _ _ _ [] Hret Hname Hargs Hm) as (k3&_&Ee).
  rewrite Ee in Eg. injection Eg as <- <-.
  apply st_bind_Ok in H as ([o3 k4]&[]&E2&H). unfold write_prototype, sink_writeln, on_snd,
    st_bind, st_get, st_modify, st_lift in E2. cbn [fst snd] in E2.
  rewrite Hret, Hname, Hargs in E2. cbn [fst snd] in E2. injection E2 as <- <-.
  unfold self_world in H. cbn [fst snd] in H.
  destruct (forward_reset_code_generation_state (bound vm o2) (wo_world o2)) as [s1 r1] eqn:Er1.
  injection H as <- <- ->.
  split; [by apply (Hagain k)|].
  exists name, flags, (memory_lines tmp). split; [reflexivity|].
  intros k5. destruct (Hagain k5) as (_&_&_&_&_&H5). destruct (H5 s1 eq_refl) as [_ Hp2].
  destruct (emit_wrapper_eq vm o2 k5 tmp _ _ _ [] Hret Hname Hargs Hm) as (k6&Ht&Ee2).
  exists o2, k6. split; [exact (eq_trans (st_bind_run _ _ _ _ _ Hp2) Ee2)|]. split; [exact Ht|].
  intros method_name. cbn [wo_attrs]. rewrite <- Ha. by eapply method_def_of_flags.
Qed.
End function_declared.

(** ** The call *)

(** The statement that calls the function. *)
Definition call_statement (a : function_attrs) (rv : return_handler) (namespace : string)
    (call_params : list string) : string :=
  retval_assign rv +:+ namespace +:+ fn_function_name a
  +:+ template_params (fn_template_parameters a) +:+ "(" +:+ join ", " call_params +:+ ");".

(** A call that may throw.  [generate_call] writes to the block before the
    call, and changes nothing else: without exceptions the call alone; otherwise
    the call in a [try] block and, for each exception of [throw] in order, a
    [catch] clause that first runs the pending cleanup code, latest action first,
    then converts the exception and returns.  The text is well bracketed, so that
    the indentation is restored. *)
Theorem function_call_guarded (store : list cpp_exception) (a : function_attrs)
    (fw : forward_wrapper) (rv : return_handler) (w : wrapper) (s : world) (b : code_block)
    (cs : list string) (namespace : string) (excs : list (cpp_exception * string)) :
  h_blocks (wd_heap s) !! w_before_call w = Some b ->
  (get_cleanup_code (w_before_call w) (wd_heap s)).2 = Ok cs ->
  fw_return_value fw = Some rv -> call_namespace a = Ok namespace ->
  conversions store (fn_throw a) excs ->
  let ops := guarded_call_ops cs (call_statement a rv namespace (wd_call_params s))
               "return NULL;" excs in
  exists k', run_ops (cb_sink b) ops = Ok k' /\ same_indent k' (cb_sink b)
    /\ Function_generate_call store a fw w s =
         (set_heap s (put_block (wd_heap s) (w_before_call w) (with_sink b k')), Ok tt).
Proof.
  intros Hi Hcs Hrv Hns Hc ops.
  destruct (bracketed_run ops (bracketed_guarded _ _ _ _) (cb_sink b)) as (k'&Hr&Hs&_).
  exists k'. split; [exact Hr|]. split; [exact Hs|].
  assert (s = set_heap s (at_sink (wd_heap s) (w_before_call w) b (cb_sink b))) as Es.
  { unfold at_sink. rewrite with_sink_same, put_block_same by done. by destruct s. }
  unfold Function_generate_call. rewrite Hrv, Hns. unfold st_bind at 1. cbn [st_lift].
  rewrite Es at 1.
  refine (does_guarded store s (wd_heap s) w b Hi cs Hcs _ _ _ _ excs _ Hc _ _ Hr).
  intros k k1 Hk. unfold st_bind, st_get. by apply (does_write s (wd_heap s) w b Hi).
Qed.

(** ** Custom wrappers *)

Section custom_facts.
Local Abbreviation cvm := custom_function_methods.

Lemma custom_recursion (fuel : nat) : forall (o : function) k,
  wired (bound cvm o) (wo_world o) ->
  is_ok (forward_reset_code_generation_state (bound cvm o) (wo_world o)).2 = true ->
  (CustomFunctionWrapper_generate fuel None ["PyObject **return_exception"] (o, k)).2
    = Raise OutOfFuel.
Proof.
  induction fuel as [|fuel IH]; intros o k Hw Hr; [done|].
  destruct (reset_keeps _ _ Hw) as [W N]. pose proof (reset_canonical _ _ _ Hw W N) as Hc.
  destruct (forward_reset_code_generation_state (bound cvm o) (wo_world o)) as [s0 [[]|]] eqn:E;
    [|discriminate Hr]. cbn [fst] in *.
  pose proof (IH (with_world o s0) NullCodeSink) as IH0.
  cbn [CustomFunctionWrapper_generate]. rewrite bool_decide_eq_true_2 by done.
  unfold declare_by_dry_run, st_bind, st_assert, st_ret, self_world, into_null.
  cbn [fst snd]. rewrite E. cbn [fst snd].
  destruct (CustomFunctionWrapper_generate fuel None _ _) as [[o' k'] r]. cbn [snd] in IH0.
  rewrite IH0; [done| |].
  - exact (wired_evolves _ (bound cvm (with_world o s0)) _ s0 Hw eq_refl W).
  - change (is_ok (forward_reset_code_generation_state (bound cvm o) s0).2 = true).
    by rewrite Hc.
Qed.

(** Custom wrappers.  Without a body, [generate] of a custom wrapper never
    returns, whatever depth of calls is allowed: it asks for its declaration,
    which generates it.  With a body, [generate] writes the body and nothing
    else, but declaring the wrapper first loses the flags it was given. *)
Theorem custom_function_wrapper (o o1 : function) (k k1 : code_sink) (body : string) :
  wired (bound cvm o) (wo_world o) ->
  is_ok (forward_reset_code_generation_state (bound cvm o) (wo_world o)).2 = true ->
  (forall fuel, (CustomFunctionWrapper_generate fuel None ["PyObject **return_exception"] (o, k)).2
                  = Raise OutOfFuel)
  /\ (forall fuel, CustomFunctionWrapper_generate (S fuel) (Some body)
         ["PyObject **return_exception"] (o, k) = ((o, writeln k body), Ok tt))
  /\ (forall fuel, CustomFunctionWrapper_generate_declaration (Some body) fuel
         ["PyObject **return_exception"] (o, k) = ((o1, k1), Ok tt) ->
       wd_meth_flags (wo_world o1) = []).
Proof.
  intros Hw Hr. split_and!; [by intros; apply custom_recursion | done|].
  intros fuel H. unfold CustomFunctionWrapper_generate_declaration, declare_by_dry_run in H.
  apply st_bind_Ok in H as (st0&[]&E0&H). unfold self_world in E0. cbn [fst snd] in E0.
  destruct (reset_keeps _ _ Hw) as [W _].
  destruct (forward_reset_code_generation_state (bound cvm o) (wo_world o)) as [s0 r0].
  injection E0 as <- ->. cbn [fst] in W.
  apply st_bind_Ok in H as (st1&[]&E1&H). destruct fuel as [|fuel]; [discriminate|].
  injection E1 as <-. apply st_bind_Ok in H as ([o2 k2]&[]&E2&H).
  assert (o2 = with_world o s0) as ->.
  { unfold write_prototype, sink_writeln, on_snd, st_bind, st_get, st_modify, st_lift in E2.
    cbn [fst snd] in E2. by repeat case_match; simplify_eq. }
  unfold self_world in H. cbn [fst snd wo_world with_world] in H.
  destruct (forward_reset_code_generation_state _ s0) as [s1 r1] eqn:E. injection H as <- <- ->.
  cbn [with_world wo_world]. rewrite <- (f_equal fst E : _ = s1). apply reset_flags.
  exact (wired_evolves _ (bound cvm (with_world o s0)) _ s0 Hw eq_refl W).
Qed.
End custom_facts.

(** ** Construction and cloning *)

Section clone_facts.
Context (g : settings) {K : Type} (no_kwargs : K)
  (new_param : list (@spec_item pyval K) -> K -> ST world param_handler)
  (new_return : list (@spec_item pyval K) -> K -> ST world return_handler)
  (on_error : error_handler world).

Lemma eval_params_handlers hs s :
  eval_params no_kwargs new_param on_error (map (Handler _) hs) s = (s, Ok hs).
Proof.
  induction hs as [|h hs IH]; [done|]. cbn [map eval_params].
  unfold st_bind at 1. cbn [eval_param st_ret]. unfold st_bind. by rewrite IH.
Qed.

(** A function made of handlers, in a new world. *)
Lemma function_init_handlers name rv ps doc ub tps cn dep ns throw n s o :
  Function_init g no_kwargs new_param new_return on_error (NameArg (StrText name))
    (Some (Handler _ rv)) (map (Handler _) ps) doc ub tps cn dep ns throw
    (World empty_heap [] [] [] [] n) = (s, Ok o) ->
  wo_base o = MkForward (Some rv) ps (MkWrapper ForwardWrapper 0 0 1 2) None false
      (default (Settings.unblock_threads g) ub) dep None None None false
      (fun _ => st_ret tt) (fun _ => st_ret tt) (fun _ => st_ret tt)
  /\ wo_world o = s
  /\ exists throw' rels, check_throw throw = Ok throw'
     /\ scan_custodians_and_wards ps (Some rv) = Ok rels
     /\ wo_attrs o = FunctionAttrs name None None doc None tps cn (get_mangled_name name tps) ns
                       throw' rels
     /\ wired (wo_base o) s /\ wd_py_names s = n.
Proof.
  unfold Function_init. cbn [swap_arguments eval_return eval_retval].
  unfold st_bind at 1. cbn [st_ret]. unfold st_bind at 1. rewrite eval_params_handlers.
  intros (s1&fw&E1&H)%st_bind_Ok. unfold init_forward in E1.
  pose proof E1 as (Efw&Hi)%forward_init_eq; [|done].
  pose proof (init_wired _ _ _ _ _ _ _ _ _ _ _ (World empty_heap [] [] [] [] n) s1 fw eq_refl E1)
    as Hw.
  pose proof (names_init_state fw (World (new_forward_heap "return NULL;" "return NULL;")
    [] [] [] [] n)) as Hn. cbn [wd_py_names] in Hi. rewrite Hi in Hn. destruct Hn as [Hn _]. cbn in Hn.
  cbn [ascii_name ascii_of_value] in H. unfold st_bind at 1 in H. cbn [st_lift] in H.
  apply st_bind_Ok in H as (s2&throw'&E2&H). apply st_bind_Ok in H as (s3&rels&E3&H).
  unfold st_lift in E2, E3. injection E2 as <- E2. injection E3 as <- E3.
  cbn in H. injection H as <- <-. subst fw. cbn. split_and!; [done..|].
  exists throw', rels. by split_and!.
Qed.

(** What a clone keeps.  A clone has the name, the handlers, the docstring,
    the module, the names of the wrapper, the exceptions and the custodians of
    the original; but its template parameters, custom name, deprecation and
    foreign namespace are the defaults of a new function, its mangled name is
    made without the template parameters, and whether it releases the
    interpreter lock is left to the settings. *)
Theorem function_clone_spec (o o' : function) :
  Function_clone g no_kwargs new_param new_return on_error o = Ok o' ->
  let a := wo_attrs o in let a' := wo_attrs o' in
  fw_return_value (wo_base o') = fw_return_value (wo_base o)
  /\ fw_parameters (wo_base o') = fw_parameters (wo_base o)
  /\ fw_wrapper_actual_name (wo_base o') = fw_wrapper_actual_name (wo_base o)
  /\ fw_unblock_threads (wo_base o') = Settings.unblock_threads g
  /\ fw_deprecated (wo_base o') = VBool false
  /\ wired (wo_base o') (wo_world o')
  /\ a' = FunctionAttrs (fn_function_name a) (fn_module a) (fn_wrapper_base_name a)
            (fn_docstring a) None [] None (mangle_name (fn_function_name a)) None (fn_throw a)
            (fn_custodians_and_wards a).
Proof.
  unfold Function_clone. destruct (fw_return_value (wo_base o)) as [rv|] eqn:Erv; [|done].
  destruct (Function_init _ _ _ _ _ _ _ _ _ _ _ _ _ _ _ _) as [s [func|]] eqn:E; [|done].
  apply function_init_handlers in E as (Eb&Es&throw'&rels&Et&_&Ea&Hw&_). cbn.
  intros [= <-]. rewrite Ea. cbn. rewrite Eb in Hw |- *. cbn. split_and!; [done..| |done].
  rewrite Es. by eapply wired_evolves.
Qed.
End clone_facts.

(** ** A function of the built-in handlers, that throws *)

(** Handlers of contracted classes are plain. *)
Lemma contracted_plain cps c r :
  Forall contracted cps -> ReturnContract c ->
  PlainHandlers (handlers cps) (Some (return_handler_of c r)).
Proof.
  intros Hps Hr. split.
  - by apply contracted_py2c_frame.
  - apply Forall_map. eapply Forall_impl; [exact Hps|]. intros [cl p] [Hc _] w. apply py2c_names.
  - intros r0 w [= <-]. apply ret_c2py_wiring.
  - intros r0 w [= <-]. apply ret_c2py_names.
Qed.

Definition demo_module : module_view := ModuleView "mod" "ns" ["mod"] 0.
Definition demo_error : cpp_exception :=
  CppException "Error" None None None None (Some "%(EXC)s.what()") (Some "ns::Error")
    (Some "Error") (Some "ns__Error") (Some "PyNs__Error_Type") None.
Definition demo_attrs : function_attrs :=
  FunctionAttrs "foo" (Some demo_module) (Some "_wrap_mod_foo") (Some "docs") None ["T"] None
    "foo__lt__T__gt__" None [0%nat] [].
Definition demo_function : function := Obj demo_fw demo_attrs (fst demo_init).
Definition demo_declared : function * code_sink :=
  (Function_generate_declaration [demo_error] [] (demo_function, MemoryCodeSink)).1.

Lemma demo_wired : wired (bound (function_methods [demo_error]) demo_function) (fst demo_init).
Proof.
  split; [reflexivity|]. exists "return NULL;", "return NULL;".
  vm_compute. split_and!; reflexivity.
Qed.

Lemma demo_plain :
  PlainHandlers (fw_parameters (wo_base demo_function)) (fw_return_value (wo_base demo_function)).
Proof.
  change (PlainHandlers (handlers demo_params) demo_return). unfold demo_return.
  destruct (rc_new IntReturn (CString "int") None None) as [r|] eqn:E;
    [|vm_compute in E; discriminate E].
  apply contracted_plain; [apply demo_contracted | apply _].
Qed.

Lemma demo_declared_ok :
  Function_generate_declaration [demo_error] [] (demo_function, MemoryCodeSink)
    = (demo_declared, Ok tt).
Proof.
  assert (is_ok (Function_generate_declaration [demo_error] [] (demo_function, MemoryCodeSink)).2
            = true) as H by (vm_compute; reflexivity).
  unfold demo_declared. by destruct (Function_generate_declaration _ _ _) as [st [[]|]].
Qed.

Example demo_prototype :
  sink_text demo_declared.2
    = "PyObject * _wrap_mod_foo(PyObject * PYBINDGEN_UNUSED(dummy), PyObject *args, PyObject *kwargs);"
      +:+ nls.
Proof. vm_compute. reflexivity. Qed.

Lemma declared_function_generates_witness :
  settled [demo_error] demo_declared.1 /\ exists name flags body,
    let args := function_args demo_attrs flags [] in
    demo_declared.2 = writeln MemoryCodeSink
      ("PyObject * " +:+ name +:+ "(" +:+ join ", " args +:+ ");")
    /\ forall k2, exists o2 k3,
         Function_generate [demo_error] None [] (demo_declared.1, k2) = ((o2, k3), Ok tt)
         /\ wrapper_text "PyObject *" name args body [] k2 = Ok k3
         /\ forall method_name, Function_get_py_method_def (function_methods [demo_error]) method_name (o2, k3)
              = ((o2, k3), Ok (method_def_entry method_name (Some name) (set_list flags) (Some "docs"))).
Proof.
  apply (declared_function_generates [demo_error] demo_function demo_declared.1 MemoryCodeSink
           demo_declared.2 [] demo_wired demo_plain).
  rewrite demo_declared_ok. by destruct demo_declared.
Defined.

Lemma function_call_guarded_witness :
  let b := MkBlock MemoryCodeSink None {[1 := "free(x);"]} 1 "return NULL;" 0 in
  let s := World (Heap [b] [MkScope MemoryCodeSink 0] [∅]) [] [] ["a"] [] ∅ in
  let excs := [(demo_error, "PyErr_SetString((PyObject *) PyNs__Error_Type, exc.what());")] in
  exists k', run_ops MemoryCodeSink
      (guarded_call_ops ["free(x);"] "retval = ns::foo< T >(a);" "return NULL;" excs) = Ok k'
    /\ same_indent k' MemoryCodeSink
    /\ Function_generate_call [demo_error] demo_attrs demo_fw (MkWrapper ForwardWrapper 0 0 0 0) s
       = (set_heap s (put_block (wd_heap s) 0 (with_sink b k')), Ok tt).
Proof.
  intros b s excs. destruct demo_return as [rv|] eqn:Erv; [|vm_compute in Erv; discriminate Erv].
  assert (retval_assign rv = "retval = ") as Er
    by (vm_compute in Erv; injection Erv as <-; reflexivity).
  pose proof (function_call_guarded [demo_error] demo_attrs demo_fw rv
    (MkWrapper ForwardWrapper 0 0 0 0) s b ["free(x);"] "ns::" excs) as H.
  unfold call_statement in H. rewrite Er in H. apply H.
  - reflexivity.
  - vm_compute. reflexivity.
  - exact Erv.
  - reflexivity.
  - constructor; [split; reflexivity | constructor].
Defined.

Definition void_handler : return_handler :=
  MkReturnHandler "void" "void" false (Ok "return;") (fun w => st_ret tt) (fun w => st_ret tt)
    None false false.
Definition demo_custom : world * res function :=
  CustomFunctionWrapper_init default_settings tt (fun _ _ => st_raise TypeError)
    (fun _ _ => st_ret void_handler) None (NameArg (StrText "foo")) "my_foo"
    ["METH_VARARGS"; "METH_KEYWORDS"] empty_world.

Definition demo_custom_object : function :=
  match demo_custom.2 with Ok o => o | Raise _ => demo_function end.
Definition demo_custom_declared : function * code_sink :=
  (CustomFunctionWrapper_generate_declaration (Some "body") 1 ["PyObject **return_exception"]
     (demo_custom_object, MemoryCodeSink)).1.

Lemma custom_function_wrapper_witness :
  wd_meth_flags (wo_world demo_custom_object) = ["METH_VARARGS"; "METH_KEYWORDS"]
  /\ (forall fuel, (CustomFunctionWrapper_generate fuel None ["PyObject **return_exception"]
                      (demo_custom_object, MemoryCodeSink)).2 = Raise OutOfFuel)
  /\ wd_meth_flags (wo_world demo_custom_declared.1) = [].
Proof.
  assert (wired (bound custom_function_methods demo_custom_object) (wo_world demo_custom_object))
    as Hw.
  { split; [vm_compute; reflexivity|]. exists "return NULL;", "return NULL;".
    vm_compute. split_and!; reflexivity. }
  destruct (custom_function_wrapper demo_custom_object demo_custom_declared.1 MemoryCodeSink
    demo_custom_declared.2 "body" Hw ltac:(vm_compute; reflexivity)) as (H1&_&H3).
  split; [vm_compute; reflexivity|]. split; [exact H1|]. apply (H3 1%nat).
  vm_compute. reflexivity.
Defined.

Definition demo_clone : res function :=
  Function_clone default_settings tt (fun _ _ => st_raise TypeError)
    (fun _ _ => st_ret void_handler) None demo_function.

Lemma function_clone_spec_witness :
  match demo_clone with
  | Raise _ => False
  | Ok o' => fn_template_parameters (wo_attrs o') = [] /\ fn_mangled_name (wo_attrs o') = "foo"
      /\ fw_parameters (wo_base o') = fw_parameters (wo_base demo_function)
  end.
Proof.
  assert (is_ok demo_clone = true) as Hok by (vm_compute; reflexivity).
  destruct demo_clone as [o'|] eqn:E.
  - destruct (function_clone_spec default_settings tt (fun _ _ => st_raise TypeError)
      (fun _ _ => st_ret void_handler) None demo_function o' E) as (_&H&_&_&_&_&Ha).
    rewrite Ha. split_and!; [reflexivity | vm_compute; reflexivity | exact H].
  - discriminate Hok.
Defined.
