(* ===== verification/FunctionOverload.v ===== *)
(** * Overloaded functions: [OverloadedFunction] of [pybindgen/function.py]

    The interface [WrapperOps] of [Overloading], supplied by function objects;
    and what the normalisation and the aggregator then guarantee. *)
From S2P Require Import Prelude.
From S2P Require Import Format.
From S2P Require Import CodeSink.
From S2P Require Import CodeBlock.
From S2P Require Import Wrapper.
From S2P Require Import TypeHandler.
From S2P Require Import WrapperBase.
From S2P Require Import Utils.
From S2P Require Import Custodians.
From S2P Require Import CppException.
From S2P Require Import Overloading.
From S2P Require Import WrapperObject.
From S2P Require Import Function.

(** A function that was added to a module: the section it belongs to, and for a
    [CustomFunctionWrapper] its [wrapper_body]. *)
Record function_object : Type := FunctionObject {
  fo_custom : option (option string);
  fo_section : option string;
  fo_function : function
}.
Abbreviation functions := (list function_object).

(** [wrapper.force_parse = z] *)
Definition set_force (z : Z) (fw : forward_wrapper) : forward_wrapper :=
  MkForward (fw_return_value fw) (fw_parameters fw) (fw_refs fw) (Some z)
    (fw_no_c_retval fw) (fw_unblock_threads fw) (fw_deprecated fw) (fw_wrapper_actual_name fw)
    (fw_wrapper_return fw) (fw_wrapper_args fw) (fw_HAVE_RETURN_VALUE fw)
    (fw_generate_call fw) (fw_before_call_hook fw) (fw_before_return_hook fw).

(** ** The operations *)

Section function_ops.
Context (store : list cpp_exception) (handle_error : option (nat -> pyexn -> bool)) {so : SetOrder}.

Definition methods_of (f : function_object) : methods function_attrs :=
  match fo_custom f with None => function_methods store | Some _ => custom_function_methods end.

Definition with_function (f : function_object) (o : function) : function_object :=
  FunctionObject (fo_custom f) (fo_section f) o.

(** A method of the function number [i]. *)
Definition on_function {B} (i : nat) (m : function_object -> ST (obj_gen function_attrs) B)
    : ST (functions * code_sink) B :=
  fun st => match st.1 !! i with
            | None => (st, Raise IndexError)
            | Some f =>
                let '((o, k), r) := m f (fo_function f, st.2) in
                ((<[i := with_function f o]> st.1, k), r)
            end.
Definition without_sink {B} (m : ST (functions * code_sink) B) : ST functions B :=
  fun fs => let '((fs', _), r) := m (fs, NullCodeSink) in (fs', r).

(** The attributes of the base class. *)
Definition base_attr {B} (a : forward_wrapper -> option B) (fs : functions) (i : nat) : option B :=
  fs !! i ≫= fun f => a (wo_base (fo_function f)).

(** A custom wrapper without a body recurses for ever at any depth. *)
Definition custom_depth : nat := 1.

Definition generate_function (f : function_object) (name : option string) (extra : list string)
    : ST (obj_gen function_attrs) unit :=
  match fo_custom f with
  | None => Function_generate store name extra
  | Some body => CustomFunctionWrapper_generate custom_depth body extra
  end.

(** [generate] of a function returns nothing. *)
Definition function_ops : WrapperOps functions := {|
  get_flags i := without_sink (on_function i (fun f =>
    self_world (methods_of f) get_py_method_def_flags));
  Overloading.set_force_parse i z := without_sink (on_function i (fun _ => modify_base (set_force z)));
  set_error i e := without_sink (on_function i (fun f =>
    self_world (methods_of f) (fun fw => set_parse_error_return fw e)));
  generate_wrapper i name extra :=
    on_function i (fun f => generate_function f name extra) ;;; st_ret None;
  reset_wrapper i := without_sink (on_function i (fun f =>
    self_world (methods_of f) forward_reset_code_generation_state));
  wrapper_base_name fs i := fs !! i ≫= fun f => fn_wrapper_base_name (wo_attrs (fo_function f));
  wrapper_name_of := base_attr fw_wrapper_actual_name;
  wrapper_return_of := base_attr fw_wrapper_return;
  wrapper_args_of := base_attr fw_wrapper_args;
  section_of fs i := fs !! i ≫= fo_section;
  method_def_of i name := without_sink (on_function i (fun f =>
    Function_get_py_method_def (methods_of f) name));
  needs_overloading_interface fs i :=
    match fs !! i with Some f => bool_decide (is_Some (fo_custom f)) | None => false end;
  on_error := (fun h i e => st_ret (h i e)) <$> handle_error
|}.
End function_ops.

(** ** Functions whose flags can be computed without changing them *)

#[export] Instance custom_frame o
  `{!PlainHandlers (fw_parameters (wo_base o)) (fw_return_value (wo_base o))} :
  ForwardFrame (bound custom_function_methods o).
Proof.
  split; cbn; [apply ph_params_wiring | intros rv w H; by eapply ph_return_wiring |..];
    intros w; [by intros s | apply wiring_implement | apply wiring_implement].
Qed.
#[export] Instance custom_names o
  `{!PlainHandlers (fw_parameters (wo_base o)) (fw_return_value (wo_base o))} :
  KeepsNames (bound custom_function_methods o).
Proof.
  split; cbn; [apply ph_params_names | intros rv w H; by eapply ph_return_names |..];
    intros w; [by intros s | apply names_implement | apply names_implement].
Qed.

Section quiet.
Context (store : list cpp_exception) (handle_error : option (nat -> pyexn -> bool)) {so : SetOrder}.
Local Abbreviation vm := (methods_of store).
#[local] Instance fo_ops : WrapperOps functions := function_ops store handle_error.

(** The base of a function, as the generator sees it. *)
Definition fo_bound (f : function_object) : forward_wrapper := bound (vm f) (fo_function f).
Definition fo_world (f : function_object) : world := wo_world (fo_function f).

(** A function that was built or reset, or that has flags, as a custom wrapper
    does. *)
Record quiet (f : function_object) : Prop := {
  q_plain : PlainHandlers (fw_parameters (wo_base (fo_function f)))
              (fw_return_value (wo_base (fo_function f)));
  q_wired : wired (fo_bound f) (fo_world f);
  q_settled : wd_meth_flags (fo_world f) <> []
              \/ forward_reset_code_generation_state (fo_bound f) (fo_world f) = (fo_world f, Ok tt)
}.

(** A function of C code whose flags are not known yet and whose arguments are
    parsed with keywords. *)
Record forced (f : function_object) : Prop := {
  f_custom : fo_custom f = None;
  f_force : fw_force_parse (wo_base (fo_function f)) = Some PARSE_TUPLE_AND_KEYWORDS;
  f_flags : wd_meth_flags (fo_world f) = []
}.

#[local] Instance fo_frame f : quiet f -> ForwardFrame (fo_bound f).
Proof. intros [H _ _]. unfold fo_bound, methods_of. destruct (fo_custom f); apply _. Qed.
#[local] Instance fo_names f : quiet f -> KeepsNames (fo_bound f).
Proof. intros [H _ _]. unfold fo_bound, methods_of. destruct (fo_custom f); apply _. Qed.

Lemma with_function_id f : with_function f (fo_function f) = f.
Proof. by destruct f. Qed.

Lemma quiet_flags f : quiet f ->
  (get_py_method_def_flags (fo_bound f) (fo_world f)).1 = fo_world f.
Proof.
  intros Hq. pose proof (fo_frame f Hq) as Hff. pose proof (fo_names f Hq) as Hfn.
  destruct Hq as [_ Hw [Hf|Hr]]; [|by apply get_flags_settled].
  unfold get_py_method_def_flags, st_bind, st_get. cbn.
  rewrite bool_decide_eq_true_2; [done|]. intros H. apply Hf.
  destruct (wd_meth_flags (fo_world f)) as [|x l]; [done|]. set_solver.
Qed.

(** What computing the flags of a function does. *)
Lemma get_flags_eq i fs f : fs !! i = Some f -> quiet f ->
  Overloading.get_flags i fs = (fs, (get_py_method_def_flags (fo_bound f) (fo_world f)).2).
Proof.
  intros Hi Hq. unfold Overloading.get_flags, fo_ops, function_ops, without_sink, on_function.
  cbn [fst snd]. rewrite Hi. unfold self_world. cbn [fst snd]. pose proof (quiet_flags f Hq) as H. unfold fo_bound, fo_world in *.
  destruct (get_py_method_def_flags _ _) as [s r]. cbn in H. subst s.
  rewrite with_world_id, with_function_id. cbn. by rewrite list_insert_id.
Qed.

(** All functions are quiet, and those of [F] are forced. *)
Definition quiet_set (F : nat -> Prop) (fs : functions) : Prop :=
  Forall quiet fs /\ forall i, F i -> exists f, fs !! i = Some f /\ forced f.

Definition forced_function (f : function_object) : function_object :=
  let o := fo_function f in
  with_function f (Obj (set_force PARSE_TUPLE_AND_KEYWORDS (wo_base o)) (wo_attrs o) (wo_world o)).

Lemma quiet_forced f : quiet f -> quiet (forced_function f).
Proof. intros [H1 H2 H3]. by split. Qed.

Lemma set_force_parse_eq i fs :
  Overloading.set_force_parse i 2 fs =
    match fs !! i with
    | None => (fs, Raise IndexError)
    | Some f => (<[i := forced_function f]> fs, Ok tt)
    end.
Proof. cbn. unfold without_sink, on_function. cbn. by destruct (fs !! i). Qed.

#[export] Instance function_laws F : FlagsLaws (quiet_set F).
Proof.
  split.
  - intros i fs [Hq _]. destruct (fs !! i) as [f|] eqn:Hi.
    + rewrite (get_flags_eq i fs f Hi); [done|]. by eapply Forall_lookup_1.
    + cbn. unfold without_sink, on_function. cbn. by rewrite Hi.
  - intros i fs [Hq Hf]. rewrite set_force_parse_eq.
    destruct (fs !! i) as [f|] eqn:Hi; [|done]. cbn [fst]. split.
    + apply Forall_insert; [done|]. apply quiet_forced. by eapply Forall_lookup_1.
    + intros j Hj. destruct (decide (i = j)) as [<-|Hne].
      * exists (forced_function f). split; [eapply list_lookup_insert_eq, lookup_lt_Some, Hi|].
        destruct (Hf i Hj) as (f'&Hi'&[F1 F2 F3]). rewrite Hi in Hi'. by injection Hi' as <-.
      * rewrite list_lookup_insert_ne by done. by apply Hf.
  - intros h i e fs Hh Hs. cbn in Hh. destruct handle_error as [d|]; [|done].
    injection Hh as <-. exact Hs.
Qed.
End quiet.

(** ** The delegates *)

Definition keyword_flags : gset string := {["METH_VARARGS"; "METH_KEYWORDS"]}.
Definition keyword_args (self : string) : list string :=
  [self; "PyObject *args"; "PyObject *kwargs"; "PyObject **return_exception"].

(** The interface of a function that was generated as a delegate. *)
Definition is_delegate (d : string) (f : function_object) : Prop :=
  fw_wrapper_actual_name (wo_base (fo_function f)) = Some d
  /\ exists self, fw_wrapper_args (wo_base (fo_function f)) = Some (keyword_args self).

Section delegates.
Context (store : list cpp_exception) (handle_error : option (nat -> pyexn -> bool))
  {so : SetOrder}.
#[local] Instance ops : WrapperOps functions := function_ops store handle_error.
Local Abbreviation vm := (function_methods store).

(** A body whose keywords are forced announces both flags. *)
Lemma forced_body (o : function) s g' k :
  PlainHandlers (fw_parameters (wo_base o)) (fw_return_value (wo_base o)) ->
  wired (bound vm o) s -> wd_meth_flags s = [] ->
  fw_force_parse (wo_base o) = Some PARSE_TUPLE_AND_KEYWORDS ->
  generate_body (bound vm o) (Gen s k) = (g', Ok tt) ->
  wd_meth_flags (g_world g') = ["METH_VARARGS"; "METH_KEYWORDS"].
Proof.
  intros Hp (Hr&pe&e&Hw) Hfl Hf H.
  pose proof (generate_body_eq (bound vm o) pe e s k _ Hr Hw) as Hg.
  destruct (generate_code (bound vm o) s) as [s1 [[]|x]] eqn:E; destruct Hg as [_ Hg].
  - destruct Hg as (h&Eg&_). rewrite H in Eg. injection Eg as ->. cbn.
    apply (forced_flags (bound vm o) s s1) in E; [by rewrite E, Hfl | exact Hf].
  - rewrite H in Hg. discriminate.
Qed.

Lemma keyword_flags_list :
  (list_to_set ["METH_VARARGS"; "METH_KEYWORDS"] : gset string) = keyword_flags.
Proof. by apply leibniz_equiv; unfold keyword_flags; set_solver. Qed.

(** What [get_py_method_def_flags] then says, with or without a dry run. *)
Lemma forced_flags_value (o : function) s s' flags :
  PlainHandlers (fw_parameters (wo_base o)) (fw_return_value (wo_base o)) ->
  wired (bound vm o) s ->
  wd_meth_flags s = [] \/ wd_meth_flags s = ["METH_VARARGS"; "METH_KEYWORDS"] ->
  fw_force_parse (wo_base o) = Some PARSE_TUPLE_AND_KEYWORDS ->
  get_py_method_def_flags (bound vm o) s = (s', Ok flags) -> flags = keyword_flags.
Proof.
  intros Hp Hw Hfl Hf. unfold get_py_method_def_flags, st_bind at 1, st_get at 1.
  destruct Hfl as [Hfl|Hfl].
  - rewrite Hfl, bool_decide_eq_false_2 by (by intros H; apply H).
    unfold st_finally, st_bind.
    destruct (generate_body (bound vm o) (Gen s NullCodeSink)) as [g [[]|x]] eqn:E.
    + apply forced_body in E; [|done..]. unfold st_get. rewrite E, keyword_flags_list.
      destruct (forward_reset_code_generation_state _ _) as [? [[]|]]; [|discriminate].
      by intros [= _ <-].
    + destruct (forward_reset_code_generation_state _ _) as [? [[]|]]; discriminate.
  - rewrite Hfl, keyword_flags_list, bool_decide_eq_true_2 by (unfold keyword_flags; set_solver).
    by intros [= _ <-].
Qed.

(** Setting the error return of the parsing rewires the blocks only there. *)
Lemma set_parse_error_wired fw e s s' :
  wired fw s -> set_parse_error_return fw e s = (s', Ok tt) ->
  wired fw s' /\ wd_meth_flags s' = wd_meth_flags s.
Proof.
  intros (Hr&pe&er&Hb&Hs&Hd) H. split; [|eapply flags_kept, H; unfold set_parse_error_return; names].
  split; [exact Hr|]. exists e, er.
  unfold set_parse_error_return in H. rewrite Hr in H. cbn [w_before_parse w_before_call] in H.
  destruct s as [[bs ds vs] bp pp cp fl pn]. cbn in Hb, Hs, Hd |- *.
  destruct bs as [|b0 [|b1 [|b2 [|b3 bs]]]]; try discriminate Hb.
  unfold block_wiring in Hb. cbn in Hb. injection Hb; intros. cbn in H. injection H as <-.
  split_and!; cbn; [unfold block_wiring; cbn; congruence | done | done].
Qed.

(** What a delegate gets from its generation. *)
Lemma generate_delegate (o o' : function) k k' name extra :
  PlainHandlers (fw_parameters (wo_base o)) (fw_return_value (wo_base o)) ->
  wired (bound vm o) (wo_world o) -> wd_meth_flags (wo_world o) = [] ->
  fw_force_parse (wo_base o) = Some PARSE_TUPLE_AND_KEYWORDS ->
  Function_generate store (Some name) extra (o, k) = ((o', k'), Ok tt) ->
  fw_wrapper_actual_name (wo_base o') = Some name
  /\ fw_wrapper_args (wo_base o')
       = Some ([self_param (wo_attrs o); "PyObject *args"; "PyObject *kwargs"] ++ extra).
Proof.
  destruct o as [B a s]. cbn [wo_base wo_attrs wo_world]. intros Hp Hw Hfl Hf H.
  unfold Function_generate in H. apply st_bind_Ok in H as ([o1 k1]&tmp&E1&H).
  apply emit_wrapper_inv in H as [-> _].
  apply prepare_iff in E1 as (s1&s2&s3&flags&[He Hb Hg]&->&_).
  pose proof (plain_throwing _ _ Hp (fn_throw a) B eq_refl eq_refl) as HpB.
  assert (fw_refs (throwing_base (fn_throw a) B) = fw_refs B
    /\ fw_force_parse (throwing_base (fn_throw a) B) = Some PARSE_TUPLE_AND_KEYWORDS) as [HrB HfB].
  { unfold throwing_base. by destruct (bool_decide (fn_throw a = [])). }
  set (o := Obj (throwing_base (fn_throw a) B) a s) in *.
  assert (wired (bound vm o) s) as HwB by exact (wired_evolves _ _ _ _ Hw HrB (reflexivity s)).
  assert (wired (bound vm o) s1 /\ wd_meth_flags s1 = []) as [Hw1 Hf1].
  { destruct (bool_decide (fn_throw a = [])); [by injection He as <-|].
    pose proof (reset_keeps _ _ HwB) as [W _]. pose proof (reset_flags _ _ HwB) as F.
    rewrite He in W, F. split; [exact (wired_evolves _ _ _ _ HwB eq_refl W) | exact F]. }
  pose proof (forced_body o s1 _ _ HpB Hw1 Hf1 HfB Hb) as Hf2. cbn [g_world] in Hf2.
  pose proof (body_to_memory_eq vm (Obj (wo_base o) a s1) NullCodeSink Hw1 _ _) as Hbody.
  unfold generate_body_to_memory in Hbody. cbn [fst snd wo_world] in Hbody.
  change (bound vm (Obj (wo_base o) a s1)) with (bound vm o) in Hbody. rewrite Hb in Hbody.
  destruct Hbody as (_&(s2'&E&W2&_)&_). injection E as <-.
  apply forced_flags_value in Hg as ->; [|done| |by right|done].
  - cbn [wo_base interface_set set_return_and_args set_actual_name fw_wrapper_actual_name
      fw_wrapper_args chosen_name function_args]. done.
  - exact (wired_evolves _ _ _ _ Hw1 eq_refl W2).
Qed.

(** A step on a function of the overload set. *)
Lemma on_world_function {B} i (m : function_object -> ST (obj_gen function_attrs) B) g g' b f :
  ov_world g.1 !! i = Some f ->
  on_overloaded (on_world (without_sink (on_function i m))) g = (g', Ok b) ->
  exists o' k', m f (fo_function f, NullCodeSink) = ((o', k'), Ok b)
    /\ ov_world g'.1 = <[i := with_function f o']> (ov_world g.1)
    /\ ov_wrappers g'.1 = ov_wrappers g.1.
Proof.
  intros Hi. unfold on_overloaded, on_world, without_sink, on_function. cbn [fst snd]. rewrite Hi.
  destruct (m f (fo_function f, NullCodeSink)) as [[o' k'] r]. intros [= <- ->].
  by exists o', k'.
Qed.

Lemma handled_function i name extra g g' r f :
  ov_world g.1 !! i = Some f -> generate_handled i name extra g = (g', r) ->
  exists o' k' r', generate_function store f name extra (fo_function f, g.2) = ((o', k'), r')
    /\ (forall p, r = Ok p -> p = None /\ r' = Ok tt)
    /\ ov_world g'.1 = <[i := with_function f o']> (ov_world g.1)
    /\ ov_wrappers g'.1 = ov_wrappers g.1.
Proof.
  intros Hi H.
  destruct (generate_function store f name extra (fo_function f, g.2)) as [[o' k'] r'] eqn:E.
  exists o', k', r'. split; [done|].
  assert (generate_wrapper i name extra (ov_world g.1, g.2)
    = ((<[i := with_function f o']> (ov_world g.1), k'),
       match r' with Ok _ => Ok None | Raise e => Raise e end)) as Eg.
  { cbn. unfold st_bind, on_function. cbn [fst snd]. rewrite Hi, E. by destruct r'. }
  unfold generate_handled, on_generator, call_with_error_handling, st_catch in H. revert H.
  destruct (on_error (W:=functions)) as [h|] eqn:Eh; rewrite Eg.
  - destruct r' as [[]|e]; [by intros [= <- <-]; split_and!; [intros ? [= <-]|..]|].
    destruct (default_exceptions e); [|by intros [= <- <-]].
    cbn in Eh. destruct handle_error as [d|]; [|discriminate]. injection Eh as <-.
    unfold st_bind. cbn. destruct (d i e); by intros [= <- <-].
  - destruct r' as [[]|e]; intros [= <- <-]; split_and!; try done. by intros ? [= <-].
Qed.

(** The functions still to be generated as delegates. *)
Record ready (f : function_object) : Prop := {
  rd_plain : PlainHandlers (fw_parameters (wo_base (fo_function f)))
               (fw_return_value (wo_base (fo_function f)));
  rd_wired : wired (bound vm (fo_function f)) (fo_world f);
  rd_forced : forced f
}.

(** One delegate: only its function changes, and when it is generated, it has the
    interface of a delegate. *)
Lemma delegate_step base n w g1 g2 g2' g3 g4 r f :
  ov_world g1.1 !! w = Some f -> ready f ->
  on_overloaded (on_world (Overloading.set_force_parse w 2)) g1 = (g2, Ok tt) ->
  on_overloaded (on_world (Overloading.set_error w (delegate_error_return "return NULL;"))) g2
    = (g2', Ok tt) -> g3.1 = g2'.1 ->
  generate_handled w (Some (delegate_name base n)) ["PyObject **return_exception"] g3 = (g4, r) ->
  exists f', ov_world g4.1 = <[w := f']> (ov_world g1.1)
    /\ ov_wrappers g4.1 = ov_wrappers g1.1
    /\ (is_ok r = true -> is_delegate (delegate_name base n) f').
Proof.
  intros Hi [Hp Hw [Hc Hf Hfl]] E1 E2 Eg3 E3.
  pose proof (lookup_lt_Some _ _ _ Hi) as Hlt.
  apply (on_world_function w _ g1 g2 tt f Hi) in E1 as (o1&k1&E1&W1&R1).
  injection E1 as <- _.
  assert (ov_world g2.1 !! w = Some (forced_function f)) as Hi2.
  { rewrite W1. by apply list_lookup_insert_eq. }
  apply (on_world_function w _ g2 g2' tt _ Hi2) in E2 as (o2&k2&E2&W2&R2).
  unfold self_world in E2. cbn [fst snd] in E2.
  destruct (set_parse_error_return _ _ _) as [s2 r2] eqn:Es. injection E2 as <- _ ->.
  apply set_parse_error_wired in Es as [Hw2 Hfl2];
    [|unfold methods_of; cbn; rewrite Hc; exact Hw].
  unfold methods_of in Hw2. cbn [forced_function with_function fo_custom] in Hw2.
  rewrite Hc in Hw2.
  match type of W2 with _ = <[_ := ?x]> _ => set (f2 := x) in * end.
  assert (ov_world g3.1 !! w = Some f2) as Hi3.
  { rewrite Eg3, W2. apply list_lookup_insert_eq. by rewrite W1, length_insert. }
  apply (handled_function w _ _ g3 g4 r f2 Hi3) in E3 as (o'&k'&r'&Eg&Hok&W3&R3).
  exists (with_function f2 o'). split_and!.
  - by rewrite W3, Eg3, W2, W1, !list_insert_insert_eq.
  - by rewrite R3, Eg3, R2.
  - intros Hr. destruct r as [p|]; [|done]. destruct (Hok p eq_refl) as [_ ->]. unfold generate_function in Eg.
    assert (fo_custom f2 = None) as Hc2 by exact Hc. rewrite Hc2 in Eg.
    apply generate_delegate in Eg as [H1 H2]; [|exact Hp | exact Hw2| |reflexivity].
    + split; [exact H1|]. eexists. exact H2.
    + cbn. rewrite Hfl2. exact Hfl.
Qed.

Lemma delegates_spec base ws : forall n g g' ds,
  NoDup ws -> (forall w, w ∈ ws -> exists f, ov_world g.1 !! w = Some f /\ ready f) ->
  generate_delegates "return NULL;" base n ws g = (g', Ok ds) ->
  sublist ds (map (delegate_name base) (seq n (length ws)))
  /\ (forall w, w ∉ ws -> ov_world g'.1 !! w = ov_world g.1 !! w)
  /\ ov_wrappers g'.1 = ov_wrappers g.1
  /\ Forall (fun d => exists w f, w ∈ ws /\ ov_world g'.1 !! w = Some f /\ is_delegate d f) ds.
Proof.
  induction ws as [|w ws IH]; intros n g g' ds Hnd Hr H; cbn [generate_delegates] in H.
  { injection H as <- <-. split_and!; [constructor | done | done | constructor]. }
  apply NoDup_cons in Hnd as [Hnw Hnd].
  apply st_bind_Ok in H as (g1&[]&E1&H). apply st_bind_Ok in H as (g2&[]&E2&H).
  apply st_bind_Ok in H as (g3&[]&E3&H). apply st_bind_Ok in H as (g4&r&E4&H).
  apply st_bind_Ok in H as (g5&names&E5&H). injection H as <- <-.
  destruct (Hr w) as (f&Hi&Hf); [by left|].
  assert (g3.1 = g2.1) as Hg3 by (unfold on_out in E3; by injection E3 as <-).
  destruct (generate_handled w (Some (delegate_name base n)) ["PyObject **return_exception"] g3)
    as [g3' r3] eqn:E.
  pose proof (delegate_step base n w g g1 g2 g3 g3' r3 f Hi Hf E1 E2 Hg3 E) as (f'&W&R&Hd).
  pose proof (lookup_lt_Some _ _ _ Hi) as Hlt.
  assert (g4 = g3' /\ (r = [] \/ r = [delegate_name base n]
    /\ is_delegate (delegate_name base n) f')) as [-> Hcase].
  { unfold st_catch, st_bind in E4. rewrite E in E4. destruct r3 as [x|e].
    - cbn in E4. injection E4 as <- <-. split; [done|]. right. specialize (Hd eq_refl).
      split; [|done]. destruct Hd as [Hn _]. unfold base_attr.
      rewrite W, list_lookup_insert_eq by done. cbn. by rewrite Hn.
    - destruct e; try discriminate E4. injection E4 as <- <-. split; [done | by left]. }
  apply IH in E5 as (S5&F5&R5&D5); [|exact Hnd|].
  2:{ intros w' Hw'. destruct (Hr w') as (f2&Hi2&Hf2); [by right|]. exists f2.
      rewrite W, list_lookup_insert_ne; [done|]. by intros ->. }
  split_and!.
  - cbn [length seq map]. destruct Hcase as [->|[-> _]]; cbn [app]; by constructor.
  - intros w' [Hne Hw']%not_elem_of_cons. rewrite F5 by done.
    rewrite W. by apply list_lookup_insert_ne.
  - congruence.
  - apply Forall_app. split.
    + destruct Hcase as [->|[-> Hd']]; constructor; [|constructor].
      exists w, f'. split_and!; [by left| |done]. rewrite F5 by done. rewrite W.
      by apply list_lookup_insert_eq.
    + eapply Forall_impl; [exact D5|]. intros d (w'&f2&Hw'&Hi2&Hd2).
      exists w', f2. split_and!; [by right | done | done].
Qed.

Lemma delegate_name_inj base i j : delegate_name base i = delegate_name base j -> i = j.
Proof. unfold delegate_name. intros H%app_str_inv_l%app_str_inv_l. by apply (inj pretty) in H. Qed.

(** Forcing keywords on all functions of a list. *)
Definition unparsed (fs : functions) (i : nat) : Prop :=
  exists f, fs !! i = Some f /\ fo_custom f = None /\ wd_meth_flags (fo_world f) = [].

Lemma force_all ws : forall (F : nat -> Prop) (s s' : overloaded functions),
  quiet_set store F (ov_world s) -> (forall w, w ∈ ws -> unparsed (ov_world s) w) ->
  st_iter (fun w => on_world (Overloading.set_force_parse w 2)) ws s = (s', Ok tt) ->
  quiet_set store (fun i => F i \/ i ∈ ws) (ov_world s') /\ ov_wrappers s' = ov_wrappers s.
Proof.
  induction ws as [|w ws IH]; intros F s s' HI Hu H.
  { injection H as <-. split; [|done]. destruct HI as [Hq Hf]. split; [done|].
    intros i [Hi|Hi%elem_of_nil]; [by apply Hf | done]. }
  apply st_bind_Ok in H as (s1&[]&E&H). destruct (Hu w) as (f&Hi&Hc&Hfl); [by left|].
  pose proof (lookup_lt_Some _ _ _ Hi) as Hlt.
  pose proof (force_parse_keeps (FlagsLaws := function_laws store handle_error F) w _ HI) as HI1.
  unfold on_world in E. rewrite set_force_parse_eq in HI1.
  pose proof (set_force_parse_eq store handle_error w (ov_world s)) as Es.
  unfold fo_ops in Es. unfold ops in E. rewrite Hi in Es, HI1. rewrite Es in E.
  injection E as <-. cbn [fst] in HI1.
  apply (IH (fun i => F i \/ i = w)) in H as [H1 H2].
  - split; [|exact H2]. destruct H1 as [Hq H1]. split; [exact Hq|]. intros i Hi'. apply H1.
    destruct Hi' as [Hi'|[->|Hi']%elem_of_cons]; tauto.
  - cbn [ov_world]. destruct HI1 as [Hq Hf]. split; [exact Hq|]. intros i [Hi'| ->]; [by apply Hf|].
    exists (forced_function f). rewrite list_lookup_insert_eq by done. split; [done|]. by split.
  - intros w' Hw'. cbn [ov_world]. destruct (decide (w' = w)) as [->|Hne].
    + exists (forced_function f). by rewrite list_lookup_insert_eq by done.
    + destruct (Hu w') as (f'&Hi'&?); [by right|]. exists f'.
      by rewrite list_lookup_insert_ne by done.
Qed.

(** After the normalisation, the remaining functions are forced, unless there was
    only one. *)
Lemma normalized_forced (s s' : overloaded functions) :
  quiet_set store (fun _ => False) (ov_world s) ->
  (forall w, w ∈ ov_wrappers s -> unparsed (ov_world s) w) ->
  normalize_py_method_flags s = (s', Ok tt) ->
  s' = s /\ length (ov_wrappers s) = 1%nat
  \/ quiet_set store (fun i => i ∈ ov_wrappers s) (ov_world s')
     /\ sublist (ov_wrappers s') (ov_wrappers s).
Proof.
  intros HI Hu H. unfold normalize_py_method_flags, st_bind at 1, st_get in H.
  destruct (Nat.eqb_spec (length (ov_wrappers s)) 1) as [Hl|Hl]; [left; by injection H as <-|].
  right. apply st_bind_Ok in H as (s1&[]&E&H).
  apply (force_all _ _ _ _ HI Hu) in E as [HI1 Hw].
  pose proof (fewer_normalize_loop (S (length (ov_wrappers s))) None s1) as Hs.
  rewrite H in Hs. cbn [fst] in Hs. unfold fewer_wrappers in Hs. rewrite Hw in Hs.
  split; [|exact Hs].
  apply (normalize_loop_done _ (FlagsLaws0 := function_laws store handle_error
    (fun i => False \/ i ∈ ov_wrappers s))) in H as [[Hq Hf] _]; [|exact HI1].
  split; [exact Hq|]. intros i Hi. apply Hf. by right.
Qed.

(** The single case returns nothing; *)
Lemma single_returns_none w g g' p f :
  ov_world g.1 !! w = Some f -> generate_single w g = (g', Ok p) -> p = None.
Proof.
  intros Hi H. unfold generate_single in H. apply st_bind_Ok in H as (g3&p3&E3&H).
  pose proof (fun Hi => handled_function _ _ _ _ _ _ f Hi E3) as Hh.
  destruct (Hh Hi) as (o'&k2&r'&_&Hp&_). destruct (Hp p3 eq_refl) as [-> _].
  apply st_bind_Ok in H as (g4&s&_&H). apply st_bind_Ok in H as (g5&[]&_&H).
  apply st_bind_Ok in H as (g6&[]&_&H). by injection H.
Qed.

(** the main wrapper is built from delegates that were generated. *)
Definition main_wrapper_of (base : option string) (s' : overloaded functions) (ds : list string)
    : Prop :=
  ds <> [] /\ NoDup ds
  /\ sublist ds (map (delegate_name base) (seq 0 (length (ov_wrappers s'))))
  /\ Forall (fun d => exists w f, w ∈ ov_wrappers s' /\ ov_world s' !! w = Some f
               /\ is_delegate d f) ds.

Lemma aggregate_spec (g g' : overloaded functions * code_sink) w rest proto :
  ov_wrappers g.1 = w :: rest -> NoDup (w :: rest) ->
  quiet_set store (fun i => i ∈ w :: rest) (ov_world g.1) ->
  generate_aggregate "PyObject *" "return NULL;" w (w :: rest) g = (g', Ok proto) ->
  exists base k1 ds args,
    args = main_args (ov_pystruct g'.1) keyword_flags
    /\ proto = Some (main_prototype "PyObject *" base args)
    /\ run_ops k1 (aggregator_ops "PyObject *" "return NULL;"
         (main_prototype "PyObject *" base args) keyword_flags ds) = Ok g'.2
    /\ main_wrapper_of base g'.1 ds /\ ov_wrappers g'.1 = w :: rest.
Proof.
  intros Hws Hnd [Hq Hf] H.
  assert (forall i, i ∈ w :: rest -> exists f, ov_world g.1 !! i = Some f /\ quiet store f
    /\ forced f /\ ready f) as Hr.
  { intros i Hi. destruct (Hf i Hi) as (f&Hl&Hff). exists f. pose proof Hff as [Hc _ _].
    assert (quiet store f) as Hqf by by eapply Forall_lookup_1.
    split_and!; [done..|]. pose proof Hqf as [Hp Hw _]. split; [done| |done].
    unfold fo_bound, methods_of in Hw. by rewrite Hc in Hw. }
  unfold generate_aggregate in H. apply st_bind_Ok in H as (g1&flags&E1&H).
  destruct (Hr w) as (f&Hl&Hqf&[Hc Hfo Hfl]&[Hp Hw _]); [by left|].
  unfold on_overloaded, on_world in E1.
  pose proof (get_flags_eq store handle_error w _ f Hl Hqf) as Eg.
  unfold fo_ops in Eg. unfold ops in E1. rewrite Eg in E1.
  assert (g1 = g) as -> by (destruct g as [[] ?]; by injection E1 as <-).
  assert (flags = keyword_flags) as ->.
  { injection E1 as _ E1. eapply (forced_flags_value (fo_function f) (fo_world f));
      [exact Hp | exact Hw | by left | exact Hfo |].
    unfold fo_bound, methods_of in E1. rewrite Hc in E1. rewrite <- E1. apply surjective_pairing. }
  unfold st_bind at 1, st_get at 1 in H. set (base := wrapper_base_name _ w) in *.
  apply st_bind_Ok in H as (g2&[]&E2&H). cbn in E2. injection E2 as <-.
  apply st_bind_Ok in H as (g3&ds&E3&H).
  apply delegates_spec in E3 as (Hs&Hother&Hw3&Hds); [|done|].
  2:{ intros i Hi. destruct (Hr i Hi) as (f'&Hl'&_&_&?). by exists f'. }
  case_bool_decide as Hne; [discriminate|].
  apply st_bind_Ok in H as (g4&[]&E4&H). unfold on_out in E4. injection E4 as <-.
  unfold st_bind at 1, st_get at 1 in H. cbn [fst] in H.
  apply st_bind_Ok in H as (g5&[]&E5&H). cbn in E5. injection E5 as <-.
  apply st_bind_Ok in H as (g6&[]&E6&H). injection H as <- <-.
  unfold on_out in E6. cbn [fst snd] in E6. destruct (run_ops _ _) as [k'|] eqn:Er; [|discriminate].
  injection E6 as <-. cbn [fst snd ov_wrappers ov_world ov_pystruct] in *.
  exists base, (writeln g3.2 EmptyString), ds, (main_args (ov_pystruct g3.1) keyword_flags).
  rewrite Hw3, Hws. split_and!; [done | done | exact Er | | done].
  unfold main_wrapper_of. cbn. split_and!; [done | | exact Hs | exact Hds].
  eapply sublist_NoDup; [|exact Hs]. apply NoDup_fmap_2; [|apply NoDup_seq].
  intros i j. apply delegate_name_inj.
Qed.

(** Overloads are called as they are defined.  When an overload set of C
    functions, built or reset, none of which has flags yet, generates a main
    wrapper, then its last lines are the main wrapper, which takes the instance,
    the arguments and the keywords, and tries at least one delegate; the names of
    the delegates are distinct, each of them numbers one of the functions that
    are left, in order, and each is a function whose C prototype has the four
    arguments the main wrapper passes. *)
Theorem overloads_called_as_defined (s s' : overloaded functions) (k k' : code_sink)
    (proto : string) :
  quiet_set store (fun _ => False) (ov_world s) -> NoDup (ov_wrappers s) ->
  (forall w, w ∈ ov_wrappers s -> unparsed (ov_world s) w) ->
  Overloading.generate "PyObject *" "return NULL;" (s, k) = ((s', k'), Ok (Some proto)) ->
  sublist (ov_wrappers s') (ov_wrappers s)
  /\ exists base k1 ds,
       proto = main_prototype "PyObject *" base
                 [ov_pystruct s' +:+ " *self"; "PyObject *args"; "PyObject *kwargs"]
       /\ run_ops k1 (aggregator_ops "PyObject *" "return NULL;" proto keyword_flags ds) = Ok k'
       /\ main_wrapper_of base s' ds
       /\ (forall i self, length (delegate_args keyword_flags i) = length (keyword_args self)).
Proof.
  intros HI Hnd Hu H. unfold Overloading.generate in H.
  apply st_bind_Ok in H as (g1&[]&E1&H). unfold on_overloaded in E1. cbn [fst snd] in E1.
  destruct (normalize_py_method_flags s) as [s1 r1] eqn:En. injection E1 as <- ->.
  pose proof (normalized_forced s s1 HI Hu En) as Hn.
  apply st_bind_Ok in H as (g2&[]&E2&H). cbn in E2. injection E2 as <-.
  unfold st_bind at 1, st_get at 1 in H. cbn [fst ov_wrappers] in H.
  destruct (ov_wrappers s1) as [|w rest] eqn:Ews; [discriminate|].
  unfold st_bind at 1, st_get at 1 in H. cbn [fst ov_world] in H.
  assert (unparsed (ov_world s1) w) as (f&Hi&Hc&_).
  { destruct Hn as [[-> _]|[[_ Hf] Hs]]; [apply Hu; rewrite Ews; by left|].
    destruct (Hf w) as (f&Hi&[? ? ?]); [eapply elem_of_sublist; [|exact Hs]; by left|]. by exists f. }
  assert (needs_overloading_interface (ov_world s1) w = false) as Hno.
  { cbn. rewrite Hi, Hc. apply bool_decide_eq_false_2. by intros [? ?]. }
  rewrite Hno in H. cbn [negb] in H. rewrite andb_true_r in H.
  destruct (Nat.eqb_spec (length (w :: rest)) 1) as [Hl|Hl].
  { pose proof (fun Hi => single_returns_none _ _ _ _ f Hi H) as Hp. by specialize (Hp Hi). }
  destruct Hn as [[-> Hl1]|[[Hq Hf] Hs]]; [by rewrite Ews in Hl1|].
  pose proof (fun A B C => aggregate_spec _ _ _ _ _ A B C H) as Ha. cbn [fst ov_wrappers ov_world] in Ha.
  destruct Ha as (base&k1&ds&args&->&Hp&Hr&Hm&Hw'); [done | by eapply sublist_NoDup | |].
  { split; [exact Hq|]. intros i Hin. apply Hf. by eapply elem_of_sublist. }
  injection Hp as ->. cbn [fst snd] in *. rewrite Hw'. split; [exact Hs|].
  exists base, k1, ds. by split_and!.
Qed.
End delegates.

(** ** Two overloads of a function that throws *)

Definition demo_functions : functions :=
  [FunctionObject None None demo_function; FunctionObject None None demo_function].
#[local] Instance demo_ops : WrapperOps functions := ops [demo_error] None.
Definition demo_set : overloaded functions :=
  Overloaded demo_functions [0; 1]%nat None None None None "PyObject".
Definition demo_generated : overloaded functions * code_sink * res (option string) :=
  Overloading.generate "PyObject *" "return NULL;" (demo_set, MemoryCodeSink).
Definition demo_main : string :=
  "PyObject * _wrap_mod_foo(PyObject *self, PyObject *args, PyObject *kwargs)".

Lemma demo_quiet : quiet [demo_error] (FunctionObject None None demo_function).
Proof.
  split; [exact demo_plain | exact demo_wired | right; vm_compute; reflexivity].
Qed.

Lemma demo_generated_ok :
  match demo_generated.2 with Ok (Some p) => String.eqb p demo_main | _ => false end = true.
Proof. vm_compute. reflexivity. Qed.

Lemma overloads_called_as_defined_witness :
  sublist (ov_wrappers demo_generated.1.1) [0; 1]%nat
  /\ exists base k1 ds,
       demo_main = main_prototype "PyObject *" base
         [ov_pystruct demo_generated.1.1 +:+ " *self"; "PyObject *args"; "PyObject *kwargs"]
       /\ run_ops k1 (aggregator_ops "PyObject *" "return NULL;" demo_main keyword_flags ds)
            = Ok demo_generated.1.2
       /\ main_wrapper_of base demo_generated.1.1 ds
       /\ (forall i self, length (delegate_args keyword_flags i) = length (keyword_args self)).
Proof.
  apply (overloads_called_as_defined [demo_error] None demo_set demo_generated.1.1 MemoryCodeSink
           demo_generated.1.2 demo_main).
  - split; [do 2 (apply Forall_cons; split; [exact demo_quiet|]); constructor | done].
  - exact (NoDup_seq 0 2).
  - intros w [->|[->|[]%elem_of_nil]%elem_of_cons]%elem_of_cons;
      eexists; (split; [reflexivity|]); split; vm_compute; reflexivity.
  - change (demo_generated = (demo_generated.1.1, demo_generated.1.2, Ok (Some demo_main))).
    pose proof demo_generated_ok as H. destruct demo_generated as [[s k] [[p|]|]]; try discriminate H.
    apply String.eqb_eq in H as ->. reflexivity.
Defined.
