(* ===== verification/CppMethod.v ===== *)
(** * Methods and constructors: [pybindgen/cppmethod.py]

    The wrappers of C++ methods, constructors and virtual methods.  The classes
    they belong to are known by their number among [classes], since a class can
    change after its methods were added to it. *)
From S2P Require Import Prelude.
From S2P Require Import Format.
From S2P Require Import CodeSink.
From S2P Require Import CodeBlock.
From S2P Require Import Wrapper.
From S2P Require Import CTypeParser.
From S2P Require Import TypeHandler.
From S2P Require Import HandlerOps.
From S2P Require Import NumericTypes.
From S2P Require Import WrapperBase.
From S2P Require Import Utils.
From S2P Require Import Custodians.
From S2P Require Import Settings.
From S2P Require Import CppException.
From S2P Require Import WrapperObject.
From S2P Require Import Function.

(** ** What a method uses of classes *)

(** A helper class, and the class it was made for. *)
Record helper_view : Type := HelperView {
  hc_name : string;
  hc_class : nat
}.

Record class_view : Type := ClassView {
  cv_name : string;
  cv_full_name : string;
  cv_pystruct : option string;
  cv_pytypestruct : string;
  cv_helper_class : option helper_view;
  cv_get_construct_name : res string;
  cv_instance_creation : nat -> string -> string -> string -> ST heap unit;
  cv_post_instance_creation : option (nat -> string -> string -> string -> ST heap unit)
}.

(** [CppClass.get_pystruct] *)
Definition get_pystruct (c : class_view) : res string :=
  match cv_pystruct c with None => Raise ValueError | Some p => Ok p end.

(** [default_instance_creation_function] of [cppclass.py] *)
Definition default_instance_creation_function (incomplete_type : bool) (full_name : string)
    (code_block : nat) (lvalue parameters construct_type_name : string) : ST heap unit :=
  st_assert (truthy (Some lvalue)) ;;;
  st_assert (negb (startswith "None" lvalue)) ;;;
  if incomplete_type
  then st_raise (CodeGenerationError (full_name +:+ " cannot be constructed (incomplete type)"))
  else write_code code_block
         (lvalue +:+ " = new " +:+ construct_type_name +:+ "(" +:+ parameters +:+ ");").

(** [CppClass.write_create_instance] *)
Definition write_create_instance (c : class_view) (code_block : nat)
    (lvalue parameters : string) (construct_type_name : option string) : ST heap unit :=
  name <- match construct_type_name with
          | Some n => st_ret n
          | None => st_lift (cv_get_construct_name c)
          end ;;
  cv_instance_creation c code_block lvalue parameters name.

(** [CppClass.write_post_instance_creation_code] *)
Definition write_post_instance_creation_code (c : class_view) (code_block : nat)
    (lvalue parameters : string) (construct_type_name : option string) : ST heap unit :=
  match cv_post_instance_creation c with
  | None => st_ret tt
  | Some f =>
      name <- match construct_type_name with
              | Some n => st_ret n
              | None => st_lift (cv_get_construct_name c)
              end ;;
      f code_block lvalue parameters name
  end.

(** ** [CppMethod] *)

Record method_attrs : Type := MethodAttrs {
  cm_method_name : string;
  cm_is_static : bool;
  cm_is_virtual : bool;
  cm_is_pure_virtual : bool;
  cm_is_const : bool;
  cm_visibility : string;
  cm_template_parameters : list string;
  cm_mangled_name : string;
  cm_class : option nat;
  cm_helper_class : option helper_view;
  cm_docstring : option string;
  cm_wrapper_base_name : option string;
  cm_throw : list nat;
  cm_custodians_and_wards : list Custodians.relation
}.
Definition method : Type := wrapper_object method_attrs.

(** [matches_signature] *)
Definition matches_signature (self other : method) : bool :=
  bool_decide (cm_mangled_name (wo_attrs self) = cm_mangled_name (wo_attrs other))
  && bool_decide (length (fw_parameters (wo_base self)) = length (fw_parameters (wo_base other)))
  && forallb (fun '(p1, p2) => String.eqb (ph_ctype p1) (ph_ctype p2))
       (zip (fw_parameters (wo_base self)) (fw_parameters (wo_base other)))
  && Bool.eqb (cm_is_const (wo_attrs self)) (cm_is_const (wo_attrs other)).

(** [set_custom_name]: the setter of the property, which changes the mangled
    name. *)
Definition mangled_with (method_name : string) (template_parameters : list string)
    (custom_name : option string) : string :=
  match custom_name with
  | None => get_mangled_name method_name template_parameters
  | Some n => n
  end.
Definition set_custom_name (custom_name : option string) (a : method_attrs) : method_attrs :=
  MethodAttrs (cm_method_name a) (cm_is_static a) (cm_is_virtual a) (cm_is_pure_virtual a)
    (cm_is_const a) (cm_visibility a) (cm_template_parameters a)
    (mangled_with (cm_method_name a) (cm_template_parameters a) custom_name)
    (cm_class a) (cm_helper_class a) (cm_docstring a) (cm_wrapper_base_name a) (cm_throw a)
    (cm_custodians_and_wards a).

Definition set_method_refs (class_ : option nat) (helper : option helper_view)
    (base_name : option string) (a : method_attrs) : method_attrs :=
  MethodAttrs (cm_method_name a) (cm_is_static a) (cm_is_virtual a) (cm_is_pure_virtual a)
    (cm_is_const a) (cm_visibility a) (cm_template_parameters a) (cm_mangled_name a)
    class_ helper (cm_docstring a) base_name (cm_throw a) (cm_custodians_and_wards a).

(** [set_helper_class] *)
Definition set_helper_class (helper : helper_view) (a : method_attrs) : method_attrs :=
  set_method_refs (cm_class a) (Some helper)
    (Some (hc_name helper +:+ "::_wrap_" +:+ cm_method_name a)) a.

(** [allowed values are 'public', 'protected', 'private'] *)
Definition visibility_ok (visibility : string) : bool :=
  bool_decide (visibility ∈ ["public"; "protected"; "private"]).

(** [a or b] of optional strings *)
Definition or_string (a b : option string) : option string := if truthy a then a else b.

Section methods.
Context (g : settings) (store : list cpp_exception) (classes : list class_view).

(** [set_class] *)
Definition set_class (class_ : nat) (a : method_attrs) : res method_attrs :=
  match classes !! class_ with
  | None => Raise AttributeError
  | Some c =>
      pystruct <-? get_pystruct c ;;
      Ok (set_method_refs (Some class_) (cm_helper_class a)
            (Some ("_wrap_" +:+ pystruct +:+ "_" +:+ cm_mangled_name a)) a)
  end.

(** An attribute of the class, which may be [None]. *)
Definition the_class (class_ : option nat) : res class_view :=
  match class_ ≫= (fun i => classes !! i) with None => Raise AttributeError | Some c => Ok c end.

(** The variable that tells calls from Python subclasses, where virtual methods
    may be overridden. *)
Definition declare_helper (a : method_attrs) (c : class_view) (w : wrapper)
    : ST world (option string) :=
  match cv_helper_class c with
  | Some helper =>
      if cm_is_virtual a && negb (cm_is_pure_virtual a) && negb (get_deprecated_virtuals g) then
        v <- on_heap (block_declare_variable (w_before_call w) (hc_name helper +:+ " *")
               "helper_class" (Some ("dynamic_cast<" +:+ hc_name helper +:+ "*> (self->obj)")) None) ;;
        st_ret (Some v)
      else st_ret None
  | None => st_ret None
  end.

(** The expression of the call. *)
Definition method_call (a : method_attrs) (c : class_view) (helper : option string)
    (call_params : list string) : string :=
  let name := cm_method_name a +:+ template_params (cm_template_parameters a) in
  let args := "(" +:+ join ", " call_params +:+ ")" in
  if cm_is_static a then cv_full_name c +:+ "::" +:+ name +:+ args +:+ ";"
  else match helper with
       | None => "self->obj->" +:+ name +:+ args +:+ ";"
       | Some h =>
           "(" +:+ h +:+ " == NULL)? (self->obj->" +:+ name +:+ args +:+ ") : (self->obj->"
           +:+ cv_full_name c +:+ "::" +:+ name +:+ args +:+ ");"
       end.

Definition CppMethod_generate_call (a : method_attrs) (fw : forward_wrapper) (w : wrapper)
    : ST world unit :=
  match fw_return_value fw with
  | None => st_raise AttributeError
  | Some rv =>
      c <- st_lift (the_class (cm_class a)) ;;
      helper <- declare_helper a c w ;;
      write_try w (cm_throw a) ;;;
      (call_params <- st_get wd_call_params ;;
       before_call_code w (retval_assign rv +:+ method_call a c helper call_params)) ;;;
      write_catch store w "return NULL;" (cm_throw a)
  end.

(** [_before_call_hook] and [_before_return_hook] *)
Definition with_custodians {A} (relations : A -> list Custodians.relation)
    (generate_call : A -> forward_wrapper -> wrapper -> ST world unit) : methods A := {|
  m_generate_call := generate_call;
  m_before_call_hook := fun a fw w =>
    implement_parameter_custodians_precall (relations a) (fw_parameters fw)
      (fw_return_value fw) w;
  m_before_return_hook := fun a fw w =>
    implement_parameter_custodians_postcall (relations a) (fw_parameters fw)
      (fw_return_value fw) w
|}.
Definition method_methods : methods method_attrs :=
  with_custodians cm_custodians_and_wards CppMethod_generate_call.

Definition get_method_pystruct (a : method_attrs) : res string :=
  c <-? the_class (match cm_helper_class a with
                   | None => cm_class a
                   | Some h => Some (hc_class h)
                   end) ;;
  get_pystruct c.

(** The arguments of the C function, from the flags. *)
Definition method_args (a : method_attrs) (flags : gset string) (extra : list string)
    : res (list string) :=
  let self_name := if cm_is_static a then "PYBINDGEN_UNUSED(dummy)" else "self" in
  args <-?
    (if bool_decide ("METH_VARARGS" ∈ flags) then
       if bool_decide ("METH_KEYWORDS" ∈ flags) then
         p <-? get_method_pystruct a ;;
         Ok [p +:+ " *" +:+ self_name; "PyObject *args"; "PyObject *kwargs"]
       else if bool_decide (extra = []) then
         p <-? get_method_pystruct a ;; Ok [p +:+ " *" +:+ self_name; "PyObject *args"]
       else Raise AssertionError
     else if bool_decide (extra = []) then
       if cm_is_static a then Ok ["void"]
       else p <-? get_method_pystruct a ;; Ok [p +:+ " *" +:+ self_name]
     else Raise AssertionError) ;;
  Ok (args ++ extra).

(** [get_wrapper_signature], for the methods [vm] of the class or a subclass;
    a static method has the flag [METH_STATIC] besides. *)
Definition get_wrapper_signature (vm : methods method_attrs) (wrapper_name : option string)
    (extra_wrapper_params : list string) : ST (obj_gen method_attrs) unit :=
  flags <- self_world vm get_py_method_def_flags ;;
  a <- st_get (fun st => wo_attrs st.1) ;;
  modify_base (set_actual_name wrapper_name) ;;;
  modify_base (set_return "PyObject *") ;;;
  args <- st_lift (method_args a flags extra_wrapper_params) ;;
  modify_base (set_return_and_args "PyObject *" args).

Definition CppMethod_prepare (vm : methods method_attrs) (wrapper_name : option string)
    (extra_wrapper_params : list string) : ST (obj_gen method_attrs) code_sink :=
  reset_for_throw vm cm_throw ;;;
  tmp_sink <- generate_body_to_memory vm ;;
  a <- st_get (fun st => wo_attrs st.1) ;;
  get_wrapper_signature vm
    (match wrapper_name with Some n => Some n | None => cm_wrapper_base_name a end)
    extra_wrapper_params ;;;
  st_ret tmp_sink.
Definition CppMethod_generate_with (vm : methods method_attrs) (wrapper_name : option string)
    (extra_wrapper_params : list string) : ST (obj_gen method_attrs) unit :=
  tmp_sink <- CppMethod_prepare vm wrapper_name extra_wrapper_params ;;
  emit_wrapper vm tmp_sink [].
Definition CppMethod_generate : option string -> list string -> ST (obj_gen method_attrs) unit :=
  CppMethod_generate_with method_methods.

(** [get_py_method_def_flags] of a method: a list that ends with [METH_STATIC] for a
    static one. *)
Definition CppMethod_get_py_method_def_flags `{!SetOrder} (vm : methods method_attrs)
    : ST (obj_gen method_attrs) (list string) :=
  flags <- self_world vm get_py_method_def_flags ;;
  a <- st_get (fun st => wo_attrs st.1) ;;
  st_ret (set_list flags ++ if cm_is_static a then ["METH_STATIC"] else []).

Definition CppMethod_get_py_method_def `{!SetOrder} (method_name : string)
    : ST (obj_gen method_attrs) string :=
  flags <- CppMethod_get_py_method_def_flags method_methods ;;
  o <- st_get fst ;;
  st_ret (method_def_entry method_name (fw_wrapper_actual_name (wo_base o)) flags
            (cm_docstring (wo_attrs o))).

(** ** Construction *)

Section method_constructors.
Context {K : Type} (no_kwargs : K)
  (new_param : list (@spec_item pyval K) -> K -> ST world param_handler)
  (new_return : list (@spec_item pyval K) -> K -> ST world return_handler)
  (on_error : error_handler world).

(** A return value that stays in the place of the name is not a string; the code
    finds that out when it mangles the name. *)
Definition CppMethod_init (method_name : name_or_return string return_handler)
    (return_value : option (@spec pyval K return_handler))
    (parameters : list (@spec pyval K param_handler)) (is_static : bool)
    (template_parameters : list string) (is_virtual : option bool) (is_const : bool)
    (unblock_threads : option bool) (is_pure_virtual : bool)
    (custom_template_method_name : option string) (visibility : string)
    (custom_name : option string) (deprecated : pyval) (docstring : option string)
    (throw : list (option nat)) : ST world method :=
  let '(method_name, return_value) := swap_arguments id method_name return_value in
  let is_virtual := default is_pure_virtual is_virtual in
  void <- match return_value with
          | None => v <- new_return [Arg (VStr "void")] no_kwargs ;; st_ret (Some v)
          | Some _ => st_ret None
          end ;;
  let return_value := match void with Some v => Some (Handler _ v) | None => return_value end in
  let unblock_threads := default (Settings.unblock_threads g) unblock_threads in
  st_assert (visibility_ok visibility) ;;;
  let custom := or_string custom_name custom_template_method_name in
  match method_name with
  | ReturnArg _ => st_raise AttributeError
  | NameArg method_name =>
      rv <- eval_return no_kwargs new_return on_error return_value ;;
      ps <- eval_params no_kwargs new_param on_error parameters ;;
      fw <- init_forward (Some rv) ps "return NULL;" None unblock_threads ;;
      throw <- st_lift (check_throw throw) ;;
      rels <- st_lift (scan_custodians_and_wards ps (Some rv)) ;;
      s <- st_get (fun s => s) ;;
      st_ret (Obj (set_deprecated deprecated fw)
        (MethodAttrs method_name is_static is_virtual is_pure_virtual is_const visibility
           template_parameters (mangled_with method_name template_parameters custom) None None
           docstring None throw rels) s)
  end.

(** [clone]: the constructor, and some of the attributes. *)
Definition CppMethod_clone (o : method) : res method :=
  match fw_return_value (wo_base o) with
  | None => Raise AttributeError
  | Some rv =>
      let a := wo_attrs o in
      let '(_, r) := CppMethod_init (NameArg (cm_method_name a)) (Some (Handler _ rv))
        (map (Handler _) (fw_parameters (wo_base o))) (cm_is_static a) (cm_template_parameters a)
        (Some (cm_is_virtual a)) (cm_is_const a) None (cm_is_pure_virtual a) None
        (cm_visibility a) None (VBool false) None []
        (World empty_heap [] [] [] [] (wd_py_names (wo_world o))) in
      meth <-? r ;;
      let m := wo_attrs meth in
      Ok (Obj (set_actual_name (fw_wrapper_actual_name (wo_base o)) (wo_base meth))
            (MethodAttrs (cm_method_name m) (cm_is_static m) (cm_is_virtual m)
               (cm_is_pure_virtual m) (cm_is_const m) (cm_visibility m)
               (cm_template_parameters m) (cm_mangled_name m) (cm_class a) (cm_helper_class m)
               (cm_docstring a) (cm_wrapper_base_name a) (cm_throw m)
               (cm_custodians_and_wards m))
            (wo_world meth))
  end.
End method_constructors.

(** [add_custodian_and_ward] of a method *)
Definition CppMethod_add_custodian_and_ward (a : method_attrs) (custodian ward : Z)
    (postcall : option bool) : res method_attrs :=
  rels <-? add_custodian_and_ward (cm_custodians_and_wards a) custodian ward postcall ;;
  Ok (MethodAttrs (cm_method_name a) (cm_is_static a) (cm_is_virtual a) (cm_is_pure_virtual a)
    (cm_is_const a) (cm_visibility a) (cm_template_parameters a) (cm_mangled_name a)
    (cm_class a) (cm_helper_class a) (cm_docstring a) (cm_wrapper_base_name a) (cm_throw a) rels).

(** [__str__] *)
Definition show_method (o : method) : res string :=
  let a := wo_attrs o in
  cls_name <-? match cm_class a with
               | None => Ok "???"
               | Some i => c <-? the_class (Some i) ;; Ok (cv_full_name c)
               end ;;
  let retval := match fw_return_value (wo_base o) with
                | None => "retval?" | Some rv => rh_ctype rv end in
  Ok (cm_visibility a +:+ ": " +:+ (if cm_is_virtual a then "virtual " else EmptyString)
      +:+ retval +:+ " " +:+ cls_name +:+ "::" +:+ cm_method_name a +:+ " ("
      +:+ join ", " (map (fun p => ph_ctype p +:+ " " +:+ ph_name p) (fw_parameters (wo_base o)))
      +:+ ")" +:+ (if cm_is_const a then " const" else EmptyString)
      +:+ (if cm_is_pure_virtual a then " = 0" else EmptyString) +:+ ";").
End methods.

(** ** Dummy methods *)

(** The handlers of methods that cannot be generated. *)
Definition dummy_conversion (w : wrapper) : ST world unit := st_raise TypeError.

Section dummies.
Context {K : Type} (no_kwargs : K).

Definition DummyReturnValue_of (r : TypeHandler.retval) : return_handler :=
  MkReturnHandler (r_ctype r) (show (tt_ctype_no_const (r_traits r))) false (Ok EmptyString)
    dummy_conversion dummy_conversion None false false.
Definition DummyParameter_of (p : TypeHandler.param) : param_handler :=
  MkParamHandler (p_ctype p) (p_name p) dummy_conversion dummy_conversion None false.

(** [args[i]], as a string *)
Definition string_arg (args : list (@spec_item pyval K)) (i : nat) : res string :=
  match args !! i with
  | None => Raise IndexError
  | Some (Arg (VStr s)) => Ok s
  | Some _ => Raise TypeError
  end.

Definition DummyReturnValue (arg : @spec pyval K return_handler) : res return_handler :=
  ctype <-? match arg with
            | Handler _ rv => Ok (rh_ctype rv)
            | _ => p <-? parse_retval_spec no_kwargs arg ;; string_arg p.1 0
            end ;;
  r <-? new_ReturnValue (CString ctype) None None ;;
  Ok (DummyReturnValue_of r).

(** The code tests for a [ReturnValue] where it means a [Parameter], so that a
    parameter object is taken for a specification. *)
Definition DummyParameter (arg : @spec pyval K param_handler) : res param_handler :=
  p <-? parse_param_spec no_kwargs arg ;;
  ctype <-? string_arg p.1 0 ;;
  name <-? string_arg p.1 1 ;;
  r <-? new_Parameter ALL_DIRECTIONS (CString ctype) name TypeHandler.no_kwargs ;;
  Ok (DummyParameter_of r).

Fixpoint dummy_parameters (parameters : list (@spec pyval K param_handler))
    : res (list param_handler) :=
  match parameters with
  | [] => Ok []
  | p :: ps => h <-? DummyParameter p ;; hs <-? dummy_parameters ps ;; Ok (h :: hs)
  end.

(** [CppDummyMethod.__init__]; [init] is the constructor of [CppMethod] with the
    rest of the arguments. *)
Definition CppDummyMethod_init
    (init : @spec pyval K return_handler -> list (@spec pyval K param_handler) -> ST world method)
    (return_value : @spec pyval K return_handler)
    (parameters : list (@spec pyval K param_handler)) : ST world method :=
  rv <- st_lift (DummyReturnValue return_value) ;;
  ps <- st_lift (dummy_parameters parameters) ;;
  init (Handler _ rv) (map (Handler _) ps).
End dummies.

(** ** [CppConstructor] *)

Record constructor_attrs : Type := ConstructorAttrs {
  cc_visibility : string;
  cc_class : option nat;
  cc_wrapper_base_name : option string;
  cc_throw : list nat;
  cc_custodians_and_wards : list Custodians.relation
}.
Definition constructor : Type := wrapper_object constructor_attrs.

(** A class of wrapped exceptions a [try] statement of the generator catches. *)
Definition is_code_generation_error (e : pyexn) : bool :=
  match e with CodeGenerationError _ => true | _ => false end.

Section constructors.
Context (g : settings) (store : list cpp_exception) (classes : list class_view).

Definition set_constructor_class (class_ : nat) (a : constructor_attrs) : res constructor_attrs :=
  match classes !! class_ with
  | None => Raise AttributeError
  | Some c =>
      pystruct <-? get_pystruct c ;;
      Ok (ConstructorAttrs (cc_visibility a) (Some class_)
            (Some ("_wrap_" +:+ pystruct +:+ "__tp_init")) (cc_throw a)
            (cc_custodians_and_wards a))
  end.

(** The name a class can be constructed with, from this constructor. *)
Definition construct_name (a : constructor_attrs) (c : class_view) : res string :=
  if String.eqb (cc_visibility a) "public" then cv_get_construct_name c
  else Raise (CodeGenerationError "private/protected constructor").

Definition flags_none : string := "self->flags = PYBINDGEN_WRAPPER_FLAG_NONE;".

(** The branch of a constructor that is not called for a Python subclass. *)
Definition construct_plain (a : constructor_attrs) (c : class_view) (bc : nat) (args : string)
    : ST heap unit :=
  match construct_name a c with
  | Ok _ =>
      write_create_instance c bc "self->obj" args None ;;;
      write_code bc flags_none ;;;
      write_post_instance_creation_code c bc "self->obj" args None
  | Raise e =>
      if is_code_generation_error e then
        write_code bc ("PyErr_SetString(PyExc_TypeError, " +:+ dq +:+ "class '" +:+ cv_name c
                       +:+ "' cannot be constructed" +:+ dq +:+ ");") ;;;
        write_code bc "return -1;"
      else st_raise e
  end.

(** The code that creates the instance. *)
Definition construct_instance (a : constructor_attrs) (c : class_view) (bc : nat)
    (args : string) : ST heap unit :=
  match cv_helper_class c with
  | None =>
      write_create_instance c bc "self->obj" args None ;;;
      write_post_instance_creation_code c bc "self->obj" args None ;;;
      write_code bc flags_none
  | Some helper =>
      write_code bc ("if (self->ob_type != &" +:+ cv_pytypestruct c +:+ ")") ;;;
      write_code bc "{" ;;;
      block_indent bc ;;;
      write_create_instance c bc "self->obj" args (Some (hc_name helper)) ;;;
      write_code bc flags_none ;;;
      write_code bc ("((" +:+ hc_name helper +:+ "*) self->obj)->set_pyobj((PyObject *)self);") ;;;
      write_post_instance_creation_code c bc "self->obj" args (Some (hc_name helper)) ;;;
      block_unindent bc ;;;
      write_code bc "} else {" ;;;
      block_indent bc ;;;
      write_code bc ("// visibility: '" +:+ cc_visibility a +:+ "'") ;;;
      construct_plain a c bc args ;;;
      block_unindent bc ;;;
      write_code bc "}"
  end.

Definition CppConstructor_generate_call (a : constructor_attrs) (fw : forward_wrapper)
    (w : wrapper) : ST world unit :=
  write_try w (cc_throw a) ;;;
  (c <- st_lift (the_class classes (cc_class a)) ;;
   call_params <- st_get wd_call_params ;;
   on_heap (construct_instance a c (w_before_call w) (join ", " call_params))) ;;;
  write_catch store w "return -1;" (cc_throw a).

Definition constructor_methods : methods constructor_attrs :=
  with_custodians cc_custodians_and_wards CppConstructor_generate_call.

(** [CppFunctionAsConstructor.generate_call] *)
Definition CppFunctionAsConstructor_generate_call (c_function_name : string)
    (a : constructor_attrs) (fw : forward_wrapper) (w : wrapper) : ST world unit :=
  c <- st_lift (the_class classes (cc_class a)) ;;
  st_assert (bool_decide (cv_helper_class c = None)) ;;;
  call_params <- st_get wd_call_params ;;
  before_call_code w ("self->obj = " +:+ c_function_name +:+ "(" +:+ join ", " call_params
                      +:+ ");") ;;;
  before_call_code w flags_none.
Definition function_as_constructor_methods (c_function_name : string)
    : methods constructor_attrs :=
  with_custodians cc_custodians_and_wards
    (CppFunctionAsConstructor_generate_call c_function_name).

Section constructor_init.
Context {K : Type} (no_kwargs : K)
  (new_param : list (@spec_item pyval K) -> K -> ST world param_handler)
  (on_error : error_handler world).

Definition CppConstructor_init (parameters : list (@spec pyval K param_handler))
    (unblock_threads : option bool) (visibility : string) (deprecated : pyval)
    (throw : list (option nat)) : ST world constructor :=
  let unblock_threads := default (Settings.unblock_threads g) unblock_threads in
  ps <- eval_params no_kwargs new_param on_error parameters ;;
  fw <- init_forward None ps "return -1;" (Some PARSE_TUPLE_AND_KEYWORDS) unblock_threads ;;
  st_assert (visibility_ok visibility) ;;;
  throw <- st_lift (check_throw throw) ;;
  rels <- st_lift (scan_custodians_and_wards ps None) ;;
  s <- st_get (fun s => s) ;;
  st_ret (Obj (set_deprecated deprecated fw)
    (ConstructorAttrs visibility None None throw rels) s).

(** The [unblock_threads] of a function as a constructor is not passed on. *)
Definition CppFunctionAsConstructor_init (parameters : list (@spec pyval K param_handler))
    (unblock_threads : option bool) : ST world constructor :=
  ps <- eval_params no_kwargs new_param on_error parameters ;;
  CppConstructor_init (map (Handler _) ps) None "public" (VBool false) [].

Definition CppConstructor_clone (o : constructor) : res constructor :=
  let '(_, r) := CppConstructor_init (map (Handler _) (fw_parameters (wo_base o))) None "public"
    (VBool false) [] (World empty_heap [] [] [] [] (wd_py_names (wo_world o))) in
  meth <-? r ;;
  Ok (Obj (set_actual_name (fw_wrapper_actual_name (wo_base o)) (wo_base meth))
        (ConstructorAttrs (cc_visibility (wo_attrs meth)) (cc_class (wo_attrs o))
           (cc_wrapper_base_name (wo_attrs o)) (cc_throw (wo_attrs meth))
           (cc_custodians_and_wards (wo_attrs meth)))
        (wo_world meth)).
End constructor_init.

(** [add_custodian_and_ward] of a constructor *)
Definition CppConstructor_add_custodian_and_ward (a : constructor_attrs) (custodian ward : Z)
    (postcall : option bool) : res constructor_attrs :=
  rels <-? add_custodian_and_ward (cc_custodians_and_wards a) custodian ward postcall ;;
  Ok (ConstructorAttrs (cc_visibility a) (cc_class a) (cc_wrapper_base_name a) (cc_throw a) rels).

(** Private constructors, and protected ones without a helper class, are skipped. *)
Definition constructor_visible (a : constructor_attrs) : res unit :=
  if String.eqb (cc_visibility a) "private" then
    _ <-? the_class classes (cc_class a) ;; Raise SkipWrapper
  else if String.eqb (cc_visibility a) "protected" then
    c <-? the_class classes (cc_class a) ;;
    match cv_helper_class c with None => Raise SkipWrapper | Some _ => Ok tt end
  else Ok tt.

(** "constructors need parameter names" *)
Definition parameters_named (items : list parse_item) : res bool :=
  params <-? parse_get_parameters items ;;
  if bool_decide (params = empty_format) then Ok true
  else keywords <-? get_keywords items ;; Ok (bool_decide (is_Some keywords)).

Definition CppConstructor_generate_with (vm : methods constructor_attrs)
    (wrapper_name : option string) (extra_wrapper_params : list string)
    : ST (obj_gen constructor_attrs) unit :=
  a <- st_get (fun st => wo_attrs st.1) ;;
  st_lift (constructor_visible a) ;;;
  st_assert (bool_decide (is_Some (cc_class a))) ;;;
  tmp_sink <- generate_body_to_memory vm ;;
  named <- self_world vm (fun _ => parse_query parameters_named) ;;
  st_assert named ;;;
  modify_base (set_actual_name
    match wrapper_name with Some n => Some n | None => cc_wrapper_base_name a end) ;;;
  modify_base (set_return "static int") ;;;
  c <- st_lift (the_class classes (cc_class a)) ;;
  pystruct <- st_lift (get_pystruct c) ;;
  modify_base (set_return_and_args "static int"
    ([pystruct +:+ " *self"; "PyObject *args"; "PyObject *kwargs"] ++ extra_wrapper_params)) ;;;
  emit_wrapper vm tmp_sink ["return 0;"].
Definition CppConstructor_generate
    : option string -> list string -> ST (obj_gen constructor_attrs) unit :=
  CppConstructor_generate_with constructor_methods.
Definition CppFunctionAsConstructor_generate (c_function_name : string)
    : option string -> list string -> ST (obj_gen constructor_attrs) unit :=
  CppConstructor_generate_with (function_as_constructor_methods c_function_name).

(** [CustomCppConstructorWrapper.generate], which returns a declaration. *)
Definition CustomCppConstructorWrapper_generate (wrapper_body : string)
    (extra_wrapper_params : list string) : ST (obj_gen constructor_attrs) string :=
  st_assert (bool_decide (extra_wrapper_params = ["PyObject **return_exception"])) ;;;
  sink_writeln wrapper_body ;;;
  o <- st_get fst ;;
  c <- st_lift (the_class classes (cc_class (wo_attrs o))) ;;
  pystruct <- st_lift (get_pystruct c) ;;
  st_ret ("int " +:+ str_opt (fw_wrapper_actual_name (wo_base o)) +:+ " (" +:+ pystruct
          +:+ " *self, PyObject *args, PyObject *kwargs, PyObject **return_exception)").
End constructors.

(** ** [CppNoConstructor] *)

Definition no_constructor_methods : methods string := {|
  m_generate_call := fun _ _ _ => st_ret tt;
  m_before_call_hook := fun _ _ _ => st_ret tt;
  m_before_return_hook := fun _ _ _ => st_ret tt
|}.
Definition CppNoConstructor_init (reason : string) : ST world (wrapper_object string) :=
  fw <- init_forward None [] "return -1;" None false ;;
  s <- st_get (fun s => s) ;;
  st_ret (Obj fw reason s).

Definition CppNoConstructor_generate (c : class_view) : ST (obj_gen string) unit :=
  pystruct <- st_lift (get_pystruct c) ;;
  modify_base (set_actual_name (Some ("_wrap_" +:+ pystruct +:+ "__tp_init"))) ;;;
  modify_base (set_return_and_args "static int" ["void"]) ;;;
  self_out no_constructor_methods (fun fw => write_open_wrapper fw false) ;;;
  reason <- st_get (fun st => wo_attrs st.1) ;;
  sink_writeln ("PyErr_SetString(PyExc_TypeError, " +:+ dq +:+ "class '" +:+ cv_name c
                +:+ "' cannot be constructed (" +:+ reason +:+ ")" +:+ dq +:+ ");") ;;;
  sink_writeln "return -1;" ;;;
  self_out no_constructor_methods (fun _ => write_close_wrapper).

(** ** [CppVirtualMethodParentCaller]

    Its class is that of the method it calls; [method] is that method. *)
Section parent_caller.
Context (g : settings) (store : list cpp_exception) (classes : list class_view).

(** The attributes, with the class of the method in the place of its own. *)
Definition caller_attrs (method a : method_attrs) : method_attrs :=
  set_method_refs (cm_class method) (cm_helper_class a) (cm_wrapper_base_name a) a.

Definition parent_caller_call (a : method_attrs) (fw : forward_wrapper) (w : wrapper)
    : ST world unit :=
  match cm_helper_class a with
  | None => st_raise AttributeError
  | Some h =>
      helper <- on_heap (block_declare_variable (w_before_call w) (hc_name h +:+ "*") "helper"
                  (Some ("dynamic_cast< " +:+ hc_name h +:+ "* >(self->obj)")) None) ;;
      c <- st_lift (the_class classes (cm_class a)) ;;
      on_heap (write_error_check (w_before_call w) (helper +:+ " == NULL")
        (Some ("PyErr_SetString(PyExc_TypeError, " +:+ dq +:+ "Method " +:+ cm_method_name a
               +:+ " of class " +:+ cv_name c
               +:+ " is protected and can only be called by a subclass" +:+ dq +:+ ");"))) ;;;
      match fw_return_value fw with
      | None => st_raise AttributeError
      | Some rv =>
          call_params <- st_get wd_call_params ;;
          before_call_code w (retval_assign rv +:+ helper +:+ "->" +:+ cm_method_name a
            +:+ "__parent_caller(" +:+ join ", " call_params +:+ ");")
      end
  end.
Definition parent_caller_methods : methods method_attrs :=
  with_custodians cm_custodians_and_wards parent_caller_call.

(** The methods look up the class through the property, that is, in the
    attributes of [method]. *)
Definition with_caller_attrs (method : method_attrs) {B} (m : ST (obj_gen method_attrs) B)
    : ST (obj_gen method_attrs) B :=
  fun st =>
    let own := cm_class (wo_attrs st.1) in
    let '((o, k), r) := m (Obj (wo_base st.1) (caller_attrs method (wo_attrs st.1))
                             (wo_world st.1), st.2) in
    ((Obj (wo_base o) (set_method_refs own (cm_helper_class (wo_attrs o))
                         (cm_wrapper_base_name (wo_attrs o)) (wo_attrs o)) (wo_world o), k), r).

Definition ParentCaller_generate (method : method_attrs) (wrapper_name : option string)
    (extra_wrapper_params : list string) : ST (obj_gen method_attrs) unit :=
  with_caller_attrs method
    (CppMethod_generate_with classes parent_caller_methods wrapper_name extra_wrapper_params).

Definition ParentCaller_generate_declaration (method : method_attrs) (extra : list string)
    : ST (obj_gen method_attrs) unit :=
  declare_by_dry_run parent_caller_methods (ParentCaller_generate method None extra)
    (write_prototype EmptyString Ok).

(** [dummy_cls, name = self.wrapper_actual_name.split('::')] *)
Definition method_part (actual_name : string) : res string :=
  match split_colons actual_name with [_; n] => Ok n | _ => Raise ValueError end.
Definition ParentCaller_generate_class_declaration (method : method_attrs)
    (extra : list string) : ST (obj_gen method_attrs) unit :=
  declare_by_dry_run parent_caller_methods (ParentCaller_generate method None extra)
    (write_prototype "static " method_part).

(** [generate_parent_caller_method] *)
Definition generate_parent_caller_method (method : method_attrs)
    : ST (obj_gen method_attrs) unit :=
  o <- st_get fst ;;
  match fw_return_value (wo_base o) with
  | None => st_raise AttributeError
  | Some rv =>
      params <- st_lift (join_params (fw_parameters (wo_base o))) ;;
      let name := cm_method_name (wo_attrs o) in
      sink_writeln ("inline " +:+ rh_ctype rv +:+ " " +:+ name +:+ "__parent_caller("
                    +:+ join ", " params +:+ ")") ;;;
      c <- st_lift (the_class classes (cm_class method)) ;;
      sink_writeln ((if String.eqb (rh_ctype rv) "void" then "{ " else "{ return ")
        +:+ cv_full_name c +:+ "::" +:+ name +:+ "("
        +:+ join ", " (map ph_name (fw_parameters (wo_base o))) +:+ "); }")
  end.

Definition ParentCaller_get_py_method_def `{!SetOrder} (method : method_attrs)
    (method_name : option string) : ST (obj_gen method_attrs) string :=
  o <- st_get fst ;;
  st_assert (bool_decide (fw_wrapper_actual_name (wo_base o)
                          = cm_wrapper_base_name (wo_attrs o))) ;;;
  st_assert (bool_decide (is_Some (cm_helper_class (wo_attrs o)))) ;;;
  flags <- with_caller_attrs method (CppMethod_get_py_method_def_flags parent_caller_methods) ;;
  o <- st_get fst ;;
  st_ret (method_def_entry (default (cm_method_name (wo_attrs o)) method_name)
            (fw_wrapper_actual_name (wo_base o)) flags (cm_docstring (wo_attrs o))).

Section parent_caller_init.
Context {K : Type} (no_kwargs : K)
  (new_param : list (@spec_item pyval K) -> K -> ST world param_handler)
  (new_return : list (@spec_item pyval K) -> K -> ST world return_handler)
  (on_error : error_handler world).

(** [CppVirtualMethodParentCaller(method)]: the handlers of the method *)
Definition ParentCaller_init (o : wrapper_object method_attrs) (unblock_threads : option bool)
    : ST world (wrapper_object method_attrs) :=
  CppMethod_init g no_kwargs new_param new_return on_error
    (NameArg (cm_method_name (wo_attrs o)))
    (Handler _ <$> fw_return_value (wo_base o)) (map (Handler _) (fw_parameters (wo_base o)))
    false [] None false unblock_threads false None "public" None (VBool false) None [].
End parent_caller_init.
End parent_caller.

(** ** [CppVirtualMethodProxy] *)

Record proxy : Type := Proxy {
  vp_base : reverse_wrapper;
  vp_method_name : string;
  vp_error_return : string;
  vp_helper_class : option helper_view
}.

Section proxy.
Context (g : settings) (store : list cpp_exception) (classes : list class_view).

(** The name of the Python method. *)
Definition python_method_name (method_name : string) : string :=
  if get_deprecated_virtuals g then "_" +:+ method_name else method_name.

Definition generate_python_call (method_name : string) (w : wrapper) : ST world unit :=
  build_params <- build_query (fun items => build_get_parameters items false) ;;
  let params := ["m_pyself"; "(char *) " +:+ dq +:+ python_method_name method_name +:+ dq]
                ++ cast_format build_params in
  before_call_code w ("py_retval = PyObject_CallMethod(" +:+ join ", " params +:+ ");") ;;;
  on_heap (write_error_check (w_before_call w) "py_retval == NULL" (Some "PyErr_Print();")) ;;;
  on_heap (add_cleanup_code (w_before_call w) "Py_DECREF(py_retval);") ;;;
  st_ret tt.

(** [CppVirtualMethodProxy(method)]: the handlers of the method *)
Definition CppVirtualMethodProxy_init (o : method) : ST world proxy :=
  match fw_return_value (wo_base o) with
  | None => st_raise AssertionError
  | Some rv =>
      let name := cm_method_name (wo_attrs o) in
      rw <- ReverseWrapperBase_init rv (fw_parameters (wo_base o)) None false
              (generate_python_call name) ;;
      e <- st_lift (rh_c_error_return rv) ;;
      st_ret (Proxy rw name e None)
  end.

(** The full names of the exceptions a method may throw, joined. *)
Fixpoint throw_names (throw : list nat) : res (list string) :=
  match throw with
  | [] => Ok []
  | e :: es =>
      match store !! e with
      | None => Raise AttributeError
      | Some exc =>
          match ex_full_name exc with
          | None => Raise TypeError
          | Some n => ns <-? throw_names es ;; Ok (n :: ns)
          end
      end
  end.

(** The [throw] clause of a declaration. *)
Definition throw_clause (throw : list nat) : res (list string) :=
  match throw with
  | [] => Ok []
  | _ => ns <-? throw_names throw ;; Ok ["throw (" +:+ join ", " ns +:+ ")"]
  end.

Definition Proxy_generate_declaration (o : proxy) (m : method_attrs) (k : code_sink)
    : res code_sink :=
  clause <-? throw_clause (cm_throw m) ;;
  params <-? join_params (rw_parameters (vp_base o)) ;;
  Ok (writeln k ("virtual " +:+ rh_ctype (rw_return_value (vp_base o)) +:+ " "
    +:+ vp_method_name o +:+ "(" +:+ join ", " params +:+ ")"
    +:+ (if cm_is_const m then " const" else EmptyString)
    +:+ join EmptyString (map (fun c => " " +:+ c) clause) +:+ ";")).

Definition fatal_error : string :=
  join nls [EmptyString; "PyErr_Print();";
    "Py_FatalError(" +:+ dq +:+ "Error detected, but parent virtual is pure virtual or private virtual, "
    +:+ dq;
    "              " +:+ dq +:+ "and return is a class without trival constructor" +:+ dq +:+ ");"].

(** Whether the parent class cannot be asked for a result. *)
Definition no_parent (m : method_attrs) : bool :=
  cm_is_pure_virtual m || String.eqb (cm_visibility m) "private".

(** The error return a method that returns a value gets: none when the parent has no
    implementation and the result is a class with a trivial constructor. *)
Definition proxy_error_return (m : method_attrs) (trivial_class_return : bool)
    (full_name method_name call_params : string) : option string :=
  if no_parent m then if trivial_class_return then None else Some fatal_error
  else Some ("return " +:+ full_name +:+ "::" +:+ method_name +:+ "(" +:+ call_params +:+ ");").

(** "if the python subclass doesn't define a virtual method, just chain to parent
    class and don't do anything else" *)
Definition chain_to_parent (o : proxy) (m : method_attrs) (trivial_class_return : bool)
    (full_name : string) : ST world string :=
  let rw := vp_base o in
  let bc := w_before_call (rw_refs rw) in
  let call_params := join ", " (map ph_name (rw_parameters rw)) in
  if String.eqb (rh_ctype (rw_return_value rw)) "void" then
    st_when (negb (no_parent m))
      (on_heap (write_code bc ("    " +:+ full_name +:+ "::" +:+ vp_method_name o +:+ "("
                               +:+ call_params +:+ ");"))) ;;;
    on_heap (write_cleanup bc) ;;;
    on_heap (write_code bc "    return;") ;;;
    st_ret (vp_error_return o)
  else
    let e := proxy_error_return m trivial_class_return full_name (vp_method_name o) call_params in
    match e with Some e => reverse_set_error_return rw e | None => st_ret tt end ;;;
    let error_return := default (vp_error_return o) e in
    on_heap (block_indent bc) ;;;
    on_heap (write_cleanup bc) ;;;
    on_heap (write_code bc error_return) ;;;
    on_heap (block_unindent bc) ;;;
    st_ret error_return.

(** The part of [generate] before that of the base class, and the error return it
    ends with. *)
Definition Proxy_prepare (o : proxy) (m : method_attrs) (c : class_view)
    (trivial_class_return : bool) : ST world string :=
  let w := rw_refs (vp_base o) in
  let bc := w_before_call w in
  py_method <- declare w "PyObject*" "py_method" None None ;;
  on_heap (write_code bc
    (py_method +:+ " = PyObject_GetAttrString(m_pyself, (char *) " +:+ dq
     +:+ python_method_name (vp_method_name o) +:+ dq +:+ "); PyErr_Clear();")) ;;;
  on_heap (add_cleanup_code bc ("Py_XDECREF(" +:+ py_method +:+ ");")) ;;;
  on_heap (write_code bc ("if (" +:+ py_method +:+ " == NULL || " +:+ py_method
                          +:+ "->ob_type == &PyCFunction_Type) {")) ;;;
  error_return <- chain_to_parent o m trivial_class_return (cv_full_name c) ;;
  on_heap (write_code bc "}") ;;;
  self_obj_before <- declare w (cv_full_name c +:+ "*") "self_obj_before" None None ;;
  pystruct <- st_lift (get_pystruct c) ;;
  let self_obj := "reinterpret_cast< " +:+ pystruct +:+ "* >(m_pyself)->obj" in
  on_heap (write_code bc (self_obj_before +:+ " = " +:+ self_obj +:+ ";")) ;;;
  on_heap (write_code bc (self_obj +:+ " = "
    +:+ (if cm_is_const m
         then "const_cast< " +:+ cv_full_name c +:+ "* >((const " +:+ cv_full_name c +:+ "*) this)"
         else "(" +:+ cv_full_name c +:+ "*) this") +:+ ";")) ;;;
  on_heap (add_cleanup_code bc (self_obj +:+ " = " +:+ self_obj_before +:+ ";")) ;;;
  st_ret error_return.

(** [generate]; the method's class and attributes are as they are then. *)
Definition Proxy_generate (o : proxy) (m : method_attrs) (trivial_class_return : bool)
    : ST gen proxy :=
  clause <- st_lift (throw_clause (cm_throw m)) ;;
  c <- st_lift (the_class classes (cm_class m)) ;;
  error_return <- in_world (Proxy_prepare o m c trivial_class_return) ;;
  match vp_helper_class o with
  | None => st_raise AttributeError
  | Some h =>
      reverse_generate (vp_base o) (hc_name h +:+ "::" +:+ vp_method_name o) []
        ((if cm_is_const m then ["const"] else []) ++ clause) ;;;
      st_ret (Proxy (vp_base o) (vp_method_name o) error_return (vp_helper_class o))
  end.
End proxy.

(** ** Custom methods *)

(** [CustomCppMethodWrapper]: a method without a call, whose body is given. *)
Section custom_method.
Context (g : settings) (classes : list class_view).

Definition custom_method_methods : methods method_attrs :=
  with_custodians cm_custodians_and_wards (fun _ _ _ => st_ret tt).

Definition CustomCppMethodWrapper_init {K} (no_kwargs : K)
    (new_param : list (@spec_item pyval K) -> K -> ST world param_handler)
    (new_return : list (@spec_item pyval K) -> K -> ST world return_handler)
    (on_error : error_handler world) (method_name wrapper_name : string) (flags : list string)
    : ST world method :=
  void <- new_return [Arg (VStr "void")] no_kwargs ;;
  o <- CppMethod_init g no_kwargs new_param new_return on_error (NameArg method_name)
         (Some (Handler _ void)) [] false [] None false None false None "public" None
         (VBool false) None [] ;;
  let s := wo_world o in
  let s := World (wd_heap s) (wd_build_params s) (wd_parse_params s) (wd_call_params s) flags
             (wd_py_names s) in
  (fun _ => (s, Ok tt)) ;;;
  st_ret (Obj (set_actual_name (Some wrapper_name) (wo_base o))
    (set_method_refs (cm_class (wo_attrs o)) (cm_helper_class (wo_attrs o)) (Some wrapper_name)
       (wo_attrs o)) s).

Definition CustomCppMethodWrapper_generate (wrapper_body : option string)
    (extra_wrapper_params : list string) : ST (obj_gen method_attrs) unit :=
  st_assert (bool_decide (extra_wrapper_params = ["PyObject **return_exception"])) ;;;
  a <- st_get (fun st => wo_attrs st.1) ;;
  c <- st_lift (the_class classes (cm_class a)) ;;
  pystruct <- st_lift (get_pystruct c) ;;
  modify_base (set_return_and_args "PyObject *"
    [pystruct +:+ " *self"; "PyObject *args"; "PyObject *kwargs";
     "PyObject **return_exception"]) ;;;
  match wrapper_body with
  | Some body => sink_writeln body
  | None => write_prototype EmptyString Ok
  end.

Definition CustomCppConstructorWrapper_init {K} (no_kwargs : K)
    (new_param : list (@spec_item pyval K) -> K -> ST world param_handler)
    (on_error : error_handler world) (wrapper_name : string) : ST world constructor :=
  o <- CppConstructor_init g no_kwargs new_param on_error [] None "public" (VBool false) [] ;;
  st_ret (Obj (set_actual_name (Some wrapper_name) (wo_base o))
    (ConstructorAttrs (cc_visibility (wo_attrs o)) (cc_class (wo_attrs o)) (Some wrapper_name)
       (cc_throw (wo_attrs o)) (cc_custodians_and_wards (wo_attrs o)))
    (wo_world o)).
End custom_method.

(** ** Signatures *)

(** What [matches_signature] compares. *)
Definition signature (o : method) : string * list string * bool :=
  (cm_mangled_name (wo_attrs o), map ph_ctype (fw_parameters (wo_base o)),
   cm_is_const (wo_attrs o)).

Lemma zip_ctypes (l1 l2 : list param_handler) :
  length l1 = length l2 ->
  forallb (fun '(p1, p2) => String.eqb (ph_ctype p1) (ph_ctype p2)) (zip l1 l2) = true
  <-> map ph_ctype l1 = map ph_ctype l2.
Proof.
  revert l2. induction l1 as [|p1 l1 IH]; intros [|p2 l2] Hl; try done. cbn in Hl |- *.
  rewrite andb_true_iff, IH, String.eqb_eq by lia. split; [by intros [-> ->] | by intros [= -> ->]].
Qed.

(** Matching signatures.  [matches_signature] is equality of signatures: the
    mangled names, the types of the parameters in order, and constness; so that
    it is reflexive, symmetric and transitive, and a difference in the return
    type, the parameter names or static-ness does not matter.  Giving a method a
    custom name makes it match exactly the methods with that name and the rest
    of its signature. *)
Theorem matches_signature_spec (o1 o2 : method) (custom : option string) :
  (matches_signature o1 o2 = true <-> signature o1 = signature o2)
  /\ matches_signature o1 o1 = true
  /\ matches_signature o1 o2 = matches_signature o2 o1
  /\ (forall o3, matches_signature o1 o2 = true ->
        matches_signature o2 o3 = matches_signature o1 o3)
  /\ signature (Obj (wo_base o1) (set_custom_name custom (wo_attrs o1)) (wo_world o1))
     = (default (get_mangled_name (cm_method_name (wo_attrs o1))
                   (cm_template_parameters (wo_attrs o1))) custom,
        (signature o1).1.2, (signature o1).2).
Proof.
  assert (forall a b, matches_signature a b = true <-> signature a = signature b) as H.
  { intros a b. unfold matches_signature, signature. rewrite !andb_true_iff, !bool_decide_eq_true,
      Bool.eqb_true_iff. split.
    - intros [[[-> Hl] Hz] ->]. by apply zip_ctypes in Hz as ->.
    - intros [= -> Hm ->]. pose proof (f_equal length Hm) as Hl. rewrite !length_map in Hl.
      split_and!; [done..| by apply zip_ctypes | done]. }
  split_and!.
  - apply H.
  - by apply H.
  - apply eq_true_iff_eq. rewrite !H. split; by intros ->.
  - intros o3 H12%H. apply eq_true_iff_eq. rewrite !H. by rewrite H12.
  - unfold signature. cbn. unfold mangled_with. by destruct custom.
Qed.

(** ** The call of a method *)

(** The call of a method.  When the helper variable, if one is needed, is
    declared, the code written before the call is one statement, guarded like
    that of a function when the method may throw: a static method is called on
    its class, another one on the object; only for a virtual method of a class
    with a helper is the call qualified with the class when it comes from a
    Python subclass.  The rest of the state is left as it is. *)
Theorem method_call_guarded (g : settings) (store : list cpp_exception)
    (classes : list class_view) (a : method_attrs) (fw : forward_wrapper) (rv : return_handler)
    (w : wrapper) (s s1 : world) (b : code_block) (cs : list string) (c : class_view)
    (helper : option string) (excs : list (cpp_exception * string)) :
  fw_return_value fw = Some rv -> the_class classes (cm_class a) = Ok c ->
  declare_helper g a c w s = (s1, Ok helper) ->
  h_blocks (wd_heap s1) !! w_before_call w = Some b ->
  (get_cleanup_code (w_before_call w) (wd_heap s1)).2 = Ok cs ->
  conversions store (cm_throw a) excs ->
  let ops := guarded_call_ops cs
    (retval_assign rv +:+ method_call a c helper (wd_call_params s1)) "return NULL;" excs in
  (helper = None <-> cv_helper_class c = None \/ cm_is_virtual a = false
                     \/ cm_is_pure_virtual a = true \/ get_deprecated_virtuals g = true)
  /\ exists k', run_ops (cb_sink b) ops = Ok k' /\ same_indent k' (cb_sink b)
    /\ CppMethod_generate_call g store classes a fw w s =
         (set_heap s1 (put_block (wd_heap s1) (w_before_call w) (with_sink b k')), Ok tt).
Proof.
  intros Hrv Hc Hd Hi Hcs Hx ops. split.
  { unfold declare_helper in Hd. destruct (cv_helper_class c) as [h|]; [|injection Hd as _ <-; tauto].
    destruct (cm_is_virtual a), (cm_is_pure_virtual a), (get_deprecated_virtuals g);
      cbn [andb negb] in Hd; try (injection Hd as _ <-; tauto).
    apply st_bind_Ok in Hd as (s2&v&_&Hd). injection Hd as _ <-.
    split; [discriminate|]. intros [?|[?|[?|?]]]; discriminate. }
  destruct (bracketed_run ops (bracketed_guarded _ _ _ _) (cb_sink b)) as (k'&Hr&Hs&_).
  exists k'. split; [exact Hr|]. split; [exact Hs|].
  assert (s1 = set_heap s1 (at_sink (wd_heap s1) (w_before_call w) b (cb_sink b))) as Es.
  { unfold at_sink. rewrite with_sink_same, put_block_same by done. by destruct s1. }
  unfold CppMethod_generate_call. rewrite Hrv, Hc. unfold st_bind at 1. cbn [st_lift].
  unfold st_bind at 1. rewrite Hd. rewrite Es at 1.
  refine (does_guarded store s1 (wd_heap s1) w b Hi cs Hcs _ _ _ _ excs _ Hx _ _ Hr).
  intros k k1 Hk. unfold st_bind, st_get. by apply (does_write s1 (wd_heap s1) w b Hi).
Qed.

(** ** Constructors *)

(** When a constructor is generated.  The wrapper of a private constructor, and
    of a protected one of a class without a helper, is skipped, with nothing
    written and nothing changed.  When [generate] returns, the parameters have
    names, and it wrote a static function that takes the instance, the
    arguments and the keywords, and whose last statement returns 0. *)
Theorem constructor_generation (store : list cpp_exception) (classes : list class_view)
    (o o' : constructor) (k k' : code_sink) (c : class_view) (wrapper_name : option string)
    (extra : list string) :
  the_class classes (cc_class (wo_attrs o)) = Ok c ->
  (cc_visibility (wo_attrs o) = "private"
   \/ cc_visibility (wo_attrs o) = "protected" /\ cv_helper_class c = None ->
   CppConstructor_generate store classes wrapper_name extra (o, k) = ((o, k), Raise SkipWrapper))
  /\ (CppConstructor_generate store classes wrapper_name extra (o, k) = ((o', k'), Ok tt) ->
      cc_visibility (wo_attrs o) <> "private"
      /\ (cc_visibility (wo_attrs o) = "protected" -> is_Some (cv_helper_class c))
      /\ parameters_named (wd_parse_params (wo_world o')) = Ok true
      /\ exists pystruct name body, get_pystruct c = Ok pystruct
         /\ Some name = match wrapper_name with Some n => Some n
                        | None => cc_wrapper_base_name (wo_attrs o) end
         /\ wrapper_text "static int" name
              ([pystruct +:+ " *self"; "PyObject *args"; "PyObject *kwargs"] ++ extra) body
              ["return 0;"] k = Ok k').
Proof.
  intros Hc. unfold CppConstructor_generate, CppConstructor_generate_with. cbn [st_get fst].
  split.
  - intros Hv. unfold st_bind at 1. cbn. unfold st_bind at 1. unfold st_lift at 1, constructor_visible.
    rewrite Hc. destruct Hv as [->|[-> Hh]]; cbn; [done | by rewrite Hh].
  - intros H. apply st_bind_Ok in H as (st0&a&E0&H). injection E0 as <- <-.
    apply st_bind_Ok in H as (st1&[]&E1&H). injection E1 as <- E1.
    apply st_bind_Ok in H as (st2&[]&E2&H).
    apply st_bind_Ok in H as (st3&tmp&E3&H). apply st_bind_Ok in H as (st4&named&E4&H).
    apply st_bind_Ok in H as (st5&[]&E5&H). apply st_bind_Ok in H as (st6&[]&E6&H).
    apply st_bind_Ok in H as (st7&[]&E7&H). apply st_bind_Ok in H as (st8&c8&E8&H).
    apply st_bind_Ok in H as (st9&py&E9&H). apply st_bind_Ok in H as (st10&[]&E10&H).
    injection E8 as <- E8. injection E9 as <- E9. rewrite Hc in E8. injection E8 as <-.
    injection E6 as <-. injection E7 as <-. injection E10 as <-.
    destruct named; [|discriminate]. injection E5 as <-.
    unfold self_world, parse_query in E4. injection E4 as <- E4.
    assert (st2 = (o, k)) as ->.
    { unfold st_assert in E2. destruct (bool_decide _); [by injection E2 | discriminate E2]. }
    destruct st3 as [o3 k3]. assert (k3 = k) as ->.
    { unfold generate_body_to_memory in E3. destruct (generate_body _ _) as [gg r]. by injection E3. }
    apply emit_wrapper_inv in H as (->&ret&name&args&Hr&Hn&Ha&_&Ht).
    cbn in Hr, Hn, Ha. injection Hr as <-. injection Ha as <-.
    unfold constructor_visible in E1. rewrite Hc in E1. split_and!.
    + intros Hv. rewrite Hv in E1. discriminate E1.
    + intros Hv. rewrite Hv in E1. cbn in E1. by destruct (cv_helper_class c).
    + exact E4.
    + by exists py, name, (memory_lines tmp).
Qed.

(** ** A class with a helper class *)

Definition demo_class : class_view :=
  ClassView "Foo" "ns::Foo" (Some "PyNsFoo") "PyNsFoo_Type"
    (Some (HelperView "PyNsFoo__PythonHelper" 0)) (Ok "ns::Foo")
    (default_instance_creation_function false "ns::Foo") None.
Definition demo_method_attrs : method_attrs :=
  MethodAttrs "bar" false true false true "public" [] "bar" (Some 0%nat) None None
    (Some "_wrap_PyNsFoo_bar") [] [].
Definition demo_method : method := Obj demo_fw demo_method_attrs (fst demo_init).

Lemma matches_signature_spec_witness :
  matches_signature demo_method demo_method = true
  /\ (signature (Obj demo_fw (set_custom_name (Some "baz") demo_method_attrs) (fst demo_init))).1.1
     = "baz".
Proof.
  destruct (matches_signature_spec demo_method demo_method (Some "baz")) as (_&H&_&_&Hc).
  split; [exact H|].
  change demo_fw with (wo_base demo_method). change demo_method_attrs with (wo_attrs demo_method).
  change (fst demo_init) with (wo_world demo_method). rewrite Hc. reflexivity.
Defined.

Definition demo_declared_helper : world :=
  (declare_helper default_settings demo_method_attrs demo_class (MkWrapper ForwardWrapper 0 0 1 2)
     (fst demo_init)).1.

Lemma method_call_guarded_witness :
  let w := MkWrapper ForwardWrapper 0 0 1 2 in
  let b := MkBlock MemoryCodeSink (Some 0%nat) ∅ 0 "return NULL;" 0 in
  let ops := guarded_call_ops []
    ("retval = (helper_class == NULL)? (self->obj->bar()) : (self->obj->ns::Foo::bar());")
    "return NULL;" [] in
  exists k', run_ops MemoryCodeSink ops = Ok k' /\ same_indent k' MemoryCodeSink
    /\ CppMethod_generate_call default_settings [] [demo_class] demo_method_attrs demo_fw w
         (fst demo_init)
       = (set_heap demo_declared_helper
            (put_block (wd_heap demo_declared_helper) 1 (with_sink b k')), Ok tt).
Proof.
  intros w b ops. destruct demo_return as [rv|] eqn:Erv; [|vm_compute in Erv; discriminate Erv].
  assert (retval_assign rv = "retval = ") as Er
    by (vm_compute in Erv; injection Erv as <-; reflexivity).
  destruct (method_call_guarded default_settings [] [demo_class] demo_method_attrs demo_fw rv w
    (fst demo_init) demo_declared_helper b [] demo_class (Some "helper_class") []) as [_ H].
  - exact Erv.
  - reflexivity.
  - vm_compute. reflexivity.
  - vm_compute. reflexivity.
  - vm_compute. reflexivity.
  - constructor.
  - rewrite Er in H. exact H.
Defined.

Definition demo_constructor (visibility : string) : constructor :=
  Obj (MkForward None [] (MkWrapper ForwardWrapper 0 0 1 2) (Some PARSE_TUPLE_AND_KEYWORDS) false
         false (VBool false) None None None false no_hook no_hook no_hook)
    (ConstructorAttrs visibility (Some 0%nat) (Some "_wrap_PyNsFoo__tp_init") [] [])
    (World (new_forward_heap "return -1;" "return -1;") [] [] [] [] ∅).

Lemma constructor_generation_witness :
  CppConstructor_generate [] [demo_class] None [] (demo_constructor "private", MemoryCodeSink)
    = ((demo_constructor "private", MemoryCodeSink), Raise SkipWrapper)
  /\ exists name body, wrapper_text "static int" name
       ["PyNsFoo *self"; "PyObject *args"; "PyObject *kwargs"] body ["return 0;"] MemoryCodeSink
     = Ok (CppConstructor_generate [] [demo_class] None []
             (demo_constructor "protected", MemoryCodeSink)).1.2.
Proof.
  split.
  - apply (constructor_generation [] [demo_class] (demo_constructor "private")
             (demo_constructor "private") MemoryCodeSink MemoryCodeSink demo_class None []).
    + reflexivity.
    + by left.
  - set (r := CppConstructor_generate [] [demo_class] None []
                (demo_constructor "protected", MemoryCodeSink)).
    assert (r.2 = Ok tt) as Hr by (vm_compute; reflexivity).
    destruct (constructor_generation [] [demo_class] (demo_constructor "protected") r.1.1
      MemoryCodeSink r.1.2 demo_class None [] eq_refl) as [_ H].
    assert (r = ((r.1.1, r.1.2), Ok tt)) as E
      by (rewrite <- Hr; destruct r as [[? ?] ?]; reflexivity).
    destruct (H E) as (_&_&_&p&n&body&Hp&_&Ht). injection Hp as <-. exists n, body. exact Ht.
Defined.

Definition demo_proxy_return : return_handler :=
  MkReturnHandler "int" "int" false (Ok "return INT_MIN;")
    (fun w => parse_add "i" ["&retval"] None true false) (fun w => st_ret tt) None false false.
Definition demo_proxy : proxy :=
  Proxy (MkReverse demo_proxy_return [] (MkWrapper ReverseWrapper 0 0 0 1) false
           (generate_python_call default_settings "bar"))
    "bar" "return INT_MIN;" (Some (HelperView "PyNsFoo__PythonHelper" 0)).
Definition demo_proxy_gen : gen :=
  Gen (ReverseWrapperBase_init demo_proxy_return [] None false
         (generate_python_call default_settings "bar") empty_world).1 MemoryCodeSink.

Lemma demo_proxy_frame : ReverseFrame (vp_base demo_proxy).
Proof.
  split.
  - constructor.
  - intros w. by apply wiring_modify.
  - intros w. cbn. unfold generate_python_call. wiring.
Qed.
