(* ===== verification/ProxyErrors.v ===== *)
(** * The error exits of virtual method proxies

    What [CppVirtualMethodProxy.generate] of [pybindgen/cppmethod.py] makes every
    error exit of the generated method do: the cleanup actions that are pending
    when the interpreter is called, and the value the method returns with. *)
From S2P Require Import Prelude.
From S2P Require Import Format.
From S2P Require Import CodeSink.
From S2P Require Import CodeBlock.
From S2P Require Import Wrapper.
From S2P Require Import CTypeParser.
From S2P Require Import TypeHandler.
From S2P Require Import HandlerOps.
From S2P Require Import NumericTypes.
From S2P Require Import WrapperBase.
From S2P Require Import Utils.
From S2P Require Import Custodians.
From S2P Require Import Settings.
From S2P Require Import CppException.
From S2P Require Import WrapperObject.
From S2P Require Import Function.
From S2P Require Import CppMethod.

(** ** The error returns of the blocks *)

Definition error_returns (s : world) : list string := map cb_error_return (h_blocks (wd_heap s)).

Lemma error_returns_wiring s s' : same_wiring s s' -> error_returns s = error_returns s'.
Proof.
  intros (Hb&_). unfold error_returns.
  by apply (map_factor block_wiring cb_error_return (fun '(_, e, _, _) => e)).
Qed.
Lemma error_returns_kept {A} (m : ST world A) s s' a :
  evolves same_wiring m -> m s = (s', Ok a) -> error_returns s' = error_returns s.
Proof.
  intros He H. specialize (He s). rewrite H in He. symmetry. by apply error_returns_wiring.
Qed.

Section proxy_errors.
Context (g : settings) (store : list cpp_exception) (classes : list class_view)
  (o : proxy) (Hrefs : rw_refs (vp_base o) = MkWrapper ReverseWrapper 0 0 0 1).

Lemma set_error_return_eq e x s s' :
  error_returns s = [x; x] -> reverse_set_error_return (vp_base o) e s = (s', Ok tt) ->
  error_returns s' = [e; e].
Proof.
  destruct s as [[bs scs ds] bp pp cp mf pn]. unfold error_returns. cbn [wd_heap h_blocks].
  intros Hb. destruct bs as [|b1 [|b2 [|]]]; try discriminate.
  unfold reverse_set_error_return. rewrite Hrefs. cbn. by intros [= <-].
Qed.

(** The error return the proxy ends with. *)
Definition final_error_return (m : method_attrs) (trivial : bool) (full_name : string) : string :=
  if String.eqb (rh_ctype (rw_return_value (vp_base o))) "void" then vp_error_return o
  else default (vp_error_return o)
         (proxy_error_return m trivial full_name (vp_method_name o)
            (join ", " (map ph_name (rw_parameters (vp_base o))))).

Lemma chain_errors m trivial full_name s s' e :
  error_returns s = [vp_error_return o; vp_error_return o] ->
  chain_to_parent o m trivial full_name s = (s', Ok e) ->
  e = final_error_return m trivial full_name /\ error_returns s' = [e; e].
Proof.
  intros He. unfold chain_to_parent, final_error_return. rewrite Hrefs. cbn [w_before_call].
  destruct (String.eqb _ "void").
  - intros H. apply st_bind_Ok in H as (s1&[]&E1%error_returns_kept&H); [|wiring].
    apply st_bind_Ok in H as (s2&[]&E2%error_returns_kept&H); [|wiring].
    apply st_bind_Ok in H as (s3&[]&E3%error_returns_kept&H); [|wiring].
    injection H as <- <-. split; [done|]. congruence.
  - set (r := proxy_error_return _ _ _ _ _). intros H.
    apply st_bind_Ok in H as (s1&[]&E1&H).
    assert (error_returns s1 = [default (vp_error_return o) r; default (vp_error_return o) r]) as H1.
    { destruct r as [e1|]; [by eapply set_error_return_eq | by injection E1 as <-]. }
    apply st_bind_Ok in H as (s2&[]&E2%error_returns_kept&H); [|wiring].
    apply st_bind_Ok in H as (s3&[]&E3%error_returns_kept&H); [|wiring].
    apply st_bind_Ok in H as (s4&[]&E4%error_returns_kept&H); [|wiring].
    apply st_bind_Ok in H as (s5&[]&E5%error_returns_kept&H); [|wiring].
    injection H as <- <-. split; [done|]. congruence.
Qed.

Lemma wiring_add_cleanup_world i c : evolves same_wiring (on_heap (add_cleanup_code i c)).
Proof. wiring. Qed.

Lemma prepare_errors m c trivial s s' e :
  error_returns s = [vp_error_return o; vp_error_return o] ->
  Proxy_prepare g o m c trivial s = (s', Ok e) ->
  e = final_error_return m trivial (cv_full_name c) /\ error_returns s' = [e; e].
Proof.
  intros He. unfold Proxy_prepare. intros H.
  apply st_bind_Ok in H as (s1&v1&E1%error_returns_kept&H); [|wiring].
  apply st_bind_Ok in H as (s2&[]&E2%error_returns_kept&H); [|wiring].
  apply st_bind_Ok in H as (s3&v3&E3%error_returns_kept&H); [|wiring].
  apply st_bind_Ok in H as (s4&[]&E4%error_returns_kept&H); [|wiring].
  apply st_bind_Ok in H as (s5&e5&E5&H).
  apply chain_errors in E5 as [He5 E5]; [|congruence].
  apply st_bind_Ok in H as (s6&[]&E6%error_returns_kept&H); [|wiring].
  apply st_bind_Ok in H as (s7&v7&E7%error_returns_kept&H); [|wiring].
  apply st_bind_Ok in H as (s8&v8&E8%error_returns_kept&H); [|wiring].
  apply st_bind_Ok in H as (s9&[]&E9%error_returns_kept&H); [|wiring].
  apply st_bind_Ok in H as (s10&[]&E10%error_returns_kept&H); [|wiring].
  apply st_bind_Ok in H as (s11&v11&E11%error_returns_kept&H); [|wiring].
  injection H as <- <-. split; [done|]. congruence.
Qed.

Lemma wiring_reverse_parse rw : evolves same_wiring (reverse_generate_parse rw).
Proof. unfold reverse_generate_parse. wiring. Qed.

Lemma wiring_reverse_generate rw `{!ReverseFrame rw} name mods post :
  evolves same_wiring_gen (reverse_generate rw name mods post).
Proof.
  pose proof rf_call as H1. pose proof rf_return as H2. unfold reverse_generate.
  apply evolves_bind; [apply _ | |intros _].
  - apply wiring_in_world. unfold reverse_generate_code.
    wiring; auto using wiring_reverse_parse.
    apply evolves_iter_in; [apply _|]. eapply Forall_impl; [apply rf_params|]. auto.
  - unfold reverse_write_out, out_writeln.
    repeat match goal with
           | |- evolves _ (st_bind _ _) => apply evolves_bind; [apply _ | |intros ?]
           | |- evolves _ (st_lift _) => apply evolves_lift, _
           end; auto using wiring_flush_block, wiring_flush_declarations, wiring_out.
Qed.

End proxy_errors.

(** ** Cleanup actions *)

Lemma grows_set_error_return i e : evolves heap_grows (set_error_return i e).
Proof.
  intros h. unfold set_error_return, st_bind, deref. destruct (h_blocks h !! i) as [b|] eqn:E; [|done].
  eapply Forall2_update; [apply _ | exact E|]. intros Hn. by split.
Qed.
Lemma grows_build_query {A} (f : list build_item -> A) : evolves cleanups_grow (build_query f).
Proof. intros s. reflexivity. Qed.
Lemma grows_parse_query {A} (f : list parse_item -> res A) : evolves cleanups_grow (parse_query f).
Proof. intros s. reflexivity. Qed.
#[local] Hint Resolve grows_set_error_return grows_build_query grows_parse_query : grows.

Definition grows_gen (gn gn' : gen) : Prop := cleanups_grow (g_world gn) (g_world gn').
#[local] Instance grows_gen_preorder : PreOrder grows_gen.
Proof.
  unfold grows_gen. split; [by intros s | intros s1 s2 s3 H1 H2; by transitivity (g_world s2)].
Qed.
Lemma grows_in_world {A} (m : ST world A) : evolves cleanups_grow m -> evolves grows_gen (in_world m).
Proof. intros H gn. specialize (H (g_world gn)). unfold in_world. by destruct (m (g_world gn)). Qed.
Lemma grows_out f : evolves grows_gen (out f).
Proof. intros gn. unfold out, grows_gen. destruct (f (g_out gn)); cbn; reflexivity. Qed.
Lemma grows_flush_block i : evolves grows_gen (flush_block i).
Proof.
  intros [s k]. unfold flush_block, st_bind, in_world, on_heap, deref. cbn [g_world].
  destruct (h_blocks (wd_heap s) !! i) as [b|] eqn:E; cbn; [|unfold grows_gen, cleanups_grow, heap_grows; cbn; reflexivity].
  destruct (flush_to (cb_sink b) k) as [[k1 k2]|]; [|unfold grows_gen, cleanups_grow, heap_grows; cbn; reflexivity]. unfold grows_gen, cleanups_grow, heap_grows. cbn.
  eapply Forall2_update; [apply _ | exact E|]. intros Hn. by split.
Qed.
Lemma grows_flush_declarations i : evolves grows_gen (flush_declarations i).
Proof.
  intros [s k]. unfold flush_declarations, st_bind, in_world, on_heap, deref. cbn [g_world].
  destruct (h_scopes (wd_heap s) !! i) as [d|]; cbn; [|unfold grows_gen, cleanups_grow, heap_grows; cbn; reflexivity].
  destruct (flush_to (ds_declarations d) k) as [[k1 k2]|]; [|unfold grows_gen, cleanups_grow, heap_grows; cbn; reflexivity]. unfold grows_gen, cleanups_grow, heap_grows. cbn. reflexivity.
Qed.

(** What the generation asks of the handlers of a reverse wrapper; those that
    satisfy their contract do so. *)
Class ReverseCleanups (rw : reverse_wrapper) : Prop := {
  rc_params : Forall (fun p => forall w, evolves cleanups_grow (ph_convert_c_to_python p w)) (rw_parameters rw);
  rc_return : forall w, evolves cleanups_grow (rh_convert_python_to_c (rw_return_value rw) w);
  rc_call : forall w, evolves cleanups_grow (rw_generate_python_call rw w)
}.
Lemma grows_python_call g name w : evolves cleanups_grow (generate_python_call g name w).
Proof. unfold generate_python_call. grows. Qed.
Lemma contracted_reverse_cleanups g cps c r w name :
  Forall contracted cps -> ReturnContract c ->
  ReverseCleanups (MkReverse (return_handler_of c r) (handlers cps) w false (generate_python_call g name)).
Proof.
  intros Hps Hr. split; cbn.
  - apply Forall_map. eapply Forall_impl; [exact Hps|]. intros [cl p] [Hc _] w'. apply c2py_cleanups.
  - intros w'. apply ret_py2c_cleanups.
  - intros w'. apply grows_python_call.
Qed.

Lemma grows_reverse_generate rw `{!ReverseCleanups rw} name mods post :
  evolves grows_gen (reverse_generate rw name mods post).
Proof.
  pose proof rc_call as H1. pose proof rc_return as H2. unfold reverse_generate.
  apply evolves_bind; [apply _ | |intros _].
  - apply grows_in_world. unfold reverse_generate_code, reverse_generate_parse.
    apply evolves_bind; [apply _|grows|intros _]. apply evolves_bind; [apply _|grows|intros _].
    apply evolves_bind; [apply _| |intros _].
    + apply evolves_iter_in; [apply _|]. eapply Forall_impl; [apply rc_params|]. auto.
    + apply evolves_bind; [apply _|apply H1|intros _]. apply evolves_bind; [apply _|apply H2|intros _]. grows.
  - unfold reverse_write_out, out_writeln.
    repeat match goal with
           | |- evolves _ (st_bind _ _) => apply evolves_bind; [apply _ | |intros ?]
           | |- evolves _ (st_lift _) => apply evolves_lift, _
           end; auto using grows_flush_block, grows_flush_declarations, grows_out.
Qed.

(** Actions that are pending on the block before the call, in the order they were
    added; an error exit runs them in the reverse order. *)
Definition pending (s : world) (l : list string) : Prop :=
  exists b, h_blocks (wd_heap s) !! 0%nat = Some b /\ numbered b /\ l `sublist_of` cleanup_texts b.

Lemma pending_grows s s' l : cleanups_grow s s' -> pending s l -> pending s' l.
Proof.
  intros Hs (b&Hb&Hn&Hl). destruct (Forall2_lookup_l _ _ _ _ _ Hs Hb) as (b'&Hb'&Hg).
  destruct (Hg Hn) as [Hn' [more Hm]]. exists b'. split_and!; [done..|]. rewrite Hm. by apply sublist_inserts_r.
Qed.
Lemma pending_step {A} (m : ST world A) s s' a l :
  evolves cleanups_grow m -> m s = (s', Ok a) -> pending s l -> pending s' l.
Proof. intros H E. apply pending_grows. specialize (H s). by rewrite E in H. Qed.
Lemma pending_add s s' a c l :
  on_heap (add_cleanup_code 0 c) s = (s', Ok a) -> pending s l -> pending s' (l ++ [c]).
Proof.
  intros E (b&Hb&Hn&Hl). unfold on_heap, add_cleanup_code, st_bind, deref in E. rewrite Hb in E. cbn in E.
  injection E as <- _. assert (forall k, k ∈ dom (cb_cleanup_actions b) -> k < cb_last_cleanup_position b + 1) as Hlt
    by (intros k Hk; specialize (Hn k Hk); lia).
  eexists. split; [cbn; apply list_lookup_insert_eq; by eapply lookup_lt_Some|]. split.
  - intros p. cbn. rewrite dom_insert_L. intros [->%elem_of_singleton|Hp]%elem_of_union; [lia|].
    specialize (Hlt p Hp). lia.
  - unfold cleanup_texts in *. cbn. rewrite sorted_items_insert_last, map_app by done.
    by apply sublist_app.
Qed.

(** The release of the interpreter lock is pending once a wrapper was reset. *)
Definition release_lock (gil_state_var : string) : string :=
  "if (PyEval_ThreadsInitialized())" +:+ nls +:+ "    PyGILState_Release(" +:+ gil_state_var +:+ ");".
Lemma reset_pending rw s s' :
  rw_refs rw = MkWrapper ReverseWrapper 0 0 0 1 -> rw_NO_GIL_LOCKING rw = false ->
  reverse_reset_code_generation_state rw s = (s', Ok tt) ->
  exists gil, pending s' [release_lock gil].
Proof.
  intros Hr Hg H. unfold reverse_reset_code_generation_state in H. rewrite Hr in H. cbn [w_declarations w_before_call w_after_call] in H.
  apply st_bind_Ok in H as (s1&[]&_&H). apply st_bind_Ok in H as (s2&[]&E2&H).
  assert (pending s2 []) as P.
  { unfold on_heap, block_clear, st_bind, deref in E2. destruct (h_blocks (wd_heap s1) !! 0%nat) eqn:Eb; [|discriminate E2].
    injection E2 as <-. eexists. split; [cbn; apply list_lookup_insert_eq; by eapply lookup_lt_Some|].
    split; [intros p Hp; cbn in Hp; set_solver|apply sublist_nil_l]. }
  apply st_bind_Ok in H as (s3&[]&E3&H).
  assert (pending s3 []) as P3.
  { destruct P as (b&Hb&Hn&_). unfold on_heap, block_clear, st_bind, deref in E3.
    destruct (h_blocks (wd_heap s2) !! 1%nat); [|discriminate E3]. injection E3 as <-. exists b.
    split_and!; [cbn; by rewrite list_lookup_insert_ne|done|apply sublist_nil_l]. }
  apply st_bind_Ok in H as (s4&[]&E4&H). apply (pending_step _ _ _ _ _ (grows_modify _ (fun _ => eq_refl)) E4) in P3.
  unfold generate_gil_code in H. rewrite Hg, Hr in H.
  apply st_bind_Ok in H as (s5&gil&E5&H). apply (pending_step (declare _ _ _ _ _) _ _ _ _ ltac:(grows) E5) in P3.
  apply st_bind_Ok in H as (s6&[]&E6&H). apply (pending_step (before_call_code _ _) _ _ _ _ ltac:(grows) E6) in P3.
  apply st_bind_Ok in H as (s7&handle&E7&H). injection H as <-. exists gil.
  exact (pending_add _ _ _ _ _ E7 P3).
Qed.

(** ** The exits *)

Section proxy_exits.
Context (g : settings) (store : list cpp_exception) (classes : list class_view)
  (o : proxy) (Hrefs : rw_refs (vp_base o) = MkWrapper ReverseWrapper 0 0 0 1).

(** The object of [self] is restored, and the Python method released, by actions
    the generation adds before it calls the method. *)
Definition self_object (pystruct : string) : string :=
  "reinterpret_cast< " +:+ pystruct +:+ "* >(m_pyself)->obj".
Lemma prepare_pending m c trivial s s' e l :
  Proxy_prepare g o m c trivial s = (s', Ok e) -> pending s l ->
  exists py_method before pystruct, get_pystruct c = Ok pystruct
    /\ pending s' ((l ++ ["Py_XDECREF(" +:+ py_method +:+ ");"])
                     ++ [self_object pystruct +:+ " = " +:+ before +:+ ";"]).
Proof.
  unfold Proxy_prepare. rewrite Hrefs. cbn [w_before_call]. intros H P.
  apply st_bind_Ok in H as (s1&v1&E1&H). apply (pending_step (declare _ _ _ _ _) _ _ _ _ ltac:(grows) E1) in P.
  apply st_bind_Ok in H as (s2&[]&E2&H). apply (pending_step (on_heap (write_code _ _)) _ _ _ _ ltac:(grows) E2) in P.
  apply st_bind_Ok in H as (s3&v3&E3&H). apply (pending_add _ _ _ _ _ E3) in P.
  apply st_bind_Ok in H as (s4&[]&E4&H). apply (pending_step (on_heap (write_code _ _)) _ _ _ _ ltac:(grows) E4) in P.
  apply st_bind_Ok in H as (s5&e5&E5&H).
  apply (pending_step (chain_to_parent _ _ _ _) _ _ _ _
    ltac:(unfold chain_to_parent, reverse_set_error_return; grows) E5) in P.
  apply st_bind_Ok in H as (s6&[]&E6&H). apply (pending_step (on_heap (write_code _ _)) _ _ _ _ ltac:(grows) E6) in P.
  apply st_bind_Ok in H as (s7&v7&E7&H). apply (pending_step (declare _ _ _ _ _) _ _ _ _ ltac:(grows) E7) in P.
  apply st_bind_Ok in H as (s8&v8&E8&H). injection E8 as <- E8.
  apply st_bind_Ok in H as (s9&[]&E9&H). apply (pending_step (on_heap (write_code _ _)) _ _ _ _ ltac:(grows) E9) in P.
  apply st_bind_Ok in H as (s10&[]&E10&H). apply (pending_step (on_heap (write_code _ _)) _ _ _ _ ltac:(grows) E10) in P.
  apply st_bind_Ok in H as (s11&v11&E11&H). apply (pending_add _ _ _ _ _ E11) in P.
  injection H as <- <-. by exists v1, v7, v8.
Qed.

(** C21: The error exit of a proxy.  When [generate] of a virtual method proxy
    returns, every error exit of the method returns the same way.  For a method that
    returns a value this is by calling the implementation of the parent class with
    the same arguments, when there is one; otherwise the process is stopped, unless
    that value is a class with a trivial constructor, which keeps the error return
    of its handler.  A method that returns nothing always keeps the error return of
    its handler.  When the wrapper was reset before and takes the interpreter lock,
    the block before the call has, in this order, the release of the lock, the
    release of the Python method and the restoration of the object of [self]
    among its pending actions from before the call on, and none is ever
    cancelled, so that the error exits of the call run them in the reverse order. *)
Theorem proxy_error_exit (m : method_attrs) (trivial : bool) (c : class_view) (gn gn' : gen)
    (o' : proxy) :
  ReverseFrame (vp_base o) -> the_class classes (cm_class m) = Ok c ->
  error_returns (g_world gn) = [vp_error_return o; vp_error_return o] ->
  Proxy_generate g store classes o m trivial gn = (gn', Ok o') ->
  error_returns (g_world gn') = [vp_error_return o'; vp_error_return o']
  /\ vp_error_return o' =
       (if String.eqb (rh_ctype (rw_return_value (vp_base o))) "void" then vp_error_return o
        else if cm_is_pure_virtual m || String.eqb (cm_visibility m) "private"
             then if trivial then vp_error_return o else fatal_error
             else "return " +:+ cv_full_name c +:+ "::" +:+ vp_method_name o +:+ "("
                  +:+ join ", " (map ph_name (rw_parameters (vp_base o))) +:+ ");")
  /\ forall s, ReverseCleanups (vp_base o) -> rw_NO_GIL_LOCKING (vp_base o) = false ->
       reverse_reset_code_generation_state (vp_base o) s = (g_world gn, Ok tt) ->
       exists gil py_method before pystruct s1,
         get_pystruct c = Ok pystruct
         /\ Proxy_prepare g o m c trivial (g_world gn) = (s1, Ok (vp_error_return o'))
         /\ let exit_actions := [release_lock gil; "Py_XDECREF(" +:+ py_method +:+ ");";
                                 self_object pystruct +:+ " = " +:+ before +:+ ";"] in
            pending s1 exit_actions /\ cleanups_grow s1 (g_world gn') /\ pending (g_world gn') exit_actions.
Proof.
  intros Hf Hc He. unfold Proxy_generate. intros H.
  apply st_bind_Ok in H as (g1&cl&E1&H). injection E1 as <- _.
  apply st_bind_Ok in H as (g2&c2&E2&H). injection E2 as <- E2. rewrite Hc in E2.
  injection E2 as <-. apply st_bind_Ok in H as (g3&e&E3&H).
  unfold in_world in E3. destruct (Proxy_prepare _ _ _ _ _ _) as [s3 r3] eqn:Ep.
  injection E3 as <- ->. destruct (vp_helper_class o) as [h|]; [|discriminate].
  apply st_bind_Ok in H as (g4&[]&E4&H). injection H as <- <-. pose proof Ep as Ep'.
  apply prepare_errors in Ep as [-> Hs3]; [|done|done].
  match type of E4 with reverse_generate _ ?n ?mo ?po ?s = _ =>
    pose proof (wiring_reverse_generate (vp_base o) n mo po s) as Hw;
    pose proof (fun H => grows_reverse_generate (vp_base o) (ReverseCleanups0:=H) n mo po s) as Hgrow end.
  rewrite E4 in Hw, Hgrow. apply error_returns_wiring in Hw. cbn [g_world fst] in Hw. cbn [vp_error_return].
  split_and!; [by rewrite <- Hw| |].
  - unfold final_error_return, proxy_error_return, no_parent. destruct (String.eqb _ "void"); [done|].
    by destruct (cm_is_pure_virtual m || String.eqb (cm_visibility m) "private"), trivial.
  - intros s Hrc Hg Hreset. apply reset_pending in Hreset as [gil P]; [|done|done].
    destruct (prepare_pending _ _ _ _ _ _ _ Ep' P) as (py_method&before&pystruct&Hps&P').
    exists gil, py_method, before, pystruct, s3. split; [done|]. split; [reflexivity|]. split; [exact P'|].
    split; [exact (Hgrow Hrc)|]. exact (pending_grows _ _ _ (Hgrow Hrc) P').
Qed.
End proxy_exits.

(** ** An example *)

(** The proxy after a reset. *)
Definition demo_reset_gen : gen :=
  Gen (reverse_reset_code_generation_state (vp_base demo_proxy) (g_world demo_proxy_gen)).1 MemoryCodeSink.
Lemma demo_proxy_cleanups : ReverseCleanups (vp_base demo_proxy).
Proof.
  split.
  - constructor.
  - intros w. by apply grows_modify.
  - intros w. apply grows_python_call.
Qed.

Lemma proxy_error_exit_witness :
  exists gn' o' gil py_method before,
    Proxy_generate default_settings [] [demo_class] demo_proxy demo_method_attrs false demo_reset_gen = (gn', Ok o')
    /\ error_returns (g_world gn') = ["return ns::Foo::bar();"; "return ns::Foo::bar();"]
    /\ pending (g_world gn') [release_lock gil; "Py_XDECREF(" +:+ py_method +:+ ");";
         "reinterpret_cast< PyNsFoo* >(m_pyself)->obj = " +:+ before +:+ ";"].
Proof.
  set (r := Proxy_generate default_settings [] [demo_class] demo_proxy demo_method_attrs false
              demo_reset_gen).
  assert (is_ok r.2 = true) as Hok by (vm_compute; reflexivity).
  destruct r as [gn' [o'|]] eqn:E; [|discriminate Hok]. unfold r in E.
  destruct (proxy_error_exit default_settings [] [demo_class] demo_proxy eq_refl demo_method_attrs
    false demo_class demo_reset_gen gn' o' demo_proxy_frame eq_refl eq_refl E) as (H1&H2&H3).
  destruct (H3 (g_world demo_proxy_gen) demo_proxy_cleanups eq_refl) as (gil&py&before&p&s1&Hp&_&_&_&P).
  { vm_compute. reflexivity. }
  injection Hp as <-. exists gn', o', gil, py, before. split; [reflexivity|].
  split; [rewrite H1, H2; reflexivity|exact P].
Defined.
