(* ===== verification/HelperClass.v ===== *)
(** * The helper classes of [pybindgen/cppclass.py]

    A [CppHelperClass] is the C++ subclass that forwards virtual methods to Python:
    its parent callers and virtual proxies, and the code of its declaration and of
    its methods. *)
From S2P Require Import Prelude.
From S2P Require Import CodeSink.
From S2P Require Import CodeBlock.
From S2P Require Import Wrapper.
From S2P Require Import TypeHandler.
From S2P Require Import WrapperBase.
From S2P Require Import Utils.
From S2P Require Import Overloading.
From S2P Require Import Settings.
From S2P Require Import CppException.
From S2P Require Import WrapperObject.
From S2P Require Import Function.
From S2P Require Import FunctionOverload.
From S2P Require Import CppMethod.

(** ** Parent callers as overloaded wrappers *)

(** A parent caller, with the method it calls. *)
Record parent_caller : Type := ParentCaller {
  pc_method : method_attrs;
  pc_object : method
}.
Abbreviation parent_callers := (list parent_caller).

Section caller_ops.
Context (classes : list class_view) (handle_error : option (nat -> pyexn -> bool)) {so : SetOrder}.
Local Abbreviation vm := (parent_caller_methods classes).

(** A method of the parent caller number [i]. *)
Definition on_caller {B} (i : nat) (m : method_attrs -> ST (obj_gen method_attrs) B)
    : ST (parent_callers * code_sink) B :=
  fun st => match st.1 !! i with
            | None => (st, Raise IndexError)
            | Some c =>
                let '((o, k), r) := m (pc_method c) (pc_object c, st.2) in
                ((<[i := ParentCaller (pc_method c) o]> st.1, k), r)
            end.
Definition caller_only {B} (m : ST (parent_callers * code_sink) B) : ST parent_callers B :=
  fun cs => let '((cs', _), r) := m (cs, NullCodeSink) in (cs', r).
Definition caller_attr {B} (a : forward_wrapper -> option B) (cs : parent_callers) (i : nat) : option B :=
  cs !! i ≫= fun c => a (wo_base (pc_object c)).

Definition caller_ops : WrapperOps parent_callers := {|
  get_flags i := caller_only (on_caller i (fun m =>
    flags <- with_caller_attrs m (CppMethod_get_py_method_def_flags vm) ;;
    st_ret (list_to_set flags)));
  Overloading.set_force_parse i z := caller_only (on_caller i (fun _ => modify_base (set_force z)));
  set_error i e := caller_only (on_caller i (fun _ =>
    self_world vm (fun fw => set_parse_error_return fw e)));
  generate_wrapper i name extra :=
    on_caller i (fun m => ParentCaller_generate classes m name extra) ;;; st_ret None;
  reset_wrapper i := caller_only (on_caller i (fun _ =>
    self_world vm forward_reset_code_generation_state));
  wrapper_base_name cs i := cs !! i ≫= fun c => cm_wrapper_base_name (wo_attrs (pc_object c));
  wrapper_name_of := caller_attr fw_wrapper_actual_name;
  wrapper_return_of := caller_attr fw_wrapper_return;
  wrapper_args_of := caller_attr fw_wrapper_args;
  section_of _ _ := None;
  method_def_of i name := caller_only (on_caller i (fun m =>
    ParentCaller_get_py_method_def classes m (Some name)));
  needs_overloading_interface _ _ := false;
  on_error := (fun h i e => st_ret (h i e)) <$> handle_error
|}.
End caller_ops.

(** ** The helper class *)

(** A virtual proxy, with the method it overrides and its world. *)
Record virtual_proxy : Type := VirtualProxy {
  vx_proxy : proxy;
  vx_method : method;
  vx_world : world
}.

Record cpp_helper_class : Type := CppHelperClass {
  he_class : nat;
  he_name : string;
  he_virtual_parent_callers : gmap string (overloaded parent_callers);
  he_virtual_proxies : list virtual_proxy;
  he_cannot_be_constructed : bool;
  he_custom_methods : list (string * option string);
  he_post_generation_code : list string;
  he_virtual_methods : list method
}.

Definition view_of_helper (h : cpp_helper_class) : helper_view := HelperView (he_name h) (he_class h).

(** [CppHelperClass(class_)] *)
Definition CppHelperClass_init (class_ : nat) (pystruct : string) : cpp_helper_class :=
  CppHelperClass class_ (pystruct +:+ "__PythonHelper") ∅ [] false [] [] [].

(** The attributes that change. *)
Definition set_callers (m : gmap string (overloaded parent_callers)) (h : cpp_helper_class) : cpp_helper_class :=
  CppHelperClass (he_class h) (he_name h) m (he_virtual_proxies h) (he_cannot_be_constructed h)
    (he_custom_methods h) (he_post_generation_code h) (he_virtual_methods h).
Definition set_proxies (l : list virtual_proxy) (h : cpp_helper_class) : cpp_helper_class :=
  CppHelperClass (he_class h) (he_name h) (he_virtual_parent_callers h) l (he_cannot_be_constructed h)
    (he_custom_methods h) (he_post_generation_code h) (he_virtual_methods h).
Definition set_not_constructed (h : cpp_helper_class) : cpp_helper_class :=
  CppHelperClass (he_class h) (he_name h) (he_virtual_parent_callers h) (he_virtual_proxies h) true
    (he_custom_methods h) (he_post_generation_code h) (he_virtual_methods h).
Definition set_custom_methods (l : list (string * option string)) (h : cpp_helper_class) : cpp_helper_class :=
  CppHelperClass (he_class h) (he_name h) (he_virtual_parent_callers h) (he_virtual_proxies h)
    (he_cannot_be_constructed h) l (he_post_generation_code h) (he_virtual_methods h).
Definition set_post_code (l : list string) (h : cpp_helper_class) : cpp_helper_class :=
  CppHelperClass (he_class h) (he_name h) (he_virtual_parent_callers h) (he_virtual_proxies h)
    (he_cannot_be_constructed h) (he_custom_methods h) l (he_virtual_methods h).
Definition set_virtual_methods (l : list method) (h : cpp_helper_class) : cpp_helper_class :=
  CppHelperClass (he_class h) (he_name h) (he_virtual_parent_callers h) (he_virtual_proxies h)
    (he_cannot_be_constructed h) (he_custom_methods h) (he_post_generation_code h) l.

Definition add_custom_method (declaration : string) (body : option string) (h : cpp_helper_class)
    : cpp_helper_class := set_custom_methods (he_custom_methods h ++ [(declaration, body)]) h.
Definition add_post_generation_code (code : string) (h : cpp_helper_class) : cpp_helper_class :=
  set_post_code (he_post_generation_code h ++ [code]) h.
Definition add_virtual_proxy (p : virtual_proxy) (h : cpp_helper_class) : cpp_helper_class :=
  set_proxies (he_virtual_proxies h ++ [p]) h.

Section helper_class.
Context (g : settings) (classes : list class_view) {K : Type} (no_kwargs : K)
  (new_param : list (@spec_item pyval K) -> K -> ST world param_handler)
  (new_return : list (@spec_item pyval K) -> K -> ST world return_handler)
  (on_error : error_handler world).

(** The overloaded wrapper of a name, a new one if there is none. *)
Definition new_overload (pystruct : string) : overloaded parent_callers :=
  Overloaded [] [] None None None None pystruct.

Definition wrappers_of (o : overloaded parent_callers) : list parent_caller :=
  omap (fun i => ov_world o !! i) (ov_wrappers o).

(** [overload.add], unless a caller with the signature is there *)
Definition overload_caller (c : parent_caller) (o : overloaded parent_callers) : overloaded parent_callers :=
  if existsb (fun e => matches_signature (pc_object c) (pc_object e)) (wrappers_of o) then o
  else Overloaded (ov_world o ++ [c]) (ov_wrappers o ++ [length (ov_world o)]) (ov_all_wrappers o)
         (ov_wrapper_actual_name o) (ov_wrapper_return o) (ov_wrapper_args o) (ov_pystruct o).

(** The Python structure of the class is read when the first caller of a name is
    added. *)
Definition overload_named (name : string) : ST cpp_helper_class (overloaded parent_callers) :=
  h <- st_get (fun h => h) ;;
  match he_virtual_parent_callers h !! name with
  | Some o => st_ret o
  | None =>
      view <- st_lift (the_class classes (Some (he_class h))) ;;
      pystruct <- st_lift (get_pystruct view) ;;
      st_modify (set_callers (<[name := new_overload pystruct]> (he_virtual_parent_callers h))) ;;;
      st_ret (new_overload pystruct)
  end.
Definition add_virtual_parent_caller (c : parent_caller) : ST cpp_helper_class unit :=
  let name := cm_method_name (wo_attrs (pc_object c)) in
  o <- overload_named name ;;
  st_modify (fun h => set_callers (<[name := overload_caller c o]> (he_virtual_parent_callers h)) h).

(** [CppVirtualMethodParentCaller(method)], whose [helper_class] is this one *)
Definition new_parent_caller (method : method) (h : cpp_helper_class) : res parent_caller :=
  let '(_, r) := ParentCaller_init g no_kwargs new_param new_return on_error method None empty_world in
  o <-? r ;;
  Ok (ParentCaller (wo_attrs method)
        (Obj (wo_base o) (set_helper_class (view_of_helper h) (wo_attrs o)) (wo_world o))).

(** [CppVirtualMethodProxy(method)] *)
Definition new_virtual_proxy (method : method) : res virtual_proxy :=
  let '(s, r) := CppVirtualMethodProxy_init g method empty_world in
  p <-? r ;; Ok (VirtualProxy p method s).

(** The visibilities of methods that get a parent caller. *)
Definition caller_visibilities : list string :=
  if get_deprecated_virtuals g then ["public"; "protected"] else ["protected"].

(** [add_virtual_method]; [is_dummy] for an instance of [CppDummyMethod] *)
Definition add_parent_caller_of (method : method) : ST cpp_helper_class unit :=
  h <- st_get (fun h => h) ;;
  c <- st_lift (new_parent_caller method h) ;;
  add_virtual_parent_caller c.
Definition add_new_virtual_method (method : method) : ST cpp_helper_class unit :=
  let a := wo_attrs method in
  st_modify (fun h => set_virtual_methods (he_virtual_methods h ++ [method]) h) ;;;
  st_when (negb (cm_is_pure_virtual a) && bool_decide (cm_visibility a ∈ caller_visibilities))
    (add_parent_caller_of method) ;;;
  p <- st_lift (new_virtual_proxy method) ;;
  st_modify (add_virtual_proxy p).
Definition add_virtual_method (method : method) (is_dummy : bool) : ST cpp_helper_class unit :=
  let a := wo_attrs method in
  st_assert (cm_is_virtual a) ;;;
  st_assert (bool_decide (is_Some (cm_class a))) ;;;
  h <- st_get (fun h => h) ;;
  if existsb (matches_signature method) (he_virtual_methods h) then st_ret tt
  else if is_dummy then st_when (cm_is_pure_virtual a) (st_modify set_not_constructed)
  else add_new_virtual_method method.
End helper_class.

(** ** The code of the helper class *)

(** What the generators read of the class: its name, whether it is imported, and the
    parameters of its constructors. *)
Record helper_target : Type := HelperTarget {
  ht_full_name : string;
  ht_import_from_module : bool;
  ht_constructors : list (list param_handler)
}.

(** The wrappers the error handler of the settings is asked about. *)
Inductive helper_wrapper : Type :=
  | CallersOf (name : string)
  | CallerOf (name : string) (number : nat)
  | ProxyNumber (number : nat).

(** [try: call_with_error_handling(m) except SkipWrapper], whether it succeeded *)
Definition attempt {S A} (handler : error_handler S) (m : ST S A) : ST S bool :=
  st_catch (call_with_error_handling handler m default_exceptions ;;; st_ret true)
    (fun e => match e with SkipWrapper => st_ret false | _ => st_raise e end).

Section helper_code.
Context (g : settings) (store : list cpp_exception) (classes : list class_view)
  (trivial_class_return : return_handler -> bool)
  (handle_error : option (helper_wrapper -> pyexn -> bool))
  {so : SetOrder} {dict_order : DictOrder} (target : helper_target).
Local Abbreviation hgen := (cpp_helper_class * code_sink)%type.

Definition helper_handler_of {S} (w : helper_wrapper) : error_handler S :=
  (fun h e => st_ret (h w e)) <$> handle_error.
Definition ops_of (name : string) : WrapperOps parent_callers :=
  caller_ops classes ((fun h n => h (CallerOf name n)) <$> handle_error).

(** A method of the overloaded wrapper of a name. *)
Definition on_callers {B} (name : string) (m : ST (overloaded parent_callers * code_sink) B)
    : ST hgen B :=
  fun st => match he_virtual_parent_callers st.1 !! name with
            | None => (st, Raise KeyError)
            | Some o =>
                let '((o', k), r) := m (o, st.2) in
                ((set_callers (<[name := o']> (he_virtual_parent_callers st.1)) st.1, k), r)
            end.
(** [m(NullCodeSink())] *)
Definition into_nothing {S B} (m : ST (S * code_sink) B) : ST (S * code_sink) B :=
  fun st => let '((s, _), r) := m (st.1, NullCodeSink) in ((s, st.2), r).
Definition reset_callers (name : string) : ST hgen unit :=
  on_callers name (on_fst (reset_code_generation_state (WrapperOps0:=ops_of name))).
Definition generate_callers (name : string) : ST hgen (option string) :=
  on_callers name (generate (WrapperOps0:=ops_of name) "PyObject *" "return NULL;").

(** The proxy number [n]; its helper class is set first. *)
Definition on_proxy {B} (n : nat) (m : virtual_proxy -> ST gen (proxy * B)) : ST hgen B :=
  fun st => match he_virtual_proxies st.1 !! n with
            | None => (st, Raise IndexError)
            | Some v =>
                let p := vx_proxy v in
                let p := Proxy (vp_base p) (vp_method_name p) (vp_error_return p)
                           (Some (view_of_helper st.1)) in
                let v := VirtualProxy p (vx_method v) (vx_world v) in
                let '(gn, r) := m v (Gen (vx_world v) st.2) in
                let '(p, r) := match r with Ok (p, b) => (p, Ok b) | Raise e => (vx_proxy v, Raise e) end in
                ((set_proxies (<[n := VirtualProxy p (vx_method v) (g_world gn)]> (he_virtual_proxies st.1)) st.1,
                  g_out gn), r)
            end.
Definition reset_proxy (n : nat) : ST hgen unit :=
  on_proxy n (fun v => in_world (reverse_reset_code_generation_state (vp_base (vx_proxy v))) ;;;
                       st_ret (vx_proxy v, tt)).
Definition generate_proxy (n : nat) : ST hgen unit :=
  on_proxy n (fun v =>
    p <- Proxy_generate g store classes (vx_proxy v) (wo_attrs (vx_method v))
           (trivial_class_return (rw_return_value (vp_base (vx_proxy v)))) ;;
    st_ret (p, tt)).
Definition declare_proxy (n : nat) : ST hgen unit :=
  on_proxy n (fun v =>
    out (Proxy_generate_declaration store (vx_proxy v) (wo_attrs (vx_method v))) ;;;
    st_ret (vx_proxy v, tt)).
Definition proxy_is_pure_virtual (n : nat) : ST hgen bool :=
  st_get (fun st => match he_virtual_proxies st.1 !! n with
                    | Some v => cm_is_pure_virtual (wo_attrs (vx_method v))
                    | None => false
                    end).

(** *** Declaration *)

(** "filter out duplicated constructors", by the types of their parameters *)
Fixpoint distinct_constructors (seen : list (list string)) (l : list (list param_handler))
    : list (list param_handler) :=
  match l with
  | [] => []
  | ps :: l =>
      let signature := map ph_ctype ps in
      if bool_decide (signature ∈ seen) then distinct_constructors seen l
      else ps :: distinct_constructors (seen ++ [signature]) l
  end.
Definition replicate_constructor (name : string) (ps : list param_handler) : ST hgen unit :=
  params <- st_lift (join_params ps) ;;
  sink_writeln (name +:+ "(" +:+ join ", " params +:+ ")") ;;;
  sink_indent ;;;
  sink_writeln (": " +:+ ht_full_name target +:+ "(" +:+ join ", " (map ph_name ps)
                +:+ "), m_pyself(NULL)" +:+ nls +:+ "{}") ;;;
  sink_unindent ;;;
  sink_writeln EmptyString.

Definition set_pyobj_method : string :=
  join nls [EmptyString; "void set_pyobj(PyObject *pyobj)"; "{"; "    Py_XDECREF(m_pyself);";
            "    Py_INCREF(pyobj);"; "    m_pyself = pyobj;"; "}"; EmptyString].

(** The parent callers are generated once to see whether that is possible. *)
Definition declare_callers (name : string) : ST hgen unit :=
  reset_callers name ;;;
  generated <- st_finally (attempt (helper_handler_of (CallersOf name)) (into_nothing (generate_callers name)))
                 (reset_callers name) ;;
  st_when generated
    (sink_writeln EmptyString ;;;
     on_callers name (generate_class_declaration (WrapperOps0:=ops_of name) "PyObject *" "return NULL;") ;;;
     ws <- st_get (fun st => match he_virtual_parent_callers st.1 !! name with
                             | Some o => ov_wrappers o | None => [] end) ;;
     st_iter (fun i => on_callers name (on_generator
       (on_caller i (fun m => generate_parent_caller_method classes m)))) ws).

(** [false] when a pure virtual method could not be generated *)
Definition declare_virtual_proxy (n : nat) : ST hgen bool :=
  reset_proxy n ;;;
  pure <- proxy_is_pure_virtual n ;;
  generated <- st_finally (attempt (helper_handler_of (ProxyNumber n)) (into_nothing (generate_proxy n)))
                 (reset_proxy n) ;;
  if generated : bool then sink_writeln EmptyString ;;; declare_proxy n ;;; st_ret true
  else st_ret (negb pure).
Fixpoint declare_proxies (ns : list nat) : ST hgen bool :=
  match ns with
  | [] => st_ret true
  | n :: ns =>
      ok <- declare_virtual_proxy n ;;
      if ok : bool then declare_proxies ns else st_ret false
  end.

Definition proxy_numbers : ST hgen (list nat) :=
  st_get (fun st => seq 0 (length (he_virtual_proxies st.1))).
Definition caller_names : ST hgen (list string) :=
  st_get (fun st => map fst (dict_items (he_virtual_parent_callers st.1))).

(** The members of a class that is not imported. *)
Definition declare_members : ST hgen bool :=
  if ht_import_from_module target then st_ret true
  else
    names <- caller_names ;;
    st_iter declare_callers names ;;;
    ns <- proxy_numbers ;;
    ok <- declare_proxies ns ;;
    if ok : bool then
      customs <- st_get (fun st => he_custom_methods st.1) ;;
      st_iter (fun c => sink_writeln c.1) customs ;;;
      st_ret true
    else st_ret false.

(** The head of the class, up to the destructor. *)
Definition declare_head (name : string) : ST hgen unit :=
  sink_writeln ("class " +:+ name +:+ " : public " +:+ ht_full_name target +:+ nls +:+ "{" +:+ nls +:+ "public:") ;;;
  sink_indent ;;;
  sink_writeln "PyObject *m_pyself;" ;;;
  st_when (negb (ht_import_from_module target))
    (st_iter (replicate_constructor name) (distinct_constructors [] (ht_constructors target))) ;;;
  sink_writeln set_pyobj_method ;;;
  sink_writeln ("virtual ~" +:+ name +:+ "()" +:+ nls +:+ "{") ;;;
  sink_indent ;;;
  sink_writeln "Py_CLEAR(m_pyself);" ;;;
  sink_unindent ;;;
  sink_writeln ("}" +:+ nls).

(** [_generate_forward_declarations] *)
Definition generate_helper_declaration : ST hgen bool :=
  name <- st_get (fun st => he_name st.1) ;;
  declare_head name ;;;
  ok <- declare_members ;;
  if ok : bool then
    sink_unindent ;;;
    sink_writeln ("};" +:+ nls) ;;;
    st_when (negb (ht_import_from_module target))
      (codes <- st_get (fun st => he_post_generation_code st.1) ;;
       st_iter (fun code => sink_writeln code ;;; sink_writeln EmptyString) codes) ;;;
    st_ret true
  else st_ret false.

(** [generate_forward_declarations]: through a memory sink *)
Definition helper_forward_declarations : ST hgen unit :=
  fun st =>
    let '((h, k), r) := generate_helper_declaration (st.1, MemoryCodeSink) in
    match r with
    | Raise e => ((h, st.2), Raise e)
    | Ok false => ((set_not_constructed h, st.2), Ok tt)
    | Ok true => match flush_to k st.2 with
                 | Ok (_, k') => ((h, k'), Ok tt)
                 | Raise e => ((h, st.2), Raise e)
                 end
    end.

(** *** Methods *)

Definition parent_caller_name (name : string) : string :=
  if get_deprecated_virtuals g then "_" +:+ name else name.

(** The entries of the method table for the parent callers that were generated. *)
Fixpoint generate_all_callers (names : list string) : ST hgen (list string) :=
  match names with
  | [] => st_ret []
  | name :: names =>
      sink_writeln EmptyString ;;;
      generated <- attempt (helper_handler_of (CallersOf name)) (generate_callers name) ;;
      entry <- (if generated : bool then
                  e <- on_callers name (on_fst (get_py_method_def (WrapperOps0:=ops_of name)
                                                   (parent_caller_name name))) ;;
                  st_ret [e]
                else st_ret []) ;;
      entries <- generate_all_callers names ;;
      st_ret (entry ++ entries)
  end.
Definition generate_one_proxy (n : nat) : ST hgen unit :=
  sink_writeln EmptyString ;;;
  pure <- proxy_is_pure_virtual n ;;
  generated <- attempt (helper_handler_of (ProxyNumber n)) (generate_proxy n) ;;
  st_assert (generated || negb pure).

(** [generate]: nothing for an imported class, else the method table entries of the
    parent callers *)
Definition helper_generate : ST hgen (option (list string)) :=
  if ht_import_from_module target then st_ret None
  else
    names <- caller_names ;;
    method_defs <- generate_all_callers names ;;
    ns <- proxy_numbers ;;
    st_iter generate_one_proxy ns ;;;
    customs <- st_get (fun st => he_custom_methods st.1) ;;
    st_iter (fun c => st_when (truthy c.2) (sink_writeln (str_opt c.2))) customs ;;;
    st_ret (Some method_defs).
End helper_code.

(** ** The members of a helper class *)

Section members.
Context (g : settings) (classes : list class_view) {K : Type} (no_kwargs : K)
  (new_param : list (@spec_item pyval K) -> K -> ST world param_handler)
  (new_return : list (@spec_item pyval K) -> K -> ST world return_handler)
  (on_error : error_handler world).

Lemma matches_signature_refl (m : method) : matches_signature m m = true.
Proof.
  unfold matches_signature. rewrite !bool_decide_eq_true_2, eqb_reflx by done. cbn. rewrite andb_true_r.
  induction (fw_parameters (wo_base m)) as [|p ps IH]; [done|]. cbn. by rewrite String.eqb_refl.
Qed.

(** No element of a list matches one that comes before it. *)
Inductive distinct_signatures : list method -> Prop :=
  | distinct_nil : distinct_signatures []
  | distinct_snoc l m : distinct_signatures l -> existsb (matches_signature m) l = false ->
      distinct_signatures (l ++ [m]).
Lemma distinct_signatures_at l : distinct_signatures l -> forall i j m n,
  (i < j)%nat -> l !! i = Some m -> l !! j = Some n -> matches_signature n m = false.
Proof.
  induction 1 as [|l x _ IH Hx]; intros i j m n Hij Hi Hj; [done|].
  apply lookup_app_Some in Hj as [Hj|[Hl Hj]].
  - apply (IH i j); [done| |done]. rewrite lookup_app_l in Hi; [done|]. apply lookup_lt_Some in Hj. lia.
  - apply list_lookup_singleton_Some in Hj as [Hj <-]. rewrite lookup_app_l in Hi by lia.
    destruct (matches_signature x m) eqn:E; [|done]. rewrite <- Hx. symmetry. apply existsb_exists.
    exists m. split; [|done]. apply list_elem_of_In. by eapply list_elem_of_lookup_2.
Qed.

Lemma distinct_signatures_sublist l l' :
  distinct_signatures l -> sublist l' l -> distinct_signatures l'.
Proof.
  intros Hd. revert l'. induction Hd as [|l m Hl IH Hm]; intros l' Hs.
  - apply sublist_nil_r in Hs as ->. constructor.
  - apply sublist_app_r in Hs as (l1&l2&->&H1&H2).
    assert (l2 = [] \/ l2 = [m]) as [-> | ->].
    { inversion H2 as [| x1 x2 x3 H3 | x1 x2 x3 H3]; subst; apply sublist_nil_r in H3 as ->; auto. }
    + rewrite app_nil_r. by apply IH.
    + constructor; [by apply IH|]. clear -H1 Hm. induction H1 as [|x l1 l2 _ IH|x l1 l2 _ IH]; [done| |].
      * cbn in *. apply orb_false_iff in Hm as [-> Hm]. by apply IH.
      * apply IH. cbn in Hm. by apply orb_false_iff in Hm as [_ Hm].
Qed.

(** The numbers of an overloaded wrapper are those of its world. *)
Record callers_ok (name : string) (o : overloaded parent_callers) : Prop := {
  co_numbers : ov_wrappers o = seq 0 (length (ov_world o));
  co_distinct : distinct_signatures (map pc_object (ov_world o));
  co_names : Forall (fun c => cm_method_name (wo_attrs (pc_object c)) = name) (ov_world o)
}.
Record helper_ok (h : cpp_helper_class) : Prop := {
  ho_methods : distinct_signatures (he_virtual_methods h);
  ho_proxies : sublist (map vx_method (he_virtual_proxies h)) (he_virtual_methods h);
  ho_virtual : Forall (fun m => cm_is_virtual (wo_attrs m) = true) (he_virtual_methods h);
  ho_callers : map_Forall callers_ok (he_virtual_parent_callers h)
}.

Lemma helper_ok_init i pystruct : helper_ok (CppHelperClass_init i pystruct).
Proof. split; cbn; [constructor | constructor | constructor | apply map_Forall_empty]. Qed.

Lemma wrappers_of_ok name o : callers_ok name o -> wrappers_of o = ov_world o.
Proof.
  intros [E _ _]. unfold wrappers_of. rewrite E. clear E. generalize (ov_world o) as l. intros l.
  assert (forall pre, omap (fun i => (pre ++ l) !! i) (seq (length pre) (length l)) = l) as H.
  { induction l as [|c l IH]; intros pre; [done|]. cbn.
    rewrite lookup_app_r, Nat.sub_diag by lia. cbn. f_equal.
    specialize (IH (pre ++ [c])). by rewrite <- app_assoc, length_app, Nat.add_1_r in IH. }
  apply (H []).
Qed.

Lemma overload_caller_ok name c o :
  callers_ok name o -> cm_method_name (wo_attrs (pc_object c)) = name ->
  callers_ok name (overload_caller c o).
Proof.
  intros Ho Hn. unfold overload_caller. rewrite (wrappers_of_ok _ _ Ho).
  destruct (existsb _ (ov_world o)) eqn:E; [done|]. destruct Ho as [H1 H2 H3]. split; cbn.
  - by rewrite H1, length_app, Nat.add_1_r, seq_S.
  - rewrite map_app. constructor; [done|]. rewrite <- E. clear.
    induction (ov_world o) as [|d l IH]; [done|]. cbn. by rewrite IH.
  - apply Forall_app. by repeat constructor.
Qed.

(** States of helper classes that keep well formed. *)
Definition keeps_ok (h h' : cpp_helper_class) : Prop := helper_ok h -> helper_ok h'.
#[export] Instance keeps_ok_preorder : PreOrder keeps_ok.
Proof. split; [by intros h H|]. intros h1 h2 h3 H1 H2 H. by apply H2, H1. Qed.

Lemma keeps_callers name o h :
  callers_ok name o -> keeps_ok h (set_callers (<[name := o]> (he_virtual_parent_callers h)) h).
Proof. intros Ho [H1 H2 H3 H4]. split; [done..|]. cbn. by apply map_Forall_insert_2. Qed.

Lemma keeps_add_caller c : evolves keeps_ok (add_virtual_parent_caller classes c).
Proof.
  intros h. unfold add_virtual_parent_caller, overload_named. set (name := cm_method_name _).
  assert (forall o h', callers_ok name o -> keeps_ok h h' ->
    keeps_ok h (set_callers (<[name := overload_caller c o]> (he_virtual_parent_callers h')) h')) as Hadd.
  { intros o h' Ho Hh. etransitivity; [exact Hh|]. by apply keeps_callers, overload_caller_ok. }
  unfold st_bind, st_get, st_modify, st_lift, st_ret.
  destruct (he_virtual_parent_callers h !! name) as [o|] eqn:E; cbn.
  - intros Hh. apply Hadd; [|done..]. apply (map_Forall_lookup_1 _ _ _ _ (ho_callers _ Hh) E).
  - destruct (the_class _ _) as [view|]; cbn [fst]; [|reflexivity].
    destruct (get_pystruct view) as [p|]; cbn [fst]; [|reflexivity].
    assert (callers_ok name (new_overload p)) as Hnew by (split; cbn; constructor).
    apply (Hadd (new_overload p) (set_callers (<[name := new_overload p]> (he_virtual_parent_callers h)) h));
      [done|]. by apply keeps_callers.
Qed.

(** Adding a parent caller does not touch the virtual methods and proxies. *)
Definition same_virtuals (h h' : cpp_helper_class) : Prop :=
  he_virtual_methods h' = he_virtual_methods h /\ he_virtual_proxies h' = he_virtual_proxies h.
#[export] Instance same_virtuals_preorder : PreOrder same_virtuals.
Proof.
  split; [by intros h|]. intros h1 h2 h3 [H1 H2] [H3 H4]. split; congruence.
Qed.
Lemma virtuals_add_caller c : evolves same_virtuals (add_virtual_parent_caller classes c).
Proof.
  intros h. unfold add_virtual_parent_caller, overload_named, st_bind, st_get, st_modify, st_lift, st_ret.
  destruct (_ !! _); cbn; [done|]. destruct (the_class _ _) as [view|]; cbn; [|done].
  by destruct (get_pystruct view).
Qed.
Lemma evolves_parent_caller (R : relation cpp_helper_class) `{!PreOrder R} m :
  (forall c, evolves R (add_virtual_parent_caller classes c)) ->
  evolves R (add_parent_caller_of g classes no_kwargs new_param new_return on_error m).
Proof.
  intros Hc. unfold add_parent_caller_of. apply evolves_bind; [exact _|by apply evolves_get|]. intros h.
  apply evolves_bind; [exact _|by apply evolves_lift|]. intros c. apply Hc.
Qed.

Lemma keeps_new_virtual_method m :
  cm_is_virtual (wo_attrs m) = true -> forall h,
  existsb (matches_signature m) (he_virtual_methods h) = false ->
  keeps_ok h (add_new_virtual_method g classes no_kwargs new_param new_return on_error m h).1.
Proof.
  intros Hv h Hm. unfold add_new_virtual_method. unfold st_bind at 1, st_modify.
  set (h1 := set_virtual_methods _ h).
  assert (keeps_ok h h1) as H1.
  { intros [O1 O2 O3 O4]. split; cbn; [by constructor | by apply sublist_inserts_r | | done].
    apply Forall_app. by repeat constructor. }
  set (callers := st_when _ _).
  assert (keeps_ok h1 (callers h1).1) as H2.
  { subst callers. destruct (_ && _); cbn [st_when]; [|reflexivity].
    apply (evolves_parent_caller keeps_ok), keeps_add_caller. }
  assert (same_virtuals h1 (callers h1).1) as [V1 V2].
  { subst callers. destruct (_ && _); cbn [st_when]; [|reflexivity].
    apply (evolves_parent_caller same_virtuals), virtuals_add_caller. }
  unfold st_bind at 1. destruct (callers h1) as [h2 [[]|e]]; cbn [fst] in *; [|by transitivity h1].
  unfold st_bind, st_lift, new_virtual_proxy.
  destruct (CppVirtualMethodProxy_init g m empty_world) as [s [p|e]]; cbn [fst]; [|by transitivity h1].
  intros Hh. pose proof (H2 (H1 Hh)) as [O1 O2 O3 O4]. split; [done| |done..]. cbn.
  rewrite map_app, V1, V2. cbn. apply sublist_app; [apply (ho_proxies _ Hh) | by apply sublist_skip, sublist_nil].
Qed.

Lemma new_virtual_method_added m h h' :
  add_new_virtual_method g classes no_kwargs new_param new_return on_error m h = (h', Ok tt) ->
  he_virtual_methods h' = he_virtual_methods h ++ [m]
  /\ exists p, vx_method p = m /\ he_virtual_proxies h' = he_virtual_proxies h ++ [p].
Proof.
  intros E. unfold add_new_virtual_method in E. apply st_bind_Ok in E as (h1&[]&E1&E). injection E1 as <-.
  apply st_bind_Ok in E as (h2&[]&E2&E). apply st_bind_Ok in E as (h3&p&E3&E).
  assert (same_virtuals (set_virtual_methods (he_virtual_methods h ++ [m]) h) h2) as [V1 V2].
  { destruct (_ && _); cbn [st_when] in E2; [|by injection E2 as <-].
    pose proof (evolves_parent_caller same_virtuals m virtuals_add_caller) as H.
    specialize (H (set_virtual_methods (he_virtual_methods h ++ [m]) h)). by rewrite E2 in H. }
  unfold st_lift in E3. injection E3 as <- E3. injection E as <-. cbn. rewrite V1, V2. split; [done|].
  exists p. split; [|done]. unfold new_virtual_proxy in E3.
  destruct (CppVirtualMethodProxy_init _ _ _) as [s [q|e]]; [|done]. by injection E3 as <-.
Qed.

Lemma keeps_virtual_method m dummy :
  evolves keeps_ok (add_virtual_method g classes no_kwargs new_param new_return on_error m dummy).
Proof.
  intros h. unfold add_virtual_method, st_assert, st_bind, st_get.
  destruct (cm_is_virtual (wo_attrs m)) eqn:Hv; [|reflexivity]. destruct (bool_decide _); [|reflexivity]. cbn.
  destruct (existsb _ _) eqn:E; [reflexivity|]. destruct dummy.
  - destruct (cm_is_pure_virtual _); [|reflexivity]. by intros [].
  - by apply keeps_new_virtual_method.
Qed.

(** The ways a helper class is filled. *)
Inductive fills : cpp_helper_class -> cpp_helper_class -> Prop :=
  | fills_virtual m dummy h :
      fills h (add_virtual_method g classes no_kwargs new_param new_return on_error m dummy h).1
  | fills_caller c h : fills h (add_virtual_parent_caller classes c h).1
  | fills_custom declaration body h : fills h (add_custom_method declaration body h)
  | fills_code code h : fills h (add_post_generation_code code h).

Lemma fills_keeps h h' : rtc fills h h' -> keeps_ok h h'.
Proof.
  induction 1 as [|h h1 h' H _ IH]; [reflexivity|]. etransitivity; [|exact IH].
  destruct H; [apply keeps_virtual_method | apply keeps_add_caller | by intros [] ..].
Qed.

(** Members of a helper class.  Whatever is added to a new helper class, whether the
    additions succeed or raise, its virtual methods have pairwise different
    signatures, its proxies override some of them, each once, and the parent callers
    of a name have pairwise different signatures too; and after a virtual method was
    added, a method with its signature is there, with its proxy if it was new. *)
Theorem helper_members_distinct (class_ : nat) (pystruct : string) (h : cpp_helper_class) (m : method) :
  rtc fills (CppHelperClass_init class_ pystruct) h ->
  helper_ok h
  /\ (forall i j p q, (i < j)%nat -> he_virtual_proxies h !! i = Some p -> he_virtual_proxies h !! j = Some q ->
       matches_signature (vx_method q) (vx_method p) = false)
  /\ (forall h', add_virtual_method g classes no_kwargs new_param new_return on_error m false h = (h', Ok tt) ->
       existsb (matches_signature m) (he_virtual_methods h') = true
       /\ (existsb (matches_signature m) (he_virtual_methods h) = false ->
           last (map vx_method (he_virtual_proxies h')) = Some m)).
Proof.
  intros Hf. assert (helper_ok h) as Hh by (apply (fills_keeps _ _ Hf), helper_ok_init).
  split_and!; [done| |].
  - intros i j p q Hij Hi Hj.
    apply (distinct_signatures_at _ (distinct_signatures_sublist _ _ (ho_methods _ Hh) (ho_proxies _ Hh)) i j);
      [done | by rewrite list_lookup_fmap, Hi | by rewrite list_lookup_fmap, Hj].
  - intros h' E. unfold add_virtual_method, st_assert in E.
    destruct (cm_is_virtual (wo_attrs m)) eqn:Hv; [|done].
    destruct (bool_decide (is_Some _)); [|done]. cbn in E.
    destruct (existsb (matches_signature m) (he_virtual_methods h)) eqn:Ex; [by injection E as <-|].
    apply new_virtual_method_added in E as (->&p&Hp&->). split; [|intros _].
    + rewrite existsb_app. cbn. by rewrite matches_signature_refl, orb_true_r.
    + rewrite map_app. cbn [map]. by rewrite last_snoc, Hp.
Qed.
End members.

(** ** What the declaration says of pure virtual methods *)

Section declaration.
Context (g : settings) (store : list cpp_exception) (classes : list class_view)
  (trivial_class_return : return_handler -> bool)
  (handle_error : option (helper_wrapper -> pyexn -> bool))
  {so : SetOrder} {dict_order : DictOrder} (target : helper_target).
Local Abbreviation hgen := (cpp_helper_class * code_sink)%type.

(** The generators leave the methods of the proxies as they are. *)
Definition proxy_methods (h : cpp_helper_class) : list method := map vx_method (he_virtual_proxies h).
Definition same_methods (st st' : hgen) : Prop := proxy_methods st'.1 = proxy_methods st.1.
#[local] Instance same_methods_preorder : PreOrder same_methods.
Proof. split; [by intros st|]. intros s1 s2 s3 H1 H2. unfold same_methods in *. congruence. Qed.

Lemma same_on_proxy {B} n (m : virtual_proxy -> ST gen (proxy * B)) : evolves same_methods (on_proxy n m).
Proof.
  intros st. unfold on_proxy. destruct (he_virtual_proxies st.1 !! n) as [v|] eqn:E; [|reflexivity].
  destruct (m _ _) as [gn r]. destruct (match r with Ok (p, b) => _ | Raise e => _ end) as [p r'].
  unfold same_methods, proxy_methods. cbn.
  rewrite list_fmap_insert. cbn. apply list_insert_id. by rewrite list_lookup_fmap, E.
Qed.
Lemma same_on_callers {B} name (m : ST (overloaded parent_callers * code_sink) B) :
  evolves same_methods (on_callers name m).
Proof.
  intros st. unfold on_callers. destruct (_ !! name) as [o|]; [|reflexivity]. by destruct (m _) as [[o' k] r].
Qed.
Lemma same_into_nothing {B} (m : ST hgen B) :
  evolves same_methods m -> evolves same_methods (into_nothing m).
Proof.
  intros Hm st. unfold into_nothing. specialize (Hm (st.1, NullCodeSink)). by destruct (m _) as [[h k] r].
Qed.
Lemma same_sink {B} (m : ST code_sink B) : evolves same_methods (on_snd m).
Proof. intros st. unfold on_snd. by destruct (m st.2). Qed.
Lemma same_attempt {B} w (m : ST hgen B) :
  evolves same_methods m -> evolves same_methods (attempt (helper_handler_of handle_error w) m).
Proof.
  intros Hm. unfold attempt, call_with_error_handling, helper_handler_of. apply evolves_catch; [exact _| |].
  - apply evolves_bind; [exact _| |intros _; apply evolves_ret; exact _].
    destruct handle_error; cbn; [|done]. apply evolves_catch; [exact _|done|]. intros e.
    destruct (default_exceptions e); [|apply evolves_raise; exact _].
    apply evolves_bind; [exact _|apply evolves_ret; exact _|]. intros []; apply evolves_raise; exact _.
  - intros e. destruct e; (apply evolves_raise; exact _) || (apply evolves_ret; exact _).
Qed.

Ltac same_step :=
  match goal with
  | |- forall _, _ => intros ?
  | |- evolves _ (st_bind _ _) => apply evolves_bind; [exact _|..]
  | |- evolves _ (st_ret _) => apply evolves_ret; exact _
  | |- evolves _ (st_lift _) => apply evolves_lift; exact _
  | |- evolves _ (st_get _) => apply evolves_get; exact _
  | |- evolves _ (st_when _ _) => apply evolves_when; [exact _|]
  | |- evolves _ (st_iter _ _) => apply evolves_iter; [exact _|]
  | |- evolves _ (st_finally _ _) => apply evolves_finally; [exact _|..]
  | |- evolves _ (attempt _ _) => apply same_attempt
  | |- evolves _ (into_nothing _) => apply same_into_nothing
  | |- evolves _ (on_proxy _ _) => apply same_on_proxy
  | |- evolves _ (on_callers _ _) => apply same_on_callers
  | |- evolves _ (on_snd _) => apply same_sink
  | |- evolves _ (sink_writeln _) => apply same_sink
  | |- evolves _ sink_indent => apply same_sink
  | |- evolves _ sink_unindent => apply same_sink
  | |- evolves _ (if _ then _ else _) => apply evolves_if
  end.

Lemma same_declare_callers name :
  evolves same_methods (declare_callers classes handle_error name).
Proof. unfold declare_callers, reset_callers, generate_callers. repeat same_step. Qed.
Lemma same_declare_proxy n :
  evolves same_methods (declare_virtual_proxy g store classes trivial_class_return handle_error n).
Proof.
  unfold declare_virtual_proxy, reset_proxy, generate_proxy, proxy_is_pure_virtual, declare_proxy.
  repeat same_step.
Qed.

(** Whether the proxy number [n] can be generated from a state, by the test run. *)
Definition test_proxy (n : nat) (st : hgen) : res bool :=
  (attempt (helper_handler_of handle_error (ProxyNumber n))
     (into_nothing (generate_proxy g store classes trivial_class_return n)) st).2.
Definition pure_virtual_at (h : cpp_helper_class) (n : nat) : Prop :=
  exists m, proxy_methods h !! n = Some m /\ cm_is_pure_virtual (wo_attrs m) = true.

Lemma proxy_is_pure_at n (st st1 : hgen) b :
  same_methods st st1 -> (proxy_is_pure_virtual n st1).2 = Ok b -> b = true <-> pure_virtual_at st.1 n.
Proof.
  unfold proxy_is_pure_virtual, st_get, pure_virtual_at. cbn. intros <- [= <-].
  unfold proxy_methods. rewrite list_lookup_fmap.
  destruct (he_virtual_proxies st1.1 !! n) as [v|]; cbn; [|split; [done|by intros (?&?&_)]].
  split; [intros Hv; by exists (vx_method v) | by intros (m&[= <-]&Hm)].
Qed.

Lemma same_methods_trans st st1 st2 : same_methods st st1 -> same_methods st1 st2 -> same_methods st st2.
Proof. intros H1 H2. by transitivity st1. Qed.
Lemma same_reset n st : same_methods st (reset_proxy n st).1.
Proof. unfold reset_proxy. apply (same_on_proxy (B:=unit)). Qed.
Lemma pure_virtual_same st st1 n : same_methods st st1 -> pure_virtual_at st1.1 n <-> pure_virtual_at st.1 n.
Proof. intros E. unfold pure_virtual_at. by rewrite E. Qed.

(** The outcome of a proxy is that of its test run, in the state the loop is in. *)
Lemma declare_virtual_proxy_result n st st' b :
  declare_virtual_proxy g store classes trivial_class_return handle_error n st = (st', Ok b) ->
  exists ok, test_proxy n (reset_proxy n st).1 = Ok ok /\ (b = false <-> ok = false /\ pure_virtual_at st.1 n).
Proof.
  intros E. unfold declare_virtual_proxy in E. apply st_bind_Ok in E as (s1&[]&E1&E).
  apply st_bind_Ok in E as (s2&pure&E2&E). apply st_bind_Ok in E as (s3&ok&E3&E).
  pose proof (same_reset n st) as H1. rewrite E1 in H1 |- *. cbn [fst] in *.
  assert (s2 = s1) as -> by (unfold proxy_is_pure_virtual, st_get in E2; congruence).
  assert ((proxy_is_pure_virtual n s1).2 = Ok pure) as E2' by by rewrite E2.
  pose proof (proxy_is_pure_at n st s1 pure H1 E2') as Hp.
  exists ok. split.
  - unfold st_finally in E3. unfold test_proxy. destruct (attempt _ _ s1) as [s r]. cbn.
    destruct (reset_proxy n s) as [s' [[]|]]; [|discriminate]. congruence.
  - rewrite <- Hp. destruct ok.
    + apply st_bind_Ok in E as (s4&[]&_&E). apply st_bind_Ok in E as (s5&[]&_&E). injection E as _ <-.
      by split; [|intros [? _]].
    + injection E as _ <-. destruct pure; cbn; split; try done; by intros [_ ?].
Qed.

(** What the test run of a proxy gives after the loop went through the ones before it. *)
Definition tried_after (before : list nat) (n : nat) (st : hgen) : res bool :=
  test_proxy n
    (reset_proxy n (declare_proxies g store classes trivial_class_return handle_error before st).1).1.

Lemma declare_proxies_result ns : forall st st' b,
  declare_proxies g store classes trivial_class_return handle_error ns st = (st', Ok b) ->
  if b then forall before n after, ns = before ++ n :: after ->
              tried_after before n st = Ok true
              \/ (tried_after before n st = Ok false /\ ~ pure_virtual_at st.1 n)
  else exists before n after, ns = before ++ n :: after
         /\ tried_after before n st = Ok false /\ pure_virtual_at st.1 n.
Proof.
  induction ns as [|n ns IH]; intros st st' b E.
  - injection E as _ <-. intros [|? l] k r; discriminate.
  - cbn in E. apply st_bind_Ok in E as (s1&ok&E1&E).
    pose proof (same_declare_proxy n st) as H1. rewrite E1 in H1. cbn in H1.
    destruct (declare_virtual_proxy_result _ _ _ _ E1) as (t&Ht&Hok).
    destruct ok.
    + specialize (IH _ _ _ E).
      assert (forall l k, tried_after (n :: l) k st = tried_after l k s1) as Hl.
      { intros l k. unfold tried_after. cbn. unfold st_bind at 1. by rewrite E1. }
      destruct b.
      * intros [|k l] m r; intros [= <- ->].
        -- change (tried_after [] n st) with (test_proxy n (reset_proxy n st).1). rewrite Ht.
           destruct t; [by left|]. right. split; [done|]. intros Hv. by discriminate (proj2 Hok (conj eq_refl Hv)).
        -- rewrite Hl, <- (pure_virtual_same st s1) by done. by eapply IH.
      * destruct IH as (l&k&r&->&Hf&Hv). exists (n :: l), k, r. rewrite Hl. split_and!; [done..|].
        by apply (pure_virtual_same st s1).
    + injection E as <- <-. destruct Hok as [[-> Hv] _]; [done|]. by exists [], n, ns.
Qed.

Lemma same_replicate name ps : evolves same_methods (replicate_constructor target name ps).
Proof. unfold replicate_constructor. repeat same_step. Qed.
Lemma same_head name : evolves same_methods (declare_head target name).
Proof.
  unfold declare_head. repeat (same_step || (intros; apply same_replicate)).
Qed.

(** The state in which the loop over the proxies starts, once the head of the
    class and the parent callers are declared. *)
Definition declare_callers_first : ST hgen unit :=
  names <- caller_names ;; st_iter (declare_callers classes handle_error) names.
Definition proxies_start (st : hgen) : hgen :=
  (declare_callers_first (declare_head target (he_name st.1) st).1).1.
(** Whether the proxy number [n] could be generated when its turn came. *)
Definition proxy_tried (h : cpp_helper_class) (n : nat) : res bool :=
  tried_after (seq 0 n) n (proxies_start (h, MemoryCodeSink)).

Lemma seq_split_at len n : (n < len)%nat -> seq 0 len = seq 0 n ++ n :: seq (S n) (len - S n).
Proof. intros Hn. replace len with (n + S (len - S n))%nat at 1 by lia. by rewrite seq_app. Qed.
Lemma seq_split_inv len l n r : seq 0 len = l ++ n :: r -> l = seq 0 n /\ (n < len)%nat.
Proof.
  intros E. assert (length l < len)%nat as Hl.
  { apply (f_equal length) in E. rewrite length_seq, length_app in E. cbn in E. lia. }
  assert (n = length l) as ->.
  { apply (f_equal (fun l' => l' !! length l)) in E. rewrite list_lookup_middle in E by done.
    apply lookup_seq in E. lia. }
  split; [|done]. rewrite (seq_split_at len (length l)) in E by done.
  apply app_inj_1 in E as [E _]; [done|]. apply length_seq.
Qed.

Lemma declare_members_result st st' b :
  ht_import_from_module target = false ->
  declare_members g store classes trivial_class_return handle_error target st = (st', Ok b) ->
  let start := (declare_callers_first st).1 in
  if b then forall n, (n < length (he_virtual_proxies st.1))%nat ->
              tried_after (seq 0 n) n start = Ok true
              \/ (tried_after (seq 0 n) n start = Ok false /\ ~ pure_virtual_at st.1 n)
  else exists n, (n < length (he_virtual_proxies st.1))%nat
         /\ tried_after (seq 0 n) n start = Ok false /\ pure_virtual_at st.1 n.
Proof.
  intros Hi E. unfold declare_members in E. rewrite Hi in E.
  apply st_bind_Ok in E as (s0&names&E0&E). apply st_bind_Ok in E as (s1&[]&E1&E).
  assert (declare_callers_first st = (s1, Ok tt)) as -> by (unfold declare_callers_first, st_bind; by rewrite E0).
  injection E0 as <- _. cbn [fst].
  assert (same_methods st s1) as H1.
  { pose proof (evolves_iter same_methods (declare_callers classes handle_error) names
      (fun name => same_declare_callers name) st) as H. by rewrite E1 in H. }
  apply st_bind_Ok in E as (s2&ns&E2&E). injection E2 as <- <-.
  apply st_bind_Ok in E as (s2&ok&E2&E). apply declare_proxies_result in E2.
  assert (length (he_virtual_proxies s1.1) = length (he_virtual_proxies st.1)) as Hlen.
  { apply (f_equal length) in H1. unfold proxy_methods in H1. by rewrite !length_map in H1. }
  rewrite Hlen in E2. destruct ok.
  - apply st_bind_Ok in E as (s3&cs&_&E). apply st_bind_Ok in E as (s4&[]&_&E). injection E as _ <-.
    intros n Hn. rewrite <- (pure_virtual_same st s1) by done. by eapply E2, seq_split_at.
  - injection E as _ <-. destruct E2 as (l&n&r&El&H&Hp). apply seq_split_inv in El as [-> Hn].
    exists n. split_and!; [done..|]. by apply (pure_virtual_same st s1).
Qed.

Lemma declaration_members (h0 : cpp_helper_class) h k b :
  ht_import_from_module target = false ->
  generate_helper_declaration g store classes trivial_class_return handle_error target
    (h0, MemoryCodeSink) = ((h, k), Ok b) ->
  if b then forall n, (n < length (he_virtual_proxies h0))%nat ->
              proxy_tried h0 n = Ok true \/ (proxy_tried h0 n = Ok false /\ ~ pure_virtual_at h0 n)
  else exists n, (n < length (he_virtual_proxies h0))%nat
         /\ proxy_tried h0 n = Ok false /\ pure_virtual_at h0 n.
Proof.
  intros Hi Eg. unfold generate_helper_declaration in Eg.
  apply st_bind_Ok in Eg as (s1&name&E1&E). injection E1 as <- <-.
  apply st_bind_Ok in E as (s1&[]&E1&E). cbn [fst] in E1.
  pose proof (same_head (he_name h0) (h0, MemoryCodeSink)) as H1. rewrite E1 in H1. cbn [fst] in H1.
  apply st_bind_Ok in E as (s2&ok&E2&E). apply declare_members_result in E2; [|done].
  assert (ok = b) as ->.
  { destruct ok; [|by injection E]. apply st_bind_Ok in E as (s3&[]&_&E).
    apply st_bind_Ok in E as (s4&[]&_&E). apply st_bind_Ok in E as (s5&[]&_&E). by injection E. }
  assert (forall n, proxy_tried h0 n = tried_after (seq 0 n) n (declare_callers_first s1).1) as Ht
    by (intros n; unfold proxy_tried, proxies_start; cbn [fst]; by rewrite E1).
  assert (length (he_virtual_proxies s1.1) = length (he_virtual_proxies h0)) as Hlen.
  { apply (f_equal length) in H1. unfold proxy_methods in H1. by rewrite !length_map in H1. }
  rewrite Hlen in E2. destruct b.
  - intros n Hn. rewrite Ht, <- (pure_virtual_same (h0, MemoryCodeSink) s1) by done. by apply E2.
  - destruct E2 as (n&Hn&H&Hp). exists n. rewrite Ht. split_and!; [done..|].
    by apply (pure_virtual_same (h0, MemoryCodeSink) s1).
Qed.

End declaration.

(** ** Examples *)

(** A pure virtual method [bar] of the class of the example of [CppMethod]. *)
Definition demo_virtual (pure : bool) : method :=
  Obj (MkForward (Some demo_proxy_return) [] (MkWrapper ForwardWrapper 0 0 1 2) None false false
         (VBool false) None None None true no_hook no_hook no_hook)
    (MethodAttrs "bar" false true pure true "public" [] "bar" (Some 0%nat) None None
       (Some "_wrap_PyNsFoo_bar") [] []) empty_world.
Definition demo_new_param (_ : list (@spec_item pyval unit)) (_ : unit) : ST world param_handler :=
  st_raise TypeError.
Definition demo_new_return (_ : list (@spec_item pyval unit)) (_ : unit) : ST world return_handler :=
  st_raise TypeError.
Definition demo_helper (pure : bool) : cpp_helper_class :=
  (add_virtual_method default_settings [demo_class] tt demo_new_param demo_new_return None
     (demo_virtual pure) false (CppHelperClass_init 0 "PyNsFoo")).1.
Definition demo_target : helper_target := HelperTarget "ns::Foo" false [[]].

Lemma helper_members_distinct_witness :
  helper_ok (demo_helper true)
  /\ last (map vx_method (he_virtual_proxies (demo_helper true))) = Some (demo_virtual true).
Proof.
  destruct (helper_members_distinct default_settings [demo_class] tt demo_new_param demo_new_return None
    0 "PyNsFoo" (demo_helper true) (demo_virtual true)) as [Hok _].
  { eapply rtc_l; [apply fills_virtual | apply rtc_refl]. }
  destruct (helper_members_distinct default_settings [demo_class] tt demo_new_param demo_new_return None
    0 "PyNsFoo" (CppHelperClass_init 0 "PyNsFoo") (demo_virtual true) (rtc_refl _ _)) as (_&_&H).
  split; [exact Hok|]. apply (H (demo_helper true)); [|reflexivity]. vm_compute. reflexivity.
Defined.

Definition demo_declared (g : settings) (k : code_sink) :=
  helper_forward_declarations g [] [demo_class] (fun _ => false) None demo_target (demo_helper true, k).
