(* ===== verification/MemoryPolicy.v ===== *)
(** * Memory policies: the [MemoryPolicy] classes of [pybindgen/cppclass.py]

    How the objects of a C++ class are freed and, if the class counts references,
    how references are taken and dropped.  The class hierarchy is a sum type. *)
From S2P Require Import Prelude.
From S2P Require Import CodeSink.
From S2P Require Import CodeBlock.

(** The names may be [None], which is what the formatting of the code then shows. *)
Inductive memory_policy : Type :=
  | ReferenceCountingMethodsPolicy (incref_method decref_method peekref_method : option string)
  | ReferenceCountingFunctionsPolicy (incref_function decref_function peekref_function : option string)
  | FreeFunctionPolicy (free_function : string).

(** [isinstance(policy, ReferenceCountingPolicy)] *)
Definition is_reference_counting (policy : option memory_policy) : bool :=
  match policy with
  | Some (ReferenceCountingMethodsPolicy _ _ _) | Some (ReferenceCountingFunctionsPolicy _ _ _) => true
  | Some (FreeFunctionPolicy _) | None => false
  end.

(** The statement that calls a method or a function on an object. *)
Definition method_statement (obj_expr : string) (method : option string) : string :=
  obj_expr +:+ "->" +:+ str_opt method +:+ "();".
Definition function_statement (function : option string) (obj_expr : string) : string :=
  str_opt function +:+ "(" +:+ obj_expr +:+ ");".

(** A policy without reference counting has no such method. *)
Definition write_incref (policy : option memory_policy) (code_block : nat) (obj_expr : string)
    : ST heap unit :=
  match policy with
  | Some (ReferenceCountingMethodsPolicy incref _ _) =>
      write_code code_block (method_statement obj_expr incref)
  | Some (ReferenceCountingFunctionsPolicy incref _ _) =>
      write_code code_block (function_statement incref obj_expr)
  | Some (FreeFunctionPolicy _) | None => st_raise AttributeError
  end.

Definition write_decref (policy : option memory_policy) (code_block : nat) (obj_expr : string)
    : ST heap unit :=
  match policy with
  | Some (ReferenceCountingMethodsPolicy _ decref _) =>
      write_code code_block (method_statement obj_expr decref)
  | Some (ReferenceCountingFunctionsPolicy _ decref _) =>
      write_code code_block (function_statement decref obj_expr)
  | Some (FreeFunctionPolicy _) | None => st_raise AttributeError
  end.

Definition get_free_code (policy : memory_policy) (obj_expr : string) : string :=
  match policy with
  | ReferenceCountingMethodsPolicy _ decref _ => method_statement obj_expr decref
  | ReferenceCountingFunctionsPolicy _ decref _ => function_statement decref obj_expr
  | FreeFunctionPolicy free => function_statement (Some free) obj_expr
  end.
