(* ===== verification/ClassHandlers.v ===== *)
(** * Handlers of C++ class types: [pybindgen/cppclass_typehandlers.py]

    The handlers of values, references and pointers of a wrapped class, as
    parameters and as return values.  A handler works for the class as it is when
    the code is generated ([handler_class]); its [py_name] attribute is in the
    world, under its position in the wrapper.  The custodians of the module are in
    [Custodians]. *)
From S2P Require Import Prelude.
From S2P Require Import CodeSink.
From S2P Require Import CodeBlock.
From S2P Require Import Wrapper.
From S2P Require Import CTypeParser.
From S2P Require Import TypeHandler.
From S2P Require Import HandlerOps.
From S2P Require Import NumericTypes.
From S2P Require Import WrapperBase.
From S2P Require Import Custodians.
From S2P Require Import MemoryPolicy.
From S2P Require Import WrapperRegistry.
From S2P Require Import CppMethod.

(** ** What the handlers use of a class *)

Record handler_class : Type := HandlerClass {
  kc_view : class_view;
  kc_allow_subclassing : bool;
  kc_automatic_type_narrowing : bool;
  kc_memory_policy : option memory_policy;
  kc_typeid_map_name : option string;
  kc_wrapper_registry : res wrapper_registry;
  kc_implicit_conversions : list class_view;
  kc_has_copy_constructor : bool
}.

(** The object of a wrapper. *)
Definition obj_of (py_name : string) : string := py_name +:+ "->obj".
Definition flags_none_of (py_name : string) : string :=
  py_name +:+ "->flags = PYBINDGEN_WRAPPER_FLAG_NONE;".

(** [m] between an indentation of a block and its end. *)
Definition indented (i : nat) (m : ST heap unit) : ST heap unit :=
  block_indent i ;;; m ;;; block_unindent i.
Definition indented_world (i : nat) (m : ST world unit) : ST world unit :=
  on_heap (block_indent i) ;;; m ;;; on_heap (block_unindent i).

(** [try: m except NotSupportedError]: whether [m] was supported. *)
Definition supported {S} (m : ST S unit) : ST S bool :=
  st_catch (m ;;; st_ret true)
    (fun e => match e with NotSupportedError => st_ret false | _ => st_raise e end).

Section handler_class.
Context (K : handler_class).

Definition c_name : string := cv_name (kc_view K).
Definition c_full_name : string := cv_full_name (kc_view K).
Definition c_pytypestruct : string := cv_pytypestruct (kc_view K).
Definition c_pystruct {S} : ST S string := st_lift (get_pystruct (kc_view K)).
Definition counts_references : bool := is_reference_counting (kc_memory_policy K).

Definition new_func : string :=
  if kc_allow_subclassing K then "PyObject_GC_New" else "PyObject_New".

(** The Python wrapper object is created. *)
Definition write_new (i : nat) (py_name wrapper_type : string) : ST heap unit :=
  pystruct <- c_pystruct ;;
  write_code i (py_name +:+ " = " +:+ new_func +:+ "(" +:+ pystruct +:+ ", " +:+ wrapper_type +:+ ");").
Definition write_inst_dict (i : nat) (py_name : string) : ST heap unit :=
  st_when (kc_allow_subclassing K) (write_code i (py_name +:+ "->inst_dict = NULL;")).

Definition register_new_wrapper (i : nat) (py_name : string) : ST heap unit :=
  r <- st_lift (kc_wrapper_registry K) ;;
  write_register_new_wrapper r i py_name (obj_of py_name).

(** The wrapper gets a new object, which is registered. *)
Definition write_new_object (i : nat) (py_name parameters : string) : ST heap unit :=
  write_create_instance (kc_view K) i (obj_of py_name) parameters None ;;;
  register_new_wrapper i py_name ;;;
  write_post_instance_creation_code (kc_view K) i (obj_of py_name) parameters None.

(** ** [common_shared_object_return] *)

Section shared_object_return.
Context (value py_name : string) (i : nat) (type_traits : type_traits)
  (caller_owns_return reference_existing_object type_is_pointer : bool).

Definition value_value : string := if type_is_pointer then "(*" +:+ value +:+ ")" else value.
Definition value_ptr : string := if type_is_pointer then value else "(&" +:+ value +:+ ")".

Definition narrows (owned : bool) : bool :=
  kc_automatic_type_narrowing K && (owned || counts_references).

(** The type object of the new wrapper. *)
Definition return_wrapper_type : ST heap string :=
  if narrows caller_owns_return then
    wrapper_type <- block_declare_variable i "PyTypeObject*" "wrapper_type" (Some "0") None ;;
    write_code i (wrapper_type +:+ " = " +:+ str_opt (kc_typeid_map_name K) +:+ ".lookup_wrapper(typeid("
                  +:+ value_value +:+ "), &" +:+ c_pytypestruct +:+ ");") ;;;
    st_ret wrapper_type
  else st_ret ("&" +:+ c_pytypestruct).

(** [obj = value_ptr], casting constness away with the given spacing. *)
Definition assign_object (star : string) : ST heap unit :=
  write_code i (obj_of py_name +:+ " = "
    +:+ (if target_is_const type_traits
         then "(" +:+ c_full_name +:+ star +:+ ") (" +:+ value_ptr +:+ ")" else value_ptr) +:+ ";").

(** "Assign the C++ value to the Python wrapper" *)
Definition write_object : ST heap unit :=
  if caller_owns_return then
    assign_object " *" ;;; write_code i (flags_none_of py_name)
  else if negb counts_references then
    if reference_existing_object then
      assign_object " *" ;;;
      write_code i (py_name +:+ "->flags = PYBINDGEN_WRAPPER_FLAG_OBJECT_NOT_OWNED;")
    else
      write_create_instance (kc_view K) i (obj_of py_name) value_value None ;;;
      write_code i (flags_none_of py_name) ;;;
      write_post_instance_creation_code (kc_view K) i (obj_of py_name) value_value None
  else
    write_code i (flags_none_of py_name) ;;;
    write_incref (kc_memory_policy K) i value_ptr ;;;
    assign_object "*".

Definition return_create_new_wrapper : ST heap unit :=
  wrapper_type <- return_wrapper_type ;;
  write_new i py_name wrapper_type ;;;
  write_inst_dict i py_name ;;;
  write_object.

Definition lookup_wrapper (value : string) : ST heap bool :=
  r <- st_lift (kc_wrapper_registry K) ;;
  pystruct <- c_pystruct ;;
  supported (write_lookup_wrapper r i pystruct py_name value).

Definition drop_reference : bool := caller_owns_return && counts_references.

(** The wrapper that is known, or a new one; a reference the caller passed on is
    dropped when the wrapper has one already. *)
Definition return_known_or_new : ST heap unit :=
  found <- lookup_wrapper value_ptr ;;
  if found : bool then
    write_code i ("if (" +:+ py_name +:+ " == NULL) {") ;;;
    indented i (return_create_new_wrapper ;;; register_new_wrapper i py_name) ;;;
    (if drop_reference then
       write_code i "} else {" ;;;
       indented i (write_decref (kc_memory_policy K) i value_ptr) ;;;
       write_code i "}"
     else write_code i "}")
  else
    return_create_new_wrapper ;;; register_new_wrapper i py_name.

(** An instance of the helper class knows its Python wrapper. *)
Definition return_from_helper (helper : string) : ST heap unit :=
  let const_cast_value :=
    if target_is_const type_traits
    then "const_cast<" +:+ c_full_name +:+ " *>(" +:+ value_ptr +:+ ") " else value_ptr in
  pystruct <- c_pystruct ;;
  write_code i (py_name +:+ " = reinterpret_cast< " +:+ pystruct +:+ "* >(reinterpret_cast< " +:+ helper
                +:+ "* >(" +:+ const_cast_value +:+ ")->m_pyself);") ;;;
  write_code i (obj_of py_name +:+ " = " +:+ const_cast_value +:+ ";") ;;;
  st_when drop_reference (write_decref (kc_memory_policy K) i value_ptr) ;;;
  write_code i ("Py_INCREF(" +:+ py_name +:+ ");").

Definition common_shared_object_return : ST heap unit :=
  match cv_helper_class (kc_view K) with
  | None => return_known_or_new
  | Some helper =>
      write_code i ("if (typeid(" +:+ value_value +:+ ").name() == typeid(" +:+ hc_name helper
                    +:+ ").name())" +:+ nls +:+ "{") ;;;
      indented i (return_from_helper (hc_name helper)) ;;;
      write_code i "} else {" ;;;
      indented i return_known_or_new ;;;
      write_code i "}"
  end.
End shared_object_return.

(** ** Parameters *)

(** A [TypeTransformation], applied to the handler: what it does with the scope,
    the block and the value it is given. *)
Record value_transformation : Type := ValueTransformation {
  vt_transform : nat -> nat -> string -> ST heap string;
  vt_untransform : nat -> nat -> string -> ST heap string
}.

Inductive class_param_kind : Type := CppClassParameter | CppClassRefParameter | CppClassPtrParameter.
#[export] Instance class_param_kind_eq_dec : EqDecision class_param_kind.
Proof. solve_decision. Defined.

Record class_param : Type := MkClassParam {
  cp_kind : class_param_kind;
  cp_param : param;
  cp_untransformed_ctype : string;
  cp_transformation : option value_transformation;
  cp_take_value_from_python_self : bool;
  cp_default_value_type : pyval;
  cp_custodian : option Z;
  cp_null_ok : bool
}.

Definition class_param_DIRECTIONS (k : class_param_kind) : list Z :=
  match k with CppClassParameter => IN_ONLY | _ => ALL_DIRECTIONS end.
Definition param_SUPPORTS_TRANSFORMATIONS (k : class_param_kind) : bool :=
  match k with CppClassPtrParameter => true | _ => false end.

(** [if ctype == self.cpp_class.name: ctype = self.cpp_class.full_name] *)
Definition fix_ctype (c : ctype_arg) : ctype_arg :=
  match c with
  | CString s => if String.eqb s c_name then CString c_full_name else c
  | CTraits _ => c
  end.

(** [CppClassParameterBase.__init__] *)
Definition class_param_init (k : class_param_kind) (c : ctype_arg) (name : string) (direction : Z)
    (is_const : bool) (default_value : pyval) : res class_param :=
  p <-? Parameter_init (class_param_DIRECTIONS k) (fix_ctype c) name direction is_const default_value ;;
  Ok (MkClassParam k p (p_ctype p) None false VNone None false).

Definition CppClassParameter_init : ctype_arg -> string -> Z -> bool -> pyval -> res class_param :=
  class_param_init CppClassParameter.

Definition CppClassRefParameter_init (c : ctype_arg) (name : string) (direction : Z)
    (is_const : bool) (default_value default_value_type : pyval) : res class_param :=
  p <-? class_param_init CppClassRefParameter c name direction is_const default_value ;;
  Ok (MkClassParam (cp_kind p) (cp_param p) (cp_untransformed_ctype p) None false default_value_type
        None false).

Definition with_ownership (transfer_ownership : bool) (p : param) : param :=
  MkParam (p_traits p) (p_name p) (p_value p) (p_direction p) (p_default_value p)
    (VBool transfer_ownership) (p_array_length p).

Definition CppClassPtrParameter_init (c : ctype_arg) (name : string) (direction : Z)
    (transfer_ownership : option bool) (custodian : option Z) (is_const null_ok : bool)
    (default_value : pyval) : res class_param :=
  p <-? class_param_init CppClassPtrParameter c name direction is_const default_value ;;
  match transfer_ownership, target_is_const (p_traits (cp_param p)) with
  | None, false => Raise TypeConfigurationError
  | _, _ =>
      Ok (MkClassParam (cp_kind p) (with_ownership (default false transfer_ownership) (cp_param p))
            (cp_untransformed_ctype p) None false VNone custodian null_ok)
  end.

(** [TypeHandler.set_transformation] *)
Definition set_param_transformation (t : value_transformation) (untransformed_ctype : string)
    (p : class_param) : res class_param :=
  if String.eqb untransformed_ctype (p_ctype (cp_param p)) then Raise AssertionError
  else match cp_transformation p with
       | Some _ => Raise AssertionError
       | None =>
           if param_SUPPORTS_TRANSFORMATIONS (cp_kind p)
           then Ok (MkClassParam (cp_kind p) (cp_param p) untransformed_ctype (Some t)
                      (cp_take_value_from_python_self p) (cp_default_value_type p) (cp_custodian p)
                      (cp_null_ok p))
           else Raise AssertionError
       end.

(** [self.transformation.transform] and [untransform]; the null transformation
    leaves the value as it is. *)
Definition transform (t : option value_transformation) (scope block : nat) (value : string)
    : ST heap string :=
  match t with None => st_ret value | Some t => vt_transform t scope block value end.
Definition untransform (t : option value_transformation) (scope block : nat) (value : string)
    : ST heap string :=
  match t with None => st_ret value | Some t => vt_untransform t scope block value end.

Section parameter.
Context (position : Z) (self : class_param) (w : wrapper).
Local Abbreviation p := (cp_param self).
Local Abbreviation name := (p_name p).
Local Abbreviation default_value := (p_default_value p).

Definition sources : list class_view := kc_implicit_conversions K.

(** [self.py_name = wrapper.declarations.declare_variable(...)] *)
Definition declare_py_name (type_ base : string) (initializer : option string) : ST world string :=
  py_name <- declare w type_ base initializer None ;;
  set_py_name position py_name ;;;
  st_ret py_name.

(** A pointer to the Python structure of the class. *)
Definition declare_pystruct (base : string) (initializer : option string) : ST world string :=
  pystruct <- c_pystruct ;;
  declare_py_name (pystruct +:+ "*") base initializer.

(** The object in a wrapper, as the argument of the call. *)
Definition object_arg (pystruct py_name : string) : string :=
  "*((" +:+ pystruct +:+ " *) " +:+ py_name +:+ ")->obj".
Definition call_object (py_name : string) : ST world unit :=
  pystruct <- c_pystruct ;;
  call_add w (object_arg pystruct py_name).
Definition call_object_or (py_name other : string) : ST world unit :=
  pystruct <- c_pystruct ;;
  call_add w ("(" +:+ py_name +:+ " ? (" +:+ object_arg pystruct py_name +:+ ") : " +:+ other +:+ ")").

Definition parse_object (py_name : string) (optional : bool) : ST world unit :=
  parse_add "O!" ["&" +:+ c_pytypestruct; "&" +:+ py_name] (Some name) false optional.

(** "Fake" parameters take their value from [self]. *)
Definition value_from_self : ST world unit :=
  set_py_name position "self" ;;;
  call_object "self".

(** A required argument of the class itself. *)
Definition required_object : ST world unit :=
  py_name <- declare_pystruct name None ;;
  parse_object py_name false ;;;
  call_object py_name.

(** The value is copied from an instance of a class. *)
Definition copy_instance (opening : string) (py_name tmp_value_variable : string) (c : class_view)
    : ST world unit :=
  pystruct <- st_lift (get_pystruct c) ;;
  before_call_code w (opening +:+ "if (PyObject_IsInstance(" +:+ py_name +:+ ", (PyObject*) &"
    +:+ cv_pytypestruct c +:+ ")) {" +:+ nls +:+ "    " +:+ tmp_value_variable +:+ " = "
    +:+ object_arg pystruct py_name +:+ ";").

(** The instances of the classes that convert implicitly, and the error when the
    argument is none of these. *)
Definition convert_implicitly (py_name tmp_value_variable : string) : ST world unit :=
  st_iter (copy_instance "} else " py_name tmp_value_variable) sources ;;;
  before_call_code w ("} else {" +:+ nls) ;;;
  indented_world (w_before_call w)
    (before_call_code w ("PyErr_Format(PyExc_TypeError, " +:+ dq
       +:+ "parameter must an instance of one of the types ("
       +:+ join ", " (c_name :: map cv_name sources) +:+ "), not %s" +:+ dq +:+ ", " +:+ py_name
       +:+ "->ob_type->tp_name);") ;;;
     on_heap (write_error_return (w_before_call w))) ;;;
  before_call_code w "}" ;;;
  call_add w tmp_value_variable.

(** [CppClassParameter.convert_python_to_c] *)
Definition CppClassParameter_convert_python_to_c : ST world unit :=
  assert_forward w ;;;
  if cp_take_value_from_python_self self then value_from_self
  else if bool_decide (sources = []) then
    if negb (is_none default_value) then
      st_lift (cv_get_construct_name (kc_view K)) ;;;
      py_name <- declare_pystruct name (Some "NULL") ;;
      parse_object py_name true ;;;
      call_object_or py_name (val_str default_value)
    else required_object
  else
    py_name <- declare_py_name "PyObject*" name
                 (if is_none default_value then None else Some "NULL") ;;
    tmp_value_variable <- declare w c_full_name name None None ;;
    parse_add "O" ["&" +:+ py_name] (Some name) false (negb (is_none default_value)) ;;;
    (if is_none default_value then
       copy_instance EmptyString py_name tmp_value_variable (kc_view K)
     else
       before_call_code w ("if (" +:+ py_name +:+ " == NULL) {" +:+ nls +:+ "    " +:+ tmp_value_variable
                           +:+ " = " +:+ val_str default_value +:+ ";") ;;;
       copy_instance "} else " py_name tmp_value_variable (kc_view K)) ;;;
    convert_implicitly py_name tmp_value_variable.

(** The new wrapper of a value that is passed to Python. *)
Definition declare_new_wrapper : ST world string :=
  py_name <- declare_pystruct ("py_" +:+ c_name) None ;;
  on_heap (write_new (w_before_call w) py_name ("&" +:+ c_pytypestruct)) ;;;
  on_heap (write_inst_dict (w_before_call w) py_name) ;;;
  before_call_code w (flags_none_of py_name) ;;;
  st_ret py_name.

(** [CppClassParameter.convert_c_to_python] *)
Definition CppClassParameter_convert_c_to_python : ST world unit :=
  assert_reverse w ;;;
  py_name <- declare_new_wrapper ;;
  on_heap (write_new_object (w_before_call w) py_name (p_value p)) ;;;
  build_add "N" [py_name] false.

(** [CppClassRefParameter.convert_python_to_c], by direction.  With implicit
    conversions a default value is ignored. *)
Definition ref_in : ST world unit :=
  if cp_take_value_from_python_self self then value_from_self
  else if negb (negb (bool_decide (sources = [])) && target_is_const (p_traits p)) then
    if negb (is_none default_value) then
      py_name <- declare_pystruct name (Some "NULL") ;;
      parse_object py_name true ;;;
      match cp_default_value_type self with
      | VStr type_ =>
          default_value_name <- declare_val w type_ (name +:+ "_default") default_value ;;
          call_object_or py_name default_value_name
      | VBool _ => on_heap (reserve_variable (w_declarations w) (name +:+ "_default")) ;;; st_raise TypeError
      | VNone =>
          st_lift (cv_get_construct_name (kc_view K)) ;;;
          call_object_or py_name (val_str default_value)
      end
    else required_object
  else
    py_name <- declare_py_name "PyObject*" name None ;;
    tmp_value_variable <- declare w c_full_name name None None ;;
    parse_add "O" ["&" +:+ py_name] (Some name) false false ;;;
    copy_instance EmptyString py_name tmp_value_variable (kc_view K) ;;;
    convert_implicitly py_name tmp_value_variable.

(** The wrapper is made before the call; two of its fields are set after it. *)
Definition ref_out : ST world unit :=
  st_assert (negb (cp_take_value_from_python_self self)) ;;;
  py_name <- declare_pystruct name None ;;
  on_heap (write_new (w_before_call w) py_name ("&" +:+ c_pytypestruct)) ;;;
  on_heap (write_inst_dict (w_after_call w) py_name) ;;;
  after_call_code w (flags_none_of py_name) ;;;
  on_heap (write_new_object (w_before_call w) py_name EmptyString) ;;;
  call_add w ("*" +:+ obj_of py_name) ;;;
  build_add "N" [py_name] false.

Definition ref_inout : ST world unit :=
  st_assert (negb (cp_take_value_from_python_self self)) ;;;
  py_name <- declare_pystruct name None ;;
  parse_object py_name false ;;;
  call_add w ("*" +:+ obj_of py_name).

Definition CppClassRefParameter_convert_python_to_c : ST world unit :=
  assert_forward w ;;;
  if p_direction p =? DIRECTION_IN then ref_in
  else if p_direction p =? DIRECTION_OUT then ref_out
  else if p_direction p =? DIRECTION_INOUT then ref_inout
  else st_ret tt.

(** After the call a wrapper that Python kept gets a copy of the object, if there
    is a copy constructor; else it loses the object. *)
Definition keep_copy (else_ : string) (create : ST heap unit) (py_name : string) : ST world unit :=
  if kc_has_copy_constructor K then
    after_call_code w ("if (" +:+ py_name +:+ "->ob_refcnt == 1)" +:+ nls +:+ "    " +:+ obj_of py_name
                       +:+ " = NULL;" +:+ nls +:+ else_ +:+ nls) ;;;
    on_heap (indented (w_after_call w) create) ;;;
    after_call_code w "}"
  else after_call_code w (obj_of py_name +:+ " = NULL;").

(** The callee of an [out] parameter works on the object itself. *)
Definition lend_object (py_name value : string) : ST world unit :=
  before_call_code w (obj_of py_name +:+ " = " +:+ value +:+ ";") ;;;
  build_add "O" [py_name] false ;;;
  on_heap (add_cleanup_code (w_before_call w) ("Py_DECREF(" +:+ py_name +:+ ");")) ;;;
  st_ret tt.

(** [CppClassRefParameter.convert_c_to_python] *)
Definition CppClassRefParameter_convert_c_to_python : ST world unit :=
  assert_reverse w ;;;
  py_name <- declare_new_wrapper ;;
  if p_direction p =? DIRECTION_IN then
    on_heap (write_new_object (w_before_call w) py_name (p_value p)) ;;;
    build_add "N" [py_name] false
  else
    lend_object py_name
      (if target_is_const (p_traits p)
       then "(" +:+ c_full_name +:+ "*) (&(" +:+ p_value p +:+ "))" else "&(" +:+ p_value p +:+ ")") ;;;
    keep_copy "else{" (write_new_object (w_after_call w) py_name (p_value p)) py_name.

(** [CppClassPtrParameter.convert_python_to_c] *)

Definition owned : bool := truth (p_transfer_ownership p).
Definition optional_ptr : bool := truth default_value.

(** [None] is accepted for a null pointer; the number of the item is in the message. *)
Definition parse_null_ok (py_name value_ptr : string) : ST world unit :=
  parse_add "O" ["&" +:+ py_name] (Some name) false optional_ptr ;;;
  num <- st_get (fun s => length (wd_parse_params s)) ;;
  before_call_check w
    (py_name +:+ " && ((PyObject *) " +:+ py_name +:+ " != Py_None) && !PyObject_IsInstance((PyObject *) "
     +:+ py_name +:+ ", (PyObject *) &" +:+ c_pytypestruct +:+ ")")
    (Some (set_error "PyExc_TypeError" ("Parameter " +:+ show_int (Z.of_nat num) +:+ " must be of type "
                                        +:+ c_name))) ;;;
  before_call_code w (join nls
    ["if (" +:+ py_name +:+ ") {";
     "    if ((PyObject *) " +:+ py_name +:+ " == Py_None)";
     "        " +:+ value_ptr +:+ " = NULL;";
     "    else";
     "        " +:+ value_ptr +:+ " = " +:+ obj_of py_name +:+ ";";
     "} else {";
     "    " +:+ value_ptr +:+ " = NULL;";
     "}"]).

Definition parse_ptr (py_name value_ptr : string) : ST world unit :=
  if cp_null_ok self then parse_null_ok py_name value_ptr
  else
    parse_object py_name optional_ptr ;;;
    before_call_code w (value_ptr +:+ " = (" +:+ py_name +:+ " ? " +:+ obj_of py_name +:+ " : NULL);").

(** The name of the wrapper, and the pointer to the object. *)
Definition ptr_value : ST world (string * string) :=
  if cp_take_value_from_python_self self then
    set_py_name position "self" ;;;
    st_ret ("self", "self->obj")
  else
    py_name <- declare_pystruct name (if optional_ptr then Some "NULL" else None) ;;
    value_ptr <- declare w (c_full_name +:+ "*") (name +:+ "_ptr") None None ;;
    parse_ptr py_name value_ptr ;;;
    st_ret (py_name, value_ptr).

(** A passed on object is no longer the wrapper's, or gets a reference more. *)
Definition pass_on (py_name : string) : ST heap unit :=
  if negb counts_references then
    write_code (w_after_call w) ("if (" +:+ py_name +:+ ") {") ;;;
    indented (w_after_call w)
      (r <- st_lift (kc_wrapper_registry K) ;;
       write_unregister_wrapper r (w_after_call w) py_name (obj_of py_name) ;;;
       write_code (w_after_call w) (obj_of py_name +:+ " = NULL;")) ;;;
    write_code (w_after_call w) "}"
  else
    write_code (w_before_call w) ("if (" +:+ py_name +:+ ") {") ;;;
    indented (w_before_call w) (write_incref (kc_memory_policy K) (w_before_call w) (obj_of py_name)) ;;;
    write_code (w_before_call w) "}".

Definition CppClassPtrParameter_convert_python_to_c : ST world unit :=
  assert_forward w ;;;
  ptr <- ptr_value ;;
  value <- on_heap (transform (cp_transformation self) (w_declarations w) (w_before_call w) ptr.2) ;;
  call_add w value ;;;
  st_when owned (on_heap (pass_on ptr.1)).

(** [CppClassPtrParameter.convert_c_to_python] *)
Section ptr_to_python.
Context (value py_name : string).

Definition param_wrapper_type : ST world string :=
  if kc_automatic_type_narrowing K && (owned || counts_references) then
    wrapper_type <- declare w "PyTypeObject*" "wrapper_type" (Some "0") None ;;
    before_call_code w (wrapper_type +:+ " = " +:+ str_opt (kc_typeid_map_name K)
                        +:+ ".lookup_wrapper(typeid(*" +:+ value +:+ "), &" +:+ c_pytypestruct +:+ ");") ;;;
    st_ret wrapper_type
  else st_ret ("&" +:+ c_pytypestruct).

(** The copy of an object; it is not registered. *)
Definition write_copy (i : nat) (parameters : string) : ST heap unit :=
  write_create_instance (kc_view K) i (obj_of py_name) parameters None ;;;
  write_post_instance_creation_code (kc_view K) i (obj_of py_name) parameters None.

(** The object, or a pointer to it that is not constant. *)
Definition unconst (value : string) : string :=
  if target_is_const (p_traits p) then "(" +:+ c_full_name +:+ "*) (" +:+ value +:+ ")" else value.

Definition write_param_object : ST world unit :=
  if owned then before_call_code w (obj_of py_name +:+ " = " +:+ value +:+ ";")
  else if negb counts_references then
    if p_direction p =? DIRECTION_IN then
      on_heap (write_copy (w_before_call w) ("*" +:+ p_value p))
    else
      lend_object py_name (unconst value) ;;;
      keep_copy "else {" (write_copy (w_after_call w) ("*" +:+ value)) py_name
  else
    on_heap (write_incref (kc_memory_policy K) (w_before_call w) value) ;;;
    before_call_code w (obj_of py_name +:+ " = " +:+ unconst value +:+ ";").

Definition param_create_new_wrapper : ST world unit :=
  wrapper_type <- param_wrapper_type ;;
  on_heap (write_new (w_before_call w) py_name wrapper_type) ;;;
  on_heap (write_inst_dict (w_before_call w) py_name) ;;;
  before_call_code w (flags_none_of py_name) ;;;
  write_param_object.

Definition create_and_register : ST world unit :=
  param_create_new_wrapper ;;;
  on_heap (register_new_wrapper (w_before_call w) py_name).

Definition param_known_or_new : ST world unit :=
  found <- on_heap (lookup_wrapper py_name (w_before_call w) value) ;;
  if found : bool then
    before_call_code w ("if (" +:+ py_name +:+ " == NULL)" +:+ nls +:+ "{") ;;;
    indented_world (w_before_call w) create_and_register ;;;
    before_call_code w "}"
  else create_and_register.

Definition param_from_helper (helper : string) : ST heap unit :=
  pystruct <- c_pystruct ;;
  (if target_is_const (p_traits p) then
     write_code (w_before_call w)
       (py_name +:+ " = (" +:+ pystruct +:+ "*) (((" +:+ helper +:+ "*) ((" +:+ c_full_name +:+ "*) "
        +:+ value +:+ "))->m_pyself);") ;;;
     write_code (w_before_call w)
       (obj_of py_name +:+ " =  (" +:+ c_full_name +:+ "*) (" +:+ value +:+ ");")
   else
     write_code (w_before_call w)
       (py_name +:+ " = (" +:+ pystruct +:+ "*) (((" +:+ helper +:+ "*) " +:+ value +:+ ")->m_pyself);") ;;;
     write_code (w_before_call w) (obj_of py_name +:+ " = " +:+ value +:+ ";")) ;;;
  write_code (w_before_call w) ("Py_INCREF(" +:+ py_name +:+ ");").

Definition ptr_param_wrapper : ST world unit :=
  match cv_helper_class (kc_view K) with
  | None => param_known_or_new
  | Some helper =>
      before_call_code w ("if (typeid(*(" +:+ value +:+ ")).name() == typeid(" +:+ hc_name helper
                          +:+ ").name())" +:+ nls +:+ "{") ;;;
      on_heap (indented (w_before_call w) (param_from_helper (hc_name helper))) ;;;
      before_call_code w "} else {" ;;;
      indented_world (w_before_call w) param_known_or_new ;;;
      before_call_code w "}"
  end.
End ptr_to_python.

(** The transformation works on the code after the call. *)
Definition CppClassPtrParameter_convert_c_to_python : ST world unit :=
  value <- on_heap (untransform (cp_transformation self) (w_declarations w) (w_after_call w)
                      (p_value p)) ;;
  py_name <- declare_pystruct ("py_" +:+ c_name) None ;;
  ptr_param_wrapper value py_name ;;;
  build_add "N" [py_name] false.

Definition class_param_convert_python_to_c : ST world unit :=
  match cp_kind self with
  | CppClassParameter => CppClassParameter_convert_python_to_c
  | CppClassRefParameter => CppClassRefParameter_convert_python_to_c
  | CppClassPtrParameter => CppClassPtrParameter_convert_python_to_c
  end.
Definition class_param_convert_c_to_python : ST world unit :=
  match cp_kind self with
  | CppClassParameter => CppClassParameter_convert_c_to_python
  | CppClassRefParameter => CppClassRefParameter_convert_c_to_python
  | CppClassPtrParameter => CppClassPtrParameter_convert_c_to_python
  end.
End parameter.

(** The handler of the parameter at a position of a wrapper. *)
Definition class_param_handler (position : Z) (self : class_param) : param_handler :=
  MkParamHandler (p_ctype (cp_param self)) (p_name (cp_param self))
    (class_param_convert_python_to_c position self) (class_param_convert_c_to_python position self)
    (cp_custodian self) true.

(** ** Return values *)

Inductive class_return_kind : Type := CppClassReturnValue | CppClassRefReturnValue | CppClassPtrReturnValue.

Record class_return : Type := MkClassReturn {
  cr_kind : class_return_kind;
  cr_traits : type_traits;
  cr_value : string;
  cr_untransformed_ctype : string;
  cr_transformation : option value_transformation;
  cr_REQUIRES_ASSIGNMENT_CONSTRUCTOR : bool;
  cr_caller_owns_return : option bool;
  cr_reference_existing_object : option bool;
  cr_return_internal_reference : option bool;
  cr_custodian : option Z
}.
Definition is_true (b : option bool) : bool := default false b.

Definition return_SUPPORTS_TRANSFORMATIONS (k : class_return_kind) : bool :=
  match k with CppClassPtrReturnValue => true | _ => false end.
(** The class attribute; the pointer handler has that of [ReturnValue]. *)
Definition requires_assignment (k : class_return_kind) : bool :=
  match k with CppClassPtrReturnValue => false | _ => true end.

Definition class_return_init (k : class_return_kind) (c : ctype_arg) (is_const : bool)
    (caller_owns_return reference_existing_object return_internal_reference : option bool)
    (custodian : option Z) : res class_return :=
  t <-? TypeHandler_init (fix_ctype c) is_const ;;
  Ok (MkClassReturn k t "retval" (show (tt_ctype t)) None (requires_assignment k) caller_owns_return
        reference_existing_object return_internal_reference custodian).

Definition CppClassReturnValue_init (c : ctype_arg) (is_const : bool) : res class_return :=
  class_return_init CppClassReturnValue c is_const None None None None.

(** An internal reference is a reference to an existing object, which the caller
    must not have asked for as well. *)
Definition existing_object (reference_existing_object return_internal_reference : option bool)
    : res (option bool) :=
  if is_true return_internal_reference then
    match reference_existing_object with None => Ok (Some true) | Some _ => Raise AssertionError end
  else Ok reference_existing_object.

Definition CppClassRefReturnValue_init (c : ctype_arg) (is_const : bool) (caller_owns_return : bool)
    (reference_existing_object return_internal_reference : option bool) : res class_return :=
  r <-? class_return_init CppClassRefReturnValue c is_const (Some caller_owns_return) None None None ;;
  existing <-? existing_object reference_existing_object return_internal_reference ;;
  Ok (MkClassReturn (cr_kind r) (cr_traits r) (cr_value r) (cr_untransformed_ctype r) None
        (cr_REQUIRES_ASSIGNMENT_CONSTRUCTOR r) (Some caller_owns_return) existing
        return_internal_reference None).

(** Constant objects are not the caller's unless it says so. *)
Definition CppClassPtrReturnValue_init (c : ctype_arg) (caller_owns_return : option bool)
    (custodian : option Z) (is_const : bool)
    (reference_existing_object return_internal_reference : option bool) : res class_return :=
  r <-? class_return_init CppClassPtrReturnValue c is_const None None None None ;;
  let owns := match caller_owns_return with
              | Some b => Some b
              | None => if target_is_const (cr_traits r) then Some false else None
              end in
  existing <-? existing_object reference_existing_object return_internal_reference ;;
  match owns, existing with
  | None, None => Raise TypeConfigurationError
  | _, _ =>
      Ok (MkClassReturn (cr_kind r) (cr_traits r) (cr_value r) (cr_untransformed_ctype r) None
            (cr_REQUIRES_ASSIGNMENT_CONSTRUCTOR r) owns existing return_internal_reference custodian)
  end.

Definition set_return_transformation (t : value_transformation) (untransformed_ctype : string)
    (r : class_return) : res class_return :=
  if String.eqb untransformed_ctype (show (tt_ctype (cr_traits r))) then Raise AssertionError
  else match cr_transformation r with
       | Some _ => Raise AssertionError
       | None =>
           if return_SUPPORTS_TRANSFORMATIONS (cr_kind r)
           then Ok (MkClassReturn (cr_kind r) (cr_traits r) (cr_value r) untransformed_ctype (Some t)
                      (cr_REQUIRES_ASSIGNMENT_CONSTRUCTOR r) (cr_caller_owns_return r)
                      (cr_reference_existing_object r) (cr_return_internal_reference r)
                      (cr_custodian r))
           else Raise AssertionError
       end.

Section return_value.
Context (self : class_return) (w : wrapper).
Local Abbreviation value := (cr_value self).
Local Abbreviation caller_owns := (is_true (cr_caller_owns_return self)).

(** [self.py_name = ...]; the return value is at position -1. *)
Definition declare_return_wrapper : ST world string :=
  pystruct <- c_pystruct ;;
  declare_py_name (-1) w (pystruct +:+ "*") ("py_" +:+ c_name) None.

(** A wrapper with a copy of the value. *)
Definition write_return_copy (py_name : string) : ST heap unit :=
  write_new (w_after_call w) py_name ("&" +:+ c_pytypestruct) ;;;
  write_inst_dict (w_after_call w) py_name ;;;
  write_code (w_after_call w) (flags_none_of py_name) ;;;
  write_new_object (w_after_call w) py_name value.

Definition CppClassReturnValue_convert_c_to_python : ST world unit :=
  py_name <- declare_return_wrapper ;;
  on_heap (write_return_copy py_name) ;;;
  build_add "N" [py_name] true.

Definition CppClassRefReturnValue_convert_c_to_python : ST world unit :=
  py_name <- declare_return_wrapper ;;
  on_heap (if is_true (cr_reference_existing_object self) || caller_owns
           then common_shared_object_return value py_name (w_after_call w) (cr_traits self) caller_owns
                  (is_true (cr_reference_existing_object self)) false
           else write_return_copy py_name) ;;;
  build_add "N" [py_name] true.

(** The object the Python wrapper of the result has, for values and references. *)
Definition parse_result : ST world string :=
  pystruct <- c_pystruct ;;
  name <- declare w (pystruct +:+ "*") ("tmp_" +:+ c_name) None None ;;
  parse_add "O!" ["&" +:+ c_pytypestruct; "&" +:+ name] None false false ;;;
  st_ret name.

Definition value_convert_python_to_c : ST world unit :=
  if type_is_reference (cr_traits self) then st_raise NotSupportedError
  else
    name <- parse_result ;;
    after_call_code w
      (if cr_REQUIRES_ASSIGNMENT_CONSTRUCTOR self
       then c_full_name +:+ " " +:+ value +:+ " = *" +:+ obj_of name +:+ ";"
       else value +:+ " = *" +:+ obj_of name +:+ ";").

(** A null pointer is returned as [None], with a return statement of its own. *)
Definition CppClassPtrReturnValue_convert_c_to_python : ST world unit :=
  value <- on_heap (untransform (cr_transformation self) (w_declarations w) (w_after_call w) value) ;;
  after_call_code w (join nls
    ["if (!(" +:+ value +:+ ")) {"; "    Py_INCREF(Py_None);"; "    return Py_None;"; "}"]) ;;;
  py_name <- declare_return_wrapper ;;
  on_heap (common_shared_object_return value py_name (w_after_call w) (cr_traits self) caller_owns
             (is_true (cr_reference_existing_object self)) true) ;;;
  build_add "N" [py_name] true.

(** [CppClassPtrReturnValue.convert_python_to_c]: the caller gets a copy.  The code
    has a branch for classes that cannot be copied, which is never reached: the
    module does not import the [CodeGenerationError] it would catch there, so that
    any exception becomes a [NameError]. *)
Definition give_copy (source : string) : ST heap unit :=
  st_catch (write_create_instance (kc_view K) (w_after_call w) value ("*" +:+ source) None)
    (fun _ => st_raise NameError) ;;;
  write_post_instance_creation_code (kc_view K) (w_after_call w) value ("*" +:+ source) None.

Definition give_reference (source : string) : ST heap unit :=
  write_incref (kc_memory_policy K) (w_after_call w) source ;;;
  write_code (w_after_call w)
    (value +:+ " = " +:+ (if target_is_const (cr_traits self)
                          then "const_cast< " +:+ c_full_name +:+ "* >(" +:+ source +:+ ")"
                          else source) +:+ ";").

Definition CppClassPtrReturnValue_convert_python_to_c : ST world unit :=
  name <- parse_result ;;
  source <- on_heap (transform (cr_transformation self) (w_declarations w) (w_after_call w)
                       (obj_of name)) ;;
  if caller_owns then
    on_heap (if negb counts_references then give_copy source else give_reference source)
  else after_call_code w ("// dangerous!" +:+ nls +:+ value +:+ " = " +:+ source +:+ ";").

Definition class_return_convert_c_to_python : ST world unit :=
  match cr_kind self with
  | CppClassReturnValue => CppClassReturnValue_convert_c_to_python
  | CppClassRefReturnValue => CppClassRefReturnValue_convert_c_to_python
  | CppClassPtrReturnValue => CppClassPtrReturnValue_convert_c_to_python
  end.
Definition class_return_convert_python_to_c : ST world unit :=
  match cr_kind self with
  | CppClassReturnValue | CppClassRefReturnValue => value_convert_python_to_c
  | CppClassPtrReturnValue => CppClassPtrReturnValue_convert_python_to_c
  end.
End return_value.

(** [get_c_error_return]; a reference has none. *)
Definition class_return_c_error_return (self : class_return) : res string :=
  match cr_kind self with
  | CppClassPtrReturnValue => Ok "return NULL;"
  | CppClassReturnValue | CppClassRefReturnValue =>
      if type_is_reference (cr_traits self) then Raise NotSupportedError
      else Ok ("return " +:+ c_full_name +:+ "();")
  end.

(** The handler of a return value. *)
Definition class_return_handler (self : class_return) : return_handler :=
  MkReturnHandler (show (tt_ctype (cr_traits self))) (show (tt_ctype_no_const (cr_traits self)))
    (cr_REQUIRES_ASSIGNMENT_CONSTRUCTOR self) (class_return_c_error_return self)
    (class_return_convert_python_to_c self) (class_return_convert_c_to_python self)
    (cr_custodian self) (is_true (cr_return_internal_reference self)) true.

(** ** Parameter lists

    How many items each handler adds to the lists of the wrapper, as items built
    and parsed and arguments of the call.  An [inout] reference builds nothing,
    since the object is changed in place. *)
Definition py2c_items (self : class_param) : nat * nat * nat :=
  match cp_kind self with
  | CppClassRefParameter =>
      if p_direction (cp_param self) =? DIRECTION_OUT then (1, 0, 1)%nat
      else if (p_direction (cp_param self) =? DIRECTION_IN) && cp_take_value_from_python_self self
      then (0, 0, 1)%nat else (0, 1, 1)%nat
  | _ => if cp_take_value_from_python_self self then (0, 0, 1)%nat else (0, 1, 1)%nat
  end.

(** An object that is lent to Python through a pointer is built twice. *)
Definition lends_pointer (self : class_param) : bool :=
  bool_decide (cp_kind self = CppClassPtrParameter) && negb (truth (p_transfer_ownership (cp_param self)))
  && negb counts_references && negb (p_direction (cp_param self) =? DIRECTION_IN).
Definition c2py_items (self : class_param) : nat * nat * nat :=
  (if lends_pointer self then 2 else 1, 0, 0)%nat.
End handler_class.

(** ** Contracts of the handlers *)

Lemma counts_set_py_name i n : add_params 0 0 0 (set_py_name i n).
Proof. intros s s' a [= <- _]. unfold counts; simpl. by rewrite !Nat.add_0_r. Qed.
Lemma counts_get {B} (f : world -> B) : add_params 0 0 0 (st_get f).
Proof. intros s s' a [= <- _]. unfold counts; simpl. by rewrite !Nat.add_0_r. Qed.
Lemma counts_iter {A} (body : A -> ST world unit) l :
  (forall x, add_params 0 0 0 (body x)) -> add_params 0 0 0 (st_iter body l).
Proof.
  intros H. induction l as [|x l IH]; [apply add_params_ret|]. cbn.
  apply (add_params_bind 0 0 0 0 0 0); [apply H | intros _; apply IH].
Qed.
#[export] Hint Resolve counts_set_py_name counts_get counts_iter : counts.

Section counts.
Context (K : handler_class).

Lemma counts_copy_instance w o n t c : add_params 0 0 0 (copy_instance w o n t c).
Proof. unfold copy_instance. counts; reflexivity. Qed.
Lemma counts_declare_py_name i w t b o : add_params 0 0 0 (declare_py_name i w t b o).
Proof. unfold declare_py_name. counts; reflexivity. Qed.
Hint Resolve counts_copy_instance counts_declare_py_name : counts.
Lemma counts_declare_pystruct i w b o : add_params 0 0 0 (declare_pystruct K i w b o).
Proof. unfold declare_pystruct, c_pystruct. counts; reflexivity. Qed.
Hint Resolve counts_declare_pystruct : counts.
Lemma counts_indented_world i m :
  forall nb np nc, add_params nb np nc m -> add_params nb np nc (indented_world i m).
Proof.
  intros nb np nc H. unfold indented_world.
  eapply add_params_eq; [eapply add_params_bind; [apply add_params_on_heap|intros _];
    eapply add_params_bind; [exact H|intros _; apply add_params_on_heap]|..]; lia.
Qed.
Lemma counts_convert_implicitly w n t : add_params 0 0 1 (convert_implicitly K w n t).
Proof.
  unfold convert_implicitly.
  eapply add_params_eq;
    [repeat (counts_step || (apply counts_indented_world; [])) |..]; reflexivity.
Qed.
Hint Resolve counts_convert_implicitly : counts.

(** A handler adds the items of the table. *)
Definition adds (n : nat * nat * nat) {A} (m : ST world A) : Prop := add_params n.1.1 n.1.2 n.2 m.

Ltac fold_class := unfold value_from_self, required_object,
  declare_new_wrapper, ref_in, ref_out, ref_inout, lend_object, keep_copy, call_object, call_object_or,
  parse_object, c_pystruct.

Lemma add_params_branch (b : bool) nb np nc nb' np' nc' {A} (m m' : ST world A) :
  add_params nb np nc m -> add_params nb' np' nc' m' ->
  add_params (if b then nb else nb') (if b then np else np') (if b then nc else nc')
    (if b then m else m').
Proof. by destruct b. Qed.

Ltac class_counts_step :=
  match goal with
  | |- add_params _ _ _ (if _ then _ else _) => eapply add_params_branch
  | |- add_params _ _ _ (indented_world _ _) => apply counts_indented_world
  | _ => counts_step
  end.
Ltac class_counts :=
  unfold adds; eapply add_params_eq; [fold_class; repeat class_counts_step|..]; cbn;
  repeat match goal with |- context [if ?b then _ else _] => destruct b end; try reflexivity.

Lemma counts_value_py2c i self w :
  cp_kind self = CppClassParameter ->
  adds (py2c_items self) (CppClassParameter_convert_python_to_c K i self w).
Proof.
  intros Hk. unfold py2c_items, CppClassParameter_convert_python_to_c. rewrite Hk.
  class_counts.
Qed.

Lemma counts_ref_py2c i self w :
  cp_kind self = CppClassRefParameter -> In (p_direction (cp_param self)) ALL_DIRECTIONS ->
  adds (py2c_items self) (CppClassRefParameter_convert_python_to_c K i self w).
Proof.
  intros Hk Hd. unfold py2c_items, CppClassRefParameter_convert_python_to_c. rewrite Hk.
  apply in_all in Hd. destruct Hd as [Hd|[Hd|Hd]]; rewrite Hd;
    change DIRECTION_INOUT with 3; change DIRECTION_OUT with 2; change DIRECTION_IN with 1; cbn -[st_assert].
  - destruct (cp_take_value_from_python_self self) eqn:E; unfold ref_in; rewrite E; cbn beta iota.
    + class_counts.
    + destruct (cp_default_value_type self); class_counts.
      apply add_params_raise.
  - class_counts.
  - class_counts.
Qed.

Lemma counts_ptr_value i self w :
  adds (0, if cp_take_value_from_python_self self then 0 else 1, 0)%nat (ptr_value K i self w).
Proof.
  unfold ptr_value, parse_ptr, parse_null_ok, before_call_check. class_counts.
Qed.

Lemma counts_ptr_py2c i self w :
  cp_kind self = CppClassPtrParameter ->
  adds (py2c_items self) (CppClassPtrParameter_convert_python_to_c K i self w).
Proof.
  intros Hk. pose proof (counts_ptr_value i self w) as Hv. unfold adds in Hv. cbn in Hv.
  unfold py2c_items, CppClassPtrParameter_convert_python_to_c. rewrite Hk.
  destruct (cp_take_value_from_python_self self); class_counts.
Qed.

Lemma counts_param_object self w v n :
  adds (if lends_pointer K self then 1 else 0, 0, 0)%nat
    (if bool_decide (cp_kind self = CppClassPtrParameter) then write_param_object K self w v n else st_ret tt).
Proof.
  unfold lends_pointer, write_param_object, owned.
  destruct (bool_decide _); cbn [andb]; [|class_counts].
  destruct (truth _); cbn [negb andb]; [class_counts|].
  destruct (counts_references K); cbn [negb andb]; [class_counts|].
  destruct (_ =? _); cbn [negb]; class_counts.
Qed.

Lemma counts_create_and_register self w v n :
  cp_kind self = CppClassPtrParameter ->
  adds (if lends_pointer K self then 1 else 0, 0, 0)%nat (create_and_register K self w v n).
Proof.
  intros Hk. pose proof (counts_param_object self w v n) as H. unfold adds in *.
  rewrite bool_decide_eq_true_2 in H by done. cbn in *.
  unfold create_and_register, param_create_new_wrapper, param_wrapper_type.
  destruct (_ && _); class_counts; eassumption.
Qed.

Lemma counts_ptr_wrapper self w v n :
  cp_kind self = CppClassPtrParameter ->
  adds (if lends_pointer K self then 1 else 0, 0, 0)%nat (ptr_param_wrapper K self w v n).
Proof.
  intros Hk. pose proof (counts_create_and_register self w v n Hk) as Hc.
  assert (adds (if lends_pointer K self then 1 else 0, 0, 0)%nat (param_known_or_new K self w v n)) as Hn.
  { unfold adds in *. cbn in *. unfold param_known_or_new.
    eapply add_params_eq; [eapply add_params_bind; [apply add_params_on_heap|intros found]; 
      apply add_params_if; [|exact Hc]|..]; try reflexivity.
    class_counts; eassumption. }
  unfold ptr_param_wrapper. destruct (cv_helper_class _); [|exact Hn].
  unfold adds in *. cbn in Hn. class_counts; eassumption.
Qed.

Lemma counts_c2py i self w :
  adds (c2py_items K self) (class_param_convert_c_to_python K i self w).
Proof.
  unfold class_param_convert_c_to_python, c2py_items. destruct (cp_kind self) eqn:Hk.
  - unfold lends_pointer. rewrite Hk, bool_decide_eq_false_2 by done. cbn [andb].
    unfold CppClassParameter_convert_c_to_python. class_counts.
  - unfold lends_pointer. rewrite Hk, bool_decide_eq_false_2 by done. cbn [andb].
    unfold CppClassRefParameter_convert_c_to_python. class_counts.
  - unfold CppClassPtrParameter_convert_c_to_python.
    assert (forall v n, add_params (if lends_pointer K self then 1 else 0)%nat 0 0
      (ptr_param_wrapper K self w v n)) as H by (intros; by apply counts_ptr_wrapper).
    destruct (lends_pointer K self); class_counts; apply H.
Qed.

Lemma counts_return_py2c (self : class_return) w :
  adds (0, 1, 0)%nat (class_return_convert_python_to_c K self w).
Proof.
  unfold class_return_convert_python_to_c, value_convert_python_to_c,
    CppClassPtrReturnValue_convert_python_to_c, parse_result.
  destruct (cr_kind self); [destruct (type_is_reference _); [by intros ?|class_counts]..|class_counts].
Qed.

Lemma counts_return_c2py (self : class_return) w :
  adds (1, 0, 0)%nat (class_return_convert_c_to_python K self w).
Proof.
  unfold class_return_convert_c_to_python, CppClassReturnValue_convert_c_to_python,
    CppClassRefReturnValue_convert_c_to_python, CppClassPtrReturnValue_convert_c_to_python,
    declare_return_wrapper.
  destruct (cr_kind self); class_counts.
Qed.
End counts.

(** Unfolds the operation a run starts with. *)
Ltac unfold_head m := lazymatch m with ?f _ => unfold_head f | _ => unfold m end.

(** One step through the structure of a run. *)
Ltac structural_step :=
  lazymatch goal with
  | |- PreOrder _ => apply _
  | |- forall _, _ => intros ?
  | |- evolves _ (st_bind _ _) => apply evolves_bind
  | |- evolves _ (st_ret _) => apply evolves_ret
  | |- evolves _ (st_raise _) => apply evolves_raise
  | |- evolves _ (st_lift _) => apply evolves_lift
  | |- evolves _ (st_get _) => apply evolves_get
  | |- evolves _ (st_assert _) => apply evolves_assert
  | |- evolves _ (st_when _ _) => apply evolves_when
  | |- evolves _ (st_iter _ _) => apply evolves_iter
  | |- evolves _ (st_catch _ _) => apply evolves_catch
  | |- evolves _ (if _ then _ else _) => apply evolves_if
  | |- evolves _ (match ?x with _ => _ end) => destruct x
  | |- evolves _ ?m => unfold_head m
  end.

(** ** Frames

    A relation of heaps the primitive operations of blocks and scopes respect, and
    the code of the user that creates instances or transforms values as well. *)
Class BlockFrame (R : heap -> heap -> Prop) : Prop := {
  bf_preorder :: PreOrder R;
  bf_write : forall i c, evolves R (write_code i c);
  bf_indent : forall i, evolves R (block_indent i);
  bf_unindent : forall i, evolves R (block_unindent i);
  bf_reserve : forall i n, evolves R (reserve_variable i n);
  bf_declare : forall i t n e a, evolves R (scope_declare_variable i t n e a);
  bf_cleanup : forall i c, evolves R (add_cleanup_code i c);
  bf_deref : forall {A} (f : heap -> list A) i, evolves R (deref f i);
  bf_get_cleanup : forall i, evolves R (get_cleanup_code i)
}.
#[export] Instance wiring_frame : BlockFrame heap_same_wiring.
Proof. split; [apply _|intros; eauto with st..]. Qed.
#[export] Instance grows_frame : BlockFrame heap_grows.
Proof. split; [apply _|intros; unfold write_code, block_indent, block_unindent; eauto with grows..]. Qed.

Class CreationFrame (R : heap -> heap -> Prop) (K : handler_class) : Prop := {
  cf_creation : forall i l p n, evolves R (cv_instance_creation (kc_view K) i l p n);
  cf_post : forall f i l p n, cv_post_instance_creation (kc_view K) = Some f -> evolves R (f i l p n)
}.
Class TransformationFrame (R : heap -> heap -> Prop) (t : option value_transformation) : Prop := {
  tf_transform : forall s b v, evolves R (transform t s b v);
  tf_untransform : forall s b v, evolves R (untransform t s b v)
}.
#[export] Instance no_transformation_frame (R : heap -> heap -> Prop) `{!PreOrder R} : TransformationFrame R None.
Proof. split; intros; apply evolves_ret, _. Qed.

(** The relation of worlds. *)
Definition on_heaps (R : heap -> heap -> Prop) (s s' : world) : Prop := R (wd_heap s) (wd_heap s').
#[export] Instance on_heaps_preorder (R : heap -> heap -> Prop) `{!PreOrder R} : PreOrder (on_heaps R).
Proof.
  unfold on_heaps. split; [by intros s | intros s s' s'' H1 H2; by transitivity (wd_heap s')].
Qed.

Section frames.
Context (R : heap -> heap -> Prop) `{BF : !BlockFrame R} (K : handler_class) `{CF : !CreationFrame R K}.

Lemma frame_on_heap {A} (m : ST heap A) : evolves R m -> evolves (on_heaps R) (on_heap m).
Proof. intros H s. specialize (H (wd_heap s)). unfold on_heap, on_heaps. by destruct (m (wd_heap s)). Qed.
Lemma frame_modify (f : world -> world) :
  (forall s, wd_heap (f s) = wd_heap s) -> evolves (on_heaps R) (st_modify f).
Proof. intros H s. unfold on_heaps. cbn. by rewrite H. Qed.
Lemma frame_call w v : evolves (on_heaps R) (call_add w v).
Proof. unfold call_add. destruct (is_forward w); [by apply frame_modify | by intros s]. Qed.
Lemma frame_create i l p n : evolves R (write_create_instance (kc_view K) i l p n).
Proof.
  unfold write_create_instance. apply evolves_bind; [apply _| |intros; apply cf_creation].
  destruct n; [apply evolves_ret, _ | apply evolves_lift, _].
Qed.
Lemma frame_post i l p n : evolves R (write_post_instance_creation_code (kc_view K) i l p n).
Proof.
  unfold write_post_instance_creation_code.
  destruct (cv_post_instance_creation (kc_view K)) as [f|] eqn:E; [|apply evolves_ret, _].
  apply evolves_bind; [apply _| |intros; by apply cf_post].
  destruct n; [apply evolves_ret, _ | apply evolves_lift, _].
Qed.

Ltac frame_step :=
  lazymatch goal with
  | |- evolves _ (parse_add _ _ _ _ _) => by apply frame_modify
  | |- evolves _ (build_add _ _ _) => by apply frame_modify
  | |- evolves _ (set_py_name _ _) => by apply frame_modify
  | |- evolves _ (call_add _ _) => apply frame_call
  | |- evolves _ (on_heap _) => apply frame_on_heap
  | |- evolves _ (write_code _ _) => apply bf_write
  | |- evolves _ (block_indent _) => apply bf_indent
  | |- evolves _ (block_unindent _) => apply bf_unindent
  | |- evolves _ (reserve_variable _ _) => apply bf_reserve
  | |- evolves _ (scope_declare_variable _ _ _ _ _) => apply bf_declare
  | |- evolves _ (add_cleanup_code _ _) => apply bf_cleanup
  | |- evolves _ (deref _ _) => apply bf_deref
  | |- evolves _ (get_cleanup_code _) => apply bf_get_cleanup
  | |- evolves _ (write_create_instance _ _ _ _ _) => apply frame_create
  | |- evolves _ (write_post_instance_creation_code _ _ _ _ _) => apply frame_post
  | |- evolves _ (transform _ _ _ _) => apply tf_transform
  | |- evolves _ (untransform _ _ _ _) => apply tf_untransform
  | _ => structural_step
  end.
Ltac frames := intros; repeat frame_step.

Lemma frame_param_py2c i self w :
  TransformationFrame R (cp_transformation self) ->
  evolves (on_heaps R) (class_param_convert_python_to_c K i self w).
Proof. frames. Qed.
Lemma frame_param_c2py i self w :
  TransformationFrame R (cp_transformation self) ->
  evolves (on_heaps R) (class_param_convert_c_to_python K i self w).
Proof. frames. Qed.
Lemma frame_return_py2c (self : class_return) w :
  TransformationFrame R (cr_transformation self) ->
  evolves (on_heaps R) (class_return_convert_python_to_c K self w).
Proof. frames. Qed.
Lemma frame_return_c2py (self : class_return) w :
  TransformationFrame R (cr_transformation self) ->
  evolves (on_heaps R) (class_return_convert_c_to_python K self w).
Proof. frames. Qed.
End frames.

(** ** The [py_name] attributes

    A run may change only the name at its position; once it has one it keeps it. *)
Definition names_but (i : Z) (s s' : world) : Prop :=
  delete i (wd_py_names s) = delete i (wd_py_names s') /\ same_flags s s'
  /\ (is_Some (wd_py_names s !! i) -> is_Some (wd_py_names s' !! i)).
#[export] Instance names_but_preorder i : PreOrder (names_but i).
Proof.
  split; [by intros s|]. intros s1 s2 s3 (E1&F1&S1) (E2&F2&S2).
  split_and!; [congruence | by transitivity s2 | auto].
Qed.
Definition names_it (i : Z) {A} (m : ST world A) : Prop :=
  forall s s' a, m s = (s', Ok a) -> names_but i s s' /\ is_Some (wd_py_names s' !! i).

Section names.
Context (K : handler_class) (i : Z).

Lemma but_of_same {A} (m : ST world A) : evolves same_names m -> evolves (names_but i) m.
Proof. apply evolves_weaken. intros s s' [E F]. unfold same_py_names in E. split_and!; [by rewrite E|done|by rewrite E]. Qed.
Lemma but_on_heap {A} (m : ST heap A) : evolves (names_but i) (on_heap m).
Proof. apply but_of_same, names_on_heap. Qed.
Lemma but_set n : evolves (names_but i) (set_py_name i n).
Proof.
  intros s. cbn. split_and!; cbn; [by rewrite delete_insert_eq|done|].
  intros _. rewrite lookup_insert_eq. by eexists.
Qed.
Lemma it_set n : names_it i (set_py_name i n).
Proof.
  intros s s' a H. pose proof (but_set n s) as Hb. rewrite H in Hb. split; [done|].
  injection H as <- _. cbn. rewrite lookup_insert_eq. by eexists.
Qed.
Lemma it_bind_first {A B} (m : ST world A) (k : A -> ST world B) :
  names_it i m -> (forall a, evolves (names_but i) (k a)) -> names_it i (st_bind m k).
Proof.
  intros Hm Hk s s' b (s1&a&E1&E2)%st_bind_Ok. destruct (Hm _ _ _ E1) as [H1 P1].
  specialize (Hk a s1). rewrite E2 in Hk. cbn in Hk. split; [by transitivity s1 | by apply Hk].
Qed.
Lemma it_bind_then {A B} (m : ST world A) (k : A -> ST world B) :
  evolves (names_but i) m -> (forall a, names_it i (k a)) -> names_it i (st_bind m k).
Proof.
  intros Hm Hk s s' b (s1&a&E1&E2)%st_bind_Ok. specialize (Hm s). rewrite E1 in Hm.
  destruct (Hk _ _ _ _ E2) as [H1 P1]. split; [by transitivity s1 | done].
Qed.
Lemma it_raise {A} e : names_it i (st_raise (A:=A) e).
Proof. by intros s s' a. Qed.
Lemma it_declare w t b o : names_it i (declare_py_name i w t b o).
Proof.
  unfold declare_py_name. apply it_bind_then; [apply but_on_heap|]. intros n.
  apply it_bind_first; [apply it_set|]. intros _. apply evolves_ret, _.
Qed.
Lemma it_declare_pystruct w b o : names_it i (declare_pystruct K i w b o).
Proof. apply it_bind_then; [apply evolves_lift, _ | intros; apply it_declare]. Qed.

End names.

Ltac but_step :=
  lazymatch goal with
  | |- evolves _ (parse_add _ _ _ _ _) => by apply but_of_same, names_modify
  | |- evolves _ (build_add _ _ _) => by apply but_of_same, names_modify
  | |- evolves _ (call_add _ _) => apply but_of_same, names_call
  | |- evolves _ (on_heap _) => apply but_on_heap
  | |- evolves _ (set_py_name _ _) => apply but_set
  | _ => structural_step
  end.

(** The first operation that gives the name decides; the others leave it. *)
Ltac it_step :=
  match goal with
  | |- forall _, _ => intros ?
  | |- names_it _ (st_bind (set_py_name _ _) _) => apply it_bind_first; [apply it_set|]
  | |- names_it _ (st_bind (declare_py_name _ _ _ _ _) _) => apply it_bind_first; [apply it_declare|]
  | |- names_it _ (st_bind (declare_pystruct _ _ _ _ _) _) =>
      apply it_bind_first; [apply it_declare_pystruct|]
  | |- names_it _ (st_bind (declare_new_wrapper _ _ _) _) => apply it_bind_first
  | |- names_it _ (st_bind (ptr_value _ _ _ _) _) => apply it_bind_first
  | |- names_it _ (st_bind (declare_return_wrapper _ _) _) => apply it_bind_first
  | |- names_it _ (st_bind _ _) => apply it_bind_then
  | |- names_it _ (st_raise _) => apply it_raise
  | |- names_it _ (if ?b then _ else _) => destruct b
  | |- names_it _ (match ?x with _ => _ end) => destruct x
  | |- names_it _ ?m => unfold_head m
  | |- _ => but_step
  end.
Ltac its := repeat it_step.

Lemma it_ptr_value K i self w : names_it i (ptr_value K i self w).
Proof. its. Qed.

Lemma it_param_py2c K i self w :
  In (p_direction (cp_param self)) (class_param_DIRECTIONS (cp_kind self)) ->
  names_it i (class_param_convert_python_to_c K i self w).
Proof.
  unfold class_param_convert_python_to_c. destruct (cp_kind self); intros Hd.
  - its.
  - unfold CppClassRefParameter_convert_python_to_c.
    apply (it_bind_then i (assert_forward w)); [repeat but_step|]. intros _.
    apply in_all in Hd. destruct Hd as [Hd|[Hd|Hd]]; rewrite Hd;
      change DIRECTION_INOUT with 3; change DIRECTION_OUT with 2; change DIRECTION_IN with 1;
      cbn [Z.eqb Pos.eqb]; its.
  - its.
Qed.
Lemma it_param_c2py K i self w : names_it i (class_param_convert_c_to_python K i self w).
Proof. its. Qed.
Lemma it_return_c2py K self w : names_it (-1) (class_return_convert_c_to_python K self w).
Proof. its. Qed.

(** ** The contract *)

(** C11: Parameters of class types.  Whatever the class, if the code of the user that creates instances
    and transforms values does not rewire the blocks of the wrapper, converting a
    parameter in a direction its handler supports adds exactly the items of the
    tables to the lists of the wrapper, leaves the blocks and scopes wired as they
    were and only adds cleanup actions, also when it raises. *)
Theorem class_param_contract (K : handler_class) (i : Z) (self : class_param) (w : wrapper) :
  CreationFrame heap_same_wiring K -> CreationFrame heap_grows K ->
  TransformationFrame heap_same_wiring (cp_transformation self) ->
  TransformationFrame heap_grows (cp_transformation self) ->
  In (p_direction (cp_param self)) (class_param_DIRECTIONS (cp_kind self)) ->
  adds (py2c_items self) (class_param_convert_python_to_c K i self w)
  /\ adds (c2py_items K self) (class_param_convert_c_to_python K i self w)
  /\ evolves same_wiring (class_param_convert_python_to_c K i self w)
  /\ evolves same_wiring (class_param_convert_c_to_python K i self w)
  /\ evolves cleanups_grow (class_param_convert_python_to_c K i self w)
  /\ evolves cleanups_grow (class_param_convert_c_to_python K i self w).
Proof.
  intros C1 C2 T1 T2 Hd. split_and!.
  - unfold class_param_convert_python_to_c. destruct (cp_kind self) eqn:Hk.
    + by apply counts_value_py2c.
    + by apply counts_ref_py2c.
    + by apply counts_ptr_py2c.
  - apply counts_c2py.
  - by apply (frame_param_py2c heap_same_wiring K).
  - by apply (frame_param_c2py heap_same_wiring K).
  - by apply (frame_param_py2c heap_grows K).
  - by apply (frame_param_c2py heap_grows K).
Qed.

Lemma names_it_insert i {A} (m : ST world A) s s' a :
  names_it i m -> m s = (s', Ok a) ->
  exists n, wd_py_names s' = <[i := n]> (wd_py_names s) /\ wd_meth_flags s' = wd_meth_flags s.
Proof.
  intros H E. destruct (H _ _ _ E) as [(D&F&_) [n Hn]]. exists n. split; [|done].
  by rewrite <- (insert_delete_id _ _ _ Hn), <- D, insert_delete_eq.
Qed.
Lemma py_name_at (ps : list param_handler) (p : param_handler) (rv : option return_handler) j n s :
  ps !! j = Some p -> ph_has_py_name p = true -> wd_py_names s !! Z.of_nat j = Some n ->
  get_custodian_or_ward ps rv (Z.of_nat j + 1) s = (s, Ok ("((PyObject *) " +:+ n +:+ ")")).
Proof.
  intros Hp Hh Hn. unfold get_custodian_or_ward, param_at.
  destruct (Z.eqb_spec (Z.of_nat j + 1) (-1)); [lia|].
  destruct (Z.eqb_spec (Z.of_nat j + 1) 0); [lia|].
  replace (Z.of_nat j + 1 - 1) with (Z.of_nat j) by lia.
  destruct (Z.ltb_spec (Z.of_nat j) 0); [lia|]. cbn zeta.
  destruct (Z.ltb_spec (Z.of_nat j) 0); [lia|]. rewrite Nat2Z.id, Hp. cbn.
  unfold st_bind, py_name_of. rewrite Hh. cbn. by rewrite Hn.
Qed.

(** The object of a parameter.  A successful conversion, either way, gives the handler its
    [py_name] and touches no other handler's, nor the flags; the custodian code of
    the wrapper then finds the object under the number of the parameter. *)
Theorem class_param_py_name (K : handler_class) (j : nat) (self : class_param) (w : wrapper)
    (to_c : bool) (s s' : world) (ps : list param_handler) (rv : option return_handler) :
  In (p_direction (cp_param self)) (class_param_DIRECTIONS (cp_kind self)) ->
  (if to_c then class_param_convert_python_to_c K (Z.of_nat j) self w
   else class_param_convert_c_to_python K (Z.of_nat j) self w) s = (s', Ok tt) ->
  ps !! j = Some (class_param_handler K (Z.of_nat j) self) ->
  exists n, wd_py_names s' = <[Z.of_nat j := n]> (wd_py_names s)
    /\ wd_meth_flags s' = wd_meth_flags s
    /\ get_custodian_or_ward ps rv (Z.of_nat j + 1) s' = (s', Ok ("((PyObject *) " +:+ n +:+ ")")).
Proof.
  intros Hd E Hp.
  assert (exists n, wd_py_names s' = <[Z.of_nat j := n]> (wd_py_names s)
    /\ wd_meth_flags s' = wd_meth_flags s) as (n&Hn&Hf).
  { destruct to_c; eapply names_it_insert; try exact E; [by apply it_param_py2c | apply it_param_c2py]. }
  exists n. split_and!; [done..|]. eapply py_name_at; [exact Hp|done|].
  by rewrite Hn, lookup_insert_eq.
Qed.

(** An owned result of a class that cannot be constructed is not generated, although
    the code means to hand over the object of the wrapper then. *)
Lemma owned_result_not_copied K self w source e h :
  cv_get_construct_name (kc_view K) = Raise e ->
  give_copy K self w source h = (h, Raise NameError).
Proof. intros He. unfold give_copy, write_create_instance, st_bind, st_catch, st_lift. by rewrite He. Qed.

(** ** Examples *)

Definition demo_handler_class : handler_class :=
  HandlerClass
    (ClassView "Bar" "ns::Bar" (Some "PyBar") "PyBar_Type" None (Ok "ns::Bar")
       (default_instance_creation_function false "ns::Bar") None)
    true false None None (Ok (NullWrapperRegistry "Bar")) [] true.
Definition demo_value_param : class_param :=
  MkClassParam CppClassParameter
    (MkParam (TypeTraits [] [] [] false false false false None) "bar" "bar" DIRECTION_IN VNone VNone None)
    "ns::Bar" None false VNone None false.
Definition demo_class_world : world :=
  World (Heap [MkBlock MemoryCodeSink None ∅ 0 "return NULL;" 0] [MkScope MemoryCodeSink 0] [∅])
    [] [] [] [] ∅.

#[export] Instance demo_creation_frame R `{!BlockFrame R} : CreationFrame R demo_handler_class.
Proof.
  split; [|done]. intros. cbn. unfold default_instance_creation_function.
  repeat (apply bf_write || structural_step).
Qed.

Lemma class_param_contract_witness :
  adds (0, 1, 1)%nat (class_param_convert_python_to_c demo_handler_class 0 demo_value_param
    (MkWrapper ForwardWrapper 0 0 0 0)).
Proof.
  apply (class_param_contract demo_handler_class 0 demo_value_param (MkWrapper ForwardWrapper 0 0 0 0) _ _
    (no_transformation_frame _) (no_transformation_frame _)). left. reflexivity.
Defined.

Lemma class_param_py_name_witness :
  exists s', class_param_convert_python_to_c demo_handler_class 0 demo_value_param
      (MkWrapper ForwardWrapper 0 0 0 0) demo_class_world = (s', Ok tt)
    /\ exists n, wd_py_names s' = <[0 := n]> ∅.
Proof.
  destruct (class_param_convert_python_to_c demo_handler_class 0 demo_value_param
      (MkWrapper ForwardWrapper 0 0 0 0) demo_class_world) as [s' r] eqn:E.
  assert (r = Ok tt) as -> by (revert E; vm_compute; congruence).
  destruct (class_param_py_name demo_handler_class 0 demo_value_param (MkWrapper ForwardWrapper 0 0 0 0)
    true demo_class_world s' [class_param_handler demo_handler_class 0 demo_value_param] None)
    as (n&Hn&_); [by left | exact E | reflexivity|].
  exists s'. split; [reflexivity|]. by exists n.
Defined.
