(* ===== verification/ClassOwnership.v ===== *)
(** * Ownership of wrapped objects

    The code that finds or creates the Python wrapper of a C++ object branches at
    run time.  Here the text a run writes into a block is read as a program with
    these branches, and the references to the C++ object that each path through
    the program takes and drops are counted. *)
From S2P Require Import Prelude.
From S2P Require Import CodeSink.
From S2P Require Import CodeBlock.
From S2P Require Import Wrapper.
From S2P Require Import CTypeParser.
From S2P Require Import TypeHandler.
From S2P Require Import HandlerOps.
From S2P Require Import MemoryPolicy.
From S2P Require Import WrapperRegistry.
From S2P Require Import CppMethod.
From S2P Require Import ClassHandlers.

(** ** What a run writes into a block

    [hp] finds the heap in the state of the run. *)
Section emits.
Context {S : Type} (hp : S -> heap) (i : nat).

Definition emits {A} (m : ST S A) (Q : A -> list sink_op -> Prop) : Prop :=
  forall s s' a b, m s = (s', Ok a) -> h_blocks (hp s) !! i = Some b ->
  exists os b', Q a os /\ h_blocks (hp s') !! i = Some b'
    /\ run_ops (cb_sink b) os = Ok (cb_sink b').

Lemma emits_ret {A} (a : A) (Q : A -> list sink_op -> Prop) : Q a [] -> emits (st_ret a) Q.
Proof. intros HQ s s' a' b [= <- <-] Hb. by exists [], b. Qed.
Lemma emits_raise {A} e (Q : A -> list sink_op -> Prop) : emits (st_raise e) Q.
Proof. by intros s s' a b. Qed.
Lemma emits_lift {A} (r : res A) (Q : A -> list sink_op -> Prop) :
  (forall a, r = Ok a -> Q a []) -> emits (st_lift r) Q.
Proof. intros HQ s s' a b [= <- ->] Hb. exists [], b. by split; [apply HQ|]. Qed.
Lemma emits_bind {A B} (m : ST S A) (k : A -> ST S B) Q :
  emits m (fun a os => emits (k a) (fun b os' => Q b (os ++ os'))) -> emits (st_bind m k) Q.
Proof.
  intros Hm s s' c b (s1&a&E1&E2)%st_bind_Ok Hb.
  destruct (Hm _ _ _ _ E1 Hb) as (os&b1&Hk&Hb1&R1).
  destruct (Hk _ _ _ _ E2 Hb1) as (os'&b2&HQ&Hb2&R2).
  exists (os ++ os'), b2. split_and!; [done..|]. by rewrite run_ops_app, R1.
Qed.
Lemma emits_weaken {A} (m : ST S A) (Q Q' : A -> list sink_op -> Prop) :
  emits m Q -> (forall a os, Q a os -> Q' a os) -> emits m Q'.
Proof.
  intros Hm HQ s s' a b E Hb. destruct (Hm _ _ _ _ E Hb) as (os&b'&?&?&?).
  exists os, b'. by split; [apply HQ|].
Qed.
(** A run that leaves the blocks alone writes nothing. *)
Lemma emits_quiet {A} (m : ST S A) (Q : A -> list sink_op -> Prop) :
  (forall s, h_blocks (hp (m s).1) = h_blocks (hp s)) -> (forall a, Q a []) -> emits m Q.
Proof.
  intros Hq HQ s s' a b E Hb. exists [], b. specialize (Hq s). rewrite E in Hq. cbn in Hq.
  by rewrite Hq.
Qed.
End emits.

Lemma emits_on_sink i f o (Q : unit -> list sink_op -> Prop) :
  (forall k, f k = run_op k o) -> Q tt [o] -> emits id i (on_sink i f) Q.
Proof.
  intros Hf HQ h h' a b E Hb. unfold on_sink, st_bind, deref in E. unfold id in Hb.
  rewrite Hb in E. destruct a. rewrite Hf in E.
  destruct (run_op (cb_sink b) o) as [k|] eqn:Ek; [|discriminate].
  injection E as <-. exists [o], (with_sink b k). split_and!; [done| |cbn; by rewrite Ek].
  cbn. apply list_lookup_insert_eq. by eapply lookup_lt_Some.
Qed.
Lemma emits_write i c (Q : unit -> list sink_op -> Prop) : Q tt [OpWrite c] -> emits id i (write_code i c) Q.
Proof. by apply emits_on_sink. Qed.
Lemma emits_block_indent i (Q : unit -> list sink_op -> Prop) : Q tt [OpIndent 4] -> emits id i (block_indent i) Q.
Proof. by apply emits_on_sink. Qed.
Lemma emits_block_unindent i (Q : unit -> list sink_op -> Prop) : Q tt [OpUnindent] -> emits id i (block_unindent i) Q.
Proof. by apply emits_on_sink. Qed.
Lemma emits_on_heap i {A} (m : ST heap A) Q : emits id i m Q -> emits wd_heap i (on_heap m) Q.
Proof.
  intros Hm s s' a b E Hb. unfold on_heap in E. destruct (m (wd_heap s)) as [h r] eqn:Em.
  injection E as <- ->. by apply (Hm _ _ _ _ Em).
Qed.

(** Declarations go to a scope. *)
Lemma declare_keeps_blocks j t n e a h : h_blocks (scope_declare_variable j t n e a h).1 = h_blocks h.
Proof.
  unfold scope_declare_variable, reserve_variable, deref, st_bind.
  destruct (h_scopes h !! j) as [ds|]; [|done]. cbn.
  destruct (h_dicts h !! _); [|done]. cbn. unfold st_lift.
  destruct (join_ctype_and_name _ _); [|done]. cbn. by destruct (_ !! j).
Qed.
Lemma emits_declare i j t n e a (Q : string -> list sink_op -> Prop) :
  (forall v, Q v []) -> emits id i (scope_declare_variable j t n e a) Q.
Proof. intros HQ. apply emits_quiet; [apply declare_keeps_blocks | done]. Qed.
Lemma emits_block_declare i j t n e a (Q : string -> list sink_op -> Prop) :
  (forall v, Q v []) -> emits id i (block_declare_variable j t n e a) Q.
Proof.
  intros HQ. unfold block_declare_variable. destruct (str_in ":" n); [apply emits_raise|].
  apply emits_bind, emits_quiet; [intros h; unfold deref; by destruct (_ !! _)|].
  intros b. by apply emits_declare.
Qed.

(** ** Programs

    References to the C++ object, and new wrappers, are events of their own. *)
#[warnings="-register-all"]
Inductive stmt : Type :=
  | Line (s : string)
  | TakeRef (obj : string)
  | DropRef (obj : string)
  | NewWrapper (py_name wrapper_type : string)
  | Either (opening : string) (then_ : list stmt) (else_ : option (list stmt)).

(** The statements that take and drop a reference. *)
Definition incref_text (policy : option memory_policy) (obj : string) : string :=
  match policy with
  | Some (ReferenceCountingMethodsPolicy incref _ _) => method_statement obj incref
  | Some (ReferenceCountingFunctionsPolicy incref _ _) => function_statement incref obj
  | _ => EmptyString
  end.
Definition decref_text (policy : option memory_policy) (obj : string) : string :=
  match policy with Some p => get_free_code p obj | None => EmptyString end.

Lemma incref_writes policy i obj :
  is_reference_counting policy = true ->
  write_incref policy i obj = write_code i (incref_text policy obj).
Proof. by destruct policy as [[]|]. Qed.
Lemma decref_writes policy i obj :
  is_reference_counting policy = true ->
  write_decref policy i obj = write_code i (decref_text policy obj).
Proof. by destruct policy as [[]|]. Qed.

(** The ends of the paths: the references taken less those dropped, and the
    wrappers made. *)
Definition then_outcomes (os os' : list (Z * Z)) : list (Z * Z) :=
  '(r, n) ← os; (fun '(r', n') => (r + r', n + n')) <$> os'.
Fixpoint outcomes_stmt (x : stmt) : list (Z * Z) :=
  let seq := foldr (fun x => then_outcomes (outcomes_stmt x)) [(0, 0)] in
  match x with
  | Line _ => [(0, 0)]
  | TakeRef _ => [(1, 0)]
  | DropRef _ => [(-1, 0)]
  | NewWrapper _ _ => [(0, 1)]
  | Either _ t e => seq t ++ match e with Some e => seq e | None => [(0, 0)] end
  end.
Definition outcomes (l : list stmt) : list (Z * Z) :=
  foldr (fun x => then_outcomes (outcomes_stmt x)) [(0, 0)] l.

Section programs.
Context (K : handler_class).

(** The text of a program. *)
Definition new_text (py_name wrapper_type : string) : string :=
  py_name +:+ " = " +:+ new_func K +:+ "(" +:+ str_opt (cv_pystruct (kc_view K)) +:+ ", "
  +:+ wrapper_type +:+ ");".
Fixpoint render_stmt (x : stmt) : list sink_op :=
  match x with
  | Line s => [OpWrite s]
  | TakeRef obj => [OpWrite (incref_text (kc_memory_policy K) obj)]
  | DropRef obj => [OpWrite (decref_text (kc_memory_policy K) obj)]
  | NewWrapper py_name wrapper_type => [OpWrite (new_text py_name wrapper_type)]
  | Either opening t e =>
      [OpWrite opening; OpIndent 4] ++ flat_map render_stmt t ++ [OpUnindent]
      ++ match e with
         | Some e => [OpWrite "} else {"; OpIndent 4] ++ flat_map render_stmt e ++ [OpUnindent]
         | None => []
         end ++ [OpWrite "}"]
  end.
Definition render (l : list stmt) : list sink_op := flat_map render_stmt l.

Lemma render_app l1 l2 : render (l1 ++ l2) = render l1 ++ render l2.
Proof. apply flat_map_app. Qed.
Lemma render_either opening t e :
  render [Either opening t e] =
    [OpWrite opening; OpIndent 4] ++ render t ++ [OpUnindent]
    ++ match e with
       | Some e => [OpWrite "} else {"; OpIndent 4] ++ render e ++ [OpUnindent]
       | None => []
       end ++ [OpWrite "}"].
Proof. apply app_nil_r. Qed.

(** Programs keep the indentation. *)
Lemma bracketed_nest n os os' :
  bracketed os -> bracketed os' -> bracketed (OpIndent n :: os ++ OpUnindent :: os').
Proof. apply br_block. Qed.
Lemma bracketed_stmt : forall x, bracketed (render_stmt x).
Proof.
  fix IH 1. intros x.
  assert (forall l, bracketed (flat_map render_stmt l)) as Hl.
  { clear x. induction l as [|x l IHl]; [constructor | cbn; apply bracketed_app; [apply IH | exact IHl]]. }
  destruct x as [s|o|o|p t|o t e]; cbn; try by repeat constructor.
  constructor. apply bracketed_nest; [apply Hl|].
  destruct e as [e|]; cbn; [|by repeat constructor].
  constructor. rewrite <- app_assoc. apply bracketed_nest; [apply Hl | by repeat constructor].
Qed.
Lemma bracketed_render l : bracketed (render l).
Proof. induction l as [|x l IH]; [constructor | cbn; apply bracketed_app; [apply bracketed_stmt | done]]. Qed.

Definition opt (b : bool) (l : list stmt) : list stmt := if b then l else [].
Definition registry_is_map : bool :=
  match kc_wrapper_registry K with Ok (StdMapWrapperRegistry _ _) => true | _ => false end.
Definition registry_map : string :=
  match kc_wrapper_registry K with Ok (StdMapWrapperRegistry _ m) => m | _ => EmptyString end.
Definition register_program (py_name : string) : list stmt :=
  opt registry_is_map
    [Line (registry_map +:+ "[(void *) " +:+ obj_of py_name +:+ "] = (PyObject *) " +:+ py_name +:+ ";")].
Definition lookup_program (py_name iterator value : string) : list stmt :=
  [Line (iterator +:+ " = " +:+ registry_map +:+ ".find((void *) " +:+ value +:+ ");");
   Line (join nls
        ["if (" +:+ iterator +:+ " == " +:+ registry_map +:+ ".end()) {";
         "    " +:+ py_name +:+ " = NULL;";
         "} else {";
         "    " +:+ py_name +:+ " = (" +:+ str_opt (cv_pystruct (kc_view K)) +:+ " *) " +:+ iterator
         +:+ "->second;";
         "    Py_INCREF(" +:+ py_name +:+ ");";
         "}"; EmptyString])].
End programs.

Ltac emits_step :=
  lazymatch goal with
  | |- forall _, _ => intros ?
  | |- emits _ _ (st_bind _ _) _ => apply emits_bind
  | |- emits _ _ (st_ret _) _ => apply emits_ret
  | |- emits _ _ (st_raise _) _ => apply emits_raise
  | |- emits _ _ (st_lift _) _ => apply emits_lift
  | |- emits _ _ (write_code _ _) _ => apply emits_write
  | |- emits _ _ (block_indent _) _ => apply emits_block_indent
  | |- emits _ _ (block_unindent _) _ => apply emits_block_unindent
  | |- emits _ _ (on_heap _) _ => apply emits_on_heap
  | |- emits _ _ (indented _ _) _ => unfold indented
  | |- emits _ _ (st_when ?b _) _ => destruct b; cbn [st_when]
  | |- emits _ _ (if ?b then _ else _) _ => destruct b
  end.


Ltac then_writes L := eapply emits_weaken; [apply L|].

Section shared_returns.
Context (K : handler_class) (counts : counts_references K = true).
Local Abbreviation policy := (kc_memory_policy K).
Local Abbreviation pystruct := (str_opt (cv_pystruct (kc_view K))).

Lemma pystruct_is p : get_pystruct (kc_view K) = Ok p -> p = pystruct.
Proof. unfold get_pystruct. destruct (cv_pystruct _); [by intros [= ->] | done]. Qed.

Lemma emits_new i py_name wrapper_type :
  emits id i (write_new K i py_name wrapper_type)
    (fun _ os => os = render K [NewWrapper py_name wrapper_type]).
Proof.
  unfold write_new, c_pystruct. repeat emits_step. by rewrite (pystruct_is a) by done.
Qed.
Lemma emits_inst_dict i py_name :
  emits id i (write_inst_dict K i py_name)
    (fun _ os => os = render K (opt (kc_allow_subclassing K) [Line (py_name +:+ "->inst_dict = NULL;")])).
Proof. unfold write_inst_dict. by repeat emits_step. Qed.
Lemma emits_register i py_name :
  emits id i (register_new_wrapper K i py_name)
    (fun _ os => os = render K (register_program K py_name)).
Proof.
  unfold register_new_wrapper, register_program, registry_is_map, registry_map.
  repeat emits_step. rewrite H. destruct a; cbn [write_register_new_wrapper]; by repeat emits_step.
Qed.
Lemma emits_incref i obj :
  emits id i (write_incref policy i obj) (fun _ os => os = render K [TakeRef obj]).
Proof. rewrite incref_writes by done. by repeat emits_step. Qed.
Lemma emits_decref i obj :
  emits id i (write_decref policy i obj) (fun _ os => os = render K [DropRef obj]).
Proof. rewrite decref_writes by done. by repeat emits_step. Qed.

(** A map supports the lookup: no other exception is taken for a missing one. *)
Definition supports {S A} (m : ST S A) : Prop := forall s s', m s <> (s', Raise NotSupportedError).
Lemma supports_bind {S A B} (m : ST S A) (k : A -> ST S B) :
  supports m -> (forall a, supports (k a)) -> supports (st_bind m k).
Proof.
  intros Hm Hk s s' H. unfold st_bind in H. destruct (m s) as [s1 [a|e]] eqn:E.
  - by apply (Hk a s1 s').
  - injection H as -> ->. by apply (Hm s s').
Qed.
Lemma supports_deref {A} (f : heap -> list A) j : supports (deref f j).
Proof. intros h h'. unfold deref. by destruct (_ !! _). Qed.
Lemma supports_write j c : supports (write_code j c).
Proof.
  apply supports_bind; [apply supports_deref | intros b h h'; done].
Qed.
Lemma supports_declare j t n e a :
  supports (block_declare_variable j t n e a).
Proof.
  unfold block_declare_variable. destruct (str_in ":" n); [done|].
  repeat (apply supports_bind; [apply supports_deref || idtac | intros ?]); try done.
  intros h h'. unfold st_lift, join_ctype_and_name.
  repeat case_match; congruence.
Qed.

Lemma emits_supported {S} (hp : S -> heap) i (m : ST S unit) Q :
  supports m -> emits hp i m Q -> emits hp i (supported m) (fun found os => found = true /\ Q tt os).
Proof.
  intros Hs Hm s s' found b E Hb. unfold supported, st_catch, st_bind in E.
  destruct (m s) as [s1 [[]|e]] eqn:Em.
  - injection E as <- <-. destruct (Hm _ _ _ _ Em Hb) as (os&b'&?&?&?). by exists os, b'.
  - destruct e; try discriminate. by destruct (Hs s s1).
Qed.

(** The wrapper is looked up in the registry, if it has a map. *)
Lemma emits_lookup i py_name value :
  emits id i (lookup_wrapper K py_name i value)
    (fun found os => found = registry_is_map K
       /\ exists it, os = render K (opt found (lookup_program K py_name it value))).
Proof.
  unfold lookup_wrapper, c_pystruct, registry_is_map.
  apply emits_bind, emits_lift. intros r Hr. apply emits_bind, emits_lift. intros p Hp.
  apply pystruct_is in Hp. subst p. rewrite Hr. destruct r as [|?|? m]; cbn [write_lookup_wrapper].
  - by intros h h' a b.
  - intros h h' a b [= <- <-] Hb. exists [], b. split_and!; [done| |done..]. by exists EmptyString.
  - eapply emits_weaken.
    + apply emits_supported with
        (Q := fun _ os => exists it, os = render K (lookup_program K py_name it value)).
      * repeat (apply supports_bind; [apply supports_declare || apply supports_write | intros ?]).
        apply supports_write.
      * apply emits_bind, emits_block_declare. intros it. repeat emits_step.
        exists it. unfold lookup_program, registry_map. by rewrite Hr.
    + by intros found os [-> [it ->]]; split; [|exists it].
Qed.

(** ** The wrapper of a returned object *)

Section shared_return.
Context (value py_name : string) (i : nat) (tt : type_traits) (owns existing is_pointer : bool).
Local Abbreviation vp := (value_ptr value is_pointer).
Local Abbreviation vv := (value_value value is_pointer).

Definition object_line (star : string) : stmt :=
  Line (obj_of py_name +:+ " = "
    +:+ (if target_is_const tt then "(" +:+ c_full_name K +:+ star +:+ ") (" +:+ vp +:+ ")" else vp) +:+ ";").
Definition narrowing_line (var : string) : stmt :=
  Line (var +:+ " = " +:+ str_opt (kc_typeid_map_name K) +:+ ".lookup_wrapper(typeid(" +:+ vv +:+ "), &"
        +:+ c_pytypestruct K +:+ ");").

(** A new wrapper holds a reference: the caller's, or one of its own. *)
Definition new_wrapper_program (var : string) : list stmt :=
  opt (kc_automatic_type_narrowing K) [narrowing_line var]
  ++ [NewWrapper py_name (if kc_automatic_type_narrowing K then var else "&" +:+ c_pytypestruct K)]
  ++ opt (kc_allow_subclassing K) [Line (py_name +:+ "->inst_dict = NULL;")]
  ++ (if owns then [object_line " *"; Line (flags_none_of py_name)]
      else [Line (flags_none_of py_name); TakeRef vp; object_line "*"])
  ++ register_program K py_name.
Definition known_or_new_program (var it : string) : list stmt :=
  if registry_is_map K then
    lookup_program K py_name it vp
    ++ [Either ("if (" +:+ py_name +:+ " == NULL) {") (new_wrapper_program var)
          (if owns then Some [DropRef vp] else None)]
  else new_wrapper_program var.
Definition from_helper_program (helper : string) : list stmt :=
  let v := if target_is_const tt then "const_cast<" +:+ c_full_name K +:+ " *>(" +:+ vp +:+ ") " else vp in
  [Line (py_name +:+ " = reinterpret_cast< " +:+ pystruct +:+ "* >(reinterpret_cast< " +:+ helper
         +:+ "* >(" +:+ v +:+ ")->m_pyself);");
   Line (obj_of py_name +:+ " = " +:+ v +:+ ";")]
  ++ opt owns [DropRef vp] ++ [Line ("Py_INCREF(" +:+ py_name +:+ ");")].
Definition shared_return_program (var it : string) : list stmt :=
  match cv_helper_class (kc_view K) with
  | None => known_or_new_program var it
  | Some h =>
      [Either ("if (typeid(" +:+ vv +:+ ").name() == typeid(" +:+ hc_name h +:+ ").name())" +:+ nls +:+ "{")
         (from_helper_program (hc_name h)) (Some (known_or_new_program var it))]
  end.

Lemma emits_wrapper_type :
  emits id i (return_wrapper_type K value i owns is_pointer)
    (fun t os => exists var, t = (if kc_automatic_type_narrowing K then var else "&" +:+ c_pytypestruct K)
       /\ os = render K (opt (kc_automatic_type_narrowing K) [narrowing_line var])).
Proof.
  unfold return_wrapper_type, narrows. rewrite counts, orb_true_r, andb_true_r.
  destruct (kc_automatic_type_narrowing K).
  - apply emits_bind, emits_block_declare. intros var. repeat emits_step. by exists var.
  - apply emits_ret. by exists EmptyString.
Qed.

Lemma emits_object :
  emits id i (write_object K value py_name i tt owns existing is_pointer)
    (fun _ os => os = render K (if owns then [object_line " *"; Line (flags_none_of py_name)]
                                else [Line (flags_none_of py_name); TakeRef vp; object_line "*"])).
Proof.
  unfold write_object, assign_object. rewrite counts. cbn [negb].
  destruct owns; [by repeat emits_step|].
  rewrite incref_writes by done. by repeat emits_step.
Qed.

Lemma emits_create :
  emits id i (return_create_new_wrapper K value py_name i tt owns existing is_pointer ;;;
              register_new_wrapper K i py_name)
    (fun _ os => exists var, os = render K (new_wrapper_program var)).
Proof.
  unfold return_create_new_wrapper, new_wrapper_program.
  apply emits_bind, emits_bind. then_writes emits_wrapper_type. intros t ? (var&->&->).
  apply emits_bind. then_writes emits_new. intros ? ? ->.
  apply emits_bind. then_writes emits_inst_dict. intros ? ? ->.
  then_writes emits_object. intros ? ? ->.
  then_writes emits_register. intros ? ? ->.
  exists var. by rewrite !render_app, <- !app_assoc.
Qed.

Lemma emits_known_or_new :
  emits id i (return_known_or_new K value py_name i tt owns existing is_pointer)
    (fun _ os => exists var it, os = render K (known_or_new_program var it)).
Proof.
  unfold return_known_or_new, known_or_new_program, drop_reference. rewrite counts, andb_true_r.
  apply emits_bind. then_writes emits_lookup. intros found ? (->&it&->).
  destruct (registry_is_map K).
  - apply emits_bind, emits_write, emits_bind. unfold indented. apply emits_bind, emits_block_indent, emits_bind.
    then_writes emits_create. intros ? ? (var&->). apply emits_block_unindent.
    destruct owns.
    + apply emits_bind, emits_write, emits_bind, emits_bind, emits_block_indent, emits_bind.
      then_writes emits_decref. intros ? ? ->. apply emits_block_unindent, emits_write.
      exists var, it. rewrite render_app, render_either. by repeat (cbn; rewrite <- ?app_assoc).
    + apply emits_write. exists var, it. rewrite render_app, render_either. by repeat (cbn; rewrite <- ?app_assoc).
  - then_writes emits_create. intros ? ? (var&->). by exists var, it.
Qed.

Lemma emits_from_helper helper :
  emits id i (return_from_helper K value py_name i tt owns is_pointer helper)
    (fun _ os => os = render K (from_helper_program helper)).
Proof.
  unfold return_from_helper, c_pystruct, drop_reference. rewrite counts, andb_true_r.
  apply emits_bind, emits_lift. intros p Hp. rewrite (pystruct_is p Hp).
  apply emits_bind, emits_write, emits_bind, emits_write, emits_bind.
  unfold from_helper_program.
  destruct owns; cbn [st_when opt].
  - then_writes emits_decref. intros ? ? ->. by apply emits_write.
  - apply emits_ret. by apply emits_write.
Qed.

Lemma emits_shared_return :
  emits id i (common_shared_object_return K value py_name i tt owns existing is_pointer)
    (fun _ os => exists var it, os = render K (shared_return_program var it)).
Proof.
  unfold common_shared_object_return, shared_return_program.
  destruct (cv_helper_class (kc_view K)) as [h|]; [|apply emits_known_or_new].
  apply emits_bind, emits_write, emits_bind. unfold indented. apply emits_bind, emits_block_indent, emits_bind.
  then_writes emits_from_helper. intros ? ? ->. apply emits_block_unindent.
  apply emits_bind, emits_write, emits_bind, emits_bind, emits_block_indent, emits_bind.
  then_writes emits_known_or_new. intros ? ? (var&it&->). apply emits_block_unindent, emits_write.
  exists var, it. rewrite render_either. by repeat (cbn; rewrite <- ?app_assoc).
Qed.

(** On every path the references balance. *)
Lemma shared_return_balance var it :
  Forall (fun '(refs, wrappers) => refs + Z.b2z owns = wrappers) (outcomes (shared_return_program var it)).
Proof.
  unfold shared_return_program, known_or_new_program, from_helper_program, new_wrapper_program,
    register_program, lookup_program.
  destruct (cv_helper_class (kc_view K)), (registry_is_map K), (kc_automatic_type_narrowing K),
    (kc_allow_subclassing K), owns; repeat constructor.
Qed.
End shared_return.
End shared_returns.

(** The run as a whole. *)
Lemma emits_program {S} (hp : S -> heap) i {A} (m : ST S A) (Q : A -> list sink_op -> Prop) s s' a b :
  emits hp i m Q -> m s = (s', Ok a) -> h_blocks (hp s) !! i = Some b ->
  exists os b', Q a os /\ h_blocks (hp s') !! i = Some b' /\ run_ops (cb_sink b) os = Ok (cb_sink b').
Proof. intros H. apply H. Qed.
Lemma program_indent K l k k' : run_ops k (render K l) = Ok k' -> same_indent k' k.
Proof.
  intros E. destruct (bracketed_run _ (bracketed_render K l) k) as (k1&E1&H&_). congruence.
Qed.

(** C9: Ownership of returned objects.  For a class that counts references, the code that wraps a
    returned object is the text of a program that keeps the indentation, and on
    every path through it, whether it comes to the wrapper through the helper class,
    through the registry or makes a new one, the references taken, with the one the
    caller passed on if it did, are as many as the wrappers made: nothing leaks and
    nothing is dropped twice. *)
Theorem shared_return_balanced (K : handler_class) (value py_name : string) (i : nat)
    (tt : type_traits) (owns existing is_pointer : bool) (h h' : heap) (b : code_block) :
  counts_references K = true ->
  common_shared_object_return K value py_name i tt owns existing is_pointer h = (h', Ok ()) ->
  h_blocks h !! i = Some b ->
  exists var it b', let program := shared_return_program K value py_name tt owns is_pointer var it in
    h_blocks h' !! i = Some b'
    /\ run_ops (cb_sink b) (render K program) = Ok (cb_sink b')
    /\ same_indent (cb_sink b') (cb_sink b)
    /\ Forall (fun '(refs, wrappers) => refs + Z.b2z owns = wrappers) (outcomes program).
Proof.
  intros HK E Hb.
  destruct (emits_shared_return K HK value py_name i tt owns existing is_pointer _ _ _ _ E Hb)
    as (os&b'&(var&it&->)&Hb'&R).
  exists var, it, b'. split_and!; [done|done|by eapply program_indent|apply shared_return_balance].
Qed.

(** ** The wrapper of a pointer passed to Python *)

Section shared_param.
Context (K : handler_class) (counts : counts_references K = true) (self : class_param) (w : wrapper)
  (value py_name : string).
Local Abbreviation i := (w_before_call w).
Local Abbreviation traits := (p_traits (cp_param self)).
Local Abbreviation pystruct := (str_opt (cv_pystruct (kc_view K))).

Definition param_narrowing_line (var : string) : stmt :=
  Line (var +:+ " = " +:+ str_opt (kc_typeid_map_name K) +:+ ".lookup_wrapper(typeid(*" +:+ value
        +:+ "), &" +:+ c_pytypestruct K +:+ ");").
Definition param_new_program (var : string) : list stmt :=
  opt (kc_automatic_type_narrowing K) [param_narrowing_line var]
  ++ [NewWrapper py_name (if kc_automatic_type_narrowing K then var else "&" +:+ c_pytypestruct K)]
  ++ opt (kc_allow_subclassing K) [Line (py_name +:+ "->inst_dict = NULL;")]
  ++ [Line (flags_none_of py_name)]
  ++ (if owned self then [Line (obj_of py_name +:+ " = " +:+ value +:+ ";")]
      else [TakeRef value; Line (obj_of py_name +:+ " = " +:+ unconst K self value +:+ ";")])
  ++ register_program K py_name.
Definition param_known_or_new_program (var it : string) : list stmt :=
  if registry_is_map K then
    lookup_program K py_name it value
    ++ [Either ("if (" +:+ py_name +:+ " == NULL)" +:+ nls +:+ "{") (param_new_program var) None]
  else param_new_program var.
Definition param_from_helper_program (helper : string) : list stmt :=
  (if target_is_const traits then
     [Line (py_name +:+ " = (" +:+ pystruct +:+ "*) (((" +:+ helper +:+ "*) ((" +:+ c_full_name K +:+ "*) "
            +:+ value +:+ "))->m_pyself);");
      Line (obj_of py_name +:+ " =  (" +:+ c_full_name K +:+ "*) (" +:+ value +:+ ");")]
   else
     [Line (py_name +:+ " = (" +:+ pystruct +:+ "*) (((" +:+ helper +:+ "*) " +:+ value +:+ ")->m_pyself);");
      Line (obj_of py_name +:+ " = " +:+ value +:+ ";")])
  ++ [Line ("Py_INCREF(" +:+ py_name +:+ ");")].
Definition shared_param_program (var it : string) : list stmt :=
  match cv_helper_class (kc_view K) with
  | None => param_known_or_new_program var it
  | Some h =>
      [Either ("if (typeid(*(" +:+ value +:+ ")).name() == typeid(" +:+ hc_name h +:+ ").name())"
               +:+ nls +:+ "{")
         (param_from_helper_program (hc_name h)) (Some (param_known_or_new_program var it))]
  end.

Lemma emits_param_type :
  emits wd_heap i (param_wrapper_type K self w value)
    (fun t os => exists var, t = (if kc_automatic_type_narrowing K then var else "&" +:+ c_pytypestruct K)
       /\ os = render K (opt (kc_automatic_type_narrowing K) [param_narrowing_line var])).
Proof.
  unfold param_wrapper_type, declare. rewrite counts, orb_true_r, andb_true_r.
  destruct (kc_automatic_type_narrowing K).
  - apply emits_bind, emits_on_heap, emits_declare. intros var. unfold before_call_code.
    repeat emits_step. by exists var.
  - apply emits_ret. by exists EmptyString.
Qed.
Lemma emits_param_object :
  emits wd_heap i (write_param_object K self w value py_name)
    (fun _ os => os = render K
       (if owned self then [Line (obj_of py_name +:+ " = " +:+ value +:+ ";")]
        else [TakeRef value; Line (obj_of py_name +:+ " = " +:+ unconst K self value +:+ ";")])).
Proof.
  unfold write_param_object, before_call_code. rewrite counts. cbn [negb].
  destruct (owned self); [by repeat emits_step|].
  rewrite incref_writes by done. by repeat emits_step.
Qed.
Lemma emits_param_create :
  emits wd_heap i (create_and_register K self w value py_name)
    (fun _ os => exists var, os = render K (param_new_program var)).
Proof.
  unfold create_and_register, param_create_new_wrapper, param_new_program.
  apply emits_bind, emits_bind. then_writes emits_param_type. intros t ? (var&->&->).
  apply emits_bind, emits_on_heap. then_writes emits_new. intros ? ? ->.
  apply emits_bind, emits_on_heap. then_writes emits_inst_dict. intros ? ? ->.
  apply emits_bind. unfold before_call_code. apply emits_on_heap, emits_write.
  then_writes emits_param_object. intros ? ? ->.
  apply emits_on_heap. then_writes emits_register. intros ? ? ->.
  exists var. by rewrite !render_app, <- !app_assoc.
Qed.
Lemma emits_param_known_or_new :
  emits wd_heap i (param_known_or_new K self w value py_name)
    (fun _ os => exists var it, os = render K (param_known_or_new_program var it)).
Proof.
  unfold param_known_or_new, param_known_or_new_program, indented_world, before_call_code.
  apply emits_bind, emits_on_heap. then_writes emits_lookup. intros found ? (->&it&->).
  destruct (registry_is_map K).
  - apply emits_bind, emits_on_heap, emits_write, emits_bind, emits_bind, emits_on_heap,
      emits_block_indent, emits_bind.
    then_writes emits_param_create. intros ? ? (var&->).
    apply emits_on_heap, emits_block_unindent, emits_on_heap, emits_write.
    exists var, it. rewrite render_app, render_either. by repeat (cbn; rewrite <- ?app_assoc).
  - then_writes emits_param_create. intros ? ? (var&->). by exists var, it.
Qed.
Lemma emits_param_from_helper helper :
  emits id i (param_from_helper K self w value py_name helper)
    (fun _ os => os = render K (param_from_helper_program helper)).
Proof.
  unfold param_from_helper, c_pystruct, param_from_helper_program.
  apply emits_bind, emits_lift. intros p Hp. rewrite (pystruct_is K p Hp).
  apply emits_bind. destruct (target_is_const traits); by repeat emits_step.
Qed.
Lemma emits_param_wrapper :
  emits wd_heap i (ptr_param_wrapper K self w value py_name)
    (fun _ os => exists var it, os = render K (shared_param_program var it)).
Proof.
  unfold ptr_param_wrapper, shared_param_program, indented_world, before_call_code.
  destruct (cv_helper_class (kc_view K)) as [h|]; [|apply emits_param_known_or_new].
  apply emits_bind, emits_on_heap, emits_write, emits_bind, emits_on_heap. unfold indented.
  apply emits_bind, emits_block_indent, emits_bind.
  then_writes emits_param_from_helper. intros ? ? ->. apply emits_block_unindent.
  apply emits_bind, emits_on_heap, emits_write, emits_bind, emits_bind, emits_on_heap,
    emits_block_indent, emits_bind.
  then_writes emits_param_known_or_new. intros ? ? (var&it&->).
  apply emits_on_heap, emits_block_unindent, emits_on_heap, emits_write.
  exists var, it. rewrite render_either. by repeat (cbn; rewrite <- ?app_assoc).
Qed.

(** A passed on reference goes to a new wrapper; a wrapper that is known has no
    use for it, but it is not dropped. *)
Lemma shared_param_outcomes var it :
  Forall (fun '(refs, wrappers) => refs = if owned self then 0 else wrappers)
    (outcomes (shared_param_program var it)).
Proof.
  unfold shared_param_program, param_known_or_new_program, param_from_helper_program,
    param_new_program, register_program, lookup_program.
  destruct (cv_helper_class (kc_view K)), (registry_is_map K), (kc_automatic_type_narrowing K),
    (kc_allow_subclassing K), (owned self), (target_is_const traits); repeat constructor.
Qed.
Lemma shared_param_leak var it :
  registry_is_map K = true ->
  (0, 0) ∈ outcomes (shared_param_program var it).
Proof.
  intros Hm.
  unfold shared_param_program, param_known_or_new_program, param_from_helper_program,
    param_new_program, register_program, lookup_program. rewrite Hm.
  destruct (cv_helper_class (kc_view K)), (kc_automatic_type_narrowing K),
    (kc_allow_subclassing K), (owned self), (target_is_const traits); cbn; set_solver.
Qed.
End shared_param.

(** C10: Ownership of pointers passed to Python.  For a class that counts references,
    the code that wraps a pointer for a virtual method implemented in Python takes,
    on every path, one reference for each wrapper it makes, and none if the caller
    passed its own reference on.  A path that finds the wrapper in the registry
    makes none and drops none, so that a reference passed on is then lost. *)
Theorem shared_param_references (K : handler_class) (self : class_param) (w : wrapper)
    (value py_name : string) (s s' : world) (b : code_block) :
  counts_references K = true ->
  ptr_param_wrapper K self w value py_name s = (s', Ok ()) ->
  h_blocks (wd_heap s) !! w_before_call w = Some b ->
  exists var it b', let program := shared_param_program K self value py_name var it in
    h_blocks (wd_heap s') !! w_before_call w = Some b'
    /\ run_ops (cb_sink b) (render K program) = Ok (cb_sink b')
    /\ same_indent (cb_sink b') (cb_sink b)
    /\ Forall (fun '(refs, wrappers) => refs = if owned self then 0 else wrappers) (outcomes program)
    /\ (registry_is_map K = true -> (0, 0) ∈ outcomes program).
Proof.
  intros HK E Hb.
  destruct (emits_param_wrapper K HK self w value py_name _ _ _ _ E Hb)
    as (os&b'&(var&it&->)&Hb'&R).
  exists var, it, b'. split_and!; [done|done|by eapply program_indent|apply shared_param_outcomes|].
  by apply shared_param_leak.
Qed.

(** ** Examples *)

Definition demo_counted : handler_class :=
  HandlerClass
    (ClassView "Zbr" "ns::Zbr" (Some "PyZbr") "PyZbr_Type" None (Ok "ns::Zbr")
       (default_instance_creation_function false "ns::Zbr") None)
    true false
    (Some (ReferenceCountingMethodsPolicy (Some "Ref") (Some "Unref") None)) None
    (Ok (StdMapWrapperRegistry_init "Zbr")) [] true.
Definition demo_own_heap : heap :=
  Heap [MkBlock MemoryCodeSink None ∅ 0 "return NULL;" 0] [MkScope MemoryCodeSink 0] [∅].
Definition demo_own_block : code_block := MkBlock MemoryCodeSink None ∅ 0 "return NULL;" 0.
Definition demo_own_world : world := World demo_own_heap [] [] [] [] ∅.
Definition demo_own_ref : wrapper := MkWrapper ReverseWrapper 0 0 0 0.
Definition no_traits : type_traits := TypeTraits [] [] [] false false true false None.
Definition demo_pointer (owned : bool) : class_param :=
  MkClassParam CppClassPtrParameter (MkParam no_traits "zbr" "zbr" DIRECTION_IN VNone (VBool owned) None)
    "ns::Zbr *" None false VNone None false.

Lemma shared_return_balanced_witness :
  exists h' var it b',
    let program := shared_return_program demo_counted "retval" "py_Zbr" no_traits true true var it in
    common_shared_object_return demo_counted "retval" "py_Zbr" 0 no_traits true false true demo_own_heap
      = (h', Ok ())
    /\ h_blocks h' !! 0%nat = Some b'
    /\ run_ops MemoryCodeSink (render demo_counted program) = Ok (cb_sink b')
    /\ outcomes program = [(0, 1); (-1, 0)].
Proof.
  destruct (common_shared_object_return demo_counted "retval" "py_Zbr" 0 no_traits true false true
              demo_own_heap) as [h' r] eqn:E.
  assert (r = Ok ()) as -> by (revert E; vm_compute; congruence).
  destruct (shared_return_balanced demo_counted "retval" "py_Zbr" 0 no_traits true false true
    demo_own_heap h' demo_own_block eq_refl E eq_refl) as (var&it&b'&Hb&R&_&_).
  exists h', var, it, b'. split_and!; [done..|reflexivity].
Defined.

Lemma shared_param_references_witness :
  exists s' var it b',
    let program := shared_param_program demo_counted (demo_pointer true) "zbr" "py_Zbr" var it in
    ptr_param_wrapper demo_counted (demo_pointer true) demo_own_ref "zbr" "py_Zbr" demo_own_world = (s', Ok ())
    /\ h_blocks (wd_heap s') !! 0%nat = Some b'
    /\ run_ops MemoryCodeSink (render demo_counted program) = Ok (cb_sink b')
    /\ (0, 0) ∈ outcomes program.
Proof.
  destruct (ptr_param_wrapper demo_counted (demo_pointer true) demo_own_ref "zbr" "py_Zbr" demo_own_world)
    as [s' r] eqn:E.
  assert (r = Ok ()) as -> by (revert E; vm_compute; congruence).
  destruct (shared_param_references demo_counted (demo_pointer true) demo_own_ref "zbr" "py_Zbr"
    demo_own_world s' demo_own_block eq_refl E eq_refl) as (var&it&b'&Hb&R&_&_&L).
  exists s', var, it, b'. split_and!; [done..|by apply L].
Defined.
