(* ===== verification/CppAttribute.v ===== *)
(** * Attributes of C++ classes: [pybindgen/cppattribute.py]

    Getters and setters of the attributes of a class, the table that lists them,
    and the metaclass that carries the static ones.  A getter is a
    [ForwardWrapperBase] and a setter a [ReverseWrapperBase]; both of one
    attribute share the handler of its type, whose value they set. *)
From S2P Require Import Prelude.
From S2P Require Import Format.
From S2P Require Import CodeSink.
From S2P Require Import CodeBlock.
From S2P Require Import Wrapper.
From S2P Require Import CTypeParser.
From S2P Require Import TypeHandler.
From S2P Require Import HandlerOps.
From S2P Require Import NumericTypes.
From S2P Require Import WrapperBase.
From S2P Require Import Utils.
From S2P Require Import Settings.
From S2P Require Import CppException.
From S2P Require Import WrapperObject.
From S2P Require Import Converters.
From S2P Require Import CppMethod.

(** ** Getters *)

Record attribute_getter : Type := AttributeGetter {
  ag_class : class_view;
  ag_attribute_name : string;
  ag_c_function_name : string;
  ag_base : forward_wrapper
}.

(** The constructor of both classes of getters, up to the value. *)
Definition PyGetter_init (class_ : class_view) (attribute_name : string)
    : ST value_state attribute_getter :=
  v <- st_get fst ;;
  fw <- on_snd (ForwardWrapperBase_init (Some (vt_handler v)) [] "return NULL;" "return NULL;" None
                  true false false (fun _ => st_ret tt) (fun _ => st_ret tt) (fun _ => st_ret tt)) ;;
  pystruct <- st_lift (get_pystruct class_) ;;
  st_ret (AttributeGetter class_ attribute_name
            ("_wrap_" +:+ pystruct +:+ "__get_" +:+ attribute_name) fw).

(** The expression of an instance attribute. *)
Definition instance_value (attribute_name : string) (getter : option string) : string :=
  match getter with
  | None => "self->obj->" +:+ attribute_name
  | Some g => "self->obj->" +:+ g +:+ "()"
  end.
Definition static_value (class_ : class_view) (attribute_name : string) : string :=
  cv_full_name class_ +:+ "::" +:+ attribute_name.

Definition CppInstanceAttributeGetter_init (class_ : class_view) (attribute_name : string)
    (getter : option string) : ST value_state attribute_getter :=
  a <- PyGetter_init class_ attribute_name ;;
  set_handler (set_value (instance_value attribute_name getter)) ;;;
  st_ret a.

Definition CppStaticAttributeGetter_init (class_ : class_view) (attribute_name : string)
    : ST value_state attribute_getter :=
  a <- PyGetter_init class_ attribute_name ;;
  set_handler (set_value (static_value class_ attribute_name)) ;;;
  st_ret a.

(** The wrapper with the handler as it is now. *)
Definition with_return (fw : forward_wrapper) (rv : return_handler) : forward_wrapper :=
  MkForward (Some rv) (fw_parameters fw) (fw_refs fw) (fw_force_parse fw) (fw_no_c_retval fw)
    (fw_unblock_threads fw) (fw_deprecated fw) (fw_wrapper_actual_name fw)
    (fw_wrapper_return fw) (fw_wrapper_args fw) (fw_HAVE_RETURN_VALUE fw)
    (fw_generate_call fw) (fw_before_call_hook fw) (fw_before_return_hook fw).

(** [self.generate_body(tmp_sink)] for a new memory sink *)
Definition getter_body (a : attribute_getter) : ST value_gen code_sink :=
  fun st =>
    let '(g, r) := generate_body (with_return (ag_base a) (vt_handler st.1))
                     (Gen (g_world st.2) MemoryCodeSink) in
    ((st.1, Gen (g_world g) (g_out st.2)),
     match r with Ok _ => Ok (g_out g) | Raise e => Raise e end).

(** The function around a body. *)
Definition write_getter (header : string) (tmp_sink : code_sink) : ST gen unit :=
  out_writeln header ;;;
  out_writeln "{" ;;;
  out (fun k => Ok (indent k 4)) ;;;
  out (fun k => kk <-? flush_to tmp_sink k ;; Ok kk.2) ;;;
  out unindent ;;;
  out_writeln "}".

Definition instance_getter_header (pystruct name : string) : string :=
  "static PyObject* " +:+ name +:+ "(" +:+ pystruct +:+ " *self, void * PYBINDGEN_UNUSED(closure))".
Definition static_getter_header (name : string) : string :=
  "static PyObject* " +:+ name
  +:+ "(PyObject * PYBINDGEN_UNUSED(obj), void * PYBINDGEN_UNUSED(closure))".

Definition CppInstanceAttributeGetter_generate (a : attribute_getter) : ST value_gen unit :=
  tmp_sink <- getter_body a ;;
  pystruct <- st_lift (get_pystruct (ag_class a)) ;;
  on_snd (write_getter (instance_getter_header pystruct (ag_c_function_name a)) tmp_sink).

Definition CppStaticAttributeGetter_generate (a : attribute_getter) : ST value_gen unit :=
  tmp_sink <- getter_body a ;;
  on_snd (write_getter (static_getter_header (ag_c_function_name a)) tmp_sink).

(** ** Setters *)

Record attribute_setter : Type := AttributeSetter {
  as_class : class_view;
  as_attribute_name : string;
  as_setter : option string;
  as_c_function_name : string;
  as_refs : wrapper
}.

(** The constructor of both classes of setters, up to the value. *)
Definition PySetter_init (class_ : class_view) (attribute_name : string) (setter : option string)
    : ST value_state attribute_setter :=
  v <- st_get fst ;;
  rw <- on_snd (ReverseWrapperBase_init (vt_handler v) [] (Some "return -1;") true
                  (fun _ => st_raise AssertionError)) ;;
  pystruct <- st_lift (get_pystruct class_) ;;
  st_ret (AttributeSetter class_ attribute_name setter
            ("_wrap_" +:+ pystruct +:+ "__set_" +:+ attribute_name) (rw_refs rw)).

Definition CppInstanceAttributeSetter_init (class_ : class_view) (attribute_name : string)
    (setter : option string) : ST value_state attribute_setter :=
  PySetter_init class_ attribute_name setter.

Definition CppStaticAttributeSetter_init (class_ : class_view) (attribute_name : string)
    : ST value_state attribute_setter :=
  a <- PySetter_init class_ attribute_name None ;;
  set_handler (fun v => set_requires false (set_value (static_value class_ attribute_name) v)) ;;;
  st_ret a.

(** Where the value of an instance attribute is converted to: a temporary variable
    when there is a method to pass it to, which is returned. *)
Definition instance_setter_convert (a : attribute_setter) : ST value_state (option string) :=
  let w := as_refs a in
  match as_setter a with
  | Some _ =>
      requires <- st_get (fun st => rh_REQUIRES_ASSIGNMENT_CONSTRUCTOR (vt_handler st.1)) ;;
      ctype <- st_get (fun st => rh_ctype (vt_handler st.1)) ;;
      value_var <-
        on_snd (if negb requires then declare w ctype "tmp_value" None None
                else on_heap (reserve_variable (w_declarations w) "tmp_value")) ;;
      set_handler (set_value value_var) ;;;
      convert_python_to_c w ;;;
      st_ret (Some value_var)
  | None =>
      set_handler (fun v => set_requires false
                              (set_value ("self->obj->" +:+ as_attribute_name a) v)) ;;;
      convert_python_to_c w ;;;
      st_ret None
  end.

(** The call of the method of the class. *)
Definition setter_call (a : attribute_setter) (value_var : option string) : list string :=
  match as_setter a, value_var with
  | Some m, Some v => ["self->obj->" +:+ m +:+ "(" +:+ v +:+ ");"]
  | _, _ => []
  end.

Definition instance_setter_header (pystruct name : string) : string :=
  "static int " +:+ name +:+ "(" +:+ pystruct
  +:+ " *self, PyObject *value, void * PYBINDGEN_UNUSED(closure))".
Definition static_setter_header (pystruct name : string) : string :=
  "static int " +:+ name +:+ "(" +:+ pystruct
  +:+ " * PYBINDGEN_UNUSED(dummy), PyObject *value, void * PYBINDGEN_UNUSED(closure))".

(** The end of both [generate] methods. *)
Definition write_setter (a : attribute_setter) (header : string -> string -> string)
    : ST value_gen unit :=
  pystruct <- st_lift (get_pystruct (as_class a)) ;;
  on_snd (write_function (as_refs a) (header pystruct (as_c_function_name a))
            [w_before_call (as_refs a); w_after_call (as_refs a)]).

Definition CppInstanceAttributeSetter_generate (a : attribute_setter) : ST value_gen unit :=
  in_state (convert_value (as_refs a) (instance_setter_convert a) (setter_call a) "return 0;") ;;;
  write_setter a instance_setter_header.

Definition CppStaticAttributeSetter_generate (a : attribute_setter) : ST value_gen unit :=
  in_state (convert_value (as_refs a) (convert_python_to_c (as_refs a)) (fun _ => []) "return 0;") ;;;
  write_setter a static_setter_header.

(** ** The table of attributes

    A getter or a setter, as the table sees it. *)

Section getset.
Context {S : Type}.

Record accessor : Type := Accessor {
  ac_generate : ST (S * code_sink) unit;
  ac_c_function_name : string
}.

Record attribute : Type := Attribute {
  at_name : string;
  at_getter : option accessor;
  at_setter : option accessor
}.

Record getset_def : Type := GetSetDef { gs_cname : string; gs_attributes : list attribute }.

Definition PyGetSetDef_init (cname : string) : getset_def := GetSetDef cname [].
Definition getset_empty (t : getset_def) : bool := (length (gs_attributes t) =? 0)%nat.
Definition add_attribute (name : string) (getter setter : option accessor) (t : getset_def)
    : getset_def :=
  GetSetDef (gs_cname t) (gs_attributes t ++ [Attribute name getter setter]).

Context (on_error : error_handler (S * code_sink)).

(** The C name of an accessor that could be generated, or [NULL]. *)
Definition generate_accessor (a : option accessor) : ST (S * code_sink) string :=
  match a with
  | None => st_ret "NULL"
  | Some a =>
      st_catch (call_with_error_handling on_error (ac_generate a) default_exceptions ;;;
                st_ret (ac_c_function_name a))
        (fun e => match e with SkipWrapper => st_ret "NULL" | _ => st_raise e end)
  end.

(** The loop over the attributes, which fills the dictionary [getsets]. *)
Fixpoint generate_accessors (attributes : list attribute)
    (getsets : gmap string (string * string)) : ST (S * code_sink) (gmap string (string * string)) :=
  match attributes with
  | [] => st_ret getsets
  | a :: attributes =>
      getter_name <- generate_accessor (at_getter a) ;;
      setter_name <- generate_accessor (at_setter a) ;;
      st_assert (bool_decide (getsets !! at_name a = None)) ;;;
      generate_accessors attributes (<[at_name a := (getter_name, setter_name)]> getsets)
  end.

(** An entry of the table. *)
Definition getset_entry (e : string * (string * string)) : ST (S * code_sink) unit :=
  sink_writeln "{" ;;;
  sink_indent ;;;
  sink_writeln ("(char*) " +:+ dq +:+ e.1 +:+ dq +:+ ", /* attribute name */") ;;;
  sink_writeln ("(getter) " +:+ e.2.1 +:+ ", /* C function to get the attribute */") ;;;
  sink_writeln ("(setter) " +:+ e.2.2 +:+ ", /* C function to set the attribute */") ;;;
  sink_writeln "NULL, /* optional doc string */" ;;;
  sink_writeln "NULL /* optional additional data for getter and setter */" ;;;
  sink_unindent ;;;
  sink_writeln "},".

Context {dict_order : DictOrder}.

Definition PyGetSetDef_generate (t : getset_def) : ST (S * code_sink) string :=
  match gs_attributes t with
  | [] => st_ret "0"
  | attributes =>
      getsets <- generate_accessors attributes ∅ ;;
      sink_writeln ("static PyGetSetDef " +:+ gs_cname t +:+ "[] = {") ;;;
      sink_indent ;;;
      st_iter getset_entry (dict_items getsets) ;;;
      sink_writeln "{ NULL, NULL, NULL, NULL, NULL }" ;;;
      sink_unindent ;;;
      sink_writeln "};" ;;;
      st_ret (gs_cname t)
  end.
End getset.

(** ** The metaclass *)

Record metaclass : Type := Metaclass {
  mc_name : string;
  mc_pytypestruct : string;
  mc_parent_metaclass_expr : string;
  mc_getsets : option string
}.

(** [getsets] is the C name of the table. *)
Definition PyMetaclass_init (g : settings) (name parent_metaclass_expr : string)
    (getsets : option string) : metaclass :=
  Metaclass name ("Py" +:+ capitalize (name_prefix g) +:+ name +:+ "_Type") parent_metaclass_expr
    getsets.

(** The type object of a metaclass *)
Definition metaclass_TEMPLATE : string :=
  join nls
    [EmptyString;
     "PyTypeObject %(pytypestruct)s = {";
     "	PyObject_HEAD_INIT(NULL)";
     "	0,					/* ob_size */";
     "	(char *) " +:+ dq +:+ "%(name)s" +:+ dq +:+ ",		        /* tp_name */";
     "	0,					/* tp_basicsize */";
     "	0,					/* tp_itemsize */";
     "	0,	 				/* tp_dealloc */";
     "	0,					/* tp_print */";
     "	0,					/* tp_getattr */";
     "	0,					/* tp_setattr */";
     "	0,					/* tp_compare */";
     "	0,					/* tp_repr */";
     "	0,					/* tp_as_number */";
     "	0,					/* tp_as_sequence */";
     "	0,		       			/* tp_as_mapping */";
     "	0,					/* tp_hash */";
     "	0,					/* tp_call */";
     "	0,					/* tp_str */";
     "	0,					/* tp_getattro */";
     "	0,					/* tp_setattro */";
     "	0,					/* tp_as_buffer */";
     "	Py_TPFLAGS_DEFAULT|Py_TPFLAGS_HAVE_GC|Py_TPFLAGS_BASETYPE, /* tp_flags */";
     " 	0,					/* tp_doc */";
     "	0,					/* tp_traverse */";
     " 	0,					/* tp_clear */";
     "	0,					/* tp_richcompare */";
     "	0,					/* tp_weaklistoffset */";
     "	0,					/* tp_iter */";
     "	0,					/* tp_iternext */";
     "	0,					/* tp_methods */";
     "	0,					/* tp_members */";
     "	%(getset)s,				/* tp_getset */";
     "	0,					/* tp_base */";
     "	0,					/* tp_dict */";
     "	0,	                                /* tp_descr_get */";
     "	0,  		                        /* tp_descr_set */";
     "	0,					/* tp_dictoffset */";
     "	0,					/* tp_init */";
     "	0,					/* tp_alloc */";
     "	0,					/* tp_new */";
     "	0,               			/* tp_free */";
     "        0,                                      /* tp_is_gc */";
     "        0,                                      /* tp_bases */";
     "        0,                                      /* tp_mro */";
     "        0,                                      /* tp_cache */";
     "        0,                                      /* tp_subclasses */";
     "        0,                                      /* tp_weaklist */";
     "        0                                       /* tp_del */";
     "};";
     EmptyString].

(** Its code in the init function of the module *)
Definition metaclass_init_TEMPLATE : string :=
  join nls
    [EmptyString;
     "%(pytypestruct)s.tp_base = %(parent_metaclass)s;";
     "/* Some fields need to be manually inheritted from the parent metaclass */";
     "%(pytypestruct)s.tp_traverse = %(parent_metaclass)s->tp_traverse;";
     "%(pytypestruct)s.tp_clear = %(parent_metaclass)s->tp_clear;";
     "%(pytypestruct)s.tp_is_gc = %(parent_metaclass)s->tp_is_gc;";
     "/* PyType tp_setattro is too restrictive */";
     "%(pytypestruct)s.tp_setattro = PyObject_GenericSetAttr;";
     "PyType_Ready(&%(pytypestruct)s);";
     EmptyString].

(** [self.getsets and self.getsets.cname or '0'] *)
Definition getset_expr (m : metaclass) : string :=
  if truthy (mc_getsets m) then default EmptyString (mc_getsets m) else "0".

Definition PyMetaclass_generate (m : metaclass) (module : module_view) : ST (heap * code_sink) unit :=
  text <- st_lift (format_dict metaclass_TEMPLATE (fun key =>
            if String.eqb key "pytypestruct" then Some (mc_pytypestruct m)
            else if String.eqb key "name" then Some (mc_name m)
            else if String.eqb key "getset" then Some (getset_expr m)
            else None)) ;;
  sink_writeln text ;;;
  init <- st_lift (format_dict metaclass_init_TEMPLATE (fun key =>
            if String.eqb key "pytypestruct" then Some (mc_pytypestruct m)
            else if String.eqb key "parent_metaclass" then Some (mc_parent_metaclass_expr m)
            else None)) ;;
  on_fst (write_code (mv_after_init module) init).

(** ** The text of a setter *)

(** The conversion of an instance attribute parses one value. *)
Lemma converts_instance_setter a : converts 1 (instance_setter_convert a).
Proof.
  unfold instance_setter_convert. destruct (as_setter a) as [m|].
  - apply (converts_bind 0 1); [apply converts_get|]. intros b.
    apply (converts_bind 0 1); [apply converts_get|]. intros ctype.
    apply (converts_bind 0 1).
    { destruct b; cbn [negb]; apply converts_world;
        solve [wiring | grows | apply add_params_on_heap]. }
    intros x. apply (converts_bind 0 1); [apply converts_set_handler; apply _|]. intros _.
    apply (converts_bind 1 0); [apply converts_handler | intros _; apply converts_ret].
  - apply (converts_bind 0 1); [apply converts_set_handler; apply _|]. intros _.
    apply (converts_bind 1 0); [apply converts_handler | intros _; apply converts_ret].
Qed.

(** The handler's value after the conversion: the attribute, or the variable that
    is returned. *)
Definition setter_target (a : attribute_setter) (value_var : option string) : string :=
  default ("self->obj->" +:+ as_attribute_name a) value_var.

Lemma on_snd_fst {S T A} (m : ST T A) (st st' : S * T) (x : A) :
  on_snd m st = (st', Ok x) -> st'.1 = st.1.
Proof. unfold on_snd. destruct (m st.2) as [t r]. by intros [= <- _]. Qed.

Lemma instance_setter_value a st st' x :
  instance_setter_convert a st = (st', Ok x) ->
  vt_value st'.1 = setter_target a x /\ (as_setter a = None <-> x = None).
Proof.
  unfold instance_setter_convert, setter_target. intros H.
  destruct (as_setter a) as [m|].
  - apply st_bind_Ok in H as (s1&?&_&H). apply st_bind_Ok in H as (s2&?&_&H).
    apply st_bind_Ok in H as (s3&y&_&H). apply st_bind_Ok in H as (s4&[]&E4&H).
    injection E4 as <-. apply st_bind_Ok in H as (s5&[]&E5&H). injection H as <- <-.
    apply on_snd_fst in E5. by rewrite E5.
  - apply st_bind_Ok in H as (s4&[]&E4&H). injection E4 as <-.
    apply st_bind_Ok in H as (s5&[]&E5&H). injection H as <- <-.
    apply on_snd_fst in E5. by rewrite E5.
Qed.

(** Nothing after the conversion changes the handler. *)
Lemma handler_after {A} (convert : ST value_state A) call e code (m : ST gen unit) names v k st' st1 x :
  (in_state (convert_value reverse_refs convert call code) ;;; on_snd m)
    (v, Gen (new_reverse_world e names) k) = (st', Ok tt) ->
  convert (v, packed e names) = (st1, Ok x) -> st'.1 = st1.1.
Proof.
  intros H Hc. apply st_bind_Ok in H as ([v1 g1]&[]&E1&H). apply on_snd_fst in H. rewrite H.
  unfold in_state in E1. cbn [fst snd g_world g_out] in E1.
  destruct (convert_value _ _ _ _ _) as [[v2 s2] r2] eqn:E2. injection E1 as <- <- ->.
  unfold convert_value in E2. unfold st_bind at 1, on_snd at 1 in E2. cbn [fst snd] in E2.
  rewrite pack_value_eq in E2. unfold st_bind at 1 in E2. rewrite Hc in E2.
  apply st_bind_Ok in E2 as (st2&[]&E3&E2). apply on_snd_fst in E2. apply on_snd_fst in E3.
  cbn [fst] in *. congruence.
Qed.

(** The function of an instance setter.  When [generate] of a new setter
    returns, it wrote one function of the expected name, which unpacks the Python
    value once, and releases its tuple last on both ways out, before it returns -1
    after a failed conversion and before it returns 0.  The value is converted
    straight into the attribute, or, when the class has a method to set it, into a
    temporary variable, which the method is then called with, once and only when
    nothing failed. *)
Theorem instance_setter_function (v v' : value_type) (class_ : class_view) (name : string)
    (setter : option string) (s0 : world) (a : attribute_setter) (names : gmap Z string)
    (k : code_sink) (st' : value_gen) :
  ValueContract v ->
  CppInstanceAttributeSetter_init class_ name setter (v, World empty_heap [] [] [] [] names)
    = ((v', s0), Ok a) ->
  CppInstanceAttributeSetter_generate a (v', Gen s0 k) = (st', Ok tt) ->
  exists pystruct value_var,
    get_pystruct class_ = Ok pystruct
    /\ (setter = None <-> value_var = None)
    /\ vt_value st'.1 = default ("self->obj->" +:+ name) value_var
    /\ converter_text "return -1;"
         (instance_setter_header pystruct ("_wrap_" +:+ pystruct +:+ "__set_" +:+ name))
         match setter, value_var with
         | Some m, Some x => ["self->obj->" +:+ m +:+ "(" +:+ x +:+ ");"]
         | _, _ => []
         end
         "return 0;" k (g_out st'.2).
Proof.
  intros Hv Hi H. unfold CppInstanceAttributeSetter_init, PySetter_init in Hi.
  unfold st_bind at 1, st_get in Hi. cbn [fst] in Hi.
  apply st_bind_Ok in Hi as (s1&rw&E1&Hi). injection E1 as <- <-.
  destruct (get_pystruct class_) as [p|] eqn:Ep; [|discriminate Hi]. injection Hi as <- <- <-.
  match type of H with CppInstanceAttributeSetter_generate ?x _ = _ => set (a := x) in * end.
  assert ((in_state (convert_value reverse_refs (instance_setter_convert a) (setter_call a) "return 0;") ;;;
    on_snd (write_function reverse_refs (instance_setter_header p (as_c_function_name a)) [0; 1]%nat))
    (v, Gen (new_reverse_world "return -1;" names) k) = (st', Ok tt)) as H'.
  { unfold CppInstanceAttributeSetter_generate, write_setter in H. cbn [as_class a] in H.
    rewrite Ep in H. exact H. }
  destruct (converter_text_of "return -1;" _ _ "return 0;" _ names v k st'
    (converts_instance_setter a) Hv H') as (x&st1&Hc&Ht).
  destruct (instance_setter_value a _ _ x Hc) as [Hx Hn].
  exists p, x. split_and!; [done | exact Hn | | exact Ht].
  by rewrite (handler_after _ _ _ _ _ names v k st' st1 x H' Hc), Hx.
Qed.

(** The same of a static attribute, whose value the constructor sets. *)
Lemma static_setter_text (v v' : value_type) class_ name s0 a names k st' :
  ValueContract v ->
  CppStaticAttributeSetter_init class_ name (v, World empty_heap [] [] [] [] names)
    = ((v', s0), Ok a) ->
  vt_value v' = static_value class_ name /\ vt_REQUIRES_ASSIGNMENT_CONSTRUCTOR v' = false
  /\ (CppStaticAttributeSetter_generate a (v', Gen s0 k) = (st', Ok tt) ->
      st'.1 = v' /\ exists pystruct, get_pystruct class_ = Ok pystruct
      /\ converter_text "return -1;"
           (static_setter_header pystruct ("_wrap_" +:+ pystruct +:+ "__set_" +:+ name))
           [] "return 0;" k (g_out st'.2)).
Proof.
  intros Hv Hi. unfold CppStaticAttributeSetter_init, PySetter_init in Hi.
  apply st_bind_Ok in Hi as (s1&a1&E&Hi).
  unfold st_bind at 1, st_get in E. cbn [fst] in E.
  apply st_bind_Ok in E as (s2&rw&E1&E). injection E1 as <- <-.
  destruct (get_pystruct class_) as [p|] eqn:Ep; [|discriminate E]. injection E as <- <-.
  injection Hi as <- <- <-. split_and!; [done..|]. intros H.
  match type of H with CppStaticAttributeSetter_generate ?x _ = _ => set (a := x) in * end.
  match type of H with _ (?x, _) = _ => set (v1 := x) in * end.
  assert ((in_state (convert_value reverse_refs (convert_python_to_c reverse_refs) (fun _ => []) "return 0;") ;;;
    on_snd (write_function reverse_refs (static_setter_header p (as_c_function_name a)) [0; 1]%nat))
    (v1, Gen (new_reverse_world "return -1;" names) k) = (st', Ok tt)) as H'.
  { unfold CppStaticAttributeSetter_generate, write_setter in H. cbn [as_class a] in H.
    rewrite Ep in H. exact H. }
  assert (ValueContract v1) as Hv1 by apply _.
  destruct (converter_text_of "return -1;" _ _ "return 0;" _ names v1 k st'
    (converts_handler reverse_refs) Hv1 H') as (x&st1&Hc&Ht).
  split; [|by exists p].
  rewrite (handler_after _ _ _ _ _ names v1 k st' st1 x H' Hc). by apply on_snd_fst in Hc.
Qed.

(** ** The text of a getter *)

(** The objects of a new getter, and its handler. *)
Lemma PyGetter_init_facts v class_ name s st' a :
  PyGetter_init class_ name (v, s) = (st', Ok a) -> wd_heap s = empty_heap ->
  st'.1 = v /\ ag_class a = class_ /\ fw_refs (ag_base a) = MkWrapper ForwardWrapper 0 0 1 2
  /\ heap_same_wiring (new_forward_heap "return NULL;" "return NULL;") (wd_heap st'.2)
  /\ (forall rv, (forall w, evolves same_wiring (rh_convert_c_to_python rv w)) ->
        ForwardFrame (with_return (ag_base a) rv))
  /\ exists pystruct, get_pystruct class_ = Ok pystruct
     /\ ag_c_function_name a = "_wrap_" +:+ pystruct +:+ "__get_" +:+ name.
Proof.
  intros H Hs. unfold PyGetter_init in H. unfold st_bind at 1, st_get in H. cbn [fst] in H.
  apply st_bind_Ok in H as ([v1 s1]&fw&E&H). unfold on_snd in E. cbn [fst snd] in E.
  destruct (ForwardWrapperBase_init _ _ _ _ _ _ _ _ _ _ _ s) as [s2 [fw2|]] eqn:Ef;
    [|discriminate E]. injection E as <- <- <-.
  destruct (get_pystruct class_) as [p|] eqn:Ep; [|discriminate H]. injection H as <- <-.
  destruct (forward_init_facts _ _ _ _ _ _ _ _ _ _ _ _ _ _ Hs Ef) as (Hr&_&Hw).
  apply forward_init_eq in Ef as [-> _]; [|done]. cbn [fst snd]. split_and!; try done.
  - intros rv Hrv. split; cbn; [constructor | by intros rv' w [= <-] | ..]; intros w; apply evolves_ret; apply _.
  - by exists p.
Qed.

Lemma write_getter_eq header tmp s k : is_memory tmp = true ->
  exists k', write_getter header tmp (Gen s k) = (Gen s k', Ok tt)
    /\ function_text header (memory_lines tmp) k = Ok k'.
Proof.
  intros Hm. destruct (unindent_after_lines (writeln (writeln k header) "{") (memory_lines tmp) [])
    as [k' E]. cbn in E.
  exists (writeln k' "}"). unfold write_getter, function_text, flush_to.
  rewrite (is_memory_dest _ Hm). unfold out_writeln, st_bind, out. cbn. unfold write_lines in E |- *.
  rewrite E. by split.
Qed.

Lemma write_lines_memory ls k : is_memory k = true -> is_memory (write_lines ls k) = true.
Proof.
  revert k. induction ls as [|l ls IH]; intros k H; [done|]. apply IH. by rewrite is_memory_writeln.
Qed.

(** A getter is written whole or not at all, and its body gives the Python value
    of the attribute: the handler works on the expression the constructor set. *)
Lemma instance_getter_text v v' class_ name getter s s0 a k :
  ValueContract v -> wd_heap s = empty_heap ->
  CppInstanceAttributeGetter_init class_ name getter (v, s) = ((v', s0), Ok a) ->
  v' = set_value (instance_value name getter) v
  /\ let '(s1, r) := generate_code (with_return (ag_base a) (vt_handler v')) s0 in
     match r with
     | Raise e => CppInstanceAttributeGetter_generate a (v', Gen s0 k) = ((v', Gen s1 k), Raise e)
     | Ok _ => exists pystruct s2 k', get_pystruct class_ = Ok pystruct
         /\ CppInstanceAttributeGetter_generate a (v', Gen s0 k) = ((v', Gen s2 k'), Ok tt)
         /\ function_text (instance_getter_header pystruct
                ("_wrap_" +:+ pystruct +:+ "__get_" +:+ name))
              (memory_lines (write_lines (forward_lines (wd_heap s1)) MemoryCodeSink)) k
            = Ok k'
     end.
Proof.
  intros Hv Hs H. unfold CppInstanceAttributeGetter_init in H.
  apply st_bind_Ok in H as ([v1 s1]&a1&Ea&H). injection H as <- <- <-.
  destruct (PyGetter_init_facts _ _ _ _ _ _ Ea Hs) as (E1&Hc&Hr&Hw&Hf&p&Hp&Hn).
  cbn [fst snd] in E1, Hw. rewrite E1 in *. split; [done|].
  set (v2 := set_value _ v). assert (ForwardFrame (with_return (ag_base a1) (vt_handler v2))) as Hf2.
  { apply Hf. intros w. apply (vc_c2py_wiring (v:=v2)). }
  pose proof (generate_body_eq (with_return (ag_base a1) (vt_handler v2)) _ _ s1 MemoryCodeSink
    Hf2 Hr Hw) as H.
  unfold CppInstanceAttributeGetter_generate, getter_body.
  destruct (generate_code _ s1) as [s2 [[]|e]]; destruct H as [_ H].
  - destruct H as (h&E&_). unfold st_bind at 1. cbn [fst snd g_world g_out]. rewrite E. rewrite Hc, Hp.
    set (tmp := write_lines _ MemoryCodeSink).
    destruct (write_getter_eq (instance_getter_header p (ag_c_function_name a1)) tmp
      (set_heap s2 h) k) as (k'&Ew&Et); [by apply write_lines_memory|].
    exists p, (set_heap s2 h), k'. split_and!; [done | | by rewrite <- Hn].
    unfold st_bind, st_lift, on_snd. cbn [fst snd g_world g_out]. by rewrite Ew.
  - unfold st_bind at 1. cbn [fst snd g_world g_out]. by rewrite H.
Qed.

(** ** The table of attributes *)

Section getset_table.
Context {S : Type} (on_error : error_handler (S * code_sink)) {dict_order : DictOrder}.

(** The text of the table. *)
Definition getset_entry_ops (e : string * (string * string)) : list sink_op :=
  [OpWrite "{"; OpIndent 4;
   OpWrite ("(char*) " +:+ dq +:+ e.1 +:+ dq +:+ ", /* attribute name */");
   OpWrite ("(getter) " +:+ e.2.1 +:+ ", /* C function to get the attribute */");
   OpWrite ("(setter) " +:+ e.2.2 +:+ ", /* C function to set the attribute */");
   OpWrite "NULL, /* optional doc string */";
   OpWrite "NULL /* optional additional data for getter and setter */";
   OpUnindent; OpWrite "},"].
Definition getset_ops (cname : string) (entries : list (string * (string * string)))
    : list sink_op :=
  [OpWrite ("static PyGetSetDef " +:+ cname +:+ "[] = {"); OpIndent 4]
  ++ (flat_map getset_entry_ops entries ++ [OpWrite "{ NULL, NULL, NULL, NULL, NULL }"])
  ++ [OpUnindent; OpWrite "};"].

(** What the table says of an accessor: its C function, or [NULL] when there is
    none or the error handler let it be skipped. *)
Definition accessor_listed (a : option (accessor (S:=S))) (c_name : string) : Prop :=
  match a with
  | None => c_name = "NULL"
  | Some a =>
      c_name = ac_c_function_name a
      \/ c_name = "NULL" /\ exists st st',
           call_with_error_handling on_error (ac_generate a) default_exceptions st
             = (st', Raise SkipWrapper)
  end.
Definition attribute_listed (a : attribute (S:=S)) (e : string * (string * string)) : Prop :=
  e.1 = at_name a /\ accessor_listed (at_getter a) e.2.1 /\ accessor_listed (at_setter a) e.2.2.

(** The accessor ends without an exception other than [SkipWrapper]. *)
Definition settles (a : option (accessor (S:=S))) : Prop :=
  match a with
  | None => True
  | Some a => forall st, exists st',
      call_with_error_handling on_error (ac_generate a) default_exceptions st = (st', Ok tt)
      \/ call_with_error_handling on_error (ac_generate a) default_exceptions st
           = (st', Raise SkipWrapper)
  end.

Lemma generate_accessor_listed a st st' n :
  generate_accessor on_error a st = (st', Ok n) -> accessor_listed a n.
Proof.
  destruct a as [a|]; [|by intros [= _ <-]]. unfold generate_accessor, st_catch, st_bind.
  cbn [accessor_listed].
  destruct (call_with_error_handling on_error (ac_generate a) default_exceptions st)
    as [s1 [[]|e]] eqn:E; [intros [= _ <-]; by left|].
  destruct e; try discriminate. intros [= _ <-]. right. split; [done|]. by exists st, s1.
Qed.

Lemma generate_accessor_settles a st :
  settles a -> exists st' n, generate_accessor on_error a st = (st', Ok n).
Proof.
  destruct a as [a|]; [|by exists st, "NULL"]. unfold generate_accessor, st_catch, st_bind.
  intros H. destruct (H st) as [st' [->| ->]]; by repeat eexists.
Qed.

(** The loop: the dictionary gets one entry for each attribute. *)
Lemma generate_accessors_entries attributes : forall getsets st st' getsets',
  generate_accessors on_error attributes getsets st = (st', Ok getsets') ->
  NoDup (map at_name attributes)
  /\ Forall (fun a => getsets !! at_name a = None) attributes
  /\ exists entries, Forall2 attribute_listed attributes entries
     /\ map_to_list getsets' ≡ₚ entries ++ map_to_list getsets.
Proof.
  induction attributes as [|a attributes IH]; intros getsets st st' getsets' H.
  { injection H as <- <-. split_and!; [constructor | constructor |]. by exists []. }
  cbn [generate_accessors] in H. apply st_bind_Ok in H as (s1&g&Eg&H).
  apply st_bind_Ok in H as (s2&x&Ex&H). apply st_bind_Ok in H as (s3&[]&En&H).
  assert (getsets !! at_name a = None) as Hn.
  { destruct (bool_decide _) eqn:Eb; [by apply bool_decide_eq_true_1 in Eb | discriminate En]. }
  destruct (IH _ _ _ _ H) as (Hd&Hf&entries&Hl&Hp). split_and!.
  - cbn. constructor; [|done]. rewrite list_elem_of_fmap. intros (b&Eb&Hb).
    rewrite Forall_forall in Hf. specialize (Hf b Hb). rewrite <- Eb in Hf.
    by rewrite lookup_insert_eq in Hf.
  - constructor; [done|]. eapply Forall_impl; [exact Hf|]. intros b Hb.
    by apply lookup_insert_None in Hb as [? _].
  - exists ((at_name a, (g, x)) :: entries). split.
    + constructor; [|done]. split_and!; eauto using generate_accessor_listed.
    + rewrite Hp, map_to_list_insert by done. by rewrite <- Permutation_middle.
Qed.

Lemma generate_accessors_total attributes : forall getsets st,
  NoDup (map at_name attributes) -> Forall (fun a => getsets !! at_name a = None) attributes ->
  Forall (fun a => settles (at_getter a) /\ settles (at_setter a)) attributes ->
  exists st' getsets', generate_accessors on_error attributes getsets st = (st', Ok getsets').
Proof.
  induction attributes as [|a attributes IH]; intros getsets st Hd Hf Hs; [by repeat eexists|].
  inversion Hd as [|? ? Hnot Hd']; subst. inversion Hf as [|? ? Hn Hf']; subst.
  inversion Hs as [|? ? [Hg Hx] Hs']; subst.
  destruct (generate_accessor_settles _ st Hg) as (s1&g&E1).
  destruct (generate_accessor_settles _ s1 Hx) as (s2&x&E2).
  destruct (IH (<[at_name a := (g, x)]> getsets) s2 Hd') as (s3&gs&E3); [|done|].
  { rewrite Forall_forall in Hf' |- *. intros b Hb. rewrite lookup_insert_ne; [by apply Hf'|].
    intros Eb. apply Hnot. rewrite Eb. apply list_elem_of_fmap. by exists b. }
  exists s3, gs. cbn [generate_accessors]. unfold st_bind. rewrite E1, E2.
  rewrite bool_decide_eq_true_2 by done. exact E3.
Qed.

(** Writing a table is running its operations. *)
Lemma getset_entry_run e s k k' :
  run_ops k (getset_entry_ops e) = Ok k' -> getset_entry (S:=S) e (s, k) = ((s, k'), Ok tt).
Proof.
  intros H. cbn in H. unfold getset_entry, st_bind, sink_writeln, sink_indent, sink_unindent, on_snd.
  cbn. destruct (unindent _) as [k1|]; [|discriminate]. by injection H as <-.
Qed.

Lemma bracketed_entries entries : bracketed (flat_map getset_entry_ops entries).
Proof.
  induction entries as [|e entries IH]; [constructor|]. cbn. constructor.
  apply (br_block 4 [_; _; _; _; _] (_ :: flat_map getset_entry_ops entries)); repeat constructor.
  exact IH.
Qed.
Lemma bracketed_getset cname entries : bracketed (getset_ops cname entries).
Proof.
  constructor. apply (br_block 4 (_ ++ _) [_]); [|repeat constructor].
  apply bracketed_app; [apply bracketed_entries | repeat constructor].
Qed.

Lemma getset_entries_run entries : forall s k k',
  run_ops k (flat_map getset_entry_ops entries) = Ok k' ->
  st_iter (getset_entry (S:=S)) entries (s, k) = ((s, k'), Ok tt).
Proof.
  induction entries as [|e entries IH]; intros s k k' H; [by injection H as <-|].
  cbn [flat_map] in H. rewrite run_ops_app in H. cbn [st_iter]. unfold st_bind.
  destruct (run_ops k (getset_entry_ops e)) as [k1|] eqn:E; [|discriminate].
  rewrite (getset_entry_run e s k k1 E). by apply IH.
Qed.

Lemma PyGetSetDef_generate_eq t st st1 getsets k' : gs_attributes t <> [] ->
  generate_accessors on_error (gs_attributes t) ∅ st = (st1, Ok getsets) ->
  run_ops st1.2 (getset_ops (gs_cname t) (dict_items getsets)) = Ok k' ->
  PyGetSetDef_generate on_error t st = ((st1.1, k'), Ok (gs_cname t)).
Proof.
  intros Hne E H. unfold PyGetSetDef_generate. destruct t as [cname [|a attributes]]; [done|].
  cbn [gs_attributes gs_cname] in *. rewrite (st_bind_run _ _ _ _ _ E). destruct st1 as [s k].
  cbn [fst snd] in *. unfold getset_ops in H. cbn [app run_ops run_op res_bind] in H.
  rewrite !run_ops_app in H. unfold st_bind at 1, sink_writeln, st_bind at 1, sink_indent.
  cbn [on_snd st_modify fst snd].
  destruct (run_ops _ (flat_map getset_entry_ops _)) as [k1|] eqn:E1; [|discriminate].
  unfold st_bind at 1. unfold on_snd at 1 2. cbn [st_modify fst snd].
  rewrite (getset_entries_run _ s _ k1 E1). cbn in H |- *.
  destruct (unindent _) as [k2|] eqn:E2; [|discriminate]. cbn in H. injection H as <-.
  unfold st_bind, sink_unindent, on_snd. cbn. by rewrite E2.
Qed.

(** The table of the attributes of a class is complete.  A class without
    attributes has no table, and ['0'] stands for it.  Otherwise [generate] writes
    one table under its C name, with exactly one entry for each attribute, in some
    order: the entry names the C functions of the getter and the setter, [NULL]
    only where there is none or the error handler had it skipped.  It returns
    whenever the attributes have different names and the accessors return or are
    skipped, and never when a name is used twice. *)
Theorem getset_table_complete (t : getset_def (S:=S)) (st : S * code_sink) :
  (gs_attributes t = [] -> PyGetSetDef_generate on_error t st = (st, Ok "0"))
  /\ (gs_attributes t <> [] -> forall st' cname,
        PyGetSetDef_generate on_error t st = (st', Ok cname) ->
        cname = gs_cname t /\ NoDup (map at_name (gs_attributes t))
        /\ exists st1 getsets entries listed,
             generate_accessors on_error (gs_attributes t) ∅ st = (st1, Ok getsets)
             /\ Forall2 attribute_listed (gs_attributes t) entries /\ listed ≡ₚ entries
             /\ run_ops st1.2 (getset_ops cname listed) = Ok st'.2 /\ st'.1 = st1.1)
  /\ (NoDup (map at_name (gs_attributes t)) ->
      Forall (fun a => settles (at_getter a) /\ settles (at_setter a)) (gs_attributes t) ->
      exists st' cname, PyGetSetDef_generate on_error t st = (st', Ok cname)).
Proof.
  split; [|split].
  - unfold PyGetSetDef_generate. by intros ->.
  - intros Hne st' cname H.
    destruct (generate_accessors on_error (gs_attributes t) ∅ st) as [st1 [getsets|e]] eqn:E.
    + destruct (generate_accessors_entries _ _ _ _ _ E) as (Hd&_&entries&Hl&Hp).
      destruct (bracketed_run _ (bracketed_getset (gs_cname t) (dict_items getsets)) st1.2)
        as (k'&Hr&_&_).
      rewrite (PyGetSetDef_generate_eq t st st1 getsets k' Hne E Hr) in H. injection H as <- <-.
      split_and!; [done | done |]. exists st1, getsets, entries, (dict_items getsets).
      split_and!; [done | done | | done | done].
      by rewrite dict_items_perm, Hp, map_to_list_empty, app_nil_r.
    + unfold PyGetSetDef_generate in H. destruct (gs_attributes t) as [|a l]; [done|].
      unfold st_bind at 1 in H. rewrite E in H. discriminate H.
  - intros Hd Hs. destruct (gs_attributes t) as [|a l] eqn:Ea.
    + exists st, "0". unfold PyGetSetDef_generate. by rewrite Ea.
    + rewrite <- Ea in Hd, Hs. destruct (generate_accessors_total (gs_attributes t) ∅ st Hd)
        as (st1&getsets&E); [|done|].
      { apply Forall_forall. intros b _. apply lookup_empty. }
      destruct (bracketed_run _ (bracketed_getset (gs_cname t) (dict_items getsets)) st1.2)
        as (k'&Hr&_&_).
      exists (st1.1, k'), (gs_cname t). apply (PyGetSetDef_generate_eq t st st1 getsets k'); [|done..].
      by rewrite Ea.
Qed.
End getset_table.

(** ** Examples *)

Definition demo_value : value_type :=
  builtin_value IntReturn
    (MkRetval match TypeTraits_init "int" with
              | Ok t => t
              | Raise _ => TypeTraits [] [] [] false false false false None
              end "retval" VNone).
Definition demo_setter : value_state * res attribute_setter :=
  CppInstanceAttributeSetter_init demo_class "size" (Some "resize")
    (demo_value, World empty_heap [] [] [] [] ∅).
Definition demo_set (a : attribute_setter) : value_gen * res unit :=
  CppInstanceAttributeSetter_generate a
    (demo_setter.1.1, Gen demo_setter.1.2 (FileCodeSink EmptyString)).

Lemma instance_setter_function_witness :
  match demo_setter.2 with
  | Raise _ => False
  | Ok a =>
      (demo_set a).2 = Ok tt
      /\ exists x, vt_value (demo_set a).1.1 = x
         /\ converter_text "return -1;"
              (instance_setter_header "PyNsFoo" "_wrap_PyNsFoo__set_size")
              ["self->obj->resize(" +:+ x +:+ ");"] "return 0;" (FileCodeSink EmptyString)
              (g_out (demo_set a).1.2)
  end.
Proof.
  assert (match demo_setter.2 with Ok a => is_ok (demo_set a).2 | Raise _ => false end = true)
    as Hok by (vm_compute; reflexivity).
  unfold demo_set in *. destruct demo_setter as [[v s] [a|]] eqn:E; cbn [fst snd] in *;
    [|discriminate Hok].
  destruct (CppInstanceAttributeSetter_generate a (v, Gen s (FileCodeSink EmptyString)))
    as [st [[]|]] eqn:Eg; [|discriminate Hok].
  split; [reflexivity|].
  destruct (instance_setter_function demo_value v demo_class "size" (Some "resize") s a ∅
    (FileCodeSink EmptyString) st _ E Eg) as (p&x&Hp&Hn&Hv&Ht).
  injection Hp as <-. destruct x as [x|]; [|discriminate (proj2 Hn eq_refl)].
  exists x. exact (conj Hv Ht).
Defined.

Definition demo_accessor (name : string) : accessor (S:=unit) :=
  Accessor (sink_writeln ("/* " +:+ name +:+ " */")) name.
Definition demo_table : getset_def (S:=unit) :=
  add_attribute "size" (Some (demo_accessor "get_size")) None
    (add_attribute "name" (Some (demo_accessor "get_name")) (Some (demo_accessor "set_name"))
       (PyGetSetDef_init "Foo__getsets")).

Lemma getset_table_complete_witness :
  exists st' cname,
    PyGetSetDef_generate None demo_table (tt, FileCodeSink EmptyString) = (st', Ok cname)
    /\ cname = "Foo__getsets".
Proof.
  destruct (getset_table_complete None demo_table (tt, FileCodeSink EmptyString)) as (_&H1&H2).
  destruct H2 as (st'&cname&E).
  - apply (bool_decide_eq_true_1 (NoDup ["name"; "size"])). vm_compute. reflexivity.
  - constructor; [|constructor; [|constructor]]; split; cbn; try exact I; intros [[] k];
      eexists; left; reflexivity.
  - exists st', cname. split; [exact E|]. by destruct (H1 ltac:(discriminate) st' cname E) as [-> _].
Defined.
