(* ===== verification/Enum.v ===== *)
(** * Enumerations: [pybindgen/enum.py]

    An enumeration added to a module registers handlers for its type, which are
    those of [int] with another C type, and adds a constant to the module or to
    the class it is declared in for each of its values. *)
From S2P Require Import Prelude.
From S2P Require Import Format.
From S2P Require Import CodeSink.
From S2P Require Import CodeBlock.
From S2P Require Import Wrapper.
From S2P Require Import CTypeParser.
From S2P Require Import TypeHandler.
From S2P Require Import HandlerOps.
From S2P Require Import NumericTypes.
From S2P Require Import TypeMatcher.
From S2P Require Import Settings.

(** A value: its name, or its name and the C expression for it. *)
Inductive enum_value : Type :=
  | ValueName (name : string)
  | ValuePair (name real_value : string)
  | ValueOther.

Record enum : Type := MkEnum {
  en_name : string;
  en_values : list enum_value;
  en_values_prefix : option string;
  en_cpp_namespace : option string;
  en_outer_class : option outer_class;
  en_import_from_module : option string;
  en_full_name : option string;
  en_module : option module_view
}.

(** [Enum.__init__] *)
Definition Enum_init (name : string) (values : list enum_value) (values_prefix : option string)
    (cpp_namespace : option string) (outer : option outer_class) (import_from_module : option string)
    : res enum :=
  if negb (length (split_colons name) =? 1)%nat then Raise AssertionError
  else if existsb (fun v => match v with ValueOther => true | _ => false end) values
  then Raise TypeError
  else Ok (MkEnum name values values_prefix cpp_namespace outer import_from_module None None).

(** ** The handlers of the type *)

(** The four classes: the constructors replace the type by that of the enumeration. *)
Definition enum_param (name : string) (c : param_class) (full_type_name : string) : param_class :=
  ParamClass name (pc_DIRECTIONS c) [] (fun _ => pc_new c (CString full_type_name))
    (pc_convert_c_to_python c) (pc_convert_python_to_c c).
Definition ThisEnumParameter (full_name : string) : param_class :=
  enum_param "ThisEnumParameter" IntParam full_name.
Definition ThisEnumRefParameter (full_name : string) : param_class :=
  enum_param "ThisEnumRefParameter" IntRefParam (full_name +:+ " &").
Definition ThisEnumPtrParameter (full_name : string) : param_class :=
  enum_param "ThisEnumPtrParameter" IntPtrParam (full_name +:+ " *").
Definition ThisEnumReturn (full_name : string) : ret_class :=
  RetClass "ThisEnumReturn" [] (fun _ => rc_new IntReturn (CString full_name))
    (rc_c_error_return IntReturn) (rc_convert_python_to_c IntReturn)
    (rc_convert_c_to_python IntReturn).

(** The two registries of the package. *)
Definition matchers : Type := param_matcher * return_matcher.

Definition register_param (name : string) (c : param_class) : ST matchers unit :=
  on_fst (fun m => match register m name c with Ok m' => (m', Ok tt) | Raise e => (m, Raise e) end).
Definition register_return (name : string) (c : ret_class) : ST matchers unit :=
  on_snd (fun m => match register m name c with Ok m' => (m', Ok tt) | Raise e => (m, Raise e) end).

(** [except ValueError: pass] *)
Definition ignore_value_error {S} (m : ST S unit) : ST S unit :=
  st_catch m (fun e => match e with ValueError => st_ret tt | _ => st_raise e end).

Definition enum_full_name (e : enum) (m : module_view) : string :=
  match en_outer_class e with
  | None => in_namespace (mv_cpp_namespace_prefix m) (en_name e)
  | Some c => join "::" [oc_full_name c; en_name e]
  end.

Definition with_module (e : enum) (full_name : option string) (m : module_view) : enum :=
  MkEnum (en_name e) (en_values e) (en_values_prefix e) (en_cpp_namespace e) (en_outer_class e)
    (en_import_from_module e) full_name (Some m).

(** [set_module] *)
Definition enum_set_module (e : enum) (m : module_view) : ST matchers enum :=
  st_assert (bool_decide (en_module e = None)) ;;;
  if String.eqb (en_name e) EmptyString then st_ret (with_module e None m)
  else
    let full_name := enum_full_name e m in
    st_assert (negb (String.eqb full_name EmptyString)) ;;;
    register_param full_name (ThisEnumParameter full_name) ;;;
    register_return full_name (ThisEnumReturn full_name) ;;;
    register_param (full_name +:+ " &") (ThisEnumRefParameter full_name) ;;;
    register_param (full_name +:+ " *") (ThisEnumPtrParameter full_name) ;;;
    st_when (negb (String.eqb (en_name e) full_name))
      (ignore_value_error (register_param (en_name e) (ThisEnumParameter full_name)) ;;;
       ignore_value_error (register_return (en_name e) (ThisEnumReturn full_name)) ;;;
       ignore_value_error (register_param (en_name e +:+ " &") (ThisEnumRefParameter full_name)) ;;;
       ignore_value_error (register_param (en_name e +:+ " *") (ThisEnumPtrParameter full_name))) ;;;
    st_ret (with_module e (Some full_name) m).

(** ** The constants *)

(** A constant of the module. *)
Definition module_constant (e : enum) (i : nat) (namespace : list string) (v : enum_value)
    : ST heap unit :=
  let add name real_value :=
    write_code i ("PyModule_AddIntConstant(m, (char *) " +:+ dq +:+ name +:+ dq +:+ ", " +:+ real_value
                  +:+ ");") in
  match v with
  | ValuePair name real_value => add name real_value
  | ValueName name =>
      match en_values_prefix e with
      | None => st_raise TypeError
      | Some prefix => add name (join "::" (namespace ++ [prefix +:+ name]))
      end
  | ValueOther => st_raise TypeError
  end.

(** A constant of the outer class. *)
Definition class_constant (c : outer_class) (i : nat) (v : enum_value) : ST heap unit :=
  let add name value_str :=
    write_code i
      (" // " +:+ value_str +:+ nls
       +:+ "tmp_value = PyInt_FromLong(" +:+ value_str +:+ ");" +:+ nls
       +:+ "PyDict_SetItemString((PyObject*) " +:+ oc_pytypestruct c +:+ ".tp_dict, " +:+ dq +:+ name
       +:+ dq +:+ ", tmp_value);" +:+ nls
       +:+ "Py_DECREF(tmp_value);") in
  match v with
  | ValuePair name value_str => add name value_str
  | ValueName name => add name (oc_full_name c +:+ "::" +:+ name)
  | ValueOther => st_raise TypeError
  end.

Definition nonempty (o : option string) : list string :=
  match o with Some (String c s) => [String c s] | _ => [] end.

Definition enum_generate (e : enum) : ST heap unit :=
  if truthy (en_import_from_module e) then st_ret tt
  else match en_module e with
       | None => st_raise AttributeError
       | Some m =>
           let i := mv_after_init m in
           match en_outer_class e with
           | None =>
               let namespace := nonempty (Some (mv_cpp_namespace_prefix m))
                                ++ nonempty (en_cpp_namespace e) in
               st_iter (module_constant e i namespace) (en_values e)
           | Some c =>
               write_code i "{" ;;;
               block_indent i ;;;
               write_code i "PyObject *tmp_value;" ;;;
               st_iter (class_constant c i) (en_values e) ;;;
               block_unindent i ;;;
               write_code i "}"
           end
       end.

(** ** The handlers keep the contract of those of [int] *)

#[export] Instance enum_param_contract name c full `{!ParamContract c} :
  ParamContract (enum_param name c full).
Proof. by split; apply ParamContract0. Qed.
#[export] Instance ThisEnumReturn_contract full : ReturnContract (ThisEnumReturn full).
Proof.
  pose proof IntReturn_contract as H. split; [apply H | apply H | apply H | apply H | apply H | apply H | apply H].
Qed.

(** ** Registration *)

(** [m'] knows all the types [m] knows. *)
Definition knows_more {C O A} (m m' : matcher C O A) : Prop :=
  tm_types m ⊆ tm_types m' /\ tm_transformations m' = tm_transformations m
  /\ tm_type_aliases m' = tm_type_aliases m /\ tm_type_aliases_rev m' = tm_type_aliases_rev m.
#[export] Instance knows_more_preorder {C O A} : PreOrder (@knows_more C O A).
Proof.
  split; [by intros m|]. intros m1 m2 m3 (S1&?&?&?) (S2&?&?&?).
  split_and!; [by transitivity (tm_types m2) | congruence..].
Qed.
Definition both_know_more (st st' : matchers) : Prop :=
  knows_more st.1 st'.1 /\ knows_more st.2 st'.2.
#[export] Instance both_know_more_preorder : PreOrder both_know_more.
Proof.
  split; [by intros st|]. intros st1 st2 st3 [P1 R1] [P2 R2].
  split; by etransitivity.
Qed.

Lemma register_spec {C O A} (m m' : matcher C O A) name c :
  register m name c = Ok m' ->
  knows_more m m' /\ exists n, normalize_type_string name = Ok n /\ tm_types m' !! n = Some c.
Proof.
  unfold register. destruct (normalize_type_string name) as [n|] eqn:E; [|discriminate]. cbn.
  destruct (tm_types m !! n) eqn:En; [discriminate|]. intros [= <-]. split.
  - split_and!; cbn; try done. by apply insert_subseteq.
  - exists n. split; [done|]. apply lookup_insert_eq.
Qed.

Lemma know_register_param name c : evolves both_know_more (register_param name c).
Proof.
  intros [p r]. unfold register_param, on_fst. cbn.
  destruct (register p name c) eqn:E; cbn; [apply register_spec in E as [E _]|]; by split.
Qed.
Lemma know_register_return name c : evolves both_know_more (register_return name c).
Proof.
  intros [p r]. unfold register_return, on_snd. cbn.
  destruct (register r name c) eqn:E; cbn; [apply register_spec in E as [E _]|]; by split.
Qed.
Lemma know_ignore (m : ST matchers unit) :
  evolves both_know_more m -> evolves both_know_more (ignore_value_error m).
Proof.
  intros H. apply evolves_catch; [apply _ | done|]. intros []; first [apply evolves_ret | apply evolves_raise];
    apply _.
Qed.
Create HintDb know discriminated.
#[export] Hint Resolve know_register_param know_register_return know_ignore : know.

(** Registering never changes what is known. *)
Lemma know_set_module e m : evolves both_know_more (enum_set_module e m).
Proof.
  unfold enum_set_module. apply evolves_bind; [apply _ | apply evolves_assert; apply _ | intros _].
  destruct (String.eqb _ _); [apply evolves_ret; apply _|].
  repeat (apply evolves_bind; [apply _ | | intros _]);
    first [apply evolves_assert; apply _ | apply evolves_when; [apply _|] | apply evolves_ret; apply _ | idtac];
    auto with know.
  repeat (apply evolves_bind; [apply _ | | intros _]); auto with know.
Qed.

Lemma register_param_known name c st st' :
  register_param name c st = (st', Ok tt) ->
  exists n, normalize_type_string name = Ok n /\ tm_types st'.1 !! n = Some c.
Proof.
  unfold register_param, on_fst. destruct (register st.1 name c) as [m|] eqn:E; [|discriminate].
  intros [= <-]. by apply register_spec in E as [_ ?].
Qed.
Lemma register_return_known name c st st' :
  register_return name c st = (st', Ok tt) ->
  exists n, normalize_type_string name = Ok n /\ tm_types st'.2 !! n = Some c.
Proof.
  unfold register_return, on_snd. destruct (register st.2 name c) as [m|] eqn:E; [|discriminate].
  intros [= <-]. by apply register_spec in E as [_ ?].
Qed.

Lemma lookup_known {C O A} (m : matcher C O A) query t c :
  TypeTraits_init query = Ok t -> tm_types m !! show (tt_ctype_no_modifiers t) = Some c ->
  lookup m query = Ok (c, None, t).
Proof.
  intros Ht Hc. unfold lookup. rewrite Ht. cbn [res_bind]. by rewrite (raw_lookup_direct _ _ _ Hc).
Qed.

Lemma param_known_later name n c st st' query t :
  normalize_type_string name = Ok n -> tm_types st.1 !! n = Some c -> both_know_more st st' ->
  TypeTraits_init query = Ok t -> normalize_type_string name = Ok (show (tt_ctype_no_modifiers t)) ->
  lookup st'.1 query = Ok (c, None, t).
Proof.
  intros Hn Hc [(H&_) _] Ht Hn'. apply lookup_known; [done|].
  assert (n = show (tt_ctype_no_modifiers t)) as <- by congruence. by eapply lookup_weaken.
Qed.
Lemma return_known_later name n c st st' query t :
  normalize_type_string name = Ok n -> tm_types st.2 !! n = Some c -> both_know_more st st' ->
  TypeTraits_init query = Ok t -> normalize_type_string name = Ok (show (tt_ctype_no_modifiers t)) ->
  lookup st'.2 query = Ok (c, None, t).
Proof.
  intros Hn Hc [_ (H&_)] Ht Hn'. apply lookup_known; [done|].
  assert (n = show (tt_ctype_no_modifiers t)) as <- by congruence. by eapply lookup_weaken.
Qed.

(** The types of an enumeration.  Whether [set_module] returns or raises, every
    type the registries knew keeps its handler, the aliases and transformations
    too.  When it returns for an enumeration with a name, that has its full C++
    name, and looking up that name, a reference or a pointer to it gives the
    handler of the enumeration for it, for parameters and return values.  An
    enumeration can be added to a module only once. *)
Theorem enum_registered (e e' : enum) (m : module_view) (st st' : matchers) :
  both_know_more st (enum_set_module e m st).1
  /\ (is_Some (en_module e) -> enum_set_module e m st = (st, Raise AssertionError))
  /\ (enum_set_module e m st = (st', Ok e') -> en_name e <> EmptyString ->
      let full := enum_full_name e m in
      en_full_name e' = Some full /\ en_module e' = Some m
      /\ forall query t, TypeTraits_init query = Ok t ->
         let spelled name := normalize_type_string name = Ok (show (tt_ctype_no_modifiers t)) in
         (spelled full -> lookup st'.1 query = Ok (ThisEnumParameter full, None, t)
                          /\ lookup st'.2 query = Ok (ThisEnumReturn full, None, t))
         /\ (spelled (full +:+ " &") ->
               lookup st'.1 query = Ok (ThisEnumRefParameter full, None, t))
         /\ (spelled (full +:+ " *") ->
               lookup st'.1 query = Ok (ThisEnumPtrParameter full, None, t))).
Proof.
  split; [apply know_set_module|]. split.
  { intros Hm. unfold enum_set_module, st_bind, st_assert. rewrite bool_decide_eq_false_2; [done|].
    intros E. rewrite E in Hm. by destruct Hm. }
  intros H Hname full. unfold enum_set_module in H.
  apply st_bind_Ok in H as (st0&[]&_&H).
  destruct (String.eqb_spec (en_name e) EmptyString) as [|_]; [done|]. fold full in H.
  apply st_bind_Ok in H as (st1&[]&_&H).
  apply st_bind_Ok in H as (st2&[]&E2&H). apply st_bind_Ok in H as (st3&[]&E3&H).
  apply st_bind_Ok in H as (st4&[]&E4&H). apply st_bind_Ok in H as (st5&[]&E5&H).
  apply st_bind_Ok in H as (st6&[]&E6&H). injection H as <- <-.
  pose proof (know_register_return full (ThisEnumReturn full) st2) as K3. rewrite E3 in K3.
  pose proof (know_register_param (full +:+ " &") (ThisEnumRefParameter full) st3) as K4.
  rewrite E4 in K4.
  pose proof (know_register_param (full +:+ " *") (ThisEnumPtrParameter full) st4) as K5.
  rewrite E5 in K5. cbn [fst] in K3, K4, K5.
  assert (both_know_more st5 st6) as K6.
  { match type of E6 with ?m st5 = _ => assert (evolves both_know_more m) as K end.
    { apply evolves_when; [apply _|].
      repeat (apply evolves_bind; [apply _ | | intros _]); auto with know. }
    specialize (K st5). by rewrite E6 in K. }
  apply register_param_known in E2 as (n2&N2&T2). apply register_return_known in E3 as (n3&N3&T3).
  apply register_param_known in E4 as (n4&N4&T4). apply register_param_known in E5 as (n5&N5&T5).
  assert (both_know_more st4 st6) as K46 by by transitivity st5.
  assert (both_know_more st3 st6) as K36 by by transitivity st4.
  assert (both_know_more st2 st6) as K26 by by transitivity st3.
  split_and!; [done | done |]. intros query t Ht spelled. unfold spelled. split_and!; intros Hs.
  - split; [by apply (param_known_later full n2 _ st2) | by apply (return_known_later full n3 _ st3)].
  - by apply (param_known_later (full +:+ " &") n4 _ st4).
  - by apply (param_known_later (full +:+ " *") n5 _ st5).
Qed.

Definition demo_module : module_view := ModuleView "foo" "ns" ["foo"] 1.
Definition demo_enum : enum := MkEnum "Color" [ValueName "RED"] None None None None None None.
Definition demo_matchers : matchers :=
  (match param_type_matcher with Ok p => p | Raise _ => TypeMatcher end,
   match return_type_matcher with Ok r => r | Raise _ => TypeMatcher end).
Definition demo_added : matchers * res enum := enum_set_module demo_enum demo_module demo_matchers.
Definition demo_ref : type_traits :=
  match TypeTraits_init "ns::Color &" with
  | Ok t => t
  | Raise _ => TypeTraits [] [] [] false false false false None
  end.

Lemma enum_registered_witness :
  is_ok demo_added.2 = true
  /\ lookup demo_added.1.1 "ns::Color &" = Ok (ThisEnumRefParameter "ns::Color", None, demo_ref).
Proof.
  assert (is_ok demo_added.2 = true) as Hok by (vm_compute; reflexivity).
  split; [exact Hok|]. unfold demo_added in *.
  destruct (enum_set_module demo_enum demo_module demo_matchers) as [st [e|]] eqn:E;
    [|discriminate Hok].
  destruct (enum_registered demo_enum e demo_module demo_matchers st) as (_&_&H).
  destruct (H E ltac:(discriminate)) as (_&_&Hq).
  destruct (Hq "ns::Color &" demo_ref ltac:(vm_compute; reflexivity)) as (_&Hr&_).
  apply Hr. vm_compute. reflexivity.
Defined.
