(* ===== verification/ClassModel.v ===== *)
(** * C++ classes: the data of [pybindgen/cppclass.py]

    The attributes of a [CppClass], what its constructor makes of its arguments,
    and the methods that follow the base classes.  Classes are known by their
    position in the list of all classes; a class is built after its bases. *)
From S2P Require Import Prelude.
From S2P Require Import Format.
From S2P Require Import CodeSink.
From S2P Require Import CodeBlock.
From S2P Require Import Wrapper.
From S2P Require Import CTypeParser.
From S2P Require Import TypeHandler.
From S2P Require Import TypeMatcher.
From S2P Require Import WrapperBase.
From S2P Require Import Utils.
From S2P Require Import Overloading.
From S2P Require Import Settings.
From S2P Require Import WrapperRegistry.
From S2P Require Import MemoryPolicy.
From S2P Require Import WrapperObject.
From S2P Require Import Function.
From S2P Require Import CppMethod.
From S2P Require Import ClassHandlers.
From S2P Require Import CppAttribute.
From S2P Require Import Enum.
From stdpp Require sorting.

(** ** Attributes *)

(** The wrappers a class has methods from: a [CppMethod], a
    [CustomCppMethodWrapper] with its body, or a [Function] that was added as a
    method. *)
Inductive class_wrapper : Type :=
  | MethodWrapper (m : method)
  | CustomMethod (m : method) (wrapper_body : option string)
  | FunctionMethod (f : function).

(** The right operand of an operator: a class, or a [Parameter] object, which is
    equal to itself only. *)
Inductive operand : Type :=
  | OperandClass (n : nat)
  | OperandParam (identity : nat) (t : type_traits).
Definition same_operand (a b : operand) : bool :=
  match a, b with
  | OperandClass n, OperandClass m => Nat.eqb n m
  | OperandParam i _, OperandParam j _ => Nat.eqb i j
  | _, _ => false
  end.

(** What the constructor stores. *)
Record class_config : Type := ClassConfig {
  cf_name : string;
  cf_bases : list nat;
  cf_memory_policy : option memory_policy;
  cf_automatic_type_narrowing : bool;
  cf_allow_subclassing : bool;
  cf_is_singleton : bool;
  cf_outer_class : option nat;
  cf_template_parameters : list string;
  cf_custom_name : option string;
  cf_incomplete_type : bool;
  cf_foreign_cpp_namespace : option string;
  cf_docstring : option string;
  cf_import_from_module : option string;
  cf_destructor_visibility : string
}.

(** What [_update_names] sets, when the class gets its module. *)
Record class_names : Type := ClassNames {
  nm_full_name : option string;
  nm_mangled_name : option string;
  nm_mangled_full_name : option string;
  nm_pystruct : option string;
  nm_metaclass_name : string;
  nm_pytypestruct : string;
  nm_typeid_map_name : option string
}.

Record class_operators : Type := ClassOperators {
  op_comparison : gset string;
  op_binary : gmap string (list (nat * nat * operand));
  op_inplace : gmap string (list (nat * nat * operand));
  op_unary : gmap string (list (nat * nat))
}.

(** What the class has learned about itself while members were added. *)
Record class_status : Type := ClassStatus {
  ss_helper_class_disabled : bool;
  ss_cannot_be_constructed : string;
  ss_has_trivial_constructor : bool;
  ss_has_copy_constructor : bool;
  ss_has_output_stream_operator : bool;
  ss_have_pure_virtual_methods : option bool;
  ss_wrapper_registry : option wrapper_registry
}.

(** Code of the user of the library that makes instances of the class it is given. *)
Definition creation_function : Type := nat -> nat -> string -> string -> string -> ST heap unit.

Record class_members : Type := ClassMembers {
  mb_methods : gmap string (overloaded (list class_wrapper));
  mb_dummy_methods : list method;
  mb_nonpublic_methods : list class_wrapper;
  mb_constructors : list constructor
}.

(** [H] is the type of helper class objects, [A] that of the hooks, which are
    functions of the user. *)
Record cpp_class {H A : Type} : Type := CppClass {
  cl_config : class_config;
  cl_module : option module_view;
  cl_names : class_names;
  cl_members : class_members;
  cl_status : class_status;
  cl_operators : class_operators;
  cl_helper_class : option H;
  cl_helper_class_hooks : list A;
  cl_instance_creation : option creation_function;
  cl_post_instance_creation : option creation_function;
  cl_implicitly_converts_from : list nat;
  cl_slots : gmap string string
}.
Arguments cpp_class H A : clear implicits.

Definition no_name : string := "***GIVE ME A NAME***".
Definition new_names : class_names := ClassNames None None None None no_name no_name None.
Definition new_status : class_status := ClassStatus false EmptyString false false false None None.
Definition new_members : class_members := ClassMembers ∅ [] [] [].
Definition new_operators : class_operators := ClassOperators ∅ ∅ ∅ ∅.

Section classes.
Context {H A : Type}.
Local Abbreviation cpp_class := (cpp_class H A).
Local Abbreviation classes := (list cpp_class).

Definition new_class (c : class_config) : cpp_class :=
  CppClass H A c None new_names new_members new_status new_operators None [] None None [] ∅.

Definition cl_bases (c : cpp_class) : list nat := cf_bases (cl_config c).
Definition cl_parent (c : cpp_class) : option nat := head (cl_bases c).
Definition bases_of (cs : classes) (i : nat) : list nat :=
  match cs !! i with Some c => cl_bases c | None => [] end.

(** ** [CppClass.__init__] *)

Inductive parent_arg : Type :=
  | NoParent
  | OneParent (n : nat)
  | ParentList (l : list nat).

Record class_args : Type := ClassArgs {
  ca_name : string;
  ca_parent : parent_arg;
  ca_incref_method : option string;
  ca_decref_method : option string;
  ca_peekref_method : option string;
  ca_incref_function : option string;
  ca_decref_function : option string;
  ca_free_function : option string;
  ca_memory_policy : option memory_policy;
  ca_automatic_type_narrowing : option bool;
  ca_allow_subclassing : option bool;
  ca_is_singleton : bool;
  ca_outer_class : option nat;
  ca_template_parameters : list string;
  ca_custom_template_class_name : option string;
  ca_incomplete_type : bool;
  ca_python_name : option string;
  ca_custom_name : option string;
  ca_foreign_cpp_namespace : option string;
  ca_docstring : option string;
  ca_import_from_module : option string;
  ca_destructor_visibility : string
}.

Definition chosen_custom_name (a : class_args) : option string :=
  or_string (ca_python_name a) (or_string (ca_custom_template_class_name a) (ca_custom_name a)).

Definition arg_bases (p : parent_arg) : res (list nat) :=
  match p with
  | NoParent => Ok []
  | OneParent n => Ok [n]
  | ParentList [] => Raise IndexError
  | ParentList l => Ok l
  end.

(** The deprecated arguments make a policy, when none was given. *)
Definition given_policy (a : class_args) : res (option memory_policy) :=
  let deprecated p := match ca_memory_policy a with None => Ok (Some p) | Some _ => Raise AssertionError end in
  match ca_free_function a with
  | Some (String c s) => deprecated (FreeFunctionPolicy (String c s))
  | _ =>
      if truthy (ca_incref_method a) then
        deprecated (ReferenceCountingMethodsPolicy (ca_incref_method a) (ca_decref_method a)
                      (ca_peekref_method a))
      else if truthy (ca_incref_function a) then
        deprecated (ReferenceCountingFunctionsPolicy (ca_incref_function a) (ca_decref_function a) None)
      else Ok (ca_memory_policy a)
  end.

(** The classes at the given positions. *)
Fixpoint the_classes (cs : classes) (l : list nat) : res (list cpp_class) :=
  match l with
  | [] => Ok []
  | n :: l =>
      match cs !! n with
      | None => Raise AttributeError
      | Some c => r <-? the_classes cs l ;; Ok (c :: r)
      end
  end.

(** The policy of the first base that has one; it cannot be changed. *)
Fixpoint inherited_policy (bases : list cpp_class) (given : option memory_policy)
    : res (option memory_policy) :=
  match bases with
  | [] => Ok given
  | b :: bases =>
      match cf_memory_policy (cl_config b) with
      | None => inherited_policy bases given
      | Some p => match given with None => Ok (Some p) | Some _ => Raise AssertionError end
      end
  end.

Definition chosen_narrowing (g : settings) (bases : list cpp_class) (given : option bool) : bool :=
  match given with
  | Some b => b
  | None => match bases with
            | [] => automatic_type_narrowing g
            | parent :: _ => cf_automatic_type_narrowing (cl_config parent)
            end
  end.

(** "Cannot disable subclassing if a parent class allows it" *)
Definition chosen_subclassing (g : settings) (bases : list cpp_class) (given : option bool) : res bool :=
  match given with
  | None => match bases with
            | [] => Ok (allow_subclassing g)
            | parent :: _ => Ok (cf_allow_subclassing (cl_config parent))
            end
  | Some b =>
      if existsb (fun p => cf_allow_subclassing (cl_config p)) bases && negb b
      then Raise ValueError else Ok b
  end.

Definition CppClass_init (g : settings) (cs : classes) (a : class_args) : res cpp_class :=
  if negb (visibility_ok (ca_destructor_visibility a)) then Raise AssertionError
  else
    bases <-? arg_bases (ca_parent a) ;;
    policy <-? given_policy a ;;
    base_classes <-? the_classes cs bases ;;
    policy <-? inherited_policy base_classes policy ;;
    subclassing <-? chosen_subclassing g base_classes (ca_allow_subclassing a) ;;
    Ok (new_class
      (ClassConfig (ca_name a) bases policy
         (chosen_narrowing g base_classes (ca_automatic_type_narrowing a))
         (subclassing && bool_decide (ca_destructor_visibility a ∈ ["public"; "protected"]))
         (ca_is_singleton a) (ca_outer_class a) (ca_template_parameters a) (chosen_custom_name a)
         (ca_incomplete_type a) (ca_foreign_cpp_namespace a) (ca_docstring a)
         (ca_import_from_module a) (ca_destructor_visibility a))).

(** ** Base classes

    [get_mro] is a generator: a class is marked as visited when it comes to the
    front of the queue, so that it can be in the queue more than once. *)
Fixpoint mro_loop (fuel : nat) (cs : classes) (to_visit visited : list nat) : res (list nat) :=
  match to_visit with
  | [] => Ok []
  | cls :: to_visit =>
      match fuel with
      | O => Raise OutOfFuel
      | S fuel =>
          let visited := cls :: visited in
          r <-? mro_loop fuel cs
                  (to_visit ++ List.filter (fun b => negb (bool_decide (b ∈ visited))) (bases_of cs cls))
                  visited ;;
          Ok (cls :: r)
      end
  end.

(** The number of paths from a class up: the length of the queue's life. *)
Fixpoint paths_up (depth : nat) (cs : classes) (cls : nat) : nat :=
  match depth with
  | O => 1
  | S depth => S (list_sum (map (paths_up depth cs) (bases_of cs cls)))
  end.
Definition get_mro (cs : classes) (i : nat) : res (list nat) :=
  mro_loop (paths_up (length cs) cs i) cs [i] [].

Definition is_subclass (cs : classes) (i other : nat) : res bool :=
  mro <-? get_mro cs i ;; Ok (bool_decide (other ∈ mro)).

(** The first class in the order with an attribute. *)
Fixpoint first_with {B} (cs : classes) (attribute : cpp_class -> option B) (mro : list nat) : option (nat * B) :=
  match mro with
  | [] => None
  | i :: mro =>
      match cs !! i ≫= attribute with
      | Some b => Some (i, b)
      | None => first_with cs attribute mro
      end
  end.

Definition default_creation (cs : classes) : creation_function :=
  fun i code_block lvalue parameters construct_type_name =>
    match cs !! i with
    | None => st_raise AttributeError
    | Some c =>
        default_instance_creation_function (cf_incomplete_type (cl_config c))
          (str_opt (nm_full_name (cl_names c))) code_block lvalue parameters construct_type_name
    end.
Definition get_instance_creation_function (cs : classes) (i : nat) : res creation_function :=
  mro <-? get_mro cs i ;;
  Ok match first_with cs cl_instance_creation mro with
     | Some (_, f) => f
     | None => default_creation cs
     end.
Definition get_post_instance_creation_function (cs : classes) (i : nat) : res (option creation_function) :=
  mro <-? get_mro cs i ;; Ok (snd <$> first_with cs cl_post_instance_creation mro).

(** [_get_all_helper_class_hooks] *)
Definition get_all_helper_class_hooks (cs : classes) (i : nat) : res (list A) :=
  mro <-? get_mro cs i ;;
  Ok (fold_left (fun l j => match cs !! j with Some c => cl_helper_class_hooks c | None => [] end ++ l) mro []).

(** ** Methods *)

Context {dict_order : DictOrder}.

Definition wrapper_at (o : overloaded (list class_wrapper)) (i : nat) : list class_wrapper :=
  option_list (ov_world o !! i).
Definition overload_wrappers (o : overloaded (list class_wrapper)) : list class_wrapper :=
  flat_map (wrapper_at o) (ov_wrappers o).
Definition get_all_methods (c : cpp_class) : list class_wrapper :=
  flat_map (fun '(_, o) => overload_wrappers o) (dict_items (mb_methods (cl_members c)))
  ++ mb_nonpublic_methods (cl_members c).

(** [isinstance(method, CppMethod)] *)
Definition as_method (w : class_wrapper) : option method :=
  match w with MethodWrapper m | CustomMethod m _ => Some m | FunctionMethod _ => None end.
Definition all_cpp_methods (c : cpp_class) : list method :=
  omap as_method (get_all_methods c) ++ mb_dummy_methods (cl_members c).

(** The first virtual method of a class with the signature of another decides
    whether the class implements it. *)
Definition overrides (m child : method) : bool :=
  cm_is_virtual (wo_attrs child) && matches_signature child m.
Definition implements (m : method) (c : cpp_class) : bool :=
  match List.find (overrides m) (all_cpp_methods c) with
  | Some child => negb (cm_is_pure_virtual (wo_attrs child))
  | None => false
  end.

(** The loop over the classes, from the root to the leaf. *)
Fixpoint pure_virtual_left (classes : list cpp_class) : bool :=
  match classes with
  | [] => false
  | c :: children =>
      existsb (fun m => cm_is_pure_virtual (wo_attrs m) && negb (existsb (implements m) children))
        (all_cpp_methods c)
      || pure_virtual_left children
  end.

Definition set_status (c : cpp_class) (s : class_status) : cpp_class :=
  CppClass H A (cl_config c) (cl_module c) (cl_names c) (cl_members c) s (cl_operators c)
    (cl_helper_class c) (cl_helper_class_hooks c) (cl_instance_creation c)
    (cl_post_instance_creation c) (cl_implicitly_converts_from c) (cl_slots c).
Definition with_pure_virtual (b : option bool) (s : class_status) : class_status :=
  ClassStatus (ss_helper_class_disabled s) (ss_cannot_be_constructed s)
    (ss_has_trivial_constructor s) (ss_has_copy_constructor s) (ss_has_output_stream_operator s)
    b (ss_wrapper_registry s).

(** A class of the list. *)
Definition the_cpp_class (i : nat) : ST classes cpp_class :=
  fun cs => (cs, match cs !! i with None => Raise AttributeError | Some c => Ok c end).
Definition update_class (i : nat) (f : cpp_class -> cpp_class) : ST classes unit :=
  c <- the_cpp_class i ;; st_modify (fun cs => <[i := f c]> cs).

Definition compute_pure_virtual (cs : classes) (i : nat) : res bool :=
  mro <-? get_mro cs i ;;
  classes <-? the_classes cs (rev mro) ;;
  Ok (pure_virtual_left classes).

(** [get_have_pure_virtual_methods], which stores what it finds *)
Definition get_have_pure_virtual_methods (i : nat) : ST classes bool :=
  c <- the_cpp_class i ;;
  match ss_have_pure_virtual_methods (cl_status c) with
  | Some b => st_ret b
  | None =>
      cs <- st_get (fun cs => cs) ;;
      b <- st_lift (compute_pure_virtual cs i) ;;
      update_class i (fun c => set_status c (with_pure_virtual (Some b) (cl_status c))) ;;;
      st_ret b
  end.

Definition cannot_be_constructed (c : cpp_class) (reason : string) : pyexn :=
  CodeGenerationError (str_opt (nm_full_name (cl_names c)) +:+ " cannot be constructed (" +:+ reason +:+ ")").

(** [get_construct_name] *)
Definition get_construct_name (i : nat) : ST classes string :=
  c <- the_cpp_class i ;;
  if truthy (Some (ss_cannot_be_constructed (cl_status c)))
  then st_raise (cannot_be_constructed c (ss_cannot_be_constructed (cl_status c)))
  else
    pure <- get_have_pure_virtual_methods i ;;
    if pure : bool then st_raise (cannot_be_constructed c "class has pure virtual methods")
    else st_ret (str_opt (nm_full_name (cl_names c))).

(** ** Type narrowing and wrapper registries

    The loops over the parents; a parent comes before its children, so that the
    number of classes is enough fuel. *)
Fixpoint narrowing_root (fuel : nat) (cs : classes) (root : nat) : option nat :=
  match fuel, cs !! root with
  | S fuel, Some c =>
      match cl_parent c with
      | None => Some root
      | Some p =>
          match cs !! p with
          | Some parent =>
              if cf_automatic_type_narrowing (cl_config parent) then narrowing_root fuel cs p
              else Some root
          | None => None
          end
      end
  | _, _ => None
  end.
Definition get_type_narrowing_root (cs : classes) (i : nat) : option nat :=
  match cs !! i with
  | None => None
  | Some c => if cf_automatic_type_narrowing (cl_config c) then narrowing_root (S (length cs)) cs i else None
  end.

Fixpoint root_class (fuel : nat) (cs : classes) (i : nat) : option nat :=
  match fuel, cs !! i with
  | S fuel, Some c => match cl_parent c with None => Some i | Some p => root_class fuel cs p end
  | _, _ => None
  end.

Definition with_registry (r : wrapper_registry) (s : class_status) : class_status :=
  ClassStatus (ss_helper_class_disabled s) (ss_cannot_be_constructed s)
    (ss_has_trivial_constructor s) (ss_has_copy_constructor s) (ss_has_output_stream_operator s)
    (ss_have_pure_virtual_methods s) (Some r).
Definition class_pystruct (c : cpp_class) : res string :=
  match nm_pystruct (cl_names c) with None => Raise ValueError | Some p => Ok p end.

(** [_get_wrapper_registry]: one registry for a root class and all its
    subclasses, made by [settings.wrapper_registry] at the first request. *)
Definition get_wrapper_registry (make : string -> wrapper_registry) (i : nat) : ST classes wrapper_registry :=
  cs <- st_get (fun cs => cs) ;;
  match root_class (S (length cs)) cs i with
  | None => st_raise AttributeError
  | Some root =>
      c <- the_cpp_class root ;;
      match ss_wrapper_registry (cl_status c) with
      | Some r => st_ret r
      | None =>
          pystruct <- st_lift (class_pystruct c) ;;
          update_class root (fun c => set_status c (with_registry (make pystruct) (cl_status c))) ;;;
          st_ret (make pystruct)
      end
  end.

(** ** Names *)

Definition set_names (c : cpp_class) (m : option module_view) (n : class_names) : cpp_class :=
  CppClass H A (cl_config c) m n (cl_members c) (cl_status c) (cl_operators c)
    (cl_helper_class c) (cl_helper_class_hooks c) (cl_instance_creation c)
    (cl_post_instance_creation c) (cl_implicitly_converts_from c) (cl_slots c).

(** The full name, without template parameters. *)
Definition qualified_name (cs : classes) (c : class_config) (m : module_view) : res string :=
  match cf_outer_class c with
  | None =>
      Ok match cf_foreign_cpp_namespace c with
         | Some (String a s) => String a s +:+ "::" +:+ cf_name c
         | _ => in_namespace (mv_cpp_namespace_prefix m) (cf_name c)
         end
  | Some o =>
      if truthy (cf_foreign_cpp_namespace c) then Raise AssertionError
      else match cs !! o with
           | None => Raise AttributeError
           | Some outer =>
               match nm_full_name (cl_names outer) with
               | None => Raise TypeError
               | Some n => Ok (join "::" [n; cf_name c])
               end
           end
  end.

Definition template_suffix (l : list string) : string :=
  match l with [] => EmptyString | _ => "< " +:+ join ", " l +:+ " >" end.
Definition mangled_suffix (l : list string) : string :=
  match l with [] => EmptyString | _ => "__" +:+ join "_" (map flatten l) end.

(** The names, but for that of the typeid map, which needs the others. *)
Definition names_for (g : settings) (c : class_config) (qualified : string) : class_names :=
  let suffix := mangled_suffix (cf_template_parameters c) in
  let mangled_full_name := flatten qualified +:+ suffix in
  let pystruct := "Py" +:+ capitalize (name_prefix g) +:+ mangled_full_name in
  ClassNames (Some (qualified +:+ template_suffix (cf_template_parameters c)))
    (Some (flatten (cf_name c) +:+ suffix)) (Some mangled_full_name) (Some pystruct)
    (mangled_full_name +:+ "Meta") (pystruct +:+ "_Type") None.
Definition with_typeid_map (n : class_names) (map_name : option string) : class_names :=
  ClassNames (nm_full_name n) (nm_mangled_name n) (nm_mangled_full_name n) (nm_pystruct n)
    (nm_metaclass_name n) (nm_pytypestruct n) map_name.

(** ** Type handlers *)

Section registration.
Context {P R O1 O2 A1 A2 : Type} (param_of : nat -> class_param_kind -> P)
  (return_of : nat -> class_return_kind -> R).
Definition class_matchers : Type := matcher P O1 A1 * matcher R O2 A2.

Definition register_class_param (name : string) (i : nat) (k : class_param_kind) : ST class_matchers unit :=
  on_fst (fun m => match register m name (param_of i k) with
                   | Ok m' => (m', Ok tt) | Raise e => (m, Raise e) end).
Definition register_class_return (name : string) (i : nat) (k : class_return_kind) : ST class_matchers unit :=
  on_snd (fun m => match register m name (return_of i k) with
                   | Ok m' => (m', Ok tt) | Raise e => (m, Raise e) end).

(** The registrations of the constructor; a class called "dummy" has none.  The
    second one under the plain name always fails. *)
Definition register_new_class (name : string) (i : nat) : ST class_matchers unit :=
  if String.eqb name "dummy" then st_ret tt
  else
    ignore_value_error (register_class_param name i CppClassParameter) ;;;
    ignore_value_error (register_class_param (name +:+ "&") i CppClassRefParameter) ;;;
    ignore_value_error (register_class_return name i CppClassReturnValue ;;;
                        register_class_return name i CppClassReturnValue) ;;;
    ignore_value_error (register_class_param (name +:+ "*") i CppClassPtrParameter) ;;;
    ignore_value_error (register_class_return (name +:+ "*") i CppClassPtrReturnValue) ;;;
    ignore_value_error (register_class_return (name +:+ "&") i CppClassRefReturnValue).

(** [CppClass(...)]: the position of the new class. *)
Definition new_CppClass (g : settings) (a : class_args) : ST (classes * class_matchers) nat :=
  cs <- st_get fst ;;
  c <- st_lift (CppClass_init g cs a) ;;
  st_modify (fun s => (s.1 ++ [c], s.2)) ;;;
  on_snd (register_new_class (ca_name a) (length cs)) ;;;
  st_ret (length cs).

(** [register_alias]; [register_type] is the method of the module, whose state is [M]. *)
Context {M : Type} (register_type : string -> nat -> ST M unit).

Definition register_alias (i : nat) (alias : string) : ST ((classes * class_matchers) * M) unit :=
  c <- on_fst (on_fst (the_cpp_class i)) ;;
  on_snd (register_type alias i) ;;;
  if String.eqb (cf_name (cl_config c)) "dummy" then st_raise AttributeError
  else
    on_fst (on_snd
     (ignore_value_error (register_class_param alias i CppClassParameter) ;;;
      ignore_value_error (register_class_param (alias +:+ "&") i CppClassRefParameter) ;;;
      ignore_value_error (register_class_return alias i CppClassReturnValue) ;;;
      ignore_value_error (register_class_param (alias +:+ "*") i CppClassPtrParameter) ;;;
      ignore_value_error (register_class_return (alias +:+ "*") i CppClassPtrReturnValue) ;;;
      ignore_value_error (register_class_return (alias +:+ "&") i CppClassRefReturnValue))).

(** [set_module], which is [_update_names] for the module. *)
Definition class_set_module (g : settings) (i : nat) (m : module_view)
    : ST ((classes * class_matchers) * M) unit :=
  c <- on_fst (on_fst (the_cpp_class i)) ;;
  cs <- st_get (fun s => s.1.1) ;;
  qualified <- st_lift (qualified_name cs (cl_config c) m) ;;
  let n := names_for g (cl_config c) qualified in
  on_fst (on_fst (update_class i (fun c => set_names c (Some m) n))) ;;;
  register_alias i (str_opt (nm_full_name n)) ;;;
  cs <- st_get (fun s => s.1.1) ;;
  on_fst (on_fst (update_class i (fun c => set_names c (Some m) (with_typeid_map n
    (if bool_decide (get_type_narrowing_root cs i = Some i)
     then Some (str_opt (nm_pystruct n) +:+ "__typeid_map") else None))))).
End registration.

(** ** What others see of a class *)

Definition get_python_name (c : cpp_class) : string :=
  match cf_custom_name (cl_config c) with
  | Some n => n
  | None =>
      match cf_template_parameters (cl_config c) with
      | [] => cf_name (cl_config c)
      | _ => str_opt (nm_mangled_name (cl_names c))
      end
  end.
Definition valid_sequence_methods : list string := ["__len__"; "__getitem__"; "__setitem__"].
Definition have_sequence_methods (c : cpp_class) : bool :=
  existsb (fun x => bool_decide (is_Some (mb_methods (cl_members c) !! x))) valid_sequence_methods.

(** [implicitly_converts_to] and [get_all_implicit_conversions] *)
Definition implicitly_converts_to (i other : nat) : ST classes unit :=
  update_class other (fun c => CppClass H A (cl_config c) (cl_module c) (cl_names c) (cl_members c)
    (cl_status c) (cl_operators c) (cl_helper_class c) (cl_helper_class_hooks c) (cl_instance_creation c)
    (cl_post_instance_creation c) (cl_implicitly_converts_from c ++ [i]) (cl_slots c)).
Definition get_all_implicit_conversions (cs : classes) (i : nat) : list nat :=
  match cs !! i with Some c => cl_implicitly_converts_from c | None => [] end.

Context (helper_view_of : H -> helper_view) (make : string -> wrapper_registry).

(** The class as the generators of methods and the type handlers see it. *)
Definition view_of_class (cs : classes) (i : nat) (c : cpp_class) : class_view :=
  ClassView (cf_name (cl_config c)) (str_opt (nm_full_name (cl_names c))) (nm_pystruct (cl_names c))
    (nm_pytypestruct (cl_names c)) (helper_view_of <$> cl_helper_class c)
    (get_construct_name i cs).2
    (fun b l p n => match get_instance_creation_function cs i with
                    | Ok f => f i b l p n | Raise e => st_raise e end)
    (match get_post_instance_creation_function cs i with
     | Ok (Some f) => Some (f i)
     | Ok None => None
     | Raise e => Some (fun _ _ _ _ => st_raise e)
     end).
Definition class_views (cs : classes) : list class_view := imap (view_of_class cs) cs.

Definition handler_class_of (cs : classes) (i : nat) (c : cpp_class) : handler_class :=
  let view n := match cs !! n with Some d => [view_of_class cs n d] | None => [] end in
  HandlerClass (view_of_class cs i c) (cf_allow_subclassing (cl_config c))
    (cf_automatic_type_narrowing (cl_config c)) (cf_memory_policy (cl_config c))
    (match get_type_narrowing_root cs i with
     | Some r => cs !! r ≫= fun d => nm_typeid_map_name (cl_names d)
     | None => None
     end)
    (get_wrapper_registry make i cs).2
    (flat_map view (cl_implicitly_converts_from c))
    (ss_has_copy_constructor (cl_status c)).
End classes.

(** ** The order of the base classes *)

Section hierarchy.
Context {H A : Type}.
Local Abbreviation classes := (list (cpp_class H A)).

Definition base_of (cs : classes) (i j : nat) : Prop := j ∈ bases_of cs i.
(** Bases come before the classes that derive from them. *)
Definition bases_before (cs : classes) : Prop := forall i b, base_of cs i b -> (b < i)%nat.
#[local] Abbreviation ancestor cs := (rtc (base_of cs)).

Lemma bases_of_class (cs : classes) i c : cs !! i = Some c -> bases_of cs i = cl_bases c.
Proof. unfold bases_of. by intros ->. Qed.
Lemma bases_outside (cs : classes) i : (length cs <= i)%nat -> bases_of cs i = [].
Proof. intros Hi. unfold bases_of. by rewrite lookup_ge_None_2. Qed.

Lemma sum_cons n l : list_sum (n :: l) = (n + list_sum l)%nat.
Proof. done. Qed.
Lemma list_sum_map_ext {X} (f g : X -> nat) l :
  (forall x, x ∈ l -> f x = g x) -> list_sum (map f l) = list_sum (map g l).
Proof.
  intros E. induction l as [|x l IH]; [done|]. cbn. rewrite (E x) by set_solver.
  f_equal. apply IH. set_solver.
Qed.

(** Beyond the position of the class the depth does not matter. *)
Lemma paths_up_stable (cs : classes) : bases_before cs ->
  forall i d d', (i < d)%nat -> (i < d')%nat -> paths_up d cs i = paths_up d' cs i.
Proof.
  intros Hcs i. induction (lt_wf i) as [i _ IH]. intros d d' Hd Hd'.
  destruct d as [|d], d' as [|d']; [lia..|]. cbn. f_equal. apply list_sum_map_ext.
  intros b Hb. pose proof (Hcs i b Hb). apply IH; lia.
Qed.
Definition weight (cs : classes) (i : nat) : nat := paths_up (S i) cs i.
Lemma weight_step (cs : classes) i : bases_before cs ->
  weight cs i = S (list_sum (map (weight cs) (bases_of cs i))).
Proof.
  intros Hcs. unfold weight at 1. cbn. f_equal. apply list_sum_map_ext. intros b Hb.
  pose proof (Hcs i b Hb). apply paths_up_stable; [done|lia..].
Qed.
Lemma mro_fuel (cs : classes) i : bases_before cs -> paths_up (length cs) cs i = weight cs i.
Proof.
  intros Hcs. destruct (decide (i < length cs)%nat) as [Hi|Hi]; [by apply paths_up_stable; [|lia..]|].
  rewrite weight_step by done. rewrite bases_outside by lia. destruct (length cs) as [|n] eqn:E; [done|].
  cbn. rewrite bases_outside by lia. done.
Qed.
Lemma list_sum_filter (f : nat -> nat) p l :
  (list_sum (map f (List.filter p l)) <= list_sum (map f l))%nat.
Proof.
  induction l as [|x l IH]; [done|]. cbn [List.filter map]. rewrite sum_cons.
  destruct (p x); cbn [map]; rewrite ?sum_cons; lia.
Qed.

Lemma mro_loop_spec (cs : classes) : bases_before cs -> forall fuel queue visited,
  (list_sum (map (weight cs) queue) <= fuel)%nat ->
  exists r, mro_loop fuel cs queue visited = Ok r
    /\ queue ⊆ r
    /\ (forall j, j ∈ r -> exists q, q ∈ queue /\ ancestor cs q j)
    /\ (forall v b, v ∈ r -> base_of cs v b -> b ∈ visited \/ b ∈ r).
Proof.
  intros Hcs fuel. induction fuel as [|fuel IH]; intros [|cls queue] visited Hf;
    [by exists []; split_and!; [|set_solver..]| |by exists []; split_and!; [|set_solver..]|].
  { cbn [map] in Hf. rewrite sum_cons, weight_step in Hf by done. lia. }
  cbn [map] in Hf. rewrite sum_cons, weight_step in Hf by done.
  set (fresh := List.filter (fun b => negb (bool_decide (b ∈ cls :: visited))) (bases_of cs cls)).
  assert (Hin : forall b, b ∈ fresh <-> b ∈ bases_of cs cls /\ b ∉ cls :: visited).
  { intros b. unfold fresh. rewrite list_elem_of_In, List.filter_In, <- list_elem_of_In.
    by rewrite negb_true_iff, bool_decide_eq_false. }
  destruct (IH (queue ++ fresh) (cls :: visited)) as (r&E&Hq&Hs&Hc).
  { rewrite map_app, list_sum_app.
    pose proof (list_sum_filter (weight cs) (fun b => negb (bool_decide (b ∈ cls :: visited))) (bases_of cs cls)).
    unfold fresh. lia. }
  exists (cls :: r). split_and!.
  - cbn. fold fresh. by rewrite E.
  - set_solver.
  - intros j [->|Hj]%elem_of_cons; [by exists cls; split; [left|apply rtc_refl]|].
    destruct (Hs j Hj) as (q&Hq'&Ha). apply elem_of_app in Hq' as [Hq'|Hq'].
    + exists q. split; [by right | done].
    + exists cls. split; [by left|]. apply rtc_l with q; [by apply Hin|done].
  - intros v b [->|Hv]%elem_of_cons Hb.
    + destruct (decide (b ∈ cls :: visited)) as [Hd|Hd]; [set_solver|].
      right. right. apply Hq, elem_of_app. right. by apply Hin.
    + destruct (Hc v b Hv Hb) as [Hd|Hd]; set_solver.
Qed.

Lemma mro_spec (cs : classes) i : bases_before cs ->
  exists r, get_mro cs i = Ok (i :: r) /\ forall j, j ∈ i :: r <-> ancestor cs i j.
Proof.
  intros Hcs. unfold get_mro. rewrite mro_fuel by done.
  destruct (mro_loop_spec cs Hcs (weight cs i) [i] []) as (r&E&Hq&Hs&Hc); [cbn; lia|].
  assert (exists r', r = i :: r') as [r' ->].
  { rewrite weight_step in E by done. cbn in E.
    destruct (mro_loop _ _ _ _) as [r'|]; [|discriminate]. injection E as <-. by exists r'. }
  exists r'. split; [done|]. intros j. split.
  - intros Hj. destruct (Hs j Hj) as (q&Hq'&Ha). by apply list_elem_of_singleton in Hq' as ->.
  - intros Ha. assert (i ∈ i :: r') as Hi by set_solver. revert Hi.
    generalize (i :: r') as l, Hc. clear -Ha. intros l Hc.
    induction Ha as [x|x y z Hxy _ IH]; [done|]. intros Hx. apply IH.
    destruct (Hc x y Hx Hxy) as [Hn|]; [by apply not_elem_of_nil in Hn | done].
Qed.

(** C13: Base classes.  When the bases of every class were there before it, which is
    how classes are made, [get_mro] ends; it starts with the class itself and gives
    exactly the class and its direct and indirect bases, and [is_subclass] tells
    whether a class is one of these. *)
Theorem mro_ancestors (cs : list (cpp_class H A)) (i : nat) :
  bases_before cs ->
  exists r, get_mro cs i = Ok (i :: r)
    /\ (forall j, j ∈ i :: r <-> rtc (base_of cs) i j)
    /\ forall j, exists b, is_subclass cs i j = Ok b /\ (b = true <-> rtc (base_of cs) i j).
Proof.
  intros Hcs. destruct (mro_spec cs i Hcs) as (r&E&Ha). exists r. split_and!; [done..|].
  intros j. unfold is_subclass. rewrite E. cbn [res_bind]. eexists. split; [reflexivity|].
  rewrite bool_decide_eq_true. apply Ha.
Qed.

Lemma mro_visit (cs : classes) n cls q visited :
  (forall x, x ∈ bases_of cs cls -> x ∉ cls :: visited) ->
  mro_loop (S n) cs (cls :: q) visited =
    r <-? mro_loop n cs (q ++ bases_of cs cls) (cls :: visited) ;; Ok (cls :: r).
Proof.
  intros Hn. cbn [mro_loop].
  replace (List.filter (fun b => negb (bool_decide (b ∈ cls :: visited))) (bases_of cs cls))
    with (bases_of cs cls); [done|].
  induction (bases_of cs cls) as [|x l IH]; [done|]. cbn [List.filter].
  rewrite bool_decide_eq_false_2 by (apply Hn; left). cbn [negb]. f_equal.
  apply IH. intros y Hy. apply Hn. by right.
Qed.

(** A base that is reached on two ways.  In a diamond the common base is in the order
    twice, so that its hooks for the helper class are called twice. *)
Theorem diamond_hooks_twice (cs : list (cpp_class H A)) (d b c a : nat) :
  bases_before cs ->
  bases_of cs d = [b; c] -> bases_of cs b = [a] -> bases_of cs c = [a] -> bases_of cs a = [] ->
  get_mro cs d = Ok [d; b; c; a; a]
  /\ let hooks i := match cs !! i with Some k => cl_helper_class_hooks k | None => [] end in
     get_all_helper_class_hooks cs d = Ok (hooks a ++ hooks a ++ hooks c ++ hooks b ++ hooks d).
Proof.
  intros Hcs Hd Hb Hc Ha.
  assert (b < d)%nat by (apply Hcs; unfold base_of; rewrite Hd; set_solver).
  assert (c < d)%nat by (apply Hcs; unfold base_of; rewrite Hd; set_solver).
  assert (a < b)%nat by (apply Hcs; unfold base_of; rewrite Hb; set_solver).
  assert (a < c)%nat by (apply Hcs; unfold base_of; rewrite Hc; set_solver).
  assert (get_mro cs d = Ok [d; b; c; a; a]) as E.
  { assert (weight cs a = 1%nat) as Wa by (by rewrite weight_step, Ha).
    assert (weight cs b = 2%nat) as Wb by (rewrite weight_step, Hb by done; cbn [map]; by rewrite Wa).
    assert (weight cs c = 2%nat) as Wc by (rewrite weight_step, Hc by done; cbn [map]; by rewrite Wa).
    unfold get_mro. rewrite mro_fuel, weight_step, Hd by done. cbn [map]. rewrite Wb, Wc. change (list_sum [2; 2]%nat) with 4%nat.
    rewrite mro_visit by (rewrite Hd; intros x; rewrite !elem_of_cons, !elem_of_nil; lia).
    rewrite Hd. cbn [app].
    rewrite mro_visit by (rewrite Hb; intros x; rewrite !elem_of_cons, !elem_of_nil; lia). cbn [app]. rewrite mro_visit by (rewrite Hc; intros x; rewrite !elem_of_cons, !elem_of_nil; lia).
    rewrite Hb, Hc. cbn. by rewrite Ha. }
  split; [done|]. unfold get_all_helper_class_hooks. rewrite E. cbn.
  by rewrite !app_nil_r.
Qed.
End hierarchy.

(** ** The invariant of the class hierarchy *)

Definition policy_of {H A} (cs : list (cpp_class H A)) (b : nat) : option memory_policy :=
  cs !! b ≫= fun c => cf_memory_policy (cl_config c).
Definition subclassable {H A} (cs : list (cpp_class H A)) (b : nat) : bool :=
  match cs !! b with Some c => cf_allow_subclassing (cl_config c) | None => false end.
Definition destructible (c : class_config) : bool :=
  bool_decide (cf_destructor_visibility c ∈ ["public"; "protected"]).

Record class_ok {H A} (cs : list (cpp_class H A)) (i : nat) (c : class_config) : Prop := {
  ok_bases : Forall (fun b => b < i)%nat (cf_bases c);
  ok_policy : forall p, head (omap (policy_of cs) (cf_bases c)) = Some p -> cf_memory_policy c = Some p;
  ok_subclassing : forall b, head (cf_bases c) = Some b -> subclassable cs b = true ->
    destructible c = true -> cf_allow_subclassing c = true;
  ok_destructor : destructible c = false -> cf_allow_subclassing c = false
}.
Definition hierarchy_ok {H A} (cs : list (cpp_class H A)) : Prop :=
  forall i c, cs !! i = Some c -> class_ok cs i (cl_config c).
Definition keeps_hierarchy {H A} (cs cs' : list (cpp_class H A)) : Prop := hierarchy_ok cs -> hierarchy_ok cs'.
#[export] Instance keeps_hierarchy_preorder {H A} : PreOrder (@keeps_hierarchy H A).
Proof. unfold keeps_hierarchy. split; [by intros cs | intros c1 c2 c3 H1 H2 H3; auto]. Qed.

Section invariant.
Context {H A : Type}.
Local Abbreviation classes := (list (cpp_class H A)).

Lemma hierarchy_bases (cs : classes) : hierarchy_ok cs -> bases_before cs.
Proof.
  intros Hok i b Hb. unfold base_of, bases_of in Hb.
  destruct (cs !! i) as [c|] eqn:E; [|by apply not_elem_of_nil in Hb].
  pose proof (ok_bases _ _ _ (Hok i c E)) as HF. rewrite Forall_forall in HF. by apply HF.
Qed.

Lemma omap_ext_elem {X Y} (f g : X -> option Y) (l : list X) :
  (forall x, x ∈ l -> f x = g x) -> omap f l = omap g l.
Proof.
  intros E. induction l as [|x l IH]; [done|]. cbn. rewrite (E x) by set_solver.
  by rewrite IH by set_solver.
Qed.

(** Only what the constructor stored matters. *)
Definition configs (cs : classes) : list class_config := map cl_config cs.
Lemma hierarchy_configs (cs cs' : classes) :
  configs cs = configs cs' -> hierarchy_ok cs -> hierarchy_ok cs'.
Proof.
  intros E Hok i c' Hc'.
  assert (Hl : forall j, cl_config <$> cs !! j = cl_config <$> cs' !! j).
  { intros j. rewrite <- !list_lookup_fmap. assert (cl_config <$> cs = cl_config <$> cs') as -> by exact E. done. }
  assert (Hp : forall j, policy_of cs j = policy_of cs' j).
  { intros j. specialize (Hl j). unfold policy_of. destruct (cs !! j), (cs' !! j); cbn in *; congruence. }
  assert (Hs : forall j, subclassable cs j = subclassable cs' j).
  { intros j. specialize (Hl j). unfold subclassable. destruct (cs !! j), (cs' !! j); cbn in *; congruence. }
  pose proof (Hl i) as Hi. rewrite Hc' in Hi. destruct (cs !! i) as [c|] eqn:Hc; [|discriminate].
  injection Hi as Hi. rewrite <- Hi. destruct (Hok i c Hc) as [H1 H2 H3 H4]. split; [done| | |done].
  - intros p Hh. apply H2. rewrite <- Hh. f_equal. apply omap_ext_elem. intros j _. apply Hp.
  - intros b Hb Hsb. apply (H3 b Hb). by rewrite Hs.
Qed.

Lemma keeps_update i (f : cpp_class H A -> cpp_class H A) :
  (forall c, cl_config (f c) = cl_config c) -> evolves keeps_hierarchy (update_class i f).
Proof.
  intros Hf cs. unfold update_class, the_cpp_class, st_bind. destruct (cs !! i) as [c|] eqn:E; [|by unfold keeps_hierarchy].
  cbn. unfold keeps_hierarchy. apply hierarchy_configs. unfold configs. symmetry. eapply list_update_map; [exact E|apply Hf].
Qed.

Lemma the_classes_lookup (cs : classes) l r :
  the_classes cs l = Ok r -> Forall2 (fun n c => cs !! n = Some c) l r.
Proof.
  revert r. induction l as [|n l IH]; intros r; cbn; [by intros [= <-]; constructor|].
  destruct (cs !! n) as [c|] eqn:E; [|done]. destruct (the_classes cs l) as [r'|]; [|done].
  intros [= <-]. constructor; [done | by apply IH].
Qed.
Lemma inherited_policy_is (cs : classes) l r given p :
  Forall2 (fun n c => cs !! n = Some c) l r -> inherited_policy r given = Ok p ->
  match head (omap (policy_of cs) l) with Some q => p = Some q /\ given = None | None => p = given end.
Proof.
  induction 1 as [|n c l r Hn _ IH]; cbn; [by intros [= <-]|].
  unfold policy_of at 1. rewrite Hn. cbn. destruct (cf_memory_policy (cl_config c)) as [q|]; cbn; [|exact IH].
  destruct given; [done|]. by intros [= <-].
Qed.

Lemma app_lookup_before (cs : classes) c b : (b < length cs)%nat -> (cs ++ [c]) !! b = cs !! b.
Proof. apply lookup_app_l. Qed.

Lemma new_class_ok (g : settings) (cs : classes) (a : class_args) c :
  CppClass_init g cs a = Ok c -> class_ok cs (length cs) (cl_config c).
Proof.
  unfold CppClass_init. destruct (negb _); [done|].
  destruct (arg_bases (ca_parent a)) as [bases|] eqn:Eb; [|done]. cbn.
  destruct (given_policy a) as [given|]; [|done]. cbn.
  destruct (the_classes cs bases) as [bcs|] eqn:Ec; [|done]. cbn.
  destruct (inherited_policy bcs given) as [p|] eqn:Ep; [|done]. cbn.
  destruct (chosen_subclassing g bcs (ca_allow_subclassing a)) as [sub|] eqn:Es; [|done]. cbn.
  intros [= <-]. cbn. apply the_classes_lookup in Ec. split; cbn.
  - apply Forall_forall. intros b Hb. apply list_elem_of_lookup in Hb as [k Hk].
    destruct (Forall2_lookup_l _ _ _ _ _ Ec Hk) as (d&_&Hd). by eapply lookup_lt_Some.
  - intros q Hq. pose proof (inherited_policy_is cs bases bcs given p Ec Ep) as Hi.
    rewrite Hq in Hi. by destruct Hi as [-> _].
  - intros b Hb Hsub Hd. unfold destructible in Hd. cbn in Hd. rewrite Hd, andb_true_r.
    destruct Ec as [|n d bases bcs Hn _]; [discriminate|]. injection Hb as ->.
    unfold subclassable in Hsub. rewrite Hn in Hsub. unfold chosen_subclassing in Es.
    destruct (ca_allow_subclassing a) as [b'|]; cbn in Es; [|congruence].
    rewrite Hsub in Es. cbn in Es. destruct b'; cbn in Es; congruence.
  - intros Hd. unfold destructible in Hd. cbn in Hd. by rewrite Hd, andb_false_r.
Qed.

(** An explicit choice about subclassing is refused when it would undo that of a base. *)
Lemma explicit_subclassing (g : settings) (cs : classes) (a : class_args) choice c :
  ca_allow_subclassing a = Some choice -> CppClass_init g cs a = Ok c ->
  cf_allow_subclassing (cl_config c) = choice && destructible (cl_config c)
  /\ (choice = false -> Forall (fun b => subclassable cs b = false) (cl_bases c)).
Proof.
  intros Ha. unfold CppClass_init. destruct (negb _); [done|].
  destruct (arg_bases (ca_parent a)) as [bases|] eqn:Eb; [|done]. cbn.
  destruct (given_policy a) as [given|]; [|done]. cbn.
  destruct (the_classes cs bases) as [bcs|] eqn:Ec; [|done]. cbn.
  destruct (inherited_policy bcs given) as [p|]; [|done]. cbn. rewrite Ha. cbn.
  destruct (existsb _ bcs && negb choice) eqn:Ee; [done|]. cbn.
  intros [= <-]. cbn. split; [done|]. intros ->. rewrite andb_true_r in Ee.
  apply the_classes_lookup in Ec. clear Eb. unfold cl_bases. cbn.
  induction Ec as [|n d bases bcs Hn _ IH]; [constructor|]. cbn in Ee.
  apply orb_false_iff in Ee as [Ed Ee]. constructor; [|by apply IH].
  unfold subclassable. by rewrite Hn.
Qed.

Lemma hierarchy_append (cs : classes) c :
  hierarchy_ok cs -> class_ok cs (length cs) (cl_config c) -> hierarchy_ok (cs ++ [c]).
Proof.
  intros Hok Hc i c' Hi.
  assert (Hk : (i <= length cs)%nat /\ class_ok cs i (cl_config c')).
  { apply lookup_app_Some in Hi as [Hi|[Hl Hi]].
    - pose proof (lookup_lt_Some _ _ _ Hi). split; [lia | by apply Hok].
    - apply list_lookup_singleton_Some in Hi as [Hi <-].
      assert (i = length cs) as -> by lia. done. }
  destruct Hk as [Hl [H1 H2 H3 H4]].
  assert (Hb : forall b, b ∈ cf_bases (cl_config c') -> (cs ++ [c]) !! b = cs !! b).
  { intros b Hb. apply app_lookup_before. rewrite Forall_forall in H1. specialize (H1 b Hb). lia. }
  split; [done| | |done].
  - intros p Hh. apply H2. rewrite <- Hh. f_equal. apply omap_ext_elem. intros b Hin.
    unfold policy_of. by rewrite Hb.
  - intros b Hh Hs. apply (H3 b Hh). unfold subclassable in *. rewrite Hb in Hs; [done|].
    destruct (cf_bases (cl_config c')); [discriminate|]. injection Hh as ->. by left.
Qed.
End invariant.

(** The state of the registration has the classes in front. *)
Definition keeps_first {H A X} (s s' : list (cpp_class H A) * X) : Prop := keeps_hierarchy s.1 s'.1.
#[export] Instance keeps_first_preorder {H A X} : PreOrder (@keeps_first H A X).
Proof.
  unfold keeps_first. split; [by intros s | intros s1 s2 s3 H1 H2; by transitivity s2.1].
Qed.
Definition keeps_inner {H A X Y} (s s' : (list (cpp_class H A) * X) * Y) : Prop := keeps_first s.1 s'.1.
#[export] Instance keeps_inner_preorder {H A X Y} : PreOrder (@keeps_inner H A X Y).
Proof.
  unfold keeps_inner. split; [by intros s | intros s1 s2 s3 H1 H2; by transitivity s2.1].
Qed.
Lemma evolves_on_fst {S T B} (R : S -> S -> Prop) (m : ST S B) :
  evolves R m -> evolves (fun s s' : S * T => R s.1 s'.1) (on_fst m).
Proof. intros Hm [s t]. specialize (Hm s). unfold on_fst. cbn. by destruct (m s). Qed.
Lemma evolves_on_snd {S T B} (R : S -> S -> Prop) `{!Reflexive R} (m : ST T B) :
  evolves (fun s s' : S * T => R s.1 s'.1) (on_snd m).
Proof. intros [s t]. unfold on_snd. cbn. by destruct (m t). Qed.

Section keeping.
Context {H A : Type} {dict_order : DictOrder}.
Local Abbreviation classes := (list (cpp_class H A)).

Lemma keeps_the_class i : evolves keeps_hierarchy (the_cpp_class (H:=H) (A:=A) i).
Proof. by intros cs. Qed.
Lemma keeps_registry make i : evolves keeps_hierarchy (get_wrapper_registry (H:=H) (A:=A) make i).
Proof.
  unfold get_wrapper_registry. apply evolves_bind; [apply _|by intros cs|]. intros cs.
  destruct (root_class _ cs i); [|apply evolves_raise, _].
  apply evolves_bind; [apply _|apply keeps_the_class|]. intros c.
  destruct (ss_wrapper_registry _); [apply evolves_ret, _|].
  apply evolves_bind; [apply _|apply evolves_lift, _|]. intros p.
  apply evolves_bind; [apply _|by apply keeps_update|]. intros _. apply evolves_ret, _.
Qed.
Lemma keeps_pure_virtual i : evolves keeps_hierarchy (get_have_pure_virtual_methods (H:=H) (A:=A) i).
Proof.
  unfold get_have_pure_virtual_methods. apply evolves_bind; [apply _|apply keeps_the_class|]. intros c.
  destruct (ss_have_pure_virtual_methods _); [apply evolves_ret, _|].
  apply evolves_bind; [apply _|by intros cs|]. intros cs.
  apply evolves_bind; [apply _|apply evolves_lift, _|]. intros b.
  apply evolves_bind; [apply _|by apply keeps_update|]. intros _. apply evolves_ret, _.
Qed.
Lemma keeps_construct_name i : evolves keeps_hierarchy (get_construct_name (H:=H) (A:=A) i).
Proof.
  unfold get_construct_name. apply evolves_bind; [apply _|apply keeps_the_class|]. intros c.
  destruct (truthy _); [apply evolves_raise, _|].
  apply evolves_bind; [apply _|apply keeps_pure_virtual|]. intros []; [apply evolves_raise, _ | apply evolves_ret, _].
Qed.

Section registering.
Context {P Q O1 O2 A1 A2 M : Type} (param_of : nat -> class_param_kind -> P)
  (return_of : nat -> class_return_kind -> Q) (register_type : string -> nat -> ST M unit).
Local Abbreviation matchers := (class_matchers (P:=P) (R:=Q) (O1:=O1) (O2:=O2) (A1:=A1) (A2:=A2)).
Local Abbreviation state := ((classes * matchers) * M)%type.

Lemma keeps_class {B} (m : ST classes B) :
  evolves keeps_hierarchy m -> evolves (keeps_inner (Y:=M) (X:=matchers)) (on_fst (on_fst m)).
Proof. intros Hm. apply (evolves_on_fst keeps_first), (evolves_on_fst keeps_hierarchy), Hm. Qed.
Lemma keeps_alias i alias :
  evolves (keeps_inner (H:=H) (A:=A)) (register_alias (O1:=O1) (O2:=O2) (A1:=A1) (A2:=A2)
    param_of return_of register_type i alias).
Proof.
  unfold register_alias. apply evolves_bind; [apply _|apply keeps_class, keeps_the_class|]. intros c.
  apply evolves_bind; [apply _|apply (evolves_on_snd keeps_first)|]. intros _.
  destruct (String.eqb _ _); [apply evolves_raise, _|].
  apply (evolves_on_fst keeps_first), (evolves_on_snd keeps_hierarchy).
Qed.
Lemma keeps_set_module g i m :
  evolves (keeps_inner (H:=H) (A:=A)) (class_set_module (O1:=O1) (O2:=O2) (A1:=A1) (A2:=A2)
    param_of return_of register_type g i m).
Proof.
  unfold class_set_module. apply evolves_bind; [apply _|apply keeps_class, keeps_the_class|]. intros c.
  apply evolves_bind; [apply _|by intros s|]. intros cs.
  apply evolves_bind; [apply _|apply evolves_lift, _|]. intros q.
  apply evolves_bind; [apply _|by apply keeps_class, keeps_update|]. intros _.
  apply evolves_bind; [apply _|apply keeps_alias|]. intros _.
  apply evolves_bind; [apply _|by intros s|]. intros cs'. by apply keeps_class, keeps_update.
Qed.
Lemma keeps_new g a :
  evolves (keeps_first (H:=H) (A:=A)) (new_CppClass (O1:=O1) (O2:=O2) (A1:=A1) (A2:=A2)
    param_of return_of g a).
Proof.
  intros [cs ms]. unfold new_CppClass, st_bind, st_get, st_lift. cbn.
  destruct (CppClass_init g cs a) as [c|] eqn:E; [|by unfold keeps_first]. cbn.
  unfold on_snd. cbn. destruct (register_new_class _ _ _ _ _) as [ms' [[]|e]]; cbn;
    intros Hok; apply hierarchy_append; first [done | by eapply new_class_ok].
Qed.

(** C8: The class hierarchy.  Whatever classes are made and named, and whatever is asked of
    them, also when a call raises: bases were there before the classes that derive
    from them, a class has the memory policy of the first of its bases that has
    one, it can be subclassed in Python if its first base can and its destructor
    is public or protected, and it cannot if the destructor is private.  A class
    that makes an explicit choice cannot undo that of any of its bases. *)
Theorem hierarchy_invariant (g : settings) (make : string -> wrapper_registry) :
  hierarchy_ok ([] : classes)
  /\ (forall a, evolves (keeps_first (H:=H) (A:=A))
        (new_CppClass (O1:=O1) (O2:=O2) (A1:=A1) (A2:=A2) param_of return_of g a))
  /\ (forall i m, evolves (keeps_inner (H:=H) (A:=A))
        (class_set_module (O1:=O1) (O2:=O2) (A1:=A1) (A2:=A2) param_of return_of register_type g i m))
  /\ (forall i, evolves keeps_hierarchy (get_wrapper_registry (H:=H) (A:=A) make i))
  /\ (forall i, evolves keeps_hierarchy (get_construct_name (H:=H) (A:=A) i))
  /\ (forall i j, evolves keeps_hierarchy (implicitly_converts_to (H:=H) (A:=A) i j))
  /\ forall (cs : classes) a choice c, ca_allow_subclassing a = Some choice -> CppClass_init g cs a = Ok c ->
       cf_allow_subclassing (cl_config c) = choice && destructible (cl_config c)
       /\ (choice = false -> Forall (fun b => subclassable cs b = false) (cl_bases c)).
Proof.
  split; [by intros i c|]. split_and!; intros.
  - apply keeps_new.
  - apply keeps_set_module.
  - apply keeps_registry.
  - apply keeps_construct_name.
  - by apply keeps_update.
  - by eapply explicit_subclassing.
Qed.
End registering.

(** ** Pure virtual methods *)

Lemma pure_virtual_left_spec (l : list (cpp_class H A)) :
  pure_virtual_left l = true
  <-> exists pre c post m, l = pre ++ c :: post /\ m ∈ all_cpp_methods c
        /\ cm_is_pure_virtual (wo_attrs m) = true /\ Forall (fun d => implements m d = false) post.
Proof.
  induction l as [|c l IH]; cbn.
  { split; [done|]. intros (pre&c&post&m&E&_). by destruct pre. }
  rewrite orb_true_iff, IH, existsb_exists. split.
  - intros [(m&Hm&Hp)|(pre&d&post&m&->&H1&H2&H3)].
    + apply andb_true_iff in Hp as [Hp Hi]. exists [], c, l, m. split_and!; [done|by apply list_elem_of_In|done|].
      apply negb_true_iff, not_true_iff_false in Hi. apply Forall_forall. intros d Hd.
      apply not_true_iff_false. intros E. apply Hi, existsb_exists. exists d. split; [by apply list_elem_of_In|done].
    + by exists (c :: pre), d, post, m.
  - intros ([|c' pre]&d&post&m&E&H1&H2&H3); cbn in E; injection E as <- ->.
    + left. exists m. split; [by apply list_elem_of_In|]. rewrite H2. cbn. apply negb_true_iff.
      apply not_true_iff_false. intros (e&He&Hi)%existsb_exists. rewrite Forall_forall in H3.
      apply list_elem_of_In in He. specialize (H3 e He). congruence.
    + right. by exists pre, d, post, m.
Qed.
Lemma the_classes_total (cs : classes) l :
  Forall (fun i => (i < length cs)%nat) l ->
  exists r, the_classes cs l = Ok r /\ Forall2 (fun n c => cs !! n = Some c) l r.
Proof.
  induction 1 as [|n l Hn _ (r&E&F)]; [by exists []|]. cbn.
  destruct (lookup_lt_is_Some_2 cs n Hn) as [c Hc]. rewrite Hc, E. exists (c :: r). split; [done|by constructor].
Qed.
Lemma ancestor_le (cs : classes) i j : bases_before cs -> rtc (base_of cs) i j -> (j <= i)%nat.
Proof. intros Hcs. induction 1 as [|x y z Hxy _ IH]; [done|]. pose proof (Hcs x y Hxy). lia. Qed.

(** With single inheritance the order of the classes is the chain of the bases. *)
Lemma single_chain (cs : classes) : forall fuel x visited l,
  (forall j, rtc (base_of cs) x j -> (length (bases_of cs j) <= 1)%nat) ->
  mro_loop fuel cs [x] visited = Ok l ->
  Sorted.StronglySorted (tc (base_of cs)) l /\ Forall (rtc (base_of cs) x) l.
Proof.
  induction fuel as [|fuel IH]; intros x visited l H1; [done|]. cbn.
  destruct (bases_of cs x) as [|y [|z bs]] eqn:Eb.
  - destruct fuel; cbn; intros [= <-]; (split; [by repeat constructor|by constructor]).
  - assert (base_of cs x y) as Hxy by (unfold base_of; rewrite Eb; by left). cbn. destruct (negb _).
    + destruct (mro_loop fuel cs [y] (x :: visited)) as [r|] eqn:Er; [|done].
      intros [= <-]. destruct (IH y (x :: visited) r) as [Hs Hf]; [|done|].
      { intros j Hj. apply H1. by eapply rtc_l. }
      assert (Forall (tc (base_of cs) x) r) as Ht.
      { eapply Forall_impl; [exact Hf|]. intros j Hj. by eapply tc_rtc_r; [apply tc_once|]. }
      split; [by constructor|]. constructor; [done|]. eapply Forall_impl; [exact Ht|]. intros j. apply tc_rtc.
    + destruct fuel; cbn; intros [= <-]; (split; [by repeat constructor|by constructor]).
  - specialize (H1 x ltac:(done)). rewrite Eb in H1. cbn in H1. lia.
Qed.

(** Pure virtual methods of an ancestor that no class between it and the class
    at hand implements. *)
Definition unimplemented (cs : classes) (i : nat) : Prop :=
  exists j d m, rtc (base_of cs) i j /\ cs !! j = Some d /\ m ∈ all_cpp_methods d
    /\ cm_is_pure_virtual (wo_attrs m) = true
    /\ forall k e, rtc (base_of cs) i k -> tc (base_of cs) k j -> cs !! k = Some e -> implements m e = false.

Lemma below_is_tc (cs : classes) k j : bases_before cs -> tc (base_of cs) k j -> (j < k)%nat.
Proof.
  intros Hcs. induction 1 as [x y Hxy|x y z Hxy _ IH]; [by apply Hcs|]. specialize (Hcs x y Hxy). lia.
Qed.
(** What comes before a class in a chain is what is below it. *)
Lemma chain_below (cs : classes) l1 j l2 k : bases_before cs ->
  Sorted.StronglySorted (tc (base_of cs)) (l1 ++ j :: l2) -> k ∈ l1 ++ j :: l2 ->
  tc (base_of cs) k j <-> k ∈ l1.
Proof.
  intros Hcs Hs Hk. apply sorting.StronglySorted_app in Hs as (Hb&_&Hs). split.
  - intros Ht. apply elem_of_app in Hk as [Hk|Hk]; [done|]. exfalso.
    apply below_is_tc in Ht; [|done]. apply elem_of_cons in Hk as [->|Hk]; [lia|].
    apply Sorted.StronglySorted_inv in Hs as [_ Hf]. rewrite Forall_forall in Hf.
    specialize (Hf k Hk). apply below_is_tc in Hf; [lia|done].
  - intros H1. apply Hb; [done|by left].
Qed.
(** In a chain, what the loop over the reversed order finds is a pure virtual
    method that no class below its own implements. *)
Lemma chain_left (cs : classes) (i : nat) mro l : bases_before cs ->
  get_mro cs i = Ok mro -> (forall j, j ∈ mro <-> rtc (base_of cs) i j) ->
  Forall2 (fun n c => cs !! n = Some c) (rev mro) l ->
  (forall j, rtc (base_of cs) i j -> (length (bases_of cs j) <= 1)%nat) ->
  pure_virtual_left l = true <-> unimplemented cs i.
Proof.
  intros Hcs E Ha Hl H1. destruct (single_chain cs _ i [] mro H1 E) as [Hs _].
  rewrite pure_virtual_left_spec. split.
  - intros (pre&d&post&m&->&Hm&Hp&Hpost).
    apply Forall2_app_inv_r in Hl as (p1&p2&Hpre&Hl&Er). apply Forall2_cons_inv_r in Hl as (j&p2'&Hj&Hl&->).
    assert (mro = rev p2' ++ j :: rev p1) as Em.
    { rewrite <- (rev_involutive mro), Er, rev_app_distr. cbn. by rewrite <- app_assoc. }
    subst mro. exists j, d, m. split_and!; [apply Ha; set_solver|done..|].
    intros k e Hk Ht He. apply Ha in Hk. apply (chain_below cs _ j _ k Hcs Hs Hk) in Ht.
    apply list_elem_of_In, in_rev, list_elem_of_In, list_elem_of_lookup in Ht as [n Hn].
    destruct (Forall2_lookup_l _ _ _ _ _ Hl Hn) as (e'&He'&Hke). rewrite He in Hke. injection Hke as <-.
    by apply (Forall_lookup_1 _ _ _ _ Hpost He').
  - intros (j&d&m&Hj&Hd&Hm&Hp&Hall). apply Ha, list_elem_of_split in Hj as (l1&l2&->).
    rewrite rev_app_distr in Hl. cbn in Hl. rewrite <- app_assoc in Hl. cbn in Hl.
    apply Forall2_app_inv_l in Hl as (pre&t&_&Hl&->). apply Forall2_cons_inv_l in Hl as (d'&post&Hd'&Hl&->).
    rewrite Hd in Hd'. injection Hd' as <-. exists pre, d, post, m. split_and!; [done..|].
    apply Forall_forall. intros e He. apply list_elem_of_lookup in He as [n Hn].
    destruct (Forall2_lookup_r _ _ _ _ _ Hl Hn) as (k&Hk&Hke).
    assert (k ∈ l1) as Hin by (apply list_elem_of_In, in_rev, list_elem_of_In; by eapply list_elem_of_lookup_2).
    apply (Hall k e); [apply Ha; set_solver| |done].
    apply (chain_below cs l1 j l2 k Hcs Hs); [set_solver|done].
Qed.

(** C12: Abstract classes.  For a class whose answer is not known yet,
    [get_have_pure_virtual_methods] goes through the bases from the last to the
    class itself: the class is abstract exactly when one of them has a pure virtual
    method that no later one implements.  When every ancestor has at most one
    base, "later" is "below": the class is abstract exactly when an ancestor has a
    pure virtual method that no class between the two implements.  The answer is
    kept, and nothing else changes; from then on it is given without looking.
    With several bases a base beside the ancestor counts as well
    ([beside_counts_as_below] of ClassGenerate). *)
Theorem pure_virtual_spec (cs : classes) (i : nat) (c : cpp_class H A) :
  hierarchy_ok cs -> cs !! i = Some c -> ss_have_pure_virtual_methods (cl_status c) = None ->
  exists mro l b,
    get_mro cs i = Ok mro /\ Forall2 (fun n c => cs !! n = Some c) (rev mro) l
    /\ (b = true <-> exists pre d post m, l = pre ++ d :: post /\ m ∈ all_cpp_methods d
          /\ cm_is_pure_virtual (wo_attrs m) = true /\ Forall (fun e => implements m e = false) post)
    /\ ((forall j, rtc (base_of cs) i j -> (length (bases_of cs j) <= 1)%nat) ->
        (b = true <-> unimplemented cs i))
    /\ let cs' := <[i := set_status c (with_pure_virtual (Some b) (cl_status c))]> cs in
       get_have_pure_virtual_methods i cs = (cs', Ok b)
       /\ get_have_pure_virtual_methods i cs' = (cs', Ok b).
Proof.
  intros Hok Hc Hn. pose proof (hierarchy_bases cs Hok) as Hcs.
  destruct (mro_spec cs i Hcs) as (r&E&Ha). pose proof (lookup_lt_Some _ _ _ Hc) as Hi.
  destruct (the_classes_total cs (rev (i :: r))) as (l&El&Hl).
  { apply Forall_forall. intros j Hj. apply list_elem_of_In, in_rev, list_elem_of_In in Hj.
    apply Ha, ancestor_le in Hj; [lia|done]. }
  exists (i :: r), l, (pure_virtual_left l).
  split_and!; [done|done|apply pure_virtual_left_spec|by apply (chain_left cs i (i :: r))|].
  intros cs'. split.
  - unfold get_have_pure_virtual_methods, the_cpp_class, update_class, st_bind. rewrite Hc, Hn. cbn.
    unfold st_lift, compute_pure_virtual. rewrite E. cbn [res_bind]. rewrite El. cbn [res_bind].
    unfold the_cpp_class. by rewrite Hc.
  - unfold get_have_pure_virtual_methods, the_cpp_class, st_bind, cs'.
    by rewrite list_lookup_insert_eq by done.
Qed.
End keeping.

(** ** Wrapper registries *)

Section registries.
Context {H A : Type}.
Local Abbreviation classes := (list (cpp_class H A)).

Lemma root_class_configs (cs cs' : classes) : configs cs = configs cs' ->
  forall fuel i, root_class fuel cs i = root_class fuel cs' i.
Proof.
  intros E fuel. induction fuel as [|fuel IH]; intros i; [done|]. cbn.
  assert (cl_config <$> cs !! i = cl_config <$> cs' !! i) as Hi.
  { rewrite <- !list_lookup_fmap. assert (cl_config <$> cs = cl_config <$> cs') as -> by exact E. done. }
  unfold cl_parent, cl_bases. destruct (cs !! i) as [c|], (cs' !! i) as [c'|]; cbn in Hi; try done.
  injection Hi as ->. destruct (head _); [apply IH|done].
Qed.
Lemma configs_update (cs : classes) i c c' :
  cs !! i = Some c -> cl_config c' = cl_config c -> configs (<[i := c']> cs) = configs cs.
Proof. intros Hi Hc. unfold configs. by eapply list_update_map. Qed.

(** One registry for a tree of classes.  Classes with the same root, up the chain of
    first bases, share one wrapper registry: when it was made for one of them, all
    get that one, and nothing changes any more. *)
Theorem registry_shared (make : string -> wrapper_registry) (cs cs' : classes) (i j : nat)
    (r : wrapper_registry) :
  root_class (S (length cs)) cs i = root_class (S (length cs)) cs j ->
  get_wrapper_registry make i cs = (cs', Ok r) ->
  get_wrapper_registry make j cs' = (cs', Ok r).
Proof.
  intros Hroot Hi. unfold get_wrapper_registry, st_bind, st_get in Hi.
  destruct (root_class (S (length cs)) cs i) as [root|] eqn:Er; [|discriminate].
  destruct (the_cpp_class root cs) as [cs0 [c|]] eqn:Ec; [|discriminate].
  unfold the_cpp_class in Ec. destruct (cs !! root) as [c0|] eqn:Hc; [|discriminate].
  injection Ec as <- <-.
  assert (exists d, cs' !! root = Some d /\ ss_wrapper_registry (cl_status d) = Some r
    /\ configs cs' = configs cs) as (d&Hd&Hr&Hcfg).
  { destruct (ss_wrapper_registry (cl_status c0)) as [r0|] eqn:Hs.
    - injection Hi as <- <-. by exists c0.
    - unfold st_lift in Hi. destruct (class_pystruct c0) as [p|]; [|discriminate].
      unfold update_class, the_cpp_class, st_bind in Hi. rewrite Hc in Hi. injection Hi as <- <-.
      eexists. split_and!; [by apply list_lookup_insert_eq, lookup_lt_Some with c0|done|].
      by eapply configs_update. }
  assert (length cs' = length cs) as Hl.
  { assert (length (configs cs') = length (configs cs)) as E by (by rewrite Hcfg).
    unfold configs in E. by rewrite !length_map in E. }
  unfold get_wrapper_registry, st_bind, st_get. 
  rewrite Hl, (root_class_configs cs' cs Hcfg), <- Hroot.
  unfold the_cpp_class. by rewrite Hd, Hr.
Qed.
End registries.

(** ** Registration of the type handlers *)

Section registered.
Context {H A P Q O1 O2 A1 A2 M : Type} (param_of : nat -> class_param_kind -> P)
  (return_of : nat -> class_return_kind -> Q) (register_type : string -> nat -> ST M unit).
Local Abbreviation matchers := (class_matchers (P:=P) (R:=Q) (O1:=O1) (O2:=O2) (A1:=A1) (A2:=A2)).
Implicit Types st : matchers.

(** [st'] knows the types of [st], and besides only types of class [i]. *)
Definition adds_class (i : nat) st st' : Prop :=
  knows_more st.1 st'.1 /\ knows_more st.2 st'.2
  /\ (forall n h, tm_types st'.1 !! n = Some h -> tm_types st.1 !! n = Some h \/ exists k, h = param_of i k)
  /\ (forall n h, tm_types st'.2 !! n = Some h -> tm_types st.2 !! n = Some h \/ exists k, h = return_of i k).
#[local] Instance adds_class_preorder i : PreOrder (adds_class i).
Proof.
  unfold adds_class. split; [intros st; split_and!; [done|done|by left|by left]|]. intros s1 s2 s3 (P1&R1&Q1&S1) (P2&R2&Q2&S2). split_and!.
  - by transitivity s2.1.
  - by transitivity s2.2.
  - intros n h [Hh|Hh]%Q2; [by apply Q1 | by right].
  - intros n h [Hh|Hh]%S2; [by apply S1 | by right].
Qed.

Definition knows_name {C Ob Ar} (m : matcher C Ob Ar) (name : string) : Prop :=
  forall n, normalize_type_string name = Ok n -> is_Some (tm_types m !! n).
Lemma knows_name_later {C Ob Ar} (m m' : matcher C Ob Ar) name :
  knows_more m m' -> knows_name m name -> knows_name m' name.
Proof. intros [Hs _] Hn n E. destruct (Hn n E) as [h Hh]. exists h. by eapply lookup_weaken. Qed.

Lemma register_param_runs name i k st st' r :
  ignore_value_error (register_class_param param_of name i k) st = (st', r) ->
  adds_class i st st' /\ (r = Ok tt -> knows_name st'.1 name).
Proof.
  unfold ignore_value_error, st_catch, register_class_param, on_fst, knows_name. destruct st as [mp mr]. cbn.
  unfold register. destruct (normalize_type_string name) as [n|e] eqn:En; cbn.
  - destruct (tm_types mp !! n) as [h|] eqn:Et; cbn; intros [= <- <-].
    + split; [reflexivity|]. intros _ n' [= <-]. by exists h.
    + split.
      * split_and!; cbn; [split_and!; cbn; [by apply insert_subseteq|done..]|done| |auto].
        intros n' h. rewrite lookup_insert_Some. intros [[_ <-]|[_ ?]]; [by right; exists k | by left].
      * intros _ n' [= <-]. cbn. rewrite lookup_insert_eq. by eexists.
  - destruct e; intros [= <- <-]; (split; [reflexivity|]); done.
Qed.
Lemma register_return_runs name i k st st' r :
  ignore_value_error (register_class_return return_of name i k) st = (st', r) ->
  adds_class i st st' /\ (r = Ok tt -> knows_name st'.2 name).
Proof.
  unfold ignore_value_error, st_catch, register_class_return, on_snd, knows_name. destruct st as [mp mr]. cbn.
  unfold register. destruct (normalize_type_string name) as [n|e] eqn:En; cbn.
  - destruct (tm_types mr !! n) as [h|] eqn:Et; cbn; intros [= <- <-].
    + split; [reflexivity|]. intros _ n' [= <-]. by exists h.
    + split.
      * split_and!; cbn; [done|split_and!; cbn; [by apply insert_subseteq|done..]|auto|].
        intros n' h. rewrite lookup_insert_Some. intros [[_ <-]|[_ ?]]; [by right; exists k | by left].
      * intros _ n' [= <-]. cbn. rewrite lookup_insert_eq. by eexists.
  - destruct e; intros [= <- <-]; (split; [reflexivity|]); done.
Qed.

(** A registration: what it adds, and what is known when it returns. *)
Definition registers (i : nat) (m : ST matchers unit) (Q : matchers -> Prop) : Prop :=
  forall st st' r, m st = (st', r) -> adds_class i st st' /\ (r = Ok tt -> Q st').
Lemma registers_seq i m k Q1 Q2 :
  (forall st st', adds_class i st st' -> Q1 st -> Q1 st') ->
  registers i m Q1 -> registers i k Q2 -> registers i (m ;;; k) (fun st => Q1 st /\ Q2 st).
Proof.
  intros Hmono Hm Hk st st' r. unfold st_bind. destruct (m st) as [s1 [[]|e]] eqn:E1.
  - intros E2. destruct (Hm _ _ _ E1) as [Ka H1]. destruct (Hk _ _ _ E2) as [Kb H2].
    split; [by transitivity s1|]. intros Hr. split; [|by apply H2]. apply (Hmono s1); [done|by apply H1].
  - intros [= <- <-]. split; [by apply (Hm _ _ _ E1) | done].
Qed.
Lemma knows_param_later i name st st' : adds_class i st st' -> knows_name st.1 name -> knows_name st'.1 name.
Proof. intros (K&_). by apply knows_name_later. Qed.
Lemma knows_return_later i name st st' : adds_class i st st' -> knows_name st.2 name -> knows_name st'.2 name.
Proof. intros (_&K&_). by apply knows_name_later. Qed.

(** The types of a class.  Registering a class under a name, as [set_module] does for its full
    name, never changes the handler of a type that is known, not even when it
    raises, and adds types of this class only.  When it returns, the name, a
    reference and a pointer to it are known as parameters and return values, each
    by a handler of this class unless the type was known before. *)
Theorem class_registered (i : nat) (alias : string)
    (s s' : (list (cpp_class H A) * matchers) * M) (r : res unit) :
  register_alias param_of return_of register_type i alias s = (s', r) ->
  adds_class i s.1.2 s'.1.2
  /\ (r = Ok tt ->
      Forall (fun suffix => knows_name s'.1.2.1 (alias +:+ suffix) /\ knows_name s'.1.2.2 (alias +:+ suffix))
        [EmptyString; "&"; "*"]).
Proof.
  destruct s as [[cs st] m]. unfold register_alias, on_fst at 1, on_fst at 1, the_cpp_class, st_bind at 1. cbn.
  destruct (cs !! i) as [c|]; [|by intros [= <- <-]]. cbn.
  unfold st_bind at 1, on_snd at 1. cbn. destruct (register_type alias i m) as [m' [[]|e]]; cbn;
    [|by intros [= <- <-]].
  destruct (String.eqb _ _); [by intros [= <- <-]|].
  unfold on_fst at 1, on_snd at 1. cbn.
  match goal with |- context [let '(_, _) := let '(_, _) := ?x in _ in _] => destruct x as [st' r'] eqn:E end.
  intros [= <- <-]. cbn.
  assert (registers i
    (ignore_value_error (register_class_param param_of alias i CppClassParameter) ;;;
     ignore_value_error (register_class_param param_of (alias +:+ "&") i CppClassRefParameter) ;;;
     ignore_value_error (register_class_return return_of alias i CppClassReturnValue) ;;;
     ignore_value_error (register_class_param param_of (alias +:+ "*") i CppClassPtrParameter) ;;;
     ignore_value_error (register_class_return return_of (alias +:+ "*") i CppClassPtrReturnValue) ;;;
     ignore_value_error (register_class_return return_of (alias +:+ "&") i CppClassRefReturnValue))
    (fun st => knows_name st.1 alias /\ knows_name st.1 (alias +:+ "&") /\ knows_name st.2 alias
       /\ knows_name st.1 (alias +:+ "*") /\ knows_name st.2 (alias +:+ "*")
       /\ knows_name st.2 (alias +:+ "&"))) as Hreg.
  { repeat (apply registers_seq; [apply knows_param_later || apply knows_return_later
      |intros ? ? ?; apply register_param_runs || apply register_return_runs|]).
    intros ? ? ?; apply register_return_runs. }
  destruct (Hreg _ _ _ E) as [Ha Hk]. split; [exact Ha|]. intros Hr.
  destruct (Hk Hr) as (K1&K2&K3&K4&K5&K6).
  repeat apply Forall_cons_2; [rewrite app_str_nil_r; split; assumption|split; assumption..|constructor].
Qed.
End registered.

(** ** The order is breadth first *)

Section breadth_first.
Context {H A : Type}.

(** A base before a class that derives from it.  When one base of a class derives
    from a class directly and another does so through a third class, the common base comes before
    that third class in the order; if both have a function that creates instances, the one of
    the base is used for the class, and not that of the class which derives from it. *)
Theorem base_creation_first (cs : list (cpp_class H A)) (d b c e a : nat) (ca ce : cpp_class H A)
    (fa fe : creation_function) :
  bases_before cs ->
  bases_of cs d = [b; c] -> bases_of cs b = [a] -> bases_of cs c = [e] -> bases_of cs e = [a] ->
  bases_of cs a = [] -> b <> e ->
  cs !! a = Some ca -> cl_instance_creation ca = Some fa ->
  cs !! e = Some ce -> cl_instance_creation ce = Some fe ->
  Forall (fun i => (cs !! i ≫= cl_instance_creation) = None) [d; b; c] ->
  rtc (base_of cs) e a /\ get_mro cs d = Ok [d; b; c; a; e]
  /\ get_instance_creation_function cs d = Ok fa.
Proof.
  intros Hcs Hd Hb Hc He Ha Hbe Hca Hfa Hce Hfe Hnone.
  assert (forall x y, y ∈ bases_of cs x -> (y < x)%nat) as Hlt by exact Hcs.
  assert (b < d /\ c < d /\ a < b /\ e < c /\ a < e)%nat as (?&?&?&?&?).
  { split_and!; apply Hlt; rewrite ?Hd, ?Hb, ?Hc, ?He; set_solver. }
  assert (get_mro cs d = Ok [d; b; c; a; e]) as E.
  { assert (weight cs a = 1%nat) as Wa by (by rewrite weight_step, Ha).
    assert (weight cs b = 2%nat) as Wb by (rewrite weight_step, Hb by done; cbn [map]; by rewrite Wa).
    assert (weight cs e = 2%nat) as We by (rewrite weight_step, He by done; cbn [map]; by rewrite Wa).
    assert (weight cs c = 3%nat) as Wc by (rewrite weight_step, Hc by done; cbn [map]; by rewrite We).
    unfold get_mro. rewrite mro_fuel, weight_step, Hd by done. cbn [map]. rewrite Wb, Wc.
    change (list_sum [2; 3]%nat) with 5%nat.
    rewrite mro_visit by (rewrite Hd; intros x; rewrite !elem_of_cons, !elem_of_nil; lia).
    rewrite Hd. cbn [app].
    rewrite mro_visit by (rewrite Hb; intros x; rewrite !elem_of_cons, !elem_of_nil; lia).
    rewrite Hb. cbn [app].
    rewrite mro_visit by (rewrite Hc; intros x; rewrite !elem_of_cons, !elem_of_nil; lia).
    rewrite Hc. cbn [app].
    rewrite mro_visit by (rewrite Ha; intros x; rewrite !elem_of_nil; lia).
    rewrite Ha. cbn -[bool_decide]. rewrite He. cbn -[bool_decide].
    by rewrite bool_decide_eq_true_2 by set_solver. }
  split_and!; [apply rtc_once; unfold base_of; rewrite He; set_solver|done|].
  unfold get_instance_creation_function. rewrite E. cbn [res_bind first_with].
  apply Forall_cons in Hnone as [N1 Hnone]. apply Forall_cons in Hnone as [N2 Hnone].
  apply Forall_cons in Hnone as [N3 _]. rewrite N1, N2, N3, Hca. cbn. by rewrite Hfa.
Qed.
End breadth_first.

(** ** Examples *)

Definition demo_config (name : string) (bases : list nat) : class_config :=
  ClassConfig name bases None false true false None [] None false None None None "public".
Definition demo_cpp_class (name : string) (bases : list nat) : cpp_class nat nat := new_class (demo_config name bases).
Definition demo_creation (code : string) : creation_function := fun _ b _ _ _ => write_code b code.
Definition created_by (code : string) (c : cpp_class nat nat) : cpp_class nat nat :=
  CppClass nat nat (cl_config c) None new_names new_members new_status new_operators None []
    (Some (demo_creation code)) None [] ∅.
(** A, B(A), E(A), C(E), D(B, C) *)
Definition demo_classes : list (cpp_class nat nat) :=
  [created_by "a" (demo_cpp_class "A" []); demo_cpp_class "B" [0%nat];
   created_by "e" (demo_cpp_class "E" [0%nat]); demo_cpp_class "C" [2%nat];
   demo_cpp_class "D" [1%nat; 3%nat]].
(** A, B(A), C(A), D(B, C) *)
Definition demo_diamond : list (cpp_class nat nat) :=
  [demo_cpp_class "A" []; demo_cpp_class "B" [0%nat]; demo_cpp_class "C" [0%nat];
   demo_cpp_class "D" [1%nat; 2%nat]].

Definition bases_before_b {H A} (cs : list (cpp_class H A)) : bool :=
  forallb (fun '(i, c) => forallb (fun b => b <? i)%nat (cl_bases c)) (imap pair cs).
Lemma bases_before_dec {H A} (cs : list (cpp_class H A)) : bases_before_b cs = true -> bases_before cs.
Proof.
  intros E i b Hb. unfold base_of, bases_of in Hb.
  destruct (cs !! i) as [c|] eqn:Ei; [|by apply not_elem_of_nil in Hb].
  unfold bases_before_b in E. rewrite forallb_forall in E.
  specialize (E (i, c)). cbn in E. rewrite forallb_forall in E.
  apply Nat.ltb_lt, E; [|by apply list_elem_of_In].
  apply list_elem_of_In, list_elem_of_lookup. exists i. by rewrite list_lookup_imap, Ei.
Qed.

Lemma mro_ancestors_witness :
  bases_before demo_diamond /\ exists r, get_mro demo_diamond 3 = Ok (3%nat :: r).
Proof.
  assert (bases_before demo_diamond) as Hb by (apply bases_before_dec; reflexivity).
  split; [exact Hb|]. destruct (mro_ancestors demo_diamond 3 Hb) as (r&E&_). exists r. exact E.
Defined.
Lemma diamond_hooks_twice_witness :
  get_mro demo_diamond 3 = Ok [3; 1; 2; 0; 0]%nat.
Proof.
  apply (diamond_hooks_twice demo_diamond 3 1 2 0); [apply bases_before_dec; reflexivity|reflexivity..].
Defined.
Lemma base_creation_first_witness :
  get_instance_creation_function demo_classes 4 = Ok (demo_creation "a").
Proof.
  apply (base_creation_first demo_classes 4 1 3 2 0 (created_by "a" (demo_cpp_class "A" []))
    (created_by "e" (demo_cpp_class "E" [0%nat])) (demo_creation "a") (demo_creation "e"));
    [apply bases_before_dec; reflexivity|try reflexivity..]; [discriminate|repeat constructor].
Defined.

Definition demo_named : cpp_class nat nat :=
  set_names (demo_cpp_class "Zbr" []) None (names_for default_settings (demo_config "Zbr" []) "ns::Zbr").
Lemma registry_shared_witness :
  exists cs', get_wrapper_registry StdMapWrapperRegistry_init 1 [demo_named; demo_cpp_class "Sub" [0%nat]]
      = (cs', Ok (StdMapWrapperRegistry_init "PyNsZbr"))
    /\ get_wrapper_registry StdMapWrapperRegistry_init 0 cs'
      = (cs', Ok (StdMapWrapperRegistry_init "PyNsZbr")).
Proof.
  eexists. split; [reflexivity|].
  apply (registry_shared StdMapWrapperRegistry_init [demo_named; demo_cpp_class "Sub" [0%nat]] _ 1);
    reflexivity.
Defined.

Definition demo_class_matchers
    : class_matchers (P:=nat) (R:=nat) (O1:=unit) (O2:=unit) (A1:=unit) (A2:=unit) :=
  (TypeMatcher, TypeMatcher).
Lemma class_registered_witness :
  exists s', register_alias (H:=nat) (A:=nat) (fun i _ => i) (fun i _ => i) (fun _ _ => st_ret tt) 0 "ns::Zbr"
      (([demo_named], demo_class_matchers), tt) = (s', Ok tt)
    /\ knows_name s'.1.2.1 "ns::Zbr&".
Proof.
  destruct (register_alias (H:=nat) (A:=nat) (fun i _ => i) (fun i _ => i) (fun _ _ => st_ret tt) 0 "ns::Zbr"
      (([demo_named], demo_class_matchers), tt)) as [s' r] eqn:E.
  assert (is_ok r = true) as Hr by (clear -E; revert E; vm_compute; intros [= _ <-]; reflexivity).
  destruct r as [[]|]; [|discriminate]. exists s'. split; [reflexivity|].
  apply class_registered in E as [_ Hk]. specialize (Hk eq_refl).
  apply Forall_cons in Hk as [_ Hk]. apply Forall_cons in Hk as [[Hk _] _]. exact Hk.
Defined.

Lemma demo_hierarchy : hierarchy_ok [demo_cpp_class "Zbr" []].
Proof.
  apply (hierarchy_append [] (demo_cpp_class "Zbr" [])); [by intros i c|].
  split; [constructor|discriminate|discriminate|done].
Qed.
Lemma pure_virtual_spec_witness :
  exists cs' b, get_have_pure_virtual_methods 0 [demo_cpp_class "Zbr" []] = (cs', Ok b)
    /\ get_have_pure_virtual_methods 0 cs' = (cs', Ok b).
Proof.
  destruct (pure_virtual_spec [demo_cpp_class "Zbr" []] 0 (demo_cpp_class "Zbr" []) demo_hierarchy eq_refl eq_refl)
    as (mro&l&b&_&_&_&_&E1&E2).
  eexists _, b. split; [exact E1|exact E2].
Defined.
