(* ===== verification/ClassMembers.v ===== *)
(** * Members of C++ classes

    The operations of [CppClass] in [pybindgen/cppclass.py] that add methods and
    constructors to a class, and what they do to its helper class. *)
From S2P Require Import Prelude.
From S2P Require Import CodeSink.
From S2P Require Import CodeBlock.
From S2P Require Import Wrapper.
From S2P Require Import TypeHandler.
From S2P Require Import WrapperBase.
From S2P Require Import Utils.
From S2P Require Import Overloading.
From S2P Require Import Settings.
From S2P Require Import WrapperRegistry.
From S2P Require Import WrapperObject.
From S2P Require Import Function.
From S2P Require Import FunctionOverload.
From S2P Require Import CppMethod.
From S2P Require Import ClassHandlers.
From S2P Require Import HelperClass.
From S2P Require Import ClassModel.

(** A class whose helper class is a [CppHelperClass]. *)
Abbreviation class_object A := (cpp_class cpp_helper_class A).

(** ** Changing attributes *)

Section attributes.
Context {A : Type}.
Local Abbreviation cpp_class := (class_object A).

Definition set_members (m : class_members) (c : cpp_class) : cpp_class :=
  CppClass _ A (cl_config c) (cl_module c) (cl_names c) m (cl_status c) (cl_operators c)
    (cl_helper_class c) (cl_helper_class_hooks c) (cl_instance_creation c)
    (cl_post_instance_creation c) (cl_implicitly_converts_from c) (cl_slots c).
Definition set_helper (h : option cpp_helper_class) (c : cpp_class) : cpp_class :=
  CppClass _ A (cl_config c) (cl_module c) (cl_names c) (cl_members c) (cl_status c) (cl_operators c)
    h (cl_helper_class_hooks c) (cl_instance_creation c)
    (cl_post_instance_creation c) (cl_implicitly_converts_from c) (cl_slots c).
Definition set_hooks (l : list A) (c : cpp_class) : cpp_class :=
  CppClass _ A (cl_config c) (cl_module c) (cl_names c) (cl_members c) (cl_status c) (cl_operators c)
    (cl_helper_class c) l (cl_instance_creation c)
    (cl_post_instance_creation c) (cl_implicitly_converts_from c) (cl_slots c).
Definition set_creation (instance post : option creation_function) (c : cpp_class) : cpp_class :=
  CppClass _ A (cl_config c) (cl_module c) (cl_names c) (cl_members c) (cl_status c) (cl_operators c)
    (cl_helper_class c) (cl_helper_class_hooks c) instance post
    (cl_implicitly_converts_from c) (cl_slots c).

Definition with_helper_disabled (b : bool) (s : class_status) : class_status :=
  ClassStatus b (ss_cannot_be_constructed s) (ss_has_trivial_constructor s)
    (ss_has_copy_constructor s) (ss_has_output_stream_operator s)
    (ss_have_pure_virtual_methods s) (ss_wrapper_registry s).
Definition with_cannot_be_constructed (reason : string) (s : class_status) : class_status :=
  ClassStatus (ss_helper_class_disabled s) reason (ss_has_trivial_constructor s)
    (ss_has_copy_constructor s) (ss_has_output_stream_operator s)
    (ss_have_pure_virtual_methods s) (ss_wrapper_registry s).
Definition with_constructor_kinds (trivial copy : bool) (s : class_status) : class_status :=
  ClassStatus (ss_helper_class_disabled s) (ss_cannot_be_constructed s)
    (trivial || ss_has_trivial_constructor s) (copy || ss_has_copy_constructor s)
    (ss_has_output_stream_operator s) (ss_have_pure_virtual_methods s) (ss_wrapper_registry s).
Definition with_output_stream (s : class_status) : class_status :=
  ClassStatus (ss_helper_class_disabled s) (ss_cannot_be_constructed s)
    (ss_has_trivial_constructor s) (ss_has_copy_constructor s) true
    (ss_have_pure_virtual_methods s) (ss_wrapper_registry s).
Definition on_status (f : class_status -> class_status) (c : cpp_class) : cpp_class :=
  set_status c (f (cl_status c)).

Definition set_methods (m : gmap string (overloaded (list class_wrapper))) (b : class_members) : class_members :=
  ClassMembers m (mb_dummy_methods b) (mb_nonpublic_methods b) (mb_constructors b).
Definition add_dummy (d : method) (b : class_members) : class_members :=
  ClassMembers (mb_methods b) (mb_dummy_methods b ++ [d]) (mb_nonpublic_methods b) (mb_constructors b).
Definition add_nonpublic (w : class_wrapper) (b : class_members) : class_members :=
  ClassMembers (mb_methods b) (mb_dummy_methods b) (mb_nonpublic_methods b ++ [w]) (mb_constructors b).
Definition append_constructor (k : constructor) (b : class_members) : class_members :=
  ClassMembers (mb_methods b) (mb_dummy_methods b) (mb_nonpublic_methods b) (mb_constructors b ++ [k]).
Definition on_members (f : class_members -> class_members) (c : cpp_class) : cpp_class :=
  set_members (f (cl_members c)) c.
End attributes.

Section members.
Context {A M K : Type} (g : settings) (make_registry : string -> wrapper_registry)
  (add_include : module_view -> string -> ST M unit) (no_kwargs : K)
  (new_param : list (@spec_item pyval K) -> K -> ST world param_handler)
  (new_return : list (@spec_item pyval K) -> K -> ST world return_handler)
  (on_error : error_handler world) {dict_order : DictOrder}.
Local Abbreviation cpp_class := (class_object A).
Local Abbreviation classes := (list cpp_class).
Local Abbreviation state := (classes * M)%type.

(** [isinstance(param, CppClassParameterBase)], with its kind and class, and what
    [param.take_value_from_python_self = True] makes of a handler. *)
Context (param_class : param_handler -> option (class_param_kind * nat))
  (take_value_from_self : param_handler -> param_handler).

(** The classes as the generators of methods see them. *)
Definition views (cs : classes) : list class_view := class_views view_of_helper cs.

(** ** [get_helper_class] *)

Definition helper_disabled (cs : classes) (n : nat) : bool :=
  match cs !! n with Some c => ss_helper_class_disabled (cl_status c) | None => false end.

(** The helper class, made at the first request, unless it is disabled for the class
    or one of its ancestors. *)
Definition new_helper_class (i : nat) (c : cpp_class) : ST state unit :=
  pystruct <- st_lift (class_pystruct c) ;;
  on_fst (update_class i (set_helper (Some (CppHelperClass_init i pystruct)))) ;;;
  match cl_module c with
  | None => st_raise AttributeError
  | Some m => on_snd (add_include m "<typeinfo>")
  end.
Definition get_helper_class (i : nat) : ST state (option cpp_helper_class) :=
  cs <- st_get fst ;;
  mro <- st_lift (get_mro cs i) ;;
  c <- on_fst (the_cpp_class i) ;;
  if existsb (helper_disabled cs) mro || negb (cf_allow_subclassing (cl_config c)) then st_ret None
  else
    match cl_helper_class c with
    | Some h => st_ret (Some h)
    | None =>
        st_when (negb (cf_is_singleton (cl_config c))) (new_helper_class i c) ;;;
        c <- on_fst (the_cpp_class i) ;;
        st_ret (cl_helper_class c)
    end.

(** A method of the helper class of a class, which may change it. *)
Definition on_helper {B} (i : nat) (m : list class_view -> ST cpp_helper_class B) : ST state B :=
  fun st =>
    match st.1 !! i ≫= cl_helper_class with
    | None => (st, Raise AttributeError)
    | Some h =>
        let '(h', r) := m (views st.1) h in
        ((alter (set_helper (Some h')) i st.1, st.2), r)
    end.
(** [helper_class = self.get_helper_class(); if helper_class is not None: ...] *)
Definition with_helper (i : nat) (m : list class_view -> ST cpp_helper_class unit) : ST state unit :=
  h <- get_helper_class i ;;
  match h with None => st_ret tt | Some _ => on_helper i m end.

(** ** [_add_method_obj] *)

(** The wrapper as a method of the class: its name and what is stored. *)
Definition set_base {B} (f : forward_wrapper -> forward_wrapper) (o : wrapper_object B) : wrapper_object B :=
  Obj (f (wo_base o)) (wo_attrs o) (wo_world o).
Definition set_parameters (ps : list param_handler) (fw : forward_wrapper) : forward_wrapper :=
  MkForward (fw_return_value fw) ps (fw_refs fw) (fw_force_parse fw)
    (fw_no_c_retval fw) (fw_unblock_threads fw) (fw_deprecated fw) (fw_wrapper_actual_name fw)
    (fw_wrapper_return fw) (fw_wrapper_args fw) (fw_HAVE_RETURN_VALUE fw)
    (fw_generate_call fw) (fw_before_call_hook fw) (fw_before_return_hook fw).
Definition set_self_pystruct (p : string) (a : function_attrs) : function_attrs :=
  FunctionAttrs (fn_function_name a) (fn_module a) (fn_wrapper_base_name a) (fn_docstring a)
    (Some p) (fn_template_parameters a) (fn_custom_name a)
    (fn_mangled_name a) (fn_foreign_cpp_namespace a) (fn_throw a) (fn_custodians_and_wards a).

(** A function takes the instance as its first parameter. *)
Definition function_as_method (i : nat) (c : cpp_class) (f : function) : res function :=
  match fw_parameters (wo_base f) with
  | [] => Raise IndexError
  | p :: ps =>
      match param_class p with
      | None => Raise AssertionError
      | Some (_, n) =>
          if negb (Nat.eqb n i) then Raise AssertionError
          else
            m <-? (match cl_module c with None => Raise AttributeError | Some m => Ok m end) ;;
            pystruct <-? class_pystruct c ;;
            Ok (Obj (set_force PARSE_TUPLE_AND_KEYWORDS
                       (set_parameters (take_value_from_self p :: ps) (wo_base f)))
                  (set_self_pystruct pystruct (Function_set_module m (wo_attrs f))) (wo_world f))
      end
  end.
(** [method.class_ = self] *)
Definition method_of_class (cs : classes) (i : nat) (m : method) : res method :=
  a <-? set_class (views cs) i (wo_attrs m) ;; Ok (Obj (wo_base m) a (wo_world m)).
Definition as_member (cs : classes) (i : nat) (c : cpp_class) (w : class_wrapper)
    : res (string * class_wrapper) :=
  match w with
  | MethodWrapper m => m <-? method_of_class cs i m ;; Ok (cm_mangled_name (wo_attrs m), MethodWrapper m)
  | CustomMethod m b => m <-? method_of_class cs i m ;; Ok (cm_mangled_name (wo_attrs m), CustomMethod m b)
  | FunctionMethod f =>
      f <-? function_as_method i c f ;; Ok (str_opt (fn_custom_name (wo_attrs f)), FunctionMethod f)
  end.

Definition member_visibility (w : class_wrapper) : string :=
  match as_method w with Some m => cm_visibility (wo_attrs m) | None => "public" end.
Definition member_is_virtual (w : class_wrapper) : bool :=
  match as_method w with Some m => cm_is_virtual (wo_attrs m) | None => false end.
Definition map_base (f : forward_wrapper -> forward_wrapper) (w : class_wrapper) : class_wrapper :=
  match w with
  | MethodWrapper m => MethodWrapper (set_base f m)
  | CustomMethod m b => CustomMethod (set_base f m) b
  | FunctionMethod o => FunctionMethod (set_base f o)
  end.

Definition add_wrapper (w : class_wrapper) (o : overloaded (list class_wrapper)) : overloaded (list class_wrapper) :=
  Overloaded (ov_world o ++ [w]) (ov_wrappers o ++ [length (ov_world o)]) (ov_all_wrappers o)
    (ov_wrapper_actual_name o) (ov_wrapper_return o) (ov_wrapper_args o) (ov_pystruct o).
(** "needs special handling" *)
Definition callable_form (name : string) (w : class_wrapper) : class_wrapper :=
  if String.eqb name "__call__" then map_base (set_force PARSE_TUPLE_AND_KEYWORDS) w else w.
(** The method joins the overloaded wrapper of its name. *)
Definition overload_method (name : string) (w : class_wrapper) (c : cpp_class) : res cpp_class :=
  let w := callable_form name w in
  let methods := mb_methods (cl_members c) in
  o <-? (match methods !! name with
         | Some o => Ok o
         | None => p <-? class_pystruct c ;; Ok (Overloaded [] [] None None None None p)
         end) ;;
  Ok (on_members (set_methods (<[name := add_wrapper w o]> methods)) c).

(** Where a method goes, by its visibility. *)
Definition place_method (i : nat) (name : string) (w : class_wrapper) : ST state unit :=
  if String.eqb (member_visibility w) "protected" && negb (member_is_virtual w) then
    match as_method w with
    | None => st_ret tt
    | Some m => with_helper i (fun vs =>
                  add_parent_caller_of g vs no_kwargs new_param new_return on_error m)
    end
  else if String.eqb (member_visibility w) "public" then
    c <- on_fst (the_cpp_class i) ;;
    c' <- st_lift (overload_method name w c) ;;
    on_fst (update_class i (fun _ => c'))
  else on_fst (update_class i (on_members (add_nonpublic w))).

(** "this is a very important fact that needs to be recorded in the class" *)
Definition record_virtual (i : nat) (m : method) (is_dummy : bool) : ST state unit :=
  on_fst (update_class i (on_status (with_pure_virtual None))) ;;;
  with_helper i (fun vs => add_virtual_method g vs no_kwargs new_param new_return on_error m is_dummy).

Definition add_method_obj (i : nat) (w : class_wrapper) : ST state unit :=
  cs <- st_get fst ;;
  c <- on_fst (the_cpp_class i) ;;
  member <- st_lift (as_member cs i c w) ;;
  place_method i member.1 member.2 ;;;
  match as_method member.2 with
  | Some m => st_when (cm_is_virtual (wo_attrs m)) (record_virtual i m false)
  | None => st_ret tt
  end.

(** ** [add_method] and the like *)

(** A wrapper that is skipped at its construction adds nothing. *)
Definition unless_skipping {B} (r : res B) (k : B -> ST state unit) : ST state unit :=
  match r with
  | Ok b => k b
  | Raise SkipWrapper => st_ret tt
  | Raise e => st_raise e
  end.

(** A virtual method that cannot be wrapped is recorded; a helper class that would
    have to implement it is given up. *)
Definition give_up_helper (i : nat) : ST state unit :=
  c <- on_fst (the_cpp_class i) ;;
  match cl_helper_class c with
  | Some h => st_when (he_cannot_be_constructed h)
                (on_fst (update_class i (fun c => on_status (with_helper_disabled true) (set_helper None c))))
  | None => st_ret tt
  end.
Definition add_dummy_method (i : nat) (m : method) : ST state unit :=
  cs <- st_get fst ;;
  m <- st_lift (method_of_class cs i m) ;;
  on_fst (update_class i (on_members (add_dummy m))) ;;;
  on_fst (update_class i (on_status (with_pure_virtual None))) ;;;
  h <- get_helper_class i ;;
  match h with
  | None => st_ret tt
  | Some _ =>
      on_helper i (fun vs => add_virtual_method g vs no_kwargs new_param new_return on_error m true) ;;;
      give_up_helper i
  end.

(** A method object with an optional new name, or what [CppMethod] and
    [CppDummyMethod] make of the arguments. *)
Inductive method_arg : Type :=
  | MethodObject (m : method) (custom_name : option (option string))
  | FunctionObject (f : function) (custom_name : option (option string))
  | MethodArguments (constructed : res method) (is_virtual : bool) (dummy : res method).

Definition rename_method (name : option (option string)) (m : method) : method :=
  match name with Some n => Obj (wo_base m) (set_custom_name n (wo_attrs m)) (wo_world m) | None => m end.
Definition rename_function (name : option (option string)) (f : function) : function :=
  match name with
  | Some n =>
      let a := wo_attrs f in
      Obj (wo_base f)
        (FunctionAttrs (fn_function_name a) (fn_module a) (fn_wrapper_base_name a) (fn_docstring a)
           (fn_self_parameter_pystruct a) (fn_template_parameters a) n
           (fn_mangled_name a) (fn_foreign_cpp_namespace a) (fn_throw a) (fn_custodians_and_wards a))
        (wo_world f)
  | None => f
  end.

Definition add_method (i : nat) (arg : method_arg) : ST state unit :=
  match arg with
  | MethodObject m name => add_method_obj i (MethodWrapper (rename_method name m))
  | FunctionObject f name => add_method_obj i (FunctionMethod (rename_function name f))
  | MethodArguments constructed is_virtual dummy =>
      match constructed with
      | Ok m => add_method_obj i (MethodWrapper m)
      | Raise SkipWrapper =>
          if is_virtual then m <- st_lift dummy ;; add_dummy_method i m else st_ret tt
      | Raise e => st_raise e
      end
  end.
Definition add_function_as_method (i : nat) (f : res function) : ST state unit :=
  unless_skipping f (fun f => add_method_obj i (FunctionMethod f)).
Definition add_custom_method_wrapper (i : nat) (m : res (method * option string)) : ST state unit :=
  unless_skipping m (fun m => add_method_obj i (CustomMethod m.1 m.2)).

Definition set_helper_class_disabled (i : nat) (flag : bool) : ST state unit :=
  on_fst (update_class i (fun c => on_status (with_helper_disabled flag)
                                     (if flag then set_helper None c else c))).
Definition set_cannot_be_constructed (i : nat) (reason : string) : ST state unit :=
  on_fst (update_class i (on_status (with_cannot_be_constructed reason))).
Definition add_helper_class_hook (i : nat) (hook : A) : ST state unit :=
  on_fst (update_class i (fun c => set_hooks (cl_helper_class_hooks c ++ [hook]) c)).
Definition set_instance_creation_function (i : nat) (f : creation_function) : ST state unit :=
  on_fst (update_class i (fun c => set_creation (Some f) (cl_post_instance_creation c) c)).
Definition set_post_instance_creation_function (i : nat) (f : creation_function) : ST state unit :=
  on_fst (update_class i (fun c => set_creation (cl_instance_creation c) (Some f) c)).

(** [_inherit_helper_class_parent_virtuals]: clones of the virtual methods of the
    ancestors *)
Definition inherit_virtual (i : nat) (w : class_wrapper) : ST state unit :=
  match as_method w with
  | None => st_ret tt
  | Some m =>
      st_when (cm_is_virtual (wo_attrs m))
        (clone <- st_lift (CppMethod_clone g no_kwargs new_param new_return on_error m) ;;
         on_helper i (fun vs => add_virtual_method g vs no_kwargs new_param new_return on_error clone false))
  end.
Definition inherit_from (i n : nat) : ST state unit :=
  c <- on_fst (the_cpp_class n) ;;
  st_iter (inherit_virtual i) (get_all_methods c).
Definition inherit_helper_class_parent_virtuals (i : nat) : ST state unit :=
  cs <- st_get fst ;;
  mro <- st_lift (get_mro cs i) ;;
  st_iter (inherit_from i) (tail mro).

(** ** Constructors *)

(** [isinstance(p, (CppClassRefParameter, CppClassParameter)) and p.cpp_class is self] *)
Definition takes_instance (i : nat) (p : param_handler) : bool :=
  match param_class p with
  | Some (CppClassPtrParameter, _) | None => false
  | Some (_, n) => Nat.eqb n i
  end.
Definition is_copy_constructor (i : nat) (k : constructor) : bool :=
  match fw_parameters (wo_base k) with
  | [p] => takes_instance i p && String.eqb (cc_visibility (wo_attrs k)) "public"
  | _ => false
  end.
Definition add_constructor_obj (i : nat) (k : constructor) : ST state unit :=
  cs <- st_get fst ;;
  a <- st_lift (set_constructor_class (views cs) i (wo_attrs k)) ;;
  let k := Obj (wo_base k) a (wo_world k) in
  on_fst (update_class i (fun c =>
    on_status (with_constructor_kinds (bool_decide (fw_parameters (wo_base k) = [])) (is_copy_constructor i k))
      (on_members (append_constructor k) c))).

Definition add_constructor (i : nat) (k : res constructor) : ST state unit :=
  unless_skipping k (add_constructor_obj i).
Definition new_constructor (ps : list param_handler) (visibility : string) : res constructor :=
  (CppConstructor_init g no_kwargs new_param on_error (map (Handler _) ps) None visibility (VBool false) []
     empty_world).2.

(** The parameter of the copy constructor, of the type [const Class &]. *)
Definition copy_parameter (cs : classes) (i : nat) (c : cpp_class) : res param_handler :=
  let K := handler_class_of view_of_helper make_registry cs i c in
  p <-? CppClassRefParameter_init K (CString ("const " +:+ str_opt (nm_full_name (cl_names c)) +:+ " &"))
          "ctor_arg" DIRECTION_IN false VNone VNone ;;
  Ok (class_param_handler K 0 p).
Definition add_copy_constructor (i : nat) : ST state unit :=
  cs <- st_get fst ;;
  c <- on_fst (the_cpp_class i) ;;
  p <- st_lift (copy_parameter cs i c) ;;
  add_constructor i (new_constructor [p] "public").

Definition add_output_stream_operator (i : nat) : ST state unit :=
  on_fst (update_class i (on_status with_output_stream)) ;;;
  c <- on_fst (the_cpp_class i) ;;
  match cl_module c with
  | None => st_raise AttributeError
  | Some m => on_snd (add_include m "<ostream>") ;;; on_snd (add_include m "<sstream>")
  end.

(** [inherit_default_constructors]: a copy constructor of a base cannot be inherited,
    since the class of its parameter is called without arguments. *)
Definition inherit_constructor (i : nat) (parent : option nat) (k : constructor) : ST state unit :=
  match fw_parameters (wo_base k) with
  | [] => add_constructor i (new_constructor [] (cc_visibility (wo_attrs k)))
  | [p] => match param_class p with
           | Some (CppClassRefParameter, n) => st_when (bool_decide (Some n = parent)) (st_raise TypeError)
           | _ => st_ret tt
           end
  | _ => st_ret tt
  end.
Definition inherit_constructors_of (i : nat) (parent : option nat) (n : nat) : ST state unit :=
  c <- on_fst (the_cpp_class n) ;;
  st_iter (inherit_constructor i parent) (mb_constructors (cl_members c)).
Definition inherit_default_constructors (i : nat) : ST state unit :=
  c <- on_fst (the_cpp_class i) ;;
  st_iter (inherit_constructors_of i (cl_parent c)) (cl_bases c).
End members.

(** ** Well-formed members *)

Section well_formed.
Context {A M K : Type} (g : settings) (make_registry : string -> wrapper_registry)
  (add_include : module_view -> string -> ST M unit) (no_kwargs : K)
  (new_param : list (@spec_item pyval K) -> K -> ST world param_handler)
  (new_return : list (@spec_item pyval K) -> K -> ST world return_handler)
  (on_error : error_handler world) {dict_order : DictOrder}
  (param_class : param_handler -> option (class_param_kind * nat))
  (take_value_from_self : param_handler -> param_handler).
Local Abbreviation cpp_class := (class_object A).
Local Abbreviation classes := (list cpp_class).
Local Abbreviation state := (classes * M)%type.

(** A method of the class at a position, under a name. *)
Definition member_ok (i : nat) (name : string) (w : class_wrapper) : Prop :=
  match w with
  | MethodWrapper m | CustomMethod m _ =>
      cm_mangled_name (wo_attrs m) = name /\ cm_class (wo_attrs m) = Some i
  | FunctionMethod f =>
      str_opt (fn_custom_name (wo_attrs f)) = name
      /\ is_Some (fn_self_parameter_pystruct (wo_attrs f))
      /\ fw_force_parse (wo_base f) = Some PARSE_TUPLE_AND_KEYWORDS
  end.
Record overload_ok (i : nat) (name : string) (o : overloaded (list class_wrapper)) : Prop := {
  oo_numbers : ov_wrappers o = seq 0 (length (ov_world o));
  oo_members : Forall (fun w => member_ok i name w /\ member_visibility w = "public") (ov_world o)
}.
Record members_ok (i : nat) (c : cpp_class) : Prop := {
  mo_public : map_Forall (overload_ok i) (mb_methods (cl_members c));
  mo_nonpublic : Forall (fun w => member_visibility w <> "public") (mb_nonpublic_methods (cl_members c));
  mo_helper : forall h, cl_helper_class c = Some h -> helper_ok h
}.
Definition all_members_ok (cs : classes) : Prop := forall i c, cs !! i = Some c -> members_ok i c.

(** What a class has stays: the overload sets are only extended at their ends, and
    so are the other lists of members. *)
Record stays (c c' : cpp_class) : Prop := {
  sy_public : forall name o, mb_methods (cl_members c) !! name = Some o ->
    exists o', mb_methods (cl_members c') !! name = Some o' /\ ov_world o `prefix_of` ov_world o';
  sy_nonpublic : mb_nonpublic_methods (cl_members c) `prefix_of` mb_nonpublic_methods (cl_members c');
  sy_dummy : mb_dummy_methods (cl_members c) `prefix_of` mb_dummy_methods (cl_members c');
  sy_constructors : mb_constructors (cl_members c) `prefix_of` mb_constructors (cl_members c')
}.
#[local] Instance stays_preorder : PreOrder stays.
Proof.
  split; [intros c; split; [intros name o Ho; by exists o|done..]|].
  intros c1 c2 c3 [P1 N1 D1 K1] [P2 N2 D2 K2]. split; [|by etrans..].
  intros name o Ho. destruct (P1 name o Ho) as (o1&Ho1&E1). destruct (P2 name o1 Ho1) as (o2&Ho2&E2).
  exists o2. split; [done|by etrans].
Qed.
Definition all_stay (cs cs' : classes) : Prop := Forall2 stays cs cs'.
#[local] Instance all_stay_preorder : PreOrder all_stay.
Proof.
  unfold all_stay. split; [intros cs; reflexivity|]. intros c1 c2 c3 H1 H2. by transitivity c2.
Qed.
Lemma same_members_stay c c' : cl_members c = cl_members c' -> stays c c'.
Proof. intros E. split; rewrite E; [intros name o Ho; by exists o|done..]. Qed.

Definition keeps_members (st st' : state) : Prop :=
  (all_members_ok st.1 -> all_members_ok st'.1) /\ all_stay st.1 st'.1.
#[local] Instance keeps_members_preorder : PreOrder keeps_members.
Proof.
  split; [intros st; by split|]. intros s1 s2 s3 [H1 G1] [H2 G2]. split; [auto|by transitivity s2.1].
Qed.

Lemma all_stay_insert (cs : classes) i c c' : cs !! i = Some c -> stays c c' -> all_stay cs (<[i := c']> cs).
Proof.
  intros Hc Hs. apply Forall2_same_length_lookup_2; [by rewrite length_insert|]. intros j d d' Hd Hd'.
  destruct (decide (i = j)) as [<-|Hij].
  - rewrite list_lookup_insert_eq in Hd' by by eapply lookup_lt_Some. injection Hd' as <-. by rewrite Hc in Hd; injection Hd as <-.
  - rewrite list_lookup_insert_ne in Hd' by done. by rewrite Hd in Hd'; injection Hd' as <-.
Qed.
Lemma members_update i (f : cpp_class -> cpp_class) (st : state) c :
  st.1 !! i = Some c -> (members_ok i c -> members_ok i (f c)) -> stays c (f c) ->
  keeps_members st (on_fst (update_class i f) st).1.
Proof.
  intros Hc Hf Hs. unfold on_fst, update_class, the_cpp_class, st_bind, st_modify. rewrite Hc. cbn.
  split; [|by eapply all_stay_insert]. intros Hst j d Hj. cbn in Hj. destruct (decide (i = j)) as [<-|Hij].
  - rewrite list_lookup_insert_eq in Hj by by eapply lookup_lt_Some. injection Hj as <-. by apply Hf, Hst.
  - rewrite list_lookup_insert_ne in Hj by done. by apply Hst.
Qed.
Lemma keeps_update_class i f :
  (forall c, members_ok i c -> members_ok i (f c)) -> (forall c, stays c (f c)) ->
  evolves keeps_members (on_fst (update_class i f)).
Proof.
  intros Hf Hs st. destruct (st.1 !! i) as [c|] eqn:E; [apply (members_update i f st c E); [apply Hf|apply Hs]|].
  unfold on_fst, update_class, the_cpp_class, st_bind. rewrite E. destruct st. by split.
Qed.
Lemma keeps_status i f : evolves keeps_members (on_fst (update_class i (on_status f))).
Proof. apply keeps_update_class; [intros c []; by split|by intros c; apply same_members_stay]. Qed.
Lemma keeps_the_cpp_class i : evolves keeps_members (on_fst (T:=M) (the_cpp_class (H:=cpp_helper_class) (A:=A) i)).
Proof. intros st. by destruct st. Qed.
Lemma keeps_include {B} (m : ST M B) : evolves keeps_members (on_snd (S:=classes) m).
Proof. intros [cs k]. unfold on_snd. cbn. by destruct (m k). Qed.

Lemma keeps_on_helper {B} i (m : list class_view -> ST cpp_helper_class B) :
  (forall vs, evolves keeps_ok (m vs)) -> evolves keeps_members (on_helper (M:=M) (A:=A) i m).
Proof.
  intros Hm st. unfold on_helper. destruct (st.1 !! i ≫= cl_helper_class) as [h|] eqn:E; [|reflexivity].
  specialize (Hm (views st.1) h). destruct (m (views st.1) h) as [h' r]. cbn in *.
  apply bind_Some in E as (c&Hc&Hh). split.
  - intros Hst j d. cbn. rewrite list_lookup_alter.
    destruct (decide (i = j)) as [<-|Hij]; [|by apply Hst]. rewrite Hc. intros [= <-].
    destruct (Hst _ _ Hc) as [H1 H2 H3]. split; [done|done|]. cbn. intros h0 [= <-]. by apply Hm, H3.
  - cbn. apply Forall2_same_length_lookup_2; [by rewrite length_alter|]. intros j d d' Hd. rewrite list_lookup_alter.
    destruct (decide (i = j)) as [<-|Hij]; rewrite Hd; intros [= <-]; [by apply same_members_stay|done].
Qed.

Local Ltac members_step :=
  match goal with
  | |- forall _, _ => intros ?
  | |- evolves _ (st_bind _ _) => apply evolves_bind; [exact _|..]
  | |- evolves _ (st_ret _) => apply evolves_ret; exact _
  | |- evolves _ (st_raise _) => apply evolves_raise; exact _
  | |- evolves _ (st_lift _) => apply evolves_lift; exact _
  | |- evolves _ (st_get _) => apply evolves_get; exact _
  | |- evolves _ (st_when _ _) => apply evolves_when; [exact _|]
  | |- evolves _ (st_iter _ _) => apply evolves_iter; [exact _|]
  | |- evolves _ (on_snd _) => apply keeps_include
  | |- evolves _ (on_fst (the_cpp_class _)) => apply keeps_the_cpp_class
  | |- evolves _ (on_fst (update_class _ (on_status _))) => apply keeps_status
  | |- evolves _ (on_helper _ _) => apply keeps_on_helper; intros ?
  | |- evolves keeps_ok (add_virtual_method _ _ _ _ _ _ _ _) => apply keeps_virtual_method
  | |- evolves keeps_ok (add_parent_caller_of _ _ _ _ _ _ _) =>
      apply (evolves_parent_caller _ _ _ _ _ _ keeps_ok); apply keeps_add_caller
  | |- evolves _ (if _ then _ else _) => apply evolves_if
  | |- evolves _ (match ?x with _ => _ end) => destruct x
  end.

Lemma keeps_new_helper i c : evolves keeps_members (new_helper_class (A:=A) add_include i c).
Proof.
  unfold new_helper_class. members_step; [members_step|]. intros p. members_step; [|repeat members_step].
  apply keeps_update_class; [|by intros d; apply same_members_stay].
  intros d [H1 H2 H3]. split; [done|done|]. cbn. intros h [= <-]. apply helper_ok_init.
Qed.
Lemma keeps_get_helper i : evolves keeps_members (get_helper_class (A:=A) add_include i).
Proof. unfold get_helper_class. repeat (members_step || apply keeps_new_helper). Qed.
Lemma keeps_with_helper i m :
  (forall vs, evolves keeps_ok (m vs)) -> evolves keeps_members (with_helper (A:=A) add_include i m).
Proof.
  intros Hm. unfold with_helper. members_step; [apply keeps_get_helper|]. intros [h|]; repeat members_step.
  apply Hm.
Qed.

(** What [as_member] makes of a wrapper belongs to the class. *)
Lemma as_member_ok cs i c w name w' :
  as_member (A:=A) param_class take_value_from_self cs i c w = Ok (name, w') -> member_ok i name w'.
Proof.
  assert (forall m m', method_of_class (A:=A) cs i m = Ok m' -> cm_class (wo_attrs m') = Some i) as Hm.
  { intros m m' E. unfold method_of_class, set_class in E. cbn in E.
    destruct (views cs !! i) as [v|]; cbn in E; [|discriminate].
    destruct (get_pystruct v); cbn in E; [|discriminate]. by injection E as <-. }
  destruct w as [m|m b|f]; cbn.
  - destruct (method_of_class cs i m) as [m'|] eqn:E; cbn; [|discriminate]. intros [= <- <-]. split; [done|by eapply Hm].
  - destruct (method_of_class cs i m) as [m'|] eqn:E; cbn; [|discriminate]. intros [= <- <-]. split; [done|by eapply Hm].
  - destruct (function_as_method (A:=A) param_class take_value_from_self i c f) as [f'|] eqn:E; cbn; [|discriminate].
    intros [= <- <-]. unfold function_as_method in E. destruct (fw_parameters (wo_base f)) as [|p ps]; [discriminate|].
    destruct (param_class p) as [[? n]|]; [|discriminate]. destruct (negb _); [discriminate|].
    destruct (cl_module c); cbn in E; [|discriminate]. destruct (class_pystruct c); cbn in E; [|discriminate].
    injection E as <-. split_and!; [done|by eexists|done].
Qed.

Lemma overload_method_ok i name w c c' :
  member_ok i name w -> member_visibility w = "public" -> members_ok i c ->
  overload_method (A:=A) name w c = Ok c' -> members_ok i c'.
Proof.
  intros Hw Hv [H1 H2 H3] E. unfold overload_method in E. set (w' := callable_form name w) in E.
  assert (member_ok i name w' /\ member_visibility w' = "public") as Hw'.
  { unfold w', callable_form. destruct (String.eqb _ _); [|done]. destruct w as [m|m b|f]; (split; [|exact Hv]); [exact Hw..|].
    destruct Hw as (?&?&?). by split_and!. }
  clearbody w'.
  assert (exists o, (match mb_methods (cl_members c) !! name with
           | Some o => Ok o
           | None => p <-? class_pystruct c ;; Ok (Overloaded [] [] None None None None p)
           end) = Ok o /\ overload_ok i name o) as (o&Eo&Ho).
  { destruct (mb_methods (cl_members c) !! name) as [o|] eqn:El.
    - exists o. split; [done|]. exact (map_Forall_lookup_1 _ _ _ _ H1 El).
    - destruct (class_pystruct c) as [p|]; cbn in E; [|discriminate]. cbn. eexists. split; [done|]. by split. }
  rewrite Eo in E. cbn in E. injection E as <-. split; [|done|done]. cbn.
  apply map_Forall_insert_2; [|done]. destruct Ho as [O1 O2]. split; cbn.
  - by rewrite O1, length_app, Nat.add_1_r, seq_S.
  - apply Forall_app. split; [exact O2|]. by apply List.Forall_cons; [|apply List.Forall_nil].
Qed.

(** The overload set of a name, as a list. *)
Definition methods_named (c : cpp_class) (name : string) : list class_wrapper :=
  match mb_methods (cl_members c) !! name with Some o => ov_world o | None => [] end.
Lemma overload_method_adds name w c c' :
  overload_method (A:=A) name w c = Ok c' ->
  stays c c' /\ is_Some (mb_methods (cl_members c') !! name)
  /\ methods_named c' name = methods_named c name ++ [callable_form name w].
Proof.
  unfold overload_method, methods_named.
  destruct (mb_methods (cl_members c) !! name) as [o|] eqn:E;
    [|destruct (class_pystruct c) as [p|]; [|done]]; cbn; intros [= <-]; cbn;
    rewrite lookup_insert_eq; (split; [|by split]).
  all: split; cbn; [|done..]; intros name' o' Ho'; destruct (decide (name = name')) as [<-|Hn];
    [|rewrite lookup_insert_ne by done; by exists o'].
  - rewrite lookup_insert_eq. eexists. split; [reflexivity|]. rewrite E in Ho'. injection Ho' as <-. cbn. by eexists.
  - congruence.
Qed.

Lemma keeps_place i name w :
  member_ok i name w ->
  evolves keeps_members (place_method (A:=A) g add_include no_kwargs new_param new_return on_error i name w).
Proof.
  intros Hw. unfold place_method. destruct (_ && _).
  { destruct (as_method w); [|apply evolves_ret; exact _]. apply keeps_with_helper. repeat members_step. }
  destruct (String.eqb_spec (member_visibility w) "public") as [Hv|Hv].
  - intros st. unfold st_bind at 1, on_fst at 1, the_cpp_class. destruct st as [cs k]. cbn [fst snd]. destruct (cs !! i) as [c|] eqn:Hc; [|reflexivity].
    cbn [fst snd]. unfold st_bind, st_lift. destruct (overload_method name w c) as [c'|] eqn:E; [|reflexivity].
    apply (members_update i (fun _ => c') (cs, k) c Hc).
    + intros Hok. by eapply overload_method_ok.
    + by eapply overload_method_adds.
  - apply keeps_update_class.
    + intros c [H1 H2 H3]. split; [done| |done]. cbn. apply Forall_app.
      split; [done|]. by apply List.Forall_cons; [|apply List.Forall_nil].
    + intros c. split; cbn; [intros n o Ho; by exists o|by eexists|done..].
Qed.

Lemma keeps_record i m :
  evolves keeps_members (record_virtual (A:=A) g add_include no_kwargs new_param new_return on_error i m false).
Proof. unfold record_virtual. members_step; [members_step|]. intros _. apply keeps_with_helper. repeat members_step. Qed.
Lemma keeps_recorded i (o : option method) :
  evolves keeps_members (match o with
    | Some m => st_when (cm_is_virtual (wo_attrs m))
        (record_virtual (A:=A) g add_include no_kwargs new_param new_return on_error i m false)
    | None => st_ret tt
    end).
Proof. destruct o; [|apply evolves_ret; exact _]. members_step. apply keeps_record. Qed.
Lemma keeps_add_method_obj i w :
  evolves keeps_members (add_method_obj (A:=A) g add_include no_kwargs new_param new_return on_error
    param_class take_value_from_self i w).
Proof.
  intros [cs m]. unfold add_method_obj. unfold st_bind at 1, st_get at 1. unfold st_bind at 1, on_fst at 1, the_cpp_class.
  cbn [fst snd]. destruct (cs !! i) as [c|]; [|reflexivity]. cbn [fst snd]. unfold st_bind at 1, st_lift.
  destruct (as_member _ _ cs i c w) as [[name w']|] eqn:E; [|reflexivity]. apply as_member_ok in E.
  refine (evolves_bind _ _ _ _ _ _); [by apply keeps_place|]. intros _.
  apply (keeps_recorded i (as_method w')).
Qed.

(** A method object that was added is at the end of what its class had of its
    kind, whatever is recorded about it afterwards. *)
Lemma added_method i w (st st' : state) c name w' :
  add_method_obj (A:=A) g add_include no_kwargs new_param new_return on_error
    param_class take_value_from_self i w st = (st', Ok tt) ->
  st.1 !! i = Some c ->
  as_member (A:=A) param_class take_value_from_self st.1 i c w = Ok (name, w') ->
  exists c', st'.1 !! i = Some c'
    /\ (member_visibility w' = "public" ->
         methods_named c name ++ [callable_form name w'] `prefix_of` methods_named c' name)
    /\ (member_visibility w' <> "public" ->
         String.eqb (member_visibility w') "protected" && negb (member_is_virtual w') = false ->
         mb_nonpublic_methods (cl_members c) ++ [w'] `prefix_of` mb_nonpublic_methods (cl_members c')).
Proof.
  destruct st as [cs m]. intros E Hc Ew. cbn in Hc, Ew. revert E. unfold add_method_obj, on_fst, the_cpp_class.
  unfold st_bind at 1, st_get at 1. unfold st_bind at 1. cbn [fst snd]. rewrite Hc. cbn [fst snd].
  unfold st_bind at 1, st_lift. rewrite Ew. cbn [fst snd]. intros (s1&[]&E1&E2)%st_bind_Ok.
  assert (keeps_members s1 st') as [_ G].
  { pose proof (keeps_recorded i (as_method w') s1) as Hr. cbn [snd] in E2. by rewrite E2 in Hr. }
  assert (forall c1, s1.1 !! i = Some c1 -> exists c', st'.1 !! i = Some c' /\ stays c1 c') as Hlook.
  { intros c1 Hc1. destruct (Forall2_lookup_l _ _ _ _ _ G Hc1) as (c'&Hc'&Hs). by exists c'. }
  revert E1. unfold place_method. destruct (_ && _) eqn:Eb.
  { intros E1. assert (keeps_members (cs, m) s1) as [_ G1].
    { destruct (as_method w') as [d|]; [|by injection E1 as <-].
      assert (evolves keeps_members (with_helper (A:=A) add_include i (fun vs =>
        add_parent_caller_of g vs no_kwargs new_param new_return on_error d))) as Hk
        by (apply keeps_with_helper; repeat members_step).
      specialize (Hk (cs, m)). by rewrite E1 in Hk. }
    destruct (Forall2_lookup_l _ _ _ _ _ G1 Hc) as (c1&Hc1&_). destruct (Hlook c1 Hc1) as (c'&Hc'&_).
    exists c'. split_and!; [done| |done]. intros Hp. rewrite Hp in Eb. discriminate. }
  destruct (String.eqb_spec (member_visibility w') "public") as [Hv|Hv].
  - unfold on_fst, the_cpp_class, update_class, st_bind, st_lift, st_modify. cbn [fst snd]. rewrite Hc. cbn [fst snd].
    destruct (overload_method name w' c) as [c1|] eqn:Eo; [|done]. cbn. rewrite Hc. cbn. intros [= <-].
    destruct (overload_method_adds _ _ _ _ Eo) as (_&[o Ho]&Em).
    destruct (Hlook c1) as (c'&Hc'&Hs); [by apply list_lookup_insert_eq; eapply lookup_lt_Some|].
    exists c'. split_and!; [done| |done]. intros _. rewrite <- Em. unfold methods_named. rewrite Ho.
    destruct (sy_public _ _ Hs _ _ Ho) as (o'&Ho'&Hp). by rewrite Ho'.
  - unfold on_fst, the_cpp_class, update_class, st_bind, st_modify. cbn. rewrite Hc. cbn. intros [= <-].
    destruct (Hlook (on_members (add_nonpublic w') c)) as (c'&Hc'&Hs);
      [by apply list_lookup_insert_eq; eapply lookup_lt_Some|].
    exists c'. split_and!; [done|done|]. intros _ _. exact (sy_nonpublic _ _ Hs).
Qed.

Local Ltac class_step :=
  apply keeps_update_class;
  [ intros ? [? ? ?]; split; cbn; try assumption; try (intros ? [=])
  | intros ?; first [by apply same_members_stay
                    | split; cbn; [intros ? ? ?; by eexists|first [done|by eexists]..]] ].
Local Ltac members := repeat (members_step || apply keeps_get_helper || class_step).

Lemma keeps_dummy i d :
  evolves keeps_members (add_dummy_method (A:=A) g add_include no_kwargs new_param new_return on_error i d).
Proof. unfold add_dummy_method, give_up_helper. members. Qed.
Lemma keeps_add_method i arg :
  evolves keeps_members (add_method (A:=A) g add_include no_kwargs new_param new_return on_error
    param_class take_value_from_self i arg).
Proof.
  unfold add_method. destruct arg as [m n|f n|[m|e] v d]; [apply keeps_add_method_obj..|].
  destruct e; try (apply evolves_raise; exact _). members. apply keeps_dummy.
Qed.
Lemma keeps_unless_skipping {B} (r : res B) (k : B -> ST state unit) :
  (forall b, evolves keeps_members (k b)) -> evolves keeps_members (unless_skipping r k).
Proof. intros Hk. destruct r as [b|e]; [apply Hk|]. destruct e; cbn; members. Qed.
Lemma keeps_constructor i k : evolves keeps_members (add_constructor (M:=M) (A:=A) param_class i k).
Proof. apply keeps_unless_skipping. intros c. unfold add_constructor_obj. members. Qed.
Lemma keeps_copy_constructor i :
  evolves keeps_members (add_copy_constructor (M:=M) (A:=A) g make_registry no_kwargs new_param on_error param_class i).
Proof. unfold add_copy_constructor. members. apply keeps_constructor. Qed.
Lemma keeps_inherit_constructors i :
  evolves keeps_members (inherit_default_constructors (M:=M) (A:=A) g no_kwargs new_param on_error param_class i).
Proof.
  unfold inherit_default_constructors, inherit_constructors_of, inherit_constructor.
  repeat (apply keeps_constructor || members_step).
Qed.
Lemma keeps_inherit_virtuals i :
  evolves keeps_members (inherit_helper_class_parent_virtuals (M:=M) (A:=A) g no_kwargs new_param new_return on_error i).
Proof. unfold inherit_helper_class_parent_virtuals, inherit_from, inherit_virtual. members. Qed.

(** C14: Well-formed members.  Every operation that adds to classes, whether it succeeds or raises,
    leaves all classes with public methods only in their overloaded methods, each
    under its own name and set up for its class, no public ones among the others,
    and well-formed helper classes.  Nothing that was there is lost: the overload
    sets, the other methods and the constructors are only extended at their ends.
    A method object that is added is in the class afterwards, after what the
    class had before: in the overload set of its name when it is public, and among
    the other methods when it is private or protected and virtual. *)
Theorem members_invariant (i : nat) :
  all_members_ok []
  /\ (forall cs config, all_members_ok cs -> all_members_ok (cs ++ [new_class config]))
  /\ (forall arg, evolves keeps_members (add_method (A:=A) g add_include no_kwargs new_param new_return on_error
        param_class take_value_from_self i arg))
  /\ (forall f, evolves keeps_members (add_function_as_method (A:=A) g add_include no_kwargs new_param new_return
        on_error param_class take_value_from_self i f))
  /\ (forall m, evolves keeps_members (add_custom_method_wrapper (A:=A) g add_include no_kwargs new_param
        new_return on_error param_class take_value_from_self i m))
  /\ (forall flag, evolves keeps_members (set_helper_class_disabled (A:=A) (M:=M) i flag))
  /\ (forall k, evolves keeps_members (add_constructor (M:=M) (A:=A) param_class i k))
  /\ evolves keeps_members (add_copy_constructor (M:=M) (A:=A) g make_registry no_kwargs new_param on_error
       param_class i)
  /\ evolves keeps_members (inherit_default_constructors (M:=M) (A:=A) g no_kwargs new_param on_error
       param_class i)
  /\ evolves keeps_members (inherit_helper_class_parent_virtuals (M:=M) (A:=A) g no_kwargs new_param new_return
       on_error i)
  /\ evolves keeps_members (get_helper_class (A:=A) add_include i)
  /\ forall w st st' c name w',
       add_method_obj (A:=A) g add_include no_kwargs new_param new_return on_error
         param_class take_value_from_self i w st = (st', Ok tt) ->
       st.1 !! i = Some c ->
       as_member (A:=A) param_class take_value_from_self st.1 i c w = Ok (name, w') ->
       exists c', st'.1 !! i = Some c'
         /\ (member_visibility w' = "public" ->
              methods_named c name ++ [callable_form name w'] `prefix_of` methods_named c' name)
         /\ (member_visibility w' <> "public" ->
              String.eqb (member_visibility w') "protected" && negb (member_is_virtual w') = false ->
              mb_nonpublic_methods (cl_members c) ++ [w'] `prefix_of` mb_nonpublic_methods (cl_members c')).
Proof.
  split_and!.
  - intros j c. by rewrite lookup_nil.
  - intros cs config Hcs j c [Hj|[_ Hj]]%lookup_app_Some; [by apply Hcs|].
    apply list_lookup_singleton_Some in Hj as [_ <-].
    split; cbn; [apply map_Forall_empty | constructor | by intros h [=]].
  - apply keeps_add_method.
  - intros f. apply keeps_unless_skipping. intros. apply keeps_add_method_obj.
  - intros m. apply keeps_unless_skipping. intros. apply keeps_add_method_obj.
  - intros flag. apply keeps_update_class; [|by intros c; destruct flag; apply same_members_stay].
    intros c [H1 H2 H3]. destruct flag; (split; [exact H1 | exact H2 |]); [by intros h [=] | exact H3].
  - apply keeps_constructor.
  - apply keeps_copy_constructor.
  - apply keeps_inherit_constructors.
  - apply keeps_inherit_virtuals.
  - apply keeps_get_helper.
  - intros w st st' c name w'. apply added_method.
Qed.
End well_formed.
