(* ===== verification/ClassOperators.v ===== *)
(** * Operators of C++ classes

    The operators a [CppClass] of [pybindgen/cppclass.py] is given, and the code of
    its comparison, number and sequence methods. *)
From S2P Require Import Prelude.
From S2P Require Import Format.
From S2P Require Import CodeSink.
From S2P Require Import CodeBlock.
From S2P Require Import Wrapper.
From S2P Require Import CTypeParser.
From S2P Require Import TypeHandler.
From S2P Require Import Utils.
From S2P Require Import Settings.
From S2P Require Import CppException.
From S2P Require Import Overloading.
From S2P Require Import PyTypeObject.
From S2P Require Import WrapperObject.
From S2P Require Import CppMethod.
From S2P Require Import ClassModel.

(** ** Adding operators *)

Definition comparison_operators : list string := ["=="; "!="; "<"; "<="; ">"; ">="].
Definition binary_operators : list string := ["+"; "-"; "*"; "/"].
Definition inplace_operators : list string := ["+="; "-="; "*="; "/="].
Definition unary_operators : list string := ["-"].

(** [operator = utils.ascii(operator)] and the checks that follow. *)
Definition valid_operator (allowed : list string) (operator : text_value) : res string :=
  op <-? ascii_of_value operator ;;
  match op with
  | None => Raise TypeError
  | Some s => if bool_decide (s ∈ allowed) then Ok s else Raise ValueError
  end.

(** The [right] argument: omitted, a class, or a parameter or its specification. *)
Inductive right_arg {K : Type} : Type :=
  | NoRight
  | RightClass (n : nat)
  | RightSpec (s : spec (A:=pyval) (K:=K) (nat * type_traits)).
Arguments right_arg K : clear implicits.

Section adding.
Context {H A K S : Type} (no_kwargs : K)
  (new_param : list (spec_item (A:=pyval) (K:=K)) -> K -> ST S (nat * type_traits))
  (on_error : error_handler S).
Local Abbreviation cpp_class := (cpp_class H A).
Local Abbreviation classes := (list cpp_class).

Definition set_operators (o : class_operators) (c : cpp_class) : cpp_class :=
  CppClass H A (cl_config c) (cl_module c) (cl_names c) (cl_members c) (cl_status c) o
    (cl_helper_class c) (cl_helper_class_hooks c) (cl_instance_creation c)
    (cl_post_instance_creation c) (cl_implicitly_converts_from c) (cl_slots c).
Definition modify_operators (i : nat) (f : class_operators -> class_operators) : ST classes unit :=
  update_class i (fun c => set_operators (f (cl_operators c)) c).

(** [l = self.operators[operator]], a new list if there is none *)
Definition operator_list {B} (l : gmap string (list B)) (op : string) : list B := default [] (l !! op).

Definition on_binary (f : gmap string (list (nat * nat * operand)) -> gmap string (list (nat * nat * operand)))
    (o : class_operators) : class_operators :=
  ClassOperators (op_comparison o) (f (op_binary o)) (op_inplace o) (op_unary o).
Definition on_inplace (f : gmap string (list (nat * nat * operand)) -> gmap string (list (nat * nat * operand)))
    (o : class_operators) : class_operators :=
  ClassOperators (op_comparison o) (op_binary o) (f (op_inplace o)) (op_unary o).
Definition on_unary (f : gmap string (list (nat * nat)) -> gmap string (list (nat * nat)))
    (o : class_operators) : class_operators :=
  ClassOperators (op_comparison o) (op_binary o) (op_inplace o) (f (op_unary o)).
Definition add_type {B} (op : string) (t : B) (l : gmap string (list B)) : gmap string (list B) :=
  <[op := operator_list l op ++ [t]]> l.
Definition touch {B} (op : string) (l : gmap string (list B)) : gmap string (list B) :=
  <[op := operator_list l op]> l.

Definition add_binary_comparison_operator (i : nat) (operator : text_value) : ST classes unit :=
  op <- st_lift (valid_operator comparison_operators operator) ;;
  modify_operators i (fun o =>
    ClassOperators ({[op]} ∪ op_comparison o) (op_binary o) (op_inplace o) (op_unary o)).

Definition same_types (a b : nat * nat * operand) : bool :=
  Nat.eqb a.1.1 b.1.1 && Nat.eqb a.1.2 b.1.2 && same_operand a.2 b.2.

(** A string names the type of a parameter called "right". *)
Definition as_param_spec (s : spec (A:=pyval) (K:=K) (nat * type_traits))
    : spec (A:=pyval) (K:=K) (nat * type_traits) :=
  match s with Str _ a => param [Arg a; Arg (VStr "right")] no_kwargs | _ => s end.
(** [utils.eval_param], [None] if the parameter is skipped *)
Definition eval_right (s : spec (A:=pyval) (K:=K) (nat * type_traits)) : ST (classes * S) (option operand) :=
  st_catch (p <- on_snd (eval_param new_param on_error no_kwargs (as_param_spec s)) ;;
            st_ret (Some (OperandParam p.1 p.2)))
    (fun e => match e with SkipWrapper => st_ret None | _ => st_raise e end).

Definition add_binary_numeric_operator (i : nat) (operator : text_value)
    (result_cppclass left_cppclass : option nat) (right : right_arg K) : ST (classes * S) unit :=
  op <- st_lift (valid_operator binary_operators operator) ;;
  on_fst (modify_operators i (on_binary (touch op))) ;;;
  rhs <- match right with
           | NoRight => st_ret (Some (OperandClass i))
           | RightClass n => st_ret (Some (OperandClass n))
           | RightSpec s => eval_right s
           end ;;
  match rhs with
  | None => st_ret tt
  | Some rhs =>
      let t := (default i result_cppclass, default i left_cppclass, rhs) in
      c <- on_fst (the_cpp_class i) ;;
      st_when (negb (existsb (same_types t) (operator_list (op_binary (cl_operators c)) op)))
        (on_fst (modify_operators i (on_binary (add_type op t))))
  end.

(** A class as the right operand is taken for a specification; and the operand is
    looked for in a list of triples, so that it is always added. *)
Definition add_inplace_numeric_operator (i : nat) (operator : text_value) (right : right_arg K)
    : ST (classes * S) unit :=
  op <- st_lift (valid_operator inplace_operators operator) ;;
  on_fst (modify_operators i (on_inplace (touch op))) ;;;
  rhs <- match right with
           | NoRight => st_ret (Some (OperandClass i))
           | RightClass _ => eval_right (OtherSpec _)
           | RightSpec s => eval_right s
           end ;;
  match rhs with
  | None => st_ret tt
  | Some rhs => on_fst (modify_operators i (on_inplace (add_type op (i, i, rhs))))
  end.

Definition add_unary_numeric_operator (i : nat) (operator : text_value)
    (result_cppclass left_cppclass : option nat) : ST classes unit :=
  op <- st_lift (valid_operator unary_operators operator) ;;
  modify_operators i (on_unary (touch op)) ;;;
  let t := (default i result_cppclass, default i left_cppclass) in
  c <- the_cpp_class i ;;
  st_when (negb (bool_decide (t ∈ operator_list (op_unary (cl_operators c)) op)))
    (modify_operators i (on_unary (add_type op t))).
End adding.

(** ** [_generate_tp_richcompare] *)

Section comparison.
Context {H A : Type}.

Definition opid_codes : list (string * string) :=
  [("<", "Py_LT"); ("<=", "Py_LE"); ("==", "Py_EQ"); ("!=", "Py_NE"); (">=", "Py_GE"); (">", "Py_GT")].

(** [wrap_operator] *)
Definition wrap_comparison (ops : gset string) (name opid_code : string) : list sink_op :=
  [OpWrite ("case " +:+ opid_code +:+ ":"); OpIndent 4;
   OpWrite (if bool_decide (name ∈ ops)
            then join nls ["if (*self->obj " +:+ name +:+ " *other->obj) {";
                           "    Py_INCREF(Py_True);";
                           "    return Py_True;";
                           "} else {";
                           "    Py_INCREF(Py_False);";
                           "    return Py_False;";
                           "}"]
            else join nls ["Py_INCREF(Py_NotImplemented);"; "return Py_NotImplemented;"]);
   OpUnindent].
Definition richcompare_ops (function_name pystruct pytypestruct : string) (ops : gset string)
    : list sink_op :=
  [OpWrite ("static PyObject*" +:+ nls +:+ function_name +:+ " (" +:+ pystruct
            +:+ " *PYBINDGEN_UNUSED(self), " +:+ pystruct +:+ " *other, int opid)");
   OpWrite "{"; OpIndent 4;
   OpWrite (join nls [EmptyString;
     "if (!PyObject_IsInstance((PyObject*) other, (PyObject*) &" +:+ pytypestruct +:+ ")) {";
     "    Py_INCREF(Py_NotImplemented);";
     "    return Py_NotImplemented;";
     "}"]);
   OpWrite ("switch (opid)" +:+ nls +:+ "{")]
  ++ flat_map (fun '(name, code) => wrap_comparison ops name code) opid_codes
  ++ [OpWrite "} /* closes switch (opid) */";
      OpWrite (join nls ["Py_INCREF(Py_NotImplemented);"; "return Py_NotImplemented;"]);
      OpUnindent; OpWrite ("}" +:+ nls)].

Definition richcompare_name (pystruct : string) : string := "_wrap_" +:+ pystruct +:+ "__tp_richcompare".
Definition generate_tp_richcompare (c : cpp_class H A) (k : code_sink) : res (string * code_sink) :=
  pystruct <-? class_pystruct c ;;
  k <-? run_ops k (richcompare_ops (richcompare_name pystruct) pystruct (nm_pytypestruct (cl_names c))
                     (op_comparison (cl_operators c))) ;;
  Ok (richcompare_name pystruct, k).
End comparison.

(** ** Number methods *)

(** The [right] operands are converted as values of their type. *)
Inductive converted : Type :=
  | ClassValue (n : nat)
  | ParamValue (t : type_traits).
Definition of_operand (o : operand) : converted :=
  match o with OperandClass n => ClassValue n | OperandParam _ t => ParamValue t end.

(** [_type_no_ref] *)
Definition type_no_ref (t : type_traits) : string :=
  if type_is_reference t then target_str t else show (tt_ctype_no_modifiers t).

Section numbers.
Context {H A S : Type} {dict_order : DictOrder}.
Local Abbreviation classes := (list (cpp_class H A)).

(** [generate_python_to_c_type_converter] and its converse of the root module, for
    the return value handler of a class or a type. *)
Context (python_to_c_converter c_to_python_converter : converted -> ST (S * code_sink) string).

Definition value_name (cs : classes) (v : converted) : res string :=
  match v with
  | ClassValue n => match cs !! n with
                    | None => Raise AttributeError
                    | Some c => Ok (str_opt (nm_full_name (cl_names c)))
                    end
  | ParamValue t => Ok (type_no_ref t)
  end.
Definition get_python_to_c_converter (cs : classes) (v : converted) : ST (S * code_sink) (string * string) :=
  converter <- python_to_c_converter v ;;
  name <- st_lift (value_name cs v) ;;
  st_ret (converter, name).
Definition get_c_to_python_converter (cs : classes) (v : converted) : ST (S * code_sink) (string * string) :=
  converter <- c_to_python_converter v ;;
  name <- st_lift (value_name cs v) ;;
  st_ret (converter, name).

(** "request generation of the convertion functions" before the wrappers *)
Definition request_binary (cs : classes) (t : nat * nat * operand) : ST (S * code_sink) unit :=
  get_c_to_python_converter cs (ClassValue t.1.1) ;;;
  get_python_to_c_converter cs (ClassValue t.1.2) ;;;
  get_python_to_c_converter cs (of_operand t.2) ;;; st_ret tt.
Definition request_inplace (cs : classes) (t : nat * nat * operand) : ST (S * code_sink) unit :=
  get_python_to_c_converter cs (ClassValue t.1.2) ;;;
  get_python_to_c_converter cs (of_operand t.2) ;;;
  get_c_to_python_converter cs (ClassValue t.1.1) ;;; st_ret tt.
Definition request_unary (cs : classes) (t : nat * nat) : ST (S * code_sink) unit :=
  get_c_to_python_converter cs (ClassValue t.1) ;;;
  get_python_to_c_converter cs (ClassValue t.2) ;;; st_ret tt.

(** A block that tries to convert the operands, and returns the result if it can. *)
Definition try_types (declarations : list (string * string)) (condition result return_ : string)
    : list sink_op :=
  [OpWrite "{"; OpIndent 4]
  ++ map (fun '(type_, var) => OpWrite (type_ +:+ " " +:+ var +:+ ";")) declarations
  ++ [OpWrite ("if (" +:+ condition +:+ ") {"); OpIndent 4;
      OpWrite result; OpWrite return_; OpUnindent; OpWrite "}";
      OpWrite "PyErr_Clear();"; OpUnindent; OpWrite "}"].
Definition sink_ops (os : list sink_op) : ST (S * code_sink) unit :=
  fun st => match run_ops st.2 os with
            | Ok k => ((st.1, k), Ok tt) | Raise e => (st, Raise e) end.
Definition try_binary (cs : classes) (op_symbol : string) (t : nat * nat * operand)
    : ST (S * code_sink) unit :=
  ret <- get_c_to_python_converter cs (ClassValue t.1.1) ;;
  lhs <- get_python_to_c_converter cs (ClassValue t.1.2) ;;
  rhs <- get_python_to_c_converter cs (of_operand t.2) ;;
  sink_ops (try_types [(lhs.2, "left"); (rhs.2, "right")]
    (lhs.1 +:+ "(py_left, &left) && " +:+ rhs.1 +:+ "(py_right, &right)")
    (ret.2 +:+ " result = (left " +:+ op_symbol +:+ " right);")
    ("return " +:+ ret.1 +:+ "(&result);")).
Definition try_unary (cs : classes) (op_symbol : string) (t : nat * nat) : ST (S * code_sink) unit :=
  ret <- get_c_to_python_converter cs (ClassValue t.1) ;;
  lhs <- get_python_to_c_converter cs (ClassValue t.2) ;;
  sink_ops (try_types [(lhs.2, "self")] (lhs.1 +:+ "(py_self, &self)")
    (ret.2 +:+ " result = " +:+ op_symbol +:+ "(self);") ("return " +:+ ret.1 +:+ "(&result);")).

(** The function of a slot, which is filled with its name. *)
Definition wrap_operator {T} (mangled_full_name slot_name params : string) (try : T -> ST (S * code_sink) unit)
    (op_types : option (list T)) (slots : gmap string string) : ST (S * code_sink) (gmap string string) :=
  match op_types with
  | None => st_ret slots
  | Some op_types =>
      let wrapper_name := mangled_full_name +:+ "__" +:+ slot_name in
      sink_writeln ("static PyObject*" +:+ nls +:+ wrapper_name +:+ " (" +:+ params +:+ ")" +:+ nls +:+ "{") ;;;
      sink_indent ;;;
      st_iter try op_types ;;;
      sink_writeln "Py_INCREF(Py_NotImplemented);" ;;;
      sink_writeln "return Py_NotImplemented;" ;;;
      sink_unindent ;;;
      sink_writeln "}" ;;;
      st_ret (<[slot_name := wrapper_name]> slots)
  end.

Definition binary_slots : list (string * string) :=
  [("+", "nb_add"); ("-", "nb_subtract"); ("*", "nb_multiply"); ("/", "nb_divide");
   ("+=", "nb_inplace_add"); ("-=", "nb_inplace_subtract"); ("*=", "nb_inplace_multiply");
   ("/=", "nb_inplace_divide")].
Definition binary_types (o : class_operators) (op_symbol : string) : option (list (nat * nat * operand)) :=
  match op_binary o !! op_symbol with Some l => Some l | None => op_inplace o !! op_symbol end.

Fixpoint wrap_operators (cs : classes) (o : class_operators) (mangled_full_name : string)
    (table : list (string * string)) (slots : gmap string string)
    : ST (S * code_sink) (gmap string string) :=
  match table with
  | [] => st_ret slots
  | (op_symbol, slot_name) :: table =>
      slots <- wrap_operator mangled_full_name slot_name "PyObject *py_left, PyObject *py_right"
                 (try_binary cs op_symbol) (binary_types o op_symbol) slots ;;
      wrap_operators cs o mangled_full_name table slots
  end.

(** A table of slots is written. *)
Definition write_table (generate : gmap string string -> code_sink -> res code_sink)
    (slots : gmap string string) : ST (S * code_sink) unit :=
  fun st => match generate slots st.2 with
            | Ok k => ((st.1, k), Ok tt) | Raise e => (st, Raise e) end.

(** [_generate_number_methods] *)
Definition number_table (cs : classes) (o : class_operators) (mangled_full_name variable : string)
    : ST (S * code_sink) (gmap string string) :=
  st_iter (fun '(_, l) => st_iter (request_binary cs) l) (dict_items (op_binary o)) ;;;
  st_iter (fun '(_, l) => st_iter (request_inplace cs) l) (dict_items (op_inplace o)) ;;;
  st_iter (fun '(_, l) => st_iter (request_unary cs) l) (dict_items (op_unary o)) ;;;
  slots <- wrap_operators cs o mangled_full_name binary_slots {["variable" := variable]} ;;
  wrap_operator mangled_full_name "nb_negative" "PyObject *py_self" (try_unary cs "-")
    (op_unary o !! "-") slots.
Definition generate_number_methods (cs : classes) (c : cpp_class H A) : ST (S * code_sink) string :=
  let mangled_full_name := str_opt (nm_mangled_full_name (cl_names c)) in
  let variable := mangled_full_name +:+ "__py_number_methods" in
  slots <- number_table cs (cl_operators c) mangled_full_name variable ;;
  write_table PyNumberMethods_generate slots ;;;
  st_ret ("&" +:+ variable).

(** The number methods are only generated when there is a binary or an inplace
    operator. *)
Definition needs_number_methods (o : class_operators) : bool :=
  bool_decide (op_binary o <> ∅) || bool_decide (op_inplace o <> ∅).

(** ** Sequence methods *)

Definition sequence_slots : list (string * string) :=
  [("__len__", "sq_length"); ("__getitem__", "sq_item"); ("__setitem__", "sq_ass_item")].

Definition is_function_method (w : class_wrapper) : bool :=
  match w with FunctionMethod _ => true | _ => false end.

(** The template of a slot; a [__len__] that is overloaded or a function parses
    arguments. *)
Definition sequence_template (o : overloaded (list class_wrapper)) (py_name slot_name : string) : res string :=
  match overload_wrappers o with
  | [] => Raise ValueError
  | ws =>
      let key := if String.eqb py_name "__len__"
                    && ((1 <? length (ov_wrappers o))%nat || existsb is_function_method ws)
                 then slot_name +:+ "_ARGS" else slot_name in
      match FUNCTION_TEMPLATES !! key with Some t => Ok t | None => Raise KeyError end
  end.
Definition wrap_sequence_method (c : cpp_class H A) (py_name slot_name : string)
    (slots : gmap string string) : ST (S * code_sink) (gmap string string) :=
  match mb_methods (cl_members c) !! py_name with
  | None => st_ret slots
  | Some o =>
      let wrapper_name := str_opt (nm_mangled_full_name (cl_names c)) +:+ "__" +:+ slot_name in
      template <- st_lift (sequence_template o py_name slot_name) ;;
      text <- st_lift (format_dict template (fun key =>
                 if String.eqb key "wrapper_name" then Some wrapper_name
                 else if String.eqb key "py_struct" then Some (str_opt (nm_pystruct (cl_names c)))
                 else if String.eqb key "method_name" then Some (str_opt (ov_wrapper_actual_name o))
                 else None)) ;;
      sink_writeln text ;;;
      st_ret (<[slot_name := wrapper_name]> slots)
  end.
Fixpoint wrap_sequence_methods (c : cpp_class H A) (table : list (string * string))
    (slots : gmap string string) : ST (S * code_sink) (gmap string string) :=
  match table with
  | [] => st_ret slots
  | (py_name, slot_name) :: table =>
      slots <- wrap_sequence_method c py_name slot_name slots ;;
      wrap_sequence_methods c table slots
  end.

(** [_generate_sequence_methods], for the class at a position *)
Definition generate_sequence_methods (i : nat) (c : cpp_class H A) : ST (S * code_sink) string :=
  let variable := str_opt (nm_mangled_full_name (cl_names c)) +:+ "__py_sequence_methods" in
  python_to_c_converter (ClassValue i) ;;;
  slots <- wrap_sequence_methods c sequence_slots {["variable" := variable]} ;;
  write_table PySequenceMethods_generate slots ;;;
  st_ret ("&" +:+ variable).
End numbers.

(** ** What adding an operator does *)

Section added.
Context {H A K S : Type} (no_kwargs : K)
  (new_param : list (spec_item (A:=pyval) (K:=K)) -> K -> ST S (nat * type_traits))
  (on_error : error_handler S).
Local Abbreviation classes := (list (cpp_class H A)).

Definition operators_of (cs : classes) (i : nat) : class_operators :=
  match cs !! i with Some c => cl_operators c | None => new_operators end.

Lemma modify_operators_runs (cs : classes) i f c :
  cs !! i = Some c -> modify_operators i f cs = (<[i := set_operators (f (cl_operators c)) c]> cs, Ok tt).
Proof. intros Hc. unfold modify_operators, update_class, the_cpp_class, st_bind. by rewrite Hc. Qed.

Lemma same_operand_refl o : same_operand o o = true.
Proof. destruct o; apply Nat.eqb_refl. Qed.
Lemma same_types_refl t : same_types t t = true.
Proof. unfold same_types. by rewrite !Nat.eqb_refl, same_operand_refl. Qed.

Lemma operator_list_insert {B} (l : gmap string (list B)) op x : operator_list (<[op := x]> l) op = x.
Proof. unfold operator_list. by rewrite lookup_insert_eq. Qed.
Lemma set_operators_twice o o' (c : cpp_class H A) :
  set_operators o (set_operators o' c) = set_operators o c.
Proof. done. Qed.
Lemma touch_add {B} op (t : B) l : add_type op t (touch op l) = add_type op t l.
Proof. unfold add_type, touch. by rewrite operator_list_insert, insert_insert_eq. Qed.

Definition class_operand (i : nat) (right : right_arg K) : option nat :=
  match right with NoRight => Some i | RightClass n => Some n | RightSpec _ => None end.

Lemma binary_run (cs : classes) (s : S) i c operator op result left right r :
  cs !! i = Some c -> valid_operator binary_operators operator = Ok op ->
  class_operand i right = Some r ->
  let t := (default i result, default i left, OperandClass r) in
  let l := operator_list (op_binary (cl_operators c)) op in
  add_binary_numeric_operator no_kwargs new_param on_error i operator result left right (cs, s)
  = ((<[i := set_operators (on_binary (fun b => if existsb (same_types t) l then touch op b else add_type op t b)
               (cl_operators c)) c]> cs, s), Ok tt).
Proof.
  intros Hc Hop Hr t l. pose proof (lookup_lt_Some _ _ _ Hc) as Hi.
  unfold add_binary_numeric_operator. unfold st_bind at 1, st_lift. rewrite Hop.
  unfold st_bind at 1, on_fst at 1. cbn [fst snd]. rewrite (modify_operators_runs _ _ _ c Hc).
  set (c1 := set_operators _ c). assert (Hc1 : <[i:=c1]> cs !! i = Some c1) by by apply list_lookup_insert_eq.
  assert (match right with
          | NoRight => st_ret (Some (OperandClass i))
          | RightClass n => st_ret (Some (OperandClass n))
          | RightSpec s => eval_right no_kwargs new_param on_error s
          end = st_ret (S:=classes * S) (Some (OperandClass r))) as ->.
  { destruct right; cbn in Hr; [by injection Hr as ->..|discriminate]. }
  unfold st_bind at 1, st_ret at 1. fold t.
  unfold st_bind at 1, on_fst at 1, the_cpp_class. cbn [fst snd]. rewrite Hc1.
  assert (operator_list (op_binary (cl_operators c1)) op = l) as -> by apply operator_list_insert.
  destruct (existsb (same_types t) l); cbn [negb st_when]; [done|].
  unfold on_fst. cbn [fst snd]. rewrite (modify_operators_runs _ _ _ c1 Hc1).
  rewrite list_insert_insert_eq. unfold c1. rewrite set_operators_twice. cbn. unfold on_binary. cbn.
  by rewrite touch_add.
Qed.

Lemma inplace_run (cs : classes) (s : S) i c operator op :
  cs !! i = Some c -> valid_operator inplace_operators operator = Ok op ->
  add_inplace_numeric_operator no_kwargs new_param on_error i operator NoRight (cs, s)
  = ((<[i := set_operators (on_inplace (add_type op (i, i, OperandClass i)) (cl_operators c)) c]> cs, s), Ok tt).
Proof.
  intros Hc Hop. pose proof (lookup_lt_Some _ _ _ Hc) as Hi.
  unfold add_inplace_numeric_operator. unfold st_bind at 1, st_lift. rewrite Hop.
  unfold st_bind at 1, on_fst at 1. cbn [fst snd]. rewrite (modify_operators_runs _ _ _ c Hc).
  set (c1 := set_operators _ c). assert (Hc1 : <[i:=c1]> cs !! i = Some c1) by by apply list_lookup_insert_eq.
  unfold st_bind, st_ret, on_fst. cbn [fst snd]. rewrite (modify_operators_runs _ _ _ c1 Hc1).
  rewrite list_insert_insert_eq. unfold c1. rewrite set_operators_twice. cbn. unfold on_inplace. cbn.
  by rewrite touch_add.
Qed.

(** Adding operators.  A binary operator on classes is added once: its types are in the list
    afterwards, and adding it again changes nothing.  An inplace operator on the
    class is added every time, so that its wrapper tries the same types again.  A
    class as the right operand of an inplace operator, which the documentation
    allows, raises TypeError. *)
Theorem operator_added (cs : classes) (s : S) (i : nat) (c : cpp_class H A) (operator : text_value)
    (op : string) (result left : option nat) (right : right_arg K) (r n : nat) :
  cs !! i = Some c ->
  (valid_operator binary_operators operator = Ok op -> class_operand i right = Some r ->
   let add := add_binary_numeric_operator no_kwargs new_param on_error i operator result left right in
   exists cs', add (cs, s) = ((cs', s), Ok tt)
     /\ existsb (same_types (default i result, default i left, OperandClass r))
          (operator_list (op_binary (operators_of cs' i)) op) = true
     /\ add (cs', s) = ((cs', s), Ok tt))
  /\ (valid_operator inplace_operators operator = Ok op ->
      exists cs', add_inplace_numeric_operator no_kwargs new_param on_error i operator NoRight (cs, s)
          = ((cs', s), Ok tt)
        /\ operator_list (op_inplace (operators_of cs' i)) op
           = operator_list (op_inplace (cl_operators c)) op ++ [(i, i, OperandClass i)])
  /\ (valid_operator inplace_operators operator = Ok op ->
      (add_inplace_numeric_operator no_kwargs new_param on_error i operator (RightClass n) (cs, s)).2
      = Raise TypeError).
Proof.
  intros Hc. pose proof (lookup_lt_Some _ _ _ Hc) as Hi. split_and!.
  - intros Hop Hr add. unfold add.
    rewrite (binary_run cs s i c operator op result left right r Hc Hop Hr).
    set (t := (default i result, default i left, OperandClass r)).
    set (f := fun b => if existsb (same_types t) (operator_list (op_binary (cl_operators c)) op)
              then touch op b else add_type op t b).
    eexists. split; [reflexivity|].
    assert (<[i := set_operators (on_binary f (cl_operators c)) c]> cs !! i
            = Some (set_operators (on_binary f (cl_operators c)) c)) as Hc' by by apply list_lookup_insert_eq.
    assert (existsb (same_types t) (operator_list (f (op_binary (cl_operators c))) op) = true) as He.
    { unfold f. destruct (existsb _ _) eqn:E; unfold touch, add_type; rewrite operator_list_insert; [done|].
      rewrite existsb_app. cbn. by rewrite same_types_refl, orb_true_r. }
    split; [by unfold operators_of; rewrite Hc'|].
    rewrite (binary_run _ s i _ operator op result left right r Hc' Hop Hr). fold t. cbn [cl_operators set_operators].
    change (op_binary (on_binary f (cl_operators c))) with (f (op_binary (cl_operators c))). rewrite He.
    rewrite list_insert_insert_eq. do 3 f_equal. unfold set_operators. cbn. f_equal. unfold on_binary. cbn.
    f_equal. unfold f. destruct (existsb _ (operator_list _ _)); unfold touch, add_type;
      by rewrite operator_list_insert, insert_insert_eq.
  - intros Hop. rewrite (inplace_run cs s i c operator op Hc Hop). eexists. split; [reflexivity|].
    unfold operators_of. rewrite list_lookup_insert_eq by done. apply operator_list_insert.
  - intros Hop. unfold add_inplace_numeric_operator, st_bind, st_lift, on_fst. rewrite Hop. cbn [fst snd].
    by rewrite (modify_operators_runs _ _ _ c Hc).
Qed.
End added.

(** ** The table of number methods *)

(** Code that returns, with a result in [P], and takes the indentation of the sink
    from [i] to [j]. *)
Definition indentation (k : code_sink) : Z * list Z := (indent_level k, indent_stack k).
Definition pushed (i : Z * list Z) : Z * list Z := (i.1 + 4, i.1 :: i.2)%Z.
Definition returns {S B} (i j : Z * list Z) (P : B -> Prop) (m : ST (S * code_sink) B) : Prop :=
  forall s k, indentation k = i ->
  exists s' k' b, m (s, k) = ((s', k'), Ok b) /\ indentation k' = j /\ P b.
Definition always {S B} (m : ST (S * code_sink) B) : Prop := forall i, returns i i (fun _ => True) m.

Section returning.
Context {S : Type}.
Local Abbreviation state := (S * code_sink)%type.

Lemma returns_ret {B} (P : B -> Prop) (b : B) i : P b -> returns (S:=S) i i P (st_ret b).
Proof. intros HP s k Hk. by exists s, k, b. Qed.
Lemma returns_bind {B C} i j l (P : B -> Prop) (Q : C -> Prop) (m : ST state B) (f : B -> ST state C) :
  returns i j P m -> (forall b, P b -> returns j l Q (f b)) -> returns i l Q (st_bind m f).
Proof.
  intros Hm Hf s k Hk. destruct (Hm s k Hk) as (s1&k1&b&E1&I1&HP).
  destruct (Hf b HP s1 k1 I1) as (s2&k2&c&E2&I2&HQ). exists s2, k2, c. unfold st_bind. by rewrite E1.
Qed.
Lemma returns_then {B C} i j (Q : C -> Prop) (m : ST state B) (f : B -> ST state C) :
  always m -> (forall b, returns i j Q (f b)) -> returns i j Q (st_bind m f).
Proof. intros Hm Hf. by eapply returns_bind; [apply Hm|]. Qed.
Lemma always_lift {B} (r : res B) b : r = Ok b -> always (st_lift (S:=state) r).
Proof. intros -> i s k Hk. by exists s, k, b. Qed.
Lemma always_ret {B} (b : B) : always (st_ret (S:=state) b).
Proof. intros i. by apply returns_ret. Qed.
Lemma always_bind {B C} (m : ST state B) (f : B -> ST state C) :
  always m -> (forall b, always (f b)) -> always (st_bind m f).
Proof. intros Hm Hf i. apply returns_then; [done|]. intros b. apply Hf. Qed.
Lemma always_iter {B} (body : B -> ST state unit) l :
  (forall x, x ∈ l -> always (body x)) -> always (st_iter body l).
Proof.
  intros Hb. induction l as [|x l IH]; [apply always_ret|].
  apply always_bind; [apply Hb; by left|]. intros _. apply IH. intros y Hy. apply Hb. by right.
Qed.
Lemma always_sink_ops os : bracketed os -> always (S:=S) (sink_ops os).
Proof.
  intros Hos i s k Hk. unfold sink_ops. cbn. destruct (bracketed_run os Hos k) as (k'&->&[I1 I2]&_).
  exists s, k', tt. split_and!; [done| |done]. rewrite <- Hk. unfold indentation. by rewrite I1, I2.
Qed.
Lemma always_writeln line : always (S:=S) (sink_writeln line).
Proof.
  intros i s k Hk. eexists _, _, _. split_and!; [reflexivity| |done].
  destruct (same_indent_writeln k line) as [I1 I2]. rewrite <- Hk. unfold indentation. cbn. by rewrite I1, I2.
Qed.
Lemma returns_indent i : returns (S:=S) i (pushed i) (fun _ => True) sink_indent.
Proof. intros s k <-. by eexists _, _, _. Qed.
Lemma returns_unindent i : returns (S:=S) (pushed i) i (fun _ => True) sink_unindent.
Proof.
  intros s [l st d] Hk. injection Hk as -> ->. destruct i as [l st]. by eexists _, _, _.
Qed.
Lemma always_weaken {B} (P : B -> Prop) (m : ST state B) : (forall i, returns i i P m) -> always m.
Proof. intros Hm i s k Hk. destruct (Hm i s k Hk) as (s'&k'&b&E&I&_). by exists s', k', b. Qed.
End returning.

Section number_table.
Context {H A S : Type} {dict_order : DictOrder}.
Local Abbreviation classes := (list (cpp_class H A)).
Local Abbreviation state := (S * code_sink)%type.
Context (python_to_c_converter c_to_python_converter : converted -> ST state string)
  (to_c : forall v, always (python_to_c_converter v)) (to_python : forall v, always (c_to_python_converter v))
  (cs : classes).

(** The classes of the types of an operator are classes of the program. *)
Definition known_value (v : converted) : Prop :=
  match v with ClassValue n => (n < length cs)%nat | ParamValue _ => True end.
Definition known_binary (t : nat * nat * operand) : Prop :=
  known_value (ClassValue t.1.1) /\ known_value (ClassValue t.1.2) /\ known_value (of_operand t.2).
Definition known_unary (t : nat * nat) : Prop := (t.1 < length cs)%nat /\ (t.2 < length cs)%nat.
Definition known_operators (o : class_operators) : Prop :=
  map_Forall (fun _ => Forall known_binary) (op_binary o)
  /\ map_Forall (fun _ => Forall known_binary) (op_inplace o)
  /\ map_Forall (fun _ => Forall known_unary) (op_unary o).

Lemma known_name v : known_value v -> exists name, value_name cs v = Ok name.
Proof.
  destruct v as [n|t]; cbn; [|by eexists]. intros Hn. apply lookup_lt_is_Some_2 in Hn as [c ->]. by eexists.
Qed.
Lemma always_get_python_to_c v :
  known_value v -> always (get_python_to_c_converter python_to_c_converter cs v).
Proof.
  intros [name Hn]%known_name. apply always_bind; [apply to_c|]. intros conv.
  apply always_bind; [by apply (always_lift _ name)|]. intros n. apply always_ret.
Qed.
Lemma always_get_c_to_python v :
  known_value v -> always (get_c_to_python_converter c_to_python_converter cs v).
Proof.
  intros [name Hn]%known_name. apply always_bind; [apply to_python|]. intros conv.
  apply always_bind; [by apply (always_lift _ name)|]. intros n. apply always_ret.
Qed.
Local Ltac requests :=
  first [ by apply always_get_python_to_c | by apply always_get_c_to_python | apply always_ret
        | apply always_bind; [requests | intros ?; requests] ].

Lemma bracketed_try ds condition result return_ : bracketed (try_types ds condition result return_).
Proof.
  unfold try_types. cbn. constructor.
  assert (forall os, bracketed os -> bracketed (map (fun '(type_, var) => OpWrite (type_ +:+ " " +:+ var +:+ ";")) ds ++ os))
    as Hd by (intros os Hos; induction ds as [|[? ?] ds IH]; [done | by constructor]).
  assert (bracketed ([OpWrite ("if (" +:+ condition +:+ ") {"); OpIndent 4; OpWrite result; OpWrite return_;
                      OpUnindent; OpWrite "}"; OpWrite "PyErr_Clear();"])) as Hb.
  { constructor. apply (br_block 4 [_; _]); repeat constructor. }
  pose proof (br_block 4 _ [OpWrite "}"] (Hd _ Hb)) as Hr. rewrite <- app_assoc in Hr. apply Hr. repeat constructor.
Qed.

Lemma always_try_binary op_symbol t : known_binary t ->
  always (try_binary python_to_c_converter c_to_python_converter cs op_symbol t).
Proof.
  intros (K1&K2&K3). unfold try_binary.
  apply always_bind; [by apply always_get_c_to_python|]. intros ret.
  apply always_bind; [by apply always_get_python_to_c|]. intros lhs.
  apply always_bind; [by apply always_get_python_to_c|]. intros rhs. apply always_sink_ops, bracketed_try.
Qed.
Lemma always_try_unary op_symbol t : known_unary t ->
  always (try_unary python_to_c_converter c_to_python_converter cs op_symbol t).
Proof.
  intros (K1&K2). unfold try_unary.
  apply always_bind; [by apply always_get_c_to_python|]. intros ret.
  apply always_bind; [by apply always_get_python_to_c|]. intros lhs. apply always_sink_ops, bracketed_try.
Qed.

(** The name of the function of a slot, if its operator has types. *)
Definition slot_function (mangled slot : string) (has_types : bool) (slots : gmap string string) :=
  if has_types then <[slot := mangled +:+ "__" +:+ slot]> slots else slots.

Lemma wrap_operator_returns {T} mangled slot params (try : T -> ST state unit) types slots i :
  (forall l x, types = Some l -> x ∈ l -> always (try x)) ->
  returns i i (fun r => r = slot_function mangled slot (bool_decide (is_Some types)) slots)
    (wrap_operator mangled slot params try types slots).
Proof.
  intros Ht. destruct types as [l|]; cbn [wrap_operator]; [|by apply returns_ret].
  apply returns_then; [apply always_writeln|]. intros _.
  eapply returns_bind; [apply returns_indent|]. intros _ _.
  apply returns_then; [apply always_iter; intros x; by apply Ht|]. intros _.
  do 2 (apply returns_then; [apply always_writeln|]; intros _).
  eapply returns_bind; [apply returns_unindent|]. intros _ _.
  apply returns_then; [apply always_writeln|]. intros _. by apply returns_ret.
Qed.

Lemma table_types {T} (known : T -> Prop) (m : gmap string (list T)) op l t :
  map_Forall (fun _ => Forall known) m -> m !! op = Some l -> t ∈ l -> known t.
Proof.
  intros Hm Hl Ht. apply (map_Forall_lookup_1 _ _ _ _ Hm) in Hl.
  eapply List.Forall_forall; [exact Hl | by apply list_elem_of_In].
Qed.

Lemma known_binary_types o op l t :
  known_operators o -> binary_types o op = Some l -> t ∈ l -> known_binary t.
Proof.
  intros (K1&K2&_) Hl Ht. unfold binary_types in Hl. destruct (op_binary o !! op) eqn:E.
  - injection Hl as ->. by eapply (table_types _ _ _ _ _ K1).
  - by eapply (table_types _ _ _ _ _ K2).
Qed.

Definition fill_slots (o : class_operators) (mangled : string) (table : list (string * string))
    (slots : gmap string string) : gmap string string :=
  fold_left (fun slots '(op, slot) =>
    slot_function mangled slot (bool_decide (is_Some (binary_types o op))) slots) table slots.
Lemma wrap_operators_return o mangled table i : known_operators o -> forall slots,
  returns i i (fun r => r = fill_slots o mangled table slots)
    (wrap_operators python_to_c_converter c_to_python_converter cs o mangled table slots).
Proof.
  intros Ko. induction table as [|[op slot] table IH]; intros slots; cbn [wrap_operators]; [by apply returns_ret|].
  eapply returns_bind.
  - apply wrap_operator_returns. intros l t Hl Ht. apply always_try_binary. by eapply known_binary_types.
  - intros ? ->. apply IH.
Qed.

Lemma requests_always {T} (request : T -> ST state unit) (known : T -> Prop) (m : gmap string (list T)) :
  (forall t, known t -> always (request t)) -> map_Forall (fun _ => Forall known) m ->
  always (st_iter (fun '(_, l) => st_iter request l) (dict_items m)).
Proof.
  intros Hr Hm. apply always_iter. intros [op l] Hin. apply always_iter. intros t Ht. apply Hr.
  assert (m !! op = Some l) as Hl by by (rewrite dict_items_perm in Hin; by apply elem_of_map_to_list).
  by eapply (table_types _ _ _ _ _ Hm).
Qed.

Lemma number_table_returns o mangled variable i : known_operators o ->
  returns i i (fun r => r = slot_function mangled "nb_negative" (bool_decide (is_Some (op_unary o !! "-")))
                              (fill_slots o mangled binary_slots {["variable" := variable]}))
    (number_table python_to_c_converter c_to_python_converter cs o mangled variable).
Proof.
  intros Ko. pose proof Ko as (K1&K2&K3). unfold number_table.
  apply returns_then; [apply (requests_always _ known_binary); [|done]; intros t (?&?&?); unfold request_binary; requests|].
  intros [].
  apply returns_then; [apply (requests_always _ known_binary); [|done]; intros t (?&?&?); unfold request_inplace; requests|].
  intros [].
  apply returns_then; [apply (requests_always _ known_unary); [|done]; intros t (?&?); unfold request_unary; requests|].
  intros [].
  eapply returns_bind; [by apply wrap_operators_return|]. intros ? ->.
  apply wrap_operator_returns. intros l t Hl Ht. apply always_try_unary.
  by eapply (table_types _ _ _ _ _ K3).
Qed.

(** The slots with a function of their own. *)
Definition number_slot (o : class_operators) (slot : string) : bool :=
  existsb (fun '(op, s) => String.eqb s slot && bool_decide (is_Some (binary_types o op))) binary_slots
  || (String.eqb "nb_negative" slot && bool_decide (is_Some (op_unary o !! "-"))).

Lemma lookup_slot_function mangled s has slots slot :
  slot_function mangled s has slots !! slot
  = if String.eqb s slot && has then Some (mangled +:+ "__" +:+ slot) else slots !! slot.
Proof.
  unfold slot_function. destruct (String.eqb_spec s slot) as [->|Hs]; destruct has; cbn; try done.
  - apply lookup_insert_eq.
  - by apply lookup_insert_ne.
Qed.
Lemma lookup_fill_slots o mangled table slot : forall slots,
  fill_slots o mangled table slots !! slot
  = if existsb (fun '(op, s) => String.eqb s slot && bool_decide (is_Some (binary_types o op))) table
    then Some (mangled +:+ "__" +:+ slot) else slots !! slot.
Proof.
  induction table as [|[op s] table IH]; intros slots; [done|]. cbn [existsb].
  change (fill_slots o mangled ((op, s) :: table) slots) with
    (fill_slots o mangled table (slot_function mangled s (bool_decide (is_Some (binary_types o op))) slots)).
  rewrite IH, lookup_slot_function.
  by destruct (existsb _ table), (String.eqb s slot), (bool_decide _).
Qed.

(** Number methods.  For a class whose operators are on known classes, and
    converters that can be generated, [generate_number_methods] writes the functions
    and the table of number methods and returns the table's address.  The table has
    a function of the class's own exactly for the operators that have types, and
    every other slot of it keeps its default; the code written leaves the
    indentation as it was. *)
Theorem number_methods_generated (c : cpp_class H A) (s : S) (k : code_sink) :
  known_operators (cl_operators c) ->
  let mangled := str_opt (nm_mangled_full_name (cl_names c)) in
  let variable := mangled +:+ "__py_number_methods" in
  exists s' k1 (slots : gmap string string) text,
    generate_number_methods python_to_c_converter c_to_python_converter cs c (s, k)
    = ((s', writeln k1 text), Ok ("&" +:+ variable))
    /\ indentation (writeln k1 text) = indentation k
    /\ format_dict PyNumberMethods_TEMPLATE (fun key =>
         match slots !! key with
         | Some v => Some v
         | None => (list_to_map PyNumberMethods_defaults : gmap string string) !! key
         end) = Ok text
    /\ forall slot, slots !! slot =
         if number_slot (cl_operators c) slot then Some (mangled +:+ "__" +:+ slot)
         else if String.eqb slot "variable" then Some variable else None.
Proof.
  intros Ko mangled variable. unfold generate_number_methods. fold mangled. fold variable.
  destruct (number_table_returns _ mangled variable (indentation k) Ko s k eq_refl) as (s1&k1&slots&E&I&Hs).
  assert (forall slot, slots !! slot =
         if number_slot (cl_operators c) slot then Some (mangled +:+ "__" +:+ slot)
         else if String.eqb slot "variable" then Some variable else None) as Hl.
  { intros slot. rewrite Hs, lookup_slot_function, lookup_fill_slots. unfold number_slot.
    destruct (existsb _ binary_slots), (String.eqb "nb_negative" slot && _); cbn [orb]; try done.
    destruct (String.eqb_spec slot "variable") as [->|Hv]; [apply lookup_singleton_eq|].
    by apply lookup_singleton_ne. }
  destruct (generate_table_spec PyNumberMethods_TEMPLATE PyNumberMethods_defaults ["variable"] slots k1)
    as [Hg _]; [vm_compute; reflexivity..|].
  destruct Hg as (text&Eg&Et).
  { repeat constructor. rewrite Hl. destruct (number_slot _ _); by eexists. }
  exists s1, k1, slots, text. unfold st_bind at 1. rewrite E. unfold st_bind, write_table. cbn [fst snd].
  unfold PyNumberMethods_generate. rewrite Eg. split_and!; [done| |done|done].
  rewrite <- I. unfold indentation. destruct (same_indent_writeln k1 text) as [I1 I2]. by rewrite I1, I2.
Qed.
End number_table.

(** ** Examples *)

(** The sum of two vectors is a vector, and so is the opposite of one. *)
Definition vector_class : cpp_class nat nat :=
  set_operators (ClassOperators ∅ {["+" := [(0, 0, OperandClass 0)%nat]]} ∅ {["-" := [(0, 0)%nat]]})
    (set_names (demo_cpp_class "Vector" []) None (names_for default_settings (demo_config "Vector" []) "Vector")).
Definition vector_converter (v : converted) : ST (unit * code_sink) string := st_ret "convert_vector".

Lemma vector_operators_known : known_operators [vector_class] (cl_operators vector_class).
Proof.
  split_and!; cbn.
  - apply map_Forall_singleton. repeat constructor.
  - apply map_Forall_empty.
  - apply map_Forall_singleton. repeat constructor.
Qed.
Lemma number_methods_generated_witness :
  exists s' k', generate_number_methods vector_converter vector_converter [vector_class] vector_class
      (tt, MemoryCodeSink) = ((s', k'), Ok "&Vector__py_number_methods").
Proof.
  destruct (number_methods_generated vector_converter vector_converter
    (fun v => always_ret "convert_vector") (fun v => always_ret "convert_vector")
    [vector_class] vector_class tt MemoryCodeSink vector_operators_known) as (s'&k1&slots&text&E&_).
  eexists _, _. exact E.
Defined.

Lemma operator_added_witness :
  exists cs', add_inplace_numeric_operator (H:=nat) (A:=nat) (K:=unit) (S:=unit) tt (fun _ _ => st_raise TypeError)
      None 0 (StrText "+=") NoRight ([vector_class], tt) = ((cs', tt), Ok tt)
    /\ operator_list (op_inplace (operators_of cs' 0)) "+=" = [(0, 0, OperandClass 0)%nat].
Proof.
  destruct (operator_added (H:=nat) (A:=nat) (K:=unit) (S:=unit) tt (fun _ _ => st_raise TypeError) None
    [vector_class] tt 0 vector_class (StrText "+=") "+=" None None NoRight 0 0 eq_refl) as (_&H&_).
  destruct (H eq_refl) as (cs'&E&Hl). exists cs'. split; [exact E|exact Hl].
Defined.
