(* ===== verification/ClassAttributes.v ===== *)
(** * Attributes of C++ classes

    The methods of [CppClass] in [pybindgen/cppclass.py] that add static and instance
    attributes to the two tables of a class.  The getter and the setter of an
    attribute share the handler of its type, which both change. *)
From S2P Require Import Prelude.
From S2P Require Import CodeSink.
From S2P Require Import CodeBlock.
From S2P Require Import Wrapper.
From S2P Require Import TypeHandler.
From S2P Require Import WrapperBase.
From S2P Require Import Utils.
From S2P Require Import Settings.
From S2P Require Import CppMethod.
From S2P Require Import Converters.
From S2P Require Import CppAttribute.

(** The handlers of the attributes, each with the objects of its wrappers. *)
Abbreviation attribute_values := (list value_state).
(** A table of attributes next to them. *)
Abbreviation attribute_table := (getset_def (S:=attribute_values)).

(** An accessor works on the handler of its attribute. *)
Definition on_value (n : nat) (m : ST value_gen unit) : ST (attribute_values * code_sink) unit :=
  fun st => match st.1 !! n with
            | None => (st, Raise IndexError)
            | Some v =>
                let '((v, gn), r) := m (v.1, Gen v.2 st.2) in
                ((<[n := (v, g_world gn)]> st.1, g_out gn), r)
            end.
Definition getter_at (n : nat) (generate : attribute_getter -> ST value_gen unit) (a : attribute_getter)
    : accessor (S:=attribute_values) := Accessor (on_value n (generate a)) (ag_c_function_name a).
Definition setter_at (n : nat) (generate : attribute_setter -> ST value_gen unit) (a : attribute_setter)
    : accessor (S:=attribute_values) := Accessor (on_value n (generate a)) (as_c_function_name a).

Section attributes.
Context {K : Type} (no_kwargs : K)
  (new_value : list (@spec_item pyval K) -> K -> ST attribute_values value_type)
  (on_error : error_handler attribute_values) (class_ : class_view).
Local Abbreviation state := (attribute_values * attribute_table)%type.

(** The name and the type, which older callers pass the other way round. *)
Inductive attribute_args : Type :=
  | NameAndType (name : string) (value_type : @spec pyval K value_type)
  | TypeAndName (value_type : value_type) (name : string).
Definition attribute_spec (a : attribute_args) : string * @spec pyval K value_type :=
  match a with
  | NameAndType name t => (name, t)
  | TypeAndName t name => (name, Handler _ t)
  end.

(** [utils.eval_retval]; nothing is added when that is skipped. *)
Definition with_value (t : @spec pyval K value_type) (add : value_type -> ST state unit) : ST state unit :=
  v <- st_catch (v <- on_fst (eval_retval new_value on_error no_kwargs t) ;; st_ret (Some v))
         (fun e => match e with SkipWrapper => st_ret None | _ => st_raise e end) ;;
  match v with None => st_ret tt | Some v => add v end.

(** A getter and perhaps a setter are made for a handler, and join the table. *)
Definition add_accessors (name : string) (v : value_type)
    (make : nat -> ST value_state (accessor (S:=attribute_values) * option (accessor (S:=attribute_values))))
    : ST state unit :=
  n <- st_get (fun st => length st.1) ;;
  (fun st =>
     let '(vs, r) := make n (v, empty_world) in
     match r with
     | Ok (getter, setter) => ((st.1 ++ [vs], add_attribute name (Some getter) setter st.2), Ok tt)
     | Raise e => (st, Raise e)
     end).

Definition add_static_attribute (args : attribute_args) (is_const : bool) : ST state unit :=
  let '(name, t) := attribute_spec args in
  with_value t (fun v => add_accessors name v (fun n =>
    getter <- CppStaticAttributeGetter_init class_ name ;;
    setter <- (if is_const then st_ret None
               else s <- CppStaticAttributeSetter_init class_ name ;;
                    st_ret (Some (setter_at n CppStaticAttributeSetter_generate s))) ;;
    st_ret (getter_at n CppStaticAttributeGetter_generate getter, setter))).

(** A constant attribute has no setter. *)
Definition add_instance_attribute (args : attribute_args) (is_const : bool) (getter setter : option string)
    : ST state unit :=
  let '(name, t) := attribute_spec args in
  with_value t (fun v => add_accessors name v (fun n =>
    getter <- CppInstanceAttributeGetter_init class_ name getter ;;
    setter <- (if is_const then
                 st_assert (bool_decide (setter = None)) ;;; st_ret None
               else s <- CppInstanceAttributeSetter_init class_ name setter ;;
                    st_ret (Some (setter_at n CppInstanceAttributeSetter_generate s))) ;;
    st_ret (getter_at n CppInstanceAttributeGetter_generate getter, setter))).
End attributes.

(** ** What adding an attribute does *)

Section added.
Context {K : Type} (no_kwargs : K)
  (new_value : list (@spec_item pyval K) -> K -> ST attribute_values value_type)
  (on_error : error_handler attribute_values) (class_ : class_view).
Local Abbreviation state := (attribute_values * attribute_table)%type.

Lemma PyGetter_name name st st' a : PyGetter_init class_ name st = (st', Ok a) ->
  exists p, cv_pystruct class_ = Some p /\ ag_c_function_name a = "_wrap_" +:+ p +:+ "__get_" +:+ name.
Proof.
  unfold PyGetter_init. intros (s1&v&_&E)%st_bind_Ok. apply st_bind_Ok in E as (s2&fw&_&E).
  apply st_bind_Ok in E as (s3&p&Ep&E). injection Ep as _ Ep. injection E as _ <-.
  unfold get_pystruct in Ep. destruct (cv_pystruct class_); [|discriminate]. injection Ep as ->. by exists p.
Qed.
Lemma PySetter_name name setter st st' a : PySetter_init class_ name setter st = (st', Ok a) ->
  exists p, cv_pystruct class_ = Some p /\ as_c_function_name a = "_wrap_" +:+ p +:+ "__set_" +:+ name.
Proof.
  unfold PySetter_init. intros (s1&v&_&E)%st_bind_Ok. apply st_bind_Ok in E as (s2&fw&_&E).
  apply st_bind_Ok in E as (s3&p&Ep&E). injection Ep as _ Ep. injection E as _ <-.
  unfold get_pystruct in Ep. destruct (cv_pystruct class_); [|discriminate]. injection Ep as ->. by exists p.
Qed.

(** What a call that adds an attribute may do to the table. *)
Definition adds_attribute (name : string) (is_const : bool) (t t' : attribute_table) (r : res unit) : Prop :=
  t' = t \/ (r = Ok tt /\ exists p getter setter,
    cv_pystruct class_ = Some p
    /\ t' = add_attribute name (Some getter) setter t
    /\ ac_c_function_name getter = "_wrap_" +:+ p +:+ "__get_" +:+ name
    /\ ac_c_function_name <$> setter = (if is_const then None else Some ("_wrap_" +:+ p +:+ "__set_" +:+ name))).

Lemma with_value_keeps t (add : value_type -> ST state unit) (P : attribute_table -> attribute_table -> res unit -> Prop) :
  (forall t0 r, P t0 t0 r) -> (forall v (st : state), P st.2 (add v st).1.2 (add v st).2) ->
  forall st : state, P st.2 (with_value no_kwargs new_value on_error t add st).1.2
                       (with_value no_kwargs new_value on_error t add st).2.
Proof.
  intros Hr Ha [vs tb]. unfold with_value, st_bind, st_catch, on_fst. cbn.
  destruct (eval_retval new_value on_error no_kwargs t vs) as [vs' [v|e]]; cbn; [apply (Ha v (vs', tb))|].
  destruct e; apply Hr.
Qed.
Lemma add_accessors_adds name (is_const : bool) v
    (make : nat -> ST value_state (accessor (S:=attribute_values) * option (accessor (S:=attribute_values)))) :
  (forall n st st' g s, make n st = (st', Ok (g, s)) -> exists p, cv_pystruct class_ = Some p
     /\ ac_c_function_name g = "_wrap_" +:+ p +:+ "__get_" +:+ name
     /\ ac_c_function_name <$> s = (if is_const then None else Some ("_wrap_" +:+ p +:+ "__set_" +:+ name))) ->
  forall st : state, adds_attribute name is_const st.2 (add_accessors name v make st).1.2 (add_accessors name v make st).2.
Proof.
  intros Hm [vs tb]. unfold add_accessors, st_bind, st_get. cbn.
  destruct (make (length vs) (v, empty_world)) as [w [[g s]|e]] eqn:E; cbn; [|by left].
  right. split; [done|]. destruct (Hm _ _ _ _ _ E) as (p&Hp&Hg&Hs). by exists p, g, s.
Qed.

(** Adding an attribute appends it to the table or leaves the table as it is; its
    functions have the names made from the class and the attribute, and a constant
    attribute has no setter. *)
Theorem attribute_added (args : attribute_args) (is_const : bool) (getter setter : option string) (st : state) :
  let name := (attribute_spec (K:=K) args).1 in
  let s := add_static_attribute no_kwargs new_value on_error class_ args is_const st in
  let i := add_instance_attribute no_kwargs new_value on_error class_ args is_const getter setter st in
  adds_attribute name is_const st.2 s.1.2 s.2 /\ adds_attribute name is_const st.2 i.1.2 i.2.
Proof.
  unfold add_static_attribute, add_instance_attribute. destruct (attribute_spec args) as [name t]. cbn [fst].
  split; apply with_value_keeps; try (by left); intros v; apply add_accessors_adds; intros n s s' g st0 E.
  - apply st_bind_Ok in E as (s1&a&Ea&E). unfold CppStaticAttributeGetter_init in Ea.
    apply st_bind_Ok in Ea as (s2&a'&(p&Hp&Hg)%PyGetter_name&Ea).
    apply st_bind_Ok in Ea as (s3&[]&_&Ea). injection Ea as _ <-. exists p.
    apply st_bind_Ok in E as (s4&o&Eo&E). injection E as _ <- <-. split_and!; [done|done|].
    destruct is_const; [by injection Eo as _ <-|]. apply st_bind_Ok in Eo as (s5&b&Eb&Eo). injection Eo as _ <-.
    unfold CppStaticAttributeSetter_init in Eb. apply st_bind_Ok in Eb as (s6&b'&(p'&Hp'&Hs)%PySetter_name&Eb).
    apply st_bind_Ok in Eb as (s7&[]&_&Eb). injection Eb as _ <-. cbn. rewrite Hs. by assert (p' = p) as -> by congruence.
  - apply st_bind_Ok in E as (s1&a&Ea&E). unfold CppInstanceAttributeGetter_init in Ea.
    apply st_bind_Ok in Ea as (s2&a'&(p&Hp&Hg)%PyGetter_name&Ea).
    apply st_bind_Ok in Ea as (s3&[]&_&Ea). injection Ea as _ <-. exists p.
    apply st_bind_Ok in E as (s4&o&Eo&E). injection E as _ <- <-. split_and!; [done|done|].
    destruct is_const.
    + apply st_bind_Ok in Eo as (s5&[]&_&Eo). by injection Eo as _ <-.
    + apply st_bind_Ok in Eo as (s5&b&(p'&Hp'&Hs)%PySetter_name&Eo). injection Eo as _ <-. cbn. rewrite Hs. by assert (p' = p) as -> by congruence.
Qed.
End added.
