(* ===== verification/ClassWrappers.v ===== *)
(** * Overloaded methods and constructors of C++ classes

    What [CppOverloadedMethod] and [CppOverloadedConstructor] of
    [pybindgen/cppmethod.py] call on the wrappers a class keeps: methods, custom
    methods and functions that were added as methods, and constructors. *)
From S2P Require Import Prelude.
From S2P Require Import CodeSink.
From S2P Require Import CodeBlock.
From S2P Require Import Wrapper.
From S2P Require Import TypeHandler.
From S2P Require Import WrapperBase.
From S2P Require Import Utils.
From S2P Require Import Overloading.
From S2P Require Import Settings.
From S2P Require Import CppException.
From S2P Require Import Format.
From S2P Require Import WrapperObject.
From S2P Require Import Function.
From S2P Require Import FunctionOverload.
From S2P Require Import CppMethod.
From S2P Require Import ClassModel.

(** ** Methods *)

Section method_ops.
Context (g : settings) (store : list cpp_exception) (classes : list class_view)
  (handle_error : option (nat -> pyexn -> bool)) {so : SetOrder}.

(** An operation on a wrapper, by its class. *)
Definition on_wrapper {B} (as_method : option (option string) -> ST (obj_gen method_attrs) B)
    (as_function : ST (obj_gen function_attrs) B) (w : class_wrapper) (k : code_sink)
    : (class_wrapper * code_sink) * res B :=
  match w with
  | MethodWrapper m => let '((m, k), r) := as_method None (m, k) in ((MethodWrapper m, k), r)
  | CustomMethod m b => let '((m, k), r) := as_method (Some b) (m, k) in ((CustomMethod m b, k), r)
  | FunctionMethod f => let '((f, k), r) := as_function (f, k) in ((FunctionMethod f, k), r)
  end.
Definition on_member {B} (i : nat) (as_method : option (option string) -> ST (obj_gen method_attrs) B)
    (as_function : ST (obj_gen function_attrs) B) : ST (list class_wrapper * code_sink) B :=
  fun st => match st.1 !! i with
            | None => (st, Raise IndexError)
            | Some w =>
                let '((w, k), r) := on_wrapper as_method as_function w st.2 in ((<[i := w]> st.1, k), r)
            end.
Definition member_only {B} (m : ST (list class_wrapper * code_sink) B) : ST (list class_wrapper) B :=
  fun ws => let '((ws', _), r) := m (ws, NullCodeSink) in (ws', r).

(** The base class and the C name of a wrapper. *)
Definition wrapper_base (w : class_wrapper) : forward_wrapper :=
  match w with MethodWrapper m | CustomMethod m _ => wo_base m | FunctionMethod f => wo_base f end.
Definition member_base_name (w : class_wrapper) : option string :=
  match w with
  | MethodWrapper m | CustomMethod m _ => cm_wrapper_base_name (wo_attrs m)
  | FunctionMethod f => fn_wrapper_base_name (wo_attrs f)
  end.
Definition member_attr {B} (a : forward_wrapper -> option B) (ws : list class_wrapper) (i : nat) : option B :=
  ws !! i ≫= fun w => a (wrapper_base w).

(** The methods of a [CppMethod], or of a custom one. *)
Definition methods_for (custom : option (option string)) : methods method_attrs :=
  match custom with None => method_methods g store classes | Some _ => custom_method_methods end.
Definition generate_method (name : option string) (extra : list string) (custom : option (option string))
    : ST (obj_gen method_attrs) unit :=
  match custom with
  | None => CppMethod_generate g store classes name extra
  | Some body => CustomCppMethodWrapper_generate classes body extra
  end.
Definition method_flags (custom : option (option string)) : ST (obj_gen method_attrs) (gset string) :=
  flags <- CppMethod_get_py_method_def_flags (methods_for custom) ;; st_ret (list_to_set flags).
Definition method_def (name : string) (custom : option (option string)) : ST (obj_gen method_attrs) string :=
  flags <- CppMethod_get_py_method_def_flags (methods_for custom) ;;
  o <- st_get fst ;;
  st_ret (method_def_entry name (fw_wrapper_actual_name (wo_base o)) flags (cm_docstring (wo_attrs o))).

Definition method_ops : WrapperOps (list class_wrapper) := {|
  get_flags i := member_only (on_member i method_flags
    (self_world (function_methods store) get_py_method_def_flags));
  Overloading.set_force_parse i z := member_only (on_member i
    (fun _ => modify_base (set_force z)) (modify_base (set_force z)));
  set_error i e := member_only (on_member i
    (fun c => self_world (methods_for c) (fun fw => set_parse_error_return fw e))
    (self_world (function_methods store) (fun fw => set_parse_error_return fw e)));
  generate_wrapper i name extra :=
    on_member i (generate_method name extra) (Function_generate store name extra) ;;; st_ret None;
  reset_wrapper i := member_only (on_member i
    (fun c => self_world (methods_for c) forward_reset_code_generation_state)
    (self_world (function_methods store) forward_reset_code_generation_state));
  wrapper_base_name ws i := ws !! i ≫= member_base_name;
  wrapper_name_of := member_attr fw_wrapper_actual_name;
  wrapper_return_of := member_attr fw_wrapper_return;
  wrapper_args_of := member_attr fw_wrapper_args;
  section_of _ _ := None;
  method_def_of i name := member_only (on_member i (method_def name)
    (Function_get_py_method_def (function_methods store) name));
  needs_overloading_interface ws i :=
    match ws !! i with Some (CustomMethod _ _) => true | _ => false end;
  on_error := (fun h i e => st_ret (h i e)) <$> handle_error
|}.
End method_ops.

(** ** Constructors *)

Section constructor_ops.
Context (store : list cpp_exception) (classes : list class_view)
  (handle_error : option (nat -> pyexn -> bool)) {so : SetOrder}.
Local Abbreviation vm := (constructor_methods store classes).

Definition on_constructor {B} (i : nat) (m : ST (obj_gen constructor_attrs) B)
    : ST (list constructor * code_sink) B :=
  fun st => match st.1 !! i with
            | None => (st, Raise IndexError)
            | Some o => let '((o, k), r) := m (o, st.2) in ((<[i := o]> st.1, k), r)
            end.
Definition constructor_only {B} (m : ST (list constructor * code_sink) B) : ST (list constructor) B :=
  fun cs => let '((cs', _), r) := m (cs, NullCodeSink) in (cs', r).
Definition constructor_attr {B} (a : forward_wrapper -> option B) (cs : list constructor) (i : nat) : option B :=
  cs !! i ≫= fun o => a (wo_base o).

(** Constructors have no entry in a method table. *)
Definition constructor_ops : WrapperOps (list constructor) := {|
  get_flags i := constructor_only (on_constructor i (self_world vm get_py_method_def_flags));
  Overloading.set_force_parse i z := constructor_only (on_constructor i (modify_base (set_force z)));
  set_error i e := constructor_only (on_constructor i
    (self_world vm (fun fw => set_parse_error_return fw e)));
  generate_wrapper i name extra :=
    on_constructor i (CppConstructor_generate store classes name extra) ;;; st_ret None;
  reset_wrapper i := constructor_only (on_constructor i
    (self_world vm forward_reset_code_generation_state));
  wrapper_base_name cs i := cs !! i ≫= fun o => cc_wrapper_base_name (wo_attrs o);
  wrapper_name_of := constructor_attr fw_wrapper_actual_name;
  wrapper_return_of := constructor_attr fw_wrapper_return;
  wrapper_args_of := constructor_attr fw_wrapper_args;
  section_of _ _ := None;
  method_def_of _ _ := st_raise AttributeError;
  needs_overloading_interface _ _ := false;
  on_error := (fun h i e => st_ret (h i e)) <$> handle_error
|}.
End constructor_ops.
