(* ===== verification/ClassCode.v ===== *)
(** * The code of C++ classes: [CppClass] in [pybindgen/cppclass.py]

    What a class writes about itself: its C structures, the functions of its type
    slots, its type map and the type object.  The slots live in the dictionary of
    the class; what the user put there stays. *)
From S2P Require Import Prelude.
From S2P Require Import Format.
From S2P Require Import CodeSink.
From S2P Require Import CodeBlock.
From S2P Require Import Wrapper.
From S2P Require Import TypeHandler.
From S2P Require Import WrapperBase.
From S2P Require Import Utils.
From S2P Require Import Overloading.
From S2P Require Import Settings.
From S2P Require Import CppException.
From S2P Require Import PyTypeObject.
From S2P Require Import WrapperRegistry.
From S2P Require Import MemoryPolicy.
From S2P Require Import WrapperObject.
From S2P Require Import CppMethod.
From S2P Require Import HelperClass.
From S2P Require Import ClassModel.
From S2P Require Import ClassMembers.
From S2P Require Import ClassOperators.

(** ** What a class asks of its module *)

(** The code blocks of the module, its one-time definitions and its includes. *)
Class ModuleOps (M : Type) : Type := {
  on_module_blocks : forall B : Type, ST heap B -> ST M B;
  module_declare_once : string -> ST M unit;
  module_add_include : module_view -> string -> ST M unit
}.
Arguments on_module_blocks {M _ B} _.

(** [module.parent is None]: the path of a root module has one component. *)
Definition view_is_root (m : module_view) : bool := Nat.eqb (length (mv_path m)) 1.

(** ** The text of the type map *)

Definition typemap_head : string :=
  join nls
    [EmptyString;
     EmptyString;
     "#include <map>";
     "#include <string>";
     "#include <typeinfo>";
     "#if defined(__GNUC__) && __GNUC__ >= 3";
     "# include <cxxabi.h>";
     "#endif";
     EmptyString;
     "#define PBG_TYPEMAP_DEBUG 0";
     EmptyString;
     "namespace pybindgen {";
     EmptyString;
     "class TypeMap";
     "{";
     "   std::map<std::string, PyTypeObject *> m_map;";
     EmptyString;
     "public:";
     EmptyString;
     "   TypeMap() {}";
     EmptyString;
     "   void register_wrapper(const std::type_info &cpp_type_info, PyTypeObject *python_wrapper)";
     "   {";
     EmptyString;
     "#if PBG_TYPEMAP_DEBUG";
     "   std::cerr << " +:+ dq +:+ "register_wrapper(this=" +:+ dq +:+ " << this << " +:+ dq
      +:+ ", type_name=" +:+ dq +:+ " << cpp_type_info.name()";
     "             << " +:+ dq +:+ ", python_wrapper=" +:+ dq +:+ " << python_wrapper->tp_name << "
      +:+ dq +:+ ")" +:+ dq +:+ " << std::endl;";
     "#endif";
     EmptyString;
     "       m_map[std::string(cpp_type_info.name())] = python_wrapper;";
     "   }";
     EmptyString;
     EmptyString].

Definition typemap_lookup_abi : string :=
  join nls
    [EmptyString;
     "   PyTypeObject * lookup_wrapper(const std::type_info &cpp_type_info, PyTypeObject *fallback_wrapper)";
     "   {";
     EmptyString;
     "#if PBG_TYPEMAP_DEBUG";
     "   std::cerr << " +:+ dq +:+ "lookup_wrapper(this=" +:+ dq +:+ " << this << " +:+ dq
      +:+ ", type_name=" +:+ dq +:+ " << cpp_type_info.name() << " +:+ dq +:+ ")" +:+ dq
      +:+ " << std::endl;";
     "#endif";
     EmptyString;
     "       PyTypeObject *python_wrapper = m_map[cpp_type_info.name()];";
     "       if (python_wrapper)";
     "           return python_wrapper;";
     "       else {";
     "#if defined(__GNUC__) && __GNUC__ >= 3";
     EmptyString;
     "           // Get closest (in the single inheritance tree provided by cxxabi.h)";
     "           // registered python wrapper.";
     "           const abi::__si_class_type_info *_typeinfo =";
     "               dynamic_cast<const abi::__si_class_type_info*> (&cpp_type_info);";
     "#if PBG_TYPEMAP_DEBUG";
     "          std::cerr << " +:+ dq +:+ "  -> looking at C++ type " +:+ dq
      +:+ " << _typeinfo->name() << std::endl;";
     "#endif";
     "           while (_typeinfo && (python_wrapper = m_map[std::string(_typeinfo->name())]) == 0) {";
     "               _typeinfo = dynamic_cast<const abi::__si_class_type_info*> (_typeinfo->__base_type);";
     "#if PBG_TYPEMAP_DEBUG";
     "               std::cerr << " +:+ dq +:+ "  -> looking at C++ type " +:+ dq
      +:+ " << _typeinfo->name() << std::endl;";
     "#endif";
     "           }";
     EmptyString;
     "#if PBG_TYPEMAP_DEBUG";
     "          if (python_wrapper) {";
     "              std::cerr << " +:+ dq +:+ "  -> found match " +:+ dq +:+ " << std::endl;";
     "          } else {";
     "              std::cerr << " +:+ dq +:+ "  -> return fallback wrapper" +:+ dq +:+ " << std::endl;";
     "          }";
     "#endif";
     EmptyString;
     "           return python_wrapper? python_wrapper : fallback_wrapper;";
     EmptyString;
     "#else // non gcc 3+ compilers can only match against explicitly registered classes, not hidden subclasses";
     "           return fallback_wrapper;";
     "#endif";
     "       }";
     "   }";
     "};";
     EmptyString;
     "}";
     EmptyString].

Definition typemap_lookup_plain : string :=
  join nls
    [EmptyString;
     "   PyTypeObject * lookup_wrapper(const std::type_info &cpp_type_info, PyTypeObject *fallback_wrapper)";
     "   {";
     EmptyString;
     "#if PBG_TYPEMAP_DEBUG";
     "   std::cerr << " +:+ dq +:+ "lookup_wrapper(this=" +:+ dq +:+ " << this << " +:+ dq
      +:+ ", type_name=" +:+ dq +:+ " << cpp_type_info.name() << " +:+ dq +:+ ")" +:+ dq
      +:+ " << std::endl;";
     "#endif";
     EmptyString;
     "       PyTypeObject *python_wrapper = m_map[cpp_type_info.name()];";
     "       return python_wrapper? python_wrapper : fallback_wrapper;";
     "   }";
     "};";
     EmptyString;
     "}";
     EmptyString].

Definition typemap_text (g : settings) : string :=
  if gcc_rtti_abi_complete g then typemap_lookup_abi else typemap_lookup_plain.

(** ** The text of the slots *)

Section text.
Context {A : Type}.
Local Abbreviation cpp_class := (class_object A).

Definition full_name (c : cpp_class) : string := str_opt (nm_full_name (cl_names c)).
Definition pytypestruct (c : cpp_class) : string := nm_pytypestruct (cl_names c).
Definition imported (c : cpp_class) : bool := truthy (cf_import_from_module (cl_config c)).

(** The structure of the instances. *)
Definition struct_lines (c : cpp_class) (pystruct : string) : string :=
  join nls
    ([EmptyString; "typedef struct {"; "    PyObject_HEAD"; "    " +:+ full_name c +:+ " *obj;"]
     ++ (if cf_allow_subclassing (cl_config c) then ["    PyObject *inst_dict;"] else [])
     ++ ["    PyBindGenWrapperFlags flags:8;"; "} " +:+ pystruct +:+ ";"; "    "]).

(** [_get_delete_code] *)
Definition get_delete_code (c : cpp_class) : res string :=
  if cf_is_singleton (cl_config c) then Ok EmptyString
  else
    match cf_memory_policy (cl_config c) with
    | Some policy =>
        Ok (join nls ["if (self->obj) {";
                      "    " +:+ full_name c +:+ " *tmp = self->obj;";
                      "    self->obj = NULL;";
                      "    " +:+ get_free_code policy "tmp";
                      "}"])
    | None =>
        if cf_incomplete_type (cl_config c) then
          Raise (CodeGenerationError ("Cannot finish generating class " +:+ full_name c
                 +:+ ": type is incomplete, but no free/unref_function defined"))
        else if String.eqb (cf_destructor_visibility (cl_config c)) "public" then
          Ok (join nls ["    " +:+ full_name c +:+ " *tmp = self->obj;";
                        "    self->obj = NULL;";
                        "    if (!(self->flags&PYBINDGEN_WRAPPER_FLAG_OBJECT_NOT_OWNED)) {";
                        "        delete tmp;";
                        "    }"])
        else Ok ("    self->obj = NULL;" +:+ nls)
    end.

Definition tp_clear_text (name pystruct delete_code : string) : string :=
  join nls [EmptyString; "static void"; name +:+ "(" +:+ pystruct +:+ " *self)"; "{";
            "    Py_CLEAR(self->inst_dict);"; "    " +:+ delete_code; "}"; EmptyString].

(** A wrapper with a helper class keeps itself alive, unless somebody else holds a
    reference to the object. *)
Definition peekref_code (policy : option memory_policy) : string :=
  match policy with
  | Some (ReferenceCountingMethodsPolicy _ _ (Some m)) => " && self->obj->" +:+ m +:+ "() == 1"
  | _ => EmptyString
  end.
Definition visit_self (c : cpp_class) : string :=
  match cl_helper_class c with
  | None => EmptyString
  | Some h =>
      join nls [EmptyString;
                "    if (self->obj && typeid(*self->obj).name() == typeid(" +:+ he_name h +:+ ").name() "
                +:+ peekref_code (cf_memory_policy (cl_config c)) +:+ ")";
                "        Py_VISIT((PyObject *) self);"; EmptyString]
  end.
Definition tp_traverse_text (name pystruct visit : string) : string :=
  join nls [EmptyString; "static int";
            name +:+ "(" +:+ pystruct +:+ " *self, visitproc visit, void *arg)"; "{";
            "    Py_VISIT(self->inst_dict);"; "    " +:+ visit; "    return 0;"; "}"; EmptyString].

Definition tp_str_text (name pystruct : string) : string :=
  join nls [EmptyString; EmptyString; "static PyObject *"; name +:+ "(" +:+ pystruct +:+ " *self)"; "{";
            "    std::ostringstream oss;"; "    oss << *self->obj;";
            "    return PyString_FromString(oss.str ().c_str ());"; "}"; EmptyString; EmptyString].
Definition tp_hash_text (name pystruct : string) : string :=
  join nls [EmptyString; EmptyString; "static long"; name +:+ "(" +:+ pystruct +:+ " *self)"; "{";
            "    return (long) self->obj;"; "}"; EmptyString; EmptyString].
Definition tp_compare_text (name pystruct : string) : string :=
  join nls [EmptyString; EmptyString; "static int";
            name +:+ "(" +:+ pystruct +:+ " *self, " +:+ pystruct +:+ " *other)"; "{";
            "    if (self->obj == other->obj) return 0;"; "    if (self->obj > other->obj)  return -1;";
            "    return 1;"; "}"; EmptyString; EmptyString].

(** The flags of the type. *)
Definition type_flags (c : cpp_class) : gset string :=
  {["Py_TPFLAGS_DEFAULT"]}
  ∪ (if cf_allow_subclassing (cl_config c) then {["Py_TPFLAGS_HAVE_GC"; "Py_TPFLAGS_BASETYPE"]} else ∅)
  ∪ (if bool_decide (op_binary (cl_operators c) = ∅) then ∅ else {["Py_TPFLAGS_CHECKTYPES"]}).
Definition tp_doc (docstring : option string) : string :=
  match docstring with None => "NULL" | Some d => dq +:+ d +:+ dq end.
Definition dict_offset (c : cpp_class) (pystruct : string) : string :=
  if cf_allow_subclassing (cl_config c) then "offsetof(" +:+ pystruct +:+ ", inst_dict)" else "0".
End text.

(** ** Generating a class *)

Section class_code.
Context {A M : Type} {module_ops : ModuleOps M} (g : settings)
  (make_registry : string -> wrapper_registry) {so : SetOrder} {dict_order : DictOrder}.
Local Abbreviation cpp_class := (class_object A).
Local Abbreviation classes := (list cpp_class).
Local Abbreviation cgen := ((classes * M) * code_sink)%type.

Definition in_classes {B} (m : ST classes B) : ST cgen B := on_fst (on_fst m).
Definition in_module {B} (m : ST M B) : ST cgen B := on_fst (on_snd m).
Definition in_blocks {B} (m : ST heap B) : ST cgen B := in_module (on_module_blocks m).
Definition self (i : nat) : ST cgen cpp_class := in_classes (the_cpp_class i).

(** Code for the blocks of the module and for the sink. *)
Definition in_blocks_and_sink {B} (m : ST (heap * code_sink) B) : ST cgen B :=
  fun st =>
    let '(s, r) := on_module_blocks (fun h => let '((h, k), r) := m (h, st.2) in (h, Ok (k, r))) st.1.2 in
    match r with
    | Ok (k, r) => (((st.1.1, s), k), r)
    | Raise e => (((st.1.1, s), st.2), Raise e)
    end.

(** [self.slots.setdefault(key, value)] and [self.slots[key] = value] *)
Definition set_slots (slots : gmap string string) (c : cpp_class) : cpp_class :=
  CppClass _ A (cl_config c) (cl_module c) (cl_names c) (cl_members c) (cl_status c) (cl_operators c)
    (cl_helper_class c) (cl_helper_class_hooks c) (cl_instance_creation c)
    (cl_post_instance_creation c) (cl_implicitly_converts_from c) slots.
Definition default_slot (i : nat) (key value : string) : ST cgen unit :=
  in_classes (update_class i (fun c => set_slots (setdefault (cl_slots c) (key, value)) c)).
Definition put_slot (i : nat) (key value : string) : ST cgen unit :=
  in_classes (update_class i (fun c => set_slots (<[key := value]> (cl_slots c)) c)).

(** [module.after_init.write_code] *)
Definition after_init (m : module_view) (code : string) : ST cgen unit :=
  in_blocks (write_code (mv_after_init m) code).
Definition registry_of (i : nat) : ST cgen wrapper_registry :=
  in_classes (get_wrapper_registry make_registry i).
Definition pystruct_of (i : nat) : ST cgen string := c <- self i ;; st_lift (class_pystruct c).

(** ** The functions of the slots *)

(** A slot that gets a name first and then the function, if the user has not put
    something there. *)
Definition generate_slot (i : nat) (slot name text : string) : ST cgen unit :=
  default_slot i slot name ;;; sink_writeln text.

(** [_generate_gc_methods] *)
Definition generate_gc_methods (i : nat) : ST cgen unit :=
  pystruct <- pystruct_of i ;;
  default_slot i "tp_clear" (pystruct +:+ "__tp_clear") ;;;
  c <- self i ;;
  delete_code <- st_lift (get_delete_code c) ;;
  sink_writeln (tp_clear_text (pystruct +:+ "__tp_clear") pystruct delete_code) ;;;
  generate_slot i "tp_traverse" (pystruct +:+ "__tp_traverse")
    (tp_traverse_text (pystruct +:+ "__tp_traverse") pystruct (visit_self c)).

(** [_generate_str], [_generate_tp_hash] and [_generate_tp_compare]; the last two
    are not called. *)
Definition generate_str (i : nat) : ST cgen unit :=
  pystruct <- pystruct_of i ;;
  let name := "_wrap_" +:+ pystruct +:+ "__tp_str" in
  generate_slot i "tp_str" name (tp_str_text name pystruct).
Definition generate_tp_hash (i : nat) : ST cgen unit :=
  pystruct <- pystruct_of i ;;
  let name := "_wrap_" +:+ pystruct +:+ "__tp_hash" in
  generate_slot i "tp_hash" name (tp_hash_text name pystruct).
Definition generate_tp_compare (i : nat) : ST cgen unit :=
  pystruct <- pystruct_of i ;;
  let name := "_wrap_" +:+ pystruct +:+ "__tp_compare" in
  generate_slot i "tp_compare" name (tp_compare_text name pystruct).

(** A block of its own for the body of a function, with its declarations. *)
Definition new_function_block (error_return : string) : ST heap nat :=
  declarations <- DeclarationsScope None ;; CodeBlock error_return declarations None.
Definition flush_block_declarations (b : nat) : ST (heap * code_sink) unit :=
  block <- on_fst (deref h_blocks b) ;; flush_scope_to (cb_declarations block).

(** [_generate_destructor]; nothing when the user has a destructor of his own *)
Definition delete_self (c : cpp_class) (b : nat) : ST cgen unit :=
  if cf_allow_subclassing (cl_config c) then
    match cl_slots c !! "tp_clear" with
    | None => st_raise KeyError
    | Some tp_clear => in_blocks (write_code b (tp_clear +:+ "(self);"))
    end
  else
    delete_code <- st_lift (get_delete_code c) ;;
    in_blocks (write_code b delete_code).
Definition generate_destructor (i : nat) : ST cgen unit :=
  c <- self i ;;
  match cl_slots c !! "tp_dealloc" with
  | Some _ => st_ret tt
  | None =>
      pystruct <- st_lift (class_pystruct c) ;;
      let name := "_wrap_" +:+ pystruct +:+ "__tp_dealloc" in
      sink_writeln (join nls [EmptyString; "static void"; name +:+ "(" +:+ pystruct +:+ " *self)"; "{"]) ;;;
      sink_indent ;;;
      b <- in_blocks (new_function_block "PyErr_Print(); return;") ;;
      registry <- registry_of i ;;
      in_blocks (write_unregister_wrapper registry b "self" "self->obj") ;;;
      delete_self c b ;;;
      in_blocks (write_code b "self->ob_type->tp_free((PyObject*)self);") ;;;
      in_blocks (write_cleanup b) ;;;
      in_blocks_and_sink (flush_block_declarations b) ;;;
      in_blocks_and_sink (flush_block_to b) ;;;
      sink_unindent ;;;
      sink_writeln ("}" +:+ nls) ;;;
      default_slot i "tp_dealloc" name
  end.

(** [_generate_copy_method]: the name of the function *)
Definition write_instance_copy (c : cpp_class) (pystruct construct_name : string) (registry : wrapper_registry)
    (b : nat) : ST heap string :=
  let subclassing := cf_allow_subclassing (cl_config c) in
  py_copy <- block_declare_variable b (pystruct +:+ "*") "py_copy" None None ;;
  write_code b (py_copy +:+ " = " +:+ (if subclassing then "PyObject_GC_New" else "PyObject_New")
                +:+ "(" +:+ pystruct +:+ ", &" +:+ pytypestruct c +:+ ");") ;;;
  write_code b (py_copy +:+ "->obj = new " +:+ construct_name +:+ "(*self->obj);") ;;;
  st_when subclassing (write_code b (py_copy +:+ "->inst_dict = NULL;")) ;;;
  write_code b (py_copy +:+ "->flags = PYBINDGEN_WRAPPER_FLAG_NONE;") ;;;
  write_register_new_wrapper registry b py_copy (py_copy +:+ "->obj") ;;;
  write_code b ("return (PyObject*) " +:+ py_copy +:+ ";") ;;;
  st_ret py_copy.
Definition generate_copy_method (i : nat) : ST cgen string :=
  construct_name <- in_classes (get_construct_name i) ;;
  c <- self i ;;
  pystruct <- st_lift (class_pystruct c) ;;
  let name := "_wrap_" +:+ pystruct +:+ "__copy__" in
  sink_writeln (join nls [EmptyString; "static PyObject*"; name +:+ "(" +:+ pystruct +:+ " *self)"; "{";
                          EmptyString]) ;;;
  sink_indent ;;;
  b <- in_blocks (new_function_block "return NULL;") ;;
  registry <- registry_of i ;;
  in_blocks (write_instance_copy c pystruct construct_name registry b) ;;;
  in_blocks_and_sink (flush_block_declarations b) ;;;
  in_blocks (write_cleanup b) ;;;
  in_blocks_and_sink (flush_block_to b) ;;;
  sink_unindent ;;;
  sink_writeln "}" ;;;
  sink_writeln EmptyString ;;;
  st_ret name.

(** ** [_generate_type_structure] *)

(** The Python name of the type, with the path of its module or its outer class. *)
Definition type_name (cs : classes) (c : cpp_class) : res string :=
  match cf_outer_class (cl_config c) with
  | None =>
      match cl_module c, nm_mangled_name (cl_names c) with
      | None, _ => Raise AttributeError
      | Some _, None => Raise TypeError
      | Some m, Some n => Ok (join "." (mv_path m ++ [n]))
      end
  | Some o =>
      match cs !! o with
      | None => Raise AttributeError
      | Some outer =>
          match cl_slots outer !! "tp_name" with
          | None => Raise KeyError
          | Some n => Ok (n +:+ "." +:+ cf_name (cl_config c))
          end
      end
  end.

(** "tp_call support" *)
Definition call_slot (c : cpp_class) : list (string * string) :=
  match mb_methods (cl_members c) !! "__call__" with
  | None => []
  | Some o => [("tp_call", str_opt (ov_wrapper_actual_name o))]
  end.

(** The slots that are set before the name and the call. *)
Definition type_slots (c : cpp_class) (pystruct : string) : list (string * string) :=
  [("tp_basicsize", "sizeof(" +:+ pystruct +:+ ")");
   ("tp_dictoffset", dict_offset c pystruct);
   ("tp_flags", join "|" (set_list (type_flags c)));
   ("tp_doc", tp_doc (cf_docstring (cl_config c)));
   ("typestruct", pytypestruct c)].
Definition default_slots (i : nat) (l : list (string * string)) : ST cgen unit :=
  st_iter (fun kv => default_slot i kv.1 kv.2) l.
Definition generate_type_structure (i : nat) : ST cgen unit :=
  c <- self i ;;
  pystruct <- st_lift (class_pystruct c) ;;
  default_slots i (type_slots c pystruct) ;;;
  cs <- in_classes (st_get (fun cs => cs)) ;;
  tp_name <- st_lift (type_name cs c) ;;
  default_slots i (("tp_name", tp_name) :: call_slot c) ;;;
  c <- self i ;;
  write_table PyTypeObject_generate (cl_slots c).

(** ** Type maps *)

(** [_register_typeid]: in the type map of the root of the narrowed classes *)
Definition register_typeid (i : nat) (m : module_view) : ST cgen unit :=
  cs <- in_classes (st_get (fun cs => cs)) ;;
  c <- self i ;;
  match get_type_narrowing_root cs i ≫= fun r => cs !! r with
  | None => st_raise AttributeError
  | Some root =>
      after_init m (str_opt (nm_typeid_map_name (cl_names root)) +:+ ".register_wrapper(typeid("
                    +:+ full_name c +:+ "), &" +:+ pytypestruct c +:+ ");")
  end.

(** [_generate_typeid_map]: the C++ class comes once for all modules *)
Definition declare_typemap : ST cgen unit :=
  first <- st_catch (in_module (module_declare_once "TypeIDMap") ;;; st_ret true)
             (fun e => match e with KeyError => st_ret false | _ => st_raise e end) ;;
  st_when first (sink_writeln typemap_head ;;; sink_writeln (typemap_text g)).
Definition generate_typeid_map (i : nat) (map_name : string) : ST cgen unit :=
  declare_typemap ;;;
  c <- self i ;;
  if imported c then
    sink_writeln (nls +:+ "extern pybindgen::TypeMap *_" +:+ map_name +:+ ";" +:+ nls) ;;;
    sink_writeln ("#define " +:+ map_name +:+ " (*_" +:+ map_name +:+ ")" +:+ nls)
  else sink_writeln (nls +:+ "extern pybindgen::TypeMap " +:+ map_name +:+ ";" +:+ nls).

(** [generate_typedef] *)
Definition generate_typedef (i : nat) (m : module_view) (alias : string) : ST cgen unit :=
  c <- self i ;;
  after_init m ("PyModule_AddObject(m, (char *) " +:+ dq +:+ alias +:+ dq +:+ ", (PyObject *) &"
                +:+ pytypestruct c +:+ ");").

(** ** Importing a class *)

(** [s.split(sep)] at the first [sep] *)
Fixpoint split_at (sep s : string) : option (string * string) :=
  if startswith sep s then
    Some (EmptyString, substring (String.length sep) (String.length s) s)
  else match s with
       | EmptyString => None
       | String a s => match split_at sep s with Some (l, r) => Some (String a l, r) | None => None end
       end.
(** The name of the module in [module named type]; the name of the type is not used. *)
Definition import_module_name (import_from : string) : res string :=
  match split_at " named " import_from with
  | None => Ok import_from
  | Some (module_name, type_name) =>
      match split_at " named " type_name with None => Ok module_name | Some _ => Raise ValueError end
  end.

Definition in_module_and_sink {B} (m : ST (M * code_sink) B) : ST cgen B :=
  fun st => let '((s, k), r) := m (st.1.2, st.2) in (((st.1.1, s), k), r).

Definition import_type_lines (error_retcode : string) : string :=
  join nls ["if (module == NULL) {"; "    return " +:+ error_retcode +:+ ";"; "}"].
Definition import_map_lines (map_name : string) : string :=
  join nls ["if (_cobj == NULL) {";
            "    _" +:+ map_name +:+ " = new pybindgen::TypeMap;";
            "    PyErr_Clear();";
            "} else {";
            "    _" +:+ map_name
            +:+ " = reinterpret_cast<pybindgen::TypeMap*> (PyCObject_AsVoidPtr (_cobj));";
            "    Py_DECREF(_cobj);";
            "}"].

Definition import_type (c : cpp_class) (m : module_view) (import_from module_name : string) : ST cgen unit :=
  after_init m ("/* Import the " +:+ py_repr_opt (nm_full_name (cl_names c)) +:+ " class from module "
                +:+ py_repr import_from +:+ " */") ;;;
  after_init m "{" ;;;
  in_blocks (block_indent (mv_after_init m)) ;;;
  after_init m ("PyObject *module = PyImport_ImportModule((char*) " +:+ dq +:+ module_name +:+ dq +:+ ");") ;;;
  after_init m (import_type_lines (if view_is_root m then EmptyString else "NULL")) ;;;
  after_init m ("_" +:+ pytypestruct c +:+ " = (PyTypeObject*) PyObject_GetAttrString(module, (char*) "
                +:+ dq +:+ get_python_name c +:+ dq +:+ ");" +:+ nls) ;;;
  after_init m "if (PyErr_Occurred()) PyErr_Clear();".
Definition import_typeid_map (c : cpp_class) (m : module_view) (import_from map_name : string) : ST cgen unit :=
  sink_writeln ("pybindgen::TypeMap *_" +:+ map_name +:+ ";") ;;;
  after_init m ("/* Import the " +:+ py_repr_opt (nm_full_name (cl_names c))
                +:+ " class type map from module " +:+ py_repr import_from +:+ " */") ;;;
  after_init m ("PyObject *_cobj = PyObject_GetAttrString(module, (char*) " +:+ dq +:+ "_" +:+ map_name
                +:+ dq +:+ ");") ;;;
  after_init m (import_map_lines map_name).

End class_code.

(** ** The type structure is complete *)

Section type_structure.
Context {A M : Type} {module_ops : ModuleOps M} {so : SetOrder}.
Local Abbreviation cpp_class := (class_object A).
Local Abbreviation classes := (list cpp_class).
Local Abbreviation cgen := ((classes * M) * code_sink)%type.

Lemma set_slots_twice a b (c : cpp_class) : set_slots a (set_slots b c) = set_slots a c.
Proof. done. Qed.
Lemma default_slots_run i l : forall (cs : classes) (s : M) k c, cs !! i = Some c ->
  default_slots i l ((cs, s), k) = (((<[i := set_slots (fold_left setdefault l (cl_slots c)) c]> cs, s), k), Ok tt).
Proof.
  induction l as [|[key v] l IH]; intros cs s k c Hc; cbn [fold_left].
  - unfold default_slots. cbn. rewrite list_insert_id; [done|]. rewrite Hc. by destruct c.
  - unfold default_slots. cbn [st_iter fst snd]. unfold st_bind at 1.
    assert (default_slot i key v ((cs, s), k)
            = (((<[i := set_slots (setdefault (cl_slots c) (key, v)) c]> cs, s), k), Ok tt)) as ->.
    { unfold default_slot, in_classes, on_fst, update_class, the_cpp_class, st_bind, st_modify. cbn. by rewrite Hc. }
    unfold default_slots in IH. erewrite IH by (by apply list_lookup_insert_eq; eapply lookup_lt_Some).
    by rewrite list_insert_insert_eq, set_slots_twice.
Qed.

(** C18: The type object.  A class with a module writes its whole type object: whatever
    slots the user or the generators have filled before keep their values, the
    others get those the class computes, and whatever is still missing has the
    default of the template, so that no key of the template is left out. *)
Theorem type_structure_complete (i : nat) (cs : classes) (s : M) (k : code_sink) (c : cpp_class)
    (pystruct tp_name : string) :
  cs !! i = Some c -> class_pystruct c = Ok pystruct -> cf_outer_class (cl_config c) <> Some i ->
  type_name cs c = Ok tp_name ->
  let computed := type_slots c pystruct ++ ("tp_name", tp_name) :: call_slot c in
  exists slots text,
    generate_type_structure i ((cs, s), k)
      = (((<[i := set_slots slots c]> cs, s), writeln k text), Ok tt)
    /\ format_dict PyTypeObject_TEMPLATE (fun key =>
         match slots !! key with
         | Some v => Some v
         | None => (list_to_map PyTypeObject_defaults : gmap string string) !! key
         end) = Ok text
    /\ forall key, slots !! key = match cl_slots c !! key with
                                  | Some v => Some v
                                  | None => (list_to_map computed : gmap string string) !! key
                                  end.
Proof.
  intros Hc Hp Ho Hn computed. set (slots := fold_left setdefault computed (cl_slots c)).
  assert (forall key, slots !! key = match cl_slots c !! key with
            | Some v => Some v | None => (list_to_map computed : gmap string string) !! key end) as Hs
    by (intros key; apply lookup_setdefaults).
  destruct (generate_table_spec PyTypeObject_TEMPLATE PyTypeObject_defaults ["typestruct"; "tp_name"; "tp_basicsize"]
    slots k) as [Ht _]; [vm_compute; reflexivity..|].
  destruct Ht as (text&Et&Ef).
  { assert (forall key, key ∈ map fst computed -> is_Some (slots !! key)) as Hin.
    { intros key Hk. rewrite Hs. destruct (cl_slots c !! key); [by eexists|]. apply elem_of_dom.
      rewrite dom_list_to_map_L. by apply elem_of_list_to_set. }
    repeat first [apply List.Forall_cons | apply List.Forall_nil]; apply Hin; cbn; set_solver. }
  exists slots, text. split; [|by split]. unfold generate_type_structure.
  assert (forall cs' : classes, cs' !! i = Some c -> self i ((cs', s), k) = (((cs', s), k), Ok c)) as Hself.
  { intros cs' H. unfold self, in_classes, on_fst, the_cpp_class. cbn. by rewrite H. }
  unfold st_bind at 1. rewrite (Hself _ Hc). unfold st_bind at 1, st_lift at 1. rewrite Hp.
  unfold st_bind at 1. rewrite (default_slots_run i _ cs s k c Hc).
  unfold st_bind at 1, in_classes at 1, on_fst, st_get. cbn [fst snd].
  assert (type_name (<[i := set_slots (fold_left setdefault (type_slots c pystruct) (cl_slots c)) c]> cs) c
          = Ok tp_name) as Hn'.
  { revert Hn. unfold type_name. destruct (cf_outer_class (cl_config c)) as [o|]; [|done].
    by rewrite list_lookup_insert_ne by congruence. }
  unfold st_bind at 1, st_lift at 1. rewrite Hn'. unfold st_bind at 1.
  assert (i < length cs)%nat as Hi by by eapply lookup_lt_Some.
  erewrite default_slots_run by by apply list_lookup_insert_eq.
  rewrite list_insert_insert_eq, set_slots_twice. cbn [cl_slots set_slots]. rewrite <- fold_left_app.
  fold computed. change (fold_left setdefault computed (cl_slots c)) with slots.
  unfold st_bind, self, in_classes, on_fst, the_cpp_class. cbn [fst snd].
  rewrite list_lookup_insert_eq by done. unfold write_table, PyTypeObject_generate. cbn [cl_slots set_slots fst snd].
  by rewrite Et.
Qed.
End type_structure.

(** ** A sample class *)

(** A module that is no more than its blocks. *)
#[export] Instance heap_module_ops : ModuleOps heap := {|
  on_module_blocks B m := m;
  module_declare_once _ := st_ret tt;
  module_add_include _ _ := st_ret tt
|}.
Definition demo_view : module_view := ModuleView "mod" "ns" ["mod"] 0.
Definition demo_object (slots : gmap string string) : class_object unit :=
  let config := demo_config "Foo" [] in
  set_slots slots (set_names (new_class config) (Some demo_view) (names_for default_settings config "ns::Foo")).
Definition demo_blocks : heap := (new_function_block "return;" empty_heap).1.

Lemma type_structure_complete_witness :
  exists st slots, generate_type_structure 0 (([demo_object {["tp_repr" := "my_repr"]}], demo_blocks), MemoryCodeSink)
    = (st, Ok tt)
  /\ st.1.1 = [demo_object slots] /\ slots !! "tp_repr" = Some "my_repr" /\ slots !! "tp_name" = Some "mod.Foo".
Proof.
  destruct (type_structure_complete 0 [demo_object {["tp_repr" := "my_repr"]}] demo_blocks MemoryCodeSink
    (demo_object {["tp_repr" := "my_repr"]}) "PyNsFoo" "mod.Foo" eq_refl eq_refl) as (slots&text&E&_&H).
  - discriminate.
  - reflexivity.
  - eexists _, slots. split; [exact E|]. split; [reflexivity|]. split; rewrite H; reflexivity.
Defined.
