(* ===== verification/ClassGenerate.v ===== *)
(** * Generating C++ classes: [CppClass.generate] in [pybindgen/cppclass.py]

    The forward declarations and the code of a class: helper class, attributes,
    constructor, method table and type object, on the state of the classes, of their
    module and of the sink. *)
From S2P Require Import Prelude.
From S2P Require Import Format.
From S2P Require Import CodeSink.
From S2P Require Import CodeBlock.
From S2P Require Import Wrapper.
From S2P Require Import TypeHandler.
From S2P Require Import WrapperBase.
From S2P Require Import Utils.
From S2P Require Import Overloading.
From S2P Require Import Settings.
From S2P Require Import CppException.
From S2P Require Import PyTypeObject.
From S2P Require Import WrapperRegistry.
From S2P Require Import WrapperObject.
From S2P Require Import Function.
From S2P Require Import FunctionOverload.
From S2P Require Import CppMethod.
From S2P Require Import CppAttribute.
From S2P Require Import HelperClass.
From S2P Require Import ClassModel.
From S2P Require Import ClassMembers.
From S2P Require Import ClassOperators.
From S2P Require Import ClassWrappers.
From S2P Require Import ClassCode.

(** What the error handler of the settings is asked about. *)
Inductive class_part : Type :=
  | HelperPart (w : helper_wrapper)
  | MethodPart (name : string) (number : nat)
  | MethodsPart (name : string)
  | ConstructorPart (number : nat)
  | ParentMethodPart (name : string) (number : nat)
  | ParentMethodsPart (name : string)
  | AccessorPart
  | WholeClass.
Section class_generate.
Context {A M K : Type} {module_ops : ModuleOps M} (g : settings)
  (make_registry : string -> wrapper_registry) {so : SetOrder} {dict_order : DictOrder}
  (store : list cpp_exception) (trivial_class_return : return_handler -> bool)
  (handle_error : option (class_part -> pyexn -> bool)) (no_kwargs : K)
  (new_param : list (@spec_item pyval K) -> K -> ST world param_handler)
  (new_return : list (@spec_item pyval K) -> K -> ST world return_handler)
  (on_error : error_handler world).
Local Abbreviation cpp_class := (class_object A).
Local Abbreviation classes := (list cpp_class).
Local Abbreviation cgen := ((classes * M) * code_sink)%type.

(** What a class gets from elsewhere: the hooks of the user, the getters and setters
    of its attributes, the code of its container traits, and the converters of its
    module. *)
Context (run_hook : A -> ST cpp_helper_class unit)
  (instance_attributes static_attributes : nat -> getset_def (S:=classes * M))
  (container_forward container_generate : nat -> option (module_view -> ST cgen unit))
  (python_to_c_converter c_to_python_converter : converted -> ST cgen string).

(** ** Helper classes *)

Definition handler_part {S} (p : class_part) : error_handler S :=
  (fun h e => st_ret (h p e)) <$> handle_error.
Definition handle_parts {P} (part : P -> class_part) : option (P -> pyexn -> bool) :=
  (fun h p => h (part p)) <$> handle_error.

Definition target_of (c : cpp_class) : helper_target :=
  HelperTarget (full_name c) (imported c)
    (map (fun k => fw_parameters (wo_base k)) (mb_constructors (cl_members c))).
Definition on_helper_code {B} (i : nat)
    (m : list class_view -> helper_target -> ST (cpp_helper_class * code_sink) B) : ST cgen B :=
  fun st =>
    match st.1.1 !! i with
    | Some c =>
        match cl_helper_class c with
        | None => (st, Raise AttributeError)
        | Some h =>
            let '((h, k), r) := m (views st.1.1) (target_of c) (h, st.2) in
            (((alter (set_helper (Some h)) i st.1.1, st.1.2), k), r)
        end
    | None => (st, Raise AttributeError)
    end.
Definition generate_helper (i : nat) : ST cgen (option (list string)) :=
  on_helper_code i (fun vs target =>
    helper_generate g store vs trivial_class_return (handle_parts HelperPart) target).

(** [_generate_import_from_module] *)
Definition generate_import_from_module (i : nat) (m : module_view) : ST cgen unit :=
  c <- self i ;;
  let import_from := str_opt (cf_import_from_module (cl_config c)) in
  module_name <- st_lift (import_module_name import_from) ;;
  sink_writeln ("PyTypeObject *_" +:+ pytypestruct c +:+ ";") ;;;
  import_type c m import_from module_name ;;;
  match nm_typeid_map_name (cl_names c) with
  | None => st_ret tt
  | Some map_name => import_typeid_map c m import_from map_name
  end ;;;
  st_when (bool_decide (cl_parent c = None))
    (registry <- registry_of make_registry i ;;
     in_blocks_and_sink (registry_generate_import registry (mv_after_init m) "module")) ;;;
  in_blocks (block_unindent (mv_after_init m)) ;;;
  after_init m "}" ;;;
  st_when (bool_decide (is_Some (cl_helper_class c))) (generate_helper i ;;; st_ret tt).

(** ** [generate_forward_declarations] *)

(** The helper class is given up when it cannot be made. *)
Definition run_hooks (i : nat) : ST cgen unit :=
  cs <- in_classes (st_get (fun cs => cs)) ;;
  hooks <- st_lift (get_all_helper_class_hooks cs i) ;;
  st_iter (fun hook => on_fst (on_helper i (fun _ => run_hook hook))) hooks.
Definition drop_helper (i : nat) : ST cgen unit :=
  c <- self i ;;
  match cl_helper_class c with
  | None => st_raise AttributeError
  | Some h =>
      st_when (he_cannot_be_constructed h)
        (in_classes (update_class i (fun c => on_status (with_helper_disabled true) (set_helper None c))))
  end.
Definition declare_helper_class (i : nat) : ST cgen unit :=
  on_fst (inherit_helper_class_parent_virtuals g no_kwargs new_param new_return on_error i) ;;;
  run_hooks i ;;;
  on_helper_code i (fun vs target =>
    helper_forward_declarations g store vs trivial_class_return (handle_parts HelperPart)
      target) ;;;
  drop_helper i.

Definition no_helper_reason : string := "have pure virtual methods but no helper class".
Definition check_constructible (i : nat) : ST cgen unit :=
  pure <- in_classes (get_have_pure_virtual_methods i) ;;
  c <- self i ;;
  st_when (pure && bool_decide (cl_helper_class c = None))
    (on_fst (set_cannot_be_constructed i no_helper_reason)).

(** The type object; the metaclass is declared without the prefix of the settings. *)
Definition declare_type_object (i : nat) (c : cpp_class) : ST cgen unit :=
  if imported c then
    sink_writeln ("extern PyTypeObject *_" +:+ pytypestruct c +:+ ";") ;;;
    sink_writeln ("#define " +:+ pytypestruct c +:+ " (*_" +:+ pytypestruct c +:+ ")")
  else
    sink_writeln ("extern PyTypeObject " +:+ pytypestruct c +:+ ";") ;;;
    st_when (negb (getset_empty (static_attributes i)))
      (sink_writeln ("extern PyTypeObject Py" +:+ nm_metaclass_name (cl_names c) +:+ "_Type;")).

Definition class_forward_declarations (i : nat) (m : module_view) : ST cgen unit :=
  c <- self i ;;
  pystruct <- st_lift (class_pystruct c) ;;
  sink_writeln (struct_lines c pystruct) ;;;
  sink_writeln EmptyString ;;;
  declare_type_object i c ;;;
  sink_writeln EmptyString ;;;
  st_when (bool_decide (is_Some (cl_helper_class c))) (declare_helper_class i) ;;;
  check_constructible i ;;;
  match nm_typeid_map_name (cl_names c) with
  | None => st_ret tt
  | Some map_name => generate_typeid_map g i map_name
  end ;;;
  match container_forward i with None => st_ret tt | Some declare => declare m end ;;;
  st_when (bool_decide (cl_parent c = None))
    (registry <- registry_of make_registry i ;;
     in_module_and_sink (registry_forward_declarations (module_add_include m) registry (imported c))).

(** ** The constructor *)

(** An overloaded wrapper of the function itself. *)
Definition on_local {W B} (o : overloaded W) (m : ST (overloaded W * code_sink) B)
    : ST cgen (overloaded W * B) :=
  fun st => let '((o, k), r) := m (o, st.2) in
            ((st.1, k), match r with Ok b => Ok (o, b) | Raise e => Raise e end).
Definition set_constructors (l : list constructor) (b : class_members) : class_members :=
  ClassMembers (mb_methods b) (mb_dummy_methods b) (mb_nonpublic_methods b) l.

Definition can_construct (c : cpp_class) : bool :=
  negb (truthy (Some (ss_cannot_be_constructed (cl_status c))))
  || match cl_helper_class c with Some h => negb (he_cannot_be_constructed h) | None => false end.
Definition write_constructors (i : nat) (c : cpp_class) (pystruct : string)
    : ST cgen (option string * bool) :=
  cs <- in_classes (st_get (fun cs => cs)) ;;
  let ops := constructor_ops store (views cs) (handle_parts ConstructorPart) in
  let l := mb_constructors (cl_members c) in
  r <- on_local (Overloaded l (seq 0 (length l)) None None None None pystruct)
         (st_catch (generate (WrapperOps0:=ops) "int" "return -1;" ;;; st_ret true)
            (fun e => match e with SkipWrapper => st_ret false | _ => st_raise e end)) ;;
  in_classes (update_class i (on_members (set_constructors (ov_world r.1)))) ;;;
  if r.2 : bool then sink_writeln EmptyString ;;; st_ret (ov_wrapper_actual_name r.1, true)
  else st_ret (None, false).
Definition write_no_constructor (i : nat) (c : cpp_class) : ST cgen (option string) :=
  cs <- in_classes (st_get (fun cs => cs)) ;;
  view <- st_lift (the_class (views cs) (Some i)) ;;
  o <- st_lift (CppNoConstructor_init (ss_cannot_be_constructed (cl_status c)) empty_world).2 ;;
  o <- (fun st => let '((o, k), r) := CppNoConstructor_generate view (o, st.2) in
                  ((st.1, k), match r with Ok _ => Ok o | Raise e => Raise e end)) ;;
  sink_writeln EmptyString ;;;
  st_ret (fw_wrapper_actual_name (wo_base o)).

(** [_generate_constructor]: whether there is one; "we must generate a 'no constructor'
    tp_init to prevent this type from inheriting" that of its parent *)
Definition generate_constructor (i : nat) : ST cgen bool :=
  c <- self i ;;
  sink_writeln EmptyString ;;;
  r <- (if bool_decide (mb_constructors (cl_members c) <> []) && can_construct c then
          pystruct <- st_lift (class_pystruct c) ;;
          write_constructors i c pystruct
        else
          name <- write_no_constructor i c ;; st_ret (name, false)) ;;
  default_slot i "tp_init" (default "NULL" r.1) ;;;
  st_ret r.2.

(** ** The methods *)

(** "skip methods registered via special type slots, not method table" *)
Definition special_methods : list string := ["__call__"; "__len__"; "__getitem__"; "__setitem__"].

(** [try: r = call_with_error_handling(m) except SkipWrapper], with what it returned *)
Definition attempted {S B} (handler : error_handler S) (m : ST S B) : ST S (option B) :=
  st_catch (b <- call_with_error_handling handler m default_exceptions ;; st_ret (Some b))
    (fun e => match e with SkipWrapper => st_ret None | _ => st_raise e end).

(** The overloaded wrapper of a name of the class, with the operations of its
    wrappers. *)
Definition ops_for (cs : classes) (part : nat -> class_part) : WrapperOps (list class_wrapper) :=
  method_ops g store (views cs) (handle_parts part).
Definition on_methods {B} (i : nat) (name : string)
    (m : WrapperOps (list class_wrapper) -> ST (overloaded (list class_wrapper) * code_sink) B) : ST cgen B :=
  cs <- in_classes (st_get (fun cs => cs)) ;;
  c <- self i ;;
  match mb_methods (cl_members c) !! name with
  | None => st_raise KeyError
  | Some o =>
      fun st =>
        let '((o, k), r) := m (ops_for cs (MethodPart name)) (o, st.2) in
        (((alter (on_members (fun b => set_methods (<[name := o]> (mb_methods b)) b)) i st.1.1, st.1.2), k), r)
  end.

(** One name: its entry of the method table, if it has one. *)
Definition generate_named (i : nat) (name : string) : ST cgen (list string) :=
  sink_writeln EmptyString ;;;
  done <- attempt (handler_part (MethodsPart name))
            (on_methods i name (fun ops => generate (WrapperOps0:=ops) "PyObject *" "return NULL;")) ;;
  if done : bool then
    entry <- (if bool_decide (name ∈ special_methods) then st_ret []
              else e <- on_methods i name (fun ops => on_fst (get_py_method_def (WrapperOps0:=ops) name)) ;;
                   st_ret [e]) ;;
    sink_writeln EmptyString ;;;
    st_ret entry
  else st_ret [].
Fixpoint generate_all_named (i : nat) (names : list string) : ST cgen (list string) :=
  match names with
  | [] => st_ret []
  | name :: names =>
      entry <- generate_named i name ;;
      entries <- generate_all_named i names ;;
      st_ret (entry ++ entries)
  end.

(** ** [_generate_MI_parent_methods] *)

(** [leaf.matches_signature(parent)]; a function has neither the method nor the
    constness it asks for. *)
Definition wrapper_matches (leaf parent : class_wrapper) : res bool :=
  match as_method leaf with
  | None => Raise AttributeError
  | Some m =>
      match parent with
      | MethodWrapper p | CustomMethod p _ => Ok (matches_signature m p)
      | FunctionMethod f =>
          let ps := fw_parameters (wo_base m) in
          let qs := fw_parameters (wo_base f) in
          if String.eqb (cm_mangled_name (wo_attrs m)) (fn_mangled_name (wo_attrs f))
             && Nat.eqb (length ps) (length qs)
             && forallb (fun '(p, q) => String.eqb (ph_ctype p) (ph_ctype q)) (zip ps qs)
          then Raise AttributeError else Ok false
      end
  end.
Fixpoint any_matches (leaves : list class_wrapper) (parent : class_wrapper) : res bool :=
  match leaves with
  | [] => Ok false
  | leaf :: leaves =>
      b <-? wrapper_matches leaf parent ;; if b : bool then Ok true else any_matches leaves parent
  end.

(** [parent_wrapper.clone()] as a wrapper of the class; the clone of a custom method
    is a method. *)
Definition clone_for (i : nat) (cs : classes) (w : class_wrapper) : res class_wrapper :=
  match w with
  | MethodWrapper m | CustomMethod m _ =>
      m <-? CppMethod_clone g no_kwargs new_param new_return on_error m ;;
      m <-? method_of_class cs i m ;; Ok (MethodWrapper m)
  | FunctionMethod f =>
      f <-? Function_clone g no_kwargs new_param new_return on_error f ;; Ok (FunctionMethod f)
  end.

(** The overloaded wrappers made for the methods of the parents, with the class each
    wrapper comes from. *)
Abbreviation mi_methods := (gmap string (overloaded (list class_wrapper) * list nat)).
Definition add_inherited (base : nat) (w : class_wrapper) (o : overloaded (list class_wrapper) * list nat)
    : overloaded (list class_wrapper) * list nat := (add_wrapper w o.1, o.2 ++ [base]).

(** One method of a parent.  The variable of the loop is bound again to the wrappers
    of the class itself, so that a further signature of a name the class has is added
    to those, which are generated already. *)
Definition inherit_method (i base : nat) (name : string) (w : class_wrapper) (methods : mi_methods)
    : ST cgen mi_methods :=
  if negb (String.eqb (member_visibility w) "public") then st_ret methods
  else
    cs <- in_classes (st_get (fun cs => cs)) ;;
    c <- self i ;;
    private <- st_lift (any_matches (mb_nonpublic_methods (cl_members c)) w) ;;
    if private : bool then st_ret methods
    else
      match mb_methods (cl_members c) !! name with
      | None =>
          w <- st_lift (clone_for i cs w) ;;
          st_ret (alter (add_inherited base w) name methods)
      | Some o =>
          already <- st_lift (any_matches (overload_wrappers o) w) ;;
          if already : bool then st_ret methods
          else
            w <- st_lift (clone_for i cs w) ;;
            in_classes (update_class i (on_members (fun b =>
              set_methods (<[name := add_wrapper w o]> (mb_methods b)) b))) ;;;
            st_ret methods
      end.
Fixpoint inherit_wrappers (i base : nat) (name : string) (ws : list class_wrapper) (methods : mi_methods)
    : ST cgen mi_methods :=
  match ws with
  | [] => st_ret methods
  | w :: ws => methods <- inherit_method i base name w methods ;; inherit_wrappers i base name ws methods
  end.
Fixpoint inherit_overloads (i base : nat) (l : list (string * overloaded (list class_wrapper)))
    (methods : mi_methods) : ST cgen mi_methods :=
  match l with
  | [] => st_ret methods
  | (name, o) :: l =>
      if bool_decide (name ∈ special_methods) then inherit_overloads i base l methods
      else
        methods <- (match methods !! name with
                    | Some _ => st_ret methods
                    | None => pystruct <- pystruct_of i ;;
                              st_ret (<[name := (Overloaded [] [] None None None None pystruct, [])]> methods)
                    end) ;;
        methods <- inherit_wrappers i base name (overload_wrappers o) methods ;;
        inherit_overloads i base l methods
  end.
Fixpoint inherit_methods (i : nat) (bases : list nat) (methods : mi_methods) : ST cgen mi_methods :=
  match bases with
  | [] => st_ret methods
  | base :: bases =>
      b <- self base ;;
      methods <- inherit_overloads i base (dict_items (mb_methods (cl_members b))) methods ;;
      inherit_methods i bases methods
  end.

(** "overloading with multiple base classes is just too confusing" *)
Definition generate_inherited (name : string) (o : overloaded (list class_wrapper) * list nat)
    : ST cgen (list string) :=
  if bool_decide (ov_wrappers o.1 = []) || (1 <? length (remove_dups o.2))%nat then st_ret []
  else
    cs <- in_classes (st_get (fun cs => cs)) ;;
    let ops := ops_for cs (ParentMethodPart name) in
    r <- on_local o.1 (attempt (handler_part (ParentMethodsPart name))
                         (generate (WrapperOps0:=ops) "PyObject *" "return NULL;")) ;;
    if r.2 : bool then
      sink_writeln EmptyString ;;;
      e <- on_local r.1 (on_fst (get_py_method_def (WrapperOps0:=ops) name)) ;;
      st_ret [e.2]
    else st_ret [].
Fixpoint generate_all_inherited (l : list (string * (overloaded (list class_wrapper) * list nat)))
    : ST cgen (list string) :=
  match l with
  | [] => st_ret []
  | (name, o) :: l =>
      entry <- generate_inherited name o ;;
      entries <- generate_all_inherited l ;;
      st_ret (entry ++ entries)
  end.
Definition generate_MI_parent_methods (i : nat) : ST cgen (list string) :=
  cs <- in_classes (st_get (fun cs => cs)) ;;
  mro <- st_lift (get_mro cs i) ;;
  methods <- inherit_methods i (tail mro) ∅ ;;
  generate_all_inherited (dict_items methods).

(** ** The method table *)

Definition copy_entry (name : string) : string :=
  "{(char *) " +:+ dq +:+ "__copy__" +:+ dq +:+ ", (PyCFunction) " +:+ name +:+ ", METH_NOARGS, NULL},".
Definition class_table_ops (pystruct : string) (method_defs : list string) : list sink_op :=
  [OpWrite ("static PyMethodDef " +:+ pystruct +:+ "_methods[] = {"); OpIndent 4]
  ++ map OpWrite (method_defs ++ ["{NULL, NULL, 0, NULL}"])
  ++ [OpUnindent; OpWrite "};"].
Definition copy_method (i : nat) : ST cgen (list string) :=
  c <- self i ;;
  if ss_has_copy_constructor (cl_status c) then
    name <- attempted (handler_part WholeClass) (generate_copy_method make_registry i) ;;
    st_ret (option_list (copy_entry <$> name))
  else st_ret [].

(** [_generate_methods] *)
Definition generate_methods (i : nat) (parent_caller_methods : list string) : ST cgen unit :=
  c <- self i ;;
  method_defs <- generate_all_named i (map fst (dict_items (mb_methods (cl_members c)))) ;;
  inherited <- (if (1 <? length (cl_bases c))%nat then generate_MI_parent_methods i else st_ret []) ;;
  copy <- copy_method i ;;
  pystruct <- pystruct_of i ;;
  sink_ops (class_table_ops pystruct (method_defs ++ parent_caller_methods ++ inherited ++ copy)) ;;;
  default_slot i "tp_methods" (pystruct +:+ "_methods").

(** ** [generate] *)

(** The type map of the class in the module. *)
Definition export_typeid_map (i : nat) (m : module_view) : ST cgen unit :=
  c <- self i ;;
  match nm_typeid_map_name (cl_names c) with
  | None => st_ret tt
  | Some map_name =>
      sink_writeln (nls +:+ "pybindgen::TypeMap " +:+ map_name +:+ ";" +:+ nls) ;;;
      after_init m ("PyModule_AddObject(m, (char *) " +:+ dq +:+ "_" +:+ map_name +:+ dq
                    +:+ ", PyCObject_FromVoidPtr(&" +:+ map_name +:+ ", NULL));")
  end.

(** The methods of the helper class. *)
Definition parent_callers_of (i : nat) : ST cgen (list string) :=
  c <- self i ;;
  match cl_helper_class c with
  | None => st_ret []
  | Some _ => l <- generate_helper i ;;
              match l with None => st_raise TypeError | Some l => st_ret l end
  end.

(** The attribute tables; the static ones need a metaclass. *)
Definition generate_getsets (t : getset_def (S:=classes * M)) : ST cgen string :=
  PyGetSetDef_generate (handler_part AccessorPart) t.
Definition class_of (cs : classes) (n : nat) : res cpp_class :=
  match cs !! n with None => Raise AttributeError | Some c => Ok c end.
Definition write_metaclass (i : nat) (m : module_view) (static_getsets : string) : ST cgen (option string) :=
  if String.eqb static_getsets "0" then st_ret None
  else
    c <- self i ;;
    cs <- in_classes (st_get (fun cs => cs)) ;;
    parent_typestruct <- st_lift (match cl_parent c with
                                  | None => Ok "PyBaseObject_Type"
                                  | Some p => parent <-? class_of cs p ;; Ok (pytypestruct parent)
                                  end) ;;
    let metaclass := PyMetaclass_init g (nm_metaclass_name (cl_names c)) (parent_typestruct +:+ ".ob_type")
                       (Some (gs_cname (static_attributes i))) in
    in_blocks_and_sink (PyMetaclass_generate metaclass m) ;;;
    st_ret (Some (mc_pytypestruct metaclass)).

(** The bases of the type, in the init function. *)
Definition base_lines (type : string) (bases : list string) : list string :=
  flat_map (fun '(n, b) =>
      ["    Py_INCREF((PyObject *) &" +:+ b +:+ ");";
       "    PyTuple_SET_ITEM(" +:+ type +:+ ".tp_bases, " +:+ pretty n +:+ ", (PyObject *) &" +:+ b +:+ ");"])
    (imap pair bases).
Definition write_bases (i : nat) (m : module_view) : ST cgen unit :=
  c <- self i ;;
  cs <- in_classes (st_get (fun cs => cs)) ;;
  bases <- st_lift (the_classes cs (cl_bases c)) ;;
  match map pytypestruct bases with
  | [] => st_ret tt
  | parent :: rest =>
      after_init m (pytypestruct c +:+ ".tp_base = &" +:+ parent +:+ ";") ;;;
      st_when (bool_decide (rest <> []))
        (after_init m (pytypestruct c +:+ ".tp_bases = PyTuple_New(" +:+ pretty (S (length rest)) +:+ ");") ;;;
         st_iter (after_init m) (base_lines (pytypestruct c) (parent :: rest)))
  end.

(** The type is made ready and put into its module, or into its outer class. *)
Definition add_type_object (i : nat) (m : module_view) : ST cgen unit :=
  c <- self i ;;
  cs <- in_classes (st_get (fun cs => cs)) ;;
  let name := get_python_name c in
  in_blocks (write_error_check (mv_after_init m) ("PyType_Ready(&" +:+ pytypestruct c +:+ ")") None) ;;;
  match cf_outer_class (cl_config c) with
  | None => after_init m ("PyModule_AddObject(m, (char *) " +:+ dq +:+ name +:+ dq +:+ ", (PyObject *) &"
                          +:+ pytypestruct c +:+ ");")
  | Some o =>
      outer <- st_lift (class_of cs o) ;;
      after_init m ("PyDict_SetItemString((PyObject*) " +:+ pytypestruct outer +:+ ".tp_dict, (char *) "
                    +:+ dq +:+ name +:+ dq +:+ ", (PyObject *) &" +:+ pytypestruct c +:+ ");")
  end.
Definition register_type_object (i : nat) (m : module_view) (metaclass : option string) : ST cgen unit :=
  c <- self i ;;
  write_bases i m ;;;
  match metaclass with
  | None => st_ret tt
  | Some t => after_init m (pytypestruct c +:+ ".ob_type = &" +:+ t +:+ ";")
  end ;;;
  add_type_object i m.

(** The comparison, unless the user has one; the number and sequence methods replace
    what the user has. *)
Definition fill_richcompare (i : nat) : ST cgen unit :=
  c <- self i ;;
  if String.eqb (default "NULL" (cl_slots c !! "tp_richcompare")) "NULL" then
    name <- (fun st => match generate_tp_richcompare c st.2 with
                       | Ok (name, k) => ((st.1, k), Ok name) | Raise e => (st, Raise e) end) ;;
    put_slot i "tp_richcompare" name
  else st_ret tt.
Definition fill_numbers (i : nat) : ST cgen unit :=
  c <- self i ;;
  cs <- in_classes (st_get (fun cs => cs)) ;;
  st_when (needs_number_methods (cl_operators c))
    (table <- generate_number_methods python_to_c_converter c_to_python_converter cs c ;;
     put_slot i "tp_as_number" table).
Definition fill_sequence (i : nat) : ST cgen unit :=
  c <- self i ;;
  st_when (have_sequence_methods c)
    (table <- generate_sequence_methods python_to_c_converter i c ;; put_slot i "tp_as_sequence" table).
Definition fill_type_slots (i : nat) : ST cgen unit :=
  c <- self i ;;
  st_when (cf_allow_subclassing (cl_config c)) (generate_gc_methods i) ;;;
  generate_destructor make_registry i ;;;
  st_when (ss_has_output_stream_operator (cl_status c)) (generate_str i) ;;;
  fill_richcompare i ;;;
  fill_numbers i ;;;
  fill_sequence i.

Definition generate_class_body (i : nat) (m : module_view) : ST cgen unit :=
  export_typeid_map i m ;;;
  c <- self i ;;
  st_when (cf_automatic_type_narrowing (cl_config c)) (register_typeid i m) ;;;
  st_when (bool_decide (cl_parent c = None))
    (registry <- registry_of make_registry i ;;
     in_blocks_and_sink (registry_generate registry (mv_after_init m))) ;;;
  parent_caller_methods <- parent_callers_of i ;;
  instance_getsets <- generate_getsets (instance_attributes i) ;;
  default_slot i "tp_getset" instance_getsets ;;;
  static_getsets <- generate_getsets (static_attributes i) ;;
  after_init m ("/* Register the '" +:+ full_name c +:+ "' class */") ;;;
  metaclass <- write_metaclass i m static_getsets ;;
  register_type_object i m metaclass ;;;
  generate_constructor i ;;;
  generate_methods i parent_caller_methods ;;;
  fill_type_slots i ;;;
  match container_generate i with None => st_ret tt | Some generate => generate m end ;;;
  generate_type_structure i.

Definition generate_class (i : nat) (m : module_view) : ST cgen unit :=
  c <- self i ;;
  if imported c then
    generate_import_from_module i m
  else generate_class_body i m.
End class_generate.

(** ** What the generation of a class keeps *)

(** The slots that are filled whatever the user put there. *)
Definition replaced (key value : string) : Prop :=
  key = "tp_as_number" \/ key = "tp_as_sequence" \/ (key = "tp_richcompare" /\ value = "NULL").

Record class_kept {H A} (c c' : cpp_class H A) : Prop := {
  ck_config : cl_config c' = cl_config c;
  ck_module : cl_module c' = cl_module c;
  ck_names : cl_names c' = cl_names c;
  ck_operators : cl_operators c' = cl_operators c;
  ck_slots : forall key value, cl_slots c !! key = Some value -> ~ replaced key value ->
    cl_slots c' !! key = Some value
}.
#[export] Instance class_kept_preorder {H A} : PreOrder (@class_kept H A).
Proof.
  split; [by split|]. intros c1 c2 c3 [] []. split; [congruence..|]. auto.
Qed.

(** Relations of classes, class by class. *)
Section classwise.
Context {H A : Type} (R : relation (cpp_class H A)) `{!PreOrder R}.
Local Abbreviation cpp_class := (cpp_class H A).
Local Abbreviation classes := (list cpp_class).

Definition classwise : relation classes := Forall2 R.
#[export] Instance classwise_preorder : PreOrder classwise.
Proof. unfold classwise. split; exact _. Qed.
Lemma classwise_alter (cs : classes) i f :
  (forall c, cs !! i = Some c -> R c (f c)) -> classwise cs (alter f i cs).
Proof.
  intros Hf. apply Forall2_same_length_lookup_2; [by rewrite length_alter|]. intros j c c' Hc.
  rewrite list_lookup_alter. destruct (decide (i = j)) as [<-|Hij]; rewrite Hc; intros [= <-]; [by apply Hf|reflexivity].
Qed.
Lemma classwise_insert (cs : classes) i c c' : cs !! i = Some c -> R c c' -> classwise cs (<[i := c']> cs).
Proof.
  intros Hc Hk. apply Forall2_same_length_lookup_2; [by rewrite length_insert|]. intros j d d' Hd.
  destruct (decide (i = j)) as [<-|Hij].
  - rewrite list_lookup_insert_eq by by eapply lookup_lt_Some. by replace d with c by congruence; intros [= <-].
  - rewrite list_lookup_insert_ne, Hd by done. intros [= <-]. reflexivity.
Qed.
Lemma update_class_alter (cs : classes) i f : (update_class i f cs).1 = alter f i cs.
Proof.
  unfold update_class, the_cpp_class, st_bind, st_modify. destruct (cs !! i) as [c|] eqn:E; cbn.
  - apply list_eq. intros j. rewrite list_lookup_alter. destruct (decide (i = j)) as [<-|Hij].
    + rewrite E, list_lookup_insert_eq; [done|]. by eapply lookup_lt_Some.
    + by rewrite list_lookup_insert_ne.
  - apply list_eq. intros j. rewrite list_lookup_alter. destruct (decide (i = j)) as [<-|Hij]; [by rewrite E|done].
Qed.
Lemma classwise_update i (f : cpp_class -> cpp_class) :
  (forall c, R c (f c)) -> evolves classwise (update_class i f).
Proof. intros Hf cs. rewrite update_class_alter. by apply classwise_alter. Qed.
End classwise.

Definition all_kept {H A} : relation (list (cpp_class H A)) := classwise class_kept.
#[export] Instance all_kept_preorder {H A} : PreOrder (@all_kept H A) := classwise_preorder class_kept.
Definition keeps_classes {H A S} (s s' : list (cpp_class H A) * S) : Prop := all_kept s.1 s'.1.
#[export] Instance keeps_classes_preorder {H A S} : PreOrder (@keeps_classes H A S).
Proof. unfold keeps_classes. split; [by intros s | intros s1 s2 s3 H1 H2; by transitivity s2.1]. Qed.
Definition keeps_code {H A S} (s s' : (list (cpp_class H A) * S) * code_sink) : Prop := keeps_classes s.1 s'.1.
#[export] Instance keeps_code_preorder {H A S} : PreOrder (@keeps_code H A S).
Proof. unfold keeps_code. split; [by intros s | intros s1 s2 s3 H1 H2; by transitivity s2.1]. Qed.

Section kept.
Context {A M : Type} {module_ops : ModuleOps M} {dict_order : DictOrder}.
Local Abbreviation cpp_class := (class_object A).
Local Abbreviation classes := (list cpp_class).
Local Abbreviation cgen := ((classes * M) * code_sink)%type.
Local Abbreviation KC := (keeps_code (H:=cpp_helper_class) (A:=A) (S:=M)).
Local Abbreviation KM := (keeps_classes (H:=cpp_helper_class) (A:=A) (S:=M)).

Lemma kept_alter (cs : classes) i f :
  (forall c, cs !! i = Some c -> class_kept c (f c)) -> all_kept cs (alter f i cs).
Proof. apply classwise_alter, _. Qed.
Lemma kept_insert (cs : classes) i c c' : cs !! i = Some c -> class_kept c c' -> all_kept cs (<[i := c']> cs).
Proof. apply classwise_insert, _. Qed.
Lemma class_kept_update i (f : cpp_class -> cpp_class) :
  (forall c, class_kept c (f c)) -> evolves all_kept (update_class i f).
Proof. apply classwise_update, _. Qed.
Lemma kept_the_class i : evolves all_kept (the_cpp_class (H:=cpp_helper_class) (A:=A) i).
Proof. intros cs. reflexivity. Qed.

Lemma kept_in_classes {B} (m : ST classes B) : evolves all_kept m -> evolves KC (in_classes (M:=M) m).
Proof. intros Hm. apply (evolves_on_fst KM), (evolves_on_fst all_kept), Hm. Qed.
Lemma class_kept_on_fst {B} (m : ST (classes * M) B) : evolves KM m -> evolves KC (on_fst m).
Proof. apply (evolves_on_fst KM). Qed.
Lemma kept_in_module {B} (m : ST M B) : evolves KC (in_module (A:=A) m).
Proof. apply (evolves_on_fst KM), (evolves_on_snd all_kept). Qed.
Lemma kept_in_blocks {B} (m : ST heap B) : evolves KC (in_blocks (A:=A) m).
Proof. apply kept_in_module. Qed.
Lemma kept_same (st st' : cgen) : st'.1.1 = st.1.1 -> KC st st'.
Proof. intros E. unfold keeps_code, keeps_classes. rewrite E. reflexivity. Qed.
Lemma kept_blocks_and_sink {B} (m : ST (heap * code_sink) B) : evolves KC (in_blocks_and_sink (A:=A) m).
Proof. intros st. unfold in_blocks_and_sink. by destruct (on_module_blocks _ _) as [s [[k r]|e]]; apply kept_same. Qed.
Lemma kept_module_and_sink {B} (m : ST (M * code_sink) B) : evolves KC (in_module_and_sink (A:=A) m).
Proof. intros st. unfold in_module_and_sink. destruct (m _) as [[s k] r]. by apply kept_same. Qed.
Lemma class_kept_on_snd {B} (m : ST code_sink B) : evolves KC (on_snd m).
Proof. apply (evolves_on_snd KM). Qed.
Lemma kept_sink_ops os : evolves KC (sink_ops os).
Proof. intros st. unfold sink_ops. destruct (run_ops st.2 os); by apply kept_same. Qed.
Lemma kept_table f slots : evolves KC (write_table f slots).
Proof. intros st. unfold write_table. destruct (f slots st.2); by apply kept_same. Qed.
Lemma kept_local {W B} (o : overloaded W) (m : ST (overloaded W * code_sink) B) : evolves KC (on_local (M:=M) (A:=A) o m).
Proof. intros st. unfold on_local. destruct (m _) as [[o' k] r]. by apply kept_same. Qed.

(** Changes of a class that keep it. *)
Lemma class_kept_same (c c' : cpp_class) :
  cl_config c' = cl_config c -> cl_module c' = cl_module c -> cl_names c' = cl_names c ->
  cl_operators c' = cl_operators c -> cl_slots c' = cl_slots c -> class_kept c c'.
Proof. intros H1 H2 H3 H4 H5. split; [done..|]. by rewrite H5. Qed.
Lemma kept_default_slot i key value : evolves KC (default_slot i key value).
Proof.
  apply kept_in_classes, class_kept_update. intros c. split; [done..|]. cbn. intros k v Hk _. unfold setdefault. cbn.
  destruct (cl_slots c !! key) eqn:E; [done|]. rewrite lookup_insert_ne; [done|]. congruence.
Qed.
Lemma kept_put_slot i key value : (forall v, replaced key v) -> evolves KC (put_slot i key value).
Proof.
  intros Hr. apply kept_in_classes, class_kept_update. intros c. split; [done..|]. cbn. intros k v Hk Hn.
  rewrite lookup_insert_ne; [done|]. intros ->. by apply Hn.
Qed.
Lemma kept_helper_code {B} i (m : list class_view -> helper_target -> ST (cpp_helper_class * code_sink) B) :
  evolves KC (on_helper_code i m).
Proof.
  intros st. unfold on_helper_code. destruct (st.1.1 !! i) as [c|]; [|reflexivity].
  destruct (cl_helper_class c) as [h|]; [|reflexivity]. destruct (m _ _ _) as [[h' k] r].
  apply kept_alter. intros d _. by apply class_kept_same.
Qed.
Lemma kept_on_helper {B} i (m : list class_view -> ST cpp_helper_class B) :
  evolves KM (on_helper (M:=M) (A:=A) i m).
Proof.
  intros st. unfold on_helper. destruct (st.1 !! i ≫= cl_helper_class) as [h|]; [|reflexivity].
  destruct (m _ h) as [h' r]. apply kept_alter. intros d _. by apply class_kept_same.
Qed.
End kept.

(** The generators of a class are followed step by step. *)
Local Ltac kept_step :=
  match goal with
  | |- forall _, _ => intros ?
  | |- evolves _ (st_bind _ _) => apply evolves_bind; [exact _|..]
  | |- evolves _ (st_ret _) => apply evolves_ret; exact _
  | |- evolves _ (st_raise _) => apply evolves_raise; exact _
  | |- evolves _ (st_lift _) => apply evolves_lift; exact _
  | |- evolves _ (st_get _) => apply evolves_get; exact _
  | |- evolves _ (st_assert _) => apply evolves_assert; exact _
  | |- evolves _ (st_when _ _) => apply evolves_when; [exact _|]
  | |- evolves _ (st_iter _ _) => apply evolves_iter; [exact _|]
  | |- evolves _ (st_catch _ _) => apply evolves_catch; [exact _|..]
  | |- evolves _ (default_slot _ _ _) => apply kept_default_slot
  | |- evolves _ (sink_writeln _) => apply class_kept_on_snd
  | |- evolves _ sink_indent => apply class_kept_on_snd
  | |- evolves _ sink_unindent => apply class_kept_on_snd
  | |- evolves _ (sink_ops _) => apply kept_sink_ops
  | |- evolves _ (write_table _ _) => apply kept_table
  | |- evolves _ (in_module _) => apply kept_in_module
  | |- evolves _ (in_blocks _) => apply kept_in_module
  | |- evolves _ (after_init _ _) => apply kept_in_module
  | |- evolves _ (in_blocks_and_sink _) => apply kept_blocks_and_sink
  | |- evolves _ (in_module_and_sink _) => apply kept_module_and_sink
  | |- evolves _ (in_classes _) => apply kept_in_classes
  | |- evolves _ (pystruct_of _) => unfold pystruct_of
  | |- evolves _ (self _) => apply kept_in_classes, kept_the_class
  | |- evolves _ (the_cpp_class _) => apply kept_the_class
  | |- evolves _ (on_helper_code _ _) => apply kept_helper_code
  | |- evolves _ (on_helper _ _) => apply kept_on_helper
  | |- evolves _ (on_local _ _) => apply kept_local
  | |- evolves _ (update_class _ _) => apply class_kept_update; intros ?; by apply class_kept_same
  | |- evolves _ (if _ then _ else _) => apply evolves_if
  | |- evolves _ (match ?x with _ => _ end) => destruct x
  end.
Local Ltac kept := repeat kept_step.

Section keeping.
Context {A M : Type} {module_ops : ModuleOps M} (g : settings)
  (make_registry : string -> wrapper_registry) {so : SetOrder} {dict_order : DictOrder}.
Local Abbreviation cpp_class := (class_object A).
Local Abbreviation classes := (list cpp_class).
Local Abbreviation cgen := ((classes * M) * code_sink)%type.
Local Abbreviation KC := (keeps_code (H:=cpp_helper_class) (A:=A) (S:=M)).

Lemma kept_registry_of i : evolves KC (registry_of (M:=M) (A:=A) make_registry i).
Proof. unfold registry_of, get_wrapper_registry. kept. Qed.
Lemma kept_pystruct_of i : evolves KC (pystruct_of (M:=M) (A:=A) i).
Proof. unfold pystruct_of. kept. Qed.
Lemma kept_pure_virtual i : evolves (all_kept (A:=A)) (get_have_pure_virtual_methods (H:=cpp_helper_class) i).
Proof. unfold get_have_pure_virtual_methods. kept. Qed.
Lemma kept_construct_name i : evolves (all_kept (A:=A)) (get_construct_name (H:=cpp_helper_class) i).
Proof. unfold get_construct_name. kept; apply kept_pure_virtual. Qed.
Lemma kept_gc i : evolves KC (generate_gc_methods (M:=M) (A:=A) i).
Proof. unfold generate_gc_methods, generate_slot. kept. Qed.
Lemma kept_str i : evolves KC (generate_str (M:=M) (A:=A) i).
Proof. unfold generate_str, generate_slot. kept. Qed.
Lemma kept_destructor i : evolves KC (generate_destructor (M:=M) (A:=A) make_registry i).
Proof. unfold generate_destructor, delete_self. kept; apply kept_registry_of. Qed.
Lemma kept_copy i : evolves KC (generate_copy_method (M:=M) (A:=A) make_registry i).
Proof.
  unfold generate_copy_method. kept_step; [apply kept_in_classes, kept_construct_name|].
  repeat (kept_step || apply kept_registry_of).
Qed.
Lemma kept_type_structure i : evolves KC (generate_type_structure (M:=M) (A:=A) i).
Proof. unfold generate_type_structure, default_slots. kept. Qed.
End keeping.

Section generation_keeps.
Context {A M P : Type} {module_ops : ModuleOps M} (g : settings)
  (make_registry : string -> wrapper_registry) {so : SetOrder} {dict_order : DictOrder}
  (store : list cpp_exception) (trivial_class_return : return_handler -> bool)
  (handle_error : option (class_part -> pyexn -> bool)) (no_kwargs : P)
  (new_param : list (@spec_item pyval P) -> P -> ST world param_handler)
  (new_return : list (@spec_item pyval P) -> P -> ST world return_handler)
  (on_error : error_handler world).
Local Abbreviation cpp_class := (class_object A).
Local Abbreviation classes := (list cpp_class).
Local Abbreviation cgen := ((classes * M) * code_sink)%type.
Local Abbreviation KC := (keeps_code (H:=cpp_helper_class) (A:=A) (S:=M)).
Context (run_hook : A -> ST cpp_helper_class unit)
  (instance_attributes static_attributes : nat -> getset_def (S:=classes * M))
  (container_forward container_generate : nat -> option (module_view -> ST cgen unit))
  (python_to_c_converter c_to_python_converter : converted -> ST cgen string).

(** What classes have from elsewhere keeps the classes too. *)
Definition keeping_accessors (t : getset_def (S:=classes * M)) : Prop :=
  forall a acc, a ∈ gs_attributes t -> at_getter a = Some acc \/ at_setter a = Some acc ->
    evolves KC (ac_generate acc).
Definition keeping_traits (traits : option (module_view -> ST cgen unit)) : Prop :=
  forall f m, traits = Some f -> evolves KC (f m).
Hypothesis (Hinstance : forall i, keeping_accessors (instance_attributes i))
  (Hstatic : forall i, keeping_accessors (static_attributes i))
  (Hforward : forall i, keeping_traits (container_forward i))
  (Hcontainer : forall i, keeping_traits (container_generate i))
  (Hto_c : forall v, evolves KC (python_to_c_converter v))
  (Hto_python : forall v, evolves KC (c_to_python_converter v)).

Lemma kept_handled {B} p (m : ST cgen B) : evolves KC m ->
  evolves KC (call_with_error_handling (handler_part handle_error p) m default_exceptions).
Proof. intros Hm. unfold call_with_error_handling, handler_part. destruct handle_error; cbn; kept; apply Hm. Qed.
Lemma kept_attempt {B} p (m : ST cgen B) : evolves KC m -> evolves KC (attempt (handler_part handle_error p) m).
Proof. intros Hm. unfold attempt. kept. by apply kept_handled. Qed.
Lemma kept_attempted {B} p (m : ST cgen B) : evolves KC m -> evolves KC (attempted (handler_part handle_error p) m).
Proof. intros Hm. unfold attempted. kept. by apply kept_handled. Qed.
Lemma kept_accessor o p : (forall acc, o = Some acc -> evolves KC (ac_generate acc)) ->
  evolves KC (generate_accessor (handler_part handle_error p) o).
Proof.
  intros Ho. unfold generate_accessor. destruct o as [acc|]; kept. by apply kept_handled, Ho.
Qed.
Lemma kept_getsets t : keeping_accessors t ->
  evolves KC (generate_getsets handle_error t).
Proof.
  intros Ht. unfold generate_getsets, PyGetSetDef_generate. unfold keeping_accessors in Ht.
  destruct (gs_attributes t) as [|a0 l0]; [kept|]. kept_step.
  - generalize (∅ : gmap string (string * string)). revert Ht. generalize (a0 :: l0). clear.
    induction l as [|a l IH]; intros Ht s; cbn [generate_accessors]; kept.
    + apply kept_accessor. intros acc Ha. apply (Ht a); [by left|auto].
    + apply kept_accessor. intros acc Ha. apply (Ht a); [by left|auto].
    + apply IH. intros a' acc Ha'. apply Ht. by right.
  - unfold getset_entry. kept.
Qed.

Lemma kept_methods {B} i name
    (m : WrapperOps (list class_wrapper) -> ST (overloaded (list class_wrapper) * code_sink) B) :
  evolves KC (on_methods (M:=M) (A:=A) g store handle_error i name m).
Proof.
  unfold on_methods. kept_step; [kept|]. intros cs. kept_step; [kept|]. intros c.
  destruct (_ !! name) as [o|]; [|kept]. intros st. destruct (m _ _) as [[o' k] r].
  apply kept_alter. intros d _. by apply class_kept_same.
Qed.
Lemma kept_named i name : evolves KC (generate_named (M:=M) (A:=A) g store handle_error i name).
Proof. unfold generate_named. kept; try apply kept_attempt; apply kept_methods. Qed.
Lemma kept_all_named i names : evolves KC (generate_all_named (M:=M) (A:=A) g store handle_error i names).
Proof. induction names as [|name names IH]; cbn [generate_all_named]; kept; [apply kept_named|apply IH]. Qed.

Lemma kept_inherit_method i base name w methods :
  evolves KC (inherit_method (M:=M) (A:=A) g no_kwargs new_param new_return on_error i base name w methods).
Proof. unfold inherit_method. kept. Qed.
Lemma kept_inherit_wrappers i base name ws : forall methods,
  evolves KC (inherit_wrappers (M:=M) (A:=A) g no_kwargs new_param new_return on_error i base name ws methods).
Proof. induction ws as [|w ws IH]; intros methods; cbn [inherit_wrappers]; kept; [apply kept_inherit_method|apply IH]. Qed.
Lemma kept_inherit_overloads i base l : forall methods,
  evolves KC (inherit_overloads (M:=M) (A:=A) g no_kwargs new_param new_return on_error i base l methods).
Proof.
  induction l as [|[name o] l IH]; intros methods; cbn [inherit_overloads]; kept;
    first [apply IH | apply kept_inherit_wrappers].
Qed.
Lemma kept_inherit_methods i bases : forall methods,
  evolves KC (inherit_methods (M:=M) (A:=A) g no_kwargs new_param new_return on_error i bases methods).
Proof.
  induction bases as [|base bases IH]; intros methods; cbn [inherit_methods]; kept;
    [apply kept_inherit_overloads | apply IH].
Qed.
Lemma kept_inherited l : evolves KC (generate_all_inherited (M:=M) (A:=A) g store handle_error l).
Proof.
  induction l as [|[name o] l IH]; cbn [generate_all_inherited]; [kept|]. unfold generate_inherited. kept; apply IH.
Qed.
Lemma kept_generate_methods i l : evolves KC (generate_methods (M:=M) (A:=A) g make_registry store handle_error
  no_kwargs new_param new_return on_error i l).
Proof.
  unfold generate_methods, generate_MI_parent_methods, copy_method. kept;
    first [apply kept_all_named | apply kept_inherit_methods | apply kept_inherited
          | apply kept_attempted, kept_copy].
Qed.

Lemma kept_constructor i : evolves KC (generate_constructor (M:=M) (A:=A) store handle_error i).
Proof.
  unfold generate_constructor, write_constructors, write_no_constructor. kept.
  intros st. destruct (CppNoConstructor_generate _ _) as [[o k] r]. by apply kept_same.
Qed.

(** The code of the type object. *)
Lemma kept_register_type i m t : evolves KC (register_type_object (M:=M) (A:=A) i m t).
Proof. unfold register_type_object, write_bases, add_type_object. kept. Qed.
Lemma kept_metaclass i m t : evolves KC (write_metaclass g static_attributes i m t).
Proof. unfold write_metaclass. kept. Qed.

Lemma kept_richcompare i : evolves KC (fill_richcompare (M:=M) (A:=A) i).
Proof.
  intros [[cs s] k]. unfold fill_richcompare, self, in_classes. unfold st_bind at 1, on_fst at 1 2, the_cpp_class at 1.
  cbn. destruct (cs !! i) as [c|] eqn:Hc; [|by apply kept_same]. cbn.
  destruct (String.eqb_spec (default "NULL" (cl_slots c !! "tp_richcompare")) "NULL") as [E|E]; [|by apply kept_same].
  unfold st_bind. cbn. destruct (generate_tp_richcompare c k) as [[name k']|e]; [|by apply kept_same].
  unfold put_slot, in_classes, on_fst. cbn. rewrite Hc. cbn.
  apply (kept_insert cs i c); [done|]. split; [done..|]. cbn. intros key v Hk Hr.
  rewrite lookup_insert_ne; [done|]. intros <-. apply Hr. rewrite Hk in E. cbn in E. unfold replaced. auto.
Qed.
Lemma kept_numbers i : evolves KC (fill_numbers python_to_c_converter c_to_python_converter i).
Proof.
  assert (forall (cs : classes) v, evolves KC (ClassOperators.get_c_to_python_converter c_to_python_converter cs v)) as Hc
    by (intros; unfold ClassOperators.get_c_to_python_converter; kept; apply Hto_python).
  assert (forall (cs : classes) v, evolves KC (ClassOperators.get_python_to_c_converter python_to_c_converter cs v)) as Hp
    by (intros; unfold ClassOperators.get_python_to_c_converter; kept; apply Hto_c).
  assert (forall T mangled slot params (try : T -> ST cgen unit) types slots, (forall t, evolves KC (try t)) ->
            evolves KC (wrap_operator mangled slot params try types slots)) as Hw
    by (intros; unfold wrap_operator; kept; auto).
  assert (forall (cs : classes) op t, evolves KC (try_binary python_to_c_converter c_to_python_converter cs op t)) as Hb
    by (intros; unfold try_binary; kept; auto).
  unfold fill_numbers, generate_number_methods, number_table. kept;
    try (apply kept_put_slot; unfold replaced; auto);
    try (unfold request_binary, request_inplace, request_unary; kept; auto; fail).
  - match goal with |- evolves _ (wrap_operators _ _ _ _ _ _ ?s) => generalize s end.
    generalize binary_slots. intros l. induction l as [|[op slot] l IH]; intros slots; cbn [wrap_operators]; kept; auto.
  - apply Hw. intros t. unfold try_unary. kept; auto.
Qed.
Lemma kept_sequence i : evolves KC (fill_sequence python_to_c_converter i).
Proof.
  unfold fill_sequence, generate_sequence_methods. kept; try (apply kept_put_slot; unfold replaced; auto); [apply Hto_c|].
  match goal with |- evolves _ (wrap_sequence_methods _ _ ?s) => generalize s end.
  generalize sequence_slots. intros l. induction l as [|[py slot] l IH]; intros slots; cbn [wrap_sequence_methods]; kept;
    [|apply IH]. unfold wrap_sequence_method. kept.
Qed.
Lemma kept_traits traits m : keeping_traits traits ->
  evolves KC (match traits with None => st_ret tt | Some f => f m end).
Proof. intros Ht. destruct traits as [f|]; [by apply Ht|kept]. Qed.
Local Ltac kept_call :=
  match goal with
  | |- evolves _ (match container_generate _ with _ => _ end) => apply kept_traits, Hcontainer
  | |- evolves _ (match container_forward _ with _ => _ end) => apply kept_traits, Hforward
  | |- evolves _ (registry_of _ _) => apply kept_registry_of
  | |- evolves _ (generate_gc_methods _) => apply kept_gc
  | |- evolves _ (generate_str _) => apply kept_str
  | |- evolves _ (generate_destructor _ _) => apply kept_destructor
  | |- evolves _ (fill_richcompare _) => apply kept_richcompare
  | |- evolves _ (fill_numbers _ _ _) => apply kept_numbers
  | |- evolves _ (fill_sequence _ _) => apply kept_sequence
  | |- evolves _ (write_metaclass _ _ _ _ _) => apply kept_metaclass
  | |- evolves _ (register_type_object _ _ _) => apply kept_register_type
  | |- evolves _ (generate_constructor _ _ _) => apply kept_constructor
  | |- evolves _ (generate_methods _ _ _ _ _ _ _ _ _ _) => apply kept_generate_methods
  | |- evolves _ (generate_type_structure _) => apply kept_type_structure
  | |- evolves _ (generate_getsets _ (instance_attributes _)) => apply kept_getsets, Hinstance
  | |- evolves _ (generate_getsets _ (static_attributes _)) => apply kept_getsets, Hstatic
  | _ => kept_step
  end.
Lemma kept_fill_slots i :
  evolves KC (fill_type_slots make_registry python_to_c_converter c_to_python_converter i).
Proof.
  unfold fill_type_slots. repeat kept_call.
Qed.

Lemma kept_import i m : evolves KC (generate_import_from_module (M:=M) (A:=A) g make_registry store
  trivial_class_return handle_error i m).
Proof.
  unfold generate_import_from_module, import_type, import_typeid_map, generate_helper. repeat kept_call.
Qed.
Lemma kept_export i m : evolves KC (export_typeid_map (M:=M) (A:=A) i m).
Proof. unfold export_typeid_map. repeat kept_call. Qed.
Lemma kept_register_typeid i m : evolves KC (register_typeid (M:=M) (A:=A) i m).
Proof. unfold register_typeid. repeat kept_call. Qed.
Lemma kept_parent_callers i : evolves KC (parent_callers_of (M:=M) (A:=A) g store trivial_class_return handle_error i).
Proof. unfold parent_callers_of, generate_helper. repeat kept_call. Qed.

Local Abbreviation run_generate := (generate_class (M:=M) (A:=A) g make_registry store trivial_class_return
  handle_error no_kwargs new_param new_return on_error instance_attributes static_attributes
  container_generate python_to_c_converter c_to_python_converter).
Lemma kept_class_body i m : evolves KC (generate_class_body (M:=M) (A:=A) g make_registry store trivial_class_return
  handle_error no_kwargs new_param new_return on_error instance_attributes static_attributes
  container_generate python_to_c_converter c_to_python_converter i m).
Proof.
  unfold generate_class_body.
  repeat first [kept_call
    | match goal with
      | |- evolves _ (export_typeid_map _ _) => apply kept_export
      | |- evolves _ (register_typeid _ _) => apply kept_register_typeid
      | |- evolves _ (parent_callers_of _ _ _ _ _) => apply kept_parent_callers
      | |- evolves _ (fill_type_slots _ _ _ _) => apply kept_fill_slots
      end].
Qed.
Lemma kept_generate_class i m : evolves KC (run_generate i m).
Proof.
  unfold generate_class. kept; [apply kept_import | apply kept_class_body].
Qed.

Local Abbreviation run_declarations := (class_forward_declarations (M:=M) (A:=A) g make_registry store
  trivial_class_return handle_error no_kwargs new_param new_return on_error run_hook static_attributes
  container_forward).
Lemma kept_first {B} (m : ST classes B) : evolves all_kept m -> evolves (keeps_classes (S:=M)) (on_fst m).
Proof. apply (evolves_on_fst all_kept). Qed.
Lemma kept_declare_helper i : evolves KC (declare_helper_class (M:=M) (A:=A) g store trivial_class_return
  handle_error no_kwargs new_param new_return on_error run_hook i).
Proof.
  unfold declare_helper_class, run_hooks, drop_helper, inherit_helper_class_parent_virtuals, inherit_from,
    inherit_virtual. kept_step.
  - apply class_kept_on_fst. repeat (apply kept_first || kept_step).
  - repeat (kept_step || apply class_kept_on_fst).
Qed.
Lemma kept_check_constructible i : evolves KC (check_constructible (M:=M) (A:=A) i).
Proof.
  unfold check_constructible. kept_step; [apply kept_in_classes, kept_pure_virtual|].
  repeat (kept_step || apply class_kept_on_fst || apply kept_first).
Qed.
Lemma kept_forward_declarations i m : evolves KC (run_declarations i m).
Proof.
  unfold class_forward_declarations, declare_type_object, generate_typeid_map, declare_typemap.
  repeat kept_call; [apply kept_declare_helper | apply kept_check_constructible].
Qed.

(** C16: What the user gave a class is used.  Whatever is generated for any class, also when it
    raises, no class changes its declaration, its names, its module or its
    operators, and every slot that was filled before keeps its value, except for the
    number and sequence methods, and a comparison that was [NULL].  The getters, the
    setters, the container traits and the converters are assumed to do so too. *)
Theorem user_slots_kept (i : nat) (m : module_view) (st st' : cgen) (r : res unit) :
  class_forward_declarations g make_registry store trivial_class_return handle_error no_kwargs new_param
    new_return on_error run_hook static_attributes container_forward i m st = (st', r)
  \/ generate_class g make_registry store trivial_class_return handle_error no_kwargs new_param new_return
    on_error instance_attributes static_attributes container_generate python_to_c_converter
    c_to_python_converter i m st = (st', r) ->
  forall j c, st.1.1 !! j = Some c ->
  exists c', st'.1.1 !! j = Some c'
    /\ cl_config c' = cl_config c /\ cl_module c' = cl_module c /\ cl_names c' = cl_names c
    /\ cl_operators c' = cl_operators c
    /\ forall key value, cl_slots c !! key = Some value ->
         key <> "tp_as_number" -> key <> "tp_as_sequence" ->
         (key = "tp_richcompare" -> value <> "NULL") ->
         cl_slots c' !! key = Some value.
Proof.
  intros E j c Hc. assert (KC st st') as HK.
  { destruct E as [E|E]; [pose proof (kept_forward_declarations i m st) as H | pose proof (kept_generate_class i m st) as H];
      by rewrite E in H. }
  destruct (Forall2_lookup_l _ _ _ _ _ HK Hc) as (c'&Hc'&[]). exists c'. split_and!; [done..|].
  intros key value Hk H1 H2 H3. apply ck_slots0; [done|]. intros [Hr|[Hr|[Hr Hv]]]; [by apply H1|by apply H2|by apply H3].
Qed.
End generation_keeps.

(** ** Whether a class can be constructed *)

(** What the forward declarations settle about a class. *)
Record same_standing {H A} (c c' : cpp_class H A) : Prop := {
  st_helper : cl_helper_class c' = cl_helper_class c;
  st_reason : ss_cannot_be_constructed (cl_status c') = ss_cannot_be_constructed (cl_status c);
  st_pure : ss_have_pure_virtual_methods (cl_status c') = ss_have_pure_virtual_methods (cl_status c)
}.
#[export] Instance same_standing_preorder {H A} : PreOrder (@same_standing H A).
Proof. split; [by split|]. intros c1 c2 c3 [] []. split; congruence. Qed.

Lemma standing_registry {H A} make i :
  evolves (classwise same_standing) (get_wrapper_registry (H:=H) (A:=A) make i).
Proof.
  assert (forall n, evolves (classwise same_standing) (the_cpp_class (H:=H) (A:=A) n)) as Hthe
    by (intros n cs; reflexivity).
  unfold get_wrapper_registry. kept_step; [by apply evolves_get, _|]. intros cs.
  destruct (root_class (S (length cs)) cs i) as [r|]; [|by apply evolves_raise, _].
  kept_step; [apply Hthe|]. intros c. destruct (ss_wrapper_registry _); [by apply evolves_ret, _|].
  kept_step; [by apply evolves_lift, _|]. intros p. kept_step; [|intros _; by apply evolves_ret, _].
  apply classwise_update; [exact _|]. by split.
Qed.

Section settled.
Context {A M P : Type} {module_ops : ModuleOps M} (g : settings)
  (make_registry : string -> wrapper_registry) {dict_order : DictOrder}.
Local Abbreviation cpp_class := (class_object A).
Local Abbreviation classes := (list cpp_class).
Local Abbreviation cgen := ((classes * M) * code_sink)%type.

(** The steps that leave the classes alone. *)
Definition same_classes (st st' : cgen) : Prop := st'.1.1 = st.1.1.
#[local] Instance same_classes_preorder : PreOrder same_classes.
Proof. unfold same_classes. split; [done | intros ? ? ? H1 H2; congruence]. Qed.
Lemma same_writeln line : evolves same_classes (sink_writeln line).
Proof. by intros [[cs s] k]. Qed.
Lemma same_module {B} (m : ST M B) : evolves same_classes (in_module (A:=A) m).
Proof. intros [[cs s] k]. unfold in_module, on_fst, on_snd. cbn. by destruct (m s). Qed.
Lemma same_self i : evolves same_classes (self (M:=M) (A:=A) i).
Proof. by intros [[cs s] k]. Qed.
Lemma same_typeid_map i map_name : evolves same_classes (generate_typeid_map (M:=M) (A:=A) g i map_name).
Proof.
  unfold generate_typeid_map, declare_typemap.
  repeat first [apply evolves_bind; [exact _|..] | apply evolves_catch; [exact _|..] | apply evolves_when; [exact _|]
    | apply evolves_if | apply same_writeln | apply same_module | apply same_self | apply evolves_ret; exact _
    | match goal with
      | |- forall _, _ => intros ?
      | |- evolves _ (match ?x with _ => _ end) => destruct x
      end | apply evolves_raise; exact _].
Qed.

(** What successful steps did. *)
Lemma on_fst_Ok {S T B} (m : ST S B) (st st' : S * T) b : on_fst m st = (st', Ok b) ->
  exists s', m st.1 = (s', Ok b) /\ st' = (s', st.2).
Proof. unfold on_fst. destruct (m st.1) as [s' r]. intros [= <- ->]. by exists s'. Qed.
Lemma in_classes_Ok {B} (m : ST classes B) (st st' : cgen) b : in_classes m st = (st', Ok b) ->
  exists cs', m st.1.1 = (cs', Ok b) /\ st' = ((cs', st.1.2), st.2).
Proof. intros (s&(cs'&E&->)%on_fst_Ok&->)%on_fst_Ok. by exists cs'. Qed.
Lemma the_class_Ok i (cs cs' : classes) c : the_cpp_class i cs = (cs', Ok c) -> cs' = cs /\ cs !! i = Some c.
Proof. unfold the_cpp_class. destruct (cs !! i); [|discriminate]. by intros [= <- ->]. Qed.
Lemma self_Ok i (st st' : cgen) c : self i st = (st', Ok c) -> st' = st /\ st.1.1 !! i = Some c.
Proof.
  intros (cs'&E&->)%in_classes_Ok. apply the_class_Ok in E as [-> Hc]. by destruct st as [[cs s] k].
Qed.
Lemma update_Ok i f (cs cs' : classes) : update_class i f cs = (cs', Ok tt) ->
  exists c, cs !! i = Some c /\ cs' !! i = Some (f c).
Proof.
  intros E. unfold update_class in E. apply st_bind_Ok in E as (cs1&c&E1&E). apply the_class_Ok in E1 as [-> Hc].
  injection E as <-. exists c. split; [done|]. by apply list_lookup_insert_eq; eapply lookup_lt_Some.
Qed.

(** The question about pure virtual methods is answered once. *)
Lemma pure_virtual_stored i (cs cs' : classes) b :
  get_have_pure_virtual_methods i cs = (cs', Ok b) ->
  exists c c', cs !! i = Some c /\ cs' !! i = Some c'
    /\ cl_helper_class c' = cl_helper_class c /\ ss_have_pure_virtual_methods (cl_status c') = Some b.
Proof.
  unfold get_have_pure_virtual_methods. intros (cs1&c&[-> Hc]%the_class_Ok&E)%st_bind_Ok.
  destruct (ss_have_pure_virtual_methods (cl_status c)) as [b0|] eqn:Eb.
  - injection E as <- <-. by exists c, c.
  - apply st_bind_Ok in E as (cs1&cs2&E1&E). injection E1 as <- <-.
    apply st_bind_Ok in E as (cs1&b1&E1&E). injection E1 as <- E1.
    apply st_bind_Ok in E as (cs1&[]&E2&E). injection E as <- <-.
    apply update_Ok in E2 as (c1&Hc1&Hc2). by eexists c1, _.
Qed.

Lemma check_constructible_spec i (st st' : cgen) :
  check_constructible i st = (st', Ok tt) ->
  exists c c' b, st.1.1 !! i = Some c /\ st'.1.1 !! i = Some c'
    /\ cl_helper_class c' = cl_helper_class c /\ ss_have_pure_virtual_methods (cl_status c') = Some b
    /\ (b = true -> cl_helper_class c' = None -> ss_cannot_be_constructed (cl_status c') = no_helper_reason).
Proof.
  unfold check_constructible. intros (st1&b&(cs1&Ep&->)%in_classes_Ok&E)%st_bind_Ok.
  apply pure_virtual_stored in Ep as (c&c1&Hc&Hc1&Hh&Hb).
  apply st_bind_Ok in E as (st2&c2&[-> Hc2]%self_Ok&E). cbn in Hc2. replace c2 with c1 in * by congruence.
  unfold st_when in E. destruct (b && bool_decide (cl_helper_class c1 = None)) eqn:Ec.
  - apply on_fst_Ok in E as (s&E&->). unfold set_cannot_be_constructed in E.
    apply on_fst_Ok in E as (cs3&(c3&Hc3&Hc4)%update_Ok&->). cbn in *. replace c3 with c1 in * by congruence. by eexists c, _, b.
  - injection E as <-. cbn. exists c, c1, b. split_and!; [done..|]. intros -> Hn. rewrite Hn in Ec.
    by rewrite bool_decide_eq_true_2 in Ec.
Qed.

Lemma drop_helper_spec i (st st' : cgen) :
  drop_helper i st = (st', Ok tt) ->
  exists c', st'.1.1 !! i = Some c'
    /\ (forall h, cl_helper_class c' = Some h -> he_cannot_be_constructed h = false).
Proof.
  unfold drop_helper. intros (st1&c&[-> Hc]%self_Ok&E)%st_bind_Ok.
  destruct (cl_helper_class c) as [h0|] eqn:Eh; [|discriminate]. unfold st_when in E.
  destruct (he_cannot_be_constructed h0) eqn:Ec.
  - apply in_classes_Ok in E as (cs'&(c1&Hc1&Hc2)%update_Ok&->). eexists. split; [exact Hc2|]. cbn. discriminate.
  - injection E as <-. exists c. split; [done|]. intros h Hh. congruence.
Qed.

Lemma standing_lookup (cs cs' : classes) i c :
  classwise same_standing cs cs' -> cs !! i = Some c -> exists c', cs' !! i = Some c' /\ same_standing c c'.
Proof. intros H Hc. destruct (Forall2_lookup_l _ _ _ _ _ H Hc) as (c'&?&?). by exists c'. Qed.
Lemma standing_root (root imported : bool) (m : module_view) i (st st' : cgen) :
  st_when root (registry <- registry_of make_registry i ;;
     in_module_and_sink (registry_forward_declarations (module_add_include m) registry imported)) st = (st', Ok tt) ->
  classwise same_standing st.1.1 st'.1.1.
Proof.
  unfold st_when. destruct root; [|by intros [= <-]]. intros (st1&r&(cs1&E1&->)%in_classes_Ok&E)%st_bind_Ok.
  pose proof (standing_registry make_registry i st.1.1) as H. rewrite E1 in H. cbn in H.
  unfold in_module_and_sink in E. destruct (registry_forward_declarations _ _ _ _) as [[s k] r']. by injection E as <- _.
Qed.
End settled.

Section settle.
Context {A M P : Type} {module_ops : ModuleOps M} (g : settings)
  (make_registry : string -> wrapper_registry) {so : SetOrder} {dict_order : DictOrder}
  (store : list cpp_exception) (trivial_class_return : return_handler -> bool)
  (handle_error : option (class_part -> pyexn -> bool)) (no_kwargs : P)
  (new_param : list (@spec_item pyval P) -> P -> ST world param_handler)
  (new_return : list (@spec_item pyval P) -> P -> ST world return_handler)
  (on_error : error_handler world).
Local Abbreviation classes := (list (class_object A)).
Local Abbreviation cgen := ((classes * M) * code_sink)%type.
Context (run_hook : A -> ST cpp_helper_class unit) (static_attributes : nat -> getset_def (S:=classes * M))
  (container_forward : nat -> option (module_view -> ST cgen unit)).

Lemma declare_helper_spec i (st st' : cgen) (c : class_object A) :
  st.1.1 !! i = Some c ->
  st_when (bool_decide (is_Some (cl_helper_class c)))
    (declare_helper_class g store trivial_class_return handle_error no_kwargs new_param new_return on_error run_hook i)
    st = (st', Ok tt) ->
  exists c', st'.1.1 !! i = Some c'
    /\ (forall h, cl_helper_class c' = Some h -> he_cannot_be_constructed h = false).
Proof.
  intros Hc E. unfold st_when in E. destruct (cl_helper_class c) as [h|] eqn:Eh.
  - rewrite bool_decide_eq_true_2 in E by by eexists. unfold declare_helper_class in E.
    apply st_bind_Ok in E as (st1&[]&_&E). apply st_bind_Ok in E as (st2&[]&_&E).
    apply st_bind_Ok in E as (st3&[]&_&E). by apply drop_helper_spec in E.
  - rewrite bool_decide_eq_false_2 in E by by intros [? [=]]. injection E as <-. exists c.
    split; [done|]. intros h0 Hh. congruence.
Qed.

(** The container traits of a class, if it has any, leave what is settled about
    the classes; those of [cppclass_container.py] do ([traits_keep_the_standing] of
    ClassContainers). *)
Definition keeps_standing (st st' : cgen) : Prop := classwise same_standing st.1.1 st'.1.1.
#[local] Instance keeps_standing_preorder : PreOrder keeps_standing.
Proof. unfold keeps_standing. split; [by intros st | intros s1 s2 s3 H1 H2; by transitivity s2.1.1]. Qed.
Definition standing_traits (traits : option (module_view -> ST cgen unit)) : Prop :=
  forall f m, traits = Some f -> evolves keeps_standing (f m).

(** C17: Classes Python cannot construct.  After its forward declarations a class has
    answered whether it has pure virtual methods left; its helper class, if it still
    has one, can be constructed; and a class with pure virtual methods and no helper
    class cannot be constructed and says why, so that it gets the constructor that
    raises.  The container traits are assumed to leave the helper class, the answer
    and the reason of the classes as they are. *)
Theorem forward_declarations_settle (i : nat) (m : module_view) (st st' : cgen) :
  standing_traits (container_forward i) ->
  class_forward_declarations g make_registry store trivial_class_return handle_error no_kwargs new_param new_return
    on_error run_hook static_attributes container_forward i m st = (st', Ok tt) ->
  exists c pure, st'.1.1 !! i = Some c
    /\ get_have_pure_virtual_methods i st'.1.1 = (st'.1.1, Ok pure)
    /\ (forall h, cl_helper_class c = Some h -> he_cannot_be_constructed h = false)
    /\ (pure = true -> cl_helper_class c = None ->
         ss_cannot_be_constructed (cl_status c) = no_helper_reason /\ can_construct c = false).
Proof.
  intros Hcf E. unfold class_forward_declarations in E.
  apply st_bind_Ok in E as (st1&c&[-> Hc]%self_Ok&E). apply st_bind_Ok in E as (st1&pystruct&E1&E).
  injection E1 as <- E1. apply st_bind_Ok in E as (st1&[]&E2&E).
  pose proof (same_writeln (struct_lines c pystruct) st) as H1. rewrite E2 in H1.
  apply st_bind_Ok in E as (st2&[]&E3&E). pose proof (same_writeln EmptyString st1) as H2. rewrite E3 in H2.
  apply st_bind_Ok in E as (st3&[]&E4&E). 
  assert (evolves same_classes (declare_type_object static_attributes i c)) as H3.
  { unfold declare_type_object, st_when. destruct (imported c); [|destruct (negb _)]; intros [[cs s] k]; reflexivity. }
  specialize (H3 st2). rewrite E4 in H3.
  apply st_bind_Ok in E as (st4&[]&E5&E). pose proof (same_writeln EmptyString st3) as H4. rewrite E5 in H4.
  unfold same_classes in H1, H2, H3, H4. cbn [fst] in H1, H2, H3, H4.
  apply st_bind_Ok in E as (st5&[]&E6&E). apply declare_helper_spec in E6 as (c5&Hc5&Hh); [|congruence].
  apply st_bind_Ok in E as (st6&[]&E7&E).
  apply check_constructible_spec in E7 as (c5'&c6&b&Hc5'&Hc6&Eh&Eb&Er). replace c5' with c5 in * by congruence.
  apply st_bind_Ok in E as (st7&[]&E8&E). assert (st7.1.1 = st6.1.1) as H7.
  { destruct (nm_typeid_map_name (cl_names c)) as [n|]; [|by injection E8 as <-].
    pose proof (same_typeid_map g i n st6) as H. by rewrite E8 in H. }
  apply st_bind_Ok in E as (st8&[]&E9&E). assert (keeps_standing st7 st8) as H8.
  { destruct (container_forward i) as [f|]; [|by injection E9 as <-].
    pose proof (Hcf f m eq_refl st7) as H. by rewrite E9 in H. }
  apply standing_root in E. assert (classwise same_standing st7.1.1 st'.1.1) as Es by (by transitivity st8.1.1).
  rewrite <- H7 in Hc6. destruct (standing_lookup _ _ _ _ Es Hc6) as (c'&Hc'&[S1 S2 S3]).
  exists c', b. split; [done|]. split; [|split].
  - unfold get_have_pure_virtual_methods, st_bind, the_cpp_class. by rewrite Hc', S3, Eb.
  - intros h. rewrite S1, Eh. apply Hh.
  - rewrite S1, S2. intros Hb Hn. specialize (Er Hb Hn). split; [done|]. unfold can_construct. by rewrite S1, S2, Er, Hn.
Qed.
End settle.

(** ** A sample class *)

Abbreviation demo_gen := ((list (class_object unit) * heap) * code_sink)%type.
Definition demo_getsets (_ : nat) : getset_def (S:=list (class_object unit) * heap) := PyGetSetDef_init "getsets".
Definition demo_traits (_ : nat) : option (module_view -> ST demo_gen unit) := None.
Definition demo_converter (_ : converted) : ST demo_gen string := st_raise KeyError.
Definition demo_state (slots : gmap string string) : demo_gen := (([demo_object slots], demo_blocks), MemoryCodeSink).
Definition demo_generate (st : demo_gen) : demo_gen * res unit :=
  generate_class default_settings StdMapWrapperRegistry_init [] (fun _ => false) None tt demo_new_param demo_new_return
    None demo_getsets demo_getsets demo_traits demo_converter demo_converter 0 demo_view st.

Lemma user_slots_kept_witness :
  exists st' c', demo_generate (demo_state {["tp_repr" := "my_repr"]}) = (st', Ok tt)
    /\ st'.1.1 !! 0%nat = Some c' /\ cl_slots c' !! "tp_repr" = Some "my_repr".
Proof.
  assert (is_ok (demo_generate (demo_state {["tp_repr" := "my_repr"]})).2 = true) as Hok by (vm_compute; reflexivity).
  destruct (demo_generate (demo_state {["tp_repr" := "my_repr"]})) as [st' r] eqn:E. cbn [snd] in Hok.
  destruct (user_slots_kept default_settings StdMapWrapperRegistry_init [] (fun _ => false) None tt demo_new_param
    demo_new_return None (fun _ => st_ret tt) demo_getsets demo_getsets demo_traits demo_traits demo_converter
    demo_converter) with (i := 0%nat) (m := demo_view) (st := demo_state {["tp_repr" := "my_repr"]}) (st' := st')
    (r := r) (j := 0%nat) (c := demo_object {["tp_repr" := "my_repr"]}) as (c'&Hc'&_&_&_&_&Hs).
  - intros j a acc Ha. apply not_elem_of_nil in Ha. destruct Ha.
  - intros j a acc Ha. apply not_elem_of_nil in Ha. destruct Ha.
  - intros j f m. discriminate.
  - intros j f m. discriminate.
  - intros v. apply evolves_raise. exact _.
  - intros v. apply evolves_raise. exact _.
  - right. exact E.
  - reflexivity.
  - destruct r as [[]|e]; [|discriminate]. exists st', c'. split; [reflexivity|]. split; [exact Hc'|].
    apply Hs; [reflexivity|discriminate..].
Defined.

(** A class with a pure virtual method that could not be wrapped, and with container
    traits that declare something. *)
Definition demo_abstract : demo_gen :=
  (([on_members (add_dummy (demo_virtual true)) (demo_object ∅)], demo_blocks), MemoryCodeSink).
Definition declaring_traits (_ : nat) : option (module_view -> ST demo_gen unit) :=
  Some (fun _ => sink_writeln "typedef struct { } FooIter;").
Definition demo_declare_abstract : demo_gen * res unit :=
  class_forward_declarations default_settings StdMapWrapperRegistry_init [] (fun _ => false) None tt demo_new_param
    demo_new_return None (fun _ => st_ret tt) demo_getsets declaring_traits 0 demo_view demo_abstract.

Lemma forward_declarations_settle_witness :
  exists st' c, demo_declare_abstract = (st', Ok tt) /\ st'.1.1 !! 0%nat = Some c
    /\ get_have_pure_virtual_methods 0 st'.1.1 = (st'.1.1, Ok true)
    /\ cl_helper_class c = None /\ can_construct c = false.
Proof.
  assert (is_ok demo_declare_abstract.2 = true
    /\ (get_have_pure_virtual_methods 0 demo_declare_abstract.1.1.1).2 = Ok true
    /\ (demo_declare_abstract.1.1.1 !! 0%nat ≫= cl_helper_class) = None) as (Hok&Hpure&Hhelper)
    by (split_and!; vm_compute; reflexivity).
  destruct demo_declare_abstract as [st' r] eqn:E. cbn [fst snd] in *. destruct r as [[]|e]; [|discriminate].
  destruct (forward_declarations_settle default_settings StdMapWrapperRegistry_init [] (fun _ => false) None tt
    demo_new_param demo_new_return None (fun _ => st_ret tt) demo_getsets declaring_traits 0 demo_view demo_abstract st')
    as (c&pure&Hc&Hpv&_&Hn); [|exact E|].
  { intros f m [= <-] [[cs s] k]. unfold keeps_standing. cbn. reflexivity. }
  rewrite Hc in Hhelper. cbn in Hhelper. rewrite Hpv in Hpure. cbn in Hpure. injection Hpure as ->.
  destruct (Hn eq_refl Hhelper) as [_ Hcan]. exists st', c.
  split; [reflexivity|]. split; [exact Hc|]. split; [exact Hpv|]. split; [exact Hhelper|exact Hcan].
Defined.

(** A class that is not below the one with the pure virtual method counts as
    implementing it when it comes later in the reversed order: [D(C, B)], where [B]
    has the pure virtual method and [C], beside it, a virtual one, is no abstract
    class, but [D(B, C)] is. *)
Definition demo_bases (bases : list nat) : list (class_object unit) :=
  let virtual pure := on_members (add_dummy (demo_virtual pure)) (demo_object ∅) in
  [virtual true; virtual false; new_class (demo_config "D" bases)].
Lemma beside_counts_as_below :
  (get_have_pure_virtual_methods 2 (demo_bases [1; 0]%nat)).2 = Ok false
  /\ (get_have_pure_virtual_methods 2 (demo_bases [0; 1]%nat)).2 = Ok true.
Proof. split; vm_compute; reflexivity. Qed.
