(* ===== verification/Iteration.v ===== *)
(** * Iterators of containers: [IterNextWrapper] and the iterator half of
    [pybindgen/container.py] and [pybindgen/cppclass_container.py]

    A wrapped container and a class with container traits both get an iterator type,
    with the same functions up to the names of the methods they call.  These are
    generated here; what the two do besides is in [Containers] and
    [ClassContainers]. *)
From S2P Require Import Prelude.
From S2P Require Import Format.
From S2P Require Import CodeSink.
From S2P Require Import CodeBlock.
From S2P Require Import Wrapper.
From S2P Require Import TypeHandler.
From S2P Require Import HandlerOps.
From S2P Require Import NumericTypes.
From S2P Require Import WrapperBase.
From S2P Require Import Utils.
From S2P Require Import Settings.
From S2P Require Import CppException.
From S2P Require Import PyTypeObject.
From S2P Require Import Converters.

(** The names the code is written with. *)
Record iteration_names : Type := IterationNames {
  in_pystruct : string;
  in_full_name : string;
  in_iter_pystruct : string;
  in_iter_pytypestruct : string;
  in_iter_python_full_name : res string;
  in_begin_method : string;
  in_end_method : string;
  in_iterator_type : string
}.

(** What changes: the slots of the iterator type, and the handlers of the elements,
    whose values are set. *)
Record iterator_state : Type := IteratorState {
  is_slots : gmap string string;
  is_key_type : option value_type;
  is_value_type : value_type
}.
Definition with_iter_slots (slots : gmap string string) (s : iterator_state) : iterator_state :=
  IteratorState slots (is_key_type s) (is_value_type s).

(** ** The types of the elements *)

Section elements.
Context {S K : Type} (no_kwargs : K)
  (new_value : list (@spec_item pyval K) -> K -> ST S value_type) (on_error : error_handler S).
Local Abbreviation element_spec := (@spec pyval K value_type).

(** The argument [value_type]: a specification, or a pair of them. *)
Inductive element_types : Type :=
  | OneType (s : element_spec)
  | PairType (key element : element_spec).

(** A mapping unpacks its argument, which may be a tuple of two arguments. *)
Definition key_and_element (mapping : bool) (t : element_types) : res (option element_spec * element_spec) :=
  match mapping, t with
  | true, PairType k v => Ok (Some k, v)
  | true, OneType (Tuple _ [Arg a; Arg b]) => Ok (Some (Str _ a), Str _ b)
  | true, OneType (Tuple _ _) | true, OneType (Str _ _) => Raise ValueError
  | true, OneType _ => Raise TypeError
  | false, OneType s => Ok (None, s)
  | false, PairType (Str _ a) (Str _ b) => Ok (None, Tuple _ [Arg a; Arg b])
  | false, PairType _ _ => Raise TypeError
  end.

Definition eval_elements (types : option element_spec * element_spec) : ST S (option value_type * value_type) :=
  key <- match types.1 with
         | None => st_ret None
         | Some k => v <- eval_retval new_value on_error no_kwargs k ;; st_ret (Some v)
         end ;;
  element <- eval_retval new_value on_error no_kwargs types.2 ;;
  st_ret (key, element).
End elements.

Section iteration.
Context (g : settings) (n : iteration_names).
Local Abbreviation igen := (iterator_state * code_sink)%type.
Local Abbreviation iter_pystruct := (in_iter_pystruct n).

(** [self.iter_pytype.slots.setdefault(key, value)] *)
Definition iter_default_slot (key value : string) : ST igen unit :=
  on_fst (st_modify (fun s => with_iter_slots (setdefault (is_slots s) (key, value)) s)).

(** ** [tp_clear], [tp_traverse] and [tp_dealloc] *)

Definition get_iter_delete_code : string :=
  join nls ["delete self->iterator;"; "    self->iterator = NULL;"; EmptyString].

Definition iter_tp_clear_name : string := iter_pystruct +:+ "__tp_clear".
Definition iter_tp_clear_text : string :=
  join nls [EmptyString; "static void"; iter_tp_clear_name +:+ "(" +:+ iter_pystruct +:+ " *self)"; "{";
            "    Py_CLEAR(self->container);"; "    " +:+ get_iter_delete_code; "}"; EmptyString].
Definition iter_tp_traverse_name : string := iter_pystruct +:+ "__tp_traverse".
Definition iter_tp_traverse_text : string :=
  join nls [EmptyString; "static int";
            iter_tp_traverse_name +:+ "(" +:+ iter_pystruct +:+ " *self, visitproc visit, void *arg)"; "{";
            "    Py_VISIT((PyObject *) self->container);"; "    return 0;"; "}"; EmptyString].

Definition generate_iter_gc_methods : ST igen unit :=
  iter_default_slot "tp_clear" iter_tp_clear_name ;;;
  sink_writeln iter_tp_clear_text ;;;
  iter_default_slot "tp_traverse" iter_tp_traverse_name ;;;
  sink_writeln iter_tp_traverse_text.

Definition iter_tp_dealloc_name : string := "_wrap_" +:+ iter_pystruct +:+ "__tp_dealloc".
Definition iter_tp_dealloc_text : string :=
  join nls [EmptyString; "static void"; iter_tp_dealloc_name +:+ "(" +:+ iter_pystruct +:+ " *self)"; "{";
            "    Py_CLEAR(self->container);"; "    " +:+ get_iter_delete_code;
            "    self->ob_type->tp_free((PyObject*)self);"; "}"; EmptyString].
Definition generate_iter_destructor : ST igen unit :=
  sink_writeln iter_tp_dealloc_text ;;;
  iter_default_slot "tp_dealloc" iter_tp_dealloc_name.

(** ** [tp_iter], of the container and of its iterator *)

Definition container_tp_iter_name : string := "_wrap_" +:+ in_pystruct n +:+ "__tp_iter".
Definition container_tp_iter_text : string :=
  join nls [EmptyString; "static PyObject*";
            container_tp_iter_name +:+ "(" +:+ in_pystruct n +:+ " *self)"; "{";
            "    " +:+ iter_pystruct +:+ " *iter = PyObject_GC_New(" +:+ iter_pystruct +:+ ", &"
              +:+ in_iter_pytypestruct n +:+ ");";
            "    Py_INCREF(self);"; "    iter->container = self;";
            "    iter->iterator = new " +:+ in_full_name n +:+ "::" +:+ in_iterator_type n
              +:+ "(self->obj->" +:+ in_begin_method n +:+ "());";
            "    return (PyObject*) iter;"; "}"; EmptyString].

Definition iter_tp_iter_name : string := "_wrap_" +:+ iter_pystruct +:+ "__tp_iter".
Definition iter_tp_iter_text : string :=
  join nls [EmptyString; "static PyObject*"; iter_tp_iter_name +:+ "(" +:+ iter_pystruct +:+ " *self)"; "{";
            "    Py_INCREF(self);"; "    return (PyObject*) self;"; "}"; EmptyString].
Definition generate_iter_tp_iter : ST igen unit :=
  sink_writeln iter_tp_iter_text ;;;
  iter_default_slot "tp_iter" iter_tp_iter_name.

(** ** [IterNextWrapper] *)

Definition iternext_name : string := "_wrap_" +:+ iter_pystruct +:+ "__tp_iternext".

(** The handlers with the values of the current element. *)
Definition element_values (iter : string) (s : iterator_state) : iterator_state :=
  match is_key_type s with
  | None => IteratorState (is_slots s) None (set_value ("(*" +:+ iter +:+ ")") (is_value_type s))
  | Some k => IteratorState (is_slots s) (Some (set_value (iter +:+ "->first") k))
                (set_value (iter +:+ "->second") (is_value_type s))
  end.

(** [generate_call]: the value of a mapping is converted before its key, but built
    after it, since results are put in front. *)
Definition convert_element (s : iterator_state) (w : wrapper) : ST world unit :=
  rh_convert_c_to_python (vt_handler (is_value_type s)) w ;;;
  match is_key_type s with
  | None => st_ret tt
  | Some k => rh_convert_c_to_python (vt_handler k) w
  end.
Definition IterNext_generate_call (s : iterator_state) (iter : string) (w : wrapper) : ST world unit :=
  before_call_code w (iter +:+ " = *self->iterator;") ;;;
  before_call_check w (iter +:+ " == self->container->obj->" +:+ in_end_method n +:+ "()")
    (Some "PyErr_SetNone(PyExc_StopIteration);") ;;;
  before_call_code w "++(*self->iterator);" ;;;
  convert_element (element_values iter s) w.

(** [reset_code_generation_state]: the iterator variable is declared again. *)
Definition IterNext_reset (fw : forward_wrapper) : ST world string :=
  forward_reset_code_generation_state fw ;;;
  declare (fw_refs fw) (in_full_name n +:+ "::" +:+ in_iterator_type n) "iter" None None.

(** The constructor ends with a reset, which gives the variable its name. *)
Definition with_call (call : wrapper -> ST world unit) (fw : forward_wrapper) : forward_wrapper :=
  MkForward (fw_return_value fw) (fw_parameters fw) (fw_refs fw) (fw_force_parse fw) (fw_no_c_retval fw)
    (fw_unblock_threads fw) (fw_deprecated fw) (fw_wrapper_actual_name fw) (fw_wrapper_return fw)
    (fw_wrapper_args fw) (fw_HAVE_RETURN_VALUE fw) call (fw_before_call_hook fw) (fw_before_return_hook fw).
Definition IterNextWrapper_init (s : iterator_state) : ST world (forward_wrapper * string) :=
  let pass := fun _ => st_ret tt in
  fw <- ForwardWrapperBase_init None [] "return NULL;" "return NULL;" None true (unblock_threads g) true
          pass pass pass ;;
  iter <- IterNext_reset fw ;;
  st_ret (with_call (IterNext_generate_call s iter) fw, iter).

(** [self.generate_body(tmp_sink)] of a new wrapper: the variable and the body *)
Definition iternext_body (s : iterator_state) : res (string * code_sink) :=
  match IterNextWrapper_init s (World empty_heap [] [] [] [] ∅) with
  | (_, Raise e) => Raise e
  | (s', Ok (fw, iter)) =>
      match generate_body fw (Gen s' MemoryCodeSink) with
      | (_, Raise e) => Raise e
      | (gen, Ok _) => Ok (iter, g_out gen)
      end
  end.

Definition flush_body (tmp_sink : code_sink) : ST igen unit :=
  fun st => match flush_to tmp_sink st.2 with
            | Ok (_, k) => ((st.1, k), Ok tt)
            | Raise e => (st, Raise e)
            end.

(** [generate]; when the body fails nothing is written. *)
Definition IterNext_generate : ST igen unit :=
  body <- st_bind (st_get fst) (fun s => st_lift (iternext_body s)) ;;
  on_fst (st_modify (element_values body.1)) ;;;
  sink_writeln ("static PyObject* " +:+ iternext_name +:+ "(" +:+ iter_pystruct +:+ " *self)") ;;;
  sink_writeln "{" ;;;
  sink_indent ;;;
  flush_body body.2 ;;;
  sink_unindent ;;;
  sink_writeln "}".
Definition generate_iternext : ST igen unit :=
  IterNext_generate ;;;
  iter_default_slot "tp_iternext" iternext_name.

(** ** The type object of the iterator *)

Definition iter_type_slots : list (string * string) :=
  [("tp_basicsize", "sizeof(" +:+ iter_pystruct +:+ ")");
   ("tp_flags", "Py_TPFLAGS_DEFAULT|Py_TPFLAGS_HAVE_GC");
   ("typestruct", in_iter_pytypestruct n)].
Definition iter_default_slots (l : list (string * string)) : ST igen unit :=
  st_iter (fun kv => iter_default_slot kv.1 kv.2) l.

(** [docs] are slots set besides the name. *)
Definition generate_iter_type_structure (docs : list (string * string)) : ST igen unit :=
  iter_default_slots iter_type_slots ;;;
  name <- st_lift (in_iter_python_full_name n) ;;
  iter_default_slots (("tp_name", name) :: docs) ;;;
  s <- st_get fst ;;
  on_snd (fun k => match PyTypeObject_generate (is_slots s) k with
                   | Ok k' => (k', Ok tt) | Raise e => (k, Raise e) end).

(** ** What is generated *)

(** The slots the functions fill. *)
Definition iter_function_slots : list (string * string) :=
  [("tp_clear", iter_tp_clear_name); ("tp_traverse", iter_tp_traverse_name);
   ("tp_dealloc", iter_tp_dealloc_name); ("tp_iter", iter_tp_iter_name);
   ("tp_iternext", iternext_name)].

Lemma iter_default_slots_run l : forall s k,
  iter_default_slots l (s, k) = ((with_iter_slots (fold_left setdefault l (is_slots s)) s, k), Ok tt).
Proof.
  induction l as [|[key v] l IH]; intros s k; [by destruct s|].
  unfold iter_default_slots in *. cbn. unfold st_bind. cbn. by rewrite IH.
Qed.

(** The function around the body; the indentation is the same after it. *)
Definition iternext_text (tmp_sink k k' : code_sink) : Prop :=
  exists k1 k2, flush_to tmp_sink (indent (writeln (writeln k ("static PyObject* " +:+ iternext_name +:+ "("
      +:+ iter_pystruct +:+ " *self)")) "{") 4) = Ok (k1, k2)
    /\ exists k3, unindent k2 = Ok k3 /\ k' = writeln k3 "}".

Lemma IterNext_generate_run s k st :
  IterNext_generate (s, k) = (st, Ok tt) <->
  exists iter tmp, iternext_body s = Ok (iter, tmp) /\ st.1 = element_values iter s
    /\ iternext_text tmp k st.2.
Proof.
  unfold IterNext_generate, iternext_text, st_bind, st_get, st_lift, on_fst, sink_writeln, sink_indent,
    sink_unindent, on_snd, flush_body, st_modify. cbn [fst snd].
  destruct (iternext_body s) as [[iter tmp]|e]; cbn [fst snd];
    [|split; [done | intros (iter&tmp&E&_); discriminate E]].
  set (k0 := indent _ 4). clearbody k0.
  split.
  - destruct (flush_to tmp k0) as [[k1 k2]|e] eqn:Ef; cbn [fst snd]; [|done].
    destruct (unindent k2) as [k3|e] eqn:Eu; cbn [fst snd]; [|done].
    intros [= <-]. exists iter, tmp. split_and!; [done..|]. exists k1, k2. split; [done|]. by exists k3.
  - destruct st as [s' k']. cbn [fst snd]. intros (i'&t'&[= <- <-]&->&k1&k2&->&k3&Eu&->). cbn [fst snd].
    by rewrite Eu.
Qed.

(** A successful run fills in the slots of [l], unless they have a value. *)
Definition iter_fills {A} (m : ST igen A) (l : list (string * string)) : Prop :=
  forall st st' a, m st = (st', Ok a) -> is_slots st'.1 = fold_left setdefault l (is_slots st.1).

Lemma iter_fills_bind {A B} (m : ST igen A) (k : A -> ST igen B) l1 l2 :
  iter_fills m l1 -> (forall a, iter_fills (k a) l2) -> iter_fills (st_bind m k) (l1 ++ l2).
Proof.
  intros Hm Hk st st' b (st1&a&E1&E2)%st_bind_Ok. rewrite fold_left_app, <- (Hm _ _ _ E1). by eapply Hk.
Qed.
Lemma iter_fills_slot key v : iter_fills (iter_default_slot key v) [(key, v)].
Proof. by intros st st' a [= <-]. Qed.
Lemma iter_fills_writeln text : iter_fills (sink_writeln text) [].
Proof. by intros st st' a [= <-]. Qed.

Lemma iter_fills_gc :
  iter_fills generate_iter_gc_methods [("tp_clear", iter_tp_clear_name); ("tp_traverse", iter_tp_traverse_name)].
Proof.
  apply (iter_fills_bind _ _ [_] [_]); [apply iter_fills_slot|intros _].
  apply (iter_fills_bind _ _ [] [_]); [apply iter_fills_writeln|intros _].
  apply (iter_fills_bind _ _ [_] []); [apply iter_fills_slot|intros _; apply iter_fills_writeln].
Qed.
Lemma iter_fills_destructor : iter_fills generate_iter_destructor [("tp_dealloc", iter_tp_dealloc_name)].
Proof. apply (iter_fills_bind _ _ [] [_]); [apply iter_fills_writeln|intros _; apply iter_fills_slot]. Qed.
Lemma iter_fills_tp_iter : iter_fills generate_iter_tp_iter [("tp_iter", iter_tp_iter_name)].
Proof. apply (iter_fills_bind _ _ [] [_]); [apply iter_fills_writeln|intros _; apply iter_fills_slot]. Qed.
Lemma iter_fills_iternext : iter_fills generate_iternext [("tp_iternext", iternext_name)].
Proof.
  apply (iter_fills_bind _ _ [] [_]); [|intros _; apply iter_fills_slot].
  intros [s k] st [] (iter&tmp&_&E&_)%IterNext_generate_run. rewrite E. unfold element_values. cbn.
  by destruct (is_key_type s).
Qed.

(** ** The type object is complete *)

(** The text of a type object, with the defaults of the template. *)
Definition object_text (slots : gmap string string) (text : string) : Prop :=
  format_dict PyTypeObject_TEMPLATE (fun key =>
    match slots !! key with
    | Some v => Some v
    | None => (list_to_map PyTypeObject_defaults : gmap string string) !! key
    end) = Ok text.

(** It is written when its name, size and structure are given. *)
Lemma type_object_run l slots k :
  forallb (fun key => bool_decide (key ∈ map fst l)) ["typestruct"; "tp_name"; "tp_basicsize"] = true ->
  let slots := fold_left setdefault l slots in
  exists text, PyTypeObject_generate slots k = Ok (writeln k text) /\ object_text slots text.
Proof.
  intros Hl slots'. destruct (generate_table_spec PyTypeObject_TEMPLATE PyTypeObject_defaults
    ["typestruct"; "tp_name"; "tp_basicsize"] slots' k) as [Ht _]; [vm_compute; reflexivity..|].
  apply Ht. assert (forall key, bool_decide (key ∈ map fst l) = true -> is_Some (slots' !! key)) as Hin.
  { intros key Hk%bool_decide_eq_true_1. unfold slots'. rewrite lookup_setdefaults.
    destruct (slots !! key); [by eexists|]. apply elem_of_dom. rewrite dom_list_to_map_L. by apply elem_of_list_to_set. }
  cbn [forallb] in Hl. apply andb_prop in Hl as [H1 [H2 [H3 _]%andb_prop]%andb_prop].
  repeat first [apply List.Forall_cons | apply List.Forall_nil]; by apply Hin.
Qed.

Lemma iter_type_structure_run docs name s k :
  in_iter_python_full_name n = Ok name ->
  let slots := fold_left setdefault (iter_type_slots ++ ("tp_name", name) :: docs) (is_slots s) in
  exists text, generate_iter_type_structure docs (s, k) = ((with_iter_slots slots s, writeln k text), Ok tt)
    /\ object_text slots text.
Proof.
  intros Hn slots. unfold generate_iter_type_structure, st_bind at 1. rewrite iter_default_slots_run.
  unfold st_bind at 1, st_lift at 1. rewrite Hn. unfold st_bind at 1. rewrite iter_default_slots_run.
  cbn [is_slots with_iter_slots]. rewrite <- fold_left_app. fold slots.
  destruct (type_object_run (iter_type_slots ++ ("tp_name", name) :: docs) (is_slots s) k) as (text&E&H);
    [reflexivity|].
  fold slots in E, H. exists text. split; [|done]. unfold st_bind, st_get, on_snd.
  cbn [fst snd is_slots with_iter_slots]. by rewrite E.
Qed.
End iteration.
