(* ===== verification/ClassContainers.v ===== *)
(** * Classes that are containers: [pybindgen/cppclass_container.py]

    [CppClassContainerTraits] gives a class an iterator: a type of its own
    ([Iteration]), and the slot [tp_iter] of the class.  It is what [ClassGenerate]
    takes as the container traits of a class. *)
From S2P Require Import Prelude.
From S2P Require Import CodeSink.
From S2P Require Import CodeBlock.
From S2P Require Import Wrapper.
From S2P Require Import TypeHandler.
From S2P Require Import WrapperBase.
From S2P Require Import Utils.
From S2P Require Import PyTypeObject.
From S2P Require Import Settings.
From S2P Require Import CppException.
From S2P Require Import Converters.
From S2P Require Import HelperClass.
From S2P Require Import ClassModel.
From S2P Require Import ClassMembers.
From S2P Require Import ClassOperators.
From S2P Require Import ClassCode.
From S2P Require Import ClassGenerate.
From S2P Require Import Iteration.

(** The attributes, but for the class, which is given by its number. *)
Record class_container : Type := ClassContainer {
  cc_begin_method : string;
  cc_end_method : string;
  cc_iterator_type : string;
  cc_iterator : iterator_state
}.

(** [CppClassContainerTraits.__init__] *)
Definition new_class_container (begin_method end_method iterator_type : string)
    (elements : option value_type * value_type) : class_container :=
  ClassContainer begin_method end_method iterator_type (IteratorState ∅ elements.1 elements.2).
Definition CppClassContainerTraits_init {S K} (no_kwargs : K)
    (new_value : list (@spec_item pyval K) -> K -> ST S value_type) (on_error : error_handler S)
    (value_type : element_types) (begin_method end_method iterator_type : string) (is_mapping : bool)
    : ST S class_container :=
  types <- st_lift (key_and_element is_mapping value_type) ;;
  elements <- eval_elements no_kwargs new_value on_error types ;;
  st_ret (new_class_container begin_method end_method iterator_type elements).

(** [CppClass.add_container_traits]: a class has traits once. *)
Definition add_container_traits {S} (traits : option class_container) (init : ST S class_container)
    : ST S (option class_container) :=
  match traits with
  | Some _ => st_raise AssertionError
  | None => t <- init ;; st_ret (Some t)
  end.

Section class_container.
Context {A M : Type} {module_ops : ModuleOps M} (g : settings) (t : class_container) (i : nat).
Local Abbreviation cpp_class := (class_object A).
Local Abbreviation classes := (list cpp_class).
Local Abbreviation cgen := ((classes * M) * code_sink)%type.
Local Abbreviation tgen := (iterator_state * cgen)%type.

Definition cc_iter_pystruct (pystruct : string) : string := pystruct +:+ "_Iter".
Definition cc_iter_pytypestruct (pystruct : string) : string := pystruct +:+ "_IterType".
Definition cc_iter_python_name (c : cpp_class) : string := get_python_name c +:+ "Iter".
Definition cc_iter_python_full_name (cs : classes) (c : cpp_class) (m : module_view) : res string :=
  match cf_outer_class (cl_config c) with
  | None => Ok (join "." (mv_path m ++ [cc_iter_python_name c]))
  | Some o =>
      match cs !! o with
      | None => Raise AttributeError
      | Some outer =>
          match cl_slots outer !! "tp_name" with
          | None => Raise KeyError
          | Some n => Ok (n +:+ "." +:+ cc_iter_python_name c)
          end
      end
  end.

Definition class_iteration (cs : classes) (c : cpp_class) (m : module_view) (pystruct : string)
    : iteration_names :=
  IterationNames pystruct (full_name c) (cc_iter_pystruct pystruct) (cc_iter_pytypestruct pystruct)
    (cc_iter_python_full_name cs c m) (cc_begin_method t) (cc_end_method t) (cc_iterator_type t).

(** Code of the class, and of its iterator. *)
Definition of_class {B} (m : ST cgen B) : ST tgen B := on_snd m.
Definition of_iterator {B} (m : ST (iterator_state * code_sink) B) : ST tgen B :=
  fun st => let '((s, k), r) := m (st.1, st.2.2) in ((s, (st.2.1, k)), r).
Definition with_names {B} (m : module_view) (body : iteration_names -> ST tgen B) : ST tgen B :=
  c <- of_class (self i) ;;
  pystruct <- st_lift (class_pystruct c) ;;
  cs <- st_get (fun st => st.2.1.1) ;;
  body (class_iteration cs c m pystruct).

(** [generate_forward_declarations] *)
Definition class_iterator_struct_text (n : iteration_names) : string :=
  join nls [EmptyString; "typedef struct {"; "    PyObject_HEAD"; "    " +:+ in_pystruct n +:+ " *container;";
            "    " +:+ in_full_name n +:+ "::" +:+ in_iterator_type n +:+ " *iterator;";
            "} " +:+ in_iter_pystruct n +:+ ";"; "    "].
Definition traits_forward_declarations (dummy_module : module_view) : ST tgen unit :=
  with_names dummy_module (fun n =>
    of_class (
      sink_writeln (class_iterator_struct_text n) ;;;
      sink_writeln EmptyString ;;;
      sink_writeln ("extern PyTypeObject " +:+ in_iter_pytypestruct n +:+ ";") ;;;
      sink_writeln EmptyString)).

(** "register the iter type in the module"; for a nested class the name is asked
    from the class, which has no such method. *)
Definition add_iterator_type (m : module_view) (n : iteration_names) : ST tgen unit :=
  c <- of_class (self i) ;;
  match cf_outer_class (cl_config c) with
  | None =>
      of_class (after_init m ("PyModule_AddObject(m, (char *) " +:+ dq +:+ cc_iter_python_name c +:+ dq
        +:+ ", (PyObject *) &" +:+ in_iter_pytypestruct n +:+ ");"))
  | Some _ => st_raise AttributeError
  end.
Definition register_iterator_type (m : module_view) (n : iteration_names) : ST tgen unit :=
  of_class (after_init m ("/* Register the '" +:+ in_full_name n +:+ "' class iterator*/")) ;;;
  of_class (in_blocks (write_error_check (mv_after_init m)
    ("PyType_Ready(&" +:+ in_iter_pytypestruct n +:+ ")") None)) ;;;
  add_iterator_type m n.

(** [_generate_gc_methods], [_generate_destructor], [_generate_iter_methods] and
    [_generate_type_structure] *)
Definition traits_gc_methods (n : iteration_names) : ST tgen unit := of_iterator (generate_iter_gc_methods n).
Definition traits_destructor (n : iteration_names) : ST tgen unit := of_iterator (generate_iter_destructor n).
Definition traits_iternext (n : iteration_names) : ST tgen unit := of_iterator (generate_iternext g n).
Definition traits_iter_methods (n : iteration_names) : ST tgen unit :=
  of_class (sink_writeln (container_tp_iter_text n)) ;;;
  of_class (default_slot i "tp_iter" (container_tp_iter_name n)) ;;;
  of_iterator (generate_iter_tp_iter n) ;;;
  traits_iternext n.
Definition iter_doc (docstring : option string) : list (string * string) :=
  if truthy docstring then [("tp_doc", dq +:+ str_opt docstring +:+ dq)] else [].
Definition traits_type_structure (n : iteration_names) (docstring : option string) : ST tgen unit :=
  of_iterator (generate_iter_type_structure n (iter_doc docstring)).

(** [generate] *)
Definition traits_generate (docstring : option string) (m : module_view) : ST tgen unit :=
  with_names m (fun n =>
    register_iterator_type m n ;;;
    traits_gc_methods n ;;;
    traits_destructor n ;;;
    traits_iter_methods n ;;;
    traits_type_structure n docstring).

(** ** As the traits of a class

    The state of the iterator belongs to the traits; the class is generated once. *)
Definition run_traits {B} (m : ST tgen B) : ST cgen B :=
  fun st => let '((_, st'), r) := m (cc_iterator t, st) in (st', r).
Definition class_container_forward (m : module_view) : ST cgen unit :=
  run_traits (traits_forward_declarations m).
Definition class_container_generate (m : module_view) : ST cgen unit :=
  run_traits (traits_generate None m).
End class_container.

(** ** What the traits generate *)

Section generated.
Context {A M : Type} {module_ops : ModuleOps M} (g : settings) (t : class_container) (i : nat).
Local Abbreviation cpp_class := (class_object A).
Local Abbreviation classes := (list cpp_class).
Local Abbreviation cgen := ((classes * M) * code_sink)%type.
Local Abbreviation tgen := (iterator_state * cgen)%type.

(** A successful run fills in the slots of [l] of the iterator, unless they have a
    value, and changes the classes by [f]. *)
Definition adds_slots {B} (m : ST tgen B) (l : list (string * string)) (f : classes -> classes) : Prop :=
  forall st st' a, m st = (st', Ok a) ->
    is_slots st'.1 = fold_left setdefault l (is_slots st.1) /\ st'.2.1.1 = f st.2.1.1.

Lemma adds_bind {B C} (m : ST tgen B) (k : B -> ST tgen C) l1 l2 f1 f2 :
  adds_slots m l1 f1 -> (forall a, adds_slots (k a) l2 f2) -> adds_slots (st_bind m k) (l1 ++ l2) (fun cs => f2 (f1 cs)).
Proof.
  intros Hm Hk st st' b (st1&a&E1&E2)%st_bind_Ok. destruct (Hm _ _ _ E1) as [S1 C1].
  destruct (Hk _ _ _ _ E2) as [S2 C2]. by rewrite fold_left_app, <- S1, <- C1.
Qed.
Lemma adds_class {B} (m : ST cgen B) f :
  (forall st, (m st).1.1.1 = f st.1.1) -> adds_slots (of_class m) [] f.
Proof.
  intros H [s st] st' a E. unfold of_class, on_snd in E. cbn in E. specialize (H st).
  destruct (m st) as [st1 r]. by injection E as <- _.
Qed.
Lemma adds_iterator {B} (m : ST (iterator_state * code_sink) B) l :
  iter_fills m l -> adds_slots (of_iterator m) l id.
Proof.
  intros H [s [cm k]] st' a E. unfold of_iterator in E. cbn in E. destruct (m (s, k)) as [[s1 k1] r] eqn:Em.
  injection E as <- ->. split; [exact (H _ _ _ Em)|done].
Qed.
Lemma adds_blocks {B} (m : ST heap B) : adds_slots (of_class (in_blocks (M:=M) (A:=A) m)) [] id.
Proof.
  apply adds_class. intros [[cs s] k]. unfold in_blocks, in_module, on_fst, on_snd. cbn.
  by destruct (on_module_blocks m s).
Qed.

(** The slot of the class. *)
Definition with_tp_iter (name : string) : classes -> classes :=
  alter (fun c => set_slots (setdefault (cl_slots c) ("tp_iter", name)) c) i.
Lemma adds_tp_iter name : adds_slots (of_class (default_slot i "tp_iter" name)) [] (with_tp_iter name).
Proof.
  apply adds_class. intros [[cs s] k]. unfold default_slot, in_classes, on_fst. cbn [fst snd].
  unfold with_tp_iter. rewrite <- update_class_alter. by destruct (update_class i _ cs).
Qed.

Lemma adds_gc n : adds_slots (traits_gc_methods (A:=A) (M:=M) n)
  [("tp_clear", iter_tp_clear_name n); ("tp_traverse", iter_tp_traverse_name n)] id.
Proof. apply adds_iterator, iter_fills_gc. Qed.
Lemma adds_destructor n : adds_slots (traits_destructor (A:=A) (M:=M) n) [("tp_dealloc", iter_tp_dealloc_name n)] id.
Proof. apply adds_iterator, iter_fills_destructor. Qed.
Lemma adds_iter_methods n :
  adds_slots (traits_iter_methods (A:=A) (M:=M) g i n)
    [("tp_iter", iter_tp_iter_name n); ("tp_iternext", iternext_name n)] (with_tp_iter (container_tp_iter_name n)).
Proof.
  eapply (adds_bind _ _ [] [_; _] id); [by apply adds_class; intros []|intros _].
  eapply (adds_bind _ _ [] [_; _] _ id); [apply adds_tp_iter|intros _].
  eapply (adds_bind _ _ [_] [_] id id); [apply adds_iterator, iter_fills_tp_iter|intros _].
  apply adds_iterator, iter_fills_iternext.
Qed.

Lemma register_iterator_spec m n (st st' : tgen) :
  register_iterator_type i m n st = (st', Ok tt) ->
  is_slots st'.1 = is_slots st.1 /\ st'.2.1.1 = st.2.1.1
  /\ exists c : cpp_class, st.2.1.1 !! i = Some c /\ cf_outer_class (cl_config c) = None.
Proof.
  unfold register_iterator_type. intros (s1&[]&E1&E)%st_bind_Ok. apply adds_blocks in E1 as [S1 C1].
  apply st_bind_Ok in E as (s2&[]&E2&E). apply adds_blocks in E2 as [S2 C2].
  unfold add_iterator_type in E. apply st_bind_Ok in E as (s3&c&E3&E).
  destruct s2 as [it [[cs mo] k]]. unfold of_class, on_snd, self, in_classes, on_fst, the_cpp_class in E3.
  cbn [fst snd] in *. destruct (cs !! i) as [c'|] eqn:Ec; [|discriminate E3]. injection E3 as <- <-.
  destruct (cf_outer_class (cl_config c')) eqn:Eo; [discriminate E|]. apply adds_blocks in E as [S3 C3].
  cbn [fst snd fold_left] in *. unfold id in *. split_and!; [congruence|congruence|]. exists c'. by rewrite <- C1, <- C2.
Qed.

(** The iterator of a class.  When the container traits of a class have been generated,
    the class is not nested in another one, and of all classes only this one has
    changed, and only its slot [tp_iter], if the user had not filled that.  The code
    ends with the type object of the iterator, which names the functions generated
    for it and is complete for every key of the template. *)
Theorem class_iterator_generated (docstring : option string) (m : module_view) (st st' : tgen) :
  traits_generate g t i docstring m st = (st', Ok tt) ->
  exists c pystruct, st.2.1.1 !! i = Some c /\ class_pystruct c = Ok pystruct /\ cf_outer_class (cl_config c) = None
  /\ let n := class_iteration t st.2.1.1 c m pystruct in
     let iterator := iter_function_slots n ++ iter_type_slots n
                     ++ ("tp_name", join "." (mv_path m ++ [cc_iter_python_name c])) :: iter_doc docstring in
     st'.2.1.1 = with_tp_iter (container_tp_iter_name n) st.2.1.1
     /\ (forall key, is_slots st'.1 !! key = match is_slots st.1 !! key with
                                             | Some v => Some v
                                             | None => (list_to_map iterator : gmap string string) !! key
                                             end)
     /\ exists k text, st'.2.2 = writeln k text /\ object_text (is_slots st'.1) text.
Proof.
  unfold traits_generate, with_names. intros (s1&c&E1&E)%st_bind_Ok.
  destruct st as [it [[cs mo] k]]. unfold of_class, on_snd, self, in_classes, on_fst, the_cpp_class in E1.
  cbn [fst snd] in *. destruct (cs !! i) as [c'|] eqn:Ec; [|discriminate E1]. injection E1 as <- <-.
  apply st_bind_Ok in E as (s2&p&E2&E). injection E2 as <- Ep. apply st_bind_Ok in E as (s3&cs'&E3&E).
  injection E3 as <- <-. cbn [fst snd] in *. set (n := class_iteration t cs c' m p) in *.
  apply st_bind_Ok in E as (s4&[]&E4&E). apply register_iterator_spec in E4 as (S4&C4&c2&Ec2&Eo).
  cbn [fst snd] in *. rewrite Ec in Ec2. injection Ec2 as <-.
  apply st_bind_Ok in E as (s5&[]&E5&E). apply adds_gc in E5 as [S5 C5].
  apply st_bind_Ok in E as (s6&[]&E6&E). apply adds_destructor in E6 as [S6 C6].
  apply st_bind_Ok in E as (s7&[]&E7&E). apply adds_iter_methods in E7 as [S7 C7].
  rewrite S6, S5, S4, <- !fold_left_app in S7. unfold id in *. rewrite C6, C5, C4 in C7.
  destruct s7 as [it7 [cm7 k7]]. unfold traits_type_structure, of_iterator in E. cbn [fst snd] in *.
  assert (in_iter_python_full_name n = Ok (join "." (mv_path m ++ [cc_iter_python_name c']))) as Hn.
  { cbn. unfold cc_iter_python_full_name. by rewrite Eo. }
  destruct (iter_type_structure_run n (iter_doc docstring) _ it7 k7 Hn) as (text&Et&Ho). rewrite Et in E.
  apply (f_equal fst) in E. cbn [fst] in E. subst st'. exists c', p. do 3 (split; [done|]). cbn [fst snd is_slots with_iter_slots].
  split_and!; [exact C7| |by exists k7, text].
  intros key. by rewrite S7, <- fold_left_app, lookup_setdefaults.
Qed.

(** ** The classes are kept

    What [ClassGenerate] asks of the traits. *)
Local Abbreviation KC := (keeps_code (H:=cpp_helper_class) (A:=A) (S:=M)).
Definition keeps_traits (st st' : tgen) : Prop := KC st.2 st'.2.
#[local] Instance keeps_traits_preorder : PreOrder keeps_traits.
Proof. unfold keeps_traits. split; [by intros st | intros s1 s2 s3 H1 H2; by transitivity s2.2]. Qed.

Lemma traits_of_class {B} (m : ST cgen B) : evolves KC m -> evolves keeps_traits (of_class m).
Proof. intros H [s st]. specialize (H st). unfold of_class, on_snd. cbn. by destruct (m st). Qed.
Lemma traits_of_iterator {B} (m : ST (iterator_state * code_sink) B) : evolves keeps_traits (of_iterator m).
Proof. intros [s [cm k]]. unfold of_iterator. cbn. destruct (m (s, k)) as [[s1 k1] r]. by apply kept_same. Qed.
Lemma traits_with_names {B} m (body : iteration_names -> ST tgen B) :
  (forall n, evolves keeps_traits (body n)) -> evolves keeps_traits (with_names t i m body).
Proof.
  intros H. unfold with_names. repeat (apply evolves_bind; [exact _| |intros ?]).
  - apply traits_of_class, kept_in_classes, kept_the_class.
  - apply evolves_lift, _.
  - apply evolves_get, _.
  - apply H.
Qed.
Lemma run_traits_keeps {B} (m : ST tgen B) : evolves keeps_traits m -> evolves KC (run_traits t m).
Proof. intros H st. specialize (H (cc_iterator t, st)). unfold run_traits. by destruct (m _) as [[s st'] r]. Qed.

Lemma class_container_forward_keeps m : evolves KC (class_container_forward t i m).
Proof.
  apply run_traits_keeps, traits_with_names. intros n. apply traits_of_class.
  repeat (apply evolves_bind; [exact _| |intros _]); apply class_kept_on_snd.
Qed.
Lemma class_container_generate_keeps m : evolves KC (class_container_generate g t i m).
Proof.
  apply run_traits_keeps, traits_with_names. intros n. apply evolves_bind; [exact _| |intros _].
  { unfold register_iterator_type, add_iterator_type. repeat (apply evolves_bind; [exact _| |intros ?]);
      try (apply traits_of_class; (apply kept_in_module || apply kept_in_classes, kept_the_class)).
    destruct (cf_outer_class _); [apply evolves_raise, _|apply traits_of_class, kept_in_module]. }
  unfold traits_gc_methods, traits_destructor, traits_iter_methods, traits_type_structure.
  repeat (apply evolves_bind; [exact _| |intros _]); try apply traits_of_iterator;
    apply traits_of_class; (apply class_kept_on_snd || apply kept_default_slot).
Qed.
End generated.

(** A class with container traits may be generated like any other. *)
Lemma traits_are_keeping {A M : Type} {module_ops : ModuleOps M} (g : settings)
    (traits : nat -> option class_container) (i : nat) :
  keeping_traits (A:=A) (M:=M) ((fun t => class_container_forward t i) <$> traits i)
  /\ keeping_traits (A:=A) (M:=M) ((fun t => class_container_generate g t i) <$> traits i).
Proof.
  split; intros f m; destruct (traits i) as [t|]; cbn; intros [= <-];
    [apply class_container_forward_keeps | apply class_container_generate_keeps].
Qed.

(** What the traits declare leaves the classes as they are, as [ClassGenerate] asks. *)
Lemma class_container_forward_same {A M : Type} {module_ops : ModuleOps M} (t : class_container) i m
    (st : (list (class_object A) * M) * code_sink) :
  (class_container_forward t i m st).1.1.1 = st.1.1.
Proof.
  destruct st as [[cs mo] k].
  unfold class_container_forward, run_traits, traits_forward_declarations, with_names, of_class, on_snd, st_bind, self,
    in_classes, on_fst, the_cpp_class, st_lift, st_get. cbn [fst snd].
  destruct (cs !! i) as [c|]; [|done]. cbn [fst snd]. by destruct (class_pystruct c).
Qed.
Lemma traits_keep_the_standing {A M : Type} {module_ops : ModuleOps M} (traits : nat -> option class_container) i :
  standing_traits (A:=A) (M:=M) ((fun t => class_container_forward t i) <$> traits i).
Proof.
  intros f m E st. destruct (traits i) as [t|]; [|discriminate]. cbn in E. injection E as <-.
  unfold keeps_standing. by rewrite class_container_forward_same.
Qed.

(** ** An example *)

Definition demo_class_container : class_container :=
  new_class_container "begin" "end" "iterator" (None, demo_int).
Local Abbreviation demo_generated :=
  (traits_generate default_settings demo_class_container 0 (Some "docs") demo_view
     (cc_iterator demo_class_container, (([demo_object ∅], demo_blocks), MemoryCodeSink))).

Lemma class_iterator_generated_witness :
  exists st', demo_generated = (st', Ok tt)
    /\ is_slots st'.1 !! "tp_name" = Some "mod.FooIter" /\ is_slots st'.1 !! "tp_doc" = Some (dq +:+ "docs" +:+ dq)
    /\ option_map cl_slots (st'.2.1.1 !! 0%nat) = Some {["tp_iter" := "_wrap_PyNsFoo__tp_iter"]}.
Proof.
  destruct demo_generated as [st' r] eqn:E.
  assert (r = Ok tt) as -> by (revert E; vm_compute; congruence).
  destruct (class_iterator_generated default_settings demo_class_container 0 (Some "docs") demo_view _ st' E)
    as (c&p&Hc&Hp&_&Hcs&Hs&_).
  injection Hc as <-. injection Hp as <-. exists st'.
  split; [reflexivity|]. split; [by rewrite Hs|]. split; [by rewrite Hs|]. by rewrite Hcs.
Defined.
