(* ===== verification/ContainerHandlers.v ===== *)
(** * Handlers of container types: the end of [pybindgen/container.py]

    The handlers of values, references and pointers of a wrapped container as
    parameters, and of values as results.  A handler works for a container that is in
    a module, which gives it its names. *)
From S2P Require Import Prelude.
From S2P Require Import CodeSink.
From S2P Require Import CodeBlock.
From S2P Require Import Wrapper.
From S2P Require Import CTypeParser.
From S2P Require Import TypeHandler.
From S2P Require Import HandlerOps.
From S2P Require Import NumericTypes.
From S2P Require Import WrapperBase.
From S2P Require Import Converters.
From S2P Require Import ClassHandlers.

(** What the handlers use of a container. *)
Record container_view : Type := ContainerView {
  kv_name : string;
  kv_full_name : string;
  kv_pystruct : string;
  kv_pytypestruct : string;
  kv_python_to_c_converter : string
}.

Inductive container_param_kind : Type :=
  | ContainerParameter
  | ContainerRefParameter
  | ContainerPtrParameter.
#[export] Instance container_param_kind_eq_dec : EqDecision container_param_kind.
Proof. solve_decision. Defined.

Section container.
Context (K : container_view).

(** ** Construction *)

Definition container_param_DIRECTIONS (k : container_param_kind) : list Z :=
  match k with ContainerParameter => IN_ONLY | _ => ALL_DIRECTIONS end.

(** [if ctype == self.container_type.name: ctype = self.container_type.full_name] *)
Definition fix_container_ctype (c : ctype_arg) : ctype_arg :=
  match c with
  | CString s => if String.eqb s (kv_name K) then CString (kv_full_name K) else c
  | CTraits _ => c
  end.

(** [ContainerParameterBase.__init__] *)
Definition container_param_init (k : container_param_kind) (c : ctype_arg) (name : string)
    (direction : Z) (is_const : bool) (default_value : pyval) : res param :=
  Parameter_init (container_param_DIRECTIONS k) (fix_container_ctype c) name direction is_const
    default_value.

(** [ContainerPtrParameter.__init__] *)
Definition with_transfer (v : pyval) (p : param) : param :=
  MkParam (p_traits p) (p_name p) (p_value p) (p_direction p) (p_default_value p) v
    (p_array_length p).
Definition ContainerPtrParameter_init (c : ctype_arg) (name : string) (direction : Z)
    (is_const : bool) (default_value transfer_ownership : pyval) : res param :=
  p <-? container_param_init ContainerPtrParameter c name direction is_const default_value ;;
  if direction =? DIRECTION_OUT then
    if negb (is_none transfer_ownership) && negb (truth transfer_ownership)
    then Raise TypeConfigurationError
    else Ok (with_transfer (VBool true) p)
  else if is_none transfer_ownership then Raise TypeConfigurationError
  else Ok (with_transfer transfer_ownership p).

(** ** Parameters *)

(** A new Python object, with a container of its own. *)
Definition new_container_object (py_name : string) : string :=
  py_name +:+ " = PyObject_New(" +:+ kv_pystruct K +:+ ", &" +:+ kv_pytypestruct K +:+ ");".
Definition container_copy (py_name value : string) : string :=
  py_name +:+ "->obj = new " +:+ kv_full_name K +:+ "(" +:+ value +:+ ");".
Definition pystruct_pointer : string := kv_pystruct K +:+ "*".
Definition py_base : string := "py_" +:+ kv_name K.

(** [add_parameter('O&', [python_to_c_converter, '&'+variable], ...)] *)
Definition parse_container (variable : string) (param_name : option string) (optional : bool)
    : ST world unit :=
  parse_add "O&" [kv_python_to_c_converter K; "&" +:+ variable] param_name false optional.

Section parameter.
Context (position : Z) (p : param) (w : wrapper).
Local Abbreviation name := (p_name p).
Local Abbreviation value_base := (name +:+ "_value").

(** [ContainerParameter.convert_python_to_c] *)
Definition ContainerParameter_convert_python_to_c : ST world unit :=
  assert_forward w ;;;
  st_assert (is_none (p_default_value p)) ;;;
  container_tmp_var <- declare w (kv_full_name K) value_base None None ;;
  parse_container container_tmp_var (Some name) false ;;;
  call_add w container_tmp_var.

(** [ContainerParameter.convert_c_to_python] *)
Definition ContainerParameter_convert_c_to_python : ST world unit :=
  assert_reverse w ;;;
  py_name <- declare_py_name position w pystruct_pointer py_base None ;;
  before_call_code w (new_container_object py_name) ;;;
  before_call_code w (container_copy py_name (p_value p)) ;;;
  build_add "N" [py_name] false.

(** [ContainerRefParameter.convert_python_to_c] *)
Definition ContainerRefParameter_convert_python_to_c : ST world unit :=
  assert_forward w ;;;
  container_tmp_var <- declare_val w (kv_full_name K) value_base (p_default_value p) ;;
  when_in p (parse_container container_tmp_var (Some name)
               (negb (is_none (p_default_value p)))) ;;;
  call_add w container_tmp_var ;;;
  when_out p
    (py_name <- declare w pystruct_pointer py_base None None ;;
     after_call_code w (new_container_object py_name) ;;;
     after_call_code w (container_copy py_name container_tmp_var) ;;;
     build_add "N" [py_name] false).

(** [ContainerRefParameter.convert_c_to_python]: Python gets an object in every
    direction, an empty container if the direction has no input part. *)
Definition ContainerRefParameter_convert_c_to_python : ST world unit :=
  assert_reverse w ;;;
  py_name <- declare_py_name position w pystruct_pointer py_base None ;;
  before_call_code w (new_container_object py_name) ;;;
  before_call_code w
    (if has_in (p_direction p) then container_copy py_name name
     else py_name +:+ "->obj = new " +:+ kv_full_name K +:+ ";") ;;;
  build_add "N" [py_name] false ;;;
  when_out p (parse_container name (Some name) false).

(** [ContainerPtrParameter.convert_python_to_c] *)
Definition container_ptr_in : ST world unit :=
  container_tmp_var <- declare w (kv_full_name K) value_base None None ;;
  parse_container container_tmp_var (Some name) false ;;;
  call_add w (if truth (p_transfer_ownership p)
              then "new " +:+ kv_full_name K +:+ "(" +:+ container_tmp_var +:+ ")"
              else "&" +:+ container_tmp_var).
Definition container_ptr_out : ST world unit :=
  container_tmp_var <- declare w (kv_full_name K +:+ "*") value_base
                         (Some ("new " +:+ kv_full_name K)) None ;;
  call_add w container_tmp_var ;;;
  py_name <- declare w pystruct_pointer py_base None None ;;
  after_call_code w (new_container_object py_name) ;;;
  after_call_code w (py_name +:+ "->obj = " +:+ container_tmp_var +:+ ";") ;;;
  build_add "N" [py_name] false.
Definition ContainerPtrParameter_convert_python_to_c : ST world unit :=
  assert_forward w ;;;
  st_assert (is_none (p_default_value p)) ;;;
  if p_direction p =? DIRECTION_IN then container_ptr_in
  else if p_direction p =? DIRECTION_OUT then container_ptr_out
  else st_raise NotSupportedError.

(** The methods of a handler, by its class. *)
Definition container_param_convert_python_to_c (k : container_param_kind) : ST world unit :=
  match k with
  | ContainerParameter => ContainerParameter_convert_python_to_c
  | ContainerRefParameter => ContainerRefParameter_convert_python_to_c
  | ContainerPtrParameter => ContainerPtrParameter_convert_python_to_c
  end.
Definition container_param_convert_c_to_python (k : container_param_kind) : ST world unit :=
  match k with
  | ContainerParameter => ContainerParameter_convert_c_to_python
  | ContainerRefParameter => ContainerRefParameter_convert_c_to_python
  | ContainerPtrParameter => st_raise NotSupportedError
  end.
End parameter.

Definition container_param_handler (k : container_param_kind) (position : Z) (p : param)
    : param_handler :=
  MkParamHandler (p_ctype p) (p_name p)
    (fun w => container_param_convert_python_to_c p w k)
    (fun w => container_param_convert_c_to_python position p w k) None true.

(** ** Return values *)

(** [ContainerReturnValue.__init__]; [is_const] is stored and not part of the type. *)
Record container_return : Type := MkContainerReturn {
  kr_traits : type_traits;
  kr_value : string;
  kr_is_const : bool
}.
Definition ContainerReturnValue_init (c : ctype_arg) (is_const : bool) : res container_return :=
  r <-? new_ReturnValue (fix_container_ctype c) None None ;;
  Ok (MkContainerReturn (r_traits r) (r_value r) is_const).

Definition ContainerReturnValue_get_c_error_return : string :=
  "return " +:+ kv_full_name K +:+ "();".

(** [ContainerReturnValue.convert_c_to_python] *)
Definition ContainerReturnValue_convert_c_to_python (value : string) (w : wrapper) : ST world unit :=
  py_name <- declare_py_name (-1) w pystruct_pointer py_base None ;;
  after_call_code w (new_container_object py_name) ;;;
  after_call_code w (container_copy py_name value) ;;;
  build_add "N" [py_name] true.

(** [ContainerReturnValue.convert_python_to_c] *)
Definition ContainerReturnValue_convert_python_to_c (value : string) (w : wrapper) : ST world unit :=
  parse_container value None false.

Definition container_return_handler (ctype : string) (traits : type_traits) (value : string)
    (requires : bool) : return_handler :=
  MkReturnHandler ctype (show (tt_ctype_no_const traits)) requires
    (Ok ContainerReturnValue_get_c_error_return)
    (ContainerReturnValue_convert_python_to_c value)
    (ContainerReturnValue_convert_c_to_python value) None false true.

(** The handler as the type of values, for converters and other containers. *)
Definition container_value (r : container_return) : value_type :=
  let ctype := show (tt_ctype (kr_traits r)) in
  ValueType ctype (kr_traits r) (kr_value r) false (container_return_handler ctype).

(** ** Parameter lists

    The items each handler adds, as items built and parsed and arguments of the
    call. *)
Definition container_py2c_items (k : container_param_kind) (direction : Z) : nat * nat * nat :=
  match k with
  | ContainerParameter => (0, 1, 1)%nat
  | ContainerRefParameter => (Nat.b2n (has_out direction), Nat.b2n (has_in direction), 1)%nat
  | ContainerPtrParameter => if direction =? DIRECTION_IN then (0, 1, 1)%nat else (1, 0, 1)%nat
  end.
Definition container_c2py_items (k : container_param_kind) (direction : Z) : nat * nat * nat :=
  match k with
  | ContainerParameter => (1, 0, 0)%nat
  | _ => (1, Nat.b2n (has_out direction), 0)%nat
  end.
End container.

(** ** Contracts *)

Section contracts.
Context (K : container_view).

Lemma wiring_set_py_name i n : evolves same_wiring (set_py_name i n).
Proof. by apply wiring_modify. Qed.
Lemma grows_set_py_name i n : evolves cleanups_grow (set_py_name i n).
Proof. by apply grows_modify. Qed.
Hint Resolve wiring_set_py_name : wiring.
Hint Resolve grows_set_py_name : grows.
Lemma wiring_declare_py_name i w t b o : evolves same_wiring (declare_py_name i w t b o).
Proof. unfold declare_py_name. wiring. Qed.
Lemma grows_declare_py_name i w t b o : evolves cleanups_grow (declare_py_name i w t b o).
Proof. unfold declare_py_name. grows. Qed.
Hint Resolve wiring_declare_py_name : wiring.
Hint Resolve grows_declare_py_name : grows.
Hint Resolve counts_declare_py_name : counts.

Local Ltac open_handlers :=
  unfold container_param_convert_python_to_c, container_param_convert_c_to_python,
    ContainerParameter_convert_python_to_c, ContainerParameter_convert_c_to_python,
    ContainerRefParameter_convert_python_to_c, ContainerRefParameter_convert_c_to_python,
    ContainerPtrParameter_convert_python_to_c, container_ptr_in, container_ptr_out,
    ContainerReturnValue_convert_c_to_python, ContainerReturnValue_convert_python_to_c,
    parse_container, when_in, when_out.
Local Ltac container_counts := unfold adds; counts; reflexivity.

Lemma counts_container_py2c k p w :
  In (p_direction p) (container_param_DIRECTIONS k) ->
  adds (container_py2c_items k (p_direction p)) (container_param_convert_python_to_c K p w k).
Proof.
  intros Hd. destruct k; open_handlers; unfold container_py2c_items.
  - container_counts.
  - each_direction Hd; known_direction; container_counts.
  - each_direction Hd; change DIRECTION_OUT with 2; change DIRECTION_IN with 1; cbn [Z.eqb Pos.eqb];
      [container_counts | container_counts |].
    unfold adds. counts; [apply (add_params_raise 1 0 1) | reflexivity..].
Qed.

Lemma counts_container_c2py k i p w :
  In (p_direction p) (container_param_DIRECTIONS k) ->
  adds (container_c2py_items k (p_direction p)) (container_param_convert_c_to_python K i p w k).
Proof.
  intros Hd. destruct k; open_handlers; unfold container_c2py_items.
  - container_counts.
  - each_direction Hd; known_direction; container_counts.
  - apply add_params_raise.
Qed.

(** Parameters of container types.  Converting a container parameter in a direction its
    handler supports adds exactly the items of the tables to the lists of the
    wrapper, leaves its blocks and scopes wired as they were and only adds cleanup
    actions, also when it raises; towards Python an object is built in every
    direction. *)
Theorem container_param_contract (k : container_param_kind) (i : Z) (p : param) (w : wrapper) :
  In (p_direction p) (container_param_DIRECTIONS k) ->
  adds (container_py2c_items k (p_direction p)) (container_param_convert_python_to_c K p w k)
  /\ adds (container_c2py_items k (p_direction p)) (container_param_convert_c_to_python K i p w k)
  /\ evolves same_wiring (container_param_convert_python_to_c K p w k)
  /\ evolves same_wiring (container_param_convert_c_to_python K i p w k)
  /\ evolves cleanups_grow (container_param_convert_python_to_c K p w k)
  /\ evolves cleanups_grow (container_param_convert_c_to_python K i p w k).
Proof.
  intros Hd. split_and!; [by apply counts_container_py2c | by apply counts_container_c2py |..];
    destruct k; open_handlers; lazymatch goal with
      | |- evolves same_wiring _ => wiring
      | |- evolves cleanups_grow _ => grows
      end.
Qed.

(** A container is a value type like those of the built-in handlers. *)
#[export] Instance container_value_contract (r : container_return) :
  ValueContract (container_value K r).
Proof.
  split; cbn; intros; [done | open_handlers..]; [counts; reflexivity | wiring | grows | wiring].
Qed.

(** A pointer to a container is never passed to Python, and never taken in both
    directions. *)
Lemma container_ptr_inout p w :
  p_direction p = DIRECTION_INOUT -> is_none (p_default_value p) = true -> is_forward w = true ->
  forall s, container_param_convert_python_to_c K p w ContainerPtrParameter s = (s, Raise NotSupportedError).
Proof.
  intros Hd Hv Hw s. cbn. unfold ContainerPtrParameter_convert_python_to_c, assert_forward, st_assert.
  by rewrite Hw, Hv, Hd.
Qed.

(** The constructor of pointers asks for the ownership, except that of an output,
    which is always transferred. *)
Lemma container_ptr_ownership c name direction is_const default_value transfer p :
  ContainerPtrParameter_init K c name direction is_const default_value transfer = Ok p ->
  truth (p_transfer_ownership p) = (direction =? DIRECTION_OUT) || truth transfer.
Proof.
  unfold ContainerPtrParameter_init.
  destruct (container_param_init _ _ _ _ _ _ _) as [q|]; [|done]. cbn.
  destruct (direction =? DIRECTION_OUT).
  - destruct (negb (is_none transfer) && negb (truth transfer)); [done|]. by intros [= <-].
  - destruct transfer; cbn; [done|..]; by intros [= <-].
Qed.
End contracts.

(** ** Examples *)

Definition demo_container_view : container_view :=
  ContainerView "VecInt" "std::vector<int>" "PyVecInt" "PyVecInt_Type" "_wrap_convert_py2c__VecInt".

Lemma container_param_contract_witness :
  adds (0, 1, 1)%nat (container_param_convert_python_to_c demo_container_view (cp_param demo_value_param)
    (MkWrapper ForwardWrapper 0 0 0 0) ContainerParameter).
Proof.
  apply (container_param_contract demo_container_view ContainerParameter 0 (cp_param demo_value_param)
    (MkWrapper ForwardWrapper 0 0 0 0)). left. reflexivity.
Defined.
