(* ===== verification/ModuleBase.v ===== *)
(** * Modules: the objects of [pybindgen/module.py]

    A root module and its submodules, which share what the root owns (the header
    and body sinks, the includes, the one-time definitions) and are known by a
    number.  Their generation is in [ModuleGen].  Classes and containers are
    known through the interface [TypeOps]. *)
From S2P Require Import Prelude.
From S2P Require Import Format.
From S2P Require Import CodeSink.
From S2P Require Import CodeBlock.
From S2P Require Import Wrapper.
From S2P Require Import TypeHandler.
From S2P Require Import TypeMatcher.
From S2P Require Import WrapperBase.
From S2P Require Import Utils.
From S2P Require Import Settings.
From S2P Require Import CppException.
From S2P Require Import Overloading.
From S2P Require Import WrapperObject.
From S2P Require Import Function.
From S2P Require Import FunctionOverload.
From S2P Require Import Enum.

(** ** The state *)

(** A type wrapper, as an entry of the dictionary a module is. *)
Inductive type_ref : Type :=
  | ClassRef (n : nat)
  | ContainerRef (n : nat)
  | EnumRef (n : nat)
  | ExceptionRef (n : nat).

Record module_info : Type := ModuleInfo {
  mi_name : string;
  mi_parent : option nat;
  mi_docstring : option string;
  mi_cpp_namespace : option string;
  mi_prefix : string;
  mi_init_function_name : string;
  mi_cpp_namespace_prefix : string;
  mi_declarations : nat;
  mi_before_init : nat;
  mi_after_init : nat
}.

Record module_contents : Type := ModuleContents {
  ct_submodules : list nat;
  ct_functions : gmap string (overloaded functions);
  ct_classes : list nat;
  ct_containers : list nat;
  ct_exceptions : list nat;
  ct_enums : list nat;
  ct_typedefs : list (nat * string);
  ct_types : gmap string type_ref
}.

Record module_base : Type := ModuleBase {
  mo_info : module_info;
  mo_contents : module_contents;
  mo_c_function_name_transformer : string -> string;
  mo_current_section : string;
  mo_forward_declarations_declared : bool
}.

(** What classes and their methods change of their module. *)
Record shared : Type := Shared {
  sh_heap : heap;
  sh_header : code_sink;
  sh_body : code_sink;
  sh_after_forward_declarations : code_sink;
  sh_one_time_definitions : gset string
}.

(** The modules of a tree and what they refer to.  The root loses its list of
    includes when it is generated. *)
Record package (T : Type) : Type := Package {
  pk_modules : list module_base;
  pk_shared : shared;
  pk_matchers : matchers;
  pk_exceptions : list (cpp_exception * option string);
  pk_enums : list (enum * option string);
  pk_types : T;
  pk_includes : list string;
  pk_root_includes : bool
}.
Arguments Package {T} _ _ _ _ _ _ _ _.
Arguments pk_modules {T} _.
Arguments pk_shared {T} _.
Arguments pk_matchers {T} _.
Arguments pk_exceptions {T} _.
Arguments pk_enums {T} _.
Arguments pk_types {T} _.
Arguments pk_includes {T} _.
Arguments pk_root_includes {T} _.

(** What a module calls on its classes ([cppclass.py]) and containers
    ([container.py]), which live in a state [T]. *)
Class TypeOps (T : Type) : Type := {
  type_names : T -> type_ref -> option string * option string;
  type_set_module : type_ref -> module_view -> string -> ST T unit;
  type_section : T -> type_ref -> option string;
  class_imported : T -> nat -> bool;
  class_register_alias : nat -> string -> ST T unit;
  class_generate_typedef : nat -> string -> module_view -> ST (T * shared) unit;
  type_forward_declarations : type_ref -> module_view -> ST ((T * shared) * code_sink) unit;
  type_generate : type_ref -> module_view -> ST ((T * shared) * code_sink) unit
}.

(** ** Names *)

(** The components of a C++ namespace, without the empty one before a leading
    double colon. *)
Definition namespace_components (cpp_namespace : option string) : list string :=
  match cpp_namespace with
  | None | Some EmptyString => []
  | Some ns =>
      if String.eqb ns "::" then []
      else match split_colons ns with
           | EmptyString :: rest => rest
           | names => names
           end
  end.

(** A module and those it is in, from the inside out.  Parents come before their
    submodules, so that the number of modules is enough fuel. *)
Fixpoint ancestors_fuel (fuel : nat) (modules : list module_base) (i : nat) : list nat :=
  match fuel with
  | O => []
  | S fuel' =>
      match modules !! i with
      | None => []
      | Some m => i :: match mi_parent (mo_info m) with
                       | None => []
                       | Some p => ancestors_fuel fuel' modules p
                       end
      end
  end.
Definition ancestors (modules : list module_base) (i : nat) : list nat :=
  ancestors_fuel (length modules) modules i.

Definition info_of (modules : list module_base) (i : nat) : list module_info :=
  match modules !! i with None => [] | Some m => [mo_info m] end.
Definition ancestor_infos (modules : list module_base) (i : nat) : list module_info :=
  flat_map (info_of modules) (rev (ancestors modules i)).

Definition get_module_path (modules : list module_base) (i : nat) : list string :=
  map mi_name (ancestor_infos modules i).
Definition get_namespace_path (modules : list module_base) (i : nat) : list string :=
  flat_map (fun m => namespace_components (mi_cpp_namespace m)) (ancestor_infos modules i).
Definition get_root (modules : list module_base) (i : nat) : nat :=
  List.last (ancestors modules i) i.

(** [set_name] gives the prefix and the name of the init function. *)
Definition module_prefix (parent_prefix : option string) (name : string) : string :=
  match parent_prefix with
  | None => replace_char "." "_" name
  | Some p => p +:+ "_" +:+ name
  end.
Definition module_init_function_name (parent_prefix : option string) (name : string) : string :=
  match parent_prefix with
  | None => "init" +:+ List.last (split_on "." name) EmptyString
  | Some _ => "init" +:+ module_prefix parent_prefix name
  end.

(** [s[n:]] *)
Fixpoint drop_str (n : nat) (s : string) : string :=
  match n, s with
  | S n', String _ s' => drop_str n' s'
  | _, _ => s
  end.
(** The transformer [set_strip_prefix] makes. *)
Definition strip_prefix (prefix c_name : string) : string :=
  if startswith prefix c_name then drop_str (String.length prefix) c_name else c_name.

Definition view_of (modules : list module_base) (i : nat) (m : module_base) : module_view :=
  ModuleView (mi_prefix (mo_info m)) (mi_cpp_namespace_prefix (mo_info m))
    (get_module_path modules i) (mi_after_init (mo_info m)).

(** ** Operations *)

Section modules.
Context {T : Type} `{!TypeOps T} (g : settings).
Local Abbreviation package := (package T).

Definition set_modules (ms : list module_base) (p : package) : package :=
  Package ms (pk_shared p) (pk_matchers p) (pk_exceptions p) (pk_enums p) (pk_types p)
    (pk_includes p) (pk_root_includes p).
Definition set_shared (s : shared) (p : package) : package :=
  Package (pk_modules p) s (pk_matchers p) (pk_exceptions p) (pk_enums p) (pk_types p)
    (pk_includes p) (pk_root_includes p).

Definition the_module (i : nat) : ST package module_base :=
  fun p => (p, match pk_modules p !! i with None => Raise AttributeError | Some m => Ok m end).
Definition the_view (i : nat) : ST package module_view :=
  m <- the_module i ;; st_get (fun p => view_of (pk_modules p) i m).
Definition update_module (i : nat) (f : module_base -> module_base) : ST package unit :=
  m <- the_module i ;; st_modify (fun p => set_modules (<[i := f m]> (pk_modules p)) p).

Definition on_shared {A} (m : ST shared A) : ST package A :=
  fun p => let '(s, r) := m (pk_shared p) in (set_shared s p, r).
Definition on_module_heap {A} (m : ST heap A) : ST package A :=
  on_shared (fun s =>
    let '(h, r) := m (sh_heap s) in
    (Shared h (sh_header s) (sh_body s) (sh_after_forward_declarations s)
       (sh_one_time_definitions s), r)).
Definition on_matchers {A} (m : ST matchers A) : ST package A :=
  fun p => let '(ms, r) := m (pk_matchers p) in
           (Package (pk_modules p) (pk_shared p) ms (pk_exceptions p) (pk_enums p) (pk_types p)
              (pk_includes p) (pk_root_includes p), r).
Definition on_types {A} (m : ST T A) : ST package A :=
  fun p => let '(t, r) := m (pk_types p) in
           (Package (pk_modules p) (pk_shared p) (pk_matchers p) (pk_exceptions p) (pk_enums p) t
              (pk_includes p) (pk_root_includes p), r).

Definition set_contents (f : module_contents -> module_contents) (m : module_base) : module_base :=
  ModuleBase (mo_info m) (f (mo_contents m)) (mo_c_function_name_transformer m)
    (mo_current_section m) (mo_forward_declarations_declared m).
Definition set_section (s : string) (m : module_base) : module_base :=
  ModuleBase (mo_info m) (mo_contents m) (mo_c_function_name_transformer m) s
    (mo_forward_declarations_declared m).
Definition set_c_function_name_transformer (f : string -> string) (m : module_base) : module_base :=
  ModuleBase (mo_info m) (mo_contents m) f (mo_current_section m)
    (mo_forward_declarations_declared m).

Definition add_submodule (i : nat) (c : module_contents) : module_contents :=
  ModuleContents (ct_submodules c ++ [i]) (ct_functions c) (ct_classes c) (ct_containers c)
    (ct_exceptions c) (ct_enums c) (ct_typedefs c) (ct_types c).
Definition set_functions (fs : gmap string (overloaded functions)) (c : module_contents)
    : module_contents :=
  ModuleContents (ct_submodules c) fs (ct_classes c) (ct_containers c) (ct_exceptions c)
    (ct_enums c) (ct_typedefs c) (ct_types c).
Definition set_types (ts : gmap string type_ref) (c : module_contents) : module_contents :=
  ModuleContents (ct_submodules c) (ct_functions c) (ct_classes c) (ct_containers c)
    (ct_exceptions c) (ct_enums c) (ct_typedefs c) ts.
Definition append_typedef (t : nat * string) (c : module_contents) : module_contents :=
  ModuleContents (ct_submodules c) (ct_functions c) (ct_classes c) (ct_containers c)
    (ct_exceptions c) (ct_enums c) (ct_typedefs c ++ [t]) (ct_types c).
(** Appends a type wrapper to the list of its kind. *)
Definition append_type (r : type_ref) (c : module_contents) : module_contents :=
  match r with
  | ClassRef n =>
      ModuleContents (ct_submodules c) (ct_functions c) (ct_classes c ++ [n]) (ct_containers c)
        (ct_exceptions c) (ct_enums c) (ct_typedefs c) (ct_types c)
  | ContainerRef n =>
      ModuleContents (ct_submodules c) (ct_functions c) (ct_classes c) (ct_containers c ++ [n])
        (ct_exceptions c) (ct_enums c) (ct_typedefs c) (ct_types c)
  | EnumRef n =>
      ModuleContents (ct_submodules c) (ct_functions c) (ct_classes c) (ct_containers c)
        (ct_exceptions c) (ct_enums c ++ [n]) (ct_typedefs c) (ct_types c)
  | ExceptionRef n =>
      ModuleContents (ct_submodules c) (ct_functions c) (ct_classes c) (ct_containers c)
        (ct_exceptions c ++ [n]) (ct_enums c) (ct_typedefs c) (ct_types c)
  end.
Definition empty_contents : module_contents := ModuleContents [] ∅ [] [] [] [] [] ∅.

(** [ModuleBase.__init__]; the number of the new module. *)
Definition ModuleBase_init (name : string) (parent : option nat) (docstring : option string)
    (cpp_namespace : option string) : ST package nat :=
  i <- st_get (fun p => length (pk_modules p)) ;;
  parent_prefix <-
    match parent with
    | None => st_ret None
    | Some q => m <- the_module q ;;
                update_module q (set_contents (add_submodule i)) ;;;
                st_ret (Some (mi_prefix (mo_info m)))
    end ;;
  let error_return := match parent with None => "return;" | Some _ => "return NULL;" end in
  path <- st_get (fun p => match parent with
                           | None => []
                           | Some q => get_namespace_path (pk_modules p) q
                           end ++ namespace_components cpp_namespace) ;;
  d <- on_module_heap (DeclarationsScope None) ;;
  b <- on_module_heap (CodeBlock error_return d None) ;;
  a <- on_module_heap (CodeBlock error_return d (Some b)) ;;
  let info := ModuleInfo name parent docstring cpp_namespace (module_prefix parent_prefix name)
                (module_init_function_name parent_prefix name) (join "::" path) d b a in
  st_modify (fun p => set_modules (pk_modules p ++
    [ModuleBase info empty_contents (strip_prefix (name +:+ "_")) "__main__" false]) p) ;;;
  st_ret i.

(** Sections *)

Definition get_current_section (i : nat) : ST package string :=
  r <- st_get (fun p => get_root (pk_modules p) i) ;;
  m <- the_module r ;;
  st_ret (mo_current_section m).

Definition is_root (m : module_base) : bool := bool_decide (mi_parent (mo_info m) = None).

Definition begin_section (i : nat) (section_name : string) : ST package unit :=
  current <- get_current_section i ;;
  if negb (String.eqb current "__main__") then st_raise ValueError
  else if String.eqb section_name "__main__" then st_raise ValueError
  else
    m <- the_module i ;;
    st_assert (is_root m) ;;;
    update_module i (set_section section_name).

Definition end_section (i : nat) (section_name : string) : ST package unit :=
  m <- the_module i ;;
  st_assert (is_root m) ;;;
  if negb (String.eqb (mo_current_section m) section_name) then st_raise ValueError
  else update_module i (set_section "__main__").

(** Submodules *)

Definition submodule_named (modules : list module_base) (name : string) (j : nat) : bool :=
  match modules !! j with Some m => String.eqb (mi_name (mo_info m)) name | None => false end.

Definition get_submodule (i : nat) (submodule_name : string) : ST package nat :=
  m <- the_module i ;;
  ms <- st_get pk_modules ;;
  match List.find (submodule_named ms submodule_name) (ct_submodules (mo_contents m)) with
  | None => st_raise ValueError
  | Some j => st_ret j
  end.

Definition add_cpp_namespace (i : nat) (name : string) : ST package nat :=
  st_catch (get_submodule i name)
    (fun e => match e with
              | ValueError => ModuleBase_init name (Some i) None (Some name)
              | _ => st_raise e
              end).

(** Includes; the list is gone from the root once it was generated. *)
Definition add_include (i : nat) (include : text_value) : ST package unit :=
  include <- st_lift (ascii_of_value include) ;;
  match include with
  | None => st_raise AttributeError
  | Some inc =>
      st_assert (startswith dq inc || startswith "<" inc) ;;;
      st_assert (endswith_char "034" inc || endswith_char ">" inc) ;;;
      m <- the_module i ;;
      has <- st_get (fun p => pk_root_includes p || negb (is_root m)) ;;
      if negb has then st_raise TypeError
      else st_modify (fun p =>
             if bool_decide (inc ∈ pk_includes p) then p
             else Package (pk_modules p) (pk_shared p) (pk_matchers p) (pk_exceptions p)
                    (pk_enums p) (pk_types p) (pk_includes p ++ [inc]) (pk_root_includes p))
  end.

(** Functions *)

(** The Python name of a function. *)
Definition python_name (m : module_base) (a : function_attrs) : string :=
  match fn_custom_name a with
  | Some n => n
  | None => get_mangled_name (mo_c_function_name_transformer m (fn_function_name a))
              (fn_template_parameters a)
  end.

(** [OverloadedFunction(name)] *)
Definition OverloadedFunction : overloaded functions :=
  Overloaded [] [] None None None None "PyObject".

(** [overload.add(wrapper)]: the wrapper is the last of the functions. *)
Definition overload_add (f : function_object) (o : overloaded functions) : overloaded functions :=
  Overloaded (ov_world o ++ [f]) (ov_wrappers o ++ [length (ov_world o)]) (ov_all_wrappers o)
    (ov_wrapper_actual_name o) (ov_wrapper_return o) (ov_wrapper_args o) (ov_pystruct o).

(** [wrapper.module = self; wrapper.section = self.current_section] *)
Definition function_in_module (view : module_view) (section : string) (f : function_object)
    : function_object :=
  let o := fo_function f in
  FunctionObject (fo_custom f) (Some section)
    (Obj (wo_base o) (Function_set_module view (wo_attrs o)) (wo_world o)).

Definition add_function_obj (i : nat) (f : function_object) : ST package unit :=
  m <- the_module i ;;
  let name := python_name m (wo_attrs (fo_function f)) in
  view <- the_view i ;;
  section <- get_current_section i ;;
  let functions := ct_functions (mo_contents m) in
  let overload := default OverloadedFunction (functions !! name) in
  update_module i (set_contents (set_functions
    (<[name := overload_add (function_in_module view section f) overload]> functions))).

(** [add_function] and [add_custom_function_wrapper]: the result of the constructor,
    [None] when it is to be skipped. *)
Definition add_function (i : nat) (func : res function_object) : ST package (option function_object) :=
  match func with
  | Raise SkipWrapper => st_ret None
  | Raise e => st_raise e
  | Ok f => add_function_obj i f ;;; st_ret (Some f)
  end.

(** Types *)

Definition set_type (name : string) (r : type_ref) (m : module_base) : module_base :=
  set_contents (fun c => set_types (<[name := r]> (ct_types c)) c) m.

Definition register_type (i : nat) (name full_name : option string) (r : type_ref)
    : ST package unit :=
  st_when (truthy name) (update_module i (set_type (default EmptyString name) r)) ;;;
  st_when (truthy full_name)
    (up <- st_get (fun p => ancestors (pk_modules p) i) ;;
     st_iter (fun j => update_module j (set_type (default EmptyString full_name) r)) up).

(** [_add_class_obj] and [_add_container_obj] *)
Definition add_type_obj (i : nat) (r : type_ref) : ST package unit :=
  view <- the_view i ;;
  section <- get_current_section i ;;
  on_types (type_set_module r view section) ;;;
  update_module i (set_contents (append_type r)) ;;;
  names <- st_get (fun p => type_names (pk_types p) r) ;;
  register_type i names.1 names.2 r.

(** [_add_exception_obj] *)
Definition add_exception_obj (i : nat) (exc : cpp_exception) : ST package nat :=
  view <- the_view i ;;
  exc <- st_lift (exception_set_module g exc view) ;;
  section <- get_current_section i ;;
  n <- st_get (fun p => length (pk_exceptions p)) ;;
  st_modify (fun p => Package (pk_modules p) (pk_shared p) (pk_matchers p)
    (pk_exceptions p ++ [(exc, Some section)]) (pk_enums p) (pk_types p) (pk_includes p)
    (pk_root_includes p)) ;;;
  update_module i (set_contents (append_type (ExceptionRef n))) ;;;
  register_type i (Some (ex_name exc)) (ex_full_name exc) (ExceptionRef n) ;;;
  st_ret n.

Definition set_enums (es : list (enum * option string)) (p : package) : package :=
  Package (pk_modules p) (pk_shared p) (pk_matchers p) (pk_exceptions p) es (pk_types p)
    (pk_includes p) (pk_root_includes p).

(** [_add_enum_obj]: the enumeration is in the list before its module is set. *)
Definition add_enum_obj (i : nat) (e : enum) : ST package nat :=
  n <- st_get (fun p => length (pk_enums p)) ;;
  st_modify (fun p => set_enums (pk_enums p ++ [(e, None)]) p) ;;;
  update_module i (set_contents (append_type (EnumRef n))) ;;;
  view <- the_view i ;;
  e <- on_matchers (enum_set_module e view) ;;
  section <- get_current_section i ;;
  st_modify (fun p => set_enums (<[n := (e, Some section)]> (pk_enums p)) p) ;;;
  register_type i (Some (en_name e)) (en_full_name e) (EnumRef n) ;;;
  st_ret n.

(** [add_typedef] of a class *)
Definition add_typedef (i : nat) (wrapper : nat) (alias : string) : ST package unit :=
  update_module i (set_contents (append_typedef (wrapper, alias))) ;;;
  register_type i (Some alias) (Some alias) (ClassRef wrapper) ;;;
  on_types (class_register_alias wrapper alias) ;;;
  full_name <- st_get (fun p => join "::" (get_namespace_path (pk_modules p) i ++ [alias])) ;;
  on_types (class_register_alias wrapper full_name).

(** [declare_one_time_definition] *)
Definition declare_one_time_definition (definition_name : string) : ST shared unit :=
  fun s => if bool_decide (definition_name ∈ sh_one_time_definitions s) then (s, Raise KeyError)
           else (Shared (sh_heap s) (sh_header s) (sh_body s) (sh_after_forward_declarations s)
                   ({[definition_name]} ∪ sh_one_time_definitions s), Ok tt).
End modules.

(** ** The tree of modules *)

(** What the shape of the tree depends on. *)
Definition frame (m : module_base) : module_info * list nat :=
  (mo_info m, ct_submodules (mo_contents m)).

(** The names of a module follow from those of its parent. *)
Definition names_agree (ms : list module_base) (m : module_base) : Prop :=
  let parent := mi_parent (mo_info m) ≫= fun p => ms !! p in
  mi_prefix (mo_info m) = module_prefix ((fun q => mi_prefix (mo_info q)) <$> parent)
                            (mi_name (mo_info m))
  /\ mi_init_function_name (mo_info m)
     = module_init_function_name ((fun q => mi_prefix (mo_info q)) <$> parent)
         (mi_name (mo_info m)).

Record tree (ms : list module_base) : Prop := {
  tr_nonempty : ms <> [];
  tr_root : forall i m, ms !! i = Some m -> mi_parent (mo_info m) = None <-> i = 0%nat;
  tr_parent : forall i m p, ms !! i = Some m -> mi_parent (mo_info m) = Some p -> (p < i)%nat;
  tr_submodules : forall i m j, ms !! i = Some m ->
    j ∈ ct_submodules (mo_contents m)
    <-> exists mj, ms !! j = Some mj /\ mi_parent (mo_info mj) = Some i;
  tr_once : forall i m, ms !! i = Some m -> NoDup (ct_submodules (mo_contents m));
  tr_names : forall i m, ms !! i = Some m -> names_agree ms m
}.

Lemma frame_lookup ms ms' i m' :
  map frame ms = map frame ms' -> ms' !! i = Some m' ->
  exists m, ms !! i = Some m /\ frame m = frame m'.
Proof.
  intros Hf Hi. assert (map frame ms !! i = Some (frame m')) as H.
  { rewrite Hf. rewrite list_lookup_fmap. by rewrite Hi. }
  rewrite list_lookup_fmap in H. destruct (ms !! i) as [m|]; [|discriminate].
  exists m. split; [done|]. exact (inj Some _ _ H).
Qed.

Lemma tree_frames ms ms' : map frame ms = map frame ms' -> tree ms -> tree ms'.
Proof.
  intros Hf [H0 H1 H2 H3 H4 H5].
  assert (forall i m', ms' !! i = Some m' -> exists m, ms !! i = Some m
    /\ mo_info m = mo_info m' /\ ct_submodules (mo_contents m) = ct_submodules (mo_contents m'))
    as Hl.
  { intros i m' Hi. destruct (frame_lookup ms ms' i m' Hf Hi) as (m&Hm&E). injection E as E1 E2.
    by exists m. }
  assert (forall i m, ms !! i = Some m -> exists m', ms' !! i = Some m'
    /\ mo_info m' = mo_info m) as Hl'.
  { intros i m Hi. destruct (frame_lookup ms' ms i m (eq_sym Hf) Hi) as (m'&Hm&E). injection E as E1 _.
    by exists m'. }
  split.
  - intros ->. by destruct ms.
  - intros i m' Hi. destruct (Hl i m' Hi) as (m&Hm&<-&_). by apply H1.
  - intros i m' p Hi. destruct (Hl i m' Hi) as (m&Hm&<-&_). by apply H2.
  - intros i m' j Hi. destruct (Hl i m' Hi) as (m&Hm&_&<-). rewrite (H3 i m j Hm).
    split; intros (mj&Hj&E).
    + destruct (Hl' j mj Hj) as (mj'&Hj'&E'). exists mj'. by rewrite E'.
    + destruct (Hl j mj Hj) as (mj'&Hj'&E'&_). exists mj'. by rewrite E'.
  - intros i m' Hi. destruct (Hl i m' Hi) as (m&Hm&_&<-). by eapply H4.
  - intros i m' Hi. destruct (Hl i m' Hi) as (m&Hm&E&_). specialize (H5 i m Hm).
    unfold names_agree in *. rewrite <- E.
    destruct (mi_parent (mo_info m)) as [p|]; cbn in *; [|done].
    destruct (ms !! p) as [q|] eqn:Hp.
    + destruct (Hl' p q Hp) as (q'&->&E'). cbn in *. by rewrite E'.
    + destruct (ms' !! p) as [q'|] eqn:Hp'; [|done].
      destruct (Hl p q' Hp') as (q&Hq&_). congruence.
Qed.

(** A new submodule of [p]. *)
Lemma tree_submodule ms p m name info f :
  tree ms -> ms !! p = Some m -> mi_parent info = Some p -> mi_name info = name ->
  mi_prefix info = module_prefix (Some (mi_prefix (mo_info m))) name ->
  mi_init_function_name info = module_init_function_name (Some (mi_prefix (mo_info m))) name ->
  tree (<[p := set_contents (add_submodule (length ms)) m]> ms
        ++ [ModuleBase info empty_contents f "__main__" false]).
Proof.
  intros [H0 H1 H2 H3 H4 H5] Hp Hpar Hname Hpre Hinit. pose proof (lookup_lt_Some _ _ _ Hp) as Hlt.
  set (m' := set_contents _ m). set (new := ModuleBase info _ _ _ _).
  assert (forall i x, (<[p := m']> ms ++ [new]) !! i = Some x ->
    (exists y, ms !! i = Some y /\ mo_info x = mo_info y
       /\ ct_submodules (mo_contents x)
          = ct_submodules (mo_contents y) ++ (if decide (i = p) then [length ms] else []))
    \/ i = length ms /\ x = new) as Hl.
  { intros i x Hi. apply lookup_app_Some in Hi as [Hi|[Hge Hi]].
    - left. destruct (decide (i = p)) as [->|Hne].
      + rewrite list_lookup_insert_eq in Hi by done. injection Hi as <-. by exists m.
      + rewrite list_lookup_insert_ne in Hi by done. exists x. by rewrite app_nil_r.
    - rewrite length_insert in Hge, Hi. right. apply list_lookup_singleton_Some in Hi as [Hi <-].
      split; [lia | done]. }
  assert (forall i y, ms !! i = Some y -> exists x, (<[p := m']> ms ++ [new]) !! i = Some x
    /\ mo_info x = mo_info y) as Hl'.
  { intros i y Hi. destruct (decide (i = p)) as [->|Hne].
    - exists m'. rewrite lookup_app_l by (rewrite length_insert; lia).
      rewrite list_lookup_insert_eq by done. rewrite Hp in Hi. by injection Hi as <-.
    - exists y. rewrite lookup_app_l by (rewrite length_insert; by eapply lookup_lt_Some).
      by rewrite list_lookup_insert_ne. }
  assert ((<[p := m']> ms ++ [new]) !! length ms = Some new) as Hnew.
  { rewrite lookup_app_r by (rewrite length_insert; lia). by rewrite length_insert, Nat.sub_diag. }
  split.
  - by intros [_ ?]%app_eq_nil.
  - intros i x Hi. destruct (Hl i x Hi) as [(y&Hy&->&_)|[-> ->]]; [by apply H1|].
    cbn. rewrite Hpar. split; [discriminate | lia].
  - intros i x q Hi Hq. destruct (Hl i x Hi) as [(y&Hy&E&_)|[-> ->]].
    + rewrite E in Hq. by eapply H2.
    + cbn in Hq. rewrite Hpar in Hq. by injection Hq as <-.
  - intros i x j Hi. destruct (Hl i x Hi) as [(y&Hy&E&Es)|[-> ->]].
    + rewrite Es, elem_of_app, (H3 i y j Hy). split.
      * intros [(mj&Hj&Ej)|Hj].
        -- destruct (Hl' j mj Hj) as (x'&Hx'&E'). exists x'. by rewrite E'.
        -- destruct (decide (i = p)) as [->|]; [|by apply elem_of_nil in Hj].
           apply list_elem_of_singleton in Hj as ->. by exists new.
      * intros (xj&Hj&Ej). destruct (Hl j xj Hj) as [(yj&Hyj&Eyj&_)|[-> ->]].
        -- left. exists yj. by rewrite <- Eyj.
        -- cbn in Ej. rewrite Hpar in Ej. injection Ej as ->. rewrite decide_True by done.
           right. by left.
    + cbn. rewrite elem_of_nil. split; [done|]. intros (xj&Hj&Ej).
      destruct (Hl j xj Hj) as [(yj&Hyj&Eyj&_)|[-> ->]].
      * rewrite Eyj in Ej. pose proof (H2 _ _ _ Hyj Ej). apply lookup_lt_Some in Hyj. lia.
      * cbn in Ej. rewrite Hpar in Ej. injection Ej as ->. lia.
  - intros i x Hi. destruct (Hl i x Hi) as [(y&Hy&E&Es)|[-> ->]]; [|constructor].
    rewrite Es. apply NoDup_app. split; [by eapply H4|]. destruct (decide (i = p)) as [->|].
    + split; [|apply NoDup_singleton]. intros j Hj Hj'. apply list_elem_of_singleton in Hj' as ->.
      apply (H3 p y _ Hy) in Hj as (mj&Hj&_). apply lookup_lt_Some in Hj. lia.
    + split; [|constructor]. intros j _ Hj. by apply elem_of_nil in Hj.
  - intros i x Hi. destruct (Hl i x Hi) as [(y&Hy&E&_)|[-> ->]]; unfold names_agree.
    + specialize (H5 i y Hy). unfold names_agree in H5. rewrite E.
      destruct (mi_parent (mo_info y)) as [q|] eqn:Eq; cbn [mbind option_bind] in *; [|done].
      destruct (ms !! q) as [z|] eqn:Hz.
      * destruct (Hl' q z Hz) as (z'&->&E'). cbn in *. by rewrite E'.
      * pose proof (H2 _ _ _ Hy Eq). apply lookup_ge_None in Hz. apply lookup_lt_Some in Hy. lia.
    + cbn [mo_info new]. rewrite Hpar. cbn [mbind option_bind].
      destruct (Hl' p m Hp) as (x&->&E'). cbn. by rewrite E', Hname.
Qed.

(** ** The operations and the tree *)

Section tree_operations.
Context {T : Type} `{!TypeOps T} (g : settings).
Local Abbreviation package := (package T).

Definition same_frames (p p' : package) : Prop :=
  map frame (pk_modules p) = map frame (pk_modules p').
#[local] Instance same_frames_preorder : PreOrder same_frames.
Proof. split; [by intros p | intros p1 p2 p3; unfold same_frames; congruence]. Qed.

Lemma frames_kept {A} (m : ST package A) :
  (forall p, pk_modules (m p).1 = pk_modules p) -> evolves same_frames m.
Proof. intros H p. unfold same_frames. by rewrite H. Qed.
Lemma frames_the_module i : evolves same_frames (the_module i).
Proof. by apply frames_kept. Qed.
Lemma frames_the_view i : evolves same_frames (the_view i).
Proof. apply evolves_bind; [apply _ | apply frames_the_module | intros m; apply evolves_get; apply _]. Qed.
Lemma frames_update i f :
  (forall m, frame (f m) = frame m) -> evolves same_frames (update_module i f).
Proof.
  intros Hf p. unfold same_frames, update_module, the_module, st_bind, st_modify.
  destruct (pk_modules p !! i) as [m|] eqn:E; cbn; [|done].
  symmetry. etransitivity; [apply list_fmap_insert|]. rewrite Hf. apply list_insert_id.
  by rewrite list_lookup_fmap, E.
Qed.
Lemma frames_on_types {A} (m : ST T A) : evolves same_frames (on_types m).
Proof. apply frames_kept. intros p. unfold on_types. by destruct (m _). Qed.
Lemma frames_on_matchers {A} (m : ST matchers A) : evolves same_frames (on_matchers m).
Proof. apply frames_kept. intros p. unfold on_matchers. by destruct (m _). Qed.
Lemma frames_on_shared {A} (m : ST shared A) : evolves same_frames (on_shared m).
Proof. apply frames_kept. intros p. unfold on_shared. by destruct (m _). Qed.
Lemma frames_modify (f : package -> package) :
  (forall p, pk_modules (f p) = pk_modules p) -> evolves same_frames (st_modify f).
Proof. intros H. by apply frames_kept. Qed.

Lemma frame_append r m : frame (set_contents (append_type r) m) = frame m.
Proof. by destruct r. Qed.

(** One step of a proof that the shape of the tree is kept. *)
Ltac frames_step :=
  match goal with
  | |- PreOrder _ => apply _
  | |- forall _, _ => intros ?
  | |- evolves _ (st_bind _ _) => apply evolves_bind
  | |- evolves _ (st_ret _) => apply evolves_ret
  | |- evolves _ (st_raise _) => apply evolves_raise
  | |- evolves _ (st_lift _) => apply evolves_lift
  | |- evolves _ (st_get _) => apply evolves_get
  | |- evolves _ (st_assert _) => apply evolves_assert
  | |- evolves _ (st_when _ _) => apply evolves_when
  | |- evolves _ (st_iter _ _) => apply evolves_iter
  | |- evolves _ (the_module _) => apply frames_the_module
  | |- evolves _ (the_view _) => apply frames_the_view
  | |- evolves _ (on_types _) => apply frames_on_types
  | |- evolves _ (on_matchers _) => apply frames_on_matchers
  | |- evolves _ (on_shared _) => apply frames_on_shared
  | |- evolves _ (update_module _ _) => apply frames_update; intros; first [done | apply frame_append]
  | |- evolves _ (st_modify _) => apply frames_modify; intros; try case_bool_decide; done
  | |- evolves _ (if _ then _ else _) => apply evolves_if
  | |- evolves _ (match ?x with _ => _ end) => destruct x
  end.
Ltac frames := repeat frames_step.

Lemma frames_current_section i : evolves same_frames (get_current_section i).
Proof. unfold get_current_section. frames. Qed.
Lemma frames_begin i s : evolves same_frames (begin_section i s).
Proof. unfold begin_section. apply evolves_bind; [apply _ | apply frames_current_section | frames]. Qed.
Lemma frames_end i s : evolves same_frames (end_section i s).
Proof. unfold end_section. frames. Qed.
Lemma frames_include i t : evolves same_frames (add_include i t).
Proof. unfold add_include. frames. Qed.
Lemma frames_get_submodule i n : evolves same_frames (get_submodule i n).
Proof. unfold get_submodule. frames. Qed.
Lemma frames_add_function i f : evolves same_frames (add_function i f).
Proof.
  unfold add_function, add_function_obj. frames. apply frames_current_section.
Qed.
Lemma frames_register i n fn r : evolves same_frames (register_type i n fn r).
Proof. unfold register_type. frames. Qed.
Lemma frames_add_type i r : evolves same_frames (add_type_obj i r).
Proof. unfold add_type_obj. frames; [apply frames_current_section | apply frames_register]. Qed.
Lemma frames_add_exception i e : evolves same_frames (add_exception_obj g i e).
Proof. unfold add_exception_obj. frames; [apply frames_current_section | apply frames_register]. Qed.
Lemma frames_add_enum i e : evolves same_frames (add_enum_obj i e).
Proof. unfold add_enum_obj. frames; [apply frames_current_section | apply frames_register]. Qed.
Lemma frames_typedef i c a : evolves same_frames (add_typedef i c a).
Proof. unfold add_typedef. frames. apply frames_register. Qed.

Definition tree_grows (p p' : package) : Prop := tree (pk_modules p) -> tree (pk_modules p').
#[local] Instance tree_grows_preorder : PreOrder tree_grows.
Proof. split; [by intros p H | intros p1 p2 p3 Ha Hb H; auto]. Qed.
Lemma grows_frames {A} (m : ST package A) : evolves same_frames m -> evolves tree_grows m.
Proof. apply evolves_weaken. intros p p' Hf. exact (tree_frames _ _ Hf). Qed.

(** What the constructor of a submodule does. *)
Lemma submodule_init_eq name q docstring ns (p : package) m :
  pk_modules p !! q = Some m ->
  exists sh info f,
    ModuleBase_init name (Some q) docstring ns p
      = (set_shared sh (set_modules
           (<[q := set_contents (add_submodule (length (pk_modules p))) m]> (pk_modules p)
            ++ [ModuleBase info empty_contents f "__main__" false]) p),
         Ok (length (pk_modules p)))
    /\ mi_parent info = Some q /\ mi_name info = name
    /\ mi_prefix info = module_prefix (Some (mi_prefix (mo_info m))) name
    /\ mi_init_function_name info = module_init_function_name (Some (mi_prefix (mo_info m))) name.
Proof.
  intros Hq. unfold ModuleBase_init, update_module, the_module, st_bind, st_get, st_modify.
  rewrite Hq. do 3 eexists. split; [reflexivity|]. split_and!; reflexivity.
Qed.

Lemma grows_init_submodule name q docstring ns :
  evolves tree_grows (ModuleBase_init name (Some q) docstring ns).
Proof.
  intros p Ht. destruct (pk_modules p !! q) as [m|] eqn:Hq.
  - destruct (submodule_init_eq name q docstring ns p m Hq) as (sh&info&f&->&H1&H2&H3&H4).
    cbn. eapply tree_submodule; eauto.
  - unfold ModuleBase_init, st_bind, st_get, the_module. rewrite Hq. exact Ht.
Qed.

Lemma grows_add_cpp_namespace i name : evolves tree_grows (add_cpp_namespace i name).
Proof.
  apply evolves_catch; [apply _ | apply grows_frames, frames_get_submodule |].
  intros []; first [apply grows_init_submodule | apply evolves_raise; apply _].
Qed.

(** ** Reachable packages *)

(** A package before its root module. *)
Definition empty_package (m : matchers) (t : T) : package :=
  Package [] (Shared empty_heap MemoryCodeSink MemoryCodeSink MemoryCodeSink ∅) m [] [] t [] true.

(** The calls that build a package, whether they return or raise. *)
Inductive package_step (p : package) : package -> Prop :=
  | StepSubModule name q docstring ns :
      package_step p (ModuleBase_init name (Some q) docstring ns p).1
  | StepNamespace i name : package_step p (add_cpp_namespace i name p).1
  | StepBeginSection i s : package_step p (begin_section i s p).1
  | StepEndSection i s : package_step p (end_section i s p).1
  | StepInclude i t : package_step p (add_include i t p).1
  | StepFunction i f : package_step p (add_function i f p).1
  | StepType i r : package_step p (add_type_obj i r p).1
  | StepException i e : package_step p (add_exception_obj g i e p).1
  | StepEnum i e : package_step p (add_enum_obj i e p).1
  | StepTypedef i c a : package_step p (add_typedef i c a p).1.

Inductive reachable : package -> Prop :=
  | ReachRoot name docstring ns m t :
      reachable (ModuleBase_init name None docstring ns (empty_package m t)).1
  | ReachStep p p' : reachable p -> package_step p p' -> reachable p'.

Lemma package_step_tree (p p' : package) : package_step p p' -> tree_grows p p'.
Proof.
  destruct 1; match goal with |- tree_grows p (?m p).1 => revert p; fold (evolves tree_grows m) end.
  - apply grows_init_submodule.
  - apply grows_add_cpp_namespace.
  - apply grows_frames, frames_begin.
  - apply grows_frames, frames_end.
  - apply grows_frames, frames_include.
  - apply grows_frames, frames_add_function.
  - apply grows_frames, frames_add_type.
  - apply grows_frames, frames_add_exception.
  - apply grows_frames, frames_add_enum.
  - apply grows_frames, frames_typedef.
Qed.

Lemma root_tree name docstring ns m t :
  tree (pk_modules (ModuleBase_init name None docstring ns (empty_package m t)).1).
Proof.
  cbn. split.
  - done.
  - by intros [|i] x; [intros [= <-] |].
  - by intros [|i] x q; [intros [= <-] |].
  - intros [|i] x j; [intros [= <-] | done]. cbn. rewrite elem_of_nil. split; [done|].
    intros (mj&Hj&E). by destruct j; [injection Hj as <- |].
  - intros [|i] x; [intros [= <-]; constructor | done].
  - by intros [|i] x; [intros [= <-] |].
Qed.

Lemma reachable_tree (p : package) : reachable p -> tree (pk_modules p).
Proof.
  induction 1 as [name docstring ns m t|p p' _ IH Hs]; [apply root_tree|].
  by apply (package_step_tree p p').
Qed.
End tree_operations.

(** ** Paths *)

Lemma last_default {A} (x d d' : A) l : List.last (x :: l) d = List.last (x :: l) d'.
Proof. revert x. induction l as [|y l IH]; intros x; [done|]. exact (IH y). Qed.

Section paths.
Context (ms : list module_base) (Htree : tree ms).

Lemma ancestors_fuel_enough i : forall f1 f2, (i < f1)%nat -> (i < f2)%nat ->
  ancestors_fuel f1 ms i = ancestors_fuel f2 ms i.
Proof.
  induction (lt_wf i) as [i _ IH]. intros [|f1] [|f2] H1 H2; try lia. cbn [ancestors_fuel].
  destruct (ms !! i) as [m|] eqn:E; [|done].
  destruct (mi_parent (mo_info m)) as [p|] eqn:Ep; [|done].
  pose proof (tr_parent _ Htree i m p E Ep). f_equal. apply IH; lia.
Qed.

Lemma ancestors_step i m : ms !! i = Some m ->
  ancestors ms i = i :: match mi_parent (mo_info m) with
                        | None => []
                        | Some p => ancestors ms p
                        end.
Proof.
  intros Hi. pose proof (lookup_lt_Some _ _ _ Hi) as Hlt. unfold ancestors.
  rewrite (ancestors_fuel_enough i (length ms) (S (length ms))) by lia.
  cbn [ancestors_fuel]. by rewrite Hi.
Qed.

Lemma parent_lookup i m p : ms !! i = Some m -> mi_parent (mo_info m) = Some p ->
  exists q, ms !! p = Some q.
Proof.
  intros Hi Hp. pose proof (tr_parent _ Htree i m p Hi Hp). apply lookup_lt_Some in Hi.
  apply lookup_lt_is_Some_2. lia.
Qed.

Lemma infos_step i m : ms !! i = Some m ->
  ancestor_infos ms i = match mi_parent (mo_info m) with
                        | None => []
                        | Some p => ancestor_infos ms p
                        end ++ [mo_info m].
Proof.
  intros Hi. unfold ancestor_infos. rewrite (ancestors_step i m Hi). cbn [rev].
  rewrite flat_map_app. cbn [flat_map]. unfold info_of at 2. rewrite Hi. cbn [app].
  destruct (mi_parent (mo_info m)); cbn; by rewrite ?app_nil_r.
Qed.

Lemma module_path_step i m : ms !! i = Some m ->
  get_module_path ms i = match mi_parent (mo_info m) with
                         | None => []
                         | Some p => get_module_path ms p
                         end ++ [mi_name (mo_info m)].
Proof.
  intros Hi. unfold get_module_path. rewrite (infos_step i m Hi), map_app.
  by destruct (mi_parent (mo_info m)).
Qed.

Lemma root_of i m : ms !! i = Some m -> get_root ms i = 0%nat.
Proof.
  revert m. induction (lt_wf i) as [i _ IH]. intros m Hi. unfold get_root.
  rewrite (ancestors_step i m Hi).
  destruct (mi_parent (mo_info m)) as [p|] eqn:Ep.
  - destruct (parent_lookup i m p Hi Ep) as [q Hq].
    specialize (IH p (tr_parent _ Htree i m p Hi Ep) q Hq). unfold get_root in IH.
    rewrite (ancestors_step p q Hq) in IH |- *.
    etransitivity; [|exact IH]. exact (last_default p i p _).
  - by apply (tr_root _ Htree i m Hi) in Ep as ->.
Qed.
End paths.

(** The path of a module, as its prefix spells it. *)
Definition spelled_path (path : list string) : list string :=
  match path with [] => [] | root :: rest => replace_char "." "_" root :: rest end.

Lemma join_snoc sep l x : l <> [] -> join sep (l ++ [x]) = join sep l +:+ sep +:+ x.
Proof.
  induction l as [|a l IH]; [done|]. intros _. destruct l as [|b l]; [done|].
  cbn [app]. rewrite !join_cons by done. change (b :: l ++ [x]) with ((b :: l) ++ [x]).
  rewrite (join_cons sep a (b :: l)), IH by done. by rewrite !app_str_assoc.
Qed.

Lemma prefix_spelled ms i m : tree ms -> ms !! i = Some m ->
  get_module_path ms i <> []
  /\ mi_prefix (mo_info m) = join "_" (spelled_path (get_module_path ms i)).
Proof.
  intros Ht. revert m. induction (lt_wf i) as [i _ IH]. intros m Hi.
  rewrite (module_path_step ms Ht i m Hi).
  destruct (tr_names _ Ht i m Hi) as [Hp _]. destruct (mi_parent (mo_info m)) as [p|] eqn:Ep.
  - destruct (parent_lookup ms Ht i m p Hi Ep) as [q Hq].
    destruct (IH p (tr_parent _ Ht i m p Hi Ep) q Hq) as [Hne Hpre].
    split; [by destruct (get_module_path ms p)|]. rewrite Hp. cbn. rewrite Hq. cbn. rewrite Hpre.
    destruct (get_module_path ms p) as [|r path]; [done|]. cbn [spelled_path app].
    change (replace_char "." "_" r :: path ++ [mi_name (mo_info m)])
      with ((replace_char "." "_" r :: path) ++ [mi_name (mo_info m)]).
    by rewrite join_snoc.
  - split; [done|]. rewrite Hp. reflexivity.
Qed.

(** ** Correctness *)

(** The example modules have no classes and no containers. *)
#[export] Instance no_types : TypeOps unit := {|
  type_names _ _ := (None, None);
  type_set_module _ _ _ := st_ret tt;
  type_section _ _ := None;
  class_imported _ _ := false;
  class_register_alias _ _ := st_ret tt;
  class_generate_typedef _ _ _ := st_ret tt;
  type_forward_declarations _ _ := st_ret tt;
  type_generate _ _ := st_ret tt
|}.
Definition example_root : package unit :=
  (ModuleBase_init "foo" None None (Some "::foo") (empty_package (TypeMatcher, TypeMatcher) tt)).1.

Section correctness.
Context {T : Type} `{!TypeOps T} (g : settings).

(** C27: A package is a tree, however it was built: whatever calls add modules,
    functions and types to it, returning or raising, a module that is not the root
    is exactly once in the list of its parent and in no other; the root is found
    from every module; and the prefix of the C names of a module, and the name of
    its init function, spell its path. *)
Theorem package_is_a_tree (p : package T) (i : nat) (m : module_base) :
  reachable g p -> pk_modules p !! i = Some m ->
  get_root (pk_modules p) i = 0%nat
  /\ (forall j, j ∈ ct_submodules (mo_contents m) <->
        exists mj, pk_modules p !! j = Some mj /\ mi_parent (mo_info mj) = Some i)
  /\ NoDup (ct_submodules (mo_contents m))
  /\ mi_prefix (mo_info m) = join "_" (spelled_path (get_module_path (pk_modules p) i))
  /\ (i <> 0%nat -> mi_init_function_name (mo_info m) = "init" +:+ mi_prefix (mo_info m)).
Proof.
  intros Hr Hi. pose proof (reachable_tree g p Hr) as Ht. split_and!.
  - by eapply root_of.
  - intros j. by apply tr_submodules.
  - by eapply tr_once.
  - by eapply prefix_spelled.
  - intros Hne. destruct (tr_names _ Ht i m Hi) as [-> ->].
    destruct (mi_parent (mo_info m)) as [q|] eqn:Eq.
    + destruct (parent_lookup _ Ht i m q Hi Eq) as [x Hx]. cbn. by rewrite Hx.
    + by apply (tr_root _ Ht i m Hi) in Eq.
Qed.

(** The section of a package is that of its root. *)
Definition section_is (p : package T) (s : string) : Prop :=
  exists root, pk_modules p !! 0%nat = Some root /\ mo_current_section root = s.

Lemma the_root (p : package T) i m : tree (pk_modules p) -> pk_modules p !! i = Some m ->
  exists root, pk_modules p !! 0%nat = Some root
    /\ (forall j, get_current_section j p = (p, Ok (mo_current_section root))
                  \/ pk_modules p !! j = None)
    /\ is_root m = bool_decide (i = 0%nat).
Proof.
  intros Ht Hi. assert (is_Some (pk_modules p !! 0%nat)) as [root H0].
  { apply lookup_lt_is_Some_2. apply lookup_lt_Some in Hi. lia. }
  exists root. split_and!; [done | |].
  - intros j. destruct (pk_modules p !! j) as [mj|] eqn:Hj; [left|by right].
    unfold get_current_section, st_bind, st_get, the_module.
    rewrite (root_of _ Ht j mj Hj), H0. done.
  - unfold is_root. apply bool_decide_ext. exact (tr_root _ Ht i m Hi).
Qed.

(** Sections.  [begin_section] raises [ValueError] while a section is open, or
    for the name of the main section, and [AssertionError] on a submodule; otherwise
    the section of every module of the package becomes the given one.
    [end_section] raises [AssertionError] on a submodule and [ValueError] for any
    name but that of the open section; otherwise the main section is current
    again, so that ending a section that was begun restores the package.  A call
    that raises changes nothing. *)
Theorem section_protocol (p : package T) (i : nat) (m : module_base) (s name : string) :
  reachable g p -> pk_modules p !! i = Some m -> section_is p s ->
  get_current_section i p = (p, Ok s)
  /\ (s <> "__main__" \/ name = "__main__" -> begin_section i name p = (p, Raise ValueError))
  /\ (s = "__main__" -> name <> "__main__" ->
      (i <> 0%nat -> begin_section i name p = (p, Raise AssertionError))
      /\ (i = 0%nat -> exists p', begin_section i name p = (p', Ok tt) /\ section_is p' name
          /\ end_section i name p' = (p, Ok tt)))
  /\ (i <> 0%nat -> end_section i name p = (p, Raise AssertionError))
  /\ (i = 0%nat -> s <> name -> end_section i name p = (p, Raise ValueError))
  /\ (i = 0%nat -> s = name -> exists p', end_section i name p = (p', Ok tt)
      /\ section_is p' "__main__").
Proof.
  intros Hr Hi (root&H0&<-). pose proof (reachable_tree g p Hr) as Ht.
  destruct (the_root p i m Ht Hi) as (root'&H0'&Hc&Hroot). rewrite H0 in H0'. injection H0' as <-.
  destruct (Hc i) as [Hcur|]; [|congruence].
  assert (forall b, begin_section i b p = if negb (String.eqb (mo_current_section root) "__main__")
    then (p, Raise ValueError) else if String.eqb b "__main__" then (p, Raise ValueError)
    else if bool_decide (i = 0%nat)
         then (set_modules (<[i := set_section b m]> (pk_modules p)) p, Ok tt)
         else (p, Raise AssertionError)) as Hb.
  { intros b. unfold begin_section, st_bind. rewrite Hcur.
    destruct (negb _); [done|]. destruct (String.eqb b _); [done|].
    unfold the_module, update_module, st_bind, st_assert, st_modify. rewrite Hi, Hroot.
    destruct (bool_decide _); [|done]. cbn. unfold the_module. by rewrite Hi. }
  assert (forall e, end_section i e p = if bool_decide (i = 0%nat)
    then if negb (String.eqb (mo_current_section m) e) then (p, Raise ValueError)
         else (set_modules (<[i := set_section "__main__" m]> (pk_modules p)) p, Ok tt)
    else (p, Raise AssertionError)) as He.
  { intros e. unfold end_section, st_bind, the_module, st_assert. rewrite Hi, Hroot.
    destruct (bool_decide (i = 0%nat)); [|done]. unfold st_ret.
    destruct (String.eqb (mo_current_section m) e); cbn [negb]; [|done].
    unfold update_module, the_module, st_bind, st_modify. by rewrite Hi. }
  split_and!; [done | ..].
  - intros H. rewrite Hb. destruct (String.eqb_spec (mo_current_section root) "__main__"); [|done].
    destruct (String.eqb_spec name "__main__"); [done|]. by destruct H.
  - intros Hs Hn. rewrite Hb, Hs. cbn [negb String.eqb].
    destruct (String.eqb_spec name "__main__"); [done|]. cbn.
    split; intros H; [by rewrite bool_decide_eq_false_2|]. rewrite bool_decide_eq_true_2 by done.
    subst i. rewrite H0 in Hi. injection Hi as <-. eexists. split; [reflexivity|].
    pose proof (lookup_lt_Some _ _ _ H0) as Hlt. split.
    + exists (set_section name root). split; [by apply list_lookup_insert_eq | done].
    + unfold end_section, update_module, the_module, st_bind, st_assert, st_modify.
      cbn [set_modules pk_modules]. rewrite list_lookup_insert_eq by done.
      change (is_root (set_section name root)) with (is_root root). rewrite Hroot.
      rewrite bool_decide_eq_true_2 by done. unfold st_ret. cbn [set_section mo_current_section].
      rewrite String.eqb_refl. cbn [negb set_modules pk_modules].
      rewrite list_lookup_insert_eq by done. rewrite list_insert_insert_eq. rewrite list_insert_id.
      * by destruct p.
      * rewrite H0. destruct root. cbn in Hs. by rewrite Hs.
  - intros H. by rewrite He, bool_decide_eq_false_2.
  - intros H Hne. rewrite He, bool_decide_eq_true_2 by done. subst i. rewrite H0 in Hi.
    injection Hi as <-. by destruct (String.eqb_spec (mo_current_section root) name).
  - intros -> <-. rewrite H0 in Hi. injection Hi as <-. rewrite He. cbn. rewrite String.eqb_refl.
    eexists. split; [reflexivity|]. exists (set_section "__main__" root).
    split; [|done]. apply list_lookup_insert_eq. by eapply lookup_lt_Some.
Qed.

Lemma ancestors_frames ms ms' i :
  map frame ms = map frame ms' -> ancestors ms i = ancestors ms' i.
Proof.
  intros Hf. unfold ancestors. assert (length ms = length ms') as ->.
  { apply (f_equal length) in Hf. by rewrite !length_map in Hf. }
  generalize (length ms') as n. intros n. revert i. induction n as [|n IH]; intros i; [done|].
  cbn. destruct (ms' !! i) as [m'|] eqn:E.
  - destruct (frame_lookup _ _ _ _ Hf E) as (m&->&Em). injection Em as -> _.
    destruct (mi_parent (mo_info m')); [by rewrite IH | done].
  - destruct (ms !! i) as [m|] eqn:E'; [|done].
    destruct (frame_lookup _ _ _ _ (eq_sym Hf) E') as (m'&Em&_). congruence.
Qed.

Lemma ancestors_known ms i j : j ∈ ancestors ms i -> is_Some (ms !! j).
Proof.
  unfold ancestors. generalize (length ms) as n. intros n. revert i.
  induction n as [|n IH]; intros i; cbn; [by intros ?%elem_of_nil|].
  destruct (ms !! i) as [m|] eqn:E; [|by intros ?%elem_of_nil].
  intros [->|Hj]%elem_of_cons; [by eexists|].
  destruct (mi_parent (mo_info m)); [by eapply IH | by apply elem_of_nil in Hj].
Qed.

(** What the dictionary of module [j] says. *)
Definition type_of (p : package T) (j : nat) (key : string) : option type_ref :=
  pk_modules p !! j ≫= fun m => ct_types (mo_contents m) !! key.

Lemma set_type_spec (p : package T) (i : nat) (name : string) (r : type_ref) :
  is_Some (pk_modules p !! i) ->
  exists p', update_module i (set_type name r) p = (p', Ok tt)
    /\ map frame (pk_modules p) = map frame (pk_modules p')
    /\ forall j key, type_of p' j key
         = if bool_decide (j = i /\ key = name) then Some r else type_of p j key.
Proof.
  intros [m Hi]. unfold update_module, the_module, st_bind, st_modify. rewrite Hi.
  eexists. split; [reflexivity|]. split.
  { symmetry. etransitivity; [apply list_fmap_insert|]. apply list_insert_id.
    by rewrite list_lookup_fmap, Hi. }
  intros j key. unfold type_of. cbn [set_modules pk_modules].
  destruct (decide (j = i)) as [->|Hne].
  - rewrite list_lookup_insert_eq by (by eapply lookup_lt_Some). rewrite Hi. cbn.
    destruct (decide (key = name)) as [->|Hk].
    + rewrite lookup_insert_eq, bool_decide_eq_true_2; [done | by split].
    + rewrite lookup_insert_ne by done. rewrite bool_decide_eq_false_2; [done|]. by intros [_ ?].
  - rewrite list_lookup_insert_ne by done. rewrite bool_decide_eq_false_2; [done|]. by intros [? _].
Qed.

Lemma frames_some (p p' : package T) j : map frame (pk_modules p) = map frame (pk_modules p') ->
  is_Some (pk_modules p !! j) -> is_Some (pk_modules p' !! j).
Proof.
  intros Hf [m Hj]. destruct (frame_lookup _ _ _ _ (eq_sym Hf) Hj) as (m'&->&_). by eexists.
Qed.

Lemma set_types_spec (name : string) (r : type_ref) l : forall p : package T,
  Forall (fun j => is_Some (pk_modules p !! j)) l ->
  exists p', st_iter (fun j => update_module j (set_type name r)) l p = (p', Ok tt)
    /\ map frame (pk_modules p) = map frame (pk_modules p')
    /\ forall j key, type_of p' j key
         = if bool_decide (j ∈ l /\ key = name) then Some r else type_of p j key.
Proof.
  induction l as [|i l IH]; intros p Hl.
  { exists p. split_and!; [done..|]. intros j key. rewrite bool_decide_eq_false_2; [done|].
    intros [H _]. by apply elem_of_nil in H. }
  inversion Hl as [|? ? Hi Hl']; subst.
  destruct (set_type_spec p i name r Hi) as (p1&E1&F1&T1).
  destruct (IH p1) as (p2&E2&F2&T2).
  { eapply Forall_impl; [exact Hl'|]. intros j. by apply frames_some. }
  exists p2. split_and!; [cbn; unfold st_bind; by rewrite E1 | congruence |].
  intros j key. rewrite T2, T1. repeat case_bool_decide; try done; exfalso; set_solver.
Qed.

(** Looking types up.  [register_type] makes the wrapper known under its name in
    the module it belongs to, and under its full name in that module and in all
    those it is in, up to the root; an empty or missing name is left out, and
    every other entry of every module stays as it is. *)
Theorem register_type_spec (p : package T) (i : nat) (m : module_base)
    (name full_name : option string) (r : type_ref) :
  reachable g p -> pk_modules p !! i = Some m ->
  exists p', register_type i name full_name r p = (p', Ok tt)
    /\ forall j key, type_of p' j key =
         if bool_decide ((truthy name = true /\ j = i /\ Some key = name)
                         \/ (truthy full_name = true /\ j ∈ ancestors (pk_modules p) i
                             /\ Some key = full_name))
         then Some r else type_of p j key.
Proof.
  intros Hr Hi. pose proof (reachable_tree g p Hr) as Ht.
  assert (exists p1, st_when (truthy name) (update_module i (set_type (default EmptyString name) r)) p
      = (p1, Ok tt) /\ map frame (pk_modules p) = map frame (pk_modules p1)
      /\ forall j key, type_of p1 j key
         = if bool_decide (truthy name = true /\ j = i /\ Some key = name) then Some r
           else type_of p j key) as (p1&E1&F1&T1).
  { destruct (truthy name) eqn:En; cbn [st_when].
    - destruct name as [n|]; [|discriminate]. cbn [default].
      destruct (set_type_spec p i n r (ex_intro _ m Hi)) as (p1&E1&F1&T1). exists p1.
      split_and!; [done..|]. intros j key. rewrite T1. apply (f_equal (fun b : bool => if b then _ else _)).
      apply bool_decide_ext. split; [by intros [-> ->] | by intros (_&->&[= ->])].
    - exists p. split_and!; [done..|]. intros j key. rewrite bool_decide_eq_false_2; [done|].
      by intros [? _]. }
  unfold register_type. rewrite (st_bind_run _ _ _ _ _ E1).
  pose proof (ancestors_frames _ _ i F1) as Ha.
  destruct (truthy full_name) eqn:Ef; cbn [st_when].
  - destruct full_name as [fn|]; [|discriminate]. cbn [default].
    unfold st_bind at 1, st_get. rewrite <- Ha.
    destruct (set_types_spec fn r (ancestors (pk_modules p) i) p1) as (p2&E2&F2&T2).
    { apply Forall_forall. intros j Hj. apply (frames_some p p1 j F1). by eapply ancestors_known. }
    exists p2. split; [exact E2|]. intros j key. rewrite T2, T1.
    repeat case_bool_decide; try done; exfalso; naive_solver.
  - exists p1. split; [done|]. intros j key. rewrite T1.
    repeat case_bool_decide; try done; exfalso; naive_solver.
Qed.
End correctness.

(** ** Examples *)

(** [foo] with submodules [foo.a], [foo.a.b] and [foo.a_b] *)
Definition example_a : package unit :=
  (ModuleBase_init "a" (Some 0%nat) None (Some "a") example_root).1.
Definition example_a_b : package unit :=
  (ModuleBase_init "b" (Some 1%nat) None (Some "b") example_a).1.
Definition example_package : package unit :=
  (ModuleBase_init "a_b" (Some 0%nat) None (Some "a_b") example_a_b).1.

Lemma example_reachable : reachable default_settings example_package.
Proof.
  assert (reachable default_settings example_root) as H0 by apply ReachRoot.
  assert (reachable default_settings example_a) as H1 by (eapply ReachStep, StepSubModule; exact H0).
  assert (reachable default_settings example_a_b) as H2 by (eapply ReachStep, StepSubModule; exact H1).
  eapply ReachStep, StepSubModule. exact H2.
Qed.

Definition example_module (i : nat) : module_base :=
  default (ModuleBase (ModuleInfo EmptyString None None None EmptyString EmptyString EmptyString 0 0 0)
             empty_contents id EmptyString false)
    (pk_modules example_package !! i).

(** The C names of different modules can be the same.  The prefix of a module
    joins the names on its path with underscores, which names may contain: the
    submodules [foo.a.b] and [foo.a_b] both get the prefix [foo_a_b], and so the
    same init function. *)
Theorem prefixes_clash :
  exists (p : package unit) (i j : nat) (mi mj : module_base),
    reachable default_settings p /\ pk_modules p !! i = Some mi /\ pk_modules p !! j = Some mj
    /\ get_module_path (pk_modules p) i <> get_module_path (pk_modules p) j
    /\ mi_prefix (mo_info mi) = mi_prefix (mo_info mj)
    /\ mi_init_function_name (mo_info mi) = mi_init_function_name (mo_info mj).
Proof.
  exists example_package, 2%nat, 3%nat, (example_module 2), (example_module 3).
  split; [exact example_reachable|]. split_and!; try (vm_compute; reflexivity).
  vm_compute. discriminate.
Qed.

Lemma package_is_a_tree_witness :
  get_root (pk_modules example_package) 2 = 0%nat
  /\ mi_prefix (mo_info (example_module 2)) = "foo_a_b".
Proof.
  destruct (package_is_a_tree default_settings example_package 2 (example_module 2)
    example_reachable) as (H1&_&_&H2&_); [vm_compute; reflexivity|].
  split; [exact H1|]. rewrite H2. vm_compute. reflexivity.
Defined.

Lemma section_protocol_witness :
  exists p', begin_section 0 "s" example_package = (p', Ok tt)
    /\ end_section 0 "s" p' = (example_package, Ok tt).
Proof.
  destruct (section_protocol default_settings example_package 0 (example_module 0) "__main__" "s"
    example_reachable) as (_&_&H&_).
  - vm_compute. reflexivity.
  - exists (example_module 0). split; vm_compute; reflexivity.
  - destruct (H eq_refl ltac:(discriminate)) as [_ H0]. destruct (H0 eq_refl) as (p'&E&_&E').
    exists p'. by split.
Defined.

Lemma register_type_spec_witness :
  exists p', register_type 2 (Some "Bar") (Some "foo::a::b::Bar") (ClassRef 0) example_package
    = (p', Ok tt)
    /\ type_of p' 0 "foo::a::b::Bar" = Some (ClassRef 0)
    /\ type_of p' 0 "Bar" = None /\ type_of p' 2 "Bar" = Some (ClassRef 0).
Proof.
  destruct (register_type_spec default_settings example_package 2 (example_module 2) (Some "Bar")
    (Some "foo::a::b::Bar") (ClassRef 0) example_reachable) as (p'&E&H).
  - vm_compute. reflexivity.
  - exists p'. split; [exact E|]. rewrite !H. split_and!; vm_compute; reflexivity.
Defined.
