(* ===== verification/ModuleGen.v ===== *)
(** * Generation of modules: the sink managers and [do_generate] of
    [pybindgen/module.py]

    A sink manager says which sink gets which code; the sinks are known by a
    number, because several of its answers may be the same sink. *)
From S2P Require Import Prelude.
From S2P Require Import Format.
From S2P Require Import CodeSink.
From S2P Require Import CodeBlock.
From S2P Require Import Wrapper.
From S2P Require Import CTypeParser.
From S2P Require Import TypeHandler.
From S2P Require Import NumericTypes.
From S2P Require Import TypeMatcher.
From S2P Require Import WrapperBase.
From S2P Require Import Utils.
From S2P Require Import Settings.
From S2P Require Import CppException.
From S2P Require Import Overloading.
From S2P Require Import WrapperObject.
From S2P Require Import Function.
From S2P Require Import FunctionOverload.
From S2P Require Import Converters.
From S2P Require Import Enum.
From S2P Require Import ModuleBase.

(** ** Sink managers *)

(** A [MultiSectionFactory] is code of the users of the library: its methods are
    the fields, the sinks they return known by their number. *)
Record MultiSectionFactory : Type := Factory {
  get_section_code_sink : string -> nat;
  factory_main_code_sink : nat;
  get_common_header_code_sink : nat;
  get_common_header_include : string
}.

Inductive sink_manager : Type :=
  | MonolithicSinkManager (final_code_sink includes code_sink : nat)
  | MultiSectionSinkManager (factory : MultiSectionFactory).

(** The sinks, and the sections that were initialized. *)
Record sinks : Type := Sinks {
  sk_sinks : list code_sink;
  sk_already_initialized_sections : gset string
}.

Definition get_includes_code_sink (m : sink_manager) : nat :=
  match m with
  | MonolithicSinkManager _ includes _ => includes
  | MultiSectionSinkManager f => get_common_header_code_sink f
  end.
Definition get_main_code_sink (m : sink_manager) : nat :=
  match m with
  | MonolithicSinkManager _ _ code_sink => code_sink
  | MultiSectionSinkManager f => factory_main_code_sink f
  end.

(** An operation that writes to the sink number [k]. *)
Definition in_sink {S A} (k : nat) (m : ST (S * code_sink) A) : ST (S * sinks) A :=
  fun st => match sk_sinks st.2 !! k with
            | None => (st, Raise AttributeError)
            | Some c =>
                let '((s, c'), r) := m (st.1, c) in
                ((s, Sinks (<[k := c']> (sk_sinks st.2)) (sk_already_initialized_sections st.2)), r)
            end.
Definition sink_line {S} (k : nat) (line : string) : ST (S * sinks) unit :=
  in_sink k (sink_writeln line).

(** [get_code_sink_for_wrapper], where [section] reads the section of the wrapper;
    a section includes the common header when it is first used. *)
Definition get_code_sink_for_wrapper {S} (m : sink_manager) (section : ST S (option string))
    : ST (S * sinks) (nat * nat) :=
  match m with
  | MonolithicSinkManager _ _ code_sink => st_ret (code_sink, code_sink)
  | MultiSectionSinkManager f =>
      section <- on_fst section ;;
      match section with
      | None => st_ret (factory_main_code_sink f, get_common_header_code_sink f)
      | Some section =>
          let section_sink := get_section_code_sink f section in
          known <- st_get (fun st => bool_decide (section ∈ sk_already_initialized_sections st.2)) ;;
          st_when (negb known)
            (on_snd (st_modify (fun s =>
               Sinks (sk_sinks s) ({[section]} ∪ sk_already_initialized_sections s))) ;;;
             sink_line section_sink ("#include " +:+ get_common_header_include f)) ;;;
          st_ret (section_sink, get_common_header_code_sink f)
      end
  end.

(** [flush_to] between two of the sinks *)
Definition flush_sink {S} (from to : nat) : ST (S * sinks) unit :=
  fun st => match sk_sinks st.2 !! from, sk_sinks st.2 !! to with
            | Some a, Some b =>
                match flush_to a b with
                | Raise e => (st, Raise e)
                | Ok (a', b') =>
                    ((st.1, Sinks (<[to := b']> (<[from := a']> (sk_sinks st.2)))
                              (sk_already_initialized_sections st.2)), Ok tt)
                end
            | _, _ => (st, Raise AttributeError)
            end.
(** [self.header.flush_to(...)], for a sink of the package *)
Definition flush_into {S} (get : S -> code_sink) (put : code_sink -> S -> S) : ST (S * code_sink) unit :=
  fun st => match flush_to (get st.1) st.2 with
            | Raise e => (st, Raise e)
            | Ok (a, b) => ((put a st.1, b), Ok tt)
            end.

(** [close] *)
Definition close_manager {S} (m : sink_manager) : ST (S * sinks) unit :=
  match m with
  | MonolithicSinkManager final includes code =>
      flush_sink includes final ;;; flush_sink code final
  | MultiSectionSinkManager _ => st_ret tt
  end.

(** A wrapper the error handler is asked about. *)
Inductive wrapper_id : Type :=
  | OverloadId (name : string)
  | FunctionId (name : string) (number : nat).

Section generation.
Context {T : Type} `{!TypeOps T} {so : SetOrder} {dict_order : DictOrder}
  (handle_error : option (wrapper_id -> pyexn -> bool)).
Local Abbreviation package := (package T).
Local Abbreviation mgen := (package * sinks)%type.
Local Abbreviation gen1 := (package * code_sink)%type.

(** ** The parts of the package a generator works on *)

Definition shared_heap {A} (m : ST (heap * code_sink) A) : ST gen1 A :=
  fun st =>
    let s := pk_shared st.1 in
    let '((h, k), r) := m (sh_heap s, st.2) in
    ((set_shared (Shared h (sh_header s) (sh_body s) (sh_after_forward_declarations s)
                    (sh_one_time_definitions s)) st.1, k), r).
Definition with_types (t : T) (p : package) : package :=
  Package (pk_modules p) (pk_shared p) (pk_matchers p) (pk_exceptions p) (pk_enums p) t
    (pk_includes p) (pk_root_includes p).
Definition types_shared {A} (m : ST ((T * shared) * code_sink) A) : ST gen1 A :=
  fun st => let '(((t, s), k), r) := m ((pk_types st.1, pk_shared st.1), st.2) in
            ((set_shared s (with_types t st.1), k), r).

Definition exceptions_of (p : package) : list cpp_exception := map fst (pk_exceptions p).
Definition the_exception (n : nat) : ST package (cpp_exception * option string) :=
  fun p => (p, match pk_exceptions p !! n with None => Raise AttributeError | Some e => Ok e end).
Definition the_enum (n : nat) : ST package (enum * option string) :=
  fun p => (p, match pk_enums p !! n with None => Raise AttributeError | Some e => Ok e end).

(** ** Forward declarations *)

Definition set_declared (m : module_base) : module_base :=
  ModuleBase (mo_info m) (mo_contents m) (mo_c_function_name_transformer m)
    (mo_current_section m) true.

(** The classes of a module that are imported from another one, or are not. *)
Definition classes_where (imported : bool) (c : module_contents) (t : T) : list type_ref :=
  map ClassRef (List.filter (fun n => Bool.eqb (class_imported t n) imported) (ct_classes c)).

Fixpoint generate_forward_declarations (fuel : nat) (i : nat) : ST gen1 unit :=
  match fuel with
  | O => st_raise OutOfFuel
  | S fuel' =>
      m <- on_fst (the_module i) ;;
      st_assert (negb (mo_forward_declarations_declared m)) ;;;
      let c := mo_contents m in
      st_when (negb (bool_decide (ct_classes c = [] /\ ct_containers c = []
                                  /\ ct_exceptions c = [])))
        (sink_writeln "/* --- forward declarations --- */" ;;; sink_writeln EmptyString) ;;;
      view <- on_fst (the_view i) ;;
      let declare r := types_shared (type_forward_declarations r view) in
      imported <- st_get (fun st => classes_where true c (pk_types st.1)) ;;
      st_iter declare imported ;;;
      others <- st_get (fun st => classes_where false c (pk_types st.1)) ;;
      st_iter declare others ;;;
      st_iter declare (map ContainerRef (ct_containers c)) ;;;
      st_iter (fun n => exc <- on_fst (the_exception n) ;;
                        shared_heap (exception_forward_declarations exc.1)) (ct_exceptions c) ;;;
      st_iter (generate_forward_declarations fuel') (ct_submodules c) ;;;
      on_fst (update_module i set_declared)
  end.

(** "generate the include directives (only the root module)" *)
Definition drop_includes (p : package) : package :=
  Package (pk_modules p) (pk_shared p) (pk_matchers p) (pk_exceptions p) (pk_enums p)
    (pk_types p) (pk_includes p) false.

Definition root_includes (mgr : sink_manager) : ST mgen unit :=
  has <- st_get (fun st => pk_root_includes st.1) ;;
  if negb has then st_raise TypeError
  else
    includes <- st_get (fun st => pk_includes st.1) ;;
    st_iter (fun include => sink_line (get_includes_code_sink mgr) ("#include " +:+ include)) includes ;;;
    on_fst (st_modify drop_includes).

Definition after_forward (s : shared) (k : code_sink) : shared :=
  Shared (sh_heap s) (sh_header s) (sh_body s) k (sh_one_time_definitions s).

(** The declarations, in a sink of their own. *)
Definition forward_declarations_sink (i : nat) : ST mgen code_sink :=
  fun st =>
    let '((p, k), r) :=
      (m <- on_fst (the_module i) ;;
       st_when (negb (mo_forward_declarations_declared m))
         (n <- st_get (fun st => S (length (pk_modules st.1))) ;;
          generate_forward_declarations n i ;;;
          flush_into (fun p => sh_after_forward_declarations (pk_shared p))
            (fun a p => set_shared (after_forward (pk_shared p) a) p))) (st.1, MemoryCodeSink) in
    ((p, st.2), match r with Ok _ => Ok k | Raise e => Raise e end).

Definition root_prologue (mgr : sink_manager) (i : nat) : ST mgen unit :=
  forward <- forward_declarations_sink i ;;
  root_includes mgr ;;;
  in_sink (get_includes_code_sink mgr)
    (fun st => match flush_to forward st.2 with
               | Raise e => (st, Raise e)
               | Ok (_, k) => ((st.1, k), Ok tt)
               end).

(** ** Functions *)

Definition overload_at (p : package) (i : nat) (name : string) : option (overloaded functions) :=
  pk_modules p !! i ≫= fun m => ct_functions (mo_contents m) !! name.
Definition set_overload (name : string) (o : overloaded functions) (m : module_base) : module_base :=
  set_contents (fun c => set_functions (<[name := o]> (ct_functions c)) c) m.

(** A method of the overloaded function [name] of module [i], on some sink. *)
Definition on_overload {A} (i : nat) (name : string) (m : ST (overloaded functions * code_sink) A)
    : ST gen1 A :=
  fun st => match overload_at st.1 i name with
            | None => (st, Raise KeyError)
            | Some o =>
                let '((o', k), r) := m (o, st.2) in
                let '(p, _) := update_module i (set_overload name o') st.1 in
                ((p, k), r)
            end.
Definition overload_only {A} (m : ST (overloaded functions) A) : ST (overloaded functions * code_sink) A :=
  on_fst m.

(** The interface of [Overloading], for the functions of one name. *)
Definition overload_ops (store : list cpp_exception) (name : string) : WrapperOps functions :=
  function_ops store ((fun h n => h (FunctionId name n)) <$> handle_error).

(** The error handler of the settings. *)
Definition handler_of {S} (w : wrapper_id) : error_handler S :=
  (fun h e => st_ret (h w e)) <$> handle_error.

(** [try: call_with_error_handling(...) except SkipWrapper: continue] *)
Definition unless_skipped {S A} (name : string) (m : ST S A) : ST S bool :=
  st_catch (call_with_error_handling (handler_of (OverloadId name)) m default_exceptions ;;;
            st_ret true)
    (fun e => match e with SkipWrapper => st_ret false | _ => st_raise e end).

(** The section of an overloaded function. *)
Definition overload_section (store : list cpp_exception) (i : nat) (name : string)
    : ST package (option string) :=
  fun p => let '((p', _), r) :=
             on_overload i name (overload_only (get_section (WrapperOps0:=overload_ops store name)))
               (p, NullCodeSink) in (p', r).

(** The generation of one overloaded function; the entry of the method table, when
    it was not skipped. *)
Definition generate_overload (mgr : sink_manager) (store : list cpp_exception) (i : nat)
    (name : string) : ST mgen (list string) :=
  let ops := overload_ops store name in
  sink <- get_code_sink_for_wrapper mgr (overload_section store i name) ;;
  sink_line sink.1 EmptyString ;;;
  generated <- unless_skipped name
    (in_sink sink.1 (on_overload i name (generate (WrapperOps0:=ops) "PyObject *" "return NULL;"))) ;;
  if negb generated then st_ret []
  else
    declared <- unless_skipped name
      (in_sink (get_main_code_sink mgr)
         (on_overload i name (generate_declaration (WrapperOps0:=ops) "PyObject *" "return NULL;"))) ;;
    if negb declared then st_ret []
    else
      sink_line sink.1 EmptyString ;;;
      entry <- in_sink sink.1 (on_overload i name (overload_only (get_py_method_def (WrapperOps0:=ops) name))) ;;
      st_ret [entry].

Fixpoint generate_overloads (mgr : sink_manager) (store : list cpp_exception) (i : nat)
    (names : list string) : ST mgen (list string) :=
  match names with
  | [] => st_ret []
  | name :: names =>
      entry <- generate_overload mgr store i name ;;
      entries <- generate_overloads mgr store i names ;;
      st_ret (entry ++ entries)
  end.

(** "generate the function wrappers": the entries of the method table *)
Definition generate_functions (mgr : sink_manager) (i : nat) : ST mgen (list string) :=
  m <- on_fst (the_module i) ;;
  store <- st_get (fun st => exceptions_of st.1) ;;
  let functions := ct_functions (mo_contents m) in
  if bool_decide (functions = ∅) then st_ret []
  else
    sink_line (get_main_code_sink mgr) "/* --- module functions --- */" ;;;
    sink_line (get_main_code_sink mgr) EmptyString ;;;
    generate_overloads mgr store i (map fst (dict_items functions)).

(** "generate the function table" *)
Definition method_table_ops (prefix : string) (py_method_defs : list string) : list sink_op :=
  [OpWrite ("static PyMethodDef " +:+ prefix +:+ "_functions[] = {"); OpIndent 4]
  ++ map OpWrite (py_method_defs ++ ["{NULL, NULL, 0, NULL}"])
  ++ [OpUnindent; OpWrite "};"].
Definition run_on_sink {S} (os : list sink_op) : ST (S * code_sink) unit :=
  fun st => match run_ops st.2 os with
            | Ok k => ((st.1, k), Ok tt)
            | Raise e => (st, Raise e)
            end.

(** ** Types *)

(** A section of the main file. *)
Definition section_comment (mgr : sink_manager) (comment : string) : ST mgen unit :=
  sink_line (get_main_code_sink mgr) comment ;;; sink_line (get_main_code_sink mgr) EmptyString.

(** The generation of a type between two blank lines of its sink. *)
Definition in_own_sink (mgr : sink_manager) (section : ST package (option string))
    (generate : nat -> nat -> ST mgen unit) : ST mgen unit :=
  sink <- get_code_sink_for_wrapper mgr section ;;
  sink_line sink.1 EmptyString ;;;
  generate sink.1 sink.2 ;;;
  sink_line sink.1 EmptyString.

Definition generate_type (mgr : sink_manager) (view : module_view) (r : type_ref) : ST mgen unit :=
  in_own_sink mgr (st_get (fun p => type_section (pk_types p) r))
    (fun sink _ => in_sink sink (types_shared (type_generate r view))).

Definition generate_classes (mgr : sink_manager) (view : module_view) (c : module_contents)
    : ST mgen unit :=
  st_when (negb (bool_decide (ct_classes c = [])))
    (section_comment mgr "/* --- classes --- */" ;;;
     imported <- st_get (fun st => classes_where true c (pk_types st.1)) ;;
     st_iter (generate_type mgr view) imported ;;;
     others <- st_get (fun st => classes_where false c (pk_types st.1)) ;;
     st_iter (generate_type mgr view) others).

Definition generate_containers (mgr : sink_manager) (view : module_view) (c : module_contents)
    : ST mgen unit :=
  st_when (negb (bool_decide (ct_containers c = [])))
    (section_comment mgr "/* --- containers --- */" ;;;
     st_iter (generate_type mgr view) (map ContainerRef (ct_containers c))).

Definition generate_exceptions (mgr : sink_manager) (view : module_view) (c : module_contents)
    : ST mgen unit :=
  st_when (negb (bool_decide (ct_exceptions c = [])))
    (section_comment mgr "/* --- exceptions --- */" ;;;
     st_iter (fun n =>
       exc <- on_fst (the_exception n) ;;
       in_own_sink mgr (st_ret exc.2)
         (fun sink _ =>
            store <- st_get (fun st => exceptions_of st.1) ;;
            in_sink sink (shared_heap (exception_generate store exc.1 view None))))
       (ct_exceptions c)).

Definition generate_typedefs (view : module_view) (c : module_contents) : ST mgen unit :=
  st_iter (fun t => on_fst (fun p =>
      let '((t', s), r) := class_generate_typedef t.1 t.2 view (pk_types p, pk_shared p) in
      (set_shared s (with_types t' p), r)))
    (ct_typedefs c).

Definition generate_enums (mgr : sink_manager) (c : module_contents) : ST mgen unit :=
  st_when (negb (bool_decide (ct_enums c = [])))
    (section_comment mgr "/* --- enumerations --- */" ;;;
     st_iter (fun n =>
       e <- on_fst (the_enum n) ;;
       in_own_sink mgr (st_ret e.2) (fun _ _ => on_fst (on_module_heap (enum_generate e.1))))
       (ct_enums c)).

(** ** The init function *)

(** The call that makes the module. *)
Definition write_init_module (i : nat) (m : module_base) (mod_init_name : string) : ST package unit :=
  let info := mo_info m in
  v <- on_module_heap (scope_declare_variable (mi_declarations info) "PyObject*" "m" None None) ;;
  st_assert (String.eqb v "m") ;;;
  on_module_heap (write_code (mi_before_init info)
    ("m = Py_InitModule3((char *) " +:+ dq +:+ mod_init_name +:+ dq +:+ ", " +:+ mi_prefix info
     +:+ "_functions, "
     +:+ (if truthy (mi_docstring info)
          then dq +:+ default EmptyString (mi_docstring info) +:+ dq else "NULL") +:+ ");")) ;;;
  on_module_heap (write_error_check (mi_before_init info) "m == NULL" None).

(** "register the submodules" *)
Definition register_submodules (m : module_base) : ST package unit :=
  let info := mo_info m in
  let submodules := ct_submodules (mo_contents m) in
  let after_init code := on_module_heap (write_code (mi_after_init info) code) in
  st_when (negb (bool_decide (submodules = [])))
    (v <- on_module_heap (scope_declare_variable (mi_declarations info) "PyObject*" "submodule"
                            None None) ;;
     st_iter (fun j =>
       sub <- the_module j ;;
       after_init (v +:+ " = " +:+ mi_init_function_name (mo_info sub) +:+ "();") ;;;
       on_module_heap (write_error_check (mi_after_init info) (v +:+ " == NULL") None) ;;;
       after_init ("Py_INCREF(" +:+ v +:+ ");") ;;;
       after_init ("PyModule_AddObject(m, (char *) " +:+ dq +:+ mi_name (mo_info sub) +:+ dq +:+ ", "
                   +:+ v +:+ ");")) submodules).

Definition init_header (m : module_base) (module_file_base_name : option string) : list string :=
  [EmptyString;
   if is_root m
   then join nls [EmptyString; "PyMODINIT_FUNC"; "#if defined(__GNUC__) && __GNUC__ >= 4";
                  "__attribute__ ((visibility(" +:+ dq +:+ "default" +:+ dq +:+ ")))"; "#endif"]
   else "static PyObject *";
   match module_file_base_name with
   | None => mi_init_function_name (mo_info m) +:+ "(void)"
   | Some base => "init" +:+ base +:+ "(void)"
   end;
   "{"].

(** "now generate the module init function itself" *)
Definition write_init_function (m : module_base) (module_file_base_name : option string)
    : ST (heap * code_sink) unit :=
  let info := mo_info m in
  st_iter sink_writeln (init_header m module_file_base_name) ;;;
  sink_indent ;;;
  flush_scope_to (mi_declarations info) ;;;
  flush_block_to (mi_before_init info) ;;;
  on_fst (write_cleanup (mi_after_init info)) ;;;
  flush_block_to (mi_after_init info) ;;;
  st_when (negb (is_root m)) (sink_writeln "return m;") ;;;
  sink_unindent ;;;
  sink_writeln "}".

(** ** The whole module *)

Definition set_header (k : code_sink) (p : package) : package :=
  let s := pk_shared p in
  set_shared (Shared (sh_heap s) k (sh_body s) (sh_after_forward_declarations s)
                (sh_one_time_definitions s)) p.
Definition set_body (k : code_sink) (p : package) : package :=
  let s := pk_shared p in
  set_shared (Shared (sh_heap s) (sh_header s) k (sh_after_forward_declarations s)
                (sh_one_time_definitions s)) p.

(** What [do_generate] does after the submodules. *)
Definition generate_module (mgr : sink_manager) (i : nat) (module_file_base_name : option string)
    : ST mgen unit :=
  m <- on_fst (the_module i) ;;
  path <- st_get (fun st => get_module_path (pk_modules st.1) i) ;;
  on_fst (write_init_module i m (default (join "." path) module_file_base_name)) ;;;
  py_method_defs <- generate_functions mgr i ;;
  in_sink (get_main_code_sink mgr)
    (run_on_sink (method_table_ops (mi_prefix (mo_info m)) py_method_defs)) ;;;
  view <- on_fst (the_view i) ;;
  let c := mo_contents m in
  generate_classes mgr view c ;;;
  generate_containers mgr view c ;;;
  generate_exceptions mgr view c ;;;
  generate_typedefs view c ;;;
  generate_enums mgr c ;;;
  on_fst (register_submodules m) ;;;
  in_sink (get_includes_code_sink mgr) (flush_into (fun p => sh_header (pk_shared p)) set_header) ;;;
  in_sink (get_main_code_sink mgr) (flush_into (fun p => sh_body (pk_shared p)) set_body) ;;;
  in_sink (get_main_code_sink mgr) (shared_heap (write_init_function m module_file_base_name)).

(** [do_generate]; the fuel is the depth of the tree, see [generation_tour]. *)
Fixpoint do_generate (fuel : nat) (mgr : sink_manager) (module_file_base_name : option string)
    (i : nat) : ST mgen unit :=
  match fuel with
  | O => st_raise OutOfFuel
  | S fuel' =>
      m <- on_fst (the_module i) ;;
      (if is_root m then root_prologue mgr i
       else st_assert (bool_decide (module_file_base_name = None))) ;;;
      st_iter (do_generate fuel' mgr None) (ct_submodules (mo_contents m)) ;;;
      generate_module mgr i module_file_base_name
  end.

(** What a module can be generated to; [already] says that a sink has its preamble. *)
Inductive output : Type :=
  | OutSink (k : code_sink) (already : bool)
  | OutFactory (f : MultiSectionFactory) (ks : list code_sink) (already : bool)
  | OutOther.

(** The sink manager for an output, and its sinks, of which those of a factory
    belong to the factory. *)
Definition make_manager (min_python_version : Z * Z) (out : output) : res (sink_manager * sinks) :=
  match out with
  | OutOther => Raise TypeError
  | OutSink k already =>
      Ok (MonolithicSinkManager 0 1 2,
          Sinks [write_preamble min_python_version already k; MemoryCodeSink; MemoryCodeSink] ∅)
  | OutFactory f ks already =>
      let header := get_common_header_code_sink f in
      let main := factory_main_code_sink f in
      match ks !! header with
      | None => Raise AttributeError
      | Some k =>
          let ks := <[header := write_preamble min_python_version already k]> ks in
          match ks !! main with
          | None => Raise AttributeError
          | Some k =>
              Ok (MultiSectionSinkManager f,
                  Sinks (<[main := writeln k ("#include " +:+ get_common_header_include f)]> ks)
                    {["__main__"]})
          end
      end
  end.

(** [Module.generate]: the sinks afterwards. *)
Definition Module_generate (min_python_version : Z * Z) (out : output)
    (module_file_base_name : option string) : ST package sinks :=
  fun p => match make_manager min_python_version out with
           | Raise e => (p, Raise e)
           | Ok (mgr, ks) =>
               let '((p, ks), r) :=
                 (do_generate (S (length (pk_modules p))) mgr module_file_base_name 0 ;;;
                  close_manager mgr) (p, ks) in
               (p, match r with Ok _ => Ok ks | Raise e => Raise e end)
           end.
End generation.

(** ** Type converters *)

(** The state: what the module shares, the handler of the type, and a sink. *)
Definition converter_state : Type := (shared * value_type) * code_sink.

Definition python_to_c_type_converter_function_name (ctype : string) : string :=
  "_wrap_convert_py2c__" +:+ mangle_name ctype.
Definition c_to_python_type_converter_function_name (ctype : string) : string :=
  "_wrap_convert_c2py__" +:+ mangle_name ctype.

Definition header_line (line : string) : ST converter_state unit :=
  on_fst (on_fst (st_modify (fun s =>
    Shared (sh_heap s) (writeln (sh_header s) line) (sh_body s) (sh_after_forward_declarations s)
      (sh_one_time_definitions s)))).

(** The body of both methods: [declare_one_time_definition] raises [KeyError] when
    there is a converter already. *)
Definition converter_once (name : value_type -> string)
    (convert : string -> ST converter_state unit) : ST converter_state string :=
  n <- st_get (fun st => name st.1.2) ;;
  first <- st_catch (on_fst (on_fst (declare_one_time_definition n)) ;;; st_ret true)
             (fun e => match e with KeyError => st_ret false | _ => st_raise e end) ;;
  if first : bool then convert n ;;; st_ret n else st_ret n.

Definition value_ctype (v : value_type) : string := rh_ctype (vt_handler v).

(** The header gets the prototype before the function is generated. *)
Definition with_header {O} (init : ST value_state O) (prototype : O -> value_type -> string)
    (generate : O -> ST value_gen unit) : ST converter_state unit :=
  fun st =>
    let '((v, s), r) := init (st.1.2, World empty_heap [] [] [] [] ∅) in
    match r with
    | Raise e => (((st.1.1, v), st.2), Raise e)
    | Ok o =>
        (header_line (nls +:+ prototype o v +:+ ";" +:+ nls) ;;;
         sink_writeln EmptyString ;;;
         (fun st => let '((v, g), r) := generate o (st.1.2, Gen s st.2) in
                    (((st.1.1, v), g_out g), r)) ;;;
         sink_writeln EmptyString) ((st.1.1, v), st.2)
    end.

Definition generate_python_to_c_type_converter : ST converter_state string :=
  converter_once (fun v => python_to_c_type_converter_function_name (value_ctype v))
    (fun name => with_header (PythonToCConverter_init name)
       (fun o _ => PythonToC_get_prototype o) (fun o => PythonToC_generate o name)).

Definition generate_c_to_python_type_converter : ST converter_state string :=
  converter_once (fun v => c_to_python_type_converter_function_name (value_ctype v))
    (fun name => with_header (CToPythonConverter_init name) CToPython_get_prototype
       CToPython_generate).

(** ** What generation keeps

    The tree stays as it is, what was declared stays declared, and the includes do
    not come back. *)

Section kept.
Context {T : Type} `{!TypeOps T}.
Local Abbreviation package := (package T).

Definition declared (p : package) (i : nat) : Prop :=
  exists m, pk_modules p !! i = Some m /\ mo_forward_declarations_declared m = true.

Record kept (p p' : package) : Prop := {
  kp_frames : map frame (pk_modules p) = map frame (pk_modules p');
  kp_includes : pk_root_includes p = false -> pk_root_includes p' = false;
  kp_declared : forall i, declared p i -> declared p' i
}.
#[export] Instance kept_preorder : PreOrder kept.
Proof.
  split; [by intros p; split|]. intros p1 p2 p3 [F1 I1 D1] [F2 I2 D2].
  split; [congruence | auto | auto].
Qed.

(** On states that have the package first. *)
Definition kept_in {X} (st st' : package * X) : Prop := kept st.1 st'.1.
#[export] Instance kept_in_preorder {X} : PreOrder (@kept_in X).
Proof.
  split; [by intros st; unfold kept_in|]. intros st1 st2 st3. unfold kept_in. by transitivity st2.1.
Qed.

Lemma same_package (p p' : package) :
  pk_modules p' = pk_modules p -> pk_root_includes p' = pk_root_includes p -> kept p p'.
Proof.
  intros E1 E2. split; [by rewrite E1 | by rewrite E2 |]. intros i (m&Hm&Hd). exists m.
  by rewrite E1.
Qed.
Lemma kept_update i (f : module_base -> module_base) :
  (forall m, frame (f m) = frame m) ->
  (forall m, mo_forward_declarations_declared m = true ->
     mo_forward_declarations_declared (f m) = true) ->
  evolves kept (update_module i f).
Proof.
  intros Hf Hd p. pose proof (frames_update (T:=T) i f Hf p) as H. revert H.
  unfold update_module, the_module, st_bind, st_modify.
  destruct (pk_modules p !! i) as [m|] eqn:E; cbn; [|done]. intros H. split; [exact H | done |].
  intros j (x&Hx&Ht). unfold declared. cbn [set_modules pk_modules].
  destruct (decide (i = j)) as [->|Hne].
  - exists (f m). rewrite list_lookup_insert_eq by by eapply lookup_lt_Some.
    split; [done|]. apply Hd. rewrite E in Hx. by injection Hx as ->.
  - exists x. by rewrite list_lookup_insert_ne.
Qed.

Lemma kept_on_fst {X A} (m : ST package A) : evolves kept m -> evolves (@kept_in X) (on_fst m).
Proof. intros H st. specialize (H st.1). unfold on_fst. by destruct (m st.1). Qed.
Lemma kept_on_snd {X A} (m : ST X A) : evolves (@kept_in X) (on_snd m).
Proof. intros st. unfold on_snd. by destruct (m st.2). Qed.
Lemma kept_in_sink {A} k (m : ST (package * code_sink) A) :
  evolves (@kept_in code_sink) m -> evolves (@kept_in sinks) (in_sink k m).
Proof.
  intros H st. unfold in_sink. destruct (sk_sinks st.2 !! k) as [c|]; [|done].
  specialize (H (st.1, c)). by destruct (m (st.1, c)) as [[p c'] r].
Qed.
Lemma kept_reads {A} (f : package -> res A) : evolves kept (fun p => (p, f p)).
Proof. by intros p. Qed.
Lemma kept_heap {A} (m : ST heap A) : evolves kept (on_module_heap m).
Proof.
  intros p. apply same_package; unfold on_module_heap, on_shared; destruct (m _); done.
Qed.
Lemma kept_shared_heap {A} (m : ST (heap * code_sink) A) :
  evolves (@kept_in code_sink) (shared_heap m).
Proof.
  intros st. unfold shared_heap. destruct (m _) as [[h k] r].
  by apply same_package.
Qed.
Lemma kept_types_shared {A} (m : ST ((T * shared) * code_sink) A) :
  evolves (@kept_in code_sink) (types_shared m).
Proof. intros st. unfold types_shared. destruct (m _) as [[[t s] k] r]. by apply same_package. Qed.
Lemma kept_overload {A} i name (m : ST (overloaded functions * code_sink) A) :
  evolves (@kept_in code_sink) (on_overload i name m).
Proof.
  intros st. unfold on_overload. destruct (overload_at st.1 i name) as [o|]; [|done].
  destruct (m (o, st.2)) as [[o' k] r].
  pose proof (kept_update i (set_overload name o') ltac:(done) ltac:(done) st.1) as H.
  by destruct (update_module i (set_overload name o') st.1).
Qed.
Lemma kept_flush_into get (put : code_sink -> package -> package) :
  (forall k p, kept p (put k p)) -> evolves (@kept_in code_sink) (flush_into get put).
Proof. intros H st. unfold flush_into. destruct (flush_to _ _) as [[a b]|]; [apply H | done]. Qed.
Lemma kept_run_on_sink os : evolves (@kept_in code_sink) (run_on_sink (S:=package) os).
Proof. intros st. unfold run_on_sink. by destruct (run_ops _ _). Qed.
End kept.

(** One step of a proof that a generator keeps the package. *)
Ltac kept_step :=
  match goal with
  | |- PreOrder _ => apply _
  | |- forall _, _ => intros ?
  | |- evolves _ (st_bind _ _) => apply evolves_bind
  | |- evolves _ (st_ret _) => apply evolves_ret
  | |- evolves _ (st_raise _) => apply evolves_raise
  | |- evolves _ (st_lift _) => apply evolves_lift
  | |- evolves _ (st_get _) => apply evolves_get
  | |- evolves _ (st_assert _) => apply evolves_assert
  | |- evolves _ (st_when _ _) => apply evolves_when
  | |- evolves _ (st_iter _ _) => apply evolves_iter
  | |- evolves _ (st_catch _ _) => apply evolves_catch
  | |- evolves kept (the_module _) => apply (kept_reads _)
  | |- evolves kept (the_exception _) => apply (kept_reads _)
  | |- evolves kept (the_enum _) => apply (kept_reads _)
  | |- evolves kept (on_module_heap _) => apply kept_heap
  | |- evolves _ (shared_heap _) => apply kept_shared_heap
  | |- evolves _ (types_shared _) => apply kept_types_shared
  | |- evolves _ (on_overload _ _ _) => apply kept_overload
  | |- evolves _ (run_on_sink _) => apply kept_run_on_sink
  | |- evolves _ (flush_into _ _) => apply kept_flush_into; intros; by apply same_package
  | |- evolves _ (on_fst _) => apply kept_on_fst
  | |- evolves _ (on_snd _) => apply kept_on_snd
  | |- evolves _ (in_sink _ _) => apply kept_in_sink
  | |- evolves _ (sink_line _ _) => apply kept_in_sink
  | |- evolves _ (sink_writeln _) => apply kept_on_snd
  | |- evolves _ (if _ then _ else _) => apply evolves_if
  | |- evolves _ (match ?x with _ => _ end) => destruct x
  end.
Ltac keeps := repeat kept_step.

Section generators.
Context {T : Type} `{!TypeOps T} {so : SetOrder} {dict_order : DictOrder}
  (handle_error : option (wrapper_id -> pyexn -> bool)).
Local Abbreviation package := (package T).
Local Abbreviation mgen := (package * sinks)%type.
Local Abbreviation gen1 := (package * code_sink)%type.
Local Abbreviation kept_gen := (@kept_in T _ sinks).

Lemma kept_view i : evolves (@kept T) (the_view i).
Proof. unfold the_view. keeps. Qed.

Lemma kept_wrapper_sink mgr (section : ST package (option string)) :
  evolves (@kept T) section -> evolves (@kept_in T sinks) (get_code_sink_for_wrapper mgr section).
Proof. intros H. unfold get_code_sink_for_wrapper. destruct mgr; keeps; exact H. Qed.

Lemma kept_section store i name : evolves (@kept T) (overload_section handle_error store i name).
Proof.
  intros p. unfold overload_section.
  match goal with |- context [on_overload i name ?m] =>
    pose proof (kept_overload (T:=T) i name m (p, NullCodeSink)) as H end.
  destruct (on_overload _ _ _ _) as [[p' k] r]. exact H.
Qed.

Lemma kept_unless_skipped {X A} name (m : ST (package * X) A) :
  evolves (@kept_in T X) m -> evolves (@kept_in T X) (unless_skipped handle_error name m).
Proof.
  intros H. unfold unless_skipped, call_with_error_handling, handler_of.
  destruct handle_error as [h|]; cbn; keeps; exact H.
Qed.

Lemma kept_functions mgr i : evolves (@kept_in T sinks) (generate_functions handle_error mgr i).
Proof.
  assert (forall store names,
    evolves (@kept_in T sinks) (generate_overloads handle_error mgr store i names)) as H.
  { intros store. induction names as [|name names IH]; cbn [generate_overloads]; keeps; [|apply IH].
    unfold generate_overload. keeps; try (apply kept_unless_skipped; keeps).
    apply kept_wrapper_sink, kept_section. }
  unfold generate_functions. keeps. apply H.
Qed.

Lemma kept_own_sink mgr section (f : nat -> nat -> ST mgen unit) :
  evolves (@kept T) section -> (forall a b, evolves (@kept_in T sinks) (f a b)) ->
  evolves (@kept_in T sinks) (in_own_sink mgr section f).
Proof. intros H1 H2. unfold in_own_sink. keeps; [by apply kept_wrapper_sink | apply H2]. Qed.
Lemma kept_comment mgr c : evolves (@kept_in T sinks) (section_comment mgr c).
Proof. unfold section_comment. keeps. Qed.
Lemma kept_type mgr view r : evolves (@kept_in T sinks) (generate_type mgr view r).
Proof. apply kept_own_sink; [keeps | intros; keeps]. Qed.

Lemma kept_classes mgr view c : evolves (@kept_in T sinks) (generate_classes mgr view c).
Proof. unfold generate_classes. keeps; auto using kept_comment, kept_type. Qed.
Lemma kept_containers mgr view c : evolves (@kept_in T sinks) (generate_containers mgr view c).
Proof. unfold generate_containers. keeps; auto using kept_comment, kept_type. Qed.
Lemma kept_exceptions mgr view c : evolves (@kept_in T sinks) (generate_exceptions mgr view c).
Proof. unfold generate_exceptions. keeps; [apply kept_comment|]. apply kept_own_sink; intros; keeps. Qed.
Lemma kept_enums mgr c : evolves (@kept_in T sinks) (generate_enums mgr c).
Proof. unfold generate_enums. keeps; [apply kept_comment|]. apply kept_own_sink; intros; keeps. Qed.
Lemma kept_typedefs view c : evolves (@kept_in T sinks) (generate_typedefs view c).
Proof.
  unfold generate_typedefs. keeps. intros p. destruct (class_generate_typedef _ _ _ _) as [[t s] r].
  by apply same_package.
Qed.
Lemma kept_init_module i m n : evolves (@kept T) (write_init_module i m n).
Proof. unfold write_init_module. keeps. Qed.
Lemma kept_submodules m : evolves (@kept T) (register_submodules m).
Proof. unfold register_submodules. keeps. Qed.

Lemma kept_generate_module mgr i base :
  evolves (@kept_in T sinks) (generate_module handle_error mgr i base).
Proof.
  unfold generate_module. keeps;
    auto using kept_init_module, kept_functions, kept_view, kept_classes, kept_containers,
      kept_exceptions, kept_typedefs, kept_enums, kept_submodules.
Qed.

Lemma kept_forward fuel i : evolves (@kept_in T code_sink) (generate_forward_declarations fuel i).
Proof.
  revert i. induction fuel as [|fuel IH]; intros i; cbn [generate_forward_declarations]; keeps;
    [apply kept_view | apply IH | apply kept_update; by intros].
Qed.
Lemma kept_prologue mgr i : evolves (@kept_in T sinks) (root_prologue mgr i).
Proof.
  unfold root_prologue. keeps.
  - intros st. unfold forward_declarations_sink.
    match goal with |- context [st_bind ?m ?k ?s] =>
      assert (evolves (@kept_in T code_sink) (st_bind m k)) as H end.
    { keeps. apply kept_forward. }
    specialize (H (st.1, MemoryCodeSink)). by destruct (st_bind _ _ _) as [[p k] r].
  - unfold root_includes. keeps. intros p. split; [done | done |]. done.
  - intros st. by destruct (flush_to _ _) as [[? ?]|].
Qed.

Lemma kept_do_generate fuel mgr base i :
  evolves (@kept_in T sinks) (do_generate handle_error fuel mgr base i).
Proof.
  revert base i. induction fuel as [|fuel IH]; intros base i; cbn [do_generate]; keeps;
    [apply kept_prologue | apply IH | apply kept_generate_module].
Qed.
End generators.

(** ** Depth of the tree *)

(** Two computations that agree on the states with a property, which they keep. *)
Definition agree {S A} (P : S -> Prop) (m1 m2 : ST S A) : Prop :=
  forall st, P st -> m1 st = m2 st /\ P (m1 st).1.

Lemma agree_refl {S A} (P : S -> Prop) (m : ST S A) :
  (forall st, P st -> P (m st).1) -> agree P m m.
Proof. intros H st Hst. split; [done | by apply H]. Qed.
Lemma agree_bind {S A B} (P : S -> Prop) (m1 m2 : ST S A) (k1 k2 : A -> ST S B) :
  agree P m1 m2 -> (forall a, agree P (k1 a) (k2 a)) -> agree P (st_bind m1 k1) (st_bind m2 k2).
Proof.
  intros Hm Hk st Hst. unfold st_bind. destruct (Hm st Hst) as [<- H].
  destruct (m1 st) as [st1 [a|e]]; [by apply Hk | done].
Qed.
Lemma agree_iter {S A} (P : S -> Prop) (f1 f2 : A -> ST S unit) l :
  (forall x, x ∈ l -> agree P (f1 x) (f2 x)) -> agree P (st_iter f1 l) (st_iter f2 l).
Proof.
  induction l as [|x l IH]; intros H; [by apply agree_refl|].
  apply agree_bind; [apply H; by left | intros _; apply IH; intros y Hy; apply H; by right].
Qed.
(** What the first call returned is known to the rest. *)
Lemma agree_after {S A B} (P : S -> Prop) (m : ST S A) (Q : A -> Prop) (k1 k2 : A -> ST S B) :
  (forall st, P st -> P (m st).1 /\ forall a, (m st).2 = Ok a -> Q a) ->
  (forall a, Q a -> agree P (k1 a) (k2 a)) -> agree P (st_bind m k1) (st_bind m k2).
Proof.
  intros Hm Hk st Hst. unfold st_bind. destruct (Hm st Hst) as [H HQ].
  destruct (m st) as [st1 [a|e]]; [by apply Hk; [apply HQ|] | done].
Qed.

Section depth.
Context {T : Type} `{!TypeOps T} {so : SetOrder} {dict_order : DictOrder}
  (handle_error : option (wrapper_id -> pyexn -> bool)).
Local Abbreviation package := (package T).

(** States with the tree of [ms]. *)
Definition with_tree {X} (ms : list module_base) (st : package * X) : Prop :=
  map frame (pk_modules st.1) = map frame ms.

Lemma agree_kept {X A} ms (m : ST (package * X) A) :
  evolves (@kept_in T X) m -> agree (with_tree ms) m m.
Proof.
  intros H. apply agree_refl. intros st Hst. destruct (H st) as [Hf _ _].
  unfold with_tree in *. congruence.
Qed.

(** The walk over the tree: a module is entered, its submodules are walked over in
    their order, and it is left. *)
Inductive stop : Type :=
  | Enter (i : nat)
  | Leave (i : nat).
Inductive tour (ms : list module_base) : nat -> list stop -> Prop :=
  | tour_module i m inner : ms !! i = Some m ->
      tours ms (ct_submodules (mo_contents m)) inner ->
      tour ms i (Enter i :: inner ++ [Leave i])
with tours (ms : list module_base) : list nat -> list stop -> Prop :=
  | tours_nil : tours ms [] []
  | tours_cons j js t ts : tour ms j t -> tours ms js ts -> tours ms (j :: js) (t ++ ts).
Scheme tour_mind := Minimality for tour Sort Prop
with tours_mind := Minimality for tours Sort Prop.

(** What [do_generate] does at a stop; only the root has a file name. *)
Definition generate_stop (mgr : sink_manager) (base : option string) (s : stop)
    : ST (package * sinks) unit :=
  let base_of i := if bool_decide (i = 0%nat) then base else None in
  match s with
  | Enter i =>
      m <- on_fst (the_module i) ;;
      if is_root m then root_prologue mgr i else st_assert (bool_decide (base_of i = None))
  | Leave i => generate_module handle_error mgr i (base_of i)
  end.

(** What [generate_forward_declarations] does at a stop. *)
Definition declare_stop (s : stop) : ST (package * code_sink) unit :=
  match s with
  | Enter i =>
      m <- on_fst (the_module i) ;;
      st_assert (negb (mo_forward_declarations_declared m)) ;;;
      let c := mo_contents m in
      st_when (negb (bool_decide (ct_classes c = [] /\ ct_containers c = []
                                  /\ ct_exceptions c = [])))
        (sink_writeln "/* --- forward declarations --- */" ;;; sink_writeln EmptyString) ;;;
      view <- on_fst (the_view i) ;;
      let declare r := types_shared (type_forward_declarations r view) in
      imported <- st_get (fun st => classes_where true c (pk_types st.1)) ;;
      st_iter declare imported ;;;
      others <- st_get (fun st => classes_where false c (pk_types st.1)) ;;
      st_iter declare others ;;;
      st_iter declare (map ContainerRef (ct_containers c)) ;;;
      st_iter (fun n => exc <- on_fst (the_exception n) ;;
                        shared_heap (exception_forward_declarations exc.1)) (ct_exceptions c)
  | Leave i => on_fst (update_module i set_declared)
  end.

(** A tree is walked over from its root, once. *)
Definition parent_of (ms : list module_base) (j i : nat) : Prop :=
  exists m, ms !! j = Some m /\ mi_parent (mo_info m) = Some i.

Lemma submodule_parent ms i m j : tree ms -> ms !! i = Some m ->
  j ∈ ct_submodules (mo_contents m) <-> parent_of ms j i.
Proof. intros Ht Hi. apply (tr_submodules _ Ht i m j Hi). Qed.

Lemma parent_less ms j i : tree ms -> parent_of ms j i -> (i < j < length ms)%nat.
Proof.
  intros Ht (m&Hj&Hp). split; [by eapply tr_parent | by eapply lookup_lt_Some].
Qed.

Lemma above_le ms j i : tree ms -> rtc (parent_of ms) j i -> (i <= j)%nat.
Proof. intros Ht. induction 1 as [|x y z Hp _ IH]; [done|]. apply parent_less in Hp; [lia|done]. Qed.

(** The modules above a module are in line. *)
Lemma above_line ms j a b : rtc (parent_of ms) j a -> rtc (parent_of ms) j b ->
  rtc (parent_of ms) a b \/ rtc (parent_of ms) b a.
Proof.
  induction 1 as [x|x y z Hp Hr IH]; [by left|]. intros Hb.
  apply rtc_inv in Hb as [->|(y'&Hp'&Hb)]; [right; by eapply rtc_l|].
  destruct Hp as (m&Em&Ep), Hp' as (m'&Em'&Ep'). by simplify_eq; apply IH.
Qed.

Lemma siblings_apart ms i j a b : tree ms -> parent_of ms a i -> parent_of ms b i ->
  rtc (parent_of ms) j a -> rtc (parent_of ms) j b -> a = b.
Proof.
  intros Ht.
  assert (forall a b, parent_of ms a i -> parent_of ms b i -> rtc (parent_of ms) a b -> a = b) as H.
  { intros x y Hx Hy Hr. apply rtc_inv in Hr as [->|(z&Hz&Hr)]; [done|].
    destruct Hx as (m&Em&Ep), Hz as (m'&Em'&Ep'). simplify_eq.
    apply above_le in Hr; [|done]. apply parent_less in Hy; [lia|done]. }
  intros Ha Hb Hja Hjb. destruct (above_line _ _ _ _ Hja Hjb); [|symmetry]; by apply H.
Qed.

(** Below a module are itself and what is below its submodules. *)
Lemma below_module ms i m j : tree ms -> ms !! i = Some m ->
  rtc (parent_of ms) j i
  <-> j = i \/ exists c, c ∈ ct_submodules (mo_contents m) /\ rtc (parent_of ms) j c.
Proof.
  intros Ht Hi. split.
  - intros Hr. apply rtc_inv_r in Hr as [->|(c&Hr&Hp)]; [by left|]. right. exists c.
    split; [by apply (submodule_parent ms i m c Ht Hi) | done].
  - intros [->|(c&Hc&Hr)]; [done|]. apply (submodule_parent ms i m c Ht Hi) in Hc.
    by eapply rtc_r.
Qed.

(** Every module is below the root. *)
Lemma all_below_root ms i : tree ms -> (0 < length ms)%nat ->
  rtc (parent_of ms) i 0%nat <-> (i < length ms)%nat.
Proof.
  intros Ht H0. split.
  - intros [E|(j&Hp&_)]%rtc_inv; [by subst|]. by apply parent_less in Hp as [_ ?].
  - induction i as [i IH] using lt_wf_ind. intros Hi.
    apply lookup_lt_is_Some in Hi as [m Hm].
    destruct (mi_parent (mo_info m)) as [p|] eqn:Ep.
    + pose proof (tr_parent _ Ht i m p Hm Ep). pose proof (lookup_lt_Some _ _ _ Hm).
      eapply rtc_l; [by exists m | apply IH; lia].
    + by apply (tr_root _ Ht i m Hm) in Ep as ->.
Qed.

Lemma tour_visits ms : tree ms ->
  (forall i t, tour ms i t ->
     NoDup t /\ forall s, s ∈ t <-> exists j, rtc (parent_of ms) j i /\ (s = Enter j \/ s = Leave j)).
Proof.
  intros Ht.
  apply (tour_mind ms
    (fun i t => NoDup t
       /\ forall s, s ∈ t <-> exists j, rtc (parent_of ms) j i /\ (s = Enter j \/ s = Leave j))
    (fun js ts => NoDup js -> (exists i, forall j, j ∈ js -> parent_of ms j i) ->
       NoDup ts
       /\ forall s, s ∈ ts <-> exists c j, c ∈ js /\ rtc (parent_of ms) j c
            /\ (s = Enter j \/ s = Leave j))).
  - intros i m inner Hi _ IH.
    destruct IH as [Hd Hs]; [by eapply tr_once | exists i; intros j Hj;
      by apply (submodule_parent ms i m j Ht Hi)|].
    assert (forall s, s = Enter i \/ s = Leave i -> s ∉ inner) as Hout.
    { intros s Hsi (c&j&Hc&Hr&Hj)%Hs. apply (submodule_parent ms i m c Ht Hi) in Hc.
      apply above_le in Hr; [|done]. apply parent_less in Hc; [|done].
      destruct Hsi, Hj; simplify_eq; lia. }
    split.
    + constructor.
      * intros [H|H%list_elem_of_singleton]%elem_of_app; [|discriminate]. by apply (Hout (Enter i)); [left|].
      * apply NoDup_app. split_and!; [done | | apply NoDup_singleton].
        intros s H ->%list_elem_of_singleton. by apply (Hout (Leave i)); [right|].
    + intros s. rewrite elem_of_cons, elem_of_app, list_elem_of_singleton, Hs. split.
      * intros [->|[(c&j&Hc&Hr&Hj)| ->]];
          [exists i; split; [done | by left] | | exists i; split; [done | by right]].
        exists j. split; [|done]. apply (below_module ms i m j Ht Hi). right. by exists c.
      * intros (j&[->|(c&Hc&Hr)]%(below_module ms i m j Ht Hi)&Hj);
          [destruct Hj; auto | right; left; by exists c, j].
  - intros _ _. split; [constructor|]. intros s. split; [by intros ?%elem_of_nil|].
    by intros (c&j&?%elem_of_nil&_).
  - intros j js t ts _ [Hd Hs] _ IH [Hj Hjs]%NoDup_cons (i&Hp).
    destruct IH as [Hds Hss]; [done | exists i; intros c Hc; apply Hp; by right|].
    split.
    + apply NoDup_app. split_and!; [done | | done].
      intros s (x&Hx&Ex)%Hs (c&y&Hc&Hy&Ey)%Hss. assert (y = x) as -> by (destruct Ex, Ey; congruence).
      assert (j = c) as <-; [|done].
      by eapply (siblings_apart ms i x); [| apply Hp; left | apply Hp; right | |].
    + intros s. rewrite elem_of_app, Hs, Hss. setoid_rewrite elem_of_cons. split.
      * intros [(x&?)|(c&x&?&?)]; [exists j, x; by auto | exists c, x; by auto].
      * intros (c&x&[->|?]&?&?); [left; by exists x | right; by exists c, x].
Qed.

Lemma tour_exists ms : tree ms -> forall n i, (length ms - i <= n)%nat -> (i < length ms)%nat ->
  exists t, tour ms i t.
Proof.
  intros Ht. induction n as [|n IH]; intros i Hn Hi; [lia|].
  apply lookup_lt_is_Some in Hi as [m Hm].
  assert (exists ts, tours ms (ct_submodules (mo_contents m)) ts) as [ts Hts].
  { assert (forall j, j ∈ ct_submodules (mo_contents m) -> exists t, tour ms j t) as Hc.
    { intros j Hj. apply (submodule_parent ms i m j Ht Hm), parent_less in Hj; [|done].
      apply IH; lia. }
    clear Hm. induction (ct_submodules (mo_contents m)) as [|j js IHj]; [exists []; constructor|].
    destruct (Hc j ltac:(by left)) as [t Hjt].
    destruct IHj as [ts Hjs]; [intros c Hcj; apply Hc; by right|].
    exists (t ++ ts). by constructor. }
  eexists. by econstructor.
Qed.

(** ** Both recursions are walks *)

Lemma the_module_after {X} ms i : tree ms ->
  forall st : package * X, with_tree ms st ->
    with_tree ms (on_fst (the_module i) st).1
    /\ forall m, (on_fst (the_module i) st).2 = Ok m ->
       exists y, ms !! i = Some y /\ ct_submodules (mo_contents m) = ct_submodules (mo_contents y).
Proof.
  intros Ht [p x] Hf. split; [exact Hf|]. unfold on_fst, the_module. cbn.
  destruct (pk_modules p !! i) as [m|] eqn:E; [|discriminate].
  intros m' [= <-]. destruct (frame_lookup ms (pk_modules p) i m (eq_sym Hf) E) as (y&Hy&Ey).
  injection Ey as _ Es. by exists y.
Qed.

(** A recursion [walk] that does [step (Enter i)] before and [step (Leave i)] after
    the submodules of module [i], in trees of this shape. *)
Definition walks {X} ms (walk : nat -> nat -> ST (package * X) unit)
    (step : stop -> ST (package * X) unit) : Prop :=
  (forall s, agree (with_tree ms) (step s) (step s))
  /\ forall f i m body, ms !! i = Some m ->
       agree (with_tree ms) (st_iter (walk f) (ct_submodules (mo_contents m))) body ->
       agree (with_tree ms) (walk (S f) i)
         (step (Enter i) ;;; (body ;;; step (Leave i))).

Lemma agree_trans {S A} (P : S -> Prop) (m1 m2 m3 : ST S A) :
  agree P m1 m2 -> (forall st, m2 st = m3 st) -> agree P m1 m3.
Proof. intros H E st Hst. rewrite <- E. by apply H. Qed.

Lemma walks_tour {X} ms (walk : nat -> nat -> ST (package * X) unit) step :
  tree ms -> walks ms walk step ->
  forall i t, tour ms i t -> forall f, (length ms - i < f)%nat ->
    agree (with_tree ms) (walk f i) (st_iter step t).
Proof.
  intros Ht [_ Hw].
  apply (tour_mind ms
    (fun i t => forall f, (length ms - i < f)%nat -> agree (with_tree ms) (walk f i) (st_iter step t))
    (fun js ts => forall f, (forall j, j ∈ js -> (length ms - j < f)%nat) ->
       agree (with_tree ms) (st_iter (walk f) js) (st_iter step ts))).
  - intros i m inner Hi _ IH [|f] Hf; [lia|].
    eapply agree_trans; [apply (Hw f i m (st_iter step inner) Hi), IH|].
    + intros j Hj. apply (submodule_parent ms i m j Ht Hi), parent_less in Hj; [lia|done].
    + intros st. cbn [st_iter]. unfold st_bind.
      destruct (step (Enter i) st) as [st1 [[]|e]]; [|done]. rewrite st_iter_app. unfold st_bind.
      destruct (st_iter step inner st1) as [st2 [[]|e]]; [|done]. cbn [st_iter]. unfold st_bind.
      by destruct (step (Leave i) st2) as [st3 [[]|e]].
  - intros f _. by apply agree_refl.
  - intros j js t ts _ IHj _ IHs f Hf. cbn [st_iter].
    eapply agree_trans; [|intros st; symmetry; apply st_iter_app].
    apply agree_bind; [apply IHj, Hf; by left | intros _; apply IHs; intros c Hc; apply Hf; by right].
Qed.

Lemma agree_assoc {S A B C} (P : S -> Prop) (m' : ST S C) (m : ST S A) (k : A -> ST S B)
    (l : B -> ST S C) :
  agree P m' (st_bind m (fun a => st_bind (k a) l)) -> agree P m' (st_bind (st_bind m k) l).
Proof.
  intros H. eapply agree_trans; [exact H|]. intros st. unfold st_bind.
  by destruct (m st) as [st1 [a|e]].
Qed.

Lemma agree_iter_eq {S A} (P : S -> Prop) (f1 f2 : A -> ST S unit) l body :
  (forall x, x ∈ l -> f1 x = f2 x) ->
  agree P (st_iter f2 l) body -> agree P (st_iter f1 l) body.
Proof.
  intros H Hb. assert (st_iter f1 l = st_iter f2 l) as ->; [|done].
  clear Hb. induction l as [|x l IH]; [done|]. cbn [st_iter].
  rewrite (H x ltac:(by left)), IH; [done|]. intros y Hy. apply H. by right.
Qed.

Lemma declare_walks ms : tree ms ->
  walks ms (fun f i => generate_forward_declarations (T:=T) f i) declare_stop.
Proof.
  intros Ht. split.
  { intros [i|i]; apply agree_kept; cbn [declare_stop]; keeps; [apply kept_view | apply kept_update; by intros]. }
  intros f i m body Hi Hb. cbn [generate_forward_declarations declare_stop].
  apply agree_assoc. apply (agree_after _ _ _ _ _ (the_module_after ms i Ht)).
  intros m' (y&Hy&Es). assert (y = m) as -> by congruence.
  repeat (apply agree_assoc; apply agree_bind; [apply agree_kept; keeps; apply kept_view | intros ?]).
  apply agree_bind; [apply agree_kept; keeps | intros _].
  rewrite Es. apply agree_bind; [exact Hb | intros _].
  apply agree_kept; keeps; apply kept_update; by intros.
Qed.

Lemma generate_walks ms mgr base : tree ms ->
  walks ms (fun f i => do_generate (T:=T) handle_error f mgr (if bool_decide (i = 0%nat) then base else None) i)
    (generate_stop mgr base).
Proof.
  intros Ht. split.
  { intros [i|i]; apply agree_kept; cbn [generate_stop];
      [keeps; apply kept_prologue | apply kept_generate_module]. }
  intros f i m body Hi Hb. cbn [do_generate generate_stop].
  apply agree_assoc. apply (agree_after _ _ _ _ _ (the_module_after ms i Ht)).
  intros m' (y&Hy&Es). assert (y = m) as -> by congruence.
  apply agree_bind; [apply agree_kept; keeps; apply kept_prologue | intros _].
  rewrite Es. apply agree_bind; [|intros _; apply agree_kept, kept_generate_module].
  eapply agree_iter_eq; [|exact Hb]. intros j Hj.
  apply (submodule_parent ms i m j Ht Hi), parent_less in Hj; [|done].
  cbn beta. by rewrite bool_decide_eq_false_2 by lia.
Qed.

(** C28: Generation walks over the tree of modules, and ends.  In a package that was
    built by calls there is a walk from the root that enters and leaves every module
    of the package exactly once, the submodules of a module, in their order, between
    entering and leaving it.  [do_generate] of the root is exactly that walk: it
    starts the output when it enters the root and generates each module when it
    leaves it, so after its submodules; and the generation of the forward
    declarations is the walk that writes those of a module when it enters it, and
    marks it declared when it leaves it.  The walk has no fuel: any fuel above the
    number of modules is enough for the recursion, and what may still fail is only
    the generation of one of the modules. *)
Theorem generation_tour (g : settings) (p : package) (ks : sinks) (k : code_sink)
    (mgr : sink_manager) (base : option string) (depth : nat) :
  reachable g p -> (length (pk_modules p) < depth)%nat ->
  exists t : list stop, tour (pk_modules p) 0 t
    /\ NoDup t
    /\ (forall i, (Enter i ∈ t <-> (i < length (pk_modules p))%nat)
                 /\ (Leave i ∈ t <-> (i < length (pk_modules p))%nat))
    /\ do_generate handle_error depth mgr base 0 (p, ks) = st_iter (generate_stop mgr base) t (p, ks)
    /\ generate_forward_declarations depth 0 (p, k) = st_iter declare_stop t (p, k).
Proof.
  intros Hr Hd. pose proof (reachable_tree g p Hr) as Ht. set (ms := pk_modules p) in *.
  assert (0 < length ms)%nat as H0.
  { pose proof (tr_nonempty _ Ht) as Hne. destruct ms; [done | cbn; lia]. }
  destruct (tour_exists ms Ht (length ms) 0) as [t H]; [lia..|].
  destruct (tour_visits ms Ht 0 t H) as [Hn Hs].
  exists t. split_and!; [done | done | | |].
  - intros i. pose proof (all_below_root ms i Ht H0) as Hi.
    split; rewrite Hs; (split; [intros (j&Hj&[E|E]); simplify_eq; by apply Hi
                               | intros ?; exists i; split; [by apply Hi | by auto]]).
  - apply (walks_tour ms _ _ Ht (generate_walks ms mgr base Ht) 0 t H depth); [lia|done].
  - apply (walks_tour ms _ _ Ht (declare_walks ms Ht) 0 t H depth); [lia|done].
Qed.
End depth.

(** ** Generating twice *)

Section once.
Context {T : Type} `{!TypeOps T} {so : SetOrder} {dict_order : DictOrder}
  (handle_error : option (wrapper_id -> pyexn -> bool)) (g : settings).
Local Abbreviation package := (package T).

(** What the start of the generation of a root leaves. *)
Lemma prologue_done mgr i (st st' : package * sinks) :
  root_prologue mgr i st = (st', Ok tt) ->
  pk_root_includes st'.1 = false /\ declared st'.1 i.
Proof.
  intros H. unfold root_prologue in H. apply st_bind_Ok in H as (st1&fwd&E1&H).
  apply st_bind_Ok in H as (st2&[]&E2&H).
  assert (declared st1.1 i) as D1.
  { unfold forward_declarations_sink in E1.
    destruct (st_bind _ _ (st.1, MemoryCodeSink)) as [[p k] r] eqn:E. injection E1 as <- ?.
    destruct r as [[]|e]; [|discriminate]. cbn [fst].
    apply st_bind_Ok in E as (st3&m&Em&E). unfold on_fst, the_module in Em. cbn in Em.
    destruct (pk_modules st.1 !! i) as [x|] eqn:Ex; [|discriminate]. injection Em as <- <-.
    destruct (mo_forward_declarations_declared x) eqn:Ed; cbn [negb st_when] in E.
    - injection E as <- _. by exists x.
    - apply st_bind_Ok in E as (st4&n&En&E). injection En as <- <-.
      apply st_bind_Ok in E as (st5&[]&E5&E).
      assert (declared st5.1 i) as D5.
      { cbn [generate_forward_declarations] in E5.
        repeat match type of E5 with
          | st_bind (on_fst (update_module _ _)) _ _ = _ => fail 1
          | st_bind _ _ _ = _ => apply st_bind_Ok in E5 as (?&?&?&E5)
          end.
        unfold on_fst, update_module, the_module, st_bind, st_modify in E5.
        destruct (pk_modules _ !! i) as [y|] eqn:Ey in E5; cbn in E5; [|discriminate].
        injection E5 as <-.
        exists (set_declared y). cbn. split; [|done]. apply list_lookup_insert_eq.
        by eapply lookup_lt_Some. }
      pose proof (kept_flush_into (T:=T) (fun p => sh_after_forward_declarations (pk_shared p))
        (fun a p => set_shared (after_forward (pk_shared p) a) p)
        ltac:(intros; by apply same_package) st5) as [_ _ K].
      rewrite E in K. by apply K. }
  assert (kept st1.1 st2.1 /\ pk_root_includes st2.1 = false) as [K2 F2].
  { unfold root_includes in E2. apply st_bind_Ok in E2 as (st3&has&E3&E2). injection E3 as <- <-.
    destruct (pk_root_includes st1.1); cbn [negb] in E2; [|discriminate].
    apply st_bind_Ok in E2 as (st4&inc&E4&E2). injection E4 as <- <-.
    apply st_bind_Ok in E2 as (st5&[]&E5&E2).
    match type of E5 with ?m ?s = _ => assert (evolves (@kept_in T sinks) m) as K by keeps end.
    specialize (K st1). rewrite E5 in K. injection E2 as <-. split; [|done].
    transitivity st5.1; [exact K|]. split; [done | done |]. done. }
  assert (st'.1 = st2.1) as ->.
  { unfold in_sink in H. destruct (sk_sinks st2.2 !! _); [|discriminate]. cbn in H.
    destruct (flush_to _ _) as [[? ?]|]; [|discriminate]. by injection H as <-. }
  split; [done|]. by apply K2.
Qed.

Lemma kept_close mgr : evolves (@kept_in T sinks) (close_manager mgr).
Proof.
  assert (forall a b, evolves (@kept_in T sinks) (flush_sink a b)) as Hf.
  { intros a b st. unfold flush_sink. destruct (sk_sinks st.2 !! a), (sk_sinks st.2 !! b); try done.
    by destruct (flush_to _ _) as [[? ?]|]. }
  unfold close_manager. destruct mgr; keeps; apply Hf.
Qed.

Lemma root_is_root ms x : tree ms -> ms !! 0%nat = Some x -> is_root x = true.
Proof. intros Ht Hx. apply bool_decide_eq_true_2. by apply (tr_root _ Ht 0 x Hx). Qed.

(** A module is generated once.  After [generate] of the root of a package
    returned, calling it again raises [TypeError], whatever the output, because the
    list of the includes is gone, and changes nothing in the package. *)
Theorem generated_once (p p' : package) (version version' : Z * Z) (out out' : output)
    (base base' : option string) (ks : sinks) :
  reachable g p ->
  Module_generate handle_error version out base p = (p', Ok ks) ->
  (exists m ks', make_manager version' out' = Ok (m, ks')) ->
  Module_generate handle_error version' out' base' p' = (p', Raise TypeError).
Proof.
  intros Hr H (m'&ks'&Hm). pose proof (reachable_tree g p Hr) as Ht. unfold Module_generate in H.
  destruct (make_manager version out) as [[mgr ks0]|]; [|discriminate].
  destruct (st_bind _ _ (p, ks0)) as [[p1 ks1] r] eqn:E. injection H as <- Hr1.
  destruct r as [[]|e]; [|discriminate]. apply st_bind_Ok in E as (st1&[]&E&Ec).
  assert (kept st1.1 p1) as Kc.
  { pose proof (kept_close mgr st1) as K. rewrite Ec in K. exact K. }
  assert (tree (pk_modules p1)) as Ht1.
  { pose proof (kept_do_generate handle_error (S (length (pk_modules p))) mgr base 0 (p, ks0)) as K.
    rewrite E in K. apply (tree_frames (pk_modules p)); [|exact Ht].
    etransitivity; [apply (kp_frames _ _ K) | apply (kp_frames _ _ Kc)]. }
  assert (pk_root_includes p1 = false /\ declared p1 0) as [Hi (x&Hx&Hdx)].
  { destruct Kc as [_ Ki Kd].
    cbn [do_generate] in E. apply st_bind_Ok in E as (st2&m&E2&E).
    unfold on_fst, the_module in E2. cbn in E2.
    destruct (pk_modules p !! 0%nat) as [x|] eqn:Ex; [|discriminate]. injection E2 as <- <-.
    rewrite (root_is_root _ x Ht Ex) in E. apply st_bind_Ok in E as (st3&[]&E3&E).
    apply prologue_done in E3 as [H3 D3].
    match type of E with ?m ?s = _ => assert (evolves (@kept_in T sinks) m) as K end.
    { keeps; [apply kept_do_generate | apply kept_generate_module]. }
    specialize (K st3). rewrite E in K. destruct K as [_ Ki' Kd']. cbn [fst] in Ki', Kd'. auto. }
  unfold Module_generate. rewrite Hm.
  unfold st_bind at 1. cbn [do_generate]. unfold st_bind at 1, on_fst, the_module. cbn [fst snd].
  rewrite Hx, (root_is_root _ x Ht1 Hx).
  unfold st_bind at 1. unfold root_prologue, forward_declarations_sink. unfold st_bind at 1.
  cbn [fst snd]. unfold st_bind at 1, on_fst, the_module. cbn [fst snd]. rewrite Hx, Hdx. cbn.
  unfold st_bind, root_includes, st_get. cbn. rewrite Hi. done.
Qed.
End once.

(** ** The method table *)

Section method_table.
Context {T : Type} `{!TypeOps T} {so : SetOrder} {dict_order : DictOrder}
  (handle_error : option (wrapper_id -> pyexn -> bool)).
Local Abbreviation package := (package T).
Local Abbreviation mgen := (package * sinks)%type.

(** An entry under the Python name of the function. *)
Definition names_method (name entry : string) : Prop :=
  exists actual flags doc, entry = method_def_entry name (Some actual) flags doc.

Lemma entry_of_function (vm : methods function_attrs) name st st' d :
  Function_get_py_method_def vm name st = (st', Ok d) -> names_method name d.
Proof.
  intros H. unfold Function_get_py_method_def in H. apply st_bind_Ok in H as (st1&flags&_&H).
  apply st_bind_Ok in H as (st2&o&_&H).
  destruct (fw_wrapper_return (wo_base o)), (fw_wrapper_actual_name (wo_base o)) as [n|],
    (fw_wrapper_args (wo_base o)); try discriminate H.
  injection H as _ <-. by exists n, (set_list flags), (fn_docstring (wo_attrs o)).
Qed.

Lemma entry_of_overload store name o o' d :
  get_py_method_def (WrapperOps0:=overload_ops handle_error store name) name o = (o', Ok d) ->
  names_method name d.
Proof.
  intros H. unfold get_py_method_def in H. apply st_bind_Ok in H as (o1&all&_&H).
  apply st_bind_Ok in H as (o2&s&_&H). destruct all as [ws|]; [|discriminate].
  destruct (_ && _).
  - unfold on_world in H. cbn [method_def_of overload_ops function_ops] in H.
    unfold without_sink, on_function in H. cbn [fst snd] in H.
    destruct (ov_world o2 !! List.hd 0%nat ws) as [f|]; [|discriminate].
    destruct (Function_get_py_method_def _ name _) as [[o3 k3] r3] eqn:E. injection H as _ ->.
    by apply entry_of_function in E.
  - apply st_bind_Ok in H as (o3&[]&_&H). destruct ws as [|w ws]; [discriminate|].
    apply st_bind_Ok in H as (o4&flags&_&H). apply st_bind_Ok in H as (o5&[]&_&H).
    apply st_bind_Ok in H as (o6&s'&_&H).
    destruct (ov_wrapper_return s'), (ov_wrapper_actual_name s') as [n|], (ov_wrapper_args s');
      try discriminate H.
    injection H as _ <-. by exists n, (set_list flags), None.
Qed.

(** A run of a call that is skipped: it raised [SkipWrapper], or an exception that the
    error handler said to ignore. *)
Definition skips {S A} (name : string) (m : ST S A) (st st' : S) : Prop :=
  exists e, m st = (st', Raise e)
    /\ (e = SkipWrapper
        \/ default_exceptions e = true
           /\ exists h, handle_error = Some h /\ h (OverloadId name) e = true).

Lemma unless_skipped_false {S A} name (m : ST S A) st st' :
  unless_skipped handle_error name m st = (st', Ok false) -> skips name m st st'.
Proof.
  unfold unless_skipped, call_with_error_handling, handler_of, st_catch, st_bind.
  destruct (m st) as [st1 [a|e]] eqn:E.
  - by destruct handle_error; cbn; rewrite E.
  - destruct handle_error as [h|] eqn:Eh; cbn.
    + rewrite E. destruct (default_exceptions e) eqn:Ed.
      * cbn. destruct (h (OverloadId name) e) eqn:Ei; cbn.
        -- intros [= <-]. exists e. split; [done|]. right. split; [done|]. by exists h.
        -- intros H. by destruct e.
      * intros H. exists e. destruct e; try discriminate H. injection H as <-. by auto.
    + rewrite E. intros H. exists e. destruct e; try discriminate H. injection H as <-. by auto.
Qed.

Lemma unless_skipped_true {S A} name (m : ST S A) st st' :
  unless_skipped handle_error name m st = (st', Ok true) -> exists a, m st = (st', Ok a).
Proof.
  unfold unless_skipped, call_with_error_handling, handler_of, st_catch, st_bind.
  destruct (m st) as [st1 [a|e]] eqn:E.
  - destruct handle_error; cbn; rewrite E; cbn; intros [= <-]; by exists a.
  - destruct handle_error as [h|]; cbn; rewrite E; [|by destruct e].
    destruct (default_exceptions e) eqn:Ed; [|by destruct e].
    cbn. destruct (h (OverloadId name) e); cbn; by destruct e.
Qed.

Lemma sink_line_package k line (st st' : mgen) r : sink_line k line st = (st', r) -> st'.1 = st.1.
Proof.
  unfold sink_line, in_sink. destruct (sk_sinks st.2 !! k); [|by intros [= <- _]].
  cbn. by intros [= <- _].
Qed.

Section run.
Context (mgr : sink_manager) (store : list cpp_exception) (i : nat).

(** The calls of the loop for one name. *)
Definition overload_sink (name : string) : ST mgen (nat * nat) :=
  sink <- get_code_sink_for_wrapper mgr (overload_section handle_error store i name) ;;
  sink_line sink.1 EmptyString ;;;
  st_ret sink.
Definition overload_generate (name : string) (sink : nat) : ST mgen (option string) :=
  in_sink sink (on_overload i name
    (generate (WrapperOps0:=overload_ops handle_error store name) "PyObject *" "return NULL;")).
Definition overload_declare (name : string) : ST mgen unit :=
  in_sink (get_main_code_sink mgr) (on_overload i name
    (generate_declaration (WrapperOps0:=overload_ops handle_error store name)
       "PyObject *" "return NULL;")).
Definition overload_entry (name : string) (sink : nat) : ST mgen string :=
  sink_line sink EmptyString ;;;
  in_sink sink (on_overload i name
    (overload_only (get_py_method_def (WrapperOps0:=overload_ops handle_error store name) name))).

(** The loop over the names, as a run: a name gets an entry when its wrapper was
    generated and declared, and is passed over when one of both was skipped, in the
    very state the loop had reached. *)
Inductive table_run : mgen -> list string -> mgen -> list string -> Prop :=
  | run_done st : table_run st [] st []
  | run_entry name names st sink st1 call st2 st3 st4 entry st' defs :
      overload_sink name st = (st1, Ok sink) ->
      overload_generate name sink.1 st1 = (st2, Ok call) ->
      overload_declare name st2 = (st3, Ok tt) ->
      overload_entry name sink.1 st3 = (st4, Ok entry) ->
      names_method name entry ->
      table_run st4 names st' defs -> table_run st (name :: names) st' (entry :: defs)
  | run_not_generated name names st sink st1 st2 st' defs :
      overload_sink name st = (st1, Ok sink) ->
      skips name (overload_generate name sink.1) st1 st2 ->
      table_run st2 names st' defs -> table_run st (name :: names) st' defs
  | run_not_declared name names st sink st1 call st2 st3 st' defs :
      overload_sink name st = (st1, Ok sink) ->
      overload_generate name sink.1 st1 = (st2, Ok call) ->
      skips name (overload_declare name) st2 st3 ->
      table_run st3 names st' defs -> table_run st (name :: names) st' defs.

Lemma overload_entry_named name k st st' d :
  overload_entry name k st = (st', Ok d) -> names_method name d.
Proof.
  intros H. apply st_bind_Ok in H as (st5&[]&_&H).
  unfold in_sink in H. destruct (sk_sinks st5.2 !! k); [|discriminate].
  unfold on_overload in H. destruct (overload_at _ i name) as [o|]; [|discriminate].
  unfold overload_only, on_fst in H. cbn [fst snd] in H.
  destruct (get_py_method_def name o) as [o' r'] eqn:Eg.
  destruct (update_module _ _ _) as [p' ?]. injection H as _ ->.
  by apply entry_of_overload in Eg.
Qed.

Lemma generate_overload_run name names (st st1 st' : mgen) r defs :
  generate_overload handle_error mgr store i name st = (st1, Ok r) ->
  table_run st1 names st' defs -> table_run st (name :: names) st' (r ++ defs).
Proof.
  intros H Hrun. unfold generate_overload in H. apply st_bind_Ok in H as (s1&sink&E1&H).
  apply st_bind_Ok in H as (s2&[]&E2&H).
  assert (overload_sink name st = (s2, Ok sink)) as Es.
  { unfold overload_sink. rewrite (st_bind_run _ _ _ _ _ E1). by rewrite (st_bind_run _ _ _ _ _ E2). }
  apply st_bind_Ok in H as (s3&b&E3&H). destruct b; cbn [negb] in H.
  - apply unless_skipped_true in E3 as [call E3].
    apply st_bind_Ok in H as (s4&b&E4&H). destruct b; cbn [negb] in H.
    + apply unless_skipped_true in E4 as [[] E4].
      apply st_bind_Ok in H as (s5&[]&E5&H). apply st_bind_Ok in H as (s6&d&E6&H).
      injection H as <- <-.
      assert (overload_entry name sink.1 s4 = (s6, Ok d)) as Ed.
      { unfold overload_entry. by rewrite (st_bind_run _ _ _ _ _ E5). }
      eapply run_entry; [done..| by eapply overload_entry_named | done].
    + injection H as <- <-. eapply run_not_declared; [done..| by apply unless_skipped_false | done].
  - injection H as <- <-. eapply run_not_generated; [done| by apply unless_skipped_false | done].
Qed.

Lemma generate_overloads_run names : forall (st st' : mgen) defs,
  generate_overloads handle_error mgr store i names st = (st', Ok defs) ->
  table_run st names st' defs.
Proof.
  induction names as [|name names IH]; intros st st' defs H; cbn [generate_overloads] in H.
  { injection H as <- <-. constructor. }
  apply st_bind_Ok in H as (st1&r&E1&H). apply st_bind_Ok in H as (st2&rs&E2&H).
  injection H as <- <-. eapply generate_overload_run; [done | by apply IH].
Qed.
End run.

(** C29: The method table of a module is complete.  When the functions of a module
    have been generated, every Python name it has functions for was considered
    exactly once, in a run that starts from the package as it was given: in the
    state the run had reached, either the wrapper of that name was generated, then
    declared, and the table has exactly one entry for it, under its own name; or the
    generation or the declaration raised [SkipWrapper], or an exception that the
    error handler let pass, in that state, and only then the table has none.  The
    table has nothing else, and it can be written whatever the sink, without
    changing the indentation. *)
Theorem method_table_complete (mgr : sink_manager) (i : nat) (m : module_base)
    (st st' : mgen) (defs : list string) :
  pk_modules st.1 !! i = Some m ->
  generate_functions handle_error mgr i st = (st', Ok defs) ->
  exists (names : list string) (st0 : mgen),
    NoDup names
    /\ (forall name, name ∈ names <-> is_Some (ct_functions (mo_contents m) !! name))
    /\ st0.1 = st.1
    /\ table_run mgr (exceptions_of st.1) i st0 names st' defs
    /\ forall prefix k, exists k', run_ops k (method_table_ops prefix defs) = Ok k'
         /\ same_indent k' k.
Proof.
  intros Hi H. unfold generate_functions in H. apply st_bind_Ok in H as (st1&m'&E1&H).
  unfold on_fst, the_module in E1. cbn in E1. rewrite Hi in E1.
  assert (st1 = st /\ m' = m) as [-> ->].
  { destruct st. cbn in E1. by injection E1 as <- <-. }
  apply st_bind_Ok in H as (st2&store&E2&H). injection E2 as <- <-.
  assert (forall prefix k, exists k', run_ops k (method_table_ops prefix defs) = Ok k'
    /\ same_indent k' k) as Ht.
  { intros prefix k. destruct (bracketed_run (method_table_ops prefix defs)) with (k:=k)
      as (k'&E&Hs&_); [|by exists k'].
    constructor. apply (br_block 4 (map OpWrite _) [_]); [apply bracketed_writes | repeat constructor]. }
  set (functions := ct_functions (mo_contents m)) in *.
  destruct (bool_decide (functions = ∅)) eqn:Ef.
  - apply bool_decide_eq_true_1 in Ef. injection H as <- <-. exists [], st.
    split_and!; [constructor | | done | constructor | exact Ht].
    intros name. rewrite Ef, lookup_empty. split; [by intros ?%elem_of_nil | by intros [? ?]].
  - apply st_bind_Ok in H as (st3&[]&E3&H). apply st_bind_Ok in H as (st4&[]&E4&H).
    exists (map fst (dict_items functions)), st4. pose proof (dict_items_perm functions) as Hp.
    split_and!; [| | | by apply generate_overloads_run | exact Ht].
    + assert (NoDup (map fst (map_to_list functions))) as Hnd by apply NoDup_fst_map_to_list.
      by rewrite <- (fmap_Permutation fst _ _ Hp) in Hnd.
    + intros name. rewrite list_elem_of_fmap. split.
      * intros ([n o]&->&Ho). rewrite Hp in Ho. apply elem_of_map_to_list in Ho. by exists o.
      * intros [o Ho]. exists (name, o). split; [done|]. rewrite Hp. by apply elem_of_map_to_list.
    + apply sink_line_package in E3, E4. congruence.
Qed.
End method_table.

(** ** One converter for each type *)

Definition definitions_grow (st st' : converter_state) : Prop :=
  sh_one_time_definitions st.1.1 ⊆ sh_one_time_definitions st'.1.1.
#[export] Instance definitions_grow_preorder : PreOrder definitions_grow.
Proof.
  unfold definitions_grow. split; [by intros st|].
  intros a b c ? ?. by transitivity (sh_one_time_definitions b.1.1).
Qed.

Lemma grow_with_header {O} (init : ST value_state O) prototype (generate : O -> ST value_gen unit) :
  evolves definitions_grow (with_header init prototype generate).
Proof.
  intros st. unfold with_header. destruct (init _) as [[v s] [o|e]];
    [|by unfold definitions_grow].
  match goal with |- definitions_grow _ ((?m ?x).1) =>
    assert (evolves definitions_grow m) as H; [|exact (H x)] end.
  repeat (apply evolves_bind; [apply _ | | intros _]); intros x; unfold definitions_grow; try done.
  cbn. by destruct (generate o _) as [[v' g'] r].
Qed.

Section converter_once.
Context (name : value_type -> string) (convert : string -> ST converter_state unit)
  (Hgrow : forall n, evolves definitions_grow (convert n)).

Lemma converter_known (st : converter_state) :
  name st.1.2 ∈ sh_one_time_definitions st.1.1 ->
  converter_once name convert st = (st, Ok (name st.1.2)).
Proof.
  intros H. destruct st as [[sh v] k]. cbn [fst snd] in *.
  unfold converter_once, st_bind, st_get, st_catch, on_fst, declare_one_time_definition. cbn.
  by rewrite bool_decide_eq_true_2.
Qed.

Lemma converter_recorded (st : converter_state) :
  name st.1.2 ∈ sh_one_time_definitions (converter_once name convert st).1.1.1
  /\ forall n, (converter_once name convert st).2 = Ok n -> n = name st.1.2.
Proof.
  destruct (decide (name st.1.2 ∈ sh_one_time_definitions st.1.1)) as [Hin|Hnot].
  - rewrite converter_known by done. split; [done|]. by intros n [= <-].
  - destruct st as [[sh v] k]. cbn [fst snd] in *.
    unfold converter_once, st_bind, st_get, st_catch, on_fst, declare_one_time_definition. cbn.
    rewrite bool_decide_eq_false_2 by done. cbn.
    match goal with |- context [convert ?n ?x] => pose proof (Hgrow n x) as H end.
    destruct (convert _ _) as [st' [[]|e]]; cbn in *; unfold definitions_grow in H; cbn in H;
      (split; [set_solver | by intros n [= <-]]).
Qed.
End converter_once.

(** The converter [n] was generated between two states: the converter object was made
    from the handler, its prototype went to the header, its function was generated
    on the sink, between empty lines, and its name was recorded; nothing else
    changed. *)
Definition converter_generated {O} (n : string) (init : ST value_state O)
    (prototype : O -> value_type -> string) (generate : O -> ST value_gen unit)
    (st st' : converter_state) : Prop :=
  let sh := st.1.1 in
  exists o v w v' g,
    init (st.1.2, World empty_heap [] [] [] [] ∅) = ((v, w), Ok o)
    /\ generate o (v, Gen w (writeln st.2 EmptyString)) = ((v', g), Ok tt)
    /\ st' = ((Shared (sh_heap sh) (writeln (sh_header sh) (nls +:+ prototype o v +:+ ";" +:+ nls))
                 (sh_body sh) (sh_after_forward_declarations sh)
                 ({[n]} ∪ sh_one_time_definitions sh), v'),
              writeln (g_out g) EmptyString).

(** A request [m] for the converter that is called [name] of the type. *)
Record generated_once_for {O} (name : string -> string) (init : string -> ST value_state O)
    (prototype : O -> value_type -> string) (generate : string -> O -> ST value_gen unit)
    (m : ST converter_state string) : Prop := {
  go_first : forall st st' n, m st = (st', Ok n) ->
    n = name (value_ctype st.1.2)
    /\ (n ∉ sh_one_time_definitions st.1.1 ->
        converter_generated n (init n) prototype (generate n) st st');
  go_again : forall st st', definitions_grow (m st).1 st' ->
    value_ctype st'.1.2 = value_ctype st.1.2 ->
    m st' = (st', Ok (name (value_ctype st.1.2)));
  go_grows : evolves definitions_grow m
}.

Lemma with_header_generated {O} n (init : ST value_state O) prototype
    (generate : O -> ST value_gen unit) sh v k st' :
  with_header init prototype generate
    ((Shared (sh_heap sh) (sh_header sh) (sh_body sh) (sh_after_forward_declarations sh)
        ({[n]} ∪ sh_one_time_definitions sh), v), k) = (st', Ok tt) ->
  converter_generated n init prototype generate ((sh, v), k) st'.
Proof.
  unfold with_header. cbn [fst snd].
  destruct (init _) as [[v1 w] [o|e]] eqn:Ei; [|discriminate].
  unfold st_bind at 1. cbn. unfold st_bind. cbn.
  destruct (generate o _) as [[v2 g] [[]|e]] eqn:Eg; [|discriminate]. cbn. intros [= <-].
  unfold converter_generated. cbn [fst snd]. by exists o, v1, w, v2, g.
Qed.

Lemma converter_once_generated {O} (name : string -> string) (init : string -> ST value_state O)
    prototype (generate : string -> O -> ST value_gen unit) :
  generated_once_for name init prototype generate
    (converter_once (fun v => name (value_ctype v))
       (fun n => with_header (init n) prototype (generate n))).
Proof.
  set (convert := fun n => with_header (init n) prototype (generate n)).
  assert (forall n, evolves definitions_grow (convert n)) as Hg by (intros n; apply grow_with_header).
  set (m := converter_once _ _).
  assert (forall st, name (value_ctype st.1.2) ∈ sh_one_time_definitions (m st).1.1.1) as Hrec.
  { intros st. apply (converter_recorded (fun v => name (value_ctype v)) convert Hg st). }
  split.
  - intros st st' n E.
    assert (n = name (value_ctype st.1.2)) as ->.
    { apply (converter_recorded (fun v => name (value_ctype v)) convert Hg st). by fold m; rewrite E. }
    split; [done|]. intros Hnot. destruct st as [[sh v] k]. cbn [fst snd] in *.
    unfold m, converter_once, st_bind, st_get, st_catch, on_fst, declare_one_time_definition in E.
    cbn in E. rewrite bool_decide_eq_false_2 in E by done. cbn in E.
    match type of E with context [convert ?n ?x] => destruct (convert n x) as [s1 [[]|e]] eqn:Ec end;
      [|discriminate].
    injection E as <-. by apply with_header_generated in Ec.
  - intros st st' Hgrow Hv. specialize (Hrec st). unfold m at 1.
    rewrite converter_known; rewrite Hv; [done|]. by apply Hgrow.
  - intros st. destruct (decide (name (value_ctype st.1.2) ∈ sh_one_time_definitions st.1.1)) as [H|H].
    + unfold m. by rewrite converter_known.
    + destruct st as [[sh v] k]. cbn [fst snd] in *.
      unfold m, converter_once, st_bind, st_get, st_catch, on_fst, declare_one_time_definition.
      cbn. rewrite bool_decide_eq_false_2 by done. cbn.
      match goal with |- context [convert ?n ?x] => pose proof (Hg n x) as Hc end.
      destruct (convert _ _) as [s1 [[]|e]]; cbn in *; unfold definitions_grow in *; cbn in *; set_solver.
Qed.

(** C30: Converters are generated once.  Asking a module for the converter of a type,
    in either direction, gives the name made from the type.  When there is no such
    converter yet, it is generated: its prototype goes to the header, its function
    to the sink, and nothing else of the module changes but that its name is
    recorded.  Once it was asked for, even if that raised, asking again for any
    handler of that type, in any later state in which no definition was taken back,
    gives the same name and changes nothing; and requests for converters, in either
    direction, take no definition back. *)
Theorem converters_generated_once :
  generated_once_for python_to_c_type_converter_function_name PythonToCConverter_init
    (fun o _ => PythonToC_get_prototype o) (fun name o => PythonToC_generate o name)
    generate_python_to_c_type_converter
  /\ generated_once_for c_to_python_type_converter_function_name CToPythonConverter_init
       CToPython_get_prototype (fun _ => CToPython_generate)
       generate_c_to_python_type_converter.
Proof. split; apply converter_once_generated. Qed.

(** ** Examples *)

(** A module with an exception and a function that may throw it. *)
Definition example_throwing : package unit :=
  (add_function 0 (Ok (FunctionObject None None demo_function))
     (add_exception_obj default_settings 0 (CppException_init "Error" None None None None None)
        example_root).1).1.
Definition example_sinks : sinks := Sinks [MemoryCodeSink; MemoryCodeSink; MemoryCodeSink] ∅.
Definition example_manager : sink_manager := MonolithicSinkManager 0 1 2.
Local Abbreviation example_functions :=
  (generate_functions None example_manager 0 (example_throwing, example_sinks)).

Lemma method_table_complete_witness :
  exists entry, example_functions.2 = Ok [entry] /\ names_method "foo__lt__T__gt__" entry.
Proof.
  assert (match example_functions.2 with Ok [_] => true | _ => false end = true) as Hok
    by (vm_compute; reflexivity).
  assert (match pk_modules example_throwing !! 0%nat with Some _ => true | None => false end = true)
    as Hroot by (vm_compute; reflexivity).
  destruct (pk_modules example_throwing !! 0%nat) as [m|] eqn:Hm; [clear Hroot | discriminate Hroot].
  destruct (generate_functions None example_manager 0 (example_throwing, example_sinks))
    as [st [defs|]] eqn:E; [|discriminate Hok].
  destruct (method_table_complete None example_manager 0 m (example_throwing, example_sinks) st defs
    Hm E) as (names&st0&Hnd&Hn&_&Hrun&_). clear E.
  assert (map fst (map_to_list (ct_functions (mo_contents m))) = ["foo__lt__T__gt__"]) as Hnames.
  { assert (forall o, o = pk_modules example_throwing !! 0%nat ->
      match o with
      | Some m => map fst (map_to_list (ct_functions (mo_contents m)))
      | None => []
      end = ["foo__lt__T__gt__"]) as H by (intros o ->; vm_compute; reflexivity).
    exact (H (Some m) (eq_sym Hm)). }
  clear Hm.
  assert (names = ["foo__lt__T__gt__"]) as ->.
  { apply Permutation_singleton_r, NoDup_Permutation; [done | apply NoDup_singleton|].
    intros n. rewrite Hn, <- Hnames, list_elem_of_fmap. split.
    - intros [o Ho]. exists (n, o). split; [done|]. by apply elem_of_map_to_list.
    - intros ([n' o]&->&Ho). exists o. by apply elem_of_map_to_list. }
  destruct defs as [|entry [|]]; [discriminate Hok | | discriminate Hok].
  exists entry. split; [reflexivity|]. clear Hok Hnames Hn Hnd.
  inversion Hrun; subst; [assumption | |];
    match goal with H : table_run _ _ _ _ _ [] _ [_] |- _ => inversion H end.
Defined.

Lemma generation_tour_witness :
  exists t, tour (pk_modules example_package) 0 t /\ length t = 8%nat
    /\ do_generate None 9 example_manager None 0 (example_package, example_sinks)
       = st_iter (generate_stop None example_manager None) t (example_package, example_sinks).
Proof.
  destruct (generation_tour None default_settings example_package example_sinks MemoryCodeSink
    example_manager None 9 example_reachable) as (t&Ht&Hn&Hin&H&_); [vm_compute; lia|].
  exists t. split; [exact Ht|]. split; [|exact H].
  assert (length (pk_modules example_package) = 4%nat) as Hl by (vm_compute; reflexivity).
  rewrite Hl in Hin. clear Ht Hl H.
  assert (Permutation t (map Enter (seq 0 4) ++ map Leave (seq 0 4))) as ->%Permutation_length;
    [|reflexivity].
  apply NoDup_Permutation; [exact Hn | |].
  - apply NoDup_app. split_and!.
    + apply (NoDup_fmap_2_strong Enter); [intros ? ? _ _ [=]; done | apply NoDup_seq].
    + intros s (x&->&_)%list_elem_of_fmap (y&E&_)%list_elem_of_fmap. discriminate E.
    + apply (NoDup_fmap_2_strong Leave); [intros ? ? _ _ [=]; done | apply NoDup_seq].
  - intros [i|i]; rewrite elem_of_app, !list_elem_of_fmap; setoid_rewrite elem_of_seq.
    + rewrite (proj1 (Hin i)). split; [intros ?; left; exists i; split; [done|lia]|].
      by intros [(x&[= ->]&?)|(x&[= ->]&?)]; lia.
    + rewrite (proj2 (Hin i)). split; [intros ?; right; exists i; split; [done|lia]|].
      by intros [(x&[= ->]&?)|(x&[= ->]&?)]; lia.
Defined.

Local Abbreviation example_generated :=
  (Module_generate None default_min_python_version (OutSink MemoryCodeSink false) None
     example_package).

Lemma generated_once_witness :
  is_ok example_generated.2 = true
  /\ Module_generate None default_min_python_version (OutSink MemoryCodeSink true) None
       example_generated.1 = (example_generated.1, Raise TypeError).
Proof.
  assert (is_ok example_generated.2 = true) as Hok by (vm_compute; reflexivity).
  split; [exact Hok|].
  assert (forall p r, Module_generate None default_min_python_version (OutSink MemoryCodeSink false)
      None example_package = (p, r) -> is_ok r = true ->
    Module_generate None default_min_python_version (OutSink MemoryCodeSink true) None p
      = (p, Raise TypeError)) as H.
  { intros p [ks|e] E Hr; [|discriminate Hr].
    apply (generated_once None default_settings example_package p default_min_python_version
      default_min_python_version (OutSink MemoryCodeSink false) (OutSink MemoryCodeSink true)
      None None ks example_reachable E).
    eexists _, _. reflexivity. }
  exact (H example_generated.1 example_generated.2 (surjective_pairing example_generated) Hok).
Defined.

(** A first request that generates its converter. *)
Definition example_converter : converter_state :=
  ((pk_shared example_root, demo_int), MemoryCodeSink).
Example first_converter :
  (generate_python_to_c_type_converter example_converter).2
  = Ok "_wrap_convert_py2c__int_const___amp__".
Proof. vm_compute. reflexivity. Qed.
