(* ===== verification/Containers.v ===== *)
(** * Wrapped containers: [Container] in [pybindgen/container.py]

    A container registers handlers for its type, gets its names with its module, and
    generates two types: the container, which is made from a list, and its iterator
    ([Iteration]).  Its handlers are in [ContainerHandlers]; what the modules share
    and the converters of the elements are those of [ModuleGen]. *)
From S2P Require Import Prelude.
From S2P Require Import Format.
From S2P Require Import CodeSink.
From S2P Require Import CodeBlock.
From S2P Require Import Wrapper.
From S2P Require Import CTypeParser.
From S2P Require Import TypeHandler.
From S2P Require Import TypeMatcher.
From S2P Require Import WrapperBase.
From S2P Require Import Utils.
From S2P Require Import PyTypeObject.
From S2P Require Import Settings.
From S2P Require Import CppException.
From S2P Require Import Converters.
From S2P Require Import Enum.
From S2P Require Import ClassModel.
From S2P Require Import ContainerHandlers.
From S2P Require Import Iteration.
From S2P Require Import ModuleBase.
From S2P Require Import ModuleGen.

(** ** Kinds of containers *)

Record container_traits : Type := ContainerTraits {
  add_value_method : string;
  is_mapping : bool
}.
Definition container_traits_list : gmap string container_traits :=
  list_to_map
    [("list", ContainerTraits "push_back" false); ("deque", ContainerTraits "push_back" false);
     ("queue", ContainerTraits "push" false); ("priority_queue", ContainerTraits "push" false);
     ("vector", ContainerTraits "push_back" false); ("stack", ContainerTraits "push" false);
     ("set", ContainerTraits "insert" false); ("multiset", ContainerTraits "insert" false);
     ("hash_set", ContainerTraits "insert" false); ("hash_multiset", ContainerTraits "insert" false);
     ("map", ContainerTraits "insert" true); ("dequeue", ContainerTraits "push_back" false)].

(** ** The state of a container *)

(** What the constructor stores.  A name that is qualified or a template is definitive;
    another one is in the namespace of the module. *)
Record container_config : Type := ContainerConfig {
  co_name : string;
  co_full_name_is_definitive : bool;
  co_traits : container_traits;
  co_custom_name : option string
}.

(** What [_update_names] sets; the full name may be there before. *)
Record container_names : Type := ContainerNames {
  cn_full_name : option string;
  cn_mangled_name : option string;
  cn_mangled_full_name : option string;
  cn_pystruct : option string;
  cn_pytypestruct : string;
  cn_iter_pystruct : option string;
  cn_iter_pytypestruct : string;
  cn_python_to_c_converter : option string
}.

Record container : Type := Container {
  co_config : container_config;
  co_module : option module_view;
  co_names : container_names;
  co_slots : gmap string string;
  co_iterator : iterator_state
}.
Definition set_container_names (m : option module_view) (names : container_names) (c : container)
    : container := Container (co_config c) m names (co_slots c) (co_iterator c).
Definition set_container_slots (slots : gmap string string) (c : container) : container :=
  Container (co_config c) (co_module c) (co_names c) slots (co_iterator c).
Definition set_iterator (s : iterator_state) (c : container) : container :=
  Container (co_config c) (co_module c) (co_names c) (co_slots c) s.
Definition set_converter (n : string) (c : container) : container :=
  let names := co_names c in
  set_container_names (co_module c)
    (ContainerNames (cn_full_name names) (cn_mangled_name names) (cn_mangled_full_name names)
       (cn_pystruct names) (cn_pytypestruct names) (cn_iter_pystruct names)
       (cn_iter_pytypestruct names) (Some n)) c.

(** The property [pystruct], and [iter_pystruct]. *)
Definition get_container_pystruct (c : container) : res string :=
  match cn_pystruct (co_names c) with None => Raise ValueError | Some n => Ok n end.
Definition get_iter_pystruct (c : container) : res string :=
  match cn_iter_pystruct (co_names c) with None => Raise ValueError | Some n => Ok n end.

(** What the handlers see. *)
Definition view_of (c : container) : container_view :=
  let names := co_names c in
  ContainerView (co_name (co_config c)) (str_opt (cn_full_name names)) (str_opt (cn_pystruct names))
    (cn_pytypestruct names) (str_opt (cn_python_to_c_converter names)).

(** ** Construction *)

Section construction.
Context {S K P R O1 O2 A1 A2 : Type} (no_kwargs : K)
  (new_value : list (@spec_item pyval K) -> K -> ST S value_type) (on_error : error_handler S)
  (param_of : container_param_kind -> P) (return_of : R).
Local Abbreviation matchers := (matcher P O1 A1 * matcher R O2 A2)%type.

(** [if '<' in name or '::' in name] *)
Definition qualified (name : string) : bool := str_in "<" name || bool_decide (is_Some (String.index 0 "::" name)).
Definition new_container (name : string) (traits : container_traits) (custom_name : option string)
    (key : option value_type) (element : value_type) : container :=
  Container
    (ContainerConfig (if qualified name then mangle_name name else name) (qualified name) traits custom_name)
    None
    (ContainerNames (if qualified name then Some name else None) None None None no_name None no_name None)
    ∅ (IteratorState ∅ key element).

(** A handler that is registered unless its type is known. *)
Definition register_container_param (name : string) (k : container_param_kind) : ST matchers unit :=
  ignore_value_error (on_fst (fun m => match register m name (param_of k) with
                                       | Ok m' => (m', Ok tt) | Raise e => (m, Raise e) end)).
Definition register_container_return (name : string) : ST matchers unit :=
  on_snd (fun m => match register m name return_of with
                   | Ok m' => (m', Ok tt) | Raise e => (m, Raise e) end).

Definition register_new_container (name : string) : ST matchers unit :=
  if String.eqb name "dummy" then st_ret tt
  else
    register_container_param name ContainerParameter ;;;
    register_container_param (name +:+ "&") ContainerRefParameter ;;;
    register_container_param (name +:+ "*") ContainerPtrParameter ;;;
    ignore_value_error (register_container_return name ;;; register_container_return name).

Definition Container_init (name : string) (value_type : element_types (K:=K)) (container_type : string)
    (custom_name : option string) : ST (S * matchers) container :=
  match container_traits_list !! container_type with
  | None => st_raise KeyError
  | Some traits =>
      types <- st_lift (key_and_element (is_mapping traits) value_type) ;;
      elements <- on_fst (eval_elements no_kwargs new_value on_error types) ;;
      on_snd (register_new_container name) ;;;
      st_ret (new_container name traits custom_name elements.1 elements.2)
  end.

(** ** Names *)

Context {M : Type} (register_type : string -> ST M unit) (g : settings) (outer : option outer_class).
Local Abbreviation naming := ((container * matchers) * M)%type.

(** [register_alias]: pointers are not registered again. *)
Definition register_container_alias (alias : string) : ST naming unit :=
  on_snd (register_type alias) ;;;
  c <- st_get (fun s => s.1.1) ;;
  if String.eqb (co_name (co_config c)) "dummy" then st_raise AttributeError
  else
    on_fst (on_snd
      (register_container_param alias ContainerParameter ;;;
       register_container_param (alias +:+ "&") ContainerRefParameter ;;;
       ignore_value_error (register_container_return alias))).

(** [ThisContainerReturn(full_name)], and the name of the converter to its type. *)
Definition this_container_return (c : container) : res container_return :=
  if String.eqb (co_name (co_config c)) "dummy" then Raise AttributeError
  else ContainerReturnValue_init (view_of c) (CString (str_opt (cn_full_name (co_names c)))) false.
Definition this_type_converter (c : container) : res string :=
  r <-? this_container_return c ;;
  Ok (python_to_c_type_converter_function_name (show (tt_ctype (kr_traits r)))).

Definition container_full_name (c : container) (m : module_view) : option string :=
  if co_full_name_is_definitive (co_config c) then cn_full_name (co_names c)
  else Some match outer with
            | None => in_namespace (mv_cpp_namespace_prefix m) (co_name (co_config c))
            | Some o => join "::" [oc_full_name o; co_name (co_config c)]
            end.

Definition names_of_container (c : container) (full_name : string) : container_names :=
  let mangled_full_name := mangle_name full_name in
  let pystruct := "Py" +:+ capitalize (name_prefix g) +:+ mangled_full_name in
  ContainerNames (Some full_name) (Some (flatten (co_name (co_config c)))) (Some mangled_full_name)
    (Some pystruct) (pystruct +:+ "_Type") (Some (pystruct +:+ "Iter"))
    (pystruct +:+ "Iter_Type") (cn_python_to_c_converter (co_names c)).

(** [set_module], which is [_update_names] for the module. *)
Definition container_set_module (m : module_view) : ST naming unit :=
  c <- st_get (fun s => s.1.1) ;;
  match container_full_name c m with
  | None => st_raise AttributeError
  | Some full_name =>
      on_fst (on_fst (st_modify (fun c => set_container_names (Some m) (names_of_container c full_name) c))) ;;;
      register_container_alias full_name ;;;
      c <- st_get (fun s => s.1.1) ;;
      converter <- st_lift (this_type_converter c) ;;
      on_fst (on_fst (st_modify (set_converter converter)))
  end.
End construction.

(** ** The C code *)

Section text.
Context (full_name pystruct pytypestruct iter_pystruct python_name : string).

Definition container_struct_text : string :=
  join nls [EmptyString; "typedef struct {"; "    PyObject_HEAD"; "    " +:+ full_name +:+ " *obj;";
            "} " +:+ pystruct +:+ ";"; "    "].
Definition iterator_struct_text : string :=
  join nls [EmptyString; "typedef struct {"; "    PyObject_HEAD"; "    " +:+ pystruct +:+ " *container;";
            "    " +:+ full_name +:+ "::iterator *iterator;"; "} " +:+ iter_pystruct +:+ ";"; "    "].

Definition get_container_delete_code : string :=
  join nls ["delete self->obj;"; "    self->obj = NULL;"; EmptyString].
Definition container_tp_dealloc_name : string := "_wrap_" +:+ pystruct +:+ "__tp_dealloc".
Definition container_tp_dealloc_text : string :=
  join nls [EmptyString; "static void"; container_tp_dealloc_name +:+ "(" +:+ pystruct +:+ " *self)"; "{";
            "    " +:+ get_container_delete_code; "    self->ob_type->tp_free((PyObject*)self);"; "}";
            EmptyString].

(** The converter to the type of the container. *)
Definition converter_prototype (func : string) : string :=
  "int " +:+ func +:+ "(PyObject *arg, " +:+ full_name +:+ " *container)".
Definition converter_head (func : string) : list string :=
  [EmptyString;
   converter_prototype func;
   "{";
   "    if (PyObject_IsInstance(arg, (PyObject*) &" +:+ pytypestruct +:+ ")) {";
   "        *container = *((" +:+ pystruct +:+ "*)arg)->obj;";
   "    } else if (PyList_Check(arg)) {";
   "        container->clear();";
   "        Py_ssize_t size = PyList_Size(arg);";
   "        for (Py_ssize_t i = 0; i < size; i++) {"].
Definition converter_tail (add_value item_ctype : string) : list string :=
  ["            container->" +:+ add_value +:+ "(item);";
   "        }";
   "    } else {";
   "        PyErr_SetString(PyExc_TypeError, " +:+ dq +:+ "parameter must be None, a " +:+ python_name
     +:+ " instance, or a list of " +:+ item_ctype +:+ dq +:+ ");";
   "        return 0;";
   "    }";
   "    return 1;";
   "}";
   EmptyString].
Definition sequence_converter_text (func item_ctype item_converter add_value : string) : string :=
  join nls (converter_head func ++
    ["            " +:+ item_ctype +:+ " item;";
     "            if (!" +:+ item_converter +:+ "(PyList_GET_ITEM(arg, i), &item)) {";
     "                return 0;";
     "            }"] ++ converter_tail add_value item_ctype).
Definition mapping_converter_text (func item_ctype item_converter key_ctype key_converter add_value : string)
    : string :=
  join nls (converter_head func ++
    ["            PyObject *tup = PyList_GET_ITEM(arg, i);";
     "            if (!PyTuple_Check(tup) || PyTuple_Size(tup) != 2) {";
     "                PyErr_SetString(PyExc_TypeError, " +:+ dq +:+ "items must be tuples with two elements"
       +:+ dq +:+ ");";
     "                return 0;";
     "            }";
     "            std::pair< " +:+ key_ctype +:+ ", " +:+ item_ctype +:+ " > item;";
     "            if (!" +:+ key_converter +:+ "(PyTuple_GET_ITEM(tup, 0), &item.first)) {";
     "                return 0;";
     "            }";
     "            if (!" +:+ item_converter +:+ "(PyTuple_GET_ITEM(tup, 1), &item.second)) {";
     "                return 0;";
     "            }"] ++ converter_tail add_value item_ctype).

Definition container_tp_init_name : string := "_wrap_" +:+ pystruct +:+ "__tp_init".
Definition container_tp_init_text (func : string) : string :=
  join nls
    [EmptyString;
     "static int";
     container_tp_init_name +:+ "(" +:+ pystruct +:+ " *self, PyObject *args, PyObject *kwargs)";
     "{";
     "    const char *keywords[] = {" +:+ dq +:+ "arg" +:+ dq +:+ ", NULL};";
     "    PyObject *arg = NULL;";
     EmptyString;
     "    if (!PyArg_ParseTupleAndKeywords(args, kwargs, (char *) " +:+ dq +:+ "|O" +:+ dq
       +:+ ", (char **) keywords, &arg)) {";
     "        return -1;";
     "    }";
     EmptyString;
     "    self->obj = new " +:+ full_name +:+ ";";
     EmptyString;
     "    if (arg == NULL)";
     "        return 0;";
     EmptyString;
     "    if (!" +:+ func +:+ "(arg, self->obj)) {";
     "        delete self->obj;";
     "        self->obj = NULL;";
     "        return -1;";
     "    }";
     "    return 0;";
     "}";
     EmptyString].
End text.

(** ** Generation *)

Section generation.
Context (g : settings) (outer : option outer_class).
Local Abbreviation kgen := ((container * shared) * code_sink)%type.

Definition this : ST kgen container := st_get (fun st => st.1.1).
Definition change (f : container -> container) : ST kgen unit := on_fst (on_fst (st_modify f)).
Definition in_root {A} (m : ST shared A) : ST kgen A := on_fst (on_snd m).
(** The blocks of the modules. *)
Definition in_root_blocks {A} (m : ST heap A) : ST kgen A :=
  in_root (fun s => let '(h, r) := m (sh_heap s) in
    (Shared h (sh_header s) (sh_body s) (sh_after_forward_declarations s) (sh_one_time_definitions s), r)).
Definition in_iterator {A} (m : ST (iterator_state * code_sink) A) : ST kgen A :=
  fun st => let '((s, k), r) := m (co_iterator st.1.1, st.2) in (((set_iterator s st.1.1, st.1.2), k), r).

Definition default_container_slot (key value : string) : ST kgen unit :=
  change (fun c => set_container_slots (setdefault (co_slots c) (key, value)) c).
Definition write_type_object (slots : gmap string string) : ST kgen unit :=
  on_snd (fun k => match PyTypeObject_generate slots k with Ok k' => (k', Ok tt) | Raise e => (k, Raise e) end).

(** [python_name] and [python_full_name] *)
Definition container_python_name (c : container) : option string :=
  match co_custom_name (co_config c) with Some n => Some n | None => cn_mangled_name (co_names c) end.
Definition container_python_full_name (c : container) : res string :=
  match outer with
  | None =>
      match co_module c, container_python_name c with
      | None, _ => Raise AttributeError
      | Some _, None => Raise TypeError
      | Some m, Some n => Ok (join "." (mv_path m ++ [n]))
      end
  | Some o =>
      match oc_tp_name o with
      | None => Raise KeyError
      | Some n => Ok (n +:+ "." +:+ str_opt (container_python_name c))
      end
  end.

(** The names of the iterator, for a container with its structures. *)
Definition iteration_of (c : container) : iteration_names :=
  let names := co_names c in
  IterationNames (str_opt (cn_pystruct names)) (str_opt (cn_full_name names))
    (str_opt (cn_iter_pystruct names)) (cn_iter_pytypestruct names)
    (name <-? container_python_full_name c ;; Ok (name +:+ "Iter")) "begin" "end" "iterator".
Definition with_pystructs {A} (k : container -> string -> string -> ST kgen A) : ST kgen A :=
  c <- this ;;
  pystruct <- st_lift (get_container_pystruct c) ;;
  iter_pystruct <- st_lift (get_iter_pystruct c) ;;
  k c pystruct iter_pystruct.

(** [generate_forward_declarations]: the converter is declared as a definition of its
    own, so that no other is generated. *)
Definition container_forward_declarations : ST kgen unit :=
  with_pystructs (fun c pystruct iter_pystruct =>
    let full_name := str_opt (cn_full_name (co_names c)) in
    sink_writeln (container_struct_text full_name pystruct) ;;;
    sink_writeln (iterator_struct_text full_name pystruct iter_pystruct) ;;;
    sink_writeln EmptyString ;;;
    sink_writeln ("extern PyTypeObject " +:+ cn_pytypestruct (co_names c) +:+ ";") ;;;
    sink_writeln ("extern PyTypeObject " +:+ cn_iter_pytypestruct (co_names c) +:+ ";") ;;;
    sink_writeln EmptyString ;;;
    converter <- st_lift (this_type_converter c) ;;
    in_root (declare_one_time_definition converter) ;;;
    sink_writeln (converter_prototype full_name converter +:+ ";") ;;;
    change (set_converter converter)).

(** "register the class type in the module" *)
Definition container_add_object (target name typestruct : string) : string :=
  target +:+ "(char *) " +:+ dq +:+ name +:+ dq +:+ ", (PyObject *) &" +:+ typestruct +:+ ");".
Definition register_container_types (m : module_view) : ST kgen unit :=
  let block := mv_after_init m in
  c <- this ;;
  let names := co_names c in
  let target := match outer with
                | None => "PyModule_AddObject(m, "
                | Some o => "PyDict_SetItemString((PyObject*) " +:+ oc_pytypestruct o +:+ ".tp_dict, "
                end in
  in_root_blocks (write_code block ("/* Register the '" +:+ str_opt (cn_full_name names) +:+ "' class */")) ;;;
  in_root_blocks (write_error_check block ("PyType_Ready(&" +:+ cn_pytypestruct names +:+ ")") None) ;;;
  in_root_blocks (write_error_check block ("PyType_Ready(&" +:+ cn_iter_pytypestruct names +:+ ")") None) ;;;
  in_root_blocks (write_code block
    (container_add_object target (str_opt (container_python_name c)) (cn_pytypestruct names))) ;;;
  match container_python_name c with
  | None => st_raise TypeError
  | Some n => in_root_blocks (write_code block (container_add_object target (n +:+ "Iter") (cn_iter_pytypestruct names)))
  end.

(** [_generate_gc_methods], [_generate_destructor] and [_generate_iter_methods] *)
Definition container_gc_methods : ST kgen unit :=
  with_pystructs (fun c _ _ => in_iterator (generate_iter_gc_methods (iteration_of c))).
Definition container_destructor : ST kgen unit :=
  with_pystructs (fun c pystruct _ =>
    sink_writeln (container_tp_dealloc_text pystruct) ;;;
    default_container_slot "tp_dealloc" (container_tp_dealloc_name pystruct) ;;;
    in_iterator (generate_iter_destructor (iteration_of c))).
Definition container_iter_methods : ST kgen unit :=
  with_pystructs (fun c _ _ =>
    sink_writeln (container_tp_iter_text (iteration_of c)) ;;;
    default_container_slot "tp_iter" (container_tp_iter_name (iteration_of c)) ;;;
    in_iterator (generate_iter_tp_iter (iteration_of c)) ;;;
    in_iterator (generate_iternext g (iteration_of c))).

(** The converter of the elements or of the keys. *)
Definition element_converter (get : iterator_state -> value_type)
    (put : value_type -> iterator_state -> iterator_state) : ST kgen string :=
  fun st =>
    let it := co_iterator st.1.1 in
    let '(((s, v), k), r) := generate_python_to_c_type_converter ((st.1.2, get it), st.2) in
    (((set_iterator (put v it) st.1.1, s), k), r).
Definition item_converter : ST kgen string :=
  element_converter is_value_type (fun v it => IteratorState (is_slots it) (is_key_type it) v).
Definition key_converter (key : value_type) : ST kgen string :=
  element_converter (fun _ => key) (fun v it => IteratorState (is_slots it) (Some v) (is_value_type it)).

(** [_generate_container_constructor] *)
Definition container_constructor : ST kgen unit :=
  with_pystructs (fun c pystruct _ =>
    let names := co_names c in
    let full_name := str_opt (cn_full_name names) in
    let it := co_iterator c in
    item_converter <- item_converter ;;
    key <- match is_key_type it with
           | None => st_ret None
           | Some key => n <- key_converter key ;; st_ret (Some (value_ctype key, n))
           end ;;
    func <- st_lift (this_type_converter c) ;;
    let python_name := str_opt (container_python_name c) in
    let add_value := add_value_method (co_traits (co_config c)) in
    let item_ctype := value_ctype (is_value_type it) in
    sink_writeln match key with
      | None =>
          sequence_converter_text full_name pystruct (cn_pytypestruct names) python_name func item_ctype
            item_converter add_value
      | Some (key_ctype, key_converter) =>
          mapping_converter_text full_name pystruct (cn_pytypestruct names) python_name func item_ctype
            item_converter key_ctype key_converter add_value
      end ;;;
    sink_writeln (container_tp_init_text full_name pystruct func) ;;;
    default_container_slot "tp_init" (container_tp_init_name pystruct)).

(** [_generate_type_structure]; the documentation string is not used. *)
Definition container_type_slots (c : container) (pystruct : string) : list (string * string) :=
  [("tp_basicsize", "sizeof(" +:+ pystruct +:+ ")"); ("tp_flags", "Py_TPFLAGS_DEFAULT");
   ("typestruct", cn_pytypestruct (co_names c))].
Definition default_container_slots (l : list (string * string)) : ST kgen unit :=
  st_iter (fun kv => default_container_slot kv.1 kv.2) l.
Definition container_type_structure : ST kgen unit :=
  with_pystructs (fun c pystruct _ =>
    default_container_slots (container_type_slots c pystruct) ;;;
    name <- st_lift (container_python_full_name c) ;;
    default_container_slot "tp_name" name ;;;
    c <- this ;;
    write_type_object (co_slots c) ;;;
    in_iterator (generate_iter_type_structure (iteration_of c) [])).

(** [generate] *)
Definition container_functions : ST kgen unit :=
  container_gc_methods ;;; container_destructor ;;; container_iter_methods.
Definition container_generate (m : module_view) : ST kgen unit :=
  register_container_types m ;;;
  container_functions ;;;
  container_constructor ;;;
  container_type_structure.
End generation.

(** ** What generation keeps, and the slots it fills *)

Section fills.
Context (g : settings) (outer : option outer_class).
Local Abbreviation kgen := ((container * shared) * code_sink)%type.
Local Abbreviation filled l slots := (fold_left setdefault l slots : gmap string string).

Record alike (c c' : container) : Prop := {
  al_config : co_config c' = co_config c;
  al_module : co_module c' = co_module c;
  al_names : co_names c' = co_names c
}.

Lemma alike_full_name c c' : alike c c' ->
  container_python_full_name outer c' = container_python_full_name outer c.
Proof. intros [E1 E2 E3]. unfold container_python_full_name, container_python_name. by rewrite E1, E2, E3. Qed.
Lemma alike_iteration c c' : alike c c' -> iteration_of outer c' = iteration_of outer c.
Proof. intros H. unfold iteration_of. rewrite (alike_full_name _ _ H). by destruct H as [_ _ ->]. Qed.

(** A successful run for a container like [c] fills in the slots of [l] and those of
    the iterator in [l'], unless they have a value. *)
Definition fills (c : container) {A} (m : ST kgen A) (l l' : list (string * string)) : Prop :=
  forall st st' a, alike c st.1.1 -> m st = (st', Ok a) ->
    alike c st'.1.1 /\ co_slots st'.1.1 = filled l (co_slots st.1.1)
    /\ is_slots (co_iterator st'.1.1) = filled l' (is_slots (co_iterator st.1.1)).

Lemma fills_bind c {A B} (m : ST kgen A) (k : A -> ST kgen B) l1 l1' l2 l2' :
  fills c m l1 l1' -> (forall a, fills c (k a) l2 l2') -> fills c (st_bind m k) (l1 ++ l2) (l1' ++ l2').
Proof.
  intros Hm Hk st st' b Hc (st1&a&E1&E2)%st_bind_Ok. destruct (Hm _ _ _ Hc E1) as (H1&S1&I1).
  destruct (Hk _ _ _ _ H1 E2) as (H2&S2&I2). rewrite !fold_left_app, <- S1, <- I1. by split_and!.
Qed.
Lemma fills_same c {A} (m : ST kgen A) : (forall st, (m st).1.1.1 = st.1.1) -> fills c m [] [].
Proof. intros H st st' a Hc E. specialize (H st). rewrite E in H. cbn in H. rewrite H. by split_and!. Qed.
Lemma fills_writeln c text : fills c (sink_writeln text) [] [].
Proof. apply fills_same. by intros []. Qed.
Lemma fills_lift c {A} (r : res A) : fills c (st_lift r) [] [].
Proof. apply fills_same. by intros []. Qed.
Lemma fills_ret c {A} (a : A) : fills c (st_ret a) [] [].
Proof. apply fills_same. by intros []. Qed.
Lemma fills_slot c key v : fills c (default_container_slot key v) [(key, v)] [].
Proof. intros [[c' s] k] st' a [] [= <-]. by split_and!. Qed.
Lemma fills_iterator c {A} (m : ST (iterator_state * code_sink) A) l : iter_fills m l -> fills c (in_iterator m) [] l.
Proof.
  intros H [[c' s] k] st' a Hc E. unfold in_iterator in E. cbn in E.
  destruct (m (co_iterator c', k)) as [[it k'] r] eqn:Em. injection E as <- ->.
  apply H in Em. destruct Hc. by split_and!.
Qed.
Lemma fills_pystructs c {A} (k : container -> string -> string -> ST kgen A) l l' p i :
  get_container_pystruct c = Ok p -> get_iter_pystruct c = Ok i ->
  (forall c', alike c c' -> fills c (k c' p i) l l') -> fills c (with_pystructs k) l l'.
Proof.
  intros Hp Hi H st st' a Hc E. pose proof Hc as [_ _ En]. unfold with_pystructs, st_bind, this, st_get, st_lift in E.
  unfold get_container_pystruct, get_iter_pystruct in *. rewrite En, Hp, Hi in E. exact (H _ Hc _ _ _ Hc E).
Qed.
Lemma fills_element c get put :
  (forall v it, is_slots (put v it) = is_slots it) -> fills c (element_converter get put) [] [].
Proof.
  intros H [[c' s] k] st' a Hc E. unfold element_converter in E. cbn [fst snd] in E.
  destruct (generate_python_to_c_type_converter _) as [[[s1 v] k1] r]. injection E as <- _.
  destruct Hc. split_and!; [by split | done | apply H].
Qed.
Lemma fills_item c : fills c item_converter [] [].
Proof. unfold item_converter. by apply fills_element. Qed.
Lemma fills_key c key : fills c (key_converter key) [] [].
Proof. unfold key_converter. by apply fills_element. Qed.

Section generated.
Context (c : container) (pystruct iter_pystruct : string)
  (Hp : get_container_pystruct c = Ok pystruct) (Hi : get_iter_pystruct c = Ok iter_pystruct).
Local Abbreviation n := (iteration_of outer c).

Lemma fills_register m : fills c (register_container_types outer m) [] [].
Proof.
  assert (forall A (f : ST heap A), fills c (in_root_blocks f) [] []) as Hb.
  { intros A f. apply fills_same. intros [[c' s] k]. unfold in_root_blocks, in_root, on_fst, on_snd. cbn.
    by destruct (f (sh_heap s)). }
  unfold register_container_types. apply (fills_bind c _ _ [] [] [] []); [by apply fills_same|]. intros c'.
  repeat (apply (fills_bind c _ _ [] [] [] []); [apply Hb|intros _]).
  destruct (container_python_name c'); [apply Hb|]. by apply fills_same.
Qed.

Lemma fills_functions :
  fills c (container_functions g outer)
    [("tp_dealloc", container_tp_dealloc_name pystruct); ("tp_iter", container_tp_iter_name n)]
    (iter_function_slots n).
Proof.
  unfold container_functions.
  apply (fills_bind c _ _ [] [("tp_clear", iter_tp_clear_name n); ("tp_traverse", iter_tp_traverse_name n)]
    [("tp_dealloc", container_tp_dealloc_name pystruct); ("tp_iter", container_tp_iter_name n)]
    [("tp_dealloc", iter_tp_dealloc_name n); ("tp_iter", iter_tp_iter_name n); ("tp_iternext", iternext_name n)]);
    [|intros _; apply (fills_bind c _ _ [("tp_dealloc", container_tp_dealloc_name pystruct)]
      [("tp_dealloc", iter_tp_dealloc_name n)] [("tp_iter", container_tp_iter_name n)]
      [("tp_iter", iter_tp_iter_name n); ("tp_iternext", iternext_name n)]); [|intros _]].
  all: eapply fills_pystructs; [exact Hp|exact Hi|]; intros c' Hc; rewrite <- (alike_iteration _ _ Hc).
  - apply fills_iterator, iter_fills_gc.
  - apply (fills_bind c _ _ [] [] [_] [_]); [apply fills_writeln|intros _].
    apply (fills_bind c _ _ [_] [] [] [_]); [apply fills_slot|intros _]. apply fills_iterator, iter_fills_destructor.
  - apply (fills_bind c _ _ [] [] [_] [_; _]); [apply fills_writeln|intros _].
    apply (fills_bind c _ _ [_] [] [] [_; _]); [apply fills_slot|intros _].
    apply (fills_bind c _ _ [] [_] [] [_]); [|intros _]; apply fills_iterator;
      [apply iter_fills_tp_iter | apply iter_fills_iternext].
Qed.

Lemma fills_constructor : fills c container_constructor [("tp_init", container_tp_init_name pystruct)] [].
Proof.
  eapply fills_pystructs; [exact Hp|exact Hi|]. intros c' Hc.
  apply (fills_bind c _ _ [] [] [_] []); [apply fills_item|intros item].
  apply (fills_bind c _ _ [] [] [_] []); [|intros key].
  { destruct (is_key_type (co_iterator c')); [|apply fills_ret].
    apply (fills_bind c _ _ [] [] [] []); [apply fills_key|intros; apply fills_ret]. }
  apply (fills_bind c _ _ [] [] [_] []); [apply fills_lift|intros func].
  apply (fills_bind c _ _ [] [] [_] []); [apply fills_writeln|intros _].
  apply (fills_bind c _ _ [] [] [_] []); [apply fills_writeln|intros _; apply fills_slot].
Qed.

(** ** The type objects *)

Lemma default_container_slots_run l : forall c s k,
  default_container_slots l ((c, s), k) = (((set_container_slots (filled l (co_slots c)) c, s), k), Ok tt).
Proof.
  induction l as [|[key v] l IH]; intros c' s k; [by destruct c'|].
  unfold default_container_slots in *. cbn. unfold st_bind. cbn. by rewrite IH.
Qed.

Lemma container_type_structure_run c' s k name :
  alike c c' -> container_python_full_name outer c = Ok name ->
  let slots := filled (container_type_slots c pystruct ++ [("tp_name", name)]) (co_slots c') in
  let iter_slots := filled (iter_type_slots n ++ [("tp_name", name +:+ "Iter")]) (is_slots (co_iterator c')) in
  exists c'' text1 text2,
    container_type_structure outer ((c', s), k) = (((c'', s), writeln (writeln k text1) text2), Ok tt)
    /\ co_slots c'' = slots /\ is_slots (co_iterator c'') = iter_slots
    /\ object_text slots text1 /\ object_text iter_slots text2.
Proof.
  intros Hc Hn slots iter_slots. pose proof Hc as [_ _ En].
  destruct (type_object_run (container_type_slots c pystruct ++ [("tp_name", name)]) (co_slots c') k)
    as (text1&E1&H1); [reflexivity|]. fold slots in E1, H1.
  destruct (iter_type_structure_run n [] (name +:+ "Iter") (co_iterator c') (writeln k text1)) as (text2&E2&H2).
  { unfold iteration_of. cbn [in_iter_python_full_name]. by rewrite Hn. }
  fold iter_slots in E2, H2.
  exists (set_iterator (with_iter_slots iter_slots (co_iterator c')) (set_container_slots slots c')), text1, text2.
  split_and!; [|done..].
  unfold container_type_structure, with_pystructs, st_bind at 1, this, st_get at 1. cbn [fst snd].
  unfold get_container_pystruct, get_iter_pystruct in *. unfold st_bind at 1, st_lift at 1. rewrite En, Hp.
  unfold st_bind at 1, st_lift at 1. rewrite Hi. unfold st_bind at 1. rewrite default_container_slots_run.
  unfold st_bind at 1, st_lift at 1. rewrite (alike_full_name _ _ Hc), Hn. unfold st_bind at 1.
  unfold default_container_slot at 1, change at 1, on_fst, st_modify. cbn [fst snd].
  unfold st_bind at 1, st_get at 1, st_bind at 1, write_type_object, on_snd. cbn [fst snd set_container_slots co_slots].
  unfold slots in *. rewrite fold_left_app in *. unfold container_type_slots in *. rewrite En.
  cbn [fold_left] in E1 |- *. rewrite E1. cbn [fst snd].
  unfold in_iterator. cbn [fst snd].
  erewrite (alike_iteration c) by by destruct Hc. cbn [co_iterator set_container_slots]. by rewrite E2.
Qed.

(** C32: The types of a container.  When a container with a module has been generated, its
    code ends with the two type objects, of the container and of its iterator, complete
    for every key of the template.  A slot the user filled keeps its value; the
    others name the functions that were generated for them, or have what is computed
    from the names of the container. *)
Theorem container_generated (m : module_view) (name : string) (st st' : kgen) :
  container_python_full_name outer c = Ok name -> alike c st.1.1 ->
  container_generate g outer m st = (st', Ok tt) ->
  let own := [("tp_dealloc", container_tp_dealloc_name pystruct); ("tp_iter", container_tp_iter_name n);
              ("tp_init", container_tp_init_name pystruct)]
             ++ container_type_slots c pystruct ++ [("tp_name", name)] in
  let iterator := iter_function_slots n ++ iter_type_slots n ++ [("tp_name", name +:+ "Iter")] in
  exists k text1 text2, st'.2 = writeln (writeln k text1) text2
    /\ object_text (co_slots st'.1.1) text1 /\ object_text (is_slots (co_iterator st'.1.1)) text2
    /\ forall key,
         co_slots st'.1.1 !! key = match co_slots st.1.1 !! key with
                                   | Some v => Some v
                                   | None => (list_to_map own : gmap string string) !! key
                                   end
         /\ is_slots (co_iterator st'.1.1) !! key
            = match is_slots (co_iterator st.1.1) !! key with
              | Some v => Some v
              | None => (list_to_map iterator : gmap string string) !! key
              end.
Proof.
  intros Hn Hc E own iterator. unfold container_generate in E.
  apply st_bind_Ok in E as (st1&[]&E1&E). destruct (fills_register m _ _ _ Hc E1) as (H1&S1&I1).
  apply st_bind_Ok in E as (st2&[]&E2&E). destruct (fills_functions _ _ _ H1 E2) as (H2&S2&I2).
  apply st_bind_Ok in E as ([[c3 s3] k3]&[]&E3&E). destruct (fills_constructor _ _ _ H2 E3) as (H3&S3&I3).
  destruct (container_type_structure_run c3 s3 k3 name H3 Hn) as (c4&text1&text2&E4&S4&I4&T1&T2).
  rewrite E4 in E. injection E as <-. exists k3, text1, text2. cbn [fst snd] in *.
  rewrite <- S4 in T1. rewrite <- I4 in T2. split_and!; [done..|]. intros key. cbn [fold_left] in S1, I1, I3.
  rewrite S4, S3, S2, S1, I4, I3, I2, I1, <- !fold_left_app, !lookup_setdefaults.
  by split.
Qed.
End generated.
End fills.

(** ** The converter of a container *)

Section converter.
Context (g : settings) (outer : option outer_class).
Local Abbreviation kgen := ((container * shared) * code_sink)%type.

Lemma alike_converter c c' : alike c c' -> this_type_converter c' = this_type_converter c.
Proof.
  intros [E1 _ E3]. unfold this_type_converter, this_container_return, ContainerReturnValue_init,
    fix_container_ctype, view_of. cbn [kv_name kv_full_name]. by rewrite E1, E3.
Qed.
Lemma set_converter_return func c : this_type_converter (set_converter func c) = this_type_converter c.
Proof. done. Qed.

Lemma container_forward_run (st st' : kgen) :
  container_forward_declarations st = (st', Ok tt) ->
  exists func pystruct iter_pystruct k, this_type_converter st.1.1 = Ok func
    /\ get_container_pystruct st.1.1 = Ok pystruct /\ get_iter_pystruct st.1.1 = Ok iter_pystruct
    /\ st'.1.1 = set_converter func st.1.1
    /\ func ∈ sh_one_time_definitions st'.1.2
    /\ st'.2 = writeln k (converter_prototype (str_opt (cn_full_name (co_names st.1.1))) func +:+ ";").
Proof.
  destruct st as [[c s] k]. unfold container_forward_declarations, with_pystructs.
  intros (x1&c1&E1&E)%st_bind_Ok. injection E1 as <- <-.
  apply st_bind_Ok in E as (x2&p&E2&E). injection E2 as <- E2.
  apply st_bind_Ok in E as (x3&i&E3&E). injection E3 as <- E3.
  do 6 (apply st_bind_Ok in E as (?&[]&F&E); injection F as <-).
  apply st_bind_Ok in E as (x4&func&E4&E). injection E4 as <- E4. cbn [fst snd] in E4 |- *.
  apply st_bind_Ok in E as (x5&[]&E5&E). unfold in_root, on_fst, on_snd, declare_one_time_definition in E5.
  cbn [fst snd] in E5. destruct (bool_decide _); [discriminate E5|]. injection E5 as <-.
  apply st_bind_Ok in E as (x6&[]&E6&E). injection E6 as <-. injection E as <-.
  eexists func, p, i, _. split_and!; [done..| |reflexivity]. cbn. set_solver.
Qed.

Lemma container_forward_again (st : kgen) func pystruct iter_pystruct :
  this_type_converter st.1.1 = Ok func -> get_container_pystruct st.1.1 = Ok pystruct ->
  get_iter_pystruct st.1.1 = Ok iter_pystruct -> func ∈ sh_one_time_definitions st.1.2 ->
  (container_forward_declarations st).2 = Raise KeyError.
Proof.
  destruct st as [[c s] k]. cbn [fst snd]. intros Hf Hp Hi Hd.
  unfold container_forward_declarations, with_pystructs, this, sink_writeln, st_get, st_lift, on_snd, on_fst, st_modify, st_bind.
  cbn [fst snd]. rewrite Hp, Hi, Hf. cbn [fst snd].
  unfold in_root, on_fst, on_snd, declare_one_time_definition. cbn [fst snd]. by rewrite bool_decide_true.
Qed.

Lemma container_constructor_run (st st' : kgen) func pystruct :
  this_type_converter st.1.1 = Ok func -> get_container_pystruct st.1.1 = Ok pystruct ->
  container_constructor st = (st', Ok tt) ->
  let full_name := str_opt (cn_full_name (co_names st.1.1)) in
  exists k rest,
    st'.2 = writeln (writeln k (join nls (converter_head full_name pystruct
              (cn_pytypestruct (co_names st.1.1)) func ++ rest))) (container_tp_init_text full_name pystruct func).
Proof.
  destruct st as [[c s] k]. intros Hf Hp. unfold container_constructor, with_pystructs. cbn [fst snd] in *.
  intros (x1&c1&E1&E)%st_bind_Ok. injection E1 as <- <-.
  apply st_bind_Ok in E as (x2&p&E2&E). injection E2 as <- E2. cbn [fst snd] in E2. rewrite Hp in E2. injection E2 as <-.
  apply st_bind_Ok in E as (x3&i&E3&E). injection E3 as <- E3.
  apply st_bind_Ok in E as (x4&item&E4&E). apply st_bind_Ok in E as (x5&key&E5&E).
  apply st_bind_Ok in E as (x6&f&E6&E). injection E6 as <- E6. cbn [fst snd] in E6. rewrite Hf in E6. injection E6 as <-.
  apply st_bind_Ok in E as (x7&[]&E7&E). injection E7 as <-.
  apply st_bind_Ok in E as (x8&[]&E8&E). injection E8 as <-. injection E as <-.
  cbn [fst snd]. destruct key as [[kt kc]|]; eexists _, _; reflexivity.
Qed.

(** One converter for a container.  Once its forward declarations are written, the function
    that converts to its type is declared and taken: the module generates no other
    under that name, for whatever handler, and the declarations cannot be written
    again.  The constructor of the container then defines it, with the prototype
    that was declared, and calls it. *)
Theorem container_converter_is_own (st st1 : kgen) :
  container_forward_declarations st = (st1, Ok tt) ->
  exists func pystruct, this_type_converter st.1.1 = Ok func /\ get_container_pystruct st.1.1 = Ok pystruct
    /\ cn_python_to_c_converter (co_names st1.1.1) = Some func
    /\ (let full_name := str_opt (cn_full_name (co_names st.1.1)) in
        (exists k, st1.2 = writeln k (converter_prototype full_name func +:+ ";"))
        /\ forall st2 st3 : kgen, alike st1.1.1 st2.1.1 -> container_constructor st2 = (st3, Ok tt) ->
           exists k rest, st3.2 = writeln (writeln k (join nls (EmptyString :: converter_prototype full_name func
                                    :: rest))) (container_tp_init_text full_name pystruct func))
    /\ (forall v k, python_to_c_type_converter_function_name (value_ctype v) = func ->
          generate_python_to_c_type_converter ((st1.1.2, v), k) = (((st1.1.2, v), k), Ok func))
    /\ (container_forward_declarations st1).2 = Raise KeyError.
Proof.
  intros E. destruct (container_forward_run _ _ E) as (func&pystruct&iter_pystruct&k&Hf&Hp&Hi&Hc&Hd&Hk).
  exists func, pystruct. split_and!; [done|done|by rewrite Hc| | |].
  - split; [by exists k|]. intros st2 st3 Ha E3.
    assert (this_type_converter st2.1.1 = Ok func) as Hf2 by by rewrite (alike_converter _ _ Ha), Hc.
    destruct Ha as [_ _ En]. rewrite Hc in En.
    assert (get_container_pystruct st2.1.1 = Ok pystruct) as Hp2 by (unfold get_container_pystruct in *; by rewrite En).
    destruct (container_constructor_run _ _ _ _ Hf2 Hp2 E3) as (k3&rest&Hk3). rewrite En in Hk3.
    eexists k3, _. exact Hk3.
  - intros v k1 <-. by apply (converter_known (fun v => python_to_c_type_converter_function_name (value_ctype v))).
  - apply (container_forward_again st1 func pystruct iter_pystruct);
      [by rewrite Hc | unfold get_container_pystruct in *; by rewrite Hc
      | unfold get_iter_pystruct in *; by rewrite Hc | done].
Qed.
End converter.

(** ** The types a container registers *)

(** A handler for a type, unless there is one. *)
Definition learn {C} (name : string) (h : C) (types : gmap string C) : gmap string C :=
  match normalize_type_string name with
  | Raise _ => types
  | Ok n => match types !! n with Some _ => types | None => <[n := h]> types end
  end.

Section alias.
Context {P R O1 O2 A1 A2 M : Type} (param_of : container_param_kind -> P) (return_of : R)
  (register_type : string -> ST M unit).
Local Abbreviation matchers := (matcher P O1 A1 * matcher R O2 A2)%type.
Implicit Types s : matchers.

Lemma register_learns {C Ob Ar} name (h : C) (m m' : matcher C Ob Ar) :
  register m name h = Ok m' -> tm_types m' = learn name h (tm_types m).
Proof.
  unfold register, learn. destruct (normalize_type_string name) as [n|e]; [|done]. cbn.
  destruct (tm_types m !! n); [done|]. by intros [= <-].
Qed.
Lemma register_knew {C Ob Ar} name (h : C) (m : matcher C Ob Ar) e :
  register m name h = Raise e -> tm_types m = learn name h (tm_types m).
Proof.
  unfold register, learn. destruct (normalize_type_string name) as [n|]; [|done]. cbn.
  by destruct (tm_types m !! n).
Qed.

Lemma register_container_param_learns name k s s' r :
  register_container_param param_of name k s = (s', r) ->
  tm_types s'.1 = learn name (param_of k) (tm_types s.1) /\ s'.2 = s.2.
Proof.
  destruct s as [mp mr]. unfold register_container_param, ignore_value_error, st_catch, on_fst. cbn [fst snd].
  destruct (register mp name (param_of k)) as [m'|e] eqn:E.
  - intros [= <- _]. split; [|done]. by eapply register_learns.
  - intros H. assert (s' = (mp, mr)) as -> by (destruct e; by injection H as <- _).
    split; [|done]. by eapply register_knew.
Qed.
Lemma register_return_learns name s s' r :
  ignore_value_error (register_container_return return_of name) s = (s', r) ->
  tm_types s'.2 = learn name return_of (tm_types s.2) /\ s'.1 = s.1.
Proof.
  destruct s as [mp mr]. unfold register_container_return, ignore_value_error, st_catch, on_snd. cbn [fst snd].
  destruct (register mr name return_of) as [m'|e] eqn:E.
  - intros [= <- _]. split; [|done]. by eapply register_learns.
  - intros H. assert (s' = (mp, mr)) as -> by (destruct e; by injection H as <- _).
    split; [|done]. by eapply register_knew.
Qed.

Lemma learn_other {C} name (h : C) types n : normalize_type_string name <> Ok n -> learn name h types !! n = types !! n.
Proof.
  unfold learn. intros H. destruct (normalize_type_string name) as [n'|]; [|done].
  destruct (types !! n'); [done|]. apply lookup_insert_ne. congruence.
Qed.

(** The types of a container.  When a container gets its full name, the name and a
    reference to it become known as parameters and the name as a return value, each
    by a handler of this container unless the type was known before.  Nothing else
    changes; in particular a pointer to the full name stays unknown, although the
    constructor registered a pointer to the name it was given. *)
Theorem container_alias_types (alias : string) (s s' : (container * matchers) * M) :
  register_container_alias param_of return_of register_type alias s = (s', Ok tt) ->
  s'.1.1 = s.1.1
  /\ tm_types s'.1.2.1 = learn (alias +:+ "&") (param_of ContainerRefParameter)
                           (learn alias (param_of ContainerParameter) (tm_types s.1.2.1))
  /\ tm_types s'.1.2.2 = learn alias return_of (tm_types s.1.2.2)
  /\ forall n, normalize_type_string (alias +:+ "*") = Ok n ->
       normalize_type_string alias <> Ok n -> normalize_type_string (alias +:+ "&") <> Ok n ->
       tm_types s'.1.2.1 !! n = tm_types s.1.2.1 !! n.
Proof.
  destruct s as [[c ms] mo]. unfold register_container_alias. intros E.
  apply st_bind_Ok in E as (x1&[]&E1&E). unfold on_snd in E1. cbn [fst snd] in E1.
  destruct (register_type alias mo) as [mo' r1]. injection E1 as <- ->.
  apply st_bind_Ok in E as (x2&c2&E2&E). injection E2 as <- <-. cbn [fst snd] in E.
  destruct (String.eqb _ _); [discriminate E|]. unfold on_fst at 1, on_snd at 1 in E. cbn [fst snd] in E.
  match type of E with context [let '(_, _) := ?m ms in _] => destruct (m ms) as [ms' r] eqn:Em end.
  injection E as <- ->. cbn [fst snd].
  apply st_bind_Ok in Em as (m1&[]&E3&Em). apply st_bind_Ok in Em as (m2&[]&E4&E5).
  apply register_container_param_learns in E3 as [P1 R1]. apply register_container_param_learns in E4 as [P2 R2].
  apply register_return_learns in E5 as [R3 P3].
  assert (tm_types ms'.1 = learn (alias +:+ "&") (param_of ContainerRefParameter)
            (learn alias (param_of ContainerParameter) (tm_types ms.1))) as Hp by by rewrite P3, P2, P1.
  split_and!; [done|done|by rewrite R3, R2, R1|]. intros n _ H1 H2. by rewrite Hp, !learn_other.
Qed.
End alias.

(** ** Examples *)

Definition demo_root_view : module_view := ModuleView "mod" "ns" ["mod"] 1.
Definition demo_names (full_name : string) : container -> container :=
  fun c => set_container_names (Some demo_root_view) (names_of_container default_settings c full_name) c.
Definition demo_element : value_type := demo_int.
Definition demo_container : container :=
  demo_names "std::vector<int>"
    (new_container "std::vector<int>" (ContainerTraits "push_back" false) (Some "VecInt") None demo_element).
Definition demo_shared : shared := pk_shared example_root.
Definition demo_kgen : (container * shared) * code_sink := ((demo_container, demo_shared), MemoryCodeSink).

Lemma container_generated_witness :
  exists st', container_generate default_settings None demo_root_view demo_kgen = (st', Ok tt)
    /\ co_slots st'.1.1 !! "tp_init" = Some "_wrap_Pystd__vector__lt__int__gt____tp_init"
    /\ is_slots (co_iterator st'.1.1) !! "tp_iternext" = Some "_wrap_Pystd__vector__lt__int__gt__Iter__tp_iternext".
Proof.
  destruct (container_generate default_settings None demo_root_view demo_kgen) as [st' r] eqn:E.
  assert (r = Ok tt) as -> by (revert E; vm_compute; congruence).
  destruct (container_generated default_settings None demo_container "Pystd__vector__lt__int__gt__"
    "Pystd__vector__lt__int__gt__Iter" eq_refl eq_refl demo_root_view "mod.VecInt" demo_kgen st' eq_refl
    (Build_alike demo_container demo_container eq_refl eq_refl eq_refl) E) as (k&t1&t2&_&_&_&H).
  exists st'. split; [reflexivity|]. split; apply H.
Defined.

Definition demo_declared : (container * shared) * code_sink := (container_forward_declarations demo_kgen).1.

Lemma container_converter_is_own_witness :
  is_ok (container_forward_declarations demo_kgen).2 = true
  /\ (container_forward_declarations demo_declared).2 = Raise KeyError.
Proof.
  assert (container_forward_declarations demo_kgen = (demo_declared, Ok tt)) as E by (vm_compute; reflexivity).
  split; [by rewrite E|].
  destruct (container_converter_is_own demo_kgen demo_declared E) as (func&p&_&_&_&_&_&H). exact H.
Defined.

Local Abbreviation demo_registration :=
  (register_container_alias (O1:=unit) (O2:=unit) (A1:=unit) (A2:=unit) (M:=unit) id tt (fun _ => st_ret tt)
     "ns::Vec" ((demo_container, (TypeMatcher, TypeMatcher)), tt)).
Lemma container_alias_types_witness :
  exists s', demo_registration = (s', Ok tt)
    /\ tm_types s'.1.2.1 !! "ns::Vec" = Some ContainerParameter
    /\ tm_types s'.1.2.1 !! "ns::Vec *" = None.
Proof.
  destruct demo_registration as [s' r] eqn:E.
  assert (r = Ok tt) as -> by (revert E; vm_compute; congruence).
  destruct (container_alias_types id tt (fun _ => st_ret tt) "ns::Vec" _ s' E) as (_&Hp&_&H).
  exists s'. split; [reflexivity|]. split; [by rewrite Hp|].
  rewrite H; [reflexivity|by vm_compute|by vm_compute|by vm_compute].
Defined.
