(* ===== verification/Annotations.v ===== *)
(** * Annotations: the [AnnotationsScanner] of [pybindgen/gccxmlparser.py]

    Declarations of a header may be preceded by comments that say how to wrap them:
    [// -#- name=value; @param(name=value,name=value) -#-].  The scanner reads them
    upwards from the line before a declaration.  Its regular expressions are
    functions here; [greedy] is a starred class of characters that gives
    characters back until what follows matches.

    The files are a parameter, as are the declarations of [pygccxml]: of those only
    the location is looked at, and whether the compiler made them up. *)
From S2P Require Import Prelude.
From S2P Require Import Format.

(** ** Regular expressions *)

(** [\w] *)
Definition word_char (c : ascii) : bool :=
  isdigit c || islower c || isupper c || Ascii.eqb c "_".
(** [[^\s;]] and [[^;]]; a dot is [not_newline]. *)
Definition value_char (c : ascii) : bool := negb (isspace c) && negb (Ascii.eqb c ";").
Definition param_char (c : ascii) : bool := negb (Ascii.eqb c ";").
Definition not_newline (c : ascii) : bool := negb (Ascii.eqb c nl).

(** [s.lstrip()], which is also what follows [\s*], and [s.strip()] *)
Fixpoint lstrip_str (s : string) : string :=
  match s with
  | EmptyString => EmptyString
  | String c s' => if isspace c then lstrip_str s' else s
  end.
Definition strip (s : string) : string := lstrip_str (rstrip s).

(** The text after a literal *)
Fixpoint after_prefix (p s : string) : option string :=
  match p, s with
  | EmptyString, _ => Some s
  | String a p', String b s' => if Ascii.eqb a b then after_prefix p' s' else None
  | _, _ => None
  end.

(** The longest run of a class of characters, and what follows it *)
Fixpoint run (p : ascii -> bool) (s : string) : string * string :=
  match s with
  | EmptyString => (EmptyString, EmptyString)
  | String c s' => if p c then let '(x, y) := run p s' in (String c x, y) else (EmptyString, s)
  end.

(** What [p*] takes when what follows it has to satisfy [ok] *)
Fixpoint greedy (p : ascii -> bool) (ok : string -> bool) (s : string) : option string :=
  match s with
  | EmptyString => if ok EmptyString then Some EmptyString else None
  | String c s' =>
      match (if p c then greedy p ok s' else None) with
      | Some x => Some (String c x)
      | None => if ok s then Some EmptyString else None
      end
  end.

(** At least one blank, the mark [-#-] and any text that [ok] can follow *)
Definition marked_text (ok : string -> bool) (s : string) : option string :=
  match s with
  | String c _ =>
      if isspace c then r ← after_prefix "-#-" (lstrip_str s); greedy not_newline ok r else None
  | EmptyString => None
  end.

Definition ends_line_comment (s : string) : bool := startswith "-#-" s.
Definition ends_block_comment (s : string) : bool :=
  match after_prefix "-#-" s with
  | Some r => startswith "*/" (lstrip_str r)
  | None => false
  end.

(** [self._comment_rx.match(line)]: [annotation1] if it took part, else [annotation2].
    Only the first alternative skips the blanks at the start of the line. *)
Definition comment_match (line : string) : option string :=
  match r ← after_prefix "//" (lstrip_str line); marked_text ends_line_comment r with
  | Some s => Some s
  | None => r ← after_prefix "/*" line; marked_text ends_block_comment r
  end.

(** [self._global_annotation_rx.match(s)]: the two groups *)
Definition global_annotation (s : string) : option (string * option string) :=
  match run word_char s with
  | (EmptyString, _) => None
  | (name, String c r) =>
      Some (name,
        if Ascii.eqb c "=" then
          match run value_char r with
          | (EmptyString, _) => None
          | (value, _) => Some value
          end
        else None)
  | (name, EmptyString) => Some (name, None)
  end.

(** [self._param_annotation_rx.match(s)]: the two groups *)
Definition param_annotation (s : string) : option (string * string) :=
  s ← after_prefix "@" s;
  match run word_char s with
  | (EmptyString, _) => None
  | (name, r) =>
      r ← after_prefix "(" r;
      match r with
      | String c r' =>
          if param_char c then
            x ← greedy param_char (startswith ")") r'; Some (name, String c x)
          else None
      | EmptyString => None
      end
  end.

(** ** The scanner *)

(** The value of an annotation.  The scanner makes no integers, but a hook may. *)
Inductive ann_value : Type :=
  | NoValue
  | IntValue (z : Z)
  | StrValue (s : string).

Definition value_of_group (g : option string) : ann_value :=
  match g with None => NoValue | Some s => StrValue s end.

Definition annotations : Type := gmap string ann_value.
(** [(global_annotations, parameter_annotations)] *)
Definition all_annotations : Type := annotations * gmap string annotations.

(** [warnings.warn_explicit(message, AnnotationsWarning, file_name, line)] *)
Record ann_warning : Type := AnnWarning {
  aw_message : string;
  aw_file : string;
  aw_line : Z
}.

Record scanner : Type := Scanner {
  sc_files : gmap string (list string);
  sc_used_annotations : gmap string (list Z);
  sc_warnings : list ann_warning
}.
Definition AnnotationsScanner : scanner := Scanner ∅ ∅ [].

Definition ann_warn (message file : string) (line : Z) : ST scanner unit :=
  st_modify (fun s => Scanner (sc_files s) (sc_used_annotations s)
                        (sc_warnings s ++ [AnnWarning message file line])).

Definition declare_used_annotation (file_name : string) (line_number : Z) : ST scanner unit :=
  st_modify (fun s =>
    let l := default [] (sc_used_annotations s !! file_name) in
    Scanner (sc_files s) (<[file_name := l ++ [line_number]]> (sc_used_annotations s)) (sc_warnings s)).

(** [lines[i]], with Python's negative indices *)
Definition line_at (lines : list string) (i : Z) : res string :=
  let j := if i <? 0 then i + Z.of_nat (length lines) else i in
  if j <? 0 then Raise IndexError
  else match lines !! Z.to_nat j with Some l => Ok l | None => Raise IndexError end.

(** The elements between the parentheses of a parameter annotation *)
Fixpoint parse_elements (file_name : string) (line_number : Z) (l : list string) (d : annotations)
    : ST scanner annotations :=
  match l with
  | [] => st_ret d
  | p :: l' =>
      match global_annotation (strip p) with
      | Some (name, value) =>
          parse_elements file_name line_number l' (<[name := value_of_group value]> d)
      | None =>
          ann_warn ("could not parse " +:+ py_repr (strip p) +:+ " as parameter annotation element")
            file_name line_number ;;;
          parse_elements file_name line_number l' d
      end
  end.

(** The annotations of one comment, separated by semicolons *)
Fixpoint parse_annotations (file_name : string) (line_number : Z) (l : list string)
    (anns : all_annotations) : ST scanner all_annotations :=
  match l with
  | [] => st_ret anns
  | a :: l' =>
      let annotation_str := strip a in
      match global_annotation annotation_str with
      | Some (name, value) =>
          parse_annotations file_name line_number l' (<[name := value_of_group value]> anns.1, anns.2)
      | None =>
          match param_annotation annotation_str with
          | Some (name, elements) =>
              d <- parse_elements file_name line_number (split_on "," elements) ∅ ;;
              parse_annotations file_name line_number l' (anns.1, <[name := d]> anns.2)
          | None =>
              ann_warn ("could not parse " +:+ py_repr annotation_str) file_name line_number ;;;
              parse_annotations file_name line_number l' anns
          end
      end
  end.

(** The loop over the lines, upwards; [line_number] is an index into [lines]. *)
Fixpoint annotation_lines (fuel : nat) (lines : list string) (file_name : string) (line_number : Z)
    (anns : all_annotations) : ST scanner all_annotations :=
  match fuel with
  | O => st_raise OutOfFuel
  | S fuel' =>
      line <- st_lift (line_at lines line_number) ;;
      match comment_match line with
      | None => st_ret anns
      | Some s =>
          declare_used_annotation file_name (line_number + 1) ;;;
          anns <- parse_annotations file_name (line_number - 1) (split_on ";" (strip s)) anns ;;
          annotation_lines fuel' lines file_name (line_number - 1) anns
      end
  end.

(** The upward loop visits every line at most twice: once counting from the front
    and once, through negative indices, from the back. *)
Definition lines_fuel (lines : list string) : nat := S (2 * length lines).

Section scanning.
Context (read_lines : string -> res (list string)) {dict_order : DictOrder}.

(** [self.files[file_name]], read at the first request *)
Definition file_lines (file_name : string) : ST scanner (list string) :=
  fun s =>
    match sc_files s !! file_name with
    | Some lines => (s, Ok lines)
    | None =>
        match read_lines file_name with
        | Ok lines =>
            (Scanner (<[file_name := lines]> (sc_files s)) (sc_used_annotations s) (sc_warnings s), Ok lines)
        | Raise e => (s, Raise e)
        end
    end.

(** [get_annotations] of a declaration at a place; [artificial] functions have none. *)
Definition get_annotations (artificial : bool) (file_name : string) (line : Z)
    : ST scanner all_annotations :=
  if artificial then st_ret (∅, ∅)
  else
    lines <- file_lines file_name ;;
    annotation_lines (lines_fuel lines) lines file_name (line - 2) (∅, ∅).

(** The lines of a file that are annotations nobody asked for, from [line_number] on *)
Fixpoint unused_lines (used : list Z) (lines : list string) (line_number : Z) : list Z :=
  match lines with
  | [] => []
  | line :: lines' =>
      match comment_match line with
      | None => unused_lines used lines' (line_number + 1)
      | Some _ =>
          (if bool_decide (line_number + 1 ∈ used) then [] else [line_number + 1])
          ++ unused_lines used lines' (line_number + 1)
      end
  end.

Definition warn_unused_annotations : ST scanner unit :=
  files <- st_get (fun s => dict_items (sc_files s)) ;;
  st_iter (fun f =>
    used <- st_get (fun s => default [] (sc_used_annotations s !! f.1)) ;;
    st_iter (fun n => ann_warn "unused annotation" f.1 n) (unused_lines used f.2 0)) files.
End scanning.

(** [parse_boolean] *)
Definition lower (s : string) : string := map_str tolower s.
Definition parse_boolean (value : ann_value) : res bool :=
  match value with
  | IntValue z => Ok (negb (z =? 0))
  | NoValue => Raise AttributeError
  | StrValue s =>
      if bool_decide (lower s ∈ ["false"; "off"]) then Ok false
      else if bool_decide (lower s ∈ ["true"; "on"]) then Ok true
      else Raise ValueError
  end.

(** ** What the comments say

    The annotations of a comment without the warnings: the specification of the two
    loops above. *)
Definition elements_of (l : list string) (d : annotations) : annotations :=
  fold_left (fun d p =>
    match global_annotation (strip p) with
    | Some (name, value) => <[name := value_of_group value]> d
    | None => d
    end) l d.

Definition annotation_of (anns : all_annotations) (a : string) : all_annotations :=
  match global_annotation (strip a) with
  | Some (name, value) => (<[name := value_of_group value]> anns.1, anns.2)
  | None =>
      match param_annotation (strip a) with
      | Some (name, elements) => (anns.1, <[name := elements_of (split_on "," elements) ∅]> anns.2)
      | None => anns
      end
  end.

Definition comment_annotations (anns : all_annotations) (text : string) : all_annotations :=
  fold_left annotation_of (split_on ";" (strip text)) anns.

(** Only warnings were added. *)
Definition warned (s s' : scanner) : Prop :=
  sc_files s' = sc_files s /\ sc_used_annotations s' = sc_used_annotations s
  /\ exists ws, sc_warnings s' = sc_warnings s ++ ws.

#[export] Instance warned_preorder : PreOrder warned.
Proof.
  split.
  - intros s. split; [done|]. split; [done|]. exists []. by rewrite app_nil_r.
  - intros s s' s'' (F&U&ws&W) (F'&U'&ws'&W'). split; [congruence|]. split; [congruence|].
    exists (ws ++ ws'). by rewrite W', W, <- app_assoc.
Qed.

Lemma ann_warn_run m f n s : exists s', ann_warn m f n s = (s', Ok tt) /\ warned s s'.
Proof. eexists. split; [reflexivity|]. split; [done|]. split; [done|]. by eexists. Qed.

Lemma parse_elements_run f n l : forall d s,
  exists s', parse_elements f n l d s = (s', Ok (elements_of l d)) /\ warned s s'.
Proof.
  induction l as [|p l IH]; intros d s; cbn [parse_elements elements_of fold_left].
  - by exists s.
  - destruct (global_annotation (strip p)) as [[name value]|]; [apply IH|].
    unfold st_bind.
    destruct (ann_warn_run ("could not parse " +:+ py_repr (strip p)
      +:+ " as parameter annotation element") f n s) as (s1&->&H1).
    destruct (IH d s1) as (s2&E&H2). exists s2. split; [exact E|]. by transitivity s1.
Qed.

Lemma parse_annotations_run f n l : forall anns s,
  exists s', parse_annotations f n l anns s = (s', Ok (fold_left annotation_of l anns)) /\ warned s s'.
Proof.
  induction l as [|a l IH]; intros anns s; cbn [parse_annotations fold_left]; [by exists s|].
  unfold annotation_of at 2. cbn zeta.
  destruct (global_annotation (strip a)) as [[name value]|]; [apply IH|].
  destruct (param_annotation (strip a)) as [[name elements]|]; unfold st_bind.
  - destruct (parse_elements_run f n (split_on "," elements) ∅ s) as (s1&->&H1).
    destruct (IH (anns.1, <[name := elements_of (split_on "," elements) ∅]> anns.2) s1) as (s2&E&H2).
    exists s2. split; [exact E|]. by transitivity s1.
  - destruct (ann_warn_run ("could not parse " +:+ py_repr (strip a)) f n s) as (s1&->&H1).
    destruct (IH anns s1) as (s2&E&H2). exists s2. split; [exact E|]. by transitivity s1.
Qed.

(** ** Indexing lines *)

Lemma line_at_nat lines i : line_at lines (Z.of_nat i) =
  match lines !! i with Some l => Ok l | None => Raise IndexError end.
Proof.
  unfold line_at. destruct (Z.ltb_spec (Z.of_nat i) 0); [lia|].
  destruct (Z.ltb_spec (Z.of_nat i) 0); [lia|]. by rewrite Nat2Z.id.
Qed.

Lemma line_at_range lines i l :
  line_at lines i = Ok l -> - Z.of_nat (length lines) <= i < Z.of_nat (length lines).
Proof.
  unfold line_at. destruct (Z.ltb_spec i 0) as [H|H].
  - destruct (Z.ltb_spec (i + Z.of_nat (length lines)) 0); [done|lia].
  - destruct (Z.ltb_spec i 0); [done|]. destruct (lines !! Z.to_nat i) as [x|] eqn:E; [|done].
    apply lookup_lt_Some in E. lia.
Qed.

Lemma line_at_raises lines i e : line_at lines i = Raise e -> e = IndexError.
Proof.
  unfold line_at. repeat case_match; congruence.
Qed.

Lemma annotation_lines_fuel fuel lines f i : forall anns s,
  Z.max 0 (i + Z.of_nat (length lines) + 1) < Z.of_nat fuel ->
  (annotation_lines fuel lines f i anns s).2 <> Raise OutOfFuel.
Proof.
  revert i. induction fuel as [|fuel IH]; intros i anns s Hf; [lia|].
  cbn [annotation_lines]. unfold st_bind, st_lift.
  destruct (line_at lines i) as [line|e] eqn:E; [|by apply line_at_raises in E as ->].
  destruct (comment_match line) as [t|]; [|done].
  destruct (parse_annotations_run f (i - 1) (split_on ";" (strip t)) anns
    (declare_used_annotation f (i + 1) s).1) as (s1&E1&_).
  change (declare_used_annotation f (i + 1) s) with ((declare_used_annotation f (i + 1) s).1, @Ok unit tt).
  cbn [fst] in E1 |- *. rewrite E1. apply IH. apply line_at_range in E. lia.
Qed.

Lemma annotation_lines_enough lines f i anns s :
  (annotation_lines (lines_fuel lines) lines f i anns s).2 <> Raise OutOfFuel.
Proof.
  destruct (Z.lt_ge_cases i (Z.of_nat (length lines))) as [H|H].
  - apply annotation_lines_fuel. unfold lines_fuel. lia.
  - cbn [annotation_lines lines_fuel]. unfold st_bind, st_lift.
    destruct (line_at lines i) as [l|e] eqn:El;
      [apply line_at_range in El; lia | by apply line_at_raises in El as ->].
Qed.

(** Scanning the comments above a declaration ends, whatever the lines of the file
    and the place of the declaration are: the loop that walks upwards, and on through
    Python's negative indices, never runs out of the fuel [2 * length lines + 1]. *)
Theorem get_annotations_terminates (read_lines : string -> res (list string)) (artificial : bool)
    (file_name : string) (line : Z) (s : scanner) :
  (forall f, read_lines f <> Raise OutOfFuel) ->
  (get_annotations read_lines artificial file_name line s).2 <> Raise OutOfFuel.
Proof.
  intros Hread. unfold get_annotations. destruct artificial; [done|].
  unfold st_bind, file_lines. destruct (sc_files s !! file_name) as [lines|] eqn:E.
  - apply annotation_lines_enough.
  - specialize (Hread file_name). destruct (read_lines file_name) as [lines|e]; [|naive_solver].
    apply annotation_lines_enough.
Qed.

Lemma get_annotations_terminates_witness :
  (get_annotations (fun _ => Ok ["int f();"; "// -#- ignore -#-"]) false "foo.h" 1 AnnotationsScanner).2
  <> Raise OutOfFuel.
Proof. apply get_annotations_terminates. done. Defined.

(** ** The block of comments above a declaration *)

(** The texts of the comments of a block, the last line first *)
Definition block_texts (block : list string) : list string := rev (omap comment_match block).
Definition all_comments (block : list string) : bool :=
  forallb (fun l => match comment_match l with Some _ => true | None => false end) block.
(** The numbers of [n] lines that end at line [last], the last one first *)
Fixpoint lines_down (last : Z) (n : nat) : list Z :=
  match n with O => [] | S n' => last :: lines_down (last - 1) n' end.

Definition used_of (s : scanner) (f : string) : list Z := default [] (sc_used_annotations s !! f).

(** What reading annotations of a file leaves alone *)
Definition read_in (f : string) (used : list Z) (s s' : scanner) : Prop :=
  sc_files s' = sc_files s /\ used_of s' f = used_of s f ++ used
  /\ (forall f', f' <> f -> used_of s' f' = used_of s f')
  /\ exists ws, sc_warnings s' = sc_warnings s ++ ws.

Lemma warned_read_in f s s' : warned s s' -> read_in f [] s s'.
Proof. intros (F&U&W). unfold read_in, used_of. rewrite U, app_nil_r. done. Qed.

Lemma declare_used_read_in f n s : read_in f [n] s (declare_used_annotation f n s).1.
Proof.
  unfold read_in, used_of; cbn. split; [done|]. rewrite lookup_insert_eq. split; [done|].
  split; [intros f' Hf; by rewrite lookup_insert_ne by done|]. exists []. by rewrite app_nil_r.
Qed.

Lemma read_in_trans f u u' s s' s'' :
  read_in f u s s' -> read_in f u' s' s'' -> read_in f (u ++ u') s s''.
Proof.
  intros (F&U&O&ws&W) (F'&U'&O'&ws'&W'). split; [congruence|].
  split; [by rewrite U', U, app_assoc|]. split; [intros g Hg; by rewrite O', O by done|].
  exists (ws ++ ws'). by rewrite W', W, app_assoc.
Qed.

(** The loop, started at the last line of a block that follows a line without annotations *)
Lemma annotation_lines_block f pre x post block :
  comment_match x = None -> all_comments block = true ->
  forall fuel anns s lines,
  lines = pre ++ x :: block ++ post -> (length block < fuel)%nat ->
  exists s', annotation_lines fuel lines f (Z.of_nat (length pre + length block)) anns s
      = (s', Ok (fold_left comment_annotations (block_texts block) anns))
    /\ read_in f (lines_down (Z.of_nat (length pre + length block) + 1) (length block)) s s'.
Proof.
  intros Hx. revert post. induction block as [|l block IH] using rev_ind;
    intros post Hb fuel anns s lines Hl Hf; (destruct fuel as [|fuel]; [cbn in Hf; lia|]);
    cbn [annotation_lines]; unfold st_bind, st_lift; rewrite line_at_nat.
  - cbn [length app] in *. rewrite Nat.add_0_r, Hl, list_lookup_middle, Hx by done.
    exists s. split; [done|]. apply warned_read_in. done.
  - unfold all_comments in Hb. rewrite forallb_app in Hb. apply andb_true_iff in Hb as [Hb Hc].
    cbn [forallb] in Hc. destruct (comment_match l) as [t|] eqn:Et; [|done].
    rewrite length_app in *. cbn [length] in *.
    assert (lines = (pre ++ x :: block) ++ l :: post) as Hl'.
    { rewrite Hl, <- !app_assoc. done. }
    assert (lines !! (length pre + (length block + 1))%nat = Some l) as ->.
    { rewrite Hl', list_lookup_middle; [done|]. rewrite length_app. cbn. lia. }
    rewrite Et.
    set (i := Z.of_nat (length pre + (length block + 1))).
    destruct (parse_annotations_run f (i - 1) (split_on ";" (strip t)) anns
      (declare_used_annotation f (i + 1) s).1) as (s1&E1&W1).
    change (declare_used_annotation f (i + 1) s)
      with ((declare_used_annotation f (i + 1) s).1, @Ok unit tt).
    cbn [fst] in E1 |- *. rewrite E1.
    destruct (IH (l :: post) Hb fuel (comment_annotations anns t) s1 lines) as (s2&E2&R2); [|lia|].
    { rewrite Hl'. by rewrite <- app_assoc. }
    replace (i - 1) with (Z.of_nat (length pre + length block)) by lia.
    exists s2. split.
    + etransitivity; [exact E2|]. unfold block_texts. rewrite omap_app. cbn. rewrite Et, rev_app_distr. done.
    + rewrite Nat.add_1_r. cbn [lines_down].
      change (i + 1 :: ?l) with ([i + 1] ++ l). eapply read_in_trans; [apply declare_used_read_in|].
      replace (i + 1 - 1) with (Z.of_nat (length pre + length block) + 1) by lia.
      change (lines_down ?a ?b) with ([] ++ lines_down a b).
      eapply read_in_trans; [by apply warned_read_in | exact R2].
Qed.

(** The annotations of a declaration are those of the comments right above it.
    If the lines above the declaration are a block of annotation comments that follows a
    line that is none, then [get_annotations] returns exactly the annotations of the
    block, read from the last comment to the first (so that the upper ones win), and
    marks exactly the lines of the block as used. *)
Theorem get_annotations_block (read_lines : string -> res (list string)) (f : string)
    (pre : list string) (x : string) (block post : list string) (s : scanner) :
  sc_files s !! f = Some (pre ++ x :: block ++ post) ->
  comment_match x = None -> all_comments block = true ->
  exists s',
    get_annotations read_lines false f (Z.of_nat (length pre + length block) + 2) s
      = (s', Ok (fold_left comment_annotations (block_texts block) (∅, ∅)))
    /\ read_in f (lines_down (Z.of_nat (length pre + length block) + 1) (length block)) s s'.
Proof.
  intros Hf Hx Hb. unfold get_annotations, st_bind, file_lines. rewrite Hf.
  replace (Z.of_nat (length pre + length block) + 2 - 2) with (Z.of_nat (length pre + length block)) by lia.
  apply annotation_lines_block with (x := x) (post := post); [done|done|done|].
  unfold lines_fuel. rewrite length_app. cbn. rewrite length_app. lia.
Qed.

Definition demo_lines : list string :=
  ["int f();"; "// -#- name=a; @p(direction=out) -#-"; "  // -#- name=b -#-"; "int g(int *p);"].

Lemma get_annotations_block_witness :
  exists s',
    get_annotations (fun _ => Raise ValueError) false "foo.h" 4
        (Scanner {["foo.h" := demo_lines]} ∅ [])
      = (s', Ok ({["name" := StrValue "a"]}, {["p" := {["direction" := StrValue "out"]}]}))
    /\ read_in "foo.h" [3; 2] (Scanner {["foo.h" := demo_lines]} ∅ []) s'.
Proof.
  apply (get_annotations_block _ "foo.h" [] "int f();"
    ["// -#- name=a; @p(direction=out) -#-"; "  // -#- name=b -#-"] ["int g(int *p);"]); reflexivity.
Defined.

(** ** Annotations nobody asked for *)

Lemma unused_lines_spec used lines : forall k n,
  n ∈ unused_lines used lines (Z.of_nat k) <->
  exists i l, lines !! i = Some l /\ n = Z.of_nat (k + i) + 1
              /\ comment_match l <> None /\ n ∉ used.
Proof.
  induction lines as [|line lines IH]; intros k n; cbn [unused_lines].
  { split; [by intros ?%not_elem_of_nil|]. by intros (i&l&H&_). }
  replace (Z.of_nat k + 1) with (Z.of_nat (S k)) by lia. specialize (IH (S k) n).
  assert ((exists i l, (line :: lines) !! i = Some l /\ n = Z.of_nat (k + i) + 1
              /\ comment_match l <> None /\ n ∉ used) <->
    (n = Z.of_nat (S k) /\ comment_match line <> None /\ n ∉ used) \/
    exists i l, lines !! i = Some l /\ n = Z.of_nat (S k + i) + 1
              /\ comment_match l <> None /\ n ∉ used) as ->.
  { split.
    - intros ([|i]&l&H&Hn&Hr); [left; injection H as <-; split; [lia|done]|].
      right. exists i, l. split; [done|]. split; [lia|done].
    - intros [(Hn&Hr)|(i&l&H&Hn&Hr)]; [exists 0%nat, line | exists (S i), l];
        (split; [done|]; split; [lia|done]). }
  destruct (comment_match line) as [t|] eqn:Et.
  - rewrite elem_of_app, IH. case_bool_decide as Hu.
    + split; [intros [[]%not_elem_of_nil|H]; by right | intros [(->&_&H)|H]; [done | by right]].
    + rewrite list_elem_of_singleton.
      split; (intros [H|H]; [left|by right]); [by subst | by destruct H].
  - rewrite IH. split; [by right | by intros [(_&H&_)|H]].
Qed.

Lemma iter_warn_run m f l : forall s,
  st_iter (fun n => ann_warn m f n) l s =
  (Scanner (sc_files s) (sc_used_annotations s)
     (sc_warnings s ++ map (AnnWarning m f) l), Ok tt).
Proof.
  induction l as [|n l IH]; intros s; cbn [st_iter map].
  - rewrite app_nil_r. by destruct s.
  - unfold st_bind, ann_warn at 1, st_modify. rewrite IH. cbn. by rewrite <- app_assoc.
Qed.

Lemma warn_files_run files : forall s,
  st_iter (fun f : string * list string =>
    used <- st_get (fun s => default [] (sc_used_annotations s !! f.1)) ;;
    st_iter (fun n => ann_warn "unused annotation" f.1 n) (unused_lines used f.2 0)) files s =
  (Scanner (sc_files s) (sc_used_annotations s)
     (sc_warnings s ++ flat_map (fun f => map (AnnWarning "unused annotation" f.1)
        (unused_lines (used_of s f.1) f.2 0)) files), Ok tt).
Proof.
  induction files as [|f files IH]; intros s; cbn [st_iter flat_map].
  - rewrite app_nil_r. by destruct s.
  - unfold st_bind at 1. unfold st_bind at 1, st_get at 1. rewrite iter_warn_run, IH.
    cbn. by rewrite <- app_assoc.
Qed.

(** [warn_unused_annotations] warns about exactly the annotation comments of the
    files that were read which no declaration asked for, each at its own line, whatever
    the order of the dictionary of files is. *)
Theorem warn_unused_spec {dict_order : DictOrder} (s : scanner) :
  exists ws,
    warn_unused_annotations s
      = (Scanner (sc_files s) (sc_used_annotations s) (sc_warnings s ++ ws), Ok tt)
    /\ forall w, w ∈ ws <->
         exists lines i l,
           sc_files s !! aw_file w = Some lines /\ lines !! i = Some l
           /\ aw_line w = Z.of_nat i + 1 /\ aw_message w = "unused annotation"
           /\ comment_match l <> None /\ aw_line w ∉ used_of s (aw_file w).
Proof.
  eexists. split; [unfold warn_unused_annotations, st_bind at 1, st_get at 1; apply warn_files_run|].
  intros w. rewrite list_elem_of_In, in_flat_map. split.
  - intros ([f lines]&Hf&Hw). apply list_elem_of_In in Hf. rewrite dict_items_perm in Hf.
    apply elem_of_map_to_list in Hf. apply in_map_iff in Hw as (n&<-&Hn).
    apply list_elem_of_In, (unused_lines_spec _ _ 0) in Hn as (i&l&Hl&->&Hc&Hu).
    exists lines, i, l. cbn in *. split; [done|]. split; [done|]. split; [lia|]. done.
  - intros (lines&i&l&Hf&Hl&Hn&Hm&Hc&Hu). exists (aw_file w, lines). split.
    + apply list_elem_of_In. rewrite dict_items_perm. by apply elem_of_map_to_list.
    + apply in_map_iff. exists (aw_line w). split; [destruct w; cbn in *; by rewrite Hm|].
      apply list_elem_of_In, (unused_lines_spec _ _ 0). exists i, l. cbn.
      split; [done|]. split; [lia|]. done.
Qed.

(** The place of a declaration is a number, and the first line has none above it: the
    index is then negative, so that a declaration on the first line of a file takes the
    annotations at its end. *)
Theorem first_line_takes_last :
  (get_annotations (fun _ => Ok ["int f();"; "int g();"; "// -#- ignore -#-"]) false "foo.h" 1
     AnnotationsScanner).2 = Ok ({["ignore" := NoValue]}, ∅).
Proof. reflexivity. Qed.

(** A block comment is only recognised at the very start of its line. *)
Theorem indented_block_comment_ignored :
  comment_match "/* -#- ignore -#- */" = Some " ignore "
  /\ comment_match "    /* -#- ignore -#- */" = None
  /\ comment_match "    // -#- ignore -#-" = Some " ignore ".
Proof. repeat split; reflexivity. Qed.

(** ** Writing annotations *)

Inductive annotation : Type :=
  | GlobalAnn (name : string) (value : option string)
  | ParamAnn (name : string) (elements : list (string * option string)).

Definition show_element (a : string * option string) : string :=
  a.1 +:+ match a.2 with None => EmptyString | Some v => "=" +:+ v end.
Definition show_annotation (a : annotation) : string :=
  match a with
  | GlobalAnn name value => show_element (name, value)
  | ParamAnn name elements => "@" +:+ name +:+ "(" +:+ join "," (map show_element elements) +:+ ")"
  end.
Definition show_comment (l : list annotation) : string :=
  "// -#- " +:+ join ";" (map show_annotation l) +:+ " -#-" +:+ nls.

(** What a list of annotations means *)
Definition element_meaning (d : annotations) (a : string * option string) : annotations :=
  <[a.1 := value_of_group a.2]> d.
Definition annotation_meaning (anns : all_annotations) (a : annotation) : all_annotations :=
  match a with
  | GlobalAnn name value => (element_meaning anns.1 (name, value), anns.2)
  | ParamAnn name elements => (anns.1, <[name := fold_left element_meaning elements ∅]> anns.2)
  end.

(** Names are words; values hold neither blanks nor semicolons, nor commas within
    parentheses. *)
Definition nonempty_of (p : ascii -> bool) (s : string) : bool :=
  negb (String.eqb s EmptyString) && all_chars p s.
Definition writable_element (p : ascii -> bool) (a : string * option string) : bool :=
  nonempty_of word_char a.1
  && match a.2 with None => true | Some v => nonempty_of p v end.
Definition element_char (c : ascii) : bool := value_char c && negb (Ascii.eqb c ",").
Definition writable (a : annotation) : bool :=
  match a with
  | GlobalAnn name value => writable_element value_char (name, value)
  | ParamAnn name elements =>
      nonempty_of word_char name && negb (bool_decide (elements = []))
      && forallb (writable_element element_char) elements
  end.

(** *** Characters *)

Lemma all_chars_cat p s t : all_chars p (s +:+ t) = all_chars p s && all_chars p t.
Proof. induction s as [|a s IH]; cbn; [done|]. by rewrite IH, andb_assoc. Qed.
Lemma all_chars_impl (p q : ascii -> bool) s :
  (forall c, p c = true -> q c = true) -> all_chars p s = true -> all_chars q s = true.
Proof.
  intros H. induction s as [|a s IH]; cbn; [done|]. intros [Ha Hs]%andb_true_iff.
  by rewrite (H a Ha), IH.
Qed.
Lemma all_chars_join p sep l :
  all_chars p sep = true -> Forall (fun s => all_chars p s = true) l -> all_chars p (join sep l) = true.
Proof.
  intros Hsep. induction 1 as [|x l Hx Hl IH]; [done|].
  destruct l as [|y l]; [done|]. rewrite join_cons by done. by rewrite !all_chars_cat, Hx, Hsep, IH.
Qed.
Lemma all_chars_str_in c s : all_chars (fun a => negb (Ascii.eqb a c)) s = true -> str_in c s = false.
Proof.
  induction s as [|a s IH]; cbn; [done|]. intros [Ha%negb_true_iff Hs]%andb_true_iff.
  by rewrite Ha, IH.
Qed.

(** No character is both a word character and one of these. *)
Lemma word_char_other c d :
  word_char d = false -> word_char c = true -> negb (Ascii.eqb c d) = true.
Proof. intros Hd Hc. destruct (Ascii.eqb_spec c d); [congruence|done]. Qed.

Definition nonspace (c : ascii) : bool := negb (isspace c).
Lemma word_char_nonspace c : word_char c = true -> nonspace c = true.
Proof.
  unfold nonspace, isspace, word_char, isdigit, islower, isupper. cbn zeta.
  destruct (Ascii.eqb_spec c "_") as [->|_]; [done|]. rewrite orb_false_r.
  intros H. apply negb_true_iff. rewrite !orb_true_iff, !andb_true_iff, !N.leb_le in H.
  rewrite orb_false_iff, andb_false_iff, !N.leb_gt, N.eqb_neq. lia.
Qed.
Lemma word_char_value c : word_char c = true -> value_char c = true.
Proof.
  intros H. unfold value_char. rewrite (word_char_other c ";" eq_refl H), andb_true_r.
  by apply word_char_nonspace.
Qed.
Lemma word_char_element c : word_char c = true -> element_char c = true.
Proof.
  intros H. unfold element_char. rewrite (word_char_other c "," eq_refl H), andb_true_r.
  by apply word_char_value.
Qed.

(** *** Stripping *)

Lemma rstrip_clean s : all_chars nonspace s = true -> rstrip s = s.
Proof.
  induction s as [|a s IH]; cbn; [done|]. intros [Ha%negb_true_iff Hs]%andb_true_iff.
  rewrite IH by done. destruct s; [by rewrite Ha|done].
Qed.
Lemma lstrip_clean s : all_chars nonspace s = true -> lstrip_str s = s.
Proof. destruct s as [|a s]; cbn; [done|]. by intros [->%negb_true_iff _]%andb_true_iff. Qed.
Lemma strip_clean s : all_chars nonspace s = true -> strip s = s.
Proof. intros H. unfold strip. by rewrite rstrip_clean, lstrip_clean by done. Qed.
Lemma rstrip_pad s : all_chars nonspace s = true -> rstrip (s +:+ " ") = s.
Proof.
  induction s as [|a s IH]; [done|]. intros [Ha%negb_true_iff Hs]%andb_true_iff.
  change (String a s +:+ " ") with (String a (s +:+ " ")). cbn [rstrip]. rewrite IH by done.
  destruct s; [by rewrite Ha|done].
Qed.
Lemma strip_pad s : all_chars nonspace s = true -> strip (" " +:+ s +:+ " ") = s.
Proof.
  intros H. unfold strip. change (" " +:+ s +:+ " ") with (String " " (s +:+ " ")).
  cbn [rstrip]. rewrite rstrip_pad by done. destruct s as [|a s]; [done|]. exact (lstrip_clean _ H).
Qed.

Lemma split_join c l :
  l <> [] -> Forall (fun s => str_in c s = false) l ->
  split_on c (join (String c EmptyString) l) = l.
Proof.
  intros Hne H. induction H as [|x l Hx Hl IH]; [done|].
  destruct l as [|y l]; [by apply split_on_none|].
  rewrite join_cons by done. change (String c EmptyString +:+ ?r) with (String c r).
  by rewrite split_on_app, split_on_none, IH by done.
Qed.

(** *** The regular expressions on what was written *)

Lemma after_prefix_app p s : after_prefix p (p +:+ s) = Some s.
Proof. induction p as [|a p IH]; cbn; [by destruct s|]. by rewrite Ascii.eqb_refl. Qed.
Lemma run_app p s t :
  all_chars p s = true -> match t with EmptyString => true | String c _ => negb (p c) end = true ->
  run p (s +:+ t) = (s, t).
Proof.
  intros Hs Ht. induction s as [|a s IH]; cbn in *.
  - destruct t as [|c t]; [done|]. cbn. by apply negb_true_iff in Ht as ->.
  - apply andb_true_iff in Hs as [-> Hs]. by rewrite IH.
Qed.
Lemma greedy_app p ok s t :
  all_chars p s = true -> greedy p ok t = Some EmptyString -> greedy p ok (s +:+ t) = Some s.
Proof.
  intros Hs Ht. induction s as [|a s IH]; cbn in *; [done|].
  apply andb_true_iff in Hs as [-> Hs]. by rewrite IH.
Qed.

Lemma nonempty_of_spec p s : nonempty_of p s = true -> exists a r, s = String a r /\ all_chars p s = true.
Proof. intros [H1 H2]%andb_true_iff. destruct s as [|a r]; [done|]. by exists a, r. Qed.

Lemma global_annotation_shown (p : ascii -> bool) a :
  (forall c, p c = true -> value_char c = true) -> writable_element p a = true ->
  global_annotation (show_element a) = Some a.
Proof.
  intros Hp [Hn Hv]%andb_true_iff. destruct a as [name value]. cbn [fst snd] in *.
  destruct (nonempty_of_spec _ _ Hn) as (x&r&->&Hw). unfold show_element, global_annotation.
  cbn [fst snd]. rewrite run_app; [|done|by destruct value].
  destruct value as [v|]; [|done]. destruct (nonempty_of_spec _ _ Hv) as (y&q&->&Hq).
  change ("=" +:+ String y q) with (String "=" (String y q)). cbn beta iota.
  rewrite Ascii.eqb_refl, <- (app_str_nil_r (String y q)), run_app; [by rewrite app_str_nil_r| |done].
  by apply (all_chars_impl p).
Qed.

Lemma show_element_chars (p : ascii -> bool) a :
  (forall c, word_char c = true -> p c = true) -> p "="%char = true ->
  writable_element p a = true -> all_chars p (show_element a) = true.
Proof.
  intros Hw He [Hn Hv]%andb_true_iff. unfold show_element. rewrite all_chars_cat.
  apply nonempty_of_spec in Hn as (x&r&_&Hn). rewrite (all_chars_impl _ p _ Hw Hn). cbn.
  destruct a.2 as [v|]; [|done]. apply nonempty_of_spec in Hv as (y&q&_&Hv).
  change ("=" +:+ v) with (String "=" v). cbn. by rewrite He, Hv.
Qed.

Lemma element_char_parts c : element_char c = true ->
  nonspace c = true /\ param_char c = true /\ negb (Ascii.eqb c ",") = true /\ value_char c = true.
Proof.
  unfold element_char, value_char. intros [[H1 H2]%andb_true_iff H3]%andb_true_iff.
  unfold nonspace, param_char. by rewrite H1, H2, H3.
Qed.
Lemma value_char_parts c : value_char c = true -> nonspace c = true /\ param_char c = true.
Proof. unfold value_char. by intros [H1 H2]%andb_true_iff. Qed.

Lemma param_annotation_shown name elements :
  writable (ParamAnn name elements) = true ->
  param_annotation (show_annotation (ParamAnn name elements))
  = Some (name, join "," (map show_element elements)).
Proof.
  cbn [writable]. intros [[Hn Hne]%andb_true_iff He]%andb_true_iff.
  apply nonempty_of_spec in Hn as (x&r&->&Hw).
  apply negb_true_iff, bool_decide_eq_false in Hne.
  set (text := join "," (map show_element elements)).
  assert (all_chars param_char text = true) as Ht.
  { apply all_chars_join; [done|]. rewrite Forall_map. apply Forall_forall. intros a Ha.
    apply (all_chars_impl element_char); [intros c Hc; by apply element_char_parts|].
    apply show_element_chars; [apply word_char_element|done|].
    by apply (proj1 (forallb_forall _ _) He), list_elem_of_In. }
  assert (exists c t, text = String c t) as (c&t&Et).
  { destruct elements as [|a l]; [done|]. cbn [map] in text.
    assert (writable_element element_char a = true) as Ha
      by (apply (proj1 (forallb_forall _ _) He); by left).
    apply andb_true_iff in Ha as [Ha _]. apply nonempty_of_spec in Ha as (b&q&Eb&_).
    subst text. unfold show_element. destruct l as [|a' l]; [cbn; rewrite Eb; cbn; by eexists _, _|].
    cbn [map]. rewrite join_cons by done. rewrite Eb. cbn. by eexists _, _. }
  unfold param_annotation, show_annotation. fold text.
  rewrite after_prefix_app. cbn [mbind option_bind].
  rewrite run_app; [|done|done]. rewrite after_prefix_app. cbn [mbind option_bind].
  rewrite Et in *. change (String c t +:+ ")") with (String c (t +:+ ")")).
  apply andb_true_iff in Ht as [-> Ht]. rewrite greedy_app; [done|done|reflexivity].
Qed.

Lemma global_annotation_param name elements :
  global_annotation (show_annotation (ParamAnn name elements)) = None.
Proof. reflexivity. Qed.

Lemma show_annotation_chars a :
  writable a = true ->
  all_chars nonspace (show_annotation a) = true /\ all_chars param_char (show_annotation a) = true.
Proof.
  assert (forall c, value_char c = true -> nonspace c = true /\ param_char c = true) as Hv by apply value_char_parts.
  destruct a as [name value|name elements]; cbn [writable show_annotation].
  - intros H. apply show_element_chars in H; [|apply word_char_value|done].
    split; (apply (all_chars_impl value_char); [intros c Hc; by apply Hv|done]).
  - intros [[Hn _]%andb_true_iff He]%andb_true_iff. apply nonempty_of_spec in Hn as (x&r&_&Hw).
    assert (all_chars value_char (join "," (map show_element elements)) = true) as Ht.
    { apply all_chars_join; [done|]. rewrite Forall_map. apply Forall_forall. intros a Ha.
      apply (all_chars_impl element_char); [intros c Hc; by apply element_char_parts|].
      apply show_element_chars; [apply word_char_element|done|].
      by apply (proj1 (forallb_forall _ _) He), list_elem_of_In. }
    assert (all_chars value_char name = true) as Hn' by by apply (all_chars_impl _ _ _ word_char_value).
    split; rewrite !all_chars_cat; (rewrite !(all_chars_impl value_char) by (try done; intros c Hc; by apply Hv));
      done.
Qed.

Lemma parse_elements_shown f n l : forall d s,
  forallb (writable_element element_char) l = true ->
  parse_elements f n (map show_element l) d s = (s, Ok (fold_left element_meaning l d)).
Proof.
  induction l as [|a l IH]; intros d s; [done|]. cbn [forallb]. intros [Ha Hl]%andb_true_iff.
  cbn [map parse_elements fold_left].
  rewrite strip_clean, (global_annotation_shown element_char); [|intros c Hc; by apply element_char_parts|done|].
  - destruct a as [name value]. by apply IH.
  - apply (all_chars_impl element_char); [intros c Hc; by apply element_char_parts|].
    by apply show_element_chars; [apply word_char_element|..].
Qed.

Lemma parse_annotations_shown f n l : forall anns s,
  forallb writable l = true ->
  parse_annotations f n (map show_annotation l) anns s = (s, Ok (fold_left annotation_meaning l anns)).
Proof.
  induction l as [|a l IH]; intros anns s; [done|]. cbn [forallb]. intros [Ha Hl]%andb_true_iff.
  cbn [map parse_annotations fold_left]. rewrite strip_clean by by apply show_annotation_chars.
  destruct a as [name value|name elements].
  - change (show_annotation (GlobalAnn name value)) with (show_element (name, value)).
    rewrite (global_annotation_shown value_char) by done. by apply IH.
  - cbn zeta. rewrite global_annotation_param, param_annotation_shown by done.
    cbn [writable] in Ha. apply andb_true_iff in Ha as [[_ Hne]%andb_true_iff He].
    rewrite split_join; [|by destruct elements|].
    + unfold st_bind. rewrite parse_elements_shown by done. by apply IH.
    + rewrite Forall_map. apply Forall_forall. intros a Hin. apply all_chars_str_in.
      apply (all_chars_impl element_char); [intros c Hc; by apply element_char_parts|].
      apply show_element_chars; [apply word_char_element|done|].
      by apply (proj1 (forallb_forall _ _) He), list_elem_of_In.
Qed.

(** Annotations are read as they are written.  A comment that lists annotations of
    the documented form (words as names, values without blanks and semicolons, nor
    commas in the list of a parameter) is recognised, and reading it into any
    annotations adds exactly what was listed, in order, without a warning. *)
Theorem annotation_roundtrip (l : list annotation) :
  l <> [] -> forallb writable l = true ->
  exists text,
    comment_match (show_comment l) = Some text
    /\ forall f n anns s,
         parse_annotations f n (split_on ";" (strip text)) anns s
         = (s, Ok (fold_left annotation_meaning l anns)).
Proof.
  intros Hne Hl. set (body := join ";" (map show_annotation l)).
  assert (Forall (fun a => writable a = true) l) as Hf by by apply Forall_forall; intros a Ha;
    apply (proj1 (forallb_forall _ _) Hl), list_elem_of_In.
  assert (all_chars nonspace body = true) as Hb.
  { apply all_chars_join; [done|]. rewrite Forall_map. eapply Forall_impl; [exact Hf|].
    intros a Ha. by apply show_annotation_chars. }
  exists (" " +:+ body +:+ " "). split.
  - assert (all_chars not_newline (" " +:+ body +:+ " ") = true) as Hnl.
    { rewrite !all_chars_cat. rewrite (all_chars_impl nonspace _ body); [done| |done].
      intros c Hc. unfold not_newline. by destruct (Ascii.eqb_spec c nl) as [->|]. }
    unfold comment_match, show_comment. fold body. cbn [lstrip_str isspace].
    change ("// -#- " +:+ ?r) with ("//" +:+ " -#- " +:+ r).
    change (lstrip_str ("//" +:+ ?r)) with ("//" +:+ r). rewrite after_prefix_app.
    cbn [mbind option_bind]. unfold marked_text.
    change (" -#- " +:+ ?r) with (String " " ("-#- " +:+ r)). cbn [isspace].
    change (isspace " ") with true. cbv iota.
    change (lstrip_str (String " " ("-#- " +:+ ?r))) with ("-#-" +:+ " " +:+ r).
    rewrite after_prefix_app. cbn [mbind option_bind].
    replace (" " +:+ body +:+ " -#-" +:+ nls) with ((" " +:+ body +:+ " ") +:+ "-#-" +:+ nls)
      by by rewrite <- !app_str_assoc.
    by rewrite greedy_app by done.
  - intros f n anns s. rewrite strip_pad by done. subst body. rewrite split_join.
    + by apply parse_annotations_shown.
    + by destruct l.
    + rewrite Forall_map. eapply Forall_impl; [exact Hf|]. intros a Ha.
      apply all_chars_str_in. by apply show_annotation_chars.
Qed.

Lemma annotation_roundtrip_witness :
  let l := [GlobalAnn "name" (Some "get"); GlobalAnn "ignore" None;
            ParamAnn "p" [("direction", Some "out"); ("null_ok", None)]] in
  show_comment l = "// -#- name=get;ignore;@p(direction=out,null_ok) -#-" +:+ nls
  /\ exists text, comment_match (show_comment l) = Some text
     /\ forall f n anns s,
          parse_annotations f n (split_on ";" (strip text)) anns s
          = (s, Ok (fold_left annotation_meaning l anns)).
Proof. split; [reflexivity|]. apply annotation_roundtrip; [done|reflexivity]. Defined.
