(* ===== verification/Pygen.v ===== *)
(** * The script the header parser writes: values, specifications and sections

    Besides building a module in memory, [ModuleParser] of [pybindgen/gccxmlparser.py]
    writes a Python script that builds the same module.  This file holds what that
    needs: Python values and their representation, the arguments of
    [Parameter.new] and [ReturnValue.new] that [GccXmlTypeRegistry] makes of types and
    annotations, and the sections of the script with their sinks. *)
From S2P Require Import Prelude.
From S2P Require Import Format.
From S2P Require Import CodeSink.
From S2P Require Import CTypeParser.
From S2P Require Import Annotations.

(** ** Python values and their text *)

(** Values that are passed as keyword arguments.  The policies are the objects of
    [cppclass.py], made of the values of annotations; [peekref_function] is never given. *)
Inductive pyval : Type :=
  | PyNone
  | PyBool (b : bool)
  | PyInt (z : Z)
  | PyStr (s : string)
  | PyList (l : list string)
  | PyMethodsPolicy (incref_method decref_method peekref_method : ann_value)
  | PyFunctionsPolicy (incref_function decref_function : ann_value)
  | PyFreePolicy (free_function : ann_value).

Definition py_of_annotation (v : ann_value) : pyval :=
  match v with NoValue => PyNone | IntValue z => PyInt z | StrValue s => PyStr s end.

Definition repr_annotation (v : ann_value) : string :=
  match v with NoValue => "None" | IntValue z => show_int z | StrValue s => py_repr s end.

(** [repr(value)] *)
Definition py_repr_value (v : pyval) : string :=
  match v with
  | PyNone => "None"
  | PyBool b => if b then "True" else "False"
  | PyInt z => show_int z
  | PyStr s => py_repr s
  | PyList l => "[" +:+ join ", " (map py_repr l) +:+ "]"
  | PyMethodsPolicy i d p =>
      "cppclass.ReferenceCountingMethodsPolicy(incref_method=" +:+ repr_annotation i
      +:+ ", decref_method=" +:+ repr_annotation d
      +:+ ", peekref_method=" +:+ repr_annotation p +:+ ")"
  | PyFunctionsPolicy i d =>
      "cppclass.ReferenceCountingFunctionsPolicy(incref_function=" +:+ repr_annotation i
      +:+ ", decref_function=" +:+ repr_annotation d +:+ ", peekref_function=None)"
  | PyFreePolicy f => "cppclass.FreeFunctionPolicy(" +:+ repr_annotation f +:+ ")"
  end.

(** A keyword argument: a value, a class or exception, or a list of these, which occurs
    under [throw] and [parent]. *)
Inductive kwarg (W : Type) : Type :=
  | Value (v : pyval)
  | TypeWrapper (w : W)
  | TypeWrappers (ws : list W).
Arguments Value {W} v.
Arguments TypeWrapper {W} w.
Arguments TypeWrappers {W} ws.

Section script_text.
Context {W : Type} (full_name : W -> string) {dict_order : DictOrder}.

Definition root_module_item (w : W) : string := "root_module[" +:+ py_repr (full_name w) +:+ "]".

(** [_pygen_kwargs] *)
Definition pygen_kwarg (kw : string * kwarg W) : string :=
  kw.1 +:+ "=" +:+
  match kw.2 with
  | Value v => py_repr_value v
  | TypeWrapper w => root_module_item w
  | TypeWrappers ws => "[" +:+ join ", " (map root_module_item ws) +:+ "]"
  end.
Definition pygen_kwargs (kwargs : gmap string (kwarg W)) : list string :=
  map pygen_kwarg (dict_items kwargs).

(** [_pygen_args_kwargs], [_pygen_args_kwargs_dict], [_pygen_retval] and [_pygen_param] *)
Definition pygen_args_kwargs (args : list string) (kwargs : gmap string (kwarg W)) : string :=
  join ", " (map py_repr args ++ pygen_kwargs kwargs).
Definition pygen_args_kwargs_dict (args : list string) (kwargs : gmap string (kwarg W)) : string :=
  join ", " (map py_repr args
    ++ (if bool_decide (kwargs = ∅) then [] else ["dict(" +:+ join ", " (pygen_kwargs kwargs) +:+ ")"])).
Definition pygen_retval (args : list string) (kwargs : gmap string (kwarg W)) : string :=
  match args with
  | [a] => if bool_decide (kwargs = ∅) then py_repr a
           else "retval(" +:+ pygen_args_kwargs args kwargs +:+ ")"
  | _ => "retval(" +:+ pygen_args_kwargs args kwargs +:+ ")"
  end.
Definition pygen_param (args : list string) (kwargs : gmap string (kwarg W)) : string :=
  "param(" +:+ pygen_args_kwargs args kwargs +:+ ")".

(** The first keyword argument starts a line of its own: [kwargs_repr[0] = ...]. *)
Definition break_kwargs (blanks : Z) (l : list string) : list string :=
  match l with [] => [] | x :: l' => (nls +:+ spaces blanks +:+ x) :: l' end.
End script_text.

(** ** Specifications of types *)

(** [int(value)].  Blanks may precede and follow the digits, and also follow the sign. *)
Fixpoint digits_value (acc : Z) (s : string) : option Z :=
  match s with
  | EmptyString => Some acc
  | String c s' =>
      if isdigit c then digits_value (10 * acc + (Z.of_N (N_of_ascii c) - 48)) s' else None
  end.
Definition unsigned_value (s : string) : option Z :=
  match lstrip_str s with EmptyString => None | d => digits_value 0 d end.
Definition int_of_string (s : string) : option Z :=
  match strip s with
  | String "-" d => Z.opp <$> unsigned_value d
  | String "+" d => unsigned_value d
  | d => unsigned_value d
  end.
Definition py_int (value : ann_value) : res Z :=
  match value with
  | NoValue => Raise TypeError
  | IntValue z => Ok z
  | StrValue s => match int_of_string s with Some z => Ok z | None => Raise ValueError end
  end.

(** The constants of [Parameter] *)
Definition DIRECTION_IN : Z := 1.
Definition DIRECTION_OUT : Z := 2.
Definition DIRECTION_INOUT : Z := Z.lor DIRECTION_IN DIRECTION_OUT.

Definition spec_kwargs (W : Type) : Type := gmap string (kwarg W).
(** The positional arguments and the keyword arguments of a call *)
Definition type_spec (W : Type) : Type := list string * spec_kwargs W.

Section specifications.
Context {W : Type} {dict_order : DictOrder}.

Definition set_value (name : string) (v : pyval) (kwargs : spec_kwargs W) : spec_kwargs W :=
  <[name := Value v]> kwargs.

(** One round of the loop of [lookup_return]; unknown annotations are only warned about. *)
Definition return_annotation (kwargs : spec_kwargs W) (a : string * ann_value) : res (spec_kwargs W) :=
  let '(name, value) := a in
  if bool_decide (name ∈ ["caller_owns_return"; "reference_existing_object"; "return_internal_reference"])
  then b <-? parse_boolean value ;; Ok (set_value name (PyBool b) kwargs)
  else if String.eqb name "custodian"
  then z <-? py_int value ;; Ok (set_value name (PyInt z) kwargs)
  else Ok kwargs.

(** [for name, value in annotations.iteritems()] *)
Fixpoint fold_res {A B} (f : A -> B -> res A) (a : A) (l : list B) : res A :=
  match l with
  | [] => Ok a
  | b :: l' => a <-? f a b ;; fold_res f a l'
  end.

(** [lookup_return]; [type_string] is [type_info.partial_decl_string]. *)
Definition lookup_return (type_string : string) (anns : annotations) : res (type_spec W) :=
  kwargs <-? fold_res return_annotation ∅ (dict_items anns) ;;
  cpp_type <-? normalize_type_string type_string ;;
  Ok ([cpp_type], kwargs).

Definition direction_of (value : ann_value) : res (option Z) :=
  match value with
  | StrValue s =>
      if String.eqb (lower s) "in" then Ok (Some DIRECTION_IN)
      else if String.eqb (lower s) "out" then Ok (Some DIRECTION_OUT)
      else if String.eqb (lower s) "inout" then Ok (Some DIRECTION_INOUT)
      else Ok None
  | NoValue | IntValue _ => Raise AttributeError
  end.

Definition parameter_annotation (kwargs : spec_kwargs W) (a : string * ann_value) : res (spec_kwargs W) :=
  let '(name, value) := a in
  if bool_decide (name ∈ ["transfer_ownership"; "null_ok"])
  then b <-? parse_boolean value ;; Ok (set_value name (PyBool b) kwargs)
  else if String.eqb name "direction" then
    d <-? direction_of value ;;
    Ok match d with Some z => set_value name (PyInt z) kwargs | None => kwargs end
  else if bool_decide (name ∈ ["custodian"; "array_length"])
  then z <-? py_int value ;; Ok (set_value name (PyInt z) kwargs)
  else if String.eqb name "default_value"
  then Ok (set_value name (py_of_annotation value) kwargs)
  else Ok kwargs.

(** [lookup_parameter]; the default value of the declaration wins over an annotation. *)
Definition lookup_parameter (type_string param_name : string) (anns : annotations)
    (default_value : option string) : res (type_spec W) :=
  kwargs <-? fold_res parameter_annotation ∅ (dict_items anns) ;;
  let kwargs :=
    match default_value with
    | Some (String _ _ as d) => set_value "default_value" (PyStr d) kwargs
    | _ => kwargs
    end in
  cpp_type <-? normalize_type_string type_string ;;
  Ok ([cpp_type; param_name], kwargs).
End specifications.

(** [normalize_class_name] *)
Definition normalize_class_name (class_name module_namespace : string) : res string :=
  normalize_type_string
    (if startswith module_namespace class_name then class_name else module_namespace +:+ class_name).

(** ** Names of instances of templates *)

(** [s.split('=>')] *)
Fixpoint split_arrow (s : string) : list string :=
  match s with
  | EmptyString => [EmptyString]
  | String a s' =>
      match s' with
      | String b s'' =>
          if Ascii.eqb a "=" && Ascii.eqb b ">" then EmptyString :: split_arrow s''
          else match split_arrow s' with
               | [] => [String a EmptyString]
               | l :: ls => String a l :: ls
               end
      | EmptyString => [String a EmptyString]
      end
  end.

(** The loop over ['T1,T2=>name|...'], which stops at the first mapping of these types *)
Fixpoint instance_name (template_parameters : list string) (mappings : list string)
    : res (option string) :=
  match mappings with
  | [] => Ok None
  | mapping :: mappings' =>
      match split_arrow mapping with
      | [type_names; name] =>
          if bool_decide (split_on "," type_names = template_parameters) then Ok (Some name)
          else instance_name template_parameters mappings'
      | _ => Raise ValueError
      end
  end.

(** [if value:] *)
Definition ann_truthy (v : ann_value) : bool :=
  match v with NoValue => false | IntValue z => negb (z =? 0) | StrValue s => negb (String.eqb s EmptyString) end.
Definition ann_string (v : ann_value) : res string :=
  match v with StrValue s => Ok s | NoValue | IntValue _ => Raise AttributeError end.

(** The name an annotation [template_instance_names] gives to an instance *)
Definition template_instance_name (anns : annotations) (template_parameters : list string)
    : res (option string) :=
  let names := default (StrValue EmptyString) (anns !! "template_instance_names") in
  if ann_truthy names
  then s <-? ann_string names ;; instance_name template_parameters (split_on "|" s)
  else Ok None.

(** ** Sections and sinks *)

(** A [PygenSection]; sinks are known by a number, since sections may share one. *)
Record pygen_section : Type := PygenSection {
  sect_name : string;
  sect_sink : nat;
  sect_local_customizations_module : option string
}.

(** [self._pygen]: nothing, a sink or a list of sections *)
Inductive pygen_target : Type :=
  | NoPygen
  | PygenSink (k : nat)
  | PygenSections (l : list pygen_section).

(** What a classifier returns: a section, by its place in the list, or the name of one *)
Inductive section_id : Type :=
  | SectionObject (i : nat)
  | SectionName (name : string).

(** [PygenClassifier], whose methods the user writes *)
Record pygen_classifier (D : Type) : Type := PygenClassifier {
  classify : D -> res section_id;
  get_section_precedence : section_id -> res Z
}.
Arguments PygenClassifier {D} _ _.
Arguments classify {D} _ _.
Arguments get_section_precedence {D} _ _.

Definition find_section (name : string) (l : list pygen_section) : option pygen_section :=
  List.find (fun sect => String.eqb (sect_name sect) name) l.

(** [_get_main_pygen_sink] and [_get_all_pygen_sinks] *)
Definition get_main_pygen_sink (t : pygen_target) : option nat :=
  match t with
  | NoPygen => None
  | PygenSink k => Some k
  | PygenSections l => sect_sink <$> find_section "__main__" l
  end.
Definition get_all_pygen_sinks (t : pygen_target) : list nat :=
  match t with
  | NoPygen => []
  | PygenSink k => [k]
  | PygenSections l => map sect_sink l
  end.

(** [sect is section or sect.name == section] for some [sect] *)
Definition section_of (l : list pygen_section) (id : section_id) : option pygen_section :=
  match id with
  | SectionObject i => l !! i
  | SectionName name => find_section name l
  end.

Section sections.
Context {D : Type} (target : pygen_target) (classifier : option (pygen_classifier D)).

(** The checks of [parse_init] *)
Definition check_target : res unit :=
  match target with
  | PygenSections l =>
      match classifier with
      | None => Raise AssertionError
      | Some _ =>
          if existsb (fun sect => String.eqb (sect_name sect) "__main__") l then Ok tt else Raise ValueError
      end
  | NoPygen | PygenSink _ => Ok tt
  end.

(** The section a declaration is classified to, and its sink; what is not a declaration
    goes to the main section. *)
Definition section_for_definition (c : pygen_classifier D) (definition : option D)
    : res (section_id * option nat) :=
  match definition with
  | Some d =>
      id <-? classify c d ;;
      match target with
      | PygenSections l =>
          match section_of l id with
          | Some sect => Ok (id, Some (sect_sink sect))
          | None => Raise ValueError
          end
      | NoPygen | PygenSink _ => Raise TypeError
      end
  | None => Ok (SectionName "__main__", get_main_pygen_sink target)
  end.

(** [_get_pygen_sink_for_definition].  Sections need a classifier; without one
    [parse_init] has already raised. *)
Definition get_pygen_sink_for_definition (definition : option D) : res (option nat) :=
  match classifier with
  | None =>
      match target with
      | NoPygen => Ok None
      | PygenSink k => Ok (Some k)
      | PygenSections _ => Raise AttributeError
      end
  | Some c => x <-? section_for_definition c definition ;; Ok x.2
  end.
Definition get_pygen_sink_with_precedence (definition : option D) : res (Z * option nat) :=
  match classifier with
  | None =>
      match target with
      | NoPygen => Ok (0, None)
      | PygenSink k => Ok (0, Some k)
      | PygenSections _ => Raise AttributeError
      end
  | Some c =>
      x <-? section_for_definition c definition ;;
      match get_section_precedence c x.1 with
      | Ok prec => Ok (prec, x.2)
      | Raise NotImplementedError => Ok (0, x.2)
      | Raise e => Raise e
      end
  end.
End sections.

(** *** Writing to a sink *)

Definition on_sink (f : code_sink -> res code_sink) (k : nat) : ST (list code_sink) unit :=
  fun sinks =>
    match sinks !! k with
    | None => (sinks, Raise AttributeError)
    | Some s => match f s with
                | Ok s' => (<[k := s']> sinks, Ok tt)
                | Raise e => (sinks, Raise e)
                end
    end.
Definition sink_writeln (line : string) (k : nat) : ST (list code_sink) unit :=
  on_sink (fun s => Ok (writeln s line)) k.
Definition sink_indent (k : nat) : ST (list code_sink) unit := on_sink (fun s => Ok (indent s 4)) k.
Definition sink_unindent (k : nat) : ST (list code_sink) unit := on_sink unindent k.

(** [if pygen_sink: ...] *)
Definition with_sink {S} (k : option nat) (body : nat -> ST S unit) : ST S unit :=
  match k with None => st_ret tt | Some k => body k end.

(** [if pygen_sink is self._get_main_pygen_sink() and isinstance(self._pygen, list):] the
    sections other than the main one *)
Definition other_sections (target : pygen_target) (k : nat) : list pygen_section :=
  match target with
  | PygenSections l =>
      if bool_decide (get_main_pygen_sink target = Some k)
      then List.filter (fun sect => negb (String.eqb (sect_name sect) "__main__")) l
      else []
  | NoPygen | PygenSink _ => []
  end.

(** A call of the function of a section, with the customizations of the section *)
Definition customization_lines (customizations function argument : string) : string :=
  nls +:+ "try:" +:+ nls +:+ "    import " +:+ customizations +:+ nls
  +:+ "except ImportError:" +:+ nls +:+ "    pass" +:+ nls +:+ "else:" +:+ nls
  +:+ "    " +:+ customizations +:+ "." +:+ function +:+ "(" +:+ argument +:+ ")" +:+ nls.
Definition section_call (function argument : string) (k : nat) (sect : pygen_section)
    : ST (list code_sink) unit :=
  sink_writeln ("root_module.begin_section(" +:+ py_repr (sect_name sect) +:+ ")") k ;;;
  sink_writeln (sect_name sect +:+ "." +:+ function +:+ "(" +:+ argument +:+ ")") k ;;;
  st_when (truthy (sect_local_customizations_module sect))
    (sink_writeln (customization_lines (str_opt (sect_local_customizations_module sect))
       function argument) k) ;;;
  sink_writeln ("root_module.end_section(" +:+ py_repr (sect_name sect) +:+ ")") k.

(** *** Lemmas *)

Lemma find_section_in name l sect : find_section name l = Some sect -> sect ∈ l.
Proof. intros [H _]%List.find_some. by apply list_elem_of_In. Qed.

(** A definition is written to one of the sinks of the script. *)
Lemma sink_for_definition_in {D} target (classifier : option (pygen_classifier D)) d k :
  get_pygen_sink_for_definition target classifier d = Ok (Some k) -> k ∈ get_all_pygen_sinks target.
Proof.
  unfold get_pygen_sink_for_definition, section_for_definition.
  destruct classifier as [c|].
  - destruct d as [d|].
    + destruct (classify c d) as [id|]; [|done]. cbn. destruct target as [|j|l]; [done..|].
      destruct (section_of l id) as [sect|] eqn:E; [|done]. cbn. intros [= <-].
      apply list_elem_of_In, in_map, list_elem_of_In. destruct id as [i|name]; cbn in E.
      * by apply list_elem_of_lookup_2 in E.
      * by apply find_section_in in E.
    + cbn. intros [= E]. destruct target as [|j|l]; cbn in *; [done|injection E as ->; by left|].
      destruct (find_section "__main__" l) as [sect|] eqn:Ef; [|done]. injection E as <-.
      apply find_section_in in Ef. by apply list_elem_of_In, in_map, list_elem_of_In.
  - destruct target as [|j|l]; [done| |done]. intros [= <-]. by left.
Qed.
