(* ===== verification/GccXml.v ===== *)
(** * The header parser: its surroundings and its state

    [ModuleParser] of [pybindgen/gccxmlparser.py] walks the declarations that
    [pygccxml] finds in C++ headers.  That package is not in the repository: what the
    parser asks it is the class [Gccxml], a parameter of the model.  What the parser
    calls on the module it builds is the interface [WrapOps]; of the objects it gets
    from there it only passes some on.  Warnings are left out, as elsewhere, but for
    those of the scanner of annotations. *)
From S2P Require Import Prelude.
From S2P Require Import Format.
From S2P Require Import CodeSink.
From S2P Require Import CTypeParser.
From S2P Require Import Annotations.
From S2P Require Import Pygen.

(** ** Declarations, as [pygccxml] reports them *)

Inductive virtuality : Type := NotVirtual | Virtual | PureVirtual.

(** The traits [container_traits.find_container_traits] returns *)
Inductive std_container : Type :=
  | list_traits
  | deque_traits
  | queue_traits
  | priority_queue_traits
  | vector_traits
  | stack_traits
  | set_traits
  | multiset_traits
  | hash_set_traits
  | hash_multiset_traits
  | map_traits
  | multimap_traits
  | hash_map_traits
  | hash_multimap_traits.

(** The classes of declarations the parser tells apart by [isinstance] *)
Inductive decl_kind : Type :=
  | ClassDef           (* class_t *)
  | ClassForward       (* class_declaration_t *)
  | MemberFunction
  | MemberOperator
  | Constructor
  | Destructor
  | Variable_
  | OtherDecl.

Class Gccxml : Type := {
  decl : Type;
  cpp_type : Type;
  decl_eq : EqDecision decl;

  (* every declaration *)
  decl_name : decl -> string;
  decl_string : decl -> string;
  partial_decl_string : decl -> string;
  decl_kind_of : decl -> decl_kind;
  decl_file : decl -> string;
  decl_line : decl -> Z;
  is_artificial : decl -> bool;
  access_type : decl -> string;
  attributes : decl -> option string;
  decl_parent : decl -> option decl;

  (* namespaces and classes *)
  free_functions : decl -> list decl;
  free_operators : decl -> list decl;
  namespaces : decl -> list decl;
  enums : decl -> list decl;
  classes : decl -> list decl;
  typedefs : decl -> list decl;
  members : decl -> list decl;
  public_members : decl -> list decl;
  casting_operators : decl -> list decl;
  member_operators : decl -> list decl;
  bases : decl -> list decl;
  member_access_type : decl -> decl -> string;
  has_trivial_constructor : decl -> bool;
  has_copy_constructor : decl -> bool;

  (* enumerations, typedefs and variables *)
  enum_value_names : decl -> list string;
  decl_type : decl -> cpp_type;
  variable_is_static : decl -> bool;

  (* functions *)
  return_type : decl -> cpp_type;
  arguments : decl -> list (cpp_type * string * option string);
  exceptions : decl -> list decl;
  demangled_name : decl -> string;
  symbol : decl -> string;
  has_const : decl -> bool;
  has_static : decl -> bool;
  virtuality_of : decl -> virtuality;
  dependencies : decl -> list cpp_type;

  (* types *)
  type_decl_string : cpp_type -> string;
  type_str : cpp_type -> string;
  is_pointer : cpp_type -> bool;
  is_pointer_t : cpp_type -> bool;
  is_reference : cpp_type -> bool;
  is_const : cpp_type -> bool;
  remove_pointer : cpp_type -> cpp_type;
  remove_reference : cpp_type -> cpp_type;
  remove_const : cpp_type -> cpp_type;
  reference_base : cpp_type -> option cpp_type;
  is_const_t : cpp_type -> bool;
  declared : cpp_type -> option decl;
  declaration_of : cpp_type -> option decl;
  class_type : decl -> cpp_type;
  is_convertible : decl -> cpp_type -> bool;
  find_container_traits : cpp_type -> option std_container;
  element_type : std_container -> cpp_type -> cpp_type;
  key_type : std_container -> option (cpp_type -> cpp_type);

  (* names of instances of templates *)
  is_instantiation : string -> bool;
  template_args : string -> list string;
  template_name : string -> string;
  find_declaration_from_name : string -> option decl
}.
#[export] Existing Instance decl_eq.

(** ** The module in memory *)

(** Two accessors of types need a word: [declared] is what [remove_declarated] finds behind
    typedefs, [declaration_of] the declaration of a [declarated_t] itself.

    [W] are the types of the module (classes, exceptions, enumerations, containers),
    [F] functions and methods, [R] and [P] return values and parameters. *)
Class WrapOps (W F R P M : Type) : Type := {
  wrapper_eq : EqDecision W;

  (* the tree of modules *)
  new_module : string -> string -> ST M nat;
  module_add_include : nat -> string -> ST M unit;
  cpp_namespace_prefix : M -> nat -> string;
  submodule : M -> nat -> string -> option nat;
  namespace_path : M -> nat -> list string;
  add_cpp_namespace : nat -> string -> ST M nat;

  (* the types of the root module *)
  root_module_get : M -> string -> option W;
  is_cpp_exception : W -> bool;
  full_name_of : M -> W -> string;
  mangled_full_name : M -> W -> string;
  memory_policy_methods : M -> W -> option (list (option string));
  allow_subclassing : M -> W -> bool;
  is_this_class_ref : M -> W -> P -> bool;
  add_enum : nat -> string -> list string -> option W -> ST M unit;
  add_class : nat -> string -> gmap string (kwarg W) -> ST M W;
  add_exception : nat -> string -> gmap string (kwarg W) -> ST M W;
  add_container : nat -> string -> list R -> gmap string (kwarg W) -> ST M unit;
  add_typedef : nat -> W -> string -> ST M unit;
  register_alias : W -> string -> ST M unit;
  implicitly_converts_to : W -> W -> ST M unit;
  add_type_alias : string -> string -> ST M unit;

  (* return values, parameters and functions *)
  ReturnValue_new : type_spec W -> ST M R;
  Parameter_new : type_spec W -> ST M P;
  add_function : nat -> string -> R -> list P -> gmap string (kwarg W) -> ST M F;
  add_function_as_method : W -> string -> R -> list P -> ann_value -> ST M F;
  add_function_as_constructor : W -> string -> R -> list P -> ST M F;

  (* classes *)
  add_method : W -> string -> R -> list P -> gmap string (kwarg W) -> ST M F;
  add_constructor : W -> list P -> gmap string (kwarg W) -> ST M F;
  add_copy_constructor : W -> ST M unit;
  add_static_attribute : W -> string -> R -> bool -> ST M unit;
  add_instance_attribute : W -> string -> R -> bool -> ST M unit;
  add_output_stream_operator : W -> ST M unit;
  add_binary_comparison_operator : W -> string -> ST M unit;
  add_binary_numeric_operator : W -> string -> W -> W -> P -> ST M unit;
  add_inplace_numeric_operator : W -> string -> P -> ST M unit;
  add_unary_numeric_operator : W -> string -> ST M unit;
  set_cannot_be_constructed : W -> string -> ST M unit;
  set_helper_class_disabled : W -> bool -> ST M unit
}.
#[export] Existing Instance wrapper_eq.

(** [module.get_submodule(name)] *)
Definition get_submodule {W F R P M : Type} `{!WrapOps W F R P M} (i : nat) (name : string) : ST M nat :=
  fun m => (m, match submodule m i name with Some j => Ok j | None => Raise ValueError end).

(** ** The state of the parser *)

Section parser.
Context {gccxml : Gccxml} {W F R P M : Type} {ops : WrapOps W F R P M}.

(** A container to be registered: its traits, its type and its name.  The outer class is
    always [None]. *)
Record container_request : Type := ContainerRequest {
  cr_traits : std_container;
  cr_type : cpp_type;
  cr_name : string
}.

Record parser : Type := Parser {
  ps_module : M;
  ps_sinks : list code_sink;
  ps_scanner : scanner;
  ps_registered_classes : list (decl * W);
  ps_ordered_classes : list (W * decl);
  ps_postponed : list decl;
  ps_anonymous_structs : list (decl * W);
  ps_containers_to_register : list container_request;
  ps_containers_registered : gset string;
  ps_types_scanned : bool
}.

Definition set_module (m : M) (p : parser) : parser :=
  Parser m (ps_sinks p) (ps_scanner p) (ps_registered_classes p) (ps_ordered_classes p)
    (ps_postponed p) (ps_anonymous_structs p) (ps_containers_to_register p)
    (ps_containers_registered p) (ps_types_scanned p).
Definition set_sinks (sinks : list code_sink) (p : parser) : parser :=
  Parser (ps_module p) sinks (ps_scanner p) (ps_registered_classes p) (ps_ordered_classes p)
    (ps_postponed p) (ps_anonymous_structs p) (ps_containers_to_register p)
    (ps_containers_registered p) (ps_types_scanned p).
Definition set_scanner (s : scanner) (p : parser) : parser :=
  Parser (ps_module p) (ps_sinks p) s (ps_registered_classes p) (ps_ordered_classes p)
    (ps_postponed p) (ps_anonymous_structs p) (ps_containers_to_register p)
    (ps_containers_registered p) (ps_types_scanned p).
(** What the scan of types keeps: the classes by their declarations and in the order of
    registration, and the containers seen. *)
Definition set_classes (registered : list (decl * W)) (ordered : list (W * decl)) (p : parser) : parser :=
  Parser (ps_module p) (ps_sinks p) (ps_scanner p) registered ordered
    (ps_postponed p) (ps_anonymous_structs p) (ps_containers_to_register p)
    (ps_containers_registered p) (ps_types_scanned p).
Definition set_postponed (l : list decl) (p : parser) : parser :=
  Parser (ps_module p) (ps_sinks p) (ps_scanner p) (ps_registered_classes p) (ps_ordered_classes p)
    l (ps_anonymous_structs p) (ps_containers_to_register p)
    (ps_containers_registered p) (ps_types_scanned p).
Definition set_anonymous_structs (l : list (decl * W)) (p : parser) : parser :=
  Parser (ps_module p) (ps_sinks p) (ps_scanner p) (ps_registered_classes p) (ps_ordered_classes p)
    (ps_postponed p) l (ps_containers_to_register p)
    (ps_containers_registered p) (ps_types_scanned p).
Definition set_containers (requests : list container_request) (registered : gset string) (p : parser)
    : parser :=
  Parser (ps_module p) (ps_sinks p) (ps_scanner p) (ps_registered_classes p) (ps_ordered_classes p)
    (ps_postponed p) (ps_anonymous_structs p) requests registered (ps_types_scanned p).
Definition set_types_scanned (p : parser) : parser :=
  Parser (ps_module p) (ps_sinks p) (ps_scanner p) (ps_registered_classes p) (ps_ordered_classes p)
    (ps_postponed p) (ps_anonymous_structs p) (ps_containers_to_register p)
    (ps_containers_registered p) true.

Definition on_module {A} (c : ST M A) : ST parser A :=
  fun p => let '(m, r) := c (ps_module p) in (set_module m p, r).
Definition on_sinks {A} (c : ST (list code_sink) A) : ST parser A :=
  fun p => let '(s, r) := c (ps_sinks p) in (set_sinks s p, r).
Definition on_scanner {A} (c : ST scanner A) : ST parser A :=
  fun p => let '(s, r) := c (ps_scanner p) in (set_scanner s p, r).

(** ** The configuration of a parser

    The target and the classifier of [parse_init], the name of the namespace, the files
    read, the hooks of [add_pre_scan_hook] and [add_post_scan_hook].  A hook that is
    called before may change annotations, and any hook the module. *)
Inductive scanned : Type :=
  | ScannedType (w : W)
  | ScannedFunction (f : F).

Record parser_config : Type := ParserConfig {
  pc_target : pygen_target;
  pc_classifier : option (pygen_classifier decl);
  pc_module_name : string;
  pc_module_namespace_name : string;
  pc_read_lines : string -> res (list string);
  pc_pre_scan_hooks : list (decl -> all_annotations -> ST M all_annotations);
  pc_post_scan_hooks : list (decl -> scanned -> ST M unit);
  pc_header_files : list string;
  pc_whitelist_paths : list string;
  pc_abspath : string -> string;
  pc_enable_anonymous_containers : bool
}.

Context (cfg : parser_config) {dict_order : DictOrder}.

(** [__location_match], the filter [pygccxml] applies to what it returns *)
Definition location_match (d : decl) : bool :=
  bool_decide (decl_file d ∈ pc_header_files cfg)
  || existsb (fun incdir => startswith incdir (pc_abspath cfg (decl_file d))) (pc_whitelist_paths cfg).
Definition located (l : list decl) : list decl := List.filter location_match l.
(** [not d.name.startswith('__')] *)
Definition not_reserved (d : decl) : bool := negb (startswith "__" (decl_name d)).
Definition public_names (l : list decl) : list decl := List.filter not_reserved l.

(** The annotations of a declaration, after the hooks *)
Fixpoint run_pre_scan_hooks (hooks : list (decl -> all_annotations -> ST M all_annotations)) (d : decl)
    (anns : all_annotations) : ST M all_annotations :=
  match hooks with
  | [] => st_ret anns
  | hook :: hooks' => anns <- hook d anns ;; run_pre_scan_hooks hooks' d anns
  end.
Definition scanned_annotations (d : decl) : ST parser all_annotations :=
  on_scanner (get_annotations (pc_read_lines cfg) (is_artificial d) (decl_file d) (decl_line d)).
Definition annotations_of (d : decl) : ST parser all_annotations :=
  anns <- scanned_annotations d ;;
  on_module (run_pre_scan_hooks (pc_pre_scan_hooks cfg) d anns).
Definition run_post_scan_hooks (d : decl) (w : scanned) : ST parser unit :=
  on_module (st_iter (fun hook => hook d w) (pc_post_scan_hooks cfg)).

(** Writing *)
Definition pygen_sink_for (definition : option decl) : ST parser (option nat) :=
  st_lift (get_pygen_sink_for_definition (pc_target cfg) (pc_classifier cfg) definition).
Definition main_sink : option nat := get_main_pygen_sink (pc_target cfg).
Definition all_sinks : list nat := get_all_pygen_sinks (pc_target cfg).
Definition write_line (line : string) (k : nat) : ST parser unit := on_sinks (sink_writeln line k).
Definition on_all_sinks (body : nat -> ST (list code_sink) unit) : ST parser unit :=
  st_iter (fun k => on_sinks (body k)) all_sinks.

(** ['## ' + global_annotations['pygen_comment']], if there is one *)
Definition write_comment (anns : annotations) (k : nat) : ST parser unit :=
  match anns !! "pygen_comment" with
  | None => st_ret tt
  | Some (StrValue c) => write_line ("## " +:+ c) k
  | Some (NoValue | IntValue _) => st_raise TypeError
  end.

Definition full_names : ST parser (W -> string) := st_get (fun p => full_name_of (ps_module p)).

(** ** Sorting, as [list.sort] with a comparison: equal elements stay in order *)

Definition str_le (a b : string) : bool :=
  match String.compare a b with Gt => false | Eq | Lt => true end.
Fixpoint sort_insert (le : decl -> decl -> bool) (x : decl) (l : list decl) : list decl :=
  match l with
  | [] => [x]
  | y :: l' => if le x y then x :: l else y :: sort_insert le x l'
  end.
Definition sort_decls (le : decl -> decl -> bool) (l : list decl) : list decl :=
  fold_right (sort_insert le) [] l.
(** [decl_cmp] and [cls_cmp]; [fun_cmp] *)
Definition decl_le (a b : decl) : bool := str_le (decl_string a) (decl_string b).
Definition fun_le (a b : decl) : bool :=
  match String.compare (decl_name a) (decl_name b) with
  | Lt => true
  | Gt => false
  | Eq => decl_le a b
  end.

(** The namespaces within one that become submodules *)
Definition nested_namespaces (ns : decl) : list decl :=
  sort_decls decl_le (public_names (namespaces ns)).

(** ** Exceptions of a function *)

(** The name under which a type is looked up: without its reference *)
Definition type_lookup_name (type_string : string) : res string :=
  t <-? TypeTraits_init type_string ;;
  Ok (if type_is_reference t then str_opt (show <$> target t) else show (tt_ctype t)).
Definition lookup_type (type_string : string) : ST parser (option W) :=
  name <- st_lift (type_lookup_name type_string) ;;
  st_get (fun p => root_module_get (ps_module p) name).

(** [_get_calldef_exceptions]: what is no exception class is only warned about. *)
Fixpoint calldef_exceptions (l : list decl) : ST parser (list W) :=
  match l with
  | [] => st_ret []
  | d :: l' =>
      name <- st_lift (normalize_type_string (partial_decl_string d)) ;;
      exc <- lookup_type name ;;
      rest <- calldef_exceptions l' ;;
      st_ret match exc with
             | Some w => if is_cpp_exception w then w :: rest else rest
             | None => rest
             end
  end.

(** [_get_annotation_exceptions]: the warning about a name that is no exception class
    uses a variable that does not exist. *)
Fixpoint annotation_exception_list (l : list string) : ST parser (list W) :=
  match l with
  | [] => st_ret []
  | exc_name :: l' =>
      name <- st_lift (normalize_type_string exc_name) ;;
      exc <- lookup_type name ;;
      match exc with
      | Some w => if is_cpp_exception w
                  then rest <- annotation_exception_list l' ;; st_ret (w :: rest)
                  else st_raise NameError
      | None => st_raise NameError
      end
  end.
Definition annotation_exceptions (value : ann_value) : ST parser (list W) :=
  s <- st_lift (ann_string value) ;; annotation_exception_list (split_on "," s).

(** ** Types and arguments *)

(** [try: ... except (TypeLookupError, TypeConfigurationError)]: other errors are raised. *)
Definition try_new {A} (c : ST M A) : ST parser (option A) :=
  on_module (st_catch (a <- c ;; st_ret (Some a))
    (fun e => match e with
              | TypeLookupError _ | TypeConfigurationError => st_ret None
              | _ => st_raise e
              end)).


(** The text of a list of parameters *)
Definition arglist_repr (names : W -> string) (specs : list (type_spec W)) : string :=
  "[" +:+ join ", " (map (fun spec => pygen_param names spec.1 spec.2) specs) +:+ "]".

(** ['deprecated' in member.attributes] *)
Definition has_substring (p s : string) : bool :=
  match String.index 0 p s with Some _ => true | None => false end.
Definition is_deprecated (d : decl) : bool :=
  match attributes d with Some a => has_substring "deprecated" a | None => false end.
End parser.
