(* ===== verification/PygenTrace.v ===== *)
(** * What a script is made of

    Sequences of operations on the sinks of a script.  [wrote] relates the sinks before
    and after code that only writes; [ran] says which operations were run on each sink,
    for the operations that [ops_on] finds in the code; and [closes] describes the code
    of a nested function of the script, which ends the block it is in. *)
From S2P Require Import Prelude.
From S2P Require Import Format.
From S2P Require Import CodeSink.
From S2P Require Import Annotations.
From S2P Require Import Pygen.

(** ** What is written *)

(** Every sink was only written to. *)
Definition wrote (sinks sinks' : list code_sink) : Prop :=
  length sinks' = length sinks
  /\ forall k s, sinks !! k = Some s -> exists ls, sinks' !! k = Some (fold_left writeln ls s).

#[export] Instance wrote_preorder : PreOrder wrote.
Proof.
  split.
  - intros sinks. split; [done|]. intros k s H. by exists [].
  - intros s1 s2 s3 [L1 H1] [L2 H2]. split; [congruence|]. intros k s H.
    destruct (H1 k s H) as [ls1 E1]. destruct (H2 _ _ E1) as [ls2 E2].
    exists (ls1 ++ ls2). by rewrite fold_left_app.
Qed.

Lemma wrote_writeln line k : evolves wrote (sink_writeln line k).
Proof.
  intros sinks. unfold sink_writeln, on_sink. destruct (sinks !! k) as [s|] eqn:E; [|reflexivity].
  cbn. split; [by rewrite length_insert|]. intros j s' Hj. destruct (decide (j = k)) as [->|Hne].
  - exists [line]. rewrite list_lookup_insert_eq by by apply lookup_lt_Some in E. cbn. congruence.
  - exists []. by rewrite list_lookup_insert_ne.
Qed.

(** The operations on one sink that a piece of code stands for *)
Definition ops_on (body : nat -> ST (list code_sink) unit) (ops : nat -> list sink_op) : Prop :=
  forall k sinks sinks', body k sinks = (sinks', Ok tt) ->
    match sinks !! k with
    | Some s => exists s', run_ops s (ops k) = Ok s' /\ sinks' = <[k := s']> sinks
    | None => sinks' = sinks
    end.

Lemma ops_on_sink f op : (forall s, f s = run_op s op) -> ops_on (on_sink f) (fun _ => [op]).
Proof.
  intros Hf k sinks sinks'. unfold on_sink. destruct (sinks !! k) as [s|]; [|done].
  rewrite Hf. cbn. destruct (run_op s op) as [s'|]; [|done]. intros [= <-]. by exists s'.
Qed.
Lemma ops_on_writeln line : ops_on (sink_writeln line) (fun _ => [OpWrite line]).
Proof. by apply ops_on_sink. Qed.
Lemma ops_on_indent : ops_on sink_indent (fun _ => [OpIndent 4]).
Proof. by apply ops_on_sink. Qed.
Lemma ops_on_unindent : ops_on sink_unindent (fun _ => [OpUnindent]).
Proof. by apply ops_on_sink. Qed.
Lemma ops_on_ret : ops_on (fun _ => st_ret tt) (fun _ => []).
Proof.
  intros k sinks sinks' [= <-]. destruct (sinks !! k) as [s|] eqn:E; [|done].
  exists s. split; [done|]. by rewrite list_insert_id.
Qed.
Lemma ops_on_bind body1 body2 ops1 ops2 :
  ops_on body1 ops1 -> ops_on body2 ops2 ->
  ops_on (fun k => body1 k ;;; body2 k) (fun k => ops1 k ++ ops2 k).
Proof.
  intros H1 H2 k sinks sinks' (sinks1&[]&E1&E2)%st_bind_Ok.
  specialize (H1 _ _ _ E1). specialize (H2 _ _ _ E2).
  destruct (sinks !! k) as [s|] eqn:Hs; [|subst; by rewrite Hs in H2].
  destruct H1 as (s1&R1&->). rewrite list_lookup_insert_eq in H2 by by apply lookup_lt_Some in Hs.
  destruct H2 as (s2&R2&->). exists s2. rewrite run_ops_app, R1. split; [done|].
  by rewrite list_insert_insert_eq.
Qed.
Lemma ops_on_iter {A} (body : nat -> A -> ST (list code_sink) unit) ops l :
  (forall x, ops_on (fun k => body k x) (fun k => ops k x)) ->
  ops_on (fun k => st_iter (body k) l) (fun k => flat_map (ops k) l).
Proof.
  intros H. induction l as [|x l IH]; [apply ops_on_ret|]. exact (ops_on_bind _ _ _ _ (H x) IH).
Qed.
Lemma ops_on_when b body ops :
  ops_on body ops -> ops_on (fun k => st_when b (body k)) (fun k => if b then ops k else []).
Proof. destruct b; [done|]. intros _. apply ops_on_ret. Qed.
(** The list may depend on the sink. *)
Lemma ops_on_choice {A} (body : nat -> list A -> ST (list code_sink) unit) ops (l : nat -> list A) :
  (forall l, ops_on (fun k => body k l) (fun k => ops k l)) ->
  ops_on (fun k => body k (l k)) (fun k => ops k (l k)).
Proof. intros H k. exact (H (l k) k). Qed.

(** A call of the function of a section only writes. *)
Definition section_lines (function argument : string) (sect : pygen_section) : list string :=
  ["root_module.begin_section(" +:+ py_repr (sect_name sect) +:+ ")";
   sect_name sect +:+ "." +:+ function +:+ "(" +:+ argument +:+ ")"]
  ++ (if truthy (sect_local_customizations_module sect)
      then [customization_lines (str_opt (sect_local_customizations_module sect)) function argument] else [])
  ++ ["root_module.end_section(" +:+ py_repr (sect_name sect) +:+ ")"].
Lemma ops_on_section_call function argument sect :
  ops_on (fun k => section_call function argument k sect)
         (fun _ => map OpWrite (section_lines function argument sect)).
Proof.
  unfold section_call, section_lines.
  pose proof (ops_on_bind _ _ _ _ (ops_on_writeln ("root_module.begin_section(" +:+ py_repr (sect_name sect) +:+ ")"))
    (ops_on_bind _ _ _ _ (ops_on_writeln (sect_name sect +:+ "." +:+ function +:+ "(" +:+ argument +:+ ")"))
    (ops_on_bind _ _ _ _ (ops_on_when (truthy (sect_local_customizations_module sect)) _ _
        (ops_on_writeln (customization_lines (str_opt (sect_local_customizations_module sect)) function argument)))
      (ops_on_writeln ("root_module.end_section(" +:+ py_repr (sect_name sect) +:+ ")"))))) as H.
  destruct (truthy _); exact H.
Qed.

(** [os j] was run on every sink [j]. *)
Definition ran (os : nat -> list sink_op) (sinks sinks' : list code_sink) : Prop :=
  length sinks' = length sinks
  /\ forall j s, sinks !! j = Some s -> exists s', sinks' !! j = Some s' /\ run_ops s (os j) = Ok s'.

Lemma ran_nothing sinks : ran (fun _ => []) sinks sinks.
Proof. split; [done|]. intros j s H. by exists s. Qed.
Lemma ran_app os1 os2 s1 s2 s3 :
  ran os1 s1 s2 -> ran os2 s2 s3 -> ran (fun j => os1 j ++ os2 j) s1 s3.
Proof.
  intros [L1 H1] [L2 H2]. split; [congruence|]. intros j s Hj.
  destruct (H1 j s Hj) as (s'&Hs'&R1). destruct (H2 j s' Hs') as (s''&Hs''&R2).
  exists s''. split; [done|]. by rewrite run_ops_app, R1.
Qed.
Lemma run_write_ops ls : forall s, run_ops s (map OpWrite ls) = Ok (fold_left writeln ls s).
Proof. induction ls as [|l ls IH]; intros s; [done|]. apply IH. Qed.

(** A run that only writes *)
Lemma ran_wrote s s' : wrote s s' -> exists lines : nat -> list string,
  ran (fun j => map OpWrite (lines j)) s s'.
Proof.
  intros [L H]. assert (exists lines : list (list string), length lines = length s /\
    forall j x, s !! j = Some x -> s' !! j = Some (fold_left writeln (nth j lines []) x)) as (lines&_&Hl).
  { clear L. revert s' H. induction s as [|x s IH]; intros s' H; [by exists []|].
    destruct (H 0%nat x eq_refl) as [ls Hls].
    destruct s' as [|y s']; [done|]. injection Hls as ->.
    destruct (IH s') as (lines&Ln&Hl); [intros k z Hz; apply (H (S k) z Hz)|].
    exists (ls :: lines). split; [cbn; congruence|]. intros [|j] z Hz; [cbn in *; congruence|].
    apply (Hl j z Hz). }
  exists (fun j => nth j lines []). split; [done|]. intros j x Hx.
  eexists. split; [by apply Hl|]. apply run_write_ops.
Qed.

(** The same operations on every sink of a list without repetitions *)
Lemma ran_sinks body ops l : ops_on body ops -> NoDup l ->
  forall sinks sinks', st_iter body l sinks = (sinks', Ok tt) ->
  ran (fun j => if bool_decide (j ∈ l) then ops j else []) sinks sinks'.
Proof.
  intros Hb. induction 1 as [|k l Hk Hl IH]; intros sinks sinks'; cbn [st_iter].
  - intros [= <-]. apply ran_nothing.
  - intros (sinks1&[]&E1&E2)%st_bind_Ok. specialize (Hb _ _ _ E1).
    specialize (IH _ _ E2) as [L IH].
    assert (length sinks1 = length sinks) as L1.
    { destruct (sinks !! k); [destruct Hb as (?&_&->); by rewrite length_insert|by subst]. }
    split; [congruence|]. intros j x Hj. destruct (decide (j = k)) as [->|Hne].
    + rewrite Hj in Hb. destruct Hb as (s1&R1&->). rewrite bool_decide_true by by left.
      destruct (IH k s1) as (s2&Hs2&R2);
        [by apply list_lookup_insert_eq, (lookup_lt_Some _ _ _ Hj)|].
      rewrite bool_decide_false in R2 by done. injection R2 as <-. by exists s1.
    + destruct (IH j x) as (s2&Hs2&R2).
      { destruct (sinks !! k); [destruct Hb as (?&_&->); by rewrite list_lookup_insert_ne|by subst]. }
      exists s2. split; [done|]. rewrite <- R2. f_equal.
      destruct (decide (j ∈ l)); [by rewrite !bool_decide_true by (by right || done)|].
      rewrite !bool_decide_false; [done|done|]. by rewrite elem_of_cons; intros [|].
Qed.

(** ** Closing a block

    [scan_namespace_functions] starts inside of a function of the script, which it
    closes.  [closes os]: a well-bracketed sequence that ends the current block first. *)
Definition closes (os : list sink_op) : Prop :=
  exists os1 os2, os = os1 ++ OpUnindent :: os2 /\ bracketed os1 /\ bracketed os2.

Lemma closes_app os os' : closes os -> bracketed os' -> closes (os ++ os').
Proof.
  intros (os1&os2&->&H1&H2) H. exists os1, (os2 ++ os'). rewrite <- app_assoc.
  split; [done|]. split; [done|]. by apply bracketed_app.
Qed.
Lemma app_closes os os' : bracketed os -> closes os' -> closes (os ++ os').
Proof.
  intros H (os1&os2&->&H1&H2). exists (os ++ os1), os2. rewrite <- app_assoc.
  split; [done|]. split; [by apply bracketed_app|done].
Qed.
Lemma indent_closes n os : closes os -> bracketed (OpIndent n :: os).
Proof. intros (os1&os2&->&H1&H2). by constructor. Qed.

(** ** Well-bracketed runs *)

(** A well-bracketed sequence with the operations that are needed on a sink *)
Definition includes (needs : nat -> sink_op -> Prop) (k : nat) (os : list sink_op) : Prop :=
  bracketed os /\ forall op, needs k op -> op ∈ os.

Lemma includes_app needs1 needs2 needs k os1 os2 :
  (forall op, needs k op -> needs1 k op \/ needs2 k op) ->
  includes needs1 k os1 -> includes needs2 k os2 -> includes needs k (os1 ++ os2).
Proof.
  intros H [B1 N1] [B2 N2]. split; [by apply bracketed_app|]. intros op Hop.
  apply elem_of_app. destruct (H op Hop); auto.
Qed.

(** Such a run brings the indentation back. *)
Lemma ran_bracketed os sinks sinks' k s :
  ran os sinks sinks' -> bracketed (os k) -> sinks !! k = Some s ->
  exists s', sinks' !! k = Some s' /\ run_ops s (os k) = Ok s' /\ same_indent s' s.
Proof.
  intros [_ H] Hb Hs. destruct (H k s Hs) as (s'&Hs'&Hr). exists s'. split; [done|]. split; [done|].
  destruct (bracketed_run _ Hb s) as (s2&Er&Hi&_). rewrite Hr in Er. by injection Er as ->.
Qed.
