(* ===== verification/GccXmlFrame.v ===== *)
(** * The header parser: frames

    What the parts of the header parser leave alone.  [parser_frame] is the frame all
    scans share: they write to the sinks, move the module along a preorder [keeps] that
    the operations on it are said to respect, and leave the classes of the parser as they
    are.  [emits] describes what a scan writes to each sink of the script. *)
From S2P Require Import Prelude.
From S2P Require Import Format.
From S2P Require Import CodeSink.
From S2P Require Import Annotations.
From S2P Require Import Pygen.
From S2P Require Import GccXml.
From S2P Require Import PygenTrace.

(** Follows the structure of a computation and leaves calls to the hints. *)
Ltac parser_step :=
  match goal with
  | |- evolves _ (st_bind _ _) => apply evolves_bind; [apply _ | | intros ?]
  | |- evolves _ (st_iter _ _) => apply evolves_iter; [apply _ | intros ?]
  | |- evolves _ (st_when _ _) => apply evolves_when; [apply _ |]
  | |- evolves _ (st_catch _ _) => apply evolves_catch; [apply _ | | intros ?]
  | |- evolves _ (st_ret _) => apply evolves_ret, _
  | |- evolves _ (st_raise _) => apply evolves_raise, _
  | |- evolves _ (st_lift _) => apply evolves_lift, _
  | |- evolves _ (st_get _) => apply evolves_get, _
  | |- evolves _ (st_assert _) => apply evolves_assert, _
  | |- evolves _ (if _ then _ else _) => apply evolves_if
  | |- evolves _ (match ?x with _ => _ end) => destruct x
  | |- _ => solve [eauto with st typeclass_instances]
  end.
Ltac parser_steps := repeat parser_step.

(** Computations that agree step by step *)
Lemma st_bind_ext {S A B} (m : ST S A) (f g : A -> ST S B) s :
  (forall a s, f a s = g a s) -> st_bind m f s = st_bind m g s.
Proof. intros H. unfold st_bind. destruct (m s) as [s' [a|e]]; [apply H|done]. Qed.
Lemma st_bind_ext_res {S A B} (m : ST S A) (f g : A -> ST S B) s :
  (forall a s', m s = (s', Ok a) -> f a s' = g a s') -> st_bind m f s = st_bind m g s.
Proof. intros H. unfold st_bind. destruct (m s) as [s' [a|e]]; [by apply H|done]. Qed.
Lemma st_bind_cong {S A B} (m1 m2 : ST S A) (f g : A -> ST S B) s :
  m1 s = m2 s -> (forall a s', f a s' = g a s') -> st_bind m1 f s = st_bind m2 g s.
Proof. intros Hm H. unfold st_bind. rewrite Hm. destruct (m2 s) as [s' [a|e]]; [apply H|done]. Qed.
Lemma st_bind_ext_l {S A B} (m1 m2 : ST S A) (k : A -> ST S B) s :
  m1 s = m2 s -> st_bind m1 k s = st_bind m2 k s.
Proof. intros H. unfold st_bind. by rewrite H. Qed.
Lemma st_iter_ext {S A} (f g : A -> ST S unit) l :
  (forall x s, x ∈ l -> f x s = g x s) -> forall s, st_iter f l s = st_iter g l s.
Proof.
  induction l as [|x l IH]; intros H s; [done|]. cbn [st_iter]. unfold st_bind.
  rewrite H by by left. destruct (g x s) as [s' [[]|e]]; [|done].
  apply IH. intros y s'' Hy. apply H. by right.
Qed.

(** Sorting keeps the elements. *)
Section sorting.
Context {gccxml : Gccxml}.

Lemma elem_of_sort_insert le (d x : decl) l : d ∈ sort_insert le x l <-> d = x \/ d ∈ l.
Proof.
  induction l as [|y l IH]; cbn [sort_insert]; [by rewrite elem_of_cons|].
  destruct (le x y); rewrite !elem_of_cons, ?IH; tauto.
Qed.
Lemma elem_of_sort_decls le (d : decl) l : d ∈ sort_decls le l <-> d ∈ l.
Proof.
  induction l as [|y l IH]; [done|]. cbn [sort_decls fold_right].
  fold (sort_decls le l). by rewrite elem_of_sort_insert, IH, elem_of_cons.
Qed.
Lemma nested_namespaces_in ns nested : nested ∈ nested_namespaces ns -> nested ∈ namespaces ns.
Proof.
  unfold nested_namespaces, public_names. rewrite elem_of_sort_decls, !list_elem_of_In.
  by intros [H _]%List.filter_In.
Qed.
End sorting.

Section frame.
Context {gccxml : Gccxml} {W F R P M : Type} {ops : WrapOps W F R P M}.
Context (keeps : relation M) {keeps_preorder : PreOrder keeps}.
Context (cfg : parser_config (W:=W) (F:=F) (M:=M)) {dict_order : DictOrder}.
Local Abbreviation parser := (parser (W:=W) (M:=M)).

(** The hooks respect [keeps]. *)
Definition hooks_keep : Prop :=
  Forall (fun hook => forall d anns, evolves keeps (hook d anns)) (pc_pre_scan_hooks cfg)
  /\ Forall (fun hook => forall d w, evolves keeps (hook d w)) (pc_post_scan_hooks cfg).

Definition parser_frame (p p' : parser) : Prop :=
  wrote (ps_sinks p) (ps_sinks p') /\ keeps (ps_module p) (ps_module p')
  /\ ps_registered_classes p' = ps_registered_classes p
  /\ ps_ordered_classes p' = ps_ordered_classes p
  /\ ps_anonymous_structs p' = ps_anonymous_structs p
  /\ ps_types_scanned p' = ps_types_scanned p.

#[export] Instance parser_frame_preorder : PreOrder parser_frame.
Proof.
  split.
  - intros p. split; [reflexivity|]. split; [reflexivity|]. done.
  - intros p1 p2 p3 (W1&T1&C1&O1&A1&S1) (W2&T2&C2&O2&A2&S2).
    split; [by transitivity (ps_sinks p2)|]. split; [by transitivity (ps_module p2)|].
    repeat split; congruence.
Qed.

Lemma frame_on_module {A} (c : ST M A) : evolves keeps c -> evolves parser_frame (on_module c).
Proof.
  intros H p. unfold on_module. specialize (H (ps_module p)). destruct (c (ps_module p)) as [m r].
  split; [reflexivity|]. split; [exact H|]. done.
Qed.
Lemma frame_on_sinks {A} (c : ST (list code_sink) A) :
  evolves wrote c -> evolves parser_frame (on_sinks (W:=W) (M:=M) c).
Proof.
  intros H p. unfold on_sinks. specialize (H (ps_sinks p)). destruct (c (ps_sinks p)) as [s r].
  split; [exact H|]. split; [reflexivity|]. done.
Qed.
Lemma frame_on_scanner {A} (c : ST scanner A) : evolves parser_frame (on_scanner (W:=W) (M:=M) c).
Proof.
  intros p. unfold on_scanner. destruct (c (ps_scanner p)) as [s r].
  split; [reflexivity|]. split; [reflexivity|]. done.
Qed.
Lemma frame_write_line line k : evolves parser_frame (write_line (W:=W) (M:=M) line k).
Proof. apply frame_on_sinks, wrote_writeln. Qed.
Hint Resolve frame_on_module frame_on_sinks frame_on_scanner frame_write_line : st.

Lemma frame_pre_hooks hooks d anns :
  Forall (fun hook => forall d anns, evolves keeps (hook d anns)) hooks ->
  evolves keeps (run_pre_scan_hooks hooks d anns).
Proof. intros H. revert anns. induction H as [|hook hooks H1 H2 IH]; intros anns; cbn; parser_steps. Qed.

Lemma frame_annotations_of d : hooks_keep -> evolves parser_frame (annotations_of cfg d).
Proof.
  intros [H _]. unfold annotations_of, scanned_annotations. parser_steps.
  by apply frame_on_module, frame_pre_hooks.
Qed.
Lemma frame_post_hooks d w : hooks_keep -> evolves parser_frame (run_post_scan_hooks cfg d w).
Proof.
  intros [_ H]. apply frame_on_module, evolves_iter_in; [apply _|].
  eapply Forall_impl; [exact H|]. auto.
Qed.

Lemma frame_lookup_type s : evolves parser_frame (lookup_type (W:=W) (M:=M) s).
Proof. unfold lookup_type. parser_steps. Qed.
Hint Resolve frame_lookup_type : st.

Lemma frame_calldef_exceptions l : evolves parser_frame (calldef_exceptions (W:=W) (M:=M) l).
Proof. induction l as [|d l IH]; cbn [calldef_exceptions]; parser_steps. Qed.
Lemma frame_exception_list l : evolves parser_frame (annotation_exception_list (W:=W) (M:=M) l).
Proof. induction l as [|n l IH]; cbn [annotation_exception_list]; parser_steps. Qed.
Hint Resolve frame_exception_list : st.
Lemma frame_annotation_exceptions v : evolves parser_frame (annotation_exceptions (W:=W) (M:=M) v).
Proof. unfold annotation_exceptions. parser_steps. Qed.

Lemma frame_try_new {A} (c : ST M A) : evolves keeps c -> evolves parser_frame (try_new c).
Proof. intros H. apply frame_on_module. parser_steps. Qed.

Lemma frame_write_comment anns k : evolves parser_frame (write_comment (W:=W) (M:=M) anns k).
Proof. unfold write_comment. parser_steps. Qed.
Hint Resolve frame_write_comment : st.
Lemma frame_commented anns sink line :
  evolves parser_frame (with_sink sink (fun k => write_comment anns k ;;; write_line (W:=W) (M:=M) line k)).
Proof. unfold with_sink. parser_steps. Qed.

(** ** What is written to each sink *)

(** [p'] is reached from [p] by operations on the sinks that satisfy [Q] for each. *)
Definition emits (Q : nat -> list sink_op -> Prop) (p p' : parser) : Prop :=
  keeps (ps_module p) (ps_module p') /\ ps_ordered_classes p' = ps_ordered_classes p
  /\ ps_anonymous_structs p' = ps_anonymous_structs p
  /\ exists os, ran os (ps_sinks p) (ps_sinks p') /\ forall k, Q k (os k).

Lemma emits_app (Q1 Q2 Q : nat -> list sink_op -> Prop) p1 p2 p3 :
  (forall k os1 os2, Q1 k os1 -> Q2 k os2 -> Q k (os1 ++ os2)) ->
  emits Q1 p1 p2 -> emits Q2 p2 p3 -> emits Q p1 p3.
Proof.
  intros HQ (T1&O1&A1&os1&R1&H1) (T2&O2&A2&os2&R2&H2). split; [by transitivity (ps_module p2)|].
  split; [congruence|]. split; [congruence|].
  exists (fun k => os1 k ++ os2 k). split; [by eapply ran_app|]. auto.
Qed.
Lemma emits_mono (Q1 Q2 : nat -> list sink_op -> Prop) p1 p2 :
  (forall k os, Q1 k os -> Q2 k os) -> emits Q1 p1 p2 -> emits Q2 p1 p2.
Proof. intros HQ (T&O&A&os&R1&H). repeat split; eauto. Qed.
Lemma emits_nothing (Q : nat -> list sink_op -> Prop) p : (forall k, Q k []) -> emits Q p p.
Proof.
  intros H. split; [reflexivity|]. do 2 (split; [done|]). exists (fun _ => []).
  split; [apply ran_nothing|done].
Qed.
Lemma emits_keeps Q p p' m : emits Q p p' -> keeps m (ps_module p) -> keeps m (ps_module p').
Proof. intros [T _] H. by transitivity (ps_module p). Qed.
Lemma frame_emits p p' : parser_frame p p' -> emits (fun _ os => bracketed os) p p'.
Proof.
  intros (W1&T1&_&O&A&_). do 3 (split; [done|]). destruct (ran_wrote _ _ W1) as [lines H].
  eexists. split; [exact H|]. intros k. apply bracketed_writes.
Qed.
Lemma evolves_emits {A} (c : ST parser A) p p' a :
  evolves parser_frame c -> c p = (p', Ok a) -> emits (fun _ os => bracketed os) p p'.
Proof. intros H E. apply frame_emits. specialize (H p). by rewrite E in H. Qed.

Lemma iter_on_sinks (body : nat -> ST (list code_sink) unit) l : forall p : parser,
  st_iter (fun k => on_sinks (body k)) l p =
  let '(s, r) := st_iter body l (ps_sinks p) in (set_sinks s p, r).
Proof.
  induction l as [|k l IH]; intros p; cbn [st_iter]; [by destruct p|].
  unfold st_bind. unfold on_sinks at 1. destruct (body k (ps_sinks p)) as [s [[]|e]]; [|done].
  rewrite IH. cbn. by destruct (st_iter body l s).
Qed.

(** The same operations on every sink of the script *)
Lemma all_sinks_emit body sink_ops (p p' : parser) :
  ops_on body sink_ops -> NoDup (all_sinks cfg) ->
  on_all_sinks cfg body p = (p', Ok tt) ->
  emits (fun k os => os = if bool_decide (k ∈ all_sinks cfg) then sink_ops k else []) p p'.
Proof.
  intros Hb Hnd. unfold on_all_sinks. rewrite iter_on_sinks.
  destruct (st_iter body (all_sinks cfg) (ps_sinks p)) as [s r] eqn:E. intros [= <- ->].
  split; [reflexivity|]. do 2 (split; [done|]). eexists. split; [by eapply ran_sinks|done].
Qed.

(** Operations on one sink *)
Lemma one_sink_emits body sink_ops (p p' : parser) k :
  ops_on body sink_ops -> on_sinks (body k) p = (p', Ok tt) ->
  emits (fun j os => os = if bool_decide (j = k) then sink_ops k else []) p p'.
Proof.
  intros Hb. unfold on_sinks. destruct (body k (ps_sinks p)) as [s r] eqn:E. intros [= <- ->].
  split; [reflexivity|]. do 2 (split; [done|]). eexists. split; [|done].
  specialize (Hb _ _ _ E). change (ps_sinks (set_sinks s p)) with s. split; [destruct (ps_sinks p !! k); [destruct Hb as (?&_&->); by rewrite length_insert|by subst]|].
  intros j x Hj. case_bool_decide as Hjk; [subst j; rewrite Hj in Hb; destruct Hb as (s'&Hs'&->)|].
  - exists s'. split; [by apply list_lookup_insert_eq, (lookup_lt_Some _ _ _ Hj)|done].
  - exists x. split; [|done]. destruct (ps_sinks p !! k); [destruct Hb as (?&_&->)|by subst].
    by rewrite list_lookup_insert_ne.
Qed.

Lemma iter_emits {A} (body : A -> ST parser unit) (needs : A -> nat -> sink_op -> Prop) m l :
  (forall x p p', x ∈ l -> keeps m (ps_module p) -> body x p = (p', Ok tt) ->
     emits (includes (needs x)) p p') ->
  forall p p', keeps m (ps_module p) -> st_iter body l p = (p', Ok tt) ->
  emits (includes (fun k op => exists x, x ∈ l /\ needs x k op)) p p'.
Proof.
  induction l as [|x l IH]; intros H p p' Hm; cbn [st_iter].
  - intros [= <-]. apply emits_nothing. intros k. split; [constructor|].
    by intros op (x&[]%not_elem_of_nil&_).
  - intros (p1&[]&E1&E2)%st_bind_Ok. apply H in E1; [|by left|done].
    apply IH in E2; [|intros y q q' Hy; apply H; by right|by eapply emits_keeps].
    refine (emits_app _ _ _ _ _ _ _ E1 E2). intros k os1 os2. apply includes_app.
    intros op (y&[->|Hy]%elem_of_cons&Hn); [by left|right; by exists y].
Qed.
End frame.
#[export] Hint Resolve frame_on_module frame_on_sinks frame_on_scanner frame_write_line
  frame_annotations_of frame_post_hooks frame_lookup_type frame_calldef_exceptions
  frame_annotation_exceptions frame_try_new frame_write_comment frame_commented : st.
