(* ===== verification/GccXmlDemo.v ===== *)
(** * A small [pygccxml] and a small module

    Concrete instances of the interfaces of [GccXml], on which the theorems about the
    header parser are tried: declarations are entries of a table and types are their
    names; a module records the names of its submodules and types and the calls made. *)
From S2P Require Import Prelude.
From S2P Require Import Format.
From S2P Require Import CodeSink.
From S2P Require Import Annotations.
From S2P Require Import Pygen.
From S2P Require Import GccXml.

(** ** Declarations *)

Record demo_entry : Type := DemoEntry {
  de_name : string;
  de_kind : decl_kind;
  de_access : string;
  de_virtuality : virtuality;
  de_type : string;
  de_arguments : list (string * string * option string);
  de_functions : list nat;
  de_namespaces : list nat;
  de_classes : list nat;
  de_typedefs : list nat;
  de_members : list nat;
  de_bases : list nat
}.
Definition demo_namespace (name : string) (functions nested classes typedefs : list nat) : demo_entry :=
  DemoEntry name OtherDecl "public" NotVirtual EmptyString [] functions nested classes typedefs [] [].
Definition demo_function (name type_ : string) (args : list (string * string * option string)) : demo_entry :=
  DemoEntry name OtherDecl "public" NotVirtual type_ args [] [] [] [] [] [].
Definition demo_method (name type_ access : string) (v : virtuality)
    (args : list (string * string * option string)) : demo_entry :=
  DemoEntry name MemberFunction access v type_ args [] [] [] [] [] [].
Definition demo_class (name : string) (members bases : list nat) : demo_entry :=
  DemoEntry name ClassDef "public" NotVirtual EmptyString [] [] [] [] [] members bases.

Section demo_gccxml.
Context (table : list demo_entry).

Definition no_entry : demo_entry := demo_namespace EmptyString [] [] [] [].
Definition entry (d : nat) : demo_entry := default no_entry (table !! d).

(** All names are in the global namespace and everything is on line 2 of ["foo.h"]. *)
Definition demo_gccxml : Gccxml := {|
  decl := nat;
  cpp_type := string;
  decl_eq := _;
  decl_name d := de_name (entry d);
  decl_string d := de_name (entry d);
  partial_decl_string d := de_name (entry d);
  decl_kind_of d := de_kind (entry d);
  decl_file _ := "foo.h";
  decl_line _ := 2;
  is_artificial _ := false;
  access_type d := de_access (entry d);
  attributes _ := None;
  decl_parent _ := None;
  free_functions d := de_functions (entry d);
  free_operators _ := [];
  namespaces d := de_namespaces (entry d);
  enums _ := [];
  classes d := de_classes (entry d);
  typedefs d := de_typedefs (entry d);
  members d := de_members (entry d);
  public_members d := List.filter (fun m => String.eqb (de_access (entry m)) "public") (de_members (entry d));
  casting_operators _ := [];
  member_operators _ := [];
  bases d := de_bases (entry d);
  member_access_type _ m := de_access (entry m);
  has_trivial_constructor _ := true;
  has_copy_constructor _ := true;
  enum_value_names _ := [];
  decl_type d := de_type (entry d);
  variable_is_static _ := false;
  return_type d := de_type (entry d);
  arguments d := de_arguments (entry d);
  exceptions _ := [];
  demangled_name d := de_name (entry d);
  symbol _ := EmptyString;
  has_const _ := false;
  has_static _ := false;
  virtuality_of d := de_virtuality (entry d);
  dependencies _ := [];
  type_decl_string t := t;
  type_str t := t;
  is_pointer _ := false;
  is_pointer_t _ := false;
  is_reference _ := false;
  is_const _ := false;
  remove_pointer t := t;
  remove_reference t := t;
  remove_const t := t;
  reference_base _ := None;
  is_const_t _ := false;
  declared t := fst <$> list_find (fun e => de_name e = t) table;
  declaration_of t := fst <$> list_find (fun e => de_name e = t) table;
  class_type d := de_name (entry d);
  is_convertible _ _ := false;
  find_container_traits _ := None;
  element_type _ t := t;
  key_type _ := None;
  is_instantiation _ := false;
  template_args _ := [];
  template_name n := n;
  find_declaration_from_name _ := None
|}.
End demo_gccxml.

(** ** A module *)

(** Submodules with their parents, the names of the types, the calls.  [dm_known] are the
    types for which there are handlers. *)
Record demo_module : Type := DemoModule {
  dm_tree : list (nat * string);
  dm_types : list string;
  dm_log : list string;
  dm_known : list string
}.

Definition demo_log (line : string) : ST demo_module unit :=
  st_modify (fun m => DemoModule (dm_tree m) (dm_types m) (dm_log m ++ [line]) (dm_known m)).
Definition demo_new_type (line name : string) : ST demo_module nat :=
  n <- st_get (fun m => length (dm_types m)) ;;
  st_modify (fun m => DemoModule (dm_tree m) (dm_types m ++ [name]) (dm_log m ++ [line +:+ " " +:+ name])
                        (dm_known m)) ;;;
  st_ret n.
Definition demo_value (spec : type_spec nat) : ST demo_module string :=
  fun m => (m, match spec.1 with
               | t :: _ => if bool_decide (t ∈ dm_known m) then Ok t else Raise (TypeLookupError [t])
               | [] => Raise TypeError
               end).
(** A submodule is known by one more than its place in the list; the root is 0. *)
Definition demo_submodule (m : demo_module) (i : nat) (name : string) : option nat :=
  S ∘ fst <$> list_find (eq (i, name)) (dm_tree m).
Definition demo_path (m : demo_module) (i : nat) : list string :=
  match i with O => [] | S j => match dm_tree m !! j with Some x => [x.2] | None => [] end end.
Definition demo_name (m : demo_module) (w : nat) : string := default EmptyString (dm_types m !! w).

#[export] Instance demo_ops : WrapOps nat unit string string demo_module := {|
  wrapper_eq := _;
  new_module _ _ := st_ret 0%nat;
  module_add_include _ inc := demo_log ("include " +:+ inc);
  cpp_namespace_prefix _ _ := EmptyString;
  submodule := demo_submodule;
  namespace_path := demo_path;
  add_cpp_namespace i name :=
    n <- st_get (fun m => length (dm_tree m)) ;;
    st_modify (fun m => DemoModule (dm_tree m ++ [(i, name)]) (dm_types m) (dm_log m) (dm_known m)) ;;;
    st_ret (S n);
  root_module_get m name := fst <$> list_find (eq name) (dm_types m);
  is_cpp_exception _ := false;
  full_name_of := demo_name;
  mangled_full_name := demo_name;
  memory_policy_methods _ _ := None;
  allow_subclassing _ _ := false;
  is_this_class_ref _ _ _ := false;
  add_enum _ name _ _ := demo_new_type "enum" name ;;; st_ret tt;
  add_class _ name _ := demo_new_type "class" name;
  add_exception _ name _ := demo_new_type "exception" name;
  add_container _ name _ _ := demo_new_type "container" name ;;; st_ret tt;
  add_typedef _ _ name := demo_log ("typedef " +:+ name);
  register_alias _ name := demo_log ("alias " +:+ name);
  implicitly_converts_to _ _ := st_ret tt;
  add_type_alias _ _ := st_ret tt;
  ReturnValue_new := demo_value;
  Parameter_new := demo_value;
  add_function _ name _ _ _ := demo_log ("function " +:+ name);
  add_function_as_method _ name _ _ _ := demo_log ("method " +:+ name);
  add_function_as_constructor _ name _ _ := demo_log ("constructor " +:+ name);
  add_method _ name _ _ _ := demo_log ("method " +:+ name);
  add_constructor _ _ _ := demo_log "constructor";
  add_copy_constructor _ := demo_log "copy constructor";
  add_static_attribute _ name _ _ := demo_log ("static " +:+ name);
  add_instance_attribute _ name _ _ := demo_log ("attribute " +:+ name);
  add_output_stream_operator _ := demo_log "<<";
  add_binary_comparison_operator _ op := demo_log op;
  add_binary_numeric_operator _ op _ _ _ := demo_log op;
  add_inplace_numeric_operator _ op _ := demo_log op;
  add_unary_numeric_operator _ op := demo_log op;
  set_cannot_be_constructed w reason := demo_log ("cannot be constructed: " +:+ reason);
  set_helper_class_disabled _ _ := demo_log "helper class disabled"
|}.

(** ** A configuration *)

Section demo_config.
Context (table : list demo_entry).
#[local] Instance demo_declarations : Gccxml := demo_gccxml table.

(** One sink for the script, no hooks, a header without annotations *)
Definition demo_cfg : parser_config (W:=nat) (F:=unit) (M:=demo_module) := {|
  pc_target := PygenSink 0;
  pc_classifier := None;
  pc_module_name := "foo";
  pc_module_namespace_name := "::";
  pc_read_lines _ := Ok ["#pragma once"; "void declarations();"];
  pc_pre_scan_hooks := [];
  pc_post_scan_hooks := [];
  pc_header_files := ["foo.h"];
  pc_whitelist_paths := [];
  pc_abspath f := f;
  pc_enable_anonymous_containers := true
|}.
Definition demo_parser (tree : list (nat * string)) (types known : list string) (scanned : bool)
    : parser (W:=nat) (M:=demo_module) :=
  Parser (DemoModule tree types [] known) [MemoryCodeSink] AnnotationsScanner [] [] [] [] [] ∅ scanned.
End demo_config.

(** A computation is its state and its result. *)
Lemma with_result {A B} (x : A * B) (b : B) : x.2 = b -> x = (x.1, b).
Proof. destruct x. by intros <-. Qed.
