(* ===== verification/GccXmlFunctions.v ===== *)
(** * The header parser: functions

    [scan_functions] of [ModuleParser]: the functions of the module's namespace and of
    the namespaces within it are added to the modules and written to the script, where
    each nested namespace gets a function [register_functions_...] of its own. *)
From S2P Require Import Prelude.
From S2P Require Import Format.
From S2P Require Import CodeSink.
From S2P Require Import CTypeParser.
From S2P Require Import Annotations.
From S2P Require Import Pygen.
From S2P Require Import GccXml.
From S2P Require Import PygenTrace.
From S2P Require Import GccXmlFrame.
From S2P Require Import GccXmlDemo.

Section functions.
Context {gccxml : Gccxml} {W F R P M : Type} {ops : WrapOps W F R P M}.
Context (cfg : parser_config (W:=W) (F:=F) (M:=M)) {dict_order : DictOrder}.
Local Abbreviation parser := (parser (W:=W) (M:=M)).

(** ** The annotations of a function *)

Record function_flags : Type := FunctionFlags {
  ff_as_method : ann_value;
  ff_of_class : ann_value;
  ff_alt_name : ann_value;
  ff_ignore : bool;
  ff_kwargs : gmap string (kwarg W)
}.

(** One round of the loop over the global annotations *)
Definition function_annotation (a : string * ann_value) (f : function_flags) : ST parser function_flags :=
  let '(name, value) := a in
  if String.eqb name "as_method" then
    st_ret (FunctionFlags value (ff_of_class f) (ff_alt_name f) (ff_ignore f) (ff_kwargs f))
  else if String.eqb name "of_class" then
    st_ret (FunctionFlags (ff_as_method f) value (ff_alt_name f) (ff_ignore f) (ff_kwargs f))
  else if String.eqb name "name" then
    st_ret (FunctionFlags (ff_as_method f) (ff_of_class f) value (ff_ignore f) (ff_kwargs f))
  else if String.eqb name "ignore" then
    st_ret (FunctionFlags (ff_as_method f) (ff_of_class f) (ff_alt_name f) true (ff_kwargs f))
  else if String.eqb name "unblock_threads" then
    b <- st_lift (parse_boolean value) ;;
    st_ret (FunctionFlags (ff_as_method f) (ff_of_class f) (ff_alt_name f) (ff_ignore f)
              (<["unblock_threads" := Value (PyBool b)]> (ff_kwargs f)))
  else if String.eqb name "throw" then
    excs <- annotation_exceptions value ;;
    st_ret (FunctionFlags (ff_as_method f) (ff_of_class f) (ff_alt_name f) (ff_ignore f)
              (<["throw" := TypeWrappers excs]> (ff_kwargs f)))
  else st_ret f.

Fixpoint function_annotations (l : list (string * ann_value)) (f : function_flags)
    : ST parser function_flags :=
  match l with
  | [] => st_ret f
  | a :: l' => f <- function_annotation a f ;; function_annotations l' f
  end.

(** ** The signature of a function *)

Definition is_given (v : ann_value) : bool := match v with NoValue => false | _ => true end.

(** The annotations of one argument.  Those of the first argument of a function that
    becomes a method keep the ownership of a pointer unless they say otherwise; the
    default is set in the dictionary itself. *)
Definition argument_annotations (as_method : ann_value) (argnum : nat) (t : cpp_type) (name : string)
    (params : gmap string annotations) : annotations * gmap string annotations :=
  let anns := default ∅ (params !! name) in
  if Nat.eqb argnum 0 && is_given as_method && is_pointer_t t then
    let anns := match anns !! "transfer_ownership" with
                | Some _ => anns
                | None => <["transfer_ownership" := StrValue "false"]> anns
                end in
    (anns, match params !! name with Some _ => <[name := anns]> params | None => params end)
  else (anns, params).

(** The loop over the arguments: their specifications, and the parameters made of them
    unless one failed *)
Fixpoint function_arguments (as_method : ann_value) (argnum : nat)
    (l : list (cpp_type * string * option string)) (params : gmap string annotations)
    : ST parser (list (type_spec W) * option (list P)) :=
  match l with
  | [] => st_ret ([], Some [])
  | (t, name, default_value) :: l' =>
      let '(anns, params) := argument_annotations as_method argnum t name params in
      spec <- st_lift (lookup_parameter (type_decl_string t) name anns default_value) ;;
      param <- try_new (Parameter_new spec) ;;
      rest <- function_arguments as_method (S argnum) l' params ;;
      st_ret (spec :: rest.1,
              match param, rest.2 with
              | Some p, Some ps => Some (p :: ps)
              | _, _ => None
              end)
  end.

(** What the script and the module are told about a function: the text of its arguments,
    and the objects if there was no error *)
Record function_signature : Type := FunctionSignature {
  fs_retval_repr : string;
  fs_arglist_repr : string;
  fs_objects : option (R * list P)
}.

(** ** A function *)

Definition function_call_text (method : string) (cpp_class : string) (args : list string) : string :=
  "root_module[" +:+ py_repr cpp_class +:+ "]." +:+ method +:+ "(" +:+ join ", " args +:+ ")".

(** [root_module[normalize_class_name(value, self.module_namespace_name or '::')]] *)
Definition class_of_annotation (value : ann_value) : ST parser W :=
  s <- st_lift match value with
               | StrValue s => Ok s
               | NoValue => Raise AttributeError
               | IntValue _ => Raise TypeError
               end ;;
  let ns := if String.eqb (pc_module_namespace_name cfg) EmptyString then "::"
            else pc_module_namespace_name cfg in
  name <- st_lift (normalize_class_name s ns) ;;
  w <- st_get (fun p => root_module_get (ps_module p) name) ;;
  match w with Some w => st_ret w | None => st_raise KeyError end.

(** A function that becomes a method *)
Definition register_as_method (fun_ : decl) (anns : annotations) (f : function_flags)
    (s : function_signature) : ST parser unit :=
  st_assert (is_given (ff_of_class f)) ;;;
  cpp_class <- class_of_annotation (ff_of_class f) ;;
  sink <- pygen_sink_for cfg (Some fun_) ;;
  names <- full_names ;;
  with_sink sink (fun k =>
    write_comment anns k ;;;
    write_line ("root_module[" +:+ py_repr (names cpp_class) +:+ "].add_function_as_method("
      +:+ join ", " [py_repr (decl_name fun_); fs_retval_repr s; fs_arglist_repr s]
      +:+ ", custom_name=" +:+ repr_annotation (ff_as_method f) +:+ ")") k) ;;;
  match fs_objects s with
  | None => st_ret tt
  | Some (ret, args) =>
      on_module (add_function_as_method cpp_class (decl_name fun_) ret args (ff_as_method f)) ;;;
      st_ret tt
  end.

(** A function that becomes a constructor *)
Definition register_as_constructor (fun_ : decl) (anns : annotations) (value : ann_value)
    (s : function_signature) : ST parser unit :=
  cpp_class <- class_of_annotation value ;;
  sink <- pygen_sink_for cfg (Some fun_) ;;
  names <- full_names ;;
  with_sink sink (fun k =>
    write_comment anns k ;;;
    write_line (function_call_text "add_function_as_constructor" (names cpp_class)
      [py_repr (decl_name fun_); fs_retval_repr s; fs_arglist_repr s]) k) ;;;
  match fs_objects s with
  | None => st_ret tt
  | Some (ret, args) =>
      on_module (add_function_as_constructor cpp_class (decl_name fun_) ret args) ;;; st_ret tt
  end.

(** The keyword arguments of a plain function *)
Definition function_kwargs (fun_ : decl) (anns : annotations) (f : function_flags)
    : res (gmap string (kwarg W)) :=
  let kwargs := ff_kwargs f in
  kwargs <-? (if is_instantiation (demangled_name fun_) then
                let params := template_args (demangled_name fun_) in
                let kwargs := <["template_parameters" := Value (PyList params)]> kwargs in
                name <-? template_instance_name anns params ;;
                Ok match name with
                   | Some n => <["custom_name" := Value (PyStr n)]> kwargs
                   | None => kwargs
                   end
              else Ok kwargs) ;;
  let kwargs := if ann_truthy (ff_alt_name f)
                then <["custom_name" := Value (py_of_annotation (ff_alt_name f))]> kwargs
                else kwargs in
  Ok (if is_deprecated fun_ then <["deprecated" := Value (PyBool true)]> kwargs else kwargs).

Definition function_line (names : W -> string) (fun_ : decl) (s : function_signature)
    (kwargs : gmap string (kwarg W)) : string :=
  "module.add_function("
  +:+ join ", " ([py_repr (decl_name fun_); nls +:+ spaces 20 +:+ fs_retval_repr s;
                  nls +:+ spaces 20 +:+ fs_arglist_repr s]
                 ++ break_kwargs 20 (pygen_kwargs names kwargs))
  +:+ ")".

Definition register_function (module : nat) (fun_ : decl) (anns : annotations) (f : function_flags)
    (s : function_signature) : ST parser unit :=
  kwargs <- st_lift (function_kwargs fun_ anns f) ;;
  sink <- pygen_sink_for cfg (Some fun_) ;;
  names <- full_names ;;
  with_sink sink (fun k =>
    write_comment anns k ;;; write_line (function_line names fun_ s kwargs) k) ;;;
  match fs_objects s with
  | None => st_ret tt
  | Some (ret, args) =>
      w <- on_module (add_function module (decl_name fun_) ret args kwargs) ;;
      run_post_scan_hooks cfg fun_ (ScannedFunction w)
  end.

(** The signature, with the [throw] argument the declaration itself gives *)
Definition function_signature_of (fun_ : decl) (anns : all_annotations) (f : function_flags)
    : ST parser (function_flags * function_signature) :=
  let return_anns := default ∅ (anns.2 !! "return") in
  let constructor_of := default NoValue (anns.1 !! "is_constructor_of") in
  let return_anns := if ann_truthy constructor_of
                     then <["caller_owns_return" := StrValue "true"]> return_anns else return_anns in
  let params := if ann_truthy constructor_of
                then match anns.2 !! "return" with
                     | Some _ => <["return" := return_anns]> anns.2
                     | None => anns.2
                     end
                else anns.2 in
  return_spec <- st_lift (lookup_return (type_decl_string (return_type fun_)) return_anns) ;;
  ret <- try_new (ReturnValue_new return_spec) ;;
  args <- function_arguments (ff_as_method f) 0 (arguments fun_) params ;;
  throw <- calldef_exceptions (exceptions fun_) ;;
  let f := match throw with
           | [] => f
           | _ => FunctionFlags (ff_as_method f) (ff_of_class f) (ff_alt_name f) (ff_ignore f)
                    (<["throw" := TypeWrappers throw]> (ff_kwargs f))
           end in
  names <- full_names ;;
  st_ret (f, FunctionSignature (pygen_retval names return_spec.1 return_spec.2)
               (arglist_repr names args.1)
               match ret, args.2 with
               | Some r, Some ps => Some (r, ps)
               | _, _ => None
               end).

(** The body of the loop over the functions *)
Definition scan_function (module : nat) (fun_ : decl) : ST parser unit :=
  anns <- annotations_of cfg fun_ ;;
  f <- function_annotations (dict_items anns.1)
         (FunctionFlags NoValue NoValue NoValue false ∅) ;;
  if ff_ignore f then st_ret tt
  else
    fs <- function_signature_of fun_ anns f ;;
    if is_given (ff_as_method fs.1) then register_as_method fun_ anns.1 fs.1 fs.2
    else
      let constructor_of := default NoValue (anns.1 !! "is_constructor_of") in
      if is_given constructor_of then register_as_constructor fun_ anns.1 constructor_of fs.2
      else register_function module fun_ anns.1 fs.1 fs.2.

(** ** A namespace *)

Definition functions_to_scan (ns : decl) : list decl :=
  sort_decls fun_le (public_names (located cfg (free_functions ns))).

(** [nested_module_pygen_func] *)
Definition nested_function_name (kind : string) (path : list string) : string :=
  "register_" +:+ kind +:+ "_" +:+ join "_" path.

Definition nested_call (name function : string) : string :=
  function +:+ "(module.get_submodule(" +:+ py_repr name +:+ "), root_module)".
Definition nested_def (function : string) : string := "def " +:+ function +:+ "(module, root_module):".

(** Both loops over the nested namespaces find the submodule and the name of its function. *)
Definition nested_module (module : nat) (ns : decl) : ST parser (nat * string) :=
  m <- on_module (get_submodule module (decl_name ns)) ;;
  path <- st_get (fun p => namespace_path (ps_module p) m) ;;
  st_ret (m, nested_function_name "functions" path).

Fixpoint scan_namespace_functions (fuel : nat) (module : nat) (ns : decl) : ST parser unit :=
  match fuel with
  | O => st_raise OutOfFuel
  | S fuel' =>
      st_iter (scan_function module) (functions_to_scan ns) ;;;
      st_iter (fun nested =>
        x <- nested_module module nested ;;
        on_all_sinks cfg (sink_writeln (nested_call (decl_name nested) x.2)))
        (nested_namespaces ns) ;;;
      on_all_sinks cfg (fun k =>
        sink_writeln "return" k ;;; sink_unindent k ;;; sink_writeln EmptyString k) ;;;
      st_iter (fun nested =>
        x <- nested_module module nested ;;
        on_all_sinks cfg (fun k => sink_writeln (nested_def x.2) k ;;; sink_indent k) ;;;
        scan_namespace_functions fuel' x.1 nested)
        (nested_namespaces ns)
  end.

Definition scan_functions (fuel : nat) (module : nat) (ns : decl) : ST parser unit :=
  scanned <- st_get ps_types_scanned ;;
  st_assert scanned ;;;
  on_all_sinks cfg (fun k =>
    sink_writeln "def register_functions(root_module):" k ;;;
    sink_indent k ;;;
    sink_writeln "module = root_module" k ;;;
    st_iter (section_call "register_functions" "root_module" k) (other_sections (pc_target cfg) k)) ;;;
  scan_namespace_functions fuel module ns.
End functions.

(** ** What scanning a function changes *)

Section function_frame.
Context {gccxml : Gccxml} {W F R P M : Type} {ops : WrapOps W F R P M}.

(** The tree of modules: what nested namespaces are found by. *)
Definition same_tree (m m' : M) : Prop :=
  (forall i name, submodule m' i name = submodule m i name)
  /\ forall i, namespace_path m' i = namespace_path m i.

#[export] Instance same_tree_preorder : PreOrder same_tree.
Proof.
  split; [by split|]. intros m1 m2 m3 [S1 N1] [S2 N2].
  split; intros; [by rewrite S2, S1 | by rewrite N2, N1].
Qed.

(** What is promised of the operations on the module: adding functions does not move
    submodules. *)
Class StableTree : Prop := {
  ReturnValue_new_tree : forall spec, evolves same_tree (ReturnValue_new spec);
  Parameter_new_tree : forall spec, evolves same_tree (Parameter_new spec);
  add_function_tree : forall i n r ps k, evolves same_tree (add_function i n r ps k);
  add_function_as_method_tree : forall w n r ps v, evolves same_tree (add_function_as_method w n r ps v);
  add_function_as_constructor_tree : forall w n r ps,
    evolves same_tree (add_function_as_constructor w n r ps)
}.
Context {stable : StableTree}.
Context (cfg : parser_config (W:=W) (F:=F) (M:=M)) {dict_order : DictOrder}.
Local Abbreviation frame := (parser_frame same_tree).
Hint Resolve ReturnValue_new_tree Parameter_new_tree add_function_tree add_function_as_method_tree
  add_function_as_constructor_tree : st.

Lemma frame_function_annotations l : forall f, evolves frame (function_annotations (M:=M) l f).
Proof.
  induction l as [|[n v] l IH]; intros f; cbn [function_annotations]; [parser_steps|].
  apply evolves_bind; [apply _| |auto]. unfold function_annotation. parser_steps.
Qed.
Lemma frame_arguments v l : forall n params, evolves frame (function_arguments v n l params).
Proof.
  induction l as [|[[t name] d] l IH]; intros n params; cbn [function_arguments]; [parser_steps|].
  destruct (argument_annotations v n t name params) as [anns params']. parser_steps.
Qed.
Hint Resolve frame_function_annotations frame_arguments : st.
Lemma frame_signature fun_ anns f : evolves frame (function_signature_of (M:=M) fun_ anns f).
Proof. unfold function_signature_of, full_names. parser_steps. Qed.
Lemma frame_class_of_annotation v : evolves frame (class_of_annotation cfg v).
Proof. unfold class_of_annotation. parser_steps. Qed.
Hint Resolve frame_signature frame_class_of_annotation : st.

Lemma frame_scan_function module fun_ :
  hooks_keep same_tree cfg -> evolves frame (scan_function cfg module fun_).
Proof.
  intros Hh. unfold scan_function, register_as_method, register_as_constructor, register_function,
    pygen_sink_for, full_names. parser_steps.
Qed.
End function_frame.

(** ** The functions of the script *)

Section script.
Context {gccxml : Gccxml} {W F R P M : Type} {ops : WrapOps W F R P M} {stable : StableTree}.
Context (cfg : parser_config (W:=W) (F:=F) (M:=M)) {dict_order : DictOrder}.
Local Abbreviation parser := (parser (W:=W) (M:=M)).

(** The namespaces below one, with the names of their functions in the script *)
Inductive nested_function (m : M) : nat -> decl -> string -> string -> Prop :=
  | nested_here module ns nested j :
      nested ∈ nested_namespaces ns -> submodule m module (decl_name nested) = Some j ->
      nested_function m module ns (decl_name nested)
        (nested_function_name "functions" (namespace_path m j))
  | nested_below module ns nested j name function :
      nested ∈ nested_namespaces ns -> submodule m module (decl_name nested) = Some j ->
      nested_function m j nested name function -> nested_function m module ns name function.

Lemma nested_function_tree m m' module ns name function :
  same_tree m m' -> nested_function m module ns name function -> nested_function m' module ns name function.
Proof.
  intros [Hs Hp]. induction 1 as [module ns nested j Hn Hj|module ns nested j name function Hn Hj _ IH].
  - rewrite <- Hp. apply nested_here; [done|]. by rewrite Hs.
  - eapply nested_below; [done| |done]. by rewrite Hs.
Qed.

Local Abbreviation emits := (emits same_tree).

Lemma nested_module_run module nested (p p' : parser) j function :
  nested_module module nested p = (p', Ok (j, function)) ->
  p' = p /\ submodule (ps_module p) module (decl_name nested) = Some j
  /\ function = nested_function_name "functions" (namespace_path (ps_module p) j).
Proof.
  unfold nested_module, st_bind, on_module, get_submodule, st_get, st_ret.
  destruct (submodule (ps_module p) module (decl_name nested)) as [i|] eqn:E; [|done].
  intros [= <- <- <-]. by destruct p.
Qed.

(** The calls of the functions of nested namespaces *)
Definition calls (m : M) (module : nat) (l : list decl) (k : nat) (os : list sink_op) : Prop :=
  bracketed os /\ (k ∈ all_sinks cfg -> forall nested j, nested ∈ l ->
    submodule m module (decl_name nested) = Some j ->
    OpWrite (nested_call (decl_name nested)
      (nested_function_name "functions" (namespace_path m j))) ∈ os).

Lemma nested_calls_emit m module l : NoDup (all_sinks cfg) -> forall p p' : parser,
  same_tree m (ps_module p) ->
  st_iter (fun nested =>
    x <- nested_module module nested ;;
    on_all_sinks cfg (sink_writeln (nested_call (decl_name nested) x.2))) l p = (p', Ok tt) ->
  emits (calls m module l) p p'.
Proof.
  intros Hnd. induction l as [|nested l IH]; intros p p' Hm; cbn [st_iter].
  - intros [= <-]. apply (emits_nothing same_tree). intros k. split; [constructor|]. by intros _ ? ? ?%not_elem_of_nil.
  - intros (p1&[]&E1&E2)%st_bind_Ok. apply st_bind_Ok in E1 as (p2&[j f]&E1&E3).
    apply nested_module_run in E1 as (->&Hj&->). cbn [snd] in E3.
    apply (all_sinks_emit same_tree cfg _ _ _ _ (ops_on_writeln _) Hnd) in E3.
    assert (same_tree m (ps_module p1)) as Hm1 by by (destruct E3 as [T _]; transitivity (ps_module p)).
    refine (emits_app same_tree _ _ _ _ _ _ _ E3 (IH _ _ Hm1 E2)). intros k os1 os2 -> [Hb Hc]. split.
    + apply bracketed_app; [|done]. case_bool_decide; repeat constructor.
    + intros Hk nested' j' [->|Hin]%elem_of_cons Hj'; rewrite elem_of_app; [left|right; by eapply Hc].
      rewrite bool_decide_true by done. apply list_elem_of_singleton.
      destruct Hm as [Hs Hp]. rewrite Hs in Hj. rewrite Hp. congruence.
Qed.

(** What [scan_namespace_functions] does with a sink: it closes the function it is in,
    and calls and defines the functions of all namespaces below. *)
Definition namespace_script (m : M) (module : nat) (ns : decl) (k : nat) (os : list sink_op) : Prop :=
  (k ∉ all_sinks cfg -> bracketed os)
  /\ (k ∈ all_sinks cfg -> closes os
      /\ forall name function, nested_function m module ns name function ->
           OpWrite (nested_call name function) ∈ os /\ OpWrite (nested_def function) ∈ os).

(** The same for the functions of some nested namespaces *)
Definition nested_scripts (m : M) (module : nat) (l : list decl) (k : nat) (os : list sink_op) : Prop :=
  bracketed os
  /\ (k ∈ all_sinks cfg -> forall nested j, nested ∈ l -> submodule m module (decl_name nested) = Some j ->
       OpWrite (nested_def (nested_function_name "functions" (namespace_path m j))) ∈ os
       /\ forall name function, nested_function m j nested name function ->
            OpWrite (nested_call name function) ∈ os /\ OpWrite (nested_def function) ∈ os).

Lemma nested_scripts_emit m module fuel l :
  NoDup (all_sinks cfg) ->
  (forall i ns (p p' : parser), same_tree m (ps_module p) ->
     scan_namespace_functions cfg fuel i ns p = (p', Ok tt) -> emits (namespace_script m i ns) p p') ->
  forall p p' : parser, same_tree m (ps_module p) ->
  st_iter (fun nested =>
    x <- nested_module module nested ;;
    on_all_sinks cfg (fun k => sink_writeln (nested_def x.2) k ;;; sink_indent k) ;;;
    scan_namespace_functions cfg fuel x.1 nested) l p = (p', Ok tt) ->
  emits (nested_scripts m module l) p p'.
Proof.
  intros Hnd Hscan. induction l as [|nested l IH]; intros p p' Hm; cbn [st_iter].
  - intros [= <-]. apply (emits_nothing same_tree). intros k. split; [constructor|]. by intros _ ? ? ?%not_elem_of_nil.
  - intros (p1&[]&E1&E2)%st_bind_Ok. apply st_bind_Ok in E1 as (p2&[j f]&E1&E3).
    apply nested_module_run in E1 as (->&Hj&->). cbn [fst snd] in E3.
    apply st_bind_Ok in E3 as (p3&[]&E3&E4).
    apply (all_sinks_emit same_tree cfg _ _ _ _ (ops_on_bind _ _ _ _ (ops_on_writeln _) ops_on_indent) Hnd) in E3.
    assert (same_tree m (ps_module p3)) as Hm3 by by (destruct E3 as [T _]; transitivity (ps_module p)).
    apply (Hscan j nested) in E4; [|done].
    assert (same_tree m (ps_module p1)) as Hm1 by by (destruct E4 as [T _]; transitivity (ps_module p3)).
    refine (emits_app same_tree (fun k os => nested_scripts m module [nested] k os) _ _ _ _ _ _
              (emits_app same_tree _ _ _ _ _ _ _ E3 E4) (IH _ _ Hm1 E2)).
    + intros k os1 os2 [Hb1 H1] [Hb2 H2]. split; [by apply bracketed_app|].
      intros Hk nested' j' [->|Hin]%elem_of_cons Hj'.
      * destruct (H1 Hk nested j' (list_elem_of_here _ _) Hj') as [Hd Hr].
        split; [apply elem_of_app; by left|]. intros name function Hf.
        destruct (Hr _ _ Hf). split; apply elem_of_app; by left.
      * destruct (H2 Hk nested' j' Hin Hj') as [Hd Hr].
        split; [apply elem_of_app; by right|]. intros name function Hf.
        destruct (Hr _ _ Hf). split; apply elem_of_app; by right.
    + intros k os1 os2 -> [Hout Hin]. destruct Hm as [Hs Hp]. rewrite Hp.
      split.
      * case_bool_decide as Hk; [|by apply Hout]. destruct (Hin Hk) as [Hc _]. cbn.
        constructor. by apply indent_closes.
      * intros Hk nested' j' ->%list_elem_of_singleton Hj'. destruct (Hin Hk) as [_ Hr].
        rewrite bool_decide_true by done. rewrite Hs in Hj. rewrite Hj in Hj'. injection Hj' as <-.
        split; [by left|]. intros name function Hf. destruct (Hr _ _ Hf).
        split; apply elem_of_app; by right.
Qed.

Lemma scan_namespace_emits m fuel : NoDup (all_sinks cfg) -> hooks_keep same_tree cfg ->
  forall module ns (p p' : parser), same_tree m (ps_module p) ->
  scan_namespace_functions cfg fuel module ns p = (p', Ok tt) ->
  emits (namespace_script m module ns) p p'.
Proof.
  intros Hnd Hh. induction fuel as [|fuel IH]; intros module ns p p' Hm; [done|].
  cbn [scan_namespace_functions]. intros (p1&[]&E1&E)%st_bind_Ok.
  assert (emits (fun _ os => bracketed os) p p1) as H1.
  { eapply (evolves_emits same_tree); [|exact E1].
    apply evolves_iter; [apply _|intros; by apply frame_scan_function]. }
  assert (same_tree m (ps_module p1)) as Hm1 by by (destruct H1 as [T _]; transitivity (ps_module p)).
  apply st_bind_Ok in E as (p2&[]&E2&E). pose proof (nested_calls_emit m _ _ Hnd _ _ Hm1 E2) as H2.
  assert (same_tree m (ps_module p2)) as Hm2 by by (destruct H2 as [T _]; transitivity (ps_module p1)).
  apply st_bind_Ok in E as (p3&[]&E3&E).
  apply (all_sinks_emit same_tree cfg _ _ _ _ (ops_on_bind _ _ _ _ (ops_on_writeln _)
    (ops_on_bind _ _ _ _ ops_on_unindent (ops_on_writeln _))) Hnd) in E3.
  assert (same_tree m (ps_module p3)) as Hm3 by by (destruct E3 as [T _]; transitivity (ps_module p2)).
  pose proof (nested_scripts_emit m module fuel _ Hnd IH _ _ Hm3 E) as H4.
  refine (emits_app same_tree (fun k os => exists os1 os2, os = os1 ++ os2 /\ bracketed os1
      /\ calls m module (nested_namespaces ns) k os2) _ _ _ _ _ _
    (emits_app same_tree _ _ _ _ _ _ _ H1 H2) (emits_app same_tree _ _ (fun k os => exists os2,
      os = (if bool_decide (k ∈ all_sinks cfg)
            then [OpWrite "return"; OpUnindent; OpWrite EmptyString] else []) ++ os2
      /\ nested_scripts m module (nested_namespaces ns) k os2) _ _ _ _ E3 H4)).
  - intros k os' os'' (os1&os2&->&Hb1&Hb2&Hc) (os3&->&Hb3&Hs). split.
    + intros Hk. rewrite bool_decide_false by done.
      apply bracketed_app; [by apply bracketed_app|exact Hb3].
    + intros Hk. rewrite bool_decide_true by done. split.
      * apply app_closes; [by apply bracketed_app|].
        exists [OpWrite "return"], (OpWrite EmptyString :: os3). cbn. split; [done|]. by repeat constructor.
      * intros name function Hf. inversion Hf as [? ? nested j Hn Hj|? ? nested j ? ? Hn Hj Hf']; subst.
        -- split; rewrite !elem_of_app; [left; right; by apply Hc|].
           right. right. by apply (Hs Hk nested j Hn Hj).
        -- destruct (Hs Hk nested j Hn Hj) as [_ Hr]. destruct (Hr _ _ Hf') as [Hc' Hd'].
           split; rewrite !elem_of_app; by right; right.
  - intros k os1 os2 Hb Hc. by exists os1, os2.
  - intros k os1 os2 -> Hs. by exists os2.
Qed.

(** What [scan_functions] writes to a sink *)
Definition functions_script (m : M) (module : nat) (ns : decl) (k : nat) (op : sink_op) : Prop :=
  k ∈ all_sinks cfg /\
  (op = OpWrite "def register_functions(root_module):"
   \/ exists name function, nested_function m module ns name function
        /\ (op = OpWrite (nested_call name function) \/ op = OpWrite (nested_def function))).

Lemma scan_functions_includes (fuel module : nat) (ns : decl) (p p' : parser) :
  hooks_keep same_tree cfg -> NoDup (all_sinks cfg) ->
  scan_functions cfg fuel module ns p = (p', Ok tt) ->
  exists os, ran os (ps_sinks p) (ps_sinks p')
    /\ forall k, includes (functions_script (ps_module p) module ns) k (os k).
Proof.
  intros Hh Hnd H. unfold scan_functions in H.
  apply st_bind_Ok in H as (p1&b&[= <- <-]&H). apply st_bind_Ok in H as (p2&[]&E2&H).
  assert (p2 = p) as -> by (destruct (ps_types_scanned p); [by injection E2|done]).
  apply st_bind_Ok in H as (p3&[]&E3&H).
  apply (all_sinks_emit same_tree cfg _ _ _ _ (ops_on_bind _ _ _ _ (ops_on_writeln _)
    (ops_on_bind _ _ _ _ ops_on_indent (ops_on_bind _ _ _ _ (ops_on_writeln _)
      (ops_on_choice _ _ (other_sections (pc_target cfg)) (fun l => ops_on_iter _ _ l (fun sect =>
        ops_on_section_call "register_functions" "root_module" sect)))))) Hnd) in E3.
  destruct E3 as (T3&_&_&os3&R3&O3).
  destruct (scan_namespace_emits (ps_module p) fuel Hnd Hh module ns p3 p' T3 H) as (_&_&_&os4&R4&O4).
  exists (fun k => os3 k ++ os4 k). split; [by eapply ran_app|]. intros k. destruct (O4 k) as [Hout Hin].
  rewrite O3. case_bool_decide as Hk; [|by split; [apply Hout|intros op []]].
  destruct (Hin Hk) as [Hcl Hn]. split.
  - rewrite <- !app_assoc. apply br_write, indent_closes.
    apply app_closes; [apply br_write, br_nil|]. apply app_closes; [|done].
    generalize (other_sections (pc_target cfg) k). intros l. induction l as [|sect l IH]; [constructor|].
    apply bracketed_app; [apply bracketed_writes|done].
  - intros op [_ [->|(name&function&Hf&Hop)]]; [by left|]. destruct (Hn _ _ Hf).
    apply elem_of_app. right. by destruct Hop as [->| ->].
Qed.

(** The script is complete and well bracketed.  When [scan_functions] returns, every
    sink of the script has received a well-bracketed sequence of writes, indentations and
    unindentations, so that its indentation is back where it was; the sequence defines
    [register_functions], and it both calls and defines the function of every namespace
    below the module's, at any depth. *)
Theorem scan_functions_script (fuel module : nat) (ns : decl) (p p' : parser) (k : nat) (s : code_sink) :
  hooks_keep same_tree cfg -> NoDup (all_sinks cfg) ->
  scan_functions cfg fuel module ns p = (p', Ok tt) ->
  k ∈ all_sinks cfg -> ps_sinks p !! k = Some s ->
  exists s' os,
    ps_sinks p' !! k = Some s' /\ run_ops s os = Ok s' /\ bracketed os /\ same_indent s' s
    /\ OpWrite "def register_functions(root_module):" ∈ os
    /\ forall name function, nested_function (ps_module p) module ns name function ->
         OpWrite (nested_call name function) ∈ os /\ OpWrite (nested_def function) ∈ os.
Proof.
  intros Hh Hnd H Hk Hs. destruct (scan_functions_includes _ _ _ _ _ Hh Hnd H) as (os&R1&Hi).
  destruct (Hi k) as [Hb Hn]. destruct (ran_bracketed _ _ _ _ _ R1 Hb Hs) as (s'&Hs'&Hr&Hsame).
  exists s', (os k). do 4 (split; [done|]). split; [apply Hn; by split; [|left]|].
  intros name function Hf. split; apply Hn; (split; [done|right; exists name, function; eauto]).
Qed.

(** ** The recursion over namespaces *)

(** Scanning functions ends.  When the namespaces are nested finitely deep, as those
    of a C++ program are, the recursion goes no deeper: any two amounts of fuel above the
    depth of the namespace give the same result in the same state. *)
Theorem scan_functions_fuel (depth : decl -> nat) (fuel fuel' module : nat) (ns : decl) (p : parser) :
  (forall ns nested, nested ∈ namespaces ns -> (depth nested < depth ns)%nat) ->
  (depth ns < fuel)%nat -> (depth ns < fuel')%nat ->
  scan_functions cfg fuel module ns p = scan_functions cfg fuel' module ns p.
Proof.
  intros Hd Hf Hf'.
  assert (forall fuel fuel' module ns (p : parser), (depth ns < fuel)%nat -> (depth ns < fuel')%nat ->
    scan_namespace_functions cfg fuel module ns p = scan_namespace_functions cfg fuel' module ns p) as H.
  { clear - Hd. induction fuel as [|fuel IH]; intros [|fuel'] module ns p H1 H2; [lia..|].
    cbn [scan_namespace_functions]. do 3 (apply st_bind_ext; intros _ ?).
    apply st_iter_ext. intros nested q Hn. apply nested_namespaces_in, Hd in Hn.
    do 2 (apply st_bind_ext; intros ? ?). apply IH; lia. }
  unfold scan_functions. do 3 (apply st_bind_ext; intros ? ?). by apply H.
Qed.
End script.

(** ** A script *)

(** Namespace [a] with function [f] and the nested namespace [b] with [g], whose return
    type has no handler *)
Definition demo_table : list demo_entry :=
  [demo_namespace "::" [1%nat] [2%nat] [] [];
   demo_function "f" "int" [("int", "x", None); ("char", "y", Some "0")];
   demo_namespace "b" [3%nat] [] [] [];
   demo_function "g" "Unknown" []].

Section demo_script.
#[local] Instance demo_functions_declarations : Gccxml := demo_gccxml demo_table.

#[export] Instance demo_stable : StableTree (M:=demo_module).
Proof.
  split; intros; intros m; try (split; intros; reflexivity).
  all: cbn; repeat case_match; split; reflexivity.
Qed.

Definition demo_start : parser (W:=nat) (M:=demo_module) :=
  demo_parser demo_table [(0%nat, "b")] [] ["int"; "char"] true.
Definition demo_end : parser (W:=nat) (M:=demo_module) :=
  (scan_functions (demo_cfg demo_table) 3 0 0%nat demo_start).1.

Example demo_script_text :
  dm_log (ps_module demo_end) = ["function f"]
  /\ (sink_text <$> ps_sinks demo_end !! 0%nat) = Some (lines_text
       ["def register_functions(root_module):";
        "    module = root_module";
        "    module.add_function('f', ";
        "                        'int', ";
        "                        [param('int', 'x'), param('char', 'y', default_value='0')])";
        "    register_functions_b(module.get_submodule('b'), root_module)";
        "    return";
        "";
        "def register_functions_b(module, root_module):";
        "    module.add_function('g', ";
        "                        'Unknown', ";
        "                        [])";
        "    return";
        ""]).
Proof. split; vm_compute; reflexivity. Qed.

Lemma scan_functions_script_witness :
  exists s' os,
    ps_sinks demo_end !! 0%nat = Some s' /\ run_ops MemoryCodeSink os = Ok s' /\ bracketed os
    /\ same_indent s' MemoryCodeSink
    /\ OpWrite "def register_functions(root_module):" ∈ os
    /\ forall name function, nested_function (ps_module demo_start) 0 0%nat name function ->
         OpWrite (nested_call name function) ∈ os /\ OpWrite (nested_def function) ∈ os.
Proof.
  apply (scan_functions_script (demo_cfg demo_table) 3 0 0%nat demo_start demo_end 0 MemoryCodeSink).
  - split; constructor.
  - apply NoDup_singleton.
  - unfold demo_end. apply with_result. vm_compute. reflexivity.
  - by left.
  - reflexivity.
Defined.

Lemma scan_functions_fuel_witness :
  scan_functions (demo_cfg demo_table) 3 0 0%nat demo_start
  = scan_functions (demo_cfg demo_table) 7 0 0%nat demo_start.
Proof.
  apply (scan_functions_fuel (demo_cfg demo_table) (fun d : nat => if Nat.eqb d 0 then 1 else 0)%nat); [|cbn; lia..].
  intros ns nested H. destruct ns as [|[|[|[|ns]]]]; cbn in H; try by apply not_elem_of_nil in H.
  - apply list_elem_of_singleton in H as ->. cbn. lia.
Defined.
End demo_script.
