(* ===== verification/GccXmlMethods.v ===== *)
(** * The header parser: methods, constructors, attributes and operators

    [scan_methods] of [ModuleParser]: the members of every registered class are added to
    it, and written to the function [register_..._methods] of the class in the script. *)
From S2P Require Import Prelude.
From S2P Require Import Format.
From S2P Require Import CodeSink.
From S2P Require Import CTypeParser.
From S2P Require Import Annotations.
From S2P Require Import Pygen.
From S2P Require Import GccXml.
From S2P Require Import PygenTrace.
From S2P Require Import GccXmlFrame.
From S2P Require Import GccXmlDemo.

Section methods.
Context {gccxml : Gccxml} {W F R P M : Type} {ops : WrapOps W F R P M}.
Context (cfg : parser_config (W:=W) (F:=F) (M:=M)) {dict_order : DictOrder}.
Local Abbreviation parser := (parser (W:=W) (M:=M)).

(** Without a sink, [_scan_class_methods] writes to a [NullCodeSink]: nothing, but the
    text of a comment is computed. *)
Definition class_line (k : option nat) (line : string) : ST parser unit := with_sink k (write_line line).
Definition class_comment (k : option nat) (anns : annotations) : ST parser unit :=
  match anns !! "pygen_comment" with
  | None => st_ret tt
  | Some (StrValue c) => class_line k ("## " +:+ c)
  | Some (NoValue | IntValue _) => st_raise TypeError
  end.

(** ** Operators *)

(** [_is_ostream] *)
Definition is_ostream (t : cpp_type) : bool :=
  match reference_base t with
  | Some b => negb (is_const_t b) && String.eqb (type_str b) "std::ostream"
  | None => false
  end.

Definition get_class_wrapper (t : cpp_type) : ST parser (option W) :=
  name <- st_lift (normalize_type_string (type_decl_string t)) ;; lookup_type name.

Definition comparison_symbols : list string := ["=="; "!="; "<"; "<="; ">"; ">="].
Definition numeric_symbols : list string := ["+"; "-"; "/"; "*"].
Definition inplace_symbols : list string := ["+="; "-="; "/="; "*="].

(** The argument on the right; the annotations are those of the scanner, without hooks. *)
Definition right_argument (op : decl) (t : cpp_type) : ST parser (type_spec W * option P) :=
  anns <- scanned_annotations cfg op ;;
  spec <- st_lift (lookup_parameter (type_decl_string t) "right" (default ∅ (anns.2 !! "right")) None) ;;
  param <- try_new (Parameter_new spec) ;;
  st_ret (spec, param).

(** A numeric operator on operands that are known *)
Definition numeric_operator (w : W) (k : option nat) (op : decl) (types : list cpp_type) (ret arg0 : W)
    : ST parser unit :=
  match types with
  | [_; t] =>
      right <- right_argument op t ;;
      names <- full_names ;;
      let arg_repr := pygen_param names right.1.1 right.1.2 in
      st_when (bool_decide (symbol op ∈ numeric_symbols))
        (class_line k ("cls.add_binary_numeric_operator(" +:+ py_repr (symbol op) +:+ ", "
           +:+ root_module_item names ret +:+ ", " +:+ root_module_item names arg0 +:+ ", " +:+ arg_repr +:+ ")") ;;;
         match right.2 with
         | Some p => on_module (add_binary_numeric_operator w (symbol op) ret arg0 p)
         | None => st_ret tt
         end) ;;;
      st_when (bool_decide (symbol op ∈ inplace_symbols))
        (class_line k ("cls.add_inplace_numeric_operator(" +:+ py_repr (symbol op) +:+ ", " +:+ arg_repr +:+ ")") ;;;
         match right.2 with
         | Some p => on_module (add_inplace_numeric_operator w (symbol op) p)
         | None => st_ret tt
         end)
  | [_] =>
      st_when (String.eqb (symbol op) "-")
        (class_line k ("cls.add_unary_numeric_operator(" +:+ py_repr (symbol op) +:+ ")") ;;;
         on_module (add_unary_numeric_operator w (symbol op)))
  | _ => st_ret tt
  end.

(** [_handle_operator]; [types] are those of the arguments, with the class itself first
    for a member. *)
Definition handle_operator (cls : decl) (w : W) (k : option nat) (op : decl) (types : list cpp_type)
    : ST parser unit :=
  let to_stream :=
    match types with
    | t0 :: t1 :: _ =>
        String.eqb (symbol op) "<<" && is_ostream (return_type op)
        && Nat.eqb (length (arguments op)) 2 && is_ostream t0 && is_convertible cls t1
    | _ => false
    end in
  let comparison :=
    match types with
    | [t0; t1] => bool_decide (symbol op ∈ comparison_symbols) && is_convertible cls t0 && is_convertible cls t1
    | _ => false
    end in
  if to_stream then
    on_module (add_output_stream_operator w) ;;; class_line k "cls.add_output_stream_operator()"
  else if comparison then
    on_module (add_binary_comparison_operator w (symbol op)) ;;;
    class_line k ("cls.add_binary_comparison_operator(" +:+ py_repr (symbol op) +:+ ")")
  else
    match types with
    | [] => st_raise IndexError
    | t0 :: _ =>
        if negb (is_convertible cls t0) then st_ret tt
        else
          ret <- get_class_wrapper (return_type op) ;;
          match ret with
          | None => st_ret tt
          | Some ret =>
              arg0 <- get_class_wrapper t0 ;;
              match arg0 with
              | None => st_ret tt
              | Some arg0 => numeric_operator w k op types ret arg0
              end
          end
    end.

Definition argument_types (op : decl) : list cpp_type := map (fun a => a.1.1) (arguments op).

(** [_scan_class_operators]; [module_ns] is the namespace of the module. *)
Definition scan_class_operators (module_ns cls : decl) (w : W) (k : option nat) : ST parser unit :=
  st_iter (fun op => handle_operator cls w k op (argument_types op)) (located cfg (free_operators module_ns)) ;;;
  st_iter (fun op =>
    if String.eqb (access_type op) "public"
    then handle_operator cls w k op (class_type cls :: argument_types op) else st_ret tt)
    (located cfg (member_operators cls)).

(** ** Methods *)

(** One round of the loop over the annotations of a method *)
Definition method_annotation (kwargs : gmap string (kwarg W)) (a : string * ann_value)
    : ST parser (gmap string (kwarg W)) :=
  let '(key, val) := a in
  if String.eqb key "unblock_threads" then
    b <- st_lift (parse_boolean val) ;; st_ret (<["unblock_threads" := Value (PyBool b)]> kwargs)
  else if String.eqb key "name" then
    st_ret (<["custom_name" := Value (py_of_annotation val)]> kwargs)
  else if String.eqb key "throw" then
    excs <- annotation_exceptions val ;; st_ret (<["throw" := TypeWrappers excs]> kwargs)
  else st_ret kwargs.
Fixpoint method_annotations (l : list (string * ann_value)) (kwargs : gmap string (kwarg W))
    : ST parser (gmap string (kwarg W)) :=
  match l with
  | [] => st_ret kwargs
  | a :: l' => kwargs <- method_annotation kwargs a ;; method_annotations l' kwargs
  end.

Definition set_throw (throw : list W) (kwargs : gmap string (kwarg W)) : gmap string (kwarg W) :=
  match throw with [] => kwargs | _ => <["throw" := TypeWrappers throw]> kwargs end.
Definition set_when (b : bool) (name : string) (v : pyval) (kwargs : gmap string (kwarg W))
    : gmap string (kwarg W) :=
  if b then <[name := Value v]> kwargs else kwargs.

Definition is_virtual (d : decl) : bool := match virtuality_of d with NotVirtual => false | _ => true end.
Definition is_pure_virtual (d : decl) : bool := match virtuality_of d with PureVirtual => true | _ => false end.

(** The keyword arguments of [add_method] that the declaration gives *)
Definition method_kwargs (member : decl) (template_parameters : list string) (instance : option string)
    (kwargs : gmap string (kwarg W)) : gmap string (kwarg W) :=
  set_when (negb (String.eqb (access_type member) "public")) "visibility" (PyStr (access_type member))
  (match instance with
   | Some (String _ _ as n) => set_when true "custom_template_method_name" (PyStr n)
   | _ => fun kwargs => kwargs
   end
  (set_when (negb (bool_decide (template_parameters = []))) "template_parameters" (PyList template_parameters)
  (set_when (is_pure_virtual member) "is_pure_virtual" (PyBool true)
  (set_when (is_virtual member) "is_virtual" (PyBool true)
  (set_when (has_static member) "is_static" (PyBool true)
  (set_when (has_const member) "is_const" (PyBool true) kwargs)))))).

(** Private methods that are not virtual do not show in the bindings. *)
Definition irrelevant_method (member : decl) : bool :=
  String.eqb (access_type member) "private" && negb (is_virtual member || is_pure_virtual member).

Definition method_line (names : W -> string) (member : decl) (ret : type_spec W)
    (args : list (type_spec W)) (kwargs : gmap string (kwarg W)) : string :=
  "cls.add_method("
  +:+ join ", " ([py_repr (decl_name member); nls +:+ spaces 15 +:+ pygen_retval names ret.1 ret.2;
                  nls +:+ spaces 15 +:+ arglist_repr names args]
                 ++ break_kwargs 15 (pygen_kwargs names kwargs))
  +:+ ")".

(** A class with a pure virtual method that cannot be wrapped cannot be constructed, and
    has no helper class. *)
Definition disable_construction (w : W) (member : decl) (reason : string) : ST parser unit :=
  st_when (is_pure_virtual member)
    (on_module (set_cannot_be_constructed w reason) ;;; on_module (set_helper_class_disabled w true)).

(** All specifications are tried, also after one failed. *)
Fixpoint new_parameters (specs : list (type_spec W)) : ST parser (option (list P)) :=
  match specs with
  | [] => st_ret (Some [])
  | spec :: specs' =>
      param <- try_new (Parameter_new spec) ;;
      rest <- new_parameters specs' ;;
      st_ret match param, rest with Some p, Some ps => Some (p :: ps) | _, _ => None end
  end.

(** [class_wrapper.add_method], with what is done when it is not supported *)
Definition add_method_or_disable (w : W) (k : option nat) (member : decl) (ret : R) (args : list P)
    (kwargs : gmap string (kwarg W)) : ST parser unit :=
  added <- st_catch
    (f <- on_module (add_method w (decl_name member) ret args kwargs) ;; st_ret (Some f))
    (fun e =>
       match e with
       | NotSupportedError =>
           disable_construction w member
             ("pure virtual method " +:+ py_repr (decl_name member) +:+ " not wrapped") ;;;
           st_when (is_pure_virtual member)
             (class_line k ("cls.set_cannot_be_constructed(" +:+ dq
                +:+ "pure virtual method %r not wrapped" +:+ dq +:+ " % " +:+ py_repr (decl_name member) +:+ ")") ;;;
              class_line k "cls.set_helper_class_disabled(True)") ;;;
           st_ret None
       | _ => st_raise e
       end) ;;
  match added with
  | Some f => run_post_scan_hooks cfg member (ScannedFunction f)
  | None => st_ret tt
  end.

(** The specifications of the arguments of a method, with their annotations *)
Fixpoint argument_specs (l : list (cpp_type * string * option string)) (params : gmap string annotations)
    : res (list (type_spec W)) :=
  match l with
  | [] => Ok []
  | (t, name, default_value) :: l' =>
      spec <-? lookup_parameter (type_decl_string t) name (default ∅ (params !! name)) default_value ;;
      rest <-? argument_specs l' params ;;
      Ok (spec :: rest)
  end.

(** The part of a method that comes after its specification was written *)
Definition wrap_method (w : W) (k : option nat) (member : decl) (ret : type_spec W)
    (args : list (type_spec W)) (kwargs : gmap string (kwarg W)) : ST parser unit :=
  r <- try_new (ReturnValue_new ret) ;;
  match r with
  | None => disable_construction w member "pure virtual method not wrapped"
  | Some r =>
      ps <- new_parameters args ;;
      match ps with
      | None => disable_construction w member "pure virtual method not wrapped"
      | Some ps => add_method_or_disable w k member r ps kwargs
      end
  end.

Definition scan_method (w : W) (k : option nat) (member : decl) (anns : all_annotations)
    : ST parser unit :=
  kwargs <- method_annotations (dict_items anns.1) ∅ ;;
  let is_operator := match decl_kind_of member with MemberOperator => true | _ => false end in
  if is_operator && negb (String.eqb (symbol member) "()") then st_ret tt
  else
    let kwargs := set_when is_operator "custom_name" (PyStr "__call__") kwargs in
    throw <- calldef_exceptions (exceptions member) ;;
    let kwargs := set_throw throw kwargs in
    ret <- st_lift (lookup_return (type_decl_string (return_type member)) (default ∅ (anns.2 !! "return"))) ;;
    args <- st_lift (argument_specs (arguments member) anns.2) ;;
    allowed <- st_get (fun p => allow_subclassing (ps_module p) w) ;;
    st_when (is_pure_virtual member && negb allowed)
      (on_module (set_cannot_be_constructed w "pure virtual method and subclassing disabled")) ;;;
    template <- st_lift
      (if is_instantiation (demangled_name member) then
         let params := template_args (demangled_name member) in
         name <-? template_instance_name anns.1 params ;; Ok (params, name)
       else Ok ([], None)) ;;
    let kwargs := method_kwargs member template.1 template.2 kwargs in
    if irrelevant_method member then st_ret tt
    else
      let kwargs := set_when (is_deprecated member) "deprecated" (PyBool true) kwargs in
      names <- full_names ;;
      class_comment k anns.1 ;;;
      class_line k (method_line names member ret args kwargs) ;;;
      wrap_method w k member ret args kwargs.

(** ** Constructors *)

(** Parameters up to the first that fails *)
Fixpoint constructor_parameters (specs : list (type_spec W)) : ST parser (option (list P)) :=
  match specs with
  | [] => st_ret (Some [])
  | spec :: specs' =>
      param <- try_new (Parameter_new spec) ;;
      match param with
      | None => st_ret None
      | Some p =>
          rest <- constructor_parameters specs' ;;
          st_ret match rest with Some ps => Some (p :: ps) | None => None end
      end
  end.

(** Which constructors were found: [have_trivial_constructor] and [have_copy_constructor] *)
Definition found : Type := bool * bool.

(** Annotations of the parameters of a constructor are not looked at. *)
Definition scan_constructor (w : W) (k : option nat) (member : decl) (anns : all_annotations) (f : found)
    : ST parser found :=
  if negb (bool_decide (access_type member ∈ ["public"; "protected"])) then st_ret f
  else
    let f := (f.1 || bool_decide (length (arguments member) = 0%nat), f.2) in
    args <- st_lift (argument_specs (arguments member) ∅) ;;
    class_comment k anns.1 ;;;
    let kwargs :=
      set_when (negb (String.eqb (access_type member) "public")) "visibility" (PyStr (access_type member))
        (set_when (is_deprecated member) "deprecated" (PyBool true) ∅) in
    throw <- calldef_exceptions (exceptions member) ;;
    let kwargs := set_throw throw kwargs in
    names <- full_names ;;
    class_line k ("cls.add_constructor("
      +:+ join ", " (arglist_repr names args :: break_kwargs 20 (pygen_kwargs names kwargs)) +:+ ")") ;;;
    ps <- constructor_parameters args ;;
    match ps with
    | None => st_ret f
    | Some ps =>
        c <- on_module (add_constructor w ps kwargs) ;;
        run_post_scan_hooks cfg member (ScannedFunction c) ;;;
        copy <- st_get (fun p => match ps with
                                 | [a] => is_this_class_ref (ps_module p) w a
                                 | _ => false
                                 end) ;;
        st_ret (f.1, f.2 || copy)
    end.

(** ** Attributes *)

(** The type of a member is anonymous *)
Definition anonymous_type (t : cpp_type) : bool :=
  match declared t with Some d => String.eqb (decl_name d) EmptyString | None => false end.

Definition scan_attribute (w : W) (k : option nat) (member : decl) (anns : all_annotations)
    : ST parser unit :=
  if String.eqb (decl_name member) EmptyString then st_ret tt
  else if bool_decide (access_type member ∈ ["protected"; "private"]) then st_ret tt
  else if anonymous_type (decl_type member) then st_ret tt
  else
    spec <- st_lift (lookup_return (type_decl_string (decl_type member)) anns.1) ;;
    class_comment k anns.1 ;;;
    names <- full_names ;;
    let const := is_const (decl_type member) in
    let method := if variable_is_static member then "add_static_attribute" else "add_instance_attribute" in
    class_line k ("cls." +:+ method +:+ "(" +:+ py_repr (decl_name member) +:+ ", "
      +:+ pygen_retval names spec.1 spec.2 +:+ ", is_const=" +:+ py_repr_value (PyBool const) +:+ ")") ;;;
    r <- try_new (ReturnValue_new spec) ;;
    match r with
    | None => st_ret tt
    | Some r =>
        if variable_is_static member
        then on_module (add_static_attribute w (decl_name member) r const)
        else on_module (add_instance_attribute w (decl_name member) r const)
    end.

(** ** The members of a class *)

(** The first loop: constructors that are not public *)
Definition hidden_constructor (w : W) (member : decl) (f : found) : ST parser found :=
  match decl_kind_of member with
  | Constructor =>
      if negb (bool_decide (access_type member ∈ ["protected"; "private"])) then st_ret f
      else
        match arguments member with
        | [] => st_ret (true, f.2)
        | [(t, _, _)] =>
            traits <- st_lift (s <-? normalize_type_string (type_decl_string t) ;; TypeTraits_init s) ;;
            if type_is_reference traits then
              found <- st_get (fun p => root_module_get (ps_module p) (str_opt (show <$> target traits))) ;;
              st_ret (f.1, f.2 || bool_decide (found = Some w))
            else st_ret f
        | _ => st_ret f
        end
  | _ => st_ret f
  end.
Fixpoint hidden_constructors (w : W) (l : list decl) (f : found) : ST parser found :=
  match l with
  | [] => st_ret f
  | member :: l' => f <- hidden_constructor w member f ;; hidden_constructors w l' f
  end.

(** [methods_to_ignore]: those of a policy that counts references *)
Definition ignored_methods (m : M) (w : W) : list (option string) :=
  default [] (memory_policy_methods m w).

Definition scan_member (w : W) (k : option nat) (ignored : list (option string)) (member : decl) (f : found)
    : ST parser found :=
  if bool_decide (Some (decl_name member) ∈ ignored) then st_ret f
  else
    anns <- annotations_of cfg member ;;
    if bool_decide (is_Some (anns.1 !! "ignore")) then st_ret f
    else
      match decl_kind_of member with
      | MemberFunction | MemberOperator => scan_method w k member anns ;;; st_ret f
      | Constructor => scan_constructor w k member anns f
      | Variable_ => scan_attribute w k member anns ;;; st_ret f
      | _ => st_ret f
      end.
Fixpoint scan_members (w : W) (k : option nat) (ignored : list (option string)) (l : list decl) (f : found)
    : ST parser found :=
  match l with
  | [] => st_ret f
  | member :: l' => f <- scan_member w k ignored member f ;; scan_members w k ignored l' f
  end.

(** [_scan_class_methods]; constructors the compiler adds are not among the members. *)
Definition scan_class_methods (module_ns cls : decl) (w : W) (k : option nat) : ST parser unit :=
  scan_class_operators module_ns cls w k ;;;
  f <- hidden_constructors w (members cls) (false, false) ;;
  ignored <- st_get (fun p => ignored_methods (ps_module p) w) ;;
  f <- scan_members w k ignored (members cls) f ;;
  st_when (negb f.1 && has_trivial_constructor cls)
    (on_module (add_constructor w [] ∅) ;;; class_line k "cls.add_constructor([])") ;;;
  st_when (negb f.2 && has_copy_constructor cls)
    (on_module (add_copy_constructor w) ;;; class_line k "cls.add_copy_constructor()").

(** ** All classes *)

(** Classes that are only declared, and exceptions, have no methods. *)
Definition has_methods (c : W * decl) : bool :=
  match decl_kind_of c.2 with ClassForward => false | _ => negb (is_cpp_exception c.1) end.
Definition classes_with_methods (p : parser) : list (W * decl) :=
  List.filter has_methods (ps_ordered_classes p).

Definition methods_function (mangled : string) : string := "register_" +:+ mangled +:+ "_methods".
Definition methods_call (function full_name : string) : string :=
  function +:+ "(root_module, root_module[" +:+ py_repr full_name +:+ "])".
Definition methods_def (function : string) : string := "def " +:+ function +:+ "(root_module, cls):".

Definition class_call (c : W * decl) : ST parser unit :=
  sink <- pygen_sink_for cfg (Some c.2) ;;
  mangled <- st_get (fun p => mangled_full_name (ps_module p) c.1) ;;
  names <- full_names ;;
  with_sink sink (write_line (methods_call (methods_function mangled) (names c.1))).

Definition class_methods (module_ns : decl) (c : W * decl) : ST parser unit :=
  mangled <- st_get (fun p => mangled_full_name (ps_module p) c.1) ;;
  sink <- pygen_sink_for cfg (Some c.2) ;;
  with_sink sink (fun k => on_sinks (sink_writeln (methods_def (methods_function mangled)) k ;;; sink_indent k)) ;;;
  anonymous <- st_get ps_anonymous_structs ;;
  st_iter (fun a => if bool_decide (a.2 = c.1) then scan_class_methods module_ns a.1 c.1 sink else st_ret tt)
    anonymous ;;;
  scan_class_methods module_ns c.2 c.1 sink ;;;
  with_sink sink (fun k => on_sinks (sink_writeln "return" k ;;; sink_unindent k ;;; sink_writeln EmptyString k)).

Definition scan_methods (module_ns : decl) : ST parser unit :=
  scanned <- st_get ps_types_scanned ;;
  st_assert scanned ;;;
  on_all_sinks cfg (fun k => sink_writeln "def register_methods(root_module):" k ;;; sink_indent k) ;;;
  classes <- st_get classes_with_methods ;;
  st_iter class_call classes ;;;
  on_all_sinks cfg (fun k =>
    st_iter (section_call "register_methods" "root_module" k) (other_sections (pc_target cfg) k) ;;;
    sink_writeln "return" k ;;; sink_unindent k ;;; sink_writeln EmptyString k) ;;;
  st_iter (class_methods module_ns) classes.
End methods.

(** ** What scanning methods changes *)

Section methods_frame.
Context {gccxml : Gccxml} {W F R P M : Type} {ops : WrapOps W F R P M}.

(** The names of classes, under which their functions are known in the script *)
Definition same_names (m m' : M) : Prop :=
  forall w, mangled_full_name m' w = mangled_full_name m w /\ full_name_of m' w = full_name_of m w.

#[export] Instance same_names_preorder : PreOrder same_names.
Proof.
  split; [by intros m w|]. intros m1 m2 m3 H1 H2 w.
  destruct (H1 w) as [<- <-]. apply H2.
Qed.

(** What is promised of the operations on classes: adding members renames no class. *)
Class StableNames : Prop := {
  ReturnValue_new_names : forall spec, evolves same_names (ReturnValue_new spec);
  Parameter_new_names : forall spec, evolves same_names (Parameter_new spec);
  add_method_names : forall w n r ps k, evolves same_names (add_method w n r ps k);
  add_constructor_names : forall w ps k, evolves same_names (add_constructor w ps k);
  add_copy_constructor_names : forall w, evolves same_names (add_copy_constructor w);
  add_static_attribute_names : forall w n r c, evolves same_names (add_static_attribute w n r c);
  add_instance_attribute_names : forall w n r c, evolves same_names (add_instance_attribute w n r c);
  add_output_stream_operator_names : forall w, evolves same_names (add_output_stream_operator w);
  add_binary_comparison_operator_names : forall w o,
    evolves same_names (add_binary_comparison_operator w o);
  add_binary_numeric_operator_names : forall w o r a p,
    evolves same_names (add_binary_numeric_operator w o r a p);
  add_inplace_numeric_operator_names : forall w o p,
    evolves same_names (add_inplace_numeric_operator w o p);
  add_unary_numeric_operator_names : forall w o, evolves same_names (add_unary_numeric_operator w o);
  set_cannot_be_constructed_names : forall w r, evolves same_names (set_cannot_be_constructed w r);
  set_helper_class_disabled_names : forall w b, evolves same_names (set_helper_class_disabled w b)
}.
Context {stable : StableNames}.
Context (cfg : parser_config (W:=W) (F:=F) (M:=M)) {dict_order : DictOrder}.
Local Abbreviation frame := (parser_frame (W:=W) same_names).
Hint Resolve ReturnValue_new_names Parameter_new_names add_method_names add_constructor_names
  add_copy_constructor_names add_static_attribute_names add_instance_attribute_names
  add_output_stream_operator_names add_binary_comparison_operator_names
  add_binary_numeric_operator_names add_inplace_numeric_operator_names
  add_unary_numeric_operator_names set_cannot_be_constructed_names set_helper_class_disabled_names : st.

Lemma frame_class_line k line : evolves frame (class_line (M:=M) k line).
Proof. unfold class_line, with_sink. parser_steps. Qed.
Hint Resolve frame_class_line : st.
Lemma frame_class_comment k anns : evolves frame (class_comment (M:=M) k anns).
Proof. unfold class_comment. parser_steps. Qed.
Hint Resolve frame_class_comment : st.

Lemma frame_numeric_operator w k op types ret arg0 :
  evolves frame (numeric_operator cfg w k op types ret arg0).
Proof.
  unfold numeric_operator, right_argument, scanned_annotations, full_names.
  parser_steps.
Qed.
Hint Resolve frame_numeric_operator : st.
Lemma frame_handle_operator cls w k op types : evolves frame (handle_operator cfg cls w k op types).
Proof. unfold handle_operator, get_class_wrapper. cbn zeta. parser_steps. Qed.
Hint Resolve frame_handle_operator : st.
Lemma frame_class_operators ns cls w k : evolves frame (scan_class_operators cfg ns cls w k).
Proof. unfold scan_class_operators. parser_steps. Qed.

Lemma frame_method_annotations l : forall kwargs, evolves frame (method_annotations (M:=M) l kwargs).
Proof.
  induction l as [|[n v] l IH]; intros kwargs; cbn [method_annotations]; [parser_steps|].
  apply evolves_bind; [apply _| |auto]. unfold method_annotation. parser_steps.
Qed.
Lemma frame_new_parameters specs : evolves frame (new_parameters specs).
Proof. induction specs as [|spec specs IH]; cbn [new_parameters]; parser_steps. Qed.
Lemma frame_disable w member reason : evolves frame (disable_construction w member reason).
Proof. unfold disable_construction. parser_steps. Qed.
Hint Resolve frame_class_operators frame_method_annotations frame_new_parameters frame_disable : st.

Lemma frame_add_method w k member r ps kwargs :
  hooks_keep same_names cfg -> evolves frame (add_method_or_disable cfg w k member r ps kwargs).
Proof. intros Hh. unfold add_method_or_disable. parser_steps. Qed.
Hint Resolve frame_add_method : st.
Lemma frame_scan_method w k member anns :
  hooks_keep same_names cfg -> evolves frame (scan_method cfg w k member anns).
Proof. intros Hh. unfold scan_method, wrap_method, full_names. cbn zeta. parser_steps. Qed.
Lemma frame_constructor_parameters specs : evolves frame (constructor_parameters specs).
Proof. induction specs as [|spec specs IH]; cbn [constructor_parameters]; parser_steps. Qed.
Hint Resolve frame_scan_method frame_constructor_parameters : st.
Lemma frame_scan_constructor w k member anns f :
  hooks_keep same_names cfg -> evolves frame (scan_constructor cfg w k member anns f).
Proof. intros Hh. unfold scan_constructor, full_names. cbn zeta. parser_steps. Qed.
Lemma frame_scan_attribute w k member anns : evolves frame (scan_attribute w k member anns).
Proof. unfold scan_attribute, full_names. cbn zeta. parser_steps. Qed.
Lemma frame_hidden w l : forall f, evolves frame (hidden_constructors (M:=M) w l f).
Proof.
  induction l as [|member l IH]; intros f; cbn [hidden_constructors]; [parser_steps|].
  apply evolves_bind; [apply _| |auto]. unfold hidden_constructor. parser_steps.
Qed.
Hint Resolve frame_scan_constructor frame_scan_attribute frame_hidden : st.
Lemma frame_scan_members w k ignored l : hooks_keep same_names cfg ->
  forall f, evolves frame (scan_members cfg w k ignored l f).
Proof.
  intros Hh. induction l as [|member l IH]; intros f; cbn [scan_members]; [parser_steps|].
  apply evolves_bind; [apply _| |auto]. unfold scan_member. parser_steps.
Qed.
Hint Resolve frame_scan_members : st.
Lemma frame_scan_class_methods ns cls w k :
  hooks_keep same_names cfg -> evolves frame (scan_class_methods cfg ns cls w k).
Proof. intros Hh. unfold scan_class_methods. parser_steps. Qed.
End methods_frame.

(** ** The script of the methods *)

Section methods_script.
Context {gccxml : Gccxml} {W F R P M : Type} {ops : WrapOps W F R P M} {stable : StableNames}.
Context (cfg : parser_config (W:=W) (F:=F) (M:=M)) {dict_order : DictOrder}.
Local Abbreviation parser := (parser (W:=W) (M:=M)).
Local Abbreviation emits := (emits same_names).

(** The sink of a class is [k]. *)
Definition class_sink (c : W * decl) (k : nat) : Prop :=
  get_pygen_sink_for_definition (pc_target cfg) (pc_classifier cfg) (Some c.2) = Ok (Some k).
Definition class_function (m : M) (c : W * decl) : string := methods_function (mangled_full_name m c.1).

Lemma with_sink_emits (sink : option nat) body sink_ops (p p' : parser) :
  ops_on body sink_ops -> with_sink sink (fun k => on_sinks (body k)) p = (p', Ok tt) ->
  emits (fun k os => os = if bool_decide (sink = Some k) then sink_ops k else []) p p'.
Proof.
  intros Hb. destruct sink as [j|]; cbn [with_sink].
  - intros E. eapply emits_mono; [|exact (one_sink_emits same_names _ _ _ _ _ Hb E)].
    intros k os ->. repeat case_bool_decide; congruence.
  - intros [= <-]. apply (emits_nothing same_names). done.
Qed.

Lemma class_call_emits m c (p p' : parser) :
  same_names m (ps_module p) -> class_call cfg c p = (p', Ok tt) ->
  emits (includes (fun k op => class_sink c k
           /\ op = OpWrite (methods_call (class_function m c) (full_name_of m c.1)))) p p'.
Proof.
  intros Hm. destruct (Hm c.1) as [Hg Hf].
  unfold class_call, class_sink, pygen_sink_for, full_names, st_bind, st_lift, st_get.
  destruct (get_pygen_sink_for_definition _ _ _) as [sink|]; [|done]. rewrite Hg, Hf.
  intros E. eapply emits_mono; [|exact (with_sink_emits sink _ _ _ _ (ops_on_writeln _) E)].
  intros k os ->. split; [case_bool_decide; repeat constructor|].
  intros op [[= ->] ->]. rewrite bool_decide_true by done. by left.
Qed.

Lemma class_methods_emit m ns c (p p' : parser) : hooks_keep same_names cfg ->
  same_names m (ps_module p) -> class_methods cfg ns c p = (p', Ok tt) ->
  emits (includes (fun k op => class_sink c k
           /\ op = OpWrite (methods_def (class_function m c)))) p p'.
Proof.
  intros Hh Hm E. unfold class_methods in E. destruct (Hm c.1) as [Hg _].
  apply st_bind_Ok in E as (p1&mangled&[= <- <-]&E).
  apply st_bind_Ok in E as (p2&sink&Es&E). unfold pygen_sink_for, st_lift in Es.
  destruct (get_pygen_sink_for_definition _ _ _) as [sink'|] eqn:Hs; [|done].
  injection Es as <- ->. rewrite Hg in E.
  apply st_bind_Ok in E as (p3&[]&E3&E).
  apply (with_sink_emits _ _ _ _ _ (ops_on_bind _ _ _ _ (ops_on_writeln _) ops_on_indent)) in E3.
  apply st_bind_Ok in E as (p4&anon&[= <- <-]&E).
  apply st_bind_Ok in E as (p5&[]&E5&E).
  apply (evolves_emits same_names) in E5; cycle 1.
  { apply evolves_iter; [apply _|intros a; apply evolves_if; [by apply frame_scan_class_methods|apply evolves_ret, _]]. }
  apply st_bind_Ok in E as (p6&[]&E6&E).
  apply (evolves_emits same_names) in E6; [|by apply frame_scan_class_methods].
  apply (with_sink_emits _ _ _ _ _ (ops_on_bind _ _ _ _ (ops_on_writeln _)
    (ops_on_bind _ _ _ _ ops_on_unindent (ops_on_writeln _)))) in E.
  destruct (emits_app same_names _ _ (fun _ os => bracketed os) _ _ _
    (fun k os1 os2 => bracketed_app os1 os2) E5 E6) as (T&O&A&os&Hr&Hb).
  destruct E3 as (T3&O3&A3&os3&R3&Q3). destruct E as (T4&O4&A4&os4&R4&Q4).
  split; [transitivity (ps_module p3); [done|]; by transitivity (ps_module p6)|].
  do 2 (split; [congruence|]). exists (fun k => os3 k ++ os k ++ os4 k).
  split; [by eapply ran_app; [|eapply ran_app]|]. intros k. rewrite Q3, Q4. unfold class_sink.
  rewrite Hs. case_bool_decide as Hk; subst; split.
  - cbn. apply br_write, indent_closes.
    exists (os k ++ [OpWrite "return"]), [OpWrite EmptyString]. rewrite <- app_assoc.
    split; [done|]. split; [apply bracketed_app; [done|]|]; repeat constructor.
  - intros op [_ ->]. by left.
  - apply bracketed_app; [constructor|]. apply bracketed_app; [done|constructor].
  - intros op [[= ->] _]. done.
Qed.

(** What [scan_methods] writes to a sink, for the classes in [p] *)
Definition methods_needs (p : parser) (k : nat) (op : sink_op) : Prop :=
  (k ∈ all_sinks cfg /\ op = OpWrite "def register_methods(root_module):")
  \/ exists c, c ∈ classes_with_methods p /\ class_sink c k
       /\ (op = OpWrite (methods_call (class_function (ps_module p) c) (full_name_of (ps_module p) c.1))
           \/ op = OpWrite (methods_def (class_function (ps_module p) c))).

Lemma scan_methods_includes (ns : decl) (p p' : parser) :
  hooks_keep same_names cfg -> NoDup (all_sinks cfg) -> scan_methods cfg ns p = (p', Ok tt) ->
  exists os, ran os (ps_sinks p) (ps_sinks p') /\ forall k, includes (methods_needs p) k (os k).
Proof.
  intros Hh Hnd H. unfold scan_methods in H.
  apply st_bind_Ok in H as (p1&b&[= <- <-]&H). apply st_bind_Ok in H as (p2&[]&E2&H).
  assert (p2 = p) as -> by (destruct (ps_types_scanned p); [by injection E2|done]).
  apply st_bind_Ok in H as (p3&[]&E3&H).
  apply (all_sinks_emit same_names cfg _ _ _ _ (ops_on_bind _ _ _ _ (ops_on_writeln _) ops_on_indent) Hnd) in E3.
  apply st_bind_Ok in H as (p4&cs&[= <- <-]&H).
  assert (classes_with_methods p3 = classes_with_methods p) as Hcs
    by (unfold classes_with_methods; by destruct E3 as (_&->&_)). rewrite Hcs in H.
  assert (same_names (ps_module p) (ps_module p3)) as Hm3 by by destruct E3.
  apply st_bind_Ok in H as (p5&[]&E5&H).
  apply (iter_emits same_names _ _ (ps_module p) _
    (fun c q q' _ Hm => class_call_emits (ps_module p) c q q' Hm) _ _ Hm3) in E5.
  pose proof (emits_keeps _ _ _ _ _ E5 Hm3) as Hm5.
  apply st_bind_Ok in H as (p6&[]&E6&H).
  apply (all_sinks_emit same_names cfg _ _ _ _ (ops_on_bind _ _ _ _
      (ops_on_choice _ _ (other_sections (pc_target cfg)) (fun l => ops_on_iter _ _ l (fun sect =>
        ops_on_section_call "register_methods" "root_module" sect)))
    (ops_on_bind _ _ _ _ (ops_on_writeln _) (ops_on_bind _ _ _ _ ops_on_unindent (ops_on_writeln _)))) Hnd) in E6.
  pose proof (emits_keeps _ _ _ _ _ E6 Hm5) as Hm6.
  apply (iter_emits same_names _ _ (ps_module p) _
    (fun c q q' _ Hm => class_methods_emit (ps_module p) ns c q q' Hh Hm) _ _ Hm6) in H.
  destruct E3 as (_&_&_&os3&R3&Q3), E5 as (_&_&_&os5&R5&Q5), E6 as (_&_&_&os6&R6&Q6), H as (_&_&_&os7&R7&Q7).
  eexists. split; [exact (ran_app _ _ _ _ _ R3 (ran_app _ _ _ _ _ R5 (ran_app _ _ _ _ _ R6 R7)))|].
  intros k. cbn beta. destruct (Q5 k) as [B5 N5], (Q7 k) as [B7 N7]. split.
  - rewrite Q3, Q6. case_bool_decide; [|by cbn; apply bracketed_app].
    rewrite <- !app_assoc. apply br_write, indent_closes, app_closes; [done|]. apply app_closes.
    + generalize (other_sections (pc_target cfg) k). intros l. induction l as [|sect l IH]; [constructor|].
      apply bracketed_app; [apply bracketed_writes|done].
    + exists [OpWrite "return"], (OpWrite EmptyString :: os7 k). split; [done|]. by repeat constructor.
  - intros op [[Hk ->]|(c&Hc&Hk&[->| ->])]; rewrite !elem_of_app.
    + left. rewrite Q3, bool_decide_true by done. by left.
    + right. left. apply N5. by exists c.
    + right. right. right. apply N7. by exists c.
Qed.

(** Every class has its methods in the script.  When [scan_methods] returns, every
    sink of the script has received a well-bracketed sequence of operations; and for
    every registered class whose methods are scanned, the sink its declaration is
    classified to both calls and defines the function of the class. *)
Theorem scan_methods_script (ns : decl) (p p' : parser) (k : nat) (s : code_sink) :
  hooks_keep same_names cfg -> NoDup (all_sinks cfg) ->
  scan_methods cfg ns p = (p', Ok tt) -> ps_sinks p !! k = Some s ->
  exists s' os,
    ps_sinks p' !! k = Some s' /\ run_ops s os = Ok s' /\ bracketed os /\ same_indent s' s
    /\ forall c, c ∈ classes_with_methods p -> class_sink c k ->
         OpWrite (methods_call (class_function (ps_module p) c) (full_name_of (ps_module p) c.1)) ∈ os
         /\ OpWrite (methods_def (class_function (ps_module p) c)) ∈ os.
Proof.
  intros Hh Hnd H Hs. destruct (scan_methods_includes _ _ _ Hh Hnd H) as (os&R1&Hi).
  destruct (Hi k) as [Hb Hn]. destruct (ran_bracketed _ _ _ _ _ R1 Hb Hs) as (s'&Hs'&Hr&Hsame).
  exists s', (os k). do 4 (split; [done|]).
  intros c Hc Hk. split; apply Hn; right; exists c; eauto.
Qed.
End methods_script.

(** ** Pure virtual methods *)

Section pure_virtual.
Context {gccxml : Gccxml} {W F R P M : Type} {ops : WrapOps W F R P M}.
Context (cfg : parser_config (W:=W) (F:=F) (M:=M)) {dict_order : DictOrder}.
Local Abbreviation parser := (parser (W:=W) (M:=M)).

(** The last thing that happened to the module: the class lost its constructors and its
    helper class. *)
Definition construction_disabled (w : W) (m : M) : Prop :=
  exists reason m1 m2, set_cannot_be_constructed w reason m1 = (m2, Ok tt)
                       /\ set_helper_class_disabled w true m2 = (m, Ok tt).

Lemma on_module_Ok {A} (c : ST M A) (p p' : parser) a :
  on_module c p = (p', Ok a) -> c (ps_module p) = (ps_module p', Ok a).
Proof. unfold on_module. destruct (c (ps_module p)) as [m r]. by intros [= <- ->]. Qed.

Lemma class_line_module k line (p : parser) : ps_module (class_line k line p).1 = ps_module p.
Proof.
  destruct k as [k|]; [|done]. unfold class_line, with_sink, write_line, on_sinks.
  by destruct (sink_writeln line k (ps_sinks p)).
Qed.

Lemma disable_run w member reason (p p' : parser) :
  is_pure_virtual member = true -> disable_construction w member reason p = (p', Ok tt) ->
  construction_disabled w (ps_module p').
Proof.
  intros Hp. unfold disable_construction. rewrite Hp. cbn [st_when].
  intros (p1&[]&E1%on_module_Ok&E2%on_module_Ok)%st_bind_Ok. by exists reason, (ps_module p), (ps_module p1).
Qed.

Lemma class_line_Ok k line (p p' : parser) :
  class_line k line p = (p', Ok tt) -> ps_module p' = ps_module p.
Proof. intros E. pose proof (class_line_module k line p) as H. by rewrite E in H. Qed.

(** What is known of a method before it is wrapped: the part of [scan_method] up to the
    line of the script. *)
Definition method_specification (w : W) (k : option nat) (member : decl) (anns : all_annotations)
    : ST parser (type_spec W * list (type_spec W) * gmap string (kwarg W)) :=
  kwargs <- method_annotations (dict_items anns.1) ∅ ;;
  let is_operator := match decl_kind_of member with MemberOperator => true | _ => false end in
  let kwargs := set_when is_operator "custom_name" (PyStr "__call__") kwargs in
  throw <- calldef_exceptions (exceptions member) ;;
  let kwargs := set_throw throw kwargs in
  ret <- st_lift (lookup_return (type_decl_string (return_type member)) (default ∅ (anns.2 !! "return"))) ;;
  args <- st_lift (argument_specs (arguments member) anns.2) ;;
  allowed <- st_get (fun p => allow_subclassing (ps_module p) w) ;;
  st_when (is_pure_virtual member && negb allowed)
    (on_module (set_cannot_be_constructed w "pure virtual method and subclassing disabled")) ;;;
  template <- st_lift
    (if is_instantiation (demangled_name member) then
       let params := template_args (demangled_name member) in
       name <-? template_instance_name anns.1 params ;; Ok (params, name)
     else Ok ([], None)) ;;
  let kwargs := method_kwargs member template.1 template.2 kwargs in
  let kwargs := set_when (is_deprecated member) "deprecated" (PyBool true) kwargs in
  names <- full_names ;;
  class_comment k anns.1 ;;;
  class_line k (method_line names member ret args kwargs) ;;;
  st_ret (ret, args, kwargs).

(** Operators other than the call are left to the scan of the operators. *)
Definition other_operator (member : decl) : Prop :=
  decl_kind_of member = MemberOperator /\ symbol member <> "()".

Lemma scan_method_specified w k member anns (p p' : parser) :
  is_pure_virtual member = true -> scan_method cfg w k member anns p = (p', Ok tt) ->
  other_operator member
  \/ exists ret args kwargs p1,
       method_specification w k member anns p = (p1, Ok (ret, args, kwargs))
       /\ wrap_method cfg w k member ret args kwargs p1 = (p', Ok tt).
Proof.
  intros Hp H. unfold scan_method in H. apply st_bind_Ok in H as (p1&kwargs&E1&H).
  destruct ((match decl_kind_of member with MemberOperator => true | _ => false end)
            && negb (String.eqb (symbol member) "()")) eqn:Eo.
  { left. apply andb_prop in Eo as [Ek Es]. split; [by destruct (decl_kind_of member)|].
    apply negb_true_iff in Es. by apply String.eqb_neq. }
  right. apply st_bind_Ok in H as (p2&throw&E2&H). apply st_bind_Ok in H as (p3&ret&E3&H).
  apply st_bind_Ok in H as (p4&args&E4&H). apply st_bind_Ok in H as (p5&allowed&E5&H).
  apply st_bind_Ok in H as (p6&[]&E6&H). apply st_bind_Ok in H as (p7&template&E7&H).
  unfold irrelevant_method in H. rewrite Hp, orb_true_r, andb_false_r in H.
  apply st_bind_Ok in H as (p8&names&E8&H). apply st_bind_Ok in H as (p9&[]&E9&H).
  apply st_bind_Ok in H as (p10&[]&E10&H). eexists ret, args, _, p10. split; [|exact H].
  unfold method_specification. rewrite (st_bind_run _ _ _ _ _ E1), (st_bind_run _ _ _ _ _ E2),
    (st_bind_run _ _ _ _ _ E3), (st_bind_run _ _ _ _ _ E4), (st_bind_run _ _ _ _ _ E5),
    (st_bind_run _ _ _ _ _ E6), (st_bind_run _ _ _ _ _ E7), (st_bind_run _ _ _ _ _ E8),
    (st_bind_run _ _ _ _ _ E9), (st_bind_run _ _ _ _ _ E10). reflexivity.
Qed.

(** All parameters are tried, one after the other. *)
Inductive tried : list (type_spec W) -> parser -> list (option P) -> parser -> Prop :=
  | tried_nil p : tried [] p [] p
  | tried_cons spec specs p o p1 os p2 :
      try_new (Parameter_new spec) p = (p1, Ok o) -> tried specs p1 os p2 ->
      tried (spec :: specs) p (o :: os) p2.

Lemma new_parameters_tried specs : forall (p p' : parser) r,
  new_parameters specs p = (p', Ok r) ->
  exists os, tried specs p os p'
    /\ match r with Some ps => os = map Some ps | None => None ∈ os end.
Proof.
  induction specs as [|spec specs IH]; intros p p' r H; cbn [new_parameters] in H.
  { injection H as <- <-. exists []. split; [constructor | done]. }
  apply st_bind_Ok in H as (p1&o&E1&H). apply st_bind_Ok in H as (p2&rest&E2&H).
  injection H as <- <-. destruct (IH _ _ _ E2) as (os&Ht&Hr). exists (o :: os).
  split; [by econstructor|]. destruct o as [x|]; [|by left].
  destruct rest as [ps|]; [by rewrite Hr | by right].
Qed.

(** The return value or a parameter has no handler, or the class does not support the
    method. *)
Definition unsupported (w : W) (member : decl) (ret : type_spec W) (args : list (type_spec W))
    (kwargs : gmap string (kwarg W)) (p : parser) : Prop :=
  exists p1 r, try_new (ReturnValue_new ret) p = (p1, Ok r)
    /\ forall r0, r = Some r0 ->
         exists os p2, tried args p1 os p2
           /\ forall ps, os = map Some ps ->
                (add_method w (decl_name member) r0 ps kwargs (ps_module p2)).2
                  = Raise NotSupportedError.

(** What becomes of a method that is given by its specifications: it is added, with a
    handler for the return value and for each of the parameters, and the hooks run; or
    it cannot be, and the class is disabled. *)
Inductive method_outcome (w : W) (member : decl) (ret : type_spec W) (args : list (type_spec W))
    (kwargs : gmap string (kwarg W)) (p p' : parser) : Prop :=
  | method_wrapped p1 r p2 ps m f :
      try_new (ReturnValue_new ret) p = (p1, Ok (Some r)) ->
      tried args p1 (map Some ps) p2 ->
      add_method w (decl_name member) r ps kwargs (ps_module p2) = (m, Ok f) ->
      run_post_scan_hooks cfg member (ScannedFunction f) (set_module m p2) = (p', Ok tt) ->
      method_outcome w member ret args kwargs p p'
  | method_blocked :
      unsupported w member ret args kwargs p -> construction_disabled w (ps_module p') ->
      method_outcome w member ret args kwargs p p'.

Lemma wrap_method_outcome w k member ret args kwargs (p p' : parser) :
  is_pure_virtual member = true ->
  wrap_method cfg w k member ret args kwargs p = (p', Ok tt) ->
  method_outcome w member ret args kwargs p p'.
Proof.
  intros Hp (p1&r&E1&E)%st_bind_Ok. destruct r as [r|].
  2:{ apply method_blocked; [|by eapply disable_run]. by exists p1, None. }
  apply st_bind_Ok in E as (p2&ps&E2&E). destruct (new_parameters_tried _ _ _ _ E2) as (os&Ht&Hos).
  destruct ps as [ps|].
  2:{ apply method_blocked; [|by eapply disable_run]. exists p1, (Some r). split; [done|].
      intros ? _. exists os, p2. split; [done|]. intros ps ->.
      by apply list_elem_of_fmap in Hos as (?&?&_). }
  subst os. unfold add_method_or_disable in E. apply st_bind_Ok in E as (p3&added&E3&E).
  unfold st_catch in E3. destruct (st_bind _ _ p2) as [p4 [x|e]] eqn:E4.
  - injection E3 as -> ->. apply st_bind_Ok in E4 as (p5&f&E5&[= <- <-]).
    unfold on_module in E5.
    destruct (add_method w (decl_name member) r ps kwargs (ps_module p2)) as [m r'] eqn:Ea.
    injection E5 as <- ->. by eapply method_wrapped.
  - destruct e; try done. apply method_blocked.
    + exists p1, (Some r). split; [done|]. intros ? [= <-]. exists (map Some ps), p2. split; [done|].
      intros ps' Heq. assert (ps' = ps) as -> by (symmetry; by apply (inj (fmap Some)) in Heq).
      unfold st_bind, on_module in E4.
      by destruct (add_method _ _ _ _ _ _) as [m [f|e]]; [|injection E4 as _ ->].
    + apply st_bind_Ok in E3 as (p5&[]&E5&E3).
      apply st_bind_Ok in E3 as (p6&[]&E6&[= <- <-]). injection E as <-.
      rewrite Hp in E6. cbn [st_when] in E6. apply st_bind_Ok in E6 as (p7&[]&E7%class_line_Ok&E8%class_line_Ok).
      rewrite E8, E7. by eapply disable_run.
Qed.

(** C36: A pure virtual method is wrapped or its class is disabled.  Whenever the parser
    gets past a pure virtual method of a class without an exception, one of these
    holds.  It was not looked at: its name is one that the memory policy uses, or it
    has the annotation [ignore], or it is an operator other than the call.  Or, with
    the specifications of its return value and of all its parameters that the
    declaration and the annotations give, it was added to the class, with the handlers
    that were made for them in this run, and the hooks ran.  Or the return value or a
    parameter has no handler, or the class does not support the method, and the class
    was left unable to be constructed and without a helper class. *)
Theorem pure_virtual_wrapped_or_blocked (w : W) (k : option nat) (ignored : list (option string))
    (member : decl) (f f' : found) (p p' : parser) :
  is_pure_virtual member = true ->
  decl_kind_of member = MemberFunction \/ decl_kind_of member = MemberOperator ->
  scan_member cfg w k ignored member f p = (p', Ok f') ->
  (Some (decl_name member) ∈ ignored /\ p' = p)
  \/ exists p1 anns, annotations_of cfg member p = (p1, Ok anns)
      /\ (is_Some (anns.1 !! "ignore") /\ p' = p1
          \/ other_operator member
          \/ exists ret args kwargs p2,
               method_specification w k member anns p1 = (p2, Ok (ret, args, kwargs))
               /\ method_outcome w member ret args kwargs p2 p').
Proof.
  intros Hp Hk H. unfold scan_member in H. case_bool_decide as Hi; [left; by injection H as <-|].
  right. apply st_bind_Ok in H as (p1&anns&E1&H). exists p1, anns. split; [done|].
  case_bool_decide as Ha; [left; by injection H as <-|]. right.
  assert ((scan_method cfg w k member anns ;;; st_ret f) p1 = (p', Ok f')) as E
    by by destruct Hk as [Hk|Hk]; rewrite Hk in H.
  apply st_bind_Ok in E as (p3&[]&E3&[= <- <-]).
  destruct (scan_method_specified w k member anns p1 p3 Hp E3) as [|(ret&args&kwargs&p2&E2&E4)];
    [by left | right].
  exists ret, args, kwargs, p2. split; [done|]. by eapply wrap_method_outcome.
Qed.
End pure_virtual.

(** ** A class *)

(** Class [A] with a method, a pure virtual method of an unknown type and an attribute *)
Definition demo_classes : list demo_entry :=
  [demo_namespace "::" [] [] [1%nat] [];
   demo_class "A" [2%nat; 3%nat; 4%nat] [];
   demo_method "get" "int" "public" NotVirtual [("int", "i", None)];
   demo_method "run" "Unknown" "public" PureVirtual [];
   DemoEntry "size" Variable_ "public" NotVirtual "int" [] [] [] [] [] [] []].

Section demo_methods.
#[local] Instance demo_methods_declarations : Gccxml := demo_gccxml demo_classes.

#[export] Instance demo_stable_names : StableNames (M:=demo_module).
Proof. split; intros; intros m w'; try (split; reflexivity). all: cbn; repeat case_match; by split. Qed.

Definition demo_methods_start : parser (W:=nat) (M:=demo_module) :=
  Parser (DemoModule [] ["A"] [] ["int"]) [MemoryCodeSink] AnnotationsScanner
    [(1%nat, 0%nat)] [(0%nat, 1%nat)] [] [] [] ∅ true.
Definition demo_methods_end : parser (W:=nat) (M:=demo_module) :=
  (scan_methods (demo_cfg demo_classes) 0%nat demo_methods_start).1.

Example demo_methods_text :
  dm_log (ps_module demo_methods_end) =
    ["method get"; "cannot be constructed: pure virtual method and subclassing disabled";
     "cannot be constructed: pure virtual method not wrapped"; "helper class disabled";
     "attribute size"; "constructor"; "copy constructor"]
  /\ (sink_text <$> ps_sinks demo_methods_end !! 0%nat) = Some (lines_text
       ["def register_methods(root_module):";
        "    register_A_methods(root_module, root_module['A'])";
        "    return";
        "";
        "def register_A_methods(root_module, cls):";
        "    cls.add_method('get', ";
        "                   'int', ";
        "                   [param('int', 'i')])";
        "    cls.add_method('run', ";
        "                   'Unknown', ";
        "                   [], ";
        "                   is_virtual=True, is_pure_virtual=True)";
        "    cls.add_instance_attribute('size', 'int', is_const=False)";
        "    cls.add_constructor([])";
        "    cls.add_copy_constructor()";
        "    return";
        ""]).
Proof. split; vm_compute; reflexivity. Qed.

Lemma scan_methods_script_witness :
  exists s' os,
    ps_sinks demo_methods_end !! 0%nat = Some s' /\ run_ops MemoryCodeSink os = Ok s' /\ bracketed os
    /\ same_indent s' MemoryCodeSink
    /\ forall c, c ∈ classes_with_methods demo_methods_start -> class_sink (demo_cfg demo_classes) c 0 ->
         OpWrite (methods_call (class_function (ps_module demo_methods_start) c)
           (full_name_of (ps_module demo_methods_start) c.1)) ∈ os
         /\ OpWrite (methods_def (class_function (ps_module demo_methods_start) c)) ∈ os.
Proof.
  apply (scan_methods_script (demo_cfg demo_classes) 0%nat demo_methods_start demo_methods_end 0).
  - split; constructor.
  - apply NoDup_singleton.
  - unfold demo_methods_end. apply with_result. vm_compute. reflexivity.
  - reflexivity.
Defined.

Definition demo_wrap : parser (W:=nat) (M:=demo_module) * res found :=
  scan_member (demo_cfg demo_classes) 0%nat (Some 0%nat) [] 3%nat (false, false) demo_methods_start.

Lemma pure_virtual_wrapped_or_blocked_witness :
  exists p1 anns ret args kwargs p2,
    annotations_of (demo_cfg demo_classes) 3%nat demo_methods_start = (p1, Ok anns)
    /\ method_specification 0%nat (Some 0%nat) 3%nat anns p1 = (p2, Ok (ret, args, kwargs))
    /\ method_outcome (demo_cfg demo_classes) 0%nat 3%nat ret args kwargs p2 demo_wrap.1.
Proof.
  destruct (pure_virtual_wrapped_or_blocked (demo_cfg demo_classes) 0%nat (Some 0%nat) [] 3%nat
    (false, false) (false, false) demo_methods_start demo_wrap.1)
    as [[H _]|(p1&anns&E1&[[H _]|[[H _]|(ret&args&kwargs&p2&E2&Ho)]])].
  - reflexivity.
  - left. reflexivity.
  - unfold demo_wrap. vm_compute. reflexivity.
  - by apply elem_of_nil in H.
  - exfalso. revert H. vm_compute in E1. injection E1 as _ <-. vm_compute. by intros [? [=]].
  - discriminate H.
  - by exists p1, anns, ret, args, kwargs, p2.
Defined.
End demo_methods.
