(* ===== verification/GccXmlTypes.v ===== *)
(** * The header parser: types

    [scan_types] of [ModuleParser]: enumerations, classes, containers and typedefs of the
    module's namespace and of those within it, with what is nested in classes.  Classes
    are registered after their bases: a class whose base is still to come is postponed. *)
From S2P Require Import Prelude.
From S2P Require Import Format.
From S2P Require Import CodeSink.
From S2P Require Import CTypeParser.
From S2P Require Import Annotations.
From S2P Require Import Pygen.
From S2P Require Import GccXml.
From S2P Require Import PygenTrace.
From S2P Require Import GccXmlFrame.
From S2P Require Import GccXmlDemo.

(** What becomes of a class in one round *)
Inductive verdict (A : Type) : Type :=
  | Proceed (a : A)
  | Skip
  | Postpone.
Arguments Proceed {A} a.
Arguments Skip {A}.
Arguments Postpone {A}.

Section types.
Context {gccxml : Gccxml} {W F R P M : Type} {ops : WrapOps W F R P M}.
Context (cfg : parser_config (W:=W) (F:=F) (M:=M)) {dict_order : DictOrder}.
(** Python compares sinks by their addresses when two sections have the same precedence. *)
Context (sink_rank : nat -> Z).
Local Abbreviation parser := (parser (W:=W) (M:=M)).

(** Where types are looked for: in the namespace itself, by the function of the script
    with that name, or in a class of it *)
Inductive scan_scope : Type :=
  | NamespaceScope (register_function : string)
  | ClassScope (w : W) (cls : decl).

Definition outer_class_of (scope : scan_scope) : option W :=
  match scope with NamespaceScope _ => None | ClassScope w _ => Some w end.

(** The declarations of one kind in a scope; those of a class have to be public. *)
Definition scope_decls (of_kind : decl -> list decl) (ns : decl) (scope : scan_scope) : list decl :=
  match scope with
  | NamespaceScope _ => located cfg (of_kind ns)
  | ClassScope _ cls =>
      public_names (List.filter (fun d => String.eqb (member_access_type cls d) "public")
                      (located cfg (of_kind cls)))
  end.

(** ** Annotations of classes *)

Definition setdefault (name : string) (v : pyval) (kwargs : gmap string (kwarg W)) : gmap string (kwarg W) :=
  match kwargs !! name with Some _ => kwargs | None => <[name := Value v]> kwargs end.
Definition annotation_or_none (name : string) (anns : annotations) : ann_value :=
  default NoValue (anns !! name).

(** One round of the loop of [_apply_class_annotations], on the keyword arguments and
    [is_exception] *)
Definition class_annotation (anns : annotations) (st : gmap string (kwarg W) * bool)
    (a : string * ann_value) : res (gmap string (kwarg W) * bool) :=
  let '(kwargs, is_exception) := st in
  let '(name, value) := a in
  if bool_decide (name ∈ ["allow_subclassing"; "is_singleton"; "automatic_type_narrowing"]) then
    b <-? parse_boolean value ;; Ok (setdefault name (PyBool b) kwargs, is_exception)
  else if String.eqb name "incref_method" then
    Ok (setdefault "memory_policy" (PyMethodsPolicy value (annotation_or_none "decref_method" anns)
          (annotation_or_none "peekref_method" anns)) kwargs, is_exception)
  else if String.eqb name "free_function" then
    Ok (setdefault "memory_policy" (PyFreePolicy value) kwargs, is_exception)
  else if String.eqb name "incref_function" then
    Ok (setdefault "memory_policy" (PyFunctionsPolicy value (annotation_or_none "decref_function" anns)) kwargs,
        is_exception)
  else if bool_decide (name ∈ ["python_name"; "custom_name"]) then
    Ok (setdefault "custom_name" (py_of_annotation value) kwargs, is_exception)
  else if String.eqb name "exception" then Ok (kwargs, true)
  else if String.eqb name "import_from_module" then
    Ok (setdefault "import_from_module" (py_of_annotation value) kwargs, is_exception)
  else Ok (kwargs, is_exception).

(** [_class_has_virtual_methods] and [_get_destructor_visibility] *)
Definition class_has_virtual_methods (cls : decl) : bool :=
  existsb (fun member =>
    match decl_kind_of member, virtuality_of member with
    | MemberFunction, NotVirtual => false
    | MemberFunction, _ => true
    | _, _ => false
    end) (members cls).
Definition destructor_visibility (cls : decl) : option string :=
  access_type <$> List.find (fun member => match decl_kind_of member with Destructor => true | _ => false end)
                    (members cls).

Definition is_class (d : decl) : bool := match decl_kind_of d with ClassDef => true | _ => false end.

(** [_apply_class_annotations]: whether the class is an exception, and its arguments *)
Definition apply_class_annotations (cls : decl) (anns : annotations) : res (gmap string (kwarg W) * bool) :=
  st <-? fold_res (class_annotation anns) (∅, false) (dict_items anns) ;;
  if is_class cls then
    let kwargs := if class_has_virtual_methods cls && bool_decide (bases cls = [])
                  then setdefault "allow_subclassing" (PyBool true) st.1 else st.1 in
    let kwargs := match destructor_visibility cls with
                  | Some v => if String.eqb v "public" then kwargs
                              else setdefault "destructor_visibility" (PyStr v) kwargs
                  | None => setdefault "destructor_visibility" PyNone kwargs
                  end in
    Ok (kwargs, st.2)
  else Ok st.

(** ** Containers *)

(** A type without its pointer or reference, and without [const] *)
Definition container_type_of (t : cpp_type) : cpp_type :=
  let t := if is_pointer t then remove_pointer t
           else if is_reference t then remove_reference t else t in
  if is_const t then remove_const t else t.

(** The containers a declaration depends on are registered later, since their elements
    may be classes that are not yet registered. *)
Definition request_container (t : cpp_type) : ST parser unit :=
  let t := container_type_of t in
  match find_container_traits t with
  | None => st_ret tt
  | Some traits =>
      name <- st_lift (normalize_type_string (type_decl_string t)) ;;
      st_modify (fun p => set_containers (ps_containers_to_register p ++ [ContainerRequest traits t name])
                            (ps_containers_registered p) p)
  end.
Definition request_containers (l : list decl) : ST parser unit :=
  st_iter (fun d => st_iter request_container (dependencies d)) (public_names l).

(** The name of the container type.  Maps other than [std::map] are not implemented. *)
Definition container_type_name (traits : std_container) : option string :=
  match traits with
  | list_traits => Some "list"
  | deque_traits => Some "dequeue"
  | queue_traits => Some "queue"
  | priority_queue_traits => Some "dequeue"
  | vector_traits => Some "vector"
  | stack_traits => Some "stack"
  | set_traits => Some "set"
  | multiset_traits => Some "multiset"
  | hash_set_traits => Some "hash_set"
  | hash_multiset_traits => Some "hash_multiset"
  | map_traits => Some "map"
  | multimap_traits | hash_map_traits | hash_multimap_traits => None
  end.

Definition container_line (names : W -> string) (name retval_str : string) (kwargs : gmap string (kwarg W))
    : string :=
  "module.add_container(" +:+ join ", " ([py_repr name; retval_str] ++ pygen_kwargs names kwargs) +:+ ")".

(** The return values of the key and the element, up to the first that fails; the element
    comes first here and last in the container. *)
Definition container_values (key : option (type_spec W)) (elem : type_spec W) : ST parser (option (list R)) :=
  e <- try_new (ReturnValue_new elem) ;;
  match e with
  | None => st_ret None
  | Some e =>
      match key with
      | None => st_ret (Some [e])
      | Some key => k <- try_new (ReturnValue_new key) ;;
                    st_ret match k with Some k => Some [k; e] | None => None end
      end
  end.

(** [_register_container], whose outer class is always [None] *)
Definition register_container (module : nat) (c : container_request) : ST parser unit :=
  let traits := cr_traits c in
  if str_in "<" (cr_name c) && negb (pc_enable_anonymous_containers cfg) then st_ret tt
  else
    match container_type_name traits with
    | None => st_ret tt
    | Some container_type =>
        let key := match traits with map_traits => key_type traits | _ => None end in
        if match traits with map_traits => negb (bool_decide (is_Some key)) | _ => false end then st_ret tt
        else
          seen <- st_get (fun p => bool_decide (cr_name c ∈ ps_containers_registered p)) ;;
          if seen : bool then st_ret tt
          else
            st_modify (fun p => set_containers (ps_containers_to_register p)
                                  ({[cr_name c]} ∪ ps_containers_registered p) p) ;;;
            let element := element_type traits (cr_type c) in
            let kwargs := <["container_type" := Value (PyStr container_type)]> ∅ in
            sink <- pygen_sink_for cfg (declared element) ;;
            elem_spec <- st_lift (lookup_return (type_decl_string element) ∅) ;;
            key_spec <- st_lift match key with
                                | None => Ok None
                                | Some k => s <-? lookup_return (type_decl_string (k (cr_type c))) ∅ ;; Ok (Some s)
                                end ;;
            names <- full_names ;;
            let elem_str := pygen_retval names elem_spec.1 elem_spec.2 in
            let retval_str := match key_spec with
                              | Some k => "(" +:+ pygen_retval names k.1 k.2 +:+ ", " +:+ elem_str +:+ ")"
                              | None => elem_str
                              end in
            with_sink sink (write_line (container_line names (cr_name c) retval_str kwargs)) ;;;
            values <- container_values key_spec elem_spec ;;
            match values with
            | None => st_ret tt
            | Some values => on_module (add_container module (cr_name c) values kwargs)
            end
    end.

Definition register_containers (module : nat) : ST parser unit :=
  requests <- st_get ps_containers_to_register ;;
  st_iter (register_container module) requests ;;;
  st_modify (fun p => set_containers [] (ps_containers_registered p) p).

(** ** Enumerations *)

Definition enum_line (names : W -> string) (enum : decl) (outer : option W) (anns : annotations) : string :=
  "module.add_enum("
  +:+ join ", " ([py_repr (decl_name enum); "[" +:+ join ", " (map py_repr (enum_value_names enum)) +:+ "]"]
       ++ match outer with Some w => ["outer_class=" +:+ root_module_item names w] | None => [] end
       ++ match anns !! "import_from_module" with
          | Some v => ["import_from_module=" +:+ repr_annotation v]
          | None => []
          end)
  +:+ ")".

Definition scan_enum (module : nat) (outer : option W) (enum : decl) : ST parser unit :=
  anns <- annotations_of cfg enum ;;
  if bool_decide (is_Some (anns.1 !! "ignore")) then st_ret tt
  else
    sink <- pygen_sink_for cfg (Some enum) ;;
    names <- full_names ;;
    with_sink sink (fun k =>
      write_comment anns.1 k ;;; write_line (enum_line names enum outer anns.1) k) ;;;
    on_module (add_enum module (decl_name enum) (enum_value_names enum) outer).

(** ** Classes *)

(** [self._registered_classes[cls]]; the newest entry comes first. *)
Definition registered (d : decl) (p : parser) : option W :=
  snd <$> List.find (fun x => bool_decide (x.1 = d)) (ps_registered_classes p).

(** [postpone_class]: the tenth time is an error.  The count is kept with the class. *)
Definition postpone_count (d : decl) (p : parser) : nat :=
  length (List.filter (fun x => bool_decide (x = d)) (ps_postponed p)).
Definition postpone_class (cls : decl) (unregistered : list decl) : ST parser (list decl) :=
  st_modify (fun p => set_postponed (cls :: ps_postponed p) p) ;;;
  count <- st_get (postpone_count cls) ;;
  if (10 <=? count)%nat then st_raise AssertionError else st_ret (unregistered ++ [cls]).

(** The wrappers of the bases.  A base that is not registered has to be among the classes
    to come. *)
Fixpoint find_bases (l : list decl) (unregistered : list decl) : ST parser (verdict (list W)) :=
  match l with
  | [] => st_ret (Proceed [])
  | b :: l' =>
      w <- st_get (registered b) ;;
      match w with
      | None => if bool_decide (b ∈ unregistered) then st_ret Postpone else st_ret Skip
      | Some w =>
          rest <- find_bases l' unregistered ;;
          st_ret match rest with Proceed ws => Proceed (w :: ws) | v => v end
      end
  end.

(** A casting operator to a class: the name of the class *)
Definition conversion_target (op : decl) : option (res string) :=
  match declared (return_type op) with
  | Some d => if is_class d then Some (normalize_class_name (type_decl_string (return_type op)) "::") else None
  | None => None
  end.

Fixpoint map_res {A B} (f : A -> res B) (l : list A) : res (list B) :=
  match l with
  | [] => Ok []
  | a :: l' => b <-? f a ;; bs <-? map_res f l' ;; Ok (b :: bs)
  end.
Definition class_names (l : list decl) : res (list string) :=
  map_res (fun d => normalize_class_name (partial_decl_string d) "::") l.

(** The first class the operators convert to that is not registered decides: it has to be
    waited for if it is among the classes to come. *)
Fixpoint conversions_ready (l : list decl) (unregistered : list decl) : ST parser bool :=
  match l with
  | [] => st_ret true
  | op :: l' =>
      match conversion_target op with
      | None => conversions_ready l' unregistered
      | Some name =>
          name <- st_lift name ;;
          w <- st_get (fun p => root_module_get (ps_module p) name) ;;
          match w with
          | Some _ => conversions_ready l' unregistered
          | None => names <- st_lift (class_names unregistered) ;;
                    st_ret (negb (bool_decide (name ∈ names)))
          end
      end
  end.

(** The name a class gets: that of its typedef, of its template or its own *)
Record class_naming : Type := ClassNaming {
  cn_name : string;
  cn_alias : option string;
  cn_template_parameters : list string;
  cn_custom_name : option string
}.

Definition typedef_of (ns cls : decl) : option decl :=
  if str_in "<" (decl_name cls)
  then List.find (fun t => bool_decide (declared (decl_type t) = Some cls)) (located cfg (typedefs ns))
  else None.

Definition name_class (module : nat) (ns cls : decl) (anns : annotations) : ST parser class_naming :=
  match typedef_of ns cls with
  | Some typedef =>
      prefix <- st_get (fun p => cpp_namespace_prefix (ps_module p) module) ;;
      st_ret (ClassNaming (decl_name typedef) (Some (prefix +:+ "::" +:+ decl_name cls)) [] None)
  | None =>
      if is_instantiation (decl_string cls) then
        let params := template_args (decl_name cls) in
        st_assert (negb (bool_decide (params = []))) ;;;
        custom <- st_lift (template_instance_name anns params) ;;
        st_ret (ClassNaming (List.last (split_colons (template_name (decl_name cls))) EmptyString) None params custom)
      else st_ret (ClassNaming (decl_name cls) None [] None)
  end.

(** A template whose argument is a class nested in another and not public *)
Definition private_argument (d : decl) : bool :=
  is_class d &&
  match decl_parent d with
  | Some parent => is_class parent && negb (String.eqb (member_access_type parent d) "public")
  | None => false
  end.

Definition class_kwargs (parents : list W) (outer : option W) (n : class_naming)
    (kwargs : gmap string (kwarg W)) : gmap string (kwarg W) :=
  let kwargs := match parents with
                | [] => kwargs
                | [w] => <["parent" := TypeWrapper w]> kwargs
                | _ => <["parent" := TypeWrappers parents]> kwargs
                end in
  let kwargs := match outer with Some w => <["outer_class" := TypeWrapper w]> kwargs | None => kwargs end in
  let kwargs := match cn_template_parameters n with
                | [] => kwargs
                | params => <["template_parameters" := Value (PyList params)]> kwargs
                end in
  match cn_custom_name n with
  | Some (String _ _ as name) => <["custom_name" := Value (PyStr name)]> kwargs
  | _ => kwargs
  end.

(** The sink with the highest precedence, as the last element of a sorted list *)
Definition sink_key_le (a b : Z * option nat) : bool :=
  (a.1 <? b.1) ||
  ((a.1 =? b.1) && match a.2, b.2 with
                   | None, _ => true
                   | Some _, None => false
                   | Some x, Some y => sink_rank x <=? sink_rank y
                   end).
Definition last_sink (first : Z * option nat) (l : list (Z * option nat)) : option nat :=
  (fold_left (fun best x => if sink_key_le best x then x else best) l first).2.
Definition class_sink_of (cls : decl) (arguments : list (option decl)) : res (option nat) :=
  let prec d := get_pygen_sink_with_precedence (pc_target cfg) (pc_classifier cfg) (Some d) in
  first <-? prec cls ;;
  rest <-? map_res prec (omap (fun d => d) arguments) ;;
  Ok (last_sink first rest).

Definition class_line_text (names : W -> string) (method name : string) (kwargs : gmap string (kwarg W)) : string :=
  "module." +:+ method +:+ "(" +:+ join ", " (py_repr name :: pygen_kwargs names kwargs) +:+ ")".

(** A class is known by its declaration from now on: first under its declaration, then in
    the list of classes in order of registration. *)
Definition remember_class (cls : decl) (w : W) : ST parser unit :=
  st_modify (fun p => set_classes ((cls, w) :: ps_registered_classes p) (ps_ordered_classes p) p).
Definition class_registered (cls : decl) (w : W) : ST parser unit :=
  st_modify (fun p => set_classes (ps_registered_classes p) (ps_ordered_classes p ++ [(w, cls)]) p).
Definition register_alias_of (w : W) (alias : string) : ST parser unit :=
  name <- st_lift (normalize_type_string alias) ;; on_module (register_alias w name).

(** The script and the module get the class. *)
Definition add_class_wrapper (module : nat) (cls : decl) (name : string) (is_exception : bool)
    (anns : annotations) (sink : option nat) (kwargs : gmap string (kwarg W)) : ST parser W :=
  names <- full_names ;;
  with_sink sink (fun k =>
    write_comment anns k ;;;
    write_line (class_line_text names (if is_exception then "add_exception" else "add_class") name kwargs) k) ;;;
  request_containers (public_members cls) ;;;
  on_module (if is_exception then add_exception module name kwargs else add_class module name kwargs).

(** The implicit conversions of a class, once it is registered *)
Definition add_conversion (w : W) (anns : annotations) (sink : option nat) (op : decl) : ST parser unit :=
  match conversion_target op with
  | None => st_ret tt
  | Some name =>
      name <- st_lift name ;;
      other <- st_get (fun p => root_module_get (ps_module p) name) ;;
      match other with
      | None => st_ret tt
      | Some other =>
          on_module (implicitly_converts_to w other) ;;;
          names <- full_names ;;
          with_sink sink (fun k =>
            write_comment anns k ;;;
            write_line (root_module_item names w +:+ ".implicitly_converts_to("
                        +:+ root_module_item names other +:+ ")") k)
      end
  end.

Section class_loop.
(** The scan of what is nested in a class *)
Context (scan_nested : W -> decl -> ST parser unit) (module : nat) (ns : decl) (scope : scan_scope).

(** A class whose bases are registered: its wrapper and everything that depends on it *)
Definition register_class (cls : decl) (anns : all_annotations) (parents : list W) : ST parser unit :=
  ann <- st_lift (apply_class_annotations cls anns.1) ;;
  naming <- name_class module ns cls anns.1 ;;
  let arguments := map find_declaration_from_name (cn_template_parameters naming) in
  if existsb private_argument (omap (fun d => d) arguments) then st_ret tt
  else
    let kwargs := class_kwargs parents (outer_class_of scope) naming ann.1 in
    sink <- st_lift (class_sink_of cls arguments) ;;
    w <- add_class_wrapper module cls (cn_name naming) ann.2 anns.1 sink kwargs ;;
    remember_class cls w ;;;
    st_when (truthy (cn_alias naming)) (register_alias_of w (str_opt (cn_alias naming))) ;;;
    class_registered cls w ;;;
    run_post_scan_hooks cfg cls (ScannedType w) ;;;
    scan_nested w cls ;;;
    st_iter (add_conversion w anns.1 sink) (casting_operators cls).

(** One round of the loop, on the classes that are still to come *)
Definition class_round (cls : decl) (unregistered : list decl) : ST parser (list decl) :=
  anns <- annotations_of cfg cls ;;
  if bool_decide (is_Some (anns.1 !! "ignore")) then st_ret unregistered
  else if String.eqb (decl_name cls) EmptyString then
    match scope with
    | NamespaceScope _ => st_ret unregistered
    | ClassScope w _ =>
        st_modify (fun p => set_anonymous_structs (ps_anonymous_structs p ++ [(cls, w)]) p) ;;;
        st_ret unregistered
    end
  else
    found <- find_bases (bases cls) unregistered ;;
    match found with
    | Skip => st_ret unregistered
    | Postpone => postpone_class cls unregistered
    | Proceed parents =>
        ready <- conversions_ready (casting_operators cls) unregistered ;;
        if negb ready then postpone_class cls unregistered
        else register_class cls anns parents ;;; st_ret unregistered
    end.

Fixpoint class_loop (fuel : nat) (unregistered : list decl) : ST parser unit :=
  match unregistered with
  | [] => st_ret tt
  | cls :: rest =>
      match fuel with
      | O => st_raise OutOfFuel
      | S fuel' => unregistered <- class_round cls rest ;; class_loop fuel' unregistered
      end
  end.

(** Every class is looked at once, and once more for each of the at most nine times it is
    postponed without an error. *)
Definition class_loop_fuel (l : list decl) : nat := 11 * length l.

Definition classes_to_register : list decl :=
  let l := scope_decls classes ns scope in
  sort_decls decl_le
    match scope with NamespaceScope _ => public_names l | ClassScope _ _ => l end.
End class_loop.

(** ** Typedefs *)

Definition type_alias_line (from_ to_ : string) : string :=
  "typehandlers.add_type_alias(" +:+ py_repr from_ +:+ ", " +:+ py_repr to_ +:+ ")".
Definition scan_type_alias (alias : decl) (from_ to_ sym : string) : ST parser unit :=
  on_module (add_type_alias (from_ +:+ sym) (to_ +:+ sym)) ;;;
  sink <- pygen_sink_for cfg (Some alias) ;;
  with_sink sink (write_line (type_alias_line (from_ +:+ sym) (to_ +:+ sym))).

(** [typedef struct _Foo Foo] of a structure that is only declared *)
Definition scan_forward_class (module : nat) (alias cls : decl) : ST parser unit :=
  anns <- annotations_of cfg cls ;;
  if bool_decide (is_Some (anns.1 !! "ignore")) then st_ret tt
  else
    ann <- st_lift (apply_class_annotations cls anns.1) ;;
    let kwargs := setdefault "allow_subclassing" (PyBool false)
      (setdefault "automatic_type_narrowing" (PyBool false)
        (setdefault "incomplete_type" (PyBool true) ann.1)) in
    sink <- pygen_sink_for cfg (Some cls) ;;
    names <- full_names ;;
    with_sink sink (fun k =>
      write_comment anns.1 k ;;;
      write_line (class_line_text names "add_class" (decl_name alias) kwargs) k) ;;;
    w <- on_module (add_class module (decl_name alias) kwargs) ;;
    remember_class cls w ;;;
    st_when (negb (String.eqb (decl_name cls) (decl_name alias))) (register_alias_of w (decl_name cls)) ;;;
    class_registered cls w.

(** [typedef ClassName OtherName], whose class has to be registered *)
Definition scan_class_typedef (module : nat) (alias cls : decl) : ST parser unit :=
  w <- st_get (registered cls) ;;
  match w with
  | None => st_raise KeyError
  | Some w =>
      on_module (add_typedef module w (decl_name alias)) ;;;
      sink <- pygen_sink_for cfg (Some cls) ;;
      names <- full_names ;;
      with_sink sink (write_line
        ("module.add_typedef(" +:+ root_module_item names w +:+ ", " +:+ py_repr (decl_name alias) +:+ ")"))
  end.

Definition scan_typedef (module : nat) (alias : decl) : ST parser unit :=
  from_ <- st_lift (normalize_type_string (type_str (decl_type alias))) ;;
  prefix <- st_get (fun p => cpp_namespace_prefix (ps_module p) module) ;;
  to_ <- st_lift (normalize_type_string (prefix +:+ "::" +:+ decl_name alias)) ;;
  st_iter (scan_type_alias alias from_ to_) [EmptyString; "*"; "&"] ;;;
  match declaration_of (decl_type alias) with
  | None => st_ret tt
  | Some cls =>
      if is_instantiation (decl_string cls) then st_ret tt
      else match decl_kind_of cls with
           | ClassForward => scan_forward_class module alias cls
           | ClassDef => scan_class_typedef module alias cls
           | _ => st_ret tt
           end
  end.

(** ** A namespace *)

Definition types_function (path : list string) : string := "register_types_" +:+ join "_" path.

(** The start of the function of a namespace *)
Definition types_header (register_function : string) (k : nat) : ST (list code_sink) unit :=
  sink_writeln ("def " +:+ register_function +:+ "(module):") k ;;;
  sink_indent k ;;;
  sink_writeln "root_module = module.get_root()" k ;;;
  sink_writeln EmptyString k ;;;
  st_when (String.eqb register_function "register_types")
    (st_iter (section_call "register_types" "module" k) (other_sections (pc_target cfg) k)).

(** A nested namespace becomes a submodule; [init_function] registers its types. *)
Definition nested_lines (name init_function : string) : list string :=
  [EmptyString; "## Register a nested module for the namespace " +:+ name; EmptyString;
   "nested_module = module.add_cpp_namespace(" +:+ py_repr name +:+ ")";
   init_function +:+ "(nested_module)"; EmptyString].
Definition nested_path (module : nat) : ST parser string :=
  path <- st_get (fun p => namespace_path (ps_module p) module) ;; st_ret (types_function path).
Definition add_nested_module (module : nat) (nested : decl) : ST parser nat :=
  m <- on_module (add_cpp_namespace module (decl_name nested)) ;;
  init_function <- nested_path m ;;
  on_all_sinks cfg (fun k =>
    st_iter (fun line => sink_writeln line k) (nested_lines (decl_name nested) init_function)) ;;;
  st_ret m.
Fixpoint add_nested_modules (module : nat) (l : list decl) : ST parser (list (nat * decl)) :=
  match l with
  | [] => st_ret []
  | nested :: l' =>
      m <- add_nested_module module nested ;;
      rest <- add_nested_modules module l' ;;
      st_ret ((m, nested) :: rest)
  end.

Definition end_types_function : ST parser unit :=
  on_all_sinks cfg (fun k => sink_unindent k ;;; sink_writeln EmptyString k).

(** [_scan_namespace_types].  The fuel bounds the nesting of classes and of namespaces. *)
Fixpoint scan_namespace_types (fuel : nat) (module : nat) (ns : decl) (scope : scan_scope) : ST parser unit :=
  match fuel with
  | O => st_raise OutOfFuel
  | S fuel' =>
      match scope with
      | NamespaceScope function => on_all_sinks cfg (types_header function)
      | ClassScope _ _ => st_ret tt
      end ;;;
      request_containers (located cfg (free_functions ns)) ;;;
      st_iter (scan_enum module (outer_class_of scope)) (scope_decls enums ns scope) ;;;
      let l := classes_to_register ns scope in
      class_loop (fun w cls => scan_namespace_types fuel' module ns (ClassScope w cls)) module ns scope
        (class_loop_fuel l) l ;;;
      match scope with
      | ClassScope _ _ => st_ret tt
      | NamespaceScope _ =>
          register_containers module ;;;
          st_iter (scan_typedef module) (located cfg (typedefs ns)) ;;;
          nested <- add_nested_modules module (nested_namespaces ns) ;;
          end_types_function ;;;
          st_iter (fun x =>
            function <- nested_path x.1 ;;
            scan_namespace_types fuel' x.1 x.2 (NamespaceScope function)) nested
      end
  end.

(** [scan_types] *)
Definition scan_types (fuel : nat) (module : nat) (ns : decl) : ST parser unit :=
  st_modify (fun p => set_classes [] (ps_ordered_classes p) p) ;;;
  scan_namespace_types fuel module ns (NamespaceScope "register_types") ;;;
  st_modify set_types_scanned.
End types.

(** ** What scanning types changes *)

Section types_frame.
Context {gccxml : Gccxml} {W F R P M : Type} {ops : WrapOps W F R P M}.
Context (cfg : parser_config (W:=W) (F:=F) (M:=M)) {dict_order : DictOrder} (sink_rank : nat -> Z).
Local Abbreviation parser := (parser (W:=W) (M:=M)).

(** Registered classes come after their bases: [l] was registered on top of [earlier]. *)
Fixpoint bases_first (l earlier : list (decl * W)) : Prop :=
  match l with
  | [] => True
  | (d, _) :: l' =>
      (is_class d = true -> forall b, b ∈ bases d -> exists w, (b, w) ∈ l' ++ earlier)
      /\ bases_first l' earlier
  end.

Lemma bases_first_app l1 l2 earlier :
  bases_first l1 (l2 ++ earlier) -> bases_first l2 earlier -> bases_first (l1 ++ l2) earlier.
Proof.
  induction l1 as [|[d w] l1 IH]; [done|]. intros [H1 H2] H. split; [|by apply IH].
  intros Hd b Hb. destruct (H1 Hd b Hb) as [w' Hw]. exists w'. by rewrite <- app_assoc.
Qed.

(** The scan writes, postpones classes and registers classes after their bases, whatever
    the module does and however the scan ends. *)
Definition registers (p p' : parser) : Prop :=
  (exists l, ps_registered_classes p' = l ++ ps_registered_classes p
             /\ bases_first l (ps_registered_classes p))
  /\ exists l, ps_postponed p' = l ++ ps_postponed p.

#[export] Instance registers_preorder : PreOrder registers.
Proof.
  split.
  - intros p. split; by exists [].
  - intros p1 p2 p3 [(l1&E1&B1) (q1&Q1)] [(l2&E2&B2) (q2&Q2)]. split.
    + exists (l2 ++ l1). rewrite E2, E1, <- app_assoc. split; [done|].
      apply bases_first_app; [by rewrite <- E1|done].
    + exists (q2 ++ q1). by rewrite Q2, Q1, app_assoc.
Qed.
Definition registers_writing (p p' : parser) : Prop :=
  registers p p' /\ wrote (ps_sinks p) (ps_sinks p').
#[export] Instance registers_writing_preorder : PreOrder registers_writing.
Proof.
  split; [by intros p; split; reflexivity|]. intros p1 p2 p3 [R1 W1] [R2 W2].
  split; [by transitivity p2 | by transitivity (ps_sinks p2)].
Qed.

(** Computations that leave the classes of the parser alone *)
Lemma registers_same (p p' : parser) :
  ps_registered_classes p' = ps_registered_classes p -> ps_postponed p' = ps_postponed p ->
  registers p p'.
Proof. intros E Q. split; exists []; by rewrite ?E, ?Q. Qed.

Lemma scans_on_module {A} (c : ST M A) : evolves registers_writing (on_module (W:=W) c).
Proof.
  intros p. unfold on_module. destruct (c (ps_module p)) as [m r].
  split; [by apply registers_same|reflexivity].
Qed.
Lemma scans_on_scanner {A} (c : ST scanner A) : evolves registers_writing (on_scanner (W:=W) (M:=M) c).
Proof.
  intros p. unfold on_scanner. destruct (c (ps_scanner p)) as [m r].
  split; [by apply registers_same|reflexivity].
Qed.
Lemma scans_write_line line k : evolves registers_writing (write_line (W:=W) (M:=M) line k).
Proof.
  intros p. unfold write_line, on_sinks. pose proof (wrote_writeln line k (ps_sinks p)) as H.
  destruct (sink_writeln line k (ps_sinks p)) as [s r]. split; [by apply registers_same|exact H].
Qed.
Lemma scans_modify (f : parser -> parser) :
  (forall p, ps_registered_classes (f p) = ps_registered_classes p /\ ps_postponed (f p) = ps_postponed p
             /\ ps_sinks (f p) = ps_sinks p) ->
  evolves registers_writing (st_modify f).
Proof.
  intros H p. destruct (H p) as (R1&Q1&S1). cbn. split; [by apply registers_same|].
  rewrite S1. reflexivity.
Qed.
Hint Resolve scans_on_module scans_on_scanner scans_write_line : st.
Hint Extern 2 (evolves registers_writing (st_modify _)) => apply scans_modify; intros; done : st.

Lemma scans_annotations d : evolves registers_writing (annotations_of cfg d).
Proof. unfold annotations_of, scanned_annotations. parser_steps. Qed.
Lemma scans_try_new {A} (c : ST M A) : evolves registers_writing (try_new (W:=W) c).
Proof. unfold try_new. parser_steps. Qed.
Lemma scans_post_hooks d w : evolves registers_writing (run_post_scan_hooks cfg d w).
Proof. unfold run_post_scan_hooks. parser_steps. Qed.
Hint Resolve scans_annotations scans_try_new scans_post_hooks : st.
Ltac scans := unfold with_sink, pygen_sink_for, full_names, write_comment; parser_steps.

Lemma scans_request l : evolves registers_writing (request_containers (W:=W) (M:=M) l).
Proof. unfold request_containers, request_container. cbn zeta. scans. Qed.
Lemma scans_container module c : evolves registers_writing (register_container cfg module c).
Proof. unfold register_container, container_values. cbn zeta. scans. Qed.
Lemma scans_containers module : evolves registers_writing (register_containers cfg module).
Proof. unfold register_containers. scans. apply scans_container. Qed.
Lemma scans_enum module outer e : evolves registers_writing (scan_enum cfg module outer e).
Proof. unfold scan_enum. scans. Qed.
Lemma scans_find_bases l u : evolves registers_writing (find_bases (W:=W) (M:=M) l u).
Proof. induction l as [|b l IH]; cbn [find_bases]; scans. Qed.
Lemma scans_conversions l u : evolves registers_writing (conversions_ready (W:=W) (M:=M) l u).
Proof. induction l as [|op l IH]; cbn [conversions_ready]; scans. Qed.
Lemma scans_name_class module ns cls anns :
  evolves registers_writing (name_class (W:=W) (M:=M) cfg module ns cls anns).
Proof. unfold name_class. cbn zeta. scans. Qed.
Lemma scans_alias w alias : evolves registers_writing (register_alias_of w alias).
Proof. unfold register_alias_of. scans. Qed.
Lemma scans_class_registered cls w : evolves registers_writing (class_registered (M:=M) cls w).
Proof. unfold class_registered. scans. Qed.
Hint Resolve scans_request scans_find_bases scans_conversions scans_name_class scans_alias
  scans_class_registered scans_containers scans_enum : st.
Lemma scans_add_class module cls name e anns sink kwargs :
  evolves registers_writing (add_class_wrapper module cls name e anns sink kwargs).
Proof. unfold add_class_wrapper. scans. Qed.
Lemma scans_conversion w anns sink op : evolves registers_writing (add_conversion w anns sink op).
Proof. unfold add_conversion. scans. Qed.
Hint Resolve scans_add_class scans_conversion : st.

Lemma scans_postpone cls u : evolves registers_writing (postpone_class (W:=W) (M:=M) cls u).
Proof.
  unfold postpone_class. apply evolves_bind; [apply _| |intros _; parser_steps].
  intros p. cbn. split; [|reflexivity]. split; [by exists []|by exists [cls]].
Qed.

(** The bases of a class are registered. *)
Definition bases_known (cls : decl) (p : parser) : Prop :=
  forall b, b ∈ bases cls -> exists w, (b, w) ∈ ps_registered_classes p.
Lemma bases_known_mono cls p p' : registers_writing p p' -> bases_known cls p -> bases_known cls p'.
Proof.
  intros [[(l&E&_) _] _] H b Hb. destruct (H b Hb) as [w Hw]. exists w. rewrite E.
  apply elem_of_app. by right.
Qed.
Lemma registered_in d (p : parser) w : registered d p = Some w -> exists w', (d, w') ∈ ps_registered_classes p.
Proof.
  unfold registered. destruct (List.find _ _) as [[d' w']|] eqn:E; [|done]. intros [= ->].
  apply List.find_some in E as [Hin Hd]. cbn in Hd. apply bool_decide_eq_true in Hd as ->.
  exists w. by apply list_elem_of_In.
Qed.
Lemma find_bases_known l u : forall (p p' : parser) ws,
  find_bases l u p = (p', Ok (Proceed ws)) ->
  p' = p /\ forall b, b ∈ l -> exists w, (b, w) ∈ ps_registered_classes p.
Proof.
  induction l as [|b l IH]; intros p p' ws; cbn [find_bases].
  - intros [= <- _]. split; [done|]. by intros b ?%not_elem_of_nil.
  - unfold st_bind at 1, st_get at 1. destruct (registered b p) as [w|] eqn:E.
    + intros (p1&v&E1&E2)%st_bind_Ok. injection E2 as <- Ev. destruct v as [ws'| |]; try done.
      destruct (IH _ _ _ E1) as [-> H]. split; [done|].
      intros b' [->|Hb']%elem_of_cons; [by eapply registered_in|by apply H].
    + by case_bool_decide.
Qed.

(** [m] follows [registers_writing] from every state with the bases of [cls]. *)
Definition evolves_known {A} (cls : decl) (m : ST parser A) : Prop :=
  forall p, bases_known cls p -> registers_writing p (m p).1.
Lemma known_evolves {A} cls (m : ST parser A) : evolves registers_writing m -> evolves_known cls m.
Proof. intros H p _. apply H. Qed.
Lemma known_bind {A B} cls (m : ST parser A) (k : A -> ST parser B) :
  evolves_known cls m -> (forall a, evolves_known cls (k a)) -> evolves_known cls (st_bind m k).
Proof.
  intros Hm Hk p Hp. unfold st_bind. specialize (Hm p Hp). destruct (m p) as [p1 [a|e]]; [|done].
  transitivity p1; [done|]. apply Hk. by eapply bases_known_mono.
Qed.
Lemma known_if {A} cls (b : bool) (m1 m2 : ST parser A) :
  evolves_known cls m1 -> evolves_known cls m2 -> evolves_known cls (if b then m1 else m2).
Proof. by destruct b. Qed.
Lemma known_remember cls w : evolves_known cls (remember_class (M:=M) cls w).
Proof.
  intros p Hp. cbn. split; [|reflexivity]. split; [|by exists []]. exists [(cls, w)].
  split; [done|]. split; [|done]. intros _ b Hb. destruct (Hp b Hb) as [w' Hw]. by exists w'.
Qed.

(** ** The loop over the classes *)

Section loop_frame.
Context (scan_nested : W -> decl -> ST parser unit) (module : nat) (ns : decl) (scope : scan_scope (W:=W)).
Hypothesis nested_registers : forall w cls, evolves registers_writing (scan_nested w cls).

Lemma scans_register_class cls anns parents :
  evolves_known cls (register_class cfg sink_rank scan_nested module ns scope cls anns parents).
Proof.
  unfold register_class.
  apply known_bind; [apply known_evolves; parser_steps|intros ann].
  apply known_bind; [apply known_evolves; parser_steps|intros naming]. cbn zeta.
  apply known_if; [apply known_evolves; parser_steps|].
  apply known_bind; [apply known_evolves; parser_steps|intros sink].
  apply known_bind; [apply known_evolves; parser_steps|intros w].
  apply known_bind; [apply known_remember|intros _].
  apply known_evolves. parser_steps.
Qed.

Lemma scans_class_round cls u :
  evolves registers_writing (class_round cfg sink_rank scan_nested module ns scope cls u).
Proof.
  unfold class_round. apply evolves_bind; [apply _|parser_steps|intros anns].
  apply evolves_if; [parser_steps|]. apply evolves_if.
  { destruct scope; parser_steps. }
  intros p. unfold st_bind at 1. pose proof (scans_find_bases (bases cls) u p) as Hf.
  destruct (find_bases (bases cls) u p) as [p1 [v|e]] eqn:E; [|exact Hf].
  transitivity p1; [exact Hf|]. destruct v as [ws| |]; [|reflexivity|apply scans_postpone].
  apply find_bases_known in E as [-> Hb]. pose proof (scans_conversions (casting_operators cls) u p) as Hc.
  unfold st_bind at 1. destruct (conversions_ready _ _ p) as [p2 [[]|e]]; [| |exact Hc].
  - cbn [negb]. unfold st_bind.
    pose proof (scans_register_class cls anns ws p2 (bases_known_mono _ _ _ Hc Hb)) as Hr.
    destruct (register_class _ _ _ _ _ _ _ _ _ p2) as [p3 [[]|e]]; by transitivity p2.
  - transitivity p2; [exact Hc|]. cbn [negb]. apply scans_postpone.
Qed.

Lemma scans_class_loop fuel : forall u,
  evolves registers_writing (class_loop cfg sink_rank scan_nested module ns scope fuel u).
Proof.
  induction fuel as [|fuel IH]; intros [|cls u]; cbn [class_loop]; [parser_steps..|].
  apply evolves_bind; [apply _|apply scans_class_round|intros u'; apply IH].
Qed.
End loop_frame.

(** ** Namespaces *)

Lemma scans_class_scope fuel : forall module ns w cls,
  evolves registers_writing (scan_namespace_types cfg sink_rank fuel module ns (ClassScope w cls)).
Proof.
  induction fuel as [|fuel IH]; intros module ns w cls; cbn [scan_namespace_types]; [parser_steps|].
  cbn zeta. do 3 (apply evolves_bind; [apply _|parser_steps|intros _]).
  apply evolves_bind; [apply _| |intros _; parser_steps]. apply scans_class_loop. intros. apply IH.
Qed.

Lemma scans_forward_class module alias cls :
  evolves registers_writing (scan_forward_class cfg module alias cls)
  \/ is_class cls = true.
Proof.
  destruct (is_class cls) eqn:Hc; [by right|left]. unfold scan_forward_class, remember_class. cbn zeta.
  apply evolves_bind; [apply _|parser_steps|intros anns]. apply evolves_if; [parser_steps|].
  do 5 (apply evolves_bind; [apply _|scans|intros ?]).
  apply evolves_bind; [apply _| |intros _; scans].
  intros p. cbn. split; [|reflexivity]. split; [|by exists []]. exists [(cls, a3)].
  split; [done|]. split; [|done]. by rewrite Hc.
Qed.
Lemma scans_typedef module alias : evolves registers_writing (scan_typedef cfg module alias).
Proof.
  unfold scan_typedef. do 3 (apply evolves_bind; [apply _|scans|intros ?]).
  apply evolves_bind; [apply _|unfold scan_type_alias; scans|intros _].
  destruct (declaration_of _) as [cls|]; [|scans]. apply evolves_if; [scans|].
  destruct (scans_forward_class module alias cls) as [H|H].
  - destruct (decl_kind_of cls); try scans. unfold scan_class_typedef. scans.
  - unfold is_class in H. destruct (decl_kind_of cls); try done. unfold scan_class_typedef. scans.
Qed.

(** Only the classes matter for what follows. *)
Lemma registers_all_sinks body : evolves registers (on_all_sinks (W:=W) (M:=M) cfg body).
Proof.
  unfold on_all_sinks. apply evolves_iter; [apply _|intros k p]. unfold on_sinks.
  destruct (body k (ps_sinks p)). by apply registers_same.
Qed.
Lemma registers_weaken {A} (m : ST parser A) : evolves registers_writing m -> evolves registers m.
Proof. intros H p. apply H. Qed.
Hint Resolve registers_all_sinks : st.

Lemma registers_add_nested module l : evolves registers (add_nested_modules (W:=W) cfg module l).
Proof.
  induction l as [|d l IH]; cbn [add_nested_modules]; [parser_steps|].
  apply evolves_bind; [apply _| |intros m; parser_steps]. unfold add_nested_module, nested_path.
  apply evolves_bind; [apply _|apply registers_weaken; parser_steps|intros m]. parser_steps.
Qed.
Hint Resolve registers_add_nested : st.

Lemma registers_scan_types fuel : forall module ns scope,
  evolves registers (scan_namespace_types cfg sink_rank fuel module ns scope).
Proof.
  induction fuel as [|fuel IH]; intros module ns scope; cbn [scan_namespace_types]; [parser_steps|].
  cbn zeta. apply evolves_bind; [apply _|destruct scope; parser_steps|intros _].
  apply evolves_bind; [apply _|apply registers_weaken; parser_steps|intros _].
  apply evolves_bind; [apply _|apply registers_weaken; parser_steps|intros _].
  apply evolves_bind; [apply _| |intros _].
  { apply registers_weaken, scans_class_loop. intros. apply scans_class_scope. }
  destruct scope as [function|w cls]; [|parser_steps].
  apply evolves_bind; [apply _|apply registers_weaken; parser_steps|intros _].
  apply evolves_bind; [apply _|apply registers_weaken, evolves_iter; [apply _|apply scans_typedef]|intros _].
  unfold end_types_function, nested_path. parser_steps.
Qed.

(** Classes are registered after their bases.  However [scan_types] ends, and
    whatever the module, the annotations and the hooks do, every class that was
    registered has all its bases registered before it. *)
Theorem scan_types_bases_first (fuel module : nat) (ns : decl) (p : parser) :
  bases_first (ps_registered_classes (scan_types cfg sink_rank fuel module ns p).1) [].
Proof.
  unfold scan_types, st_bind at 1, st_modify at 1.
  set (p0 := set_classes [] (ps_ordered_classes p) p).
  pose proof (registers_scan_types fuel module ns (NamespaceScope "register_types") p0) as [(l&E&B) _].
  unfold st_bind. destruct (scan_namespace_types _ _ _ _ _ _ p0) as [p1 [[]|e]]; cbn in *;
    rewrite E, app_nil_r; exact B.
Qed.
End types_frame.

(** ** Termination *)

Section termination.
Context {gccxml : Gccxml} {W F R P M : Type} {ops : WrapOps W F R P M}.
Context (cfg : parser_config (W:=W) (F:=F) (M:=M)) {dict_order : DictOrder} (sink_rank : nat -> Z).
Local Abbreviation parser := (parser (W:=W) (M:=M)).

(** How often a class may still be looked at *)
Definition rounds_left (p : parser) (d : decl) : nat := S (10 - postpone_count d p).
Definition all_rounds (p : parser) (l : list decl) : nat := list_sum (map (rounds_left p) l).

Lemma count_mono d (p p' : parser) :
  registers_writing p p' -> (postpone_count d p <= postpone_count d p')%nat.
Proof.
  intros [[_ (l&E)] _]. unfold postpone_count. rewrite E, List.filter_app, length_app. lia.
Qed.
Lemma all_rounds_cons (p : parser) d l : all_rounds p (d :: l) = (rounds_left p d + all_rounds p l)%nat.
Proof. done. Qed.
Lemma rounds_mono (p p' : parser) l : registers_writing p p' -> (all_rounds p' l <= all_rounds p l)%nat.
Proof.
  intros H. induction l as [|d l IH]; [done|]. rewrite !all_rounds_cons.
  pose proof (count_mono d _ _ H). unfold rounds_left. lia.
Qed.
Lemma rounds_bound (p : parser) l : (all_rounds p l <= 11 * length l)%nat.
Proof.
  induction l as [|d l IH]; [done|]. rewrite all_rounds_cons. cbn [length]. unfold rounds_left. lia.
Qed.

Section rounds.
Context (scan_nested : W -> decl -> ST parser unit) (module : nat) (ns : decl) (scope : scan_scope (W:=W)).
Hypothesis nested_registers : forall w cls, evolves registers_writing (scan_nested w cls).

(** A postponed class has used up one of its rounds. *)
Lemma postpone_uses cls u (p p' : parser) u' :
  postpone_class cls u p = (p', Ok u') ->
  u' = u ++ [cls] /\ postpone_count cls p' = S (postpone_count cls p) /\ (postpone_count cls p' < 10)%nat.
Proof.
  unfold postpone_class, st_bind, st_modify, st_get.
  destruct (Nat.leb_spec 10 (postpone_count cls (set_postponed (cls :: ps_postponed p) p))) as [H|H]; [done|].
  intros [= <- <-]. split; [done|]. split; [|done].
  unfold postpone_count. cbn. by rewrite bool_decide_true by done.
Qed.

Lemma class_round_uses cls u (p p' : parser) u' :
  class_round cfg sink_rank scan_nested module ns scope cls u p = (p', Ok u') ->
  (all_rounds p' u' < all_rounds p (cls :: u))%nat /\ forall d, d ∈ u' -> d ∈ cls :: u.
Proof.
  intros E. pose proof (scans_class_round cfg sink_rank scan_nested module ns scope nested_registers cls u p) as Hr.
  rewrite E in Hr. cbn [fst] in Hr.
  assert (u' = u \/ exists p1, registers_writing p p1 /\ postpone_class cls u p1 = (p', Ok u')) as [->|(p1&Hp1&Hu)].
  { unfold class_round in E. apply st_bind_Ok in E as (p1&anns&E1&E).
    pose proof (scans_annotations cfg cls p) as H1. rewrite E1 in H1. cbn [fst] in H1.
    destruct (bool_decide _); [left; by injection E|].
    destruct (String.eqb _ _).
    { destruct scope; [left; by injection E|]. apply st_bind_Ok in E as (?&?&_&E). left. by injection E. }
    apply st_bind_Ok in E as (p2&v&E2&E).
    pose proof (scans_find_bases (bases cls) u p1) as H2. rewrite E2 in H2. cbn [fst] in H2.
    destruct v as [ws| |]; [|left; by injection E|right; exists p2; split; [by transitivity p1|done]].
    apply st_bind_Ok in E as (p3&ready&E3&E).
    pose proof (scans_conversions (casting_operators cls) u p2) as H3. rewrite E3 in H3. cbn [fst] in H3.
    destruct ready; cbn [negb] in E.
    - apply st_bind_Ok in E as (?&?&_&E). left. by injection E.
    - right. exists p3. split; [|done]. transitivity p1; [done|]. by transitivity p2. }
  - pose proof (rounds_mono _ _ u Hr). split; [|intros d Hd; by right].
    rewrite all_rounds_cons. unfold rounds_left. lia.
  - apply postpone_uses in Hu as (->&Hc&Hlt). pose proof (count_mono cls _ _ Hp1) as Hm.
    pose proof (rounds_mono _ _ u Hr) as Hu. split.
    + assert (all_rounds p' (u ++ [cls]) = (all_rounds p' u + rounds_left p' cls)%nat) as ->.
      { unfold all_rounds. rewrite map_app, list_sum_app.
        change (list_sum (map (rounds_left p') [cls])) with (rounds_left p' cls + 0)%nat. lia. }
      rewrite all_rounds_cons. unfold rounds_left. lia.
    + intros d [Hd| ->%list_elem_of_singleton]%elem_of_app; [by right|by left].
Qed.

(** The loop looks at each class at most eleven times, so that more fuel changes nothing. *)
Lemma class_loop_enough fuel : forall fuel' u (p : parser),
  (all_rounds p u <= fuel)%nat -> (all_rounds p u <= fuel')%nat ->
  class_loop cfg sink_rank scan_nested module ns scope fuel u p
  = class_loop cfg sink_rank scan_nested module ns scope fuel' u p.
Proof.
  assert (forall (p : parser) d l, (1 <= all_rounds p (d :: l))%nat) as Hpos
    by (intros p d l; rewrite all_rounds_cons; unfold rounds_left; lia).
  induction fuel as [|fuel IH]; intros fuel' [|cls u] p H1 H2;
    [by destruct fuel'|specialize (Hpos p cls u); lia|by destruct fuel'|].
  destruct fuel' as [|fuel']; [specialize (Hpos p cls u); lia|].
  cbn [class_loop]. unfold st_bind.
  destruct (class_round _ _ _ _ _ _ cls u p) as [p1 [u'|e]] eqn:E; [|done].
  apply class_round_uses in E as [E _]. apply IH; lia.
Qed.
End rounds.

(** Scans of nested classes that agree on the classes of a list give the same loop. *)
Lemma class_loop_ext nested1 nested2 module ns scope fuel : 
  (forall w cls, evolves registers_writing (nested1 w cls)) ->
  forall u, (forall w cls (p : parser), cls ∈ u -> nested1 w cls p = nested2 w cls p) ->
  forall p : parser, class_loop cfg sink_rank nested1 module ns scope fuel u p
    = class_loop cfg sink_rank nested2 module ns scope fuel u p.
Proof.
  intros Hn. induction fuel as [|fuel IH]; intros [|cls u] H p; [done..|]. cbn [class_loop].
  assert (class_round cfg sink_rank nested1 module ns scope cls u p
    = class_round cfg sink_rank nested2 module ns scope cls u p) as E.
  { unfold class_round. apply st_bind_ext. intros anns q. destruct (bool_decide _); [done|].
    destruct (String.eqb _ _); [done|]. apply st_bind_ext. intros v q1. destruct v as [ws| |]; [|done..].
    apply st_bind_ext. intros ready q2. destruct ready; [|done]. cbn [negb].
    apply st_bind_ext_l. unfold register_class. do 2 (apply st_bind_ext; intros ? ?). cbn zeta.
    destruct (existsb _ _); [done|]. do 6 (apply st_bind_ext; intros ? ?).
    apply st_bind_ext_l, H. by left. }
  unfold st_bind. rewrite E.
  destruct (class_round cfg sink_rank nested1 module ns scope cls u p) as [p1 [u'|e]] eqn:E1; rewrite <- E; [|done].
  apply IH. intros w cls' q Hin. apply H.
  by apply (class_round_uses nested1 module ns scope Hn _ _ _ _ _ E1).
Qed.
End termination.

Section scan_termination.
Context {gccxml : Gccxml} {W F R P M : Type} {ops : WrapOps W F R P M}.
Context (cfg : parser_config (W:=W) (F:=F) (M:=M)) {dict_order : DictOrder} (sink_rank : nat -> Z).
Local Abbreviation parser := (parser (W:=W) (M:=M)).

(** A class is looked at at most eleven times.  Whatever a round of the loop over the
    classes does, with the scan of nested classes included, any fuel of at least eleven
    rounds for each class gives the result of [class_loop_fuel]: the loop ends by itself,
    or by the error about a class that was postponed too often. *)
Theorem class_loop_terminates (nested_fuel fuel module : nat) (ns : decl) (scope : scan_scope (W:=W))
    (l : list decl) (p : parser) :
  let nested w cls := scan_namespace_types cfg sink_rank nested_fuel module ns (ClassScope w cls) in
  (11 * length l <= fuel)%nat ->
  class_loop cfg sink_rank nested module ns scope fuel l p
  = class_loop cfg sink_rank nested module ns scope (class_loop_fuel l) l p.
Proof.
  intros nested H. pose proof (rounds_bound p l). apply class_loop_enough.
  - intros w cls. apply scans_class_scope.
  - lia.
  - unfold class_loop_fuel. lia.
Qed.

Lemma add_nested_modules_run module l : forall (p p' : parser) r,
  add_nested_modules cfg module l p = (p', Ok r) -> map snd r = l.
Proof.
  induction l as [|d l IH]; intros p p' r; cbn [add_nested_modules].
  - by intros [= _ <-].
  - intros (p1&m&_&(p2&rest&E&[= _ <-])%st_bind_Ok)%st_bind_Ok. cbn. f_equal. by eapply IH.
Qed.

(** The depth of a scope *)
Definition scope_depth (depth : decl -> nat) (ns : decl) (scope : scan_scope (W:=W)) : nat :=
  match scope with NamespaceScope _ => depth ns | ClassScope _ cls => depth cls end.

Lemma elem_of_filter_l (f : decl -> bool) d l : d ∈ List.filter f l -> d ∈ l.
Proof. rewrite !list_elem_of_In. by intros [H _]%List.filter_In. Qed.

Lemma classes_deeper depth ns scope cls :
  (forall d cls, cls ∈ classes d -> (depth cls < depth d)%nat) ->
  cls ∈ classes_to_register cfg ns scope -> (depth cls < scope_depth depth ns scope)%nat.
Proof.
  intros Hd. unfold classes_to_register, scope_decls, public_names, located. rewrite elem_of_sort_decls.
  destruct scope as [f|w outer]; intros H; repeat apply elem_of_filter_l in H; by apply Hd.
Qed.

(** Scanning types ends.  When namespaces and classes are nested finitely deep, the
    recursion into them goes no deeper: any two amounts of fuel above the depth of the
    namespace give the same result in the same state. *)
Theorem scan_types_fuel (depth : decl -> nat) (fuel fuel' module : nat) (ns : decl) (p : parser) :
  (forall ns nested, nested ∈ namespaces ns -> (depth nested < depth ns)%nat) ->
  (forall d cls, cls ∈ classes d -> (depth cls < depth d)%nat) ->
  (depth ns < fuel)%nat -> (depth ns < fuel')%nat ->
  scan_types cfg sink_rank fuel module ns p = scan_types cfg sink_rank fuel' module ns p.
Proof.
  intros Hns Hcls Hf Hf'.
  assert (forall fuel fuel' module ns scope (p : parser),
    (scope_depth depth ns scope < fuel)%nat -> (scope_depth depth ns scope < fuel')%nat ->
    scan_namespace_types cfg sink_rank fuel module ns scope p
    = scan_namespace_types cfg sink_rank fuel' module ns scope p) as H.
  { clear - Hns Hcls. induction fuel as [|fuel IH]; intros [|fuel'] module ns scope p H1 H2; [lia..|].
    cbn [scan_namespace_types]. cbn zeta. do 3 (apply st_bind_ext; intros _ ?).
    apply st_bind_cong; [|intros _ q].
    - apply class_loop_ext; [intros; apply scans_class_scope|].
      intros w cls q Hin. apply (classes_deeper depth) in Hin; [|done]. apply IH; cbn; lia.
    - destruct scope as [f|w cls]; [|done]. cbn in H1, H2. do 2 (apply st_bind_ext; intros _ ?).
      apply st_bind_ext_res. intros nested q1 E%add_nested_modules_run. apply st_bind_ext. intros _ q2.
      apply st_iter_ext. intros [m d] q3 Hin. apply st_bind_ext. intros function q4.
      assert (d ∈ nested_namespaces ns) as Hd
        by (rewrite <- E; apply list_elem_of_fmap; by exists (m, d)).
      apply nested_namespaces_in, Hns in Hd. apply IH; cbn; lia. }
  unfold scan_types. apply st_bind_ext. intros _ q. apply st_bind_ext_l. by apply H.
Qed.

(** ** The script of the types *)

(** Every sink has received a well-bracketed sequence of operations. *)
Definition balanced (p p' : parser) : Prop :=
  exists os, ran os (ps_sinks p) (ps_sinks p') /\ forall k, bracketed (os k).

#[export] Instance balanced_preorder : PreOrder balanced.
Proof.
  split.
  - intros p. exists (fun _ => []). split; [apply ran_nothing|constructor].
  - intros p1 p2 p3 (os1&R1&B1) (os2&R2&B2). exists (fun k => os1 k ++ os2 k).
    split; [by eapply ran_app|]. intros k. by apply bracketed_app.
Qed.
Lemma wrote_balanced (p p' : parser) : wrote (ps_sinks p) (ps_sinks p') -> balanced p p'.
Proof.
  intros H. destruct (ran_wrote _ _ H) as [lines Hl]. eexists. split; [exact Hl|].
  intros k. apply bracketed_writes.
Qed.
Lemma scans_balanced {A} (m : ST parser A) p p' a :
  evolves registers_writing m -> m p = (p', Ok a) -> balanced p p'.
Proof. intros H E. apply wrote_balanced. specialize (H p). rewrite E in H. apply H. Qed.

Lemma iter_balanced {A} (body : A -> ST parser unit) l :
  (forall x p p', body x p = (p', Ok tt) -> balanced p p') ->
  forall p p', st_iter body l p = (p', Ok tt) -> balanced p p'.
Proof.
  intros H. induction l as [|x l IH]; intros p p'; cbn [st_iter]; [by intros [= <-]|].
  intros (p1&[]&E1&E2)%st_bind_Ok. transitivity p1; [by eapply H|by eapply IH].
Qed.

Lemma all_sinks_ran body sink_ops (p p' : parser) :
  ops_on body sink_ops -> NoDup (all_sinks cfg) -> on_all_sinks cfg body p = (p', Ok tt) ->
  ran (fun k => if bool_decide (k ∈ all_sinks cfg) then sink_ops k else []) (ps_sinks p) (ps_sinks p').
Proof.
  intros Hb Hnd E. apply (all_sinks_emit (@eq M) cfg _ _ _ _ Hb Hnd) in E as (_&_&_&os&Hr&Hos).
  split; [apply Hr|]. intros j s Hj. destruct Hr as [_ Hr]. rewrite <- Hos. by apply Hr.
Qed.

Lemma add_nested_balanced module l : NoDup (all_sinks cfg) -> forall (p p' : parser) r,
  add_nested_modules cfg module l p = (p', Ok r) -> balanced p p'.
Proof.
  intros Hnd. induction l as [|d l IH]; intros p p' r; cbn [add_nested_modules]; [by intros [= <- _]|].
  intros (p1&m&E1&(p2&rest&E2&[= <- _])%st_bind_Ok)%st_bind_Ok. transitivity p1; [|by eapply IH].
  unfold add_nested_module in E1. apply st_bind_Ok in E1 as (p3&m'&E3&E1).
  apply scans_balanced in E3; [|apply scans_on_module]. transitivity p3; [done|].
  apply st_bind_Ok in E1 as (p4&f&(q&path&[= <- _]&[= <- _])%st_bind_Ok&E1). apply st_bind_Ok in E1 as (p5&[]&E5&[= <- _]).
  apply (all_sinks_ran _ _ _ _ (ops_on_iter _ (fun _ line => [OpWrite line]) _ (fun line => ops_on_writeln line)) Hnd) in E5.
  eexists. split; [exact E5|]. intros k. cbn beta. case_bool_decide; [|constructor].
  generalize (nested_lines (decl_name d) f). intros ls. induction ls; by constructor.
Qed.

(** The function of a namespace is defined. *)
Definition types_needs (f : string) (k : nat) (op : sink_op) : Prop :=
  k ∈ all_sinks cfg /\ op = OpWrite ("def " +:+ f +:+ "(module):").

Lemma scan_namespace_includes fuel : NoDup (all_sinks cfg) -> forall module ns f (p p' : parser),
  scan_namespace_types cfg sink_rank fuel module ns (NamespaceScope f) p = (p', Ok tt) ->
  exists os, ran os (ps_sinks p) (ps_sinks p') /\ forall k, includes (types_needs f) k (os k).
Proof.
  intros Hnd. induction fuel as [|fuel IH]; intros module ns f p p'; [done|].
  cbn [scan_namespace_types]. cbn zeta. intros (p1&[]&E1&E)%st_bind_Ok.
  apply (all_sinks_ran _ _ _ _ (ops_on_bind _ _ _ _ (ops_on_writeln _) (ops_on_bind _ _ _ _ ops_on_indent
    (ops_on_bind _ _ _ _ (ops_on_writeln _) (ops_on_bind _ _ _ _ (ops_on_writeln _)
      (ops_on_when _ _ _ (ops_on_choice _ _ (other_sections (pc_target cfg)) (fun l => ops_on_iter _ _ l
        (fun sect => ops_on_section_call "register_types" "module" sect)))))))) Hnd) in E1.
  apply st_bind_Ok in E as (p2&[]&E2%scans_balanced&E); [|apply scans_request].
  apply st_bind_Ok in E as (p3&[]&E3%scans_balanced&E);
    [|apply evolves_iter; [apply _|intros; apply scans_enum]].
  apply st_bind_Ok in E as (p4&[]&E4%scans_balanced&E);
    [|apply scans_class_loop; intros; apply scans_class_scope].
  apply st_bind_Ok in E as (p5&[]&E5%scans_balanced&E); [|apply scans_containers].
  apply st_bind_Ok in E as (p6&[]&E6%scans_balanced&E);
    [|apply evolves_iter; [apply _|apply scans_typedef]].
  apply st_bind_Ok in E as (p7&nested&E7%add_nested_balanced&E); [|done].
  assert (balanced p1 p7) as (os&Ro&Bo)
    by (do 5 (etransitivity; [eassumption|]); eassumption).
  apply st_bind_Ok in E as (p8&[]&E8&E).
  apply (all_sinks_ran _ _ _ _ (ops_on_bind _ _ _ _ ops_on_unindent (ops_on_writeln _)) Hnd) in E8.
  assert (balanced p8 p') as (os'&Ro'&Bo').
  { revert E. apply iter_balanced. intros x q q' (q1&g&(q2&path&[= <- _]&[= <- _])%st_bind_Ok&E)%st_bind_Ok.
    destruct (IH _ _ _ _ _ E) as (os'&Ro'&Ho'). exists os'. split; [done|]. intros k. apply Ho'. }
  eexists. split; [exact (ran_app _ _ _ _ _ E1 (ran_app _ _ _ _ _ Ro (ran_app _ _ _ _ _ E8 Ro')))|].
  intros k. cbn beta. case_bool_decide as Hk.
  - split; [|intros op [_ ->]; by left].
    rewrite <- !app_assoc. apply br_write, indent_closes, app_closes; [apply br_write, br_nil|].
    apply app_closes; [apply br_write, br_nil|]. apply app_closes.
    + destruct (String.eqb _ _); [|constructor]. generalize (other_sections (pc_target cfg) k). intros l.
      induction l as [|sect l IHl]; [constructor|]. apply bracketed_app; [apply bracketed_writes|done].
    + apply app_closes; [apply Bo|]. exists [], (OpWrite EmptyString :: os' k). cbn. by repeat constructor.
  - split; [by cbn; apply bracketed_app|]. by intros op [].
Qed.

Lemma scan_types_includes fuel module ns (p p' : parser) :
  NoDup (all_sinks cfg) -> scan_types cfg sink_rank fuel module ns p = (p', Ok tt) ->
  exists os, ran os (ps_sinks p) (ps_sinks p') /\ forall k, includes (types_needs "register_types") k (os k).
Proof.
  intros Hnd (p1&[]&[= <-]&(p2&[]&E&[= <-])%st_bind_Ok)%st_bind_Ok.
  by apply scan_namespace_includes in E.
Qed.
End scan_termination.

(** ** A script *)

(** Class [B] derives from [C], which comes later in the alphabet. *)
Definition demo_types : list demo_entry :=
  [demo_namespace "::" [] [3%nat] [1%nat; 2%nat] [];
   demo_class "B" [] [2%nat];
   demo_class "C" [] [];
   demo_namespace "n" [] [] [] []].

Section demo_types.
#[local] Instance demo_types_declarations : Gccxml := demo_gccxml demo_types.

Definition demo_types_start : parser (W:=nat) (M:=demo_module) :=
  demo_parser demo_types [] [] [] false.
Definition demo_types_end : parser (W:=nat) (M:=demo_module) :=
  (scan_types (demo_cfg demo_types) (fun k => Z.of_nat k) 3 0 0%nat demo_types_start).1.

Example demo_types_text :
  dm_log (ps_module demo_types_end) = ["class C"; "class B"]
  /\ ps_registered_classes demo_types_end = [(1%nat, 1%nat); (2%nat, 0%nat)]
  /\ (sink_text <$> ps_sinks demo_types_end !! 0%nat) = Some (lines_text
       ["def register_types(module):";
        "    root_module = module.get_root()";
        "    ";
        "    module.add_class('C', destructor_visibility=None)";
        "    module.add_class('B', destructor_visibility=None, parent=root_module['C'])";
        "    ";
        "    ## Register a nested module for the namespace n";
        "    ";
        "    nested_module = module.add_cpp_namespace('n')";
        "    register_types_n(nested_module)";
        "    ";
        "";
        "def register_types_n(module):";
        "    root_module = module.get_root()";
        "    ";
        ""]).
Proof. split; [|split]; vm_compute; reflexivity. Qed.

Lemma class_loop_terminates_witness :
  class_loop (demo_cfg demo_types) (fun k => Z.of_nat k)
    (fun w cls => scan_namespace_types (demo_cfg demo_types) (fun k => Z.of_nat k) 2 0 0%nat (ClassScope w cls))
    0 0%nat (NamespaceScope "register_types") 100 [1%nat; 2%nat] demo_types_start
  = class_loop (demo_cfg demo_types) (fun k => Z.of_nat k)
    (fun w cls => scan_namespace_types (demo_cfg demo_types) (fun k => Z.of_nat k) 2 0 0%nat (ClassScope w cls))
    0 0%nat (NamespaceScope "register_types") (class_loop_fuel [1%nat; 2%nat]) [1%nat; 2%nat] demo_types_start.
Proof. apply class_loop_terminates. cbn. lia. Defined.

Lemma scan_types_fuel_witness :
  scan_types (demo_cfg demo_types) (fun k => Z.of_nat k) 2 0 0%nat demo_types_start
  = scan_types (demo_cfg demo_types) (fun k => Z.of_nat k) 9 0 0%nat demo_types_start.
Proof.
  apply (scan_types_fuel (demo_cfg demo_types) (fun k => Z.of_nat k)
    (fun d : nat => if Nat.eqb d 0 then 1 else 0)%nat); [| |cbn; lia..].
  - intros ns nested H. destruct ns as [|[|[|[|ns]]]]; cbn in H; try by apply not_elem_of_nil in H.
    apply list_elem_of_singleton in H as ->. cbn. lia.
  - intros d cls H. destruct d as [|[|[|[|d]]]]; cbn in H; try by apply not_elem_of_nil in H.
    apply elem_of_cons in H as [->|H]; [cbn; lia|]. apply list_elem_of_singleton in H as ->. cbn. lia.
Defined.
End demo_types.
