(* ===== verification/GccXmlParser.v ===== *)
(** * The header parser: a whole run

    [parse] of [ModuleParser] in [pybindgen/gccxmlparser.py]: [parse_init], the scans of
    types, methods and functions, and [parse_finalize]. *)
From S2P Require Import Prelude.
From S2P Require Import Format.
From S2P Require Import CodeSink.
From S2P Require Import CTypeParser.
From S2P Require Import Annotations.
From S2P Require Import Pygen.
From S2P Require Import GccXml.
From S2P Require Import PygenTrace.
From S2P Require Import GccXmlFrame.
From S2P Require Import GccXmlDemo.
From S2P Require Import GccXmlFunctions.
From S2P Require Import GccXmlMethods.
From S2P Require Import GccXmlTypes.

(** The error handler every script starts with *)
Definition script_error_handler : string :=
  nls +:+ "import pybindgen.settings" +:+ nls +:+ "import warnings" +:+ nls +:+ nls
  +:+ "class ErrorHandler(pybindgen.settings.ErrorHandler):" +:+ nls
  +:+ "    def handle_error(self, wrapper, exception, traceback_):" +:+ nls
  +:+ "        warnings.warn(" +:+ dq +:+ "exception %r in wrapper %s" +:+ dq +:+ " % (exception, wrapper))" +:+ nls
  +:+ "        return True" +:+ nls
  +:+ "pybindgen.settings.error_handler = ErrorHandler()" +:+ nls +:+ nls.

Section parse.
Context {gccxml : Gccxml} {W F R P M : Type} {ops : WrapOps W F R P M}.
Context (cfg : parser_config (W:=W) (F:=F) (M:=M)) {dict_order : DictOrder} (sink_rank : nat -> Z).
Local Abbreviation parser := (parser (W:=W) (M:=M)).

(** The main sink imports the other sections and defines [module_init]. *)
Definition import_sections (k : nat) : ST (list code_sink) unit :=
  st_iter (fun sect => sink_writeln ("import " +:+ sect_name sect) k)
    (match pc_target cfg with
     | PygenSections l => List.filter (fun sect => negb (String.eqb (sect_name sect) "__main__")) l
     | NoPygen | PygenSink _ => []
     end).
Definition write_module_init (cpp_namespace : string) (includes : list string) (k : nat)
    : ST (list code_sink) unit :=
  sink_writeln script_error_handler k ;;;
  sink_writeln "import sys" k ;;;
  import_sections k ;;;
  sink_writeln EmptyString k ;;;
  sink_writeln "def module_init():" k ;;;
  sink_indent k ;;;
  sink_writeln ("root_module = Module(" +:+ py_repr (pc_module_name cfg) +:+ ", cpp_namespace="
    +:+ py_repr cpp_namespace +:+ ")") k ;;;
  st_iter (fun inc => sink_writeln ("root_module.add_include(" +:+ py_repr inc +:+ ")") k) includes ;;;
  sink_writeln "return root_module" k ;;;
  sink_unindent k ;;;
  sink_writeln EmptyString k.

(** [parse_init], after the headers were parsed; [ns] is the namespace of the module.  The
    result is the root module. *)
Definition parse_init (ns : decl) (includes : list string) : ST parser nat :=
  st_lift (check_target (pc_target cfg) (pc_classifier cfg)) ;;;
  module <- on_module (new_module (pc_module_name cfg) (decl_string ns)) ;;
  on_module (st_iter (module_add_include module) includes) ;;;
  on_all_sinks cfg (fun k =>
    sink_writeln "from pybindgen import Module, FileCodeSink, param, retval, cppclass, typehandlers" k ;;;
    sink_writeln EmptyString k) ;;;
  with_sink (main_sink cfg) (fun k => on_sinks (write_module_init (decl_string ns) includes k)) ;;;
  st_modify (fun p => set_classes (ps_registered_classes p) [] p) ;;;
  st_ret module.

(** [parse_finalize] *)
Definition write_main (k : nat) : ST (list code_sink) unit :=
  sink_writeln "def main():" k ;;;
  sink_indent k ;;;
  sink_writeln "out = FileCodeSink(sys.stdout)" k ;;;
  sink_writeln "root_module = module_init()" k ;;;
  sink_writeln "register_types(root_module)" k ;;;
  sink_writeln "register_methods(root_module)" k ;;;
  sink_writeln "register_functions(root_module)" k ;;;
  sink_writeln "root_module.generate(out)" k ;;;
  sink_unindent k ;;;
  sink_writeln EmptyString k ;;;
  sink_writeln ("if __name__ == '__main__':" +:+ nls +:+ "    main()") k ;;;
  sink_writeln EmptyString k.
Definition parse_finalize : ST parser unit :=
  on_scanner warn_unused_annotations ;;;
  with_sink (main_sink cfg) (fun k => on_sinks (write_main k)).

(** [parse] *)
Definition parse (fuel : nat) (ns : decl) (includes : list string) : ST parser nat :=
  module <- parse_init ns includes ;;
  scan_types cfg sink_rank fuel module ns ;;;
  scan_methods cfg ns ;;;
  scan_functions cfg fuel module ns ;;;
  parse_finalize ;;;
  st_ret module.
End parse.

(** ** What a run writes *)

Lemma bracketed_flat_writes {A} (f : A -> string) l : bracketed (flat_map (fun x => [OpWrite (f x)]) l).
Proof. induction l; by constructor. Qed.

Section parse_script.
Context {gccxml : Gccxml} {W F R P M : Type} {ops : WrapOps W F R P M}.
Context {stable_names : StableNames} {stable_tree : StableTree}.
Context (cfg : parser_config (W:=W) (F:=F) (M:=M)) {dict_order : DictOrder} (sink_rank : nat -> Z).
Local Abbreviation parser := (parser (W:=W) (M:=M)).

(** From [p] to [p'] every sink is written what it needs. *)
Definition writes (needs : nat -> sink_op -> Prop) (p p' : parser) : Prop :=
  exists os, ran os (ps_sinks p) (ps_sinks p') /\ forall k, includes needs k (os k).

Lemma writes_app needs1 needs2 p1 p2 p3 :
  writes needs1 p1 p2 -> writes needs2 p2 p3 -> writes (fun k op => needs1 k op \/ needs2 k op) p1 p3.
Proof.
  intros (os1&R1&I1) (os2&R2&I2). exists (fun k => os1 k ++ os2 k). split; [by eapply ran_app|].
  intros k. by apply (includes_app (needs1) (needs2)).
Qed.
Lemma main_sink_writes body sink_ops needs (p p' : parser) :
  ops_on body sink_ops -> (forall k, includes needs k (sink_ops k)) ->
  with_sink (main_sink cfg) (fun k => on_sinks (body k)) p = (p', Ok tt) ->
  writes (fun k op => main_sink cfg = Some k /\ needs k op) p p'.
Proof.
  intros Hb Hi E. apply (with_sink_emits _ _ _ _ _ Hb) in E as (_&_&_&os&Ho&Hos).
  exists os. split; [done|]. intros k. rewrite Hos. destruct (Hi k) as [Hbr Hn].
  case_bool_decide as Hk; (split; [by try constructor|]); intros op [Hm Hop]; [by apply Hn|done].
Qed.

Lemma module_init_ops ns includes : ops_on (write_module_init cfg ns includes) (fun _ =>
  OpWrite script_error_handler :: OpWrite "import sys"
  :: flat_map (fun sect => [OpWrite ("import " +:+ sect_name sect)])
       (match pc_target cfg with
        | PygenSections l => List.filter (fun sect => negb (String.eqb (sect_name sect) "__main__")) l
        | NoPygen | PygenSink _ => []
        end)
  ++ OpWrite EmptyString :: OpWrite "def module_init():" :: OpIndent 4
  :: OpWrite ("root_module = Module(" +:+ py_repr (pc_module_name cfg) +:+ ", cpp_namespace="
       +:+ py_repr ns +:+ ")")
  :: flat_map (fun inc => [OpWrite ("root_module.add_include(" +:+ py_repr inc +:+ ")")]) includes
  ++ [OpWrite "return root_module"; OpUnindent; OpWrite EmptyString]).
Proof.
  refine (ops_on_bind _ _ _ _ (ops_on_writeln _) (ops_on_bind _ _ _ _ (ops_on_writeln _)
    (ops_on_bind _ _ _ _ (ops_on_iter _ _ _ (fun sect => ops_on_writeln _)) (ops_on_bind _ _ _ _ (ops_on_writeln _)
    (ops_on_bind _ _ _ _ (ops_on_writeln _) (ops_on_bind _ _ _ _ ops_on_indent (ops_on_bind _ _ _ _ (ops_on_writeln _)
    (ops_on_bind _ _ _ _ (ops_on_iter _ _ _ (fun inc => ops_on_writeln _))
    (ops_on_bind _ _ _ _ (ops_on_writeln _) (ops_on_bind _ _ _ _ ops_on_unindent (ops_on_writeln _))))))))))).
Qed.

Lemma parse_init_writes ns includes (p p' : parser) module : NoDup (all_sinks cfg) ->
  parse_init cfg ns includes p = (p', Ok module) ->
  writes (fun k op => main_sink cfg = Some k /\ op = OpWrite "def module_init():") p p'.
Proof.
  intros Hnd E. apply st_bind_Ok in E as (p1&[]&E1&E). injection E1 as <- _.
  apply st_bind_Ok in E as (p2&i&E2&E). apply st_bind_Ok in E as (p3&[]&E3&E).
  assert (ps_sinks p3 = ps_sinks p) as Hp3.
  { unfold on_module in E2, E3. destruct (new_module _ _ _). injection E2 as <- _.
    destruct (st_iter _ _ _). by injection E3 as <- _. }
  apply st_bind_Ok in E as (p4&[]&E4&E).
  apply (all_sinks_ran cfg _ _ _ _ (ops_on_bind _ _ _ _ (ops_on_writeln _) (ops_on_writeln _)) Hnd) in E4.
  apply st_bind_Ok in E as (p5&[]&E5&E). apply st_bind_Ok in E as (p6&[]&[= <-]&[= <- _]).
  apply (main_sink_writes _ _ (fun _ op => op = OpWrite "def module_init():") _ _ (module_init_ops _ _)) in E5.
  - assert (writes (fun _ _ => False) p p4) as W4.
    { rewrite Hp3 in E4. eexists. split; [exact E4|]. intros k. split; [|done].
      cbn beta. case_bool_decide; by repeat constructor. }
    destruct (writes_app _ _ _ _ _ W4 E5) as (os&Ho&Hi). exists os. split; [done|]. intros k.
    destruct (Hi k) as [B N]. split; [done|]. intros op Hop. apply N. by right.
  - intros k. split.
    + do 2 apply br_write. apply bracketed_app; [apply bracketed_flat_writes|].
      do 2 apply br_write. apply indent_closes. eexists (_ :: _ ++ [_]), [_].
      split; [cbn; by rewrite <- app_assoc|]. split; [|apply br_write, br_nil]. apply br_write, bracketed_app;
        [apply bracketed_flat_writes|apply br_write, br_nil].
    + intros op ->. do 2 right. apply elem_of_app. right. right. by left.
Qed.

(** What the main function does *)
Definition main_calls : list string :=
  ["root_module = module_init()"; "register_types(root_module)"; "register_methods(root_module)";
   "register_functions(root_module)"; "root_module.generate(out)"].
Lemma write_main_ops : ops_on write_main (fun _ =>
  OpWrite "def main():" :: OpIndent 4 :: OpWrite "out = FileCodeSink(sys.stdout)" :: map OpWrite main_calls
  ++ OpUnindent :: map OpWrite [EmptyString; "if __name__ == '__main__':" +:+ nls +:+ "    main()"; EmptyString]).
Proof.
  refine (ops_on_bind _ _ _ _ (ops_on_writeln _) (ops_on_bind _ _ _ _ ops_on_indent
    (ops_on_bind _ _ _ _ (ops_on_writeln _) (ops_on_bind _ _ _ _ (ops_on_writeln _)
    (ops_on_bind _ _ _ _ (ops_on_writeln _) (ops_on_bind _ _ _ _ (ops_on_writeln _)
    (ops_on_bind _ _ _ _ (ops_on_writeln _) (ops_on_bind _ _ _ _ (ops_on_writeln _)
    (ops_on_bind _ _ _ _ ops_on_unindent (ops_on_bind _ _ _ _ (ops_on_writeln _)
    (ops_on_bind _ _ _ _ (ops_on_writeln _) (ops_on_writeln _)))))))))))).
Qed.
Definition main_needs (op : sink_op) : Prop := op ∈ map OpWrite ("def main():" :: main_calls).
Lemma parse_finalize_writes (p p' : parser) : parse_finalize cfg p = (p', Ok tt) ->
  writes (fun k op => main_sink cfg = Some k /\ main_needs op) p p'.
Proof.
  intros (p1&[]&E1&E)%st_bind_Ok.
  assert (ps_sinks p1 = ps_sinks p) as Hp
    by (unfold on_scanner in E1; destruct (warn_unused_annotations _); by injection E1 as <-).
  apply (main_sink_writes _ _ (fun _ => main_needs) _ _ write_main_ops) in E.
  - unfold writes in *. by rewrite Hp in E.
  - intros k. split.
    + apply br_write, indent_closes. eexists (OpWrite _ :: map OpWrite main_calls), (map OpWrite _).
      split; [reflexivity|]. split; [apply br_write|]; apply bracketed_writes.
    + intros op [->|H]%elem_of_cons; [by left|]. do 3 right. apply elem_of_app. by left.
Qed.

(** A run writes a complete script.  When [parse] returns, every sink of the script
    has received a well-bracketed sequence of writes, indentations and unindentations,
    so that its indentation is back where it was, and defines the three functions that
    register types, methods and functions; the main sink also defines [module_init] and
    the main function, which calls all of them. *)
Theorem parse_script (fuel module : nat) (ns : decl) (includes_ : list string) (p p' : parser)
    (k : nat) (s : code_sink) :
  hooks_keep same_names cfg -> hooks_keep same_tree cfg -> NoDup (all_sinks cfg) ->
  parse cfg sink_rank fuel ns includes_ p = (p', Ok module) ->
  k ∈ all_sinks cfg -> ps_sinks p !! k = Some s ->
  exists s' os,
    ps_sinks p' !! k = Some s' /\ run_ops s os = Ok s' /\ bracketed os /\ same_indent s' s
    /\ OpWrite "def register_types(module):" ∈ os
    /\ OpWrite "def register_methods(root_module):" ∈ os
    /\ OpWrite "def register_functions(root_module):" ∈ os
    /\ (main_sink cfg = Some k ->
        OpWrite "def module_init():" ∈ os /\ forall op, main_needs op -> op ∈ os).
Proof.
  intros Hnames Htree Hnd E Hk Hs. apply st_bind_Ok in E as (p1&m&E1%(parse_init_writes _ _ _ _ _ Hnd)&E).
  apply st_bind_Ok in E as (p2&[]&E2%(scan_types_includes _ _ _ _ _ _ _ Hnd)&E).
  apply st_bind_Ok in E as (p3&[]&E3%(scan_methods_includes _ _ _ _ Hnames Hnd)&E).
  apply st_bind_Ok in E as (p4&[]&E4%(scan_functions_includes _ _ _ _ _ _ Htree Hnd)&E).
  apply st_bind_Ok in E as (p5&[]&E5%parse_finalize_writes&[= <- _]).
  destruct (writes_app _ _ _ _ _ E1 (writes_app _ _ _ _ _ E2 (writes_app _ _ _ _ _ E3
    (writes_app _ _ _ _ _ E4 E5)))) as (os&Ho&Hi).
  destruct (Hi k) as [Hb Hn]. destruct (ran_bracketed _ _ _ _ _ Ho Hb Hs) as (s'&Hs'&Hr&Hsame).
  exists s', (os k). do 4 (split; [done|]).
  split; [apply Hn; by right; left|]. split; [apply Hn; right; right; left; by left|].
  split; [apply Hn; right; right; right; left; by split; [|left]|].
  intros Hm. split; [apply Hn; by left|]. intros op Hop. apply Hn. by do 4 right.
Qed.
End parse_script.

(** ** A run *)

Section demo_parse.
#[local] Instance demo_parse_declarations : Gccxml := demo_gccxml demo_table.

Definition parse_start : parser (W:=nat) (M:=demo_module) :=
  demo_parser demo_table [] [] ["int"; "char"] false.
Definition parse_end : parser (W:=nat) (M:=demo_module) :=
  (parse (demo_cfg demo_table) (fun k => Z.of_nat k) 3 0%nat ["<foo.h>"] parse_start).1.

Lemma parse_script_witness :
  exists s' os,
    ps_sinks parse_end !! 0%nat = Some s' /\ run_ops MemoryCodeSink os = Ok s' /\ bracketed os
    /\ same_indent s' MemoryCodeSink
    /\ OpWrite "def register_types(module):" ∈ os
    /\ OpWrite "def register_methods(root_module):" ∈ os
    /\ OpWrite "def register_functions(root_module):" ∈ os
    /\ (main_sink (demo_cfg demo_table) = Some 0%nat ->
        OpWrite "def module_init():" ∈ os /\ forall op, main_needs op -> op ∈ os).
Proof.
  apply (parse_script (demo_cfg demo_table) (fun k => Z.of_nat k) 3 0 0%nat ["<foo.h>"] parse_start parse_end).
  - split; constructor.
  - split; constructor.
  - apply NoDup_singleton.
  - unfold parse_end. apply with_result. vm_compute. reflexivity.
  - by left.
  - reflexivity.
Defined.
End demo_parse.
